(* ===== verification/_CoqProject ===== *)
-Q . S2P
Prelude.v
MachineInt.v
Primitives.v
Device.v
Str.v
Path.v
Vfs.v
RootFs.v
Keyboard.v
CharDevice.v
Terminal.v
KernPointer.v
VgaTables.v
Vga.v
VgaCard.v
VgaTheorems.v
PackedStruct.v
Uart.v
Ps2.v
Multiboot.v
Efi.v
RiscvInst.v
RiscvIsa.v
EmulatorMemory.v
VirtMem.v
Cpu.v
Decode.v
Ata.v
AtaDrive.v
AtaTheorems.v
Partition.v
Disks.v
Ext2.v
Ext2Inode.v
Ext2Dir.v
Ext2Sim.v
Ext2Flat.v
Ext2Tree.v
Ext2Bytes.v
Ext2Alloc.v
Ext2Table.v
Ext2Unlink.v
Ext2Theorems.v
Ext2Demo.v
Compressed.v
CpuAlu.v
CpuRefine.v
CpuTheorems.v
Allocator.v
Scheduler.v
SchedInvariant.v
SchedTheorems.v
Elf.v
Loader.v
LoaderTheorems.v
FdTable.v
FdTheorems.v
Heap.v
CMem.v
CStr.v
Specifier.v
Printf.v
PrintfTheorems.v
Kernel.v
FileCalls.v
Scanf.v
ScanfSpec.v
ScanfTheorems.v
Exec.v
Syscall.v
FileTheorems.v
LibcKernel.v
SyscallTheorems.v
Stubs.v
Shell.v
ShellTheorems.v
Boot.v
SyscallQuiet.v
KernelInvariant.v
KernelTheorems.v
