(* ===== verification/Prelude.v ===== *)
(** * A verification of the ron kernel and its C library

    ron is a small x86_64 kernel that runs user programs for a virtual RV64IMC
    machine.  main starts the machine: it sets up the serial port, reads the boot
    loader's information, takes the firmware's or the VGA card's screen for a terminal,
    looks for drives and their partitions, and ends in a shell that mounts ext2 file
    systems and runs programs.  A program is an ELF file; the loader puts its segments,
    a stack, its arguments and its environment into a virtual memory made of regions;
    an emulator executes it one instruction per scheduler turn; ECALL enters the
    kernel's system calls, which work on the process's descriptors, on global pipes,
    on files found by path in a tree of mounted file systems, on the terminal with
    its keyboard and screen, and on the process's heap; the scheduler keeps the table
    of processes, their signals and who waits for whom.  Programs are linked with a
    small C library that reaches the kernel through the same calls.  This library of
    Rocq files translates that machinery into executable definitions and proves what
    makes it correct.

    ** Files and the code they model

    Shared: this file ([outcome], a computation that returns or panics, with its
    notations and inversion tactic); [MachineInt] (fixed-width words, checked and
    wrapping arithmetic, bit fields, byte sequences and writing into them); [Primitives]
    (primitives.rs: the lazily set globals, and the lock as threads that step through it
    in any order); [Str] (strings as lists of characters: split, trim, UTF-8,
    decimal text); [PackedStruct] (the interface of the packed_struct crate, a class of
    operations with a class of laws and a reference instance); [KernPointer]
    (KernPointer of virtmem.rs: pointers to I/O ports or memory, over the class IoSpace
    of a machine's port instructions).

    Start, kernel/src/main.rs, multiboot.rs, efi.rs: [Multiboot] (the header, the boot
    information and the loop over its tags), [Efi] (asking the firmware for its screen;
    the firmware is a class), [Disks] (the registers of the two ATA buses as ports, and
    the probing of drives and partitions), [Boot] (main from its entry to the prompt,
    the setup of the keyboard's controller included, and the panic handler, with the
    results).

    Shell, the main loop of main.rs: [Shell] (keys, lines, every built-in command,
    starting programs, running the processes, the farewell) with [ShellTheorems].

    Files, kernel/src/vfs.rs and devfs.rs: [Path] (Path: canonicalize, append_str,
    del_last, last), [Vfs] (the traits IFile and IFolder as the class FileSystem,
    get_node, the device folder), [RootFs] (RootFSNode: folders, mountpoints, the
    overlay of a mounted folder; an instance of FileSystem over another one; and a file
    system in memory for the examples).

    Disks: [Device] (files that stand for devices, a class with its laws, and the monad of
    operations on a device that may fail); [Ata] (ata.rs:
    commands of an ATA bus, a drive as a file of bytes) with [AtaDrive] (what the ATA
    standard promises of the drives' registers, as a machine and a class that ties
    registers to it; transfers of one sector) and [AtaTheorems] (reading and writing at
    any offset; a simulated drive); [Partition] (partitions.rs: entries of the master
    boot record, a partition as a file and again a device).

    ext2, kernel/src/ext2.rs, over any device: [Ext2] (records on disk, geometry, blocks,
    bitmaps, inodes, mounting), [Ext2Inode] (the tree of block pointers, growing and
    shrinking it, reading and writing bytes, resizing), [Ext2Dir] (directories, files and
    folders as the traits see them).  [Ext2Sim] and [Ext2Flat] relate runs on two devices
    with the same bytes; [Ext2Tree], [Ext2Bytes], [Ext2Alloc], [Ext2Table]
    and [Ext2Unlink] hold the proofs, [Ext2Theorems] the results,
    [Ext2Demo] a small disk on which they are applied.

    Devices: [Keyboard] (hio.rs, and the packets and modifiers of ps2_8042.rs on a stream
    of bytes), [Ps2] (ps2_8042.rs on the ports of the controller), [CharDevice]
    (char_device.rs and framebuffer.rs: glyphs on a frame buffer), [Terminal]
    (terminal.rs: cursor, scrolling, line editing, reading), [VgaTables] and [Vga]
    (vga.rs: registers, modes, fonts, palette, the VGA frame buffer) with [VgaCard] (the
    card, behind a class) and [VgaTheorems], [Uart] (uart_16550.rs, with the chip behind
    a class).

    Emulator, kernel/src/emulator.rs: [RiscvInst] (module riscv_instruction: the
    packed instruction formats, parse_imm, from, sign_extend), [Cpu] (Riscv64Cpu:
    registers, the expansion of compressed instructions, execute_*_inst, tick),
    [EmulatorMemory] (the trait EmulatorMemory as a class with its laws).
    [RiscvIsa] is the specification: the RV64IMC instructions of the RISC-V manual,
    their encodings and their meaning.  [Decode], [Compressed], [CpuAlu]
    and [CpuRefine] hold the proofs, [CpuTheorems] the invariant and the results.

    Memory, kernel/src/virtmem.rs: [VirtMem] (VirtRegion, LittleEndianVirtualMemory,
    UserPointer); it is an instance of [EmulatorMemory].

    Allocator, kernel/src/allocator.rs: [Allocator] (BasicAlloc, used for the
    kernel's heap and for the address space of each process).

    Processes, kernel/src/scheduler.rs and the states and signals of process.rs:
    [Scheduler] (new_task, kill_task, tick and the steps it makes),
    [SchedInvariant], [SchedTheorems].

    Loading, kernel/src/elf.rs and process.rs: [Elf] (headers, ElfFile::from_bytes),
    [Loader] (load_elf_into_virtual_memory, load_args_into_virtual_memory,
    load_env_into_virtual_memory, which change memory and allocator in place and keep
    what they changed when they fail, and from_elf), [LoaderTheorems].

    System calls, kernel/src/syscall.rs: [FdTable] (close, dup, dup2, pipe, the pipe
    ends of read and write, the pipes at fork and at the end of a process) with
    [FdTheorems]; [Heap] (malloc, free, realloc); [Kernel] (the state a call works
    on, strings behind user pointers); [FileCalls] (open, read, write, lseek, getcwd,
    fchdir, getenv) with [FileTheorems]; [Exec] (execve, execvpe and their argument
    parsing, interpreters, and the replacement of the program with what a failure leaves); [Syscall] (exit, fork, waitpid, the dispatch
    syscall_entry_point and the tick of a process, that is the emulator with the
    dispatch as its ECALL handler) with [SyscallTheorems], [SyscallQuiet] (what a
    call leaves alone), [KernelInvariant] and [KernelTheorems] (the scheduler run on
    these processes; the class ProcTickOk discharged).

    C library, rlibc/src: [CMem] (mem.rs), [CStr] (cstr.rs), [Specifier]
    (specifier_parsing.rs), [Printf] (the output functions of lib.rs, over the
    interface LibcSystem of sys.rs's write) with [PrintfTheorems], [Scanf] (the input
    functions) with [ScanfSpec] (what they mean on the characters to come) and
    [ScanfTheorems]; [LibcKernel] makes the kernel's write and read an instance of the
    interfaces; [Stubs] (sys.rs: the stubs that load the registers and make the call).

    ** How the code is rendered

    The kernel is built in the dev profile with panics that abort, so arithmetic
    overflow, an index out of range, an unwrap of None, a division by zero and a
    failed assertion are the value [Panic] and functions return [outcome]; Option
    results are options inside it, and [let?] is the ? operator.  The C library is
    built with --release (make_userland_toolchain.sh), so its arithmetic wraps; its
    c_char is i8, as the casts in lib.rs require.  Mutated state is passed and
    returned, in a monad where many calls thread it (a device under ext2, the shell's
    commands, which also say whether the prompt follows, and the input functions, which
    may wait for more input).  The globals behind mutexes are one record; [Primitives]
    shows that a lock's holder is alone with what it protects.  An Rc of a trait object is
    a handle into the state of the file system it belongs to, so that two
    descriptors of one file see each other's writes.  Words are integers with their
    width in the operation ([add_chk 64], [wrap 32]); indices into vectors and
    reference counts are naturals.  usize has 64 bits, as on the kernel's target; the
    allocator is proved for any width.  Reading through a raw pointer past the end of
    a region, which Rust leaves undefined, counts as a panic, and so does waiting for
    a key when the keyboard has nothing more to deliver, or for a drive, the serial port
    or the keyboard's controller beyond the number of polls it is promised to answer in.
    Hardware and firmware are classes: operations, and laws that state what their
    documentation promises (the ATA standard, the 16550, the 8042, the VGA registers, the
    UEFI status codes), each with a machine that keeps the laws.  The display is a machine
    of its own, because nothing else uses its ports.  The system calls' messages to the
    serial port are left out, those of the shell and of the start are not; exhaustion of
    the kernel's own heap and alignment of user pointers are not modelled.

    Most loops run over a list or a range and are structural.  Bounds on the others:
    exec follows interpreters for at most 101 rounds, the limit in the code itself;
    strlen looks at one more byte than the memory has; a number has at most 64
    digits; the keyboard loops consume the bytes the controller delivers; vfscanf and
    fgets make fewer rounds than there are characters to come; the search for a free
    block visits every group once; a directory has no more entries than bytes; the loop
    over the boot information makes fewer rounds than it has words; the shell handles as
    many packets, and lets the processes run as many turns, as it is told.  None of these
    bounds is reached before the code's own loop has ended, the last excepted, which stands
    for loops that need not end.

    ** What is proved

    Start: with well-formed boot information, a usable screen, a serial port and a keyboard
    controller that answer, and on each drive bus idle drives or none, main reaches its
    prompt without a panic, and everything the shell relies on is in place
    ([kernel_starts]); the boot information's tags are found in any
    order; the device folder lists exactly the drives and partitions there are; the
    firmware's screen is taken or refused as stated; the panic handler does not panic.
    Shell: a typed line runs, commands keep the tree of the root file system, when
    mkrootfsdir is given names.  Lock: at most one thread holds it, in every
    interleaving; alone, lock returns or gives up after a million tries.

    Emulator: for every defined instruction word other than ECALL, in both sizes, a
    tick makes the step the manual prescribes, save for the divisions by zero, the jumps
    to themselves and the jumps to the lowest addresses, whose results are stated
    ([tick_refines_isa]); compressed words expand to what the manual says; ECALL runs
    the handler and obeys its action; register, program counter and memory
    invariants survive every tick, whatever the word.

    Memory: regions stay disjoint, reads see the last write, accesses succeed exactly
    inside one region.  Allocator: every address of the heap belongs to exactly one
    live, stashed or lost block; allocation never hands out a held byte; freeing
    never panics, and the last free reclaims everything.  Heap calls: malloc and free
    keep the regions of the heap in step with the allocator's blocks.

    Scheduler: a tick keeps the task list, the signal queues and the pids consistent
    and can panic only for named reasons, none of them an index or an empty slot; a
    zombie is reported to its parent once.  With the real process tick in place of
    the interface, a turn of the kernel keeps all tables and reference counts right
    ([kernel_tick_safe]).

    Loading: from_bytes accepts exactly the encodings of its headers; from_elf
    succeeds on every runnable file that fits and establishes the initial state a
    program expects; exec establishes the same state, or ends the process with what was
    loaded until then, and follows up to 100 interpreters.  Descriptors: reference counts of nodes and pipes always equal the
    number of descriptors, across close, dup, dup2, pipe, fork and the end of a
    process; pipes are queues.  Files: write hands its data to the file system at the cursor, and
    what that delivers again is read back; fork returns
    twice; waitpid delivers the status.

    Paths: canonicalize computes the normal form of a left-to-right reading, lookups
    enter one folder per name, the root's tree stays well formed and a mounted
    folder lies in front of it.  Disks: reading and writing in the first 512 MiB of a
    drive have exactly the effect stated, the cases the driver gets wrong there included
    (from there on it addresses other sectors, [ata_high_sector_misread]), and a
    partition never reaches outside its range.  ext2: on a partition of a drive every
    sequence of calls does what it does on the partition's bytes, within those 512 MiB
    ([ext2_on_partition_of_drive]); block pointers are found by position; reads and
    writes have the effect stated; allocation takes the first free block and keeps the
    counters; inodes are read back; removing a name removes its entry alone and
    releases an inode with its last link.  The results on the allocation tables are for
    blocks of 1 and 2 KiB: for larger ones the code looks for the group descriptors at
    byte 0.

    Devices: output stays on the screen, and a typed line reaches the reader; the
    keyboard's driver on the ports delivers the packets of the plain stream; the VGA card
    ends in the graphics mode with the nearest colour in each pixel; the serial port sends
    every byte.

    C library: memmove, memcmp, memset, strstr, strtok and strcat have the effect and
    the answer stated for them on any memory of regions; printf's specifications are
    parsed back from their text; vfprintf prints what the C standard says its format
    means, save for deviations that are stated, over any
    system whose write appends, the kernel's pipes among them; vfscanf stores, returns and
    leaves what a description of scanning says, and reads back what vfprintf printed; the stubs
    reach the kernel's handlers with their arguments.

    Theorems of kind error, and those named *_panics, live_parent_overlooked,
    stale_task_count, pending_pids_swapped, extended_scancodes_misread,
    realloc_keeps_old_length, free_of_empty_request, argv_end_unmapped,
    ata_high_sector_misread, text_mode_font_misplaced, padding_joins_address and
    vfscanf_hangs_after_number, describe behaviour of the code that its authors cannot
    have meant.

    ** What is not modelled

    The files of ext2 are operations on a device and a copy of the inode ([Ext2Dir]), as
    they are in the code; they are not made an instance of the class FileSystem, over
    which the system calls and the shell are modelled.  Theorems on these calls therefore
    say what they ask of the file system and what they make of its answers.
    Debug output of the records and the unused kprint_dump; the texts of f32 numbers in
    ls and free (a class); the assembly instructions behind the ports and the ECALL, and
    the variants for other architectures, which only stop; the C library's entry _start
    and its panic handler, which call main, write and exit; members of the firmware's
    tables that nothing reads.  The heap's use by the kernel's own data structures, and
    therefore its exhaustion, is not tracked.  The build scripts, the
    ported programs and the toolchain are not part of the kernel or its library. *)
From Stdlib Require Export ZArith Lia.
From stdpp Require Export base list numbers option.

#[local] Open Scope Z_scope.

(** * Outcomes of Rust code

    A Rust function either returns or panics; the kernel is built with
    [panic = "abort"] and in the dev profile (make_iso.sh copies
    target/debug/ron), so that an overflowing [+], [-] or [*], an index out of
    range, an [unwrap] of [None], a division by zero and a failed [assert!] all
    stop the machine. *)
Inductive outcome (A : Type) : Type :=
| Ret (a : A)
| Panic.
Arguments Ret {A} a.
Arguments Panic {A}.

#[export] Instance outcome_eq_dec `{EqDecision A} : EqDecision (outcome A).
Proof. solve_decision. Defined.

Definition obind {A B : Type} (e : outcome A) (k : A -> outcome B) : outcome B :=
  match e with
  | Ret a => k a
  | Panic => Panic
  end.

(** The [?] operator of a function that returns [Option]: [None] leaves the
    function with [None], a panic stops the machine. *)
Definition otry {A B : Type} (e : outcome (option A)) (k : A -> outcome (option B))
  : outcome (option B) :=
  match e with
  | Ret (Some a) => k a
  | Ret None => Ret None
  | Panic => Panic
  end.

Declare Scope rust_scope.
Delimit Scope rust_scope with rust.
Notation "'let!' x ':=' e 'in' k" := (obind e (fun x => k))
  (at level 10, x pattern, e at level 100, k at level 200) : rust_scope.
Notation "'let?' x ':=' e 'in' k" := (otry e (fun x => k))
  (at level 10, x pattern, e at level 100, k at level 200) : rust_scope.
#[global] Open Scope rust_scope.

(** [Option::unwrap], [expect] and a [panic!] on [None]. *)
Definition unwrap {A : Type} (o : option A) : outcome A :=
  match o with
  | Some a => Ret a
  | None => Panic
  end.

(** [assert!(b)]. *)
Definition rassert (b : bool) : outcome unit := if b then Ret () else Panic.

Definition is_ret {A : Type} (e : outcome A) : bool :=
  match e with Ret _ => true | Panic => false end.

Lemma obind_Ret {A B} (e : outcome A) (k : A -> outcome B) b :
  obind e k = Ret b <-> exists a, e = Ret a /\ k a = Ret b.
Proof. destruct e; simpl; split; [eauto|by intros (? & [= ->] & ?)|done|by intros (? & ? & ?)]. Qed.

Lemma otry_Some {A B} (e : outcome (option A)) (k : A -> outcome (option B)) b :
  otry e k = Ret (Some b) <-> exists a, e = Ret (Some a) /\ k a = Ret (Some b).
Proof.
  destruct e as [[]|]; simpl; split; try done; try (by intros (? & ? & ?)); [eauto|].
  by intros (? & [= ->] & ?).
Qed.

Lemma unwrap_Ret {A} (o : option A) a : unwrap o = Ret a <-> o = Some a.
Proof. destruct o; simpl; split; congruence. Qed.

Lemma rassert_Ret b u : rassert b = Ret u <-> b = true.
Proof. destruct b, u; simpl; split; congruence. Qed.

(** Inversion of a monadic hypothesis: one equation per step that returned. *)
Ltac inv_outcome :=
  repeat match goal with
  | H : obind _ _ = Ret _ |- _ => apply obind_Ret in H; destruct H as (? & ? & H)
  | H : otry _ _ = Ret (Some _) |- _ => apply otry_Some in H; destruct H as (? & ? & H)
  | H : unwrap _ = Ret _ |- _ => apply unwrap_Ret in H
  | H : rassert _ = Ret _ |- _ => apply rassert_Ret in H
  | H : Ret _ = Ret _ |- _ => injection H as H; subst
  | H : Panic = Ret _ |- _ => discriminate H
  | H : (if ?b then _ else Panic) = Ret _ |- _ => destruct b eqn:?; [|discriminate H]
  | H : (if ?b then Panic else _) = Ret _ |- _ => destruct b eqn:?; [discriminate H|]
  | p : (_ * _)%type |- _ => destruct p
  end.
