(* ===== verification/MachineInt.v ===== *)
(** Machine integers of the kernel: fixed-width unsigned words as [Z], their
    checked and wrapping operations, two's-complement views, bit fields, byte
    sequences, and writing into a sequence of bytes ([splice]). *)
From S2P Require Import Prelude.
From stdpp Require Import list.
#[local] Open Scope Z_scope.

(** * Words *)

Definition in_u (w z : Z) : Prop := 0 <= z < 2 ^ w.

#[export] Instance in_u_dec w z : Decision (in_u w z).
Proof. unfold in_u. apply _. Defined.

(** [x as uW]. *)
Definition wrap (w z : Z) : Z := z mod 2 ^ w.

(** [x as iW] for an [x] of type [uW]. *)
Definition to_signed (w z : Z) : Z := if z <? 2 ^ (w - 1) then z else z - 2 ^ w.

(** [!x]. *)
Definition bnot (w z : Z) : Z := Z.lxor z (Z.ones w).

(** [x << n] for [n < W]: the bits shifted out are dropped. *)
Definition shl (w a n : Z) : Z := wrap w (Z.shiftl a n).

(** [x << n] and [x >> n] with a computed [n]: the dev profile panics when the
    amount is not below the width. *)
Definition shl_chk (w a n : Z) : outcome Z := if n <? w then Ret (shl w a n) else Panic.
Definition shr_chk (w a n : Z) : outcome Z := if n <? w then Ret (Z.shiftr a n) else Panic.

(** [+], [-], [*] of the dev profile. *)
Definition add_chk (w a b : Z) : outcome Z := if a + b <? 2 ^ w then Ret (a + b) else Panic.
Definition sub_chk (a b : Z) : outcome Z := if b <=? a then Ret (a - b) else Panic.
Definition mul_chk (w a b : Z) : outcome Z := if a * b <? 2 ^ w then Ret (a * b) else Panic.

(** [/] and [%] on unsigned words. *)
Definition div_chk (a b : Z) : outcome Z := if b =? 0 then Panic else Ret (a / b).
Definition rem_chk (a b : Z) : outcome Z := if b =? 0 then Panic else Ret (a mod b).

Definition wrapping_add (w a b : Z) : Z := wrap w (a + b).
Definition wrapping_sub (w a b : Z) : Z := wrap w (a - b).
Definition wrapping_mul (w a b : Z) : Z := wrap w (a * b).

(** [len] bits of [z] from bit [lo]. *)
Definition bits (z lo len : Z) : Z := Z.land (Z.shiftr z lo) (Z.ones len).

Lemma in_u_wrap w z : 0 <= w -> in_u w (wrap w z).
Proof. intros. apply Z.mod_pos_bound, Z.pow_pos_nonneg; lia. Qed.

Lemma wrap_small w z : in_u w z -> wrap w z = z.
Proof. apply Z.mod_small. Qed.

Lemma pow2_pos w : 0 <= w -> 0 < 2 ^ w.
Proof. intros. apply Z.pow_pos_nonneg; lia. Qed.

Lemma pow2_half w : 0 < w -> 2 ^ w = 2 * 2 ^ (w - 1).
Proof. intros. rewrite <- Z.pow_succ_r by lia. f_equal. lia. Qed.

Lemma to_signed_range w z :
  0 < w -> in_u w z -> - 2 ^ (w - 1) <= to_signed w z < 2 ^ (w - 1).
Proof.
  unfold in_u, to_signed. intros Hw Hz. pose proof (pow2_half w Hw).
  destruct (Z.ltb_spec z (2 ^ (w - 1))); lia.
Qed.

Lemma wrap_to_signed w z : 0 < w -> in_u w z -> wrap w (to_signed w z) = z.
Proof.
  intros Hw Hz. unfold to_signed, wrap. destruct (_ <? _).
  - by apply Z.mod_small.
  - replace (z - 2 ^ w) with (z + (-1) * 2 ^ w) by lia.
    rewrite Z.mod_add by (pose proof (pow2_pos w); lia). by apply Z.mod_small.
Qed.

Lemma to_signed_wrap w z :
  0 < w -> - 2 ^ (w - 1) <= z < 2 ^ (w - 1) -> to_signed w (wrap w z) = z.
Proof.
  intros Hw Hz. pose proof (pow2_half w Hw). pose proof (pow2_pos (w - 1)).
  unfold to_signed, wrap. destruct (Z.lt_ge_cases z 0).
  - assert (z mod 2 ^ w = z + 2 ^ w) as ->.
    { symmetry. apply (Z.mod_unique z (2 ^ w) (-1)); lia. }
    destruct (Z.ltb_spec (z + 2 ^ w) (2 ^ (w - 1))); lia.
  - rewrite Z.mod_small by lia. destruct (Z.ltb_spec z (2 ^ (w - 1))); lia.
Qed.

Lemma wrap_wrap w v z : 0 <= w <= v -> wrap w (wrap v z) = wrap w z.
Proof.
  intros. unfold wrap.
  apply Z.mod_mod_divide.
  exists (2 ^ (v - w)). rewrite <- Z.pow_add_r by lia. f_equal. lia.
Qed.

Lemma wrap_add_l w a b : wrap w (wrap w a + b) = wrap w (a + b).
Proof. apply Zplus_mod_idemp_l. Qed.
Lemma wrap_add_r w a b : wrap w (a + wrap w b) = wrap w (a + b).
Proof. apply Zplus_mod_idemp_r. Qed.
Lemma wrap_sub_l w a b : wrap w (wrap w a - b) = wrap w (a - b).
Proof. apply Zminus_mod_idemp_l. Qed.
Lemma wrap_sub_r w a b : wrap w (a - wrap w b) = wrap w (a - b).
Proof. apply Zminus_mod_idemp_r. Qed.
Lemma wrap_mul_l w a b : wrap w (wrap w a * b) = wrap w (a * b).
Proof. apply Zmult_mod_idemp_l. Qed.
Lemma wrap_mul_r w a b : wrap w (a * wrap w b) = wrap w (a * b).
Proof. apply Zmult_mod_idemp_r. Qed.

Create Rewrite HintDb wrap.
#[export] Hint Rewrite wrap_add_l wrap_add_r wrap_sub_l wrap_sub_r wrap_mul_l wrap_mul_r : wrap.

Lemma add_chk_Ret w a b c : add_chk w a b = Ret c <-> c = a + b /\ a + b < 2 ^ w.
Proof. unfold add_chk. destruct (Z.ltb_spec (a + b) (2 ^ w)); split; intuition (congruence || lia). Qed.

Lemma sub_chk_Ret a b c : sub_chk a b = Ret c <-> c = a - b /\ b <= a.
Proof. unfold sub_chk. destruct (Z.leb_spec b a); split; intuition (congruence || lia). Qed.

Lemma mul_chk_Ret w a b c : mul_chk w a b = Ret c <-> c = a * b /\ a * b < 2 ^ w.
Proof. unfold mul_chk. destruct (Z.ltb_spec (a * b) (2 ^ w)); split; intuition (congruence || lia). Qed.

Lemma add_chk_ok w a b : a + b < 2 ^ w -> add_chk w a b = Ret (a + b).
Proof. intros. by apply add_chk_Ret. Qed.

Lemma sub_chk_ok a b : b <= a -> sub_chk a b = Ret (a - b).
Proof. intros. by apply sub_chk_Ret. Qed.

Lemma mul_chk_ok w a b : a * b < 2 ^ w -> mul_chk w a b = Ret (a * b).
Proof. intros. by apply mul_chk_Ret. Qed.

(** * Bitwise reasoning *)

Create Rewrite HintDb testbit.
#[export] Hint Rewrite Z.lor_spec Z.land_spec Z.lxor_spec : testbit.
#[export] Hint Rewrite Z.shiftl_spec Z.shiftr_spec using lia : testbit.

Lemma testbit_above n z i : in_u n z -> 0 <= n <= i -> Z.testbit z i = false.
Proof.
  intros [? ?] ?. rewrite <- (Z.mod_small z (2 ^ n)) by lia.
  apply Z.mod_pow2_bits_high. lia.
Qed.

Lemma testbit_ones n i : 0 <= n -> 0 <= i -> Z.testbit (Z.ones n) i = (i <? n).
Proof.
  intros. destruct (Z.ltb_spec i n).
  - apply Z.ones_spec_low; lia.
  - apply Z.ones_spec_high; lia.
Qed.

Lemma testbit_wrap w z i : 0 <= w -> 0 <= i -> Z.testbit (wrap w z) i = (i <? w) && Z.testbit z i.
Proof.
  intros. unfold wrap. destruct (Z.ltb_spec i w).
  - by rewrite Z.mod_pow2_bits_low by lia.
  - by rewrite Z.mod_pow2_bits_high by lia.
Qed.

Lemma testbit_bits z lo len i :
  0 <= lo -> 0 <= len -> 0 <= i -> Z.testbit (bits z lo len) i = Z.testbit z (i + lo) && (i <? len).
Proof. intros. unfold bits. by rewrite Z.land_spec, Z.shiftr_spec, testbit_ones by lia. Qed.

#[export] Hint Rewrite testbit_ones testbit_wrap testbit_bits using lia : testbit.

Lemma bits_spec z lo len : 0 <= lo -> 0 <= len -> bits z lo len = (z / 2 ^ lo) mod 2 ^ len.
Proof. intros. unfold bits. by rewrite Z.land_ones, Z.shiftr_div_pow2 by lia. Qed.

Lemma bits_range z lo len : 0 <= lo -> 0 <= len -> in_u len (bits z lo len).
Proof. intros. rewrite bits_spec by lia. apply Z.mod_pos_bound, pow2_pos; lia. Qed.

Lemma bits_all n z : 0 <= n -> in_u n z -> bits z 0 n = z.
Proof. intros ? [? ?]. rewrite bits_spec, Z.div_1_r by lia. by apply Z.mod_small. Qed.

Lemma land_shiftl_0 a b n : 0 <= n -> in_u n a -> Z.land a (Z.shiftl b n) = 0.
Proof.
  intros Hn Ha. apply Z.bits_inj'. intros i Hi. autorewrite with testbit. rewrite Z.bits_0.
  destruct (Z.lt_ge_cases i n).
  - by rewrite Z.testbit_neg_r with (n := i - n), andb_false_r by lia.
  - by rewrite (testbit_above n a) by (done || lia).
Qed.

Lemma lor_shiftl_add a b n : 0 <= n -> in_u n a -> Z.lor a (Z.shiftl b n) = a + b * 2 ^ n.
Proof.
  intros Hn Ha. pose proof (land_shiftl_0 a b n Hn Ha) as H0.
  by rewrite <- Z.shiftl_mul_pow2, Z.add_nocarry_lxor, Z.lxor_lor by (done || lia).
Qed.

Lemma in_u_testbit n z :
  0 <= n -> 0 <= z -> (forall i, n <= i -> Z.testbit z i = false) -> in_u n z.
Proof.
  intros Hn Hz Hb. cut (wrap n z = z); [intros <-; by apply in_u_wrap|].
  apply Z.bits_inj'. intros i Hi. rewrite testbit_wrap by lia.
  destruct (Z.ltb_spec i n); simpl; [done|]. by rewrite Hb.
Qed.

Lemma in_u_lor n a b : 0 <= n -> in_u n a -> in_u n b -> in_u n (Z.lor a b).
Proof.
  intros Hn Ha Hb. apply in_u_testbit; [done|apply Z.lor_nonneg; unfold in_u in *; lia|].
  intros i Hi. by rewrite Z.lor_spec, (testbit_above n a), (testbit_above n b) by (done || lia).
Qed.

Lemma in_u_weaken n m z : n <= m -> in_u n z -> in_u m z.
Proof. unfold in_u. intros. pose proof (Z.pow_le_mono_r 2 n m). lia. Qed.

Lemma land_ones_small n z : 0 <= n -> in_u n z -> Z.land z (Z.ones n) = z.
Proof. intros. rewrite Z.land_ones by lia. by apply Z.mod_small. Qed.

Lemma bnot_sub w z : 0 <= w -> in_u w z -> bnot w z = 2 ^ w - 1 - z.
Proof.
  intros Hw Hz. unfold bnot. rewrite Z.ones_equiv.
  cut (Z.lxor z (Z.ones w) + z = Z.ones w); [rewrite Z.ones_equiv; lia|].
  rewrite Z.add_nocarry_lxor.
  - by rewrite Z.lxor_comm, <- Z.lxor_assoc, Z.lxor_nilpotent.
  - apply Z.bits_inj'. intros i Hi. autorewrite with testbit. rewrite Z.bits_0.
    destruct (Z.ltb_spec i w); [by destruct (Z.testbit z i)|].
    by rewrite (testbit_above w z) by (done || lia).
Qed.

(** * Byte sequences: [uN::from_le_bytes], [to_le_bytes] and the [be] forms *)

Definition is_byte (b : Z) : Prop := in_u 8 b.

Fixpoint from_le_bytes (bs : list Z) : Z :=
  match bs with
  | [] => 0
  | b :: t => b + 256 * from_le_bytes t
  end.

Fixpoint to_le_bytes (n : nat) (z : Z) : list Z :=
  match n with
  | O => []
  | S n => z mod 256 :: to_le_bytes n (z / 256)
  end.

Definition from_be_bytes (bs : list Z) : Z := from_le_bytes (reverse bs).
Definition to_be_bytes (n : nat) (z : Z) : list Z := reverse (to_le_bytes n z).

Lemma length_to_le_bytes n z : length (to_le_bytes n z) = n.
Proof. revert z; induction n; intros z; simpl; [done|]. by rewrite IHn. Qed.

Lemma to_le_bytes_is_byte n z : Forall is_byte (to_le_bytes n z).
Proof.
  revert z; induction n; intros z; simpl; constructor; [|done].
  by apply Z.mod_pos_bound.
Qed.

Lemma from_le_bytes_range bs : Forall is_byte bs -> in_u (8 * Z.of_nat (length bs)) (from_le_bytes bs).
Proof.
  unfold in_u. induction 1 as [|b bs Hb Hbs IH]; [done|]. cbn [from_le_bytes length].
  unfold is_byte, in_u in Hb. change (2 ^ 8) with 256 in Hb.
  replace (8 * Z.of_nat (S (length bs))) with (8 + 8 * Z.of_nat (length bs)) by lia.
  rewrite Z.pow_add_r by lia. change (2 ^ 8) with 256. nia.
Qed.

Lemma from_to_le_bytes n z : from_le_bytes (to_le_bytes n z) = wrap (8 * Z.of_nat n) z.
Proof.
  revert z; induction n as [|n IH]; intros z; [symmetry; apply Z.mod_1_r|].
  cbn [to_le_bytes from_le_bytes]. rewrite IH. unfold wrap.
  replace (8 * Z.of_nat (S n)) with (8 + 8 * Z.of_nat n) by lia.
  rewrite Z.pow_add_r by lia. change (2 ^ 8) with 256.
  rewrite Z.rem_mul_r by (try apply Z.pow_nonzero; lia). lia.
Qed.

Lemma to_from_le_bytes bs : Forall is_byte bs -> to_le_bytes (length bs) (from_le_bytes bs) = bs.
Proof.
  induction 1 as [|b bs Hb Hbs IH]; [done|]. cbn [from_le_bytes to_le_bytes length].
  unfold is_byte, in_u in Hb. change (2 ^ 8) with 256 in Hb.
  rewrite (Z.mul_comm 256), Z.mod_add, Z.mod_small by lia.
  rewrite Z.div_add, Z.div_small by lia. by rewrite Z.add_0_l, IH.
Qed.

Lemma from_to_be_bytes n z : from_be_bytes (to_be_bytes n z) = wrap (8 * Z.of_nat n) z.
Proof. unfold from_be_bytes, to_be_bytes. by rewrite reverse_involutive, from_to_le_bytes. Qed.

Lemma length_to_be_bytes n z : length (to_be_bytes n z) = n.
Proof. unfold to_be_bytes. by rewrite length_reverse, length_to_le_bytes. Qed.

Lemma to_be_bytes_is_byte n z : Forall is_byte (to_be_bytes n z).
Proof. unfold to_be_bytes. apply Forall_reverse, to_le_bytes_is_byte. Qed.

Lemma to_le_bytes_inj n a b :
  in_u (8 * Z.of_nat n) a -> in_u (8 * Z.of_nat n) b -> to_le_bytes n a = to_le_bytes n b -> a = b.
Proof.
  intros Ha Hb H%(f_equal from_le_bytes). rewrite !from_to_le_bytes in H.
  by rewrite !wrap_small in H.
Qed.

(** * Writing into a sequence *)

(** [data] written over [c] from offset [off] on. *)
Definition splice (c : list Z) (off : nat) (data : list Z) : list Z :=
  take off c ++ data ++ drop (off + length data) c.

Lemma length_splice c off data : (off + length data <= length c)%nat -> length (splice c off data) = length c.
Proof. intros H. unfold splice. rewrite !length_app, length_take, length_drop. lia. Qed.

Lemma splice_nil c off : splice c off [] = c.
Proof. unfold splice. simpl. rewrite Nat.add_0_r. apply take_drop. Qed.

Lemma splice_app c off x y : (off + length x + length y <= length c)%nat ->
  splice (splice c off x) (off + length x) y = splice c off (x ++ y).
Proof.
  intros H. unfold splice. rewrite length_app, <- app_assoc.
  assert (length (take off c) = off) as E by (rewrite length_take; lia).
  rewrite take_app_ge, drop_app_ge by lia. rewrite E. replace (off + length x - off)%nat with (length x) by lia.
  rewrite take_app_length, drop_app_ge, drop_drop by lia. rewrite <- app_assoc. do 4 f_equal. lia.
Qed.

Lemma splice_outside c off data (a n : nat) : (off + length data <= length c)%nat -> (a + n <= off \/ off + length data <= a)%nat ->
  take n (drop a (splice c off data)) = take n (drop a c).
Proof.
  intros Hl H. unfold splice. assert (length (take off c) = off) as E by (rewrite length_take; lia). destruct H as [H|H].
  - rewrite drop_app_le, take_app_le by (rewrite ?length_drop; lia). rewrite skipn_firstn_comm, take_take. f_equal. lia.
  - rewrite drop_app_ge by lia. rewrite drop_app_ge, drop_drop by lia. do 2 f_equal. lia.
Qed.

Lemma splice_inside c off data (a n : nat) : (a + off + length data <= length c)%nat -> (off + length data <= n)%nat -> (a + n <= length c)%nat ->
  take n (drop a (splice c (a + off) data)) = splice (take n (drop a c)) off data.
Proof.
  intros Hl H Hn. unfold splice. assert (length (take (a + off) c) = (a + off)%nat) as E by (rewrite length_take; lia).
  rewrite drop_app_le, take_app_ge by (rewrite ?length_drop; lia). rewrite length_drop, E.
  rewrite skipn_firstn_comm. replace (a + off - a)%nat with off by lia. rewrite take_take, Nat.min_l by lia. f_equal.
  rewrite take_app_ge by lia. f_equal. rewrite !skipn_firstn_comm, drop_drop. f_equal; [lia|]. f_equal. lia.
Qed.
