(* ===== verification/Primitives.v ===== *)
(** The kernel's lock and its lazily set globals, kernel/src/primitives.rs.

    The rest of the development reads and writes the globals as if nobody else did; this
    file says why it may.  Threads are program counters into [lock] and into the drop of
    the guard, every access to the flag is one step, and any thread may make the next
    step; compare_exchange_weak may fail although the flag has the expected value. *)
From S2P Require Import Prelude MachineInt.
From stdpp Require Import list relations.
#[local] Open Scope Z_scope.

(** * LazyInitialised *)

Record LazyInitialised (T : Type) := MkLazy { lazy_inner : option T }.
Arguments MkLazy {T} _.
Arguments lazy_inner {T} _.

Definition uninit {T} : LazyInitialised T := MkLazy None.
Definition unset {T} (l : LazyInitialised T) : LazyInitialised T := MkLazy None.
Definition lazy_set {T} (l : LazyInitialised T) (val : T) : LazyInitialised T := MkLazy (Some val).
Definition is_initialised {T} (l : LazyInitialised T) : bool := bool_decide (is_Some (lazy_inner l)).
Definition lazy_deref {T} (l : LazyInitialised T) : outcome T := unwrap (lazy_inner l).
(** [deref_mut]: the function stands for what is done through the reference. *)
Definition lazy_deref_mut {T} (l : LazyInitialised T) (f : T -> T) : outcome (LazyInitialised T) :=
  let! v := unwrap (lazy_inner l) in Ret (MkLazy (Some (f v))).

(** A global can be used exactly between set and unset. *)
Lemma lazy_usable {T} (l : LazyInitialised T) : (exists v, lazy_deref l = Ret v) <-> is_initialised l = true.
Proof.
  unfold lazy_deref, is_initialised. destruct (lazy_inner l) as [v|]; simpl; [split; [done|by exists v]|]. split; [by intros [? ?]|done].
Qed.

(** * Mutex *)

Section Mutex.
Context {T : Type}.

(** The flag and what it protects. *)
Record Mutex := MkMutex { mx_lock : bool; mx_inner : T }.
Definition is_locked (m : Mutex) : bool := mx_lock m.
Definition mutex_from (val : T) : Mutex := MkMutex false val.

(** Where a thread is: outside, in front of the compare-and-exchange of [lock] or in its
    inner loop with the tries that are left, with a guard, in the drop of the guard, or
    stopped by the panic. *)
Inductive Pc := Outside | Trying (left : Z) | Spinning (left : Z) | Holding | Dropping | Stopped.

Definition deadlock_warning_iter_count : Z := 1000000.

(** [compare_exchange_weak(old, new)]; [weak] says that it fails for no reason. *)
Definition compare_exchange_weak (weak : bool) (m : Mutex) (old new : bool) : option Mutex :=
  if eqb (mx_lock m) old && negb weak then Some (MkMutex new (mx_inner m)) else None.

(** The next step of a thread in [lock]. *)
Definition lock_step (weak : bool) (m : Mutex) (pc : Pc) : Mutex * Pc :=
  match pc with
  | Trying n =>
      match compare_exchange_weak weak m false true with
      | Some m => (m, Holding)
      | None => (m, Spinning n)
      end
  | Spinning n =>
      if is_locked m then
        let n := n - 1 in (m, if n =? 0 then Stopped else Spinning n)
      else (m, Trying n)
  | pc => (m, pc)
  end.

(** The next step in the drop of a guard. *)
Definition drop_step (weak : bool) (m : Mutex) (pc : Pc) : Mutex * Pc :=
  match compare_exchange_weak weak m true false with
  | Some m => (m, Outside)
  | None => (m, pc)
  end.

(** Threads that share a mutex. *)
Record Threads := MkThreads { shared : Mutex; pcs : list Pc }.

(** A step of thread [i]: it calls [lock], goes on in [lock] or in the drop, changes the
    data through its guard, or lets the guard go. *)
Inductive thread_step (i : nat) : Threads -> Threads -> Prop :=
| step_call m l : l !! i = Some Outside -> thread_step i (MkThreads m l) (MkThreads m (<[i := Trying deadlock_warning_iter_count]> l))
| step_lock m l pc weak m' pc' : l !! i = Some pc -> (exists n, pc = Trying n \/ pc = Spinning n) -> lock_step weak m pc = (m', pc') ->
    thread_step i (MkThreads m l) (MkThreads m' (<[i := pc']> l))
| step_use m l v : l !! i = Some Holding -> thread_step i (MkThreads m l) (MkThreads (MkMutex (mx_lock m) v) l)
| step_release m l : l !! i = Some Holding -> thread_step i (MkThreads m l) (MkThreads m (<[i := Dropping]> l))
| step_drop m l weak m' pc' : l !! i = Some Dropping -> drop_step weak m Dropping = (m', pc') ->
    thread_step i (MkThreads m l) (MkThreads m' (<[i := pc']> l)).

Definition any_step (s s' : Threads) : Prop := exists i, thread_step i s s'.
(** A step of any thread but [i]. *)
Definition other_step (i : nat) (s s' : Threads) : Prop := exists j, j <> i /\ thread_step j s s'.

Definition threads_init (val : T) (n : nat) : Threads := MkThreads (mutex_from val) (replicate n Outside).

(** ** The invariant *)

Definition owns (pc : Pc) : bool := match pc with Holding | Dropping => true | _ => false end.
(** The flag is set exactly while one thread has a guard or is dropping it. *)
Definition mutex_inv (s : Threads) : Prop :=
  length (filter (fun pc => owns pc = true) (pcs s)) = (if mx_lock (shared s) then 1 else 0)%nat.

Lemma init_inv val n : mutex_inv (threads_init val n).
Proof. unfold mutex_inv. simpl. induction n as [|n IH]; [done|]. cbn [replicate]. rewrite filter_cons_False by done. exact IH. Qed.

(** The owners after one thread moved. *)
Lemma owners_insert l i pc pc' : l !! i = Some pc ->
  (length (filter (fun pc => owns pc = true) (<[i := pc']> l)) + (if owns pc then 1 else 0) =
   length (filter (fun pc => owns pc = true) l) + (if owns pc' then 1 else 0))%nat.
Proof.
  revert i. induction l as [|x l IH]; intros [|i] Hi; [done|done| |].
  - injection Hi as ->. cbn [insert list_insert]. rewrite !filter_cons. destruct (owns pc), (owns pc'); repeat case_decide; simpl; try done; lia.
  - change (<[S i := pc']> (x :: l)) with (x :: <[i := pc']> l). rewrite !filter_cons. specialize (IH i Hi). case_decide; cbn [length]; lia.
Qed.

Lemma thread_step_inv i s s' : thread_step i s s' -> mutex_inv s -> mutex_inv s'.
Proof.
  unfold mutex_inv. intros Hs. destruct Hs as [m l Hi|m l pc weak m' pc' Hi (n & [-> | ->]) E|m l v Hi|m l Hi|m l weak m' pc' Hi E]; cbn [pcs shared]; intros Hinv.
  - pose proof (owners_insert l i _ (Trying deadlock_warning_iter_count) Hi). simpl in *. lia.
  - pose proof (owners_insert l i _ pc' Hi). unfold lock_step, compare_exchange_weak in E. destruct (mx_lock m) eqn:El, weak; simpl in *; simplify_eq/=; rewrite ?El in *; simpl in *; lia.
  - pose proof (owners_insert l i _ pc' Hi). unfold lock_step in E. destruct (is_locked m) eqn:El; simplify_eq/=; [destruct (n - 1 =? 0)|]; simpl in *; lia.
  - exact Hinv.
  - pose proof (owners_insert l i _ Dropping Hi). simpl in *. lia.
  - pose proof (owners_insert l i _ pc' Hi). unfold drop_step, compare_exchange_weak in E. destruct (mx_lock m) eqn:El, weak; simpl in *; simplify_eq/=; rewrite ?El in *; simpl in *; lia.
Qed.

Lemma reachable_inv val n s : rtc any_step (threads_init val n) s -> mutex_inv s.
Proof.
  intros Hr. assert (forall s0, rtc any_step s0 s -> mutex_inv s0 -> mutex_inv s) as H.
  { clear Hr. induction 1 as [|s1 s2 s3 [i Hs] _ IH]; [done|]. intros Hi. apply IH. by eapply thread_step_inv. }
  apply (H _ Hr), init_inv.
Qed.

(** Two owners are one. *)
Lemma owner_unique l i j pi pj : (length (filter (fun pc => owns pc = true) l) <= 1)%nat ->
  l !! i = Some pi -> l !! j = Some pj -> owns pi = true -> owns pj = true -> i = j.
Proof.
  revert i j. induction l as [|x l IH]; intros i j Hl Hi Hj Oi Oj; [done|]. rewrite filter_cons in Hl.
  assert (forall k p, l !! k = Some p -> owns p = true -> (1 <= length (filter (fun pc => owns pc = true) l))%nat) as Hin.
  { intros k p Hk Hp. assert (p ∈ filter (fun pc => owns pc = true) l) as Hf by (apply list_elem_of_filter; split; [done|by eapply list_elem_of_lookup_2]).
    destruct (filter _ l); [by apply not_elem_of_nil in Hf|simpl; lia]. }
  destruct i as [|i], j as [|j]; simplify_eq/=; [done| | |].
  - rewrite decide_True in Hl by done. specialize (Hin j pj Hj Oj). simpl in Hl. lia.
  - rewrite decide_True in Hl by done. specialize (Hin i pi Hi Oi). simpl in Hl. lia.
  - f_equal. eapply IH; eauto. case_decide; simpl in Hl; lia.
Qed.

(** C4: the mutex excludes: however many threads lock and unlock it, in whatever order their
    steps come and however often the weak compare-and-exchange fails for no reason, at most
    one thread has a guard, and while it has it no step of the others changes the data or
    takes the guard away. *)
Theorem mutex_excludes val n s i pi :
  rtc any_step (threads_init val n) s -> pcs s !! i = Some pi -> owns pi = true ->
  (forall j pj, pcs s !! j = Some pj -> owns pj = true -> j = i) /\
  (forall s', rtc (other_step i) s s' -> pcs s' !! i = Some pi /\ mx_inner (shared s') = mx_inner (shared s) /\ mx_lock (shared s') = true).
Proof.
  intros Hr Hi Oi. apply reachable_inv in Hr.
  assert (forall s, mutex_inv s -> pcs s !! i = Some pi -> mx_lock (shared s) = true /\ forall j pj, pcs s !! j = Some pj -> owns pj = true -> j = i) as Hex.
  { clear s Hr Hi. intros s Hr Hi. unfold mutex_inv in Hr. split.
    - destruct (mx_lock (shared s)); [done|]. apply length_zero_iff_nil in Hr.
      assert (pi ∈ filter (fun pc => owns pc = true) (pcs s)) as Hf by (apply list_elem_of_filter; split; [done|by eapply list_elem_of_lookup_2]).
      rewrite Hr in Hf. by apply not_elem_of_nil in Hf.
    - intros j pj Hj Oj. eapply owner_unique; [|exact Hj|exact Hi|done|done]. destruct (mx_lock (shared s)); lia. }
  split; [by apply Hex|]. intros s' Hr'. induction Hr' as [s|s1 s2 s3 (j & Hji & Hs) Hr' IH]; [destruct (Hex s Hr Hi); eauto|].
  destruct (Hex s1 Hr Hi) as [Hl Hu]. assert (pcs s2 !! i = Some pi /\ mx_inner (shared s2) = mx_inner (shared s1)) as [Hi2 Hd2].
  { destruct Hs as [m l Hj|m l pc weak m' pc' Hj _ E|m l v Hj|m l Hj|m l weak m' pc' Hj E]; cbn [pcs shared] in *; rewrite ?list_lookup_insert_ne by done; split; try done.
    - unfold lock_step, compare_exchange_weak in E. repeat case_match; by simplify_eq/=.
    - exfalso. by apply Hji, (Hu j _ Hj).
    - exfalso. by apply Hji, (Hu j _ Hj). }
  destruct IH as (H1 & H2 & H3); [by eapply thread_step_inv|done|]. rewrite Hd2 in H2. done.
Qed.

(** ** One thread by itself *)

(** The steps of [lock] of a thread that runs alone. *)
Fixpoint lock_alone (fuel : nat) (m : Mutex) (pc : Pc) : Mutex * Pc :=
  match fuel with
  | O => (m, pc)
  | S fuel => let (m, pc) := lock_step false m pc in lock_alone fuel m pc
  end.

(** A lock that is free is taken at once and given back at once, with whatever was done
    to the data in between: for a single thread a locked section is the plain function.  A
    lock that the thread itself has already is never obtained: after the last of the tries
    that are left, the thread stops with the panic. *)
Theorem lock_alone_result (m : Mutex) (n : Z) : 0 < n ->
  (mx_lock m = false -> lock_alone 1 m (Trying n) = (MkMutex true (mx_inner m), Holding) /\
     forall v, drop_step false (MkMutex true v) Dropping = (MkMutex false v, Outside)) /\
  (mx_lock m = true -> lock_alone (S (Z.to_nat n)) m (Trying n) = (m, Stopped) /\
     forall k, (k <= Z.to_nat n)%nat -> (lock_alone k m (Trying n)).2 <> Holding).
Proof.
  intros Hn. split.
  - intros Hl. split; [|done]. simpl. unfold compare_exchange_weak. by rewrite Hl.
  - intros Hl. assert (lock_step false m (Trying n) = (m, Spinning n)) as E0 by (simpl; unfold compare_exchange_weak; by rewrite Hl).
    assert (forall k r : nat, (0 < r)%nat -> lock_alone k m (Spinning (Z.of_nat r)) = (m, if (k <? r)%nat then Spinning (Z.of_nat (r - k)) else Stopped)) as Hs.
    { assert (forall k, lock_alone k m Stopped = (m, Stopped)) as Hst by (induction k as [|k IHk]; [done|exact IHk]).
      induction k as [|k IH]; intros r Hr. { simpl. destruct r; [lia|]. simpl. done. }
      cbn [lock_alone lock_step]. unfold is_locked. rewrite Hl. destruct (Z.eqb_spec (Z.of_nat r - 1) 0) as [E|E].
      - assert (r = 1%nat) as -> by lia. rewrite Hst. destruct (Nat.ltb_spec (S k) 1); [lia|done].
      - replace (Z.of_nat r - 1) with (Z.of_nat (r - 1)) by lia. rewrite IH by lia. destruct (Nat.ltb_spec k (r - 1)), (Nat.ltb_spec (S k) r); try lia; [|done].
        do 3 f_equal. lia. }
    rewrite <- (Z2Nat.id n) in E0 |- * by lia. rewrite Nat2Z.id. split.
    + cbn [lock_alone]. rewrite E0, Hs by lia. by rewrite Nat.ltb_irrefl.
    + intros [|k] Hk; [done|]. cbn [lock_alone]. rewrite E0, Hs by lia. by case_match.
Qed.
End Mutex.
Arguments Mutex T : clear implicits.
Arguments Threads T : clear implicits.

(** Two threads; the first has locked. *)
Definition demo_threads : Threads Z := MkThreads (MkMutex true 7) [Holding; Outside].

(** The second asks for the lock. *)
Definition demo_waiting : Threads Z := MkThreads (MkMutex true 7) [Holding; Trying deadlock_warning_iter_count].

Lemma mutex_excludes_witness : rtc (other_step 0) demo_threads demo_waiting /\
  pcs demo_waiting !! 0%nat = Some Holding /\ mx_inner (shared demo_waiting) = 7 /\ mx_lock (shared demo_waiting) = true.
Proof.
  assert (rtc (other_step 0) demo_threads demo_waiting) as Hw.
  { apply rtc_once. exists 1%nat. split; [lia|]. by apply (step_call 1 (MkMutex true 7) [Holding; Outside]). }
  split; [exact Hw|]. destruct (mutex_excludes 7 2 demo_threads 0 Holding) as [_ H].
  - eapply rtc_l; [exists 0%nat; by apply step_call|]. eapply rtc_l; [exists 0%nat; by apply (step_lock 0 _ _ (Trying deadlock_warning_iter_count) false (MkMutex true 7) Holding); [|eexists; left|]|].
    apply rtc_refl.
  - reflexivity.
  - reflexivity.
  - exact (H demo_waiting Hw).
Defined.

Lemma lock_alone_result_witness :
  lock_alone 4 (MkMutex true 7) (Trying 3) = (MkMutex true 7, Stopped) /\ lock_alone 1 (MkMutex false 7) (Trying 3) = (MkMutex true 7, Holding).
Proof.
  split; [exact (proj1 (proj2 (lock_alone_result (MkMutex true 7) 3 ltac:(lia)) eq_refl))|exact (proj1 (proj1 (lock_alone_result (MkMutex false 7) 3 ltac:(lia)) eq_refl))].
Defined.
