(* ===== verification/Device.v ===== *)
(** Files that stand for devices, and the computations on them.

    [SO] are computations that change a state, may panic, and may leave early with None:
    Rust functions with [&mut] arguments and an [Option] result.  What was changed before
    the function left stays changed.

    A device is behind an Rc, and reading it may change its state (a drive's status is
    read by polling), so that every operation returns the device; [DeviceFile] are the
    methods of the trait IFile (kernel/src/vfs.rs) used on devices, [DeviceFileOk] what
    the code above relies on. *)
From S2P Require Import Prelude MachineInt.
From stdpp Require Import list.
#[local] Open Scope Z_scope.

Definition SO (S A : Type) : Type := S -> outcome (S * option A).

Definition so_ret {S A} (a : A) : SO S A := fun s => Ret (s, Some a).
Definition so_none {S A} : SO S A := fun s => Ret (s, None).
Definition so_bind {S A B} (m : SO S A) (k : A -> SO S B) : SO S B := fun s =>
  let! (s, o) := m s in
  match o with Some a => k a s | None => Ret (s, None) end.

(** A computation that only may panic, and one that only may be None. *)
Definition so_lift {S A} (e : outcome A) : SO S A := fun s => let! a := e in Ret (s, Some a).
Definition so_option {S A} (o : option A) : SO S A := fun s => Ret (s, o).

(** The result is looked at or ignored, not propagated. *)
Definition so_try {S A} (m : SO S A) : SO S (option A) := fun s => let! (s, o) := m s in Ret (s, Some o).

(** [expect]. *)
Definition so_expect {S A} (m : SO S A) : SO S A := fun s =>
  let! (s, o) := m s in let! a := unwrap o in Ret (s, Some a).

Definition so_get {S} : SO S S := fun s => Ret (s, Some s).
Definition so_put {S} (s' : S) : SO S unit := fun s => Ret (s', Some ()).

(** A computation on the first or on the second part of the state. *)
Definition so_fst {S T A} (m : SO S A) : SO (S * T) A := fun st =>
  let! (s, o) := m st.1 in Ret ((s, st.2), o).
Definition so_snd {S T A} (m : SO T A) : SO (S * T) A := fun st =>
  let! (t, o) := m st.2 in Ret ((st.1, t), o).

Notation "'do!' x ':=' m 'in' k" := (so_bind m (fun x => k))
  (at level 10, x pattern, m at level 100, k at level 200) : rust_scope.

(** Running the first step. *)
Lemma so_bind_Some {S A B} (m : SO S A) (k : A -> SO S B) s s' a : m s = Ret (s', Some a) -> so_bind m k s = k a s'.
Proof. unfold so_bind. by intros ->. Qed.

Lemma so_bind_None {S A B} (m : SO S A) (k : A -> SO S B) s s' : m s = Ret (s', None) -> so_bind m k s = Ret (s', None).
Proof. unfold so_bind. by intros ->. Qed.

Lemma so_bind_try {S A B} (m : SO S A) (k : option A -> SO S B) s s' o : m s = Ret (s', o) -> so_bind (so_try m) k s = k o s'.
Proof. unfold so_bind, so_try. by intros ->. Qed.

Lemma so_bind_lift {S A B} (e : outcome A) (k : A -> SO S B) s a : e = Ret a -> so_bind (so_lift e) k s = k a s.
Proof. unfold so_bind, so_lift. by intros ->. Qed.

(** * Simulation

    [m] does what [m'] does: every result of [m'] is one of [m], and the states stay
    related. *)
Section Sim.
Context {S S' : Type} (R : S -> S' -> Prop).

Definition so_sim {A} (m : SO S A) (m' : SO S' A) : Prop :=
  forall s s' t' o, R s s' -> m' s' = Ret (t', o) -> exists t, m s = Ret (t, o) /\ R t t'.

Lemma sim_ret {A} (a : A) : so_sim (so_ret a) (so_ret a).
Proof. intros s s' t' o HR [= <- <-]. by exists s. Qed.

Lemma sim_none {A} : so_sim (A := A) so_none so_none.
Proof. intros s s' t' o HR [= <- <-]. by exists s. Qed.

Lemma sim_bind {A B} (m : SO S A) m' (k : A -> SO S B) k' :
  so_sim m m' -> (forall a, so_sim (k a) (k' a)) -> so_sim (so_bind m k) (so_bind m' k').
Proof.
  intros Hm Hk s s' t' o HR E. unfold so_bind in *. apply obind_Ret in E as ([u' [a|]] & E1 & E2).
  - destruct (Hm s s' u' (Some a) HR E1) as (u & -> & HR'). exact (Hk a u u' t' o HR' E2).
  - destruct (Hm s s' u' None HR E1) as (u & -> & HR'). injection E2 as <- <-. by exists u.
Qed.

Lemma sim_lift {A} (e : outcome A) : so_sim (so_lift e) (so_lift e).
Proof. intros s s' t' o HR E. unfold so_lift in *. destruct e; [|done]. injection E as <- <-. by exists s. Qed.

Lemma sim_option {A} (e : option A) : so_sim (so_option e) (so_option e).
Proof. intros s s' t' o HR [= <- <-]. by exists s. Qed.

Lemma sim_try {A} (m : SO S A) m' : so_sim m m' -> so_sim (so_try m) (so_try m').
Proof.
  intros Hm s s' t' o HR E. unfold so_try in *. apply obind_Ret in E as ([u' p] & E1 & [= <- <-]).
  destruct (Hm s s' u' p HR E1) as (u & -> & HR'). by exists u.
Qed.

Lemma sim_expect {A} (m : SO S A) m' : so_sim m m' -> so_sim (so_expect m) (so_expect m').
Proof.
  intros Hm s s' t' o HR E. unfold so_expect in *. apply obind_Ret in E as ([u' [a|]] & E1 & E2); [|done]. injection E2 as <- <-.
  destruct (Hm s s' u' (Some a) HR E1) as (u & -> & HR'). by exists u.
Qed.
End Sim.

(** States related in their first part, with the same second part. *)
Definition rel_fst {S S' T} (R : S -> S' -> Prop) (s : S * T) (s' : S' * T) : Prop := R s.1 s'.1 /\ s.2 = s'.2.

Lemma sim_fst {S S' T A} (R : S -> S' -> Prop) (m : SO S A) m' :
  so_sim R m m' -> so_sim (rel_fst (T := T) R) (so_fst m) (so_fst m').
Proof.
  intros Hm s s' t' o [HR E2] E. unfold so_fst in *. apply obind_Ret in E as ([u' p] & E1 & [= <- <-]).
  destruct (Hm _ _ _ _ HR E1) as (u & -> & HR'). exists (u, s.2). split; [by rewrite E2|]. by split.
Qed.

Lemma sim_snd {S S' T A} (R : S -> S' -> Prop) (m : SO T A) :
  so_sim (rel_fst R) (so_snd (S := S) m) (so_snd (S := S') m).
Proof.
  intros s s' t' o [HR E2] E. unfold so_snd in *. apply obind_Ret in E as ([u' p] & E1 & [= <- <-]).
  exists (s.1, u'). rewrite E2, E1. split; [done|]. by split.
Qed.

Create HintDb sim.
#[export] Hint Resolve sim_ret sim_none sim_lift sim_option sim_try sim_expect sim_fst sim_snd : sim.

(** Takes a computation apart: binds, conditionals and matches; the leaves are left to
    the hints. *)
Ltac sim_step :=
  match goal with
  | |- so_sim _ (so_bind _ _) (so_bind _ _) => apply sim_bind; [|intros ?]
  | |- so_sim _ (if ?b then _ else _) _ => destruct b
  | |- so_sim _ (match ?x with _ => _ end) _ => destruct x
  | |- so_sim _ (let '(_, _) := ?x in _) _ => destruct x
  end.
Ltac sim := intros; repeat sim_step; eauto 6 with sim.

(** * Devices *)

Class DeviceFile (W : Type) := {
  dev_read : W -> Z -> Z -> outcome (W * option (list Z));
  dev_write : W -> Z -> list Z -> outcome (W * option Z);
}.

(** A device holds bytes; reads and writes inside it, of ranges it serves in one piece,
    deliver and store them. *)
Class DeviceFileOk (W : Type) {DF : DeviceFile W} := {
  holds : W -> list Z -> Prop;
  whole : nat -> nat -> bool;
  dev_read_ok : forall w c off len, holds w c -> (off < length c)%nat -> (off + len <= length c)%nat -> whole off len = true ->
    exists w', dev_read w (Z.of_nat off) (Z.of_nat len) = Ret (w', Some (take len (drop off c))) /\ holds w' c;
  dev_write_ok : forall w c off data, holds w c -> (off + length data <= length c)%nat -> whole off (length data) = true -> Forall is_byte data ->
    exists w' n, dev_write w (Z.of_nat off) data = Ret (w', Some n) /\ Z.of_nat (length data) <= n /\ holds w' (splice c off data);
}.

(** * A sequence of bytes as a device

    Nothing is said of what a device does outside its size or with ranges it does not
    serve in one piece; here such an access is a panic. *)

Definition byte_b (b : Z) : bool := (0 <=? b) && (b <? 256).

Definition flat_range (ok : nat -> nat -> bool) (c : list Z) (off len : Z) : bool :=
  (0 <=? off) && (0 <=? len) && (off <? Z.of_nat (length c)) && (off + len <=? Z.of_nat (length c)) && ok (Z.to_nat off) (Z.to_nat len).

Definition flat_device (ok : nat -> nat -> bool) : DeviceFile (list Z) := {|
  dev_read c off len :=
    if flat_range ok c off len then Ret (c, Some (take (Z.to_nat len) (drop (Z.to_nat off) c))) else Panic;
  dev_write c off data :=
    if flat_range ok c off (Z.of_nat (length data)) && forallb byte_b data
    then Ret (splice c (Z.to_nat off) data, Some (Z.of_nat (length data))) else Panic;
|}.

Lemma forallb_byte data : forallb byte_b data = true <-> Forall is_byte data.
Proof.
  induction data as [|b data IH]; [done|]. cbn [forallb]. rewrite andb_true_iff, IH, Forall_cons.
  assert (byte_b b = true <-> is_byte b) as ->; [|done]. unfold byte_b, is_byte, in_u. rewrite andb_true_iff. lia.
Qed.

Lemma flat_range_spec ok c off len : flat_range ok c off len = true <->
  0 <= off /\ 0 <= len /\ off < Z.of_nat (length c) /\ off + len <= Z.of_nat (length c) /\ ok (Z.to_nat off) (Z.to_nat len) = true.
Proof. unfold flat_range. rewrite !andb_true_iff, !Z.leb_le, Z.ltb_lt. tauto. Qed.

(** What a device does that serves the same ranges. *)
Lemma device_simulates {W} {DF : DeviceFile W} {DFok : DeviceFileOk W} w c off len data :
  holds w c ->
  (forall c' o, dev_read (DeviceFile := flat_device whole) c off len = Ret (c', o) ->
    exists w', dev_read w off len = Ret (w', o) /\ holds w' c') /\
  (forall c' o, dev_write (DeviceFile := flat_device whole) c off data = Ret (c', o) ->
    exists w' n, dev_write w off data = Ret (w', Some n) /\ Z.of_nat (length data) <= n /\
      o = Some (Z.of_nat (length data)) /\ holds w' c').
Proof.
  intros Hh. simpl. split; intros c' o.
  - destruct (flat_range whole c off len) eqn:E; [|done]. intros [= <- <-]. apply flat_range_spec in E as (H1 & H2 & H3 & H4 & H5).
    destruct (dev_read_ok w c (Z.to_nat off) (Z.to_nat len) Hh) as (w' & Ew & Hw); [lia|lia|done|].
    rewrite !Z2Nat.id in Ew by lia. eauto.
  - destruct (flat_range whole c off _ && _) eqn:E; [|done]. intros [= <- <-].
    apply andb_true_iff in E as [(H1 & H2 & H3 & H4 & H5)%flat_range_spec Hb%forallb_byte]. rewrite Nat2Z.id in H5.
    destruct (dev_write_ok w c (Z.to_nat off) data Hh) as (w' & n & Ew & Hn & Hw); [lia|done|done|].
    rewrite Z2Nat.id in Ew by lia. eauto 10.
Qed.
