(* ===== verification/Str.v ===== *)
(** Strings as the kernel and the C library use them: a [str] is the list of its
    characters, with [len] counting bytes of UTF-8; [from_utf8], [split],
    [split_once], [trim] and the tests on prefixes and suffixes. *)
From S2P Require Import Prelude MachineInt.
From Stdlib Require Strings.String Strings.Ascii.
From stdpp Require Import list sets.
#[local] Open Scope Z_scope.

(** A [str] as its characters, and its length in bytes. *)
Abbreviation str := (list Z).
Definition char_len_utf8 (c : Z) : nat :=
  if c <? 0x80 then 1%nat else if c <? 0x800 then 2%nat else if c <? 0x10000 then 3%nat else 4%nat.
Definition str_len (s : str) : nat := sum_list (char_len_utf8 <$> s).

(** A literal, and the decimal text of a number of 64 bits, which has at most twenty
    digits. *)
Definition lit (s : String.string) : str := (fun a => Z.of_N (Ascii.N_of_ascii a)) <$> String.list_ascii_of_string s.
Fixpoint dec_digits (n : nat) (z : Z) (acc : str) : str :=
  match n with
  | O => acc
  | S n => if z <? 10 then (48 + z) :: acc else dec_digits n (z / 10) ((48 + z mod 10) :: acc)
  end.
Definition dec (z : Z) : str := dec_digits 20 z [].

Lemma lit_nonneg s : Forall (fun c => 0 <= c) (lit s).
Proof. unfold lit. apply Forall_fmap, Forall_forall. intros a _. simpl. lia. Qed.

Lemma dec_nonneg z : 0 <= z -> Forall (fun c => 0 <= c) (dec z).
Proof.
  unfold dec. generalize 20%nat. intros n. assert (forall acc, Forall (fun c => 0 <= c) acc -> 0 <= z -> Forall (fun c => 0 <= c) (dec_digits n z acc)) as H.
  { revert z. induction n as [|n IH]; intros z acc Ha Hz; [done|]. cbn [dec_digits]. destruct (Z.ltb_spec z 10).
    - apply Forall_cons_2; [lia|done].
    - apply IH; [apply Forall_cons_2; [|done]|]; Z.to_euclidean_division_equations; lia. }
  intros Hz. by apply H.
Qed.

(** * Splitting *)

(** [s.split(c)]: one part more than there are separators. *)
Fixpoint str_split (c : Z) (s : str) : list str :=
  match s with
  | [] => [[]]
  | x :: rest =>
      if x =? c then [] :: str_split c rest
      else match str_split c rest with
           | part :: parts => (x :: part) :: parts
           | [] => [[x]]
           end
  end.

(** [s.split_once(c)]. *)
Fixpoint split_once (c : Z) (s : str) : option (str * str) :=
  match s with
  | [] => None
  | x :: rest =>
      if x =? c then Some ([], rest)
      else match split_once c rest with Some (a, b) => Some (x :: a, b) | None => None end
  end.

(** The parts joined with the separator. *)
Fixpoint str_join (c : Z) (parts : list str) : str :=
  match parts with
  | [] => []
  | [part] => part
  | part :: rest => part ++ c :: str_join c rest
  end.

Lemma split_not_nil c s : str_split c s <> [].
Proof. destruct s as [|x s]; simpl; [done|]. destruct (x =? c); [done|]. by destruct (str_split c s). Qed.

Lemma split_cons_other c x s : x <> c -> exists p ps, str_split c s = p :: ps /\ str_split c (x :: s) = (x :: p) :: ps.
Proof.
  intros H. simpl. rewrite (proj2 (Z.eqb_neq x c)) by done.
  destruct (str_split c s) eqn:E; [by destruct (split_not_nil c s)|]. eauto.
Qed.

Lemma split_parts c s : Forall (fun p => c ∉ p) (str_split c s).
Proof.
  induction s as [|x s IH]; [repeat constructor; set_solver|].
  destruct (Z.eqb_spec x c) as [->|Hx].
  - simpl. rewrite Z.eqb_refl. constructor; [set_solver|done].
  - destruct (split_cons_other c x s Hx) as (p & ps & E & ->). rewrite E in IH.
    inversion IH; subst. constructor; [set_solver|done].
Qed.

Lemma join_cons c p ps : ps <> [] -> str_join c (p :: ps) = p ++ c :: str_join c ps.
Proof. by destruct ps. Qed.

(** Splitting loses nothing. *)
Lemma str_join_split c s : str_join c (str_split c s) = s.
Proof.
  induction s as [|x s IH]; [done|]. destruct (Z.eqb_spec x c) as [->|Hx].
  - simpl str_split. rewrite Z.eqb_refl, join_cons by apply split_not_nil. simpl. by rewrite IH.
  - destruct (split_cons_other c x s Hx) as (p & ps & E & ->). rewrite E in IH.
    destruct ps; simpl in *; by rewrite IH.
Qed.

Lemma split_no_sep c p : c ∉ p -> str_split c p = [p].
Proof.
  induction p as [|x p IH]; intros H; [done|]. apply not_elem_of_cons in H as [H1 H2].
  simpl. rewrite (proj2 (Z.eqb_neq x c)) by congruence. by rewrite IH.
Qed.

Lemma split_app c p s : c ∉ p -> str_split c (p ++ c :: s) = p :: str_split c s.
Proof.
  induction p as [|x p IH]; intros H; simpl; [by rewrite Z.eqb_refl|].
  apply not_elem_of_cons in H as [H1 H2]. rewrite (proj2 (Z.eqb_neq x c)) by congruence. by rewrite IH.
Qed.

(** Splitting is the inverse of joining parts that are free of the separator. *)
Lemma str_split_join c parts : parts <> [] -> Forall (fun p => c ∉ p) parts -> str_split c (str_join c parts) = parts.
Proof.
  induction parts as [|p parts IH]; intros Hn H; [done|]. inversion H; subst. destruct parts as [|q parts].
  - by apply split_no_sep.
  - rewrite join_cons, split_app by done. by rewrite IH.
Qed.

Lemma split_once_spec c s a b : split_once c s = Some (a, b) <-> s = a ++ c :: b /\ c ∉ a.
Proof.
  revert a. induction s as [|x s IH]; intros a; simpl.
  - split; [done|]. by intros [?%app_cons_not_nil ?].
  - destruct (Z.eqb_spec x c) as [->|Hx].
    + split; [intros [= <- <-]; set_solver|]. intros [E Ha]. destruct a as [|y a]; simplify_eq/=; [done|set_solver].
    + destruct (split_once c s) as [[a' b']|] eqn:E.
      * split; [intros [= <- <-]; destruct (proj1 (IH a') eq_refl) as [-> ?]; set_solver|].
        intros [Es Ha]. destruct a as [|y a]; simplify_eq/=. apply not_elem_of_cons in Ha as [_ Ha].
        by injection (proj2 (IH a) (conj eq_refl Ha)) as -> ->.
      * split; [done|]. intros [Es Ha]. destruct a as [|y a]; simplify_eq/=. apply not_elem_of_cons in Ha as [_ Ha].
        by specialize (proj2 (IH a) (conj eq_refl Ha)).
Qed.

(** * Trimming *)

(** [char::is_whitespace]: the characters with the Unicode property White_Space. *)
Definition is_whitespace (c : Z) : bool :=
  ((9 <=? c) && (c <=? 13)) || (c =? 32) || (c =? 0x85) || (c =? 0xa0) || (c =? 0x1680) ||
  ((0x2000 <=? c) && (c <=? 0x200a)) || (c =? 0x2028) || (c =? 0x2029) || (c =? 0x202f) ||
  (c =? 0x205f) || (c =? 0x3000).

Fixpoint trim_start (s : str) : str :=
  match s with
  | [] => []
  | c :: rest => if is_whitespace c then trim_start rest else s
  end.
Definition trim (s : str) : str := reverse (trim_start (reverse (trim_start s))).

Lemma trim_start_suffix s : exists w, s = w ++ trim_start s /\ Forall (fun c => is_whitespace c = true) w.
Proof.
  induction s as [|c s (w & E & Hw)]; simpl; [by exists []|]. destruct (is_whitespace c) eqn:Ec.
  - exists (c :: w). split; [by rewrite E at 1|by constructor].
  - by exists [].
Qed.

Lemma trim_start_head s c r : trim_start s = c :: r -> is_whitespace c = false.
Proof. induction s as [|x s IH]; simpl; [done|]. destruct (is_whitespace x) eqn:E; [done|congruence]. Qed.

Lemma trim_start_id s : (forall c r, s = c :: r -> is_whitespace c = false) -> trim_start s = s.
Proof. destruct s as [|c s]; intros H; [done|]. simpl. by rewrite (H c s eq_refl). Qed.

Lemma trim_start_twice s : trim_start (trim_start s) = trim_start s.
Proof. apply trim_start_id. intros c r. apply trim_start_head. Qed.

(** Trimming the end of a string that starts with a visible character keeps its
    first character. *)
Lemma trim_end_head s c r :
  is_whitespace c = false -> s = c :: r -> exists r', reverse (trim_start (reverse s)) = c :: r'.
Proof.
  intros Hc ->. destruct (trim_start_suffix (reverse (c :: r))) as (w & E & Hw).
  apply (f_equal (@reverse Z)) in E. rewrite reverse_involutive, reverse_app in E.
  destruct (reverse (trim_start (reverse (c :: r)))) as [|d t] eqn:Et.
  - simpl in E. rewrite list.Forall_forall in Hw.
    rewrite (Hw c) in Hc; [done|]. apply elem_of_reverse. rewrite <- E. by left.
  - simpl in E. injection E as -> _. eauto.
Qed.

Lemma trim_twice s : trim (trim s) = trim s.
Proof.
  unfold trim. set (t := trim_start s).
  assert (trim_start (reverse (trim_start (reverse t))) = reverse (trim_start (reverse t))) as ->.
  { apply trim_start_id. intros c r E. destruct t as [|d t'] eqn:Et; [done|].
    apply trim_start_head in Et. destruct (trim_end_head (d :: t') d t' Et eq_refl) as [r' E']. congruence. }
  by rewrite reverse_involutive, trim_start_twice.
Qed.

Lemma trim_start_elem c s : c ∈ trim_start s -> c ∈ s.
Proof. intros H. destruct (trim_start_suffix s) as (w & -> & _). set_solver. Qed.

Lemma trim_elem c s : c ∈ trim s -> c ∈ s.
Proof.
  unfold trim. rewrite elem_of_reverse. intros H%trim_start_elem. rewrite elem_of_reverse in H.
  by apply trim_start_elem.
Qed.

(** * UTF-8 *)

Definition is_cont (b : Z) : bool := (0x80 <=? b) && (b <=? 0xbf).

(** The first two bytes of a sequence of three or four: neither overlong, nor a
    surrogate, nor above the last character. *)
Definition lead3 (b0 b1 : Z) : bool :=
  (((b0 =? 0xe0) && (0xa0 <=? b1)) || ((0xe1 <=? b0) && (b0 <=? 0xec)) ||
   ((b0 =? 0xed) && (b1 <=? 0x9f)) || ((0xee <=? b0) && (b0 <=? 0xef))) && is_cont b1.
Definition lead4 (b0 b1 : Z) : bool :=
  (((b0 =? 0xf0) && (0x90 <=? b1)) || ((0xf1 <=? b0) && (b0 <=? 0xf3)) ||
   ((b0 =? 0xf4) && (b1 <=? 0x8f))) && is_cont b1.

(** [core::str::from_utf8]. *)
Fixpoint from_utf8 (bs : list Z) : option str :=
  match bs with
  | [] => Some []
  | b0 :: t0 =>
    if b0 <? 0x80 then cons b0 <$> from_utf8 t0 else
    match t0 with
    | [] => None
    | b1 :: t1 =>
      if (0xc2 <=? b0) && (b0 <=? 0xdf) && is_cont b1
      then cons ((b0 - 0xc0) * 64 + (b1 - 0x80)) <$> from_utf8 t1 else
      match t1 with
      | [] => None
      | b2 :: t2 =>
        if lead3 b0 b1 && is_cont b2
        then cons (((b0 - 0xe0) * 64 + (b1 - 0x80)) * 64 + (b2 - 0x80)) <$> from_utf8 t2 else
        match t2 with
        | [] => None
        | b3 :: t3 =>
          if lead4 b0 b1 && is_cont b2 && is_cont b3
          then cons ((((b0 - 0xf0) * 64 + (b1 - 0x80)) * 64 + (b2 - 0x80)) * 64 + (b3 - 0x80)) <$> from_utf8 t3
          else None
        end
      end
    end
  end.

(** The bytes of a [char], and the values a [char] can have. *)
Definition utf8_char (c : Z) : list Z :=
  if c <? 0x80 then [c]
  else if c <? 0x800 then [0xc0 + c / 64; 0x80 + c mod 64]
  else if c <? 0x10000 then [0xe0 + c / 4096; 0x80 + c / 64 mod 64; 0x80 + c mod 64]
  else [0xf0 + c / 262144; 0x80 + c / 4096 mod 64; 0x80 + c / 64 mod 64; 0x80 + c mod 64].
Definition as_bytes (s : str) : list Z := concat (utf8_char <$> s).
Definition char_ok (c : Z) : Prop := 0 <= c < 0xd800 \/ 0xe000 <= c < 0x110000.

(** Decides the byte tests of [from_utf8] with linear arithmetic. *)
Ltac utf8_tests :=
  unfold lead3, lead4, is_cont in *;
  repeat match goal with
  | |- context [?a <? ?b] => destruct (Z.ltb_spec a b); try lia
  | |- context [?a <=? ?b] => destruct (Z.leb_spec a b); try lia
  | |- context [?a =? ?b] => destruct (Z.eqb_spec a b); try lia
  end.

Lemma from_utf8_char c bs : char_ok c -> from_utf8 (utf8_char c ++ bs) = cons c <$> from_utf8 bs.
Proof.
  intros Hc. unfold char_ok in Hc. unfold utf8_char.
  destruct (Z.ltb_spec c 0x80); [cbn [app from_utf8]; by rewrite (proj2 (Z.ltb_lt _ _))|].
  destruct (Z.ltb_spec c 0x800); [|destruct (Z.ltb_spec c 0x10000)]; cbn [app from_utf8];
    Z.to_euclidean_division_equations;
    utf8_tests; cbn [andb orb]; f_equal; f_equal; lia.
Qed.

(** Every string comes back from its bytes. *)
Lemma from_utf8_as_bytes s : Forall char_ok s -> from_utf8 (as_bytes s) = Some s.
Proof.
  induction 1 as [|c s Hc _ IH]; [done|]. change (as_bytes (c :: s)) with (utf8_char c ++ as_bytes s).
  by rewrite from_utf8_char, IH.
Qed.

Lemma as_bytes_length s : length (as_bytes s) = str_len s.
Proof.
  induction s as [|c s IH]; [done|]. change (as_bytes (c :: s)) with (utf8_char c ++ as_bytes s).
  rewrite length_app, IH. unfold str_len, utf8_char, char_len_utf8. simpl.
  destruct (c <? 0x80), (c <? 0x800), (c <? 0x10000); done.
Qed.
