(* ===== verification/Path.v ===== *)
(** Paths: struct Path of kernel/src/vfs.rs.  A path is the text of an absolute
    path; [canonicalize] removes [.], [..] and doubled slashes by a walk from the
    end, which the theorems compare with the usual walk from the front. *)
From S2P Require Import Prelude MachineInt Str.
From stdpp Require Import list sets.
#[local] Open Scope Z_scope.

Definition slash : Z := 47.
Definition dot : str := [46].
Definition dotdot : str := [46; 46].

Record Path := MkPath { path_inner : str }.

#[export] Instance Path_eq_dec : EqDecision Path.
Proof. solve_decision. Defined.

Definition root : Path := MkPath [slash].

(** [self.inner.split("/").filter(|val| !val.is_empty()).last()]. *)
Definition path_last (p : Path) : option str := last (filter (.≠ []) (str_split slash (path_inner p))).

(** [value.starts_with("/")] and [value.ends_with('/')]. *)
Definition starts_with_slash (s : str) : bool := match s with c :: _ => c =? slash | [] => false end.
Definition ends_with_slash (s : str) : bool := match last s with Some c => c =? slash | None => false end.

(** [TryFrom<&str>]; a trailing slash is dropped. *)
Definition try_from_str (value : str) : option Path :=
  if decide (value = [slash]) then Some root
  else if negb (starts_with_slash value) then None
  else if ends_with_slash value then Some (MkPath (removelast value))
  else Some (MkPath value).

(** [TryFrom<String>]. *)
Definition try_from_string (value : str) : option Path :=
  if negb (starts_with_slash value) then None
  else if negb (bool_decide (slash ∈ value)) then None
  else Some (MkPath value).

(** The loop of [canonicalize] over [rsplit("/")]. *)
Fixpoint canonical_loop (parts : list str) (parts_to_skip : nat) (canonical_path : list str) : list str :=
  match parts with
  | [] => canonical_path
  | part :: rest =>
      if decide (part = dot \/ part = []) then canonical_loop rest parts_to_skip canonical_path
      else if decide (part = dotdot) then canonical_loop rest (S parts_to_skip) canonical_path
      else match parts_to_skip with
           | S n => canonical_loop rest n canonical_path
           | O => canonical_loop rest O (canonical_path ++ [part])
           end
  end.

(** [["/", part].concat()] of each part, collected. *)
Definition abs_path (parts : list str) : str := concat (cons slash <$> parts).

Definition canonicalize (p : Path) : outcome Path :=
  let canonical_path := canonical_loop (reverse (str_split slash (path_inner p))) 0 [] in
  if decide (canonical_path = []) then Ret root
  else unwrap (try_from_string (abs_path (reverse canonical_path))).

(** The loop of [del_last], on the reversed text: [pop] takes the head. *)
Fixpoint del_loop (rev_inner : str) : str :=
  match rev_inner with
  | [] => []
  | c :: rest => if c =? slash then (if decide (rest = []) then [slash] else rest) else del_loop rest
  end.
Definition del_last (p : Path) : Path := MkPath (reverse (del_loop (reverse (path_inner p)))).

Definition append_str (p : Path) (subnode : str) : Path :=
  MkPath ((if negb (ends_with_slash (path_inner p)) then path_inner p ++ [slash] else path_inner p) ++ subnode).

Definition into_inner (p : Path) : str := path_inner p.

(** * Canonical paths *)

(** A part that names an entry. *)
Definition proper (part : str) : Prop := part <> [] /\ part <> dot /\ part <> dotdot /\ slash ∉ part.

#[export] Instance proper_dec part : Decision (proper part).
Proof. unfold proper. apply _. Defined.

(** The text of the path with these parts. *)
Definition path_of (parts : list str) : Path := MkPath (if decide (parts = []) then [slash] else abs_path parts).

(** The meaning of a path: its parts read from the front, each name entering a
    folder, [..] leaving it, with nothing above the root. *)
Definition enter (stack : list str) (part : str) : list str :=
  if decide (part = dot \/ part = []) then stack
  else if decide (part = dotdot) then tail stack
  else part :: stack.
Definition meaning (p : Path) : list str := reverse (fold_left enter (str_split slash (path_inner p)) []).

(** The walk from the end, [n] names still to skip, agrees with the walk from the
    front, whose last [n] entries are then left out. *)
Lemma canonical_loop_meaning parts n acc :
  canonical_loop (reverse parts) n acc = acc ++ drop n (fold_left enter parts []).
Proof.
  revert n acc. induction parts as [|part parts IH] using rev_ind; intros n acc.
  { simpl. by rewrite drop_nil, app_nil_r. }
  rewrite reverse_snoc, fold_left_app. cbn [canonical_loop fold_left]. unfold enter at 1.
  destruct (decide (part = dot \/ part = [])); [apply IH|]. destruct (decide (part = dotdot)).
  - rewrite IH. f_equal. destruct (fold_left enter parts []); simpl; by rewrite ?drop_nil, ?drop_0.
  - destruct n; rewrite IH; [by rewrite <- app_assoc|done].
Qed.

Lemma enter_proper stack part : slash ∉ part -> Forall proper stack -> Forall proper (enter stack part).
Proof.
  intros Hs H. unfold enter. destruct (decide _) as [|Hd]; [done|]. destruct (decide _).
  - destruct H; by simpl.
  - constructor; [|done]. unfold proper. tauto.
Qed.

Lemma meaning_proper p : Forall proper (meaning p).
Proof.
  unfold meaning. apply Forall_reverse.
  assert (forall parts stack, Forall (fun q => slash ∉ q) parts -> Forall proper stack ->
    Forall proper (fold_left enter parts stack)) as H.
  { induction parts as [|q parts IH]; intros stack Hp Hs; simpl; [done|]. inversion Hp; subst.
    apply IH; [done|]. by apply enter_proper. }
  apply H; [apply split_parts|constructor].
Qed.

Lemma abs_path_starts parts : parts <> [] -> exists t, abs_path parts = slash :: t.
Proof. destruct parts as [|q parts]; [done|]. intros _. eexists. reflexivity. Qed.

Lemma canonicalize_meaning p : canonicalize p = Ret (path_of (meaning p)).
Proof.
  unfold canonicalize. rewrite canonical_loop_meaning. simpl. rewrite drop_0. fold (meaning p).
  unfold path_of. unfold meaning. set (l := fold_left enter _ _).
  destruct (decide (l = [])) as [->|Hl]; [done|].
  rewrite decide_False by (intros H%(f_equal reverse); rewrite reverse_involutive in H; done).
  assert (reverse l <> []) as Hr by (intros H%(f_equal reverse); rewrite reverse_involutive in H; done).
  destruct (abs_path_starts (reverse l) Hr) as [t E]. rewrite E. unfold try_from_string.
  cbn [starts_with_slash]. rewrite Z.eqb_refl, bool_decide_true by by left. done.
Qed.

(** The text of a path determines its parts. *)
Lemma abs_path_cons q parts : abs_path (q :: parts) = slash :: q ++ abs_path parts.
Proof. reflexivity. Qed.

Lemma split_abs_path parts : Forall (fun q => slash ∉ q) parts -> parts <> [] -> str_split slash (abs_path parts) = [] :: parts.
Proof.
  intros H Hn. assert (abs_path parts = str_join slash ([] :: parts)) as ->.
  { clear H. induction parts as [|q parts IH]; [done|]. rewrite abs_path_cons. destruct parts as [|r parts].
    - by rewrite app_nil_r.
    - rewrite IH by done. done. }
  apply str_split_join; [done|]. constructor; [set_solver|done].
Qed.

Lemma proper_no_slash parts : Forall proper parts -> Forall (fun q => slash ∉ q) parts.
Proof. intros H. eapply list.Forall_impl; [exact H|]. by intros q (_ & _ & _ & ?). Qed.

Lemma split_path_of parts :
  Forall (fun q => slash ∉ q) parts ->
  str_split slash (path_inner (path_of parts)) = if decide (parts = []) then [[]; []] else [] :: parts.
Proof.
  intros H. unfold path_of. destruct (decide (parts = [])) as [->|Hn]; [done|]. by apply split_abs_path.
Qed.

Lemma fold_enter_proper parts stack : Forall proper parts -> fold_left enter parts stack = reverse parts ++ stack.
Proof.
  revert stack. induction parts as [|q parts IH]; intros stack H; [done|]. inversion H as [|? ? (H1 & H2 & H3 & _)]; subst.
  cbn [fold_left]. rewrite IH by done. unfold enter. rewrite decide_False by tauto. rewrite decide_False by done.
  by rewrite reverse_cons, <- app_assoc.
Qed.

Lemma meaning_path_of parts : Forall proper parts -> meaning (path_of parts) = parts.
Proof.
  intros H. unfold meaning. rewrite split_path_of by by apply proper_no_slash.
  destruct (decide (parts = [])) as [->|]; [done|]. simpl. rewrite fold_enter_proper by done.
  by rewrite app_nil_r, reverse_involutive.
Qed.

Lemma path_of_inj l1 l2 : Forall proper l1 -> Forall proper l2 -> path_of l1 = path_of l2 -> l1 = l2.
Proof. intros H1 H2 E. rewrite <- (meaning_path_of l1 H1), <- (meaning_path_of l2 H2). by rewrite E. Qed.

(** C15: [canonicalize] never panics and computes the meaning of the path: reading
    its parts from the front, skipping [.] and empty parts, and letting [..] leave
    the last folder entered (or stay at the root).  The result names no [.], [..]
    or empty part, and canonicalizing it again changes nothing. *)
Theorem canonicalize_correct p :
  exists q, canonicalize p = Ret q /\ q = path_of (meaning p) /\ Forall proper (meaning p) /\
    meaning q = meaning p /\ canonicalize q = Ret q.
Proof.
  exists (path_of (meaning p)). rewrite !canonicalize_meaning.
  rewrite meaning_path_of by apply meaning_proper. split_and!; try done. apply meaning_proper.
Qed.

(** * Parents and children *)

Lemma last_filter_proper parts : Forall proper parts -> filter (.≠ []) parts = parts.
Proof.
  induction 1 as [|q parts (Hq & _) _ IH]; [done|]. rewrite filter_cons_True by done. by rewrite IH.
Qed.

Lemma path_last_path_of parts : Forall proper parts -> path_last (path_of parts) = last parts.
Proof.
  intros H. unfold path_last. rewrite split_path_of by by apply proper_no_slash.
  destruct (decide (parts = [])) as [->|]; [done|]. rewrite filter_cons_False by naive_solver.
  by rewrite last_filter_proper.
Qed.

Lemma abs_path_snoc parts x : abs_path (parts ++ [x]) = abs_path parts ++ slash :: x.
Proof. unfold abs_path. rewrite fmap_app, concat_app. simpl. by rewrite app_nil_r. Qed.

Lemma path_inner_snoc parts x : path_inner (path_of (parts ++ [x])) = abs_path parts ++ slash :: x.
Proof.
  unfold path_of. rewrite decide_False by (intros [_ ?]%app_eq_nil; done). apply abs_path_snoc.
Qed.

Lemma del_loop_skip w c t : slash ∉ w -> c = slash -> del_loop (w ++ c :: t) = if decide (t = []) then [slash] else t.
Proof.
  intros Hw ->. induction w as [|x w IH]; simpl; [done|]. apply not_elem_of_cons in Hw as [? ?].
  rewrite (proj2 (Z.eqb_neq x slash)) by congruence. by apply IH.
Qed.

Lemma del_last_snoc parts x : slash ∉ x -> del_last (path_of (parts ++ [x])) = path_of parts.
Proof.
  intros Hx. unfold del_last. rewrite path_inner_snoc, reverse_app, reverse_cons, <- app_assoc. simpl app.
  rewrite del_loop_skip by (done || by rewrite elem_of_reverse). unfold path_of.
  destruct parts as [|q parts] using rev_ind; [done|].
  rewrite (decide_False (P := reverse _ = [])), (decide_False (P := _ ++ _ = [])); [by rewrite reverse_involutive| |].
  - intros [_ ?]%app_eq_nil. done.
  - rewrite abs_path_snoc, reverse_app, reverse_cons. intros [[_ ?]%app_eq_nil _]%app_eq_nil. done.
Qed.

Lemma ends_with_slash_path_of parts :
  Forall proper parts -> ends_with_slash (path_inner (path_of parts)) = bool_decide (parts = []).
Proof.
  intros H. destruct parts as [|x parts _] using rev_ind; [done|].
  rewrite bool_decide_false by (intros [_ ?]%app_eq_nil; done). rewrite path_inner_snoc.
  apply Forall_app in H as [_ H]. inversion H as [|? ? (Hx & _ & _ & Hs)]; subst.
  unfold ends_with_slash. destruct x as [|c x _] using rev_ind; [done|].
  rewrite app_comm_cons, app_assoc, last_snoc. apply Z.eqb_neq. set_solver.
Qed.

Lemma append_str_path_of parts x : Forall proper parts -> append_str (path_of parts) x = path_of (parts ++ [x]).
Proof.
  intros H. unfold append_str. rewrite ends_with_slash_path_of by done.
  destruct parts as [|q parts]; [by unfold path_of, abs_path; simpl; rewrite app_nil_r|].
  unfold path_of. rewrite !decide_False by done. cbn [path_inner bool_decide].
  rewrite bool_decide_false by done. cbn [negb]. rewrite abs_path_snoc, <- app_assoc. done.
Qed.

(** On canonical paths the last part, the parent and a child are what their
    names say: [last] is the last part, [del_last] gives the path of the folder
    that holds it, and [append_str] goes back. *)
Theorem path_parent_child parts x :
  Forall proper (parts ++ [x]) ->
  path_last (path_of (parts ++ [x])) = Some x /\
  del_last (path_of (parts ++ [x])) = path_of parts /\
  append_str (path_of parts) x = path_of (parts ++ [x]).
Proof.
  intros H. pose proof H as [Hp Hx]%Forall_app. inversion Hx as [|? ? (_ & _ & _ & Hs)]; subst.
  split_and!; [|by apply del_last_snoc|by apply append_str_path_of].
  rewrite path_last_path_of, last_snoc by done. done.
Qed.

Lemma path_parent_child_witness :
  path_last (path_of [[98; 105; 110]; [108; 115]]) = Some [108; 115] /\
  del_last (path_of [[98; 105; 110]; [108; 115]]) = path_of [[98; 105; 110]] /\
  append_str (path_of [[98; 105; 110]]) [108; 115] = path_of [[98; 105; 110]; [108; 115]].
Proof.
  refine (path_parent_child [[98; 105; 110]] [108; 115] _).
  apply (bool_decide_unpack _). vm_compute. exact I.
Defined.
