(* ===== verification/Vfs.v ===== *)
(** The virtual file system: the traits IFile and IFolder and the nodes of
    kernel/src/vfs.rs, the root file system with its mountpoints, path lookup, and
    the device folder of devfs.rs.

    A trait object behind an Rc is a handle into the state of the file system it
    belongs to; [FileSystem] is the interface of such a state.  Methods that take
    [&self] leave the state alone.  The root file system keeps its nodes in a
    store indexed by the order of their creation, lies over a mounted file system,
    and is again an instance of the interface. *)
From S2P Require Import Prelude MachineInt Str Path.
From stdpp Require Import list sets.
#[local] Open Scope Z_scope.

Inductive NodeType := TFile | TFolder.

Inductive Node (F D : Type) := File (f : F) | Folder (d : D).
Arguments File {F D} f.
Arguments Folder {F D} d.

(** The traits IFile and IFolder, for a state [W] with files [F] and folders
    [D]. *)
Class FileSystem (W F D : Type) := {
  file_read : W -> F -> Z -> Z -> outcome (option (list Z));
  file_write : W -> F -> Z -> list Z -> outcome (W * option Z);
  get_size : W -> F -> outcome Z;
  resize_file : W -> F -> Z -> outcome (W * option unit);
  get_children : W -> D -> outcome (list (str * Node F D));
  create_empty_child : W -> D -> str -> NodeType -> outcome (W * option (Node F D));
  unlink_or_delete_empty_child : W -> D -> str -> outcome (W * option unit);
}.

Definition expect_folder {F D} (n : Node F D) : outcome D :=
  match n with Folder d => Ret d | File _ => Panic end.
Definition expect_file {F D} (n : Node F D) : outcome F :=
  match n with File f => Ret f | Folder _ => Panic end.

(** * The device folder *)

Record DevFS (F : Type) := MkDevFS { disk_devices : list (str * F) }.
Arguments MkDevFS {F} _.
Arguments disk_devices {F} _.

Definition devfs_new {F} : DevFS F := MkDevFS [].
Definition add_device_file {F} (d : DevFS F) (dev : F) (name : str) : DevFS F :=
  MkDevFS (disk_devices d ++ [(name, dev)]).
Definition devfs_children {F D} (d : DevFS F) : list (str * Node F D) :=
  (fun c => (c.1, File c.2)) <$> disk_devices d.

(** * Path lookup *)

(** The first child with the name. *)
Definition find_child {A} (children : list (str * A)) (name : str) : option A :=
  snd ∘ snd <$> list_find (fun c => c.1 = name) children.

Lemma find_child_cons {A} c (x : A) l name :
  find_child ((c, x) :: l) name = if decide (c = name) then Some x else find_child l name.
Proof.
  unfold find_child. cbn [list_find]. simpl. destruct (decide (c = name)); [done|].
  by destruct (list_find _ l) as [[]|].
Qed.

Lemma find_child_app {A} (l1 l2 : list (str * A)) name :
  find_child (l1 ++ l2) name = match find_child l1 name with Some x => Some x | None => find_child l2 name end.
Proof.
  induction l1 as [|[c x] l1 IH]; [done|]. rewrite <- app_comm_cons, !find_child_cons. by destruct (decide _).
Qed.

Lemma find_child_distinct {A} (l : list (str * A)) name x : NoDup l.*1 -> (name, x) ∈ l -> find_child l name = Some x.
Proof.
  induction l as [|[c y] l IH]; intros Hd Hin; [by apply not_elem_of_nil in Hin|]. cbn [fmap list_fmap] in Hd. apply NoDup_cons in Hd as [Hc Hd].
  rewrite find_child_cons. apply elem_of_cons in Hin as [[= <- <-]|Hin]; [by rewrite decide_True|].
  rewrite decide_False; [by apply IH|]. intros ->. apply Hc. by apply (list_elem_of_fmap_2 fst) in Hin.
Qed.

Lemma find_child_None {A} (l : list (str * A)) name : find_child l name = None <-> name ∉ l.*1.
Proof.
  induction l as [|[c x] l IH]; [set_solver|]. rewrite find_child_cons. cbn [fmap list_fmap fst].
  rewrite not_elem_of_cons, <- IH. destruct (decide _); naive_solver.
Qed.

Section Lookup.
Context {W F D : Type} `{FileSystem W F D}.
Implicit Types w : W.

(** The loop of [get_node]: [nodes] are the parts still to be searched for. *)
Fixpoint get_node_loop w (self : Path) (cur_node : Node F D) (cur_path : Path) (nodes : list str)
  : outcome (option (Node F D)) :=
  if decide (cur_path = self) then Ret (Some cur_node)
  else match nodes with
  | [] => Ret (Some cur_node)
  | node :: nodes =>
      let to_find := trim node in
      if decide (to_find = []) then get_node_loop w self cur_node cur_path nodes
      else
        let! folder := expect_folder cur_node in
        let! children := get_children w folder in
        match find_child children to_find with
        | Some child_node => get_node_loop w self child_node (append_str cur_path to_find) nodes
        | None => Ret None
        end
  end.

(** [vfs_root] is the folder VFS_ROOT holds. *)
Definition get_node w (vfs_root : D) (self : Path) : outcome (option (Node F D)) :=
  get_node_loop w self (Folder vfs_root) root (str_split slash (path_inner self)).

(** What a lookup means: one folder entered per name. *)
Fixpoint resolve w (cur_node : Node F D) (names : list str) : outcome (option (Node F D)) :=
  match names with
  | [] => Ret (Some cur_node)
  | name :: names =>
      let! folder := expect_folder cur_node in
      let! children := get_children w folder in
      match find_child children name with
      | Some child_node => resolve w child_node names
      | None => Ret None
      end
  end.

(** The names of a path: its parts without surrounding blanks, the empty ones
    left out. *)
Definition names_of (parts : list str) : list str := filter (.≠ []) (trim <$> parts).
Definition path_names (p : Path) : list str := names_of (str_split slash (path_inner p)).

End Lookup.

Lemma names_of_cons part parts :
  names_of (part :: parts) = if decide (trim part = []) then names_of parts else trim part :: names_of parts.
Proof. unfold names_of. cbn [fmap list_fmap]. rewrite filter_cons. case_decide; case_decide; naive_solver. Qed.

Lemma names_of_app l1 l2 : names_of (l1 ++ l2) = names_of l1 ++ names_of l2.
Proof. unfold names_of. by rewrite fmap_app, filter_app. Qed.

Lemma names_of_trimmed parts : names_of (names_of parts) = names_of parts.
Proof.
  induction parts as [|part parts IH]; [done|]. rewrite names_of_cons. case_decide as Hd; [done|].
  rewrite names_of_cons, trim_twice, IH. by rewrite decide_False.
Qed.

Lemma names_of_no_slash parts : Forall (fun q => slash ∉ q) parts -> Forall (fun q => slash ∉ q) (names_of parts).
Proof.
  intros H. rewrite list.Forall_forall in *. unfold names_of.
  intros q [_ (p & -> & Hp)%list_elem_of_fmap]%list_elem_of_filter Hin. by apply (H p Hp), trim_elem.
Qed.

(** A path whose text is the text of the names found so far has no further
    names. *)
Lemma path_text_names parts done_ rest :
  Forall (fun q => slash ∉ q) done_ -> names_of done_ = done_ ->
  parts = str_split slash (path_inner (path_of done_)) -> names_of parts = done_ ++ names_of rest -> names_of rest = [].
Proof.
  intros Hs Hd -> E. rewrite split_path_of in E by done.
  apply (f_equal length) in E. rewrite length_app in E. apply length_zero_iff_nil.
  destruct (decide (done_ = [])) as [->|]; [by simpl in E; lia|].
  change (names_of ([] :: done_)) with (names_of done_) in E. rewrite Hd in E. lia.
Qed.

Section LookupSpec.
Context {W F D : Type} `{FileSystem W F D}.

Lemma append_str_text done_ x :
  Forall (fun q => slash ∉ q /\ q <> []) done_ -> append_str (path_of done_) x = path_of (done_ ++ [x]).
Proof.
  intros Hs. unfold append_str. destruct done_ as [|q done_ _] using rev_ind.
  { unfold path_of, abs_path. simpl. by rewrite app_nil_r. }
  assert (ends_with_slash (path_inner (path_of (done_ ++ [q]))) = false) as ->.
  { rewrite path_inner_snoc. apply Forall_app in Hs as [_ Hs]. inversion Hs as [|? ? [Hq Hn]]; subst.
    unfold ends_with_slash. destruct q as [|c q _] using rev_ind; [done|].
    rewrite app_comm_cons, app_assoc, last_snoc. apply Z.eqb_neq. set_solver. }
  cbn [negb]. unfold path_of. rewrite !decide_False by (intros [[]%app_eq_nil ?]%app_eq_nil || intros []%app_eq_nil; done).
  cbn [path_inner]. by rewrite (abs_path_snoc (done_ ++ [q]) x), <- app_assoc.
Qed.

Lemma get_node_loop_resolves w self rest : forall done_ cur_node,
  names_of done_ = done_ -> Forall (fun q => slash ∉ q) done_ -> Forall (fun q => slash ∉ q) rest ->
  path_names self = done_ ++ names_of rest ->
  get_node_loop w self cur_node (path_of done_) rest = resolve w cur_node (names_of rest).
Proof.
  induction rest as [|part rest IH]; intros done_ cur_node Hd Hs Hr E.
  - simpl. by destruct (decide _).
  - cbn [get_node_loop]. destruct (decide _) as [<-|Hne].
    { by rewrite (path_text_names _ done_ (part :: rest) Hs Hd eq_refl E). }
    inversion Hr as [|? ? Hp Hr']; subst. rewrite names_of_cons in E |- *.
    destruct (decide (trim part = [])); [by apply IH|]. cbn [resolve].
    destruct (expect_folder cur_node); [|done]. cbn [obind]. destruct (get_children w a); [|done]. cbn [obind].
    destruct (find_child a0 (trim part)) as [child|]; [|done].
    rewrite append_str_text.
    + apply IH; [|apply Forall_app; split; [done|]|done|by rewrite <- app_assoc].
      * rewrite names_of_app, Hd, names_of_cons, trim_twice. by rewrite decide_False.
      * constructor; [|constructor]. intros Hin. by apply Hp, trim_elem.
    + rewrite <- Hd. unfold names_of. rewrite list.Forall_forall. intros q [Hq Hin]%list_elem_of_filter.
      split; [|done]. rewrite list.Forall_forall in Hs. apply Hs. rewrite <- Hd.
      unfold names_of. by apply list_elem_of_filter.
Qed.

Lemma get_node_is_resolve w vfs_root self :
  get_node w vfs_root self = resolve w (Folder vfs_root) (path_names self).
Proof.
  apply (get_node_loop_resolves w self _ []); [done|constructor|apply split_parts|done].
Qed.

(** C22: [get_node] enters one folder per name of the path, in order, and reports
    the node it ends at: stopping early when the text of the current path equals
    the text of the wanted one never changes the answer. *)
Theorem get_node_resolves w vfs_root self :
  get_node w vfs_root self = resolve w (Folder vfs_root) (path_names self).
Proof. apply get_node_is_resolve. Qed.

Lemma resolve_app w names names' node :
  resolve w node (names ++ names') =
  let! r := resolve w node names in
  match r with Some node' => resolve w node' names' | None => Ret None end.
Proof.
  revert node. induction names as [|name names IH]; intros node; [done|]. cbn [app resolve].
  destruct (expect_folder node) as [d|]; [|done]. cbn [obind]. destruct (get_children w d) as [cs|]; [|done]. cbn [obind].
  by destruct (find_child cs name).
Qed.

(** A path that goes on below a file stops the kernel: the lookup expects a
    folder there and panics instead of reporting that there is no such node. *)
Theorem lookup_below_file_panics w vfs_root self names name rest (f : F) :
  path_names self = names ++ name :: rest -> resolve w (Folder vfs_root) names = Ret (Some (File f)) ->
  get_node w vfs_root self = Panic.
Proof. intros E Hf. rewrite get_node_is_resolve, E, resolve_app, Hf. done. Qed.

End LookupSpec.
