(* ===== verification/RootFs.v ===== *)
(** The root file system: struct RootFSNode of kernel/src/vfs.rs, a tree of
    folders in memory over which other file systems are mounted.  Nodes behind Rc
    are indices into a store that only grows; the mounted folders belong to a file
    system below, and the whole is a [FileSystem] again.

    The examples use a file system in memory: one folder of files, each a sequence of
    bytes. *)
From S2P Require Import Prelude MachineInt Str Path Vfs.
From stdpp Require Import list sets relations.
#[local] Open Scope Z_scope.

Record RootFSNode (D : Type) := MkRootNode {
  rn_path : Path;
  rn_parent : option nat;
  rn_children : list nat;
  mountpoint : option D;
}.
Arguments MkRootNode {D} _ _ _ _.
Arguments rn_path {D} _.
Arguments rn_parent {D} _.
Arguments rn_children {D} _.
Arguments mountpoint {D} _.

(** The nodes, and the state of the file systems that are mounted. *)
Record RootFS (W D : Type) := MkRootFS { nodes : list (RootFSNode D); mounted : W }.
Arguments MkRootFS {W D} _ _.
Arguments nodes {W D} _.
Arguments mounted {W D} _.

Inductive RootDir (D : Type) := RootNode (i : nat) | Mounted (d : D).
Arguments RootNode {D} i.
Arguments Mounted {D} d.

Section RootFs.
Context {W F D : Type} {FS : FileSystem W F D}.
Implicit Types (s : RootFS W D) (n : RootFSNode D).

Definition get_rootnode s (i : nat) : outcome (RootFSNode D) := unwrap (nodes s !! i).
Definition set_rootnode s (i : nat) n : RootFS W D := MkRootFS (<[i := n]> (nodes s)) (mounted s).
Definition set_children n (l : list nat) : RootFSNode D := MkRootNode (rn_path n) (rn_parent n) l (mountpoint n).
Definition set_mountpoint n (m : option D) : RootFSNode D := MkRootNode (rn_path n) (rn_parent n) (rn_children n) m.
Definition set_mounted s (w : W) : RootFS W D := MkRootFS (nodes s) w.

Definition new_root : RootFSNode D := MkRootNode root None [] None.

Definition new_folder s (slf : nat) (name : str) : outcome (RootFS W D * nat) :=
  let! n := get_rootnode s slf in
  let new_p := append_str (rn_path n) name in
  let new_f := length (nodes s) in
  let s := MkRootFS (nodes s ++ [MkRootNode new_p (Some slf) [] None]) (mounted s) in
  Ret (set_rootnode s slf (set_children n (rn_children n ++ [new_f])), new_f).

(** * As a folder *)

Definition lift_node (n : Node F D) : Node F (RootDir D) :=
  match n with File f => File f | Folder d => Folder (Mounted d) end.
Definition lift_children (l : list (str * Node F D)) : list (str * Node F (RootDir D)) :=
  (fun c => (c.1, lift_node c.2)) <$> l.

(** The loop over the node's own children: a child of the mounted folder hides one
    of the same name. *)
Fixpoint overlay s (v : list (str * Node F (RootDir D))) (cs : list nat)
  : outcome (list (str * Node F (RootDir D))) :=
  match cs with
  | [] => Ret v
  | c :: cs =>
      let! n := get_rootnode s c in
      if decide (Exists (fun child => Some child.1 = path_last (rn_path n)) v) then overlay s v cs
      else
        let! name := unwrap (path_last (rn_path n)) in
        overlay s (v ++ [(name, Folder (RootNode c))]) cs
  end.

Definition root_get_children s (i : nat) : outcome (list (str * Node F (RootDir D))) :=
  let! n := get_rootnode s i in
  let! v :=
    match mountpoint n with
    | Some mnt => let! l := get_children (mounted s) mnt in Ret (lift_children l)
    | None => Ret []
    end in
  overlay s v (rn_children n).

Definition root_create_empty_child s (i : nat) (name : str) (typ : NodeType)
  : outcome (RootFS W D * option (Node F (RootDir D))) :=
  let! n := get_rootnode s i in
  match mountpoint n with
  | Some mnt =>
      let! (w, r) := create_empty_child (mounted s) mnt name typ in
      Ret (set_mounted s w, lift_node <$> r)
  | None => Ret (s, None)
  end.

Definition root_unlink s (i : nat) (name : str) : outcome (RootFS W D * option unit) :=
  let! n := get_rootnode s i in
  match mountpoint n with
  | Some mnt =>
      let! (w, r) := unlink_or_delete_empty_child (mounted s) mnt name in Ret (set_mounted s w, r)
  | None => Ret (s, None)
  end.

#[export] Instance root_file_system : FileSystem (RootFS W D) F (RootDir D) := {|
  file_read s f offset len := file_read (mounted s) f offset len;
  file_write s f offset data := let! (w, r) := file_write (mounted s) f offset data in Ret (set_mounted s w, r);
  get_size s f := get_size (mounted s) f;
  resize_file s f size := let! (w, r) := resize_file (mounted s) f size in Ret (set_mounted s w, r);
  get_children s d :=
    match d with
    | RootNode i => root_get_children s i
    | Mounted d => let! l := get_children (mounted s) d in Ret (lift_children l)
    end;
  create_empty_child s d name typ :=
    match d with
    | RootNode i => root_create_empty_child s i name typ
    | Mounted d =>
        let! (w, r) := create_empty_child (mounted s) d name typ in Ret (set_mounted s w, lift_node <$> r)
    end;
  unlink_or_delete_empty_child s d name :=
    match d with
    | RootNode i => root_unlink s i name
    | Mounted d => let! (w, r) := unlink_or_delete_empty_child (mounted s) d name in Ret (set_mounted s w, r)
    end;
|}.

(** * The tree *)

(** The index of the child to delete: the first empty folder with the name. *)
Fixpoint del_index s (cs : list nat) (i : nat) (name : str) : outcome (option nat) :=
  match cs with
  | [] => Ret None
  | c :: cs =>
      let! l := root_get_children s c in
      if negb (length l =? 0)%nat then del_index s cs (S i) name
      else
        let! n := get_rootnode s c in
        if decide (path_last (rn_path n) = Some name) then Ret (Some i) else del_index s cs (S i) name
  end.

Definition del_folder s (slf : nat) (name : str) : outcome (RootFS W D * bool) :=
  let! n := get_rootnode s slf in
  let! di := del_index s (rn_children n) 0 name in
  match di with
  | Some i => Ret (set_rootnode s slf (set_children n (delete i (rn_children n))), true)
  | None => Ret (s, false)
  end.

Fixpoint find_in s (cs : list nat) (name : str) : outcome (option nat) :=
  match cs with
  | [] => Ret None
  | c :: cs =>
      let! n := get_rootnode s c in
      if decide (path_last (rn_path n) = Some name) then Ret (Some c) else find_in s cs name
  end.

Definition find_folder s (slf : nat) (name : str) : outcome (option nat) :=
  let! n := get_rootnode s slf in find_in s (rn_children n) name.

Definition get_parent s (i : nat) : outcome (option nat) := let! n := get_rootnode s i in Ret (rn_parent n).
Definition get_path s (i : nat) : outcome Path := let! n := get_rootnode s i in Ret (rn_path n).

(** The loop of [get_rootfs_node]. *)
Fixpoint get_rootfs_loop s (self : Path) (cur_node : nat) (cur_path : Path) (parts : list str)
  : outcome (option nat) :=
  if decide (cur_path = self) then Ret (Some cur_node)
  else match parts with
  | [] => Ret (Some cur_node)
  | part :: parts =>
      let to_find := trim part in
      if decide (to_find = []) then get_rootfs_loop s self cur_node cur_path parts
      else
        let! found := find_folder s cur_node to_find in
        match found with
        | Some child => get_rootfs_loop s self child (append_str cur_path to_find) parts
        | None => Ret None
        end
  end.

Definition get_rootfs_node s (vfs_root : nat) (self : Path) : outcome (option nat) :=
  get_rootfs_loop s self vfs_root root (str_split slash (path_inner self)).

(** The assignment to a node's mountpoint, by which the shell mounts and unmounts. *)
Definition mount s (i : nat) (m : option D) : outcome (RootFS W D) :=
  let! n := get_rootnode s i in Ret (set_rootnode s i (set_mountpoint n m)).

(** * Invariant *)

(** Every node has a canonical path, its children exist, were made after it, have
    it as their parent, and their paths extend its path by one name. *)
Definition child_of s (i : nat) n (c : nat) : Prop :=
  (i < c)%nat /\ exists m parts x, nodes s !! c = Some m /\ rn_parent m = Some i /\
    rn_path n = path_of parts /\ rn_path m = path_of (parts ++ [x]) /\ Forall proper (parts ++ [x]).
Record rootfs_ok s : Prop := {
  ro_paths : forall i n, nodes s !! i = Some n -> exists parts, rn_path n = path_of parts /\ Forall proper parts;
  ro_children : forall i n c, nodes s !! i = Some n -> c ∈ rn_children n -> child_of s i n c;
}.

Definition rootfs_init (w : W) : RootFS W D := MkRootFS [new_root] w.

Lemma rootfs_init_ok w : rootfs_ok (rootfs_init w).
Proof.
  split.
  - intros [|i] n; simpl; [intros [= <-]; exists []; split; [done|constructor]|done].
  - intros [|i] n c; simpl; [intros [= <-] ?%elem_of_nil; done|done].
Qed.

Lemma child_of_mono s s' i n n' c :
  child_of s i n c -> rn_path n' = rn_path n ->
  (forall m, nodes s !! c = Some m -> exists m', nodes s' !! c = Some m' /\ rn_path m' = rn_path m /\ rn_parent m' = rn_parent m) ->
  child_of s' i n' c.
Proof.
  intros (Hlt & m & parts & x & Hm & H1 & H2 & H3 & H4) E Hs. split; [done|].
  destruct (Hs m Hm) as (m' & Hm' & E1 & E2). exists m', parts, x. rewrite E, E1, E2. done.
Qed.

(** Replacing the children of a node by some that are its children. *)
Lemma set_rootnode_ok s i n n' :
  rootfs_ok s -> nodes s !! i = Some n -> rn_path n' = rn_path n -> rn_parent n' = rn_parent n ->
  (forall c, c ∈ rn_children n' -> child_of s i n c) -> rootfs_ok (set_rootnode s i n').
Proof.
  intros [Hp Hc] Hi E1 E2 Hch.
  assert (forall j m, nodes s !! j = Some m -> exists m', nodes (set_rootnode s i n') !! j = Some m' /\
    rn_path m' = rn_path m /\ rn_parent m' = rn_parent m) as Hm.
  { intros j m Hj. destruct (decide (i = j)) as [<-|].
    - exists n'. simpl. rewrite list_lookup_insert_eq by by eapply lookup_lt_Some. by simplify_eq.
    - exists m. simpl. by rewrite list_lookup_insert_ne. }
  split.
  - intros j m [(<- & <- & _)|[_ Hj]]%list_lookup_insert_Some; [rewrite E1|]; eauto.
  - intros j m c [(<- & <- & _)|[_ Hj]]%list_lookup_insert_Some Hin.
    + eapply child_of_mono; [by apply Hch|done|apply Hm].
    + eapply child_of_mono; [by eapply Hc|done|apply Hm].
Qed.

Lemma new_folder_is s i n name :
  nodes s !! i = Some n ->
  new_folder s i name =
  Ret (MkRootFS (<[i := set_children n (rn_children n ++ [length (nodes s)])]>
         (nodes s ++ [MkRootNode (append_str (rn_path n) name) (Some i) [] None])) (mounted s), length (nodes s)).
Proof. intros Hi. unfold new_folder, get_rootnode. by rewrite Hi. Qed.

(** Adding a node nobody refers to. *)
Lemma add_rootnode_ok s m :
  rootfs_ok s -> rn_children m = [] -> (exists parts, rn_path m = path_of parts /\ Forall proper parts) ->
  rootfs_ok (MkRootFS (nodes s ++ [m]) (mounted s)).
Proof.
  intros [Hp Hc] Em Hm. split.
  - intros j k [Hj|[_ Hj]]%lookup_app_Some; [by eapply Hp|].
    apply list_lookup_singleton_Some in Hj as [_ <-]. done.
  - intros j k c [Hj|[_ Hj]]%lookup_app_Some Hin.
    + eapply child_of_mono; [by eapply Hc|done|]. intros k' Hk. exists k'. simpl.
      by rewrite lookup_app_l by by eapply lookup_lt_Some.
    + apply list_lookup_singleton_Some in Hj as [_ <-]. rewrite Em in Hin. by apply elem_of_nil in Hin.
Qed.

Lemma new_folder_ok s i name s' k :
  rootfs_ok s -> proper name -> new_folder s i name = Ret (s', k) -> rootfs_ok s'.
Proof.
  intros Hs Hn Hf. unfold new_folder, get_rootnode in Hf.
  apply obind_Ret in Hf as (x & H%unwrap_Ret & Hf).
  destruct (ro_paths s Hs i _ H) as (parts & Ep & Hp).
  set (m := MkRootNode _ _ _ _) in *.
  assert (Forall proper (parts ++ [name])) as Hpn by (apply Forall_app; split; [done|by constructor]).
  assert (rn_path m = path_of (parts ++ [name])) as Em by (simpl; rewrite Ep; by apply append_str_path_of).
  pose proof (add_rootnode_ok s m Hs eq_refl ltac:(eauto)) as Hs1.
  assert (nodes (MkRootFS (nodes s ++ [m]) (mounted s)) !! i = Some x) as Hi
    by (simpl; by rewrite lookup_app_l by by eapply lookup_lt_Some).
  injection Hf as <- <-. eapply set_rootnode_ok; [exact Hs1|exact Hi|done..|].
  simpl. intros c [Hc|Hc]%elem_of_app; [by eapply (ro_children _ Hs1)|].
  apply list_elem_of_singleton in Hc as ->. split; [by eapply lookup_lt_Some|].
  exists m, parts, name. simpl. rewrite lookup_app_r, Nat.sub_diag by done. done.
Qed.

Lemma del_folder_ok s i name s' b : rootfs_ok s -> del_folder s i name = Ret (s', b) -> rootfs_ok s'.
Proof.
  intros Hs Hf. unfold del_folder, get_rootnode in Hf. apply obind_Ret in Hf as (x & H%unwrap_Ret & Hf).
  apply obind_Ret in Hf as ([k|] & _ & Hf); injection Hf as <- _; [|done].
  eapply set_rootnode_ok; [done|done|done..|]. simpl. intros c Hc. eapply ro_children; [done|done|].
  apply list_elem_of_lookup in Hc as [j Hj]. apply list_elem_of_lookup.
  destruct (decide (j < k)%nat).
  - exists j. by rewrite list_lookup_delete_lt in Hj.
  - exists (S j). by rewrite list_lookup_delete_ge in Hj by lia.
Qed.

(** * Listing a folder *)

(** A node with a name. *)
Definition named s (c : nat) (x : str) : Prop :=
  exists m, nodes s !! c = Some m /\ path_last (rn_path m) = Some x.

Lemma child_named s i n c : rootfs_ok s -> nodes s !! i = Some n -> c ∈ rn_children n -> exists x, named s c x.
Proof.
  intros Hs Hi Hc. destruct (ro_children s Hs i n c Hi Hc) as (_ & m & parts & x & Hm & _ & _ & Ep & Hp).
  exists x, m. split; [done|]. rewrite Ep, path_last_path_of, last_snoc by done. done.
Qed.

Lemma overlay_spec s cs : forall v,
  (forall c, c ∈ cs -> exists x, named s c x) ->
  exists l, overlay s v cs = Ret l /\ (NoDup v.*1 -> NoDup l.*1) /\
    forall name, exists r, find_in s cs name = Ret r /\
      find_child l name = match find_child v name with Some x => Some x | None => Folder ∘ RootNode <$> r end.
Proof.
  induction cs as [|c cs IH]; intros v Hn.
  { exists v. split_and!; [done|done|]. intros name. exists None. split; [done|]. by destruct (find_child v name). }
  destruct (Hn c) as (x & m & Hm & Hx); [by left|].
  cbn [overlay find_in]. unfold get_rootnode. rewrite Hm. cbn [obind unwrap]. rewrite Hx. cbn [obind unwrap].
  assert (forall c', c' ∈ cs -> exists x', named s c' x') as Hn' by (intros; apply Hn; by right).
  destruct (decide _) as [He|He].
  - destruct (IH v Hn') as (l & El & Hd & Hl). exists l. split_and!; [done|done|]. intros name.
    destruct (Hl name) as (r & Er & Ef). destruct (decide (Some x = Some name)) as [[= ->]|]; [|eauto].
    exists (Some c). split; [done|]. apply Exists_exists in He as ([y k] & Hin & [= ->]).
    rewrite Ef. destruct (find_child v name) eqn:E; [done|].
    apply find_child_None in E. destruct E. apply list_elem_of_fmap. by exists (name, k).
  - destruct (IH (v ++ [(x, Folder (RootNode c))]) Hn') as (l & El & Hd & Hl). exists l. split_and!; [done| |].
    + intros Hv. apply Hd. rewrite fmap_app. apply NoDup_app. split_and!; [done| |apply NoDup_singleton].
      intros y Hy Ey%list_elem_of_singleton. apply list_elem_of_fmap in Hy as ([z k] & E & Hin).
      apply He, Exists_exists. exists (z, k). simpl in *. split; [done|congruence].
    + intros name. destruct (Hl name) as (r & Er & Ef). rewrite find_child_app, find_child_cons in Ef.
      destruct (decide (x = name)) as [->|Hxn].
      * exists (Some c). rewrite decide_True by done. split; [done|]. rewrite Ef. by destruct (find_child v name).
      * exists r. rewrite decide_False by congruence. split; [done|]. rewrite Ef. by destruct (find_child v name).
Qed.

(** C25: a folder of the root file system lists the children of the mounted folder
    and its own; a name is found in the mounted folder first and among the node's
    own folders otherwise, as [find_folder] finds it; listing never panics unless
    the mounted file system does, and repeats no name the mounted folder does not
    repeat. *)
Theorem overlay_lookup s i n :
  rootfs_ok s -> nodes s !! i = Some n ->
  match mountpoint n with
  | Some mnt => get_children (mounted s) mnt
  | None => Ret []
  end = Panic /\ get_children (W := RootFS W D) s (RootNode i) = Panic \/
  exists below l,
    match mountpoint n with
    | Some mnt => get_children (mounted s) mnt
    | None => Ret []
    end = Ret below /\
    get_children (W := RootFS W D) s (RootNode i) = Ret l /\ (NoDup below.*1 -> NoDup l.*1) /\
    forall name, exists own, find_folder s i name = Ret own /\
      find_child l name =
        match find_child below name with
        | Some node => Some (lift_node node)
        | None => Folder ∘ RootNode <$> own
        end.
Proof.
  intros Hs Hi. simpl. unfold root_get_children, find_folder, get_rootnode. rewrite Hi. cbn [obind unwrap].
  set (b := match mountpoint n with Some _ => _ | None => _ end).
  replace (match mountpoint n with Some _ => _ | None => _ end) with (let! l := b in Ret (lift_children l))
    by (unfold b; by destruct (mountpoint n)).
  destruct b as [below|]; [right|by left]. cbn [obind].
  destruct (overlay_spec s (rn_children n) (lift_children below)) as (l & El & Hd & Hl).
  { intros c. by eapply child_named. }
  exists below, l. split_and!; [done|done| |].
  - intros Hb. apply Hd. unfold lift_children. rewrite <- list_fmap_compose. done.
  - intros name. destruct (Hl name) as (r & Er & Ef). exists r. split; [done|]. rewrite Ef.
    assert (find_child (lift_children below) name = lift_node <$> find_child below name) as ->; [|by destruct (find_child below name)].
    clear. induction below as [|[c x] below IH]; [done|]. simpl. rewrite !find_child_cons.
    destruct (decide (c = name)); [done|apply IH].
Qed.

(** * Sequences of operations *)

(** What the kernel does to the root file system: it makes and removes folders,
    mounts and unmounts, and lets programs change what is mounted. *)
Inductive root_step : RootFS W D -> RootFS W D -> Prop :=
| step_new s i name s' k : proper name -> new_folder s i name = Ret (s', k) -> root_step s s'
| step_del s i name s' b : del_folder s i name = Ret (s', b) -> root_step s s'
| step_mount s i m s' : mount s i m = Ret s' -> root_step s s'
| step_create s d name typ s' r : create_empty_child s d name typ = Ret (s', r) -> root_step s s'
| step_unlink s d name s' r : unlink_or_delete_empty_child s d name = Ret (s', r) -> root_step s s'
| step_write s f off data s' r : file_write s f off data = Ret (s', r) -> root_step s s'
| step_resize s f size s' r : resize_file s f size = Ret (s', r) -> root_step s s'.

Lemma set_mounted_ok s w : rootfs_ok s -> rootfs_ok (set_mounted s w).
Proof. intros [Hp Hc]. by split. Qed.

Lemma root_step_ok s s' : root_step s s' -> rootfs_ok s -> rootfs_ok s'.
Proof.
  intros Hstep Hs. destruct Hstep as [s i name s' k Hn Hf|s i name s' b Hf|s i m s' Hf|s d name typ s' r Hf|s d name s' r Hf|s f off data s' r Hf|s f sz s' r Hf].
  - by eapply new_folder_ok.
  - by eapply del_folder_ok.
  - unfold mount, get_rootnode in Hf. inv_outcome. eapply set_rootnode_ok; [done|done|done..|]. simpl.
    intros c Hc. by eapply ro_children.
  - simpl in Hf. unfold root_create_empty_child in Hf. destruct d; inv_outcome; [destruct (mountpoint _)|];
      inv_outcome; simplify_eq; try done; by apply set_mounted_ok.
  - simpl in Hf. unfold root_unlink in Hf. destruct d; inv_outcome; [destruct (mountpoint _)|];
      inv_outcome; simplify_eq; try done; by apply set_mounted_ok.
  - simpl in Hf. inv_outcome. simplify_eq. by apply set_mounted_ok.
  - simpl in Hf. inv_outcome. simplify_eq. by apply set_mounted_ok.
Qed.

(** From an empty root on, whatever folders are made, removed, mounted over or
    written to, every node keeps a canonical path, and the children of a node
    exist, have it as their parent and extend its path by one name. *)
Theorem rootfs_invariant w s : rtc root_step (rootfs_init w) s -> rootfs_ok s.
Proof.
  intros Hr. assert (forall s0, rtc root_step s0 s -> rootfs_ok s0 -> rootfs_ok s) as H.
  { clear Hr. induction 1; eauto using root_step_ok. }
  apply (H _ Hr), rootfs_init_ok.
Qed.

End RootFs.

(** * A file system in memory *)

(** The files in the order of their creation. *)
Abbreviation RamFs := (list (str * list Z)).

Definition ram_read (w : RamFs) (f : nat) (off len : Z) : outcome (option (list Z)) :=
  let! (_, c) := unwrap (w !! f) in
  Ret (if off + len <=? Z.of_nat (length c) then Some (take (Z.to_nat len) (drop (Z.to_nat off) c)) else None).
Definition ram_write (w : RamFs) (f : nat) (off : Z) (data : list Z) : outcome (RamFs * option Z) :=
  let! (name, c) := unwrap (w !! f) in
  if off + Z.of_nat (length data) <=? Z.of_nat (length c)
  then Ret (<[f := (name, splice c (Z.to_nat off) data)]> w, Some (Z.of_nat (length data)))
  else Ret (w, None).
Definition ram_size (w : RamFs) (f : nat) : outcome Z := let! (_, c) := unwrap (w !! f) in Ret (Z.of_nat (length c)).
Definition ram_resize (w : RamFs) (f : nat) (n : Z) : outcome (RamFs * option unit) :=
  let! (name, c) := unwrap (w !! f) in
  Ret (<[f := (name, take (Z.to_nat n) c ++ replicate (Z.to_nat n - length c) 0)]> w, Some ()).
Definition ram_children (w : RamFs) (d : unit) : outcome (list (str * Node nat unit)) :=
  Ret (imap (fun i e => (e.1, File i)) w).
Definition ram_create (w : RamFs) (d : unit) (name : str) (t : NodeType) : outcome (RamFs * option (Node nat unit)) :=
  match t with
  | TFile => Ret (w ++ [(name, [])], Some (File (length w)))
  | TFolder => Ret (w, None)
  end.
Definition ram_unlink (w : RamFs) (d : unit) (name : str) : outcome (RamFs * option unit) := Ret (w, None).

#[export] Instance ram_fs : FileSystem RamFs nat unit := {|
  file_read := ram_read;
  file_write := ram_write;
  get_size := ram_size;
  resize_file := ram_resize;
  get_children := ram_children;
  create_empty_child := ram_create;
  unlink_or_delete_empty_child := ram_unlink;
|}.

(** * Examples *)

(** A folder with one file, named a, of three bytes. *)
Definition demo_ram : RamFs := [([97], [1; 2; 3])].

(** The path /a/b leads below the file. *)
Lemma lookup_below_file_panics_witness :
  get_node demo_ram tt (MkPath [slash; 97; slash; 98]) = Panic.
Proof. exact (lookup_below_file_panics demo_ram tt (MkPath [slash; 97; slash; 98]) [[97]] [98] [] 0%nat eq_refl eq_refl). Defined.

(** The root with a folder b, and the folder above mounted over it: the file a is
    in front of b. *)
Definition demo_rootfs : RootFS RamFs unit :=
  MkRootFS [MkRootNode root None [1%nat] (Some tt); MkRootNode (MkPath [slash; 98]) (Some 0%nat) [] None] demo_ram.

Lemma rootfs_invariant_witness : rootfs_ok demo_rootfs.
Proof.
  apply (rootfs_invariant demo_ram).
  eapply rtc_l; [apply (step_new _ 0%nat [98] (MkRootFS [MkRootNode root None [1%nat] None; MkRootNode (MkPath [slash; 98]) (Some 0%nat) [] None] demo_ram) 1%nat)|].
  - by apply (bool_decide_unpack _).
  - reflexivity.
  - apply rtc_once. by apply (step_mount _ 0%nat (Some tt)).
Defined.

Lemma demo_rootfs_ok : rootfs_ok demo_rootfs.
Proof.
  split.
  - intros [|[|i]] n; simpl; intros [= <-]; [by exists []|exists [[98]]; split; [done|]]. apply Forall_singleton. by apply (bool_decide_unpack _).
  - intros [|[|i]] n c; simpl; intros [= <-]; [|by intros ?%elem_of_nil]. intros ->%list_elem_of_singleton. split; [lia|].
    exists (MkRootNode (MkPath [slash; 98]) (Some 0%nat) [] None), [], [98]. split_and!; try done. apply Forall_singleton. by apply (bool_decide_unpack _).
Qed.

Lemma overlay_lookup_witness :
  exists l, get_children (W := RootFS RamFs unit) demo_rootfs (RootNode 0%nat) = Ret l /\
    find_child l [97] = Some (File 0%nat) /\ find_child l [98] = Some (Folder (RootNode 1%nat)).
Proof.
  destruct (overlay_lookup demo_rootfs 0%nat _ demo_rootfs_ok eq_refl) as [[? _]|(below & l & Hb & Hl & _ & Hf)]; [done|].
  injection Hb as <-. exists l. split; [done|].
  destruct (Hf [97]) as (o1 & _ & ->). split; [reflexivity|].
  destruct (Hf [98]) as (o2 & Ho & ->). vm_compute in Ho. by injection Ho as <-.
Defined.
