(* ===== verification/Keyboard.v ===== *)
(** The keyboard: the key codes, scan codes and the layout of kernel/src/hio.rs,
    and the decoding of packets in kernel/src/ps2_8042.rs.  The bytes the PS/2
    controller is going to deliver are a list; waiting for a byte that never comes
    does not return, which counts as a panic. *)
From S2P Require Import Prelude MachineInt Str.
From stdpp Require Import list.
#[local] Open Scope Z_scope.

Inductive KeyboardPacketType := KeyPressed | KeyReleased.

Inductive KeyboardKey :=
| Unmapped (row column : nat)
| Escape | F1 | F2 | F3 | F4 | F5 | F6 | F7
| F8 | F9 | F10 | F11 | F12 | Delete | UpArrow | DownArrow
| LeftArrow | RightArrow | Backspace | Enter | Space | Tab | Insert | Home
| PageUp | PageDown | End | PrintScreen | LeftShift | RightShift | LeftCtrl | RightCtrl
| LeftSuper | RightSuper | LeftAlt | RightAlt | CapsLock | NumLock | ScrollLock | Power
| Sleep | Wake | NextTrack | PrevTrack | Stop | Play | Mute | VolUp
| VolDown | MediaSelect | EMail | Calculator | MyComputer | WWWSearch | WWWHome | WWWBack
| WWWForward | WWWStop | WWWRefresh | WWWFavorites | Keypad0 | Keypad1 | Keypad2 | Keypad3
| Keypad4 | Keypad5 | Keypad6 | Keypad7 | Keypad8 | Keypad9 | KeypadSlash | KeypadStar
| KeypadMinus | KeypadPlus | KeypadEnter | KeypadDot.

#[export] Instance KeyboardPacketType_eq_dec : EqDecision KeyboardPacketType.
Proof. solve_decision. Defined.
#[export] Instance KeyboardKey_eq_dec : EqDecision KeyboardKey.
Proof. solve_decision. Defined.

Record KeyboardModifiers := MkModifiers {
  left_shift : bool;
  right_shift : bool;
  left_alt : bool;
  right_alt : bool;
  left_ctrl : bool;
  right_ctrl : bool;
  caps_lock : bool;
  num_lock : bool;
}.

Definition no_modifiers : KeyboardModifiers := MkModifiers false false false false false false false false.
Definition any_shift (m : KeyboardModifiers) : bool := left_shift m || right_shift m.
Definition any_alt (m : KeyboardModifiers) : bool := left_alt m || right_alt m.
Definition any_ctrl (m : KeyboardModifiers) : bool := left_ctrl m || right_alt m.

Record KeyboardPacket := MkPacket {
  key : KeyboardKey;
  modifiers : KeyboardModifiers;
  packet_type : KeyboardPacketType;
}.

(** * Scan codes *)

Definition from_scancode_in_set1 (code : Z) : option KeyboardKey :=
  match Z.land code 0x7F with
  | 0x01 => Some Escape
  | 0x29 => Some (Unmapped 0 0)
  | 0x02 => Some (Unmapped 0 1)
  | 0x03 => Some (Unmapped 0 2)
  | 0x04 => Some (Unmapped 0 3)
  | 0x05 => Some (Unmapped 0 4)
  | 0x06 => Some (Unmapped 0 5)
  | 0x07 => Some (Unmapped 0 6)
  | 0x08 => Some (Unmapped 0 7)
  | 0x09 => Some (Unmapped 0 8)
  | 0x0A => Some (Unmapped 0 9)
  | 0x0B => Some (Unmapped 0 10)
  | 0x0C => Some (Unmapped 0 11)
  | 0x0D => Some (Unmapped 0 12)
  | 0x0E => Some Backspace
  | 0x0F => Some Tab
  | 0x10 => Some (Unmapped 1 0)
  | 0x11 => Some (Unmapped 1 1)
  | 0x12 => Some (Unmapped 1 2)
  | 0x13 => Some (Unmapped 1 3)
  | 0x14 => Some (Unmapped 1 4)
  | 0x15 => Some (Unmapped 1 5)
  | 0x16 => Some (Unmapped 1 6)
  | 0x17 => Some (Unmapped 1 7)
  | 0x18 => Some (Unmapped 1 8)
  | 0x19 => Some (Unmapped 1 9)
  | 0x1A => Some (Unmapped 1 10)
  | 0x1B => Some (Unmapped 1 11)
  | 0x2B => Some (Unmapped 1 12)
  | 0x1C => Some Enter
  | 0x1D => Some LeftCtrl
  | 0x1E => Some (Unmapped 2 0)
  | 0x1F => Some (Unmapped 2 1)
  | 0x20 => Some (Unmapped 2 2)
  | 0x21 => Some (Unmapped 2 3)
  | 0x22 => Some (Unmapped 2 4)
  | 0x23 => Some (Unmapped 2 5)
  | 0x24 => Some (Unmapped 2 6)
  | 0x25 => Some (Unmapped 2 7)
  | 0x26 => Some (Unmapped 2 8)
  | 0x27 => Some (Unmapped 2 9)
  | 0x28 => Some (Unmapped 2 10)
  | 0x2A => Some LeftShift
  | 0x2C => Some (Unmapped 3 0)
  | 0x2D => Some (Unmapped 3 1)
  | 0x2E => Some (Unmapped 3 2)
  | 0x2F => Some (Unmapped 3 3)
  | 0x30 => Some (Unmapped 3 4)
  | 0x31 => Some (Unmapped 3 5)
  | 0x32 => Some (Unmapped 3 6)
  | 0x33 => Some (Unmapped 3 7)
  | 0x34 => Some (Unmapped 3 8)
  | 0x35 => Some (Unmapped 3 9)
  | 0x36 => Some RightShift
  | 0x37 => Some KeypadStar
  | 0x38 => Some LeftAlt
  | 0x39 => Some Space
  | 0x3A => Some CapsLock
  | 0x3B => Some F1
  | 0x3C => Some F2
  | 0x3D => Some F3
  | 0x3E => Some F4
  | 0x3F => Some F5
  | 0x40 => Some F6
  | 0x41 => Some F7
  | 0x42 => Some F8
  | 0x43 => Some F9
  | 0x44 => Some F10
  | 0x45 => Some NumLock
  | 0x46 => Some ScrollLock
  | 0x47 => Some Keypad7
  | 0x48 => Some Keypad8
  | 0x49 => Some Keypad9
  | 0x4A => Some KeypadMinus
  | 0x4B => Some Keypad4
  | 0x4C => Some Keypad5
  | 0x4D => Some Keypad6
  | 0x4E => Some KeypadPlus
  | 0x4F => Some Keypad1
  | 0x50 => Some Keypad2
  | 0x51 => Some Keypad3
  | 0x52 => Some Keypad0
  | 0x53 => Some KeypadDot
  | 0x54 => None
  | 0x55 => None
  | 0x57 => Some F11
  | 0x58 => Some F12
  | 0xE02A | 0xE037 => Some PrintScreen
  | 0xE035 => Some KeypadSlash
  | 0xE038 => Some RightAlt
  | 0xE047 => Some Home
  | 0xE048 => Some UpArrow
  | 0xE049 => Some PageUp
  | 0xE050 => Some DownArrow
  | 0xE051 => Some PageDown
  | 0xE052 => Some Insert
  | 0xE053 => Some Delete
  | 0xE05B => Some LeftSuper
  | 0xE05C => Some RightSuper
  | 0xE05E => Some Power
  | 0xE05F => Some Sleep
  | 0xE063 => Some Wake
  | 0xE019 => Some NextTrack
  | 0xE010 => Some PrevTrack
  | 0xE024 => Some Stop
  | 0xE022 => Some Play
  | 0xE020 => Some Mute
  | 0xE030 => Some VolUp
  | 0xE02E => Some VolDown
  | 0xE06D => Some MediaSelect
  | 0xE06C => Some EMail
  | 0xE021 => Some Calculator
  | 0xE06B => Some MyComputer
  | 0xE065 => Some WWWSearch
  | 0xE032 => Some WWWHome
  | 0xE06A => Some WWWBack
  | 0xE069 => Some WWWForward
  | 0xE068 => Some WWWStop
  | 0xE067 => Some WWWRefresh
  | 0xE066 => Some WWWFavorites
  | _ => None
  end.

Definition is_scancode_in_set1_pressed (code : Z) : bool := Z.land code 0x80 =? 0.

(** * The layout *)

(** The character of a key without and with a shift key, and that of a letter key,
    which caps lock inverts. *)
Definition by_shift (modifiers : KeyboardModifiers) (plain shifted : Z) : Z :=
  if any_shift modifiers then shifted else plain.
Definition by_case (modifiers : KeyboardModifiers) (lower upper : Z) : Z :=
  if xorb (any_shift modifiers) (caps_lock modifiers) then upper else lower.

Definition parse_key (key : KeyboardKey) (modifiers : KeyboardModifiers) : Z + KeyboardKey :=
  match key with
  | Unmapped 0 0 => inl (by_shift modifiers 96 126)
  | Unmapped 0 1 => inl (by_shift modifiers 49 33)
  | Unmapped 0 2 => inl (by_shift modifiers 50 64)
  | Unmapped 0 3 => inl (by_shift modifiers 51 35)
  | Unmapped 0 4 => inl (by_shift modifiers 52 36)
  | Unmapped 0 5 => inl (by_shift modifiers 53 37)
  | Unmapped 0 6 => inl (by_shift modifiers 54 94)
  | Unmapped 0 7 => inl (by_shift modifiers 55 38)
  | Unmapped 0 8 => inl (by_shift modifiers 56 42)
  | Unmapped 0 9 => inl (by_shift modifiers 57 40)
  | Unmapped 0 10 => inl (by_shift modifiers 48 41)
  | Unmapped 0 11 => inl (by_shift modifiers 45 95)
  | Unmapped 0 12 => inl (by_shift modifiers 61 43)
  | Unmapped 1 0 => inl (by_case modifiers 113 81)
  | Unmapped 1 1 => inl (by_case modifiers 119 87)
  | Unmapped 1 2 => inl (by_case modifiers 101 69)
  | Unmapped 1 3 => inl (by_case modifiers 114 82)
  | Unmapped 1 4 => inl (by_case modifiers 116 84)
  | Unmapped 1 5 => inl (by_case modifiers 121 89)
  | Unmapped 1 6 => inl (by_case modifiers 117 85)
  | Unmapped 1 7 => inl (by_case modifiers 105 73)
  | Unmapped 1 8 => inl (by_case modifiers 111 79)
  | Unmapped 1 9 => inl (by_case modifiers 112 80)
  | Unmapped 1 10 => inl (by_shift modifiers 91 123)
  | Unmapped 1 11 => inl (by_shift modifiers 93 125)
  | Unmapped 1 12 => inl (by_shift modifiers 92 124)
  | Unmapped 2 0 => inl (by_case modifiers 97 65)
  | Unmapped 2 1 => inl (by_case modifiers 115 83)
  | Unmapped 2 2 => inl (by_case modifiers 100 68)
  | Unmapped 2 3 => inl (by_case modifiers 102 70)
  | Unmapped 2 4 => inl (by_case modifiers 103 71)
  | Unmapped 2 5 => inl (by_case modifiers 104 72)
  | Unmapped 2 6 => inl (by_case modifiers 106 74)
  | Unmapped 2 7 => inl (by_case modifiers 107 75)
  | Unmapped 2 8 => inl (by_case modifiers 108 76)
  | Unmapped 2 9 => inl (by_shift modifiers 59 58)
  | Unmapped 2 10 => inl (by_shift modifiers 39 34)
  | Unmapped 3 0 => inl (by_case modifiers 122 90)
  | Unmapped 3 1 => inl (by_case modifiers 120 88)
  | Unmapped 3 2 => inl (by_case modifiers 99 67)
  | Unmapped 3 3 => inl (by_case modifiers 118 86)
  | Unmapped 3 4 => inl (by_case modifiers 98 66)
  | Unmapped 3 5 => inl (by_case modifiers 110 78)
  | Unmapped 3 6 => inl (by_case modifiers 109 77)
  | Unmapped 3 7 => inl (by_shift modifiers 44 60)
  | Unmapped 3 8 => inl (by_shift modifiers 46 62)
  | Unmapped 3 9 => inl (by_shift modifiers 47 63)
  | Space => inl 32
  | Tab => inl 9
  | Enter => inl 10
  | _ => inr key
  end.

(** * Packets *)

(** [input] holds the bytes the controller delivers from now on. *)
Record PS2Device := MkPS2 { input : list Z; active_modifiers : KeyboardModifiers }.

(** [try_read_byte]: None while no byte is ready.  [read_byte] waits for one. *)
Definition try_read_byte (bytes : list Z) : option (Z * list Z) :=
  match bytes with [] => None | byte :: rest => Some (byte, rest) end.
Definition read_byte (bytes : list Z) : outcome (Z * list Z) := unwrap (try_read_byte bytes).

Definition read_scancode (bytes : list Z) : outcome (option (Z * list Z)) :=
  match try_read_byte bytes with
  | None => Ret None
  | Some (byte, rest) =>
      if byte =? 0xE0 then
        let! (byte, rest) := read_byte rest in
        if byte =? 0xF0 then
          let! (byte, rest) := read_byte rest in
          Ret (Some (Z.lor (Z.lor (Z.shiftl 0xE0 16) (Z.shiftl 0xF0 8)) byte, rest))
        else Ret (Some (Z.lor (Z.shiftl 0xE0 8) byte, rest))
      else if byte =? 0xF0 then
        let! (byte, rest) := read_byte rest in
        Ret (Some (Z.lor (Z.shiftl 0xF0 8) byte, rest))
      else Ret (Some (byte, rest))
  end.

(** The match that changes the state of the modifiers. *)
Definition update_modifiers (m : KeyboardModifiers) (k : KeyboardKey) (t : KeyboardPacketType) : KeyboardModifiers :=
  let (ls, rs, la, ra, lc, rc, caps, num) := m in
  let pressed := bool_decide (t = KeyPressed) in
  match k with
  | LeftShift => MkModifiers pressed rs la ra lc rc caps num
  | RightShift => MkModifiers ls pressed la ra lc rc caps num
  | LeftCtrl => MkModifiers ls rs la ra pressed rc caps num
  | RightCtrl => MkModifiers ls rs la ra lc pressed caps num
  | LeftAlt => MkModifiers ls rs pressed ra lc rc caps num
  | RightAlt => MkModifiers ls rs la pressed lc rc caps num
  | CapsLock => if pressed then MkModifiers ls rs la ra lc rc (negb caps) num else m
  | _ => m
  end.

Definition try_read_packet (d : PS2Device) : outcome (PS2Device * option KeyboardPacket) :=
  let! code := read_scancode (input d) in
  match code with
  | None => Ret (d, None)
  | Some (scancode, rest) =>
      match from_scancode_in_set1 scancode with
      | None => Ret (MkPS2 rest (active_modifiers d), None)
      | Some k =>
          let t := if is_scancode_in_set1_pressed scancode then KeyPressed else KeyReleased in
          let m := update_modifiers (active_modifiers d) k t in
          Ret (MkPS2 rest m, Some (MkPacket k m t))
      end
  end.

(** [read_packet] tries until a packet comes; every try that finds a byte uses
    it up, so that [n] tries are enough for [n] bytes, and waiting on without
    bytes does not return. *)
Fixpoint read_packet_loop (n : nat) (d : PS2Device) : outcome (PS2Device * KeyboardPacket) :=
  match n with
  | O => Panic
  | S n =>
      let! (d, res) := try_read_packet d in
      match res with
      | Some p => Ret (d, p)
      | None => read_packet_loop n d
      end
  end.
Definition read_packet (d : PS2Device) : outcome (PS2Device * KeyboardPacket) :=
  read_packet_loop (length (input d)) d.

(** * Properties *)

(** The codes of a key that is pressed and released differ in bit 7, which the
    table does not see. *)
Lemma land_7f code : Z.land code 0x7F = code mod 128.
Proof. change 0x7F with (Z.ones 7). rewrite Z.land_ones by lia. done. Qed.

(** The keys only the extended arms of the table name. *)
Definition extended_only (k : KeyboardKey) : bool :=
  match k with
  | PrintScreen | KeypadSlash | RightAlt | Home | UpArrow | PageUp | DownArrow | PageDown | Insert | Delete
  | LeftSuper | RightSuper | Power | Sleep | Wake | NextTrack | PrevTrack | Stop | Play | Mute | VolUp | VolDown
  | MediaSelect | EMail | Calculator | MyComputer | WWWSearch | WWWHome | WWWBack | WWWForward | WWWStop
  | WWWRefresh | WWWFavorites => true
  | _ => false
  end.

Lemma scancode_table_plain n :
  0 <= n < 128 -> forall k, from_scancode_in_set1 n = Some k -> extended_only k = false.
Proof.
  assert (forallb (fun n => match from_scancode_in_set1 (Z.of_nat n) with
    Some k => negb (extended_only k) | None => true end) (seq 0 128) = true) as H by (vm_compute; reflexivity).
  intros Hn k Hk. rewrite forallb_forall in H. specialize (H (Z.to_nat n)).
  rewrite Z2Nat.id, Hk in H by lia. apply negb_true_iff, H, in_seq. lia.
Qed.

(** The prefix of an extended scan code is masked away before the table is
    consulted, so that 0xE0 followed by a code is read as the key of the plain
    code: no scan code gives an arrow key, Home, Delete, the right Alt key or any
    other key of the extended set. *)
Theorem extended_scancodes_misread prefix b :
  0 <= prefix -> 0 <= b < 256 ->
  from_scancode_in_set1 (Z.lor (Z.shiftl prefix 8) b) = from_scancode_in_set1 b /\
  (forall k, from_scancode_in_set1 (Z.lor (Z.shiftl prefix 8) b) = Some k -> extended_only k = false).
Proof.
  intros Hp Hb.
  assert (Z.land (Z.lor (Z.shiftl prefix 8) b) 0x7F = Z.land b 0x7F) as E.
  { rewrite Z.land_lor_distr_l. rewrite (land_7f (Z.shiftl prefix 8)), Z.shiftl_mul_pow2 by lia.
    change (2 ^ 8) with (2 * 128). rewrite Z.mul_assoc, Z.mod_mul by lia. done. }
  assert (from_scancode_in_set1 (Z.lor (Z.shiftl prefix 8) b) = from_scancode_in_set1 b) as F
    by (unfold from_scancode_in_set1; by rewrite E).
  split; [done|]. intros k. rewrite F. intros Hk. apply (scancode_table_plain (Z.land b 0x7F)).
  - rewrite land_7f. apply Z.mod_pos_bound. lia.
  - rewrite <- Hk. unfold from_scancode_in_set1. rewrite !land_7f, Z.mod_mod by lia. done.
Qed.

Lemma extended_scancodes_misread_witness :
  from_scancode_in_set1 0xE048 = Some Keypad8 /\ extended_only Keypad8 = false.
Proof.
  destruct (extended_scancodes_misread 0xE0 0x48 ltac:(lia) ltac:(lia)) as [H1 H2].
  split; [exact H1|exact (H2 Keypad8 eq_refl)].
Defined.
