(* ===== verification/CharDevice.v ===== *)
(** Characters on a frame buffer: the traits FrameBuffer of
    kernel/src/framebuffer.rs and CharDevice of char_device.rs with its 8 by 16
    font, and the linear frame buffer of the EFI graphics mode. *)
From S2P Require Import Prelude MachineInt Str.
From stdpp Require Import list.
#[local] Open Scope Z_scope.

Definition FONT_8X16 : list Z := [
  0; 0; 0; 0; 0; 0; 0; 0; 0; 0; 0; 0; 0; 0; 0; 0;
  0; 0; 126; 129; 165; 129; 129; 189; 153; 129; 129; 126; 0; 0; 0; 0;
  0; 0; 126; 255; 219; 255; 255; 195; 231; 255; 255; 126; 0; 0; 0; 0;
  0; 0; 0; 0; 108; 254; 254; 254; 254; 124; 56; 16; 0; 0; 0; 0;
  0; 0; 0; 0; 16; 56; 124; 254; 124; 56; 16; 0; 0; 0; 0; 0;
  0; 0; 0; 24; 60; 60; 231; 231; 231; 153; 24; 60; 0; 0; 0; 0;
  0; 0; 0; 24; 60; 126; 255; 255; 126; 24; 24; 60; 0; 0; 0; 0;
  0; 0; 0; 0; 0; 0; 24; 60; 60; 24; 0; 0; 0; 0; 0; 0;
  255; 255; 255; 255; 255; 255; 231; 195; 195; 231; 255; 255; 255; 255; 255; 255;
  0; 0; 0; 0; 0; 60; 102; 66; 66; 102; 60; 0; 0; 0; 0; 0;
  255; 255; 255; 255; 255; 195; 153; 189; 189; 153; 195; 255; 255; 255; 255; 255;
  0; 0; 30; 14; 26; 50; 120; 204; 204; 204; 204; 120; 0; 0; 0; 0;
  0; 0; 60; 102; 102; 102; 102; 60; 24; 126; 24; 24; 0; 0; 0; 0;
  0; 0; 63; 51; 63; 48; 48; 48; 48; 112; 240; 224; 0; 0; 0; 0;
  0; 0; 127; 99; 127; 99; 99; 99; 99; 103; 231; 230; 192; 0; 0; 0;
  0; 0; 0; 24; 24; 219; 60; 231; 60; 219; 24; 24; 0; 0; 0; 0;
  0; 128; 192; 224; 240; 248; 254; 248; 240; 224; 192; 128; 0; 0; 0; 0;
  0; 2; 6; 14; 30; 62; 254; 62; 30; 14; 6; 2; 0; 0; 0; 0;
  0; 0; 24; 60; 126; 24; 24; 24; 24; 126; 60; 24; 0; 0; 0; 0;
  0; 0; 102; 102; 102; 102; 102; 102; 102; 0; 102; 102; 0; 0; 0; 0;
  0; 0; 127; 219; 219; 219; 123; 27; 27; 27; 27; 27; 0; 0; 0; 0;
  0; 124; 198; 96; 56; 108; 198; 198; 108; 56; 12; 198; 124; 0; 0; 0;
  0; 0; 0; 0; 0; 0; 0; 0; 254; 254; 254; 254; 0; 0; 0; 0;
  0; 0; 24; 60; 126; 24; 24; 24; 24; 126; 60; 24; 126; 0; 0; 0;
  0; 0; 24; 60; 126; 24; 24; 24; 24; 24; 24; 24; 0; 0; 0; 0;
  0; 0; 24; 24; 24; 24; 24; 24; 24; 126; 60; 24; 0; 0; 0; 0;
  0; 0; 0; 0; 0; 24; 12; 254; 12; 24; 0; 0; 0; 0; 0; 0;
  0; 0; 0; 0; 0; 48; 96; 254; 96; 48; 0; 0; 0; 0; 0; 0;
  0; 0; 0; 0; 0; 192; 192; 192; 192; 254; 0; 0; 0; 0; 0; 0;
  0; 0; 0; 0; 0; 40; 108; 254; 108; 40; 0; 0; 0; 0; 0; 0;
  0; 0; 0; 0; 16; 56; 56; 124; 124; 254; 254; 0; 0; 0; 0; 0;
  0; 0; 0; 0; 254; 254; 124; 124; 56; 56; 16; 0; 0; 0; 0; 0;
  0; 0; 0; 0; 0; 0; 0; 0; 0; 0; 0; 0; 0; 0; 0; 0;
  0; 0; 24; 60; 60; 60; 24; 24; 24; 0; 24; 24; 0; 0; 0; 0;
  0; 102; 102; 102; 36; 0; 0; 0; 0; 0; 0; 0; 0; 0; 0; 0;
  0; 0; 0; 108; 108; 254; 108; 108; 108; 254; 108; 108; 0; 0; 0; 0;
  24; 24; 124; 198; 194; 192; 124; 6; 134; 198; 124; 24; 24; 0; 0; 0;
  0; 0; 0; 0; 194; 198; 12; 24; 48; 96; 198; 134; 0; 0; 0; 0;
  0; 0; 56; 108; 108; 56; 118; 220; 204; 204; 204; 118; 0; 0; 0; 0;
  0; 48; 48; 48; 96; 0; 0; 0; 0; 0; 0; 0; 0; 0; 0; 0;
  0; 0; 12; 24; 48; 48; 48; 48; 48; 48; 24; 12; 0; 0; 0; 0;
  0; 0; 48; 24; 12; 12; 12; 12; 12; 12; 24; 48; 0; 0; 0; 0;
  0; 0; 0; 0; 0; 102; 60; 255; 60; 102; 0; 0; 0; 0; 0; 0;
  0; 0; 0; 0; 0; 24; 24; 126; 24; 24; 0; 0; 0; 0; 0; 0;
  0; 0; 0; 0; 0; 0; 0; 0; 0; 24; 24; 24; 48; 0; 0; 0;
  0; 0; 0; 0; 0; 0; 0; 254; 0; 0; 0; 0; 0; 0; 0; 0;
  0; 0; 0; 0; 0; 0; 0; 0; 0; 0; 24; 24; 0; 0; 0; 0;
  0; 0; 0; 0; 2; 6; 12; 24; 48; 96; 192; 128; 0; 0; 0; 0;
  0; 0; 124; 198; 198; 206; 214; 214; 230; 198; 198; 124; 0; 0; 0; 0;
  0; 0; 24; 56; 120; 24; 24; 24; 24; 24; 24; 126; 0; 0; 0; 0;
  0; 0; 124; 198; 6; 12; 24; 48; 96; 192; 198; 254; 0; 0; 0; 0;
  0; 0; 124; 198; 6; 6; 60; 6; 6; 6; 198; 124; 0; 0; 0; 0;
  0; 0; 12; 28; 60; 108; 204; 254; 12; 12; 12; 30; 0; 0; 0; 0;
  0; 0; 254; 192; 192; 192; 252; 14; 6; 6; 198; 124; 0; 0; 0; 0;
  0; 0; 56; 96; 192; 192; 252; 198; 198; 198; 198; 124; 0; 0; 0; 0;
  0; 0; 254; 198; 6; 6; 12; 24; 48; 48; 48; 48; 0; 0; 0; 0;
  0; 0; 124; 198; 198; 198; 124; 198; 198; 198; 198; 124; 0; 0; 0; 0;
  0; 0; 124; 198; 198; 198; 126; 6; 6; 6; 12; 120; 0; 0; 0; 0;
  0; 0; 0; 0; 24; 24; 0; 0; 0; 24; 24; 0; 0; 0; 0; 0;
  0; 0; 0; 0; 24; 24; 0; 0; 0; 24; 24; 48; 0; 0; 0; 0;
  0; 0; 0; 6; 12; 24; 48; 96; 48; 24; 12; 6; 0; 0; 0; 0;
  0; 0; 0; 0; 0; 0; 254; 0; 0; 254; 0; 0; 0; 0; 0; 0;
  0; 0; 0; 96; 48; 24; 12; 6; 12; 24; 48; 96; 0; 0; 0; 0;
  0; 0; 124; 198; 198; 12; 24; 24; 24; 0; 24; 24; 0; 0; 0; 0;
  0; 0; 0; 124; 198; 198; 222; 222; 222; 220; 192; 124; 0; 0; 0; 0;
  0; 0; 16; 56; 108; 198; 198; 254; 198; 198; 198; 198; 0; 0; 0; 0;
  0; 0; 252; 102; 102; 102; 124; 102; 102; 102; 102; 252; 0; 0; 0; 0;
  0; 0; 60; 102; 194; 192; 192; 192; 192; 194; 102; 60; 0; 0; 0; 0;
  0; 0; 248; 108; 102; 102; 102; 102; 102; 102; 108; 248; 0; 0; 0; 0;
  0; 0; 254; 102; 98; 104; 120; 104; 96; 98; 102; 254; 0; 0; 0; 0;
  0; 0; 254; 102; 98; 104; 120; 104; 96; 96; 96; 240; 0; 0; 0; 0;
  0; 0; 60; 102; 194; 192; 192; 222; 198; 198; 102; 58; 0; 0; 0; 0;
  0; 0; 198; 198; 198; 198; 254; 198; 198; 198; 198; 198; 0; 0; 0; 0;
  0; 0; 60; 24; 24; 24; 24; 24; 24; 24; 24; 60; 0; 0; 0; 0;
  0; 0; 30; 12; 12; 12; 12; 12; 204; 204; 204; 120; 0; 0; 0; 0;
  0; 0; 230; 102; 108; 108; 120; 120; 108; 102; 102; 230; 0; 0; 0; 0;
  0; 0; 240; 96; 96; 96; 96; 96; 96; 98; 102; 254; 0; 0; 0; 0;
  0; 0; 198; 238; 254; 254; 214; 198; 198; 198; 198; 198; 0; 0; 0; 0;
  0; 0; 198; 230; 246; 254; 222; 206; 198; 198; 198; 198; 0; 0; 0; 0;
  0; 0; 56; 108; 198; 198; 198; 198; 198; 198; 108; 56; 0; 0; 0; 0;
  0; 0; 252; 102; 102; 102; 124; 96; 96; 96; 96; 240; 0; 0; 0; 0;
  0; 0; 124; 198; 198; 198; 198; 198; 198; 214; 222; 124; 12; 14; 0; 0;
  0; 0; 252; 102; 102; 102; 124; 108; 102; 102; 102; 230; 0; 0; 0; 0;
  0; 0; 124; 198; 198; 96; 56; 12; 6; 198; 198; 124; 0; 0; 0; 0;
  0; 0; 126; 126; 90; 24; 24; 24; 24; 24; 24; 60; 0; 0; 0; 0;
  0; 0; 198; 198; 198; 198; 198; 198; 198; 198; 198; 124; 0; 0; 0; 0;
  0; 0; 198; 198; 198; 198; 198; 198; 198; 108; 56; 16; 0; 0; 0; 0;
  0; 0; 198; 198; 198; 198; 198; 214; 214; 254; 108; 108; 0; 0; 0; 0;
  0; 0; 198; 198; 108; 108; 56; 56; 108; 108; 198; 198; 0; 0; 0; 0;
  0; 0; 102; 102; 102; 102; 60; 24; 24; 24; 24; 60; 0; 0; 0; 0;
  0; 0; 254; 198; 134; 12; 24; 48; 96; 194; 198; 254; 0; 0; 0; 0;
  0; 0; 60; 48; 48; 48; 48; 48; 48; 48; 48; 60; 0; 0; 0; 0;
  0; 0; 0; 128; 192; 224; 112; 56; 28; 14; 6; 2; 0; 0; 0; 0;
  0; 0; 60; 12; 12; 12; 12; 12; 12; 12; 12; 60; 0; 0; 0; 0;
  16; 56; 108; 198; 0; 0; 0; 0; 0; 0; 0; 0; 0; 0; 0; 0;
  0; 0; 0; 0; 0; 0; 0; 0; 0; 0; 0; 0; 0; 255; 0; 0;
  48; 48; 24; 0; 0; 0; 0; 0; 0; 0; 0; 0; 0; 0; 0; 0;
  0; 0; 0; 0; 0; 120; 12; 124; 204; 204; 204; 118; 0; 0; 0; 0;
  0; 0; 224; 96; 96; 120; 108; 102; 102; 102; 102; 220; 0; 0; 0; 0;
  0; 0; 0; 0; 0; 124; 198; 192; 192; 192; 198; 124; 0; 0; 0; 0;
  0; 0; 28; 12; 12; 60; 108; 204; 204; 204; 204; 118; 0; 0; 0; 0;
  0; 0; 0; 0; 0; 124; 198; 254; 192; 192; 198; 124; 0; 0; 0; 0;
  0; 0; 56; 108; 100; 96; 240; 96; 96; 96; 96; 240; 0; 0; 0; 0;
  0; 0; 0; 0; 0; 118; 204; 204; 204; 204; 204; 124; 12; 204; 120; 0;
  0; 0; 224; 96; 96; 108; 118; 102; 102; 102; 102; 230; 0; 0; 0; 0;
  0; 0; 24; 24; 0; 56; 24; 24; 24; 24; 24; 60; 0; 0; 0; 0;
  0; 0; 6; 6; 0; 14; 6; 6; 6; 6; 6; 6; 102; 102; 60; 0;
  0; 0; 224; 96; 96; 102; 108; 120; 120; 108; 102; 230; 0; 0; 0; 0;
  0; 0; 56; 24; 24; 24; 24; 24; 24; 24; 24; 60; 0; 0; 0; 0;
  0; 0; 0; 0; 0; 236; 254; 214; 214; 214; 214; 214; 0; 0; 0; 0;
  0; 0; 0; 0; 0; 220; 102; 102; 102; 102; 102; 102; 0; 0; 0; 0;
  0; 0; 0; 0; 0; 124; 198; 198; 198; 198; 198; 124; 0; 0; 0; 0;
  0; 0; 0; 0; 0; 220; 102; 102; 102; 102; 102; 124; 96; 96; 240; 0;
  0; 0; 0; 0; 0; 118; 204; 204; 204; 204; 204; 124; 12; 12; 30; 0;
  0; 0; 0; 0; 0; 220; 118; 98; 96; 96; 96; 240; 0; 0; 0; 0;
  0; 0; 0; 0; 0; 124; 198; 96; 56; 12; 198; 124; 0; 0; 0; 0;
  0; 0; 16; 48; 48; 252; 48; 48; 48; 48; 54; 28; 0; 0; 0; 0;
  0; 0; 0; 0; 0; 204; 204; 204; 204; 204; 204; 118; 0; 0; 0; 0;
  0; 0; 0; 0; 0; 102; 102; 102; 102; 102; 60; 24; 0; 0; 0; 0;
  0; 0; 0; 0; 0; 198; 198; 198; 214; 214; 254; 108; 0; 0; 0; 0;
  0; 0; 0; 0; 0; 198; 108; 56; 56; 56; 108; 198; 0; 0; 0; 0;
  0; 0; 0; 0; 0; 198; 198; 198; 198; 198; 198; 126; 6; 12; 248; 0;
  0; 0; 0; 0; 0; 254; 204; 24; 48; 96; 198; 254; 0; 0; 0; 0;
  0; 0; 14; 24; 24; 24; 112; 24; 24; 24; 24; 14; 0; 0; 0; 0;
  0; 0; 24; 24; 24; 24; 0; 24; 24; 24; 24; 24; 0; 0; 0; 0;
  0; 0; 112; 24; 24; 24; 14; 24; 24; 24; 24; 112; 0; 0; 0; 0;
  0; 0; 118; 220; 0; 0; 0; 0; 0; 0; 0; 0; 0; 0; 0; 0;
  0; 0; 0; 0; 16; 56; 108; 198; 198; 198; 254; 0; 0; 0; 0; 0;
  0; 0; 60; 102; 194; 192; 192; 192; 194; 102; 60; 12; 6; 124; 0; 0;
  0; 0; 204; 204; 0; 204; 204; 204; 204; 204; 204; 118; 0; 0; 0; 0;
  0; 12; 24; 48; 0; 124; 198; 254; 192; 192; 198; 124; 0; 0; 0; 0;
  0; 16; 56; 108; 0; 120; 12; 124; 204; 204; 204; 118; 0; 0; 0; 0;
  0; 0; 204; 204; 0; 120; 12; 124; 204; 204; 204; 118; 0; 0; 0; 0;
  0; 96; 48; 24; 0; 120; 12; 124; 204; 204; 204; 118; 0; 0; 0; 0;
  0; 56; 108; 56; 0; 120; 12; 124; 204; 204; 204; 118; 0; 0; 0; 0;
  0; 0; 0; 0; 60; 102; 96; 96; 102; 60; 12; 6; 60; 0; 0; 0;
  0; 16; 56; 108; 0; 124; 198; 254; 192; 192; 198; 124; 0; 0; 0; 0;
  0; 0; 198; 198; 0; 124; 198; 254; 192; 192; 198; 124; 0; 0; 0; 0;
  0; 96; 48; 24; 0; 124; 198; 254; 192; 192; 198; 124; 0; 0; 0; 0;
  0; 0; 102; 102; 0; 56; 24; 24; 24; 24; 24; 60; 0; 0; 0; 0;
  0; 24; 60; 102; 0; 56; 24; 24; 24; 24; 24; 60; 0; 0; 0; 0;
  0; 96; 48; 24; 0; 56; 24; 24; 24; 24; 24; 60; 0; 0; 0; 0;
  0; 198; 198; 16; 56; 108; 198; 198; 254; 198; 198; 198; 0; 0; 0; 0;
  56; 108; 56; 0; 56; 108; 198; 198; 254; 198; 198; 198; 0; 0; 0; 0;
  24; 48; 96; 0; 254; 102; 96; 124; 96; 96; 102; 254; 0; 0; 0; 0;
  0; 0; 0; 0; 0; 204; 118; 54; 126; 216; 216; 110; 0; 0; 0; 0;
  0; 0; 62; 108; 204; 204; 254; 204; 204; 204; 204; 206; 0; 0; 0; 0;
  0; 16; 56; 108; 0; 124; 198; 198; 198; 198; 198; 124; 0; 0; 0; 0;
  0; 0; 198; 198; 0; 124; 198; 198; 198; 198; 198; 124; 0; 0; 0; 0;
  0; 96; 48; 24; 0; 124; 198; 198; 198; 198; 198; 124; 0; 0; 0; 0;
  0; 48; 120; 204; 0; 204; 204; 204; 204; 204; 204; 118; 0; 0; 0; 0;
  0; 96; 48; 24; 0; 204; 204; 204; 204; 204; 204; 118; 0; 0; 0; 0;
  0; 0; 198; 198; 0; 198; 198; 198; 198; 198; 198; 126; 6; 12; 120; 0;
  0; 198; 198; 0; 56; 108; 198; 198; 198; 198; 108; 56; 0; 0; 0; 0;
  0; 198; 198; 0; 198; 198; 198; 198; 198; 198; 198; 124; 0; 0; 0; 0;
  0; 24; 24; 60; 102; 96; 96; 96; 102; 60; 24; 24; 0; 0; 0; 0;
  0; 56; 108; 100; 96; 240; 96; 96; 96; 96; 230; 252; 0; 0; 0; 0;
  0; 0; 102; 102; 60; 24; 126; 24; 126; 24; 24; 24; 0; 0; 0; 0;
  0; 248; 204; 204; 248; 196; 204; 222; 204; 204; 204; 198; 0; 0; 0; 0;
  0; 14; 27; 24; 24; 24; 126; 24; 24; 24; 24; 24; 216; 112; 0; 0;
  0; 24; 48; 96; 0; 120; 12; 124; 204; 204; 204; 118; 0; 0; 0; 0;
  0; 12; 24; 48; 0; 56; 24; 24; 24; 24; 24; 60; 0; 0; 0; 0;
  0; 24; 48; 96; 0; 124; 198; 198; 198; 198; 198; 124; 0; 0; 0; 0;
  0; 24; 48; 96; 0; 204; 204; 204; 204; 204; 204; 118; 0; 0; 0; 0;
  0; 0; 118; 220; 0; 220; 102; 102; 102; 102; 102; 102; 0; 0; 0; 0;
  118; 220; 0; 198; 230; 246; 254; 222; 206; 198; 198; 198; 0; 0; 0; 0;
  0; 60; 108; 108; 62; 0; 126; 0; 0; 0; 0; 0; 0; 0; 0; 0;
  0; 56; 108; 108; 56; 0; 124; 0; 0; 0; 0; 0; 0; 0; 0; 0;
  0; 0; 48; 48; 0; 48; 48; 96; 192; 198; 198; 124; 0; 0; 0; 0;
  0; 0; 0; 0; 0; 0; 254; 192; 192; 192; 192; 0; 0; 0; 0; 0;
  0; 0; 0; 0; 0; 0; 254; 6; 6; 6; 6; 0; 0; 0; 0; 0;
  0; 192; 192; 194; 198; 204; 24; 48; 96; 206; 147; 6; 12; 31; 0; 0;
  0; 192; 192; 194; 198; 204; 24; 48; 102; 206; 154; 63; 6; 15; 0; 0;
  0; 0; 24; 24; 0; 24; 24; 24; 60; 60; 60; 24; 0; 0; 0; 0;
  0; 0; 0; 0; 0; 51; 102; 204; 102; 51; 0; 0; 0; 0; 0; 0;
  0; 0; 0; 0; 0; 204; 102; 51; 102; 204; 0; 0; 0; 0; 0; 0;
  17; 68; 17; 68; 17; 68; 17; 68; 17; 68; 17; 68; 17; 68; 17; 68;
  85; 170; 85; 170; 85; 170; 85; 170; 85; 170; 85; 170; 85; 170; 85; 170;
  221; 119; 221; 119; 221; 119; 221; 119; 221; 119; 221; 119; 221; 119; 221; 119;
  24; 24; 24; 24; 24; 24; 24; 24; 24; 24; 24; 24; 24; 24; 24; 24;
  24; 24; 24; 24; 24; 24; 24; 248; 24; 24; 24; 24; 24; 24; 24; 24;
  24; 24; 24; 24; 24; 248; 24; 248; 24; 24; 24; 24; 24; 24; 24; 24;
  54; 54; 54; 54; 54; 54; 54; 246; 54; 54; 54; 54; 54; 54; 54; 54;
  0; 0; 0; 0; 0; 0; 0; 254; 54; 54; 54; 54; 54; 54; 54; 54;
  0; 0; 0; 0; 0; 248; 24; 248; 24; 24; 24; 24; 24; 24; 24; 24;
  54; 54; 54; 54; 54; 246; 6; 246; 54; 54; 54; 54; 54; 54; 54; 54;
  54; 54; 54; 54; 54; 54; 54; 54; 54; 54; 54; 54; 54; 54; 54; 54;
  0; 0; 0; 0; 0; 254; 6; 246; 54; 54; 54; 54; 54; 54; 54; 54;
  54; 54; 54; 54; 54; 246; 6; 254; 0; 0; 0; 0; 0; 0; 0; 0;
  54; 54; 54; 54; 54; 54; 54; 254; 0; 0; 0; 0; 0; 0; 0; 0;
  24; 24; 24; 24; 24; 248; 24; 248; 0; 0; 0; 0; 0; 0; 0; 0;
  0; 0; 0; 0; 0; 0; 0; 248; 24; 24; 24; 24; 24; 24; 24; 24;
  24; 24; 24; 24; 24; 24; 24; 31; 0; 0; 0; 0; 0; 0; 0; 0;
  24; 24; 24; 24; 24; 24; 24; 255; 0; 0; 0; 0; 0; 0; 0; 0;
  0; 0; 0; 0; 0; 0; 0; 255; 24; 24; 24; 24; 24; 24; 24; 24;
  24; 24; 24; 24; 24; 24; 24; 31; 24; 24; 24; 24; 24; 24; 24; 24;
  0; 0; 0; 0; 0; 0; 0; 255; 0; 0; 0; 0; 0; 0; 0; 0;
  24; 24; 24; 24; 24; 24; 24; 255; 24; 24; 24; 24; 24; 24; 24; 24;
  24; 24; 24; 24; 24; 31; 24; 31; 24; 24; 24; 24; 24; 24; 24; 24;
  54; 54; 54; 54; 54; 54; 54; 55; 54; 54; 54; 54; 54; 54; 54; 54;
  54; 54; 54; 54; 54; 55; 48; 63; 0; 0; 0; 0; 0; 0; 0; 0;
  0; 0; 0; 0; 0; 63; 48; 55; 54; 54; 54; 54; 54; 54; 54; 54;
  54; 54; 54; 54; 54; 247; 0; 255; 0; 0; 0; 0; 0; 0; 0; 0;
  0; 0; 0; 0; 0; 255; 0; 247; 54; 54; 54; 54; 54; 54; 54; 54;
  54; 54; 54; 54; 54; 55; 48; 55; 54; 54; 54; 54; 54; 54; 54; 54;
  0; 0; 0; 0; 0; 255; 0; 255; 0; 0; 0; 0; 0; 0; 0; 0;
  54; 54; 54; 54; 54; 247; 0; 247; 54; 54; 54; 54; 54; 54; 54; 54;
  24; 24; 24; 24; 24; 255; 0; 255; 0; 0; 0; 0; 0; 0; 0; 0;
  54; 54; 54; 54; 54; 54; 54; 255; 0; 0; 0; 0; 0; 0; 0; 0;
  0; 0; 0; 0; 0; 255; 0; 255; 24; 24; 24; 24; 24; 24; 24; 24;
  0; 0; 0; 0; 0; 0; 0; 255; 54; 54; 54; 54; 54; 54; 54; 54;
  54; 54; 54; 54; 54; 54; 54; 63; 0; 0; 0; 0; 0; 0; 0; 0;
  24; 24; 24; 24; 24; 31; 24; 31; 0; 0; 0; 0; 0; 0; 0; 0;
  0; 0; 0; 0; 0; 31; 24; 31; 24; 24; 24; 24; 24; 24; 24; 24;
  0; 0; 0; 0; 0; 0; 0; 63; 54; 54; 54; 54; 54; 54; 54; 54;
  54; 54; 54; 54; 54; 54; 54; 255; 54; 54; 54; 54; 54; 54; 54; 54;
  24; 24; 24; 24; 24; 255; 24; 255; 24; 24; 24; 24; 24; 24; 24; 24;
  24; 24; 24; 24; 24; 24; 24; 248; 0; 0; 0; 0; 0; 0; 0; 0;
  0; 0; 0; 0; 0; 0; 0; 31; 24; 24; 24; 24; 24; 24; 24; 24;
  255; 255; 255; 255; 255; 255; 255; 255; 255; 255; 255; 255; 255; 255; 255; 255;
  0; 0; 0; 0; 0; 0; 0; 255; 255; 255; 255; 255; 255; 255; 255; 255;
  240; 240; 240; 240; 240; 240; 240; 240; 240; 240; 240; 240; 240; 240; 240; 240;
  15; 15; 15; 15; 15; 15; 15; 15; 15; 15; 15; 15; 15; 15; 15; 15;
  255; 255; 255; 255; 255; 255; 255; 0; 0; 0; 0; 0; 0; 0; 0; 0;
  0; 0; 0; 0; 0; 118; 220; 216; 216; 216; 220; 118; 0; 0; 0; 0;
  0; 0; 0; 0; 0; 252; 198; 252; 198; 198; 252; 192; 192; 192; 0; 0;
  0; 0; 254; 198; 198; 192; 192; 192; 192; 192; 192; 192; 0; 0; 0; 0;
  0; 0; 0; 0; 128; 254; 108; 108; 108; 108; 108; 108; 0; 0; 0; 0;
  0; 0; 0; 254; 198; 96; 48; 24; 48; 96; 198; 254; 0; 0; 0; 0;
  0; 0; 0; 0; 0; 126; 216; 216; 216; 216; 216; 112; 0; 0; 0; 0;
  0; 0; 0; 0; 102; 102; 102; 102; 102; 124; 96; 96; 192; 0; 0; 0;
  0; 0; 0; 0; 118; 220; 24; 24; 24; 24; 24; 24; 0; 0; 0; 0;
  0; 0; 0; 126; 24; 60; 102; 102; 102; 60; 24; 126; 0; 0; 0; 0;
  0; 0; 0; 56; 108; 198; 198; 254; 198; 198; 108; 56; 0; 0; 0; 0;
  0; 0; 56; 108; 198; 198; 198; 108; 108; 108; 108; 238; 0; 0; 0; 0;
  0; 0; 30; 48; 24; 12; 62; 102; 102; 102; 102; 60; 0; 0; 0; 0;
  0; 0; 0; 0; 0; 126; 219; 219; 219; 126; 0; 0; 0; 0; 0; 0;
  0; 0; 0; 3; 6; 126; 207; 219; 243; 126; 96; 192; 0; 0; 0; 0;
  0; 0; 28; 48; 96; 96; 124; 96; 96; 96; 48; 28; 0; 0; 0; 0;
  0; 0; 0; 124; 198; 198; 198; 198; 198; 198; 198; 198; 0; 0; 0; 0;
  0; 0; 0; 0; 254; 0; 0; 254; 0; 0; 254; 0; 0; 0; 0; 0;
  0; 0; 0; 0; 24; 24; 126; 24; 24; 0; 0; 255; 0; 0; 0; 0;
  0; 0; 0; 48; 24; 12; 6; 12; 24; 48; 0; 126; 0; 0; 0; 0;
  0; 0; 0; 12; 24; 48; 96; 48; 24; 12; 0; 126; 0; 0; 0; 0;
  0; 0; 14; 27; 27; 24; 24; 24; 24; 24; 24; 24; 24; 24; 24; 24;
  24; 24; 24; 24; 24; 24; 24; 24; 216; 216; 216; 112; 0; 0; 0; 0;
  0; 0; 0; 0; 24; 24; 0; 126; 0; 24; 24; 0; 0; 0; 0; 0;
  0; 0; 0; 0; 0; 118; 220; 0; 118; 220; 0; 0; 0; 0; 0; 0;
  0; 56; 108; 108; 56; 0; 0; 0; 0; 0; 0; 0; 0; 0; 0; 0;
  0; 0; 0; 0; 0; 0; 0; 24; 24; 0; 0; 0; 0; 0; 0; 0;
  0; 0; 0; 0; 0; 0; 0; 0; 24; 0; 0; 0; 0; 0; 0; 0;
  0; 15; 12; 12; 12; 12; 12; 236; 108; 108; 60; 28; 0; 0; 0; 0;
  0; 216; 108; 108; 108; 108; 108; 0; 0; 0; 0; 0; 0; 0; 0; 0;
  0; 112; 152; 48; 96; 200; 248; 0; 0; 0; 0; 0; 0; 0; 0; 0;
  0; 0; 0; 0; 124; 124; 124; 124; 124; 124; 124; 0; 0; 0; 0; 0;
  0; 0; 0; 0; 0; 0; 0; 0; 0; 0; 0; 0; 0; 0; 0; 0].

Record Pixel := MkPixel { px_r : Z; px_g : Z; px_b : Z }.

Definition from_u32_rgb (val : Z) : Pixel :=
  MkPixel (wrap 8 (Z.shiftr (Z.land val 0xFF0000) 16)) (wrap 8 (Z.shiftr (Z.land val 0xFF00) 8))
    (wrap 8 (Z.shiftr (Z.land val 0xFF) 0)).
Definition from_u32_bgr (val : Z) : Pixel :=
  MkPixel (wrap 8 (Z.shiftr (Z.land val 0xFF) 0)) (wrap 8 (Z.shiftr (Z.land val 0xFF00) 8))
    (wrap 8 (Z.shiftr (Z.land val 0xFF0000) 16)).

(** The trait FrameBuffer; the error of the colour that [set_pixel] reports is
    used nowhere and left out. *)
Class FrameBuffer (FB : Type) := {
  get_width : FB -> Z;
  get_height : FB -> Z;
  set_pixel : FB -> Z -> Z -> Pixel -> outcome FB;
}.

(** What the character device relies on: a pixel of the screen can be set, and
    setting it keeps the size of the screen. *)
Class FrameBufferOk (FB : Type) `{FrameBuffer FB} := {
  fb_ok : FB -> Prop;
  set_pixel_ok : forall fb x y p, fb_ok fb -> 0 <= x < get_width fb -> 0 <= y < get_height fb ->
    exists fb', set_pixel fb x y p = Ret fb' /\ fb_ok fb' /\
      get_width fb' = get_width fb /\ get_height fb' = get_height fb;
}.

Section CharDevice.
Context {FB : Type} `{FrameBuffer FB}.

Definition black : Pixel := MkPixel 0 0 0.

(** [for i in from..from + n { body }] on the frame buffer. *)
Fixpoint for_range (n : nat) (from : Z) (body : Z -> FB -> outcome FB) (fb : FB) : outcome FB :=
  match n with
  | O => Ret fb
  | S n => let! fb := body from fb in for_range n (from + 1) body fb
  end.

(** [FrameBuffer::fill]. *)
Definition fill (fb : FB) (x1 y1 x2 y2 : Z) (pixel : Pixel) : outcome FB :=
  for_range (Z.to_nat (y2 - y1)) y1 (fun y =>
    for_range (Z.to_nat (x2 - x1)) x1 (fun x fb => set_pixel fb x y pixel)) fb.

(** One line of a character. *)
Definition draw_line (line x i : Z) (color : Pixel) : FB -> outcome FB :=
  for_range 8 x (fun j fb =>
    let! bit := shl_chk 8 1 (7 - (j - x)) in
    if negb (Z.land line bit =? 0) then set_pixel fb j i color else set_pixel fb j i black).

(** [CharDevice::write_char]; None when the character is not ASCII. *)
Definition write_glyph (fb : FB) (x y c : Z) (color : Pixel) : outcome (FB * option unit) :=
  if negb (c <? 128) then Ret (fb, None)
  else
    let! x := mul_chk 64 x 8 in
    let! y := mul_chk 64 y 16 in
    let! fb := for_range 16 y (fun i fb =>
      let! line := unwrap (FONT_8X16 !! Z.to_nat (c * 16 + (i - y))) in
      draw_line line x i color fb) fb in
    Ret (fb, Some ()).

Definition get_rows (fb : FB) : Z := get_height fb / 16.
Definition get_cols (fb : FB) : Z := get_width fb / 8.

(** * Drawing stays on the screen *)

Lemma for_range_ok (P : FB -> Prop) n body : forall from fb,
  P fb -> (forall i fb, from <= i < from + Z.of_nat n -> P fb -> exists fb', body i fb = Ret fb' /\ P fb') ->
  exists fb', for_range n from body fb = Ret fb' /\ P fb'.
Proof.
  induction n as [|n IH]; intros from fb HP Hb; cbn [for_range]; [eauto|].
  destruct (Hb from fb) as (fb1 & E & H1); [lia|done|]. rewrite E. cbn [obind].
  apply IH; [done|]. intros i fb2 Hi. apply Hb. lia.
Qed.

Context {FBok : FrameBufferOk FB}.

(** A usable screen of the same size. *)
Definition same_screen (fb fb' : FB) : Prop :=
  fb_ok fb' /\ get_width fb' = get_width fb /\ get_height fb' = get_height fb.

(** The screen can be addressed with machine integers. *)
Definition screen_ok (fb : FB) : Prop := fb_ok fb /\ 0 <= get_width fb < 2 ^ 63 /\ 0 <= get_height fb < 2 ^ 63.

Lemma set_pixel_same fb0 fb x y p :
  same_screen fb0 fb -> 0 <= x < get_width fb0 -> 0 <= y < get_height fb0 ->
  exists fb', set_pixel fb x y p = Ret fb' /\ same_screen fb0 fb'.
Proof.
  intros (Hf & E1 & E2) Hx Hy. destruct (set_pixel_ok fb x y p Hf) as (fb' & E & H1 & H2 & H3); [lia..|].
  exists fb'. split; [done|]. split_and!; congruence.
Qed.

Lemma draw_line_ok fb0 fb line x i color :
  same_screen fb0 fb -> 0 <= x -> x + 8 <= get_width fb0 -> 0 <= i < get_height fb0 ->
  exists fb', draw_line line x i color fb = Ret fb' /\ same_screen fb0 fb'.
Proof.
  intros Hs Hx Hw Hi. apply (for_range_ok (same_screen fb0)); [done|]. intros j fb1 Hj H1.
  unfold shl_chk. rewrite (proj2 (Z.ltb_lt (7 - (j - x)) 8)) by lia. cbn [obind].
  destruct (negb _); apply set_pixel_same; (done || lia).
Qed.

Lemma font_length : length FONT_8X16 = 4096%nat.
Proof. by vm_compute. Qed.

(** Writing a character of the font inside the screen succeeds and keeps the size of
    the screen; another character is not written. *)
Lemma write_glyph_ok fb x y c color :
  screen_ok fb -> 0 <= x < get_cols fb -> 0 <= y < get_rows fb -> 0 <= c ->
  exists fb' r, write_glyph fb x y c color = Ret (fb', r) /\ same_screen fb fb' /\ (r = Some () <-> c < 128).
Proof.
  intros (Hf & Hw & Hh) Hx Hy Hc. unfold write_glyph. destruct (Z.ltb_spec c 128); cbn [negb].
  2:{ exists fb, None. split_and!; [done|done|]. split; [done|lia]. }
  unfold get_cols, get_rows in *.
  assert (x * 8 + 8 <= get_width fb) by (pose proof (Z.mul_div_le (get_width fb) 8 ltac:(lia)); lia).
  assert (y * 16 + 16 <= get_height fb) by (pose proof (Z.mul_div_le (get_height fb) 16 ltac:(lia)); lia).
  rewrite !mul_chk_ok by lia. cbn [obind].
  destruct (for_range_ok (same_screen fb) 16 (fun i fb =>
      let! line := unwrap (FONT_8X16 !! Z.to_nat (c * 16 + (i - y * 16))) in
      draw_line line (x * 8) i color fb) (y * 16) fb) as (fb' & E & Hs).
  - done.
  - intros i fb1 Hi Hs1. destruct (lookup_lt_is_Some_2 FONT_8X16 (Z.to_nat (c * 16 + (i - y * 16)))) as [line ->].
    { rewrite font_length. lia. }
    cbn [obind unwrap]. apply draw_line_ok; (done || lia).
  - rewrite E. exists fb', (Some ()). cbn [obind]. split_and!; [done|done|]. split; [lia|done].
Qed.

End CharDevice.

(** * The frame buffer of the EFI graphics mode *)

Inductive EfiGraphicsPixelFormat := RgbR8bit | BgrR8bit | BitMask | BltOnly | FormatMax.

(** [framebuffer] is the memory at framebuffer_base, one word per pixel. *)
Record EfiGopMode := MkGop {
  framebuffer : list Z;
  horz_res : Z;
  vert_res : Z;
  pix_format : EfiGraphicsPixelFormat;
}.

(** [u32::to_be] on a little-endian machine. *)
Definition to_be32 (v : Z) : Z := from_le_bytes (reverse (to_le_bytes 4 v)).

Definition pack_pixel (b3 b2 b1 : Z) : Z :=
  to_be32 (Z.lor (Z.lor (Z.shiftl b3 24) (Z.shiftl b2 16)) (Z.shiftl b1 8)).

(** [fb_ptr[y * self.get_width() + x] = v]. *)
Definition store_pixel (fb : EfiGopMode) (x y v : Z) : outcome EfiGopMode :=
  let! row := mul_chk 64 y (horz_res fb) in
  let! i := add_chk 64 row x in
  if i <? Z.of_nat (length (framebuffer fb))
  then Ret (MkGop (<[Z.to_nat i := v]> (framebuffer fb)) (horz_res fb) (vert_res fb) (pix_format fb))
  else Panic.

Definition efi_set_pixel (fb : EfiGopMode) (x y : Z) (pixel : Pixel) : outcome EfiGopMode :=
  if x >? horz_res fb then Ret fb
  else if y >? vert_res fb then Ret fb
  else match pix_format fb with
  | RgbR8bit => store_pixel fb x y (pack_pixel (px_r pixel) (px_g pixel) (px_b pixel))
  | BgrR8bit => store_pixel fb x y (pack_pixel (px_b pixel) (px_g pixel) (px_r pixel))
  | BitMask | BltOnly | FormatMax => Ret fb
  end.

#[export] Instance efi_frame_buffer : FrameBuffer EfiGopMode := {|
  get_width := horz_res;
  get_height := vert_res;
  set_pixel := efi_set_pixel;
|}.

(** The resolution is a pair of u32s, and the buffer has a word per pixel. *)
Definition gop_ok (fb : EfiGopMode) : Prop :=
  0 <= horz_res fb < 2 ^ 32 /\ 0 <= vert_res fb < 2 ^ 32 /\
  Z.of_nat (length (framebuffer fb)) = horz_res fb * vert_res fb.

#[export] Instance efi_frame_buffer_ok : FrameBufferOk EfiGopMode.
Proof.
  refine {| fb_ok := gop_ok |}. intros fb x y p (Hw & Hh & Hl) Hx Hy. simpl in *. unfold efi_set_pixel.
  destruct (Z.gtb_spec x (horz_res fb)); [lia|]. destruct (Z.gtb_spec y (vert_res fb)); [lia|].
  assert (forall v, exists fb', store_pixel fb x y v = Ret fb' /\ gop_ok fb' /\
    horz_res fb' = horz_res fb /\ vert_res fb' = vert_res fb) as Hst.
  { intros v. unfold store_pixel. assert (y * horz_res fb + x < horz_res fb * vert_res fb) by nia.
    rewrite mul_chk_ok by nia. cbn [obind]. rewrite add_chk_ok by nia. cbn [obind].
    rewrite (proj2 (Z.ltb_lt _ _)) by lia. eexists. split; [done|]. unfold gop_ok. simpl. by rewrite length_insert. }
  destruct (pix_format fb); try apply Hst; exists fb; unfold gop_ok; tauto.
Defined.

(** The bounds checks of the EFI frame buffer compare with [>] where [>=] is
    meant: the pixel just below the last line is not refused but written past the
    end of the buffer, which stops the kernel. *)
Theorem efi_pixel_below_screen_panics fb x p :
  gop_ok fb -> pix_format fb = RgbR8bit \/ pix_format fb = BgrR8bit -> 0 <= x <= horz_res fb ->
  set_pixel fb x (vert_res fb) p = Panic.
Proof.
  intros (Hw & Hh & Hl) Hf Hx. simpl. unfold efi_set_pixel.
  destruct (Z.gtb_spec x (horz_res fb)); [lia|]. destruct (Z.gtb_spec (vert_res fb) (vert_res fb)); [lia|].
  assert (forall v, store_pixel fb x (vert_res fb) v = Panic) as Hst.
  { intros v. unfold store_pixel. rewrite mul_chk_ok by nia. cbn [obind]. rewrite add_chk_ok by nia. cbn [obind].
    by rewrite (proj2 (Z.ltb_ge _ _)) by lia. }
  by destruct Hf as [-> | ->].
Qed.

Lemma efi_pixel_below_screen_panics_witness :
  set_pixel (MkGop (replicate 6 0) 3 2 RgbR8bit) 0 2 black = Panic.
Proof.
  apply (efi_pixel_below_screen_panics (MkGop (replicate 6 0) 3 2 RgbR8bit) 0 black).
  - unfold gop_ok. simpl. lia.
  - by left.
  - simpl. lia.
Defined.
