(* ===== verification/Terminal.v ===== *)
(** The terminal: kernel/src/terminal.rs.  A cursor on a character device, and the
    line buffer that turns keys into the lines programs read from standard input. *)
From S2P Require Import Prelude MachineInt Str Keyboard CharDevice.
From stdpp Require Import list sets.
#[local] Open Scope Z_scope.

Section Terminal.
Context {FB : Type} {FBops : FrameBuffer FB}.

Record Terminal := MkTerminal {
  fb : FB;
  cursor_pos : Z * Z;
  cursor_char : Z;
  color : Pixel;
  line_buffer : list Z;
}.
Implicit Types t : Terminal.

Definition newline : Z := 10.

Definition terminal_new (f : FB) (c : Pixel) : Terminal := MkTerminal f (0, 0) 32 c [].

Definition set_fb t (f : FB) : Terminal := MkTerminal f (cursor_pos t) (cursor_char t) (color t) (line_buffer t).
Definition set_cursor t (x y : Z) : Terminal := MkTerminal (fb t) (x, y) (cursor_char t) (color t) (line_buffer t).
Definition set_line t (l : list Z) : Terminal := MkTerminal (fb t) (cursor_pos t) (cursor_char t) (color t) l.

(** [self.fb.write_char(x, y, c, self.color)]; the result is ignored. *)
Definition put t (x y c : Z) : outcome Terminal :=
  let! (f, _) := write_glyph (fb t) x y c (color t) in Ret (set_fb t f).

Definition clear t : outcome Terminal :=
  let! f := for_range (Z.to_nat (get_height (fb t))) 0 (fun i =>
    for_range (Z.to_nat (get_width (fb t))) 0 (fun j f => set_pixel f j i black)) (fb t) in
  Ret (set_cursor (set_fb t f) 0 0).

(** * The cursor *)

Definition cursor_up t : outcome Terminal :=
  if (cursor_pos t).2 =? 0 then Ret t
  else let! y := sub_chk (cursor_pos t).2 1 in Ret (set_cursor t (cursor_pos t).1 y).

Definition cursor_down t : outcome Terminal :=
  let! bottom := sub_chk (get_rows (fb t)) 1 in
  if (cursor_pos t).2 >=? bottom then Ret (set_cursor t (cursor_pos t).1 0)
  else let! y := add_chk 64 (cursor_pos t).2 1 in Ret (set_cursor t (cursor_pos t).1 y).

(** [for x in 0..self.fb.get_cols()]: the line of the cursor is blanked. *)
Fixpoint blank_loop (n : nat) (x : Z) t : outcome Terminal :=
  match n with
  | O => Ret t
  | S n => let! t := put t x (cursor_pos t).2 32 in blank_loop n (x + 1) t
  end.
Definition blank_line t : outcome Terminal := blank_loop (Z.to_nat (get_cols (fb t))) 0 t.

Definition cursor_right t : outcome Terminal :=
  let! edge := sub_chk (get_cols (fb t)) 1 in
  if (cursor_pos t).1 >=? edge then
    let! t := cursor_down (set_cursor t 0 (cursor_pos t).2) in
    blank_line t
  else let! x := add_chk 64 (cursor_pos t).1 1 in Ret (set_cursor t x (cursor_pos t).2).

Definition cursor_left t : outcome Terminal :=
  if (cursor_pos t).1 =? 0 then Ret t
  else let! x := sub_chk (cursor_pos t).1 1 in Ret (set_cursor t x (cursor_pos t).2).

Definition update_visual_cursor t : outcome Terminal := put t (cursor_pos t).1 (cursor_pos t).2 95.
Definition erase_visual_cursor t : outcome Terminal := put t (cursor_pos t).1 (cursor_pos t).2 (cursor_char t).

Definition visual (move : Terminal -> outcome Terminal) t : outcome Terminal :=
  let! t := erase_visual_cursor t in
  let! t := move t in
  update_visual_cursor t.
Definition visual_cursor_up t : outcome Terminal := visual cursor_up t.
Definition visual_cursor_left t : outcome Terminal := visual cursor_left t.
Definition visual_cursor_right t : outcome Terminal := visual cursor_right t.
Definition visual_cursor_down t : outcome Terminal := visual cursor_down t.

(** * Output *)

Definition new_line t : outcome Terminal :=
  let! t := cursor_down t in
  let! t := blank_line t in
  Ret (set_cursor t 0 (cursor_pos t).2).

Definition show_char t (c : Z) : outcome Terminal :=
  let! t := put t (cursor_pos t).1 (cursor_pos t).2 c in
  cursor_right t.

Definition write_char t (c : Z) : outcome Terminal :=
  let! t := erase_visual_cursor t in
  let! t := if c =? newline then new_line t else show_char t c in
  update_visual_cursor t.

Fixpoint write_str t (s : str) : outcome Terminal :=
  match s with
  | [] => Ret t
  | c :: s => let! t := write_char t c in write_str t s
  end.

(** * Input *)

Definition read_char t : Terminal * option Z :=
  if decide (newline ∈ line_buffer t) then
    match line_buffer t with
    | c :: rest => (set_line t rest, Some c)
    | [] => (t, None)
    end
  else (t, None).

(** [pop_back], putting a newline back. *)
Definition backspace (l : list Z) : list Z :=
  match last l with
  | Some c => if c =? newline then removelast l ++ [newline] else removelast l
  | None => l
  end.

Definition recive_key t (key : KeyboardKey) (modifiers : KeyboardModifiers) : outcome Terminal :=
  let! t := erase_visual_cursor t in
  match key with
  | Enter =>
      let! t := new_line (set_line t (line_buffer t ++ [newline])) in
      update_visual_cursor t
  | Backspace =>
      let! t := cursor_left t in
      update_visual_cursor (set_line t (backspace (line_buffer t)))
  | _ =>
      match parse_key key modifiers with
      | inr _ => Ret t
      | inl c =>
          let! t := show_char (set_line t (line_buffer t ++ [c])) c in
          update_visual_cursor t
      end
  end.

(** The line buffer after a key, by itself. *)
Definition edit (l : list Z) (key : KeyboardKey) (modifiers : KeyboardModifiers) : list Z :=
  match key with
  | Backspace => backspace l
  | _ => match parse_key key modifiers with inl c => l ++ [c] | inr _ => l end
  end.

(** * Nothing is drawn outside the screen *)

Context {FBok : FrameBufferOk FB}.

(** A screen with room for a character, and the cursor on it. *)
Definition term_ok t : Prop :=
  screen_ok (fb t) /\ 1 <= get_cols (fb t) /\ 1 <= get_rows (fb t) /\
  0 <= (cursor_pos t).1 < get_cols (fb t) /\ 0 <= (cursor_pos t).2 < get_rows (fb t) /\ 0 <= cursor_char t.

(** The terminal after drawing: the same screen size and line buffer. *)
Definition drawn t t' : Prop :=
  same_screen (fb t) (fb t') /\ line_buffer t' = line_buffer t /\ cursor_char t' = cursor_char t.

Lemma screen_same f f' : screen_ok f -> same_screen f f' ->
  screen_ok f' /\ get_cols f' = get_cols f /\ get_rows f' = get_rows f.
Proof.
  intros (H1 & H2 & H3) (E1 & E2 & E3). unfold screen_ok, get_cols, get_rows. rewrite E2, E3. done.
Qed.

Lemma same_screen_trans (f g h : FB) : same_screen f g -> same_screen g h -> same_screen f h.
Proof. intros (_ & ? & ?) (? & ? & ?). unfold same_screen. split_and!; congruence. Qed.

Lemma drawn_trans t t' t'' : drawn t t' -> drawn t' t'' -> drawn t t''.
Proof.
  intros (H1 & E1 & F1) (H2 & E2 & F2). split_and!; [by eapply same_screen_trans|congruence..].
Qed.

(** An operation that keeps the terminal usable and its line buffer. *)
Definition good (op : outcome Terminal) t : Prop := exists t', op = Ret t' /\ term_ok t' /\ drawn t t'.

Lemma good_bind op k t : good op t -> (forall t', term_ok t' -> drawn t t' -> good (k t') t') -> good (obind op k) t.
Proof.
  intros (t1 & -> & H1 & D1) Hk. destruct (Hk t1 H1 D1) as (t2 & E & H2 & D2).
  exists t2. split_and!; [done|done|by eapply drawn_trans].
Qed.

Lemma good_ret t t' : term_ok t' -> drawn t t' -> good (Ret t') t.
Proof. by exists t'. Qed.

Lemma drawn_refl t : term_ok t -> drawn t t.
Proof. intros ((H & _) & _). by split; [split|]. Qed.

Lemma set_cursor_good t x y :
  term_ok t -> 0 <= x < get_cols (fb t) -> 0 <= y < get_rows (fb t) -> good (Ret (set_cursor t x y)) t.
Proof.
  intros (H1 & H2 & H3 & H4 & H5 & H6) Hx Hy. apply good_ret; [unfold term_ok; simpl; tauto|].
  split; [|done]. split_and!; try done. by destruct H1.
Qed.

Lemma put_good t x y c :
  term_ok t -> 0 <= x < get_cols (fb t) -> 0 <= y < get_rows (fb t) -> 0 <= c -> good (put t x y c) t.
Proof.
  intros (H1 & H2 & H3 & H4 & H5 & H6) Hx Hy Hc.
  destruct (write_glyph_ok (fb t) x y c (color t)) as (f & r & E & Hs & _); [done..|].
  unfold put. rewrite E. cbn [obind]. destruct (screen_same _ _ H1 Hs) as (S1 & S2 & S3).
  apply good_ret; [unfold term_ok; simpl; rewrite S2, S3; tauto|by split].
Qed.

Lemma put_cursor_good t c : term_ok t -> 0 <= c -> good (put t (cursor_pos t).1 (cursor_pos t).2 c) t.
Proof. intros H Hc. apply put_good; try done; apply H. Qed.

Lemma update_good t : term_ok t -> good (update_visual_cursor t) t.
Proof. intros H. by apply put_cursor_good. Qed.

Lemma erase_good t : term_ok t -> good (erase_visual_cursor t) t.
Proof. intros H. apply put_cursor_good; [done|apply H]. Qed.

Lemma rows_small t : term_ok t -> get_rows (fb t) < 2 ^ 63 /\ get_cols (fb t) < 2 ^ 63.
Proof.
  intros ((_ & H1 & H2) & _). unfold get_rows, get_cols.
  pose proof (Z.div_le_upper_bound (get_height (fb t)) 16 (get_height (fb t))).
  pose proof (Z.div_le_upper_bound (get_width (fb t)) 8 (get_width (fb t))). lia.
Qed.

Lemma cursor_down_good t : term_ok t -> good (cursor_down t) t.
Proof.
  intros H. pose proof (rows_small t H). pose proof H as (H1 & H2 & H3 & H4 & H5 & H6). unfold cursor_down.
  rewrite sub_chk_ok by lia. cbn [obind]. rewrite Z.geb_leb.
  destruct (Z.leb_spec (get_rows (fb t) - 1) (cursor_pos t).2); [apply set_cursor_good; (done || lia)|].
  rewrite add_chk_ok by lia. apply set_cursor_good; (done || lia).
Qed.

Lemma blank_loop_good n x t : term_ok t -> 0 <= x -> x + Z.of_nat n <= get_cols (fb t) -> good (blank_loop n x t) t.
Proof.
  revert x t. induction n as [|n IH]; intros x t H Hx Hn; cbn [blank_loop]; [apply good_ret; auto using drawn_refl|].
  apply good_bind; [apply put_good; (done || lia || apply H)|]. intros t' H' (Hs & _).
  apply IH; [done|lia|]. destruct (screen_same _ _ (proj1 H) Hs) as (_ & -> & _). lia.
Qed.

Lemma blank_line_good t : term_ok t -> good (blank_line t) t.
Proof. intros H. pose proof H as (? & ? & _). apply blank_loop_good; (done || lia). Qed.

Lemma cursor_right_good t : term_ok t -> good (cursor_right t) t.
Proof.
  intros H. pose proof (rows_small t H). pose proof H as (H1 & H2 & H3 & H4 & H5 & H6). unfold cursor_right.
  rewrite sub_chk_ok by lia. cbn [obind]. rewrite Z.geb_leb.
  destruct (Z.leb_spec (get_cols (fb t) - 1) (cursor_pos t).1).
  - destruct (set_cursor_good t 0 (cursor_pos t).2) as (t1 & [= <-] & Ht1 & Dt1); [done|lia|done|].
    set (t1 := set_cursor t 0 (cursor_pos t).2) in *.
    assert (good (let! t := cursor_down t1 in blank_line t) t1) as (t2 & E & Ht2 & Dt2)
      by (apply good_bind; [by apply cursor_down_good|intros; by apply blank_line_good]).
    rewrite E. apply good_ret; [done|exact (drawn_trans _ _ _ Dt1 Dt2)].
  - rewrite add_chk_ok by lia. apply set_cursor_good; (done || lia).
Qed.

Lemma cursor_left_good t : term_ok t -> good (cursor_left t) t.
Proof.
  intros H. pose proof H as (H1 & H2 & H3 & H4 & H5 & H6). unfold cursor_left.
  destruct (Z.eqb_spec (cursor_pos t).1 0); [apply good_ret; auto using drawn_refl|].
  rewrite sub_chk_ok by lia. apply set_cursor_good; (done || lia).
Qed.

Lemma cursor_up_good t : term_ok t -> good (cursor_up t) t.
Proof.
  intros H. pose proof H as (H1 & H2 & H3 & H4 & H5 & H6). unfold cursor_up.
  destruct (Z.eqb_spec (cursor_pos t).2 0); [apply good_ret; auto using drawn_refl|].
  rewrite sub_chk_ok by lia. apply set_cursor_good; (done || lia).
Qed.

Lemma new_line_good t : term_ok t -> good (new_line t) t.
Proof.
  intros H. apply good_bind; [by apply cursor_down_good|]. intros t1 H1 _.
  apply good_bind; [by apply blank_line_good|]. intros t2 H2 _.
  pose proof H2 as (? & ? & ? & ? & ? & ?). apply set_cursor_good; (done || lia).
Qed.

Lemma show_char_good t c : term_ok t -> 0 <= c -> good (show_char t c) t.
Proof.
  intros H Hc. apply good_bind; [by apply put_cursor_good|]. intros t1 H1 _. by apply cursor_right_good.
Qed.

Lemma write_char_good t c : term_ok t -> 0 <= c -> good (write_char t c) t.
Proof.
  intros H Hc. apply good_bind; [by apply erase_good|]. intros t1 H1 _.
  apply good_bind; [destruct (c =? newline); [by apply new_line_good|by apply show_char_good]|].
  intros t2 H2 _. by apply update_good.
Qed.

Lemma visual_good move t : (forall t, term_ok t -> good (move t) t) -> term_ok t -> good (visual move t) t.
Proof.
  intros Hm H. apply good_bind; [by apply erase_good|]. intros t1 H1 _.
  apply good_bind; [by apply Hm|]. intros t2 H2 _. by apply update_good.
Qed.

Lemma write_str_good t s : term_ok t -> Forall (fun c => 0 <= c) s -> good (write_str t s) t.
Proof.
  intros H Hs. revert t H. induction Hs as [|c s Hc Hs IH]; intros t H; cbn [write_str].
  { apply good_ret; auto using drawn_refl. }
  apply good_bind; [by apply write_char_good|]. intros t1 H1 _. by apply IH.
Qed.

(** C32: output never fails and never leaves the screen: whatever text is written,
    with wrapping at the right edge and at the bottom, every character is drawn
    inside the frame buffer, the cursor ends on the screen, and the line that is
    being typed is untouched. *)
Theorem write_str_safe t s :
  term_ok t -> Forall (fun c => 0 <= c) s ->
  exists t', write_str t s = Ret t' /\ term_ok t' /\ line_buffer t' = line_buffer t.
Proof. intros H Hs. destruct (write_str_good t s H Hs) as (t' & E & H' & _ & El & _). eauto. Qed.

(** * Typing *)

Lemma parse_key_nonneg k m c : parse_key k m = inl c -> 0 <= c.
Proof. unfold parse_key, by_shift, by_case. intros H. repeat case_match; simplify_eq; lia. Qed.

Lemma set_line_ok t l : term_ok t -> term_ok (set_line t l).
Proof. done. Qed.

Lemma drawn_line t t' l : drawn (set_line t l) t' -> line_buffer t' = l.
Proof. by intros (_ & -> & _). Qed.

Lemma key_char_ok t k m c :
  term_ok t -> parse_key k m = inl c ->
  exists t', (let! t := show_char (set_line t (line_buffer t ++ [c])) c in update_visual_cursor t) = Ret t' /\
    term_ok t' /\ line_buffer t' = line_buffer t ++ [c].
Proof.
  intros H Hc. set (t0 := set_line t _).
  destruct (good_bind (show_char t0 c) update_visual_cursor t0) as (t' & E & H' & D).
  - apply show_char_good; [done|by eapply parse_key_nonneg].
  - intros. by apply update_good.
  - exists t'. split_and!; [done|done|]. by eapply drawn_line.
Qed.

(** A key never fails, keeps the terminal usable, and edits the line. *)
Lemma recive_key_edits t k m :
  term_ok t -> exists t', recive_key t k m = Ret t' /\ term_ok t' /\ line_buffer t' = edit (line_buffer t) k m.
Proof.
  intros H. unfold recive_key. destruct (erase_good t H) as (t1 & -> & H1 & (_ & El & _)). cbn [obind].
  assert (k = Enter \/ k = Backspace \/ k <> Enter /\ k <> Backspace) as [->|[->|[Hk1 Hk2]]]
    by (destruct (decide (k = Enter)), (decide (k = Backspace)); tauto).
  - set (t0 := set_line t1 _).
    destruct (good_bind (new_line t0) update_visual_cursor t0) as (t' & E & H' & D);
      [by apply new_line_good|intros; by apply update_good|].
    exists t'. split_and!; [done|done|]. rewrite (drawn_line _ _ _ D), El. done.
  - destruct (cursor_left_good t1 H1) as (t2 & -> & H2 & (_ & El2 & _)). cbn [obind].
    destruct (update_good (set_line t2 (backspace (line_buffer t2)))) as (t' & E & H' & D); [done|].
    exists t'. split_and!; [done|done|]. rewrite (drawn_line _ _ _ D), El2, El. done.
  - assert (edit (line_buffer t) k m = match parse_key k m with inl c => line_buffer t ++ [c] | inr _ => line_buffer t end)
      as -> by (by destruct k).
    enough (exists t', match parse_key k m with
      | inr _ => Ret t1
      | inl c => let! t := show_char (set_line t1 (line_buffer t1 ++ [c])) c in update_visual_cursor t
      end = Ret t' /\ term_ok t' /\ line_buffer t' = match parse_key k m with inl c => line_buffer t ++ [c] | inr _ => line_buffer t end)
      by (by destruct k).
    destruct (parse_key k m) as [c|] eqn:Ec; [|eauto].
    destruct (key_char_ok t1 k m c H1 Ec) as (t' & E & H' & El'). rewrite El in El'. eauto.
Qed.

(** * Standard input *)

(** The loop of [read] on standard input: keys are fed to the terminal until it
    has a line.  Every packet uses up a byte of the keyboard's input, so that as
    many rounds as there are bytes are enough. *)
Fixpoint stdin_loop (n : nat) t (kbd : PS2Device) : outcome (Terminal * PS2Device * Z) :=
  match n with
  | O => Panic
  | S n =>
      let! (kbd, packet) := read_packet kbd in
      if decide (packet_type packet = KeyReleased) then stdin_loop n t kbd
      else
        let! t := recive_key t (key packet) (modifiers packet) in
        match read_char t with
        | (t, Some c) => Ret (t, kbd, c)
        | (t, None) => stdin_loop n t kbd
        end
  end.

Definition read_stdin t (kbd : PS2Device) : outcome (Terminal * PS2Device * Z) :=
  match read_char t with
  | (t, Some c) => Ret (t, kbd, c)
  | (t, None) => stdin_loop (length (input kbd)) t kbd
  end.

(** The packets of single-byte scan codes, and the characters they type. *)
Fixpoint decode (m : KeyboardModifiers) (bytes : list Z) : option (list KeyboardPacket * KeyboardModifiers) :=
  match bytes with
  | [] => Some ([], m)
  | b :: bytes =>
      if (b =? 0xE0) || (b =? 0xF0) then None
      else match from_scancode_in_set1 b with
      | None => None
      | Some k =>
          let ty := if is_scancode_in_set1_pressed b then KeyPressed else KeyReleased in
          let m := update_modifiers m k ty in
          match decode m bytes with
          | Some (ps, m') => Some (MkPacket k m ty :: ps, m')
          | None => None
          end
      end
  end.

Definition types (p : KeyboardPacket) : list Z :=
  if decide (packet_type p = KeyReleased) then []
  else match parse_key (key p) (modifiers p) with inl c => [c] | inr _ => [] end.
Definition no_backspace (p : KeyboardPacket) : bool := negb (bool_decide (key p = Backspace)).

Lemma decode_app m l1 l2 ps1 m1 ps2 m2 :
  decode m l1 = Some (ps1, m1) -> decode m1 l2 = Some (ps2, m2) -> decode m (l1 ++ l2) = Some (ps1 ++ ps2, m2).
Proof.
  revert m ps1. induction l1 as [|b l1 IH]; intros m ps1 H1 H2; simpl in *; [by simplify_eq|].
  destruct (_ || _); [done|]. destruct (from_scancode_in_set1 b); [|done].
  destruct (decode _ l1) as [[ps m']|] eqn:E; [|done]. simplify_eq.
  by rewrite (IH _ _ E H2).
Qed.

Lemma read_packet_plain b rest m k :
  (b =? 0xE0) || (b =? 0xF0) = false -> from_scancode_in_set1 b = Some k ->
  let ty := if is_scancode_in_set1_pressed b then KeyPressed else KeyReleased in
  read_packet (MkPS2 (b :: rest) m) = Ret (MkPS2 rest (update_modifiers m k ty), MkPacket k (update_modifiers m k ty) ty).
Proof.
  intros [H1 H2]%orb_false_iff Hk ty. unfold read_packet, try_read_packet, read_scancode. simpl.
  unfold try_read_packet, read_scancode. simpl. rewrite H1, H2. cbn [obind]. by rewrite Hk.
Qed.

Lemma read_char_none t : newline ∉ line_buffer t -> read_char t = (t, None).
Proof. intros H. unfold read_char. by rewrite decide_False. Qed.

Lemma edit_types l p :
  no_backspace p = true -> packet_type p <> KeyReleased -> edit l (key p) (modifiers p) = l ++ types p.
Proof.
  unfold no_backspace. intros Hb%negb_true_iff%bool_decide_eq_false Hp. unfold types. rewrite decide_False by done.
  assert (edit l (key p) (modifiers p) = match parse_key (key p) (modifiers p) with inl c => l ++ [c] | inr _ => l end)
    as -> by (by destruct (key p)). destruct (parse_key _ _); [done|by rewrite app_nil_r].
Qed.

(** Packets that complete no line are taken in. *)
Lemma stdin_packets bytes : forall m rest t ps m' n,
  term_ok t -> decode m bytes = Some (ps, m') -> forallb no_backspace ps = true ->
  newline ∉ line_buffer t ++ concat (types <$> ps) ->
  exists t', stdin_loop (length bytes + n) t (MkPS2 (bytes ++ rest) m) = stdin_loop n t' (MkPS2 rest m') /\
    term_ok t' /\ line_buffer t' = line_buffer t ++ concat (types <$> ps).
Proof.
  induction bytes as [|b bytes IH]; intros m rest t ps m' n Ht Hd Hb Hn; simpl in Hd; simplify_eq.
  { exists t. rewrite app_nil_r in *. done. }
  destruct (_ || _) eqn:Hpre; [done|]. destruct (from_scancode_in_set1 b) as [k|] eqn:Hk; [|done].
  destruct (decode _ bytes) as [[ps1 m1]|] eqn:Hd1; [|done]. simplify_eq.
  simpl in Hb. apply andb_true_iff in Hb as [Hb1 Hb2].
  cbn [length Nat.add app stdin_loop]. rewrite (read_packet_plain b _ m k Hpre Hk). cbn [obind].
  set (p := MkPacket k _ _) in *. cbn [fmap list_fmap concat] in Hn |- *.
  destruct (decide (packet_type p = KeyReleased)) as [Hr|Hr].
  - assert (types p = []) as Et by (unfold types; by rewrite decide_True). rewrite Et in *. simpl in *.
    by apply (IH _ rest t ps1 m' n).
  - destruct (recive_key_edits t (key p) (modifiers p) Ht) as (t1 & -> & H1 & El). cbn [obind].
    rewrite edit_types in El by done. rewrite app_assoc, <- El in Hn |- *.
    rewrite read_char_none by set_solver. by apply (IH _ rest t1 ps1 m' n).
Qed.

(** The scan codes of a character: its key pressed and released, between a press
    and a release of the left shift key when the key alone types another one. *)
Definition key_types (m : KeyboardModifiers) (c : Z) (b : nat) : bool :=
  match from_scancode_in_set1 (Z.of_nat b) with
  | Some k => bool_decide (parse_key k m = inl c)
  | None => false
  end.
Definition shifted : KeyboardModifiers := MkModifiers true false false false false false false false.
Definition typed (c : Z) : list Z :=
  match List.find (key_types no_modifiers c) (seq 1 127) with
  | Some b => [Z.of_nat b; Z.of_nat b + 128]
  | None =>
      match List.find (key_types shifted c) (seq 1 127) with
      | Some b => [0x2A; Z.of_nat b; Z.of_nat b + 128; 0xAA]
      | None => []
      end
  end.

Definition printable (c : Z) : Prop := 32 <= c < 127.

(** Checked for the 95 printable characters. *)
Definition typed_check (c : Z) : bool :=
  match decode no_modifiers (typed c) with
  | Some (ps, m) => forallb no_backspace ps && bool_decide (concat (types <$> ps) = [c]) &&
      match m with MkModifiers false false false false false false false false => true | _ => false end
  | None => false
  end.

Lemma typed_checked : forallb (fun n => typed_check (Z.of_nat n)) (seq 32 95) = true.
Proof. vm_compute. reflexivity. Qed.

Lemma typed_decodes c :
  printable c -> exists ps, decode no_modifiers (typed c) = Some (ps, no_modifiers) /\
    forallb no_backspace ps = true /\ concat (types <$> ps) = [c].
Proof.
  intros Hc. pose proof typed_checked as H. rewrite forallb_forall in H. specialize (H (Z.to_nat c)).
  rewrite Z2Nat.id in H by (unfold printable in Hc; lia). unfold typed_check in H.
  assert (In (Z.to_nat c) (seq 32 95)) as Hin by (apply in_seq; unfold printable in Hc; lia). specialize (H Hin).
  destruct (decode no_modifiers (typed c)) as [[ps m]|]; [|done]. exists ps.
  apply andb_true_iff in H as [[H1 H2]%andb_true_iff H3]. apply bool_decide_eq_true in H2.
  split_and!; [|done|done]. repeat (case_match; try done).
Qed.

Lemma typed_line_decodes line :
  Forall printable line -> exists ps, decode no_modifiers (concat (typed <$> line)) = Some (ps, no_modifiers) /\
    forallb no_backspace ps = true /\ concat (types <$> ps) = line.
Proof.
  induction 1 as [|c line Hc _ (ps & E & Hb & Ht)]; [by exists []|].
  destruct (typed_decodes c Hc) as (ps1 & E1 & Hb1 & Ht1). exists (ps1 ++ ps). cbn [fmap list_fmap concat].
  split_and!; [by eapply decode_app|by rewrite forallb_app, Hb1, Hb|].
  by rewrite fmap_app, concat_app, Ht1, Ht.
Qed.

Lemma read_packet_enter rest :
  read_packet (MkPS2 (0x1C :: rest) no_modifiers) =
  Ret (MkPS2 rest no_modifiers, MkPacket Enter no_modifiers KeyPressed).
Proof. reflexivity. Qed.

Lemma read_char_some t c rest : line_buffer t = c :: rest -> newline ∈ c :: rest ->
  exists t', read_char t = (t', Some c) /\ line_buffer t' = rest /\ (term_ok t -> term_ok t').
Proof. intros El Hn. unfold read_char. rewrite El, decide_True by done. by eexists. Qed.

(** C14: a program that reads standard input gets what is typed: when the keyboard
    delivers the codes of a line of printable characters and of Enter, the read
    returns the first character of the line and leaves the others, with the
    newline, in the line buffer for the following reads; it never hangs, and the
    terminal stays usable. *)
Theorem stdin_delivers_typed_line t line rest :
  term_ok t -> line_buffer t = [] -> Forall printable line ->
  exists t' c l,
    read_stdin t (MkPS2 (concat (typed <$> line) ++ 0x1C :: rest) no_modifiers) = Ret (t', MkPS2 rest no_modifiers, c) /\
    line ++ [newline] = c :: l /\ line_buffer t' = l /\ term_ok t'.
Proof.
  intros Ht El Hp. destruct (typed_line_decodes line Hp) as (ps & Ed & Hb & Ety).
  assert (newline ∉ line) as Hnl.
  { rewrite list.Forall_forall in Hp. intros Hin%Hp. unfold printable, newline in Hin. lia. }
  unfold read_stdin. rewrite read_char_none by (rewrite El; set_solver). cbn [input].
  rewrite length_app. cbn [length].
  destruct (stdin_packets (concat (typed <$> line)) no_modifiers (0x1C :: rest) t ps no_modifiers (S (length rest)))
    as (t1 & -> & H1 & El1); [done|done|done|by rewrite Ety, El|].
  rewrite Ety, El in El1. cbn [stdin_loop app] in *. rewrite read_packet_enter. cbn [obind].
  destruct (recive_key_edits t1 Enter no_modifiers H1) as (t2 & E2 & H2 & El2).
  destruct (decide _) as [?|_]; [done|]. cbn [key modifiers]. rewrite E2. cbn [obind].
  change (edit (line_buffer t1) Enter no_modifiers) with (line_buffer t1 ++ [newline]) in El2. rewrite El1 in El2.
  destruct (line ++ [newline]) as [|c l] eqn:Ecl; [by destruct line|].
  destruct (read_char_some t2 c l El2) as (t3 & -> & El3 & H3); [rewrite <- Ecl; set_solver|].
  exists t3, c, l. auto.
Qed.

End Terminal.
Arguments Terminal FB : clear implicits.

(** * Examples *)

Definition demo_screen : EfiGopMode := MkGop (replicate 2560 0) 80 32 BgrR8bit.
Definition demo_terminal : Terminal EfiGopMode := terminal_new demo_screen (MkPixel 255 255 255).

Lemma demo_terminal_ok : term_ok demo_terminal.
Proof.
  unfold term_ok, screen_ok. simpl. unfold gop_ok, get_cols, get_rows. simpl.
  split_and!; try lia; by vm_compute.
Qed.

Lemma write_str_safe_witness :
  exists t', write_str demo_terminal [104; 101; 108; 108; 111; 10; 119; 111; 114; 108; 100; 33; 33; 33; 33; 33; 33] = Ret t' /\
    term_ok t' /\ line_buffer t' = [].
Proof.
  refine (write_str_safe demo_terminal _ demo_terminal_ok _).
  repeat (apply Forall_cons_2; [lia|]). apply Forall_nil_2.
Defined.

Lemma stdin_delivers_typed_line_witness :
  exists t' c l,
    read_stdin demo_terminal (MkPS2 (concat (typed <$> [72; 105; 33]) ++ [0x1C; 0x9C]) no_modifiers) =
      Ret (t', MkPS2 [0x9C] no_modifiers, c) /\
    [72; 105; 33; 10] = c :: l /\ line_buffer t' = l /\ term_ok t'.
Proof.
  refine (stdin_delivers_typed_line demo_terminal [72; 105; 33] [0x9C] demo_terminal_ok eq_refl _).
  repeat (apply Forall_cons_2; [unfold printable; lia|]). apply Forall_nil_2.
Defined.
