(* ===== verification/KernPointer.v ===== *)
(** Pointers of the kernel to devices (KernPointer of kernel/src/virtmem.rs): an address
    that is either an I/O port or a place in memory.  What is behind them, the
    instructions [in] and [out] and volatile memory, is the class [IoSpace]. *)
From S2P Require Import Prelude MachineInt.
From stdpp Require Import list.
#[local] Open Scope Z_scope.

Class IoSpace (B : Type) := {
  port_inb : B -> Z -> B * Z;
  port_outb : B -> Z -> Z -> B;
  port_inh : B -> Z -> B * Z;
  port_outh : B -> Z -> Z -> B;
  load_u8 : B -> Z -> B * Z;
  store_u8 : B -> Z -> Z -> B;
  load_u16 : B -> Z -> B * Z;
  store_u16 : B -> Z -> Z -> B;
}.

(** The type of the pointer gives the size of a step. *)
Record KernPointer := MkKern { kp_inner : Z; kp_is_port : bool }.

Definition from_mem (addr : Z) : KernPointer := MkKern addr false.
Definition from_port (port : Z) : KernPointer := MkKern port true.

(** [offset] of a pointer to values of [size] bytes. *)
Definition kp_offset (size : Z) (p : KernPointer) (offset : Z) : KernPointer :=
  MkKern (wrap 64 (kp_inner p + size * offset)) (kp_is_port p).

Section KernPointer.
Context {B : Type} {IO : IoSpace B}.
Implicit Types b : B.

Definition kp_write b (p : KernPointer) (val : Z) : B :=
  if kp_is_port p then port_outb b (wrap 16 (kp_inner p)) val else store_u8 b (kp_inner p) val.
Definition kp_read b (p : KernPointer) : B * Z :=
  if kp_is_port p then port_inb b (wrap 16 (kp_inner p)) else load_u8 b (kp_inner p).
Definition kp_write_u16 b (p : KernPointer) (val : Z) : B :=
  if kp_is_port p then port_outh b (wrap 16 (kp_inner p)) val else store_u16 b (kp_inner p) val.
Definition kp_read_u16 b (p : KernPointer) : B * Z :=
  if kp_is_port p then port_inh b (wrap 16 (kp_inner p)) else load_u16 b (kp_inner p).

End KernPointer.
