(* ===== verification/Vga.v ===== *)
(** The VGA driver, kernel/src/vga.rs, and the frame buffer it gives
    (kernel/src/framebuffer.rs): the register files of the card, loading a mode with its
    palette and font, the text screen and the graphics screen. *)
From S2P Require Import Prelude MachineInt CharDevice KernPointer VgaTables.
From stdpp Require Import list.
#[local] Open Scope Z_scope.

(** The state of the screen and the mode are types in the code: Blanked or Unblanked,
    and one of these. *)
Inductive VgaMode := Color256 | Text80x25 | UndefinedVgaMode.
#[export] Instance VgaMode_eq_dec : EqDecision VgaMode.
Proof. solve_decision. Defined.

Record VGAMixedRegister := MkMixed {
  data_and_ind_write : KernPointer;
  data_read : KernPointer;
  control : KernPointer;
}.
Record VGAMiscOutputRegister := MkMisc { reading : KernPointer; writing : KernPointer }.
Record VGARegisterSpace := MkSpace { index_ptr : KernPointer; data_ptr : KernPointer }.
Record VgaDac := MkDac {
  dac_mask : KernPointer;
  dac_index_to_write_to : KernPointer;
  dac_index_to_read_from : KernPointer;
  dac_data : KernPointer;
}.

Record Vga := MkVga {
  attribute_controller_registers_mixed : VGAMixedRegister;
  misc_register : VGAMiscOutputRegister;
  sequencer_registers : VGARegisterSpace;
  graphics_controller_registers : VGARegisterSpace;
  crtc_controller_registers : VGARegisterSpace;
  dac : VgaDac;
  video_ram : KernPointer;
}.

(** [VGARegisterSpace::new]. *)
Definition space_new (p : KernPointer) : VGARegisterSpace := MkSpace p (kp_offset 1 p 1).

Definition x86_default : Vga := {|
  attribute_controller_registers_mixed := MkMixed (from_port 0x3C0) (from_port 0x3C1) (from_port 0x3DA);
  misc_register := MkMisc (from_port 0x3CC) (from_port 0x3C2);
  sequencer_registers := space_new (from_port 0x3C4);
  graphics_controller_registers := space_new (from_port 0x3CE);
  crtc_controller_registers := space_new (from_port 0x3D4);
  dac := MkDac (from_port 0x3C6) (from_port 0x3C8) (from_port 0x3C7) (from_port 0x3C9);
  video_ram := from_mem 0x0;
|}.
Definition set_video_ram (vga : Vga) (p : KernPointer) : Vga :=
  MkVga (attribute_controller_registers_mixed vga) (misc_register vga) (sequencer_registers vga)
    (graphics_controller_registers vga) (crtc_controller_registers vga) (dac vga) p.

Section Driver.
Context {B : Type} {IO : IoSpace B}.
Implicit Types b : B.

(** * Registers *)

(** Reading the control port makes the next write one of an index. *)
Definition mixed_write b (r : VGAMixedRegister) (index data : Z) : B :=
  let b := (kp_read b (control r)).1 in
  let b := kp_write b (data_and_ind_write r) index in
  kp_write b (data_and_ind_write r) data.
Definition mixed_read b (r : VGAMixedRegister) (index : Z) : B * Z :=
  let b := (kp_read b (control r)).1 in
  let b := kp_write b (data_and_ind_write r) index in
  kp_read b (data_read r).

(** The bit of the index register that turns the screen on. *)
Definition mixed_unblank b (r : VGAMixedRegister) : B :=
  let b := (kp_read b (control r)).1 in
  let (b, v) := kp_read b (data_and_ind_write r) in
  kp_write b (data_and_ind_write r) (Z.lor v 0x20).
Definition mixed_blank b (r : VGAMixedRegister) : B :=
  let b := (kp_read b (control r)).1 in
  let (b, v) := kp_read b (data_and_ind_write r) in
  kp_write b (data_and_ind_write r) (Z.land v (Z.lxor 0x20 0xFF)).

Definition misc_write b (r : VGAMiscOutputRegister) (data : Z) : B := kp_write b (writing r) data.
Definition misc_read b (r : VGAMiscOutputRegister) : B * Z := kp_read b (reading r).

Definition space_write b (r : VGARegisterSpace) (index data : Z) : B :=
  kp_write (kp_write b (index_ptr r) index) (data_ptr r) data.
Definition space_read b (r : VGARegisterSpace) (index : Z) : B * Z :=
  kp_read (kp_write b (index_ptr r) index) (data_ptr r).

Definition dac_read b (r : VgaDac) (index : Z) : B * (Z * Z * Z) :=
  let b := kp_write b (dac_index_to_read_from r) index in
  let (b, x) := kp_read b (dac_data r) in
  let (b, y) := kp_read b (dac_data r) in
  let (b, z) := kp_read b (dac_data r) in
  (b, (x, y, z)).
Definition dac_put b (r : VgaDac) (c : Z * Z * Z) : B :=
  kp_write (kp_write (kp_write b (dac_data r) c.1.1) (dac_data r) c.1.2) (dac_data r) c.2.
Definition dac_write b (r : VgaDac) (index : Z) (data : Z * Z * Z) : B :=
  dac_put (kp_write b (dac_index_to_write_to r) index) r data.
Definition write_bulk b (r : VgaDac) (start_index : Z) (data : list (Z * Z * Z)) : B :=
  fold_left (fun b c => dac_put b r c) data (kp_write b (dac_index_to_write_to r) start_index).
Definition read_mask b (r : VgaDac) : B * Z := kp_read b (dac_mask r).

(** * Dumping all registers *)

Record VgaRegisterDump := MkDump {
  d_attribute_controller_registers_mixed : list Z;
  d_misc_register : Z;
  d_sequencer_registers : list Z;
  d_graphics_controller_registers : list Z;
  d_crtc_controller_registers : list Z;
  d_dac_mask : Z;
  d_dac_data : list (Z * Z * Z);
}.
Definition dump_default : VgaRegisterDump :=
  MkDump (replicate 256 0) 0 (replicate 256 0) (replicate 256 0) (replicate 256 0) 0 (replicate 256 (0, 0, 0)).

(** The entries at index [i]. *)
Definition dump_at b (vga : Vga) (dump : VgaRegisterDump) (i : nat) : B * VgaRegisterDump :=
  let ix := Z.of_nat i in
  let (b, a) := mixed_read b (attribute_controller_registers_mixed vga) ix in
  let (b, s) := space_read b (sequencer_registers vga) ix in
  let (b, g) := space_read b (graphics_controller_registers vga) ix in
  let (b, c) := space_read b (crtc_controller_registers vga) ix in
  let (b, d) := dac_read b (dac vga) ix in
  (b, MkDump (<[i := a]> (d_attribute_controller_registers_mixed dump)) (d_misc_register dump) (<[i := s]> (d_sequencer_registers dump))
        (<[i := g]> (d_graphics_controller_registers dump)) (<[i := c]> (d_crtc_controller_registers dump))
        (d_dac_mask dump) (<[i := d]> (d_dac_data dump))).
Definition dump_all b (vga : Vga) (dump : VgaRegisterDump) : B * VgaRegisterDump :=
  let (b, misc) := misc_read b (misc_register vga) in
  let (b, mask) := read_mask b (dac vga) in
  let dump := MkDump (d_attribute_controller_registers_mixed dump) misc (d_sequencer_registers dump)
    (d_graphics_controller_registers dump) (d_crtc_controller_registers dump) mask (d_dac_data dump) in
  fold_left (fun bd i => dump_at bd.1 vga bd.2 i) (seq 0 256) (b, dump).

(** * Modes *)

Definition blank_screen b (vga : Vga) : B := mixed_blank b (attribute_controller_registers_mixed vga).
Definition unblank_screen b (vga : Vga) : B := mixed_unblank b (attribute_controller_registers_mixed vga).

Definition unlock_crtc_registers b (vga : Vga) : B :=
  let r := crtc_controller_registers vga in
  let (b, horizontal_blanking_end) := space_read b r 0x03 in
  let b := space_write b r 0x03 (Z.lor horizontal_blanking_end 0x80) in
  let (b, vertical_sync_end) := space_read b r 0x11 in
  space_write b r 0x11 (Z.land vertical_sync_end 0x7F).

Definition load_space b (r : VGARegisterSpace) (table : list (Z * Z)) : B :=
  fold_left (fun b iv => space_write b r iv.1 iv.2) table b.
Definition load_mixed b (r : VGAMixedRegister) (table : list (Z * Z)) : B :=
  fold_left (fun b iv => mixed_write b r iv.1 iv.2) table b.
Definition load_mode_dump b (vga : Vga) (dump : VgaModeDump) : B :=
  let b := misc_write b (misc_register vga) (md_misc_register dump) in
  let b := unlock_crtc_registers b vga in
  let b := load_space b (sequencer_registers vga) (md_sequencer_registers dump) in
  let b := load_space b (crtc_controller_registers vga) (md_crtc_controller_registers dump) in
  let b := load_space b (graphics_controller_registers vga) (md_graphics_controller_registers dump) in
  load_mixed b (attribute_controller_registers_mixed vga) (md_attribute_controller_registers_mixed dump).

(** The rows of the characters, to every 32nd byte of the video memory. *)
Definition font_byte (vga : Vga) (font : list Z) (char_height offset c_ind : Z) (br : outcome B) (row : Z) : outcome B :=
  let! b := br in
  let! v := unwrap (font !! Z.to_nat (c_ind * char_height + row)) in
  Ret (kp_write b (kp_offset 1 (video_ram vga) (32 * c_ind + row + offset)) v).
Definition load_font b (vga : Vga) (font : list Z) (char_height offset : Z) : outcome B :=
  let n_chars := Z.of_nat (length font) / char_height in
  let seq_regs := sequencer_registers vga in
  let gfx_regs := graphics_controller_registers vga in
  let (b, seq_mode_odd_even_reg_old) := space_read b seq_regs 0x04 in
  let (b, seq_mask_reg_old) := space_read b seq_regs 0x02 in
  let (b, graphics_mode_old) := space_read b gfx_regs 0x05 in
  let (b, misc_old) := space_read b gfx_regs 0x06 in
  let b := space_write b seq_regs 0x04 (Z.lor seq_mode_odd_even_reg_old 4) in
  let b := space_write b gfx_regs 0x05 (Z.land graphics_mode_old (bnot 8 0x10)) in
  let b := space_write b gfx_regs 0x06 (Z.land misc_old (bnot 8 0x02)) in
  let b := space_write b seq_regs 0x02 4 in
  let! b := fold_left (fun br c_ind => fold_left (font_byte vga font char_height offset (Z.of_nat c_ind))
    (Z.of_nat <$> seq 0 (Z.to_nat char_height)) br) (seq 0 (Z.to_nat n_chars)) (Ret b) in
  let b := space_write b seq_regs 0x04 seq_mode_odd_even_reg_old in
  let b := space_write b seq_regs 0x02 seq_mask_reg_old in
  let b := space_write b gfx_regs 0x05 graphics_mode_old in
  Ret (space_write b gfx_regs 0x06 misc_old).

(** From mode [t] to mode [u]. *)
Definition set_mode b (vga : Vga) (t u : VgaMode) : outcome (B * Vga) :=
  if decide (u = t) then Ret (b, vga)
  else match u with
  | Text80x25 =>
      let b := load_mode_dump b vga TEXT_80X25 in
      let b := write_bulk b (dac vga) 0 DEFAULT_PALETTE in
      let! b := load_font b vga TEXT_8X16_FONT 16 0 in
      Ret (b, set_video_ram vga (from_mem 0xb8000))
  | Color256 =>
      let b := load_mode_dump b vga COLOR_320X200 in
      let b := write_bulk b (dac vga) 0 FANCY_PALETTE in
      Ret (b, set_video_ram vga (from_mem 0xa0000))
  | UndefinedVgaMode => Panic
  end.

(** * Text and pixels *)

Definition write_char b (vga : Vga) (x y c color : Z) : outcome B :=
  let! row := mul_chk 64 y 80 in
  let! i := add_chk 64 row x in
  Ret (kp_write_u16 b (kp_offset 2 (video_ram vga) i) (from_le_bytes [c; color])).

Definition set_cursor_position b (vga : Vga) (x y : Z) : outcome B :=
  let! row := mul_chk 64 80 y in
  let! offset := add_chk 64 row x in
  let cursor_start := Z.land offset 0xFF in
  let cursor_end := Z.land (Z.shiftr offset 8) 0xFF in
  let b := space_write b (crtc_controller_registers vga) 0x0F cursor_start in
  Ret (space_write b (crtc_controller_registers vga) 0x0E cursor_end).

Definition vga_write b (vga : Vga) (x y pixel_color : Z) : outcome B :=
  let! row := mul_chk 64 y 320 in
  let! i := add_chk 64 row x in
  Ret (kp_write b (kp_offset 1 (video_ram vga) i) pixel_color).

(** * The frame buffer *)

(** The squared distance of a colour of the palette, whose parts have six bits, to a
    pixel. *)
Definition colour_error (c : Z * Z * Z) (pixel : Pixel) : Z :=
  Z.abs (c.1.1 * 4 - px_r pixel) ^ 2 + Z.abs (c.1.2 * 4 - px_g pixel) ^ 2 + Z.abs (c.2 * 4 - px_b pixel) ^ 2.

(** The loop over the palette from index [i] on: best index, error and colour. *)
Fixpoint best_colour (palette : list (Z * Z * Z)) (pixel : Pixel) (i best_ind best_err : Z) (best_color : Z * Z * Z) : Z * Z * (Z * Z * Z) :=
  match palette with
  | [] => (best_ind, best_err, best_color)
  | c :: palette =>
      let err := colour_error c pixel in
      if err <? best_err then best_colour palette pixel (i + 1) i err c
      else best_colour palette pixel (i + 1) best_ind best_err best_color
  end.

(** The error reported for green is that to the pixel's red. *)
Definition vga_set_pixel b (vga : Vga) (x y : Z) (pixel : Pixel) : outcome (B * (Z * Z * Z)) :=
  let '(best_ind, _, (r, g, bl)) := best_colour FANCY_PALETTE pixel 0 0 (2 ^ 31 - 1) (0, 0, 0) in
  let! b := vga_write b vga x y (wrap 8 best_ind) in
  Ret (b, (r - px_r pixel, g - px_r pixel, bl - px_b pixel)).

(** The screen with what is behind it. *)
#[export] Instance vga_frame_buffer : FrameBuffer (B * Vga) := {|
  get_width _ := 320;
  get_height _ := 200;
  set_pixel s x y pixel := let! (b, _) := vga_set_pixel s.1 s.2 x y pixel in Ret (b, s.2);
|}.

Definition try_setup_vga_framebuffer b (vga : Vga) (mode : VgaMode) : outcome (B * Vga) :=
  let b := blank_screen b vga in
  let! (b, vga) := set_mode b vga mode Color256 in
  Ret (unblank_screen b vga, vga).

End Driver.
