(* ===== verification/VgaCard.v ===== *)
(** The VGA card the driver of Vga.v talks to, as its documentation describes the ports
    the driver uses: register files behind an index and a data port, the attribute
    controller with its flip-flop, the protection of the CRTC registers and the palette.
    The card is not part of the repository: the class [VgaCardOk] ties the ports of a
    machine to it. *)
From S2P Require Import Prelude MachineInt CharDevice KernPointer VgaTables Vga.
From stdpp Require Import list gmap.
#[local] Open Scope Z_scope.

Record VgaCard := MkCard {
  vc_misc : Z;
  vc_attr_index : Z;
  vc_attr_data_next : bool;      (* the flip-flop *)
  vc_attr : gmap Z Z;
  vc_seq_index : Z;
  vc_seq : gmap Z Z;
  vc_gfx_index : Z;
  vc_gfx : gmap Z Z;
  vc_crtc_index : Z;
  vc_crtc : gmap Z Z;
  vc_dac_index : Z;
  vc_dac_latch : list Z;         (* components written since the last entry *)
  vc_dac_count : nat;            (* components read of the current entry *)
  vc_palette : gmap Z (Z * Z * Z);
}.

Definition with_misc c v := MkCard v (vc_attr_index c) (vc_attr_data_next c) (vc_attr c) (vc_seq_index c) (vc_seq c) (vc_gfx_index c) (vc_gfx c) (vc_crtc_index c) (vc_crtc c) (vc_dac_index c) (vc_dac_latch c) (vc_dac_count c) (vc_palette c).
Definition with_attr c i d m := MkCard (vc_misc c) i d m (vc_seq_index c) (vc_seq c) (vc_gfx_index c) (vc_gfx c) (vc_crtc_index c) (vc_crtc c) (vc_dac_index c) (vc_dac_latch c) (vc_dac_count c) (vc_palette c).
Definition with_seq c i m := MkCard (vc_misc c) (vc_attr_index c) (vc_attr_data_next c) (vc_attr c) i m (vc_gfx_index c) (vc_gfx c) (vc_crtc_index c) (vc_crtc c) (vc_dac_index c) (vc_dac_latch c) (vc_dac_count c) (vc_palette c).
Definition with_gfx c i m := MkCard (vc_misc c) (vc_attr_index c) (vc_attr_data_next c) (vc_attr c) (vc_seq_index c) (vc_seq c) i m (vc_crtc_index c) (vc_crtc c) (vc_dac_index c) (vc_dac_latch c) (vc_dac_count c) (vc_palette c).
Definition with_crtc c i m := MkCard (vc_misc c) (vc_attr_index c) (vc_attr_data_next c) (vc_attr c) (vc_seq_index c) (vc_seq c) (vc_gfx_index c) (vc_gfx c) i m (vc_dac_index c) (vc_dac_latch c) (vc_dac_count c) (vc_palette c).
Definition with_dac c i l n p := MkCard (vc_misc c) (vc_attr_index c) (vc_attr_data_next c) (vc_attr c) (vc_seq_index c) (vc_seq c) (vc_gfx_index c) (vc_gfx c) (vc_crtc_index c) (vc_crtc c) i l n p.

(** The CRTC and the status port are at the addresses the driver uses only in a colour
    mode. *)
Definition colour_mode (c : VgaCard) : bool := Z.testbit (vc_misc c) 0.

(** Registers 0 to 7 of the CRTC cannot be written while bit 7 of register 17 is set. *)
Definition protected (crtc : gmap Z Z) (i : Z) : bool := (i <=? 7) && Z.testbit (default 0 (crtc !! 0x11)) 7.
Definition crtc_store (crtc : gmap Z Z) (i v : Z) : gmap Z Z := if protected crtc i then crtc else <[i := v]> crtc.

(** A component of the palette has six bits; the third one completes an entry. *)
Definition palette_store (c : VgaCard) (v : Z) : VgaCard :=
  match vc_dac_latch c with
  | [r; g] => with_dac c ((vc_dac_index c + 1) mod 256) [] (vc_dac_count c) (<[vc_dac_index c := (r, g, Z.land v 0x3F)]> (vc_palette c))
  | l => with_dac c (vc_dac_index c) (l ++ [Z.land v 0x3F]) (vc_dac_count c) (vc_palette c)
  end.

Definition card_write (c : VgaCard) (port v : Z) : VgaCard :=
  if port =? 0x3C2 then with_misc c v
  else if port =? 0x3C0 then
    if vc_attr_data_next c then with_attr c (vc_attr_index c) false (<[Z.land (vc_attr_index c) 0x1F := v]> (vc_attr c))
    else with_attr c v true (vc_attr c)
  else if port =? 0x3C4 then with_seq c v (vc_seq c)
  else if port =? 0x3C5 then with_seq c (vc_seq_index c) (<[vc_seq_index c := v]> (vc_seq c))
  else if port =? 0x3CE then with_gfx c v (vc_gfx c)
  else if port =? 0x3CF then with_gfx c (vc_gfx_index c) (<[vc_gfx_index c := v]> (vc_gfx c))
  else if port =? 0x3D4 then if colour_mode c then with_crtc c v (vc_crtc c) else c
  else if port =? 0x3D5 then
    if colour_mode c then with_crtc c (vc_crtc_index c) (crtc_store (vc_crtc c) (vc_crtc_index c) v) else c
  else if (port =? 0x3C7) || (port =? 0x3C8) then with_dac c v [] 0 (vc_palette c)
  else if port =? 0x3C9 then palette_store c v
  else c.

Definition card_read (c : VgaCard) (port : Z) : VgaCard * Z :=
  if port =? 0x3CC then (c, vc_misc c)
  else if port =? 0x3DA then (if colour_mode c then with_attr c (vc_attr_index c) false (vc_attr c) else c, 0)
  else if port =? 0x3C0 then (c, vc_attr_index c)
  else if port =? 0x3C1 then (c, default 0 (vc_attr c !! Z.land (vc_attr_index c) 0x1F))
  else if port =? 0x3C5 then (c, default 0 (vc_seq c !! vc_seq_index c))
  else if port =? 0x3CF then (c, default 0 (vc_gfx c !! vc_gfx_index c))
  else if port =? 0x3D5 then (c, if colour_mode c then default 0 (vc_crtc c !! vc_crtc_index c) else 0xFF)
  else (c, 0).

(** The ports of the card; the others belong to other devices. *)
Definition vga_port (port : Z) : Prop := 0x3C0 <= port <= 0x3CF \/ port = 0x3D4 \/ port = 0x3D5 \/ port = 0x3DA.

Class VgaCardOk (B : Type) {IO : IoSpace B} := {
  card : B -> VgaCard;
  card_out : forall b port v, vga_port port -> card (port_outb b port v) = card_write (card b) port v;
  card_in : forall b port, vga_port port ->
    card (port_inb b port).1 = (card_read (card b) port).1 /\
    (port <> 0x3DA -> port <> 0x3C9 -> (port_inb b port).2 = (card_read (card b) port).2);
  memory : B -> gmap Z Z;
  memory_out : forall b port v, vga_port port -> memory (port_outb b port v) = memory b;
  memory_in : forall b port, vga_port port -> memory (port_inb b port).1 = memory b;
  card_store : forall b a v, card (store_u8 b a v) = card b;
  memory_store : forall b a v, memory (store_u8 b a v) = <[a := v]> (memory b);
}.

(** A machine with a card and memory. *)
Definition vga_machine : Type := VgaCard * gmap Z Z.
#[export] Instance vga_machine_io : IoSpace vga_machine := {|
  port_inb s port := let (c, v) := card_read s.1 port in ((c, s.2), v);
  port_outb s port v := (card_write s.1 port v, s.2);
  port_inh s _ := (s, 0xFFFF);
  port_outh s _ _ := s;
  load_u8 s a := (s, default 0 (s.2 !! a));
  store_u8 s a v := (s.1, <[a := v]> s.2);
  load_u16 s a := (s, default 0 (s.2 !! a) + 256 * default 0 (s.2 !! (a + 1)));
  store_u16 s a v := (s.1, <[a := v mod 256]> (<[a + 1 := v / 256]> s.2));
|}.
#[export] Instance vga_machine_ok : VgaCardOk vga_machine.
Proof.
  refine {| card := fst; memory := snd |}; try done; intros s port _; simpl; by destruct (card_read s.1 port).
Defined.

Section Card.
Context {B : Type} {IO : IoSpace B} {VC : VgaCardOk B}.
Implicit Types b : B.

(** * The registers of the card *)

Definition vga := x86_default.

Lemma space_ports port b i v :
  0 <= port < 2 ^ 15 -> vga_port port -> vga_port (port + 1) ->
  card (space_write b (space_new (from_port port)) i v) = card_write (card_write (card b) port i) (port + 1) v.
Proof.
  intros Hp H1 H2. unfold space_write, space_new, kp_write, kp_offset, from_port. cbn [kp_is_port kp_inner index_ptr data_ptr].
  rewrite (wrap_small 16 port), (wrap_small 64) by (unfold in_u; lia). rewrite wrap_small by (unfold in_u; lia).
  replace (port + 1 * 1) with (port + 1) by lia. by rewrite !card_out by done.
Qed.

Lemma seq_write b i v : card (space_write b (sequencer_registers vga) i v) = with_seq (card b) i (<[i := v]> (vc_seq (card b))).
Proof. unfold vga. cbn [sequencer_registers x86_default]. rewrite space_ports; [done|lia|left; lia|left; lia]. Qed.
Lemma gfx_write b i v : card (space_write b (graphics_controller_registers vga) i v) = with_gfx (card b) i (<[i := v]> (vc_gfx (card b))).
Proof. unfold vga. cbn [graphics_controller_registers x86_default]. rewrite space_ports; [done|lia|left; lia|left; lia]. Qed.
Lemma crtc_write b i v :
  colour_mode (card b) = true ->
  card (space_write b (crtc_controller_registers vga) i v) = with_crtc (card b) i (crtc_store (vc_crtc (card b)) i v).
Proof.
  intros Hc. unfold vga. cbn [crtc_controller_registers x86_default]. rewrite space_ports; [|lia|right; lia|right; lia].
  change (card_write (card b) 0x3D4 i) with (if colour_mode (card b) then with_crtc (card b) i (vc_crtc (card b)) else card b). rewrite Hc.
  change (card_write (with_crtc (card b) i (vc_crtc (card b))) (0x3D4 + 1) v) with
    (if colour_mode (card b) then with_crtc (card b) i (crtc_store (vc_crtc (card b)) i v) else with_crtc (card b) i (vc_crtc (card b))). by rewrite Hc.
Qed.

Lemma crtc_read b i :
  colour_mode (card b) = true ->
  card (space_read b (crtc_controller_registers vga) i).1 = with_crtc (card b) i (vc_crtc (card b)) /\
  (space_read b (crtc_controller_registers vga) i).2 = default 0 (vc_crtc (card b) !! i).
Proof.
  intros Hc. unfold space_read, kp_read, kp_write. change (index_ptr (crtc_controller_registers vga)) with (from_port 0x3D4).
  change (data_ptr (crtc_controller_registers vga)) with (from_port 0x3D5). cbn [kp_is_port kp_inner from_port].
  change (wrap 16 0x3D4) with 0x3D4. change (wrap 16 0x3D5) with 0x3D5.
  destruct (card_in (port_outb b 0x3D4 i) 0x3D5) as [E1 E2]; [right; lia|]. rewrite E1, (E2 ltac:(lia) ltac:(lia)), card_out by (right; lia).
  change (card_write (card b) 0x3D4 i) with (if colour_mode (card b) then with_crtc (card b) i (vc_crtc (card b)) else card b). rewrite Hc.
  split; [done|]. change (card_read (with_crtc (card b) i (vc_crtc (card b))) 0x3D5).2 with
    (if colour_mode (card b) then default 0 (vc_crtc (card b) !! i) else 0xFF). by rewrite Hc.
Qed.

(** Reading the status port resets the flip-flop. *)
Lemma status_read b : colour_mode (card b) = true ->
  card (kp_read b (control (attribute_controller_registers_mixed vga))).1 = with_attr (card b) (vc_attr_index (card b)) false (vc_attr (card b)).
Proof.
  intros Hc. unfold kp_read. change (control (attribute_controller_registers_mixed vga)) with (from_port 0x3DA). cbn [kp_is_port kp_inner from_port].
  change (wrap 16 0x3DA) with 0x3DA. destruct (card_in b 0x3DA) as [E _]; [right; lia|]. rewrite E.
  change (card_read (card b) 0x3DA).1 with (if colour_mode (card b) then with_attr (card b) (vc_attr_index (card b)) false (vc_attr (card b)) else card b).
  by rewrite Hc.
Qed.
Lemma attr_port_write b v :
  card (kp_write b (data_and_ind_write (attribute_controller_registers_mixed vga)) v) = card_write (card b) 0x3C0 v.
Proof. unfold kp_write. simpl. change (wrap 16 0x3C0) with 0x3C0. apply card_out. left. lia. Qed.

Lemma attr_write b i v : colour_mode (card b) = true -> 0 <= i < 32 ->
  card (mixed_write b (attribute_controller_registers_mixed vga) i v) = with_attr (card b) i false (<[i := v]> (vc_attr (card b))).
Proof.
  intros Hc Hi. unfold mixed_write. rewrite !attr_port_write, status_read by done.
  change (card_write (card_write (with_attr (card b) ?x false ?y) 0x3C0 i) 0x3C0 v) with (with_attr (card b) i false (<[Z.land i 0x1F := v]> y)).
  assert (Z.land i 0x1F = i) as E by (change 0x1F with (Z.ones 5); rewrite Z.land_ones by lia; apply Z.mod_small; lia). by rewrite E.
Qed.

(** Turning the screen off and on changes bit 5 of the index only. *)
Lemma attr_index_write b (g : Z -> Z) : colour_mode (card b) = true ->
  card (let b := (kp_read b (control (attribute_controller_registers_mixed vga))).1 in
        let (b, v) := kp_read b (data_and_ind_write (attribute_controller_registers_mixed vga)) in
        kp_write b (data_and_ind_write (attribute_controller_registers_mixed vga)) (g v)) =
  with_attr (card b) (g (vc_attr_index (card b))) true (vc_attr (card b)).
Proof.
  intros Hc. cbv zeta. pose proof (status_read b Hc) as Hs. set (b1 := (kp_read b (control (attribute_controller_registers_mixed vga))).1) in *.
  assert (kp_read b1 (data_and_ind_write (attribute_controller_registers_mixed vga)) = port_inb b1 0x3C0) as -> by done.
  destruct (card_in b1 0x3C0) as [E1 E2]; [left; lia|]. destruct (port_inb b1 0x3C0) as [b2 v]. cbn [fst snd] in *.
  rewrite attr_port_write, E1, Hs. rewrite (E2 ltac:(lia) ltac:(lia)), Hs. done.
Qed.

Lemma blank_effect b : colour_mode (card b) = true ->
  card (blank_screen b vga) = with_attr (card b) (Z.land (vc_attr_index (card b)) (Z.lxor 0x20 0xFF)) true (vc_attr (card b)).
Proof. exact (attr_index_write b (fun v => Z.land v (Z.lxor 0x20 0xFF))). Qed.
Lemma unblank_effect b ram : colour_mode (card b) = true ->
  card (unblank_screen b (set_video_ram vga ram)) = with_attr (card b) (Z.lor (vc_attr_index (card b)) 0x20) true (vc_attr (card b)).
Proof. exact (attr_index_write b (fun v => Z.lor v 0x20)). Qed.

(** Reading back a register. *)
Lemma space_read_ports port b i :
  0 <= port < 2 ^ 15 -> vga_port port -> vga_port (port + 1) -> port + 1 <> 0x3DA -> port + 1 <> 0x3C9 ->
  card (space_read b (space_new (from_port port)) i).1 = (card_read (card_write (card b) port i) (port + 1)).1 /\
  (space_read b (space_new (from_port port)) i).2 = (card_read (card_write (card b) port i) (port + 1)).2.
Proof.
  intros Hp H1 H2 N1 N2. unfold space_read, space_new, kp_read, kp_write, kp_offset, from_port. cbn [kp_is_port kp_inner index_ptr data_ptr].
  rewrite (wrap_small 16 port), (wrap_small 64) by (unfold in_u; lia). rewrite wrap_small by (unfold in_u; lia).
  replace (port + 1 * 1) with (port + 1) by lia. rewrite <- card_out by done.
  destruct (card_in (port_outb b port i) (port + 1) H2) as [E1 E2]. split; [exact E1|by apply E2].
Qed.
Lemma seq_read b i : card (space_read b (sequencer_registers vga) i).1 = with_seq (card b) i (vc_seq (card b)) /\
  (space_read b (sequencer_registers vga) i).2 = default 0 (vc_seq (card b) !! i).
Proof. apply (space_read_ports 0x3C4); [lia|left; lia|left; lia|lia|lia]. Qed.
Lemma gfx_read b i : card (space_read b (graphics_controller_registers vga) i).1 = with_gfx (card b) i (vc_gfx (card b)) /\
  (space_read b (graphics_controller_registers vga) i).2 = default 0 (vc_gfx (card b) !! i).
Proof. apply (space_read_ports 0x3CE); [lia|left; lia|left; lia|lia|lia]. Qed.

(** The registers are not in memory. *)
Lemma space_memory port b i v : 0 <= port < 2 ^ 15 -> vga_port port -> vga_port (port + 1) ->
  memory (space_write b (space_new (from_port port)) i v) = memory b /\ memory (space_read b (space_new (from_port port)) i).1 = memory b.
Proof.
  intros Hp H1 H2. unfold space_write, space_read, space_new, kp_write, kp_read, kp_offset, from_port. cbn [kp_is_port kp_inner index_ptr data_ptr].
  rewrite (wrap_small 16 port), (wrap_small 64) by (unfold in_u; lia). rewrite wrap_small by (unfold in_u; lia).
  replace (port + 1 * 1) with (port + 1) by lia. by rewrite memory_in, !memory_out by done.
Qed.
Lemma seq_memory b i v : memory (space_write b (sequencer_registers vga) i v) = memory b /\ memory (space_read b (sequencer_registers vga) i).1 = memory b.
Proof. apply (space_memory 0x3C4); [lia|left; lia|left; lia]. Qed.
Lemma gfx_memory b i v : memory (space_write b (graphics_controller_registers vga) i v) = memory b /\ memory (space_read b (graphics_controller_registers vga) i).1 = memory b.
Proof. apply (space_memory 0x3CE); [lia|left; lia|left; lia]. Qed.

Lemma port_memory b port v : vga_port port -> 0 <= port < 2 ^ 16 ->
  memory (kp_write b (from_port port) v) = memory b /\ memory (kp_read b (from_port port)).1 = memory b.
Proof.
  intros Hp Hb. unfold kp_write, kp_read, from_port. cbn [kp_is_port kp_inner]. rewrite wrap_small by (unfold in_u; lia).
  by rewrite memory_out, memory_in by done.
Qed.
Lemma crtc_memory b i v : memory (space_write b (crtc_controller_registers vga) i v) = memory b /\ memory (space_read b (crtc_controller_registers vga) i).1 = memory b.
Proof. apply (space_memory 0x3D4); [lia|right; lia|right; lia]. Qed.
Lemma attr_memory b i v : memory (mixed_write b (attribute_controller_registers_mixed vga) i v) = memory b.
Proof.
  unfold mixed_write. cbv zeta. change (data_and_ind_write _) with (from_port 0x3C0). change (control _) with (from_port 0x3DA).
  rewrite !(proj1 (port_memory _ 0x3C0 _ ltac:(left; lia) ltac:(lia))). exact (proj2 (port_memory b 0x3DA 0 ltac:(right; lia) ltac:(lia))).
Qed.
Lemma dac_memory b c : memory (dac_put b (dac vga) c) = memory b.
Proof. unfold dac_put. change (dac_data _) with (from_port 0x3C9). by rewrite !(proj1 (port_memory _ 0x3C9 _ ltac:(left; lia) ltac:(lia))). Qed.

End Card.
