(* ===== verification/VgaTheorems.v ===== *)
(** Results on the VGA driver: setting up the graphics mode gives the card the registers
    and the palette of that mode, a pixel gets the nearest colour of the palette, loading
    a font restores the registers it borrows, and the text mode writes its font to where
    the video memory was before. *)
From S2P Require Import Prelude MachineInt CharDevice KernPointer VgaTables Vga VgaCard.
From stdpp Require Import list gmap.
#[local] Open Scope Z_scope.

(** * Tables *)

(** Registers after a table was loaded. *)
Definition loaded (table : list (Z * Z)) (regs : gmap Z Z) : gmap Z Z := fold_left (fun m iv => <[iv.1 := iv.2]> m) table regs.

(** What was in the registers of the table before does not matter. *)
Lemma loaded_cover table m m' : (forall i, i ∉ table.*1 -> m !! i = m' !! i) -> loaded table m = loaded table m'.
Proof.
  revert m m'. induction table as [|[k v] table IH]; intros m m' H.
  - apply map_eq. intros i. apply H. apply not_elem_of_nil.
  - cbn [loaded fold_left]. apply IH. intros i Hi. cbn [fst snd]. destruct (decide (k = i)) as [->|Hk]; [by rewrite !lookup_insert_eq|].
    rewrite !lookup_insert_ne by done. apply H. rewrite fmap_cons. apply not_elem_of_cons. split; [done|exact Hi].
Qed.

(** A register a table names has the value there, the others are as before. *)
Lemma loaded_other table m i : i ∉ table.*1 -> loaded table m !! i = m !! i.
Proof.
  revert m. induction table as [|[k v] table IH]; intros m Hi; [done|]. rewrite fmap_cons, not_elem_of_cons in Hi. destruct Hi as [Hk Hi].
  cbn [loaded fold_left fst snd]. fold (loaded table (<[k := v]> m)). rewrite IH by done. by rewrite lookup_insert_ne.
Qed.

Lemma loaded_at table m i v : (i, v) ∈ table -> (forall v', (i, v') ∈ table -> v' = v) -> loaded table m !! i = Some v.
Proof.
  revert m. induction table as [|[k w] table IH]; intros m Hi Hu; [by apply not_elem_of_nil in Hi|].
  cbn [loaded fold_left fst snd]. fold (loaded table (<[k := w]> m)). destruct (decide (i ∈ table.*1)) as [Hin|Hout].
  - apply list_elem_of_fmap in Hin as ([i' v'] & -> & Hin). cbn [fst] in *. assert (v' = v) as -> by (apply Hu; by right).
    apply IH; [done|]. intros v' Hv'. apply Hu. by right.
  - rewrite loaded_other by done. apply elem_of_cons in Hi as [[= -> ->]|Hi]; [by rewrite lookup_insert_eq|].
    destruct Hout. apply list_elem_of_fmap. by exists (i, v).
Qed.

Fixpoint palette_loaded (start : Z) (data : list (Z * Z * Z)) (p : gmap Z (Z * Z * Z)) : gmap Z (Z * Z * Z) :=
  match data with
  | [] => p
  | c :: data => palette_loaded (start + 1) data (<[start := (Z.land c.1.1 0x3F, Z.land c.1.2 0x3F, Z.land c.2 0x3F)]> p)
  end.

Lemma palette_loaded_other start data p i : i < start -> palette_loaded start data p !! i = p !! i.
Proof.
  revert start p. induction data as [|c data IH]; intros start p Hi; [done|]. cbn [palette_loaded]. rewrite IH by lia.
  by rewrite lookup_insert_ne by lia.
Qed.
Lemma palette_loaded_at start data p (k : nat) c :
  data !! k = Some c -> palette_loaded start data p !! (start + Z.of_nat k) = Some (Z.land c.1.1 0x3F, Z.land c.1.2 0x3F, Z.land c.2 0x3F).
Proof.
  revert start p k. induction data as [|d data IH]; intros start p [|k] E; [done|done| |].
  - injection E as ->. cbn [palette_loaded]. rewrite palette_loaded_other by lia. rewrite Z.add_0_r. by rewrite lookup_insert_eq.
  - cbn [palette_loaded]. rewrite <- (IH (start + 1) (<[start := (Z.land d.1.1 0x3F, Z.land d.1.2 0x3F, Z.land d.2 0x3F)]> p) k E). f_equal. lia.
Qed.

Section Driver.
Context {B : Type} {IO : IoSpace B} {VC : VgaCardOk B}.
Implicit Types b : B.

(** * Loading a mode *)

Lemma seq_load b table : exists i, card (load_space b (sequencer_registers vga) table) = with_seq (card b) i (loaded table (vc_seq (card b))).
Proof.
  revert b. induction table as [|[k v] table IH]; intros b; [exists (vc_seq_index (card b)); simpl; by destruct (card b)|].
  change (load_space b ?r ((k, v) :: table)) with (load_space (space_write b r k v) r table).
  destruct (IH (space_write b (sequencer_registers vga) k v)) as (i & E). exists i. rewrite E, seq_write. done.
Qed.
Lemma gfx_load b table : exists i, card (load_space b (graphics_controller_registers vga) table) = with_gfx (card b) i (loaded table (vc_gfx (card b))).
Proof.
  revert b. induction table as [|[k v] table IH]; intros b; [exists (vc_gfx_index (card b)); simpl; by destruct (card b)|].
  change (load_space b ?r ((k, v) :: table)) with (load_space (space_write b r k v) r table).
  destruct (IH (space_write b (graphics_controller_registers vga) k v)) as (i & E). exists i. rewrite E, gfx_write. done.
Qed.

(** A table that does not set the protection again. *)
Definition unprotected (crtc : gmap Z Z) : Prop := Z.testbit (default 0 (crtc !! 0x11)) 7 = false.
Lemma crtc_load b table : colour_mode (card b) = true -> unprotected (vc_crtc (card b)) ->
  Forall (fun iv => iv.1 = 0x11 -> Z.testbit iv.2 7 = false) table ->
  exists i, card (load_space b (crtc_controller_registers vga) table) = with_crtc (card b) i (loaded table (vc_crtc (card b))).
Proof.
  revert b. induction table as [|[k v] table IH]; intros b Hc Hu Ht; [exists (vc_crtc_index (card b)); simpl; by destruct (card b)|].
  inversion Ht as [|? ? Hk Ht']; subst. change (load_space b ?r ((k, v) :: table)) with (load_space (space_write b r k v) r table).
  pose proof (crtc_write b k v Hc) as E1.
  assert (crtc_store (vc_crtc (card b)) k v = <[k := v]> (vc_crtc (card b))) as Es.
  { unfold crtc_store, protected. unfold unprotected in Hu. by rewrite Hu, andb_false_r. }
  destruct (IH (space_write b (crtc_controller_registers vga) k v)) as (i & E).
  - rewrite E1. exact Hc.
  - rewrite E1. cbn [vc_crtc with_crtc]. rewrite Es. unfold unprotected. destruct (decide (k = 0x11)) as [->|Hne].
    + rewrite lookup_insert_eq. by apply Hk.
    + by rewrite lookup_insert_ne.
  - done.
  - exists i. rewrite E, E1. cbn [vc_crtc with_crtc]. by rewrite Es.
Qed.

Lemma attr_load b table : colour_mode (card b) = true -> Forall (fun iv => 0 <= iv.1 < 32) table ->
  exists i d, card (load_mixed b (attribute_controller_registers_mixed vga) table) = with_attr (card b) i d (loaded table (vc_attr (card b))).
Proof.
  revert b. induction table as [|[k v] table IH]; intros b Hc Ht; [exists (vc_attr_index (card b)), (vc_attr_data_next (card b)); simpl; by destruct (card b)|].
  inversion Ht as [|? ? Hk Ht']; subst. change (load_mixed b ?r ((k, v) :: table)) with (load_mixed (mixed_write b r k v) r table).
  pose proof (attr_write b k v Hc Hk) as E1.
  destruct (IH (mixed_write b (attribute_controller_registers_mixed vga) k v)) as (i & d & E); [by rewrite E1|done|].
  exists i, d. rewrite E, E1. done.
Qed.

(** Unlocking lets all registers be written. *)
Lemma unlock_effect b : colour_mode (card b) = true ->
  exists i m, card (unlock_crtc_registers b vga) = with_crtc (card b) i m /\ unprotected m /\
    forall j, j <> 3 -> j <> 0x11 -> m !! j = vc_crtc (card b) !! j.
Proof.
  intros Hc. unfold unlock_crtc_registers. destruct (crtc_read b 3 Hc) as [E1 E2].
  destruct (space_read b (crtc_controller_registers vga) 3) as [b1 h]. cbn [fst snd] in *.
  pose proof (crtc_write b1 3 (Z.lor h 0x80)) as E3. rewrite E1 in E3. specialize (E3 Hc).
  set (b2 := space_write b1 (crtc_controller_registers vga) 3 (Z.lor h 0x80)) in *.
  destruct (crtc_read b2 0x11) as [E4 E5]; [by rewrite E3|].
  destruct (space_read b2 (crtc_controller_registers vga) 0x11) as [b3 s]. cbn [fst snd] in *.
  pose proof (crtc_write b3 0x11 (Z.land s 0x7F)) as E6. rewrite E4, E3 in E6. specialize (E6 Hc).
  eexists _, _. split; [exact E6|]. cbn [vc_crtc with_crtc]. unfold crtc_store at 1. change (protected _ 0x11) with false. cbv iota. split.
  - unfold unprotected. rewrite lookup_insert_eq. change (default 0 (Some ?x)) with x. rewrite Z.land_spec. change (Z.testbit 0x7F 7) with false. apply andb_false_r.
  - intros j H3 H11. unfold crtc_store. change (protected _ 0x11) with false. cbv iota. rewrite lookup_insert_ne by done.
    destruct (protected (vc_crtc (card b)) 3); [done|]. by rewrite lookup_insert_ne.
Qed.

(** The palette, entry by entry. *)
Lemma dac_data_write b v : card (kp_write b (dac_data (dac vga)) v) = palette_store (card b) v.
Proof. unfold kp_write. simpl. change (wrap 16 0x3C9) with 0x3C9. rewrite card_out by (left; lia). done. Qed.

Lemma dac_put_effect b c : vc_dac_latch (card b) = [] ->
  card (dac_put b (dac vga) c) = with_dac (card b) ((vc_dac_index (card b) + 1) mod 256) [] (vc_dac_count (card b))
    (<[vc_dac_index (card b) := (Z.land c.1.1 0x3F, Z.land c.1.2 0x3F, Z.land c.2 0x3F)]> (vc_palette (card b))).
Proof. intros Hl. unfold dac_put. rewrite !dac_data_write. unfold palette_store at 3. rewrite Hl. done. Qed.

Lemma bulk_effect b data : forall start, vc_dac_latch (card b) = [] -> vc_dac_index (card b) = start -> 0 <= start ->
  start + Z.of_nat (length data) <= 256 ->
  exists i, card (fold_left (fun b c => dac_put b (dac vga) c) data b) = with_dac (card b) i [] (vc_dac_count (card b)) (palette_loaded start data (vc_palette (card b))).
Proof.
  revert b. induction data as [|c data IH]; intros b start Hl Hi Hs Hb.
  { exists start. simpl. rewrite <- Hl, <- Hi. by destruct (card b). }
  cbn [fold_left palette_loaded length] in *. pose proof (dac_put_effect b c Hl) as E. rewrite Hi in E.
  destruct (decide (data = [])) as [->|Hd].
  { exists ((start + 1) mod 256). exact E. }
  assert (0 < Z.of_nat (length data)) by (destruct data; [done|simpl; lia]). rewrite (Z.mod_small (start + 1)) in E by lia.
  destruct (IH (dac_put b (dac vga) c) (start + 1)) as (i & E'); [by rewrite E|by rewrite E|lia|lia|]. exists i. rewrite E', E. done.
Qed.

Lemma write_bulk_effect b data : Z.of_nat (length data) <= 256 ->
  exists i n, card (write_bulk b (dac vga) 0 data) = with_dac (card b) i [] n (palette_loaded 0 data (vc_palette (card b))).
Proof.
  intros Hl. unfold write_bulk. assert (card (kp_write b (dac_index_to_write_to (dac vga)) 0) = with_dac (card b) 0 [] 0 (vc_palette (card b))) as E
    by (unfold kp_write; simpl; change (wrap 16 0x3C8) with 0x3C8; rewrite card_out by (left; lia); done).
  destruct (bulk_effect (kp_write b (dac_index_to_write_to (dac vga)) 0) data 0) as (i & E'); [by rewrite E|by rewrite E|lia|lia|].
  exists i, 0%nat. rewrite E', E. done.
Qed.

(** Tables the driver can load. *)
Definition mode_ok (d : VgaModeDump) : Prop :=
  Z.testbit (md_misc_register d) 0 = true /\ 3 ∈ (md_crtc_controller_registers d).*1 /\ 0x11 ∈ (md_crtc_controller_registers d).*1 /\
  Forall (fun iv => iv.1 = 0x11 -> Z.testbit iv.2 7 = false) (md_crtc_controller_registers d) /\
  Forall (fun iv => 0 <= iv.1 < 32) (md_attribute_controller_registers_mixed d).

(** The card has the registers of a mode, and its others are as before. *)
Record in_mode (d : VgaModeDump) (c c' : VgaCard) : Prop := {
  im_misc : vc_misc c' = md_misc_register d;
  im_attr : vc_attr c' = loaded (md_attribute_controller_registers_mixed d) (vc_attr c);
  im_seq : vc_seq c' = loaded (md_sequencer_registers d) (vc_seq c);
  im_gfx : vc_gfx c' = loaded (md_graphics_controller_registers d) (vc_gfx c);
  im_crtc : vc_crtc c' = loaded (md_crtc_controller_registers d) (vc_crtc c);
}.

Lemma load_mode_effect b d : mode_ok d ->
  in_mode d (card b) (card (load_mode_dump b vga d)) /\ vc_palette (card (load_mode_dump b vga d)) = vc_palette (card b).
Proof.
  intros (Hm & H3 & H11 & Hcr & Hat). unfold load_mode_dump.
  assert (card (misc_write b (misc_register vga) (md_misc_register d)) = with_misc (card b) (md_misc_register d)) as E0
    by (unfold misc_write, kp_write; simpl; change (wrap 16 0x3C2) with 0x3C2; rewrite card_out by (left; lia); done).
  set (b0 := misc_write b (misc_register vga) (md_misc_register d)) in *.
  destruct (unlock_effect b0) as (i1 & m1 & E1 & Hu & Hm1); [by rewrite E0|]. set (b1 := unlock_crtc_registers b0 vga) in *.
  destruct (seq_load b1 (md_sequencer_registers d)) as (i2 & E2). set (b2 := load_space b1 (sequencer_registers vga) _) in *.
  destruct (crtc_load b2 (md_crtc_controller_registers d)) as (i3 & E3); [by rewrite E2, E1, E0|by rewrite E2, E1|done|].
  set (b3 := load_space b2 (crtc_controller_registers vga) _) in *.
  destruct (gfx_load b3 (md_graphics_controller_registers d)) as (i4 & E4). set (b4 := load_space b3 (graphics_controller_registers vga) _) in *.
  destruct (attr_load b4 (md_attribute_controller_registers_mixed d)) as (i5 & f5 & E5); [by rewrite E4, E3, E2, E1, E0|done|].
  rewrite E5, E4, E3, E2, E1, E0. split; [|done]. split; try done. cbn. apply loaded_cover. intros i Hi.
  rewrite Hm1, E0; [done|by intros ->|by intros ->].
Qed.

Lemma mode_ok_color : mode_ok COLOR_320X200.
Proof. unfold mode_ok. split_and!; [reflexivity|by apply (bool_decide_unpack _)|by apply (bool_decide_unpack _)|by repeat constructor|repeat constructor; simpl; lia]. Qed.
Lemma mode_ok_text : mode_ok TEXT_80X25.
Proof. unfold mode_ok. split_and!; [reflexivity|by apply (bool_decide_unpack _)|by apply (bool_decide_unpack _)|by repeat constructor|repeat constructor; simpl; lia]. Qed.

(** The colours of the palette have six bits. *)
Definition six_bits (c : Z * Z * Z) : bool := (Z.land c.1.1 0x3F =? c.1.1) && (Z.land c.1.2 0x3F =? c.1.2) && (Z.land c.2 0x3F =? c.2).
Lemma fancy_six_bits (i : nat) c : FANCY_PALETTE !! i = Some c -> (Z.land c.1.1 0x3F, Z.land c.1.2 0x3F, Z.land c.2 0x3F) = c.
Proof.
  intros E. assert (forallb six_bits FANCY_PALETTE = true) as H by (vm_compute; reflexivity). rewrite forallb_forall in H.
  specialize (H c). unfold six_bits in H. rewrite !andb_true_iff, !Z.eqb_eq in H. destruct H as [[H1 H2] H3]; [eapply list_elem_of_In, list_elem_of_lookup_2, E|].
  rewrite H1, H2, H3. by destruct c as [[]].
Qed.

(** * The font *)

(** The bytes of the font and where they go: the rows of a character follow each other,
    the characters are 32 bytes apart. *)
Definition font_stores (base : Z) (font : list Z) (height offset : Z) : list (Z * Z) :=
  n ← seq 0 (Z.to_nat (Z.of_nat (length font) / height)); row ← Z.of_nat <$> seq 0 (Z.to_nat height);
  match font !! Z.to_nat (Z.of_nat n * height + row) with
  | Some v => [(wrap 64 (base + 1 * (32 * Z.of_nat n + row + offset)), v)]
  | None => []
  end.
Definition store_all (stores : list (Z * Z)) b : B := fold_left (fun b av => store_u8 b av.1 av.2) stores b.

Lemma font_rows v base font height offset n rows : video_ram v = from_mem base ->
  Forall (fun row => is_Some (font !! Z.to_nat (Z.of_nat n * height + row))) rows -> forall b,
  fold_left (font_byte v font height offset (Z.of_nat n)) rows (Ret b) =
  Ret (store_all (rows ≫= (fun row => match font !! Z.to_nat (Z.of_nat n * height + row) with
    | Some x => [(wrap 64 (base + 1 * (32 * Z.of_nat n + row + offset)), x)] | None => [] end)) b).
Proof.
  intros Hv. induction rows as [|row rows IH]; intros Hall b; [done|]. inversion Hall as [|? ? [x Hx] Hr]; subst.
  cbn [fold_left mbind list_bind]. unfold font_byte at 2. cbn [obind]. rewrite Hx. cbn [unwrap obind]. rewrite IH by done.
  unfold kp_write, kp_offset. rewrite Hv. cbn [from_mem kp_inner kp_is_port app]. done.
Qed.
Lemma font_fold v base font height offset : video_ram v = from_mem base -> 0 < height -> forall b,
  fold_left (fun br c_ind => fold_left (font_byte v font height offset (Z.of_nat c_ind)) (Z.of_nat <$> seq 0 (Z.to_nat height)) br)
    (seq 0 (Z.to_nat (Z.of_nat (length font) / height))) (Ret b) = Ret (store_all (font_stores base font height offset) b).
Proof.
  intros Hv Hh. unfold font_stores. assert (Forall (fun n => (n < Z.to_nat (Z.of_nat (length font) / height))%nat) (seq 0 (Z.to_nat (Z.of_nat (length font) / height)))) as Hn.
  { apply Forall_forall. intros n Hn. apply elem_of_seq in Hn. lia. }
  induction Hn as [|n ns Hn _ IH]; intros b; [done|]. cbn [fold_left]. rewrite (font_rows v base) by
    (try done; apply Forall_fmap, Forall_forall; intros r Hr%elem_of_seq; apply lookup_lt_is_Some; cbn;
     assert (height * (Z.of_nat (length font) / height) <= Z.of_nat (length font)) by (apply Z.mul_div_le; lia); nia).
  rewrite IH. cbn [mbind list_bind]. unfold store_all. rewrite fold_left_app. done.
Qed.

Lemma store_all_effect stores b : card (store_all stores b) = card b /\ memory (store_all stores b) = loaded stores (memory b).
Proof.
  revert b. induction stores as [|[a x] stores IH]; intros b; [done|]. unfold store_all, loaded in *. cbn [fold_left fst snd].
  destruct (IH (store_u8 b a x)) as [-> ->]. by rewrite card_store, memory_store.
Qed.

(** Registers read as they did before. *)
Record same_registers (c c' : VgaCard) : Prop := {
  sr_misc : vc_misc c' = vc_misc c;
  sr_attr : vc_attr c' = vc_attr c;
  sr_crtc : vc_crtc c' = vc_crtc c;
  sr_palette : vc_palette c' = vc_palette c;
  sr_seq : forall i, default 0 (vc_seq c' !! i) = default 0 (vc_seq c !! i);
  sr_gfx : forall i, default 0 (vc_gfx c' !! i) = default 0 (vc_gfx c !! i);
}.

Lemma borrow_two (m : gmap Z Z) i j v w k : i <> j ->
  default 0 (<[i := default 0 (m !! i)]> (<[j := default 0 (m !! j)]> (<[i := w]> (<[j := v]> m))) !! k) = default 0 (m !! k).
Proof.
  intros Hij. destruct (decide (k = i)) as [->|Hj]; [by rewrite lookup_insert_eq|]. rewrite (lookup_insert_ne _ i) by done.
  destruct (decide (k = j)) as [->|Hi]; [by rewrite lookup_insert_eq|]. by rewrite !lookup_insert_ne by done.
Qed.

(** The four registers loading a font borrows, as one step before and one after. *)
Lemma font_registers b v font height offset : 
  sequencer_registers v = sequencer_registers vga -> graphics_controller_registers v = graphics_controller_registers vga ->
  exists b1, memory b1 = memory b /\
    (exists si gi w4 w5 w6, card b1 = with_seq (with_gfx (card b) gi (<[6 := w6]> (<[5 := w5]> (vc_gfx (card b))))) si (<[2 := 4]> (<[4 := w4]> (vc_seq (card b))))) /\
    load_font b v font height offset =
      (let! b2 := fold_left (fun br c_ind => fold_left (font_byte v font height offset (Z.of_nat c_ind))
          (Z.of_nat <$> seq 0 (Z.to_nat height)) br) (seq 0 (Z.to_nat (Z.of_nat (length font) / height))) (Ret b1) in
       let b3 := space_write b2 (sequencer_registers vga) 4 (default 0 (vc_seq (card b) !! 4)) in
       let b3 := space_write b3 (sequencer_registers vga) 2 (default 0 (vc_seq (card b) !! 2)) in
       let b3 := space_write b3 (graphics_controller_registers vga) 5 (default 0 (vc_gfx (card b) !! 5)) in
       Ret (space_write b3 (graphics_controller_registers vga) 6 (default 0 (vc_gfx (card b) !! 6)))).
Proof.
  intros Hs Hg. unfold load_font. rewrite Hs, Hg.
  destruct (seq_read b 4) as [C1 V1]. pose proof (proj2 (seq_memory b 4 0)) as M1. destruct (space_read b (sequencer_registers vga) 4) as [b1 v1]. cbn [fst snd] in *.
  destruct (seq_read b1 2) as [C2 V2]. pose proof (proj2 (seq_memory b1 2 0)) as M2. destruct (space_read b1 (sequencer_registers vga) 2) as [b2 v2]. cbn [fst snd] in *.
  destruct (gfx_read b2 5) as [C3 V3]. pose proof (proj2 (gfx_memory b2 5 0)) as M3. destruct (space_read b2 (graphics_controller_registers vga) 5) as [b3 v3]. cbn [fst snd] in *.
  destruct (gfx_read b3 6) as [C4 V4]. pose proof (proj2 (gfx_memory b3 6 0)) as M4. destruct (space_read b3 (graphics_controller_registers vga) 6) as [b4 v4]. cbn [fst snd] in *.
  rewrite C1 in *. rewrite C2 in *. rewrite C3 in *. cbn in V1, V2, V3, V4. subst v1 v2 v3 v4.
  eexists. split; [|split; [|reflexivity]].
  - rewrite (proj1 (seq_memory _ _ _)), !(proj1 (gfx_memory _ _ _)), (proj1 (seq_memory _ _ _)). congruence.
  - do 5 eexists. rewrite seq_write, !gfx_write, seq_write, C4. reflexivity.
Qed.

(** Loading a font stores its bytes and gives back the registers it borrows: all registers
    read as they did before. *)
Lemma load_font_restores b v base font height offset :
  sequencer_registers v = sequencer_registers vga -> graphics_controller_registers v = graphics_controller_registers vga ->
  video_ram v = from_mem base -> 0 < height ->
  exists b', load_font b v font height offset = Ret b' /\ same_registers (card b) (card b') /\
    memory b' = loaded (font_stores base font height offset) (memory b).
Proof.
  intros Hs Hg Hv Hh. destruct (font_registers b v font height offset Hs Hg) as (b1 & M & (si & gi & w4 & w5 & w6 & C) & ->).
  rewrite (font_fold v base) by done. cbn [obind]. eexists. split; [reflexivity|].
  destruct (store_all_effect (font_stores base font height offset) b1) as [C' M']. cbv zeta. split.
  - rewrite !gfx_write, !seq_write, C', C. split; try done; intros i; apply borrow_two; lia.
  - rewrite !(proj1 (gfx_memory _ _ _)), !(proj1 (seq_memory _ _ _)), M', M. done.
Qed.

(** The registers and the palette are not in memory. *)
Lemma fold_memory {A} (f : B -> A -> B) (l : list A) b : (forall b x, memory (f b x) = memory b) -> memory (fold_left f l b) = memory b.
Proof. intros Hf. revert b. induction l as [|x l IH]; intros b; [done|]. cbn [fold_left]. by rewrite IH. Qed.
Lemma load_mode_memory b d : memory (load_mode_dump b vga d) = memory b.
Proof.
  unfold load_mode_dump, load_space, load_mixed. cbv zeta.
  rewrite fold_memory by (intros; apply attr_memory). rewrite fold_memory by (intros; apply gfx_memory).
  rewrite fold_memory by (intros; apply crtc_memory). rewrite fold_memory by (intros; apply seq_memory).
  set (b0 := misc_write _ _ _). unfold unlock_crtc_registers. pose proof (proj2 (crtc_memory b0 3 0)) as M1. destruct (space_read b0 _ 3) as [b1 h]. cbn [fst] in M1.
  set (b2 := space_write b1 _ 3 _). pose proof (proj2 (crtc_memory b2 0x11 0)) as M2. destruct (space_read b2 _ 0x11) as [b3 h3]. cbn [fst] in M2.
  rewrite (proj1 (crtc_memory _ _ _)), M2. unfold b2. rewrite (proj1 (crtc_memory _ _ _)), M1. apply (port_memory b 0x3C2); [left; lia|lia].
Qed.
Lemma write_bulk_memory b i data : memory (write_bulk b (dac vga) i data) = memory b.
Proof. unfold write_bulk. rewrite fold_memory by (intros; apply dac_memory). apply (port_memory b 0x3C8); [left; lia|lia]. Qed.

(** Where the text mode puts its font. *)
Lemma text_font_length : length TEXT_8X16_FONT = Z.to_nat 4096.
Proof. vm_compute. reflexivity. Qed.
#[local] Opaque TEXT_8X16_FONT.
Lemma text_font_stores a x : (a, x) ∈ font_stores 0 TEXT_8X16_FONT 16 0 <->
  exists c r : nat, (c < 256)%nat /\ (r < 16)%nat /\ a = Z.of_nat (32 * c + r) /\ TEXT_8X16_FONT !! (16 * c + r)%nat = Some x.
Proof.
  unfold font_stores. rewrite text_font_length. change (Z.of_nat (Z.to_nat 4096) / 16) with 256. change (Z.to_nat 16) with 16%nat. change (Z.to_nat 256) with 256%nat.
  rewrite list_elem_of_bind.
  assert (forall c r : nat, Z.to_nat (Z.of_nat c * 16 + Z.of_nat r) = (16 * c + r)%nat) as Hi by lia.
  assert (forall c r : nat, (c < 256)%nat -> (r < 16)%nat -> wrap 64 (0 + 1 * (32 * Z.of_nat c + Z.of_nat r + 0)) = Z.of_nat (32 * c + r)) as Ha
    by (intros; rewrite wrap_small by (unfold in_u; lia); lia).
  split.
  - intros (c & (r & Hx & (r' & -> & Hr%elem_of_seq)%list_elem_of_fmap)%list_elem_of_bind & Hc%elem_of_seq). rewrite Hi in Hx. exists c, r'. rewrite Ha in Hx by lia.
    destruct (TEXT_8X16_FONT !! _) as [v|] eqn:E; [|by apply not_elem_of_nil in Hx]. apply list_elem_of_singleton in Hx. injection Hx as -> ->. split_and!; [lia|lia|done|done].
  - intros (c & r & Hc & Hr & -> & E). exists c. split; [|apply elem_of_seq; lia]. apply list_elem_of_bind. exists (Z.of_nat r). rewrite Hi, E, Ha by done.
    split; [by apply list_elem_of_singleton|]. apply list_elem_of_fmap. exists r. split; [done|]. apply elem_of_seq. lia.
Qed.

(** Setting the text mode before any other gives the card the registers and the palette
    of that mode, but puts the font at address 0: the video memory is set up only
    afterwards.  Row r of character c is at address 32 c + r, and nothing from 0x2000 on,
    where the video memory is, changes. *)
Theorem text_mode_font_misplaced b t : t <> Text80x25 ->
  exists b' c1, set_mode b x86_default t Text80x25 = Ret (b', set_video_ram x86_default (from_mem 0xb8000)) /\
    in_mode TEXT_80X25 (card b) c1 /\ same_registers c1 (card b') /\
    (forall (k : nat) c, DEFAULT_PALETTE !! k = Some c -> vc_palette (card b') !! Z.of_nat k = Some (Z.land c.1.1 0x3F, Z.land c.1.2 0x3F, Z.land c.2 0x3F)) /\
    (forall a, 0x2000 <= a -> memory b' !! a = memory b !! a) /\
    (forall c r : nat, (c < 256)%nat -> (r < 16)%nat -> memory b' !! Z.of_nat (32 * c + r) = TEXT_8X16_FONT !! (16 * c + r)%nat).
Proof.
  intros Ht. unfold set_mode. rewrite decide_False by congruence. fold vga.
  destruct (load_mode_effect b TEXT_80X25 mode_ok_text) as [Him Hp]. pose proof (load_mode_memory b TEXT_80X25) as M1. set (b1 := load_mode_dump b vga TEXT_80X25) in *.
  destruct (write_bulk_effect b1 DEFAULT_PALETTE) as (i & n & E2); [vm_compute; discriminate|].
  pose proof (write_bulk_memory b1 0 DEFAULT_PALETTE) as M2. set (b2 := write_bulk b1 (dac vga) 0 DEFAULT_PALETTE) in *.
  destruct (load_font_restores b2 vga 0 TEXT_8X16_FONT 16 0) as (b3 & -> & Hr & M3); [done|done|done|lia|]. cbn [obind].
  exists b3, (card b2). rewrite M2, M1 in M3. split_and!; [reflexivity| |exact Hr| | |].
  - rewrite E2. destruct Him as [H1 H2 H3 H4 H5]. split; [exact H1|exact H2|exact H3|exact H4|exact H5].
  - intros k c Hk. rewrite (sr_palette _ _ Hr), E2. cbn [vc_palette with_dac]. exact (palette_loaded_at 0 DEFAULT_PALETTE _ k c Hk).
  - intros a Ha. rewrite M3. apply loaded_other. intros ((a' & x) & -> & (c & r & ? & ? & -> & _)%text_font_stores)%list_elem_of_fmap. cbn [fst] in *. lia.
  - intros c r Hc Hr'. rewrite M3. destruct (lookup_lt_is_Some_2 TEXT_8X16_FONT (16 * c + r)) as [x Hx]; [rewrite text_font_length; lia|]. rewrite Hx.
    apply loaded_at; [apply text_font_stores; exists c, r; split; [exact Hc|split; [exact Hr'|split; [reflexivity|exact Hx]]]|]. intros x' (c' & r' & ? & ? & E & Hx')%text_font_stores.
    assert (c' = c /\ r' = r) as [-> ->] by lia. congruence.
Qed.

(** C36: setting up the VGA frame buffer from another mode puts the card in the graphics
    mode: every register of the mode's table has its value, the registers the table does
    not name keep theirs, although the CRTC registers were protected, the palette is the
    driver's, and the screen is on. *)
Theorem vga_setup_sets_mode b mode : colour_mode (card b) = true -> mode <> Color256 ->
  exists b', try_setup_vga_framebuffer b x86_default mode = Ret (b', set_video_ram x86_default (from_mem 0xa0000)) /\
    in_mode COLOR_320X200 (card b) (card b') /\
    (forall (i : nat) c, FANCY_PALETTE !! i = Some c -> vc_palette (card b') !! Z.of_nat i = Some c) /\
    Z.testbit (vc_attr_index (card b')) 5 = true.
Proof.
  intros Hc Hm. unfold try_setup_vga_framebuffer, set_mode. rewrite decide_False by congruence. cbn [obind]. fold vga.
  pose proof (blank_effect b Hc) as E0. set (b0 := blank_screen b vga) in *.
  destruct (load_mode_effect b0 COLOR_320X200 mode_ok_color) as [[H1 H2 H3 H4 H5] Hp]. set (b1 := load_mode_dump b0 vga COLOR_320X200) in *.
  destruct (write_bulk_effect b1 FANCY_PALETTE) as (i & n & E2); [vm_compute; discriminate|]. set (b2 := write_bulk b1 (dac vga) 0 FANCY_PALETTE) in *.
  assert (colour_mode (card b2) = true) as Hc2 by (rewrite E2; unfold colour_mode; cbn [vc_misc with_dac]; by rewrite H1).
  eexists. split; [reflexivity|]. rewrite (unblank_effect b2 (from_mem 0xa0000) Hc2), E2. split_and!.
  - rewrite E0 in *. split; [exact H1|exact H2|exact H3|exact H4|exact H5].
  - intros j c Hj. cbn [vc_palette with_attr with_dac]. pose proof (palette_loaded_at 0 FANCY_PALETTE (vc_palette (card b1)) j c Hj) as E.
    rewrite Z.add_0_l in E. rewrite E. f_equal. by apply (fancy_six_bits j).
  - cbn [vc_attr_index with_attr]. rewrite Z.lor_spec. change (Z.testbit 0x20 5) with true. apply orb_true_r.
Qed.

End Driver.

(** * Pixels *)

(** The loop over the palette keeps the first colour whose error is least. *)
Lemma best_colour_spec palette pixel : forall i bi be bc ri re rc,
  best_colour palette pixel i bi be bc = (ri, re, rc) ->
  (ri = bi /\ re = be /\ rc = bc /\ forall d, d ∈ palette -> be <= colour_error d pixel) \/
  exists k, palette !! k = Some rc /\ ri = i + Z.of_nat k /\ re = colour_error rc pixel /\ re < be /\
    forall j d, palette !! j = Some d -> re <= colour_error d pixel /\ ((j < k)%nat -> re < colour_error d pixel).
Proof.
  induction palette as [|c palette IH]; intros i bi be bc ri re rc; cbn [best_colour]; intros E.
  - injection E as -> -> ->. left. split_and!; try done. intros d Hd. by apply not_elem_of_nil in Hd.
  - destruct (Z.ltb_spec (colour_error c pixel) be) as [Hlt|Hge]; apply IH in E as [(-> & -> & -> & Hall)|(k & Hk & -> & -> & Hlt' & Hall)].
    + right. exists 0%nat. split_and!; [done|lia|done|done|]. intros [|j] d Hd; [injection Hd as ->; lia|]. split; [|lia].
      apply Hall. eapply list_elem_of_lookup_2, Hd.
    + right. exists (Datatypes.S k). split_and!; [done|lia|done|lia|]. intros [|j] d Hd; [injection Hd as ->; lia|].
      destruct (Hall j d Hd) as [H1 H2]. split; [done|]. intros Hj. apply H2. lia.
    + left. split_and!; try done. intros d [->|Hd]%elem_of_cons; [done|]. by apply Hall.
    + right. exists (Datatypes.S k). split_and!; [done|lia|done|done|]. intros [|j] d Hd; [injection Hd as ->; lia|].
      destruct (Hall j d Hd) as [H1 H2]. split; [done|]. intros Hj. apply H2. lia.
Qed.

(** The arithmetic of the error is far from the bounds of an i32. *)
Definition byte_pixel (p : Pixel) : Prop := in_u 8 (px_r p) /\ in_u 8 (px_g p) /\ in_u 8 (px_b p).
Lemma colour_error_bound c pixel : c ∈ FANCY_PALETTE -> byte_pixel pixel -> 0 <= colour_error c pixel < 2 ^ 18.
Proof.
  intros Hc (Hr & Hg & Hb). assert (forallb (fun c => (0 <=? c.1.1) && (c.1.1 <? 64) && (0 <=? c.1.2) && (c.1.2 <? 64) && (0 <=? c.2) && (c.2 <? 64)) FANCY_PALETTE = true) as H
    by (vm_compute; reflexivity).
  rewrite forallb_forall in H. specialize (H c (proj1 (list_elem_of_In _ _) Hc)). unfold colour_error, in_u in *. rewrite !Z.pow_2_r.
  assert (forall a q, 0 <= a < 64 -> 0 <= q < 2 ^ 8 -> 0 <= Z.abs (a * 4 - q) * Z.abs (a * 4 - q) <= 255 * 255) as Hs.
  { intros a q Ha Hq. split; [nia|]. apply Z.mul_le_mono_nonneg; lia. }
  destruct c as [[r g] bl]. cbn [fst snd] in *. pose proof (Hs r (px_r pixel)). pose proof (Hs g (px_g pixel)). pose proof (Hs bl (px_b pixel)). lia.
Qed.

Section Pixels.
Context {B : Type} {IO : IoSpace B}.
Implicit Types b : B.

Lemma vga_write_at b v x y c : video_ram v = from_mem 0xa0000 -> 0 <= x < 320 -> 0 <= y < 200 ->
  vga_write b v x y c = Ret (store_u8 b (0xa0000 + (320 * y + x)) c).
Proof.
  intros Hv Hx Hy. unfold vga_write. rewrite mul_chk_ok by lia. cbn [obind]. rewrite add_chk_ok by lia. cbn [obind].
  rewrite Hv. unfold kp_write, kp_offset. cbn [from_mem kp_inner kp_is_port]. rewrite wrap_small by (unfold in_u; lia). do 2 f_equal. lia.
Qed.

(** Setting a pixel of the VGA screen stores, at the byte of that pixel, the index of
    the first colour of the palette that is nearest to it: no other entry is nearer, and
    no earlier one is as near. *)
Theorem vga_set_pixel_nearest b v x y p : video_ram v = from_mem 0xa0000 -> 0 <= x < 320 -> 0 <= y < 200 -> byte_pixel p ->
  exists (k : nat) c err, FANCY_PALETTE !! k = Some c /\
    vga_set_pixel b v x y p = Ret (store_u8 b (0xa0000 + (320 * y + x)) (Z.of_nat k), err) /\
    forall j d, FANCY_PALETTE !! j = Some d ->
      colour_error c p <= colour_error d p /\ ((j < k)%nat -> colour_error c p < colour_error d p).
Proof.
  intros Hv Hx Hy Hp. unfold vga_set_pixel. destruct (best_colour _ _ _ _ _ _) as [[ri re] [[r g] bl]] eqn:E.
  apply best_colour_spec in E as [(_ & _ & _ & Hall)|(k & Hk & -> & -> & _ & Hall)].
  - destruct (FANCY_PALETTE !! 0%nat) as [c|] eqn:E0; [|by vm_compute in E0]. apply list_elem_of_lookup_2 in E0.
    pose proof (Hall c E0). pose proof (colour_error_bound c p E0 Hp). lia.
  - exists k, (r, g, bl). eexists. split; [done|]. split; [|exact Hall]. rewrite vga_write_at by done.
    assert (length FANCY_PALETTE = 256%nat) as Hl by (vm_compute; reflexivity). apply lookup_lt_Some in Hk. rewrite Hl in Hk.
    rewrite Z.add_0_l, wrap_small; [done|unfold in_u; lia].
Qed.

(** What the character device asks of a screen. *)
#[export] Instance vga_frame_buffer_ok : FrameBufferOk (B * Vga).
Proof.
  refine {| fb_ok := fun s => video_ram s.2 = from_mem 0xa0000 |}. intros [b v] x y p Hv Hx Hy. simpl in *. unfold vga_set_pixel.
  destruct (best_colour _ _ _ _ _ _) as [[ri re] [[r g] bl]]. rewrite vga_write_at by done. cbn [obind]. by eexists.
Defined.

End Pixels.

Definition demo_card : VgaCard := MkCard 1 0 false ∅ 0 ∅ 0 ∅ 0 {[0x11 := 0x8E]} 0 [] 0 ∅.
Definition demo_machine : vga_machine := (demo_card, ∅).

Lemma vga_setup_sets_mode_witness : exists b',
  try_setup_vga_framebuffer demo_machine x86_default UndefinedVgaMode = Ret (b', set_video_ram x86_default (from_mem 0xa0000)) /\
  vc_crtc b'.1 !! 0 = Some 0x5f /\ vc_palette b'.1 !! 1 = FANCY_PALETTE !! 1%nat.
Proof.
  destruct (vga_setup_sets_mode demo_machine UndefinedVgaMode) as (b' & E & Hm & Hp & _); [reflexivity|discriminate|].
  exists b'. split_and!; [exact E| |].
  - change b'.1 with (card b'). rewrite (im_crtc _ _ _ Hm). vm_compute. reflexivity.
  - change b'.1 with (card b'). destruct (FANCY_PALETTE !! 1%nat) as [c|] eqn:E1; [|vm_compute in E1; discriminate]. exact (Hp 1%nat c E1).
Defined.

Lemma text_mode_font_misplaced_witness : exists b',
  set_mode demo_machine x86_default UndefinedVgaMode Text80x25 = Ret (b', set_video_ram x86_default (from_mem 0xb8000)) /\
  b'.2 !! 0xb8000 = None /\ b'.2 !! 2083 = TEXT_8X16_FONT !! 1043%nat.
Proof.
  destruct (text_mode_font_misplaced demo_machine UndefinedVgaMode) as (b' & c1 & E & _ & _ & _ & Hhigh & Hlow); [discriminate|].
  exists b'. split_and!; [exact E|exact (Hhigh 0xb8000 ltac:(lia))|exact (Hlow 65%nat 3%nat ltac:(lia) ltac:(lia))].
Defined.

Lemma vga_set_pixel_nearest_witness : exists (k : nat) c err,
  vga_set_pixel demo_machine (set_video_ram x86_default (from_mem 0xa0000)) 10 2 (MkPixel 255 0 0) =
    Ret (store_u8 demo_machine (0xa0000 + 650) (Z.of_nat k), err) /\ FANCY_PALETTE !! k = Some c.
Proof.
  destruct (vga_set_pixel_nearest demo_machine (set_video_ram x86_default (from_mem 0xa0000)) 10 2 (MkPixel 255 0 0)) as (k & c & err & Hk & E & _);
    [reflexivity|lia|lia|unfold byte_pixel, in_u; simpl; lia|].
  exists k, c, err. split; [exact E|exact Hk].
Defined.
