(* ===== verification/PackedStruct.v ===== *)
(** The interface of the packed_struct crate, which derives the conversions
    between the kernel's records and byte arrays from the attributes written on
    them.  The crate is not part of the repository: its functions are the
    operations of the class [PackedStruct], and what its documentation promises
    of them is the class [PackedStructOk].  The development is proved against
    the two classes; [reference_packed_struct] shows that they can be met. *)
From S2P Require Import Prelude MachineInt.
#[local] Open Scope Z_scope.

(** A field of a [bit_numbering = "lsb0"] record: [bits = "lo..=hi"]. *)
Record bit_field := BitField { bf_lo : Z; bf_hi : Z }.
Notation "lo '..=' hi" := (BitField lo hi) (at level 50).

Definition bf_width (f : bit_field) : Z := bf_hi f - bf_lo f + 1.

(** [EnumCatchAll<E>]: a constructor of the enum, or the number read when no
    constructor has it. *)
Inductive EnumCatchAll (A : Type) := EnumVal (a : A) | CatchAll (v : Z).
Arguments EnumVal {A} a.
Arguments CatchAll {A} v.
#[export] Instance EnumCatchAll_eq_dec `{EqDecision A} : EqDecision (EnumCatchAll A).
Proof. solve_decision. Defined.

(** The byte order of a record whose fields are whole bytes. *)
Inductive byte_order := Lsb | Msb.

Class PackedStruct := {
  (** [E::from_primitive]: the constructor with the given discriminant. *)
  from_primitive {A : Type} (discriminants : list (A * Z)) (v : Z) : option A;
  (** A field of type [EnumCatchAll<E>]. *)
  from_catch_all {A : Type} (discriminants : list (A * Z)) (v : Z) : EnumCatchAll A;
  (** [R::unpack] and [R::pack] of a record of [size] bytes with
      [bit_numbering = "lsb0", endian = "msb"]; enum fields are carried as
      their discriminants. *)
  unpack_bits (size : nat) (fields : list bit_field) (bytes : list Z) : option (list Z);
  pack_bits (size : nat) (fields : list bit_field) (values : list Z) : option (list Z);
  (** [R::unpack] and [R::pack] of a record whose fields are integers of
      [sizes] bytes, laid out one after the other. *)
  unpack_bytes (order : byte_order) (sizes : list nat) (bytes : list Z) : option (list Z);
  pack_bytes (order : byte_order) (sizes : list nat) (values : list Z) : option (list Z);
  (** [uN::from_msb_bytes]. *)
  from_msb_bytes (bytes : list Z) : Z;
}.

(** The bits of a word that a list of fields occupies, each value cut to its
    field. *)
Fixpoint assemble (fields : list bit_field) (values : list Z) : Z :=
  match fields, values with
  | f :: fs, v :: vs => Z.lor (Z.shiftl (wrap (bf_width f) v) (bf_lo f)) (assemble fs vs)
  | _, _ => 0
  end.

Definition extract (w : Z) (f : bit_field) : Z := bits w (bf_lo f) (bf_width f).

(** Fields of a record of [size] bytes, listed from the lowest bit up. *)
Fixpoint fields_from (lo : Z) (fields : list bit_field) : Prop :=
  match fields with
  | [] => True
  | f :: fs => lo <= bf_lo f /\ bf_lo f <= bf_hi f /\ fields_from (bf_hi f + 1) fs
  end.
Definition fields_ok (size : nat) (fields : list bit_field) : Prop :=
  fields_from 0 fields /\ Forall (fun f => bf_hi f < 8 * Z.of_nat size) fields.

(** The side condition that fields lie inside their record. *)
Ltac solve_fields_ok := split; [simpl; lia|repeat constructor; simpl; lia].

Definition order_from (o : byte_order) : list Z -> Z :=
  match o with Lsb => from_le_bytes | Msb => from_be_bytes end.
Definition order_to (o : byte_order) : nat -> Z -> list Z :=
  match o with Lsb => to_le_bytes | Msb => to_be_bytes end.

Fixpoint split_fields (o : byte_order) (sizes : list nat) (bytes : list Z) : list Z :=
  match sizes with
  | [] => []
  | n :: ns => order_from o (take n bytes) :: split_fields o ns (drop n bytes)
  end.
Fixpoint join_fields (o : byte_order) (sizes : list nat) (values : list Z) : list Z :=
  match sizes, values with
  | n :: ns, v :: vs => order_to o n v ++ join_fields o ns vs
  | _, _ => []
  end.

Class PackedStructOk (PS : PackedStruct) : Prop := {
  from_primitive_spec {A : Type} (tbl : list (A * Z)) v a :
    NoDup tbl.*2 -> from_primitive tbl v = Some a <-> (a, v) ∈ tbl;
  from_catch_all_spec {A : Type} (tbl : list (A * Z)) v :
    NoDup tbl.*2 ->
    from_catch_all tbl v = match from_primitive tbl v with Some a => EnumVal a | None => CatchAll v end;
  unpack_bits_spec size fields bytes :
    fields_ok size fields -> length bytes = size -> Forall is_byte bytes ->
    unpack_bits size fields bytes = Some (extract (from_be_bytes bytes) <$> fields);
  pack_bits_spec size fields values :
    fields_ok size fields -> length fields = length values ->
    pack_bits size fields values = Some (to_be_bytes size (assemble fields values));
  unpack_bytes_spec o sizes bytes :
    length bytes = sum_list sizes -> Forall is_byte bytes ->
    unpack_bytes o sizes bytes = Some (split_fields o sizes bytes);
  pack_bytes_spec o sizes values :
    length sizes = length values ->
    pack_bytes o sizes values = Some (join_fields o sizes values);
  from_msb_bytes_spec bytes : Forall is_byte bytes -> from_msb_bytes bytes = from_be_bytes bytes;
}.

(** * Fields of an assembled word *)

Lemma assemble_low lo fields values i :
  0 <= lo -> fields_from lo fields -> 0 <= i < lo -> Z.testbit (assemble fields values) i = false.
Proof.
  revert lo values. induction fields as [|f fs IH]; intros lo [|v vs] Hlo Hf Hi;
    simpl in *; try apply Z.bits_0.
  destruct Hf as (H1 & H2 & H3).
  rewrite Z.lor_spec, (IH (bf_hi f + 1)), Z.shiftl_spec, Z.testbit_neg_r by (done || lia). done.
Qed.

Lemma shifted_field_high f v i :
  0 <= bf_lo f <= bf_hi f -> bf_hi f < i ->
  Z.testbit (Z.shiftl (wrap (bf_width f) v) (bf_lo f)) i = false.
Proof.
  intros. unfold bf_width. autorewrite with testbit.
  destruct (Z.ltb_spec (i - bf_lo f) (bf_hi f - bf_lo f + 1)); [lia|done].
Qed.

Lemma fields_from_weaken lo lo' fields : lo' <= lo -> fields_from lo fields -> fields_from lo' fields.
Proof. destruct fields; simpl; [done|]. intros ? (? & ? & ?). split_and!; (done || lia). Qed.

Lemma fields_from_Forall lo fields :
  fields_from lo fields -> Forall (fun f => lo <= bf_lo f <= bf_hi f) fields.
Proof.
  revert lo. induction fields as [|f fs IH]; intros lo H; constructor; simpl in H.
  - lia.
  - eapply IH, fields_from_weaken; [|apply H]. lia.
Qed.

Lemma extract_lor_r f x y :
  0 <= bf_lo f <= bf_hi f -> (forall i, bf_lo f <= i <= bf_hi f -> Z.testbit x i = false) ->
  extract (Z.lor x y) f = extract y f.
Proof.
  intros Hf Hx. apply Z.bits_inj'. intros i Hi. unfold extract, bf_width. autorewrite with testbit.
  destruct (Z.ltb_spec i (bf_hi f - bf_lo f + 1)); [|by rewrite !andb_false_r].
  by rewrite Hx by lia.
Qed.

Lemma extract_assemble lo fields values :
  0 <= lo -> fields_from lo fields -> length fields = length values ->
  extract (assemble fields values) <$> fields =
  zip_with (fun f v => wrap (bf_width f) v) fields values.
Proof.
  revert lo values. induction fields as [|f fs IH]; intros lo [|v vs] Hlo Hf Hlen; try done.
  destruct Hf as (H1 & H2 & H3). injection Hlen as Hlen. cbn [assemble fmap list_fmap zip_with]. f_equal.
  - rewrite Z.lor_comm, extract_lor_r; [|lia|].
    + unfold extract, bf_width. apply Z.bits_inj'. intros i Hi. autorewrite with testbit.
      rewrite Z.add_simpl_r. by destruct (i <? _); rewrite ?andb_true_r, ?andb_false_r.
    + intros i Hi. apply (assemble_low (bf_hi f + 1)); (done || lia).
  - rewrite <- (IH (bf_hi f + 1) vs) by (done || lia).
    apply list_fmap_ext. intros k g Hg.
    pose proof (Forall_lookup_1 _ _ _ _ (fields_from_Forall _ _ H3) Hg) as Hg'. simpl in Hg'.
    apply extract_lor_r; [lia|]. intros i Hi. apply shifted_field_high; lia.
Qed.

Lemma assemble_range n lo fields values :
  0 <= lo -> 0 <= n -> fields_from lo fields -> Forall (fun f => bf_hi f < n) fields ->
  in_u n (assemble fields values).
Proof.
  revert lo values. induction fields as [|f fs IH]; intros lo [|v vs] Hlo Hn Hf HF; simpl;
    try (split; [lia|by apply pow2_pos]).
  destruct Hf as (H1 & H2 & H3). inversion HF as [|? ? Hfn HF']; subst.
  apply in_u_lor; [done| |apply (IH (bf_hi f + 1)); (done || lia)].
  apply in_u_testbit; [done|apply Z.shiftl_nonneg, Z.mod_pos_bound, pow2_pos; unfold bf_width; lia|].
  intros i Hi. apply shifted_field_high; lia.
Qed.

(** Packing and unpacking a record of bit fields gives the values back, each cut
    to the width of its field. *)
Lemma unpack_pack_bits {PS : PackedStruct} {PSok : PackedStructOk PS} size fields values :
  fields_ok size fields -> length fields = length values ->
  exists bytes, pack_bits size fields values = Some bytes /\
    from_msb_bytes bytes = assemble fields values /\
    unpack_bits size fields bytes = Some (zip_with (fun f v => wrap (bf_width f) v) fields values).
Proof.
  intros Hok Hlen. exists (to_be_bytes size (assemble fields values)).
  assert (from_be_bytes (to_be_bytes size (assemble fields values)) = assemble fields values) as Hb.
  { rewrite from_to_be_bytes. apply wrap_small. destruct Hok. apply (assemble_range _ 0); (done || lia). }
  split_and!.
  - by apply pack_bits_spec.
  - rewrite from_msb_bytes_spec by apply to_be_bytes_is_byte. done.
  - rewrite unpack_bits_spec by (done || apply to_be_bytes_is_byte || by rewrite length_to_be_bytes).
    rewrite Hb. f_equal. destruct Hok. by apply (extract_assemble 0).
Qed.

Lemma unpack_bits_word {PS : PackedStruct} {PSok : PackedStructOk PS} size fields w :
  fields_ok size fields -> in_u (8 * Z.of_nat size) w ->
  unpack_bits size fields (to_be_bytes size w) = Some (extract w <$> fields).
Proof.
  intros Hok Hw.
  rewrite unpack_bits_spec by (done || apply to_be_bytes_is_byte || by rewrite length_to_be_bytes).
  by rewrite from_to_be_bytes, wrap_small.
Qed.

(** * Records of whole bytes *)

(** Values that fit integers of the given sizes. *)
Definition values_ok (sizes : list nat) (values : list Z) : Prop :=
  Forall2 (fun n v => in_u (8 * Z.of_nat n) v) sizes values.

Lemma order_to_length o n v : length (order_to o n v) = n.
Proof. destruct o; [apply length_to_le_bytes|apply length_to_be_bytes]. Qed.

Lemma order_from_to o n v : in_u (8 * Z.of_nat n) v -> order_from o (order_to o n v) = v.
Proof. intros H. destruct o; simpl; rewrite ?from_to_le_bytes, ?from_to_be_bytes; by apply wrap_small. Qed.

Lemma order_to_is_byte o n v : Forall is_byte (order_to o n v).
Proof. destruct o; [apply to_le_bytes_is_byte|apply to_be_bytes_is_byte]. Qed.

Lemma order_to_from o bs : Forall is_byte bs -> order_to o (length bs) (order_from o bs) = bs.
Proof.
  intros H. destruct o; simpl; [by apply to_from_le_bytes|].
  unfold to_be_bytes, from_be_bytes. rewrite <- length_reverse, to_from_le_bytes by by apply Forall_reverse.
  apply reverse_involutive.
Qed.

Lemma order_from_range o bs : Forall is_byte bs -> in_u (8 * Z.of_nat (length bs)) (order_from o bs).
Proof.
  intros H. destruct o; simpl; [by apply from_le_bytes_range|]. unfold from_be_bytes.
  rewrite <- length_reverse. by apply from_le_bytes_range, Forall_reverse.
Qed.

Lemma join_fields_length o sizes values :
  length sizes = length values -> length (join_fields o sizes values) = sum_list sizes.
Proof.
  revert values. induction sizes as [|n ns IH]; intros [|v vs] H; try done. simpl in *.
  rewrite length_app, order_to_length, IH by lia. done.
Qed.

Lemma join_fields_is_byte o sizes values : Forall is_byte (join_fields o sizes values).
Proof.
  revert values. induction sizes as [|n ns IH]; intros [|v vs]; try done. simpl.
  apply Forall_app. split; [apply order_to_is_byte|apply IH].
Qed.

Lemma split_join o sizes values :
  values_ok sizes values -> split_fields o sizes (join_fields o sizes values) = values.
Proof.
  intros H. induction H as [|n v ns vs Hv _ IH]; [done|]. simpl.
  rewrite take_app_length', drop_app_length' by (by rewrite order_to_length).
  by rewrite order_from_to, IH.
Qed.

Lemma join_split o sizes bytes :
  length bytes = sum_list sizes -> Forall is_byte bytes ->
  join_fields o sizes (split_fields o sizes bytes) = bytes /\ values_ok sizes (split_fields o sizes bytes).
Proof.
  revert bytes. induction sizes as [|n ns IH]; intros bytes Hl Hb; simpl in *.
  { destruct bytes; [by split; [|constructor]|done]. }
  destruct (IH (drop n bytes)) as [IH1 IH2]; [rewrite length_drop; lia|by apply Forall_drop|].
  assert (length (take n bytes) = n) as Hn by (rewrite length_take; lia).
  assert (Forall is_byte (take n bytes)) as Ht by by apply Forall_take.
  split.
  - rewrite IH1. rewrite <- Hn at 1. rewrite order_to_from by done. apply take_drop.
  - constructor; [|done]. rewrite <- Hn at 1. by apply order_from_range.
Qed.

(** What is unpacked is what was packed. *)
Lemma unpack_join {PS : PackedStruct} {PSok : PackedStructOk PS} o sizes values :
  values_ok sizes values -> unpack_bytes o sizes (join_fields o sizes values) = Some values.
Proof.
  intros H. rewrite unpack_bytes_spec.
  - by rewrite split_join.
  - eapply join_fields_length, list.Forall2_length, H.
  - apply join_fields_is_byte.
Qed.

Lemma unpack_bytes_inv {PS : PackedStruct} {PSok : PackedStructOk PS} o sizes bytes values :
  length bytes = sum_list sizes -> Forall is_byte bytes ->
  unpack_bytes o sizes bytes = Some values ->
  bytes = join_fields o sizes values /\ values_ok sizes values.
Proof.
  intros Hl Hb. rewrite unpack_bytes_spec by done. intros [= <-].
  destruct (join_split o sizes bytes Hl Hb). done.
Qed.

(** * An implementation of the interface *)

#[export] Instance reference_packed_struct : PackedStruct := {|
  from_primitive := fun A tbl v =>
    (fun q => q.2.1) <$> list_find (fun p : A * Z => p.2 = v) tbl;
  from_catch_all := fun A tbl v =>
    match list_find (fun p : A * Z => p.2 = v) tbl with Some q => EnumVal q.2.1 | None => CatchAll v end;
  unpack_bits := fun size fields bytes => Some (extract (from_be_bytes bytes) <$> fields);
  pack_bits := fun size fields values => Some (to_be_bytes size (assemble fields values));
  unpack_bytes := fun o sizes bytes => Some (split_fields o sizes bytes);
  pack_bytes := fun o sizes values => Some (join_fields o sizes values);
  from_msb_bytes := from_be_bytes;
|}.

#[export] Instance reference_packed_struct_ok : PackedStructOk reference_packed_struct.
Proof.
  split; try done.
  2:{ intros A tbl v _. simpl. by destruct (list_find _ tbl). }
  intros A tbl v a Hnd. simpl. rewrite fmap_Some. split.
  - intros ([i [a' v']] & (Hl & Hv & _)%list_find_Some & ->). simpl in *. subst.
    by eapply list_elem_of_lookup_2.
  - intros (i & Hi)%list_elem_of_lookup. exists (i, (a, v)). split; [|done].
    apply list_find_Some. split_and!; [done|done|]. intros j [a' v'] Hj Hlt Hv'. simpl in *. subst.
    assert (j = i); [|lia].
    eapply NoDup_lookup; [done| |]; rewrite list_lookup_fmap, ?Hj, ?Hi; done.
Qed.
