(* ===== verification/Uart.v ===== *)
(** The serial port: the driver of kernel/src/uart_16550.rs, through which the kernel
    writes its log, and the chip behind its ports.  The chip is not part of the
    repository; [UartChip] follows its documentation for the registers the driver uses
    and the class [UartOk] ties the ports of a machine to it. *)
From S2P Require Import Prelude MachineInt Str PackedStruct KernPointer.
From stdpp Require Import list.
#[local] Open Scope Z_scope.

Record UARTDevice := MkUart {
  uart_data : KernPointer;
  int_en : KernPointer;
  fifo_ctrl : KernPointer;
  line_ctrl : KernPointer;
  modem_ctrl : KernPointer;
  line_status : KernPointer;
}.

Record LineStatusFlags := MkLineStatus {
  input_full : bool;
  overrun_error : bool;
  parity_error : bool;
  framing_error : bool;
  brk_signal : bool;
  output_empty : bool;
  output_empty_and_line_idle : bool;
  bad_data : bool;
}.
Record LineControlRegister := MkLineControl {
  no_of_data_bits : Z;
  has_stop_bit : bool;
  has_parity : bool;
  parity_type : bool;
  brk_signal_disabled : bool;
  divisor_latch_access_bit : bool;
}.
Record InterruptEnableRegister := MkIntEnable {
  data_available_interrupt : bool;
  transmitter_holding_register_empty_interrupt : bool;
  line_status_register_change_interrupt : bool;
  modem_status_register_change_interrupt : bool;
}.
Record ModemControlRegister := MkModemControl {
  uart_ready : bool;
  request_to_send : bool;
  aux_output1 : bool;
  aux_output2 : bool;
  loopback_mode : bool;
}.
Record FIFOControlRegister := MkFifoControl {
  fifo_enable : bool;
  clear_recive_fifo : bool;
  clear_transmit_fifo : bool;
  dma_mode : bool;
  fifo_size : Z;
}.
Definition all_disabled : InterruptEnableRegister := MkIntEnable false false false false.

Definition uart_new (base : KernPointer) : UARTDevice :=
  MkUart base (kp_offset 1 base 1) (kp_offset 1 base 2) (kp_offset 1 base 3) (kp_offset 1 base 4) (kp_offset 1 base 5).
Definition uart_x86_default : UARTDevice := uart_new (from_port 0x3f8).

Section Driver.
Context {B : Type} {IO : IoSpace B} {PS : PackedStruct}.
Implicit Types (b : B) (u : UARTDevice).

(** How the packed_struct crate reads the ranges "0..1", "4..5" and "7..6", which are
    written without the "=" of its inclusive ranges. *)
Context (range_0_1 range_4_5 range_7_6 : bit_field).

Definition packed (fields : list bit_field) (values : list Z) : outcome Z :=
  let! bytes := unwrap (pack_bits 1 fields values) in unwrap (bytes !! 0%nat).
Definition pack_line_control (r : LineControlRegister) : outcome Z :=
  packed [range_0_1; 2..=2; 3..=3; range_4_5; 6..=6; 7..=7]
    [no_of_data_bits r; Z.b2z (has_stop_bit r); Z.b2z (has_parity r); Z.b2z (parity_type r); Z.b2z (brk_signal_disabled r);
     Z.b2z (divisor_latch_access_bit r)].
Definition pack_int_enable (r : InterruptEnableRegister) : outcome Z :=
  packed [0..=0; 1..=1; 2..=2; 3..=3]
    [Z.b2z (data_available_interrupt r); Z.b2z (transmitter_holding_register_empty_interrupt r);
     Z.b2z (line_status_register_change_interrupt r); Z.b2z (modem_status_register_change_interrupt r)].
Definition pack_modem_control (r : ModemControlRegister) : outcome Z :=
  packed [0..=0; 1..=1; 2..=2; 3..=3; 4..=4]
    [Z.b2z (uart_ready r); Z.b2z (request_to_send r); Z.b2z (aux_output1 r); Z.b2z (aux_output2 r); Z.b2z (loopback_mode r)].
Definition pack_fifo_control (r : FIFOControlRegister) : outcome Z :=
  packed [0..=0; 1..=1; 2..=2; 3..=3; range_7_6]
    [Z.b2z (fifo_enable r); Z.b2z (clear_recive_fifo r); Z.b2z (clear_transmit_fifo r); Z.b2z (dma_mode r); fifo_size r].

Definition uart_init b u : outcome B :=
  let b := kp_write b (int_en u) 0x00 in
  let! dlab := pack_line_control (MkLineControl 0 false false false false true) in
  let b := kp_write b (line_ctrl u) dlab in
  let b := kp_write b (uart_data u) 0xff in
  let! disabled := pack_int_enable all_disabled in
  let b := kp_write b (int_en u) disabled in
  let! eight_bits := pack_line_control (MkLineControl 3 false false false false false) in
  let b := kp_write b (line_ctrl u) eight_bits in
  let! fifo := pack_fifo_control (MkFifoControl true true true false 3) in
  let b := kp_write b (fifo_ctrl u) fifo in
  let! modem := pack_modem_control (MkModemControl true true false true false) in
  Ret (kp_write b (modem_ctrl u) modem).

Definition line_status_fields : list bit_field := [0..=0; 1..=1; 2..=2; 3..=3; 4..=4; 5..=5; 6..=6; 7..=7].
Definition unpack_line_status (byte : Z) : option LineStatusFlags :=
  match unpack_bits 1 line_status_fields [byte] with
  | Some [b0; b1; b2; b3; b4; b5; b6; b7] =>
      Some (MkLineStatus (b0 =? 1) (b1 =? 1) (b2 =? 1) (b3 =? 1) (b4 =? 1) (b5 =? 1) (b6 =? 1) (b7 =? 1))
  | _ => None
  end.
Definition line_sts b u : outcome (B * LineStatusFlags) :=
  let (b, v) := kp_read b (line_status u) in
  let! s := unwrap (unpack_line_status v) in Ret (b, s).

(** How often the status is read at most before the wait counts as endless. *)
Context (polls : nat).
Fixpoint wait_line (n : nat) (cond : LineStatusFlags -> bool) b u : outcome B :=
  match n with
  | O => Panic
  | S n => let! (b, s) := line_sts b u in if cond s then Ret b else wait_line n cond b u
  end.

Definition send b u (data : Z) : outcome B :=
  let! b := wait_line polls output_empty b u in
  Ret (kp_write b (uart_data u) data).
Definition receive b u : outcome (B * Z) :=
  let! b := wait_line polls input_full b u in
  Ret (kp_read b (uart_data u)).

(** A character is cut to a byte; the carriage return follows the line feed. *)
Definition send_char b u (c : Z) : outcome B :=
  let! b := send b u (wrap 8 c) in
  if c =? 10 then send b u 13 else Ret b.
Fixpoint uart_write_str b u (s : str) : outcome B :=
  match s with
  | [] => Ret b
  | c :: s => let! b := send_char b u c in uart_write_str b u s
  end.
End Driver.

(** * The chip *)

Record UartChip := MkChip {
  uc_int_en : Z;
  uc_line_ctrl : Z;
  uc_divisor : Z * Z;             (* low and high byte *)
  uc_fifo : Z;
  uc_modem : Z;
  uc_busy : nat;                  (* status reads until the transmitter is empty *)
  uc_delay : nat;                 (* how long it takes to send a byte *)
  uc_sent : list Z;
  uc_received : list Z;           (* waiting to be read *)
}.
Definition uc_latch (c : UartChip) : bool := Z.testbit (uc_line_ctrl c) 7.

(** The data port is the divisor while bit 7 of the line control register is set; a
    byte written while another one is being sent is lost. *)
Definition chip_write (c : UartChip) (reg v : Z) : UartChip :=
  if reg =? 0 then
    if uc_latch c then MkChip (uc_int_en c) (uc_line_ctrl c) (v, (uc_divisor c).2) (uc_fifo c) (uc_modem c) (uc_busy c) (uc_delay c) (uc_sent c) (uc_received c)
    else if (uc_busy c =? 0)%nat
    then MkChip (uc_int_en c) (uc_line_ctrl c) (uc_divisor c) (uc_fifo c) (uc_modem c) (uc_delay c) (uc_delay c) (uc_sent c ++ [v]) (uc_received c)
    else c
  else if reg =? 1 then
    if uc_latch c then MkChip (uc_int_en c) (uc_line_ctrl c) ((uc_divisor c).1, v) (uc_fifo c) (uc_modem c) (uc_busy c) (uc_delay c) (uc_sent c) (uc_received c)
    else MkChip v (uc_line_ctrl c) (uc_divisor c) (uc_fifo c) (uc_modem c) (uc_busy c) (uc_delay c) (uc_sent c) (uc_received c)
  else if reg =? 2 then MkChip (uc_int_en c) (uc_line_ctrl c) (uc_divisor c) v (uc_modem c) (uc_busy c) (uc_delay c) (uc_sent c) (uc_received c)
  else if reg =? 3 then MkChip (uc_int_en c) v (uc_divisor c) (uc_fifo c) (uc_modem c) (uc_busy c) (uc_delay c) (uc_sent c) (uc_received c)
  else if reg =? 4 then MkChip (uc_int_en c) (uc_line_ctrl c) (uc_divisor c) (uc_fifo c) v (uc_busy c) (uc_delay c) (uc_sent c) (uc_received c)
  else c.

Definition with_busy (c : UartChip) (n : nat) : UartChip :=
  MkChip (uc_int_en c) (uc_line_ctrl c) (uc_divisor c) (uc_fifo c) (uc_modem c) n (uc_delay c) (uc_sent c) (uc_received c).
Definition with_received (c : UartChip) (l : list Z) : UartChip :=
  MkChip (uc_int_en c) (uc_line_ctrl c) (uc_divisor c) (uc_fifo c) (uc_modem c) (uc_busy c) (uc_delay c) (uc_sent c) l.
Definition chip_status (c : UartChip) : Z :=
  Z.b2z (negb (length (uc_received c) =? 0)%nat) + (if (uc_busy c =? 0)%nat then 0x60 else 0).
Definition chip_read (c : UartChip) (reg : Z) : UartChip * Z :=
  if reg =? 5 then (with_busy c (pred (uc_busy c)), chip_status c)
  else if (reg =? 0) && negb (uc_latch c) then (with_received c (tail (uc_received c)), default 0 (head (uc_received c)))
  else (c, 0).

Class UartOk (B : Type) {IO : IoSpace B} := {
  chip : B -> UartChip;
  chip_out : forall b reg v, 0 <= reg <= 7 -> chip (port_outb b (0x3f8 + reg) v) = chip_write (chip b) reg v;
  chip_in : forall b reg, 0 <= reg <= 7 ->
    chip (port_inb b (0x3f8 + reg)).1 = (chip_read (chip b) reg).1 /\ (port_inb b (0x3f8 + reg)).2 = (chip_read (chip b) reg).2;
}.

(** A machine with nothing but the chip. *)
#[export] Instance uart_machine_io : IoSpace UartChip := {|
  port_inb c port := chip_read c (port - 0x3f8);
  port_outb c port v := chip_write c (port - 0x3f8) v;
  port_inh c _ := (c, 0xFFFF);
  port_outh c _ _ := c;
  load_u8 c _ := (c, 0);
  store_u8 c _ _ := c;
  load_u16 c _ := (c, 0);
  store_u16 c _ _ := c;
|}.
#[export] Instance uart_machine_ok : UartOk UartChip.
Proof.
  refine {| chip := id |}; intros; unfold port_outb, port_inb, uart_machine_io; replace (0x3f8 + reg - 0x3f8) with reg by lia; done.
Defined.

(** The effect of the innermost write. *)
Ltac chip_step :=
  match goal with
  | |- context [chip_write (MkChip ?a ?b ?c ?d ?e ?f ?g ?h ?i) ?r ?v] =>
      let x := eval cbn -[Z.testbit] in (chip_write (MkChip a b c d e f g h i) r v) in
      change (chip_write (MkChip a b c d e f g h i) r v) with x
  end.

(** * What the driver does *)

Section Spec.
Context {B : Type} {IO : IoSpace B} {UO : UartOk B} {PS : PackedStruct} {PSok : PackedStructOk PS}.
Implicit Types b : B.
Let u := uart_x86_default.

Lemma uart_port reg b v : 0 <= reg <= 7 -> kp_write b (kp_offset 1 (from_port 0x3f8) reg) v = port_outb b (0x3f8 + reg) v /\
  kp_read b (kp_offset 1 (from_port 0x3f8) reg) = port_inb b (0x3f8 + reg).
Proof.
  intros Hr. unfold kp_write, kp_read, kp_offset, from_port. cbn [kp_inner kp_is_port].
  rewrite (wrap_small 64) by (unfold in_u; lia). rewrite wrap_small by (unfold in_u; lia). by rewrite Z.mul_1_l.
Qed.

Lemma reg_write reg b v : 0 <= reg <= 7 -> chip (kp_write b (kp_offset 1 (from_port 0x3f8) reg) v) = chip_write (chip b) reg v.
Proof. intros Hr. rewrite (proj1 (uart_port reg b v Hr)). by apply chip_out. Qed.

Lemma line_status_bits v : in_u 8 v ->
  exists s, unpack_line_status v = Some s /\ output_empty s = Z.testbit v 5 /\ input_full s = Z.testbit v 0.
Proof.
  intros Hv. unfold unpack_line_status. rewrite unpack_bits_spec by (done || (by apply Forall_singleton) || solve_fields_ok).
  cbn [fmap list_fmap line_status_fields]. eexists. split; [reflexivity|]. cbn [output_empty input_full].
  assert (forall i, 0 <= i -> (extract (from_be_bytes [v]) (i..=i) =? 1) = Z.testbit v i) as Hb; [|split; apply Hb; lia].
  intros i Hi. unfold extract, bf_width, bits. cbn [bf_lo bf_hi]. replace (i - i + 1) with 1 by lia.
  rewrite Z.land_ones by lia. change (2 ^ 1) with 2. rewrite <- Z.bit0_mod, Z.shiftr_spec by lia.
  replace (from_be_bytes [v]) with v by (unfold from_be_bytes; simpl; lia). rewrite Z.add_0_l. by destruct (Z.testbit v i).
Qed.

Lemma chip_status_bits c : in_u 8 (chip_status c) /\ Z.testbit (chip_status c) 5 = (uc_busy c =? 0)%nat /\
  Z.testbit (chip_status c) 0 = negb (length (uc_received c) =? 0)%nat.
Proof. unfold chip_status. destruct (uc_busy c =? 0)%nat, (length (uc_received c) =? 0)%nat; (split; [unfold in_u; simpl; lia|done]). Qed.

(** One look at the status. *)
Lemma line_sts_effect b : exists b' s, line_sts b u = Ret (b', s) /\ chip b' = with_busy (chip b) (pred (uc_busy (chip b))) /\
  output_empty s = (uc_busy (chip b) =? 0)%nat /\ input_full s = negb (length (uc_received (chip b)) =? 0)%nat.
Proof.
  unfold line_sts. change (line_status u) with (kp_offset 1 (from_port 0x3f8) 5). rewrite (proj2 (uart_port 5 b 0 ltac:(lia))).
  destruct (chip_in b 5) as [E1 E2]; [lia|]. destruct (port_inb b (0x3f8 + 5)) as [b' v]. cbn [fst snd] in *. change (chip_read _ 5) with (with_busy (chip b) (pred (uc_busy (chip b))), chip_status (chip b)) in *.
  cbn [fst snd] in *. subst v. destruct (chip_status_bits (chip b)) as (Hv & H5 & H0). destruct (line_status_bits _ Hv) as (s & -> & Es5 & Es0).
  cbn [unwrap obind]. exists b', s. by rewrite Es5, Es0, H5, H0.
Qed.

(** Waiting for the transmitter ends after as many looks as it is busy. *)
Lemma wait_empty n : forall b, (uc_busy (chip b) < n)%nat ->
  exists b', wait_line n output_empty b u = Ret b' /\ chip b' = with_busy (chip b) 0.
Proof.
  induction n as [|n IH]; intros b Hn; [lia|]. cbn [wait_line]. destruct (line_sts_effect b) as (b1 & s & -> & E & Es & _). cbn [obind].
  rewrite Es. destruct (Nat.eqb_spec (uc_busy (chip b)) 0) as [E0|Hne].
  - exists b1. rewrite E, E0. done.
  - destruct (IH b1) as (b' & E' & Ec); [rewrite E; simpl; lia|]. exists b'. split; [done|]. rewrite Ec, E. done.
Qed.

(** The chip is set up and answers in time. *)
Definition line_ready (polls : nat) (c : UartChip) : Prop := uc_latch c = false /\ (uc_busy c < polls)%nat /\ (uc_delay c < polls)%nat.

Lemma send_effect polls b v : line_ready polls (chip b) ->
  exists b', send polls b u v = Ret b' /\ line_ready polls (chip b') /\ uc_sent (chip b') = uc_sent (chip b) ++ [v].
Proof.
  intros (Hl & Hb & Hd). unfold send. destruct (wait_empty polls b Hb) as (b1 & -> & E1). cbn [obind]. eexists. split; [reflexivity|].
  change (uart_data u) with (from_port 0x3f8). unfold kp_write, from_port. cbn [kp_is_port kp_inner]. change (wrap 16 0x3f8) with (0x3f8 + 0).
  rewrite chip_out by lia. unfold chip_write. rewrite E1. change (uc_latch (with_busy (chip b) 0)) with (uc_latch (chip b)). rewrite Hl.
  cbn. unfold line_ready. cbn. done.
Qed.

(** What goes over the line for a text. *)
Definition on_the_line (s : str) : list Z := s ≫= (fun c => wrap 8 c :: if c =? 10 then [13] else []).

Lemma uart_sends polls b s : line_ready polls (chip b) ->
  exists b', uart_write_str polls b u s = Ret b' /\ line_ready polls (chip b') /\ uc_sent (chip b') = uc_sent (chip b) ++ on_the_line s.
Proof.
  revert b. induction s as [|c s IH]; intros b Hr; [exists b; by rewrite app_nil_r|]. cbn [uart_write_str on_the_line mbind list_bind].
  destruct (send_effect polls b (wrap 8 c) Hr) as (b1 & E1 & Hr1 & S1). unfold send_char. rewrite E1. cbn [obind].
  destruct (c =? 10).
  - destruct (send_effect polls b1 13 Hr1) as (b2 & -> & Hr2 & S2). cbn [obind]. destruct (IH b2 Hr2) as (b3 & E3 & Hr3 & S3).
    exists b3. rewrite E3, S3, S2, S1. rewrite <- !app_assoc. done.
  - cbn [obind]. destruct (IH b1 Hr1) as (b3 & E3 & Hr3 & S3). exists b3. rewrite E3, S3, S1. rewrite <- !app_assoc. done.
Qed.

(** C39: writing a text to the serial port sends, in order, one byte for every character
    and a carriage return after every line feed; no byte is written while the chip is
    still busy with another one, so none is lost. *)
Theorem uart_write_str_sends polls b s : line_ready polls (chip b) ->
  exists b', uart_write_str polls b u s = Ret b' /\ line_ready polls (chip b') /\ uc_sent (chip b') = uc_sent (chip b) ++ on_the_line s.
Proof. apply uart_sends. Qed.

(** A byte that has arrived is read at once. *)
Theorem receive_takes_first polls b v rest : line_ready polls (chip b) -> uc_received (chip b) = v :: rest ->
  exists b', receive polls b u = Ret (b', v) /\ uc_received (chip b') = rest /\ uc_sent (chip b') = uc_sent (chip b).
Proof.
  intros (Hl & Hb & _) Hv. unfold receive. destruct polls as [|n]; [lia|]. cbn [wait_line].
  destruct (line_sts_effect b) as (b1 & s & -> & E & _ & Es). cbn [obind]. rewrite Es, Hv. cbn [length Nat.eqb negb obind].
  change (uart_data u) with (from_port 0x3f8). unfold kp_read, from_port. cbn [kp_is_port kp_inner]. change (wrap 16 0x3f8) with (0x3f8 + 0).
  destruct (chip_in b1 0) as [E1 E2]; [lia|]. destruct (port_inb b1 (0x3f8 + 0)) as [b2 x]. cbn [fst snd] in *.
  unfold chip_read in *. rewrite E in *. change (uc_latch (with_busy (chip b) ?n)) with (uc_latch (chip b)) in *. rewrite Hl in *. cbn in E1, E2.
  exists b2. rewrite E1, E2, Hv. done.
Qed.

(** The byte of a register. *)
Lemma packed_byte fields values : fields_ok 1 fields -> length fields = length values ->
  packed fields values = Ret (wrap 8 (assemble fields values)).
Proof. intros Hf Hl. unfold packed. by rewrite pack_bits_spec. Qed.

(** Setting up the chip, whichever way the crate reads the open ranges: interrupts off, eight
    bits without parity or more, the queues on, and a divisor of 255, which is a rate of 451
    baud and not the 38400 the comment names. *)
Theorem uart_init_sets_up b r01 r45 r76 :
  r01 = (0..=0) \/ r01 = (0..=1) -> r45 = (4..=4) \/ r45 = (4..=5) -> 4 <= bf_lo r76 /\ bf_lo r76 <= bf_hi r76 <= 7 ->
  exists b', uart_init r01 r45 r76 b u = Ret b' /\ uc_latch (chip b') = false /\ uc_divisor (chip b') = (255, 0) /\
    uc_int_en (chip b') = (if uc_latch (chip b) then uc_int_en (chip b) else 0) /\ uc_modem (chip b') = 11 /\
    uc_sent (chip b') = uc_sent (chip b) /\ uc_busy (chip b') = uc_busy (chip b) /\ uc_delay (chip b') = uc_delay (chip b) /\
    115200 / (255 + 256 * 0) = 451.
Proof.
  intros H01 H45 H76. unfold uart_init.
  assert (forall d (l : bool), pack_line_control r01 r45 (MkLineControl d false false false false l) =
    Ret (wrap 8 (assemble [r01; 2..=2; 3..=3; r45; 6..=6; 7..=7] [d; 0; 0; 0; 0; Z.b2z l]))) as Elc.
  { intros d l. unfold pack_line_control. rewrite packed_byte; [done| |done]. destruct H01 as [-> | ->], H45 as [-> | ->]; solve_fields_ok. }
  rewrite !Elc. cbn [obind]. unfold pack_int_enable, pack_modem_control, pack_fifo_control.
  rewrite packed_byte by (done || solve_fields_ok). cbn [obind].
  rewrite packed_byte; [|split; [simpl; lia|repeat (apply Forall_cons; split; [simpl; lia|]); by apply Forall_nil]|done]. cbn [obind].
  rewrite packed_byte by (done || solve_fields_ok). cbn [obind]. eexists. split; [reflexivity|].
  change (int_en u) with (kp_offset 1 (from_port 0x3f8) 1). change (line_ctrl u) with (kp_offset 1 (from_port 0x3f8) 3).
  change (fifo_ctrl u) with (kp_offset 1 (from_port 0x3f8) 2). change (modem_ctrl u) with (kp_offset 1 (from_port 0x3f8) 4).
  change (uart_data u) with (kp_offset 1 (from_port 0x3f8) 0).
  rewrite (reg_write 4), (reg_write 2), (reg_write 3), (reg_write 1), (reg_write 0), (reg_write 3), (reg_write 1) by lia.
  set (w1 := wrap 8 (assemble _ [0; 0; 0; 0; 0; Z.b2z true])). set (w2 := wrap 8 (assemble _ [3; 0; 0; 0; 0; Z.b2z false])).
  assert (Z.testbit w1 7 = true /\ Z.testbit w2 7 = false) as [H1 H2] by (subst w1 w2; destruct H01 as [-> | ->], H45 as [-> | ->]; by vm_compute).
  set (w3 := wrap 8 (assemble [_; _; _; _; r76] _)). clearbody w1 w2 w3.
  destruct (chip b) as [ie lc [dl dh] fi mo bu de se re]. unfold uc_latch. cbn [uc_line_ctrl uc_int_en uc_sent].
  destruct (Z.testbit lc 7) eqn:El; repeat (chip_step; unfold uc_latch; cbn [uc_line_ctrl]; rewrite ?El, ?H1, ?H2; cbv iota); split_and!; (exact H2 || reflexivity).
Qed.
End Spec.

(** A fresh chip that needs two looks to send a byte. *)
Definition demo_chip : UartChip := MkChip 0 3 (255, 0) 199 11 1 2 [] [].

Lemma uart_write_str_sends_witness : exists c,
  uart_write_str (PS := reference_packed_struct) 4 demo_chip uart_x86_default [72; 105; 10] = Ret c /\ uc_sent c = [72; 105; 10; 13].
Proof.
  destruct (uart_write_str_sends (PS := reference_packed_struct) 4 demo_chip [72; 105; 10]) as (c & E & _ & S);
    [split_and!; [reflexivity|simpl; lia|simpl; lia]|].
  exists c. split; [exact E|exact S].
Defined.
