(* ===== verification/Ps2.v ===== *)
(** The PS/2 controller at its ports, kernel/src/ps2_8042.rs: the status register, waiting,
    and reading bytes, scan codes and packets through the data port.

    [Keyboard] takes the keyboard as the stream of bytes it delivers.  This file is the
    driver as it is written, with a model of the controller in which every byte comes some
    time after the one before, and shows that its packets are those of the stream. *)
From S2P Require Import Prelude MachineInt PackedStruct KernPointer Keyboard.
From stdpp Require Import list.
#[local] Open Scope Z_scope.

Record StatusRegister := MkStatusRegister {
  is_output_buf_full : bool;
  is_input_buf_full : bool;
  system_flag : bool;
  selector : bool;
  timeout_error : bool;
  parity_error : bool;
}.

(** struct PS2Device: its ports and the modifiers. *)
Record Ps2Ports := MkPs2Ports { ps2_data : KernPointer; status_and_command : KernPointer; ps2_modifiers : KeyboardModifiers }.
Definition ps2_default : Ps2Ports := MkPs2Ports (from_port 0x60) (from_port 0x64) no_modifiers.
Definition set_modifiers (d : Ps2Ports) (m : KeyboardModifiers) : Ps2Ports := MkPs2Ports (ps2_data d) (status_and_command d) m.

Section Driver.
Context {B : Type} {IO : IoSpace B} {PS : PackedStruct}.
Implicit Types (b : B) (d : Ps2Ports).

Definition status_register_fields : list bit_field := [0..=0; 1..=1; 2..=2; 3..=3; 6..=6; 7..=7].
Definition unpack_status_register (byte : Z) : option StatusRegister :=
  match unpack_bits 1 status_register_fields [byte] with
  | Some [b0; b1; b2; b3; b6; b7] => Some (MkStatusRegister (b0 =? 1) (b1 =? 1) (b2 =? 1) (b3 =? 1) (b6 =? 1) (b7 =? 1))
  | _ => None
  end.
Definition ps2_status b d : outcome (B * StatusRegister) :=
  let (b, v) := kp_read b (status_and_command d) in
  let! s := unwrap (unpack_status_register v) in Ret (b, s).

(** How often a port is asked at most before the wait counts as endless. *)
Context (polls : nat).

(** [x86_default]: command 0xA7 turns the second port off. *)
Fixpoint wait_input_empty (n : nat) b d : outcome B :=
  match n with
  | O => Panic
  | S n => let! (b, s) := ps2_status b d in if negb (is_input_buf_full s) then Ret b else wait_input_empty n b d
  end.
Definition ps2_x86_default b : outcome (B * Ps2Ports) :=
  let d := ps2_default in
  let! b := wait_input_empty polls b d in
  Ret (kp_write b (status_and_command d) 0xA7, d).

Definition ps2_try_read_byte b d : outcome (B * option Z) :=
  let! (b, s) := ps2_status b d in
  if negb (is_output_buf_full s) then Ret (b, None)
  else let (b, v) := kp_read b (ps2_data d) in Ret (b, Some v).

Fixpoint wait_byte (n : nat) b d : outcome (B * Z) :=
  match n with
  | O => Panic
  | S n =>
      let! (b, res) := ps2_try_read_byte b d in
      match res with Some v => Ret (b, v) | None => wait_byte n b d end
  end.
Definition ps2_read_byte b d : outcome (B * Z) := wait_byte polls b d.

Definition ps2_read_scancode b d : outcome (B * option Z) :=
  let! (b, first) := ps2_try_read_byte b d in
  match first with
  | None => Ret (b, None)
  | Some byte =>
      if byte =? 0xE0 then
        let! (b, byte) := ps2_read_byte b d in
        if byte =? 0xF0 then
          let! (b, byte) := ps2_read_byte b d in
          Ret (b, Some (Z.lor (Z.lor (Z.shiftl 0xE0 16) (Z.shiftl 0xF0 8)) byte))
        else Ret (b, Some (Z.lor (Z.shiftl 0xE0 8) byte))
      else if byte =? 0xF0 then
        let! (b, byte) := ps2_read_byte b d in
        Ret (b, Some (Z.lor (Z.shiftl 0xF0 8) byte))
      else Ret (b, Some byte)
  end.

Definition ps2_try_read_packet b d : outcome (B * Ps2Ports * option KeyboardPacket) :=
  let! (b, code) := ps2_read_scancode b d in
  match code with
  | None => Ret (b, d, None)
  | Some scancode =>
      match from_scancode_in_set1 scancode with
      | None => Ret (b, d, None)
      | Some k =>
          let t := if is_scancode_in_set1_pressed scancode then KeyPressed else KeyReleased in
          let m := update_modifiers (ps2_modifiers d) k t in
          Ret (b, set_modifiers d m, Some (MkPacket k m t))
      end
  end.
Fixpoint ps2_read_packet (n : nat) b d : outcome (B * Ps2Ports * KeyboardPacket) :=
  match n with
  | O => Panic
  | S n =>
      let! (b, d, res) := ps2_try_read_packet b d in
      match res with Some p => Ret (b, d, p) | None => ps2_read_packet n b d end
  end.
End Driver.

(** * The controller *)

(** The bytes still to come, each with how often the status is read before it is there;
    how long a command keeps the input buffer full; and whether the second port is on. *)
Record Controller := MkController { ct_bytes : list (nat * Z); ct_busy : nat; ct_second : bool }.

Definition ct_ready (c : Controller) : bool := match ct_bytes c with (O, _) :: _ => true | _ => false end.
Definition ct_status (c : Controller) : Z := Z.b2z (ct_ready c) + (if (ct_busy c =? 0)%nat then 0 else 2).
(** Time passes with every look at the status. *)
Definition ct_wait (c : Controller) : Controller :=
  MkController (match ct_bytes c with (n, v) :: l => (pred n, v) :: l | [] => [] end) (pred (ct_busy c)) (ct_second c).
Definition ct_in (c : Controller) (port : Z) : Controller * Z :=
  if port =? 0x64 then (ct_wait c, ct_status c)
  else if (port =? 0x60) && ct_ready c then (MkController (tail (ct_bytes c)) (ct_busy c) (ct_second c), default 0 (head (ct_bytes c).*2))
  else (c, 0).
Definition ct_out (c : Controller) (port v : Z) : Controller :=
  if (port =? 0x64) && (ct_busy c =? 0)%nat && (v =? 0xA7) then MkController (ct_bytes c) (ct_busy c) false else c.

Class Ps2Ok (B : Type) {IO : IoSpace B} := {
  controller : B -> Controller;
  ps2_in : forall b port, port = 0x60 \/ port = 0x64 ->
    controller (port_inb b port).1 = (ct_in (controller b) port).1 /\ (port_inb b port).2 = (ct_in (controller b) port).2;
  ps2_out : forall b port v, port = 0x60 \/ port = 0x64 -> controller (port_outb b port v) = ct_out (controller b) port v;
}.
#[export] Instance ps2_machine_io : IoSpace Controller := {|
  port_inb := ct_in;
  port_outb := ct_out;
  port_inh c _ := (c, 0xFFFF);
  port_outh c _ _ := c;
  load_u8 c _ := (c, 0);
  store_u8 c _ _ := c;
  load_u16 c _ := (c, 0);
  store_u16 c _ _ := c;
|}.
#[export] Instance ps2_machine_ok : Ps2Ok Controller.
Proof. by refine {| controller := id |}. Defined.

(** * The driver reads the stream *)

Section Spec.
Context {B : Type} {IO : IoSpace B} {KO : Ps2Ok B} {PS : PackedStruct} {PSok : PackedStructOk PS}.
Implicit Types (b : B) (d : Ps2Ports).

Definition at_ports d : Prop := ps2_data d = from_port 0x60 /\ status_and_command d = from_port 0x64.
(** What is still to come, and how many looks it takes at most. *)
Definition stream b : list Z := (ct_bytes (controller b)).*2.
Definition patience b : nat := sum_list_with (fun nv => S nv.1) (ct_bytes (controller b)).

Lemma status_register_bits v : in_u 8 v ->
  exists s, unpack_status_register v = Some s /\ is_output_buf_full s = Z.testbit v 0 /\ is_input_buf_full s = Z.testbit v 1.
Proof.
  intros Hv. unfold unpack_status_register. rewrite unpack_bits_spec by (done || (by apply Forall_singleton) || solve_fields_ok).
  replace (from_be_bytes [v]) with v by (unfold from_be_bytes; simpl; lia). simpl. eexists. split; [done|]. simpl.
  assert (forall i, 0 <= i -> (extract v (i..=i) =? 1) = Z.testbit v i) as E; [|by rewrite !E by lia].
  intros i Hi. unfold extract, bf_width. simpl. replace (i - i + 1) with 1 by lia. rewrite bits_spec by lia. rewrite Z.testbit_eqb by lia. done.
Qed.

Lemma ps2_status_effect b d : at_ports d -> exists b' s, ps2_status b d = Ret (b', s) /\ controller b' = ct_wait (controller b) /\
  is_output_buf_full s = ct_ready (controller b) /\ is_input_buf_full s = negb (ct_busy (controller b) =? 0)%nat.
Proof.
  intros [_ Hd]. unfold ps2_status. rewrite Hd. unfold kp_read, from_port. cbn [kp_is_port kp_inner]. change (wrap 16 0x64) with 0x64.
  destruct (ps2_in b 0x64) as [E1 E2]; [by right|]. destruct (port_inb b 0x64) as [b' v]. cbn [fst snd] in *.
  change (ct_in (controller b) 0x64) with (ct_wait (controller b), ct_status (controller b)) in *. cbn [fst snd] in *. subst v.
  assert (in_u 8 (ct_status (controller b)) /\ Z.testbit (ct_status (controller b)) 0 = ct_ready (controller b) /\
    Z.testbit (ct_status (controller b)) 1 = negb (ct_busy (controller b) =? 0)%nat) as (Hv & H0 & H1).
  { unfold ct_status. destruct (ct_ready _), (_ =? 0)%nat; (split; [unfold in_u; simpl; lia|done]). }
  destruct (status_register_bits _ Hv) as (s & -> & E3 & E4). cbn [unwrap obind]. exists b', s. by rewrite E3, E4, H0, H1.
Qed.

(** One try: the next byte if it is there; otherwise it comes nearer. *)
Lemma try_byte_effect b d : at_ports d ->
  exists b' res, ps2_try_read_byte b d = Ret (b', res) /\
    match res with
    | Some v => stream b = v :: stream b' /\ (patience b' < patience b)%nat
    | None => stream b' = stream b /\ (stream b <> [] -> (patience b' < patience b)%nat) /\ (stream b = [] -> patience b' = 0%nat)
    end.
Proof.
  intros Hd. unfold ps2_try_read_byte. destruct (ps2_status_effect b d Hd) as (b1 & s & -> & C1 & Hr & _). cbn [obind]. rewrite Hr. unfold stream, patience, ct_ready in *.
  destruct (ct_bytes (controller b)) as [|[[|n] v] l] eqn:E; cbn [negb].
  - exists b1, None. rewrite C1. unfold ct_wait. rewrite E. done.
  - destruct Hd as [Hp _]. rewrite Hp. unfold kp_read, from_port. cbn [kp_is_port kp_inner]. change (wrap 16 0x60) with 0x60.
    destruct (ps2_in b1 0x60) as [E1 E2]; [by left|]. destruct (port_inb b1 0x60) as [b2 x]. cbn [fst snd] in *.
    assert (ct_in (controller b1) 0x60 = (MkController l (ct_busy (controller b1)) (ct_second (controller b1)), v)) as Ei.
    { rewrite C1. unfold ct_in, ct_wait, ct_ready. rewrite E. reflexivity. }
    rewrite Ei in E1, E2. cbn [fst snd] in *. subst x. exists b2, (Some v). rewrite E1. cbn [ct_bytes fmap list_fmap sum_list_with fst]. split; [done|]. split; [done|lia].
  - exists b1, None. rewrite C1. unfold ct_wait. rewrite E. split; [done|]. split; [done|]. split; [cbn; lia|done].
Qed.

(** Waiting for a byte that will come. *)
Lemma wait_byte_effect d n : forall b v rest, at_ports d -> (patience b <= n)%nat -> stream b = v :: rest ->
  exists b', wait_byte n b d = Ret (b', v) /\ stream b' = rest /\ (patience b' < patience b)%nat.
Proof.
  induction n as [|n IH]; intros b v rest Hd Hn Hs.
  { unfold patience, stream in *. destruct (ct_bytes (controller b)) as [|[k w] l]; [done|simpl in Hn; lia]. }
  cbn [wait_byte]. destruct (try_byte_effect b d Hd) as (b1 & [w|] & -> & H); cbn [obind].
  - destruct H as [H1 H2]. rewrite Hs in H1. injection H1 as <- ->. eauto.
  - destruct H as (H1 & H2 & _). specialize (H2 ltac:(rewrite Hs; done)). destruct (IH b1 v rest Hd) as (b2 & E & H3 & H4); [lia|by rewrite H1|].
    exists b2. split_and!; [done|done|lia].
Qed.

(** A scan code of the stream, or a byte that is not there yet. *)
Lemma scancode_effect polls b d o : at_ports d -> (patience b <= polls)%nat -> read_scancode (stream b) = Ret o ->
  exists b' r, ps2_read_scancode polls b d = Ret (b', r) /\
    match r with
    | Some code => o = Some (code, stream b') /\ (patience b' < patience b)%nat
    | None => stream b' = stream b /\ (stream b <> [] -> (patience b' < patience b)%nat)
    end.
Proof.
  intros Hd Hp E. unfold ps2_read_scancode. destruct (try_byte_effect b d Hd) as (b1 & [v|] & -> & H); cbn [obind].
  2:{ exists b1, None. split; [done|]. tauto. }
  destruct H as [Hs Hp1]. unfold read_scancode in E. rewrite Hs in E. cbn [try_read_byte] in E.
  assert (forall b1 (w : Z) (l : list Z), (patience b1 <= polls)%nat -> read_byte (stream b1) = Ret (w, l) ->
    exists b2, ps2_read_byte polls b1 d = Ret (b2, w) /\ stream b2 = l /\ (patience b2 < patience b1)%nat) as Hrb.
  { intros b0 w l Hb Er. unfold read_byte in Er. destruct (stream b0) as [|x r] eqn:Es; [done|]. simpl in Er. injection Er as -> ->.
    by apply wait_byte_effect. }
  destruct (v =? 0xE0).
  - apply obind_Ret in E as ([w l] & E1 & E). destruct (Hrb b1 w l ltac:(lia) E1) as (b2 & -> & S2 & P2). cbn [obind]. destruct (w =? 0xF0).
    + apply obind_Ret in E as ([w3 l3] & E3 & E). rewrite <- S2 in E3. destruct (Hrb b2 w3 l3 ltac:(lia) E3) as (b3 & -> & S3 & P3). cbn [obind].
      injection E as <-. eexists _, _. split; [reflexivity|]. cbv beta iota. rewrite S3. split; [done|lia].
    + injection E as <-. eexists _, _. split; [reflexivity|]. cbv beta iota. rewrite S2. split; [done|lia].
  - destruct (v =? 0xF0).
    + apply obind_Ret in E as ([w l] & E1 & E). destruct (Hrb b1 w l ltac:(lia) E1) as (b2 & -> & S2 & P2). cbn [obind].
      injection E as <-. eexists _, _. split; [reflexivity|]. cbv beta iota. rewrite S2. split; [done|lia].
    + injection E as <-. eexists _, _. split; [reflexivity|]. cbv beta iota. split; [done|lia].
Qed.

Lemma no_packet_in_nothing k m : read_packet_loop k (MkPS2 [] m) = Panic.
Proof. induction k as [|k IH]; [done|]. exact IH. Qed.

Lemma packet_effect polls n : forall b d k rest m p, at_ports d -> (patience b <= polls)%nat -> (patience b <= n)%nat ->
  read_packet_loop k (MkPS2 (stream b) (ps2_modifiers d)) = Ret (MkPS2 rest m, p) ->
  exists b', ps2_read_packet polls n b d = Ret (b', set_modifiers d m, p) /\ stream b' = rest.
Proof.
  induction n as [|n IH]; intros b d k rest m p Hd Hp Hn E.
  { assert (stream b = []) as Es by (unfold patience, stream in *; destruct (ct_bytes (controller b)) as [|[]]; [done|simpl in Hn; lia]).
    rewrite Es, no_packet_in_nothing in E. done. }
  assert (stream b <> []) as Hne by (intros Es; by rewrite Es, no_packet_in_nothing in E).
  destruct k as [|k]; [done|]. cbn [ps2_read_packet]. pose proof E as Eall. cbn [read_packet_loop] in E. unfold try_read_packet in E. cbn [input active_modifiers] in E.
  destruct (read_scancode (stream b)) as [o|] eqn:Ec; [|done]. unfold ps2_try_read_packet.
  destruct (scancode_effect polls b d o Hd Hp Ec) as (b1 & [code|] & -> & H); cbn [obind].
  - destruct H as [-> Hlt]. cbn [obind] in E. destruct (from_scancode_in_set1 code) as [key|].
    + injection E as <- <- <-. exists b1. done.
    + apply (IH b1 d k); [done|lia|lia|exact E].
  - destruct H as [Hs Hlt]. specialize (Hlt Hne). apply (IH b1 d (S k)); [done|lia|lia|]. by rewrite Hs.
Qed.

(** C26: the driver's packets are those of the stream of bytes: whatever packet
    [read_packet] finds in the bytes the keyboard is going to send, the driver returns it,
    with the same modifiers and the same bytes left, however long each byte takes to
    arrive, and it stops waiting as soon as the packet is there. *)
Theorem ps2_reads_stream polls b d rest m p :
  at_ports d -> (patience b <= polls)%nat ->
  read_packet (MkPS2 (stream b) (ps2_modifiers d)) = Ret (MkPS2 rest m, p) ->
  exists b', ps2_read_packet polls polls b d = Ret (b', set_modifiers d m, p) /\ stream b' = rest.
Proof. intros Hd Hp E. by eapply packet_effect. Qed.

(** Setting up: the second port is turned off once the controller takes commands. *)
Lemma wait_input_effect d n : forall b, at_ports d -> (ct_busy (controller b) < n)%nat ->
  exists b', wait_input_empty n b d = Ret b' /\ ct_busy (controller b') = 0%nat /\ stream b' = stream b.
Proof.
  induction n as [|n IH]; intros b Hd Hn; [lia|]. cbn [wait_input_empty]. destruct (ps2_status_effect b d Hd) as (b1 & s & -> & C1 & _ & Hb). cbn [obind]. rewrite Hb, negb_involutive.
  assert (stream b1 = stream b) as Hs by (unfold stream; rewrite C1; unfold ct_wait; cbn; by destruct (ct_bytes (controller b)) as [|[]]).
  destruct (Nat.eqb_spec (ct_busy (controller b)) 0) as [E|E].
  - exists b1. rewrite C1. cbn. rewrite E. done.
  - destruct (IH b1 Hd) as (b2 & E2 & H2 & H3); [rewrite C1; cbn; lia|]. exists b2. by rewrite H3.
Qed.
Theorem ps2_default_ready polls b : (ct_busy (controller b) < polls)%nat ->
  exists b', ps2_x86_default polls b = Ret (b', ps2_default) /\ ct_second (controller b') = false /\ stream b' = stream b.
Proof.
  intros Hn. unfold ps2_x86_default. cbv zeta. destruct (wait_input_effect ps2_default polls b) as (b1 & -> & H1 & H2); [done|done|]. cbn [obind].
  eexists. split; [reflexivity|]. unfold kp_write, ps2_default, from_port. cbn [kp_is_port kp_inner status_and_command]. change (wrap 16 0x64) with 0x64.
  unfold stream in *. rewrite ps2_out by (by right). unfold ct_out. rewrite H1. done.
Qed.
End Spec.

(** The Enter key, pressed after two looks and released after one more. *)
Definition demo_controller : Controller := MkController [(2%nat, 0x1C); (1%nat, 0x9C)] 0 true.
Lemma ps2_reads_stream_witness : exists b',
  ps2_read_packet (PS := reference_packed_struct) 8 8 demo_controller ps2_default = Ret (b', ps2_default, MkPacket Enter no_modifiers KeyPressed) /\ stream b' = [0x9C].
Proof.
  destruct (ps2_reads_stream (PS := reference_packed_struct) 8 demo_controller ps2_default [0x9C] no_modifiers (MkPacket Enter no_modifiers KeyPressed)) as (b' & E & S);
    [split; reflexivity|vm_compute; lia|reflexivity|]. exists b'. split; [exact E|exact S].
Defined.
