(* ===== verification/Multiboot.v ===== *)
(** The boot protocol: kernel/src/multiboot.rs with the header the boot loader looks for,
    and the loop of kernel/src/main.rs over the tags the boot loader leaves in memory,
    which looks for the system table of the EFI firmware.

    The memory that the boot loader filled is a function from addresses to words of 32
    bits. *)
From S2P Require Import Prelude MachineInt.
From stdpp Require Import list.
#[local] Open Scope Z_scope.

Definition MULTIBOOT2_MAGIC : Z := 0xE85250D6.
Definition MULTIBOOT2_ARCH : Z := 0.
Definition MULTIBOOT2_HEADER_LEN_IN_U32S : Z := 8.

(** A constant's arithmetic that overflowed would not compile. *)
Definition header_sum : outcome Z :=
  let! s := add_chk 32 MULTIBOOT2_MAGIC MULTIBOOT2_ARCH in add_chk 32 s (wrap 32 (MULTIBOOT2_HEADER_LEN_IN_U32S * 4)).
Definition multiboot_header : outcome (list Z) :=
  let! s := header_sum in
  Ret [MULTIBOOT2_MAGIC; MULTIBOOT2_ARCH; wrap 32 (MULTIBOOT2_HEADER_LEN_IN_U32S * 4); wrap 32 (- to_signed 32 s);
       7; 8; 0; 8].

(** [multiboot::init]: the words after the first two, as many as the total size says. *)
Definition multiboot_init (mem : Z -> Z) (r1 r2 : Z) : outcome (list Z) :=
  if negb (r1 =? 0x36d76289) then Panic
  else Ret ((fun k => mem (r2 + 4 * (2 + Z.of_nat k))) <$> seq 0 (Z.to_nat (mem r2 / 4))).

(** [data[j]]. *)
Definition word_at (data : list Z) (j : Z) : outcome Z := unwrap (data !! Z.to_nat j).

(** [for j in i + 2..i + 2 + 2]: the two words of a pointer. *)
Definition read_pointer (data : list Z) (i ptr : Z) : outcome Z :=
  let! w0 := word_at data (i + 2) in
  let! w1 := word_at data (i + 3) in
  Ret (Z.lor (Z.lor ptr (Z.shiftl w0 0)) (Z.shiftl w1 32)).

(** The loop over the tags.  A tag without a length would keep it from ending; the rounds
    it gets are one more than there are words. *)
Fixpoint tag_loop (n : nat) (data : list Z) (i ptr : Z) : outcome Z :=
  match n with
  | O => Panic
  | S n =>
      let! id := word_at data i in
      let! len := word_at data (i + 1) in
      let! len := if negb (len mod 8 =? 0) then add_chk 32 len (8 - len mod 8) else Ret len in
      let len := len / 4 in
      if (id =? 0) && (len =? 2) then Ret ptr
      else
        let! ptr := if (id =? 0xB) || (id =? 0xC) then read_pointer data i ptr else Ret ptr in
        let! i := add_chk 64 i len in
        tag_loop n data i ptr
  end.
Definition find_efi_system_table (data : list Z) : outcome Z := tag_loop (S (length data)) data 0 0.

(** From the registers at the entry to the address of the system table. *)
Definition boot_info (mem : Z -> Z) (r1 r2 : Z) : outcome Z :=
  let! data := multiboot_init mem r1 r2 in find_efi_system_table data.

(** * What the boot loader leaves *)

(** A boot loader accepts the header: its first four words add up to nothing, its length
    is right, and its last tag is the end tag. *)
Theorem multiboot_header_accepted : exists h, multiboot_header = Ret h /\
  wrap 32 (foldr Z.add 0 (take 4 h)) = 0 /\ h !! 2%nat = Some (4 * Z.of_nat (length h)) /\ drop 6 h = [0; 8].
Proof. by eexists. Qed.

(** A tag: its type, its size in bytes with the type and the size, and the words that
    follow, which fill the place up to the next multiple of eight bytes. *)
Record Tag := MkTag { t_type : Z; t_size : Z; t_body : list Z }.

Definition round8 (n : Z) : Z := if n mod 8 =? 0 then n else n + (8 - n mod 8).
Definition is_efi (t : Tag) : bool := (t_type t =? 0xB) || (t_type t =? 0xC).

Record tag_ok (t : Tag) : Prop := {
  tag_size_range : 8 <= t_size t <= 2 ^ 32 - 8;
  tag_fills : 8 + 4 * Z.of_nat (length (t_body t)) = round8 (t_size t);
  tag_words : Forall (in_u 32) (t_body t);
  tag_not_end : t_type t = 0 -> round8 (t_size t) <> 8;
  tag_pointer : is_efi t = true -> 12 <= t_size t;
}.

Definition tag_data (t : Tag) : list Z := t_type t :: t_size t :: t_body t.
Definition end_tag : list Z := [0; 8].

(** The address in a tag that names a system table. *)
Definition tag_address (t : Tag) : Z :=
  if is_efi t then match t_body t with w0 :: w1 :: _ => w0 + w1 * 2 ^ 32 | _ => 0 end else 0.

(** The words at an address. *)
Definition words_at (mem : Z -> Z) (addr : Z) (ws : list Z) : Prop :=
  forall k w, ws !! k = Some w -> mem (addr + 4 * Z.of_nat k) = w.

(** The whole information: its size, a word that is reserved, the tags. *)
Definition info (tags : list Tag) : list Z :=
  let body := (tags ≫= tag_data) ++ end_tag in
  4 * (2 + Z.of_nat (length body)) :: 0 :: body.

Lemma round8_bounds n : n <= round8 n < n + 8 /\ round8 n mod 8 = 0.
Proof. unfold round8. destruct (Z.eqb_spec (n mod 8) 0) as [E|E]; Z.to_euclidean_division_equations; lia. Qed.

Lemma word_at_inside pre m post (k : nat) j w : m !! k = Some w -> j = Z.of_nat (length pre) + Z.of_nat k -> word_at (pre ++ m ++ post) j = Ret w.
Proof.
  intros H ->. unfold word_at. replace (Z.to_nat _) with (length pre + k)%nat by lia.
  rewrite lookup_app_r by lia. replace (length pre + k - length pre)%nat with k by lia. by rewrite (lookup_app_l_Some _ _ _ _ H).
Qed.

Lemma tag_address_range t : tag_ok t -> in_u 64 (tag_address t).
Proof.
  intros [_ _ H _ _]. unfold tag_address, in_u in *. destruct (is_efi t); [|lia]. destruct (t_body t) as [|w0 [|w1 r]]; [lia|lia|].
  apply Forall_cons in H as [H0 [H1 _]%Forall_cons]. unfold in_u in *. lia.
Qed.

Lemma tag_pointer_read pre t post ptr : tag_ok t ->
  (if (t_type t =? 0xB) || (t_type t =? 0xC) then read_pointer (pre ++ tag_data t ++ post) (Z.of_nat (length pre)) ptr else Ret ptr)
  = Ret (Z.lor ptr (tag_address t)).
Proof.
  intros [Hs Hf Hw _ Hp]. pose proof (round8_bounds (t_size t)) as [Hr1 Hr2].
  unfold tag_address. fold (is_efi t). destruct (is_efi t) eqn:E; [|by rewrite Z.lor_0_r]. specialize (Hp eq_refl).
  unfold tag_data. destruct (t_body t) as [|w0 [|w1 r]]; [simpl in Hf; lia|simpl in Hf; Z.to_euclidean_division_equations; lia|].
  apply Forall_cons in Hw as [H0 _]. unfold read_pointer.
  rewrite (word_at_inside pre _ post 2 _ w0), (word_at_inside pre _ post 3 _ w1) by (done || lia). cbn [obind].
  by rewrite Z.shiftl_0_r, <- Z.lor_assoc, lor_shiftl_add.
Qed.

(** One round over a tag. *)
Lemma tag_round n pre t post ptr : tag_ok t -> Z.of_nat (length (pre ++ tag_data t ++ post)) < 2 ^ 62 ->
  tag_loop (S n) (pre ++ tag_data t ++ post) (Z.of_nat (length pre)) ptr =
  tag_loop n (pre ++ tag_data t ++ post) (Z.of_nat (length (pre ++ tag_data t))) (Z.lor ptr (tag_address t)).
Proof.
  intros Ht HL. pose proof Ht as [Hs Hf _ Hne _]. pose proof (round8_bounds (t_size t)) as [Hr1 Hr2]. cbn [tag_loop].
  rewrite (word_at_inside pre (tag_data t) post 0 _ (t_type t)), (word_at_inside pre (tag_data t) post 1 _ (t_size t)) by (done || lia). cbn [obind].
  assert ((if negb (t_size t mod 8 =? 0) then add_chk 32 (t_size t) (8 - t_size t mod 8) else Ret (t_size t)) = Ret (round8 (t_size t))) as ->.
  { unfold round8 in *. destruct (Z.eqb_spec (t_size t mod 8) 0); [done|]. simpl. apply add_chk_ok. lia. }
  cbn [obind]. replace (round8 (t_size t) / 4) with (2 + Z.of_nat (length (t_body t))) by (rewrite <- Hf; Z.to_euclidean_division_equations; lia).
  assert ((t_type t =? 0) && (2 + Z.of_nat (length (t_body t)) =? 2) = false) as ->.
  { destruct (Z.eqb_spec (t_type t) 0) as [E|]; [|done]. simpl. apply Z.eqb_neq. specialize (Hne E). lia. }
  rewrite tag_pointer_read by done. cbn [obind]. rewrite !length_app in HL. unfold tag_data in HL. simpl in HL.
  rewrite add_chk_ok by lia. cbn [obind]. f_equal. rewrite length_app. unfold tag_data. simpl. lia.
Qed.

Lemma tag_loop_finds tags : forall n pre ptr post, Forall tag_ok tags -> (length tags < n)%nat ->
  Z.of_nat (length (pre ++ (tags ≫= tag_data) ++ end_tag ++ post)) < 2 ^ 62 ->
  tag_loop n (pre ++ (tags ≫= tag_data) ++ end_tag ++ post) (Z.of_nat (length pre)) ptr = Ret (fold_left Z.lor (tag_address <$> tags) ptr).
Proof.
  induction tags as [|t tags IH]; intros n pre ptr post Hok Hn HL.
  - destruct n as [|n]; [lia|]. cbn [tag_loop].
    change (([] ≫= tag_data) ++ end_tag ++ post) with (end_tag ++ post).
    by rewrite (word_at_inside pre end_tag post 0 _ 0), (word_at_inside pre end_tag post 1 _ 8) by (done || lia).
  - apply Forall_cons in Hok as [Ht Hok]. destruct n as [|n]; [simpl in Hn; lia|]. cbn [mbind list_bind] in *. rewrite <- app_assoc in HL |- *.
    rewrite tag_round by done. rewrite app_assoc. rewrite IH; [done|done|simpl in Hn; lia|]. by rewrite <- app_assoc.
Qed.

Lemma tags_length tags : (length tags <= length (tags ≫= tag_data))%nat.
Proof. induction tags as [|t tags IH]; [done|]. cbn [mbind list_bind]. rewrite length_app. simpl. lia. Qed.

(** The words of the slice: those of the information after the first two, and two more. *)
Lemma multiboot_init_words mem r2 total resv body : words_at mem r2 (total :: resv :: body) -> total = 4 * (2 + Z.of_nat (length body)) ->
  exists beyond, multiboot_init mem 0x36d76289 r2 = Ret (body ++ beyond) /\ length beyond = 2%nat.
Proof.
  intros Hm Ht. pose proof (Hm 0%nat total eq_refl) as H0. rewrite Z.add_0_r in H0.
  set (data := (fun k => mem (r2 + 4 * (2 + Z.of_nat k))) <$> seq 0 (length body + 2)).
  exists (drop (length body) data). split; [|unfold data; rewrite length_drop, length_fmap, length_seq; lia].
  unfold multiboot_init. rewrite Z.eqb_refl. simpl. rewrite H0, Ht. replace (Z.to_nat _) with (length body + 2)%nat
    by (rewrite Z.mul_comm, Z.div_mul by done; lia). f_equal. fold data. rewrite <- (take_drop (length body) data) at 1. f_equal.
  apply list_eq. intros k. destruct (decide (k < length body)%nat) as [Hk|Hk].
  - rewrite lookup_take_lt by done. destruct (lookup_lt_is_Some_2 body k Hk) as [w Hw]. rewrite Hw. unfold data.
    rewrite list_lookup_fmap, lookup_seq_lt by lia. simpl. f_equal. rewrite <- (Hm (2 + k)%nat w Hw). f_equal. lia.
  - by rewrite lookup_take_ge, lookup_ge_None_2 by lia.
Qed.

Lemma boot_info_tags mem r2 tags :
  Forall tag_ok tags -> words_at mem r2 (info tags) -> Z.of_nat (length (info tags)) < 2 ^ 61 ->
  boot_info mem 0x36d76289 r2 = Ret (fold_left Z.lor (tag_address <$> tags) 0).
Proof.
  intros Hok Hm HL. unfold boot_info. destruct (multiboot_init_words mem r2 _ _ _ Hm eq_refl) as (beyond & -> & Hb). cbn [obind].
  unfold find_efi_system_table. rewrite <- app_assoc. apply (tag_loop_finds tags _ []); [done| |].
  - rewrite length_app. pose proof (tags_length tags). lia.
  - unfold info in HL. simpl in *. rewrite !length_app in *. simpl in *. lia.
Qed.

(** C37: the kernel finds the firmware's system table in what the boot loader left: for
    well-formed tags, in any number and order, the loop ends at the end tag, reads nothing
    of the tags that are not about EFI, and returns the addresses in those that are, or-ed
    together; with another number in the first register the kernel stops. *)
Theorem boot_info_finds_table mem r1 r2 tags :
  Forall tag_ok tags -> words_at mem r2 (info tags) -> Z.of_nat (length (info tags)) < 2 ^ 61 ->
  boot_info mem r1 r2 =
    if r1 =? 0x36d76289 then Ret (fold_left Z.lor (tag_address <$> tags) 0) else Panic.
Proof.
  intros Hok Hm HL. destruct (Z.eqb_spec r1 0x36d76289) as [->|Hr]; [by apply boot_info_tags|].
  unfold boot_info, multiboot_init. by rewrite (proj2 (Z.eqb_neq _ _) Hr).
Qed.

(** With one such tag the result is its address. *)
Lemma one_table pre t post : Forall (fun t => is_efi t = false) (pre ++ post) ->
  fold_left Z.lor (tag_address <$> pre ++ t :: post) 0 = tag_address t.
Proof.
  intros [Hpre Hpost]%Forall_app.
  assert (forall l z, Forall (fun t => is_efi t = false) l -> fold_left Z.lor (tag_address <$> l) z = z) as E.
  { induction l as [|u l IH]; intros z Hl; [done|]. apply Forall_cons in Hl as [Hu Hl]. cbn [fmap list_fmap fold_left].
    unfold tag_address at 2. by rewrite Hu, Z.lor_0_r, IH. }
  rewrite fmap_app, fold_left_app, (E pre) by done. cbn [fmap list_fmap fold_left]. by rewrite Z.lor_0_l, E.
Qed.

(** The word after the 32-bit address of tag 0xB, which only fills the tag up, becomes
    part of the result. *)
Theorem padding_joins_address mem r2 p pad :
  in_u 32 p -> in_u 32 pad -> words_at mem r2 (info [MkTag 0xB 12 [p; pad]]) ->
  boot_info mem 0x36d76289 r2 = Ret (p + pad * 2 ^ 32).
Proof.
  intros Hp Hpad Hm. rewrite (boot_info_tags mem r2 [MkTag 0xB 12 [p; pad]]); [f_equal; by apply (one_table [] _ []), Forall_nil| |done|simpl; lia].
  apply Forall_singleton. split; simpl; [lia|done|by apply Forall_cons_2; [|apply Forall_singleton]|done|done].
Qed.

(** * Examples *)

(** A loader's name, an address above four gigabytes, the command line. *)
Definition demo_tags : list Tag := [MkTag 2 17 [0x42555247; 0x30322e32; 0; 0]; MkTag 0xC 16 [0x7F00_0018; 1]; MkTag 1 9 [0; 0]].
Definition demo_memory (a : Z) : Z := default 0 (info demo_tags !! Z.to_nat ((a - 0x10000) / 4)).

Lemma demo_memory_words : words_at demo_memory 0x10000 (info demo_tags).
Proof.
  intros k w H. unfold demo_memory. replace (Z.to_nat ((0x10000 + 4 * Z.of_nat k - 0x10000) / 4)) with k; [by rewrite H|].
  replace (0x10000 + 4 * Z.of_nat k - 0x10000) with (Z.of_nat k * 4) by lia. rewrite Z.div_mul by done. lia.
Qed.

Lemma demo_tags_ok : Forall tag_ok demo_tags.
Proof. repeat apply Forall_cons_2; [..|by apply Forall_nil]; (split; simpl; [lia|done|repeat (apply Forall_cons_2; [done|]); by apply Forall_nil|done|done]). Qed.

Lemma boot_info_finds_table_witness :
  boot_info demo_memory 0x36d76289 0x10000 = Ret 0x1_7F00_0018 /\ boot_info demo_memory 0x2BADB002 0x10000 = Panic.
Proof.
  split; [rewrite (boot_info_finds_table demo_memory 0x36d76289 0x10000 demo_tags demo_tags_ok demo_memory_words)
    |rewrite (boot_info_finds_table demo_memory 0x2BADB002 0x10000 demo_tags demo_tags_ok demo_memory_words)]; reflexivity.
Defined.

Lemma padding_joins_address_witness : exists mem, boot_info mem 0x36d76289 0 = Ret 0xDEAD_0000_1000.
Proof.
  exists (fun a => default 0 (info [MkTag 0xB 12 [0x1000; 0xDEAD]] !! Z.to_nat (a / 4))).
  apply (padding_joins_address _ 0 0x1000 0xDEAD); [done|done|]. intros k w H. rewrite Z.add_0_l, Z.mul_comm, Z.div_mul, Nat2Z.id by done. by rewrite H.
Defined.
