(* ===== verification/Efi.v ===== *)
(** The frame buffer of the EFI firmware: kernel/src/efi.rs and
    try_setup_efi_framebuffer of kernel/src/framebuffer.rs.

    The firmware is not part of the repository: its tables and functions are the class
    [EfiFirmware], over a state that only it changes.  An address is 0 when it is null. *)
From S2P Require Import Prelude MachineInt CharDevice.
From stdpp Require Import list.
#[local] Open Scope Z_scope.

(** [u128::to_be] on a little-endian machine. *)
Definition to_be128 (v : Z) : Z := from_le_bytes (reverse (to_le_bytes 16 v)).
Definition GOP_GUID : Z := to_be128 0xdea94290dc23384a96fb7aded080516a.

(** The mode of the graphics output protocol, with the screen that belongs to it. *)
Record GopMode := MkGopMode { max_mode : Z; gop_mode_number : Z; gop_screen : EfiGopMode }.

(** What the code asks of the firmware: [boot_services] of the system table at an
    address, [locate_protocol] of the boot services, and the methods and the mode of a
    graphics output protocol.  A status is a [usize]. *)
Class EfiFirmware (M : Type) := {
  efi_boot_services : M -> Z -> Z;
  locate_protocol : M -> Z -> Z -> M * (Z * Z);
  query_mode : M -> Z -> Z -> M * Z;
  set_gop_mode : M -> Z -> Z -> M * Z;
  gop_mode : M -> Z -> option GopMode;
}.

Section Setup.
Context {M : Type} {FW : EfiFirmware M}.
Implicit Types m : M.

(** [res as isize]. *)
Definition as_isize (res : Z) : Z := to_signed 64 res.

(** The mode is read through a reference, so that a null one is not allowed where it is
    used; here it stops the kernel.  The size of the information and the number of modes
    are not used. *)
Definition try_setup_efi_framebuffer m (efi_table _desired_res_w _desired_res_h : Z) : outcome (M * option EfiGopMode) :=
  if efi_table =? 0 then Ret (m, None)
  else if efi_boot_services m efi_table =? 0 then Ret (m, None)
  else
    let '(m, (res, gop)) := locate_protocol m (efi_boot_services m efi_table) GOP_GUID in
    if as_isize res <? 0 then Ret (m, None)
    else
      let (m, res) := query_mode m gop (match gop_mode m gop with None => 0 | Some mode => gop_mode_number mode end) in
      if as_isize res =? -19 then
        let (m, _) := set_gop_mode m gop 0 in
        let! mode := unwrap (gop_mode m gop) in Ret (m, Some (gop_screen mode))
      else if as_isize res <? 0 then Ret (m, None)
      else let! mode := unwrap (gop_mode m gop) in Ret (m, Some (gop_screen mode)).

End Setup.

(** * What the firmware means *)

(** A GUID as the UEFI specification lays it out: three numbers, lowest byte first, and
    eight bytes. *)
Definition guid_bytes (d1 d2 d3 : Z) (d4 : list Z) : list Z := to_le_bytes 4 d1 ++ to_le_bytes 2 d2 ++ to_le_bytes 2 d3 ++ d4.

(** The constant has, in memory, the bytes of the protocol's GUID. *)
Theorem gop_guid_bytes :
  to_le_bytes 16 GOP_GUID = guid_bytes 0x9042a9de 0x23dc 0x4a38 [0x96; 0xfb; 0x7a; 0xde; 0xd0; 0x80; 0x51; 0x6a].
Proof. reflexivity. Qed.

(** Error codes have the highest bit set and a small number below it. *)
Definition efi_error (code : Z) : Z := 2 ^ 63 + code.
Definition EFI_NOT_STARTED : Z := efi_error 19.
Inductive efi_status : Z -> Prop :=
| status_success : efi_status 0
| status_error code : 0 < code < 2 ^ 32 -> efi_status (efi_error code).

Lemma efi_error_negative code : 0 < code < 2 ^ 32 -> as_isize (efi_error code) = code - 2 ^ 63.
Proof. intros H. unfold as_isize, efi_error, to_signed. destruct (Z.ltb_spec (2 ^ 63 + code) (2 ^ (64 - 1))); lia. Qed.

(** C38: with firmware that answers with the codes of the specification, the setup has
    exactly two results.  When the protocol is there and its mode can be queried, it is
    the screen of the mode that is set already; on any error, or without tables, there is
    no screen.  The mode is never changed: the answer that a mode must be set first
    (EFI_NOT_STARTED) is compared with -19 and counts as any other error. *)
Theorem efi_setup_result {M} {FW : EfiFirmware M} m table w h :
  (forall m bs guid, efi_status (locate_protocol m bs guid).2.1) -> (forall m gop n, efi_status (query_mode m gop n).2) ->
  let bs := efi_boot_services m table in
  let '(m1, (found, gop)) := locate_protocol m bs GOP_GUID in
  let (m2, answer) := query_mode m1 gop (match gop_mode m1 gop with None => 0 | Some mode => gop_mode_number mode end) in
  try_setup_efi_framebuffer m table w h =
    if (table =? 0) || (bs =? 0) then Ret (m, None)
    else if negb (found =? 0) then Ret (m1, None)
    else if negb (answer =? 0) then Ret (m2, None)
    else let! mode := unwrap (gop_mode m2 gop) in Ret (m2, Some (gop_screen mode)).
Proof.
  intros Hl Hq bs. unfold try_setup_efi_framebuffer. specialize (Hl m bs GOP_GUID). fold bs.
  destruct (locate_protocol m bs GOP_GUID) as [m1 [found gop]] eqn:El. cbn [fst snd] in Hl.
  specialize (Hq m1 gop (match gop_mode m1 gop with None => 0 | Some mode => gop_mode_number mode end)).
  destruct (query_mode m1 gop _) as [m2 answer] eqn:Eq. cbn [snd] in Hq.
  destruct (table =? 0); [done|]. destruct (bs =? 0); [done|]. cbn [orb].
  destruct Hl as [|code Hc].
  2:{ rewrite efi_error_negative, (proj2 (Z.ltb_lt (code - 2 ^ 63) 0)) by lia. by rewrite (proj2 (Z.eqb_neq (efi_error code) 0)) by (unfold efi_error; lia). }
  change (as_isize 0 <? 0) with false. cbn [negb Z.eqb]. destruct Hq as [|code Hc]; [done|].
  rewrite efi_error_negative, (proj2 (Z.eqb_neq (code - 2 ^ 63) (-19))), (proj2 (Z.ltb_lt (code - 2 ^ 63) 0)) by lia.
  by rewrite (proj2 (Z.eqb_neq (efi_error code) 0)) by (unfold efi_error; lia).
Qed.

(** * Firmware with one protocol *)

(** Its state says whether a mode is set. *)
Definition demo_gop : EfiGopMode := MkGop (replicate 6 0) 3 2 RgbR8bit.
#[export] Instance demo_firmware : EfiFirmware bool := {|
  efi_boot_services _ _ := 0x5000;
  locate_protocol m _ guid := (m, if guid =? GOP_GUID then (0, 0x6000) else (efi_error 14, 0));
  query_mode m _ _ := (m, if (m : bool) then 0 else EFI_NOT_STARTED);
  set_gop_mode _ _ _ := (true, 0);
  gop_mode m _ := Some (MkGopMode 1 0 demo_gop);
|}.

(** The mode that is set is used; the firmware that wants one set first is not asked for
    it. *)
Lemma efi_setup_result_witness :
  try_setup_efi_framebuffer true 0x4000 800 600 = Ret (true, Some demo_gop) /\
  try_setup_efi_framebuffer false 0x4000 800 600 = Ret (false, None).
Proof.
  assert (forall (m : bool) bs guid, efi_status (locate_protocol m bs guid).2.1) as H1.
  { intros m bs guid. simpl. destruct (guid =? GOP_GUID); constructor. lia. }
  assert (forall (m : bool) gop n, efi_status (query_mode m gop n).2) as H2.
  { intros [] gop n; constructor. lia. }
  split; [exact (efi_setup_result true 0x4000 800 600 H1 H2)|exact (efi_setup_result false 0x4000 800 600 H1 H2)].
Defined.
