(* ===== verification/RiscvInst.v ===== *)
(** The [riscv_instruction] module of kernel/src/emulator.rs: the instruction
    formats of RV64IMC as packed records, their immediates, and [sign_extend].
    The lemmas give each immediate as a signed integer of the instruction's
    fields and show that building, packing, unpacking and reading back an
    instruction loses nothing but the bits the format does not hold. *)
From S2P Require Import Prelude MachineInt PackedStruct.
#[local] Open Scope Z_scope.

(** * Opcodes *)

Inductive RiscvInstType := RType | IType | SType | BType | UType | JType.

Inductive RiscvCompressedInstType :=
  CRType | CIType | CSSType | CIWType | CLType | CSType | CAType | CBType | CJType.

Inductive RiscvOpcode :=
  OPIMM | OPIMM32 | LUI | AUIPC | OP | OP32 | JAL | JALR | BRANCH | LOAD | STORE | MISCMEM | SYSTEM.

#[export] Instance RiscvInstType_eq_dec : EqDecision RiscvInstType.
Proof. solve_decision. Defined.
#[export] Instance RiscvCompressedInstType_eq_dec : EqDecision RiscvCompressedInstType.
Proof. solve_decision. Defined.
#[export] Instance RiscvOpcode_eq_dec : EqDecision RiscvOpcode.
Proof. solve_decision. Defined.

Definition RiscvOpcode_discr (o : RiscvOpcode) : Z :=
  match o with
  | OPIMM => 0x13
  | OPIMM32 => 0x1b
  | LUI => 0x37
  | AUIPC => 0x17
  | OP => 0x33
  | OP32 => 0x3b
  | JAL => 0x6f
  | JALR => 0x67
  | BRANCH => 0x63
  | LOAD => 0x03
  | STORE => 0x23
  | MISCMEM => 0x0f
  | SYSTEM => 0x73
  end.

Definition RiscvOpcode_table : list (RiscvOpcode * Z) :=
  (fun o => (o, RiscvOpcode_discr o)) <$>
  [OPIMM; OPIMM32; LUI; AUIPC; OP; OP32; JAL; JALR; BRANCH; LOAD; STORE; MISCMEM; SYSTEM].

Definition get_type (o : RiscvOpcode) : RiscvInstType :=
  match o with
  | OPIMM => IType
  | OPIMM32 => IType
  | LUI => UType
  | AUIPC => UType
  | OP => RType
  | OP32 => RType
  | JAL => JType
  | JALR => IType
  | BRANCH => BType
  | LOAD => IType
  | STORE => SType
  | MISCMEM => IType
  | SYSTEM => IType
  end.

Inductive RiscvCompressedOpcode := C0 | C1 | C2.

#[export] Instance RiscvCompressedOpcode_eq_dec : EqDecision RiscvCompressedOpcode.
Proof. solve_decision. Defined.

Definition RiscvCompressedOpcode_discr (o : RiscvCompressedOpcode) : Z :=
  match o with C0 => 0 | C1 => 1 | C2 => 2 end.

Definition RiscvCompressedOpcode_table : list (RiscvCompressedOpcode * Z) :=
  (fun o => (o, RiscvCompressedOpcode_discr o)) <$> [C0; C1; C2].

(** * Sign extension *)

(** [sign_extend::<T, U>]: [t] and [u] are the widths of [T] and [U]. *)
Definition sign_extend (t u val : Z) : Z :=
  let max_shift_amount := t - 1 in
  let top_bit := shl u 1 max_shift_amount in
  let all_ones := Z.lor (shl u 1 max_shift_amount - 1) top_bit in
  let sign := negb (Z.land val top_bit =? 0) in
  if sign then Z.lor val (bnot u all_ones) else Z.land val all_ones.

Definition sign_extend_to_u64 (t val : Z) : Z := sign_extend t 64 val.

(** The shape the [parse_imm] functions repeat: extend an immediate of [n] bits
    to a [u32]. *)
Definition extend_imm (n imm : Z) : Z :=
  let top_bit := shl 32 1 (n - 1) in
  let all_ones := shl 32 1 n - 1 in
  let sign := negb (Z.land imm top_bit =? 0) in
  if sign then Z.lor imm (bnot 32 all_ones) else Z.land imm all_ones.

Section Formats.
Context {PS : PackedStruct}.

(** * Full-size formats *)

Record RiscvRTypeInstruction := {
  r_opcode : RiscvOpcode; r_rd : Z; r_funct3 : Z; r_rs1 : Z; r_rs2 : Z; r_funct7 : Z }.

Definition rtype_fields : list bit_field := [0..=6; 7..=11; 12..=14; 15..=19; 20..=24; 25..=31].

Definition rtype_unpack (bytes : list Z) : option RiscvRTypeInstruction :=
  match unpack_bits 4 rtype_fields bytes with
  | Some [op; rd; f3; rs1; rs2; f7] =>
      opcode ← from_primitive RiscvOpcode_table op;
      Some {| r_opcode := opcode; r_rd := rd; r_funct3 := f3; r_rs1 := rs1; r_rs2 := rs2; r_funct7 := f7 |}
  | _ => None
  end.

Definition rtype_pack (i : RiscvRTypeInstruction) : option (list Z) :=
  pack_bits 4 rtype_fields
    [RiscvOpcode_discr (r_opcode i); r_rd i; r_funct3 i; r_rs1 i; r_rs2 i; r_funct7 i].

Record RiscvITypeInstruction := {
  i_opcode : RiscvOpcode; i_rd : Z; i_funct3 : Z; i_rs1 : Z; i_imm : Z }.

Definition itype_fields : list bit_field := [0..=6; 7..=11; 12..=14; 15..=19; 20..=31].

Definition itype_unpack (bytes : list Z) : option RiscvITypeInstruction :=
  match unpack_bits 4 itype_fields bytes with
  | Some [op; rd; f3; rs1; imm] =>
      opcode ← from_primitive RiscvOpcode_table op;
      Some {| i_opcode := opcode; i_rd := rd; i_funct3 := f3; i_rs1 := rs1; i_imm := imm |}
  | _ => None
  end.

Definition itype_pack (i : RiscvITypeInstruction) : option (list Z) :=
  pack_bits 4 itype_fields
    [RiscvOpcode_discr (i_opcode i); i_rd i; i_funct3 i; i_rs1 i; i_imm i].

Definition itype_from (opcode : RiscvOpcode) (rd funct3 rs1 imm : Z) : RiscvITypeInstruction :=
  {| i_opcode := opcode; i_rd := rd; i_funct3 := funct3; i_rs1 := rs1; i_imm := wrap 16 imm |}.

Definition itype_parse_imm (i : RiscvITypeInstruction) : Z := extend_imm 12 (i_imm i).

Record RiscvSTypeInstruction := {
  s_opcode : RiscvOpcode; s_imm_low5 : Z; s_funct3 : Z; s_rs1 : Z; s_rs2 : Z; s_imm_hi7 : Z }.

Definition stype_fields : list bit_field := [0..=6; 7..=11; 12..=14; 15..=19; 20..=24; 25..=31].

Definition stype_unpack (bytes : list Z) : option RiscvSTypeInstruction :=
  match unpack_bits 4 stype_fields bytes with
  | Some [op; lo; f3; rs1; rs2; hi] =>
      opcode ← from_primitive RiscvOpcode_table op;
      Some {| s_opcode := opcode; s_imm_low5 := lo; s_funct3 := f3; s_rs1 := rs1; s_rs2 := rs2;
              s_imm_hi7 := hi |}
  | _ => None
  end.

Definition stype_pack (i : RiscvSTypeInstruction) : option (list Z) :=
  pack_bits 4 stype_fields
    [RiscvOpcode_discr (s_opcode i); s_imm_low5 i; s_funct3 i; s_rs1 i; s_rs2 i; s_imm_hi7 i].

Definition stype_from (opcode : RiscvOpcode) (funct3 rs1 rs2 imm : Z) : RiscvSTypeInstruction :=
  {| s_opcode := opcode;
     s_imm_low5 := wrap 8 (Z.land (Z.shiftr imm 0) 0x1f);
     s_funct3 := funct3; s_rs1 := rs1; s_rs2 := rs2;
     s_imm_hi7 := wrap 8 (Z.land (Z.shiftr imm 5) 0x7f) |}.

Definition stype_parse_imm (i : RiscvSTypeInstruction) : Z :=
  extend_imm 12 (Z.lor (s_imm_low5 i) (shl 32 (s_imm_hi7 i) 5)).

Record RiscvBTypeInstruction := {
  b_opcode : RiscvOpcode; b_imm_bit11 : Z; b_imm_bits_4_1 : Z; b_funct3 : Z; b_rs1 : Z; b_rs2 : Z;
  b_imm_bits_10_5 : Z; b_imm_bit12 : Z }.

Definition btype_fields : list bit_field :=
  [0..=6; 7..=7; 8..=11; 12..=14; 15..=19; 20..=24; 25..=30; 31..=31].

Definition btype_unpack (bytes : list Z) : option RiscvBTypeInstruction :=
  match unpack_bits 4 btype_fields bytes with
  | Some [op; b11; b4_1; f3; rs1; rs2; b10_5; b12] =>
      opcode ← from_primitive RiscvOpcode_table op;
      Some {| b_opcode := opcode; b_imm_bit11 := b11; b_imm_bits_4_1 := b4_1; b_funct3 := f3;
              b_rs1 := rs1; b_rs2 := rs2; b_imm_bits_10_5 := b10_5; b_imm_bit12 := b12 |}
  | _ => None
  end.

Definition btype_pack (i : RiscvBTypeInstruction) : option (list Z) :=
  pack_bits 4 btype_fields
    [RiscvOpcode_discr (b_opcode i); b_imm_bit11 i; b_imm_bits_4_1 i; b_funct3 i; b_rs1 i; b_rs2 i;
     b_imm_bits_10_5 i; b_imm_bit12 i].

Definition btype_from (opcode : RiscvOpcode) (funct3 rs1 rs2 imm : Z) : RiscvBTypeInstruction :=
  {| b_opcode := opcode;
     b_imm_bit11 := wrap 8 (Z.land (Z.shiftr imm 11) 1);
     b_imm_bits_4_1 := wrap 8 (Z.land (Z.shiftr imm 1) 0xf);
     b_imm_bits_10_5 := wrap 8 (Z.land (Z.shiftr imm 5) 0x3f);
     b_imm_bit12 := wrap 8 (Z.land (Z.shiftr imm 12) 1);
     b_funct3 := funct3; b_rs1 := rs1; b_rs2 := rs2 |}.

Definition btype_parse_imm (i : RiscvBTypeInstruction) : Z :=
  extend_imm 13
    (Z.lor (Z.lor (Z.lor (shl 32 (b_imm_bits_4_1 i) 1) (shl 32 (b_imm_bits_10_5 i) 5))
       (shl 32 (b_imm_bit11 i) 11)) (shl 32 (b_imm_bit12 i) 12)).

Record RiscvUTypeInstruction := { u_opcode : RiscvOpcode; u_rd : Z; u_imm : Z }.

Definition utype_fields : list bit_field := [0..=6; 7..=11; 12..=31].

Definition utype_unpack (bytes : list Z) : option RiscvUTypeInstruction :=
  match unpack_bits 4 utype_fields bytes with
  | Some [op; rd; imm] =>
      opcode ← from_primitive RiscvOpcode_table op;
      Some {| u_opcode := opcode; u_rd := rd; u_imm := imm |}
  | _ => None
  end.

Definition utype_pack (i : RiscvUTypeInstruction) : option (list Z) :=
  pack_bits 4 utype_fields [RiscvOpcode_discr (u_opcode i); u_rd i; u_imm i].

Definition utype_from (opcode : RiscvOpcode) (rd imm : Z) : RiscvUTypeInstruction :=
  {| u_opcode := opcode; u_rd := rd; u_imm := Z.shiftr imm 12 |}.

Definition utype_parse_imm (i : RiscvUTypeInstruction) : Z := shl 32 (u_imm i) 12.

Record RiscvJTypeInstruction := {
  j_opcode : RiscvOpcode; j_rd : Z; j_imm_bits_19_12 : Z; j_imm_bit11 : Z; j_imm_bits_10_1 : Z;
  j_imm_bit20 : Z }.

Definition jtype_fields : list bit_field := [0..=6; 7..=11; 12..=19; 20..=20; 21..=30; 31..=31].

Definition jtype_unpack (bytes : list Z) : option RiscvJTypeInstruction :=
  match unpack_bits 4 jtype_fields bytes with
  | Some [op; rd; b19_12; b11; b10_1; b20] =>
      opcode ← from_primitive RiscvOpcode_table op;
      Some {| j_opcode := opcode; j_rd := rd; j_imm_bits_19_12 := b19_12; j_imm_bit11 := b11;
              j_imm_bits_10_1 := b10_1; j_imm_bit20 := b20 |}
  | _ => None
  end.

Definition jtype_pack (i : RiscvJTypeInstruction) : option (list Z) :=
  pack_bits 4 jtype_fields
    [RiscvOpcode_discr (j_opcode i); j_rd i; j_imm_bits_19_12 i; j_imm_bit11 i; j_imm_bits_10_1 i;
     j_imm_bit20 i].

Definition jtype_from (opcode : RiscvOpcode) (rd imm : Z) : RiscvJTypeInstruction :=
  {| j_opcode := opcode; j_rd := rd;
     j_imm_bits_19_12 := wrap 8 (Z.land (Z.shiftr imm 12) 0xff);
     j_imm_bit11 := wrap 8 (Z.land (Z.shiftr imm 11) 1);
     j_imm_bits_10_1 := wrap 16 (Z.land (Z.shiftr imm 1) 0x3ff);
     j_imm_bit20 := wrap 8 (Z.land (Z.shiftr imm 20) 1) |}.

Definition jtype_parse_imm (i : RiscvJTypeInstruction) : Z :=
  extend_imm 21
    (Z.lor (Z.lor (Z.lor (shl 32 (j_imm_bits_10_1 i) 1) (shl 32 (j_imm_bit11 i) 11))
       (shl 32 (j_imm_bits_19_12 i) 12)) (shl 32 (j_imm_bit20 i) 20)).

(** * Compressed formats *)

Definition get_compressed_instruction_type (inst : Z) : option RiscvCompressedInstType :=
  opcode ← from_primitive RiscvCompressedOpcode_table (wrap 8 (Z.land inst 3));
  match opcode, Z.land (Z.shiftr inst 13) 7, Z.land (Z.shiftr inst 10) 3 with
  | C0, 0, _ => Some CIWType
  | C0, 1, _ => Some CLType
  | C0, 2, _ => Some CLType
  | C0, 3, _ => Some CLType
  | C0, 4, _ => None
  | C0, 5, _ => Some CSType
  | C0, 6, _ => Some CSType
  | C0, 7, _ => Some CSType
  | C1, 0, _ => Some CIType
  | C1, 1, _ => Some CIType
  | C1, 2, _ => Some CIType
  | C1, 3, _ => Some CIType
  | C1, 4, 0 => Some CBType
  | C1, 4, 1 => Some CBType
  | C1, 4, 2 => Some CBType
  | C1, 4, 3 => Some CAType
  | C1, 5, _ => Some CJType
  | C1, 6, _ => Some CBType
  | C1, 7, _ => Some CBType
  | C2, 0, _ => Some CIType
  | C2, 1, _ => Some CIType
  | C2, 2, _ => Some CIType
  | C2, 3, _ => Some CIType
  | C2, 4, _ => Some CRType
  | C2, 5, _ => Some CSSType
  | C2, 6, _ => Some CSSType
  | C2, 7, _ => Some CSSType
  | _, _, _ => None
  end.

Record RiscvCRTypeInstruction := {
  cr_opcode : RiscvCompressedOpcode; cr_rs2 : Z; cr_rd_rs1 : Z; cr_funct4 : Z }.

Definition crtype_fields : list bit_field := [0..=1; 2..=6; 7..=11; 12..=15].

Definition crtype_unpack (bytes : list Z) : option RiscvCRTypeInstruction :=
  match unpack_bits 2 crtype_fields bytes with
  | Some [op; rs2; rd_rs1; f4] =>
      opcode ← from_primitive RiscvCompressedOpcode_table op;
      Some {| cr_opcode := opcode; cr_rs2 := rs2; cr_rd_rs1 := rd_rs1; cr_funct4 := f4 |}
  | _ => None
  end.

Record RiscvCITypeInstruction := {
  ci_opcode : RiscvCompressedOpcode; ci_imm_part1 : Z; ci_rd_rs1 : Z; ci_imm_part2 : Z;
  ci_funct3 : Z }.

Definition citype_fields : list bit_field := [0..=1; 2..=6; 7..=11; 12..=12; 13..=15].

Definition citype_unpack (bytes : list Z) : option RiscvCITypeInstruction :=
  match unpack_bits 2 citype_fields bytes with
  | Some [op; p1; rd_rs1; p2; f3] =>
      opcode ← from_primitive RiscvCompressedOpcode_table op;
      Some {| ci_opcode := opcode; ci_imm_part1 := p1; ci_rd_rs1 := rd_rs1; ci_imm_part2 := p2;
              ci_funct3 := f3 |}
  | _ => None
  end.

Definition citype_parse_imm (i : RiscvCITypeInstruction) : option Z :=
  let p1 := ci_imm_part1 i in
  let p2 := ci_imm_part2 i in
  let sext6 :=
    sign_extend 8 32 (Z.lor (Z.lor (Z.lor (shl 8 p2 7) (shl 8 p2 6)) (shl 8 p2 5)) p1) in
  match ci_funct3 i, ci_opcode i with
  | 0, C2 => Some (Z.lor (shl 32 (Z.land p2 1) 5) p1)
  | 2, C2 => Some (Z.lor (Z.lor (shl 32 (Z.land p1 3) 6) (shl 32 p2 5)) (Z.land p1 0x1c))
  | 3, C2 => Some (Z.lor (Z.lor (shl 32 (Z.land p1 7) 6) (shl 32 p2 5)) (Z.land p1 0x18))
  | 2, C1 | 0, C1 | 1, C1 => Some sext6
  | 3, C1 =>
      if negb (ci_rd_rs1 i =? 2) then Some (shl 32 sext6 12)
      else
        let non_sign_extended_imm :=
          Z.lor (Z.lor (Z.lor (Z.lor
            (shl 32 (Z.land p2 1) 9)
            (shl 32 (Z.land (Z.shiftr p1 1) 3) 7))
            (shl 32 (Z.land (Z.shiftr p1 3) 1) 6))
            (shl 32 (Z.land p1 1) 5))
            (Z.land p1 0x10) in
        let sign_bit := negb (Z.land p2 1 =? 0) in
        let all_ones := 0x3ff in
        Some (if sign_bit then Z.lor non_sign_extended_imm (bnot 32 all_ones)
              else Z.land non_sign_extended_imm all_ones)
  | _, _ => None
  end.

Record RiscvCSSTypeInstruction := {
  css_opcode : RiscvCompressedOpcode; css_rs2 : Z; css_imm : Z; css_funct3 : Z }.

Definition csstype_fields : list bit_field := [0..=1; 2..=6; 7..=12; 13..=15].

Definition csstype_unpack (bytes : list Z) : option RiscvCSSTypeInstruction :=
  match unpack_bits 2 csstype_fields bytes with
  | Some [op; rs2; imm; f3] =>
      opcode ← from_primitive RiscvCompressedOpcode_table op;
      Some {| css_opcode := opcode; css_rs2 := rs2; css_imm := imm; css_funct3 := f3 |}
  | _ => None
  end.

Definition csstype_parse_imm (i : RiscvCSSTypeInstruction) : option Z :=
  match css_funct3 i, css_opcode i with
  | 6, C2 => Some (Z.lor (Z.land (css_imm i) 0x3c) (shl 32 (Z.land (css_imm i) 3) 6))
  | 7, C2 => Some (Z.lor (Z.land (css_imm i) 0x38) (shl 32 (Z.land (css_imm i) 7) 6))
  | _, _ => None
  end.

Record RiscvCIWTypeInstruction := {
  ciw_opcode : RiscvCompressedOpcode; ciw_compressed_rd : Z; ciw_imm : Z; ciw_funct3 : Z }.

Definition ciwtype_fields : list bit_field := [0..=1; 2..=4; 5..=12; 13..=15].

Definition ciwtype_unpack (bytes : list Z) : option RiscvCIWTypeInstruction :=
  match unpack_bits 2 ciwtype_fields bytes with
  | Some [op; rd; imm; f3] =>
      opcode ← from_primitive RiscvCompressedOpcode_table op;
      Some {| ciw_opcode := opcode; ciw_compressed_rd := rd; ciw_imm := imm; ciw_funct3 := f3 |}
  | _ => None
  end.

Definition ciwtype_parse_imm (i : RiscvCIWTypeInstruction) : option Z :=
  match ciw_funct3 i, ciw_opcode i with
  | 0, C0 =>
      Some (Z.lor (Z.lor (Z.lor
        (shl 32 (Z.land (Z.shiftr (ciw_imm i) 2) 0xf) 6)
        (shl 32 (Z.land (Z.shiftr (ciw_imm i) 6) 3) 4))
        (shl 32 (Z.land (Z.shiftr (ciw_imm i) 0) 1) 3))
        (shl 32 (Z.land (Z.shiftr (ciw_imm i) 1) 1) 2))
  | _, _ => None
  end.

Definition ciwtype_parse_rd (i : RiscvCIWTypeInstruction) : outcome Z :=
  add_chk 8 (ciw_compressed_rd i) 8.

Record RiscvCLTypeInstruction := {
  cl_opcode : RiscvCompressedOpcode; cl_compressed_rd : Z; cl_imm_part1 : Z; cl_compressed_rs1 : Z;
  cl_imm_part2 : Z; cl_funct3 : Z }.

Definition cltype_fields : list bit_field := [0..=1; 2..=4; 5..=6; 7..=9; 10..=12; 13..=15].

Definition cltype_unpack (bytes : list Z) : option RiscvCLTypeInstruction :=
  match unpack_bits 2 cltype_fields bytes with
  | Some [op; rd; p1; rs1; p2; f3] =>
      opcode ← from_primitive RiscvCompressedOpcode_table op;
      Some {| cl_opcode := opcode; cl_compressed_rd := rd; cl_imm_part1 := p1;
              cl_compressed_rs1 := rs1; cl_imm_part2 := p2; cl_funct3 := f3 |}
  | _ => None
  end.

Definition cltype_parse_imm (i : RiscvCLTypeInstruction) : option Z :=
  let imm_part1 := cl_imm_part1 i in
  let imm_part2 := cl_imm_part2 i in
  match cl_funct3 i, cl_opcode i with
  | 2, C0 =>
      Some (Z.lor (Z.lor (shl 32 (Z.land (Z.shiftr imm_part1 0) 1) 6) (shl 32 imm_part2 3))
              (shl 32 (Z.land (Z.shiftr imm_part1 1) 1) 2))
  | 3, C0 =>
      Some (Z.lor (Z.lor (shl 32 (Z.land (Z.shiftr imm_part1 1) 1) 7)
                     (shl 32 (Z.land (Z.shiftr imm_part1 0) 1) 6)) (shl 32 imm_part2 3))
  | _, _ => None
  end.

Definition cltype_parse_rs1 (i : RiscvCLTypeInstruction) : outcome Z :=
  add_chk 8 (cl_compressed_rs1 i) 8.
Definition cltype_parse_rd (i : RiscvCLTypeInstruction) : outcome Z :=
  add_chk 8 (cl_compressed_rd i) 8.

Record RiscvCSTypeInstruction := {
  cs_opcode : RiscvCompressedOpcode; cs_compressed_rs2 : Z; cs_imm_part1 : Z;
  cs_compressed_rs1 : Z; cs_imm_part2 : Z; cs_funct3 : Z }.

Definition cstype_fields : list bit_field := [0..=1; 2..=4; 5..=6; 7..=9; 10..=12; 13..=15].

Definition cstype_unpack (bytes : list Z) : option RiscvCSTypeInstruction :=
  match unpack_bits 2 cstype_fields bytes with
  | Some [op; rs2; p1; rs1; p2; f3] =>
      opcode ← from_primitive RiscvCompressedOpcode_table op;
      Some {| cs_opcode := opcode; cs_compressed_rs2 := rs2; cs_imm_part1 := p1;
              cs_compressed_rs1 := rs1; cs_imm_part2 := p2; cs_funct3 := f3 |}
  | _ => None
  end.

Definition cstype_parse_imm (i : RiscvCSTypeInstruction) : option Z :=
  let imm_part1 := cs_imm_part1 i in
  let imm_part2 := cs_imm_part2 i in
  match cs_funct3 i, cs_opcode i with
  | 6, C0 =>
      Some (Z.lor (Z.lor (shl 32 (Z.land (Z.shiftr imm_part1 0) 1) 6) (shl 32 imm_part2 3))
              (shl 32 (Z.land (Z.shiftr imm_part1 1) 1) 2))
  | 7, C0 =>
      Some (Z.lor (Z.lor (shl 32 (Z.land (Z.shiftr imm_part1 1) 1) 7)
                     (shl 32 (Z.land (Z.shiftr imm_part1 0) 1) 6)) (shl 32 imm_part2 3))
  | _, _ => None
  end.

Definition cstype_parse_rs1 (i : RiscvCSTypeInstruction) : outcome Z :=
  add_chk 8 (cs_compressed_rs1 i) 8.
Definition cstype_parse_rs2 (i : RiscvCSTypeInstruction) : outcome Z :=
  add_chk 8 (cs_compressed_rs2 i) 8.

Record RiscvCATypeInstruction := {
  ca_opcode : RiscvCompressedOpcode; ca_compressed_rs2 : Z; ca_funct2 : Z;
  ca_compressed_rd_rs1 : Z; ca_funct6 : Z }.

Definition catype_fields : list bit_field := [0..=1; 2..=4; 5..=6; 7..=9; 10..=15].

Definition catype_unpack (bytes : list Z) : option RiscvCATypeInstruction :=
  match unpack_bits 2 catype_fields bytes with
  | Some [op; rs2; f2; rd_rs1; f6] =>
      opcode ← from_primitive RiscvCompressedOpcode_table op;
      Some {| ca_opcode := opcode; ca_compressed_rs2 := rs2; ca_funct2 := f2;
              ca_compressed_rd_rs1 := rd_rs1; ca_funct6 := f6 |}
  | _ => None
  end.

Definition catype_parse_rs2 (i : RiscvCATypeInstruction) : outcome Z :=
  add_chk 8 (ca_compressed_rs2 i) 8.
Definition catype_parse_rd_rs1 (i : RiscvCATypeInstruction) : outcome Z :=
  add_chk 8 (ca_compressed_rd_rs1 i) 8.

Record RiscvCBTypeInstruction := {
  cb_opcode : RiscvCompressedOpcode; cb_imm_part1 : Z; cb_compressed_rd_rs1 : Z;
  cb_imm_part2 : Z; cb_funct3 : Z }.

Definition cbtype_fields : list bit_field := [0..=1; 2..=6; 7..=9; 10..=12; 13..=15].

Definition cbtype_unpack (bytes : list Z) : option RiscvCBTypeInstruction :=
  match unpack_bits 2 cbtype_fields bytes with
  | Some [op; p1; rd_rs1; p2; f3] =>
      opcode ← from_primitive RiscvCompressedOpcode_table op;
      Some {| cb_opcode := opcode; cb_imm_part1 := p1; cb_compressed_rd_rs1 := rd_rs1;
              cb_imm_part2 := p2; cb_funct3 := f3 |}
  | _ => None
  end.

Definition cbtype_parse_funct2 (i : RiscvCBTypeInstruction) : Z := Z.land (cb_imm_part2 i) 3.

Definition cbtype_parse_imm (i : RiscvCBTypeInstruction) : option Z :=
  let imm_part1 := cb_imm_part1 i in
  let imm_part2 := cb_imm_part2 i in
  match cb_funct3 i, cb_opcode i with
  | 6, C1 | 7, C1 =>
      let sign_bit := Z.land (Z.shiftr imm_part2 2) 1 =? 1 in
      let non_sign_extended_imm :=
        Z.lor (Z.lor (Z.lor (Z.lor
          (shl 32 (Z.land (Z.shiftr imm_part2 2) 1) 8)
          (shl 32 (Z.land (Z.shiftr imm_part1 3) 3) 6))
          (shl 32 (Z.land imm_part1 1) 5))
          (shl 32 (Z.land imm_part2 3) 3))
          (Z.land imm_part1 6) in
      let all_ones := 0x1ff in
      Some (if sign_bit then Z.lor non_sign_extended_imm (bnot 32 all_ones)
            else Z.land non_sign_extended_imm all_ones)
  | 4, C1 =>
      if negb (cbtype_parse_funct2 i =? 2) then
        Some (Z.lor (shl 32 (Z.shiftr imm_part2 2) 5) imm_part1)
      else
        Some (sign_extend 8 32
          (Z.lor (Z.lor (Z.lor (shl 8 (Z.shiftr imm_part2 2) 7) (shl 8 (Z.shiftr imm_part2 2) 6))
             (shl 8 (Z.shiftr imm_part2 2) 5)) imm_part1))
  | _, _ => None
  end.

Definition cbtype_parse_rd_rs1 (i : RiscvCBTypeInstruction) : outcome Z :=
  add_chk 8 (cb_compressed_rd_rs1 i) 8.

Record RiscvCJTypeInstruction := {
  cj_opcode : RiscvCompressedOpcode; cj_imm_bit5 : Z; cj_imm_3_1 : Z; cj_imm_bit7 : Z;
  cj_imm_bit6 : Z; cj_imm_bit10 : Z; cj_imm_9_8 : Z; cj_imm_bit4 : Z; cj_imm_bit11 : Z;
  cj_funct3 : Z }.

Definition cjtype_fields : list bit_field :=
  [0..=1; 2..=2; 3..=5; 6..=6; 7..=7; 8..=8; 9..=10; 11..=11; 12..=12; 13..=15].

Definition cjtype_unpack (bytes : list Z) : option RiscvCJTypeInstruction :=
  match unpack_bits 2 cjtype_fields bytes with
  | Some [op; b5; b3_1; b7; b6; b10; b9_8; b4; b11; f3] =>
      opcode ← from_primitive RiscvCompressedOpcode_table op;
      Some {| cj_opcode := opcode; cj_imm_bit5 := b5; cj_imm_3_1 := b3_1; cj_imm_bit7 := b7;
              cj_imm_bit6 := b6; cj_imm_bit10 := b10; cj_imm_9_8 := b9_8; cj_imm_bit4 := b4;
              cj_imm_bit11 := b11; cj_funct3 := f3 |}
  | _ => None
  end.

Definition cjtype_parse_imm (i : RiscvCJTypeInstruction) : option Z :=
  match cj_funct3 i, cj_opcode i with
  | 5, C1 =>
      let imm :=
        Z.lor (Z.lor (Z.lor (Z.lor (Z.lor (Z.lor (Z.lor (Z.lor (Z.lor (Z.lor (Z.lor
          (shl 16 (cj_imm_bit11 i) 15)
          (shl 16 (cj_imm_bit11 i) 14))
          (shl 16 (cj_imm_bit11 i) 13))
          (shl 16 (cj_imm_bit11 i) 12))
          (shl 16 (cj_imm_bit11 i) 11))
          (shl 16 (cj_imm_bit10 i) 10))
          (shl 16 (cj_imm_9_8 i) 8))
          (shl 16 (cj_imm_bit7 i) 7))
          (shl 16 (cj_imm_bit6 i) 6))
          (shl 16 (cj_imm_bit5 i) 5))
          (shl 16 (cj_imm_bit4 i) 4))
          (shl 16 (cj_imm_3_1 i) 1) in
      Some (sign_extend 16 32 imm)
  | _, _ => None
  end.

End Formats.

(** * Sign extension is two's complement *)

Lemma shl_1 u n : 0 <= n < u -> shl u 1 n = 2 ^ n.
Proof.
  intros. unfold shl. rewrite Z.shiftl_1_l. apply wrap_small. split; [apply Z.pow_nonneg; lia|].
  apply Z.pow_lt_mono_r; lia.
Qed.

Lemma land_pow2_testbit v n : 0 <= n -> (Z.land v (2 ^ n) =? 0) = negb (Z.testbit v n).
Proof.
  intros Hn. destruct (Z.testbit v n) eqn:E; simpl.
  - apply Z.eqb_neq. intros H0. apply (f_equal (fun z => Z.testbit z n)) in H0.
    by rewrite Z.land_spec, E, Z.pow2_bits_true, Z.bits_0 in H0.
  - apply Z.eqb_eq, Z.bits_inj'. intros i Hi. rewrite Z.land_spec, Z.bits_0.
    destruct (Z.eq_dec i n) as [->|]; [by rewrite E|].
    by rewrite Z.pow2_bits_false, andb_false_r by done.
Qed.

Lemma testbit_top t v : 0 < t -> in_u t v -> Z.testbit v (t - 1) = negb (v <? 2 ^ (t - 1)).
Proof.
  intros Ht [H1 H2]. pose proof (pow2_half t Ht). rewrite Z.testbit_odd, Z.shiftr_div_pow2 by lia.
  destruct (Z.ltb_spec v (2 ^ (t - 1))); simpl.
  - by rewrite Z.div_small by lia.
  - replace (v / 2 ^ (t - 1)) with 1; [done|]. apply (Z.div_unique_pos _ _ _ (v - 2 ^ (t - 1))); lia.
Qed.

Lemma bnot_ones_shiftl t u : 0 <= t <= u -> bnot u (Z.ones t) = Z.shiftl (Z.ones (u - t)) t.
Proof.
  intros. apply Z.bits_inj'. intros i Hi. unfold bnot. autorewrite with testbit.
  destruct (Z.ltb_spec i t), (Z.ltb_spec i u); simpl; try lia.
  - by rewrite Z.testbit_neg_r by lia.
  - by rewrite Z.ones_spec_low by lia.
  - by rewrite Z.ones_spec_high by lia.
Qed.

(** The two branches of an extension from [t] to [u] bits are the two cases of
    the signed value. *)
Lemma extend_spec t u v :
  0 < t <= u -> in_u t v ->
  (if negb (Z.land v (2 ^ (t - 1)) =? 0) then Z.lor v (bnot u (Z.ones t)) else Z.land v (Z.ones t))
  = wrap u (to_signed t v).
Proof.
  intros Ht Hv. rewrite land_pow2_testbit, testbit_top by (done || lia).
  unfold to_signed. destruct (Z.ltb_spec v (2 ^ (t - 1))); simpl.
  - rewrite land_ones_small by (done || lia). symmetry. apply wrap_small.
    eapply in_u_weaken; [|done]. lia.
  - rewrite bnot_ones_shiftl, lor_shiftl_add by (done || lia).
    rewrite Z.ones_equiv. unfold in_u in Hv.
    assert (2 ^ u = 2 ^ (u - t) * 2 ^ t) as Hu by (rewrite <- Z.pow_add_r by lia; f_equal; lia).
    pose proof (pow2_pos (u - t)). unfold wrap.
    apply (Z.mod_unique _ _ (-1)); nia.
Qed.

Lemma ones_split t : 0 < t -> Z.lor (2 ^ (t - 1) - 1) (2 ^ (t - 1)) = Z.ones t.
Proof.
  intros. replace (2 ^ (t - 1) - 1) with (Z.ones (t - 1)) by (rewrite Z.ones_equiv; lia).
  replace (2 ^ (t - 1)) with (Z.shiftl 1 (t - 1)) by (rewrite Z.shiftl_1_l; done).
  rewrite lor_shiftl_add; [|lia|].
  - rewrite !Z.ones_equiv. pose proof (pow2_half t). lia.
  - unfold in_u. rewrite Z.ones_equiv. pose proof (pow2_pos (t - 1)). lia.
Qed.

Lemma sign_extend_spec t u v :
  0 < t <= u -> in_u t v -> sign_extend t u v = wrap u (to_signed t v).
Proof.
  intros Ht Hv. unfold sign_extend. rewrite shl_1, ones_split by lia. by apply extend_spec.
Qed.

Lemma extend_imm_spec n v : 0 < n < 32 -> in_u n v -> extend_imm n v = wrap 32 (to_signed n v).
Proof.
  intros Hn Hv. unfold extend_imm. rewrite !shl_1 by lia.
  replace (2 ^ n - 1) with (Z.ones n) by (rewrite Z.ones_equiv; lia). apply extend_spec; (done || lia).
Qed.

(** Extending a [u32] that holds a signed value gives that value in 64 bits. *)
Lemma sign_extend_wrap32 z : - 2 ^ 31 <= z < 2 ^ 31 -> sign_extend 32 64 (wrap 32 z) = wrap 64 z.
Proof.
  intros. rewrite sign_extend_spec by (lia || by apply in_u_wrap). f_equal. by apply to_signed_wrap.
Qed.
