(* ===== verification/RiscvIsa.v ===== *)
(** The RV64IMC instruction set as the RISC-V manual defines it, written
    independently of the emulator: abstract instructions, the decoding of 32-bit
    and 16-bit encodings into them, and the value each operation computes, on
    signed and unsigned integers rather than on masks and shifts.  Only
    encodings the manual defines for user-level RV64IMC are decoded; EBREAK and
    the CSR instructions are not. *)
From S2P Require Import Prelude MachineInt.
#[local] Open Scope Z_scope.

Inductive rop :=
  ADD | SUB | SLL | SLT | SLTU | XOR | SRL | SRA | OR | AND
| MUL | MULH | MULHSU | MULHU | DIV | DIVU | REM | REMU.
Inductive ropw := ADDW | SUBW | SLLW | SRLW | SRAW | MULW | DIVW | DIVUW | REMW | REMUW.
Inductive iop := ADDI | SLTI | SLTIU | XORI | ORI | ANDI | SLLI | SRLI | SRAI.
Inductive iopw := ADDIW | SLLIW | SRLIW | SRAIW.
Inductive lop := LB | LH | LW | LD | LBU | LHU | LWU.
Inductive sop := SB | SH | SW | SD.
Inductive bop := BEQ | BNE | BLT | BGE | BLTU | BGEU.

Inductive instr :=
| Rop (op : rop) (rd rs1 rs2 : Z)
| RopW (op : ropw) (rd rs1 rs2 : Z)
| Iop (op : iop) (rd rs1 imm : Z)
| IopW (op : iopw) (rd rs1 imm : Z)
| Load (op : lop) (rd rs1 imm : Z)
| Store (op : sop) (rs1 rs2 imm : Z)
| Branch (op : bop) (rs1 rs2 imm : Z)
| Lui (rd imm : Z)
| Auipc (rd imm : Z)
| Jal (rd imm : Z)
| Jalr (rd rs1 imm : Z)
| Fence
| Ecall.

#[export] Instance rop_eq_dec : EqDecision rop.
Proof. solve_decision. Defined.
#[export] Instance ropw_eq_dec : EqDecision ropw.
Proof. solve_decision. Defined.
#[export] Instance iop_eq_dec : EqDecision iop.
Proof. solve_decision. Defined.
#[export] Instance iopw_eq_dec : EqDecision iopw.
Proof. solve_decision. Defined.
#[export] Instance lop_eq_dec : EqDecision lop.
Proof. solve_decision. Defined.
#[export] Instance sop_eq_dec : EqDecision sop.
Proof. solve_decision. Defined.
#[export] Instance bop_eq_dec : EqDecision bop.
Proof. solve_decision. Defined.
#[export] Instance instr_eq_dec : EqDecision instr.
Proof. solve_decision. Defined.

(** * Decoding 32-bit encodings *)

Definition imm_I (w : Z) : Z := to_signed 12 (bits w 20 12).
Definition imm_S (w : Z) : Z := to_signed 12 (bits w 7 5 + bits w 25 7 * 2 ^ 5).
Definition imm_B (w : Z) : Z :=
  to_signed 13 (bits w 8 4 * 2 ^ 1 + bits w 25 6 * 2 ^ 5 + bits w 7 1 * 2 ^ 11 + bits w 31 1 * 2 ^ 12).
Definition imm_U (w : Z) : Z := to_signed 32 (bits w 12 20 * 2 ^ 12).
Definition imm_J (w : Z) : Z :=
  to_signed 21 (bits w 21 10 * 2 ^ 1 + bits w 20 1 * 2 ^ 11 + bits w 12 8 * 2 ^ 12 + bits w 31 1 * 2 ^ 20).

Definition decode_op (f3 f7 : Z) : option rop :=
  match f3, f7 with
  | 0, 0 => Some ADD | 0, 32 => Some SUB | 1, 0 => Some SLL | 2, 0 => Some SLT | 3, 0 => Some SLTU
  | 4, 0 => Some XOR | 5, 0 => Some SRL | 5, 32 => Some SRA | 6, 0 => Some OR | 7, 0 => Some AND
  | 0, 1 => Some MUL | 1, 1 => Some MULH | 2, 1 => Some MULHSU | 3, 1 => Some MULHU
  | 4, 1 => Some DIV | 5, 1 => Some DIVU | 6, 1 => Some REM | 7, 1 => Some REMU
  | _, _ => None
  end.

Definition decode_op32 (f3 f7 : Z) : option ropw :=
  match f3, f7 with
  | 0, 0 => Some ADDW | 0, 32 => Some SUBW | 1, 0 => Some SLLW | 5, 0 => Some SRLW | 5, 32 => Some SRAW
  | 0, 1 => Some MULW | 4, 1 => Some DIVW | 5, 1 => Some DIVUW | 6, 1 => Some REMW | 7, 1 => Some REMUW
  | _, _ => None
  end.

Definition decode_opimm (w rd f3 rs1 : Z) : option instr :=
  match f3 with
  | 0 => Some (Iop ADDI rd rs1 (imm_I w))
  | 2 => Some (Iop SLTI rd rs1 (imm_I w))
  | 3 => Some (Iop SLTIU rd rs1 (imm_I w))
  | 4 => Some (Iop XORI rd rs1 (imm_I w))
  | 6 => Some (Iop ORI rd rs1 (imm_I w))
  | 7 => Some (Iop ANDI rd rs1 (imm_I w))
  | 1 => if bits w 26 6 =? 0 then Some (Iop SLLI rd rs1 (bits w 20 6)) else None
  | 5 => if bits w 26 6 =? 0 then Some (Iop SRLI rd rs1 (bits w 20 6))
         else if bits w 26 6 =? 16 then Some (Iop SRAI rd rs1 (bits w 20 6)) else None
  | _ => None
  end.

Definition decode_opimm32 (w rd f3 rs1 : Z) : option instr :=
  match f3 with
  | 0 => Some (IopW ADDIW rd rs1 (imm_I w))
  | 1 => if bits w 25 7 =? 0 then Some (IopW SLLIW rd rs1 (bits w 20 5)) else None
  | 5 => if bits w 25 7 =? 0 then Some (IopW SRLIW rd rs1 (bits w 20 5))
         else if bits w 25 7 =? 32 then Some (IopW SRAIW rd rs1 (bits w 20 5)) else None
  | _ => None
  end.

Definition decode_load (f3 : Z) : option lop :=
  match f3 with
  | 0 => Some LB | 1 => Some LH | 2 => Some LW | 3 => Some LD | 4 => Some LBU | 5 => Some LHU
  | 6 => Some LWU | _ => None
  end.

Definition decode_store (f3 : Z) : option sop :=
  match f3 with 0 => Some SB | 1 => Some SH | 2 => Some SW | 3 => Some SD | _ => None end.

Definition decode_branch (f3 : Z) : option bop :=
  match f3 with
  | 0 => Some BEQ | 1 => Some BNE | 4 => Some BLT | 5 => Some BGE | 6 => Some BLTU | 7 => Some BGEU
  | _ => None
  end.

Definition decode (w : Z) : option instr :=
  let rd := bits w 7 5 in
  let f3 := bits w 12 3 in
  let rs1 := bits w 15 5 in
  let rs2 := bits w 20 5 in
  let f7 := bits w 25 7 in
  match bits w 0 7 with
  | 0x33 => op ← decode_op f3 f7; Some (Rop op rd rs1 rs2)
  | 0x3b => op ← decode_op32 f3 f7; Some (RopW op rd rs1 rs2)
  | 0x13 => decode_opimm w rd f3 rs1
  | 0x1b => decode_opimm32 w rd f3 rs1
  | 0x03 => op ← decode_load f3; Some (Load op rd rs1 (imm_I w))
  | 0x23 => op ← decode_store f3; Some (Store op rs1 rs2 (imm_S w))
  | 0x63 => op ← decode_branch f3; Some (Branch op rs1 rs2 (imm_B w))
  | 0x37 => Some (Lui rd (imm_U w))
  | 0x17 => Some (Auipc rd (imm_U w))
  | 0x6f => Some (Jal rd (imm_J w))
  | 0x67 => if f3 =? 0 then Some (Jalr rd rs1 (imm_I w)) else None
  | 0x0f => if f3 =? 0 then Some Fence else None
  | 0x73 => if w =? 0x73 then Some Ecall else None
  | _ => None
  end.

(** * Decoding 16-bit encodings (chapter "C" of the manual)

    [bit i] is one bit of the halfword, [r i] the register named by three bits,
    [sx n v] the signed value of an [n]-bit immediate. *)
Section Compressed.
Context (h : Z).
Let bit (i : Z) : Z := bits h i 1.
Let r (i : Z) : Z := 8 + bits h i 3.
Let rd : Z := bits h 7 5.
Let rs2 : Z := bits h 2 5.
Let imm6 : Z := to_signed 6 (bits h 2 5 + bit 12 * 32).
Let shamt : Z := bits h 2 5 + bit 12 * 32.

Definition decode_c0 : option instr :=
  let uimm := bits h 7 4 * 64 + bits h 11 2 * 16 + bit 5 * 8 + bit 6 * 4 in
  let off_w := bit 5 * 64 + bits h 10 3 * 8 + bit 6 * 4 in
  let off_d := bits h 5 2 * 64 + bits h 10 3 * 8 in
  match bits h 13 3 with
  | 0 => if uimm =? 0 then None else Some (Iop ADDI (r 2) 2 uimm)
  | 2 => Some (Load LW (r 2) (r 7) off_w)
  | 3 => Some (Load LD (r 2) (r 7) off_d)
  | 6 => Some (Store SW (r 7) (r 2) off_w)
  | 7 => Some (Store SD (r 7) (r 2) off_d)
  | _ => None
  end.

Definition decode_c1 : option instr :=
  let imm16sp := to_signed 10
    (bit 6 * 16 + bit 2 * 32 + bit 5 * 64 + bits h 3 2 * 128 + bit 12 * 512) in
  let imm_j := to_signed 12
    (bits h 3 3 * 2 + bit 11 * 16 + bit 2 * 32 + bit 7 * 64 + bit 6 * 128 + bits h 9 2 * 256
     + bit 8 * 1024 + bit 12 * 2048) in
  let imm_b := to_signed 9
    (bits h 3 2 * 2 + bits h 10 2 * 8 + bit 2 * 32 + bits h 5 2 * 64 + bit 12 * 256) in
  match bits h 13 3 with
  | 0 => Some (Iop ADDI rd rd imm6)
  | 1 => if rd =? 0 then None else Some (IopW ADDIW rd rd imm6)
  | 2 => Some (Iop ADDI rd 0 imm6)
  | 3 => if rd =? 2 then (if imm16sp =? 0 then None else Some (Iop ADDI 2 2 imm16sp))
         else if imm6 =? 0 then None else Some (Lui rd (imm6 * 4096))
  | 4 =>
      match bits h 10 2 with
      | 0 => Some (Iop SRLI (r 7) (r 7) shamt)
      | 1 => Some (Iop SRAI (r 7) (r 7) shamt)
      | 2 => Some (Iop ANDI (r 7) (r 7) imm6)
      | _ =>
          match bit 12, bits h 5 2 with
          | 0, 0 => Some (Rop SUB (r 7) (r 7) (r 2))
          | 0, 1 => Some (Rop XOR (r 7) (r 7) (r 2))
          | 0, 2 => Some (Rop OR (r 7) (r 7) (r 2))
          | 0, 3 => Some (Rop AND (r 7) (r 7) (r 2))
          | 1, 0 => Some (RopW SUBW (r 7) (r 7) (r 2))
          | 1, 1 => Some (RopW ADDW (r 7) (r 7) (r 2))
          | _, _ => None
          end
      end
  | 5 => Some (Jal 0 imm_j)
  | 6 => Some (Branch BEQ (r 7) 0 imm_b)
  | 7 => Some (Branch BNE (r 7) 0 imm_b)
  | _ => None
  end.

Definition decode_c2 : option instr :=
  let off_lw := bits h 4 3 * 4 + bit 12 * 32 + bits h 2 2 * 64 in
  let off_ld := bits h 5 2 * 8 + bit 12 * 32 + bits h 2 3 * 64 in
  let off_sw := bits h 9 4 * 4 + bits h 7 2 * 64 in
  let off_sd := bits h 10 3 * 8 + bits h 7 3 * 64 in
  match bits h 13 3 with
  | 0 => Some (Iop SLLI rd rd shamt)
  | 2 => if rd =? 0 then None else Some (Load LW rd 2 off_lw)
  | 3 => if rd =? 0 then None else Some (Load LD rd 2 off_ld)
  | 4 =>
      if bit 12 =? 0 then
        if rs2 =? 0 then (if rd =? 0 then None else Some (Jalr 0 rd 0))
        else Some (Rop ADD rd rs2 0) (* C.MV; the manual writes x0 first, the sum is the same *)
      else if rs2 =? 0 then (if rd =? 0 then None else Some (Jalr 1 rd 0))
      else Some (Rop ADD rd rd rs2)
  | 6 => Some (Store SW 2 rs2 off_sw)
  | 7 => Some (Store SD 2 rs2 off_sd)
  | _ => None
  end.

Definition decode_compressed : option instr :=
  match bits h 0 2 with
  | 0 => decode_c0
  | 1 => decode_c1
  | 2 => decode_c2
  | _ => None
  end.
End Compressed.

(** The instruction at the start of a 32-bit fetch, and its size in bytes. *)
Definition decode_fetch (w : Z) : option (instr * Z) :=
  if bits w 0 2 =? 3 then i ← decode w; Some (i, 4)
  else i ← decode_compressed (wrap 16 w); Some (i, 2).

(** * The value an operation computes *)

(** The signed value of a register, and a 32-bit result extended to 64 bits. *)
Definition s64 (a : Z) : Z := to_signed 64 a.
Definition s32 (a : Z) : Z := to_signed 32 (wrap 32 a).
Definition sx32 (a : Z) : Z := wrap 64 (s32 a).

Definition eval_rop (op : rop) (a b : Z) : Z :=
  match op with
  | ADD => wrap 64 (a + b)
  | SUB => wrap 64 (a - b)
  | SLL => wrap 64 (a * 2 ^ (b mod 64))
  | SLT => if s64 a <? s64 b then 1 else 0
  | SLTU => if a <? b then 1 else 0
  | XOR => Z.lxor a b
  | SRL => a / 2 ^ (b mod 64)
  | SRA => wrap 64 (s64 a / 2 ^ (b mod 64))
  | OR => Z.lor a b
  | AND => Z.land a b
  | MUL => wrap 64 (a * b)
  | MULH => wrap 64 (s64 a * s64 b / 2 ^ 64)
  | MULHSU => wrap 64 (s64 a * b / 2 ^ 64)
  | MULHU => a * b / 2 ^ 64
  | DIV => if b =? 0 then 2 ^ 64 - 1 else wrap 64 (Z.quot (s64 a) (s64 b))
  | DIVU => if b =? 0 then 2 ^ 64 - 1 else a / b
  | REM => if b =? 0 then a else wrap 64 (Z.rem (s64 a) (s64 b))
  | REMU => if b =? 0 then a else a mod b
  end.

Definition eval_ropw (op : ropw) (a b : Z) : Z :=
  match op with
  | ADDW => sx32 (a + b)
  | SUBW => sx32 (a - b)
  | SLLW => sx32 (a * 2 ^ (b mod 32))
  | SRLW => sx32 (wrap 32 a / 2 ^ (b mod 32))
  | SRAW => sx32 (s32 a / 2 ^ (b mod 32))
  | MULW => sx32 (a * b)
  | DIVW => if wrap 32 b =? 0 then 2 ^ 64 - 1 else sx32 (Z.quot (s32 a) (s32 b))
  | DIVUW => if wrap 32 b =? 0 then 2 ^ 64 - 1 else sx32 (wrap 32 a / wrap 32 b)
  | REMW => if wrap 32 b =? 0 then sx32 a else sx32 (Z.rem (s32 a) (s32 b))
  | REMUW => if wrap 32 b =? 0 then sx32 a else sx32 (wrap 32 a mod wrap 32 b)
  end.

Definition eval_iop (op : iop) (a imm : Z) : Z :=
  match op with
  | ADDI => wrap 64 (a + imm)
  | SLTI => if s64 a <? imm then 1 else 0
  | SLTIU => if a <? wrap 64 imm then 1 else 0
  | XORI => Z.lxor a (wrap 64 imm)
  | ORI => Z.lor a (wrap 64 imm)
  | ANDI => Z.land a (wrap 64 imm)
  | SLLI => wrap 64 (a * 2 ^ imm)
  | SRLI => a / 2 ^ imm
  | SRAI => wrap 64 (s64 a / 2 ^ imm)
  end.

Definition eval_iopw (op : iopw) (a imm : Z) : Z :=
  match op with
  | ADDIW => sx32 (a + imm)
  | SLLIW => sx32 (a * 2 ^ imm)
  | SRLIW => sx32 (wrap 32 a / 2 ^ imm)
  | SRAIW => sx32 (s32 a / 2 ^ imm)
  end.

Definition eval_bop (op : bop) (a b : Z) : bool :=
  match op with
  | BEQ => a =? b
  | BNE => negb (a =? b)
  | BLT => s64 a <? s64 b
  | BGE => s64 b <=? s64 a
  | BLTU => a <? b
  | BGEU => b <=? a
  end.
