(* ===== verification/EmulatorMemory.v ===== *)
(** The [EmulatorMemory] trait of kernel/src/emulator.rs: what the cpu asks of
    the memory it runs on.  [EmulatorMemory] lists the operations the trait
    declares, a panic being an access the implementation refuses;
    [EmulatorMemoryOk] is the contract the cpu's theorems rely on, stated over a
    view of the memory as a partial map from addresses to bytes.  VirtMem.v
    discharges it for the kernel's virtual memory. *)
From S2P Require Import Prelude MachineInt.
#[local] Open Scope Z_scope.

Class EmulatorMemory (M : Type) := {
  read_u8_ne : M -> Z -> outcome Z;
  write_u8_ne : M -> Z -> Z -> outcome M;
  read_u16_ne : M -> Z -> outcome Z;
  write_u16_ne : M -> Z -> Z -> outcome M;
  read_u32_ne : M -> Z -> outcome Z;
  write_u32_ne : M -> Z -> Z -> outcome M;
  read_u64_ne : M -> Z -> outcome Z;
  write_u64_ne : M -> Z -> Z -> outcome M;
  read_u32_le : M -> Z -> outcome Z;
}.

(** A memory seen as a partial map from addresses to bytes. *)
Definition view := Z -> option Z.

(** The [n] bytes from [addr] on are [bs]. *)
Definition view_bytes (v : view) (addr : Z) (bs : list Z) : Prop :=
  forall i b, bs !! i = Some b -> v (addr + Z.of_nat i) = Some b.

(** Writing [bs] from [addr] on. *)
Definition view_write (v : view) (addr : Z) (bs : list Z) : view :=
  fun a =>
    if decide (addr <= a < addr + Z.of_nat (length bs))
    then bs !! Z.to_nat (a - addr) else v a.

(** What a read of [n] bytes and a write of [n] bytes promise of the view. *)
Definition read_sound {M} (wf : M -> Prop) (mem_view : M -> view) (n : nat)
    (rd : M -> Z -> outcome Z) : Prop :=
  forall m a val, wf m -> rd m a = Ret val ->
    in_u (8 * Z.of_nat n) val /\ view_bytes (mem_view m) a (to_le_bytes n val).

Definition write_sound {M} (wf : M -> Prop) (mem_view : M -> view) (n : nat)
    (wr : M -> Z -> Z -> outcome M) : Prop :=
  forall m a val m', wf m -> in_u (8 * Z.of_nat n) val -> wr m a val = Ret m' ->
    wf m' /\
    (forall a', mem_view m' a' = view_write (mem_view m) a (to_le_bytes n val) a').

Class EmulatorMemoryOk (M : Type) `{EmulatorMemory M} := {
  mem_wf : M -> Prop;
  mem_view : M -> view;
  read_u8_ok : read_sound mem_wf mem_view 1 read_u8_ne;
  read_u16_ok : read_sound mem_wf mem_view 2 read_u16_ne;
  read_u32_ok : read_sound mem_wf mem_view 4 read_u32_ne;
  read_u64_ok : read_sound mem_wf mem_view 8 read_u64_ne;
  read_u32_le_ok : read_sound mem_wf mem_view 4 read_u32_le;
  write_u8_ok : write_sound mem_wf mem_view 1 write_u8_ne;
  write_u16_ok : write_sound mem_wf mem_view 2 write_u16_ne;
  write_u32_ok : write_sound mem_wf mem_view 4 write_u32_ne;
  write_u64_ok : write_sound mem_wf mem_view 8 write_u64_ne;
}.
