(* ===== verification/VirtMem.v ===== *)
(** Virtual memory of a process: kernel/src/virtmem.rs.  A memory is a vector of
    regions, each a start address and its bytes; [add_region] refuses a region
    that shares an address with one already there, and the emulator's memory
    accesses are served by the region that contains the address. *)
From S2P Require Import Prelude MachineInt EmulatorMemory.
#[local] Open Scope Z_scope.

(** * Regions

    The offset of an address in its region is below the length of a [Vec], so
    that the cast to [usize] keeps it on every target; offsets and indices are
    [nat]. *)

Record VirtRegion := MkRegion { virtual_start : Z; backing_storage : list Z }.

#[export] Instance VirtRegion_eq_dec : EqDecision VirtRegion.
Proof. solve_decision. Defined.

Definition region_len (r : VirtRegion) : Z := Z.of_nat (length (backing_storage r)).

(** [self.virtual_start - 1 + len]: the subtraction comes first. *)
Definition get_virtual_end_inclusive (r : VirtRegion) : outcome Z :=
  let! before := sub_chk (virtual_start r) 1 in
  add_chk 64 before (region_len r).

Definition region_try_map (r : VirtRegion) (virt_addr : Z) : outcome (option nat) :=
  let! last := get_virtual_end_inclusive r in
  Ret (if (virtual_start r <=? virt_addr) && (virt_addr <=? last)
       then Some (Z.to_nat (virt_addr - virtual_start r)) else None).

Definition try_reverse_map (r : VirtRegion) (offset_in_region : nat) : outcome (option Z) :=
  if decide (length (backing_storage r) < offset_in_region)%nat then Ret None
  else let! a := add_chk 64 (Z.of_nat offset_in_region) (virtual_start r) in Ret (Some a).

Definition overlaps_virtually_with (self other : VirtRegion) : outcome bool :=
  let! other_end := get_virtual_end_inclusive other in
  if virtual_start self >? other_end then Ret false
  else
    let! self_end := get_virtual_end_inclusive self in
    if self_end <? virtual_start other then Ret false else Ret true.

Record MappingInfo := MkMapping { offset_in_region : nat; region_index : nat }.

(** * The memory *)

Abbreviation LittleEndianVirtualMemory := (list VirtRegion).

Definition new_memory : LittleEndianVirtualMemory := [].
Definition get_number_of_regions (m : LittleEndianVirtualMemory) : nat := length m.

(** [iter().enumerate().find_map(...)]: the first region that maps the address;
    [index] is the index of the head of [m]. *)
Fixpoint find_region (m : LittleEndianVirtualMemory) (virt_addr : Z) (index : nat)
  : outcome (option (VirtRegion * MappingInfo)) :=
  match m with
  | [] => Ret None
  | range :: rest =>
      let! mapped := region_try_map range virt_addr in
      match mapped with
      | Some offset => Ret (Some (range, MkMapping offset index))
      | None => find_region rest virt_addr (S index)
      end
  end.

Definition try_map (m : LittleEndianVirtualMemory) (virt_addr : Z)
  : outcome (option (VirtRegion * MappingInfo)) := find_region m virt_addr 0.

(** [iter().any(...)]. *)
Fixpoint any_overlaps (m : LittleEndianVirtualMemory) (new_range : VirtRegion) : outcome bool :=
  match m with
  | [] => Ret false
  | range :: rest =>
      let! b := overlaps_virtually_with range new_range in
      if b then Ret true else any_overlaps rest new_range
  end.

Definition add_region (m : LittleEndianVirtualMemory) (virt_addr : Z) (data : list Z)
  : outcome (LittleEndianVirtualMemory * option unit) :=
  let new_range := MkRegion virt_addr data in
  let! b := any_overlaps m new_range in
  if b then Ret (m, None) else Ret (m ++ [new_range], Some ()).

(** [Vec::remove] panics when the index is out of range. *)
Definition remove_region (m : LittleEndianVirtualMemory) (region_index : nat)
  : outcome LittleEndianVirtualMemory :=
  if decide (region_index < length m)%nat then Ret (delete region_index m) else Panic.

Definition clear_regions (m : LittleEndianVirtualMemory) : LittleEndianVirtualMemory := [].

(** * [impl EmulatorMemory for T: VirtualMemory] *)

(** [region.0.backing_storage[off..off + n]]. *)
Definition slice (bs : list Z) (off n : nat) : outcome (list Z) :=
  if decide (off + n <= length bs)%nat then Ret (take n (drop off bs)) else Panic.

Definition read_le (n : nat) (m : LittleEndianVirtualMemory) (addr : Z) : outcome Z :=
  let! mapped := try_map m addr in
  let! (region, info) := unwrap mapped in
  let! bytes := slice (backing_storage region) (offset_in_region info) n in
  Ret (from_le_bytes bytes).

(** [for byte in val.to_le_bytes() { storage[off + indx] = byte; indx += 1; }]. *)
Fixpoint store_bytes (bs : list Z) (off : nat) (bytes : list Z) : outcome (list Z) :=
  match bytes with
  | [] => Ret bs
  | byte :: rest =>
      if decide (off < length bs)%nat then store_bytes (<[off := byte]> bs) (S off) rest else Panic
  end.

Definition write_le (n : nat) (m : LittleEndianVirtualMemory) (addr val : Z)
  : outcome LittleEndianVirtualMemory :=
  let! mapped := try_map m addr in
  let! (region, info) := unwrap mapped in
  let! bs := store_bytes (backing_storage region) (offset_in_region info) (to_le_bytes n val) in
  Ret (<[region_index info := MkRegion (virtual_start region) bs]> m).

(** The one-byte accesses index the vector. *)
Definition read_u8 (m : LittleEndianVirtualMemory) (addr : Z) : outcome Z :=
  let! mapped := try_map m addr in
  let! (region, info) := unwrap mapped in
  unwrap (backing_storage region !! offset_in_region info).

Definition write_u8 (m : LittleEndianVirtualMemory) (addr val : Z) : outcome LittleEndianVirtualMemory :=
  let! mapped := try_map m addr in
  let! (region, info) := unwrap mapped in
  if decide (offset_in_region info < length (backing_storage region))%nat
  then Ret (<[region_index info :=
               MkRegion (virtual_start region) (<[offset_in_region info := val]> (backing_storage region))]> m)
  else Panic.

#[export] Instance virtual_memory : EmulatorMemory LittleEndianVirtualMemory := {|
  read_u8_ne := read_u8;
  write_u8_ne := write_u8;
  read_u16_ne := read_le 2;
  write_u16_ne := write_le 2;
  read_u32_ne := read_le 4;
  write_u32_ne := write_le 4;
  read_u64_ne := read_le 8;
  write_u64_ne := write_le 8;
  read_u32_le := read_le 4;
|}.

(** * Invariant *)

(** The region covers the address. *)
Definition covers (r : VirtRegion) (a : Z) : Prop :=
  virtual_start r <= a < virtual_start r + region_len r.

#[export] Instance covers_dec r a : Decision (covers r a).
Proof. unfold covers. apply _. Defined.

(** A region the kernel can serve: it does not start at address 0, it ends
    inside the address space, and it holds bytes. *)
Definition region_ok (r : VirtRegion) : Prop :=
  1 <= virtual_start r /\ virtual_start r + region_len r <= 2 ^ 64 /\
  Forall is_byte (backing_storage r).

Definition disjoint_regions (m : LittleEndianVirtualMemory) : Prop :=
  forall i j r s a, m !! i = Some r -> m !! j = Some s -> covers r a -> covers s a -> i = j.

Definition vm_wf (m : LittleEndianVirtualMemory) : Prop := Forall region_ok m /\ disjoint_regions m.

(** The byte at an address. *)
Definition region_get (r : VirtRegion) (a : Z) : option Z :=
  if decide (covers r a) then backing_storage r !! Z.to_nat (a - virtual_start r) else None.
Definition vm_view (m : LittleEndianVirtualMemory) : view :=
  fun a => head (omap (fun r => region_get r a) m).

(** * Mapping an address *)

Lemma region_end_ok r : region_ok r -> get_virtual_end_inclusive r = Ret (virtual_start r - 1 + region_len r).
Proof.
  intros (H1 & H2 & _). unfold get_virtual_end_inclusive. rewrite sub_chk_ok by lia. cbn [obind].
  apply add_chk_ok. unfold region_len in *. lia.
Qed.

Lemma region_try_map_ok r a :
  region_ok r -> region_try_map r a =
  Ret (if decide (covers r a) then Some (Z.to_nat (a - virtual_start r)) else None).
Proof.
  intros Hr. unfold region_try_map. rewrite region_end_ok by done. cbn [obind]. f_equal.
  unfold covers. destruct (Z.leb_spec (virtual_start r) a),
    (Z.leb_spec a (virtual_start r - 1 + region_len r)); simpl; case_decide; (done || lia).
Qed.

(** The first region that covers the address answers; mapping never panics. *)
Lemma find_region_ok m a k :
  Forall region_ok m ->
  find_region m a k =
  Ret ((fun p => (p.2, MkMapping (Z.to_nat (a - virtual_start p.2)) (k + p.1))) <$>
       list_find (fun r => covers r a) m).
Proof.
  intros Hm. revert k. induction Hm as [|r m Hr Hm IH]; intros k; [done|].
  cbn [find_region list_find]. rewrite region_try_map_ok by done. cbn [obind].
  destruct (decide (covers r a)).
  - simpl. by rewrite Nat.add_0_r.
  - rewrite IH. rewrite <- option_fmap_compose. f_equal. apply option_fmap_ext.
    intros [i s]. simpl. by rewrite Nat.add_succ_r.
Qed.

Lemma disjoint_head r m i s a :
  disjoint_regions (r :: m) -> m !! i = Some s -> covers s a -> covers r a -> False.
Proof. intros Hd Hi Hs Hr. by specialize (Hd 0%nat (S i) r s a eq_refl Hi Hr Hs). Qed.

Lemma disjoint_tail r m : disjoint_regions (r :: m) -> disjoint_regions m.
Proof. intros Hd i j s t a Hi Hj Hs Ht. specialize (Hd (S i) (S j) s t a Hi Hj Hs Ht). lia. Qed.

Lemma list_find_covers m a i r :
  disjoint_regions m -> m !! i = Some r -> covers r a ->
  list_find (fun r => covers r a) m = Some (i, r).
Proof.
  intros Hd Hi Hc. apply list_find_Some. split_and!; [done|done|].
  intros j s Hj Hlt Hs. specialize (Hd i j r s a Hi Hj Hc Hs). lia.
Qed.

Lemma try_map_covers m a i r :
  vm_wf m -> m !! i = Some r -> covers r a ->
  try_map m a = Ret (Some (r, MkMapping (Z.to_nat (a - virtual_start r)) i)).
Proof.
  intros [Hok Hd] Hi Hc. unfold try_map. rewrite find_region_ok by done.
  by rewrite (list_find_covers m a i r).
Qed.

Lemma try_map_inv m a r info :
  vm_wf m -> try_map m a = Ret (Some (r, info)) ->
  m !! region_index info = Some r /\ covers r a /\
  offset_in_region info = Z.to_nat (a - virtual_start r).
Proof.
  intros [Hok Hd]. unfold try_map. rewrite find_region_ok by done. intros [= Hf].
  apply fmap_Some in Hf as ([i s] & (Hi & Hc & _)%list_find_Some & [= -> ->]). done.
Qed.

Lemma covers_offset r a :
  covers r a -> (Z.to_nat (a - virtual_start r) < length (backing_storage r))%nat.
Proof. unfold covers, region_len. lia. Qed.

(** * The view *)

Lemma region_get_covers r a : covers r a -> is_Some (region_get r a).
Proof.
  intros Hc. unfold region_get. rewrite decide_True by done.
  by apply lookup_lt_is_Some_2, covers_offset.
Qed.

Lemma vm_view_covers m a i r :
  disjoint_regions m -> m !! i = Some r -> covers r a -> vm_view m a = region_get r a.
Proof.
  unfold vm_view. revert i. induction m as [|s m IH]; intros i Hd Hi Hc; [done|].
  destruct i as [|i]; simplify_eq/=.
  - by destruct (region_get_covers r a Hc) as [b ->].
  - unfold region_get at 1. rewrite decide_False by (intros ?; by eapply disjoint_head).
    eapply IH; eauto using disjoint_tail.
Qed.

Lemma vm_view_None m a : (forall i r, m !! i = Some r -> ~ covers r a) -> vm_view m a = None.
Proof.
  unfold vm_view. induction m as [|s m IH]; intros Hn; [done|]. simpl.
  unfold region_get at 1. rewrite decide_False by (by apply (Hn 0%nat)).
  apply IH. intros i. apply (Hn (S i)).
Qed.

Lemma vm_view_insert_other m i r r' a :
  m !! i = Some r -> region_get r' a = region_get r a -> vm_view (<[i := r']> m) a = vm_view m a.
Proof.
  unfold vm_view. revert i. induction m as [|s m IH]; intros i Hi He; [done|].
  destruct i as [|i]; simplify_eq/=; [by rewrite He|].
  case_match; [done|]. by apply (IH i).
Qed.

(** Replacing the bytes of a region keeps the invariant. *)
Lemma vm_wf_insert m i r bs :
  vm_wf m -> m !! i = Some r -> length bs = length (backing_storage r) -> Forall is_byte bs ->
  vm_wf (<[i := MkRegion (virtual_start r) bs]> m).
Proof.
  intros [Hok Hd] Hi Hlen Hb. set (r' := MkRegion (virtual_start r) bs).
  assert (forall a, covers r' a -> covers r a) as Hcov by (unfold covers, region_len; simpl; by rewrite Hlen).
  assert (forall j s, <[i := r']> m !! j = Some s -> exists s', m !! j = Some s' /\ forall a, covers s a -> covers s' a)
    as Hl.
  { intros j s [(<- & <- & _)|[_ Hj]]%list_lookup_insert_Some; eauto. }
  split.
  - apply Forall_insert; [done|]. destruct (Forall_lookup_1 _ _ _ _ Hok Hi) as (H1 & H2 & _).
    split_and!; [done| |done]. unfold region_len in *. simpl. by rewrite Hlen.
  - intros j k s t a (s' & Hs' & Hs)%Hl (t' & Ht' & Ht)%Hl Ha Hb'. eapply Hd; eauto.
Qed.

(** * Reads and writes *)

Lemma store_bytes_spec bytes bs off bs' :
  (off <= length bs)%nat -> store_bytes bs off bytes = Ret bs' ->
  length bs' = length bs /\ (off + length bytes <= length bs)%nat /\
  (forall k, bs' !! k = if decide (off <= k < off + length bytes)%nat then bytes !! (k - off)%nat
                        else bs !! k).
Proof.
  revert bs off. induction bytes as [|b bytes IH]; intros bs off Hoff Hs; simplify_eq/=.
  - split_and!; [done|lia|]. intros k. rewrite decide_False by lia. done.
  - case_decide; [|done]. destruct (IH (<[off := b]> bs) (S off) ltac:(rewrite length_insert; lia) Hs) as (H1 & H2 & H3).
    rewrite length_insert in *. split_and!; [done|lia|]. intros k. rewrite H3.
    destruct (decide (k = off)) as [->|].
    + rewrite decide_False, decide_True by lia. rewrite list_lookup_insert_eq by done.
      by rewrite Nat.sub_diag.
    + rewrite list_lookup_insert_ne by done. case_decide; case_decide; try lia; [|done].
      replace (k - off)%nat with (S (k - S off)) by lia. done.
Qed.

Lemma store_bytes_ok bytes bs off :
  (off + length bytes <= length bs)%nat -> exists bs', store_bytes bs off bytes = Ret bs'.
Proof.
  revert bs off. induction bytes as [|b bytes IH]; intros bs off Hoff; simpl in *; [eauto|].
  rewrite decide_True by lia. apply IH. rewrite length_insert. lia.
Qed.

Lemma store_bytes_is_byte bytes bs off bs' :
  Forall is_byte bytes -> Forall is_byte bs -> store_bytes bs off bytes = Ret bs' -> Forall is_byte bs'.
Proof.
  revert bs off. induction bytes as [|b bytes IH]; intros bs off Hb Hbs Hs; simplify_eq/=; [done|].
  case_decide; [|done]. inversion Hb; subst. eapply IH; [done| |done]. by apply Forall_insert.
Qed.

(** Storing bytes in the region that covers the address is writing them to the
    view. *)
Lemma vm_view_store m a i r bytes bs' :
  vm_wf m -> m !! i = Some r -> covers r a -> Forall is_byte bytes ->
  store_bytes (backing_storage r) (Z.to_nat (a - virtual_start r)) bytes = Ret bs' ->
  vm_wf (<[i := MkRegion (virtual_start r) bs']> m) /\
  (forall a', vm_view (<[i := MkRegion (virtual_start r) bs']> m) a' = view_write (vm_view m) a bytes a').
Proof.
  intros Hm Hi Hc Hb Hs. destruct Hm as [Hok Hd] eqn:Em. clear Em.
  pose proof (covers_offset r a Hc) as Hoff.
  destruct (store_bytes_spec _ _ _ _ (Nat.lt_le_incl _ _ Hoff) Hs) as (Hlen & Hfit & Hl).
  assert (vm_wf (<[i := MkRegion (virtual_start r) bs']> m)) as Hm'.
  { apply vm_wf_insert; [done|done|done|]. eapply store_bytes_is_byte; [done| |done].
    apply (Forall_lookup_1 _ _ _ _ Hok Hi). }
  split; [done|]. intros a'. unfold view_write. destruct (decide (covers r a')) as [Hc'|Hc'].
  - rewrite (vm_view_covers _ a' i (MkRegion (virtual_start r) bs'));
      [|apply Hm'|apply list_lookup_insert_eq; by eapply lookup_lt_Some
       |unfold covers, region_len in *; simpl; by rewrite Hlen].
    unfold region_get. rewrite decide_True by (unfold covers, region_len in *; simpl; by rewrite Hlen).
    simpl. rewrite Hl. unfold covers, region_len in *. case_decide; case_decide; try lia.
    + f_equal. lia.
    + rewrite (vm_view_covers m a' i r) by done. unfold region_get. by rewrite decide_True.
  - rewrite decide_False by (unfold covers, region_len in *; lia).
    apply vm_view_insert_other with r; [done|]. unfold region_get.
    rewrite !decide_False; [done|done|]. unfold covers, region_len in *. simpl. by rewrite Hlen.
Qed.

Lemma write_le_sound n : (0 < n)%nat -> write_sound vm_wf vm_view n (write_le n).
Proof.
  intros Hn m a val m' Hm Hv Hw. unfold write_le in Hw. inv_outcome.
  match goal with H : try_map _ _ = _ |- _ => apply try_map_inv in H as (Hi & Hc & Ho); [|done] end.
  rewrite Ho in *. eapply vm_view_store; eauto using to_le_bytes_is_byte.
Qed.

Lemma slice_spec bs off n l :
  slice bs off n = Ret l -> length l = n /\ (forall k b, l !! k = Some b -> bs !! (off + k)%nat = Some b).
Proof.
  unfold slice. case_decide; [|done]. intros [= <-]. split.
  - rewrite length_take, length_drop. lia.
  - intros k b Hk. destruct (decide (k < n)%nat).
    + by rewrite lookup_take_lt, lookup_drop in Hk by lia.
    + by rewrite lookup_take_ge in Hk by lia.
Qed.

Lemma slice_is_byte bs off n l : Forall is_byte bs -> slice bs off n = Ret l -> Forall is_byte l.
Proof.
  unfold slice. case_decide; [|done]. intros Hb [= <-]. by apply Forall_take, Forall_drop.
Qed.

Lemma read_le_sound n : read_sound vm_wf vm_view n (read_le n).
Proof.
  intros m a val Hm Hr. unfold read_le in Hr. inv_outcome.
  match goal with H : try_map _ _ = _ |- _ => apply try_map_inv in H as (Hi & Hc & Ho); [|done] end.
  match goal with H : slice _ _ _ = _ |- _ =>
    pose proof (slice_spec _ _ _ _ H) as [Hlen Hl]; eapply slice_is_byte in H as Hb end;
    [|apply (Forall_lookup_1 _ _ _ _ (proj1 Hm) Hi)].
  rewrite <- Hlen at 1. split; [by apply from_le_bytes_range|].
  rewrite <- Hlen at 1. rewrite to_from_le_bytes by done. intros k b Hk. pose proof (Hl k b Hk) as Hg.
  apply lookup_lt_Some in Hg as Hlt. rewrite Ho in *.
  erewrite vm_view_covers; [|apply Hm|exact Hi|unfold covers, region_len in *; lia].
  unfold region_get. rewrite decide_True by (unfold covers, region_len in *; lia).
  rewrite <- Hg. f_equal. unfold covers in Hc. lia.
Qed.

Lemma read_u8_le m a : read_u8 m a = read_le 1 m a.
Proof.
  unfold read_u8, read_le. destruct (try_map m a) as [[[r [o i]]|]|]; simpl; try done.
  unfold slice. destruct (backing_storage r !! o) as [b|] eqn:E; simpl.
  - apply lookup_lt_Some in E as Hlt. rewrite decide_True by lia.
    erewrite drop_S by done. simpl. f_equal. lia.
  - apply lookup_ge_None in E. by rewrite decide_False by lia.
Qed.

Lemma write_u8_le m a v : in_u 8 v -> write_u8 m a v = write_le 1 m a v.
Proof.
  intros Hv. unfold write_u8, write_le. destruct (try_map m a) as [[[r [o i]]|]|]; simpl; try done.
  rewrite (Z.mod_small v 256) by done. by case_decide.
Qed.

#[export] Instance virtual_memory_ok : EmulatorMemoryOk LittleEndianVirtualMemory := {|
  mem_wf := vm_wf;
  mem_view := vm_view;
  read_u8_ok := fun m a v Hm Hr =>
    read_le_sound 1 m a v Hm (eq_trans (eq_sym (read_u8_le m a)) Hr);
  read_u16_ok := read_le_sound 2;
  read_u32_ok := read_le_sound 4;
  read_u64_ok := read_le_sound 8;
  read_u32_le_ok := read_le_sound 4;
  write_u8_ok := fun m a v m' Hm Hv Hw =>
    write_le_sound 1 ltac:(lia) m a v m' Hm Hv (eq_trans (eq_sym (write_u8_le m a v Hv)) Hw);
  write_u16_ok := write_le_sound 2 ltac:(lia);
  write_u32_ok := write_le_sound 4 ltac:(lia);
  write_u64_ok := write_le_sound 8 ltac:(lia);
|}.

(** An access succeeds when its bytes lie in one region. *)
Lemma read_le_ok n m a i r :
  vm_wf m -> m !! i = Some r -> covers r a -> a + Z.of_nat n <= virtual_start r + region_len r ->
  exists v, read_le n m a = Ret v.
Proof.
  intros Hm Hi Hc Hn. unfold read_le. rewrite (try_map_covers m a i r) by done. simpl.
  unfold slice. rewrite decide_True by (unfold covers, region_len in *; lia). simpl. eauto.
Qed.

Lemma write_le_ok n m a i r v :
  vm_wf m -> m !! i = Some r -> covers r a -> a + Z.of_nat n <= virtual_start r + region_len r ->
  exists m', write_le n m a v = Ret m'.
Proof.
  intros Hm Hi Hc Hn. unfold write_le. rewrite (try_map_covers m a i r) by done. simpl.
  destruct (store_bytes_ok (to_le_bytes n v) (backing_storage r) (Z.to_nat (a - virtual_start r)))
    as [bs ->]; [rewrite length_to_le_bytes; unfold covers, region_len in *; lia|]. simpl. eauto.
Qed.

(** Two byte lists of the same length that agree with a view are equal. *)
Lemma view_bytes_eq v a bs bs' :
  length bs = length bs' -> view_bytes v a bs -> view_bytes v a bs' -> bs = bs'.
Proof.
  intros Hlen H1 H2. apply list_eq_same_length with (length bs); [done|done|].
  intros i x y _ Hx Hy. apply H1 in Hx. apply H2 in Hy. congruence.
Qed.

Lemma view_write_bytes v a bs : view_bytes (view_write v a bs) a bs.
Proof.
  intros i b Hi. apply lookup_lt_Some in Hi as Hlt. unfold view_write.
  rewrite decide_True by lia. rewrite <- Hi. f_equal. lia.
Qed.

Lemma view_write_bytes_other v a bs a' bs' :
  a' + Z.of_nat (length bs') <= a \/ a + Z.of_nat (length bs) <= a' ->
  view_bytes (view_write v a bs) a' bs' -> view_bytes v a' bs'.
Proof.
  intros Hd Hv i b Hi. apply lookup_lt_Some in Hi as Hlt. apply Hv in Hi. unfold view_write in Hi.
  by rewrite decide_False in Hi by lia.
Qed.

(** All bytes of an access lie in one region. *)
Definition fits (m : LittleEndianVirtualMemory) (a : Z) (n : nat) : Prop :=
  exists i r, m !! i = Some r /\ covers r a /\ a + Z.of_nat n <= virtual_start r + region_len r.

Lemma read_le_fits n m a v : vm_wf m -> read_le n m a = Ret v -> fits m a n.
Proof.
  intros Hm Hr. unfold read_le in Hr. inv_outcome.
  match goal with H : try_map _ _ = _ |- _ => apply try_map_inv in H as (Hi & Hc & Ho); [|done] end.
  match goal with H : slice _ _ _ = _ |- _ => unfold slice in H; case_decide; [|done] end.
  eexists _, _. split_and!; [done|done|]. unfold covers, region_len in *. lia.
Qed.

Lemma write_le_region n m a v m' :
  vm_wf m -> write_le n m a v = Ret m' ->
  exists i r bs, m !! i = Some r /\ covers r a /\ length bs = length (backing_storage r) /\
    a + Z.of_nat n <= virtual_start r + region_len r /\ m' = <[i := MkRegion (virtual_start r) bs]> m.
Proof.
  intros Hm Hw. unfold write_le in Hw. inv_outcome.
  match goal with H : try_map _ _ = _ |- _ => apply try_map_inv in H as (Hi & Hc & Ho); [|done] end.
  match goal with H : store_bytes _ _ _ = _ |- _ =>
    rewrite Ho in H; apply store_bytes_spec in H as (H1 & H2 & _);
      [|pose proof (covers_offset _ _ Hc); lia] end.
  rewrite length_to_le_bytes in H2. eexists _, _, _. split_and!; [done|done|done| |done].
  unfold covers, region_len in *. lia.
Qed.

Lemma write_le_keeps_fit n m a v m' a' k :
  vm_wf m -> write_le n m a v = Ret m' -> fits m a' k -> fits m' a' k.
Proof.
  intros Hm (i & r & bs & Hi & Hc & Hlen & _ & ->)%write_le_region (j & s & Hj & Hs & Hf); [|done].
  destruct (decide (i = j)) as [->|].
  - exists j, (MkRegion (virtual_start r) bs). simplify_eq. unfold covers, region_len in *. simpl.
    rewrite Hlen. split_and!; [|lia..]. apply list_lookup_insert_eq. by eapply lookup_lt_Some.
  - exists j, s. by rewrite list_lookup_insert_ne.
Qed.

Lemma write_le_fits n m a v m' : vm_wf m -> write_le n m a v = Ret m' -> fits m' a n.
Proof.
  intros Hm Hw. eapply write_le_keeps_fit; [done|done|].
  apply write_le_region in Hw as (i & r & bs & Hi & Hc & _ & Hf & _); [|done]. by exists i, r.
Qed.

(** A read returns the value whose bytes the view holds. *)
Lemma read_le_of_view n m a v :
  vm_wf m -> in_u (8 * Z.of_nat n) v -> fits m a n -> view_bytes (vm_view m) a (to_le_bytes n v) ->
  read_le n m a = Ret v.
Proof.
  intros Hm Hv (i & r & Hi & Hc & Hf) Hb. destruct (read_le_ok n m a i r) as [x Hx]; [done..|].
  rewrite Hx. f_equal. destruct (read_le_sound n m a x Hm Hx) as [Rx Vx].
  apply (to_le_bytes_inj n); [done|done|].
  apply (view_bytes_eq (vm_view m) a); [by rewrite !length_to_le_bytes|done|done].
Qed.

(** * Adding regions *)

Lemma overlaps_ok r s :
  region_ok r -> region_ok s ->
  overlaps_virtually_with r s =
  Ret (bool_decide (virtual_start r <= virtual_start s - 1 + region_len s /\
                    virtual_start s <= virtual_start r - 1 + region_len r)).
Proof.
  intros Hr Hs. unfold overlaps_virtually_with. rewrite !region_end_ok by done. cbn [obind].
  rewrite Z.gtb_ltb. destruct (Z.ltb_spec (virtual_start s - 1 + region_len s) (virtual_start r)).
  - f_equal. symmetry. apply bool_decide_eq_false. lia.
  - destruct (Z.ltb_spec (virtual_start r - 1 + region_len r) (virtual_start s)); f_equal; symmetry;
      [apply bool_decide_eq_false|apply bool_decide_eq_true]; lia.
Qed.

Lemma any_overlaps_ok m s :
  Forall region_ok m -> region_ok s ->
  any_overlaps m s = Ret (existsb (fun r =>
    bool_decide (virtual_start r <= virtual_start s - 1 + region_len s /\
                 virtual_start s <= virtual_start r - 1 + region_len r)) m).
Proof.
  intros Hm Hs. induction Hm as [|r m Hr Hm IH]; [done|]. cbn [any_overlaps existsb].
  rewrite overlaps_ok by done. cbn [obind]. destruct (bool_decide _); simpl; auto.
Qed.

Lemma disjoint_app m s :
  disjoint_regions m -> (forall r a, r ∈ m -> covers r a -> covers s a -> False) ->
  disjoint_regions (m ++ [s]).
Proof.
  intros Hd Hs i j r t a Hi Hj Hr Ht.
  apply lookup_app_Some in Hi, Hj. rewrite ?list_lookup_singleton_Some in Hi, Hj.
  destruct Hi as [Hi|(? & ? & <-)], Hj as [Hj|(? & ? & <-)]; [by eapply Hd|..|lia].
  - exfalso. eapply Hs; eauto using list_elem_of_lookup_2.
  - exfalso. eapply Hs; eauto using list_elem_of_lookup_2.
Qed.

Lemma overlap_witness r s :
  s.(backing_storage) <> [] ->
  virtual_start r <= virtual_start s - 1 + region_len s ->
  virtual_start s <= virtual_start r - 1 + region_len r ->
  (exists a, covers r a /\ covers s a) \/ backing_storage r = [].
Proof.
  intros Hs H1 H2. destruct (backing_storage r) eqn:E; [by right|left].
  exists (Z.max (virtual_start r) (virtual_start s)).
  assert (0 < region_len r) by (unfold region_len; rewrite E; simpl; lia).
  assert (0 < region_len s) by (unfold region_len; destruct (backing_storage s); simpl in *; [done|lia]).
  unfold covers. lia.
Qed.

Lemma vm_wf_app m s :
  vm_wf m -> region_ok s -> (forall r a, r ∈ m -> covers r a -> covers s a -> False) ->
  vm_wf (m ++ [s]).
Proof.
  intros [Hok Hd] Hs Hn. split; [|by apply disjoint_app]. apply Forall_app. split; [done|by apply Forall_singleton].
Qed.

(** Two regions that lie one after the other. *)
Definition apart (r s : VirtRegion) : Prop :=
  virtual_start r + region_len r <= virtual_start s \/ virtual_start s + region_len s <= virtual_start r.

(** A region apart from all others is added. *)
Lemma add_region_apart m a data :
  vm_wf m -> region_ok (MkRegion a data) -> Forall (fun r => apart r (MkRegion a data)) m ->
  add_region m a data = Ret (m ++ [MkRegion a data], Some ()) /\ vm_wf (m ++ [MkRegion a data]).
Proof.
  intros Hm Hs Ha. unfold add_region. rewrite any_overlaps_ok by (done || apply Hm). cbn [obind].
  rewrite list.Forall_forall in Ha. split.
  - destruct (existsb _ m) eqn:E; [|done]. apply existsb_exists in E as (r & Hr & Ht%bool_decide_eq_true).
    apply list_elem_of_In in Hr. destruct (Ha r Hr); lia.
  - apply vm_wf_app; [done..|]. intros r x Hr Hx Hy. unfold covers in *. destruct (Ha r Hr); lia.
Qed.

Lemma vm_wf_delete m i : vm_wf m -> vm_wf (delete i m).
Proof.
  intros [Hok Hd]. split; [by apply Forall_delete|].
  intros j k r s a Hj Hk Hr Hs. rewrite list_lookup_delete in Hj, Hk.
  assert (forall p q, (if decide (p < i)%nat then p else S p) = (if decide (q < i)%nat then q else S q) -> p = q)
    as Hinj by (intros; repeat case_decide; lia).
  apply Hinj. repeat case_decide; by eapply Hd.
Qed.

Lemma vm_view_delete_other m i r a :
  m !! i = Some r -> ~ covers r a -> vm_view (delete i m) a = vm_view m a.
Proof.
  unfold vm_view. revert i. induction m as [|s m IH]; intros i Hi Hc; [done|].
  destruct i as [|i]; simplify_eq/=.
  - unfold region_get at 2. by rewrite decide_False.
  - case_match; [done|]. by apply (IH i).
Qed.

(** * User pointers

    A raw pointer into a region is the region's index and an offset; reading
    past the end of the region's vector is undefined behaviour, modelled as a
    panic. *)

Record UserPointer := MkPtr { inner : Z }.

Definition get_inner (p : UserPointer) : Z := inner p.

(** [(self.inner as i64 + offset as i64) as u64]. *)
Definition ptr_offset (p : UserPointer) (offset : Z) : outcome UserPointer :=
  let z := to_signed 64 (inner p) + offset in
  if (- 2 ^ 63 <=? z) && (z <? 2 ^ 63) then Ret (MkPtr (wrap 64 z)) else Panic.

Definition try_as_ptr (p : UserPointer) (m : LittleEndianVirtualMemory) : outcome (option MappingInfo) :=
  let! mapped := try_map m (inner p) in Ret (snd <$> mapped).

(** [*ptr] for a value of [n] bytes: [u8], [c_int], [usize] and [u64]. *)
Definition try_as_val (n : nat) (p : UserPointer) (m : LittleEndianVirtualMemory) : outcome (option Z) :=
  let? info := try_as_ptr p m in
  let! r := unwrap (m !! region_index info) in
  let! bytes := slice (backing_storage r) (offset_in_region info) n in
  Ret (Some (from_le_bytes bytes)).

(** [slice::from_raw_parts(ptr, count)] of bytes. *)
Definition try_as_ref (p : UserPointer) (m : LittleEndianVirtualMemory) (count : nat)
  : outcome (option (list Z)) :=
  let? info := try_as_ptr p m in
  let! r := unwrap (m !! region_index info) in
  let! bytes := slice (backing_storage r) (offset_in_region info) count in
  Ret (Some bytes).

(** * Properties *)

(** Adding a region that the kernel can serve either fails, exactly when an
    existing region meets it, and leaves the memory as it was, or appends it and
    keeps the invariant: no address is ever served by two regions. *)
Theorem add_region_spec m a data :
  vm_wf m -> Forall (fun r => backing_storage r <> []) m -> region_ok (MkRegion a data) -> data <> [] ->
  ((exists r addr, r ∈ m /\ covers r addr /\ covers (MkRegion a data) addr) /\
   add_region m a data = Ret (m, None)) \/
  ((forall r addr, r ∈ m -> covers r addr -> covers (MkRegion a data) addr -> False) /\
   add_region m a data = Ret (m ++ [MkRegion a data], Some ()) /\ vm_wf (m ++ [MkRegion a data])).
Proof.
  intros Hm Hne Hs Hd. unfold add_region. rewrite any_overlaps_ok by (done || apply Hm). cbn [obind].
  set (test := fun r => bool_decide _). destruct (existsb test m) eqn:E.
  - left. split; [|done]. apply existsb_exists in E as (r & Hr & Ht%bool_decide_eq_true).
    rewrite Forall_forall in Hne. pose proof (Hne r Hr) as Hr'. apply list_elem_of_In in Hr.
    destruct (overlap_witness r (MkRegion a data)) as [(x & Hx)|Hx]; [done|lia|lia|eauto|done].
  - right. assert (forall r addr, r ∈ m -> covers r addr -> covers (MkRegion a data) addr -> False) as Hn.
    { intros r x Hr Hx Hy. assert (existsb test m = true) as E'; [|congruence].
      apply existsb_exists. exists r. split; [by apply list_elem_of_In|].
      apply bool_decide_eq_true. unfold covers in *. lia. }
    split_and!; [done|done|by apply vm_wf_app].
Qed.

(** C12: a 2-, 4- or 8-byte value written to memory is read back from the same
    address, and a read that shares no byte with the write sees what it saw
    before. *)
Theorem read_after_write n k m a v m' :
  (0 < n)%nat -> vm_wf m -> in_u (8 * Z.of_nat n) v -> write_le n m a v = Ret m' ->
  vm_wf m' /\ read_le n m' a = Ret v /\
  (forall a' x, a' + Z.of_nat k <= a \/ a + Z.of_nat n <= a' ->
     read_le k m a' = Ret x -> (0 < k)%nat -> read_le k m' a' = Ret x).
Proof.
  intros Hn Hm Hv Hw. destruct (write_le_sound n Hn m a v m' Hm Hv Hw) as [Hm' Hview].
  split; [done|]. split.
  - eapply read_le_of_view; [done|done|exact (write_le_fits _ _ _ _ _ Hm Hw)|].
    intros i b Hi. rewrite Hview. by apply view_write_bytes.
  - intros a' x Ha Hx Hk. destruct (read_le_sound k m a' x Hm Hx) as [Rx Vx].
    eapply read_le_of_view; [done|done|exact (write_le_keeps_fit _ _ _ _ _ _ _ Hm Hw (read_le_fits _ _ _ _ Hm Hx))|].
    intros i b Hi. rewrite Hview. apply lookup_lt_Some in Hi as Hlt. rewrite length_to_le_bytes in Hlt.
    unfold view_write. rewrite length_to_le_bytes, decide_False by lia. by apply Vx.
Qed.

(** A multi-byte read returns exactly when all its bytes lie in one region;
    an access that crosses the end of its region stops the machine. *)
Theorem read_returns_iff n m a :
  (0 < n)%nat -> vm_wf m ->
  (exists v, read_le n m a = Ret v) <->
  (exists i r, m !! i = Some r /\ virtual_start r <= a /\
               a + Z.of_nat n <= virtual_start r + region_len r).
Proof.
  intros Hn Hm. split.
  - intros [v Hv]. destruct (read_le_fits n m a v Hm Hv) as (i & r & Hi & Hc & Hf).
    exists i, r. unfold covers in Hc. split_and!; [done|lia|done].
  - intros (i & r & Hi & H1 & H2). eapply read_le_ok; [done|done| |done]. unfold covers. lia.
Qed.

(** Removing a region unmaps its addresses and no other, and keeps the
    invariant. *)
Theorem remove_region_unmaps m i r :
  vm_wf m -> m !! i = Some r ->
  exists m', remove_region m i = Ret m' /\ vm_wf m' /\
    (forall a, vm_view m' a = if decide (covers r a) then None else vm_view m a).
Proof.
  intros Hm Hi. exists (delete i m). unfold remove_region.
  rewrite decide_True by (by eapply lookup_lt_Some). split_and!; [done|by apply vm_wf_delete|].
  intros a. case_decide as Hc; [|by apply vm_view_delete_other with r].
  apply vm_view_None. intros j s Hj Hs. rewrite list_lookup_delete in Hj.
  assert ((if decide (j < i)%nat then j else S j) = i) as E.
  { eapply (proj2 Hm); eauto. }
  case_decide; lia.
Qed.

(** A region at virtual address 0 is accepted into an empty memory, and from
    then on every address lookup panics: [virtual_start - 1] underflows. *)
Theorem region_at_zero_panics data a :
  add_region [] 0 data = Ret ([MkRegion 0 data], Some ()) /\
  try_map [MkRegion 0 data] a = Panic.
Proof. done. Qed.

(** * Runs on a concrete memory *)

Definition demo_memory : LittleEndianVirtualMemory :=
  [MkRegion 0x1000 [1; 2; 3; 4; 5; 6; 7; 8]; MkRegion 0x2000 [9; 10]].

Lemma demo_memory_wf : vm_wf demo_memory.
Proof.
  split.
  - repeat (constructor; [unfold region_ok, region_len; simpl; split_and!;
      [lia|lia|repeat (constructor; [done|]); constructor]|]). constructor.
  - intros [|[|i]] [|[|j]] r s a Hr Hs; simplify_eq/=; unfold covers, region_len; simpl; lia.
Qed.

Lemma add_region_spec_witness :
  add_region demo_memory 0x3000 [1] = Ret (demo_memory ++ [MkRegion 0x3000 [1]], Some ()).
Proof.
  destruct (add_region_spec demo_memory 0x3000 [1]) as [[_ E]|[_ [E _]]].
  - exact demo_memory_wf.
  - repeat constructor; discriminate.
  - split_and!; [simpl; lia|unfold region_len; simpl; lia|repeat constructor; done].
  - discriminate.
  - discriminate E.
  - exact E.
Defined.

Lemma read_after_write_witness :
  exists m', write_le 4 demo_memory 0x1002 0xdeadbeef = Ret m' /\ read_le 4 m' 0x1002 = Ret 0xdeadbeef.
Proof.
  eexists. split; [reflexivity|].
  refine (proj1 (proj2 (read_after_write 4 4 demo_memory 0x1002 0xdeadbeef _ _ _ _ _))).
  - lia.
  - exact demo_memory_wf.
  - done.
  - reflexivity.
Defined.

Lemma read_returns_iff_witness : exists v, read_le 8 demo_memory 0x1000 = Ret v.
Proof.
  apply (read_returns_iff 8 demo_memory 0x1000); [lia|exact demo_memory_wf|].
  exists 0%nat, (MkRegion 0x1000 [1; 2; 3; 4; 5; 6; 7; 8]). unfold region_len. simpl. split; [done|lia].
Defined.

Lemma remove_region_unmaps_witness :
  exists m', remove_region demo_memory 1 = Ret m' /\ vm_wf m'.
Proof.
  destruct (remove_region_unmaps demo_memory 1 (MkRegion 0x2000 [9; 10])) as (m' & Hm & Hwf & _).
  - exact demo_memory_wf.
  - done.
  - exists m'. split; [exact Hm|exact Hwf].
Defined.
