(* ===== verification/Cpu.v ===== *)
(** [Riscv64Cpu] of kernel/src/emulator.rs: registers, program counter and
    memory, the expansion of compressed instructions, and the execution of one
    instruction.  The syscall handler the cpu holds as a function pointer, and
    the process data it is called with, are parameters of [tick]. *)
From S2P Require Import Prelude MachineInt PackedStruct RiscvInst EmulatorMemory.
#[local] Open Scope Z_scope.

Inductive CpuAction := NONE | REPEAT_INSTRUCTION | RAISE_EXCEPTION.

#[export] Instance CpuAction_eq_dec : EqDecision CpuAction.
Proof. solve_decision. Defined.

Record Riscv64Cpu (M : Type) := MkCpu {
  program_counter : Z;
  registers : list Z;
  memory : M;
}.
Arguments MkCpu {M} _ _ _.
Arguments program_counter {M} _.
Arguments registers {M} _.
Arguments memory {M} _.

Definition set_pc {M} (c : Riscv64Cpu M) (pc : Z) : Riscv64Cpu M := MkCpu pc (registers c) (memory c).
Definition set_memory {M} (c : Riscv64Cpu M) (m : M) : Riscv64Cpu M :=
  MkCpu (program_counter c) (registers c) m.

Definition cpu_from {M} (mem : M) (start_address : Z) : Riscv64Cpu M :=
  MkCpu start_address (replicate 31 0) mem.

Definition reset_registers {M} (c : Riscv64Cpu M) (start_address : Z) : Riscv64Cpu M :=
  MkCpu start_address (replicate 31 0) (memory c).

(** Register [n] is element [n - 1] of the array; an index out of range panics. *)
Definition write_reg {M} (c : Riscv64Cpu M) (reg_n val : Z) : outcome (Riscv64Cpu M) :=
  if negb (reg_n =? 0) then
    let i := Z.to_nat (reg_n - 1) in
    if decide (i < length (registers c))%nat
    then Ret (MkCpu (program_counter c) (<[i := val]> (registers c)) (memory c))
    else Panic
  else Ret c.

Definition read_reg {M} (c : Riscv64Cpu M) (reg_n : Z) : outcome Z :=
  if reg_n =? 0 then Ret 0 else unwrap (registers c !! Z.to_nat (reg_n - 1)).

(** [iW::wrapping_div], [wrapping_rem] on values in their [uW] representation:
    a zero divisor panics, the overflowing quotient wraps. *)
Definition wrapping_div_signed (w a b : Z) : outcome Z :=
  if b =? 0 then Panic else Ret (wrap w (Z.quot (to_signed w a) (to_signed w b))).
Definition wrapping_rem_signed (w a b : Z) : outcome Z :=
  if b =? 0 then Panic else Ret (wrap w (Z.rem (to_signed w a) (to_signed w b))).

(** [(a as iW) >> n]: an arithmetic shift, back in [uW]. *)
Definition sar_chk (w a n : Z) : outcome Z :=
  if n <? w then Ret (wrap w (Z.shiftr (to_signed w a) n)) else Panic.

Section Cpu.
Context {PS : PackedStruct}.
Context {M PD : Type} `{EmulatorMemory M}.

(** The function the cpu calls on ECALL: it may change the cpu and the process
    data. *)
Context (syscall : Riscv64Cpu M -> PD -> outcome (Riscv64Cpu M * PD * CpuAction)).

Implicit Types c : Riscv64Cpu M.

(** * Expansion of compressed instructions: the first half of [tick] *)

(** [u32::from_msb_bytes(&inst.pack().ok()?)]. *)
Definition repack (bytes : option (list Z)) : option Z := from_msb_bytes <$> bytes.

Definition repack_r (opcode : RiscvOpcode) (rd funct3 rs1 rs2 funct7 : Z) : outcome (option Z) :=
  Ret (repack (rtype_pack {| r_opcode := opcode; r_rd := rd; r_funct3 := funct3; r_rs1 := rs1;
                             r_rs2 := rs2; r_funct7 := funct7 |})).
Definition repack_i (opcode : RiscvOpcode) (rd funct3 rs1 imm : Z) : outcome (option Z) :=
  Ret (repack (itype_pack (itype_from opcode rd funct3 rs1 imm))).
Definition repack_s (opcode : RiscvOpcode) (funct3 rs1 rs2 imm : Z) : outcome (option Z) :=
  Ret (repack (stype_pack (stype_from opcode funct3 rs1 rs2 imm))).
Definition repack_b (opcode : RiscvOpcode) (funct3 rs1 rs2 imm : Z) : outcome (option Z) :=
  Ret (repack (btype_pack (btype_from opcode funct3 rs1 rs2 imm))).

Definition expand_cr (instruction compressed_inst : Z) : outcome (option Z) :=
  let? inst := Ret (crtype_unpack (to_be_bytes 2 compressed_inst)) in
  match cr_funct4 inst, cr_opcode inst with
  | 8, C2 =>
      if cr_rs2 inst =? 0 then repack_i JALR 0 0 (cr_rd_rs1 inst) 0
      else repack_r OP (cr_rd_rs1 inst) 0 (cr_rs2 inst) 0 0
  | 9, C2 =>
      if cr_rs2 inst =? 0 then
        if negb (cr_rd_rs1 inst =? 0) then repack_i JALR 1 0 (cr_rd_rs1 inst) 0
        else repack_i SYSTEM 0 0 0 1
      else repack_r OP (cr_rd_rs1 inst) 0 (cr_rd_rs1 inst) (cr_rs2 inst) 0
  | _, _ => Ret (Some instruction)
  end.

Definition expand_ci (instruction compressed_inst : Z) : outcome (option Z) :=
  let? inst := Ret (citype_unpack (to_be_bytes 2 compressed_inst)) in
  let imm := Ret (citype_parse_imm inst) in
  match ci_funct3 inst, ci_opcode inst with
  | 0, C2 => let? imm := imm in repack_i OPIMM (ci_rd_rs1 inst) 1 (ci_rd_rs1 inst) imm
  | 2, C2 => let? imm := imm in repack_i LOAD (ci_rd_rs1 inst) 2 2 imm
  | 3, C2 => let? imm := imm in repack_i LOAD (ci_rd_rs1 inst) 3 2 imm
  | 2, C1 => let? imm := imm in repack_i OPIMM (ci_rd_rs1 inst) 0 0 imm
  | 3, C1 =>
      if negb (ci_rd_rs1 inst =? 2) then
        let? imm := imm in Ret (repack (utype_pack (utype_from LUI (ci_rd_rs1 inst) imm)))
      else let? imm := imm in repack_i OPIMM 2 0 2 imm
  | 0, C1 => let? imm := imm in repack_i OPIMM (ci_rd_rs1 inst) 0 (ci_rd_rs1 inst) imm
  | 1, C1 => let? imm := imm in repack_i OPIMM32 (ci_rd_rs1 inst) 0 (ci_rd_rs1 inst) imm
  | _, _ => Ret (Some instruction)
  end.

Definition expand_css (instruction compressed_inst : Z) : outcome (option Z) :=
  let? inst := Ret (csstype_unpack (to_be_bytes 2 compressed_inst)) in
  match css_funct3 inst, css_opcode inst with
  | 6, C2 => let? imm := Ret (csstype_parse_imm inst) in repack_s STORE 2 2 (css_rs2 inst) imm
  | 7, C2 => let? imm := Ret (csstype_parse_imm inst) in repack_s STORE 3 2 (css_rs2 inst) imm
  | _, _ => Ret (Some instruction)
  end.

Definition expand_ciw (instruction compressed_inst : Z) : outcome (option Z) :=
  let? inst := Ret (ciwtype_unpack (to_be_bytes 2 compressed_inst)) in
  match ciw_funct3 inst, ciw_opcode inst with
  | 0, C0 =>
      let! rd := ciwtype_parse_rd inst in
      let? imm := Ret (ciwtype_parse_imm inst) in
      Ret (from_be_bytes <$> itype_pack (itype_from OPIMM rd 0 2 imm))
  | _, _ => Ret (Some instruction)
  end.

Definition expand_cl (instruction compressed_inst : Z) : outcome (option Z) :=
  let? inst := Ret (cltype_unpack (to_be_bytes 2 compressed_inst)) in
  match cl_funct3 inst, cl_opcode inst with
  | 2, C0 =>
      let! rd := cltype_parse_rd inst in
      let! rs1 := cltype_parse_rs1 inst in
      let? imm := Ret (cltype_parse_imm inst) in repack_i LOAD rd 2 rs1 imm
  | 3, C0 =>
      let! rd := cltype_parse_rd inst in
      let! rs1 := cltype_parse_rs1 inst in
      let? imm := Ret (cltype_parse_imm inst) in repack_i LOAD rd 3 rs1 imm
  | _, _ => Ret (Some instruction)
  end.

Definition expand_cs (instruction compressed_inst : Z) : outcome (option Z) :=
  let? inst := Ret (cstype_unpack (to_be_bytes 2 compressed_inst)) in
  match cs_funct3 inst, cs_opcode inst with
  | 6, C0 =>
      let! rs1 := cstype_parse_rs1 inst in
      let! rs2 := cstype_parse_rs2 inst in
      let? imm := Ret (cstype_parse_imm inst) in repack_s STORE 2 rs1 rs2 imm
  | 7, C0 =>
      let! rs1 := cstype_parse_rs1 inst in
      let! rs2 := cstype_parse_rs2 inst in
      let? imm := Ret (cstype_parse_imm inst) in repack_s STORE 3 rs1 rs2 imm
  | _, _ => Ret (Some instruction)
  end.

Definition expand_ca (instruction compressed_inst : Z) : outcome (option Z) :=
  let? inst := Ret (catype_unpack (to_be_bytes 2 compressed_inst)) in
  let arith opcode funct3 funct7 :=
    let! rd_rs1 := catype_parse_rd_rs1 inst in
    let! rs2 := catype_parse_rs2 inst in
    repack_r opcode rd_rs1 funct3 rd_rs1 rs2 funct7 in
  match ca_funct6 inst, ca_funct2 inst, ca_opcode inst with
  | 0x23, 3, C1 => arith OP 7 0
  | 0x23, 2, C1 => arith OP 6 0
  | 0x23, 1, C1 => arith OP 4 0
  | 0x23, 0, C1 => arith OP 0 0x20
  | 0x27, 1, C1 => arith OP32 0 0
  | 0x27, 0, C1 => arith OP32 0 0x20
  | _, _, _ => Ret (Some instruction)
  end.

Definition expand_cb (instruction compressed_inst : Z) : outcome (option Z) :=
  let? inst := Ret (cbtype_unpack (to_be_bytes 2 compressed_inst)) in
  let imm := Ret (cbtype_parse_imm inst) in
  match cb_funct3 inst, cb_opcode inst with
  | 6, C1 =>
      let! rs1 := cbtype_parse_rd_rs1 inst in
      let? imm := imm in repack_b BRANCH 0 rs1 0 imm
  | 7, C1 =>
      let! rs1 := cbtype_parse_rd_rs1 inst in
      let? imm := imm in repack_b BRANCH 1 rs1 0 imm
  | 4, C1 =>
      match cbtype_parse_funct2 inst with
      | 0 =>
          let! rd_rs1 := cbtype_parse_rd_rs1 inst in
          let? imm := imm in repack_i OPIMM rd_rs1 5 rd_rs1 imm
      | 1 =>
          let! rd_rs1 := cbtype_parse_rd_rs1 inst in
          let? imm := imm in repack_i OPIMM rd_rs1 5 rd_rs1 (Z.lor imm 0x400)
      | 2 =>
          let! rd_rs1 := cbtype_parse_rd_rs1 inst in
          let? imm := imm in repack_i OPIMM rd_rs1 7 rd_rs1 imm
      | _ => Ret (Some instruction)
      end
  | _, _ => Ret (Some instruction)
  end.

Definition expand_cj (instruction compressed_inst : Z) : outcome (option Z) :=
  let? inst := Ret (cjtype_unpack (to_be_bytes 2 compressed_inst)) in
  match cj_funct3 inst, cj_opcode inst with
  | 5, C1 =>
      let? imm := Ret (cjtype_parse_imm inst) in
      Ret (repack (jtype_pack (jtype_from JAL 0 imm)))
  | _, _ => Ret (Some instruction)
  end.

(** [if is_compressed { ... }]: the 32-bit instruction to execute, or [None]
    when [?] left the function. *)
Definition expand_compressed (instruction : Z) : outcome (option Z) :=
  let compressed_inst := wrap 16 instruction in
  let? typ := Ret (get_compressed_instruction_type compressed_inst) in
  match typ with
  | CRType => expand_cr instruction compressed_inst
  | CIType => expand_ci instruction compressed_inst
  | CSSType => expand_css instruction compressed_inst
  | CIWType => expand_ciw instruction compressed_inst
  | CLType => expand_cl instruction compressed_inst
  | CSType => expand_cs instruction compressed_inst
  | CAType => expand_ca instruction compressed_inst
  | CBType => expand_cb instruction compressed_inst
  | CJType => expand_cj instruction compressed_inst
  end.

(** * Execution *)

(** Read two registers, compute, write a third. *)
Definition alu2 c (rs1 rs2 rd : Z) (f : Z -> Z -> outcome Z) : outcome (Riscv64Cpu M) :=
  let! a := read_reg c rs1 in
  let! b := read_reg c rs2 in
  let! v := f a b in
  write_reg c rd v.

(** The M extension arms of [execute_rtype_inst]. *)
Definition execute_rtype_m c (inst : RiscvRTypeInstruction) : outcome (Riscv64Cpu M) :=
  let alu := alu2 c (r_rs1 inst) (r_rs2 inst) (r_rd inst) in
  match r_opcode inst, r_funct3 inst, r_funct7 inst with
  | OP, 0, 1 => alu (fun a b => Ret (wrapping_mul 64 a b))
  | OP, 1, 1 =>
      alu (fun a b =>
        let res := wrapping_mul 128 (sign_extend 64 128 a) (sign_extend 64 128 b) in
        Ret (wrap 64 (Z.shiftr res 64)))
  | OP, 3, 1 =>
      alu (fun a b => let res := wrapping_mul 128 a b in Ret (wrap 64 (Z.shiftr res 64)))
  | OP, 2, 1 =>
      alu (fun a b =>
        let res := wrapping_mul 128 (sign_extend 64 128 a) b in Ret (wrap 64 (Z.shiftr res 64)))
  | OP32, 0, 1 => alu (fun a b => Ret (sign_extend 32 64 (wrapping_mul 32 (wrap 32 a) (wrap 32 b))))
  | OP, 4, 1 => alu (fun a b => wrapping_div_signed 64 a b)
  | OP, 5, 1 => alu (fun a b => div_chk a b)
  | OP, 6, 1 => alu (fun a b => wrapping_rem_signed 64 a b)
  | OP, 7, 1 => alu (fun a b => rem_chk a b)
  | OP32, 4, 1 =>
      alu (fun a b => let! q := wrapping_div_signed 32 (wrap 32 a) (wrap 32 b) in
                      Ret (sign_extend 32 64 q))
  | OP32, 5, 1 =>
      alu (fun a b => let! q := div_chk (wrap 32 a) (wrap 32 b) in Ret (sign_extend 32 64 q))
  | OP32, 6, 1 =>
      alu (fun a b => let! q := wrapping_rem_signed 32 (wrap 32 a) (wrap 32 b) in
                      Ret (sign_extend 32 64 q))
  | OP32, 7, 1 =>
      alu (fun a b => let! q := rem_chk (wrap 32 a) (wrap 32 b) in Ret (sign_extend 32 64 q))
  | _, _, _ => Ret c
  end.

Definition execute_rtype_inst c (inst : RiscvRTypeInstruction) : outcome (Riscv64Cpu M) :=
  let alu := alu2 c (r_rs1 inst) (r_rs2 inst) (r_rd inst) in
  match r_opcode inst, r_funct3 inst, r_funct7 inst with
  | OP, 0, 0 => alu (fun a b => Ret (wrapping_add 64 a b))
  | OP, 0, 0x20 => alu (fun a b => Ret (wrapping_sub 64 a b))
  | OP32, 0, 0 => alu (fun a b => Ret (sign_extend 32 64 (wrapping_add 32 (wrap 32 a) (wrap 32 b))))
  | OP32, 0, 0x20 =>
      alu (fun a b => Ret (sign_extend 32 64 (wrapping_sub 32 (wrap 32 a) (wrap 32 b))))
  | OP, 2, 0 => alu (fun a b => Ret (if to_signed 64 a <? to_signed 64 b then 1 else 0))
  | OP, 3, 0 => alu (fun a b => Ret (if a <? b then 1 else 0))
  | OP, 4, 0 => alu (fun a b => Ret (Z.lxor a b))
  | OP, 6, 0 => alu (fun a b => Ret (Z.lor a b))
  | OP, 7, 0 => alu (fun a b => Ret (Z.land a b))
  | OP, 1, 0 => alu (fun a b => shl_chk 64 a (Z.land b 0x3f))
  | OP, 5, 0 => alu (fun a b => shr_chk 64 a (Z.land b 0x3f))
  | OP, 5, 0x20 => alu (fun a b => sar_chk 64 a (Z.land b 0x3f))
  | OP32, 1, 0 =>
      alu (fun a b => let! v := shl_chk 32 (wrap 32 a) (Z.land (wrap 32 b) 0x1f) in
                      Ret (sign_extend 32 64 v))
  | OP32, 5, 0 =>
      alu (fun a b => let! v := shr_chk 32 (wrap 32 a) (Z.land (wrap 32 b) 0x1f) in
                      Ret (sign_extend 32 64 v))
  | OP32, 5, 0x20 =>
      alu (fun a b => let! v := sar_chk 32 (wrap 32 a) (Z.land (wrap 32 b) 0x1f) in
                      Ret (sign_extend 32 64 v))
  | _, _, _ => execute_rtype_m c inst
  end.

(** The register-immediate arms of [execute_itype_inst]; [None] when the
    instruction is none of them. *)
Definition execute_opimm c (inst : RiscvITypeInstruction) : option (outcome (Riscv64Cpu M)) :=
  let imm64 := sign_extend_to_u64 32 (itype_parse_imm inst) in
  let alu (f : Z -> outcome Z) :=
    Some (let! a := read_reg c (i_rs1 inst) in let! v := f a in write_reg c (i_rd inst) v) in
  match i_opcode inst, i_funct3 inst with
  | OPIMM, 0 => alu (fun a => Ret (wrapping_add 64 a imm64))
  | OPIMM32, 0 =>
      alu (fun a => Ret (sign_extend 32 64 (wrapping_add 32 (wrap 32 a) (itype_parse_imm inst))))
  | OPIMM, 2 => alu (fun a => Ret (if to_signed 64 a <? to_signed 64 imm64 then 1 else 0))
  | OPIMM, 3 => alu (fun a => Ret (if a <? imm64 then 1 else 0))
  | OPIMM, 4 => alu (fun a => Ret (Z.lxor a imm64))
  | OPIMM, 6 => alu (fun a => Ret (Z.lor a imm64))
  | OPIMM, 7 => alu (fun a => Ret (Z.land a imm64))
  | OPIMM, 1 => alu (fun a => shl_chk 64 a (Z.land imm64 0x3f))
  | OPIMM, 5 =>
      if negb (Z.land imm64 (bnot 64 0x3f) =? 0)
      then alu (fun a => sar_chk 64 a (Z.land imm64 0x3f))
      else alu (fun a => shr_chk 64 a (Z.land imm64 0x3f))
  | OPIMM32, 1 =>
      alu (fun a => let! v := shl_chk 32 (wrap 32 a) (Z.land (itype_parse_imm inst) 0x1f) in
                    Ret (sign_extend 32 64 v))
  | OPIMM32, 5 =>
      let imm := itype_parse_imm inst in
      if negb (Z.land imm (bnot 32 0x1f) =? 0)
      then alu (fun a => let! v := sar_chk 32 (wrap 32 a) (Z.land imm 0x1f) in
                         Ret (sign_extend 32 64 v))
      else alu (fun a => let! v := shr_chk 32 (wrap 32 a) (Z.land imm 0x1f) in
                         Ret (sign_extend 32 64 v))
  | _, _ => None
  end.

(** The LOAD arms of [execute_itype_inst]. *)
Definition execute_load c (inst : RiscvITypeInstruction) : option (outcome (Riscv64Cpu M)) :=
  let load (rd : M -> Z -> outcome Z) (ext : Z -> Z) :=
    Some (let! a := read_reg c (i_rs1 inst) in
          let addr := wrapping_add 64 a (sign_extend 32 64 (itype_parse_imm inst)) in
          let! v := rd (memory c) addr in
          write_reg c (i_rd inst) (ext v)) in
  match i_opcode inst, i_funct3 inst with
  | LOAD, 0 => load read_u8_ne (sign_extend 8 64)
  | LOAD, 1 => load read_u16_ne (sign_extend 16 64)
  | LOAD, 2 => load read_u32_ne (sign_extend 32 64)
  | LOAD, 3 => load read_u64_ne (fun v => v)
  | LOAD, 6 => load read_u32_ne (fun v => v)
  | LOAD, 5 => load read_u16_ne (fun v => v)
  | LOAD, 4 => load read_u8_ne (fun v => v)
  | _, _ => None
  end.

Definition execute_itype_inst c (inst : RiscvITypeInstruction) (inst_size : Z) (proc_data : PD)
  : outcome (Riscv64Cpu M * PD * CpuAction) :=
  match execute_opimm c inst with
  | Some r => let! c' := r in Ret (c', proc_data, NONE)
  | None =>
    match execute_load c inst with
    | Some r => let! c' := r in Ret (c', proc_data, NONE)
    | None =>
      match i_opcode inst, i_funct3 inst with
      | JALR, 0 =>
          let! a := read_reg c (i_rs1 inst) in
          let new_program_counter :=
            Z.land (wrapping_add 64 (sign_extend_to_u64 32 (itype_parse_imm inst)) a) (bnot 64 1) in
          if new_program_counter =? program_counter c then Ret (c, proc_data, RAISE_EXCEPTION)
          else
            let! link := add_chk 64 (program_counter c) inst_size in
            let! c' := write_reg c (i_rd inst) link in
            Ret (set_pc c' (wrapping_sub 64 new_program_counter inst_size), proc_data, NONE)
      | SYSTEM, _ =>
          if itype_parse_imm inst =? 0 then syscall c proc_data else Ret (c, proc_data, NONE)
      | _, _ => Ret (c, proc_data, NONE)
      end
    end
  end.

Definition execute_stype_inst c (inst : RiscvSTypeInstruction) : outcome (Riscv64Cpu M) :=
  let store (wr : M -> Z -> Z -> outcome M) (cut : Z -> Z) :=
    let! a := read_reg c (s_rs1 inst) in
    let addr := wrapping_add 64 a (sign_extend 32 64 (stype_parse_imm inst)) in
    let! b := read_reg c (s_rs2 inst) in
    let! m := wr (memory c) addr (cut b) in
    Ret (set_memory c m) in
  match s_opcode inst, s_funct3 inst with
  | STORE, 0 => store write_u8_ne (wrap 8)
  | STORE, 1 => store write_u16_ne (wrap 16)
  | STORE, 2 => store write_u32_ne (wrap 32)
  | STORE, 3 => store write_u64_ne (fun v => v)
  | _, _ => Ret c
  end.

Definition execute_btype_inst c (inst : RiscvBTypeInstruction) (inst_size : Z)
  : outcome (Riscv64Cpu M) :=
  let branch (taken : Z -> Z -> bool) :=
    let! a := read_reg c (b_rs1 inst) in
    let! b := read_reg c (b_rs2 inst) in
    Ret (if taken a b
         then set_pc c (wrapping_sub 64
                (wrapping_add 64 (program_counter c) (sign_extend_to_u64 32 (btype_parse_imm inst)))
                inst_size)
         else c) in
  match b_opcode inst, b_funct3 inst with
  | BRANCH, 0 => branch (fun a b => a =? b)
  | BRANCH, 1 => branch (fun a b => negb (a =? b))
  | BRANCH, 4 => branch (fun a b => to_signed 64 a <? to_signed 64 b)
  | BRANCH, 5 => branch (fun a b => to_signed 64 b <=? to_signed 64 a)
  | BRANCH, 6 => branch (fun a b => a <? b)
  | BRANCH, 7 => branch (fun a b => b <=? a)
  | _, _ => Ret c
  end.

Definition execute_utype_inst c (inst : RiscvUTypeInstruction) : outcome (Riscv64Cpu M) :=
  match u_opcode inst with
  | LUI => write_reg c (u_rd inst) (sign_extend_to_u64 32 (utype_parse_imm inst))
  | AUIPC =>
      write_reg c (u_rd inst)
        (wrapping_add 64 (sign_extend_to_u64 32 (utype_parse_imm inst)) (program_counter c))
  | _ => Ret c
  end.

Definition execute_jtype_inst c (inst : RiscvJTypeInstruction) (inst_size : Z)
  : outcome (Riscv64Cpu M * CpuAction) :=
  match j_opcode inst with
  | JAL =>
      let new_program_counter :=
        wrapping_add 64 (sign_extend_to_u64 32 (jtype_parse_imm inst)) (program_counter c) in
      if new_program_counter =? program_counter c then Ret (c, RAISE_EXCEPTION)
      else
        let! link := add_chk 64 (program_counter c) inst_size in
        let! c' := write_reg c (j_rd inst) link in
        Ret (set_pc c' (wrapping_sub 64 new_program_counter inst_size), NONE)
  | _ => Ret (c, NONE)
  end.

(** [match opcode.get_type() { ... }] on the 32-bit instruction; [None] when an
    [unpack(..).ok()?] left [tick]. *)
Definition execute c (proc_data : PD) (instruction inst_size : Z) (opcode : RiscvOpcode)
  : outcome (option (Riscv64Cpu M * PD * CpuAction)) :=
  let bytes := to_be_bytes 4 instruction in
  match get_type opcode with
  | RType =>
      let? i := Ret (rtype_unpack bytes) in
      let! c' := execute_rtype_inst c i in Ret (Some (c', proc_data, NONE))
  | IType =>
      let? i := Ret (itype_unpack bytes) in
      let! r := execute_itype_inst c i inst_size proc_data in Ret (Some r)
  | SType =>
      let? i := Ret (stype_unpack bytes) in
      let! c' := execute_stype_inst c i in Ret (Some (c', proc_data, NONE))
  | BType =>
      let? i := Ret (btype_unpack bytes) in
      let! c' := execute_btype_inst c i inst_size in Ret (Some (c', proc_data, NONE))
  | UType =>
      let? i := Ret (utype_unpack bytes) in
      let! c' := execute_utype_inst c i in Ret (Some (c', proc_data, NONE))
  | JType =>
      let? i := Ret (jtype_unpack bytes) in
      let! (c', a) := execute_jtype_inst c i inst_size in Ret (Some (c', proc_data, a))
  end.

(** The end of [tick]: advance the program counter, report an exception. *)
Definition finish_tick c (proc_data : PD) (inst_size : Z) (action : CpuAction)
  : outcome (Riscv64Cpu M * PD * option unit) :=
  let! c :=
    if decide (action <> REPEAT_INSTRUCTION) then
      let! pc := add_chk 64 (program_counter c) inst_size in Ret (set_pc c pc)
    else Ret c in
  if decide (action = RAISE_EXCEPTION) then Ret (c, proc_data, None)
  else Ret (c, proc_data, Some ()).

(** One clock cycle: the new cpu and process data, and [None] when ticking
    failed. *)
Definition tick c (proc_data : PD) : outcome (Riscv64Cpu M * PD * option unit) :=
  let! instruction := read_u32_le (memory c) (program_counter c) in
  let is_compressed := negb (Z.land instruction 3 =? 3) in
  let inst_size := if is_compressed then 2 else 4 in
  let! expanded :=
    if is_compressed then expand_compressed instruction else Ret (Some instruction) in
  match expanded with
  | None => Ret (c, proc_data, None)
  | Some instruction =>
    match from_primitive RiscvOpcode_table (wrap 8 (Z.land instruction 0x7f)) with
    | None => Ret (c, proc_data, None)
    | Some opcode =>
      let! executed := execute c proc_data instruction inst_size opcode in
      match executed with
      | None => Ret (c, proc_data, None)
      | Some (c', proc_data', action) => finish_tick c' proc_data' inst_size action
      end
    end
  end.

End Cpu.
