(* ===== verification/Decode.v ===== *)
(** Instruction decoding: the emulator's packed records against the instruction
    set of RiscvIsa.v.  Unpacking a word yields its bit fields, each [parse_imm]
    yields the manual's immediate, and building an instruction, packing it and
    reading it back loses nothing. *)
From S2P Require Import Prelude MachineInt PackedStruct RiscvInst RiscvIsa EmulatorMemory Cpu.
#[local] Open Scope Z_scope.

(** * Generic facts on bit fields *)

Lemma bits_sub z lo len i n :
  0 <= lo <= i -> 0 <= n -> i + n <= lo + len -> bits z i n = bits (bits z lo len) (i - lo) n.
Proof.
  intros. apply Z.bits_inj'. intros k Hk. autorewrite with testbit.
  replace (k + (i - lo) + lo) with (k + i) by lia.
  destruct (Z.ltb_spec k n), (Z.ltb_spec (k + (i - lo)) len);
    rewrite ?andb_true_r, ?andb_false_r; (done || lia).
Qed.

Lemma bits_wrap z w lo len : 0 <= lo -> 0 <= len -> lo + len <= w -> bits (wrap w z) lo len = bits z lo len.
Proof.
  intros. apply Z.bits_inj'. intros k Hk. autorewrite with testbit.
  destruct (Z.ltb_spec k len), (Z.ltb_spec (k + lo) w);
    rewrite ?andb_true_r, ?andb_false_r; (done || lia).
Qed.


(** A decidable statement about words below [n], checked on each of them. *)
Lemma forall_range (n : Z) (P : Z -> bool) :
  forallb P (seqZ 0 n) = true -> forall z, 0 <= z < n -> P z = true.
Proof. intros H z Hz. rewrite forallb_forall in H. apply H, list_elem_of_In, elem_of_seqZ. lia. Qed.

(** A value below [n] is one of [0 .. n - 1]. *)
Ltac range_cases E :=
  repeat match type of E with
  | ?x = _ \/ _ => destruct E as [E|E]
  end.

Lemma cases_u2 x : in_u 2 x -> x = 0 \/ x = 1 \/ x = 2 \/ x = 3.
Proof. unfold in_u. lia. Qed.
Lemma cases_u3 x : in_u 3 x -> x = 0 \/ x = 1 \/ x = 2 \/ x = 3 \/ x = 4 \/ x = 5 \/ x = 6 \/ x = 7.
Proof. unfold in_u. lia. Qed.

Lemma NoDup_opcodes : NoDup RiscvOpcode_table.*2.
Proof. apply (bool_decide_unpack _). vm_compute. done. Qed.
Lemma NoDup_compressed_opcodes : NoDup RiscvCompressedOpcode_table.*2.
Proof. apply (bool_decide_unpack _). vm_compute. done. Qed.

(** * Immediates *)

Lemma shl_small w a n k : 0 <= n -> 0 <= k -> k + n <= w -> in_u k a -> shl w a n = Z.shiftl a n.
Proof.
  intros Hn Hk Hw [? ?]. unfold shl. apply wrap_small. rewrite Z.shiftl_mul_pow2 by lia.
  pose proof (Z.pow_le_mono_r 2 (k + n) w). pose proof (pow2_pos n).
  rewrite Z.pow_add_r in * by lia. unfold in_u. nia.
Qed.

Lemma in_u_shift_add n k a b : 0 <= n -> 0 <= k -> in_u n a -> in_u k b -> in_u (n + k) (a + b * 2 ^ n).
Proof. unfold in_u. intros. rewrite Z.pow_add_r by lia. pose proof (pow2_pos n). nia. Qed.

(** Joining a low part of [n] bits and a field of [k] bits placed at bit [n]. *)
Lemma lor_shl_field n k a b :
  0 <= n -> 0 <= k -> n + k <= 32 -> in_u n a -> in_u k b -> Z.lor a (shl 32 b n) = a + b * 2 ^ n.
Proof. intros. rewrite (shl_small 32 b n k) by (done || lia). by rewrite lor_shiftl_add. Qed.

Lemma imm_I_range w : - 2 ^ 11 <= imm_I w < 2 ^ 11.
Proof. apply (to_signed_range 12); [lia|]. apply bits_range; lia. Qed.

Lemma in_u_imm_S w : in_u 12 (bits w 7 5 + bits w 25 7 * 2 ^ 5).
Proof. apply (in_u_shift_add 5 7); try lia; apply bits_range; lia. Qed.

Lemma imm_S_range w : - 2 ^ 11 <= imm_S w < 2 ^ 11.
Proof. apply (to_signed_range 12); [lia|apply in_u_imm_S]. Qed.

Lemma in_u_imm_B w :
  in_u 5 (bits w 8 4 * 2 ^ 1) /\
  in_u 11 (bits w 8 4 * 2 ^ 1 + bits w 25 6 * 2 ^ 5) /\
  in_u 12 (bits w 8 4 * 2 ^ 1 + bits w 25 6 * 2 ^ 5 + bits w 7 1 * 2 ^ 11) /\
  in_u 13 (bits w 8 4 * 2 ^ 1 + bits w 25 6 * 2 ^ 5 + bits w 7 1 * 2 ^ 11 + bits w 31 1 * 2 ^ 12).
Proof.
  pose proof (bits_range w 8 4). pose proof (bits_range w 25 6).
  pose proof (bits_range w 7 1). pose proof (bits_range w 31 1). unfold in_u in *. simpl. lia.
Qed.

Lemma imm_B_range w : - 2 ^ 12 <= imm_B w < 2 ^ 12.
Proof. apply (to_signed_range 13); [lia|apply in_u_imm_B]. Qed.

Lemma in_u_imm_U w : in_u 32 (bits w 12 20 * 2 ^ 12).
Proof. pose proof (bits_range w 12 20). unfold in_u in *. simpl in *. lia. Qed.

Lemma imm_U_range w : - 2 ^ 31 <= imm_U w < 2 ^ 31.
Proof. apply (to_signed_range 32); [lia|apply in_u_imm_U]. Qed.

Lemma in_u_imm_J w :
  in_u 11 (bits w 21 10 * 2 ^ 1) /\
  in_u 12 (bits w 21 10 * 2 ^ 1 + bits w 20 1 * 2 ^ 11) /\
  in_u 20 (bits w 21 10 * 2 ^ 1 + bits w 20 1 * 2 ^ 11 + bits w 12 8 * 2 ^ 12) /\
  in_u 21 (bits w 21 10 * 2 ^ 1 + bits w 20 1 * 2 ^ 11 + bits w 12 8 * 2 ^ 12 + bits w 31 1 * 2 ^ 20).
Proof.
  pose proof (bits_range w 21 10). pose proof (bits_range w 20 1).
  pose proof (bits_range w 12 8). pose proof (bits_range w 31 1). unfold in_u in *. simpl. lia.
Qed.

Lemma imm_J_range w : - 2 ^ 20 <= imm_J w < 2 ^ 20.
Proof. apply (to_signed_range 21); [lia|apply in_u_imm_J]. Qed.

Lemma itype_parse_imm_word w i : i_imm i = bits w 20 12 -> itype_parse_imm i = wrap 32 (imm_I w).
Proof. intros E. unfold itype_parse_imm. rewrite E. apply extend_imm_spec, bits_range; lia. Qed.

Lemma stype_parse_imm_word w i :
  s_imm_low5 i = bits w 7 5 -> s_imm_hi7 i = bits w 25 7 -> stype_parse_imm i = wrap 32 (imm_S w).
Proof.
  intros E1 E2. unfold stype_parse_imm. rewrite E1, E2.
  rewrite (lor_shl_field 5 7) by (lia || (apply bits_range; lia)).
  apply extend_imm_spec, in_u_imm_S. lia.
Qed.

Lemma btype_parse_imm_word w i :
  b_imm_bit11 i = bits w 7 1 -> b_imm_bits_4_1 i = bits w 8 4 -> b_imm_bits_10_5 i = bits w 25 6 ->
  b_imm_bit12 i = bits w 31 1 -> btype_parse_imm i = wrap 32 (imm_B w).
Proof.
  intros E1 E2 E3 E4. unfold btype_parse_imm. rewrite E1, E2, E3, E4.
  destruct (in_u_imm_B w) as (R1 & R2 & R3 & R4).
  rewrite (shl_small 32 (bits w 8 4) 1 4), Z.shiftl_mul_pow2 by (lia || (apply bits_range; lia)).
  rewrite (lor_shl_field 5 6), (lor_shl_field 11 1), (lor_shl_field 12 1)
    by (done || lia || (apply bits_range; lia)).
  apply extend_imm_spec; (done || lia).
Qed.

Lemma utype_parse_imm_word w i :
  u_imm i = bits w 12 20 -> utype_parse_imm i = wrap 32 (imm_U w).
Proof.
  intros E. unfold utype_parse_imm. rewrite E.
  rewrite (shl_small 32 (bits w 12 20) 12 20), Z.shiftl_mul_pow2 by (lia || (apply bits_range; lia)).
  symmetry. apply wrap_to_signed; [lia|apply in_u_imm_U].
Qed.

Lemma jtype_parse_imm_word w i :
  j_imm_bits_19_12 i = bits w 12 8 -> j_imm_bit11 i = bits w 20 1 ->
  j_imm_bits_10_1 i = bits w 21 10 -> j_imm_bit20 i = bits w 31 1 ->
  jtype_parse_imm i = wrap 32 (imm_J w).
Proof.
  intros E1 E2 E3 E4. unfold jtype_parse_imm. rewrite E1, E2, E3, E4.
  destruct (in_u_imm_J w) as (R1 & R2 & R3 & R4).
  rewrite (shl_small 32 (bits w 21 10) 1 10), Z.shiftl_mul_pow2 by (lia || (apply bits_range; lia)).
  rewrite (lor_shl_field 11 1), (lor_shl_field 12 8), (lor_shl_field 20 1)
    by (done || lia || (apply bits_range; lia)).
  apply extend_imm_spec; (done || lia).
Qed.

Section Decode.
Context {PS : PackedStruct} {PSok : PackedStructOk PS}.

Lemma from_primitive_reference {A} (tbl : list (A * Z)) v :
  NoDup tbl.*2 -> from_primitive tbl v = @from_primitive reference_packed_struct A tbl v.
Proof.
  intros Hnd. apply option_eq. intros a. by rewrite !from_primitive_spec.
Qed.

(** The crate's answers on the kernel's records are those of the reference
    implementation. *)
Lemma unpack_bits_reference size fields w :
  fields_ok size fields -> in_u (8 * Z.of_nat size) w ->
  unpack_bits size fields (to_be_bytes size w)
  = @unpack_bits reference_packed_struct size fields (to_be_bytes size w).
Proof. intros. by rewrite !unpack_bits_word. Qed.

Lemma pack_bits_reference size fields values :
  fields_ok size fields -> length fields = length values ->
  pack_bits size fields values = @pack_bits reference_packed_struct size fields values.
Proof. intros. by rewrite !pack_bits_spec. Qed.

(** * Unpacking a 32-bit word *)

Definition opcode_of (w : Z) : option RiscvOpcode :=
  @from_primitive reference_packed_struct _ RiscvOpcode_table (bits w 0 7).

Lemma rtype_unpack_word w : in_u 32 w ->
  rtype_unpack (to_be_bytes 4 w) =
  opcode ← opcode_of w;
  Some {| r_opcode := opcode; r_rd := bits w 7 5; r_funct3 := bits w 12 3; r_rs1 := bits w 15 5;
          r_rs2 := bits w 20 5; r_funct7 := bits w 25 7 |}.
Proof.
  intros. unfold rtype_unpack. rewrite unpack_bits_word by (done || solve_fields_ok).
  cbn [fmap list_fmap rtype_fields]. by rewrite from_primitive_reference by apply NoDup_opcodes.
Qed.

Lemma itype_unpack_word w : in_u 32 w ->
  itype_unpack (to_be_bytes 4 w) =
  opcode ← opcode_of w;
  Some {| i_opcode := opcode; i_rd := bits w 7 5; i_funct3 := bits w 12 3; i_rs1 := bits w 15 5;
          i_imm := bits w 20 12 |}.
Proof.
  intros. unfold itype_unpack. rewrite unpack_bits_word by (done || solve_fields_ok).
  cbn [fmap list_fmap itype_fields]. by rewrite from_primitive_reference by apply NoDup_opcodes.
Qed.

Lemma stype_unpack_word w : in_u 32 w ->
  stype_unpack (to_be_bytes 4 w) =
  opcode ← opcode_of w;
  Some {| s_opcode := opcode; s_imm_low5 := bits w 7 5; s_funct3 := bits w 12 3;
          s_rs1 := bits w 15 5; s_rs2 := bits w 20 5; s_imm_hi7 := bits w 25 7 |}.
Proof.
  intros. unfold stype_unpack. rewrite unpack_bits_word by (done || solve_fields_ok).
  cbn [fmap list_fmap stype_fields]. by rewrite from_primitive_reference by apply NoDup_opcodes.
Qed.

Lemma btype_unpack_word w : in_u 32 w ->
  btype_unpack (to_be_bytes 4 w) =
  opcode ← opcode_of w;
  Some {| b_opcode := opcode; b_imm_bit11 := bits w 7 1; b_imm_bits_4_1 := bits w 8 4;
          b_funct3 := bits w 12 3; b_rs1 := bits w 15 5; b_rs2 := bits w 20 5;
          b_imm_bits_10_5 := bits w 25 6; b_imm_bit12 := bits w 31 1 |}.
Proof.
  intros. unfold btype_unpack. rewrite unpack_bits_word by (done || solve_fields_ok).
  cbn [fmap list_fmap btype_fields]. by rewrite from_primitive_reference by apply NoDup_opcodes.
Qed.

Lemma utype_unpack_word w : in_u 32 w ->
  utype_unpack (to_be_bytes 4 w) =
  opcode ← opcode_of w;
  Some {| u_opcode := opcode; u_rd := bits w 7 5; u_imm := bits w 12 20 |}.
Proof.
  intros. unfold utype_unpack. rewrite unpack_bits_word by (done || solve_fields_ok).
  cbn [fmap list_fmap utype_fields]. by rewrite from_primitive_reference by apply NoDup_opcodes.
Qed.

Lemma jtype_unpack_word w : in_u 32 w ->
  jtype_unpack (to_be_bytes 4 w) =
  opcode ← opcode_of w;
  Some {| j_opcode := opcode; j_rd := bits w 7 5; j_imm_bits_19_12 := bits w 12 8;
          j_imm_bit11 := bits w 20 1; j_imm_bits_10_1 := bits w 21 10; j_imm_bit20 := bits w 31 1 |}.
Proof.
  intros. unfold jtype_unpack. rewrite unpack_bits_word by (done || solve_fields_ok).
  cbn [fmap list_fmap jtype_fields]. by rewrite from_primitive_reference by apply NoDup_opcodes.
Qed.

(** * Unpacking a halfword *)

Definition compressed_opcode_of (h : Z) : option RiscvCompressedOpcode :=
  @from_primitive reference_packed_struct _ RiscvCompressedOpcode_table (bits h 0 2).

Lemma crtype_unpack_word h : in_u 16 h ->
  crtype_unpack (to_be_bytes 2 h) =
  opcode ← compressed_opcode_of h;
  Some {| cr_opcode := opcode; cr_rs2 := bits h 2 5; cr_rd_rs1 := bits h 7 5; cr_funct4 := bits h 12 4 |}.
Proof.
  intros. unfold crtype_unpack. rewrite unpack_bits_word by (done || solve_fields_ok).
  cbn [fmap list_fmap crtype_fields].
  by rewrite from_primitive_reference by apply NoDup_compressed_opcodes.
Qed.

Lemma citype_unpack_word h : in_u 16 h ->
  citype_unpack (to_be_bytes 2 h) =
  opcode ← compressed_opcode_of h;
  Some {| ci_opcode := opcode; ci_imm_part1 := bits h 2 5; ci_rd_rs1 := bits h 7 5;
          ci_imm_part2 := bits h 12 1; ci_funct3 := bits h 13 3 |}.
Proof.
  intros. unfold citype_unpack. rewrite unpack_bits_word by (done || solve_fields_ok).
  cbn [fmap list_fmap citype_fields].
  by rewrite from_primitive_reference by apply NoDup_compressed_opcodes.
Qed.

Lemma csstype_unpack_word h : in_u 16 h ->
  csstype_unpack (to_be_bytes 2 h) =
  opcode ← compressed_opcode_of h;
  Some {| css_opcode := opcode; css_rs2 := bits h 2 5; css_imm := bits h 7 6; css_funct3 := bits h 13 3 |}.
Proof.
  intros. unfold csstype_unpack. rewrite unpack_bits_word by (done || solve_fields_ok).
  cbn [fmap list_fmap csstype_fields].
  by rewrite from_primitive_reference by apply NoDup_compressed_opcodes.
Qed.

Lemma ciwtype_unpack_word h : in_u 16 h ->
  ciwtype_unpack (to_be_bytes 2 h) =
  opcode ← compressed_opcode_of h;
  Some {| ciw_opcode := opcode; ciw_compressed_rd := bits h 2 3; ciw_imm := bits h 5 8;
          ciw_funct3 := bits h 13 3 |}.
Proof.
  intros. unfold ciwtype_unpack. rewrite unpack_bits_word by (done || solve_fields_ok).
  cbn [fmap list_fmap ciwtype_fields].
  by rewrite from_primitive_reference by apply NoDup_compressed_opcodes.
Qed.

Lemma cltype_unpack_word h : in_u 16 h ->
  cltype_unpack (to_be_bytes 2 h) =
  opcode ← compressed_opcode_of h;
  Some {| cl_opcode := opcode; cl_compressed_rd := bits h 2 3; cl_imm_part1 := bits h 5 2;
          cl_compressed_rs1 := bits h 7 3; cl_imm_part2 := bits h 10 3; cl_funct3 := bits h 13 3 |}.
Proof.
  intros. unfold cltype_unpack. rewrite unpack_bits_word by (done || solve_fields_ok).
  cbn [fmap list_fmap cltype_fields].
  by rewrite from_primitive_reference by apply NoDup_compressed_opcodes.
Qed.

Lemma cstype_unpack_word h : in_u 16 h ->
  cstype_unpack (to_be_bytes 2 h) =
  opcode ← compressed_opcode_of h;
  Some {| cs_opcode := opcode; cs_compressed_rs2 := bits h 2 3; cs_imm_part1 := bits h 5 2;
          cs_compressed_rs1 := bits h 7 3; cs_imm_part2 := bits h 10 3; cs_funct3 := bits h 13 3 |}.
Proof.
  intros. unfold cstype_unpack. rewrite unpack_bits_word by (done || solve_fields_ok).
  cbn [fmap list_fmap cstype_fields].
  by rewrite from_primitive_reference by apply NoDup_compressed_opcodes.
Qed.

Lemma catype_unpack_word h : in_u 16 h ->
  catype_unpack (to_be_bytes 2 h) =
  opcode ← compressed_opcode_of h;
  Some {| ca_opcode := opcode; ca_compressed_rs2 := bits h 2 3; ca_funct2 := bits h 5 2;
          ca_compressed_rd_rs1 := bits h 7 3; ca_funct6 := bits h 10 6 |}.
Proof.
  intros. unfold catype_unpack. rewrite unpack_bits_word by (done || solve_fields_ok).
  cbn [fmap list_fmap catype_fields].
  by rewrite from_primitive_reference by apply NoDup_compressed_opcodes.
Qed.

Lemma cbtype_unpack_word h : in_u 16 h ->
  cbtype_unpack (to_be_bytes 2 h) =
  opcode ← compressed_opcode_of h;
  Some {| cb_opcode := opcode; cb_imm_part1 := bits h 2 5; cb_compressed_rd_rs1 := bits h 7 3;
          cb_imm_part2 := bits h 10 3; cb_funct3 := bits h 13 3 |}.
Proof.
  intros. unfold cbtype_unpack. rewrite unpack_bits_word by (done || solve_fields_ok).
  cbn [fmap list_fmap cbtype_fields].
  by rewrite from_primitive_reference by apply NoDup_compressed_opcodes.
Qed.

Lemma cjtype_unpack_word h : in_u 16 h ->
  cjtype_unpack (to_be_bytes 2 h) =
  opcode ← compressed_opcode_of h;
  Some {| cj_opcode := opcode; cj_imm_bit5 := bits h 2 1; cj_imm_3_1 := bits h 3 3;
          cj_imm_bit7 := bits h 6 1; cj_imm_bit6 := bits h 7 1; cj_imm_bit10 := bits h 8 1;
          cj_imm_9_8 := bits h 9 2; cj_imm_bit4 := bits h 11 1; cj_imm_bit11 := bits h 12 1;
          cj_funct3 := bits h 13 3 |}.
Proof.
  intros. unfold cjtype_unpack. rewrite unpack_bits_word by (done || solve_fields_ok).
  cbn [fmap list_fmap cjtype_fields].
  by rewrite from_primitive_reference by apply NoDup_compressed_opcodes.
Qed.

(** * Packing an instruction *)

Lemma repack_word fields values :
  fields_ok 4 fields -> length fields = length values ->
  repack (pack_bits 4 fields values) = Some (assemble fields values).
Proof.
  intros Hok Hlen. destruct (unpack_pack_bits 4 fields values Hok Hlen) as (bs & Hp & Hm & _).
  unfold repack. by rewrite Hp; simpl; rewrite Hm.
Qed.

Lemma repack_r_word op rd f3 rs1 rs2 f7 :
  repack_r op rd f3 rs1 rs2 f7
  = Ret (Some (assemble rtype_fields [RiscvOpcode_discr op; rd; f3; rs1; rs2; f7])).
Proof. unfold repack_r. f_equal. apply repack_word; [solve_fields_ok|done]. Qed.

Lemma repack_i_word op rd f3 rs1 imm :
  repack_i op rd f3 rs1 imm
  = Ret (Some (assemble itype_fields [RiscvOpcode_discr op; rd; f3; rs1; wrap 16 imm])).
Proof. unfold repack_i. f_equal. apply repack_word; [solve_fields_ok|done]. Qed.

Lemma repack_s_word op f3 rs1 rs2 imm :
  repack_s op f3 rs1 rs2 imm
  = Ret (Some (assemble stype_fields
      [RiscvOpcode_discr op; wrap 8 (Z.land (Z.shiftr imm 0) 0x1f); f3; rs1; rs2;
       wrap 8 (Z.land (Z.shiftr imm 5) 0x7f)])).
Proof. unfold repack_s. f_equal. apply repack_word; [solve_fields_ok|done]. Qed.

Lemma repack_b_word op f3 rs1 rs2 imm :
  repack_b op f3 rs1 rs2 imm
  = Ret (Some (assemble btype_fields
      [RiscvOpcode_discr op; wrap 8 (Z.land (Z.shiftr imm 11) 1); wrap 8 (Z.land (Z.shiftr imm 1) 0xf);
       f3; rs1; rs2; wrap 8 (Z.land (Z.shiftr imm 5) 0x3f); wrap 8 (Z.land (Z.shiftr imm 12) 1)])).
Proof. unfold repack_b. f_equal. apply repack_word; [solve_fields_ok|done]. Qed.

Lemma repack_u_word op rd imm :
  repack (utype_pack (utype_from op rd imm))
  = Some (assemble utype_fields [RiscvOpcode_discr op; rd; Z.shiftr imm 12]).
Proof. apply repack_word; [solve_fields_ok|done]. Qed.

Lemma repack_j_word op rd imm :
  repack (jtype_pack (jtype_from op rd imm))
  = Some (assemble jtype_fields
      [RiscvOpcode_discr op; rd; wrap 8 (Z.land (Z.shiftr imm 12) 0xff);
       wrap 8 (Z.land (Z.shiftr imm 11) 1); wrap 16 (Z.land (Z.shiftr imm 1) 0x3ff);
       wrap 8 (Z.land (Z.shiftr imm 20) 1)]).
Proof. apply repack_word; [solve_fields_ok|done]. Qed.

Lemma pack_i_be_word op rd f3 rs1 imm :
  from_be_bytes <$> itype_pack (itype_from op rd f3 rs1 imm)
  = Some (assemble itype_fields [RiscvOpcode_discr op; rd; f3; rs1; wrap 16 imm]).
Proof.
  unfold itype_pack. rewrite pack_bits_spec by (done || solve_fields_ok).
  cbn [fmap option_fmap option_map]. f_equal. rewrite from_to_be_bytes. apply wrap_small.
  apply (assemble_range _ 0); [lia|lia| |]; [simpl; lia|repeat constructor; simpl; lia].
Qed.

End Decode.

(** The fields of an assembled word. *)
Lemma bits_assemble size fields values k f v :
  fields_ok size fields -> length fields = length values ->
  fields !! k = Some f -> values !! k = Some v ->
  bits (assemble fields values) (bf_lo f) (bf_width f) = wrap (bf_width f) v.
Proof.
  intros [Hf _] Hlen Hk Hv. pose proof (extract_assemble 0 fields values ltac:(lia) Hf Hlen) as E.
  apply (f_equal (fun l : list Z => l !! k)) in E.
  rewrite list_lookup_fmap, lookup_zip_with, Hk, Hv in E. by injection E.
Qed.

Lemma forall_range2 (n m : Z) (P : Z -> Z -> bool) :
  forallb (fun a => forallb (P a) (seqZ 0 m)) (seqZ 0 n) = true ->
  forall a b, 0 <= a < n -> 0 <= b < m -> P a b = true.
Proof.
  intros H a b Ha Hb. apply (forall_range m (P a)); [|done].
  apply (forall_range n (fun a => forallb (P a) (seqZ 0 m))); done.
Qed.

(** * The fields of an encoded instruction *)

Lemma discr_wrap op : wrap 7 (RiscvOpcode_discr op) = RiscvOpcode_discr op.
Proof. by destruct op. Qed.

(** Read field [k] of the assembled word in the goal. *)
Ltac field_of k :=
  match goal with
  | |- bits (assemble ?fs ?vs) _ _ = _ =>
      apply (bits_assemble 4 fs vs k _ _ ltac:(solve_fields_ok) eq_refl eq_refl eq_refl)
  end.

Lemma rtype_word_fields op rd f3 rs1 rs2 f7 w :
  w = assemble rtype_fields [RiscvOpcode_discr op; rd; f3; rs1; rs2; f7] ->
  bits w 0 7 = RiscvOpcode_discr op /\ bits w 7 5 = wrap 5 rd /\ bits w 12 3 = wrap 3 f3 /\
  bits w 15 5 = wrap 5 rs1 /\ bits w 20 5 = wrap 5 rs2 /\ bits w 25 7 = wrap 7 f7.
Proof.
  intros ->. rewrite <- (discr_wrap op) at 2.
  split_and!; [field_of 0%nat|field_of 1%nat|field_of 2%nat|field_of 3%nat|field_of 4%nat|field_of 5%nat].
Qed.

Lemma itype_word_fields op rd f3 rs1 imm w :
  w = assemble itype_fields [RiscvOpcode_discr op; rd; f3; rs1; imm] ->
  bits w 0 7 = RiscvOpcode_discr op /\ bits w 7 5 = wrap 5 rd /\ bits w 12 3 = wrap 3 f3 /\
  bits w 15 5 = wrap 5 rs1 /\ bits w 20 12 = wrap 12 imm.
Proof.
  intros ->. rewrite <- (discr_wrap op) at 2.
  split_and!; [field_of 0%nat|field_of 1%nat|field_of 2%nat|field_of 3%nat|field_of 4%nat].
Qed.

Lemma btype_word_fields op b11 b4_1 f3 rs1 rs2 b10_5 b12 w :
  w = assemble btype_fields [RiscvOpcode_discr op; b11; b4_1; f3; rs1; rs2; b10_5; b12] ->
  bits w 0 7 = RiscvOpcode_discr op /\ bits w 7 1 = wrap 1 b11 /\ bits w 8 4 = wrap 4 b4_1 /\
  bits w 12 3 = wrap 3 f3 /\ bits w 15 5 = wrap 5 rs1 /\ bits w 20 5 = wrap 5 rs2 /\
  bits w 25 6 = wrap 6 b10_5 /\ bits w 31 1 = wrap 1 b12.
Proof.
  intros ->. rewrite <- (discr_wrap op) at 2.
  split_and!; [field_of 0%nat|field_of 1%nat|field_of 2%nat|field_of 3%nat|field_of 4%nat
              |field_of 5%nat|field_of 6%nat|field_of 7%nat].
Qed.

Lemma utype_word_fields op rd imm w :
  w = assemble utype_fields [RiscvOpcode_discr op; rd; imm] ->
  bits w 0 7 = RiscvOpcode_discr op /\ bits w 7 5 = wrap 5 rd /\ bits w 12 20 = wrap 20 imm.
Proof.
  intros ->. rewrite <- (discr_wrap op) at 2.
  split_and!; [field_of 0%nat|field_of 1%nat|field_of 2%nat].
Qed.

Lemma jtype_word_fields op rd b19_12 b11 b10_1 b20 w :
  w = assemble jtype_fields [RiscvOpcode_discr op; rd; b19_12; b11; b10_1; b20] ->
  bits w 0 7 = RiscvOpcode_discr op /\ bits w 7 5 = wrap 5 rd /\ bits w 12 8 = wrap 8 b19_12 /\
  bits w 20 1 = wrap 1 b11 /\ bits w 21 10 = wrap 10 b10_1 /\ bits w 31 1 = wrap 1 b20.
Proof.
  intros ->. rewrite <- (discr_wrap op) at 2.
  split_and!; [field_of 0%nat|field_of 1%nat|field_of 2%nat|field_of 3%nat|field_of 4%nat|field_of 5%nat].
Qed.

(** * Encoding: building an instruction, packing it, and reading the word *)

Lemma bits_app z lo n m :
  0 <= lo -> 0 <= n -> 0 <= m -> bits z lo (n + m) = bits z lo n + bits z (lo + n) m * 2 ^ n.
Proof.
  intros. rewrite !bits_spec, !Z.pow_add_r, <- Z.div_div by (lia || by apply pow2_pos).
  rewrite Z.rem_mul_r by (pose proof (pow2_pos n); pose proof (pow2_pos m); lia). lia.
Qed.

Lemma bits_join z lo n m l k :
  0 <= lo -> 0 <= n -> 0 <= m -> l = lo + n -> k = n + m ->
  bits z lo n + bits z l m * 2 ^ n = bits z lo k.
Proof. intros ? ? ? -> ->. symmetry. by apply bits_app. Qed.

Lemma wrap_bits n z : 0 <= n -> wrap n z = bits z 0 n.
Proof. intros. by rewrite bits_spec, Z.div_1_r by lia. Qed.

(** The cuts the [from] functions make are the bit fields of the immediate. *)
Lemma cut_field v len lo imm mask :
  0 <= lo -> 0 <= len <= v -> mask = Z.ones len ->
  wrap len (wrap v (Z.land (Z.shiftr imm lo) mask)) = bits imm lo len.
Proof.
  intros ? ? ->. fold (bits imm lo len). rewrite wrap_wrap by lia. apply wrap_small, bits_range; lia.
Qed.

Lemma bits_wrap_signed n v z : 0 < n <= v ->
  - 2 ^ (n - 1) <= z < 2 ^ (n - 1) -> to_signed n (bits (wrap v z) 0 n) = z.
Proof. intros. rewrite <- wrap_bits, wrap_wrap by lia. apply to_signed_wrap; lia. Qed.

Lemma even_bit0 v z : 0 < v -> (2 | z) -> bits (wrap v z) 0 1 = 0.
Proof.
  intros Hv [k ->]. rewrite <- wrap_bits, wrap_wrap by lia. apply Z.mod_mul. lia.
Qed.

Lemma even_split v z n k : 0 < n -> n < v -> k = 1 + n -> (2 | z) ->
  bits (wrap v z) 1 n * 2 ^ 1 = bits (wrap v z) 0 k.
Proof. intros ? ? -> ?. rewrite bits_app, even_bit0, Z.add_0_l by (done || lia). done. Qed.

Section Encode.
Context {PS : PackedStruct} {PSok : PackedStructOk PS}.

Lemma assemble_u32 fields values : fields_ok 4 fields -> in_u 32 (assemble fields values).
Proof. intros [? ?]. by apply (assemble_range 32 0). Qed.

Lemma encode_r op rd f3 rs1 rs2 f7 :
  in_u 5 rd -> in_u 3 f3 -> in_u 5 rs1 -> in_u 5 rs2 -> in_u 7 f7 ->
  exists w, repack_r op rd f3 rs1 rs2 f7 = Ret (Some w) /\ in_u 32 w /\
    bits w 0 7 = RiscvOpcode_discr op /\ bits w 7 5 = rd /\ bits w 12 3 = f3 /\
    bits w 15 5 = rs1 /\ bits w 20 5 = rs2 /\ bits w 25 7 = f7.
Proof.
  intros. rewrite repack_r_word. eexists. split; [done|].
  destruct (rtype_word_fields op rd f3 rs1 rs2 f7 _ eq_refl) as (-> & -> & -> & -> & -> & ->).
  rewrite !wrap_small by done. split; [apply assemble_u32; solve_fields_ok|done].
Qed.

Lemma encode_i op rd f3 rs1 z :
  in_u 5 rd -> in_u 3 f3 -> in_u 5 rs1 -> - 2 ^ 11 <= z < 2 ^ 11 ->
  exists w, repack_i op rd f3 rs1 (wrap 32 z) = Ret (Some w) /\ in_u 32 w /\
    bits w 0 7 = RiscvOpcode_discr op /\ bits w 7 5 = rd /\ bits w 12 3 = f3 /\
    bits w 15 5 = rs1 /\ bits w 20 12 = wrap 12 z /\ imm_I w = z.
Proof.
  intros. rewrite repack_i_word. eexists. split; [done|]. unfold imm_I.
  destruct (itype_word_fields op rd f3 rs1 (wrap 16 (wrap 32 z)) _ eq_refl) as (-> & -> & -> & -> & ->).
  rewrite !wrap_small with (w := 5), wrap_small with (w := 3), !wrap_wrap by (done || lia).
  rewrite to_signed_wrap by lia. split; [apply assemble_u32; solve_fields_ok|done].
Qed.

Lemma encode_s op f3 rs1 rs2 z :
  in_u 3 f3 -> in_u 5 rs1 -> in_u 5 rs2 -> - 2 ^ 11 <= z < 2 ^ 11 ->
  exists w, repack_s op f3 rs1 rs2 (wrap 32 z) = Ret (Some w) /\ in_u 32 w /\
    bits w 0 7 = RiscvOpcode_discr op /\ bits w 12 3 = f3 /\ bits w 15 5 = rs1 /\
    bits w 20 5 = rs2 /\ imm_S w = z.
Proof.
  intros. rewrite repack_s_word. eexists. split; [done|]. unfold imm_S.
  match goal with |- in_u 32 ?w /\ _ =>
    destruct (rtype_word_fields op _ f3 rs1 rs2 _ w eq_refl) as (E1 & E2 & E3 & E4 & E5 & E6) end.
  rewrite E1, E2, E3, E4, E5, E6, (wrap_small 3 f3), (wrap_small 5 rs1), (wrap_small 5 rs2) by done.
  rewrite !cut_field by (done || lia).
  rewrite (bits_join _ 0 5 7 5 12), bits_wrap_signed by lia.
  split; [apply assemble_u32; solve_fields_ok|done].
Qed.

Lemma encode_b op f3 rs1 rs2 z :
  in_u 3 f3 -> in_u 5 rs1 -> in_u 5 rs2 -> - 2 ^ 12 <= z < 2 ^ 12 -> (2 | z) ->
  exists w, repack_b op f3 rs1 rs2 (wrap 32 z) = Ret (Some w) /\ in_u 32 w /\
    bits w 0 7 = RiscvOpcode_discr op /\ bits w 12 3 = f3 /\ bits w 15 5 = rs1 /\
    bits w 20 5 = rs2 /\ imm_B w = z.
Proof.
  intros. rewrite repack_b_word. eexists. split; [done|]. unfold imm_B.
  match goal with |- in_u 32 ?w /\ _ =>
    destruct (btype_word_fields op _ _ f3 rs1 rs2 _ _ w eq_refl)
      as (E1 & E2 & E3 & E4 & E5 & E6 & E7 & E8) end.
  rewrite E1, E2, E3, E4, E5, E6, E7, E8, (wrap_small 3 f3), (wrap_small 5 rs1), (wrap_small 5 rs2) by done.
  rewrite !cut_field by (done || lia).
  rewrite (even_split 32 z 4 5), (bits_join _ 0 5 6 5 11), (bits_join _ 0 11 1 11 12),
    (bits_join _ 0 12 1 12 13), bits_wrap_signed by (done || lia).
  split; [apply assemble_u32; solve_fields_ok|done].
Qed.

Lemma encode_u op rd z :
  in_u 5 rd -> - 2 ^ 31 <= z < 2 ^ 31 -> (2 ^ 12 | z) ->
  exists w, repack (utype_pack (utype_from op rd (wrap 32 z))) = Some w /\ in_u 32 w /\
    bits w 0 7 = RiscvOpcode_discr op /\ bits w 7 5 = rd /\ imm_U w = z.
Proof.
  intros ? ? [k Hk]. rewrite repack_u_word. eexists. split; [done|]. unfold imm_U.
  destruct (utype_word_fields op rd (Z.shiftr (wrap 32 z) 12) _ eq_refl) as (-> & -> & ->).
  rewrite (wrap_small 5 rd) by done.
  assert (wrap 20 (Z.shiftr (wrap 32 z) 12) * 2 ^ 12 = wrap 32 z) as ->.
  { rewrite Z.shiftr_div_pow2 by lia. rewrite (wrap_small 20)
      by (pose proof (in_u_wrap 32 z ltac:(lia)); split;
          [apply Z.div_pos; unfold in_u in *; lia|apply Z.div_lt_upper_bound; unfold in_u in *; lia]).
    rewrite Z.mul_comm. symmetry. apply Z_div_exact_full_2; [done|]. subst z. unfold wrap.
    rewrite Z.mod_mod_divide by (by exists (2 ^ 20)). by apply Z.mod_mul. }
  rewrite to_signed_wrap by lia. split; [apply assemble_u32; solve_fields_ok|done].
Qed.

Lemma encode_j op rd z :
  in_u 5 rd -> - 2 ^ 20 <= z < 2 ^ 20 -> (2 | z) ->
  exists w, repack (jtype_pack (jtype_from op rd (wrap 32 z))) = Some w /\ in_u 32 w /\
    bits w 0 7 = RiscvOpcode_discr op /\ bits w 7 5 = rd /\ imm_J w = z.
Proof.
  intros. rewrite repack_j_word. eexists. split; [done|]. unfold imm_J.
  match goal with |- in_u 32 ?w /\ _ =>
    destruct (jtype_word_fields op rd _ _ _ _ w eq_refl) as (E1 & E2 & E3 & E4 & E5 & E6) end.
  rewrite E1, E2, E3, E4, E5, E6, (wrap_small 5 rd) by done.
  rewrite !cut_field by (done || lia).
  rewrite (even_split 32 z 10 11), (bits_join _ 0 11 1 11 12), (bits_join _ 0 12 8 12 20),
    (bits_join _ 0 20 1 20 21), bits_wrap_signed by (done || lia).
  split; [apply assemble_u32; solve_fields_ok|done].
Qed.

End Encode.
