(* ===== verification/Ata.v ===== *)
(** The disk driver, kernel/src/ata.rs: the commands of an ATA bus in programmed I/O
    mode, and a drive as a file of bytes.

    The drive is not part of the repository.  Its registers are the class [AtaPorts];
    what the ATA standard promises of them, for the commands the driver gives, is the
    machine [Drive] and the class [AtaDriveOk] that ties the registers to it. *)
From S2P Require Import Prelude MachineInt PackedStruct Decode.
From stdpp Require Import list.
#[local] Open Scope Z_scope.

(** The registers of [IORegistersLBA28]; those at one port share a constructor. *)
Inductive AtaReg := Data | ErrFeatures | SectorCount | AddressLow | AddressMid | AddressHi | DriveSel | StatCommand.
#[export] Instance AtaReg_eq_dec : EqDecision AtaReg.
Proof. solve_decision. Defined.

(** Reading and writing a register, by port or by address. *)
Class AtaPorts (B : Type) := {
  port_in : B -> AtaReg -> B * Z;
  port_out : B -> AtaReg -> Z -> B;
}.

Record ATAStatus := MkStatus {
  ata_err : bool;
  ata_idx : bool;
  ata_corrected : bool;
  ata_data_request : bool;
  ata_overlapped_mode_service_request : bool;
  ata_drive_fault_error : bool;
  ata_ready : bool;
  ata_busy : bool;
}.
#[export] Instance ATAStatus_eq_dec : EqDecision ATAStatus.
Proof. solve_decision. Defined.

Definition SECTOR_SIZE_IN_BYTES : Z := 256 * 2.
(** A [Sector] is a list of 256 words of 16 bits. *)
Abbreviation Sector := (list Z).

Inductive ATADevice := MASTER | SLAVE.
Inductive BUSType := Primary | Secondary.

Record LBA28 := MkLBA { low : Z; mid : Z; hi : Z }.
Definition LBA28_from (v : Z) : outcome LBA28 :=
  let data := to_le_bytes 4 v in
  let! l := unwrap (data !! 0%nat) in
  let! m := unwrap (data !! 1%nat) in
  let! h := unwrap (data !! 2%nat) in
  Ret (MkLBA l m h).
Definition LBA28_into (self : LBA28) : Z := from_le_bytes [low self; mid self; hi self; 0].

Definition READ_SECTORS : Z := 0x20.
Definition WRITE_SECTORS : Z := 0x30.
Definition IDENTIYFY_DEVICE : Z := 0xEC.

Section Driver.
Context {B : Type} {P : AtaPorts B} {PS : PackedStruct}.
Implicit Types b : B.

(** How often a status register is read at most before the wait counts as endless. *)
Variable polls : nat.

Definition status_fields : list bit_field := [0..=0; 1..=1; 2..=2; 3..=3; 4..=4; 5..=5; 6..=6; 7..=7].
Definition unpack_status (byte : Z) : option ATAStatus :=
  match unpack_bits 1 status_fields [byte] with
  | Some [b0; b1; b2; b3; b4; b5; b6; b7] =>
      Some (MkStatus (b0 =? 1) (b1 =? 1) (b2 =? 1) (b3 =? 1) (b4 =? 1) (b5 =? 1) (b6 =? 1) (b7 =? 1))
  | _ => None
  end.

Definition read_status b : outcome (B * ATAStatus) :=
  let (b, v) := port_in b StatCommand in
  let! s := unwrap (unpack_status v) in Ret (b, s).
Definition write_features b (d : Z) : B := port_out b ErrFeatures d.
Definition write_command b (d : Z) : B := port_out b StatCommand d.

(** [wait_for!(cond)] with a condition on the status. *)
Fixpoint wait_for (n : nat) (cond : ATAStatus -> bool) b : outcome B :=
  match n with
  | O => Panic
  | S n => let! (b, s) := read_status b in if cond s then Ret b else wait_for n cond b
  end.
Definition not_busy (s : ATAStatus) : bool := negb (ata_busy s).
Definition data_or_error (s : ATAStatus) : bool := ata_data_request s || ata_err s.

(** [a.iter_mut().for_each(|e| *e = self.io.data.read())]. *)
Fixpoint read_words (n : nat) b : B * list Z :=
  match n with
  | O => (b, [])
  | S n => let (b, w) := port_in b Data in let (b, ws) := read_words n b in (b, w :: ws)
  end.
Fixpoint write_words (ws : list Z) b : B :=
  match ws with [] => b | w :: ws => write_words ws (port_out b Data w) end.

(** The bus has its ports and remembers the sizes of its two drives. *)
Record ATABus := MkBus {
  ports : B;
  master_sector_count : option Z;
  slave_sector_count : option Z;
  bus_type : BUSType;
}.
Definition set_ports (bus : ATABus) b : ATABus :=
  MkBus b (master_sector_count bus) (slave_sector_count bus) (bus_type bus).

(** [ATABus::new]: nothing is on the bus when the status reads as ones. *)
Definition bus_new b (typ : BUSType) : outcome (B * option ATABus) :=
  let! (b, s) := read_status b in
  match unpack_status 0xFF with
  | None => Ret (b, None)
  | Some ones => Ret (b, if decide (s = ones) then None else Some (MkBus b None None typ))
  end.

(** After a command: waiting for its end, and whether it failed. *)
Definition wait_for_data b : outcome (B * bool) :=
  let! b := wait_for polls not_busy b in
  let! b := wait_for polls data_or_error b in
  let! (b, s) := read_status b in
  Ret (b, ata_err s).

Definition identify (bus : ATABus) (device : ATADevice) : outcome (ATABus * option Sector) :=
  let b := port_out (ports bus) DriveSel (match device with MASTER => 0xA0 | SLAVE => 0xB0 end) in
  let b := port_out b AddressHi 0 in
  let b := port_out b AddressMid 0 in
  let b := port_out b AddressLow 0 in
  let b := write_command b IDENTIYFY_DEVICE in
  let! (b, s) := read_status b in
  match unpack_status 0 with
  | None => Ret (set_ports bus b, None)
  | Some zeros =>
      if decide (s = zeros) then Ret (set_ports bus b, None)
      else
        let! (b, err) := wait_for_data b in
        if (err : bool) then Ret (set_ports bus b, None)
        else let (b, a) := read_words 256 b in Ret (set_ports bus b, Some a)
  end.

(** The registers of a transfer of one sector, and the command. *)
Definition start_transfer (bus : ATABus) (device : ATADevice) (sector_lba : LBA28) (command : Z) : outcome (B * bool) :=
  let! b := wait_for polls not_busy (ports bus) in
  let b := port_out b DriveSel (Z.lor (match device with MASTER => 0xE0 | SLAVE => 0xF0 end) (Z.shiftr (hi sector_lba) 4)) in
  let b := write_features b 0 in
  let b := port_out b SectorCount 1 in
  let b := port_out b AddressLow (low sector_lba) in
  let b := port_out b AddressMid (mid sector_lba) in
  let b := port_out b AddressHi (hi sector_lba) in
  let b := write_command b command in
  wait_for_data b.

Definition read_sector (bus : ATABus) (device : ATADevice) (sector_lba : LBA28) : outcome (ATABus * option Sector) :=
  let! (b, err) := start_transfer bus device sector_lba READ_SECTORS in
  if (err : bool) then Ret (set_ports bus b, None)
  else let (b, a) := read_words 256 b in Ret (set_ports bus b, Some a).

Definition write_sector (bus : ATABus) (device : ATADevice) (sector_lba : LBA28) (data : Sector)
  : outcome (ATABus * option unit) :=
  let! (b, err) := start_transfer bus device sector_lba WRITE_SECTORS in
  if (err : bool) then Ret (set_ports bus b, None)
  else Ret (set_ports bus (write_words data b), Some ()).

(** Words 60 and 61 of the identification hold the number of sectors. *)
Definition id_sector_count (id : Sector) : outcome Z :=
  let! w60 := unwrap (id !! 60%nat) in
  let! w61 := unwrap (id !! 61%nat) in
  Ret (from_le_bytes (to_le_bytes 2 w60 ++ to_le_bytes 2 w61)).

Definition sector_count (bus : ATABus) (device : ATADevice) : option Z :=
  match device with MASTER => master_sector_count bus | SLAVE => slave_sector_count bus end.
Definition set_sector_count (bus : ATABus) (device : ATADevice) (n : Z) : ATABus :=
  match device with
  | MASTER => MkBus (ports bus) (Some n) (slave_sector_count bus) (bus_type bus)
  | SLAVE => MkBus (ports bus) (master_sector_count bus) (Some n) (bus_type bus)
  end.

Definition get_sector_count (bus : ATABus) (device : ATADevice) : outcome (ATABus * option Z) :=
  match sector_count bus device with
  | Some n => Ret (bus, Some n)
  | None =>
      let! (bus, id) := identify bus device in
      match id with
      | None => Ret (bus, None)
      | Some id => let! n := id_sector_count id in Ret (set_sector_count bus device n, Some n)
      end
  end.

(** * A drive as a file: ATADeviceFile *)

Definition sector_lba (sector : Z) : LBA28 :=
  MkLBA (Z.land sector 0xFF) (Z.land (Z.shiftr sector 8) 0xFF) (Z.land (Z.shiftr sector 16) 0xFF).

(** [e.to_ne_bytes()] on x86. *)
Definition word_bytes (e : Z) : list Z := [Z.land e 0xFF; Z.land (Z.shiftr e 8) 0xFF].
Definition sector_bytes (s : Sector) : list Z := concat (word_bytes <$> s).

(** The bytes of the first sector from an offset on; a word the offset divides gives
    its second byte. *)
Fixpoint first_bytes (es : list Z) (skip_first_byte : bool) : list Z :=
  match es with
  | [] => []
  | e :: es =>
      if skip_first_byte then Z.land (Z.shiftr e 8) 0xFF :: first_bytes es false
      else Z.land e 0xFF :: Z.land (Z.shiftr e 8) 0xFF :: first_bytes es false
  end.

(** The loop over the following sectors. *)
Fixpoint read_more (bus : ATABus) (device : ATADevice) (res : list Z) (len first_sector sector_indx : Z) (n : nat)
  : outcome (ATABus * option (list Z)) :=
  match n with
  | O => Ret (bus, Some res)
  | S n =>
      if Z.of_nat (length res) >=? len then Ret (bus, Some res)
      else
        let! offset := add_chk 64 first_sector sector_indx in
        let! (bus, val) := read_sector bus device (sector_lba offset) in
        match val with
        | None => Ret (bus, None)
        | Some val => read_more bus device (res ++ sector_bytes val) len first_sector (sector_indx + 1) n
        end
  end.

Definition extra_block (len : Z) : Z := if len mod SECTOR_SIZE_IN_BYTES =? 0 then 0 else 1.

(** Popping the overread bytes leaves the first [len]. *)
Definition ata_file_read (bus : ATABus) (device : ATADevice) (offset_in_bytes len : Z) : outcome (ATABus * option (list Z)) :=
  let offset_in_first_sector := offset_in_bytes mod SECTOR_SIZE_IN_BYTES in
  let first_sector := offset_in_bytes / SECTOR_SIZE_IN_BYTES in
  let! (bus, first_block) := read_sector bus device (sector_lba first_sector) in
  match first_block with
  | None => Ret (bus, None)
  | Some first_block =>
      let res := first_bytes (drop (Z.to_nat (offset_in_first_sector / 2)) first_block) (offset_in_first_sector mod 2 =? 1) in
      let! (bus, res) := read_more bus device res len first_sector 1 (Z.to_nat (len / SECTOR_SIZE_IN_BYTES + extra_block len - 1)) in
      match res with
      | None => Ret (bus, None)
      | Some res =>
          let res := take (Z.to_nat len) res in
          let! _ := rassert (Z.of_nat (length res) =? len) in
          Ret (bus, Some res)
      end
  end.

(** The inner loop of write over the words [v] from the index on: the new words, what
    is left of the data, and the count of bytes. *)
Fixpoint fill_words (v : list Z) (skip_first_byte : bool) (iter : list Z) (bytes_written : Z) : list Z * list Z * Z :=
  match v with
  | [] => ([], iter, bytes_written)
  | e :: v =>
      let bytes_to_write := word_bytes e in
      match (if skip_first_byte then Some (bytes_to_write, iter)
             else match iter with [] => None | val :: iter => Some (<[0%nat := val]> bytes_to_write, iter) end) with
      | None => (e :: v, iter, bytes_written)
      | Some (bytes_to_write, iter) =>
          let (bytes_to_write, iter) :=
            match iter with [] => (bytes_to_write, []) | val :: iter => (<[1%nat := val]> bytes_to_write, iter) end in
          let '(v, iter, bytes_written) := fill_words v false iter (bytes_written + 2) in
          (from_le_bytes bytes_to_write :: v, iter, bytes_written)
      end
  end.

(** The loop over the sectors; [ind] and [skip_first_byte] are 0 and false from the
    second one on. *)
Fixpoint write_loop (bus : ATABus) (device : ATADevice) (data_len offset first_sector sector_indx : Z)
    (ind : nat) (skip_first_byte : bool) (iter : list Z) (bytes_written : Z) (n : nat) : outcome (ATABus * option Z) :=
  match n with
  | O => Ret (bus, Some bytes_written)
  | S n =>
      let! sector := add_chk 64 first_sector sector_indx in
      let lba := sector_lba sector in
      let last := data_len / SECTOR_SIZE_IN_BYTES + extra_block data_len - 1 in
      let! (bus, v) :=
        if ((sector_indx =? last) && (extra_block data_len =? 1)) || ((sector_indx =? 0) && negb (offset =? 0)) then
          let! (bus, v) := read_sector bus device lba in
          let! v := unwrap v in Ret (bus, v)
        else Ret (bus, replicate 256 0) in
      let '(tail, iter, bytes_written) := fill_words (drop ind v) skip_first_byte iter bytes_written in
      let! (bus, r) := write_sector bus device lba (take ind v ++ tail) in
      match r with
      | None => Ret (bus, None)
      | Some _ => write_loop bus device data_len offset first_sector (sector_indx + 1) 0 false iter bytes_written n
      end
  end.

Definition ata_file_write (bus : ATABus) (device : ATADevice) (offset_in_bytes : Z) (data : list Z) : outcome (ATABus * option Z) :=
  let offset := offset_in_bytes mod SECTOR_SIZE_IN_BYTES in
  let first_sector := offset_in_bytes / SECTOR_SIZE_IN_BYTES in
  let data_len := Z.of_nat (length data) in
  write_loop bus device data_len offset first_sector 0 (Z.to_nat (offset / 2)) (offset mod 2 =? 1) data 0
    (Z.to_nat (data_len / SECTOR_SIZE_IN_BYTES + extra_block data_len)).

Definition ata_file_size (bus : ATABus) (device : ATADevice) : outcome (ATABus * Z) :=
  let! (bus, n) := get_sector_count bus device in
  let! n := unwrap n in
  let! size := mul_chk 64 n SECTOR_SIZE_IN_BYTES in Ret (bus, size).

End Driver.
Arguments ATABus B : clear implicits.
