(* ===== verification/AtaDrive.v ===== *)
(** What the ATA standard promises of a bus with two drives in programmed I/O mode,
    and the proof that the driver's transfers of one sector have the effect they
    should. *)
From S2P Require Import Prelude MachineInt PackedStruct Decode Ata.
From stdpp Require Import list.
#[local] Open Scope Z_scope.

(** * The drives as the standard describes them *)

(** What is stored on a drive, and the words IDENTIFY DEVICE delivers. *)
Record Disk := MkDisk { sectors : list Sector; identity : list Z }.

(** Between commands, with the error bit; after a command to a drive that is not
    there; transferring the words of a sector to and from the host. *)
Inductive Phase :=
| Idle (error : bool)
| NoDevice
| DataIn (words : list Z)
| DataOut (sector : nat) (words : list Z).

Record Drive := MkDrive {
  d_master : option Disk;
  d_slave : option Disk;
  d_count : Z;
  d_low : Z;
  d_mid : Z;
  d_hi : Z;
  d_sel : Z;
  d_phase : Phase;
}.

Definition disk_of (d : Drive) (device : ATADevice) : option Disk :=
  match device with MASTER => d_master d | SLAVE => d_slave d end.
Definition set_disk (d : Drive) (device : ATADevice) (k : Disk) : Drive :=
  match device with
  | MASTER => MkDrive (Some k) (d_slave d) (d_count d) (d_low d) (d_mid d) (d_hi d) (d_sel d) (d_phase d)
  | SLAVE => MkDrive (d_master d) (Some k) (d_count d) (d_low d) (d_mid d) (d_hi d) (d_sel d) (d_phase d)
  end.
Definition set_phase (d : Drive) (p : Phase) : Drive :=
  MkDrive (d_master d) (d_slave d) (d_count d) (d_low d) (d_mid d) (d_hi d) (d_sel d) p.

(** Bit 4 of the drive register selects the drive, its lower bits are the highest four
    of the sector's number. *)
Definition selected (d : Drive) : ATADevice := if Z.testbit (d_sel d) 4 then SLAVE else MASTER.
Definition selected_sector (d : Drive) : Z :=
  d_low d + d_mid d * 2 ^ 8 + d_hi d * 2 ^ 16 + Z.land (d_sel d) 15 * 2 ^ 24.

(** A command, as far as the driver uses it: transfers of one sector. *)
Definition drive_command (d : Drive) (command : Z) : option Drive :=
  match disk_of d (selected d) with
  | None => Some (set_phase d NoDevice)
  | Some k =>
      if command =? IDENTIYFY_DEVICE then Some (set_phase d (DataIn (identity k)))
      else if negb (d_count d =? 1) then None
      else if command =? READ_SECTORS then
        Some (set_phase d (match sectors k !! Z.to_nat (selected_sector d) with Some s => DataIn s | None => Idle true end))
      else if command =? WRITE_SECTORS then
        Some (set_phase d (if selected_sector d <? Z.of_nat (length (sectors k))
                           then DataOut (Z.to_nat (selected_sector d)) [] else Idle true))
      else None
  end.

(** The registers that describe the next command. *)
Definition set_reg (d : Drive) (r : AtaReg) (v : Z) : Drive :=
  match r with
  | SectorCount => MkDrive (d_master d) (d_slave d) v (d_low d) (d_mid d) (d_hi d) (d_sel d) (d_phase d)
  | AddressLow => MkDrive (d_master d) (d_slave d) (d_count d) v (d_mid d) (d_hi d) (d_sel d) (d_phase d)
  | AddressMid => MkDrive (d_master d) (d_slave d) (d_count d) (d_low d) v (d_hi d) (d_sel d) (d_phase d)
  | AddressHi => MkDrive (d_master d) (d_slave d) (d_count d) (d_low d) (d_mid d) v (d_sel d) (d_phase d)
  | DriveSel => MkDrive (d_master d) (d_slave d) (d_count d) (d_low d) (d_mid d) (d_hi d) v (d_phase d)
  | ErrFeatures | StatCommand | Data => d
  end.

(** Writing a register when the drive is not busy; None where nothing is promised. *)
Definition drive_out (d : Drive) (r : AtaReg) (v : Z) : option Drive :=
  match d_phase d with
  | Idle _ | NoDevice =>
      match r with
      | StatCommand => drive_command d v
      | Data => None
      | _ => Some (set_reg d r v)
      end
  | DataIn _ => None
  | DataOut sector words =>
      match r, disk_of d (selected d) with
      | Data, Some k =>
          let words := words ++ [v] in
          Some (if (length words =? 256)%nat
                then set_phase (set_disk d (selected d) (MkDisk (<[sector := words]> (sectors k)) (identity k))) (Idle false)
                else set_phase d (DataOut sector words))
      | _, _ => None
      end
  end.

(** Reading the data register. *)
Definition drive_data (d : Drive) : option (Drive * Z) :=
  match d_phase d with
  | DataIn [w] => Some (set_phase d (Idle false), w)
  | DataIn (w :: ws) => Some (set_phase d (DataIn ws), w)
  | _ => None
  end.

Definition transferring (p : Phase) : bool := match p with DataIn _ | DataOut _ _ => true | _ => false end.

(** The status of a drive that is not busy. *)
Definition status_shows (p : Phase) (s : Z) : Prop :=
  Z.testbit s 7 = false /\ Z.testbit s 3 = transferring p /\
  Z.testbit s 0 = (match p with Idle e => e | _ => false end) /\ (p = NoDevice -> s = 0).

(** The registers behave like the machine: a drive is busy for fewer than [polls]
    readings of its status after a command or a sector written; between the words of a
    transfer, and when the last word of a command that delivers data has been read, it is
    not (the PIO data-in protocol ends in the idle state); while it is busy the status
    says so. *)
Class AtaDriveOk (B : Type) {P : AtaPorts B} (polls : nat) := {
  view : B -> Drive;
  busy : B -> nat;
  busy_bound : forall b, (busy b < polls)%nat;
  status_in : forall b, view (port_in b StatCommand).1 = view b /\ busy (port_in b StatCommand).1 = pred (busy b) /\
    in_u 8 (port_in b StatCommand).2 /\
    (busy b = 0%nat -> status_shows (d_phase (view b)) (port_in b StatCommand).2) /\
    (busy b <> 0%nat -> Z.testbit (port_in b StatCommand).2 7 = true);
  no_device_not_busy : forall b, d_phase (view b) = NoDevice -> busy b = 0%nat;
  data_in : forall b d w, busy b = 0%nat -> drive_data (view b) = Some (d, w) ->
    view (port_in b Data).1 = d /\ (port_in b Data).2 = w /\ busy (port_in b Data).1 = 0%nat;
  reg_out : forall b r v d, busy b = 0%nat -> drive_out (view b) r v = Some d ->
    view (port_out b r v) = d /\ (r <> StatCommand -> r <> Data \/ transferring (d_phase d) = true -> busy (port_out b r v) = 0%nat);
}.

Section Sectors.
Context {B : Type} {P : AtaPorts B} {polls : nat} {OK : AtaDriveOk B polls}.
Context {PS : PackedStruct} {PSok : PackedStructOk PS}.
Implicit Types b : B.

(** * Status and waiting *)

Lemma unpack_status_bits v : in_u 8 v ->
  exists s, unpack_status v = Some s /\
    ata_busy s = Z.testbit v 7 /\ ata_data_request s = Z.testbit v 3 /\ ata_err s = Z.testbit v 0.
Proof.
  intros Hv. unfold unpack_status. change [v] with (to_be_bytes 1 v) at 1 || idtac.
  rewrite unpack_bits_spec by (done || (by apply Forall_singleton) || solve_fields_ok).
  replace (from_be_bytes [v]) with v by (unfold from_be_bytes; simpl; lia). simpl. eexists. split; [done|]. simpl.
  assert (forall i, 0 <= i -> (extract v (i..=i) =? 1) = Z.testbit v i) as E; [|by rewrite !E by lia].
  intros i Hi. unfold extract, bf_width. simpl. replace (i - i + 1) with 1 by lia.
  rewrite bits_spec by lia. rewrite Z.testbit_eqb by lia. done.
Qed.

Lemma read_status_ok b : exists s, read_status b = Ret ((port_in b StatCommand).1, s) /\
  (busy b <> 0%nat -> ata_busy s = true) /\
  (busy b = 0%nat -> ata_busy s = false /\ ata_data_request s = transferring (d_phase (view b)) /\
     ata_err s = match d_phase (view b) with Idle e => e | _ => false end).
Proof.
  destruct (status_in b) as (_ & _ & Hv & H0 & H1). unfold read_status.
  destruct (port_in b StatCommand) as [b' v]. simpl in *.
  destruct (unpack_status_bits v Hv) as (s & -> & Eb & Ed & Ee). exists s. split; [done|].
  rewrite Eb, Ed, Ee. split; [done|]. intros Hb. destruct (H0 Hb) as (? & ? & ? & _). done.
Qed.

(** Waiting for the end of the busy phase. *)
Lemma wait_not_busy n b : (busy b < n)%nat ->
  exists b', wait_for n not_busy b = Ret b' /\ view b' = view b /\ busy b' = 0%nat.
Proof.
  revert b. induction n as [|n IH]; intros b Hn; [lia|]. simpl.
  destruct (read_status_ok b) as (s & -> & H1 & H0). simpl. destruct (status_in b) as (Ev & Eb & _).
  destruct (decide (busy b = 0%nat)) as [E|E].
  - destruct (H0 E) as (Hs & _). unfold not_busy. rewrite Hs. simpl. eexists. split; [done|]. split; [done|lia].
  - unfold not_busy at 1. rewrite H1 by done. simpl. destruct (IH (port_in b StatCommand).1) as (b' & ? & ? & ?); [lia|].
    exists b'. split; [done|]. split; [congruence|done].
Qed.

Definition failed (p : Phase) : bool := match p with Idle e => e | _ => false end.

Lemma wait_data n b : (0 < n)%nat -> busy b = 0%nat ->
  transferring (d_phase (view b)) = true \/ failed (d_phase (view b)) = true ->
  wait_for n data_or_error b = Ret (port_in b StatCommand).1.
Proof.
  intros Hn Hb Hp. destruct n as [|n]; [lia|]. cbn [wait_for].
  destruct (read_status_ok b) as (s & -> & _ & H0). destruct (H0 Hb) as (_ & Hd & He). cbn [obind].
  unfold data_or_error. rewrite Hd, He. destruct Hp as [->|Hp]; [done|]. unfold failed in Hp. by rewrite Hp, orb_true_r.
Qed.

(** After a command that transfers data or fails. *)
Lemma wait_for_data_ok b : transferring (d_phase (view b)) = true \/ failed (d_phase (view b)) = true ->
  exists b', wait_for_data polls b = Ret (b', failed (d_phase (view b))) /\ view b' = view b /\ busy b' = 0%nat.
Proof.
  intros Hp. unfold wait_for_data. destruct (wait_not_busy polls b (busy_bound b)) as (b1 & -> & E1 & H1). cbn [obind].
  rewrite wait_data by (rewrite ?E1; pose proof (busy_bound b); done || lia). cbn [obind].
  destruct (status_in b1) as (E2 & H2 & _).
  set (b2 := (port_in b1 StatCommand).1) in *. destruct (read_status_ok b2) as (s2 & -> & _ & H02). cbn [obind].
  destruct H02 as (_ & _ & He2); [lia|]. destruct (status_in b2) as (E3 & H3 & _).
  eexists. split; [|split; [|]]; [f_equal; f_equal; rewrite He2, E2, E1; done|congruence|lia].
Qed.

(** * Transfers *)

Lemma read_words_ok ws b :
  d_phase (view b) = DataIn ws -> ws <> [] -> busy b = 0%nat ->
  exists b', read_words (length ws) b = (b', ws) /\ view b' = set_phase (view b) (Idle false) /\ busy b' = 0%nat.
Proof.
  revert b. induction ws as [|w ws IH]; intros b Hp Hne Hb; [done|]. cbn [length read_words].
  destruct (data_in b (set_phase (view b) (match ws with [] => Idle false | _ => DataIn ws end)) w Hb) as (E1 & E2 & E3).
  { unfold drive_data. rewrite Hp. by destruct ws. }
  destruct (port_in b Data) as [b1 w1]. simpl in *. subst w1. destruct ws as [|w' ws].
  { exists b1. split; [done|done]. }
  destruct (IH b1) as (b' & -> & E & Hb'); [by rewrite E1|done|done|]. exists b'. split; [done|]. by rewrite E, E1.
Qed.

Lemma set_phase_disk d p q device k : set_phase (set_disk (set_phase d p) device k) q = set_phase (set_disk d device k) q.
Proof. by destruct device. Qed.

Lemma write_words_ok ws b sector done k :
  d_phase (view b) = DataOut sector done -> disk_of (view b) (selected (view b)) = Some k -> busy b = 0%nat ->
  ws <> [] -> (length done + length ws = 256)%nat ->
  view (write_words ws b) =
    set_phase (set_disk (view b) (selected (view b)) (MkDisk (<[sector := done ++ ws]> (sectors k)) (identity k))) (Idle false).
Proof.
  revert b done. induction ws as [|w ws IH]; intros b ds Hp Hk Hb Hne Hl; [done|]. cbn [write_words].
  destruct (reg_out b Data w (if (length (ds ++ [w]) =? 256)%nat
                then set_phase (set_disk (view b) (selected (view b)) (MkDisk (<[sector := ds ++ [w]]> (sectors k)) (identity k))) (Idle false)
                else set_phase (view b) (DataOut sector (ds ++ [w]))) Hb) as (E1 & E2).
  { unfold drive_out. by rewrite Hp, Hk. }
  rewrite length_app in *. cbn [length] in *. destruct ws as [|w' ws].
  { cbn [length] in Hl. rewrite (proj2 (Nat.eqb_eq _ _)) in E1 by lia. done. }
  cbn [length] in Hl. rewrite (proj2 (Nat.eqb_neq _ _)) in E1, E2 by lia.
  rewrite (IH _ (ds ++ [w])); rewrite ?E1.
  - rewrite <- app_assoc. apply set_phase_disk.
  - done.
  - exact Hk.
  - apply E2; [done|]. by right.
  - done.
  - rewrite length_app. simpl. lia.
Qed.
(** * Sectors *)

Lemma out_reg b r v : transferring (d_phase (view b)) = false -> busy b = 0%nat -> r <> StatCommand -> r <> Data ->
  view (port_out b r v) = set_reg (view b) r v /\ busy (port_out b r v) = 0%nat /\
  transferring (d_phase (view (port_out b r v))) = false.
Proof.
  intros Hp Hb H1 H2. destruct (reg_out b r v (set_reg (view b) r v) Hb) as (E & Hb').
  - unfold drive_out. by destruct (d_phase (view b)), r.
  - split; [done|]. split; [apply Hb'; [done|by left]|]. rewrite E. by destruct r.
Qed.

(** The number of the sector a transfer is about. *)
Definition lba_sector (lba : LBA28) : Z := low lba + mid lba * 2 ^ 8 + hi lba * 2 ^ 16 + Z.shiftr (hi lba) 4 * 2 ^ 24.

(** The drives after the registers of a transfer are written. *)
Definition addressed (d : Drive) (device : ATADevice) (lba : LBA28) : Drive :=
  MkDrive (d_master d) (d_slave d) 1 (low lba) (mid lba) (hi lba)
    (Z.lor (match device with MASTER => 0xE0 | SLAVE => 0xF0 end) (Z.shiftr (hi lba) 4)) (d_phase d).

Lemma drive_sel_bits (sel h : Z) : sel = 0xE0 \/ sel = 0xF0 -> in_u 8 h ->
  Z.land (Z.lor sel (Z.shiftr h 4)) 15 = Z.shiftr h 4 /\ Z.testbit (Z.lor sel (Z.shiftr h 4)) 4 = Z.testbit sel 4.
Proof.
  intros Hs Hh. assert (in_u 4 (Z.shiftr h 4)) as H4.
  { unfold in_u in *. rewrite Z.shiftr_div_pow2 by lia. split; [apply Z.div_pos; lia|apply Z.div_lt_upper_bound; lia]. }
  rewrite Z.land_lor_distr_l, Z.lor_spec, (testbit_above 4 _ 4 H4), orb_false_r by lia. split; [|done].
  change 15 with (Z.ones 4). rewrite (land_ones_small 4 (Z.shiftr h 4)) by (done || lia). destruct Hs as [-> | ->]; done.
Qed.

Lemma addressed_sector d device lba : in_u 8 (hi lba) ->
  selected (addressed d device lba) = device /\ selected_sector (addressed d device lba) = lba_sector lba.
Proof.
  intros Hh. unfold selected, selected_sector, addressed. cbn [d_low d_mid d_hi d_sel].
  destruct (drive_sel_bits (match device with MASTER => 0xE0 | SLAVE => 0xF0 end) (hi lba)) as [E1 E2]; [by destruct device; auto|done|].
  rewrite E1, E2. split; [by destruct device|done].
Qed.

(** A bus between two transfers. *)
Definition ready (bus : ATABus B) : Prop := transferring (d_phase (view (ports bus))) = false.

Lemma start_transfer_ok bus device lba command d :
  ready bus -> drive_command (addressed (view (ports bus)) device lba) command = Some d ->
  transferring (d_phase d) = true \/ failed (d_phase d) = true ->
  exists b, start_transfer polls bus device lba command = Ret (b, failed (d_phase d)) /\ view b = d /\ busy b = 0%nat.
Proof.
  intros Hr Hd Hp. unfold start_transfer, write_features, write_command.
  destruct (wait_not_busy polls (ports bus) (busy_bound _)) as (b0 & -> & E0 & B0). cbn [obind].
  assert (transferring (d_phase (view b0)) = false) as P0 by by rewrite E0.
  destruct (out_reg b0 DriveSel (Z.lor (match device with MASTER => 0xE0 | SLAVE => 0xF0 end) (Z.shiftr (hi lba) 4)) P0 B0) as (E1 & B1 & P1); [done|done|].
  revert E1 B1 P1. generalize (port_out b0 DriveSel (Z.lor (match device with MASTER => 0xE0 | SLAVE => 0xF0 end) (Z.shiftr (hi lba) 4))). intros b1 E1 B1 P1.
  destruct (out_reg b1 ErrFeatures 0 P1 B1) as (E2 & B2 & P2); [done|done|].
  destruct (out_reg _ SectorCount 1 P2 B2) as (E3 & B3 & P3); [done|done|].
  destruct (out_reg _ AddressLow (low lba) P3 B3) as (E4 & B4 & P4); [done|done|].
  destruct (out_reg _ AddressMid (mid lba) P4 B4) as (E5 & B5 & P5); [done|done|].
  destruct (out_reg _ AddressHi (hi lba) P5 B5) as (E6 & B6 & P6); [done|done|].
  rewrite E5, E4, E3, E2, E1, E0 in E6. cbn [set_reg d_master d_slave d_count d_low d_mid d_hi d_sel d_phase] in E6.
  revert B6 P6 E6. generalize (port_out (port_out (port_out (port_out (port_out b1 ErrFeatures 0) SectorCount 1) AddressLow (low lba)) AddressMid (mid lba)) AddressHi (hi lba)).
  intros b6 B6 P6 E6. destruct (reg_out b6 StatCommand command d B6) as (E7 & _).
  { unfold drive_out. rewrite E6. change (MkDrive _ _ _ _ _ _ _ _) with (addressed (view (ports bus)) device lba).
    unfold ready in Hr. destruct (d_phase (addressed (view (ports bus)) device lba)) eqn:Ep; try done;
      change (d_phase (addressed ?d0 _ _)) with (d_phase d0) in Ep; by rewrite Ep in Hr. }
  destruct (wait_for_data_ok (port_out b6 StatCommand command)) as (b & -> & E & Hb); [by rewrite E7|].
  exists b. rewrite E, E7. done.
Qed.

Definition sector_ok (s : Sector) : Prop := length s = 256%nat /\ Forall (in_u 16) s.

(** A transfer leaves the bus ready and everything on the drives but what it writes. *)
Lemma read_sector_ok bus device lba k :
  ready bus -> disk_of (view (ports bus)) device = Some k -> Forall sector_ok (sectors k) -> in_u 8 (hi lba) ->
  exists b, read_sector polls bus device lba = Ret (set_ports bus b, sectors k !! Z.to_nat (lba_sector lba)) /\
    ready (set_ports bus b) /\ busy b = 0%nat /\ forall dev, disk_of (view b) dev = disk_of (view (ports bus)) dev.
Proof.
  intros Hr Hk Hok Hh. destruct (addressed_sector (view (ports bus)) device lba Hh) as [Es El]. unfold read_sector.
  destruct (start_transfer_ok bus device lba READ_SECTORS (set_phase (addressed (view (ports bus)) device lba)
    (match sectors k !! Z.to_nat (lba_sector lba) with Some s => DataIn s | None => Idle true end))) as (b & -> & E & Hb).
  - done.
  - unfold drive_command. rewrite Es, El. change (disk_of (addressed ?d _ _) device) with (disk_of d device). by rewrite Hk.
  - destruct (sectors k !! _); [by left|by right].
  - cbn [obind]. destruct (sectors k !! Z.to_nat (lba_sector lba)) as [s|] eqn:Ek; cbn [failed d_phase set_phase].
    + rewrite Forall_lookup in Hok. destruct (Hok _ _ Ek) as [Hl _].
      destruct (read_words_ok s b) as (b' & Ew & E' & Hb'); [by rewrite E|by intros ->|done|]. rewrite <- Hl, Ew.
      exists b'. split; [done|]. unfold ready. simpl. rewrite E', E. split; [done|]. split; [done|]. by intros [].
    + exists b. split; [done|]. unfold ready. simpl. rewrite E. split; [done|]. split; [done|]. by intros [].
Qed.

Lemma write_sector_ok bus device lba k data :
  ready bus -> disk_of (view (ports bus)) device = Some k -> length data = 256%nat -> in_u 8 (hi lba) ->
  0 <= lba_sector lba < Z.of_nat (length (sectors k)) ->
  exists b, write_sector polls bus device lba data = Ret (set_ports bus b, Some ()) /\ ready (set_ports bus b) /\
    disk_of (view b) device = Some (MkDisk (<[Z.to_nat (lba_sector lba) := data]> (sectors k)) (identity k)) /\
    forall dev, dev <> device -> disk_of (view b) dev = disk_of (view (ports bus)) dev.
Proof.
  intros Hr Hk Hl Hh Hs. destruct (addressed_sector (view (ports bus)) device lba Hh) as [Es El]. unfold write_sector.
  destruct (start_transfer_ok bus device lba WRITE_SECTORS (set_phase (addressed (view (ports bus)) device lba)
    (DataOut (Z.to_nat (lba_sector lba)) []))) as (b & -> & E & Hb).
  - done.
  - unfold drive_command. rewrite Es, El. change (disk_of (addressed ?d _ _) device) with (disk_of d device). rewrite Hk.
    by rewrite (proj2 (Z.ltb_lt (lba_sector lba) (Z.of_nat (length (sectors k)))) (proj2 Hs)).
  - by left.
  - cbn [obind failed d_phase set_phase]. exists (write_words data b). split; [done|].
    assert (selected (view b) = device) as Esel by by rewrite E.
    pose proof (write_words_ok data b (Z.to_nat (lba_sector lba)) [] k) as W. rewrite Esel, E in W.
    unfold ready. change (ports (set_ports bus ?b)) with b. rewrite W; clear W; try done.
    + split; [done|]. split; [by destruct device|]. intros dev Hne. by destruct device, dev.
    + by destruct data.
Qed.
End Sectors.
