(* ===== verification/AtaTheorems.v ===== *)
(** A drive as a file of bytes: what reading and writing at any offset do, for the
    driver of [Ata] on drives that keep the promises of [AtaDrive]. *)
From S2P Require Import Prelude MachineInt PackedStruct Decode Ata AtaDrive.
From stdpp Require Import list.
#[local] Open Scope Z_scope.

(** * Addresses *)

(** The number the drive makes of the driver's registers: bits 20 to 23 of the sector
    appear twice. *)
Lemma lba_sector_eq s : 0 <= s -> lba_sector (sector_lba s) = s mod 2 ^ 24 + (s / 2 ^ 20) mod 2 ^ 4 * 2 ^ 24.
Proof.
  intros Hs. unfold lba_sector, sector_lba. cbn [low mid hi]. change 0xFF with (Z.ones 8).
  rewrite !Z.land_ones, !Z.shiftr_div_pow2 by lia. Z.to_euclidean_division_equations. lia.
Qed.

Lemma lba_sector_small s : 0 <= s < 2 ^ 20 -> lba_sector (sector_lba s) = s.
Proof. intros Hs. rewrite lba_sector_eq by lia. rewrite (Z.mod_small s), (Z.div_small s) by lia. change (0 mod 2 ^ 4) with 0. lia. Qed.

Lemma sector_lba_hi s : in_u 8 (hi (sector_lba s)).
Proof. unfold sector_lba. cbn [hi]. change 0xFF with (Z.ones 8). rewrite Z.land_ones by lia. apply Z.mod_pos_bound. lia. Qed.

(** * Bytes of sectors *)

Definition disk_bytes (k : Disk) : list Z := concat (sector_bytes <$> sectors k).

Lemma length_sector_bytes s : length (sector_bytes s) = (2 * length s)%nat.
Proof. unfold sector_bytes. induction s as [|w s IH]; [done|]. cbn [fmap list_fmap concat]. rewrite length_app, IH. simpl. lia. Qed.

Lemma sector_bytes_app s t : sector_bytes (s ++ t) = sector_bytes s ++ sector_bytes t.
Proof. unfold sector_bytes. by rewrite fmap_app, concat_app. Qed.

Lemma sector_bytes_drop s i : sector_bytes (drop i s) = drop (2 * i) (sector_bytes s).
Proof.
  revert i. induction s as [|w s IH]; intros [|i]; try done. replace (2 * S i)%nat with (S (S (2 * i))) by lia. simpl. apply IH.
Qed.

Lemma sector_bytes_take s i : sector_bytes (take i s) = take (2 * i) (sector_bytes s).
Proof.
  revert i. induction s as [|w s IH]; intros [|i]; try done. replace (2 * S i)%nat with (S (S (2 * i))) by lia.
  cbn [take sector_bytes fmap list_fmap concat word_bytes app]. do 2 f_equal. apply IH.
Qed.

Lemma word_bytes_le w : word_bytes w = to_le_bytes 2 w.
Proof.
  unfold word_bytes. change 0xFF with (Z.ones 8). rewrite !Z.land_ones, Z.shiftr_div_pow2 by lia. reflexivity.
Qed.

(** The bytes of a disk and of its sectors. *)
Lemma blocks_take_drop {A} (bs : list (list A)) n i b :
  Forall (fun b => length b = n) bs -> bs !! i = Some b -> take n (drop (n * i) (concat bs)) = b.
Proof.
  intros Hf. revert i. induction Hf as [|c bs Hc Hf IH]; intros [|i] Hi; try done; simpl in *.
  - injection Hi as ->. rewrite Nat.mul_0_r, drop_0, take_app_le, take_ge by lia. done.
  - rewrite drop_app_ge by lia. replace (n * S i - length c)%nat with (n * i)%nat by lia. by apply IH.
Qed.

Lemma length_blocks {A} (bs : list (list A)) n : Forall (fun b => length b = n) bs -> length (concat bs) = (n * length bs)%nat.
Proof. induction 1 as [|c bs Hc Hf IH]; simpl; [lia|]. rewrite length_app, IH. lia. Qed.

Lemma blocks_insert {A} (bs : list (list A)) n i b :
  Forall (fun b => length b = n) bs -> (i < length bs)%nat -> length b = n ->
  concat (<[i := b]> bs) = take (n * i) (concat bs) ++ b ++ drop (n * i + n) (concat bs).
Proof.
  intros Hf. revert i. induction Hf as [|c bs Hc Hf IH]; intros [|i] Hi Hb; simpl in *; try lia.
  - rewrite Nat.mul_0_r. simpl. rewrite drop_app_ge by lia. by rewrite Hc, Nat.sub_diag, drop_0.
  - rewrite IH by lia. rewrite take_app_ge, drop_app_ge by lia. rewrite <- app_assoc.
    do 3 f_equal; f_equal; [lia|f_equal; lia].
Qed.

Lemma disk_blocks k : Forall sector_ok (sectors k) -> Forall (fun b => length b = 512%nat) (sector_bytes <$> sectors k).
Proof. intros H. apply Forall_fmap. eapply Forall_impl; [exact H|]. intros s [Hl _]. simpl. rewrite length_sector_bytes. lia. Qed.

Lemma length_disk_bytes k : Forall sector_ok (sectors k) -> length (disk_bytes k) = (512 * length (sectors k))%nat.
Proof. intros H. unfold disk_bytes. rewrite (length_blocks _ 512) by by apply disk_blocks. by rewrite length_fmap. Qed.

Lemma disk_sector k i s : Forall sector_ok (sectors k) -> sectors k !! i = Some s ->
  sector_bytes s = take 512 (drop (512 * i) (disk_bytes k)).
Proof.
  intros H Hi. symmetry. apply (blocks_take_drop (sector_bytes <$> sectors k)); [by apply disk_blocks|]. by rewrite list_lookup_fmap, Hi.
Qed.

(** * Reading *)

Lemma first_bytes_drop es (skip : bool) : first_bytes es skip = drop (if skip then 1 else 0) (sector_bytes es).
Proof.
  assert (forall es, first_bytes es false = sector_bytes es) as H.
  { clear. intros es. induction es as [|e es IH]; [done|]. simpl. by rewrite IH. }
  destruct skip; [|by rewrite H, drop_0]. destruct es as [|e es]; [done|]. simpl. by rewrite H.
Qed.

(** The bytes of the first sector behind the offset. *)
Lemma first_sector_bytes (o : nat) s :
  first_bytes (drop (Z.to_nat (Z.of_nat o / 2)) s) (Z.of_nat o mod 2 =? 1) = drop o (sector_bytes s).
Proof.
  change 2 with (Z.of_nat 2). rewrite <- Nat2Z.inj_div, <- Nat2Z.inj_mod, Nat2Z.id, first_bytes_drop, sector_bytes_drop, drop_drop.
  f_equal. destruct (Z.eqb_spec (Z.of_nat (o mod 2)) 1); pose proof (Nat.div_mod_eq o 2); pose proof (Nat.mod_upper_bound o 2); lia.
Qed.

(** * Filling a sector *)

Lemma word_of_bytes a b : is_byte a -> is_byte b -> word_bytes (from_le_bytes [a; b]) = [a; b] /\ in_u 16 (from_le_bytes [a; b]).
Proof.
  intros Ha Hb. assert (Forall is_byte [a; b]) as H by (apply Forall_cons; split; [done|by apply Forall_singleton]). split.
  - rewrite word_bytes_le. by apply (to_from_le_bytes [a; b]).
  - by apply (from_le_bytes_range [a; b]).
Qed.

Lemma word_bytes_ok e : Forall is_byte (word_bytes e).
Proof. rewrite word_bytes_le. apply to_le_bytes_is_byte. Qed.
Lemma disk_bytes_ok k : Forall is_byte (disk_bytes k).
Proof.
  unfold disk_bytes. apply Forall_concat, Forall_fmap, Forall_forall. intros s _. simpl. unfold sector_bytes.
  apply Forall_concat, Forall_fmap, Forall_forall. intros e _. apply word_bytes_ok.
Qed.

(** The count of bytes: two for each word touched by [m] bytes from offset [o] on. *)
Definition words_count (o m : nat) : Z := Z.of_nat (2 * ((o + m + 1) / 2 - o / 2)).

Lemma words_count_S2 m : words_count 0 (S (S m)) = 2 + words_count 0 m.
Proof.
  unfold words_count. change (0 / 2)%nat with 0%nat. replace (0 + S (S m) + 1)%nat with ((0 + m + 1) + 1 * 2)%nat by lia.
  rewrite Nat.div_add by lia. lia.
Qed.

Lemma fill_words_aligned v iter bw : Forall (in_u 16) v -> Forall is_byte iter ->
  exists v', fill_words v false iter bw =
      (v', drop (2 * length v) iter, bw + words_count 0 (Nat.min (length iter) (2 * length v))) /\
    sector_bytes v' = take (2 * length v) iter ++ drop (length iter) (sector_bytes v) /\
    length v' = length v /\ Forall (in_u 16) v'.
Proof.
  revert iter bw. induction v as [|e v IH]; intros iter bw Hv Hi.
  { exists []. simpl. rewrite drop_0, Nat.min_0_r. split; [f_equal; unfold words_count; simpl; lia|]. split; [by destruct (length iter)|done]. }
  inversion Hv as [|? ? He Hv']; subst. replace (2 * length (e :: v))%nat with (S (S (2 * length v))) by (simpl; lia).
 pose proof (word_bytes_ok e) as Hwb. cbn [fill_words].
  destruct iter as [|x [|y iter]].
  - exists (e :: v). split; [f_equal; unfold words_count; simpl; lia|]. done.
  - unfold word_bytes in *. apply Forall_cons in Hwb as [H0 [H1 _]%Forall_cons]. apply Forall_cons in Hi as [Hx _].
    cbn [insert list_insert]. destruct (IH [] (bw + 2) Hv') as (v' & -> & Eb & El & Hok); [constructor|].
    destruct (word_of_bytes x (Z.land (Z.shiftr e 8) 0xFF) Hx H1) as [Ew Hw].
    exists (from_le_bytes [x; Z.land (Z.shiftr e 8) 0xFF] :: v'). split.
    { f_equal; [by rewrite !drop_nil|]. rewrite !Nat.min_l by (simpl; lia). simpl. unfold words_count. simpl. lia. }
    cbn [sector_bytes fmap list_fmap concat]. change (concat (word_bytes <$> v')) with (sector_bytes v'). rewrite Ew, Eb. simpl.
    split; [by rewrite take_nil, drop_0|]. split; [lia|by constructor].
  - apply Forall_cons in Hi as [Hx [Hy Hi]%Forall_cons]. cbn [insert list_insert word_bytes].
    destruct (IH iter (bw + 2) Hv' Hi) as (v' & -> & Eb & El & Hok). destruct (word_of_bytes x y Hx Hy) as [Ew Hw].
    exists (from_le_bytes [x; y] :: v'). split.
    { f_equal. cbn [length]. rewrite <- !Nat.succ_min_distr, words_count_S2. lia. }
    cbn [sector_bytes fmap list_fmap concat]. change (concat (word_bytes <$> v')) with (sector_bytes v'). rewrite Ew, Eb. simpl.
    split; [done|]. split; [lia|by constructor].
Qed.

Lemma fill_words_odd e v iter bw : in_u 16 e -> Forall (in_u 16) v -> Forall is_byte iter ->
  exists v', fill_words (e :: v) true iter bw =
      (v', drop (2 * length v + 1) iter, bw + words_count 1 (Nat.min (length iter) (2 * length v + 1))) /\
    sector_bytes v' = take 1 (word_bytes e) ++ take (2 * length v + 1) iter ++ drop (1 + length iter) (sector_bytes (e :: v)) /\
    length v' = S (length v) /\ Forall (in_u 16) v'.
Proof.
  intros He Hv Hi. pose proof (word_bytes_ok e) as Hwb. apply Forall_cons in Hwb as [H0 [H1 _]%Forall_cons].
  cbn [fill_words]. rewrite Nat.add_1_r. destruct iter as [|y iter].
  - destruct (fill_words_aligned v [] (bw + 2) Hv) as (v' & -> & Eb & El & Hok); [constructor|]. cbn [word_bytes].
    destruct (word_of_bytes _ _ H0 H1) as [Ew Hw].
    exists (from_le_bytes (word_bytes e) :: v'). split; [f_equal; [by destruct (2 * length v)%nat|unfold words_count; simpl; lia]|].
    cbn [sector_bytes fmap list_fmap concat]. change (concat (word_bytes <$> ?l)) with (sector_bytes l). unfold word_bytes at 2.
    rewrite Ew, Eb. simpl. rewrite take_nil, drop_0. split; [done|]. split; [lia|by constructor].
  - apply Forall_cons in Hi as [Hy Hi]. cbn [insert list_insert word_bytes].
    destruct (fill_words_aligned v iter (bw + 2) Hv Hi) as (v' & -> & Eb & El & Hok).
    destruct (word_of_bytes (Z.land e 0xFF) y H0 Hy) as [Ew Hw].
    exists (from_le_bytes [Z.land e 0xFF; y] :: v'). split.
    { f_equal. cbn [length]. rewrite <- Nat.succ_min_distr. unfold words_count. change (1 / 2)%nat with 0%nat. change (0 / 2)%nat with 0%nat.
      replace (1 + S (Nat.min (length iter) (2 * length v)) + 1)%nat with ((0 + Nat.min (length iter) (2 * length v) + 1) + 1 * 2)%nat by lia.
      rewrite Nat.div_add by lia. lia. }
    cbn [sector_bytes fmap list_fmap concat]. change (concat (word_bytes <$> ?l)) with (sector_bytes l).
    rewrite Ew, Eb. simpl. split; [done|]. split; [lia|by constructor].
Qed.

(** A sector with the data from an offset on. *)
Lemma fill_sector v (o : nat) iter bw : sector_ok v -> Forall is_byte iter -> (o < 512)%nat ->
  exists tail, fill_words (drop (o / 2) v) (Z.of_nat o mod 2 =? 1) iter bw =
      (tail, drop (512 - o) iter, bw + words_count o (Nat.min (length iter) (512 - o))) /\
    sector_bytes (take (o / 2) v ++ tail) = splice (sector_bytes v) o (take (512 - o) iter) /\
    sector_ok (take (o / 2) v ++ tail).
Proof.
  intros [Hl Hv] Hi Ho. pose proof (Nat.div_mod_eq o 2) as Ed. pose proof (Nat.mod_upper_bound o 2 ltac:(lia)) as Hm.
  assert (Forall (in_u 16) (drop (o / 2) v)) as Hd by by apply Forall_drop.
  assert (Forall (in_u 16) (take (o / 2) v)) as Ht by by apply Forall_take.
  assert (length (drop (o / 2) v) = (256 - o / 2)%nat) as Hld by by rewrite length_drop, Hl.
  assert (length (take (o / 2) v) = (o / 2)%nat) as Hlt by (rewrite length_take; lia).
  change 2 with (Z.of_nat 2). rewrite <- Nat2Z.inj_mod. destruct (Z.eqb_spec (Z.of_nat (o mod 2)) 1) as [E1|E1].
  - destruct (drop (o / 2) v) as [|e w] eqn:Edr; [cbn [length] in Hld; lia|]. apply Forall_cons in Hd as [He Hw]. cbn [length] in Hld.
    destruct (fill_words_odd e w iter bw He Hw Hi) as (v' & -> & Eb & El & Hok). exists v'.
    replace (2 * length w + 1)%nat with (512 - o)%nat in * by lia. split.
    { f_equal. f_equal. unfold words_count. do 2 f_equal.
      replace (o + Nat.min (length iter) (512 - o) + 1)%nat with ((1 + Nat.min (length iter) (512 - o) + 1) + (o / 2) * 2)%nat by lia.
      rewrite Nat.div_add by lia. change (1 / 2)%nat with 0%nat. lia. }
    split; [|split; [rewrite length_app; lia|by apply Forall_app]].
    rewrite sector_bytes_app, Eb, sector_bytes_take, <- Edr, sector_bytes_drop, drop_drop. unfold splice.
    assert (sector_bytes (drop (o / 2) v) = drop (2 * (o / 2)) (sector_bytes v)) as Ee by apply sector_bytes_drop. rewrite Edr in Ee.
    assert (take 1 (word_bytes e) = take 1 (drop (2 * (o / 2)) (sector_bytes v))) as -> by (rewrite <- Ee; done).
    rewrite app_assoc, take_take_drop. f_equal; [f_equal; lia|]. f_equal.
    rewrite length_take. destruct (Nat.le_ge_cases (length iter) (512 - o)).
    + f_equal. lia.
    + rewrite !drop_ge by (rewrite length_sector_bytes; lia). done.
  - destruct (fill_words_aligned (drop (o / 2) v) iter bw Hd Hi) as (v' & -> & Eb & El & Hok). exists v'. rewrite Hld in *.
    replace (2 * (256 - o / 2))%nat with (512 - o)%nat in * by lia. split.
    { f_equal. f_equal. unfold words_count. do 2 f_equal.
      replace (o + Nat.min (length iter) (512 - o) + 1)%nat with ((0 + Nat.min (length iter) (512 - o) + 1) + (o / 2) * 2)%nat by lia.
      rewrite Nat.div_add by lia. change (0 / 2)%nat with 0%nat. lia. }
    split; [|split; [rewrite length_app; lia|by apply Forall_app]].
    rewrite sector_bytes_app, Eb, sector_bytes_take, sector_bytes_drop, drop_drop. unfold splice.
    f_equal; [f_equal; lia|]. f_equal. rewrite length_take. destruct (Nat.le_ge_cases (length iter) (512 - o)).
    + f_equal. lia.
    + rewrite !drop_ge by (rewrite length_sector_bytes; lia). done.
Qed.

(** The number of sectors the loops are made for. *)
Definition blocks (len : nat) : nat := (len + 511) / 512.

Lemma blocks_eq (len : nat) : Z.of_nat len / SECTOR_SIZE_IN_BYTES + extra_block (Z.of_nat len) = Z.of_nat (blocks len).
Proof.
  unfold blocks, extra_block. change SECTOR_SIZE_IN_BYTES with (Z.of_nat 512). rewrite <- Nat2Z.inj_mod, <- Nat2Z.inj_div.
  pose proof (Nat.div_mod_eq len 512). pose proof (Nat.mod_upper_bound len 512 ltac:(lia)).
  pose proof (Nat.div_mod_eq (len + 511) 512). pose proof (Nat.mod_upper_bound (len + 511) 512 ltac:(lia)).
  destruct (Z.eqb_spec (Z.of_nat (len mod 512)) 0); lia.
Qed.

Lemma blocks_bounds len : (len <= 512 * blocks len < len + 512)%nat.
Proof. unfold blocks. pose proof (Nat.div_mod_eq (len + 511) 512). pose proof (Nat.mod_upper_bound (len + 511) 512). lia. Qed.

Section File.
Context {B : Type} {P : AtaPorts B} {polls : nat} {OK : AtaDriveOk B polls}.
Context {PS : PackedStruct} {PSok : PackedStructOk PS}.

(** The drive [device] is there and holds [k]. *)
Definition drive_holds (bus : ATABus B) (device : ATADevice) (k : Disk) : Prop :=
  ready bus /\ disk_of (view (ports bus)) device = Some k /\ Forall sector_ok (sectors k).

(** The part of a drive the driver addresses as it should: its first 2^20 sectors,
    512 MiB ([ata_high_sector_misread] is about the rest). *)
Definition in_reach (off len : nat) : Prop := Z.of_nat off < 2 ^ 29 /\ Z.of_nat (off + len) <= 2 ^ 29.

Lemma read_sector_at bus device k (i : nat) s :
  drive_holds bus device k -> sectors k !! i = Some s -> Z.of_nat i < 2 ^ 20 ->
  exists b, read_sector polls bus device (sector_lba (Z.of_nat i)) = Ret (set_ports bus b, Some s) /\ drive_holds (set_ports bus b) device k.
Proof.
  intros (Hr & Hk & Hok) Hi H20.
  destruct (read_sector_ok bus device (sector_lba (Z.of_nat i)) k Hr Hk Hok (sector_lba_hi _)) as (b & E & Hr' & _ & Hd).
  rewrite lba_sector_small, Nat2Z.id, Hi in E by lia. exists b. split; [done|]. split; [done|]. simpl. by rewrite Hd.
Qed.

(** Reading on, from [i] sectors read: as many sectors as are needed, or as the loop
    has. *)
Lemma read_more_ok n bus device k (off len i : nat) :
  drive_holds bus device k -> (off + len <= length (disk_bytes k))%nat -> Z.of_nat (off + len) <= 2 ^ 29 -> (1 <= i)%nat ->
  let res i := take (512 * i - off mod 512) (drop off (disk_bytes k)) in
  exists b j, read_more polls bus device (res i) (Z.of_nat len) (Z.of_nat (off / 512)) (Z.of_nat i) n
      = Ret (set_ports bus b, Some (res j)) /\
    drive_holds (set_ports bus b) device k /\ (i <= j <= i + n)%nat /\ (len <= 512 * j - off mod 512 \/ j = i + n)%nat.
Proof.
  intros Hh Hb H29 Hi res. assert (Forall sector_ok (sectors k)) as Hok by apply Hh. pose proof (length_disk_bytes k Hok) as HL.
  revert bus i Hh Hi. induction n as [|n IH]; intros bus i Hh Hi; cbn [read_more].
  { exists (ports bus), i. replace (set_ports bus (ports bus)) with bus by by destruct bus. split_and!; try done; lia. }
  assert (length (res i) = Nat.min (512 * i - off mod 512) (length (disk_bytes k) - off)) as Hlr
    by (unfold res; by rewrite length_take, length_drop).
  pose proof (Nat.div_mod_eq off 512). pose proof (Nat.mod_upper_bound off 512 ltac:(lia)).
  destruct (Z.geb_spec (Z.of_nat (length (res i))) (Z.of_nat len)) as [Hge|Hlt].
  { exists (ports bus), i. replace (set_ports bus (ports bus)) with bus by by destruct bus. split_and!; try done; lia. }
  assert (off / 512 + i < length (sectors k))%nat as Hin by lia. assert (Z.of_nat (off / 512 + i) < 2 ^ 20) as H20 by lia.
  rewrite add_chk_ok by lia. cbn [obind]. rewrite <- Nat2Z.inj_add.
  destruct (lookup_lt_is_Some_2 (sectors k) (off / 512 + i)) as [s Es]; [done|].
  destruct (read_sector_at bus device k _ s Hh Es H20) as (b & -> & Hh'). cbn [obind].
  assert (res i ++ sector_bytes s = res (S i)) as Eres.
  { rewrite (disk_sector k _ s Hok Es). unfold res.
    replace (512 * S i - off mod 512)%nat with ((512 * i - off mod 512) + 512)%nat by lia.
    rewrite <- take_take_drop, drop_drop. do 3 f_equal. lia. }
  rewrite Eres. replace (Z.of_nat i + 1) with (Z.of_nat (S i)) by lia.
  destruct (IH (set_ports bus b) (S i) Hh') as (b' & j & -> & H' & Hj & Hj'); [lia|].
  exists b', j. split; [done|]. split; [done|]. split; lia.
Qed.
Lemma offset_split (off : nat) :
  Z.of_nat off mod SECTOR_SIZE_IN_BYTES = Z.of_nat (off mod 512) /\ Z.of_nat off / SECTOR_SIZE_IN_BYTES = Z.of_nat (off / 512).
Proof. change SECTOR_SIZE_IN_BYTES with (Z.of_nat 512). by rewrite <- Nat2Z.inj_mod, <- Nat2Z.inj_div. Qed.

Lemma ata_reads bus device k (off len : nat) :
  drive_holds bus device k -> (off + len <= length (disk_bytes k))%nat -> (off < length (disk_bytes k))%nat -> in_reach off len ->
  ((off mod 512 + len <= 512 * Nat.max 1 (blocks len))%nat ->
    exists b, ata_file_read polls bus device (Z.of_nat off) (Z.of_nat len)
        = Ret (set_ports bus b, Some (take len (drop off (disk_bytes k)))) /\
      drive_holds (set_ports bus b) device k) /\
  ((512 * Nat.max 1 (blocks len) < off mod 512 + len)%nat ->
    ata_file_read polls bus device (Z.of_nat off) (Z.of_nat len) = Panic).
Proof.
  intros Hh Hb Ho [H29 H29']. assert (Forall sector_ok (sectors k)) as Hok by apply Hh. pose proof (length_disk_bytes k Hok) as HL.
  pose proof (Nat.div_mod_eq off 512). pose proof (Nat.mod_upper_bound off 512 ltac:(lia)). pose proof (blocks_bounds len).
  destruct (lookup_lt_is_Some_2 (sectors k) (off / 512)) as [s Es]; [lia|].
  destruct (read_sector_at bus device k _ s Hh Es) as (b & Er & Hh'); [lia|].
  destruct (read_more_ok (blocks len - 1) (set_ports bus b) device k off len 1 Hh' Hb H29') as (b' & j & Em & H' & Hj & Hj'); [lia|].
  assert (ata_file_read polls bus device (Z.of_nat off) (Z.of_nat len) =
    let! _ := rassert (Z.of_nat (Nat.min len (512 * j - off mod 512)) =? Z.of_nat len) in
    Ret (set_ports bus b', Some (take len (take (512 * j - off mod 512) (drop off (disk_bytes k)))))) as E.
  { unfold ata_file_read. destruct (offset_split off) as [-> ->]. rewrite Er. cbn [obind].
    rewrite first_sector_bytes, (disk_sector k _ s Hok Es), skipn_firstn_comm, drop_drop, blocks_eq.
    replace (512 * (off / 512) + off mod 512)%nat with off by lia.
    replace (Z.to_nat (Z.of_nat (blocks len) - 1)) with (blocks len - 1)%nat by lia. change (Z.of_nat 1) with 1 in Em. change (512 * 1)%nat with 512%nat in Em.
    rewrite Em. cbn [obind]. rewrite Nat2Z.id. rewrite take_take at 1. rewrite length_take, length_drop. do 3 f_equal. lia. }
  split; intros Hd.
  - exists b'. split; [|exact H']. rewrite E, (proj2 (Z.eqb_eq _ _)) by lia. cbn [obind rassert]. rewrite take_take. do 4 f_equal. lia.
  - rewrite E, (proj2 (Z.eqb_neq _ _)) by lia. done.
Qed.

(** C20: reading [len] bytes at an offset in the first 512 MiB of a drive delivers
    exactly those bytes, at any alignment, as long as they lie in the number of sectors
    that [len] bytes fill when they start on a sector boundary.  Where the offset pushes the end into one
    sector more, that sector is not read, and the assertion on the length stops the
    kernel. *)
Theorem ata_read_delivers bus device k (off len : nat) :
  drive_holds bus device k -> (off + len <= length (disk_bytes k))%nat -> (off < length (disk_bytes k))%nat -> in_reach off len ->
  ((off mod 512 + len <= 512 * Nat.max 1 (blocks len))%nat ->
    exists b, ata_file_read polls bus device (Z.of_nat off) (Z.of_nat len)
        = Ret (set_ports bus b, Some (take len (drop off (disk_bytes k)))) /\
      drive_holds (set_ports bus b) device k) /\
  ((512 * Nat.max 1 (blocks len) < off mod 512 + len)%nat ->
    ata_file_read polls bus device (Z.of_nat off) (Z.of_nat len) = Panic).
Proof. apply ata_reads. Qed.
(** * Writing *)

Lemma disk_bytes_insert k i s s' o d :
  Forall sector_ok (sectors k) -> sectors k !! i = Some s -> sector_ok s' -> (o + length d <= 512)%nat ->
  sector_bytes s' = splice (sector_bytes s) o d ->
  disk_bytes (MkDisk (<[i := s']> (sectors k)) (identity k)) = splice (disk_bytes k) (512 * i + o) d.
Proof.
  intros Hok Hi [Hl _] Ho E. pose proof (lookup_lt_Some _ _ _ Hi). pose proof (length_disk_bytes k Hok) as HL. unfold disk_bytes in *.
  cbn [sectors]. rewrite list_fmap_insert, (blocks_insert _ 512); [|by apply disk_blocks|by rewrite length_fmap|rewrite length_sector_bytes; lia].
  rewrite E, (disk_sector k i s Hok Hi). unfold splice, disk_bytes. set (D := concat _).
  rewrite take_take, Nat.min_l by lia. rewrite skipn_firstn_comm, drop_drop.
  rewrite <- (take_take_drop D (512 * i) o), <- !app_assoc. do 3 f_equal.
  replace (512 * i + 512)%nat with (512 * i + (o + length d) + (512 - (o + length d)))%nat by lia.
  rewrite <- (drop_drop D (512 - (o + length d)) (512 * i + (o + length d))).
  rewrite take_drop. f_equal. lia.
Qed.

Definition same_others (bus bus' : ATABus B) (device : ATADevice) : Prop :=
  forall dev, dev <> device -> disk_of (view (ports bus')) dev = disk_of (view (ports bus)) dev.

Lemma write_sector_at bus device k (i : nat) s' :
  drive_holds bus device k -> (i < length (sectors k))%nat -> Z.of_nat i < 2 ^ 20 -> sector_ok s' ->
  exists b, write_sector polls bus device (sector_lba (Z.of_nat i)) s' = Ret (set_ports bus b, Some ()) /\
    drive_holds (set_ports bus b) device (MkDisk (<[i := s']> (sectors k)) (identity k)) /\ same_others bus (set_ports bus b) device.
Proof.
  intros (Hr & Hk & Hok) Hi H20 Hs. assert (lba_sector (sector_lba (Z.of_nat i)) = Z.of_nat i) as E by (apply lba_sector_small; lia).
  destruct (write_sector_ok bus device (sector_lba (Z.of_nat i)) k s' Hr Hk) as (b & Ew & Hr' & Hd & Ho);
    [apply Hs|apply sector_lba_hi|lia|]. rewrite E, Nat2Z.id in Hd. exists b. split; [done|]. split; [|exact Ho].
  split; [done|]. split; [done|]. cbn [sectors]. by apply Forall_insert.
Qed.

(** The sector the loop fills: read from the drive when the data leaves a part of it. *)
Definition reads_first (dlen ofs i : nat) : bool :=
  ((Z.of_nat i =? Z.of_nat dlen / SECTOR_SIZE_IN_BYTES + extra_block (Z.of_nat dlen) - 1) && (extra_block (Z.of_nat dlen) =? 1))
  || ((Z.of_nat i =? 0) && negb (Z.of_nat ofs =? 0)).

Lemma full_sector dlen ofs i : reads_first dlen ofs i = false -> (i < blocks dlen)%nat ->
  (512 * (i + 1) <= dlen)%nat /\ (i = 0 -> ofs = 0)%nat.
Proof.
  unfold reads_first. rewrite blocks_eq. pose proof (blocks_bounds dlen). intros [H1 H2]%orb_false_iff Hi. split.
  - unfold extra_block in *. change SECTOR_SIZE_IN_BYTES with (Z.of_nat 512) in H1. rewrite <- Nat2Z.inj_mod in H1.
    pose proof (Nat.div_mod_eq dlen 512). pose proof (Nat.mod_upper_bound dlen 512 ltac:(lia)).
    destruct (Z.eqb_spec (Z.of_nat i) (Z.of_nat (blocks dlen) - 1)); [|lia].
    destruct (Z.eqb_spec (Z.of_nat (dlen mod 512)) 0); [|done]. lia.
  - intros ->. destruct (Z.eqb_spec (Z.of_nat ofs) 0); [lia|done].
Qed.
(** One round: whichever words the loop starts from, the sector on the drive becomes
    the old one with the data in it. *)
Lemma write_round bus device k (i o : nat) (rd : bool) iter s bw :
  drive_holds bus device k -> sectors k !! i = Some s -> Z.of_nat i < 2 ^ 20 -> Forall is_byte iter -> (o < 512)%nat ->
  (rd = false -> o = 0 /\ 512 <= length iter)%nat ->
  exists b0 v tail, (if rd then let! (bus, v) := read_sector polls bus device (sector_lba (Z.of_nat i)) in
                         let! v := unwrap v in Ret (bus, v)
                     else Ret (bus, replicate 256 0)) = Ret (set_ports bus b0, v) /\
    fill_words (drop (o / 2) v) (Z.of_nat o mod 2 =? 1) iter bw =
      (tail, drop (512 - o) iter, bw + words_count o (Nat.min (length iter) (512 - o))) /\
    sector_bytes (take (o / 2) v ++ tail) = splice (sector_bytes s) o (take (512 - o) iter) /\
    sector_ok (take (o / 2) v ++ tail) /\ drive_holds (set_ports bus b0) device k /\ same_others bus (set_ports bus b0) device.
Proof.
  intros Hh Hs H20 Hi Ho Hr. assert (sector_ok s) as Hok by (eapply Forall_lookup_1; [apply Hh|exact Hs]). destruct rd.
  - destruct Hh as (Hr0 & Hk & Hoks).
    destruct (read_sector_ok bus device (sector_lba (Z.of_nat i)) k Hr0 Hk Hoks (sector_lba_hi _)) as (b & E & Hr' & _ & Hd).
    rewrite lba_sector_small, Nat2Z.id, Hs in E by lia. destruct (fill_sector s o iter bw Hok Hi Ho) as (tail & E1 & E2 & E3).
    exists b, s, tail. rewrite E. split; [done|]. split; [done|]. split; [done|]. split; [done|]. split.
    + split; [done|]. cbn [ports set_ports]. by rewrite Hd.
    + intros dev _. apply Hd.
  - destruct (Hr eq_refl) as [-> Hlen]. assert (sector_ok (replicate 256 0)) as Hz.
    { split; [by rewrite length_replicate|]. by apply Forall_replicate. }
    destruct (fill_sector (replicate 256 0) 0 iter bw Hz Hi Ho) as (tail & E1 & E2 & E3).
    exists (ports bus), (replicate 256 0), tail. replace (set_ports bus (ports bus)) with bus by by destruct bus.
    split; [done|]. split; [done|]. split; [|by split_and!]. rewrite E2. unfold splice.
    rewrite !take_0, length_take, !drop_ge; [done| |]; rewrite length_sector_bytes; rewrite ?length_replicate; destruct Hok; lia.
Qed.

Lemma words_count_app (o m n : nat) : (o <= 512)%nat ->
  words_count o (Nat.min m (512 - o)) + (if (n =? 0)%nat then 0 else words_count 0 (Nat.min (m - (512 - o)) (512 * n)))
  = words_count o (Nat.min m (512 * S n - o)).
Proof.
  intros Ho. unfold words_count. change (0 / 2)%nat with 0%nat. pose proof (Nat.div_mod_eq o 2). pose proof (Nat.mod_upper_bound o 2 ltac:(lia)).
  assert (forall x, x = 2 * (x / 2) + x mod 2 /\ x mod 2 < 2)%nat as H2 by (intros x; split; [apply Nat.div_mod_eq|apply Nat.mod_upper_bound; lia]).
  pose proof (H2 (o + Nat.min m (512 - o) + 1)%nat). pose proof (H2 (0 + Nat.min (m - (512 - o)) (512 * n) + 1)%nat).
  pose proof (H2 (o + Nat.min m (512 * S n - o) + 1)%nat). destruct (Nat.eqb_spec n 0); lia.
Qed.

Lemma write_loop_ok n bus device k (dlen ofs first i o : nat) iter bw :
  drive_holds bus device k -> (i + n = blocks dlen)%nat -> (first + i + n <= length (sectors k))%nat -> Z.of_nat (first + i + n) <= 2 ^ 20 -> (o < 512)%nat ->
  o = (if (i =? 0)%nat then ofs else 0)%nat -> Forall is_byte iter -> (dlen <= length iter + 512 * i)%nat ->
  exists b k', write_loop polls bus device (Z.of_nat dlen) (Z.of_nat ofs) (Z.of_nat first) (Z.of_nat i)
        (o / 2) (Z.of_nat o mod 2 =? 1) iter bw n =
      Ret (set_ports bus b, Some (bw + if (n =? 0)%nat then 0 else words_count o (Nat.min (length iter) (512 * n - o)))) /\
    drive_holds (set_ports bus b) device k' /\ same_others bus (set_ports bus b) device /\
    disk_bytes k' = splice (disk_bytes k) (512 * (first + i) + o) (take (512 * n - o) iter).
Proof.
  revert bus k i o iter bw. induction n as [|n IH]; intros bus k i o iter bw Hh Hn Hf H20 Ho Eo Hi Hd; cbn [write_loop].
  { exists (ports bus), k. replace (set_ports bus (ports bus)) with bus by by destruct bus. rewrite Z.add_0_r, splice_nil. by split_and!. }
  assert (Z.of_nat (first + i) < 2 ^ 20) as Hi20 by lia. assert (Forall sector_ok (sectors k)) as Hok by apply Hh.
  rewrite add_chk_ok by lia. cbn [obind]. rewrite <- Nat2Z.inj_add. fold (reads_first dlen ofs i).
  destruct (lookup_lt_is_Some_2 (sectors k) (first + i)) as [s Hs]; [lia|].
  destruct (write_round bus device k (first + i) o (reads_first dlen ofs i) iter s bw Hh Hs Hi20 Hi Ho) as (b0 & v & tail & -> & E1 & Eb & Hso & Hh0 & Ho0).
  { intros Hr. destruct (full_sector dlen ofs i Hr) as [? ?]; [lia|]. destruct (Nat.eqb_spec i 0); lia. }
  cbn [obind]. rewrite E1. destruct (write_sector_at _ device k (first + i) _ Hh0 (lookup_lt_Some _ _ _ Hs) Hi20 Hso) as (b1 & -> & Hh1 & Ho1). cbn [obind].
  set (k1 := MkDisk _ _) in *. change (set_ports (set_ports bus b0) b1) with (set_ports bus b1) in *.
  change 0%nat with (0 / 2)%nat at 1. change false with (Z.of_nat 0 mod 2 =? 1). replace (Z.of_nat i + 1) with (Z.of_nat (S i)) by lia.
  destruct (IH (set_ports bus b1) k1 (S i) 0%nat (drop (512 - o) iter) (bw + words_count o (Nat.min (length iter) (512 - o))))
    as (b2 & k2 & -> & Hh2 & Ho2 & Eb2); [done|lia|unfold k1; cbn [sectors]; rewrite length_insert; lia|lia|lia|done|by apply Forall_drop|rewrite length_drop; lia|].
  exists b2, k2. change (set_ports (set_ports bus b1) b2) with (set_ports bus b2) in *. split; [|split; [done|split]].
  - do 3 f_equal. rewrite length_drop, <- Z.add_assoc. replace (512 * n - 0)%nat with (512 * n)%nat by lia. f_equal.
    apply words_count_app. lia.
  - intros dev Hne. by rewrite Ho2, Ho1, Ho0.
  - rewrite Eb2. assert (disk_bytes k1 = splice (disk_bytes k) (512 * (first + i) + o) (take (512 - o) iter)) as ->
      by (apply (disk_bytes_insert k _ s); [done|done|done|rewrite length_take; lia|done]).
    rewrite Nat.sub_0_r, Nat.add_0_r. pose proof (length_disk_bytes k Hok).
    destruct (Nat.le_ge_cases (length iter) (512 - o)) as [Hle|Hge].
    + rewrite drop_ge, take_nil, splice_nil by lia. by rewrite !take_ge by lia.
    + replace (512 * (first + S i))%nat with (512 * (first + i) + o + length (take (512 - o) iter))%nat by (rewrite length_take; lia).
      rewrite splice_app by (rewrite !length_take, ?length_drop; lia). rewrite take_take_drop. do 2 f_equal. lia.
Qed.

Lemma ata_writes bus device k (off : nat) data :
  drive_holds bus device k -> (off + length data <= length (disk_bytes k))%nat -> Z.of_nat (off + length data) <= 2 ^ 29 -> Forall is_byte data ->
  let o := (off mod 512)%nat in
  let stored := take (512 * blocks (length data) - o) data in
  exists b k', ata_file_write polls bus device (Z.of_nat off) data =
      Ret (set_ports bus b, Some (if decide (data = []) then 0 else words_count o (length stored))) /\
    drive_holds (set_ports bus b) device k' /\ same_others bus (set_ports bus b) device /\
    disk_bytes k' = splice (disk_bytes k) off stored.
Proof.
  intros Hh Hb H29 Hd o stored. assert (Forall sector_ok (sectors k)) as Hok by apply Hh. pose proof (length_disk_bytes k Hok).
  pose proof (Nat.div_mod_eq off 512). pose proof (Nat.mod_upper_bound off 512 ltac:(lia)) as Ho. pose proof (blocks_bounds (length data)).
  destruct (write_loop_ok (blocks (length data)) bus device k (length data) o (off / 512) 0 o data 0)
    as (b & k' & E & Hh' & Hs & Eb); [done|lia|lia|lia|done|done|done|lia|].
  exists b, k'. rewrite Nat.add_0_r in Eb. replace (512 * (off / 512) + o)%nat with off in Eb by (unfold o; lia).
  split; [|done]. unfold ata_file_write. destruct (offset_split off) as [-> ->]. rewrite blocks_eq, Nat2Z.id. fold o.
  change 2 with (Z.of_nat 2) at 1. rewrite <- Nat2Z.inj_div, Nat2Z.id. change (Z.of_nat 0) with 0 in E. rewrite E.
  do 3 f_equal. unfold stored. rewrite length_take, Nat.min_comm.
  case_decide as Ed; [by subst data|]. destruct data; [done|]. cbn [length] in *.
  destruct (Nat.eqb_spec (blocks (S (length data))) 0); [lia|lia].
Qed.

(** C19: writing into the first 512 MiB of a drive stores the data at its offset and
    changes nothing else, as far as it fits into the number of sectors its length fills
    from a sector boundary on; the rest of the data is dropped.  The count returned is in whole words: twice the
    number of 16-bit words touched, not the number of bytes stored. *)
Theorem ata_write_stores bus device k (off : nat) data :
  drive_holds bus device k -> (off + length data <= length (disk_bytes k))%nat -> Z.of_nat (off + length data) <= 2 ^ 29 -> Forall is_byte data ->
  let o := (off mod 512)%nat in
  let stored := take (512 * blocks (length data) - o) data in
  exists b k', ata_file_write polls bus device (Z.of_nat off) data =
      Ret (set_ports bus b, Some (if decide (data = []) then 0 else words_count o (length stored))) /\
    drive_holds (set_ports bus b) device k' /\ same_others bus (set_ports bus b) device /\
    disk_bytes k' = splice (disk_bytes k) off stored.
Proof. apply ata_writes. Qed.
(** * Sizes, and sectors out of reach *)

(** IDENTIFY DEVICE, given when the drive is not busy. *)
Lemma identify_ok bus device k :
  ready bus -> busy (ports bus) = 0%nat -> disk_of (view (ports bus)) device = Some k -> length (identity k) = 256%nat ->
  exists b, identify polls bus device = Ret (set_ports bus b, Some (identity k)) /\
    ready (set_ports bus b) /\ busy b = 0%nat /\ forall dev, disk_of (view b) dev = disk_of (view (ports bus)) dev.
Proof.
  intros Hr Hb Hk Hl. unfold identify, write_command.
  set (sel := match device with MASTER => 0xA0 | SLAVE => 0xB0 end).
  destruct (out_reg (ports bus) DriveSel sel Hr Hb) as (E1 & B1 & P1); [done|done|].
  destruct (out_reg _ AddressHi 0 P1 B1) as (E2 & B2 & P2); [done|done|].
  destruct (out_reg _ AddressMid 0 P2 B2) as (E3 & B3 & P3); [done|done|].
  destruct (out_reg _ AddressLow 0 P3 B3) as (E4 & B4 & P4); [done|done|]. rewrite E3, E2, E1 in E4.
  cbn [set_reg d_master d_slave d_count d_low d_mid d_hi d_sel d_phase] in E4.
  revert B4 P4 E4. generalize (port_out (port_out (port_out (port_out (ports bus) DriveSel sel) AddressHi 0) AddressMid 0) AddressLow 0).
  intros b4 B4 P4 E4. destruct (reg_out b4 StatCommand IDENTIYFY_DEVICE (set_phase (view b4) (DataIn (identity k))) B4) as (E5 & _).
  { unfold drive_out, drive_command. assert (disk_of (view b4) (selected (view b4)) = Some k) as ->
      by (rewrite E4; unfold sel; by destruct device). by destruct (d_phase (view b4)). }
  set (b5 := port_out b4 StatCommand IDENTIYFY_DEVICE) in *.
  destruct (read_status_ok b5) as (st & -> & H1 & H0). cbn [obind]. destruct (status_in b5) as (E6 & _). set (b6 := (port_in b5 StatCommand).1) in *.
  destruct (unpack_status_bits 0 ltac:(done)) as (z & -> & Z7 & Z3 & _). rewrite decide_False.
  2:{ intros ->. destruct (decide (busy b5 = 0%nat)) as [Hz|Hz]; [|by rewrite Z7 in H1; specialize (H1 Hz)].
      destruct (H0 Hz) as (_ & Hd & _). rewrite Z3, E5 in Hd. done. }
  destruct (wait_for_data_ok b6) as (b7 & -> & E7 & B7); [left; by rewrite E6, E5|]. rewrite E6, E5 in E7 |- *.
  cbn [obind failed d_phase set_phase]. destruct (read_words_ok (identity k) b7) as (b8 & Ew & E8 & B8); [by rewrite E7|by destruct (identity k)|done|].
  rewrite <- Hl, Ew. exists b8. split; [done|]. unfold ready. cbn [ports set_ports]. rewrite E8, E7. split; [done|]. split; [done|]. rewrite E4. by intros [].
Qed.

(** The size of a drive is asked for once, and remembered. *)
Lemma ata_size_remembered bus device k w60 w61 :
  ready bus -> busy (ports bus) = 0%nat -> disk_of (view (ports bus)) device = Some k -> length (identity k) = 256%nat ->
  identity k !! 60%nat = Some w60 -> identity k !! 61%nat = Some w61 -> in_u 16 w60 -> in_u 16 w61 -> sector_count bus device = None ->
  exists bus', ata_file_size polls bus device = Ret (bus', (w60 + 2 ^ 16 * w61) * 512) /\ ready bus' /\
    ata_file_size polls bus' device = Ret (bus', (w60 + 2 ^ 16 * w61) * 512).
Proof.
  intros Hr Hb Hk Hl H60 H61 U60 U61 Hc. unfold ata_file_size, get_sector_count. rewrite Hc.
  destruct (identify_ok bus device k Hr Hb Hk Hl) as (b & -> & Hr' & _). cbn [obind]. unfold id_sector_count. rewrite H60, H61. cbn [obind unwrap].
  assert (from_le_bytes (to_le_bytes 2 w60 ++ to_le_bytes 2 w61) = w60 + 2 ^ 16 * w61) as ->.
  { unfold in_u in *. cbn [to_le_bytes app from_le_bytes]. Z.to_euclidean_division_equations. lia. }
  assert ((w60 + 2 ^ 16 * w61) * SECTOR_SIZE_IN_BYTES < 2 ^ 64) as Hm by (unfold in_u in *; change SECTOR_SIZE_IN_BYTES with 512; lia).
  rewrite mul_chk_ok by done. cbn [obind]. eexists. split; [done|]. split; [by destruct device|].
  destruct device; simpl; by rewrite mul_chk_ok.
Qed.

(** Beyond sector 2^20 (512 MiB) the driver reads other sectors than it is asked
    for: bits 20 to 23 of the sector's number also go where the drive expects bits 24
    to 27. *)
Theorem ata_high_sector_misread bus device k (s : Z) :
  ready bus -> disk_of (view (ports bus)) device = Some k -> Forall sector_ok (sectors k) -> 2 ^ 20 <= s < 2 ^ 24 ->
  exists b, read_sector polls bus device (sector_lba s) =
    Ret (set_ports bus b, sectors k !! Z.to_nat (s + s / 2 ^ 20 * 2 ^ 24)).
Proof.
  intros Hr Hk Hok Hs. destruct (read_sector_ok bus device (sector_lba s) k Hr Hk Hok (sector_lba_hi s)) as (b & E & _).
  exists b. rewrite E, lba_sector_eq by lia.
  rewrite (Z.mod_small s) by lia. rewrite (Z.mod_small (s / 2 ^ 20)) by (Z.to_euclidean_division_equations; lia). done.
Qed.
End File.

(** * A simulated drive *)

(** The machine with a fixed delay: two readings of the status after a command, one
    after a sector is written. *)
Record SimDrive := MkSim { sim_drive : Drive; sim_delay : nat }.

Definition sim_busy (b : SimDrive) : nat :=
  match d_phase (sim_drive b) with NoDevice => 0 | _ => Nat.min (sim_delay b) 2 end.
Definition sim_status (p : Phase) : Z :=
  match p with Idle e => if e then 0x41 else 0x40 | NoDevice => 0 | DataIn _ | DataOut _ _ => 0x48 end.
Definition delay_after (r : AtaReg) (p : Phase) : nat :=
  match r, p with StatCommand, _ => 2 | Data, Idle _ => 1 | _, _ => 0 end.

#[export] Instance sim_ports : AtaPorts SimDrive := {|
  port_in b r :=
    match r with
    | StatCommand =>
        match sim_busy b with
        | S n => (MkSim (sim_drive b) n, 0x80)
        | O => (MkSim (sim_drive b) 0, sim_status (d_phase (sim_drive b)))
        end
    | Data => match drive_data (sim_drive b) with Some (d, w) => (MkSim d 0, w) | None => (b, 0) end
    | _ => (b, 0)
    end;
  port_out b r v :=
    match drive_out (sim_drive b) r v with
    | Some d => MkSim d (delay_after r (d_phase d))
    | None => b
    end;
|}.

#[export] Instance sim_ok : AtaDriveOk SimDrive 3.
Proof.
  refine {| view := sim_drive; busy := sim_busy |}.
  - intros b. unfold sim_busy. destruct (d_phase _); lia.
  - intros b. simpl. destruct (sim_busy b) as [|n] eqn:E; simpl.
    + split; [done|]. split; [unfold sim_busy; simpl; by destruct (d_phase _)|]. split; [by destruct (d_phase _) as [[]| | |]|].
      split; [|done]. intros _. by destruct (d_phase _) as [[]| | |].
    + split; [done|]. split; [|by split]. unfold sim_busy in *. simpl. destruct (d_phase _); [lia|done|lia|lia].
  - intros b Hp. unfold sim_busy. by rewrite Hp.
  - intros b d w _ E. simpl. rewrite E. split; [done|]. split; [done|]. unfold sim_busy. simpl. by destruct (d_phase d).
  - intros b r v d _ E. simpl. rewrite E. split; [done|]. intros H1 H2. unfold sim_busy. simpl.
    destruct r, (d_phase d); try done; destruct H2; done.
Defined.

(** A bus whose master has two sectors. *)
Definition demo_disk : Disk := MkDisk [replicate 256 0x4241; replicate 256 0x4443] (replicate 256 0).
Definition demo_ata : ATABus SimDrive :=
  MkBus (MkSim (MkDrive (Some demo_disk) None 0 0 0 0 0 (Idle false)) 0) None None Primary.

Lemma demo_disk_ok : Forall sector_ok (sectors demo_disk).
Proof. repeat (constructor; [by split; [reflexivity|apply Forall_replicate]|]). constructor. Qed.

Lemma demo_ata_holds : drive_holds demo_ata MASTER demo_disk.
Proof. split; [done|]. split; [done|]. exact demo_disk_ok. Qed.

Lemma demo_length : length (disk_bytes demo_disk) = 1024%nat.
Proof. exact (length_disk_bytes demo_disk demo_disk_ok). Qed.

(** Five bytes across the two sectors would need a second sector and stop the kernel;
    510 bytes from offset 2 do not. *)
Lemma ata_read_delivers_witness :
  ata_file_read (PS := reference_packed_struct) 3 demo_ata MASTER (Z.of_nat 510) (Z.of_nat 5) = Panic /\
  exists b, ata_file_read (PS := reference_packed_struct) 3 demo_ata MASTER (Z.of_nat 2) (Z.of_nat 510) =
    Ret (set_ports demo_ata b, Some (take 510 (drop 2 (disk_bytes demo_disk)))).
Proof.
  pose proof demo_length as L. split.
  - apply (ata_read_delivers demo_ata MASTER demo_disk 510 5 demo_ata_holds); [lia|lia|split; lia|]. apply Nat.ltb_lt. reflexivity.
  - destruct (ata_read_delivers demo_ata MASTER demo_disk 2 510 demo_ata_holds) as [H _]; [lia|lia|split; lia|].
    destruct H as (b & E & _); [apply Nat.leb_le; reflexivity|]. exists b. exact E.
Defined.

Lemma ata_write_stores_witness : exists b k',
  ata_file_write (PS := reference_packed_struct) 3 demo_ata MASTER (Z.of_nat 511) [1; 2; 3] = Ret (set_ports demo_ata b, Some 2) /\
  disk_bytes k' = splice (disk_bytes demo_disk) 511 [1].
Proof.
  destruct (ata_write_stores demo_ata MASTER demo_disk 511 [1; 2; 3] demo_ata_holds) as (b & k' & E & _ & _ & Eb).
  - rewrite demo_length. simpl. lia.
  - simpl. lia.
  - repeat (constructor; [done|]). constructor.
  - exists b, k'. split; [exact E|exact Eb].
Defined.

Lemma ata_high_sector_misread_witness : exists b,
  read_sector (PS := reference_packed_struct) 3 demo_ata MASTER (sector_lba (2 ^ 20)) = Ret (set_ports demo_ata b, None).
Proof.
  destruct (ata_high_sector_misread demo_ata MASTER demo_disk (2 ^ 20) (proj1 demo_ata_holds) (proj1 (proj2 demo_ata_holds)) demo_disk_ok ltac:(lia)) as (b & E).
  exists b. rewrite E. rewrite lookup_ge_None_2; [done|]. change (length (sectors demo_disk)) with 2%nat. change (2 ^ 20 / 2 ^ 20) with 1. lia.
Defined.
