(* ===== verification/Partition.v ===== *)
(** Partitions of a disk, kernel/src/partitions.rs: entries of the master boot record,
    and a partition as a file on the device's file.

    A drive keeps what a partition relies on, and a partition is again a device. *)
From S2P Require Import Prelude MachineInt PackedStruct Decode Device Ata AtaDrive AtaTheorems.
From stdpp Require Import list.
#[local] Open Scope Z_scope.

Definition MBRPartitionNumber : Type := Z.
Definition PART_0 : MBRPartitionNumber := 0.
Definition PART_1 : MBRPartitionNumber := 1.
Definition PART_2 : MBRPartitionNumber := 2.
Definition PART_3 : MBRPartitionNumber := 3.

Definition partition_number_try_from (value : Z) : option MBRPartitionNumber :=
  match value with
  | 0 => Some PART_0
  | 1 => Some PART_1
  | 2 => Some PART_2
  | 3 => Some PART_3
  | _ => None
  end.

Record MBRPartitionFile := MkPartition {
  partition_offset : Z;
  partition_size : Z;
  partiton_number : MBRPartitionNumber;
}.

Section Partition.
Context {W : Type} {DF : DeviceFile W}.
Implicit Types w : W.

(** The bytes [i] to [i + 3] of an entry, as a number of sectors, in bytes. *)
Definition entry_bytes (part_data : list Z) (i : nat) : outcome Z :=
  let! b0 := unwrap (part_data !! i) in
  let! b1 := unwrap (part_data !! (i + 1)%nat) in
  let! b2 := unwrap (part_data !! (i + 2)%nat) in
  let! b3 := unwrap (part_data !! (i + 3)%nat) in
  mul_chk 64 (from_le_bytes [b0; b1; b2; b3]) SECTOR_SIZE_IN_BYTES.

(** [MBRPartitionFile::from]. *)
Definition partition_from w (partition_number : MBRPartitionNumber) : outcome (W * option MBRPartitionFile) :=
  let! n := mul_chk 64 partition_number 16 in
  let! part_data_offset := add_chk 64 n (0x1fe - 16 * 4) in
  let! (w, part_data) := dev_read w part_data_offset 16 in
  match part_data with
  | None => Ret (w, None)
  | Some part_data =>
      let! system_id := unwrap (part_data !! 4%nat) in
      if system_id =? 0 then Ret (w, None)
      else
        let! offset := entry_bytes part_data 8 in
        let! size := entry_bytes part_data 12 in
        Ret (w, Some (MkPartition offset size partition_number))
  end.

Definition get_offset (p : MBRPartitionFile) : Z := partition_offset p.

Definition partition_read (p : MBRPartitionFile) w (offset len : Z) : outcome (W * option (list Z)) :=
  let! end_ := add_chk 64 offset len in
  if end_ >? partition_size p then Ret (w, None)
  else let! at_ := add_chk 64 offset (partition_offset p) in dev_read w at_ len.

Definition partition_write (p : MBRPartitionFile) w (offset : Z) (data : list Z) : outcome (W * option Z) :=
  let! end_ := add_chk 64 offset (Z.of_nat (length data)) in
  if end_ >? partition_size p then Ret (w, None)
  else let! at_ := add_chk 64 offset (partition_offset p) in dev_write w at_ data.

Definition partition_get_size (p : MBRPartitionFile) : Z := partition_size p.
Definition partition_resize (p : MBRPartitionFile) (new_size : Z) : option unit := None.

End Partition.

(** * Drives and partitions as devices *)

(** A drive of an ATA bus; it serves ranges of its first 512 MiB that lie in the sectors
    counted for their length. *)
#[export] Instance ata_device {B} {P : AtaPorts B} {PS : PackedStruct} (polls : nat) (device : ATADevice) : DeviceFile (ATABus B) := {|
  dev_read bus := ata_file_read polls bus device;
  dev_write bus := ata_file_write polls bus device;
|}.

#[export] Instance ata_device_ok {B} {P : AtaPorts B} {PS : PackedStruct} {PSok : PackedStructOk PS} (polls : nat) {OK : AtaDriveOk B polls}
  (device : ATADevice) : DeviceFileOk (ATABus B) (DF := ata_device polls device).
Proof.
  refine {|
    holds := (fun (bus : ATABus B) c => exists k, drive_holds bus device k /\ c = disk_bytes k) : ATABus B -> list Z -> Prop;
    whole := fun off len => (off mod 512 + len <=? 512 * Nat.max 1 (blocks len))%nat &&
      (Z.of_nat off <? 2 ^ 29) && (Z.of_nat (off + len) <=? 2 ^ 29) |}.
  - intros bus c off len (k & Hk & ->) Ho Hl [[Hw%Nat.leb_le H1%Z.ltb_lt]%andb_prop H2%Z.leb_le]%andb_prop. simpl.
    destruct (ata_reads bus device k off len Hk Hl Ho) as [H _]; [by split|]. destruct (H Hw) as (b & E & Hk'). eauto 10.
  - intros bus c off data (k & Hk & ->) Hl [[Hw%Nat.leb_le H1%Z.ltb_lt]%andb_prop H2%Z.leb_le]%andb_prop Hd. simpl.
    destruct (ata_writes bus device k off data Hk Hl H2 Hd) as (b & k' & E & Hk' & _ & Eb).
    assert (take (512 * blocks (length data) - off mod 512) data = data) as Et.
    { apply take_ge. pose proof (blocks_bounds (length data)). pose proof (Nat.mod_upper_bound off 512).
      destruct (length data) eqn:El; [lia|]. lia. }
    rewrite Et in E, Eb. do 2 eexists. split; [exact E|]. split; [|exists k'; split; [done|by rewrite Eb]].
    case_decide as Ed; [by subst data|]. unfold words_count.
    pose proof (Nat.div_mod_eq (off mod 512 + length data + 1) 2). pose proof (Nat.mod_upper_bound (off mod 512 + length data + 1) 2 ltac:(lia)).
    pose proof (Nat.div_mod_eq (off mod 512) 2). lia.
Defined.

(** * Partitions *)

Section Confined.
Context {W : Type} {DF : DeviceFile W} {DFok : DeviceFileOk W}.
Implicit Types w : W.

(** The bytes of a partition in those of the device. *)
Definition part_bytes (p : MBRPartitionFile) (c : list Z) : list Z :=
  take (Z.to_nat (partition_size p)) (drop (Z.to_nat (partition_offset p)) c).

Definition part_inside (p : MBRPartitionFile) (c : list Z) : Prop :=
  0 <= partition_offset p /\ 0 <= partition_size p /\ partition_offset p + partition_size p <= Z.of_nat (length c) < 2 ^ 64.

Definition parts_apart (p q : MBRPartitionFile) : Prop :=
  partition_offset p + partition_size p <= partition_offset q \/ partition_offset q + partition_size q <= partition_offset p.

Lemma partition_refuses p w off n : Z.of_nat (off + n) < 2 ^ 64 -> partition_size p < Z.of_nat (off + n) ->
  partition_read p w (Z.of_nat off) (Z.of_nat n) = Ret (w, None) /\
  forall data, length data = n -> partition_write p w (Z.of_nat off) data = Ret (w, None).
Proof.
  intros L H. unfold partition_read, partition_write. split; [|intros data <-]; rewrite add_chk_ok by lia; cbn [obind];
    by rewrite <- Nat2Z.inj_add, (proj2 (Z.gtb_lt _ _)) by lia.
Qed.

Lemma partition_reads w c p (off len : nat) :
  holds w c -> part_inside p c -> Z.of_nat off < partition_size p -> Z.of_nat (off + len) <= partition_size p ->
  whole (Z.to_nat (partition_offset p) + off) len = true ->
  exists w', partition_read p w (Z.of_nat off) (Z.of_nat len) = Ret (w', Some (take len (drop off (part_bytes p c)))) /\ holds w' c.
Proof.
  intros Hh (Hp1 & Hp2 & Hp3) Ho Hle Hw. set (a := Z.to_nat (partition_offset p)) in *.
  assert (Z.of_nat off + partition_offset p = Z.of_nat (a + off)) as Ea by lia.
  unfold partition_read. rewrite add_chk_ok by lia. cbn [obind]. rewrite <- Nat2Z.inj_add.
  destruct (Z.gtb_spec (Z.of_nat (off + len)) (partition_size p)) as [|_]; [lia|]. rewrite add_chk_ok, Ea by lia. cbn [obind].
  destruct (dev_read_ok w c (a + off) len Hh) as (w' & -> & Hh'); [lia|lia|done|]. exists w'. split; [|done]. do 3 f_equal.
  unfold part_bytes. rewrite skipn_firstn_comm, take_take, drop_drop. f_equal. lia.
Qed.

Lemma partition_writes w c p (off : nat) data :
  holds w c -> part_inside p c -> Forall is_byte data -> Z.of_nat (off + length data) <= partition_size p ->
  whole (Z.to_nat (partition_offset p) + off) (length data) = true ->
  exists w' n, partition_write p w (Z.of_nat off) data = Ret (w', Some n) /\ Z.of_nat (length data) <= n /\
    holds w' (splice c (Z.to_nat (partition_offset p) + off) data).
Proof.
  intros Hh (Hp1 & Hp2 & Hp3) Hd Hle Hw. set (a := Z.to_nat (partition_offset p)) in *.
  assert (Z.of_nat off + partition_offset p = Z.of_nat (a + off)) as Ea by lia.
  unfold partition_write. rewrite add_chk_ok by lia. cbn [obind]. rewrite <- Nat2Z.inj_add.
  destruct (Z.gtb_spec (Z.of_nat (off + length data)) (partition_size p)) as [|_]; [lia|]. rewrite add_chk_ok, Ea by lia. cbn [obind].
  apply dev_write_ok; [done|lia|done|done].
Qed.

Lemma part_bytes_splice p c (off : nat) data : part_inside p c -> Z.of_nat (off + length data) <= partition_size p ->
  part_bytes p (splice c (Z.to_nat (partition_offset p) + off) data) = splice (part_bytes p c) off data.
Proof. intros (Hp1 & Hp2 & Hp3) H. apply splice_inside; lia. Qed.

Lemma part_inside_splice p c (off : nat) data : (off + length data <= length c)%nat -> part_inside p c -> part_inside p (splice c off data).
Proof. intros H. unfold part_inside. by rewrite length_splice. Qed.

Lemma length_part_bytes p c : part_inside p c -> length (part_bytes p c) = Z.to_nat (partition_size p).
Proof. intros (Hp1 & Hp2 & Hp3). unfold part_bytes. rewrite length_take, length_drop. lia. Qed.

(** A partition as a device, of the bytes it names. *)
Definition part_device (p : MBRPartitionFile) : DeviceFile W := {|
  dev_read := partition_read p;
  dev_write := partition_write p;
|}.

(** It keeps the promises of a device, and every partition apart from it keeps the bytes
    it had in [before]. *)
#[local] Instance part_device_ok (p : MBRPartitionFile) (before : list Z) : DeviceFileOk W (DF := part_device p).
Proof.
  refine {|
    holds w c := exists all, holds w all /\ part_inside p all /\ c = part_bytes p all /\ length all = length before /\
      forall q, part_inside q before -> parts_apart p q -> part_bytes q all = part_bytes q before;
    whole off len := whole (Z.to_nat (partition_offset p) + off) len |}; simpl.
  - intros w c off len (all & Hh & Hp & -> & HL & Hq) Ho Hl Hw. rewrite (length_part_bytes _ _ Hp) in *.
    destruct (partition_reads w all p off len Hh Hp) as (w' & -> & Hh'); [lia|lia|done|]. eauto 10.
  - intros w c off data (all & Hh & Hp & -> & HL & Hq) Hl Hw Hd. rewrite (length_part_bytes _ _ Hp) in *. pose proof Hp as (H1 & H2 & H3).
    destruct (partition_writes w all p off data Hh Hp Hd) as (w' & n & -> & Hn & Hh'); [lia|done|].
    exists w', n. split; [done|]. split; [done|]. eexists. split; [exact Hh'|].
    split; [apply part_inside_splice; [lia|done]|]. split; [symmetry; apply part_bytes_splice; [done|lia]|].
    split; [rewrite length_splice; lia|]. intros q Hqi Hqp. rewrite <- (Hq q Hqi Hqp). pose proof Hqi as (Q1 & Q2 & Q3).
    apply splice_outside; [lia|]. unfold parts_apart in Hqp. lia.
Defined.

(** A partition is a device of its own: reads deliver the partition's bytes, writes
    replace them, requests that go past its end are refused without touching the
    device, and no write changes a byte of another partition that does not overlap
    it. *)
Theorem partition_confined w c p (off len : nat) data :
  holds w c -> part_inside p c -> Forall is_byte data ->
  Z.of_nat off < partition_size p -> Z.of_nat (off + len) < 2 ^ 64 -> Z.of_nat (off + length data) < 2 ^ 64 ->
  (if Z.of_nat (off + len) >? partition_size p then partition_read p w (Z.of_nat off) (Z.of_nat len) = Ret (w, None)
   else whole (Z.to_nat (partition_offset p) + off) len = true ->
     exists w', partition_read p w (Z.of_nat off) (Z.of_nat len) = Ret (w', Some (take len (drop off (part_bytes p c)))) /\ holds w' c) /\
  (if Z.of_nat (off + length data) >? partition_size p then partition_write p w (Z.of_nat off) data = Ret (w, None)
   else whole (Z.to_nat (partition_offset p) + off) (length data) = true ->
     exists w' n c', partition_write p w (Z.of_nat off) data = Ret (w', Some n) /\ holds w' c' /\
     part_bytes p c' = splice (part_bytes p c) off data /\
     forall q, part_inside q c -> parts_apart p q -> part_bytes q c' = part_bytes q c).
Proof.
  intros Hh Hp Hd Ho L1 L2. pose proof Hp as (Hp1 & Hp2 & Hp3). split.
  - destruct (Z.gtb_spec (Z.of_nat (off + len)) (partition_size p)) as [Hgt|Hle]; [by apply partition_refuses|].
    intros Hw. by apply partition_reads.
  - destruct (Z.gtb_spec (Z.of_nat (off + length data)) (partition_size p)) as [Hgt|Hle].
    { by apply (partition_refuses p w off (length data) L2 Hgt). }
    intros Hw. destruct (partition_writes w c p off data Hh Hp Hd Hle Hw) as (w' & n & -> & _ & Hh').
    do 3 eexists. split; [done|]. split; [exact Hh'|]. split; [by apply part_bytes_splice|].
    intros q (Hq1 & Hq2 & Hq3) Hpq. apply splice_outside; [lia|]. unfold parts_apart in Hpq. lia.
Qed.

(** The four bytes of an entry at [i]. *)
Definition le32 (c : list Z) (i : nat) : Z := from_le_bytes (take 4 (drop i c)).

Lemma entry_bytes_ok c i : Forall is_byte c -> (i + 4 <= length c)%nat -> entry_bytes c i = Ret (le32 c i * 512).
Proof.
  intros Hc Hl. unfold entry_bytes, le32.
  destruct (lookup_lt_is_Some_2 c i) as [b0 H0]; [lia|]. destruct (lookup_lt_is_Some_2 c (i + 1)) as [b1 H1]; [lia|].
  destruct (lookup_lt_is_Some_2 c (i + 2)) as [b2 H2]; [lia|]. destruct (lookup_lt_is_Some_2 c (i + 3)) as [b3 H3]; [lia|].
  rewrite H0, H1, H2, H3. cbn [obind unwrap].
  assert (take 4 (drop i c) = [b0; b1; b2; b3]) as ->.
  { replace (i + 3)%nat with (S (S (S i))) in H3 by lia. replace (i + 2)%nat with (S (S i)) in H2 by lia. rewrite Nat.add_1_r in H1.
    rewrite (drop_S _ _ _ H0), (drop_S _ _ _ H1), (drop_S _ _ _ H2), (drop_S _ _ _ H3). simpl. by rewrite take_0. }
  rewrite mul_chk_ok; [done|]. change SECTOR_SIZE_IN_BYTES with 512.
  assert (in_u 32 (from_le_bytes [b0; b1; b2; b3])) as [? ?]; [|lia]. apply (from_le_bytes_range [b0; b1; b2; b3]).
  rewrite Forall_lookup in Hc. repeat (apply Forall_cons; split; [by eapply Hc|]). constructor.
Qed.

(** Opening a partition reads its entry in the first sector: an unused entry gives
    no partition, any other the range of sectors it names, in bytes. *)
Theorem partition_from_entry w c (n : nat) :
  holds w c -> Forall is_byte c -> (512 <= length c)%nat -> (n < 4)%nat -> whole (446 + 16 * n) 16 = true ->
  exists w', partition_from w (Z.of_nat n) =
      Ret (w', if decide (c !! (446 + 16 * n + 4)%nat = Some 0) then None
               else Some (MkPartition (le32 c (446 + 16 * n + 8) * 512) (le32 c (446 + 16 * n + 12) * 512) (Z.of_nat n))) /\
    holds w' c.
Proof.
  intros Hh Hc Hl Hn Hw. unfold partition_from. rewrite mul_chk_ok by lia. cbn [obind]. rewrite add_chk_ok by lia. cbn [obind].
  replace (Z.of_nat n * 16 + (0x1fe - 16 * 4)) with (Z.of_nat (446 + 16 * n)) by lia. change 16 with (Z.of_nat 16) at 1.
  destruct (dev_read_ok w c (446 + 16 * n) 16 Hh) as (w' & -> & Hh'); [lia|lia|done|]. cbn [obind]. exists w'. split; [|done].
  set (e := take 16 (drop (446 + 16 * n) c)). assert (Forall is_byte e) as He by by apply Forall_take, Forall_drop.
  assert (length e = 16%nat) as Hle by (unfold e; rewrite length_take, length_drop; lia).
  assert (forall i, (i < 16)%nat -> e !! i = c !! (446 + 16 * n + i)%nat) as Ei.
  { intros i Hi. unfold e. by rewrite lookup_take_lt, lookup_drop. }
  assert (forall i, (i + 4 <= 16)%nat -> le32 e i = le32 c (446 + 16 * n + i)) as E32.
  { intros i Hi. unfold le32, e. rewrite skipn_firstn_comm, take_take, drop_drop. do 2 f_equal. lia. }
  rewrite !entry_bytes_ok by (done || lia). rewrite !E32 by lia. rewrite (Ei 4%nat) by lia.
  destruct (lookup_lt_is_Some_2 c (446 + 16 * n + 4)) as [t Ht]; [lia|]. rewrite Ht. cbn [obind unwrap].
  destruct (Z.eqb_spec t 0) as [->|Hne]; [by rewrite decide_True|]. rewrite decide_False by congruence. done.
Qed.
End Confined.

(** * Examples *)

(** A drive of two sectors with a partition that is the second. *)
Definition demo_partition : MBRPartitionFile := MkPartition 512 512 PART_0.

Lemma demo_device : holds (DeviceFileOk := ata_device_ok (PS := reference_packed_struct) 3 MASTER) demo_ata (disk_bytes demo_disk).
Proof. exists demo_disk. split; [exact demo_ata_holds|done]. Qed.

Lemma partition_confined_witness :
  partition_write (DF := ata_device (PS := reference_packed_struct) 3 MASTER) demo_partition demo_ata (Z.of_nat 510) [1; 2; 3] = Ret (demo_ata, None) /\
  exists w, partition_read (DF := ata_device (PS := reference_packed_struct) 3 MASTER) demo_partition demo_ata (Z.of_nat 510) (Z.of_nat 2)
    = Ret (w, Some (take 2 (drop 510 (part_bytes demo_partition (disk_bytes demo_disk))))).
Proof.
  destruct (partition_confined demo_ata (disk_bytes demo_disk) demo_partition 510 2 [1; 2; 3] demo_device) as [H1 H2].
  - unfold part_inside. rewrite demo_length. simpl. lia.
  - repeat (constructor; [done|]). constructor.
  - simpl. lia.
  - lia.
  - simpl. lia.
  - split; [exact H2|]. destruct H1 as (w & E & _); [reflexivity|]. exists w. exact E.
Defined.

Lemma partition_from_entry_witness : exists w,
  partition_from (DF := ata_device (PS := reference_packed_struct) 3 MASTER) demo_ata (Z.of_nat 1)
  = Ret (w, Some (MkPartition (0x42414241 * 512) (0x42414241 * 512) PART_1)).
Proof.
  destruct (partition_from_entry demo_ata (disk_bytes demo_disk) 1 demo_device) as (w & E & _).
  - apply (bool_decide_unpack (Forall (fun b => 0 <= b < 2 ^ 8) (disk_bytes demo_disk))). vm_compute. exact I.
  - rewrite demo_length. lia.
  - lia.
  - reflexivity.
  - exists w. rewrite E. vm_compute. reflexivity.
Defined.
