(* ===== verification/Disks.v ===== *)
(** Finding the drives: the registers of an ATA bus as I/O ports (kernel/src/ata.rs), and
    the part of kernel/src/main.rs that asks both buses for their drives and puts the
    drives and their partitions into the device folder.

    Both buses are ports of one machine; a bus borrows it while it is used. *)
From S2P Require Import Prelude MachineInt Str Vfs CharDevice Terminal KernPointer PackedStruct Decode Device Ata AtaDrive AtaTheorems Partition.
From Stdlib Require Import Strings.String.
From stdpp Require Import list.
#[local] Open Scope Z_scope.

(** * Registers *)

Record IORegistersLBA28 := MkIORegs {
  io_data : KernPointer;
  io_err_features : KernPointer;
  io_sector_count : KernPointer;
  io_address_low : KernPointer;
  io_address_mid : KernPointer;
  io_address_hi : KernPointer;
  io_drive_sel : KernPointer;
  io_stat_command : KernPointer;
}.
Definition io_registers_new (base : KernPointer) : IORegistersLBA28 := {|
  io_data := base;
  io_err_features := kp_offset 1 base 1;
  io_sector_count := kp_offset 1 base 2;
  io_address_low := kp_offset 1 base 3;
  io_address_mid := kp_offset 1 base 4;
  io_address_hi := kp_offset 1 base 5;
  io_drive_sel := kp_offset 1 base 6;
  io_stat_command := kp_offset 1 base 7;
|}.

Record ControlRegistersLBA28 := MkControl { alt_stat_device_ctrl : KernPointer; drive_addr : KernPointer }.
Definition control_registers_new (base : KernPointer) : ControlRegistersLBA28 := MkControl base (kp_offset 1 base 1).

(** Where a register is. *)
Definition reg_pointer (io : IORegistersLBA28) (r : AtaReg) : KernPointer :=
  match r with
  | Data => io_data io
  | ErrFeatures => io_err_features io
  | SectorCount => io_sector_count io
  | AddressLow => io_address_low io
  | AddressMid => io_address_mid io
  | AddressHi => io_address_hi io
  | DriveSel => io_drive_sel io
  | StatCommand => io_stat_command io
  end.

Section Registers.
Context {B : Type} {IO : IoSpace B}.
Implicit Types b : B.

(** The data register has sixteen bits, the others eight. *)
Definition io_ports (io : IORegistersLBA28) : AtaPorts B := {|
  port_in b r := match r with Data => kp_read_u16 b (reg_pointer io r) | _ => kp_read b (reg_pointer io r) end;
  port_out b r v := match r with Data => kp_write_u16 b (reg_pointer io r) v | _ => kp_write b (reg_pointer io r) v end;
|}.

Definition read_alt_stat b (c : ControlRegistersLBA28) : B * Z := kp_read b (alt_stat_device_ctrl c).
Definition write_device_ctrl b (c : ControlRegistersLBA28) (d : Z) : B := kp_write b (alt_stat_device_ctrl c) d.
Definition read_drive_addr b (c : ControlRegistersLBA28) : B * Z := kp_read b (drive_addr c).

(** The ports of the two buses; the control registers, at 0x3F6 and 0x376, are not used. *)
Definition io_base (typ : BUSType) : KernPointer := match typ with Primary => from_port 0x1F0 | Secondary => from_port 0x170 end.
Definition bus_ports (typ : BUSType) : AtaPorts B := io_ports (io_registers_new (io_base typ)).

Definition primary_x86 {PS : PackedStruct} b : outcome (B * option (ATABus B)) := bus_new (P := bus_ports Primary) b Primary.
Definition secondary_x86 {PS : PackedStruct} b : outcome (B * option (ATABus B)) := bus_new (P := bus_ports Secondary) b Secondary.

End Registers.

(** * Probing *)

(** The files of the device folder. *)
Inductive DiskFile :=
| DriveFile (typ : BUSType) (device : ATADevice)
| PartFile (typ : BUSType) (device : ATADevice) (p : MBRPartitionFile).

Definition part_name (drive : str) (part_number : Z) : str := drive ++ lit "p" ++ dec (part_number + 1).
Definition part_message (name : str) (p : MBRPartitionFile) : str :=
  lit "Found partition " ++ name ++ lit ", with offset in bytes from begining of: " ++ dec (get_offset p) ++ [10].

Section Probe.
Context {PS : PackedStruct} {FB : Type} {FBops : FrameBuffer FB}.
(** How often a status register is read at most before the wait counts as endless. *)
Context (polls : nat).

(** The terminal and the device folder. *)
Record Found := MkFound { fd_terminal : Terminal FB; fd_dev : DevFS DiskFile }.
Definition add_file (s : Found) (f : DiskFile) (name : str) : Found := MkFound (fd_terminal s) (add_device_file (fd_dev s) f name).

Section Drive.
Context {B : Type} {P : AtaPorts B}.

Fixpoint probe_parts (device : ATADevice) (drive : str) (numbers : list Z) (bus : ATABus B) (s : Found) : outcome (ATABus B * Found) :=
  match numbers with
  | [] => Ret (bus, s)
  | part_number :: numbers =>
      let! n := unwrap (partition_number_try_from part_number) in
      let! (bus, part_dev) := partition_from (DF := ata_device polls device) bus n in
      let! s :=
        match part_dev with
        | None => Ret s
        | Some p =>
            let part_dev_name := part_name drive part_number in
            let! t := write_str (fd_terminal s) (part_message part_dev_name p) in
            Ret (add_file (MkFound t (fd_dev s)) (PartFile (bus_type bus) device p) part_dev_name)
        end in
      probe_parts device drive numbers bus s
  end.

(** The code has this four times, once for every drive. *)
Definition probe_drive (device : ATADevice) (drive : str) (bus : ATABus B) (s : Found) : outcome (ATABus B * Found) :=
  let! (bus, id) := identify polls bus device in
  match id with
  | None => Ret (bus, s)
  | Some _ => probe_parts device drive [0; 1; 2; 3] bus (add_file s (DriveFile (bus_type bus) device) drive)
  end.
Definition probe_bus (master slave : str) (found : outcome (B * option (ATABus B))) (s : Found) : outcome (B * Found) :=
  let! (b, bus) := found in
  match bus with
  | None => Ret (b, s)
  | Some bus =>
      let! (bus, s) := probe_drive MASTER master bus s in
      let! (bus, s) := probe_drive SLAVE slave bus s in
      Ret (ports bus, s)
  end.
End Drive.

Definition probe_disks {B} {IO : IoSpace B} (b : B) (s : Found) : outcome (B * Found) :=
  let! (b, s) := probe_bus (P := bus_ports Primary) (lit "hda") (lit "hdb") (primary_x86 b) s in
  probe_bus (P := bus_ports Secondary) (lit "hdc") (lit "hdd") (secondary_x86 b) s.
End Probe.
Arguments Found FB : clear implicits.

(** * What ends up in the device folder *)

(** The partition an entry of the first sector names. *)
Definition entry_of (c : list Z) (n : nat) : option MBRPartitionFile :=
  if decide (c !! (446 + 16 * n + 4)%nat = Some 0) then None
  else Some (MkPartition (le32 c (446 + 16 * n + 8) * 512) (le32 c (446 + 16 * n + 12) * 512) (Z.of_nat n)).

Definition part_files (typ : BUSType) (device : ATADevice) (drive : str) (c : list Z) (numbers : list nat) : list (str * DiskFile) :=
  numbers ≫= (fun n => match entry_of c n with Some p => [(part_name drive (Z.of_nat n), PartFile typ device p)] | None => [] end).
Definition drive_files (typ : BUSType) (device : ATADevice) (drive : str) (disk : option Disk) : list (str * DiskFile) :=
  match disk with
  | None => []
  | Some k => (drive, DriveFile typ device) :: part_files typ device drive (disk_bytes k) [0; 1; 2; 3]%nat
  end.

(** A drive with a first sector, and two of them between commands. *)
Definition disk_good (k : Disk) : Prop :=
  length (identity k) = 256%nat /\ Forall sector_ok (sectors k) /\ (1 <= length (sectors k))%nat.
Definition drives_good (d : Drive) : Prop :=
  transferring (d_phase d) = false /\ forall device k, disk_of d device = Some k -> disk_good k.

Section Drives.
Context {B : Type} {P : AtaPorts B} {polls : nat} {OK : AtaDriveOk B polls} {PS : PackedStruct} {PSok : PackedStructOk PS}.
Context {FB : Type} {FBops : FrameBuffer FB} {FBok : FrameBufferOk FB}.
Implicit Types bus : ATABus B.

Definition same_disks (b b' : B) : Prop := forall device, disk_of (view b') device = disk_of (view b) device.

(** IDENTIFY DEVICE to a drive that is not there. *)
Lemma identify_none bus device : ready bus -> busy (ports bus) = 0%nat -> disk_of (view (ports bus)) device = None ->
  exists b, identify polls bus device = Ret (set_ports bus b, None) /\ ready (set_ports bus b) /\ busy b = 0%nat /\ same_disks (ports bus) b.
Proof.
  intros Hr Hb Hk. unfold identify, write_command. set (sel := match device with MASTER => 0xA0 | SLAVE => 0xB0 end).
  destruct (out_reg (ports bus) DriveSel sel Hr Hb) as (E1 & B1 & P1); [done|done|].
  destruct (out_reg _ AddressHi 0 P1 B1) as (E2 & B2 & P2); [done|done|].
  destruct (out_reg _ AddressMid 0 P2 B2) as (E3 & B3 & P3); [done|done|].
  destruct (out_reg _ AddressLow 0 P3 B3) as (E4 & B4 & P4); [done|done|]. rewrite E3, E2, E1 in E4.
  cbn [set_reg d_master d_slave d_count d_low d_mid d_hi d_sel d_phase] in E4.
  revert B4 P4 E4. generalize (port_out (port_out (port_out (port_out (ports bus) DriveSel sel) AddressHi 0) AddressMid 0) AddressLow 0).
  intros b4 B4 P4 E4. destruct (reg_out b4 StatCommand IDENTIYFY_DEVICE (set_phase (view b4) NoDevice) B4) as (E5 & _).
  { unfold drive_out, drive_command. assert (disk_of (view b4) (selected (view b4)) = None) as ->
      by (rewrite E4; unfold sel; by destruct device). by destruct (d_phase (view b4)). }
  set (b5 := port_out b4 StatCommand IDENTIYFY_DEVICE) in *. pose proof (no_device_not_busy b5 ltac:(by rewrite E5)) as B5.
  destruct (status_in b5) as (E6 & B6 & _ & Hs & _). destruct (Hs B5) as (_ & _ & _ & H0). rewrite E5 in H0. specialize (H0 eq_refl).
  unfold read_status. destruct (port_in b5 StatCommand) as [b6 v]. simpl in E6, B6, H0. subst v.
  destruct (unpack_status_bits 0 ltac:(done)) as (z & -> & _). cbn [obind unwrap]. rewrite decide_True by done.
  exists b6. split; [done|]. unfold ready, same_disks. simpl. rewrite E6, E5. split; [done|]. split; [lia|]. intros []; rewrite E4; done.
Qed.

(** Sixteen bytes of the first sector are one transfer. *)
Lemma entry_read_transfer bus device (n : nat) bus' o : (n < 4)%nat ->
  partition_from (DF := ata_device polls device) bus (Z.of_nat n) = Ret (bus', o) ->
  exists s, read_sector polls bus device (sector_lba 0) = Ret (bus', s).
Proof.
  intros Hn. unfold partition_from. rewrite mul_chk_ok by lia. cbn [obind]. rewrite add_chk_ok by lia. cbn [obind dev_read ata_device].
  set (off := Z.of_nat n * 16 + (0x1fe - 16 * 4)). unfold ata_file_read.
  replace (off / SECTOR_SIZE_IN_BYTES) with 0 by (unfold off; symmetry; apply Z.div_small; change SECTOR_SIZE_IN_BYTES with 512; lia).
  destruct (read_sector polls bus device (sector_lba 0)) as [[bus1 [s|]]|]; cbn [obind]; [|intros [= <- <-]; by eexists|done].
  change (Z.to_nat _) with 0%nat at 2. cbn [read_more obind]. destruct (rassert _); [|done]. cbn [obind].
  intros H. inv_outcome. case_match; inv_outcome; by eexists.
Qed.

Lemma partition_from_disk bus device k (n : nat) : ready bus -> disk_of (view (ports bus)) device = Some k -> disk_good k -> (n < 4)%nat ->
  exists b, partition_from (DF := ata_device polls device) bus (Z.of_nat n) = Ret (set_ports bus b, entry_of (disk_bytes k) n) /\
    ready (set_ports bus b) /\ busy b = 0%nat /\ same_disks (ports bus) b.
Proof.
  intros Hr Hk (_ & Hok & Hl) Hn. pose proof (length_disk_bytes k Hok) as HL.
  destruct (partition_from_entry (DF := ata_device polls device) bus (disk_bytes k) n) as (bus' & E & _).
  - exists k. unfold drive_holds. repeat split; done.
  - by apply disk_bytes_ok.
  - lia.
  - done.
  - destruct n as [|[|[|[|n]]]]; [done..|lia].
  - destruct (entry_read_transfer bus device n bus' _ Hn E) as (s & Es).
    destruct (read_sector_ok bus device (sector_lba 0) k Hr Hk Hok ltac:(done)) as (b & Eb & Hr' & Hb & Hd).
    rewrite Eb in Es. injection Es as <- _. exists b. rewrite E. done.
Qed.

(** A terminal that works, with so many files more in the folder. *)
Definition grown (s s' : Found FB) (files : list (str * DiskFile)) : Prop :=
  term_ok (fd_terminal s') /\ line_buffer (fd_terminal s') = line_buffer (fd_terminal s) /\
  disk_devices (fd_dev s') = disk_devices (fd_dev s) ++ files.

Lemma grown_trans s s' s'' l l' : grown s s' l -> grown s' s'' l' -> grown s s'' (l ++ l').
Proof. intros (_ & L & E) (Ht & L' & E'). split_and!; [done|congruence|]. by rewrite E', E, app_assoc. Qed.

Lemma le32_range c i : Forall is_byte c -> 0 <= le32 c i.
Proof. intros Hc. unfold le32. destruct (from_le_bytes_range (take 4 (drop i c))) as [H _]; [by apply Forall_take, Forall_drop|done]. Qed.

Lemma message_nonneg drive (n : nat) c p : Forall (fun x => 0 <= x) drive -> Forall is_byte c -> entry_of c n = Some p ->
  Forall (fun x => 0 <= x) (part_message (part_name drive (Z.of_nat n)) p).
Proof.
  intros Hd Hc. unfold entry_of. case_decide; [done|]. intros [= <-]. unfold part_message, part_name, get_offset. cbn [partition_offset].
  repeat first [done | apply Forall_app_2 | apply lit_nonneg | by apply Forall_singleton | apply dec_nonneg; lia
    | by apply dec_nonneg, Z.mul_nonneg_nonneg; [apply le32_range|lia]].
Qed.

Lemma probe_parts_lists device drive k ns : forall bus s, Forall (fun x => 0 <= x) drive -> Forall (fun n => (n < 4)%nat) ns ->
  ready bus -> busy (ports bus) = 0%nat -> disk_of (view (ports bus)) device = Some k -> disk_good k -> term_ok (fd_terminal s) ->
  exists b s', probe_parts polls device drive (Z.of_nat <$> ns) bus s = Ret (set_ports bus b, s') /\
    ready (set_ports bus b) /\ busy b = 0%nat /\ same_disks (ports bus) b /\ grown s s' (part_files (bus_type bus) device drive (disk_bytes k) ns).
Proof.
  induction ns as [|n ns IH]; intros bus s Hd Hns Hr Hb Hk Hg Ht.
  { exists (ports bus), s. destruct bus. split; [done|]. split; [done|]. split; [done|]. split; [done|]. split; [done|]. split; [done|]. by rewrite app_nil_r. }
  apply Forall_cons in Hns as [Hn Hns]. cbn [fmap list_fmap probe_parts].
  replace (unwrap (partition_number_try_from (Z.of_nat n))) with (Ret (Z.of_nat n)) by (destruct n as [|[|[|[|n]]]]; [done..|lia]). cbn [obind].
  destruct (partition_from_disk bus device k n Hr Hk Hg Hn) as (b & -> & Hr' & Hb' & Hs'). cbn [obind].
  assert (disk_of (view (ports (set_ports bus b))) device = Some k) as Hk' by (simpl; by rewrite Hs').
  change (part_files ?t device drive ?c (n :: ns)) with
    (match entry_of c n with Some p => [(part_name drive (Z.of_nat n), PartFile t device p)] | None => [] end ++ part_files t device drive c ns).
  destruct (entry_of (disk_bytes k) n) as [p|] eqn:Ep.
  - destruct (write_str_good (fd_terminal s) (part_message (part_name drive (Z.of_nat n)) p) Ht) as (t & -> & Ht' & _ & Hlb & _);
      [by eapply message_nonneg; [|apply disk_bytes_ok|]|]. cbn [obind].
    destruct (IH (set_ports bus b) (add_file (MkFound t (fd_dev s)) (PartFile (bus_type bus) device p) (part_name drive (Z.of_nat n)))) as (b' & s' & E & Hr2 & Hb2 & Hs2 & Hg2); try done.
    exists b', s'. split; [exact E|]. split; [exact Hr2|]. split; [exact Hb2|]. split; [intros dev; by rewrite Hs2, <- Hs'|]. by eapply grown_trans; [|exact Hg2].
  - cbn [obind]. destruct (IH (set_ports bus b) s) as (b' & s' & E & Hr2 & Hb2 & Hs2 & Hg2); try done.
    exists b', s'. split; [exact E|]. split; [exact Hr2|]. split; [exact Hb2|]. split; [intros dev; by rewrite Hs2, <- Hs'|exact Hg2].
Qed.

Lemma probe_drive_lists device drive bus s : Forall (fun x => 0 <= x) drive -> busy (ports bus) = 0%nat ->
  drives_good (view (ports bus)) -> term_ok (fd_terminal s) ->
  exists b s', probe_drive polls device drive bus s = Ret (set_ports bus b, s') /\
    ready (set_ports bus b) /\ busy b = 0%nat /\ same_disks (ports bus) b /\ grown s s' (drive_files (bus_type bus) device drive (disk_of (view (ports bus)) device)).
Proof.
  intros Hd Hb [Hr Hg] Ht. unfold probe_drive. destruct (disk_of (view (ports bus)) device) as [k|] eqn:Hk.
  - destruct (identify_ok bus device k Hr Hb Hk) as (b & -> & Hr' & Hb' & Hs); [by apply (Hg device)|]. cbn [obind].
    destruct (probe_parts_lists device drive k [0; 1; 2; 3]%nat (set_ports bus b) (add_file s (DriveFile (bus_type bus) device) drive)) as (b' & s' & E & Hr2 & Hb2 & Hs2 & Hg2);
      [done|repeat (apply Forall_cons_2; [lia|]); by apply Forall_nil|done|done|simpl; by rewrite Hs|by apply (Hg device)|done|].
    exists b', s'. split; [exact E|]. split; [exact Hr2|]. split; [exact Hb2|]. split; [intros dev; by rewrite Hs2, <- Hs|].
    by eapply (grown_trans _ _ _ [_]); [|exact Hg2].
  - destruct (identify_none bus device Hr Hb Hk) as (b & -> & Hr' & Hb' & Hs). cbn [obind]. exists b, s.
    split; [done|]. split; [done|]. split; [done|]. split; [done|]. split; [done|]. split; [done|]. by rewrite app_nil_r.
Qed.

Lemma same_disks_good b b' : transferring (d_phase (view b')) = false -> same_disks b b' -> drives_good (view b) -> drives_good (view b').
Proof. intros Hr Hs [_ Hg]. split; [done|]. intros device k. rewrite Hs. apply Hg. Qed.

(** A bus whose drives are idle when it is asked for them. *)
Lemma probe_bus_lists typ master slave b s :
  Forall (fun x => 0 <= x) master -> Forall (fun x => 0 <= x) slave -> busy b = 0%nat -> drives_good (view b) -> term_ok (fd_terminal s) ->
  exists b' s', probe_bus polls master slave (bus_new b typ) s = Ret (b', s') /\
    grown s s' (drive_files typ MASTER master (disk_of (view b) MASTER) ++ drive_files typ SLAVE slave (disk_of (view b) SLAVE)).
Proof.
  intros Hm Hsl Hb Hg Ht. unfold probe_bus, bus_new. destruct (read_status_ok b) as (st & -> & _ & H0). cbn [obind].
  destruct (H0 Hb) as (Hnb & _). destruct (unpack_status_bits 0xFF ltac:(done)) as (ones & -> & E7 & _). cbn [obind].
  rewrite decide_False by (intros ->; by rewrite E7 in Hnb). destruct (status_in b) as (Ev & Eb & _). set (b1 := (port_in b StatCommand).1) in *.
  set (bus := MkBus b1 None None typ). assert (drives_good (view (ports bus))) as Hg1 by (simpl; by rewrite Ev). assert (busy (ports bus) = 0%nat) as Hb1 by (simpl; lia).
  destruct (probe_drive_lists MASTER master bus s Hm Hb1 Hg1 Ht) as (b2 & s2 & -> & Hr2 & Hb2 & Hs2 & Hgr2). cbn [obind].
  assert (drives_good (view (ports (set_ports bus b2)))) as Hg2 by (by eapply same_disks_good).
  destruct (probe_drive_lists SLAVE slave (set_ports bus b2) s2 Hsl Hb2 Hg2 (proj1 Hgr2)) as (b3 & s3 & -> & Hr3 & Hb3 & Hs3 & Hgr3). cbn [obind].
  exists b3, s3. split; [done|]. change (ports (set_ports bus b2)) with b2 in Hgr3. change (ports bus) with b1 in *.
  rewrite Hs2, Ev in Hgr3. rewrite Ev in Hgr2. by eapply grown_trans.
Qed.
End Drives.

(** * Two buses *)

(** Whatever every access to the ports of a bus keeps, probing keeps. *)
Section Keeps.
Context {B : Type} {P : AtaPorts B} {PS : PackedStruct} {FB : Type} {FBops : FrameBuffer FB} {polls : nat}.
Context (Q : B -> Prop) (keeps_in : forall b r, Q b -> Q (port_in b r).1) (keeps_out : forall b r v, Q b -> Q (port_out b r v)).
Implicit Types bus : ATABus B.

Lemma keeps_status b b' s : Q b -> read_status b = Ret (b', s) -> Q b'.
Proof. unfold read_status. pose proof (keeps_in b StatCommand) as H. destruct (port_in b StatCommand) as [b1 v]. intros Hb E. inv_outcome. auto. Qed.

Lemma keeps_wait n cond : forall b b', Q b -> wait_for n cond b = Ret b' -> Q b'.
Proof.
  induction n as [|n IH]; intros b b' Hb E; [done|]. cbn [wait_for] in E. inv_outcome. eapply keeps_status in Hb; [|done].
  case_match; inv_outcome; eauto.
Qed.

Lemma keeps_wait_data b b' e : Q b -> wait_for_data polls b = Ret (b', e) -> Q b'.
Proof. unfold wait_for_data. intros Hb E. inv_outcome. eauto using keeps_status, keeps_wait. Qed.

Lemma keeps_words n : forall b, Q b -> Q (read_words n b).1.
Proof.
  induction n as [|n IH]; intros b Hb; [done|]. cbn [read_words]. pose proof (keeps_in b Data Hb). destruct (port_in b Data) as [b1 w].
  pose proof (IH b1) as H1. destruct (read_words n b1). auto.
Qed.

(** The words of a transfer that did not fail. *)
Lemma keeps_transfer bus b (err : bool) bus' (o : option Sector) : Q b ->
  (if err then Ret (set_ports bus b, None) else let (b, a) := read_words 256 b in Ret (set_ports bus b, Some a)) = Ret (bus', o) -> Q (ports bus').
Proof.
  intros Hb. destruct err; [by intros [= <- _]|]. pose proof (keeps_words 256 b Hb). destruct (read_words 256 b). by intros [= <- _].
Qed.

Lemma keeps_identify bus device bus' o : Q (ports bus) -> identify polls bus device = Ret (bus', o) -> Q (ports bus').
Proof.
  unfold identify, write_command. intros Hb E. inv_outcome. eapply keeps_status in H; [|by do 5 apply keeps_out].
  destruct (unpack_status 0); [|by injection E as <- _]. case_decide; [by injection E as <- _|]. inv_outcome.
  eapply keeps_transfer; [|exact E]. by eapply keeps_wait_data.
Qed.

Lemma keeps_sector bus device lba bus' o : Q (ports bus) -> read_sector polls bus device lba = Ret (bus', o) -> Q (ports bus').
Proof.
  unfold read_sector, start_transfer, write_features, write_command. intros Hb E. inv_outcome.
  eapply keeps_transfer; [|exact E]. eapply keeps_wait_data; [|done]. do 7 apply keeps_out. by eapply keeps_wait.
Qed.

Lemma keeps_more n device : forall bus res len fs i bus' o, Q (ports bus) -> read_more polls bus device res len fs i n = Ret (bus', o) -> Q (ports bus').
Proof.
  induction n as [|n IH]; intros bus res len fs i bus' o Hb E; cbn [read_more] in E; [by injection E as <- _|].
  case_match; [by injection E as <- _|]. inv_outcome. eapply keeps_sector in Hb; [|done]. case_match; [by eapply IH|by injection E as <- _].
Qed.

Lemma keeps_file_read bus device off len bus' o : Q (ports bus) -> ata_file_read polls bus device off len = Ret (bus', o) -> Q (ports bus').
Proof.
  unfold ata_file_read. intros Hb E. inv_outcome. eapply keeps_sector in Hb; [|done]. case_match; [|by injection E as <- _].
  inv_outcome. eapply keeps_more in Hb; [|done]. case_match; inv_outcome; done.
Qed.

Lemma keeps_partition bus device n bus' o : Q (ports bus) -> partition_from (DF := ata_device polls device) bus n = Ret (bus', o) -> Q (ports bus').
Proof.
  unfold partition_from. cbn [dev_read ata_device]. intros Hb E. inv_outcome. eapply keeps_file_read in Hb; [|done]. case_match; [|by injection E as <- _].
  inv_outcome. case_match; inv_outcome; done.
Qed.

Lemma keeps_parts device drive ns : forall bus (s : Found FB) bus' s', Q (ports bus) -> probe_parts polls device drive ns bus s = Ret (bus', s') -> Q (ports bus').
Proof.
  induction ns as [|n ns IH]; intros bus s bus' s' Hb E; cbn [probe_parts] in E; [by injection E as <- _|]. inv_outcome.
  eapply IH; [|exact E]. by eapply keeps_partition.
Qed.

Lemma keeps_drive device drive bus (s : Found FB) bus' s' : Q (ports bus) -> probe_drive polls device drive bus s = Ret (bus', s') -> Q (ports bus').
Proof.
  unfold probe_drive. intros Hb E. inv_outcome. eapply keeps_identify in Hb; [|done]. case_match; [by eapply keeps_parts|by injection E as <- _].
Qed.

Lemma keeps_bus typ master slave b (s : Found FB) b' s' : Q b -> probe_bus polls master slave (bus_new b typ) s = Ret (b', s') -> Q b'.
Proof.
  unfold probe_bus, bus_new. intros Hb E. inv_outcome. eapply keeps_status in Hb; [|done]. destruct (unpack_status 0xFF); [case_decide|]; simplify_eq/=; [done| |done].
  inv_outcome. eapply (keeps_drive SLAVE); [eapply (keeps_drive MASTER); [|eassumption]|eassumption]. exact Hb.
Qed.
End Keeps.

(** What is on a bus: drives that keep the promises of the standard, or nothing, and
    then its status reads as ones. *)
Definition bus_promise {B : Type} {IO : IoSpace B} (polls : nat) (typ : BUSType) : Type :=
  AtaDriveOk B (P := bus_ports typ) polls + (forall b, (port_in (AtaPorts := bus_ports typ) b StatCommand).2 = 0xFF).

Section Promise.
Context {B : Type} {IO : IoSpace B} {polls : nat} {typ : BUSType} (pr : bus_promise (B := B) polls typ).

Definition drives_on (b : B) : option Drive := match pr with inl OK => Some (view (AtaDriveOk := OK) b) | inr _ => None end.
(** No drive is carrying out a command. *)
Definition idle_on (b : B) : Prop := match pr with inl OK => busy (AtaDriveOk := OK) b = 0%nat | inr _ => True end.
(** The drives of the bus are as they were, and idle if they were. *)
Definition kept_on (b b' : B) : Prop := drives_on b' = drives_on b /\ (idle_on b -> idle_on b').

#[export] Instance kept_on_preorder : PreOrder kept_on.
Proof. split; [by intros b|]. intros b1 b2 b3 [E1 H1] [E2 H2]. split; [by rewrite E2|auto]. Qed.
End Promise.

(** A machine with both buses; the ports of one are nothing to the drives of the other. *)
Class DiskMachine (B : Type) {IO : IoSpace B} (polls : nat) := {
  bus_ok : forall typ, bus_promise (B := B) polls typ;
  bus_apart_in : forall typ typ' b r, typ <> typ' -> kept_on (bus_ok typ) b (port_in (AtaPorts := bus_ports typ') b r).1;
  bus_apart_out : forall typ typ' b r v, typ <> typ' -> kept_on (bus_ok typ) b (port_out (AtaPorts := bus_ports typ') b r v);
}.

Section Machine.
Context {B : Type} {IO : IoSpace B} {polls : nat} {DM : DiskMachine B polls} {PS : PackedStruct} {PSok : PackedStructOk PS}.
Context {FB : Type} {FBops : FrameBuffer FB} {FBok : FrameBufferOk FB}.

Definition drives (typ : BUSType) (b : B) : option Drive := drives_on (bus_ok typ) b.
(** A bus as the kernel should find it: empty, or with drives that are idle and have a
    first sector. *)
Definition bus_good (typ : BUSType) (b : B) : Prop :=
  idle_on (bus_ok typ) b /\ forall d, drives typ b = Some d -> drives_good d.
Definition bus_files (typ : BUSType) (master slave : str) (d : option Drive) : list (str * DiskFile) :=
  match d with
  | None => []
  | Some d => drive_files typ MASTER master (disk_of d MASTER) ++ drive_files typ SLAVE slave (disk_of d SLAVE)
  end.

(** A bus without drives reads as ones, and nothing is looked for on it. *)
Lemma empty_bus typ b master slave (s : Found FB) : (port_in (AtaPorts := bus_ports typ) b StatCommand).2 = 0xFF ->
  exists b', probe_bus (P := bus_ports typ) polls master slave (bus_new (P := bus_ports typ) b typ) s = Ret (b', s).
Proof.
  intros H. unfold probe_bus, bus_new, read_status. destruct (port_in b StatCommand) as [b' v]. simpl in H. subst v.
  destruct (unpack_status_bits 0xFF ltac:(done)) as (o & -> & _). cbn [obind unwrap]. rewrite decide_True by done. by exists b'.
Qed.

Lemma probe_bus_ok typ b (master slave : String.string) (s : Found FB) : bus_good typ b -> term_ok (fd_terminal s) ->
  exists b' s', probe_bus (P := bus_ports typ) polls (lit master) (lit slave) (bus_new (P := bus_ports typ) b typ) s = Ret (b', s') /\
    grown s s' (bus_files typ (lit master) (lit slave) (drives typ b)).
Proof.
  unfold bus_good, drives, drives_on, idle_on. destruct (bus_ok typ) as [OK|H]; intros [Hi Hg] Ht.
  - apply (probe_bus_lists (OK := OK)); [apply lit_nonneg|apply lit_nonneg|done|by apply Hg|done].
  - destruct (empty_bus typ b (lit master) (lit slave) s (H b)) as (b' & E). exists b', s. split; [exact E|].
    split; [done|]. split; [done|]. cbn [bus_files]. by rewrite app_nil_r.
Qed.

Lemma bus_good_kept typ b b' : kept_on (bus_ok typ) b b' -> bus_good typ b -> drives typ b' = drives typ b /\ bus_good typ b'.
Proof. intros [E Hk] [Hi Hg]. split; [exact E|]. split; [by apply Hk|]. unfold drives. by rewrite E. Qed.

(** Probing one bus leaves the other as it is. *)
Lemma probe_bus_apart typ typ' b b' master slave (s s' : Found FB) : typ <> typ' ->
  probe_bus (P := bus_ports typ') polls master slave (bus_new (P := bus_ports typ') b typ') s = Ret (b', s') ->
  bus_good typ b -> drives typ b' = drives typ b /\ bus_good typ b'.
Proof.
  intros Hne E. apply bus_good_kept.
  apply (keeps_bus (P := bus_ports typ') (kept_on (bus_ok typ) b)) in E; [done| | |done].
  - intros b1 r ->. by apply bus_apart_in.
  - intros b1 r v ->. by apply bus_apart_out.
Qed.

Lemma probe_disks_ok (b : B) (s : Found FB) :
  bus_good Primary b -> bus_good Secondary b -> term_ok (fd_terminal s) ->
  exists b' s', probe_disks polls b s = Ret (b', s') /\
    grown s s' (bus_files Primary (lit "hda") (lit "hdb") (drives Primary b) ++ bus_files Secondary (lit "hdc") (lit "hdd") (drives Secondary b)).
Proof.
  intros H1 H2 Ht. unfold probe_disks, primary_x86, secondary_x86.
  destruct (probe_bus_ok Primary b "hda" "hdb" s H1 Ht) as (b1 & s1 & E1 & G1). rewrite E1. cbn [obind].
  destruct (probe_bus_apart Secondary Primary b b1 _ _ s s1 ltac:(done) E1 H2) as [<- H2'].
  destruct (probe_bus_ok Secondary b1 "hdc" "hdd" s1 H2' (proj1 G1)) as (b2 & s2 & E2 & G2). rewrite E2.
  exists b2, s2. split; [done|]. exact (grown_trans _ _ _ _ _ G1 G2).
Qed.

(** C21: after the start the device folder has one file for every drive that answers and
    one for every used entry of its partition table, named hda to hdd and hdap1 to hddp4,
    each with the range its entry gives; nothing else is added, and the terminal keeps
    working.  Each bus is empty or has drives that keep the promises of the standard,
    busy for some time after every command; they are idle when the kernel starts to ask
    and have at least one sector. *)
Theorem probe_disks_lists (b : B) (s : Found FB) :
  bus_good Primary b -> bus_good Secondary b -> term_ok (fd_terminal s) ->
  exists b' s', probe_disks polls b s = Ret (b', s') /\ term_ok (fd_terminal s') /\
    disk_devices (fd_dev s') = disk_devices (fd_dev s) ++
      bus_files Primary (lit "hda") (lit "hdb") (drives Primary b) ++ bus_files Secondary (lit "hdc") (lit "hdd") (drives Secondary b).
Proof.
  intros H1 H2 Ht. destruct (probe_disks_ok b s H1 H2 Ht) as (b' & s' & E & Ht' & _ & Ed). by exists b', s'.
Qed.

(** The names of the files are distinct, so that each is found under its own. *)
Lemma part_names_sub typ device drive c ns : (part_files typ device drive c ns).*1 `sublist_of` ((fun n => part_name drive (Z.of_nat n)) <$> ns).
Proof.
  induction ns as [|n ns IH]; [done|]. unfold part_files. cbn [mbind list_bind]. fold (part_files typ device drive c ns).
  destruct (entry_of c n); cbn [app fmap list_fmap]; by constructor.
Qed.
Definition all_names (drive : str) : list str := drive :: (part_name drive <$> [0; 1; 2; 3]).
Lemma drive_names_sub typ device drive disk : (drive_files typ device drive disk).*1 `sublist_of` all_names drive.
Proof. destruct disk as [k|]; [|apply sublist_nil_l]. apply sublist_skip. exact (part_names_sub typ device drive (disk_bytes k) [0; 1; 2; 3]%nat). Qed.

Lemma bus_names_sub typ master slave d : (bus_files typ master slave d).*1 `sublist_of` all_names master ++ all_names slave.
Proof.
  destruct d as [d|]; [|apply sublist_nil_l]. unfold bus_files. rewrite fmap_app. apply sublist_app; apply drive_names_sub.
Qed.

Lemma bus_files_distinct d d' :
  NoDup (bus_files Primary (lit "hda") (lit "hdb") d ++ bus_files Secondary (lit "hdc") (lit "hdd") d').*1.
Proof.
  eapply sublist_NoDup; [|rewrite fmap_app; apply sublist_app; apply bus_names_sub].
  apply (bool_decide_unpack _). vm_compute. exact I.
Qed.

End Machine.

(** * A machine with drives on its first bus and an empty second one *)

Definition bus_reg (k : Z) : option AtaReg :=
  match k with
  | 0 => Some Data | 1 => Some ErrFeatures | 2 => Some SectorCount | 3 => Some AddressLow | 4 => Some AddressMid
  | 5 => Some AddressHi | 6 => Some DriveSel | 7 => Some StatCommand | _ => None
  end.
Definition one_bus_in (m : SimDrive) (port : Z) : SimDrive * Z :=
  match bus_reg (port - 0x1F0) with Some r => port_in (AtaPorts := sim_ports) m r | None => (m, 0xFF) end.
Definition one_bus_out (m : SimDrive) (port v : Z) : SimDrive :=
  match bus_reg (port - 0x1F0) with Some r => port_out (AtaPorts := sim_ports) m r v | None => m end.

#[export] Instance one_bus : IoSpace SimDrive := {|
  port_inb := one_bus_in;
  port_outb := one_bus_out;
  port_inh := one_bus_in;
  port_outh := one_bus_out;
  load_u8 m _ := (m, 0);
  store_u8 m _ _ := m;
  load_u16 m _ := (m, 0);
  store_u16 m _ _ := m;
|}.

Lemma one_bus_primary_in m r : port_in (AtaPorts := bus_ports Primary) m r = port_in (AtaPorts := sim_ports) m r.
Proof. by destruct r. Qed.
Lemma one_bus_primary_out m r v : port_out (AtaPorts := bus_ports Primary) m r v = port_out (AtaPorts := sim_ports) m r v.
Proof. by destruct r. Qed.
Lemma one_bus_secondary_in m r : port_in (AtaPorts := bus_ports Secondary) m r = (m, 0xFF).
Proof. by destruct r. Qed.
Lemma one_bus_secondary_out m r v : port_out (AtaPorts := bus_ports Secondary) m r v = m.
Proof. by destruct r. Qed.

#[export] Instance one_bus_primary : AtaDriveOk SimDrive (P := bus_ports Primary) 3.
Proof.
  refine {| view := view (AtaDriveOk := sim_ok); busy := busy (AtaDriveOk := sim_ok) |}.
  - apply (busy_bound (AtaDriveOk := sim_ok)).
  - intros m. rewrite one_bus_primary_in. apply (status_in (AtaDriveOk := sim_ok)).
  - apply (no_device_not_busy (AtaDriveOk := sim_ok)).
  - intros m d w. rewrite one_bus_primary_in. apply (data_in (AtaDriveOk := sim_ok)).
  - intros m r v d. rewrite one_bus_primary_out. apply (reg_out (AtaDriveOk := sim_ok)).
Defined.

#[export] Instance one_bus_ok : DiskMachine SimDrive 3.
Proof.
  refine {| bus_ok typ := match typ with
                          | Primary => inl one_bus_primary
                          | Secondary => inr (fun m => f_equal snd (one_bus_secondary_in m StatCommand))
                          end |}; intros [] [] m r; try done.
  - intros _. by rewrite one_bus_secondary_in.
  - intros v _. by rewrite one_bus_secondary_out.
Defined.

(** One drive, with two sectors and a partition that is the second; it is busy for two
    readings of the status after every command. *)
Definition boot_sector : Sector := replicate 225 0 ++ [0x83; 0; 1; 0; 1; 0] ++ replicate 24 0 ++ [0xAA55].
Definition boot_disk : Disk := MkDisk [boot_sector; replicate 256 0] (replicate 256 0).
Definition boot_drives : SimDrive := MkSim (MkDrive (Some boot_disk) None 0 0 0 0 0 (Idle false)) 0.

Lemma boot_disk_good : disk_good boot_disk.
Proof.
  split; [reflexivity|]. split; [|simpl; lia].
  apply Forall_cons_2; [split; [reflexivity|]|apply Forall_singleton; split; [reflexivity|by apply Forall_replicate]].
  apply (bool_decide_unpack (Forall (fun w => 0 <= w < 2 ^ 16) boot_sector)). vm_compute. exact I.
Qed.

Lemma boot_buses_good typ : bus_good typ boot_drives.
Proof.
  destruct typ; split; try done. intros d [= <-]. split; [reflexivity|]. intros [] k [= <-]. exact boot_disk_good.
Qed.

Lemma probe_disks_lists_witness : exists b s,
  probe_disks (PS := reference_packed_struct) 3 boot_drives (MkFound demo_terminal devfs_new) = Ret (b, s) /\
  disk_devices (fd_dev s) = [(lit "hda", DriveFile Primary MASTER); (lit "hdap1", PartFile Primary MASTER (MkPartition 512 512 PART_0))].
Proof.
  destruct (probe_disks_lists (PS := reference_packed_struct) boot_drives (MkFound demo_terminal devfs_new)
    (boot_buses_good Primary) (boot_buses_good Secondary) demo_terminal_ok) as (b & s & E & _ & Ed).
  exists b, s. split; [exact E|]. rewrite Ed. vm_compute. reflexivity.
Defined.
