(* ===== verification/Ext2.v ===== *)
(** The ext2 file system, kernel/src/ext2.rs: records on disk, blocks, bitmaps, inodes
    and the operations of [Ext2FS]. *)
From S2P Require Import Prelude MachineInt PackedStruct Device.
From stdpp Require Import list.
#[local] Open Scope Z_scope.

(** * Records on disk *)

Record Ext2SuperBlock := MkSuperBlock {
  max_no_of_inodes : Z;
  max_no_of_blocks : Z;
  superuser_reserved_blocks : Z;
  unallocated_blocks : Z;
  unallocated_inodes : Z;
  superblock_block_number : Z;
  block_size_log2_minus_10 : Z;
  fragment_size_log2_minus_10 : Z;
  blocks_per_block_group : Z;
  fragments_per_block_group : Z;
  inodes_per_block_group : Z;
  last_mount_unix_timestamp : Z;
  last_written_unix_timestamp : Z;
  mounts_since_last_check : Z;
  mounts_allowed_before_check : Z;
  ext2_signature : Z;
  fs_state : Z;
  on_error : Z;
  minor_version : Z;
  last_check_unix_timestamp : Z;
  max_interval_between_checks : Z;
  os_id : Z;
  major_version : Z;
  uid_for_reserved_blocks : Z;
  gid_for_reserved_blocks : Z;
}.

Definition superblock_sizes : list nat := [4; 4; 4; 4; 4; 4; 4; 4; 4; 4; 4; 4; 4; 2; 2; 2; 2; 2; 2; 4; 4; 4; 4; 2; 2]%nat.
Definition superblock_values (sb : Ext2SuperBlock) : list Z :=
  [max_no_of_inodes sb; max_no_of_blocks sb; superuser_reserved_blocks sb; unallocated_blocks sb; unallocated_inodes sb;
   superblock_block_number sb; block_size_log2_minus_10 sb; fragment_size_log2_minus_10 sb; blocks_per_block_group sb;
   fragments_per_block_group sb; inodes_per_block_group sb; last_mount_unix_timestamp sb; last_written_unix_timestamp sb;
   mounts_since_last_check sb; mounts_allowed_before_check sb; ext2_signature sb; fs_state sb; on_error sb; minor_version sb;
   last_check_unix_timestamp sb; max_interval_between_checks sb; os_id sb; major_version sb; uid_for_reserved_blocks sb;
   gid_for_reserved_blocks sb].
Definition superblock_of (vs : list Z) : option Ext2SuperBlock :=
  match vs with
  | [a; b; c; d; e; f; g; h; i; j; k; l; m; n; o; p; q; r; s; t; u; v; w; x; y] =>
      Some (MkSuperBlock a b c d e f g h i j k l m n o p q r s t u v w x y)
  | _ => None
  end.
Definition set_unallocated_blocks (sb : Ext2SuperBlock) (n : Z) : Ext2SuperBlock :=
  MkSuperBlock (max_no_of_inodes sb) (max_no_of_blocks sb) (superuser_reserved_blocks sb) n (unallocated_inodes sb)
    (superblock_block_number sb) (block_size_log2_minus_10 sb) (fragment_size_log2_minus_10 sb) (blocks_per_block_group sb)
    (fragments_per_block_group sb) (inodes_per_block_group sb) (last_mount_unix_timestamp sb) (last_written_unix_timestamp sb)
    (mounts_since_last_check sb) (mounts_allowed_before_check sb) (ext2_signature sb) (fs_state sb) (on_error sb) (minor_version sb)
    (last_check_unix_timestamp sb) (max_interval_between_checks sb) (os_id sb) (major_version sb) (uid_for_reserved_blocks sb)
    (gid_for_reserved_blocks sb).
Definition set_unallocated_inodes (sb : Ext2SuperBlock) (n : Z) : Ext2SuperBlock :=
  MkSuperBlock (max_no_of_inodes sb) (max_no_of_blocks sb) (superuser_reserved_blocks sb) (unallocated_blocks sb) n
    (superblock_block_number sb) (block_size_log2_minus_10 sb) (fragment_size_log2_minus_10 sb) (blocks_per_block_group sb)
    (fragments_per_block_group sb) (inodes_per_block_group sb) (last_mount_unix_timestamp sb) (last_written_unix_timestamp sb)
    (mounts_since_last_check sb) (mounts_allowed_before_check sb) (ext2_signature sb) (fs_state sb) (on_error sb) (minor_version sb)
    (last_check_unix_timestamp sb) (max_interval_between_checks sb) (os_id sb) (major_version sb) (uid_for_reserved_blocks sb)
    (gid_for_reserved_blocks sb).

(** Arrays of bytes are lists. *)
Record Ext2ExtendedSuperblock := MkExtended {
  first_non_reserved_inode_in_fs : Z;
  inode_size : Z;
  block_group_of_this_superblock : Z;
  optional_features : Z;
  required_features : Z;
  write_features : Z;
  fs_id : list Z;
  volume_name : list Z;
  last_mounted : list Z;
  compression_algorithm : Z;
  blocks_to_preallocate_for_files : Z;
  blocks_to_preallocate_for_directories : Z;
  unused1 : Z;
  journal_id : list Z;
  journal_inode : Z;
  journal_device : Z;
  head_of_orphan_inode_list : Z;
}.

Definition extended_sizes : list nat :=
  ([4; 2; 2; 4; 4; 4] ++ replicate 96 1 ++ [4; 1; 1; 2] ++ replicate 16 1 ++ [4; 4; 4])%nat.
Definition extended_values (x : Ext2ExtendedSuperblock) : list Z :=
  [first_non_reserved_inode_in_fs x; inode_size x; block_group_of_this_superblock x; optional_features x; required_features x;
   write_features x] ++ (fs_id x ++ volume_name x ++ last_mounted x) ++
  [compression_algorithm x; blocks_to_preallocate_for_files x; blocks_to_preallocate_for_directories x; unused1 x] ++
  journal_id x ++ [journal_inode x; journal_device x; head_of_orphan_inode_list x].
Definition extended_of (vs : list Z) : option Ext2ExtendedSuperblock :=
  match take 6 vs, take 4 (drop 102 vs), drop 122 vs with
  | [a; b; c; d; e; f], [g; h; i; j], [k; l; m] =>
      Some (MkExtended a b c d e f (take 16 (drop 6 vs)) (take 16 (drop 22 vs)) (take 64 (drop 38 vs)) g h i j (take 16 (drop 106 vs)) k l m)
  | _, _, _ => None
  end.

Definition has_unrecognised_required_features (x : Ext2ExtendedSuperblock) : bool :=
  negb (Z.land (required_features x) 0x000F =? required_features x).
Definition has_unrecognised_write_required_features (x : Ext2ExtendedSuperblock) : bool :=
  negb (Z.land (write_features x) 0x0007 =? write_features x).
Definition has_required_feature_compression (x : Ext2ExtendedSuperblock) : bool := negb (Z.land (required_features x) 0x0001 =? 0).
Definition has_required_feature_directory_entry_type_field (x : Ext2ExtendedSuperblock) : bool := negb (Z.land (required_features x) 0x0002 =? 0).
Definition has_required_feature_replay_journal (x : Ext2ExtendedSuperblock) : bool := negb (Z.land (required_features x) 0x0004 =? 0).
Definition has_required_feature_journal_device (x : Ext2ExtendedSuperblock) : bool := negb (Z.land (required_features x) 0x0008 =? 0).
Definition has_write_required_feature_sparse (x : Ext2ExtendedSuperblock) : bool := negb (Z.land (write_features x) 0x0001 =? 0).
Definition has_write_required_feature_64bit_file_size (x : Ext2ExtendedSuperblock) : bool := negb (Z.land (write_features x) 0x0002 =? 0).
Definition has_write_required_feature_directory_contents_binary_tree (x : Ext2ExtendedSuperblock) : bool :=
  negb (Z.land (write_features x) 0x0004 =? 0).

Record Ext2BlockGroupDescriptor := MkDescriptor {
  block_addr_for_block_usage_bitmap : Z;
  block_addr_for_inode_usage_bitmap : Z;
  block_addr_for_inode_table : Z;
  unallocated_blocks_in_group : Z;
  unallocated_inodes_in_group : Z;
  directories_in_group : Z;
}.
Definition descriptor_sizes : list nat := [4; 4; 4; 2; 2; 2]%nat.
Definition descriptor_values (d : Ext2BlockGroupDescriptor) : list Z :=
  [block_addr_for_block_usage_bitmap d; block_addr_for_inode_usage_bitmap d; block_addr_for_inode_table d;
   unallocated_blocks_in_group d; unallocated_inodes_in_group d; directories_in_group d].
Definition descriptor_of (vs : list Z) : option Ext2BlockGroupDescriptor :=
  match vs with [a; b; c; d; e; f] => Some (MkDescriptor a b c d e f) | _ => None end.
Definition set_unallocated_blocks_in_group (d : Ext2BlockGroupDescriptor) (n : Z) : Ext2BlockGroupDescriptor :=
  MkDescriptor (block_addr_for_block_usage_bitmap d) (block_addr_for_inode_usage_bitmap d) (block_addr_for_inode_table d)
    n (unallocated_inodes_in_group d) (directories_in_group d).
Definition set_unallocated_inodes_in_group (d : Ext2BlockGroupDescriptor) (n : Z) : Ext2BlockGroupDescriptor :=
  MkDescriptor (block_addr_for_block_usage_bitmap d) (block_addr_for_inode_usage_bitmap d) (block_addr_for_inode_table d)
    (unallocated_blocks_in_group d) n (directories_in_group d).

Record Ext2RawInode := MkInode {
  type_and_perm : Z;
  user_id : Z;
  low32_size : Z;
  last_access_unix_timestamp : Z;
  creation_unix_timestamp : Z;
  last_modif_unix_timestamp : Z;
  deletion_unix_timestamp : Z;
  group_id : Z;
  hard_links_to_inode : Z;
  disk_sectors_used : Z;
  inode_flags : Z;
  os_value_1 : Z;
  direct_block_pointers : list Z;
  singly_indirect_block_pointer : Z;
  doubly_indirect_block_pointer : Z;
  triply_indirect_block_pointer : Z;
  generation_number : Z;
  ext2_majorv1_extended_attribute_block : Z;
  ext2_majorv1_upper32_size : Z;
  block_addr_of_fragment : Z;
  os_value_2 : list Z;
}.
Definition inode_sizes : list nat :=
  ([2; 2; 4; 4; 4; 4; 4; 2; 2; 4; 4; 4] ++ replicate 12 4 ++ [4; 4; 4; 4; 4; 4; 4] ++ replicate 3 4)%nat.
Definition inode_values (i : Ext2RawInode) : list Z :=
  [type_and_perm i; user_id i; low32_size i; last_access_unix_timestamp i; creation_unix_timestamp i; last_modif_unix_timestamp i;
   deletion_unix_timestamp i; group_id i; hard_links_to_inode i; disk_sectors_used i; inode_flags i; os_value_1 i] ++
  direct_block_pointers i ++
  [singly_indirect_block_pointer i; doubly_indirect_block_pointer i; triply_indirect_block_pointer i; generation_number i;
   ext2_majorv1_extended_attribute_block i; ext2_majorv1_upper32_size i; block_addr_of_fragment i] ++ os_value_2 i.
Definition inode_of (vs : list Z) : option Ext2RawInode :=
  match take 12 vs, take 7 (drop 24 vs) with
  | [a; b; c; d; e; f; g; h; i; j; k; l], [s; t; u; v; w; x; y] =>
      Some (MkInode a b c d e f g h i j k l (take 12 (drop 12 vs)) s t u v w x y (take 3 (drop 31 vs)))
  | _, _ => None
  end.
(** [Ext2RawInode::default]. *)
Definition default_inode : Ext2RawInode :=
  MkInode 0 0 0 0 0 0 0 0 0 0 0 0 (replicate 12 0) 0 0 0 0 0 0 0 (replicate 3 0).

(** * The file system *)

(** The device, and the superblocks as they were read and changed. *)
Record Ext2FS (W : Type) := MkExt2 {
  backing_device : W;
  sb : Ext2SuperBlock;
  extended_sb : option Ext2ExtendedSuperblock;
  read_only : bool;
}.
Arguments MkExt2 {W} _ _ _ _.
Arguments backing_device {W} _.
Arguments sb {W} _.
Arguments extended_sb {W} _.
Arguments read_only {W} _.

Definition get_ondisk_directory_entry_header_size : Z := 8.
Definition get_ondisk_block_group_descriptor_size : Z := 32.
Definition get_ondisk_super_block_size : Z := 84.

(** Rounded up. *)
Definition div_up (a b : Z) : outcome Z :=
  let! q := div_chk a b in
  let! r := rem_chk a b in
  Ret (if r =? 0 then q else q + 1).

Section Geometry.
Context {W : Type}.
Implicit Types fs : Ext2FS W.

Definition get_block_size fs : outcome Z :=
  let! k := add_chk 32 (block_size_log2_minus_10 (sb fs)) 10 in
  if k <? 32 then Ret (2 ^ k) else Panic.

Definition get_number_of_block_groups fs : outcome Z :=
  let! b := div_up (max_no_of_blocks (sb fs)) (blocks_per_block_group (sb fs)) in
  let! i := div_up (max_no_of_inodes (sb fs)) (inodes_per_block_group (sb fs)) in
  let! _ := rassert (b =? i) in Ret b.

Definition get_number_of_special_blocks fs : outcome Z :=
  let! bs := get_block_size fs in
  let! initial_blocks := div_up (1024 + 1024) bs in
  let! groups := get_number_of_block_groups fs in
  let! table := div_up (get_ondisk_block_group_descriptor_size * groups) bs in
  Ret (initial_blocks + table).

Definition get_ondisk_inode_size fs : outcome Z :=
  if major_version (sb fs) >=? 1 then let! x := unwrap (extended_sb fs) in Ret (inode_size x) else Ret 128.

Definition get_descriptor_index_of_block_number fs (block_number : Z) : outcome (option Z) :=
  let! special := get_number_of_special_blocks fs in
  if block_number <? wrap 32 special then Ret None
  else let! q := div_chk (block_number - wrap 32 special) (blocks_per_block_group (sb fs)) in Ret (Some q).
Definition get_descriptor_subindex_of_block_number fs (block_number : Z) : outcome (option Z) :=
  let! special := get_number_of_special_blocks fs in
  if block_number <? wrap 32 special then Ret None
  else let! r := rem_chk (block_number - wrap 32 special) (blocks_per_block_group (sb fs)) in Ret (Some r).
Definition get_descriptor_index_of_inode_addr fs (inode_addr : Z) : outcome Z :=
  let! a := sub_chk inode_addr 1 in div_chk a (inodes_per_block_group (sb fs)).
Definition get_descriptor_subindex_of_inode_addr fs (inode_addr : Z) : outcome Z :=
  let! a := sub_chk inode_addr 1 in rem_chk a (inodes_per_block_group (sb fs)).

(** The byte address of a descriptor: the table starts at the block that holds byte
    2048. *)
Definition descriptor_addr fs (block_group_descriptor_index : Z) : outcome Z :=
  let! offset := mul_chk 32 block_group_descriptor_index get_ondisk_block_group_descriptor_size in
  let! bs := get_block_size fs in
  add_chk 32 ((1024 + 1024) / bs * bs) offset.

(** The byte address of an inode in the table of its group. *)
Definition inode_addr_in_table fs (d : Ext2BlockGroupDescriptor) (inode_addr : Z) : outcome Z :=
  let! bs := get_block_size fs in
  let! table := mul_chk 32 (block_addr_for_inode_table d) bs in
  let! index := get_descriptor_subindex_of_inode_addr fs inode_addr in
  let! size := get_ondisk_inode_size fs in
  let! off := mul_chk 32 index (wrap 32 size) in
  add_chk 32 table off.

End Geometry.

(** What a computation reads of the file system without changing it. *)
Definition geometry {W A} (f : Ext2FS W -> outcome A) : SO (Ext2FS W) A := fun fs => let! a := f fs in Ret (fs, Some a).
Definition geometry_opt {W A} (f : Ext2FS W -> outcome (option A)) : SO (Ext2FS W) A := fun fs => let! a := f fs in Ret (fs, a).
Definition set_sb {W} (s : Ext2SuperBlock) : SO (Ext2FS W) unit := fun fs =>
  Ret (MkExt2 (backing_device fs) s (extended_sb fs) (read_only fs), Some ()).

(** [written] is what was read back. *)
Fixpoint same_bytes (read_back written : list Z) : bool :=
  match written, read_back with
  | [], _ => true
  | b :: written, b' :: read_back => (b' =? b) && same_bytes read_back written
  | _ :: _, [] => false
  end.

(** Setting bits of a bitmap. *)
Definition bitmap_get (bitmap : list Z) (i : Z) : outcome Z := unwrap (bitmap !! Z.to_nat i).
Definition mark_free (byte bit : Z) : Z := Z.land byte (bnot 8 (Z.shiftl 1 bit)).
Definition mark_used (byte bit : Z) : Z := Z.lor byte (Z.shiftl 1 bit).

(** The lowest bit of a byte that is clear. *)
Fixpoint find_clear_bit (byte bit : Z) (n : nat) : Z :=
  match n with
  | O => bit
  | S n => if Z.testbit byte bit then find_clear_bit byte (bit + 1) n else bit
  end.

Section Operations.
Context {W : Type} {DF : DeviceFile W} {PS : PackedStruct}.
Abbreviation FS := (SO (Ext2FS W)).

(** [Ext2FS::read]. *)
Definition fs_read (addr size : Z) : FS (list Z) := fun fs =>
  let! (w, o) := dev_read (backing_device fs) addr size in
  Ret (MkExt2 w (sb fs) (extended_sb fs) (read_only fs), o).

Definition sanity_check_write (addr : Z) (written_data : list Z) : FS unit :=
  do! read_back_data := fs_read addr (Z.of_nat (length written_data)) in
  if same_bytes read_back_data written_data then so_ret () else so_none.

(** [Ext2FS::write], with the check that builds with debug assertions make. *)
Definition fs_write (addr : Z) (data : list Z) : FS Z :=
  do! ro := geometry (fun fs => Ret (read_only fs)) in
  if (ro : bool) then so_none
  else
    do! res := (fun fs =>
      let! (w, o) := dev_write (backing_device fs) addr data in
      Ret (MkExt2 w (sb fs) (extended_sb fs) (read_only fs), Some o)) in
    do! _ := sanity_check_write addr data in
    so_option res.

Definition read_block (number : Z) : FS (list Z) :=
  if number =? 0 then so_none
  else
    do! bs := geometry get_block_size in
    do! addr := so_lift (mul_chk 32 bs number) in
    fs_read addr bs.

Definition write_block (number : Z) (data : list Z) : FS unit :=
  do! bs := geometry get_block_size in
  do! _ := so_lift (rassert (Z.of_nat (length data) =? bs)) in
  if number =? 0 then so_none
  else
    do! addr := so_lift (mul_chk 32 bs number) in
    do! bytes_written := fs_write addr data in
    if bytes_written <? bs then so_none else so_ret ().

(** [R::unpack(bytes.try_into().ok()?).ok()] and [r.pack().ok()?]. *)
Definition so_unpack {A} (sizes : list nat) (of_values : list Z -> option A) (bytes : list Z) : FS A :=
  so_option (vs ← unpack_bytes Lsb sizes bytes; of_values vs).
Definition so_pack (sizes : list nat) (values : list Z) : FS (list Z) := so_option (pack_bytes Lsb sizes values).
Definition packed_size (sizes : list nat) : Z := Z.of_nat (sum_list sizes).

Definition read_block_group_descriptor (block_group_descriptor_index : Z) : FS Ext2BlockGroupDescriptor :=
  do! addr := geometry (fun fs => descriptor_addr fs block_group_descriptor_index) in
  do! raw_descriptor := fs_read addr (packed_size descriptor_sizes) in
  so_unpack descriptor_sizes descriptor_of raw_descriptor.

Definition write_block_group_descriptor (block_group_descriptor_index : Z) (descriptor : Ext2BlockGroupDescriptor) : FS unit :=
  do! addr := geometry (fun fs => descriptor_addr fs block_group_descriptor_index) in
  do! bytes := so_pack descriptor_sizes (descriptor_values descriptor) in
  do! _ := fs_write addr bytes in
  so_ret ().

Definition flush_super_blocks : FS unit :=
  do! s := geometry (fun fs => Ret (sb fs)) in
  do! bytes := so_pack superblock_sizes (superblock_values s) in
  do! _ := fs_write 1024 bytes in
  do! x := geometry (fun fs => Ret (extended_sb fs)) in
  match x with
  | None => so_ret ()
  | Some esb =>
      do! bytes := so_pack extended_sizes (extended_values esb) in
      do! _ := fs_write (1024 + get_ondisk_super_block_size) bytes in
      so_ret ()
  end.

Definition get_sb : FS Ext2SuperBlock := geometry (fun fs => Ret (sb fs)).

(** * Blocks *)

Definition dealloc_block (number : Z) : FS unit :=
  do! s := get_sb in
  if unallocated_blocks s =? max_no_of_blocks s then so_none
  else
    do! block_group_descriptor_index := geometry_opt (fun fs => get_descriptor_index_of_block_number fs number) in
    do! offset_in_block_group := geometry_opt (fun fs => get_descriptor_subindex_of_block_number fs number) in
    do! descriptor := read_block_group_descriptor block_group_descriptor_index in
    do! _ := so_lift (rassert (negb (unallocated_blocks_in_group descriptor =? blocks_per_block_group s))) in
    do! bitmap := read_block (block_addr_for_block_usage_bitmap descriptor) in
    do! val_to_edit := so_lift (bitmap_get bitmap (offset_in_block_group / 8)) in
    if negb (Z.testbit val_to_edit (offset_in_block_group mod 8)) then so_none
    else
      let bitmap := <[Z.to_nat (offset_in_block_group / 8) := mark_free val_to_edit (offset_in_block_group mod 8)]> bitmap in
      do! _ := so_try (write_block (block_addr_for_block_usage_bitmap descriptor) bitmap) in
      do! n := so_lift (add_chk 16 (unallocated_blocks_in_group descriptor) 1) in
      do! _ := write_block_group_descriptor block_group_descriptor_index (set_unallocated_blocks_in_group descriptor n) in
      do! n := so_lift (add_chk 32 (unallocated_blocks s) 1) in
      do! _ := set_sb (set_unallocated_blocks s n) in
      do! _ := so_try flush_super_blocks in
      so_ret ().

(** [bitmap.iter().cloned().enumerate().find(|(_, val)| *val != 0xff)]. *)
Definition find_free_byte (bitmap : list Z) : option (nat * Z) := list_find (fun val => val <> 0xff) bitmap.

Definition alloc_block (block_group_descriptor_index : Z) : FS Z :=
  do! s := get_sb in
  if unallocated_blocks s =? 0 then so_none
  else
    do! descriptor := read_block_group_descriptor block_group_descriptor_index in
    if unallocated_blocks_in_group descriptor =? 0 then so_none
    else
      do! bitmap := read_block (block_addr_for_block_usage_bitmap descriptor) in
      do! (loc, byte) := so_option (find_free_byte bitmap) in
      let found_bit := find_clear_bit byte 0 8 in
      let free_block_in_blockgroup := Z.of_nat loc * 8 + found_bit in
      do! base := so_lift (mul_chk 32 block_group_descriptor_index (blocks_per_block_group s)) in
      do! p := so_lift (add_chk 32 (wrap 32 free_block_in_blockgroup) base) in
      do! special := geometry get_number_of_special_blocks in
      do! block_pointer_to_allocate := so_lift (add_chk 32 p (wrap 32 special)) in
      let bitmap := <[loc := mark_used byte found_bit]> bitmap in
      do! _ := write_block (block_addr_for_block_usage_bitmap descriptor) bitmap in
      do! n := so_lift (sub_chk (unallocated_blocks_in_group descriptor) 1) in
      do! _ := write_block_group_descriptor block_group_descriptor_index (set_unallocated_blocks_in_group descriptor n) in
      do! n := so_lift (sub_chk (unallocated_blocks s) 1) in
      do! _ := set_sb (set_unallocated_blocks s n) in
      do! _ := so_try flush_super_blocks in
      do! bs := geometry get_block_size in
      do! _ := write_block block_pointer_to_allocate (replicate (Z.to_nat bs) 0) in
      so_ret block_pointer_to_allocate.

(** The loop over the groups from an index on; it ends when the index passes their
    number. *)
Fixpoint alloc_close_to (alloc : Z -> FS Z) (n : nat) (block_group_descriptor_index : Z) : FS Z :=
  match n with
  | O => so_lift Panic
  | S n =>
      do! ptr := so_try (alloc block_group_descriptor_index) in
      match ptr with
      | Some ptr => so_ret ptr
      | None =>
          do! next := so_lift (add_chk 32 block_group_descriptor_index 1) in
          do! groups := geometry get_number_of_block_groups in
          if next >? groups then so_none else alloc_close_to alloc n next
      end
  end.
(** Rounds enough for every index: the number of groups and two more. *)
Definition group_rounds (fs : Ext2FS W) : nat := S (S (S (Z.to_nat (max_no_of_blocks (sb fs) / blocks_per_block_group (sb fs))))).

Definition alloc_block_close_to (block_group_descriptor_index : Z) : FS Z :=
  do! rounds := geometry (fun fs => Ret (group_rounds fs)) in
  alloc_close_to alloc_block rounds block_group_descriptor_index.

(** * Inodes *)

Definition read_inode (inode_addr : Z) : FS Ext2RawInode :=
  do! index := geometry (fun fs => get_descriptor_index_of_inode_addr fs inode_addr) in
  do! descriptor := read_block_group_descriptor index in
  do! addr := geometry (fun fs => inode_addr_in_table fs descriptor inode_addr) in
  do! raw_inode := fs_read addr (packed_size inode_sizes) in
  so_unpack inode_sizes inode_of raw_inode.

Definition write_inode (inode_addr : Z) (raw_inode : Ext2RawInode) : FS unit :=
  do! index := geometry (fun fs => get_descriptor_index_of_inode_addr fs inode_addr) in
  do! descriptor := read_block_group_descriptor index in
  do! addr := geometry (fun fs => inode_addr_in_table fs descriptor inode_addr) in
  do! bytes := so_pack inode_sizes (inode_values raw_inode) in
  do! _ := fs_write addr bytes in
  so_ret ().

Definition dealloc_inode (inode_addr : Z) : FS unit :=
  do! s := get_sb in
  if unallocated_inodes s =? max_no_of_inodes s then so_none
  else
    do! block_group_descriptor_index := geometry (fun fs => get_descriptor_index_of_inode_addr fs inode_addr) in
    do! offset_in_block_group := geometry (fun fs => get_descriptor_subindex_of_inode_addr fs inode_addr) in
    do! descriptor := read_block_group_descriptor block_group_descriptor_index in
    if unallocated_inodes_in_group descriptor =? inodes_per_block_group s then so_none
    else
      do! bitmap := read_block (block_addr_for_inode_usage_bitmap descriptor) in
      do! val_to_edit := so_lift (bitmap_get bitmap (offset_in_block_group / 8)) in
      if negb (Z.testbit val_to_edit (offset_in_block_group mod 8)) then so_none
      else
        let bitmap := <[Z.to_nat (offset_in_block_group / 8) := mark_free val_to_edit (offset_in_block_group mod 8)]> bitmap in
        do! _ := write_block (block_addr_for_inode_usage_bitmap descriptor) bitmap in
        do! n := so_lift (add_chk 16 (unallocated_inodes_in_group descriptor) 1) in
        do! _ := write_block_group_descriptor block_group_descriptor_index (set_unallocated_inodes_in_group descriptor n) in
        do! n := so_lift (add_chk 32 (unallocated_inodes s) 1) in
        do! _ := set_sb (set_unallocated_inodes s n) in
        do! _ := so_try flush_super_blocks in
        so_ret ().

Definition alloc_inode (block_group_descriptor_index : Z) : FS Z :=
  do! s := get_sb in
  if unallocated_inodes s =? 0 then so_none
  else
    do! descriptor := read_block_group_descriptor block_group_descriptor_index in
    if unallocated_inodes_in_group descriptor =? 0 then so_none
    else
      do! bitmap := read_block (block_addr_for_inode_usage_bitmap descriptor) in
      do! (loc, byte) := so_option (find_free_byte bitmap) in
      let found_bit := find_clear_bit byte 0 8 in
      let free_inode_index_in_table := Z.of_nat loc * 8 + found_bit in
      do! base := so_lift (mul_chk 32 (inodes_per_block_group s) block_group_descriptor_index) in
      do! p := so_lift (add_chk 32 (wrap 32 free_inode_index_in_table) base) in
      do! inode_addr_to_allocate := so_lift (add_chk 32 p 1) in
      if inode_addr_to_allocate =? 1 then so_none
      else
        let bitmap := <[loc := mark_used byte found_bit]> bitmap in
        do! _ := write_block (block_addr_for_inode_usage_bitmap descriptor) bitmap in
        do! n := so_lift (sub_chk (unallocated_inodes_in_group descriptor) 1) in
        do! _ := write_block_group_descriptor block_group_descriptor_index (set_unallocated_inodes_in_group descriptor n) in
        do! n := so_lift (sub_chk (unallocated_inodes s) 1) in
        do! _ := set_sb (set_unallocated_inodes s n) in
        do! _ := so_try flush_super_blocks in
        do! _ := write_inode inode_addr_to_allocate default_inode in
        so_ret inode_addr_to_allocate.

Definition alloc_inode_close_to (block_group_descriptor_index : Z) : FS Z :=
  do! rounds := geometry (fun fs => Ret (group_rounds fs)) in
  alloc_close_to alloc_inode rounds block_group_descriptor_index.

(** * Mounting *)

(** The extended superblock; None for features that cannot be read, and whether the
    others can be written. *)
Definition check_features (esb : Ext2ExtendedSuperblock) (read_only : bool) : option bool :=
  if has_unrecognised_required_features esb then None
  else if has_required_feature_compression esb then None
  else if has_required_feature_journal_device esb then None
  else if has_required_feature_replay_journal esb then None
  else Some (if has_unrecognised_write_required_features esb then true
             else if has_write_required_feature_directory_contents_binary_tree esb then true else read_only).

(** [Ext2FS::new]. *)
Definition ext2_new (backing_dev : W) (read_only : bool) : outcome (W * option (Ext2FS W)) :=
  let! (w, sb_data) := dev_read backing_dev 1024 (packed_size superblock_sizes) in
  match (vs ← sb_data; vs ← unpack_bytes Lsb superblock_sizes vs; superblock_of vs) with
  | None => Ret (w, None)
  | Some s =>
      if inodes_per_block_group s <? 1 then Ret (w, None)
      else if major_version s >=? 1 then
        let! (w, extended_sb_data) := dev_read w (1024 + get_ondisk_super_block_size) (packed_size extended_sizes) in
        match (vs ← extended_sb_data; vs ← unpack_bytes Lsb extended_sizes vs; extended_of vs) with
        | None => Ret (w, None)
        | Some esb =>
            match check_features esb read_only with
            | None => Ret (w, None)
            | Some read_only => Ret (w, Some (MkExt2 w s (Some esb) read_only))
            end
        end
      else Ret (w, Some (MkExt2 w s None read_only))
  end.

End Operations.
