(* ===== verification/Ext2Inode.v ===== *)
(** The data of an inode, kernel/src/ext2.rs: the tree of block pointers, growing and
    shrinking it, reading and writing bytes ([Ext2RawInode]).

    Methods that take [&mut self] work on the file system and the inode, both of which
    keep what was changed when the method leaves early. *)
From S2P Require Import Prelude MachineInt PackedStruct Device Ext2.
From stdpp Require Import list.
#[local] Open Scope Z_scope.

Definition set_direct (i : Ext2RawInode) (ps : list Z) : Ext2RawInode :=
  MkInode (type_and_perm i) (user_id i) (low32_size i) (last_access_unix_timestamp i) (creation_unix_timestamp i) (last_modif_unix_timestamp i)
    (deletion_unix_timestamp i) (group_id i) (hard_links_to_inode i) (disk_sectors_used i) (inode_flags i) (os_value_1 i) ps
    (singly_indirect_block_pointer i) (doubly_indirect_block_pointer i) (triply_indirect_block_pointer i) (generation_number i)
    (ext2_majorv1_extended_attribute_block i) (ext2_majorv1_upper32_size i) (block_addr_of_fragment i) (os_value_2 i).
Definition set_indirect (i : Ext2RawInode) (s d t : Z) : Ext2RawInode :=
  MkInode (type_and_perm i) (user_id i) (low32_size i) (last_access_unix_timestamp i) (creation_unix_timestamp i) (last_modif_unix_timestamp i)
    (deletion_unix_timestamp i) (group_id i) (hard_links_to_inode i) (disk_sectors_used i) (inode_flags i) (os_value_1 i)
    (direct_block_pointers i) s d t (generation_number i)
    (ext2_majorv1_extended_attribute_block i) (ext2_majorv1_upper32_size i) (block_addr_of_fragment i) (os_value_2 i).
Definition set_singly (i : Ext2RawInode) (p : Z) : Ext2RawInode :=
  set_indirect i p (doubly_indirect_block_pointer i) (triply_indirect_block_pointer i).
Definition set_doubly (i : Ext2RawInode) (p : Z) : Ext2RawInode :=
  set_indirect i (singly_indirect_block_pointer i) p (triply_indirect_block_pointer i).
Definition set_triply (i : Ext2RawInode) (p : Z) : Ext2RawInode :=
  set_indirect i (singly_indirect_block_pointer i) (doubly_indirect_block_pointer i) p.
Definition set_links (i : Ext2RawInode) (n : Z) : Ext2RawInode :=
  MkInode (type_and_perm i) (user_id i) (low32_size i) (last_access_unix_timestamp i) (creation_unix_timestamp i) (last_modif_unix_timestamp i)
    (deletion_unix_timestamp i) (group_id i) n (disk_sectors_used i) (inode_flags i) (os_value_1 i) (direct_block_pointers i)
    (singly_indirect_block_pointer i) (doubly_indirect_block_pointer i) (triply_indirect_block_pointer i) (generation_number i)
    (ext2_majorv1_extended_attribute_block i) (ext2_majorv1_upper32_size i) (block_addr_of_fragment i) (os_value_2 i).
Definition set_type (i : Ext2RawInode) (t : Z) : Ext2RawInode :=
  MkInode t (user_id i) (low32_size i) (last_access_unix_timestamp i) (creation_unix_timestamp i) (last_modif_unix_timestamp i)
    (deletion_unix_timestamp i) (group_id i) (hard_links_to_inode i) (disk_sectors_used i) (inode_flags i) (os_value_1 i) (direct_block_pointers i)
    (singly_indirect_block_pointer i) (doubly_indirect_block_pointer i) (triply_indirect_block_pointer i) (generation_number i)
    (ext2_majorv1_extended_attribute_block i) (ext2_majorv1_upper32_size i) (block_addr_of_fragment i) (os_value_2 i).

Definition get_size (i : Ext2RawInode) : Z := low32_size i.
Definition set_size (i : Ext2RawInode) (new_size : Z) : Ext2RawInode :=
  let n := wrap 32 new_size in
  MkInode (type_and_perm i) (user_id i) n (last_access_unix_timestamp i) (creation_unix_timestamp i) (last_modif_unix_timestamp i)
    (deletion_unix_timestamp i) (group_id i) (hard_links_to_inode i) (n / 512 + (if n mod 512 =? 0 then 0 else 1)) (inode_flags i) (os_value_1 i)
    (direct_block_pointers i) (singly_indirect_block_pointer i) (doubly_indirect_block_pointer i) (triply_indirect_block_pointer i)
    (generation_number i) (ext2_majorv1_extended_attribute_block i) (ext2_majorv1_upper32_size i) (block_addr_of_fragment i) (os_value_2 i).

(** * Arrays of pointers in a block *)

Definition read_value_from_u32_array_as_le_bytes (bytes : list Z) (index : Z) : outcome Z :=
  let i := Z.to_nat (index * 4) in
  if (i + 4 <=? length bytes)%nat then Ret (from_le_bytes (take 4 (drop i bytes))) else Panic.

Fixpoint store_at (bytes : list Z) (i : nat) (data : list Z) : outcome (list Z) :=
  match data with
  | [] => Ret bytes
  | b :: data => if (i <? length bytes)%nat then store_at (<[i := b]> bytes) (S i) data else Panic
  end.
Definition write_value_to_u32_array_as_le_bytes (bytes : list Z) (index val : Z) : outcome (list Z) :=
  store_at bytes (Z.to_nat (index * 4)) (to_le_bytes 4 val).

Definition all_zero (bytes : list Z) : bool := forallb (Z.eqb 0) bytes.

Section Inode.
Context {W : Type} {DF : DeviceFile W} {PS : PackedStruct}.
Abbreviation FS := (SO (Ext2FS W)).
Abbreviation IO := (SO (Ext2FS W * Ext2RawInode)).

(** The inode itself. *)
Definition get_self : IO Ext2RawInode := so_snd so_get.
Definition set_self (self : Ext2RawInode) : IO unit := so_snd (so_put self).

Definition read_pointer_from_block {S} (bytes : list Z) (index : Z) : SO S Z :=
  so_lift (read_value_from_u32_array_as_le_bytes bytes index).
Definition write_pointer_to_block {S} (bytes : list Z) (index val : Z) : SO S (list Z) :=
  so_lift (write_value_to_u32_array_as_le_bytes bytes index val).

Definition get_last_allocated_data_block_number (self : Ext2RawInode) : SO (Ext2FS W) (option Z) :=
  if get_size self =? 0 then so_ret None
  else do! bs := geometry get_block_size in so_ret (Some ((get_size self - 1) / bs)).

Definition pointers_per_block : FS Z := do! bs := geometry get_block_size in so_ret (bs / 4).

(** * The pointer of a data block *)

(** The block an indirect pointer's entry points to. *)
Definition follow (pointer index : Z) : FS Z :=
  do! block := read_block pointer in read_pointer_from_block block index.

Definition read_data_block_pointer (self : Ext2RawInode) (data_block_number : Z) : FS Z :=
  if data_block_number <=? 11 then so_lift (unwrap (direct_block_pointers self !! Z.to_nat data_block_number))
  else
    do! ppb := pointers_per_block in
    let n := data_block_number - 12 in
    if n <? ppb then follow (singly_indirect_block_pointer self) n
    else
      let n := n - ppb in
      if n <? ppb * ppb then
        do! singly := follow (doubly_indirect_block_pointer self) (n / ppb) in
        follow singly (n mod ppb)
      else
        let n := n - ppb * ppb in
        if n <? ppb * ppb * ppb then
          do! doubly := follow (triply_indirect_block_pointer self) (n / (ppb * ppb)) in
          do! singly := follow doubly (n mod (ppb * ppb) / ppb) in
          follow singly ((n mod (ppb * ppb)) mod ppb)
        else so_none.

(** The entry of a singly indirect block: the old pointer is released, the new one
    stored. *)
Definition replace_pointer (singly_pointer index pointer : Z) : FS unit :=
  do! singly_indirect_block := read_block singly_pointer in
  do! old := read_pointer_from_block singly_indirect_block index in
  do! _ := so_try (dealloc_block old) in
  do! singly_indirect_block := write_pointer_to_block singly_indirect_block index pointer in
  write_block singly_pointer singly_indirect_block.

Definition write_data_block_pointer (data_block_number pointer : Z) : IO unit :=
  do! self := get_self in
  if data_block_number <=? 11 then
    do! old := so_lift (unwrap (direct_block_pointers self !! Z.to_nat data_block_number)) in
    do! _ := so_fst (so_try (dealloc_block old)) in
    set_self (set_direct self (<[Z.to_nat data_block_number := pointer]> (direct_block_pointers self)))
  else
    so_fst (
      do! ppb := pointers_per_block in
      let n := data_block_number - 12 in
      if n <? ppb then replace_pointer (singly_indirect_block_pointer self) n pointer
      else
        let n := n - ppb in
        if n <? ppb * ppb then
          do! singly := follow (doubly_indirect_block_pointer self) (n / ppb) in
          replace_pointer singly (n mod ppb) pointer
        else
          let n := n - ppb * ppb in
          if n <? ppb * ppb * ppb then
            do! doubly := follow (triply_indirect_block_pointer self) (n / (ppb * ppb)) in
            do! singly := follow doubly (n mod (ppb * ppb) / ppb) in
            replace_pointer singly ((n mod (ppb * ppb)) mod ppb) pointer
          else so_none).

Definition read_data_block (self : Ext2RawInode) (data_block_number : Z) : FS (list Z) :=
  do! p := read_data_block_pointer self data_block_number in read_block p.
Definition write_data_block (self : Ext2RawInode) (data_block_number : Z) (data : list Z) : FS unit :=
  do! p := read_data_block_pointer self data_block_number in write_block p data.
Definition dealloc_data_block (data_block_number : Z) : IO unit := write_data_block_pointer data_block_number 0.

(** The group of the last data block. *)
Definition get_appropriate_descriptor_index (self : Ext2RawInode) : FS Z :=
  do! last := get_last_allocated_data_block_number self in
  match last with
  | None => so_ret 0
  | Some last_data_block_number =>
      do! p := read_data_block_pointer self last_data_block_number in
      geometry_opt (fun fs => get_descriptor_index_of_block_number fs p)
  end.

Definition alloc_data_block (data_block_number : Z) : IO unit :=
  do! self := get_self in
  do! descriptor_index := so_fst (get_appropriate_descriptor_index self) in
  do! new_block_pointer := so_fst (alloc_block_close_to descriptor_index) in
  write_data_block_pointer data_block_number new_block_pointer.

(** * Shrinking the tree *)

(** The entries [n - 1] down to 0 of a doubly indirect block: empty blocks are
    released, the first one in use ends the loop; the block as it is then, and whether
    the loop was left by the break. *)
Fixpoint release_empty (doubly_indirect_block : list Z) (n : nat) : FS (list Z * bool) :=
  match n with
  | O => so_ret (doubly_indirect_block, false)
  | S n =>
      let i := Z.of_nat n in
      do! p := read_pointer_from_block doubly_indirect_block i in
      do! singly := so_try (read_block p) in
      match singly with
      | None => release_empty doubly_indirect_block n
      | Some singly_indirect_block =>
          if all_zero singly_indirect_block then
            do! _ := so_try (dealloc_block p) in
            do! doubly_indirect_block := write_pointer_to_block doubly_indirect_block i 0 in
            release_empty doubly_indirect_block n
          else so_ret (doubly_indirect_block, true)
      end
  end.

(** The entries of a triply indirect block from [i] on; a break in the inner loop
    leaves this one too. *)
Fixpoint release_doubly (triply_indirect_block : list Z) (ppb : Z) (i : Z) (n : nat) : FS (list Z) :=
  match n with
  | O => so_ret triply_indirect_block
  | S n =>
      do! p := read_pointer_from_block triply_indirect_block i in
      do! doubly := so_try (read_block p) in
      match doubly with
      | None => release_doubly triply_indirect_block ppb (i + 1) n
      | Some doubly_indirect_block =>
          do! (doubly_indirect_block, broken) := release_empty doubly_indirect_block (Z.to_nat ppb) in
          if (broken : bool) then so_ret triply_indirect_block
          else if all_zero doubly_indirect_block then
            do! _ := so_try (dealloc_block p) in
            do! triply_indirect_block := write_pointer_to_block triply_indirect_block i 0 in
            release_doubly triply_indirect_block ppb (i + 1) n
          else
            do! _ := so_try (write_block p doubly_indirect_block) in
            release_doubly triply_indirect_block ppb (i + 1) n
      end
  end.

(** A root pointer: released and set to 0 when its block is empty, else written
    back. *)
Definition release_root (pointer : Z) (set : Ext2RawInode -> Z -> Ext2RawInode) (block : list Z) (write_back : bool) : IO unit :=
  if all_zero block then
    do! _ := so_fst (so_try (dealloc_block pointer)) in
    do! self := get_self in
    set_self (set self 0)
  else if write_back then do! _ := so_fst (so_try (write_block pointer block)) in so_ret ()
  else so_ret ().

Definition shrink_data_structure_to_fit : IO unit :=
  do! self := get_self in
  do! singly := so_fst (so_try (read_block (singly_indirect_block_pointer self))) in
  do! _ := match singly with
           | None => so_ret ()
           | Some block => release_root (singly_indirect_block_pointer self) set_singly block false
           end in
  do! doubly := so_fst (so_try (read_block (doubly_indirect_block_pointer self))) in
  do! _ := match doubly with
           | None => so_ret ()
           | Some block =>
               do! ppb := so_fst pointers_per_block in
               do! (block, _) := so_fst (release_empty block (Z.to_nat ppb)) in
               release_root (doubly_indirect_block_pointer self) set_doubly block true
           end in
  do! triply := so_fst (so_try (read_block (triply_indirect_block_pointer self))) in
  match triply with
  | None => so_ret ()
  | Some block =>
      do! ppb := so_fst pointers_per_block in
      do! block := so_fst (release_doubly block ppb 0 (Z.to_nat ppb)) in
      release_root (triply_indirect_block_pointer self) set_triply block true
  end.

(** * Growing the tree *)

(** New singly indirect blocks for the entries of a doubly indirect block, from entry
    [ind] on, until there are enough: the block and the number of blocks missing. *)
Fixpoint fill_doubly (descriptor_index ppb : Z) (doubly_indirect_block : list Z) (new_block_size ind : Z) (n : nat) : FS (list Z * Z) :=
  match n with
  | O => so_ret (doubly_indirect_block, new_block_size)
  | S n =>
      if new_block_size >? 0 then
        do! p := alloc_block_close_to descriptor_index in
        do! doubly_indirect_block := write_pointer_to_block doubly_indirect_block ind p in
        fill_doubly descriptor_index ppb doubly_indirect_block (new_block_size - ppb) (ind + 1) n
      else so_ret (doubly_indirect_block, new_block_size)
  end.

(** New doubly indirect blocks for the entries of a triply indirect block; the blocks
    read and written are the inode's own doubly indirect block. *)
Fixpoint fill_triply (descriptor_index ppb doubly_pointer : Z) (triply_indirect_block : list Z) (new_block_size ind : Z) (n : nat)
  : FS (list Z * Z) :=
  match n with
  | O => so_ret (triply_indirect_block, new_block_size)
  | S n =>
      if new_block_size >? 0 then
        do! p := alloc_block_close_to descriptor_index in
        do! triply_indirect_block := write_pointer_to_block triply_indirect_block ind p in
        do! doubly_indirect_block := read_block doubly_pointer in
        do! (doubly_indirect_block, new_block_size) :=
          fill_doubly descriptor_index ppb doubly_indirect_block new_block_size 0 (Z.to_nat ppb) in
        do! _ := write_block doubly_pointer doubly_indirect_block in
        fill_triply descriptor_index ppb doubly_pointer triply_indirect_block new_block_size (ind + 1) n
      else so_ret (triply_indirect_block, new_block_size)
  end.

(** A root pointer that is 0 gets a block. *)
Definition ensure_root (get : Ext2RawInode -> Z) (set : Ext2RawInode -> Z -> Ext2RawInode) (descriptor_index : Z) : IO Z :=
  do! self := get_self in
  if get self =? 0 then
    do! p := so_fst (alloc_block_close_to descriptor_index) in
    do! _ := set_self (set self p) in
    so_ret p
  else so_ret (get self).

Definition grow_data_structure_by (nblocks : Z) : IO unit :=
  do! self := get_self in
  do! bs := so_fst (geometry get_block_size) in
  if nblocks >=? 2 ^ 63 then so_none
  else
  let ppb := bs / 4 in
  let new_block_size := get_size self / bs + (if get_size self mod bs =? 0 then 0 else 1) + nblocks - 12 in
  if new_block_size <=? 0 then so_ret ()
  else
  do! descriptor_index := so_fst (get_appropriate_descriptor_index self) in
  do! _ := ensure_root singly_indirect_block_pointer set_singly descriptor_index in
  let new_block_size := new_block_size - ppb in
  if new_block_size <=? 0 then so_ret ()
  else
  do! doubly := ensure_root doubly_indirect_block_pointer set_doubly descriptor_index in
  do! block := so_fst (read_block doubly) in
  do! (block, new_block_size) := so_fst (fill_doubly descriptor_index ppb block new_block_size 0 (Z.to_nat ppb)) in
  do! _ := so_fst (write_block doubly block) in
  if new_block_size <=? 0 then so_ret ()
  else
  do! triply := ensure_root triply_indirect_block_pointer set_triply descriptor_index in
  do! block := so_fst (read_block triply) in
  do! (block, new_block_size) := so_fst (fill_triply descriptor_index ppb doubly block new_block_size 0 (Z.to_nat ppb)) in
  do! _ := so_fst (write_block triply block) in
  if new_block_size <=? 0 then so_ret () else so_none.

(** * Bytes *)

Definition extra_block (len bs : Z) : Z := if len mod bs =? 0 then 0 else 1.

Fixpoint read_blocks (self : Ext2RawInode) (block_ind : Z) (res : list Z) (n : nat) : FS (list Z) :=
  match n with
  | O => so_ret res
  | S n =>
      do! block := read_data_block self block_ind in
      read_blocks self (block_ind + 1) (res ++ block) n
  end.

Definition read_bytes (self : Ext2RawInode) (offset len : Z) : FS (list Z) :=
  do! last := so_lift (add_chk 64 offset len) in
  if last >? get_size self then so_none
  else
    do! bs := geometry get_block_size in
    do! first_block := read_data_block self (offset / bs) in
    do! _ := so_lift (rassert (offset mod bs <=? Z.of_nat (length first_block))) in
    do! res := read_blocks self (offset / bs + 1) (drop (Z.to_nat (offset mod bs)) first_block) (Z.to_nat (len / bs + extra_block len bs - 1)) in
    so_ret (take (Z.to_nat len) res).

(** The bytes of a block from an index on replaced by the data as far as it goes; what
    is left of it, and the number of bytes written. *)
Fixpoint fill_block (v : list Z) (iter : list Z) : list Z * list Z * Z :=
  match v, iter with
  | _ :: v, b :: iter => let '(v, iter, n) := fill_block v iter in (b :: v, iter, n + 1)
  | v, iter => (v, iter, 0)
  end.

Fixpoint write_blocks (self : Ext2RawInode) (data_len bs starting_block offset block_ind : Z) (ind : nat) (iter : list Z) (bytes_written : Z)
    (n : nat) : FS Z :=
  match n with
  | O => so_ret bytes_written
  | S n =>
      do! v :=
        if ((block_ind =? data_len / bs + extra_block data_len bs - 1) && (extra_block data_len bs =? 1))
           || ((block_ind =? 0) && negb (offset =? 0))
        then read_data_block self (starting_block + block_ind)
        else so_ret (replicate (Z.to_nat bs) 0) in
      let '(tail, iter, k) := fill_block (drop ind v) iter in
      do! _ := write_data_block self (starting_block + block_ind) (take ind v ++ tail) in
      write_blocks self data_len bs starting_block offset (block_ind + 1) 0 iter (bytes_written + k) n
  end.

(** The offset in the first block is taken modulo the size of an inode. *)
Definition write_bytes (self : Ext2RawInode) (offset : Z) (data : list Z) : FS Z :=
  let data_len := Z.of_nat (length data) in
  do! last := so_lift (add_chk 64 offset data_len) in
  if last >? get_size self then so_none
  else
    do! bs := geometry get_block_size in
    do! isize := geometry get_ondisk_inode_size in
    do! offset_in_starting_block := so_lift (rem_chk offset isize) in
    write_blocks self data_len bs (offset / bs) offset_in_starting_block 0 (Z.to_nat offset_in_starting_block) data 0
      (Z.to_nat (data_len / bs + extra_block data_len bs)).

(** * Resizing *)

Fixpoint dealloc_blocks (last i : Z) (n : nat) : IO unit :=
  match n with
  | O => so_ret ()
  | S n =>
      do! k := so_lift (sub_chk last i) in
      do! _ := dealloc_data_block k in
      dealloc_blocks last (i + 1) n
  end.

Definition blocks_to_remove (size nbytes bs : Z) : Z :=
  let bytes_used_in_last_nonempty_block := if size mod bs =? 0 then bs else size mod bs in
  if nbytes >=? bytes_used_in_last_nonempty_block then 1 + (nbytes - bytes_used_in_last_nonempty_block) / bs else 0.

Definition shrink_by (nbytes : Z) : IO unit :=
  do! self := get_self in
  if nbytes >? get_size self then so_none
  else if nbytes =? 0 then so_ret ()
  else
    do! bs := so_fst (geometry get_block_size) in
    do! last := so_fst (get_last_allocated_data_block_number self) in
    do! last := so_lift (unwrap last) in
    do! _ := dealloc_blocks last 0 (Z.to_nat (blocks_to_remove (get_size self) nbytes bs)) in
    do! _ := shrink_data_structure_to_fit in
    do! self := get_self in
    do! size := so_lift (sub_chk (get_size self) nbytes) in
    set_self (set_size self size).

Fixpoint alloc_blocks (last i : Z) (n : nat) : IO unit :=
  match n with
  | O => so_ret ()
  | S n =>
      do! _ := alloc_data_block (last + i) in
      alloc_blocks last (i + 1) n
  end.

Definition blocks_to_add (size nbytes bs : Z) : Z :=
  let bytes_available_in_last_block := bs - size mod bs in
  if nbytes >? bytes_available_in_last_block then
    (nbytes - bytes_available_in_last_block) / bs + extra_block (nbytes - bytes_available_in_last_block) bs
  else 0.

Definition grow_by (nbytes : Z) : IO unit :=
  do! self := get_self in
  if nbytes =? 0 then so_ret ()
  else
    do! bs := so_fst (geometry get_block_size) in
    do! _ :=
      if get_size self mod bs =? 0 then
        do! _ := grow_data_structure_by 1 in
        do! last := so_fst (get_last_allocated_data_block_number self) in
        alloc_data_block (match last with Some last_block_n => last_block_n + 1 | None => 0 end)
      else so_ret () in
    let n := blocks_to_add (get_size self) nbytes bs in
    do! _ := grow_data_structure_by n in
    do! last := so_fst (get_last_allocated_data_block_number self) in
    do! _ := alloc_blocks (default 0 last) 1 (Z.to_nat n) in
    do! self := get_self in
    do! size := so_lift (add_chk 64 (get_size self) nbytes) in
    set_self (set_size self size).

Definition resize (new_size : Z) : IO unit :=
  do! self := get_self in
  if new_size =? get_size self then so_ret ()
  else if new_size <? get_size self then shrink_by (get_size self - new_size)
  else grow_by (new_size - get_size self).

End Inode.
