(* ===== verification/Ext2Dir.v ===== *)
(** Files and folders of ext2, kernel/src/ext2.rs: [Ext2File], [Ext2Folder] with its
    linked directory entries.

    A file or folder carries its own copy of the inode; methods with [&mut self] work
    on the file system and this copy. *)
From S2P Require Import Prelude MachineInt Str PackedStruct Device Path Vfs Ext2 Ext2Inode.
From stdpp Require Import list.
#[local] Open Scope Z_scope.

(** * Nodes *)

(** [Ext2File] and [Ext2Folder]; the file system is shared. *)
Record Ext2Node := MkExt2Node { node_inode : Ext2RawInode; node_addr : Z }.

Definition as_vfs_node (self : Ext2RawInode) (inode_addr : Z) : option (Node Ext2Node Ext2Node) :=
  if Z.land (type_and_perm self) 0xF000 =? 0x4000 then Some (Folder (MkExt2Node self inode_addr))
  else if Z.land (type_and_perm self) 0xF000 =? 0x8000 then Some (File (MkExt2Node self inode_addr))
  else None.

(** * Directory entries *)

Record Ext2DirectoryEntryHeader := MkHeader {
  entry_inode : Z;
  entry_size : Z;
  name_length_low8 : Z;
  entry_type : Z;
}.
Definition header_sizes : list nat := [4; 2; 1; 1]%nat.
Definition header_values (h : Ext2DirectoryEntryHeader) : list Z := [entry_inode h; entry_size h; name_length_low8 h; entry_type h].
Definition header_of (vs : list Z) : option Ext2DirectoryEntryHeader :=
  match vs with [a; b; c; d] => Some (MkHeader a b c d) | _ => None end.
(** [Ext2DirectoryEntryHeader::default]. *)
Definition default_header : Ext2DirectoryEntryHeader := MkHeader 0 (wrap 16 get_ondisk_directory_entry_header_size) 0 0.
Definition set_entry_size (h : Ext2DirectoryEntryHeader) (n : Z) : Ext2DirectoryEntryHeader :=
  MkHeader (entry_inode h) n (name_length_low8 h) (entry_type h).

(** An entry with the index of its first byte and its name. *)
Abbreviation DirEntry := (Z * Ext2DirectoryEntryHeader * str)%type.

(** [&bytes[a..b]]. *)
Definition bytes_range (bytes : list Z) (a b : Z) : outcome (list Z) :=
  if b <=? Z.of_nat (length bytes) then Ret (take (Z.to_nat (b - a)) (drop (Z.to_nat a) bytes)) else Panic.

Section Dir.
Context {W : Type} {DF : DeviceFile W} {PS : PackedStruct}.
Abbreviation FS := (SO (Ext2FS W)).
Abbreviation IO := (SO (Ext2FS W * Ext2RawInode)).

(** The loop over the entries; every round moves on by the size of an entry, which is
    at least that of its header. *)
Fixpoint parse_entries (raw_data : list Z) (cur_ind : Z) (n : nat) : outcome (list DirEntry) :=
  match n with
  | O => Ret []
  | S n =>
      if cur_ind <? Z.of_nat (length raw_data) then
        let! bytes := bytes_range raw_data cur_ind (cur_ind + get_ondisk_directory_entry_header_size) in
        let! entry := unwrap (vs ← unpack_bytes Lsb header_sizes bytes; header_of vs) in
        let cur := cur_ind + get_ondisk_directory_entry_header_size in
        if entry_inode entry =? 0 then
          let! rest := sub_chk (entry_size entry) get_ondisk_directory_entry_header_size in
          parse_entries raw_data (cur + rest) n
        else
          let! name_bytes := bytes_range raw_data cur (cur + name_length_low8 entry) in
          let! name := unwrap (from_utf8 name_bytes) in
          let! rest := sub_chk (entry_size entry) get_ondisk_directory_entry_header_size in
          let! entries := parse_entries raw_data (cur + rest) n in
          Ret ((cur_ind, entry, name) :: entries)
      else Ret []
  end.

Definition get_entries (self : Ext2RawInode) : FS (list DirEntry) :=
  do! raw_data := so_try (read_bytes self 0 (Ext2Inode.get_size self)) in
  match raw_data with
  | None => so_ret []
  | Some raw_data => so_lift (parse_entries raw_data 0 (S (length raw_data)))
  end.

Definition write_entry_header_to_buffer {S} (raw_data : list Z) (entry : DirEntry) : SO S (list Z) :=
  let '(start, header, _) := entry in
  do! bytes := so_option (pack_bytes Lsb header_sizes (header_values header)) in
  so_lift (store_at raw_data (Z.to_nat start) bytes).

Definition write_entry_string_to_buffer {S} (raw_data : list Z) (entry : DirEntry) : SO S (list Z) :=
  let '(start, _, name) := entry in
  so_lift (store_at raw_data (Z.to_nat (start + get_ondisk_directory_entry_header_size)) (as_bytes name)).

(** * Folders *)

Fixpoint nodes_of_entries (entries : list DirEntry) : FS (list (str * Node Ext2Node Ext2Node)) :=
  match entries with
  | [] => so_ret []
  | (_, entry, name) :: entries =>
      do! child_inode := so_expect (read_inode (entry_inode entry)) in
      do! node := so_lift (unwrap (as_vfs_node child_inode (entry_inode entry))) in
      do! nodes := nodes_of_entries entries in
      so_ret ((name, node) :: nodes)
  end.
Definition ext2_get_children (self : Ext2RawInode) : FS (list (str * Node Ext2Node Ext2Node)) :=
  do! entries := get_entries self in nodes_of_entries entries.

(** The entry with a name, and the one before it. *)
Fixpoint find_entry (name : str) (last : option DirEntry) (entries : list DirEntry) : option DirEntry * option DirEntry :=
  match entries with
  | [] => (None, last)
  | e :: entries => if decide (e.2 = name) then (Some e, last) else find_entry name (Some e) entries
  end.

(** The inode of an entry that is removed: one link less; without links it is
    released if it has no data. *)
Definition unlink_inode (inode_addr : Z) : FS unit :=
  do! child_inode := so_expect (read_inode inode_addr) in
  do! child_inode :=
    if hard_links_to_inode child_inode >=? 1 then
      let links := hard_links_to_inode child_inode - 1 in
      if links =? 0 then
        if negb (Ext2Inode.get_size child_inode =? 0) then so_none
        else do! _ := dealloc_inode inode_addr in so_ret (set_links child_inode links)
      else so_ret (set_links child_inode links)
    else so_ret child_inode in
  write_inode inode_addr child_inode.

Definition ext2_unlink (self : Ext2RawInode) (child_name : str) : FS unit :=
  do! entries := get_entries self in
  let (child, last) := find_entry child_name None entries in
  do! child := so_option child in
  do! last := so_option last in
  do! _ := unlink_inode (entry_inode child.1.2) in
  do! size := so_lift (add_chk 16 (entry_size last.1.2) (entry_size child.1.2)) in
  do! raw_data := read_bytes self 0 (Ext2Inode.get_size self) in
  do! updated := so_try (write_entry_header_to_buffer raw_data (last.1.1, set_entry_size last.1.2 size, last.2)) in
  let raw_data := default raw_data updated in
  do! _ := so_lift (rassert (Ext2Inode.get_size self =? Z.of_nat (length raw_data))) in
  do! written := write_bytes self 0 raw_data in
  if written =? Z.of_nat (length raw_data) then so_ret () else so_none.

(** The inode of a new child. *)
Definition new_child_inode (typ : NodeType) : Ext2RawInode :=
  set_links (set_type default_inode (match typ with TFile => Z.lor 0x8000 0x1FF | TFolder => Z.lor 0x4000 0x1FF end)) 1.

(** Its entry, before it is grown to the end of the block. *)
Definition new_entry_header (fs : Ext2FS W) (name : str) (typ : NodeType) (inode_addr : Z) : outcome Ext2DirectoryEntryHeader :=
  let entry_type :=
    match extended_sb fs with
    | Some esb => if has_required_feature_directory_entry_type_field esb then (match typ with TFile => 1 | TFolder => 2 end) else 0
    | None => 0
    end in
  let! size := add_chk 16 (wrap 16 (Z.of_nat (length (as_bytes name)))) get_ondisk_directory_entry_header_size in
  Ret (MkHeader inode_addr size (wrap 8 (Z.of_nat (length (as_bytes name)))) entry_type).

(** The bytes the last entry needs, rounded up to a multiple of 4. *)
Definition space_used (last : Ext2DirectoryEntryHeader) : Z :=
  let n := get_ondisk_directory_entry_header_size + name_length_low8 last in
  if n mod 4 =? 0 then n else n + (4 - n mod 4).

(** The last entry cut down when the new one fits behind it: the buffer and the first
    byte of the new entry. *)
Definition place_entry {S} (raw_data : list Z) (last : DirEntry) (size : Z) : SO S (list Z * Z) :=
  let used := space_used last.1.2 in
  do! free := so_lift (sub_chk (entry_size last.1.2) used) in
  if free >=? size then
    do! raw_data := write_entry_header_to_buffer raw_data (last.1.1, set_entry_size last.1.2 (wrap 16 used), last.2) in
    so_ret (raw_data, last.1.1 + wrap 16 used)
  else so_ret (raw_data, last.1.1 + entry_size last.1.2).

(** [Vec::resize]. *)
Definition vec_resize_bytes (bytes : list Z) (n : Z) : list Z :=
  take (Z.to_nat n) bytes ++ replicate (Z.to_nat n - length bytes) 0.

Definition ext2_create (inode_addr : Z) (name : str) (typ : NodeType) : IO (Node Ext2Node Ext2Node) :=
  do! self := get_self in
  do! entries := so_fst (get_entries self) in
  do! last_entry := so_option (last entries) in
  do! descriptor_index := so_fst (geometry (fun fs => get_descriptor_index_of_inode_addr fs (entry_inode last_entry.1.2))) in
  do! new_child_inode_addr := so_fst (alloc_inode_close_to descriptor_index) in
  let new_child := new_child_inode typ in
  do! _ := so_fst (write_inode new_child_inode_addr new_child) in
  do! raw_data := so_fst (read_bytes self 0 (Ext2Inode.get_size self)) in
  do! header := so_fst (geometry (fun fs => new_entry_header fs name typ new_child_inode_addr)) in
  do! (raw_data, new_entry_first_byte) := place_entry raw_data last_entry (entry_size header) in
  do! bs := so_fst (geometry get_block_size) in
  let space_to_grow_by := bs - (new_entry_first_byte + entry_size header) mod bs in
  do! size := so_lift (add_chk 16 (entry_size header) (wrap 16 space_to_grow_by)) in
  let header := set_entry_size header size in
  let raw_data := vec_resize_bytes raw_data (new_entry_first_byte + size) in
  do! _ := Ext2Inode.resize (new_entry_first_byte + size) in
  do! self := get_self in
  do! _ := so_fst (write_inode inode_addr self) in
  do! raw_data := write_entry_header_to_buffer raw_data (new_entry_first_byte, header, name) in
  do! raw_data := write_entry_string_to_buffer raw_data (new_entry_first_byte, header, name) in
  do! _ := so_lift (rassert (Ext2Inode.get_size self =? Z.of_nat (length raw_data))) in
  do! _ := so_fst (write_bytes self 0 raw_data) in
  so_lift (unwrap (as_vfs_node new_child new_child_inode_addr)).

(** * Files *)

Definition ext2_file_read (self : Ext2RawInode) (offset len : Z) : FS (list Z) := read_bytes self offset len.
Definition ext2_file_write (self : Ext2RawInode) (offset : Z) (data : list Z) : FS Z := write_bytes self offset data.
Definition ext2_file_size (self : Ext2RawInode) : Z := Ext2Inode.get_size self.
Definition ext2_file_resize (inode_addr new_size : Z) : IO unit :=
  do! _ := Ext2Inode.resize new_size in
  do! self := get_self in
  so_fst (write_inode inode_addr self).

(** Dropping the file system. *)
Definition ext2_drop : FS unit := do! _ := so_try flush_super_blocks in so_ret ().

End Dir.
