(* ===== verification/Ext2Sim.v ===== *)
(** ext2 on a device and ext2 on a sequence of bytes: every operation of the file
    system does on a device that keeps its promises what it does on the bytes the
    device holds.  What is proved of the operations on bytes holds with this on a
    partition of a drive. *)
From S2P Require Import Prelude MachineInt Str PackedStruct Device Path Vfs Ext2 Ext2Inode Ext2Dir.
From stdpp Require Import list.
#[local] Open Scope Z_scope.

(** * Calls

    What is asked of a file or folder: the methods of the traits IFile and IFolder that
    ext2 implements.  The file or folder has its inode's address and a copy of the
    inode. *)
Inductive Ext2Call :=
| CallRead (offset len : Z)
| CallWrite (offset : Z) (data : list Z)
| CallResize (new_size : Z)
| CallChildren
| CallUnlink (child_name : str)
| CallCreate (name : str) (typ : NodeType).

Inductive Ext2Reply :=
| Bytes (r : option (list Z))
| Count (r : option Z)
| Done (r : option unit)
| Children (r : list (str * Node Ext2Node Ext2Node))
| Created (r : option (Node Ext2Node Ext2Node)).

Section Calls.
Context {W : Type} {DF : DeviceFile W} {PS : PackedStruct}.

Definition ext2_call (inode_addr : Z) (call : Ext2Call) : SO (Ext2FS W * Ext2RawInode) Ext2Reply :=
  do! self := get_self in
  match call with
  | CallRead offset len => do! r := so_try (so_fst (ext2_file_read self offset len)) in so_ret (Bytes r)
  | CallWrite offset data => do! r := so_try (so_fst (ext2_file_write self offset data)) in so_ret (Count r)
  | CallResize new_size => do! r := so_try (ext2_file_resize inode_addr new_size) in so_ret (Done r)
  | CallChildren => do! r := so_fst (ext2_get_children self) in so_ret (Children r)
  | CallUnlink child_name => do! r := so_try (so_fst (ext2_unlink self child_name)) in so_ret (Done r)
  | CallCreate name typ => do! r := so_try (ext2_create inode_addr name typ) in so_ret (Created r)
  end.

Fixpoint ext2_calls (inode_addr : Z) (calls : list Ext2Call) : SO (Ext2FS W * Ext2RawInode) (list Ext2Reply) :=
  match calls with
  | [] => so_ret []
  | call :: calls =>
      do! r := ext2_call inode_addr call in
      do! rs := ext2_calls inode_addr calls in
      so_ret (r :: rs)
  end.
End Calls.

Section Sim.
Context {W : Type} {DF : DeviceFile W} {DFok : DeviceFileOk W} {PS : PackedStruct}.
#[local] Instance flat : DeviceFile (list Z) := flat_device whole.

(** The same superblocks, and the bytes the device holds. *)
Definition on_bytes (fs : Ext2FS W) (fs' : Ext2FS (list Z)) : Prop :=
  exists w c s x r, fs = MkExt2 w s x r /\ fs' = MkExt2 c s x r /\ holds w c.

Abbreviation sim_fs := (so_sim on_bytes).
Abbreviation sim_io := (so_sim (rel_fst (T := Ext2RawInode) on_bytes)).

(** * Primitives *)

Lemma sim_geometry {A} (f : Ext2FS W -> outcome A) f' :
  (forall w c s x r, f (MkExt2 w s x r) = f' (MkExt2 c s x r)) -> sim_fs (geometry f) (geometry f').
Proof.
  intros Hf fs fs' t' o (w & c & s & x & r & -> & -> & Hh) E. unfold geometry in *. rewrite (Hf w c).
  destruct (f' (MkExt2 c s x r)); [|done]. injection E as <- <-. eexists. split; [done|]. by exists w, c, s, x, r.
Qed.

Lemma sim_geometry_opt {A} (f : Ext2FS W -> outcome (option A)) f' :
  (forall w c s x r, f (MkExt2 w s x r) = f' (MkExt2 c s x r)) -> sim_fs (geometry_opt f) (geometry_opt f').
Proof.
  intros Hf fs fs' t' o (w & c & s & x & r & -> & -> & Hh) E. unfold geometry_opt in *. rewrite (Hf w c).
  destruct (f' (MkExt2 c s x r)); [|done]. injection E as <- <-. eexists. split; [done|]. by exists w, c, s, x, r.
Qed.

Lemma sim_set_sb s : sim_fs (set_sb s) (set_sb s).
Proof. intros fs fs' t' o (w & c & s0 & x & r & -> & -> & Hh) [= <- <-]. eexists. split; [done|]. by exists w, c, s, x, r. Qed.

Lemma sim_read addr size : sim_fs (fs_read addr size) (fs_read addr size).
Proof.
  intros fs fs' t' o (w & c & s & x & r & -> & -> & Hh) E. unfold fs_read in *.
  apply obind_Ret in E as ([c' p] & E & [= <- <-]). destruct (device_simulates w c addr size [] Hh) as [H _].
  destruct (H c' p E) as (w' & Ew & Hh'). cbn [backing_device]. rewrite Ew. eexists. split; [done|]. by exists w', c', s, x, r.
Qed.

Lemma fs_write_run {V} {DV : DeviceFile V} addr data (w : V) s x r :
  fs_write addr data (MkExt2 w s x r) =
    if r then Ret (MkExt2 w s x r, None)
    else let! (w', o) := dev_write w addr data in
         so_bind (sanity_check_write addr data) (fun _ => so_option o) (MkExt2 w' s x r).
Proof. destruct r; [done|]. unfold fs_write, so_bind, geometry. cbn [obind read_only backing_device]. by destruct (dev_write w addr data) as [[]|]. Qed.

Lemma sim_sanity addr data : sim_fs (sanity_check_write addr data) (sanity_check_write addr data).
Proof. unfold sanity_check_write. apply sim_bind; [apply sim_read|]. sim. Qed.

(** The number of bytes written may be larger on the device; nothing depends on how
    much. *)
Lemma sim_write {A} addr data (k : Z -> SO (Ext2FS W) A) k' :
  (forall n, Z.of_nat (length data) <= n -> sim_fs (k n) (k' (Z.of_nat (length data)))) ->
  sim_fs (so_bind (fs_write addr data) k) (so_bind (fs_write addr data) k').
Proof.
  intros Hk fs fs' t' o (w & c & s & x & r & -> & -> & Hh) E. unfold so_bind at 1 in E. unfold so_bind at 1. cbv beta in E |- *.
  rewrite fs_write_run in E. rewrite fs_write_run. destruct r.
  { injection E as <- <-. eexists. split; [done|]. by exists w, c, s, x, true. }
  destruct (dev_write c addr data) as [[c' p]|] eqn:Ew; [|done]. cbn [obind] in E.
  destruct (device_simulates w c addr (Z.of_nat (length data)) data Hh) as [_ H].
  destruct (H c' p Ew) as (w' & n & -> & Hn & -> & Hh'). cbn [obind].
  assert (on_bytes (MkExt2 w' s x false) (MkExt2 c' s x false)) as HR by by exists w', c', s, x, false.
  destruct (sim_bind _ _ _ _ _ (sim_sanity addr data) (fun _ => Hk n Hn) _ _ t' o HR) as (t & E' & HR').
  - unfold so_bind in E |- *. destruct (sanity_check_write addr data _) as [[u [a|]]|]; exact E.
  - exists t. split; [|done]. unfold so_bind in E' |- *. destruct (sanity_check_write addr data _) as [[u [a|]]|]; exact E'.
Qed.

#[local] Hint Extern 1 (so_sim _ (geometry _) (geometry _)) => (apply sim_geometry; reflexivity) : sim.
#[local] Hint Extern 1 (so_sim _ (geometry_opt _) (geometry_opt _)) => (apply sim_geometry_opt; reflexivity) : sim.
#[local] Hint Resolve sim_set_sb sim_read : sim.
#[local] Hint Extern 1 (so_sim _ (so_unpack _ _ _) (so_unpack _ _ _)) => (apply sim_option) : sim.
#[local] Hint Extern 1 (so_sim _ (so_pack _ _) (so_pack _ _)) => (apply sim_option) : sim.

(** * Operations of the file system *)

Lemma sim_read_block number : sim_fs (read_block number) (read_block number).
Proof. unfold read_block. sim. Qed.

Lemma sim_write_block number data : sim_fs (write_block number data) (write_block number data).
Proof.
  unfold write_block. apply sim_bind; [auto with sim|]. intros bs. destruct (Z.eqb_spec (Z.of_nat (length data)) bs) as [<-|]; [|].
  - sim_step; [auto with sim|]. sim_step; [auto with sim|]. sim_step; [auto with sim|]. apply sim_write. intros n Hn.
    rewrite Z.ltb_irrefl, (proj2 (Z.ltb_ge _ _)) by done. auto with sim.
  - intros fs fs' t' o _ E. done.
Qed.
#[local] Hint Resolve sim_read_block sim_write_block : sim.

Lemma sim_read_block_group_descriptor i : sim_fs (read_block_group_descriptor i) (read_block_group_descriptor i).
Proof. unfold read_block_group_descriptor. sim. Qed.

(** A write whose count is dropped. *)
Lemma sim_write_unit {A} addr data (k : SO (Ext2FS W) A) k' :
  sim_fs k k' -> sim_fs (so_bind (fs_write addr data) (fun _ => k)) (so_bind (fs_write addr data) (fun _ => k')).
Proof. intros Hk. by apply sim_write. Qed.

Lemma sim_write_block_group_descriptor i d : sim_fs (write_block_group_descriptor i d) (write_block_group_descriptor i d).
Proof. unfold write_block_group_descriptor. do 2 (sim_step; [auto with sim|]). apply sim_write_unit. auto with sim. Qed.

Lemma sim_flush_super_blocks : sim_fs flush_super_blocks flush_super_blocks.
Proof.
  unfold flush_super_blocks. do 2 (sim_step; [auto with sim|]). apply sim_write_unit. sim_step; [auto with sim|].
  sim_step; [|auto with sim]. sim_step; [auto with sim|]. apply sim_write_unit. auto with sim.
Qed.

Lemma sim_get_sb : sim_fs get_sb get_sb.
Proof. unfold get_sb. auto with sim. Qed.
#[local] Hint Resolve sim_read_block_group_descriptor sim_write_block_group_descriptor sim_flush_super_blocks sim_get_sb : sim.

Lemma sim_dealloc_block n : sim_fs (dealloc_block n) (dealloc_block n).
Proof. unfold dealloc_block. sim. Qed.

Lemma sim_alloc_block i : sim_fs (alloc_block i) (alloc_block i).
Proof. unfold alloc_block. sim. Qed.

Lemma sim_close_to alloc alloc' n i : (forall i, sim_fs (alloc i) (alloc' i)) -> sim_fs (alloc_close_to alloc n i) (alloc_close_to alloc' n i).
Proof. intros Ha. revert i. induction n as [|n IH]; intros i; cbn [alloc_close_to]; sim. Qed.
#[local] Hint Resolve sim_dealloc_block sim_alloc_block sim_close_to : sim.

Lemma sim_alloc_block_close_to i : sim_fs (alloc_block_close_to i) (alloc_block_close_to i).
Proof. unfold alloc_block_close_to. sim. Qed.

Lemma sim_read_inode i : sim_fs (read_inode i) (read_inode i).
Proof. unfold read_inode. sim. Qed.

Lemma sim_write_inode i n : sim_fs (write_inode i n) (write_inode i n).
Proof. unfold write_inode. do 4 (sim_step; [auto with sim|]). apply sim_write_unit. auto with sim. Qed.
#[local] Hint Resolve sim_alloc_block_close_to sim_read_inode sim_write_inode : sim.

Lemma sim_dealloc_inode i : sim_fs (dealloc_inode i) (dealloc_inode i).
Proof. unfold dealloc_inode. sim. Qed.

Lemma sim_alloc_inode i : sim_fs (alloc_inode i) (alloc_inode i).
Proof. unfold alloc_inode. sim. Qed.
#[local] Hint Resolve sim_dealloc_inode sim_alloc_inode : sim.

Lemma sim_alloc_inode_close_to i : sim_fs (alloc_inode_close_to i) (alloc_inode_close_to i).
Proof. unfold alloc_inode_close_to. sim. Qed.
#[local] Hint Resolve sim_alloc_inode_close_to : sim.

(** * Data of an inode *)

Lemma sim_pointers_per_block : sim_fs pointers_per_block pointers_per_block.
Proof. unfold pointers_per_block. sim. Qed.

Lemma sim_get_self : sim_io get_self get_self.
Proof. apply sim_snd. Qed.

Lemma sim_set_self i : sim_io (set_self i) (set_self i).
Proof. apply sim_snd. Qed.

Lemma sim_read_pointer {S S'} (R : S -> S' -> Prop) b i : so_sim R (read_pointer_from_block b i) (read_pointer_from_block b i).
Proof. apply sim_lift. Qed.

Lemma sim_write_pointer {S S'} (R : S -> S' -> Prop) b i v : so_sim R (write_pointer_to_block b i v) (write_pointer_to_block b i v).
Proof. apply sim_lift. Qed.
#[local] Hint Resolve sim_pointers_per_block sim_get_self sim_set_self sim_read_pointer sim_write_pointer : sim.

Lemma sim_last_allocated self : sim_fs (get_last_allocated_data_block_number self) (get_last_allocated_data_block_number self).
Proof. unfold get_last_allocated_data_block_number. sim. Qed.

Lemma sim_follow p i : sim_fs (follow p i) (follow p i).
Proof. unfold follow. sim. Qed.
#[local] Hint Resolve sim_last_allocated sim_follow : sim.

Lemma sim_read_data_block_pointer self n : sim_fs (read_data_block_pointer self n) (read_data_block_pointer self n).
Proof. unfold read_data_block_pointer. sim. Qed.

Lemma sim_replace_pointer s i p : sim_fs (replace_pointer s i p) (replace_pointer s i p).
Proof. unfold replace_pointer. sim. Qed.
#[local] Hint Resolve sim_read_data_block_pointer sim_replace_pointer : sim.

Lemma sim_write_data_block_pointer n p : sim_io (write_data_block_pointer n p) (write_data_block_pointer n p).
Proof. unfold write_data_block_pointer. sim_step; [auto with sim|]. sim_step; [sim|]. apply sim_fst. sim. Qed.

Lemma sim_read_data_block self n : sim_fs (read_data_block self n) (read_data_block self n).
Proof. unfold read_data_block. sim. Qed.

Lemma sim_write_data_block self n d : sim_fs (write_data_block self n d) (write_data_block self n d).
Proof. unfold write_data_block. sim. Qed.

Lemma sim_appropriate self : sim_fs (get_appropriate_descriptor_index self) (get_appropriate_descriptor_index self).
Proof. unfold get_appropriate_descriptor_index. sim. Qed.
#[local] Hint Resolve sim_write_data_block_pointer sim_read_data_block sim_write_data_block sim_appropriate : sim.

Lemma sim_alloc_data_block n : sim_io (alloc_data_block n) (alloc_data_block n).
Proof. unfold alloc_data_block. sim. Qed.
#[local] Hint Resolve sim_alloc_data_block : sim.

Lemma sim_release_empty b n : sim_fs (release_empty b n) (release_empty b n).
Proof. revert b. induction n as [|n IH]; intros b; cbn [release_empty]; sim. Qed.
#[local] Hint Resolve sim_release_empty : sim.

Lemma sim_release_doubly b ppb i n : sim_fs (release_doubly b ppb i n) (release_doubly b ppb i n).
Proof. revert b i. induction n as [|n IH]; intros b i; cbn [release_doubly]; sim. Qed.

Lemma sim_release_root p f b w : sim_io (release_root p f b w) (release_root p f b w).
Proof. unfold release_root. sim. Qed.
#[local] Hint Resolve sim_release_doubly sim_release_root : sim.

Lemma sim_shrink_data_structure : sim_io shrink_data_structure_to_fit shrink_data_structure_to_fit.
Proof. unfold shrink_data_structure_to_fit. sim. Qed.

Lemma sim_fill_doubly d ppb b k i n : sim_fs (fill_doubly d ppb b k i n) (fill_doubly d ppb b k i n).
Proof. revert b k i. induction n as [|n IH]; intros b k i; cbn [fill_doubly]; sim. Qed.
#[local] Hint Resolve sim_shrink_data_structure sim_fill_doubly : sim.

Lemma sim_fill_triply d ppb p b k i n : sim_fs (fill_triply d ppb p b k i n) (fill_triply d ppb p b k i n).
Proof. revert b k i. induction n as [|n IH]; intros b k i; cbn [fill_triply]; sim. Qed.

Lemma sim_ensure_root get set d : sim_io (ensure_root get set d) (ensure_root get set d).
Proof. unfold ensure_root. sim. Qed.
#[local] Hint Resolve sim_fill_triply sim_ensure_root : sim.

Lemma sim_grow_data_structure n : sim_io (grow_data_structure_by n) (grow_data_structure_by n).
Proof. unfold grow_data_structure_by. sim. Qed.
#[local] Hint Resolve sim_grow_data_structure : sim.

Lemma sim_read_blocks self i res n : sim_fs (read_blocks self i res n) (read_blocks self i res n).
Proof. revert i res. induction n as [|n IH]; intros i res; cbn [read_blocks]; sim. Qed.
#[local] Hint Resolve sim_read_blocks : sim.

Lemma sim_read_bytes self off len : sim_fs (read_bytes self off len) (read_bytes self off len).
Proof. unfold read_bytes. sim. Qed.

Lemma sim_write_blocks self len bs s off i ind iter k n :
  sim_fs (write_blocks self len bs s off i ind iter k n) (write_blocks self len bs s off i ind iter k n).
Proof. revert i ind iter k. induction n as [|n IH]; intros i ind iter k; cbn [write_blocks]; sim. Qed.
#[local] Hint Resolve sim_read_bytes sim_write_blocks : sim.

Lemma sim_write_bytes self off data : sim_fs (write_bytes self off data) (write_bytes self off data).
Proof. unfold write_bytes. sim. Qed.

Lemma sim_dealloc_blocks last i n : sim_io (dealloc_blocks last i n) (dealloc_blocks last i n).
Proof. revert i. induction n as [|n IH]; intros i; cbn [dealloc_blocks]; unfold dealloc_data_block; sim. Qed.

Lemma sim_alloc_blocks last i n : sim_io (alloc_blocks last i n) (alloc_blocks last i n).
Proof. revert i. induction n as [|n IH]; intros i; cbn [alloc_blocks]; sim. Qed.
#[local] Hint Resolve sim_write_bytes sim_dealloc_blocks sim_alloc_blocks : sim.

Lemma sim_shrink_by n : sim_io (shrink_by n) (shrink_by n).
Proof. unfold shrink_by. sim. Qed.

Lemma sim_grow_by n : sim_io (grow_by n) (grow_by n).
Proof. unfold grow_by. sim. Qed.
#[local] Hint Resolve sim_shrink_by sim_grow_by : sim.

Lemma sim_resize n : sim_io (Ext2Inode.resize n) (Ext2Inode.resize n).
Proof. unfold Ext2Inode.resize. sim. Qed.
#[local] Hint Resolve sim_resize : sim.

(** * Files and folders *)

Lemma sim_get_entries self : sim_fs (get_entries self) (get_entries self).
Proof. unfold get_entries. sim. Qed.

Lemma sim_header_to_buffer {S S'} (R : S -> S' -> Prop) b e : so_sim R (write_entry_header_to_buffer b e) (write_entry_header_to_buffer b e).
Proof. destruct e as [[start h] name]. cbn [write_entry_header_to_buffer]. sim. Qed.

Lemma sim_string_to_buffer {S S'} (R : S -> S' -> Prop) b e : so_sim R (write_entry_string_to_buffer b e) (write_entry_string_to_buffer b e).
Proof. destruct e as [[start h] name]. cbn [write_entry_string_to_buffer]. sim. Qed.
#[local] Hint Resolve sim_get_entries sim_header_to_buffer sim_string_to_buffer : sim.

Lemma sim_nodes es : sim_fs (nodes_of_entries es) (nodes_of_entries es).
Proof. induction es as [|[[start e] name] es IH]; cbn [nodes_of_entries]; sim. Qed.
#[local] Hint Resolve sim_nodes : sim.

Lemma sim_get_children self : sim_fs (ext2_get_children self) (ext2_get_children self).
Proof. unfold ext2_get_children. sim. Qed.

Lemma sim_unlink_inode a : sim_fs (unlink_inode a) (unlink_inode a).
Proof. unfold unlink_inode. sim. Qed.
#[local] Hint Resolve sim_unlink_inode : sim.

Lemma sim_unlink self name : sim_fs (ext2_unlink self name) (ext2_unlink self name).
Proof. unfold ext2_unlink. sim. Qed.

Lemma sim_place_entry {S S'} (R : S -> S' -> Prop) b e n : so_sim R (place_entry b e n) (place_entry b e n).
Proof. unfold place_entry. sim. Qed.
#[local] Hint Resolve sim_place_entry : sim.

Lemma sim_create a name typ : sim_io (ext2_create a name typ) (ext2_create a name typ).
Proof. unfold ext2_create. sim. Qed.

Lemma sim_file_resize a n : sim_io (ext2_file_resize a n) (ext2_file_resize a n).
Proof. unfold ext2_file_resize. sim. Qed.
#[local] Hint Resolve sim_get_children sim_unlink sim_create sim_file_resize : sim.

Lemma sim_call a call : sim_io (ext2_call a call) (ext2_call a call).
Proof. unfold ext2_call, ext2_file_read, ext2_file_write. sim_step; [auto with sim|]. destruct call; (sim_step; [|auto with sim]); eauto with sim. Qed.
#[local] Hint Resolve sim_call : sim.

Lemma sim_calls a calls : sim_io (ext2_calls a calls) (ext2_calls a calls).
Proof. induction calls as [|call calls IH]; cbn [ext2_calls]; sim. Qed.

(** Mounting finds the same superblocks. *)
Lemma sim_mount w c ro c' o : holds w c -> ext2_new c ro = Ret (c', o) ->
  exists w' o', ext2_new w ro = Ret (w', o') /\ holds w' c' /\ c' = c /\
    match o, o' with Some fs', Some fs => on_bytes fs fs' | None, None => True | _, _ => False end.
Proof.
  intros Hh E. unfold ext2_new in *. apply obind_Ret in E as ([c1 p] & E1 & E).
  assert (c1 = c) as ->. { simpl in E1. destruct (flat_range _ _ _ _); [|done]. by injection E1. }
  destruct (device_simulates w c 1024 (packed_size superblock_sizes) [] Hh) as [H _]. destruct (H c p E1) as (w1 & -> & Hh1). cbn [obind].
  destruct (p ≫= _) as [s|]; [|injection E as <- <-; by exists w1, None].
  destruct (inodes_per_block_group s <? 1); [injection E as <- <-; by exists w1, None|].
  destruct (major_version s >=? 1).
  - apply obind_Ret in E as ([c2 p2] & E2 & E). assert (c2 = c) as ->. { simpl in E2. destruct (flat_range _ _ _ _); [|done]. by injection E2. }
    destruct (device_simulates w1 c (1024 + get_ondisk_super_block_size) (packed_size extended_sizes) [] Hh1) as [H2 _]. destruct (H2 c p2 E2) as (w2 & -> & Hh2). cbn [obind].
    destruct (p2 ≫= _) as [x|]; [|injection E as <- <-; by exists w2, None].
    destruct (check_features x ro) as [r|]; [|injection E as <- <-; by exists w2, None].
    injection E as <- <-. eexists w2, _. split; [done|]. do 2 (split; [done|]). by exists w2, c, s, (Some x), r.
  - injection E as <- <-. eexists w1, _. split; [done|]. do 2 (split; [done|]). by exists w1, c, s, None, ro.
Qed.
End Sim.
