(* ===== verification/Ext2Flat.v ===== *)
(** The operations of ext2 on a sequence of bytes: where records and blocks are, and
    what reading and writing them does. *)
From S2P Require Import Prelude MachineInt PackedStruct Device Ext2.
From stdpp Require Import list.
#[local] Open Scope Z_scope.

(** Ranges inside one sector, and ranges that start with a sector. *)
Definition serves_sectors (ok : nat -> nat -> bool) : Prop :=
  forall off len, (off mod 512 + len <= 512 \/ off mod 512 = 0)%nat -> ok off len = true.

(** The number of bytes of a block. *)
Definition block_bytes (s : Ext2SuperBlock) : nat := Z.to_nat (2 ^ (block_size_log2_minus_10 s + 10)).
(** Blocks of 1 KiB up to 2 MiB. *)
Definition block_size_ok (s : Ext2SuperBlock) : Prop := 0 <= block_size_log2_minus_10 s <= 11.

(** The bytes of a block. *)
Definition block_at (s : Ext2SuperBlock) (c : list Z) (n : Z) : list Z :=
  take (block_bytes s) (drop (Z.to_nat n * block_bytes s) c).
Definition block_in (s : Ext2SuperBlock) (c : list Z) (n : Z) : Prop :=
  0 < n /\ (Z.to_nat n * block_bytes s + block_bytes s <= length c)%nat.

(** A device of bytes whose addresses fit 32 bits. *)
Definition disk_ok (c : list Z) : Prop := Forall is_byte c /\ Z.of_nat (length c) < 2 ^ 32.

#[export] Instance block_in_dec s c n : Decision (block_in s c n).
Proof. unfold block_in. solve_decision. Defined.
#[export] Instance block_size_ok_dec s : Decision (block_size_ok s).
Proof. unfold block_size_ok. solve_decision. Defined.
#[export] Instance disk_ok_dec c : Decision (disk_ok c).
Proof. unfold disk_ok, is_byte, in_u. solve_decision. Defined.

(** * Splices of a disk *)

Lemma splice_is_byte c off data : Forall is_byte c -> Forall is_byte data -> Forall is_byte (splice c off data).
Proof. intros Hc Hd. unfold splice. repeat apply Forall_app_2; [by apply Forall_take|done|by apply Forall_drop]. Qed.

Lemma disk_ok_splice c off data : disk_ok c -> Forall is_byte data -> (off + length data <= length c)%nat -> disk_ok (splice c off data).
Proof. intros [Hc Hl] Hd Ho. split; [by apply splice_is_byte|by rewrite length_splice]. Qed.

Lemma splice_read c off data : (off + length data <= length c)%nat -> take (length data) (drop off (splice c off data)) = data.
Proof.
  intros H. unfold splice. assert (length (take off c) = off) as E by (rewrite length_take; lia).
  rewrite drop_app_ge, E, Nat.sub_diag by lia. rewrite drop_0. apply take_app_length.
Qed.

Lemma length_block_at s c n : block_in s c n -> length (block_at s c n) = block_bytes s.
Proof. intros [_ H]. unfold block_at. rewrite length_take, length_drop. lia. Qed.

Lemma block_at_is_byte s c n : Forall is_byte c -> Forall is_byte (block_at s c n).
Proof. intros H. by apply Forall_take, Forall_drop. Qed.

(** A block after another one, or itself, was replaced. *)
Definition put_block (s : Ext2SuperBlock) (c : list Z) (n : Z) (data : list Z) : list Z := splice c (Z.to_nat n * block_bytes s) data.

Lemma block_in_splice s c n off data : (off + length data <= length c)%nat -> block_in s (splice c off data) n <-> block_in s c n.
Proof. intros H. unfold block_in. by rewrite length_splice. Qed.

Lemma block_at_apart s c n off data : (off + length data <= length c)%nat ->
  (Z.to_nat n * block_bytes s + block_bytes s <= off \/ off + length data <= Z.to_nat n * block_bytes s)%nat ->
  block_at s (splice c off data) n = block_at s c n.
Proof. apply splice_outside. Qed.

Lemma block_at_put s c n data : block_in s c n -> length data = block_bytes s -> block_at s (put_block s c n data) n = data.
Proof. intros [_ H] E. unfold block_at, put_block. rewrite <- E at 1. apply splice_read. lia. Qed.

Lemma block_at_put_other s c n m data : block_in s c n -> 0 <= m -> m <> n -> length data = block_bytes s ->
  block_at s (put_block s c n data) m = block_at s c m.
Proof.
  intros [Hn H] Hm Hne E. apply block_at_apart; [lia|]. rewrite E.
  assert (Z.to_nat m < Z.to_nat n \/ Z.to_nat n < Z.to_nat m)%nat as [?|?] by lia; [left|right]; nia.
Qed.

Lemma block_in_put s c n m data : block_in s c n -> length data = block_bytes s -> block_in s (put_block s c n data) m <-> block_in s c m.
Proof. intros [_ H] E. apply block_in_splice. lia. Qed.

Lemma disk_ok_put s c n data : disk_ok c -> block_in s c n -> length data = block_bytes s -> Forall is_byte data -> disk_ok (put_block s c n data).
Proof. intros Hc [_ H] E Hd. apply disk_ok_splice; [done|done|lia]. Qed.

(** * Reading and writing *)

Section Flat.
Context {PS : PackedStruct} {PSok : PackedStructOk PS} (ok : nat -> nat -> bool) (Hok : serves_sectors ok).
#[local] Instance flat : DeviceFile (list Z) := flat_device ok.

Lemma flat_read (a n : nat) c s x r : (a < length c)%nat -> (a + n <= length c)%nat -> (a mod 512 + n <= 512 \/ a mod 512 = 0)%nat ->
  fs_read (Z.of_nat a) (Z.of_nat n) (MkExt2 c s x r) = Ret (MkExt2 c s x r, Some (take n (drop a c))).
Proof.
  intros H1 H2 H3. unfold fs_read. simpl. rewrite (proj2 (flat_range_spec ok c (Z.of_nat a) (Z.of_nat n))).
  - by rewrite !Nat2Z.id.
  - rewrite !Nat2Z.id. pose proof (Hok _ _ H3). split_and!; (lia || done).
Qed.

Lemma same_bytes_refl data : same_bytes data data = true.
Proof. induction data as [|b data IH]; [done|]. simpl. by rewrite Z.eqb_refl. Qed.

Lemma flat_write (a : nat) data c s x : (a < length c)%nat -> (a + length data <= length c)%nat -> Forall is_byte data ->
  (a mod 512 + length data <= 512 \/ a mod 512 = 0)%nat ->
  fs_write (Z.of_nat a) data (MkExt2 c s x false) = Ret (MkExt2 (splice c a data) s x false, Some (Z.of_nat (length data))).
Proof.
  intros H1 H2 H3 H4. unfold fs_write, so_bind, geometry. cbn [obind read_only backing_device sb extended_sb].
  unfold dev_write, flat, flat_device. rewrite (proj2 (forallb_byte data) H3), (proj2 (flat_range_spec ok c (Z.of_nat a) (Z.of_nat (length data)))).
  2:{ rewrite !Nat2Z.id. pose proof (Hok _ _ H4). split_and!; (lia || done). }
  cbn [andb obind]. rewrite Nat2Z.id. unfold sanity_check_write, so_bind.
  rewrite flat_read by (rewrite ?length_splice; done). cbn [obind]. by rewrite splice_read, same_bytes_refl.
Qed.

Lemma flat_write_read_only a data c s x : fs_write a data (MkExt2 c s x true) = Ret (MkExt2 c s x true, None).
Proof. done. Qed.

Lemma block_bytes_mul s : block_size_ok s -> exists k, block_bytes s = (512 * k)%nat /\ (2 <= k)%nat.
Proof.
  intros H. exists (Z.to_nat (2 ^ (block_size_log2_minus_10 s + 1))). unfold block_bytes.
  replace (block_size_log2_minus_10 s + 10) with (9 + (block_size_log2_minus_10 s + 1)) by lia.
  rewrite Z.pow_add_r by (unfold block_size_ok in H; lia). split; [rewrite Z2Nat.inj_mul by lia; done|].
  assert (2 ^ 1 <= 2 ^ (block_size_log2_minus_10 s + 1)) by (apply Z.pow_le_mono_r; unfold block_size_ok in H; lia). lia.
Qed.

Lemma block_size_of {W} (fs : Ext2FS W) : block_size_ok (sb fs) -> get_block_size fs = Ret (Z.of_nat (block_bytes (sb fs))).
Proof.
  intros H. unfold get_block_size, block_size_ok in *. rewrite add_chk_ok by lia. cbn [obind].
  rewrite (proj2 (Z.ltb_lt _ _)) by lia. unfold block_bytes. by rewrite Z2Nat.id by (apply Z.pow_nonneg; lia).
Qed.

Lemma block_addr_aligned s n : block_size_ok s -> ((n * block_bytes s) mod 512 = 0)%nat.
Proof. intros (k & -> & _)%block_bytes_mul. replace (n * (512 * k))%nat with (n * k * 512)%nat by lia. apply Nat.Div0.mod_mul. Qed.

(** A range inside a sector is inside a block. *)
Lemma sector_in_block s pos n : block_size_ok s -> (pos mod 512 + n <= 512)%nat -> (pos mod block_bytes s + n <= block_bytes s)%nat.
Proof.
  intros (k & -> & Hk)%block_bytes_mul H. set (m := (pos mod (512 * k))%nat). assert (m < 512 * k)%nat by (apply Nat.mod_upper_bound; lia).
  assert (m mod 512 = pos mod 512)%nat as E.
  { pose proof (Nat.div_mod_eq pos (512 * k)) as Ep. fold m in Ep. rewrite Ep at 1.
    replace (512 * k * (pos / (512 * k)) + m)%nat with (m + k * (pos / (512 * k)) * 512)%nat by lia. by rewrite Nat.Div0.mod_add. }
  pose proof (Nat.div_mod_eq m 512). assert (m / 512 < k)%nat by (apply Nat.Div0.div_lt_upper_bound; lia). lia.
Qed.

Lemma flat_read_zero c s x r : read_block 0 (MkExt2 c s x r) = Ret (MkExt2 c s x r, None).
Proof. done. Qed.

Lemma flat_read_block n c s x r : block_size_ok s -> disk_ok c -> block_in s c n ->
  read_block n (MkExt2 c s x r) = Ret (MkExt2 c s x r, Some (block_at s c n)).
Proof.
  intros Hs [_ Hl] [Hn Hi]. unfold read_block, so_bind, geometry, so_lift. rewrite (proj2 (Z.eqb_neq _ _)) by lia.
  rewrite block_size_of by done. cbn [obind sb]. destruct (block_bytes_mul s Hs) as (k & Ek & Hk). rewrite mul_chk_ok by lia. cbn [obind].
  replace (Z.of_nat (block_bytes s) * n) with (Z.of_nat (Z.to_nat n * block_bytes s)) by lia.
  apply flat_read; [lia|lia|]. right. by apply block_addr_aligned.
Qed.

Lemma flat_write_block n data c s x : block_size_ok s -> disk_ok c -> block_in s c n -> length data = block_bytes s -> Forall is_byte data ->
  write_block n data (MkExt2 c s x false) = Ret (MkExt2 (put_block s c n data) s x false, Some ()).
Proof.
  intros Hs [_ Hl] [Hn Hi] Ed Hd. unfold write_block, so_bind, geometry, so_lift. rewrite block_size_of by done. cbn [obind sb].
  rewrite Ed, Z.eqb_refl. cbn [rassert obind]. rewrite (proj2 (Z.eqb_neq _ _)) by lia. destruct (block_bytes_mul s Hs) as (k & Ek & Hk).
  rewrite mul_chk_ok by lia. cbn [obind]. replace (Z.of_nat (block_bytes s) * n) with (Z.of_nat (Z.to_nat n * block_bytes s)) by lia.
  rewrite flat_write; [|lia|lia|done|right; by apply block_addr_aligned]. cbn [obind]. by rewrite Ed, Z.ltb_irrefl.
Qed.
End Flat.
