(* ===== verification/Ext2Tree.v ===== *)
(** The tree of block pointers of an inode read as a flat list: what
    [read_data_block_pointer] finds is the leaf at that position. *)
From S2P Require Import Prelude MachineInt PackedStruct Device Ext2 Ext2Inode Ext2Flat.
From stdpp Require Import list.
#[local] Open Scope Z_scope.

(** * Lists of lists of one length *)

Lemma lookup_concat_uniform {A} (ls : list (list A)) (m i : nat) : (0 < m)%nat -> Forall (fun l => length l = m) ls ->
  concat ls !! i = ls !! (i / m)%nat ≫= (fun l => l !! (i mod m)%nat).
Proof.
  intros Hm H. revert i. induction H as [|l ls Hl _ IH]; intros i; [by rewrite !lookup_nil|]. simpl.
  destruct (decide (i < m)%nat) as [Hi|Hi].
  - rewrite lookup_app_l, Nat.div_small, Nat.mod_small by lia. done.
  - rewrite lookup_app_r, IH, Hl by lia. assert (i = i - m + 1 * m)%nat as E by lia.
    assert (i / m = S ((i - m) / m))%nat as -> by (rewrite E at 1; rewrite Nat.div_add by lia; lia).
    assert (i mod m = (i - m) mod m)%nat as -> by (rewrite E at 1; apply Nat.Div0.mod_add). done.
Qed.

Lemma length_concat_uniform {A} (ls : list (list A)) (m : nat) : Forall (fun l => length l = m) ls -> length (concat ls) = (length ls * m)%nat.
Proof. induction 1 as [|l ls Hl _ IH]; [done|]. simpl. rewrite length_app. lia. Qed.

(** * The specification *)

(** The pointers a block consists of. *)
Definition pointers (bytes : list Z) : list Z :=
  (fun i => from_le_bytes (take 4 (drop (4 * i) bytes))) <$> seq 0 (length bytes / 4).

(** Pointers in a block. *)
Definition ppb (s : Ext2SuperBlock) : nat := (block_bytes s / 4)%nat.

(** The data blocks below a pointer, from left to right: none below an inner pointer
    that is 0, and as many positions as the block it is missing would have. *)
Fixpoint leaves (s : Ext2SuperBlock) (c : list Z) (level : nat) (p : Z) : list (option Z) :=
  match level with
  | O => [Some p]
  | S k => if p =? 0 then replicate (ppb s ^ S k) None else concat (leaves s c k <$> pointers (block_at s c p))
  end.

Definition inode_leaves (s : Ext2SuperBlock) (c : list Z) (i : Ext2RawInode) : list (option Z) :=
  (Some <$> direct_block_pointers i) ++ leaves s c 1 (singly_indirect_block_pointer i) ++
  leaves s c 2 (doubly_indirect_block_pointer i) ++ leaves s c 3 (triply_indirect_block_pointer i).

(** The blocks that hold the pointers are on the device. *)
Fixpoint tree_okb (s : Ext2SuperBlock) (c : list Z) (level : nat) (p : Z) : bool :=
  match level with
  | O => true
  | S k => if p =? 0 then true else bool_decide (block_in s c p) && forallb (tree_okb s c k) (pointers (block_at s c p))
  end.
Definition inode_tree_okb (s : Ext2SuperBlock) (c : list Z) (i : Ext2RawInode) : bool :=
  (length (direct_block_pointers i) =? 12)%nat && tree_okb s c 1 (singly_indirect_block_pointer i) &&
  tree_okb s c 2 (doubly_indirect_block_pointer i) && tree_okb s c 3 (triply_indirect_block_pointer i).

Lemma length_pointers bytes : length (pointers bytes) = (length bytes / 4)%nat.
Proof. unfold pointers. by rewrite length_fmap, length_seq. Qed.

Lemma lookup_pointers bytes i : (i < length bytes / 4)%nat -> pointers bytes !! i = Some (from_le_bytes (take 4 (drop (4 * i) bytes))).
Proof. intros H. unfold pointers. rewrite list_lookup_fmap, lookup_seq_lt by done. done. Qed.

Lemma ppb_bytes s : block_size_ok s -> block_bytes s = (4 * ppb s)%nat /\ (0 < ppb s)%nat.
Proof.
  intros (k & E & Hk)%block_bytes_mul. unfold ppb. rewrite E. replace (512 * k)%nat with (128 * k * 4)%nat by lia.
  rewrite Nat.div_mul by lia. lia.
Qed.

Lemma tree_okb_S s c k p : tree_okb s c (S k) p = true -> p <> 0 ->
  block_in s c p /\ forall i q, pointers (block_at s c p) !! i = Some q -> tree_okb s c k q = true.
Proof.
  simpl. intros H Hp. rewrite (proj2 (Z.eqb_neq _ _)) in H by done. apply andb_true_iff in H as [H1%bool_decide_eq_true H2].
  split; [done|]. intros i q Hq%list_elem_of_lookup_2. rewrite forallb_forall in H2. apply H2. by apply list_elem_of_In.
Qed.

Lemma length_leaves s c level p : block_size_ok s -> tree_okb s c level p = true -> length (leaves s c level p) = (ppb s ^ level)%nat.
Proof.
  intros Hs. revert p. induction level as [|k IH]; intros p H; [done|]. cbn [leaves]. destruct (Z.eqb_spec p 0) as [->|Hp]; [by rewrite length_replicate|].
  destruct (tree_okb_S _ _ _ _ H Hp) as [Hb Hq]. rewrite (length_concat_uniform _ (ppb s ^ k)).
  - rewrite length_fmap, length_pointers, length_block_at by done. by rewrite Nat.pow_succ_r'.
  - apply Forall_lookup. intros i l Hl. rewrite list_lookup_fmap in Hl. apply fmap_Some in Hl as (q & E & ->). eauto.
Qed.

Lemma leaves_step s c k p i : block_size_ok s -> tree_okb s c (S k) p = true -> p <> 0 ->
  leaves s c (S k) p !! i = pointers (block_at s c p) !! (i / ppb s ^ k)%nat ≫= (fun q => leaves s c k q !! (i mod ppb s ^ k)%nat).
Proof.
  intros Hs H Hp. destruct (tree_okb_S _ _ _ _ H Hp) as [Hb Hq]. cbn [leaves]. rewrite (proj2 (Z.eqb_neq _ _)) by done.
  rewrite (lookup_concat_uniform _ (ppb s ^ k)).
  - rewrite list_lookup_fmap. by destruct (pointers _ !! _).
  - destruct (ppb_bytes s Hs) as [_ ?]. apply Nat.neq_0_lt_0, Nat.pow_nonzero. lia.
  - apply Forall_lookup. intros j l Hl. rewrite list_lookup_fmap in Hl. apply fmap_Some in Hl as (q & E & ->). apply length_leaves; eauto.
Qed.

(** * What is found *)

(** A position that is missing, or past the end, has no block. *)
Definition leaf_at (ls : list (option Z)) (i : nat) : option Z := ls !! i ≫= id.

Section Tree.
Context {PS : PackedStruct} {PSok : PackedStructOk PS} (ok : nat -> nat -> bool) (Hok : serves_sectors ok).
#[local] Instance flat_tree : DeviceFile (list Z) := flat_device ok.
Context (c : list Z) (s : Ext2SuperBlock) (x : option Ext2ExtendedSuperblock) (r : bool) (Hs : block_size_ok s) (Hc : disk_ok c).
Let fs := MkExt2 c s x r.

Lemma so_bind_ret_r {S A} (m : SO S A) st : so_bind m so_ret st = m st.
Proof. unfold so_bind. by destruct (m st) as [[? []]|]. Qed.

Lemma flat_follow p i : block_in s c p -> (i < ppb s)%nat -> follow p (Z.of_nat i) fs = Ret (fs, pointers (block_at s c p) !! i).
Proof.
  intros Hb Hi. pose proof (length_block_at _ _ _ Hb) as El. destruct (ppb_bytes s Hs) as [E4 _].
  unfold follow, so_bind, fs. rewrite (flat_read_block ok Hok) by done. cbn [obind].
  unfold read_pointer_from_block, read_value_from_u32_array_as_le_bytes, so_lift.
  replace (Z.to_nat (Z.of_nat i * 4)) with (4 * i)%nat by lia. rewrite (proj2 (Nat.leb_le _ _)) by lia. cbn [obind].
  by rewrite lookup_pointers by (rewrite El; exact Hi).
Qed.

(** One level down. *)
Lemma follow_leaf k p i (m : Z -> SO _ Z) : tree_okb s c (S k) p = true -> (i < ppb s ^ S k)%nat ->
  (forall q, tree_okb s c k q = true -> m q fs = Ret (fs, leaf_at (leaves s c k q) (i mod ppb s ^ k))) ->
  so_bind (follow p (Z.of_nat (i / ppb s ^ k))) m fs = Ret (fs, leaf_at (leaves s c (S k) p) i).
Proof.
  intros H Hi Hm. destruct (ppb_bytes s Hs) as [_ Hpos]. rewrite Nat.pow_succ_r' in Hi.
  assert (i / ppb s ^ k < ppb s)%nat as Hd by (apply Nat.Div0.div_lt_upper_bound; lia).
  unfold leaf_at. destruct (decide (p = 0)) as [->|Hp].
  - cbn [leaves]. rewrite Z.eqb_refl, lookup_replicate_2 by (rewrite Nat.pow_succ_r'; lia). done.
  - destruct (tree_okb_S _ _ _ _ H Hp) as [Hb Hq]. unfold so_bind. rewrite flat_follow, leaves_step by done. cbn [obind].
    destruct (pointers _ !! _) as [q|] eqn:E; [|done]. cbn [mbind option_bind]. rewrite Hm by eauto. done.
Qed.

Lemma leaf_at_0 q (m : Z -> SO _ Z) (i : nat) : m = so_ret -> m q fs = Ret (fs, leaf_at (leaves s c 0 q) (i mod ppb s ^ 0)).
Proof. intros ->. cbn [Nat.pow]. by rewrite Nat.mod_1_r. Qed.

Lemma leaf_single p i : tree_okb s c 1 p = true -> (i < ppb s)%nat -> follow p (Z.of_nat i) fs = Ret (fs, leaf_at (leaves s c 1 p) i).
Proof.
  intros H Hi. rewrite <- so_bind_ret_r. replace (Z.of_nat i) with (Z.of_nat (i / ppb s ^ 0)) by (cbn [Nat.pow]; by rewrite Nat.div_1_r).
  apply follow_leaf; [done|rewrite Nat.pow_1_r; done|]. intros q _. by apply leaf_at_0.
Qed.

Lemma leaf_double p i : tree_okb s c 2 p = true -> (i < ppb s * ppb s)%nat ->
  so_bind (follow p (Z.of_nat (i / ppb s))) (fun q => follow q (Z.of_nat (i mod ppb s))) fs = Ret (fs, leaf_at (leaves s c 2 p) i).
Proof.
  intros H Hi. destruct (ppb_bytes s Hs) as [_ Hpos]. pose proof (follow_leaf 1 p i (fun q => follow q (Z.of_nat (i mod ppb s)))) as F.
  rewrite Nat.pow_1_r in F. apply F; [done|by rewrite Nat.pow_2_r|]. intros q Hq. apply leaf_single; [done|]. apply Nat.mod_upper_bound. lia.
Qed.

Lemma leaf_triple p i : tree_okb s c 3 p = true -> (i < ppb s * ppb s * ppb s)%nat ->
  so_bind (follow p (Z.of_nat (i / (ppb s * ppb s)))) (fun q =>
    so_bind (follow q (Z.of_nat (i mod (ppb s * ppb s) / ppb s))) (fun q => follow q (Z.of_nat ((i mod (ppb s * ppb s)) mod ppb s)))) fs
  = Ret (fs, leaf_at (leaves s c 3 p) i).
Proof.
  intros H Hi. destruct (ppb_bytes s Hs) as [_ Hpos].
  match goal with |- so_bind _ ?m _ = _ => pose proof (follow_leaf 2 p i m) as F end.
  rewrite Nat.pow_2_r in F. apply F; [done|cbn [Nat.pow]; lia|]. intros q Hq. apply leaf_double; [done|].
  apply Nat.mod_upper_bound. nia.
Qed.

Lemma flat_pointers_per_block : pointers_per_block fs = Ret (fs, Some (Z.of_nat (ppb s))).
Proof.
  unfold pointers_per_block, so_bind, geometry. rewrite block_size_of by done. cbn [obind sb]. unfold so_ret, ppb.
  by rewrite Nat2Z.inj_div.
Qed.

(** The arithmetic on the number of a data block walks down the tree to the leaf at that
    position. *)
Lemma pointer_is_leaf i n : inode_tree_okb s c i = true ->
  read_data_block_pointer i (Z.of_nat n) fs = Ret (fs, leaf_at (inode_leaves s c i) n).
Proof.
  intros H. unfold inode_tree_okb in H. apply andb_true_iff in H as [[[Hd%Nat.eqb_eq H1]%andb_true_iff H2]%andb_true_iff H3].
  destruct (ppb_bytes s Hs) as [_ Hpos]. unfold read_data_block_pointer, inode_leaves, leaf_at.
  destruct (Z.leb_spec (Z.of_nat n) 11) as [Hn|Hn].
  { destruct (lookup_lt_is_Some_2 (direct_block_pointers i) n) as [p Hp]; [lia|].
    rewrite lookup_app_l by (rewrite length_fmap; lia). rewrite list_lookup_fmap, Nat2Z.id, Hp. done. }
  rewrite lookup_app_r by (rewrite length_fmap; lia). rewrite length_fmap, Hd.
  unfold so_bind at 1. rewrite flat_pointers_per_block. cbn [obind]. replace (Z.of_nat n - 12) with (Z.of_nat (n - 12)) by lia.
  generalize (n - 12)%nat. clear n Hn. intros n. pose proof (length_leaves _ _ _ _ Hs H1) as L1. rewrite Nat.pow_1_r in L1.
  destruct (Z.ltb_spec (Z.of_nat n) (Z.of_nat (ppb s))) as [Hn|Hn].
  { rewrite lookup_app_l by lia. apply leaf_single; [done|lia]. }
  rewrite lookup_app_r by lia. rewrite L1. replace (Z.of_nat n - Z.of_nat (ppb s)) with (Z.of_nat (n - ppb s)) by lia.
  generalize (n - ppb s)%nat. clear n Hn. intros n. pose proof (length_leaves _ _ _ _ Hs H2) as L2. rewrite Nat.pow_2_r in L2.
  rewrite <- !Nat2Z.inj_mul. destruct (Z.ltb_spec (Z.of_nat n) (Z.of_nat (ppb s * ppb s))) as [Hn|Hn].
  { rewrite lookup_app_l by lia. rewrite <- Nat2Z.inj_div, <- Nat2Z.inj_mod. apply leaf_double; [done|lia]. }
  rewrite lookup_app_r by lia. rewrite L2. replace (Z.of_nat n - Z.of_nat (ppb s * ppb s)) with (Z.of_nat (n - ppb s * ppb s)) by lia.
  generalize (n - ppb s * ppb s)%nat. clear n Hn. intros n. pose proof (length_leaves _ _ _ _ Hs H3) as L3. cbn [Nat.pow] in L3.
  destruct (Z.ltb_spec (Z.of_nat n) (Z.of_nat (ppb s * ppb s * ppb s))) as [Hn|Hn].
  { rewrite <- Nat2Z.inj_mod, <- !Nat2Z.inj_div, <- Nat2Z.inj_mod. apply leaf_triple; [done|lia]. }
  rewrite lookup_ge_None_2 by lia. done.
Qed.
End Tree.
