(* ===== verification/Ext2Bytes.v ===== *)
(** Reading and writing the bytes of a file: exactly which bytes [read_bytes] delivers
    and where [write_bytes] puts them. *)
From S2P Require Import Prelude MachineInt PackedStruct Device Ext2 Ext2Inode Ext2Flat Ext2Tree.
From stdpp Require Import list sets.
#[local] Open Scope Z_scope.

(** * Sequences of blocks of one length *)

Lemma drop_concat_uniform {A} (ls : list (list A)) (m k : nat) : Forall (fun l => length l = m) ls -> drop (k * m) (concat ls) = concat (drop k ls).
Proof.
  intros H. revert k. induction H as [|l ls Hl _ IH]; intros [|k]; simpl; rewrite ?drop_nil; try done.
  rewrite drop_app_ge by lia. rewrite <- IH. f_equal. lia.
Qed.

Lemma take_concat_uniform {A} (ls : list (list A)) (m k : nat) : Forall (fun l => length l = m) ls -> take (k * m) (concat ls) = concat (take k ls).
Proof.
  intros H. revert k. induction H as [|l ls Hl _ IH]; intros [|k]; simpl; rewrite ?take_nil; try done.
  rewrite take_app_ge by lia. rewrite <- IH. do 2 f_equal. lia.
Qed.

(** One of the blocks replaced. *)
Lemma concat_insert_splice (ls : list (list Z)) (m k : nat) v : Forall (fun l => length l = m) ls -> (k < length ls)%nat -> length v = m ->
  concat (<[k := v]> ls) = splice (concat ls) (k * m) v.
Proof.
  intros H Hk Hv. unfold splice. rewrite (take_concat_uniform _ m) by done. replace (k * m + length v)%nat with (S k * m)%nat by lia.
  rewrite (drop_concat_uniform _ m) by done. rewrite insert_take_drop, concat_app by done. done.
Qed.

(** A range replaced by a change inside it. *)
Lemma splice_sub c (a n ind : nat) d : (ind + length d <= n)%nat -> (a + n <= length c)%nat ->
  splice c a (splice (take n (drop a c)) ind d) = splice c (a + ind) d.
Proof.
  intros H1 H2. assert (length (take n (drop a c)) = n) as E by (rewrite length_take, length_drop; lia).
  unfold splice at 1. rewrite length_splice by lia. rewrite E. unfold splice.
  rewrite take_take, Nat.min_l by lia. rewrite <- !app_assoc, app_assoc. rewrite <- take_take_drop. do 2 f_equal.
  rewrite skipn_firstn_comm, drop_drop. rewrite <- (take_drop (n - (ind + length d)) (drop (a + ind + length d) c)). rewrite drop_drop.
  f_equal; [do 2 f_equal; lia|f_equal; lia].
Qed.

Lemma elem_of_concat {A} (a : A) ls : a ∈ concat ls <-> exists l, l ∈ ls /\ a ∈ l.
Proof. rewrite list_elem_of_In, in_concat. by setoid_rewrite list_elem_of_In. Qed.

(** * Files *)

(** The data blocks of a file. *)
Definition blocks_for (s : Ext2SuperBlock) (n : nat) : nat := (n / block_bytes s + (if n mod block_bytes s =? 0 then 0 else 1))%nat.

(** The blocks that hold the pointers of an inode. *)
Fixpoint inner_blocks (s : Ext2SuperBlock) (c : list Z) (level : nat) (p : Z) : list Z :=
  match level with
  | O => []
  | S k => if p =? 0 then [] else p :: concat (inner_blocks s c k <$> pointers (block_at s c p))
  end.
Definition inode_inner (s : Ext2SuperBlock) (c : list Z) (i : Ext2RawInode) : list Z :=
  inner_blocks s c 1 (singly_indirect_block_pointer i) ++ inner_blocks s c 2 (doubly_indirect_block_pointer i) ++
  inner_blocks s c 3 (triply_indirect_block_pointer i).

(** [bl] are the data blocks of the file, distinct from each other and from the blocks
    of its tree. *)
Record file_ok (s : Ext2SuperBlock) (c : list Z) (i : Ext2RawInode) (bl : list Z) : Prop := MkFileOk {
  fo_tree : inode_tree_okb s c i = true;
  fo_size : 0 <= Ext2Inode.get_size i;
  fo_length : length bl = blocks_for s (Z.to_nat (Ext2Inode.get_size i));
  fo_leaves : forall k b, bl !! k = Some b -> leaf_at (inode_leaves s c i) k = Some b;
  fo_in : Forall (block_in s c) bl;
  fo_nodup : NoDup bl;
  fo_apart : forall b, b ∈ bl -> b ∉ inode_inner s c i;
}.

(** All bytes of the blocks, and those that belong to the file. *)
Definition block_data (s : Ext2SuperBlock) (c : list Z) (bl : list Z) : list Z := concat (block_at s c <$> bl).
Definition file_content (s : Ext2SuperBlock) (c : list Z) (i : Ext2RawInode) (bl : list Z) : list Z :=
  take (Z.to_nat (Ext2Inode.get_size i)) (block_data s c bl).

Lemma blocks_uniform s c bl : Forall (block_in s c) bl -> Forall (fun l => length l = block_bytes s) (block_at s c <$> bl).
Proof. intros H. apply Forall_fmap. eapply Forall_impl; [exact H|]. intros b. apply length_block_at. Qed.

Lemma length_block_data s c bl : Forall (block_in s c) bl -> length (block_data s c bl) = (length bl * block_bytes s)%nat.
Proof. intros H. unfold block_data. by rewrite (length_concat_uniform _ (block_bytes s)), length_fmap by by apply blocks_uniform. Qed.

Lemma blocks_for_bounds s n : block_size_ok s -> (n <= blocks_for s n * block_bytes s < n + block_bytes s)%nat.
Proof.
  intros (k & Ek & Hk)%block_bytes_mul. unfold blocks_for. pose proof (Nat.div_mod_eq n (block_bytes s)).
  pose proof (Nat.mod_upper_bound n (block_bytes s)). destruct (Nat.eqb_spec (n mod block_bytes s) 0); nia.
Qed.

(** * The tree when other blocks change *)

Lemma forallb_ext_Forall {A} (f g : A -> bool) l : Forall (fun a => f a = g a) l -> forallb f l = forallb g l.
Proof. induction 1 as [|a l E _ IH]; [done|]. simpl. by rewrite E, IH. Qed.

Lemma same_tree s c c' level p : (forall q, block_in s c' q <-> block_in s c q) ->
  (forall q, q ∈ inner_blocks s c level p -> block_at s c' q = block_at s c q) ->
  leaves s c' level p = leaves s c level p /\ tree_okb s c' level p = tree_okb s c level p /\ inner_blocks s c' level p = inner_blocks s c level p.
Proof.
  intros Hin. revert p. induction level as [|k IH]; intros p H; [done|]. cbn [leaves tree_okb inner_blocks] in *.
  destruct (Z.eqb_spec p 0) as [_|Hp]; [done|]. rewrite (H p) by constructor.
  assert (Forall (fun q => leaves s c' k q = leaves s c k q /\ tree_okb s c' k q = tree_okb s c k q /\ inner_blocks s c' k q = inner_blocks s c k q)
    (pointers (block_at s c p))) as Hall.
  { apply Forall_forall. intros q Eq. apply IH. intros b Hb. apply H. right. apply elem_of_concat.
    exists (inner_blocks s c k q). split; [|done]. by apply list_elem_of_fmap_2. }
  rewrite (bool_decide_ext (block_in s c' p) (block_in s c p)) by done.
  rewrite (Forall_fmap_ext_1 (leaves s c' k) (leaves s c k)), (forallb_ext_Forall (tree_okb s c' k) (tree_okb s c k)),
    (Forall_fmap_ext_1 (inner_blocks s c' k) (inner_blocks s c k)); [done|..]; (eapply Forall_impl; [exact Hall|]; simpl; tauto).
Qed.

Lemma same_inode_tree s c c' i : (forall q, block_in s c' q <-> block_in s c q) ->
  (forall q, q ∈ inode_inner s c i -> block_at s c' q = block_at s c q) ->
  inode_leaves s c' i = inode_leaves s c i /\ inode_tree_okb s c' i = inode_tree_okb s c i /\ inode_inner s c' i = inode_inner s c i.
Proof.
  intros Hin H. unfold inode_inner, inode_leaves, inode_tree_okb in *.
  destruct (same_tree s c c' 1 (singly_indirect_block_pointer i) Hin) as (-> & -> & ->); [set_solver|].
  destruct (same_tree s c c' 2 (doubly_indirect_block_pointer i) Hin) as (-> & -> & ->); [set_solver|].
  destruct (same_tree s c c' 3 (triply_indirect_block_pointer i) Hin) as (-> & -> & ->); [set_solver|]. done.
Qed.

Lemma inner_block_pos s c level p b : tree_okb s c level p = true -> b ∈ inner_blocks s c level p -> 0 < b.
Proof.
  revert p. induction level as [|k IH]; intros p H Hb; [by apply elem_of_nil in Hb|]. cbn [inner_blocks] in Hb.
  destruct (Z.eqb_spec p 0) as [_|Hp]; [by apply elem_of_nil in Hb|]. destruct (tree_okb_S _ _ _ _ H Hp) as [[? _] Hq].
  apply elem_of_cons in Hb as [->|Hb]; [done|]. apply elem_of_concat in Hb as (l & Hl & Hb). apply list_elem_of_fmap in Hl as (q & -> & [j Hj]%list_elem_of_lookup).
  by apply (IH q); eauto.
Qed.

Lemma inode_inner_pos s c i b : inode_tree_okb s c i = true -> b ∈ inode_inner s c i -> 0 < b.
Proof.
  intros H. unfold inode_tree_okb in H. apply andb_true_iff in H as [[[_ H1]%andb_true_iff H2]%andb_true_iff H3].
  unfold inode_inner. rewrite !elem_of_app. intros [H|[H|H]]; eapply inner_block_pos; [exact H1|exact H|exact H2|exact H|exact H3|exact H].
Qed.

(** A data block written: the file keeps its blocks, and its bytes change there. *)
Lemma file_ok_put s c i bl b data : file_ok s c i bl -> b ∈ bl -> length data = block_bytes s -> file_ok s (put_block s c b data) i bl.
Proof.
  intros F Hb Hd. pose proof (proj1 (Forall_forall _ _) (fo_in _ _ _ _ F) b Hb) as Hin.
  assert (forall q, block_in s (put_block s c b data) q <-> block_in s c q) as Hbi by (intros q; by apply block_in_put).
  destruct (same_inode_tree s c (put_block s c b data) i Hbi) as (E1 & E2 & E3).
  { intros q Hq. apply block_at_put_other; [done| | |done].
    - apply Z.lt_le_incl. eapply inode_inner_pos; [apply F|done].
    - intros ->. by apply (fo_apart _ _ _ _ F b). }
  destruct F. split; rewrite ?E1, ?E2, ?E3; try done. eapply Forall_impl; [done|]. intros q. apply Hbi.
Qed.

Lemma block_data_put s c bl k b data : Forall (block_in s c) bl -> NoDup bl -> bl !! k = Some b -> length data = block_bytes s ->
  block_data s (put_block s c b data) bl = splice (block_data s c bl) (k * block_bytes s) data.
Proof.
  intros Hin Hnd Hk Hd. pose proof (proj1 (Forall_lookup _ _) Hin _ _ Hk) as Hb. unfold block_data.
  rewrite <- concat_insert_splice; [|by apply blocks_uniform|rewrite length_fmap; by eapply lookup_lt_Some|done]. f_equal.
  apply list_eq. intros j. rewrite list_lookup_fmap. destruct (decide (j = k)) as [->|Hj].
  - rewrite list_lookup_insert_eq by (rewrite length_fmap; by eapply lookup_lt_Some). rewrite Hk. simpl. by rewrite block_at_put.
  - rewrite list_lookup_insert_ne, list_lookup_fmap by done. destruct (bl !! j) as [q|] eqn:Eq; [|done]. simpl. f_equal.
    pose proof (proj1 (Forall_lookup _ _) Hin _ _ Eq) as [? _]. apply block_at_put_other; [done|lia| |done].
    intros ->. apply Hj. by eapply NoDup_lookup.
Qed.

(** * Reading and writing *)

Section Bytes.
Context {PS : PackedStruct} {PSok : PackedStructOk PS} (ok : nat -> nat -> bool) (Hok : serves_sectors ok).
#[local] Instance flat_bytes : DeviceFile (list Z) := flat_device ok.
Context (s : Ext2SuperBlock) (x : option Ext2ExtendedSuperblock) (i : Ext2RawInode) (bl : list Z) (Hs : block_size_ok s).

Lemma blocks_for_Z n : Z.of_nat n / Z.of_nat (block_bytes s) + Ext2Inode.extra_block (Z.of_nat n) (Z.of_nat (block_bytes s)) = Z.of_nat (blocks_for s n).
Proof.
  unfold Ext2Inode.extra_block, blocks_for. rewrite <- Nat2Z.inj_mod, <- Nat2Z.inj_div.
  destruct (Nat.eqb_spec (n mod block_bytes s) 0), (Z.eqb_spec (Z.of_nat (n mod block_bytes s)) 0); lia.
Qed.

Lemma flat_read_data_block c r k b : disk_ok c -> file_ok s c i bl -> bl !! k = Some b ->
  read_data_block i (Z.of_nat k) (MkExt2 c s x r) = Ret (MkExt2 c s x r, Some (block_at s c b)).
Proof.
  intros Hc F Hk. unfold read_data_block, so_bind. rewrite (pointer_is_leaf ok Hok) by (done || apply F). cbn [obind].
  rewrite (fo_leaves _ _ _ _ F k b Hk). apply flat_read_block; try done. exact (proj1 (Forall_lookup _ _) (fo_in _ _ _ _ F) _ _ Hk).
Qed.

Lemma flat_write_data_block c k b data : disk_ok c -> file_ok s c i bl -> bl !! k = Some b -> length data = block_bytes s -> Forall is_byte data ->
  write_data_block i (Z.of_nat k) data (MkExt2 c s x false) = Ret (MkExt2 (put_block s c b data) s x false, Some ()).
Proof.
  intros Hc F Hk El Hd. unfold write_data_block, so_bind. rewrite (pointer_is_leaf ok Hok) by (done || apply F). cbn [obind].
  rewrite (fo_leaves _ _ _ _ F k b Hk). apply flat_write_block; try done. exact (proj1 (Forall_lookup _ _) (fo_in _ _ _ _ F) _ _ Hk).
Qed.

Lemma flat_read_blocks c r n k res : disk_ok c -> file_ok s c i bl -> (k + n <= length bl)%nat ->
  read_blocks i (Z.of_nat k) res n (MkExt2 c s x r) = Ret (MkExt2 c s x r, Some (res ++ block_data s c (take n (drop k bl)))).
Proof.
  intros Hc F. revert k res. induction n as [|n IH]; intros k res Hk; cbn [read_blocks]; [by rewrite take_0, app_nil_r|].
  destruct (lookup_lt_is_Some_2 bl k) as [b Hb]; [lia|]. unfold so_bind. rewrite (flat_read_data_block c r k b) by done. cbn [obind].
  replace (Z.of_nat k + 1) with (Z.of_nat (S k)) by lia. rewrite IH by lia. rewrite (drop_S bl b k Hb). cbn [take].
  unfold block_data. cbn [fmap list_fmap concat]. by rewrite app_assoc.
Qed.

Lemma block_data_slice c k n : Forall (block_in s c) bl ->
  block_data s c (take n (drop k bl)) = take (n * block_bytes s) (drop (k * block_bytes s) (block_data s c bl)).
Proof.
  intros Hin. unfold block_data. rewrite fmap_take, fmap_drop.
  rewrite (drop_concat_uniform _ (block_bytes s)), (take_concat_uniform _ (block_bytes s)); [done| |by apply blocks_uniform].
  apply Forall_drop. by apply blocks_uniform.
Qed.

(** The blocks a range of a file is read from or written to. *)
Lemma blocks_inside c off len : file_ok s c i bl -> (off < Z.to_nat (Ext2Inode.get_size i))%nat -> (off + len <= Z.to_nat (Ext2Inode.get_size i))%nat ->
  (off / block_bytes s + Nat.max 1 (blocks_for s len) <= length bl)%nat.
Proof.
  intros F H1 H2. rewrite (fo_length _ _ _ _ F). destruct (block_bytes_mul s Hs) as (m & Em & Hm).
  pose proof (blocks_for_bounds s (Z.to_nat (Ext2Inode.get_size i)) Hs). pose proof (blocks_for_bounds s len Hs).
  pose proof (Nat.div_mod_eq off (block_bytes s)). pose proof (Nat.mod_upper_bound off (block_bytes s)).
  destruct (Nat.max_spec 1 (blocks_for s len)) as [[? ->]|[? ->]]; nia.
Qed.

(** What is read: blocks for the length are read, not for the range. *)
Lemma flat_read_bytes c r off len : disk_ok c -> file_ok s c i bl -> (off < Z.to_nat (Ext2Inode.get_size i))%nat ->
  (off + len <= Z.to_nat (Ext2Inode.get_size i))%nat -> Ext2Inode.get_size i < 2 ^ 64 ->
  read_bytes i (Z.of_nat off) (Z.of_nat len) (MkExt2 c s x r) = Ret (MkExt2 c s x r,
    Some (take (Nat.min len (Nat.max 1 (blocks_for s len) * block_bytes s - off mod block_bytes s)) (drop off (file_content s c i bl)))).
Proof.
  intros Hc F H1 H2 H64. pose proof (blocks_inside c off len F H1 H2) as Hb. destruct (block_bytes_mul s Hs) as (m & Em & Hm).
  unfold read_bytes, so_bind, so_lift, geometry. rewrite add_chk_ok by lia. cbn [obind].
  destruct (Z.gtb_spec (Z.of_nat off + Z.of_nat len) (Ext2Inode.get_size i)); [lia|]. rewrite block_size_of by done. cbn [obind sb].
  rewrite blocks_for_Z, <- Nat2Z.inj_mod, <- Nat2Z.inj_div. set (k := (off / block_bytes s)%nat) in *. set (o := (off mod block_bytes s)%nat).
  pose proof (Nat.div_mod_eq off (block_bytes s)) as Eo. fold k o in Eo. assert (o < block_bytes s)%nat as Ho by (apply Nat.mod_upper_bound; lia).
  destruct (lookup_lt_is_Some_2 bl k) as [b Hk]; [lia|]. pose proof (proj1 (Forall_lookup _ _) (fo_in _ _ _ _ F) _ _ Hk) as Hbin.
  rewrite (flat_read_data_block c r k b) by done. cbn [obind]. rewrite length_block_at, (proj2 (Z.leb_le _ _)) by (done || lia). cbn [rassert obind].
  replace (Z.of_nat k + 1) with (Z.of_nat (S k)) by lia. rewrite flat_read_blocks by (done || lia). cbn [obind so_ret]. unfold so_ret. do 3 f_equal.
  rewrite !Nat2Z.id. replace (Z.to_nat (Z.of_nat (blocks_for s len) - 1)) with (blocks_for s len - 1)%nat by lia.
  rewrite <- drop_app_le by (rewrite length_block_at by done; lia).
  assert (block_at s c b ++ block_data s c (take (blocks_for s len - 1) (drop (S k) bl)) = block_data s c (take (Nat.max 1 (blocks_for s len)) (drop k bl))) as ->.
  { rewrite (drop_S bl b k Hk). replace (Nat.max 1 (blocks_for s len)) with (S (blocks_for s len - 1)) by lia. done. }
  rewrite block_data_slice by apply F. unfold file_content. rewrite !skipn_firstn_comm, drop_drop, !take_take.
  replace (k * block_bytes s + o)%nat with off by lia. f_equal. lia.
Qed.

Lemma fill_block_spec v iter : fill_block v iter =
  (take (length v) iter ++ drop (length iter) v, drop (length v) iter, Z.of_nat (Nat.min (length v) (length iter))).
Proof.
  revert iter. induction v as [|a v IH]; intros iter; [by destruct iter|]. destruct iter as [|b iter]; [done|].
  cbn [fill_block]. rewrite IH. cbn [length take drop app]. do 2 f_equal. lia.
Qed.

(** One block of a write: the bytes from [ind] on replaced as far as the data goes. *)
Lemma filled_block v ind iter : (ind <= length v)%nat ->
  take ind v ++ take (length v - ind) iter ++ drop (length iter) (drop ind v) = splice v ind (take (length v - ind) iter).
Proof.
  intros H. unfold splice. rewrite drop_drop, length_take. do 2 f_equal.
  destruct (Nat.le_ge_cases (length iter) (length v - ind)) as [?|?]; [by rewrite Nat.min_r|].
  rewrite Nat.min_l by done. rewrite !drop_ge by lia. done.
Qed.

(** The state of a write after some blocks: [c'] differs from [c] in the data blocks
    only, where [data] stands from [at_] on. *)
Definition wrote (c c' : list Z) (at_ : nat) (data : list Z) : Prop :=
  disk_ok c' /\ file_ok s c' i bl /\ length c' = length c /\
  block_data s c' bl = splice (block_data s c bl) at_ data /\
  forall q, 0 <= q -> q ∉ bl -> block_at s c' q = block_at s c q.

(** One round of the loop. *)
Lemma wrote_block c k b ind iter v : disk_ok c -> file_ok s c i bl -> bl !! k = Some b -> Forall is_byte iter -> (ind < block_bytes s)%nat ->
  v = block_at s c b \/ (ind = 0%nat /\ v = replicate (block_bytes s) 0 /\ (block_bytes s <= length iter)%nat) ->
  wrote c (put_block s c b (splice v ind (take (block_bytes s - ind) iter))) (k * block_bytes s + ind) (take (block_bytes s - ind) iter) /\
  length v = block_bytes s /\ Forall is_byte (splice v ind (take (block_bytes s - ind) iter)).
Proof.
  intros Hc F Hk Hi Hind Hv. pose proof (proj1 (Forall_lookup _ _) (fo_in _ _ _ _ F) _ _ Hk) as Hb.
  assert (length v = block_bytes s) as Lv by (destruct Hv as [->|(_ & -> & _)]; [by apply length_block_at|apply length_replicate]).
  assert (Forall is_byte v) as Bv. { destruct Hv as [->|(_ & -> & _)]; [apply block_at_is_byte, Hc|by apply Forall_replicate]. }
  set (d := take (block_bytes s - ind) iter). assert (length d <= block_bytes s - ind)%nat as Ld by (unfold d; rewrite length_take; lia).
  assert (length (splice v ind d) = block_bytes s) as Ls by (rewrite length_splice; lia).
  assert (Forall is_byte (splice v ind d)) as Bs by (apply splice_is_byte; [done|by apply Forall_take]).
  split; [|done]. pose proof (lookup_lt_Some _ _ _ Hk) as Lk. split_and!.
  - by apply disk_ok_put.
  - apply file_ok_put; [done|by eapply list_elem_of_lookup_2|done].
  - destruct Hb as [_ Hb]. unfold put_block. rewrite length_splice; lia.
  - rewrite (block_data_put s c bl k b) by (done || apply F). pose proof (length_block_data s c bl (fo_in _ _ _ _ F)) as LX.
    destruct Hv as [->|(-> & -> & Hl)].
    + assert (block_at s c b = take (block_bytes s) (drop (k * block_bytes s) (block_data s c bl))) as ->.
      { pose proof (block_data_slice c k 1 (fo_in _ _ _ _ F)) as E. rewrite (drop_S bl b k Hk), Nat.mul_1_l in E. cbn [take] in E.
        rewrite take_0 in E. unfold block_data at 1 in E. cbn [fmap list_fmap concat] in E. by rewrite app_nil_r in E. }
      apply splice_sub; [lia|]. rewrite LX. nia.
    + assert (length d = block_bytes s) as Ed by (unfold d; rewrite length_take; lia). rewrite Nat.add_0_r. f_equal.
      unfold splice. rewrite take_0, Ed, Nat.add_0_l, drop_ge by (rewrite length_replicate; lia). apply app_nil_r.
  - intros q Hq Hne. apply block_at_put_other; [done|done| |done]. intros ->. apply Hne. by eapply list_elem_of_lookup_2.
Qed.

Lemma wrote_trans c c1 c2 at_ d1 d2 : (at_ + length d1 + length d2 <= length (block_data s c bl))%nat ->
  wrote c c1 at_ d1 -> wrote c1 c2 (at_ + length d1) d2 -> wrote c c2 at_ (d1 ++ d2).
Proof.
  intros Hl (_ & _ & L1 & D1 & O1) (Hc & F & L2 & D2 & O2). split_and!; [done|done|congruence| |].
  - by rewrite D2, D1, splice_app.
  - intros q Hq Hn. by rewrite O2, O1.
Qed.

(** The block the loop fills is the one on disk, or is overwritten completely. *)
Lemma round_block c len o k j ind (iter : list Z) b :
  disk_ok c -> file_ok s c i bl -> bl !! (k + j)%nat = Some b -> (j < blocks_for s len)%nat ->
  ind = (if (j =? 0)%nat then o else 0%nat) -> (length iter + j * block_bytes s + ind = len + o)%nat ->
  exists v,
    (if ((Z.of_nat j =? Z.of_nat len / Z.of_nat (block_bytes s) + Ext2Inode.extra_block (Z.of_nat len) (Z.of_nat (block_bytes s)) - 1)
         && (Ext2Inode.extra_block (Z.of_nat len) (Z.of_nat (block_bytes s)) =? 1)) || ((Z.of_nat j =? 0) && negb (Z.of_nat o =? 0))
     then read_data_block i (Z.of_nat k + Z.of_nat j) else so_ret (replicate (Z.to_nat (Z.of_nat (block_bytes s))) 0)) (MkExt2 c s x false)
    = Ret (MkExt2 c s x false, Some v) /\
    (v = block_at s c b \/ (ind = 0%nat /\ v = replicate (block_bytes s) 0 /\ (block_bytes s <= length iter)%nat)).
Proof.
  intros Hc F Hb Hj Hind Hlen. rewrite blocks_for_Z, <- Nat2Z.inj_add.
  destruct (((Z.of_nat j =? Z.of_nat (blocks_for s len) - 1) && _) || _) eqn:E.
  { exists (block_at s c b). split; [by apply flat_read_data_block|by left]. }
  exists (replicate (block_bytes s) 0). split; [by rewrite Nat2Z.id|right]. apply orb_false_iff in E as [E1 E2].
  assert (ind = 0%nat) as I0. { destruct (Nat.eqb_spec j 0) as [->|]; [|done]. simpl in E2. destruct (Z.eqb_spec (Z.of_nat o) 0); [lia|done]. }
  split_and!; [done|done|]. pose proof (blocks_for_bounds s len Hs) as Hb1. destruct (block_bytes_mul s Hs) as (m & Em & Hm).
  assert (o = 0 \/ j <> 0)%nat as Ho by (destruct (Nat.eqb_spec j 0); lia). clear Hind E2.
  apply andb_false_iff in E1 as [E1%Z.eqb_neq|E1%Z.eqb_neq]; [nia|].
  assert (len = blocks_for s len * block_bytes s)%nat as El; [|nia]. unfold Ext2Inode.extra_block in E1. unfold blocks_for.
  rewrite <- Nat2Z.inj_mod in E1. pose proof (Nat.div_mod_eq len (block_bytes s)).
  destruct (Z.eqb_spec (Z.of_nat (len mod block_bytes s)) 0) as [E0|]; [|done]. rewrite (proj2 (Nat.eqb_eq _ _)) by lia. nia.
Qed.

Lemma flat_write_blocks c len o k n j ind (iter : list Z) bw :
  disk_ok c -> file_ok s c i bl -> (k + j + n <= length bl)%nat -> (j + n = blocks_for s len)%nat -> Forall is_byte iter -> (ind < block_bytes s)%nat ->
  ind = (if (j =? 0)%nat then o else 0%nat) -> ((0 < n)%nat -> (length iter + j * block_bytes s + ind = len + o)%nat) ->
  exists c', write_blocks i (Z.of_nat len) (Z.of_nat (block_bytes s)) (Z.of_nat k) (Z.of_nat o) (Z.of_nat j) ind iter bw n (MkExt2 c s x false)
      = Ret (MkExt2 c' s x false, Some (bw + Z.of_nat (length (take (n * block_bytes s - ind) iter)))) /\
    wrote c c' ((k + j) * block_bytes s + ind) (take (n * block_bytes s - ind) iter).
Proof.
  revert c j ind iter bw. induction n as [|n IH]; intros c j ind iter bw Hc F Hk Hj Hi Hlt Hind Hlen.
  { exists c. cbn [write_blocks]. rewrite take_0, Z.add_0_r. split; [done|]. split_and!; try done. by rewrite splice_nil. }
  specialize (Hlen ltac:(lia)). destruct (lookup_lt_is_Some_2 bl (k + j)) as [b Hb]; [lia|]. cbn [write_blocks].
  destruct (round_block c len o k j ind iter b Hc F Hb) as (v & Ev & Hv); [lia|done|done|]. unfold so_bind at 1. rewrite Ev. cbn [obind].
  destruct (wrote_block c (k + j) b ind iter v Hc F Hb Hi Hlt Hv) as (Hw & Lv & Bs). rewrite fill_block_spec, length_drop, Lv.
  rewrite <- Lv, filled_block, Lv by lia. unfold so_bind. rewrite <- Nat2Z.inj_add.
  rewrite (flat_write_data_block c (k + j) b) by (done || (rewrite length_splice by (rewrite length_take; lia); done)). cbn [obind].
  pose proof Hw as (Hc1 & F1 & _ & D1 & _). replace (Z.of_nat j + 1) with (Z.of_nat (S j)) by lia.
  pose proof (blocks_for_bounds s len Hs) as Hb1. destruct (block_bytes_mul s Hs) as (m & Em & Hm).
  destruct (IH _ (S j) 0%nat (drop (block_bytes s - ind) iter) (bw + Z.of_nat (Nat.min (block_bytes s - ind) (length iter))) Hc1 F1) as (c2 & E2 & W2); [lia|lia|by apply Forall_drop|lia|done| |].
  { intros Hn. rewrite length_drop. nia. }
  exists c2. rewrite E2. destruct (decide (n = 0%nat)) as [->|Hn].
  - rewrite Nat.sub_0_r, take_0 in *. rewrite Nat.mul_1_l. cbn [length Z.of_nat]. split.
    + do 3 f_equal. rewrite length_take. lia.
    + destruct W2 as (? & ? & L2 & D2 & O2), Hw as (_ & _ & L1 & _ & O1). rewrite splice_nil in D2.
      split_and!; [done|done|congruence|congruence|]. intros q Hq Hne. by rewrite O2, O1.
  - assert (block_bytes s - ind <= length iter)%nat as Hge by nia. assert (length (take (block_bytes s - ind) iter) = block_bytes s - ind)%nat as Ld by (rewrite length_take; lia).
    assert (take (S n * block_bytes s - ind) iter = take (block_bytes s - ind) iter ++ take (n * block_bytes s - 0) (drop (block_bytes s - ind) iter)) as Et.
    { rewrite take_take_drop. f_equal. lia. }
    rewrite Et. split; [do 3 f_equal; rewrite length_app, Ld; lia|]. eapply (wrote_trans c _ c2); [|exact Hw|].
    + rewrite length_block_data, Ld, length_take by apply F. pose proof (Nat.mul_le_mono_r _ _ (block_bytes s) Hk) as Hm2.
      rewrite !Nat.mul_add_distr_r in *. lia.
    + rewrite Ld. replace ((k + j) * block_bytes s + ind + (block_bytes s - ind))%nat with ((k + S j) * block_bytes s + 0)%nat by lia. exact W2.
Qed.

(** Where the data goes: the offset inside the first block is taken modulo the size of
    an inode. *)
Lemma flat_write_bytes c off data isize : disk_ok c -> file_ok s c i bl -> data <> [] -> (off + length data <= Z.to_nat (Ext2Inode.get_size i))%nat ->
  Ext2Inode.get_size i < 2 ^ 64 -> Forall is_byte data ->
  get_ondisk_inode_size (MkExt2 c s x false) = Ret (Z.of_nat isize) -> (0 < isize <= block_bytes s)%nat ->
  exists c', let d := take (blocks_for s (length data) * block_bytes s - off mod isize) data in
    write_bytes i (Z.of_nat off) data (MkExt2 c s x false) = Ret (MkExt2 c' s x false, Some (Z.of_nat (length d))) /\
    wrote c c' (off / block_bytes s * block_bytes s + off mod isize) d.
Proof.
  intros Hc F Hd Hl H64 Hb Hsz Hi. assert (0 < length data)%nat as Hpos by (destruct data; [done|simpl; lia]).
  pose proof (blocks_inside c off (length data) F ltac:(lia) Hl) as Hbl.
  unfold write_bytes, so_bind, so_lift, geometry. rewrite add_chk_ok by lia. cbn [obind].
  destruct (Z.gtb_spec (Z.of_nat off + Z.of_nat (length data)) (Ext2Inode.get_size i)); [lia|]. rewrite block_size_of by done. cbn [obind sb].
  rewrite Hsz. cbn [obind]. unfold rem_chk. destruct (Z.eqb_spec (Z.of_nat isize) 0); [lia|]. cbn [obind].
  assert (off mod isize < isize)%nat by (apply Nat.mod_upper_bound; lia).
  rewrite blocks_for_Z, <- Nat2Z.inj_mod, <- Nat2Z.inj_div, !Nat2Z.id.
  edestruct (flat_write_blocks c (length data) (off mod isize) (off / block_bytes s) (blocks_for s (length data)) 0 (off mod isize) data 0)
    as (c' & E & Hw); [done|done|lia|lia|done|lia|done|lia|].
  exists c'. simpl. rewrite Nat.add_0_r in Hw. split; [exact E|exact Hw].
Qed.
End Bytes.
