(* ===== verification/Ext2Alloc.v ===== *)
(** Usage bitmaps of ext2 as sequences of bits: what the searches find, and what
    marking a bit changes.  Then allocating and releasing blocks: what happens to the
    bitmap, the counters and the superblock of a block group, on a sequence of bytes. *)
From S2P Require Import Prelude MachineInt Device PackedStruct Ext2 Ext2Flat Ext2Tree.
From stdpp Require Import list.
#[local] Open Scope Z_scope.

Definition byte_bits (b : Z) : list bool := Z.testbit b <$> seqZ 0 8.
(** The bits of a bitmap, the lowest of a byte first; true is in use. *)
Definition bits_of (bitmap : list Z) : list bool := concat (byte_bits <$> bitmap).
(** The number of bits that are clear. *)
Definition free_bits (l : list bool) : nat := length (filter (fun b => b = false) l).

Lemma byte_bits_lookup b (i : nat) : (i < 8)%nat -> byte_bits b !! i = Some (Z.testbit b (Z.of_nat i)).
Proof. intros H. unfold byte_bits. rewrite list_lookup_fmap, lookup_seqZ_lt by lia. simpl. do 2 f_equal. Qed.

Lemma byte_bits_uniform bitmap : Forall (fun l => length l = 8%nat) (byte_bits <$> bitmap).
Proof. apply Forall_fmap, Forall_forall. intros b _. reflexivity. Qed.

Lemma length_bits_of bitmap : length (bits_of bitmap) = (length bitmap * 8)%nat.
Proof. unfold bits_of. by rewrite (length_concat_uniform _ 8), length_fmap by apply byte_bits_uniform. Qed.

(** Maps over options, leaving the arithmetic alone. *)
Ltac optional := cbn [fmap option_fmap option_map mbind option_bind].

Lemma bits_of_lookup bitmap i : bits_of bitmap !! i = (fun b => Z.testbit b (Z.of_nat (i mod 8))) <$> bitmap !! (i / 8)%nat.
Proof.
  unfold bits_of. rewrite (lookup_concat_uniform _ 8) by (lia || apply byte_bits_uniform). rewrite list_lookup_fmap.
  destruct (bitmap !! (i / 8)%nat) as [b|]; [|done]. optional. apply byte_bits_lookup. apply Nat.mod_upper_bound. lia.
Qed.

(** * Marking *)

Lemma mark_used_bit b bit j : 0 <= bit < 8 -> 0 <= j < 8 -> Z.testbit (mark_used b bit) j = if decide (j = bit) then true else Z.testbit b j.
Proof.
  intros Hb Hj. unfold mark_used. autorewrite with testbit. case_decide as E.
  - subst. rewrite Z.sub_diag. apply orb_true_r.
  - destruct (Z.lt_ge_cases j bit); [rewrite (Z.testbit_neg_r 1) by lia; apply orb_false_r|].
    change 1 with (Z.ones 1). rewrite testbit_ones by lia. rewrite (proj2 (Z.ltb_ge _ _)) by lia. apply orb_false_r.
Qed.

Lemma mark_free_bit b bit j : 0 <= bit < 8 -> 0 <= j < 8 -> Z.testbit (mark_free b bit) j = if decide (j = bit) then false else Z.testbit b j.
Proof.
  intros Hb Hj. unfold mark_free, bnot. autorewrite with testbit. rewrite (proj2 (Z.ltb_lt j 8)) by lia. case_decide as E.
  - subst. rewrite Z.sub_diag. apply andb_false_r.
  - destruct (Z.lt_ge_cases j bit); [rewrite (Z.testbit_neg_r 1) by lia; apply andb_true_r|].
    change 1 with (Z.ones 1). rewrite testbit_ones by lia. rewrite (proj2 (Z.ltb_ge _ _)) by lia. apply andb_true_r.
Qed.

Lemma in_u_shiftl_1 bit : 0 <= bit < 8 -> in_u 8 (Z.shiftl 1 bit).
Proof. intros H. rewrite Z.shiftl_1_l. split; [apply Z.pow_nonneg; lia|apply Z.pow_lt_mono_r; lia]. Qed.

Lemma mark_used_byte b bit : is_byte b -> 0 <= bit < 8 -> is_byte (mark_used b bit).
Proof. intros Hb Hi. apply in_u_lor; [lia|done|by apply in_u_shiftl_1]. Qed.

Lemma mark_free_byte b bit : is_byte b -> 0 <= bit < 8 -> is_byte (mark_free b bit).
Proof.
  intros [Hb1 Hb2] Hi. unfold mark_free. apply in_u_testbit; [lia|by apply Z.land_nonneg; left|]. intros j Hj.
  rewrite Z.land_spec, (testbit_above 8 b) by (by split || lia). done.
Qed.

Lemma bits_of_insert bitmap loc (bit : nat) b byte v : (bit < 8)%nat -> bitmap !! loc = Some byte ->
  (forall j, 0 <= j < 8 -> Z.testbit b j = if decide (j = Z.of_nat bit) then v else Z.testbit byte j) ->
  bits_of (<[loc := b]> bitmap) = <[(loc * 8 + bit)%nat := v]> (bits_of bitmap).
Proof.
  intros Hbit Hloc Hb. pose proof (lookup_lt_Some _ _ _ Hloc) as Hl.
  apply list_eq. intros i. rewrite bits_of_lookup.
  pose proof (Nat.div_mod_eq i 8) as Ei. pose proof (Nat.mod_upper_bound i 8 ltac:(lia)) as Mi.
  destruct (decide (i / 8 = loc)%nat) as [E|Ne].
  - rewrite E, list_lookup_insert_eq by done. optional. rewrite Hb by lia. destruct (decide (i = loc * 8 + bit)%nat) as [->|Hn].
    + rewrite list_lookup_insert_eq by (rewrite length_bits_of; lia). by rewrite decide_True by lia.
    + rewrite list_lookup_insert_ne by done. rewrite bits_of_lookup, E, Hloc. optional. by rewrite decide_False by lia.
  - rewrite list_lookup_insert_ne by done. rewrite list_lookup_insert_ne by lia. by rewrite bits_of_lookup.
Qed.

(** The byte of a bit, and the bitmap with the bit cleared, as the code computes them. *)
Lemma bit_cleared bitmap (i : nat) v : Forall is_byte bitmap -> bits_of bitmap !! i = Some v ->
  exists byte, bitmap_get bitmap (Z.of_nat i / 8) = Ret byte /\ Z.testbit byte (Z.of_nat i mod 8) = v /\
  let bm := <[Z.to_nat (Z.of_nat i / 8) := mark_free byte (Z.of_nat i mod 8)]> bitmap in
  bits_of bm = <[i := false]> (bits_of bitmap) /\ length bm = length bitmap /\ Forall is_byte bm.
Proof.
  intros Bb Hv. rewrite bits_of_lookup in Hv. apply fmap_Some in Hv as (byte & Hbyte & Ev). exists byte.
  pose proof (proj1 (Forall_lookup _ _) Bb _ _ Hbyte) as Hby. pose proof (Nat.div_mod_eq i 8) as Ei. pose proof (Nat.mod_upper_bound i 8 ltac:(lia)) as Mi.
  assert (Z.to_nat (Z.of_nat i / 8) = i / 8)%nat as Ediv by (change 8 with (Z.of_nat 8); rewrite <- Nat2Z.inj_div; lia).
  assert (Z.of_nat i mod 8 = Z.of_nat (i mod 8)) as Emod by (change 8 with (Z.of_nat 8); by rewrite <- Nat2Z.inj_mod).
  unfold bitmap_get. rewrite Ediv, Emod, Hbyte. split; [done|]. split; [done|]. split; [|split].
  - replace (<[i := false]> (bits_of bitmap)) with (<[(i / 8 * 8 + i mod 8)%nat := false]> (bits_of bitmap)) by (f_equal; lia).
    apply (bits_of_insert _ _ _ _ byte); [lia|done|]. intros j Hj. apply mark_free_bit; lia.
  - by rewrite length_insert.
  - apply Forall_insert; [done|]. apply mark_free_byte; [done|lia].
Qed.

(** * Searching *)

Lemma find_clear_bit_spec b (n : nat) bit : 0 <= bit -> exists k : nat, (k <= n)%nat /\ find_clear_bit b bit n = bit + Z.of_nat k /\
  (forall j, bit <= j < bit + Z.of_nat k -> Z.testbit b j = true) /\ ((k < n)%nat -> Z.testbit b (bit + Z.of_nat k) = false).
Proof.
  revert bit. induction n as [|n IH]; intros bit Hbit; cbn [find_clear_bit].
  { exists 0%nat. split_and!; [lia|lia|intros; lia|lia]. }
  destruct (Z.testbit b bit) eqn:E.
  - destruct (IH (bit + 1) ltac:(lia)) as (k & Hk & -> & H1 & H2). exists (S k). split_and!; [lia|lia| |].
    + intros j Hj. destruct (decide (j = bit)) as [->|]; [done|]. apply H1. lia.
    + intros H. replace (bit + Z.of_nat (S k)) with (bit + 1 + Z.of_nat k) by lia. apply H2. lia.
  - exists 0%nat. split_and!; [lia|lia|intros; lia|]. intros _. by rewrite Z.add_0_r.
Qed.

Lemma full_byte b : is_byte b -> (forall j, 0 <= j < 8 -> Z.testbit b j = true) <-> b = 0xff.
Proof.
  intros Hb. split.
  - intros H. apply Z.bits_inj'. intros j Hj. change 0xff with (Z.ones 8). rewrite testbit_ones by lia.
    destruct (Z.ltb_spec j 8); [apply H; lia|]. apply (testbit_above 8); [done|lia].
  - intros -> j Hj. change 0xff with (Z.ones 8). rewrite testbit_ones by lia. apply Z.ltb_lt. lia.
Qed.

(** The bit that is found is the first that is clear. *)
Lemma find_free_spec bitmap loc byte : Forall is_byte bitmap -> find_free_byte bitmap = Some (loc, byte) ->
  exists bit : nat, (bit < 8)%nat /\ find_clear_bit byte 0 8 = Z.of_nat bit /\ bitmap !! loc = Some byte /\
    bits_of bitmap !! (loc * 8 + bit)%nat = Some false /\ forall j, (j < loc * 8 + bit)%nat -> bits_of bitmap !! j = Some true.
Proof.
  intros Hb (Hl & Hne & Hbefore)%list_find_Some. pose proof (proj1 (Forall_lookup _ _) Hb _ _ Hl) as Hbyte.
  destruct (find_clear_bit_spec byte 8 0 ltac:(lia)) as (bit & H8 & E & H1 & H2). rewrite Z.add_0_l in *.
  assert (bit < 8)%nat as Hlt. { destruct (decide (bit = 8)%nat) as [->|]; [|lia]. destruct Hne. apply full_byte; [done|]. intros j Hj. apply H1. lia. }
  exists bit. split_and!; [done|done|done| |].
  - rewrite bits_of_lookup. rewrite Nat.div_add_l, (Nat.div_small bit 8), Nat.add_0_r, Hl by lia. optional.
    rewrite Nat.add_comm, Nat.Div0.mod_add, Nat.mod_small by lia. f_equal. by apply H2.
  - intros j Hj. rewrite bits_of_lookup. pose proof (Nat.div_mod_eq j 8) as Ej. pose proof (Nat.mod_upper_bound j 8 ltac:(lia)) as Mj.
    destruct (decide (j / 8 = loc)%nat) as [Eq|Ne].
    + rewrite Eq, Hl. optional. f_equal. apply H1. lia.
    + assert (j / 8 < loc)%nat as Hj8 by lia. destruct (lookup_lt_is_Some_2 bitmap (j / 8)) as [b' Hb'].
      { pose proof (lookup_lt_Some _ _ _ Hl). lia. }
      rewrite Hb'. optional. f_equal. apply full_byte; [exact (proj1 (Forall_lookup _ _) Hb _ _ Hb')| |lia].
      destruct (decide (b' = 0xff)) as [|Hn]; [done|]. by destruct (Hbefore _ _ Hb' Hj8).
Qed.

Lemma find_free_None bitmap : Forall is_byte bitmap -> find_free_byte bitmap = None -> Forall (fun b => b = true) (bits_of bitmap).
Proof.
  intros Hb H%list_find_None. apply Forall_lookup. intros i v. rewrite bits_of_lookup. intros (b & Hl & ->)%fmap_Some.
  apply full_byte; [exact (proj1 (Forall_lookup _ _) Hb _ _ Hl)| |pose proof (Nat.mod_upper_bound i 8); lia].
  destruct (decide (b = 0xff)) as [|Hn]; [done|]. apply list_elem_of_lookup_2 in Hl. rewrite Forall_forall in H. by destruct (H b Hl).
Qed.

(** * Counting *)

Lemma free_bits_app l k : free_bits (l ++ k) = (free_bits l + free_bits k)%nat.
Proof. unfold free_bits. by rewrite filter_app, length_app. Qed.

Lemma free_bits_cons (b : bool) l : free_bits (b :: l) = ((if b then 0 else 1) + free_bits l)%nat.
Proof. unfold free_bits. rewrite filter_cons. by destruct b. Qed.

Lemma free_bits_insert l i (v w : bool) : l !! i = Some v -> (free_bits (<[i := w]> l) + (if v then 0 else 1) = free_bits l + (if w then 0 else 1))%nat.
Proof.
  intros H. rewrite <- (take_drop_middle l i v H) at 2. rewrite insert_take_drop by by eapply lookup_lt_Some.
  rewrite !free_bits_app, !free_bits_cons. destruct v, w; lia.
Qed.

Lemma free_bits_all l : Forall (fun b => b = true) l <-> free_bits l = 0%nat.
Proof. induction l as [|b l IH]; [done|]. rewrite Forall_cons, IH, free_bits_cons. destruct b; [simpl; tauto|]. split; [intros [? _]; done|done]. Qed.

(** * Blocks *)

(** * Geometry *)

Definition up (a b : Z) : Z := if a mod b =? 0 then a / b else a / b + 1.
Definition group_count (s : Ext2SuperBlock) : Z := up (max_no_of_blocks s) (blocks_per_block_group s).
Definition special_blocks (s : Ext2SuperBlock) : Z :=
  up 2048 (Z.of_nat (block_bytes s)) + up (32 * group_count s) (Z.of_nat (block_bytes s)).

(** Blocks of 1 KiB or 2 KiB (larger ones put the descriptors elsewhere), groups that
    account for the blocks and the inodes. *)
Record super_ok (s : Ext2SuperBlock) (x : option Ext2ExtendedSuperblock) : Prop := MkSuperOk {
  su_size : 0 <= block_size_log2_minus_10 s <= 1;
  su_blocks : 0 < blocks_per_block_group s < 2 ^ 32 /\ 0 <= max_no_of_blocks s;
  su_inodes : 0 < inodes_per_block_group s;
  su_groups : up (max_no_of_inodes s) (inodes_per_block_group s) = group_count s;
  su_few : group_count s < 2 ^ 26;
  su_ext : match x with Some e => length (extended_values e) = 125%nat | None => True end;
}.

Lemma up_bounds a b : 0 <= a -> 0 < b -> a <= up a b * b < a + b.
Proof.
  intros Ha Hb. unfold up. pose proof (Z.div_mod a b ltac:(lia)). pose proof (Z.mod_pos_bound a b Hb).
  destruct (Z.eqb_spec (a mod b) 0); nia.
Qed.

Lemma div_up_spec a b : 0 < b -> div_up a b = Ret (up a b).
Proof. intros H. unfold div_up, div_chk, rem_chk, up. rewrite (proj2 (Z.eqb_neq b 0)) by lia. done. Qed.

Lemma super_block_size s x : super_ok s x -> block_size_ok s /\ (block_bytes s = 1024 \/ block_bytes s = 2048)%nat.
Proof.
  intros H. destruct (su_size _ _ H) as [H1 H2]. split; [unfold block_size_ok; lia|]. unfold block_bytes.
  assert (block_size_log2_minus_10 s = 0 \/ block_size_log2_minus_10 s = 1) as [->| ->] by lia; [left|right]; done.
Qed.

Lemma group_count_pos s x : super_ok s x -> 0 <= group_count s.
Proof.
  intros H. destruct (su_blocks _ _ H) as [[H1 _] H2]. pose proof (up_bounds (max_no_of_blocks s) (blocks_per_block_group s) H2 H1) as Hb.
  unfold group_count. nia.
Qed.

Lemma groups_of {W} (fs : Ext2FS W) : super_ok (sb fs) (extended_sb fs) -> get_number_of_block_groups fs = Ret (group_count (sb fs)).
Proof.
  intros H. unfold get_number_of_block_groups. rewrite !div_up_spec by (apply H || apply (su_blocks _ _ H)). cbn [obind].
  rewrite (su_groups _ _ H). unfold group_count. by rewrite Z.eqb_refl.
Qed.

Lemma special_of {W} (fs : Ext2FS W) : super_ok (sb fs) (extended_sb fs) ->
  get_number_of_special_blocks fs = Ret (special_blocks (sb fs)) /\ wrap 32 (special_blocks (sb fs)) = special_blocks (sb fs) /\
  2048 + 32 * group_count (sb fs) <= special_blocks (sb fs) * Z.of_nat (block_bytes (sb fs)).
Proof.
  intros H. destruct (super_block_size _ _ H) as [Hs Hb]. pose proof (group_count_pos _ _ H) as Hg. pose proof (su_few _ _ H) as Hf.
  pose proof (up_bounds 2048 (Z.of_nat (block_bytes (sb fs))) ltac:(lia) ltac:(lia)) as U1.
  pose proof (up_bounds (32 * group_count (sb fs)) (Z.of_nat (block_bytes (sb fs))) ltac:(lia) ltac:(lia)) as U2.
  split_and!.
  - unfold get_number_of_special_blocks. rewrite block_size_of by done. cbn [obind]. rewrite div_up_spec by lia. cbn [obind].
    rewrite groups_of by done. cbn [obind]. rewrite div_up_spec by lia. done.
  - apply wrap_small. unfold special_blocks, in_u. nia.
  - unfold special_blocks. nia.
Qed.

(** * Descriptors and superblock on disk *)

Definition descriptor_bytes (d : Ext2BlockGroupDescriptor) : list Z := join_fields Lsb descriptor_sizes (descriptor_values d).
Definition descriptor_pos (g : nat) : nat := (2048 + 32 * g)%nat.
Definition descriptor_at (c : list Z) (g : nat) : option Ext2BlockGroupDescriptor :=
  descriptor_of (split_fields Lsb descriptor_sizes (take 18 (drop (descriptor_pos g) c))).

Definition superblock_bytes (s : Ext2SuperBlock) (x : option Ext2ExtendedSuperblock) : list Z :=
  join_fields Lsb superblock_sizes (superblock_values s) ++
  match x with Some e => join_fields Lsb extended_sizes (extended_values e) | None => [] end.

Lemma length_descriptor_bytes d : length (descriptor_bytes d) = 18%nat.
Proof. unfold descriptor_bytes. by rewrite join_fields_length. Qed.

Lemma descriptor_bytes_byte d : Forall is_byte (descriptor_bytes d).
Proof. apply join_fields_is_byte. Qed.

Lemma superblock_bytes_byte s x : Forall is_byte (superblock_bytes s x).
Proof. unfold superblock_bytes. apply Forall_app. split; [apply join_fields_is_byte|]. destruct x; [apply join_fields_is_byte|done]. Qed.

Lemma length_superblock_bytes s x : super_ok s x -> (84 <= length (superblock_bytes s x) <= 236)%nat.
Proof.
  intros H. unfold superblock_bytes. rewrite length_app, join_fields_length by done. pose proof (su_ext _ _ H) as Hx. destruct x as [e|].
  - rewrite join_fields_length by (rewrite Hx; done). vm_compute. lia.
  - vm_compute. lia.
Qed.

Lemma descriptor_at_spec c g d : Forall is_byte c -> (descriptor_pos g + 18 <= length c)%nat -> descriptor_at c g = Some d ->
  values_ok descriptor_sizes (descriptor_values d) /\ take 18 (drop (descriptor_pos g) c) = descriptor_bytes d.
Proof.
  intros Hb Hl Hd. set (l := take 18 (drop (descriptor_pos g) c)).
  destruct (join_split Lsb descriptor_sizes l) as [J V].
  { unfold l. rewrite length_take, length_drop. change (sum_list descriptor_sizes) with 18%nat. lia. }
  { by apply Forall_take, Forall_drop. }
  unfold descriptor_at in Hd. fold l in Hd. assert (split_fields Lsb descriptor_sizes l = descriptor_values d) as E.
  { revert Hd. generalize (split_fields Lsb descriptor_sizes l). intros [|? [|? [|? [|? [|? [|? []]]]]]] [= <-]. done. }
  rewrite E in J, V. by split.
Qed.

Lemma descriptor_at_bytes c g d : take 18 (drop (descriptor_pos g) c) = descriptor_bytes d -> values_ok descriptor_sizes (descriptor_values d) ->
  descriptor_at c g = Some d.
Proof. intros E V. unfold descriptor_at. rewrite E. unfold descriptor_bytes. rewrite split_join by done. by destruct d. Qed.

(** * Updating a group

    The bitmap in block [b], the descriptor of group [g] and the superblock, replaced. *)
Definition commit (s : Ext2SuperBlock) (x : option Ext2ExtendedSuperblock) (c : list Z) (b : Z) (bm : list Z) (g : nat) (d : Ext2BlockGroupDescriptor) : list Z :=
  splice (splice (put_block s c b bm) (descriptor_pos g) (descriptor_bytes d)) 1024 (superblock_bytes s x).

(** Nothing else changes. *)
Record committed (s : Ext2SuperBlock) (x : option Ext2ExtendedSuperblock) (c : list Z) (b : Z) (bm : list Z) (g : nat)
    (d : Ext2BlockGroupDescriptor) (c' : list Z) : Prop := MkCommitted {
  cm_disk : disk_ok c';
  cm_length : length c' = length c;
  cm_bitmap : block_at s c' b = bm;
  cm_blocks : forall q, special_blocks s <= q -> q <> b -> block_at s c' q = block_at s c q;
  cm_descriptor : take 18 (drop (descriptor_pos g) c') = descriptor_bytes d;
  cm_descriptors : forall h, h <> g -> Z.of_nat h < group_count s -> take 18 (drop (descriptor_pos h) c') = take 18 (drop (descriptor_pos h) c);
  cm_super : take (length (superblock_bytes s x)) (drop 1024 c') = superblock_bytes s x;
}.

Lemma tables_before s x q (g : nat) : super_ok s x -> special_blocks s <= q -> Z.of_nat g < group_count s ->
  (descriptor_pos g + 32 <= Z.to_nat q * block_bytes s)%nat.
Proof.
  intros H Hq Hg. destruct (special_of (MkExt2 () s x false) H) as (_ & _ & Hsp). cbn [sb] in Hsp. unfold descriptor_pos.
  assert (special_blocks s * Z.of_nat (block_bytes s) <= q * Z.of_nat (block_bytes s)) by (apply Z.mul_le_mono_nonneg_r; lia).
  assert (0 <= q); [|lia]. destruct (super_block_size _ _ H) as [_ [E|E]]; rewrite E in *; lia.
Qed.

Lemma commit_committed s x c b bm g d : super_ok s x -> disk_ok c -> block_in s c b -> special_blocks s <= b -> Z.of_nat g < group_count s ->
  length bm = block_bytes s -> Forall is_byte bm -> committed s x c b bm g d (commit s x c b bm g d).
Proof.
  intros H Hc Hb Hsp Hg Lb Bb. pose proof (tables_before s x b g H Hsp Hg) as T. pose proof (length_superblock_bytes s x H) as L84.
  pose proof Hb as [Hb0 Hbl]. assert (2048 <= descriptor_pos g)%nat as P2 by (unfold descriptor_pos; lia). unfold commit.
  set (c1 := put_block s c b bm). assert (disk_ok c1) as D1 by by apply disk_ok_put.
  assert (length c1 = length c) as L1 by (apply length_splice; lia).
  set (c2 := splice c1 (descriptor_pos g) (descriptor_bytes d)). pose proof (length_descriptor_bytes d) as L18.
  assert (disk_ok c2) as D2 by (apply disk_ok_splice; [done|apply descriptor_bytes_byte|lia]).
  assert (length c2 = length c) as L2 by (unfold c2; rewrite length_splice; lia).
  assert (forall a n, (2048 <= a)%nat -> take n (drop a (splice c2 1024 (superblock_bytes s x))) = take n (drop a c2)) as P3.
  { intros a n Ha. apply splice_outside; lia. }
  split.
  - apply disk_ok_splice; [done|apply superblock_bytes_byte|lia].
  - rewrite length_splice; lia.
  - unfold block_at. rewrite P3 by lia. unfold c2. rewrite splice_outside by lia. by apply block_at_put.
  - intros q Hq Hne. pose proof (tables_before s x q g H Hq Hg) as Tq. unfold block_at. rewrite P3 by lia. unfold c2. rewrite splice_outside by lia.
    apply block_at_put_other; [done| |done|done]. destruct (special_of (MkExt2 () s x false) H) as (_ & _ & Hs0). cbn [sb] in Hs0.
    pose proof (group_count_pos _ _ H). destruct (super_block_size _ _ H) as [_ [E|E]]; rewrite E in *; lia.
  - rewrite P3 by lia. unfold c2. rewrite <- L18 at 1. apply splice_read. lia.
  - intros h Hne Hh. assert (2048 <= descriptor_pos h)%nat by (unfold descriptor_pos; lia). rewrite P3 by done. unfold c2.
    pose proof (tables_before s x b h H Hsp Hh). rewrite splice_outside by (rewrite ?L18; unfold descriptor_pos in *; lia).
    apply splice_outside; lia.
  - apply splice_read. lia.
Qed.

(** * Block groups *)

(** The block a bit of a group's bitmap stands for. *)
Definition block_number (s : Ext2SuperBlock) (g i : nat) : Z := Z.of_nat i + Z.of_nat g * blocks_per_block_group s + special_blocks s.

Definition block_bitmap (s : Ext2SuperBlock) (c : list Z) (d : Ext2BlockGroupDescriptor) : list bool :=
  bits_of (block_at s c (block_addr_for_block_usage_bitmap d)).

(** A group whose counter counts the clear bits of its bitmap, each of which stands for
    a block on the device that is not the bitmap. *)
Record group_ok (s : Ext2SuperBlock) (c : list Z) (g : nat) (d : Ext2BlockGroupDescriptor) : Prop := MkGroupOk {
  gr_index : Z.of_nat g < group_count s;
  gr_descriptor : descriptor_at c g = Some d;
  gr_bitmap : block_in s c (block_addr_for_block_usage_bitmap d) /\ special_blocks s <= block_addr_for_block_usage_bitmap d;
  gr_free : forall i, block_bitmap s c d !! i = Some false ->
    Z.of_nat i < blocks_per_block_group s /\ block_in s c (block_number s g i) /\ block_number s g i <> block_addr_for_block_usage_bitmap d;
  gr_count : unallocated_blocks_in_group d = Z.of_nat (free_bits (block_bitmap s c d));
}.

Lemma super_ok_set s x n : super_ok s x -> super_ok (set_unallocated_blocks s n) x.
Proof. intros []. by split. Qed.

Lemma block_number_special s x g i : super_ok s x -> special_blocks s <= block_number s g i.
Proof. intros H. destruct (su_blocks _ _ H) as [[? _] _]. unfold block_number. nia. Qed.

Lemma free_bits_bound (l : list bool) (n : Z) : 0 <= n -> (forall i, l !! i = Some false -> Z.of_nat i < n) -> Z.of_nat (free_bits l) <= n.
Proof.
  intros Hn H. rewrite <- (take_drop (Z.to_nat n) l), free_bits_app. rewrite (proj1 (free_bits_all (drop (Z.to_nat n) l))).
  - pose proof (length_filter (fun b => b = false) (take (Z.to_nat n) l)). unfold free_bits. rewrite length_take in *. lia.
  - apply Forall_lookup. intros i [] Hi; [done|]. rewrite lookup_drop in Hi. specialize (H _ Hi). lia.
Qed.

Lemma descriptor_counts c g d : Forall is_byte c -> (descriptor_pos g + 18 <= length c)%nat -> descriptor_at c g = Some d ->
  in_u 16 (unallocated_blocks_in_group d) /\ in_u 16 (unallocated_inodes_in_group d).
Proof.
  intros Hc Hl Hd. destruct (descriptor_at_spec c g d Hc Hl Hd) as [V _]. unfold values_ok, descriptor_values, descriptor_sizes in V.
  do 3 apply Forall2_cons in V as [_ V]. apply Forall2_cons in V as [H1 V]. apply Forall2_cons in V as [H2 _]. done.
Qed.

(** A change of the bitmap of a group, and of blocks other than the bitmap. *)
Lemma group_ok_commit s x c g d n (bm : list Z) c' i v (k : Z) : super_ok s x -> group_ok s c g d -> disk_ok c ->
  let b := block_addr_for_block_usage_bitmap d in
  let d' := set_unallocated_blocks_in_group d k in
  block_bitmap s c d !! i = Some (negb v) -> bits_of bm = <[i := v]> (block_bitmap s c d) ->
  k = unallocated_blocks_in_group d + (if v then - 1 else 1) -> 0 <= k < 2 ^ 16 ->
  (v = false -> Z.of_nat i < blocks_per_block_group s /\ block_in s c (block_number s g i) /\ block_number s g i <> b) ->
  committed (set_unallocated_blocks s n) x c b bm g d' c' -> group_ok (set_unallocated_blocks s n) c' g d'.
Proof.
  intros H G Hc b d' Hi Hbm Ek Hk Hv M. pose proof (tables_before s x b g H (proj2 (gr_bitmap _ _ _ _ G)) (gr_index _ _ _ _ G)) as T.
  pose proof (gr_bitmap _ _ _ _ G) as [[Hb0 Hbl] Hsp]. fold b in Hb0, Hbl, Hsp.
  assert (descriptor_pos g + 18 <= length c)%nat as Lg by lia.
  destruct (descriptor_at_spec c g d (proj1 Hc) Lg (gr_descriptor _ _ _ _ G)) as [V _].
  assert (forall q, block_in (set_unallocated_blocks s n) c' q <-> block_in s c q) as Hin.
  { intros q. unfold block_in. by rewrite (cm_length _ _ _ _ _ _ _ _ M). }
  assert (block_bitmap (set_unallocated_blocks s n) c' d' = <[i := v]> (block_bitmap s c d)) as Eb.
  { unfold block_bitmap at 1. change (block_addr_for_block_usage_bitmap d') with b. by rewrite (cm_bitmap _ _ _ _ _ _ _ _ M). }
  split.
  - exact (gr_index _ _ _ _ G).
  - apply descriptor_at_bytes; [exact (cm_descriptor _ _ _ _ _ _ _ _ M)|]. unfold values_ok, descriptor_values, descriptor_sizes in *.
    repeat match type of V with Forall2 _ (_ :: _) (_ :: _) => apply Forall2_cons in V as [? V] end.
    repeat (apply Forall2_cons; split; [first [assumption|split; simpl; lia]|]). constructor.
  - split; [by apply Hin|exact Hsp].
  - rewrite Eb. intros j Hj. destruct (decide (j = i)) as [->|Hne].
    + rewrite list_lookup_insert_eq in Hj by (by eapply lookup_lt_Some). injection Hj as ->. destruct (Hv eq_refl) as (? & ? & ?).
      split; [done|]. split; [by apply Hin|done].
    + rewrite list_lookup_insert_ne in Hj by done. destruct (gr_free _ _ _ _ G j Hj) as (? & ? & ?). split; [done|]. split; [by apply Hin|done].
  - rewrite Eb. pose proof (free_bits_insert _ _ _ v Hi) as F. simpl. rewrite Ek, (gr_count _ _ _ _ G). destruct v; simpl in F; lia.
Qed.

(** Blocks past the tables and the bitmap do not matter to a group. *)
Lemma group_ok_put s x c g d p data : super_ok s x -> group_ok s c g d -> block_in s c p -> special_blocks s <= p ->
  p <> block_addr_for_block_usage_bitmap d -> length data = block_bytes s -> group_ok s (put_block s c p data) g d.
Proof.
  intros H G Hp Hsp Hne L. pose proof (tables_before s x p g H Hsp (gr_index _ _ _ _ G)) as T. pose proof Hp as [_ Hpl].
  assert (block_at s (put_block s c p data) (block_addr_for_block_usage_bitmap d) = block_at s c (block_addr_for_block_usage_bitmap d)) as E.
  { apply block_at_put_other; try done. pose proof (gr_bitmap _ _ _ _ G) as [[? _] _]. lia. }
  destruct G as [G1 G2 G3 G4 G5]. unfold block_bitmap in *. split.
  - done.
  - unfold descriptor_at. unfold put_block. rewrite splice_outside by lia. exact G2.
  - by rewrite block_in_put.
  - unfold block_bitmap. rewrite E. intros i Hi. rewrite block_in_put by done. by apply G4.
  - unfold block_bitmap. by rewrite E.
Qed.

Section Alloc.
Context {PS : PackedStruct} {PSok : PackedStructOk PS} (ok : nat -> nat -> bool) (Hok : serves_sectors ok).
#[local] Instance flat_alloc : DeviceFile (list Z) := flat_device ok.

Lemma descriptor_aligned g : (descriptor_pos g mod 512 + 18 <= 512)%nat.
Proof.
  unfold descriptor_pos. pose proof (Nat.div_mod_eq g 16). assert (g mod 16 < 16)%nat by (apply Nat.mod_upper_bound; lia).
  replace (2048 + 32 * g)%nat with (32 * (g mod 16) + (4 + g / 16) * 512)%nat by lia. rewrite Nat.Div0.mod_add, Nat.mod_small; lia.
Qed.

Lemma descriptor_addr_of (fs : Ext2FS (list Z)) g : super_ok (sb fs) (extended_sb fs) -> Z.of_nat g < group_count (sb fs) ->
  descriptor_addr fs (Z.of_nat g) = Ret (Z.of_nat (descriptor_pos g)).
Proof.
  intros H Hg. destruct (super_block_size _ _ H) as [Hs Hb]. pose proof (su_few _ _ H). unfold descriptor_addr, get_ondisk_block_group_descriptor_size.
  rewrite mul_chk_ok by lia. cbn [obind]. rewrite block_size_of by done. cbn [obind]. unfold descriptor_pos.
  assert ((1024 + 1024) / Z.of_nat (block_bytes (sb fs)) * Z.of_nat (block_bytes (sb fs)) = 2048) as -> by (by destruct Hb as [-> | ->]).
  rewrite add_chk_ok; [f_equal; lia|lia].
Qed.

Lemma flat_read_descriptor c s x r g d : super_ok s x -> disk_ok c -> Z.of_nat g < group_count s -> (descriptor_pos g + 18 <= length c)%nat ->
  descriptor_at c g = Some d -> read_block_group_descriptor (Z.of_nat g) (MkExt2 c s x r) = Ret (MkExt2 c s x r, Some d).
Proof.
  intros H Hc Hg Hl Hd. unfold read_block_group_descriptor, so_bind, geometry. rewrite descriptor_addr_of by done. cbn [obind].
  change (packed_size descriptor_sizes) with (Z.of_nat 18). rewrite (flat_read ok Hok); [|unfold descriptor_pos in *; lia|done|left; apply descriptor_aligned].
  cbn [obind]. unfold so_unpack, so_option. destruct (descriptor_at_spec c g d (proj1 Hc) Hl Hd) as [V ->]. unfold descriptor_bytes.
  rewrite unpack_join by done. by destruct d.
Qed.

Lemma flat_write_descriptor c s x g d : super_ok s x -> Z.of_nat g < group_count s -> (descriptor_pos g + 18 <= length c)%nat ->
  write_block_group_descriptor (Z.of_nat g) d (MkExt2 c s x false) =
    Ret (MkExt2 (splice c (descriptor_pos g) (descriptor_bytes d)) s x false, Some ()).
Proof.
  intros H Hg Hl. unfold write_block_group_descriptor, so_bind, geometry. rewrite descriptor_addr_of by done. cbn [obind].
  unfold so_pack, so_option. rewrite pack_bytes_spec by done. cbn [obind]. fold (descriptor_bytes d).
  rewrite (flat_write ok Hok); [done|unfold descriptor_pos in *; lia|by rewrite length_descriptor_bytes|apply descriptor_bytes_byte|].
  left. rewrite length_descriptor_bytes. apply descriptor_aligned.
Qed.

Lemma flat_flush c s x : super_ok s x -> (1260 <= length c)%nat ->
  flush_super_blocks (MkExt2 c s x false) = Ret (MkExt2 (splice c 1024 (superblock_bytes s x)) s x false, Some ()).
Proof.
  intros H Hl. unfold flush_super_blocks, so_bind, geometry. cbn [obind sb]. unfold so_pack, so_option. rewrite pack_bytes_spec by done. cbn [obind].
  set (b1 := join_fields Lsb superblock_sizes (superblock_values s)). assert (length b1 = 84%nat) as L1 by (unfold b1; by rewrite join_fields_length).
  change 1024 with (Z.of_nat 1024). rewrite (flat_write ok Hok); [|lia|lia|apply join_fields_is_byte|rewrite L1; left; vm_compute; lia]. cbn [obind extended_sb].
  unfold superblock_bytes. fold b1. pose proof (su_ext _ _ H) as Hx. destruct x as [e|]; [|by rewrite app_nil_r].
  rewrite pack_bytes_spec by (rewrite Hx; done). cbn [obind]. set (b2 := join_fields Lsb extended_sizes (extended_values e)).
  assert (length b2 = 152%nat) as L2 by (unfold b2; rewrite join_fields_length by (rewrite Hx; done); done).
  change (Z.of_nat 1024 + get_ondisk_super_block_size) with (Z.of_nat 1108).
  rewrite (flat_write ok Hok); [|rewrite length_splice; lia|rewrite length_splice; lia|apply join_fields_is_byte|rewrite L2; left; vm_compute; lia]. cbn [obind].
  replace 1108%nat with (1024 + length b1)%nat by lia. rewrite splice_app by lia. done.
Qed.

(** The three writes that follow a change of the bitmap. *)
Lemma flat_commit c s x (s' : Ext2SuperBlock) b bm g d : super_ok s x -> super_ok s' x -> block_bytes s' = block_bytes s ->
  disk_ok c -> block_in s c b -> special_blocks s <= b -> Z.of_nat g < group_count s ->
  length bm = block_bytes s -> Forall is_byte bm ->
  write_block b bm (MkExt2 c s x false) = Ret (MkExt2 (put_block s c b bm) s x false, Some ()) /\
  write_block_group_descriptor (Z.of_nat g) d (MkExt2 (put_block s c b bm) s x false) =
    Ret (MkExt2 (splice (put_block s c b bm) (descriptor_pos g) (descriptor_bytes d)) s x false, Some ()) /\
  flush_super_blocks (MkExt2 (splice (put_block s c b bm) (descriptor_pos g) (descriptor_bytes d)) s' x false) =
    Ret (MkExt2 (commit s' x c b bm g d) s' x false, Some ()).
Proof.
  intros H H' E Hc Hb Hsp Hg Lb Bb. pose proof (tables_before s x b g H Hsp Hg) as T. destruct (super_block_size _ _ H) as [Hs _].
  assert (2048 <= descriptor_pos g)%nat as P2 by (unfold descriptor_pos; lia). pose proof Hb as [_ Hbl].
  assert (length (put_block s c b bm) = length c) as L1 by (apply length_splice; lia). split_and!.
  - by apply flat_write_block.
  - apply flat_write_descriptor; [done|done|lia].
  - rewrite flat_flush; [unfold commit, put_block; by rewrite E|done|]. rewrite length_splice; rewrite ?length_descriptor_bytes; lia.
Qed.

Lemma flat_read_bitmap c s x r g d : super_ok s x -> disk_ok c -> group_ok s c g d ->
  read_block_group_descriptor (Z.of_nat g) (MkExt2 c s x r) = Ret (MkExt2 c s x r, Some d) /\
  read_block (block_addr_for_block_usage_bitmap d) (MkExt2 c s x r) =
    Ret (MkExt2 c s x r, Some (block_at s c (block_addr_for_block_usage_bitmap d))).
Proof.
  intros H Hc G. destruct (gr_bitmap _ _ _ _ G) as [Hb Hsp]. pose proof (tables_before s x _ g H Hsp (gr_index _ _ _ _ G)) as T. pose proof Hb as [_ Hbl].
  split; [apply flat_read_descriptor; try done; [apply G|lia|apply G]|]. apply flat_read_block; try done. by apply (super_block_size s x).
Qed.

(** No block in the group: the counter says so and nothing is changed. *)
Lemma flat_alloc_full c s x r g d : super_ok s x -> disk_ok c -> group_ok s c g d ->
  unallocated_blocks s = 0 \/ free_bits (block_bitmap s c d) = 0%nat ->
  alloc_block (Z.of_nat g) (MkExt2 c s x r) = Ret (MkExt2 c s x r, None).
Proof.
  intros H Hc G Hfull. unfold alloc_block. rewrite (so_bind_Some _ _ _ (MkExt2 c s x r) s) by done.
  destruct (Z.eqb_spec (unallocated_blocks s) 0); [done|]. destruct Hfull as [?|E]; [done|].
  erewrite so_bind_Some by by apply flat_read_bitmap. by rewrite (gr_count _ _ _ _ G), E.
Qed.

(** The bit that is found, and the bitmap with it marked. *)
Lemma free_bit_found s c d : Forall is_byte c -> block_in s c (block_addr_for_block_usage_bitmap d) -> (0 < free_bits (block_bitmap s c d))%nat ->
  let bm := block_at s c (block_addr_for_block_usage_bitmap d) in
  exists loc byte (bit : nat), find_free_byte bm = Some (loc, byte) /\ find_clear_bit byte 0 8 = Z.of_nat bit /\
    block_bitmap s c d !! (loc * 8 + bit)%nat = Some false /\ (forall j, (j < loc * 8 + bit)%nat -> block_bitmap s c d !! j = Some true) /\
    let bm' := <[loc := mark_used byte (Z.of_nat bit)]> bm in
    bits_of bm' = <[(loc * 8 + bit)%nat := true]> (block_bitmap s c d) /\ length bm' = block_bytes s /\ Forall is_byte bm'.
Proof.
  intros Hc Hb Hf bm. pose proof (block_at_is_byte s c (block_addr_for_block_usage_bitmap d) Hc) as Bb. pose proof (length_block_at s c _ Hb) as Lb. fold bm in Bb, Lb.
  destruct (find_free_byte bm) as [[loc byte]|] eqn:Ef.
  2:{ apply find_free_None, free_bits_all in Ef; [|done]. unfold block_bitmap in Hf. fold bm in Hf. lia. }
  destruct (find_free_spec _ _ _ Bb Ef) as (bit & Hbit & Ebit & Hloc & Hclear & Hbefore).
  pose proof (proj1 (Forall_lookup _ _) Bb _ _ Hloc) as Hbyte. exists loc, byte, bit. do 4 (split; [done|]). intros bm'. split_and!.
  - apply (bits_of_insert _ _ _ _ byte); [done|done|]. intros j Hj. apply mark_used_bit; lia.
  - unfold bm'. by rewrite length_insert.
  - apply Forall_insert; [done|]. apply mark_used_byte; [done|lia].
Qed.

(** The number of the block does not overflow. *)
Lemma block_number_chk s x c g i : super_ok s x -> disk_ok c -> block_in s c (block_number s g i) -> Z.of_nat i < blocks_per_block_group s ->
  mul_chk 32 (Z.of_nat g) (blocks_per_block_group s) = Ret (Z.of_nat g * blocks_per_block_group s) /\
  add_chk 32 (wrap 32 (Z.of_nat i)) (Z.of_nat g * blocks_per_block_group s) = Ret (Z.of_nat i + Z.of_nat g * blocks_per_block_group s) /\
  add_chk 32 (Z.of_nat i + Z.of_nat g * blocks_per_block_group s) (wrap 32 (special_blocks s)) = Ret (block_number s g i).
Proof.
  intros H [_ Hcl] [_ Hp] Hi. destruct (super_block_size _ _ H) as [Hs _]. destruct (block_bytes_mul s Hs) as (k & Ek & Hk).
  destruct (special_of (MkExt2 c s x false) H) as (_ & Ew & _). cbn [sb] in Ew. destruct (su_blocks _ _ H) as [Hbpg _].
  assert (0 <= special_blocks s) by (rewrite <- Ew; apply Z.mod_pos_bound; lia).
  assert (block_number s g i < 2 ^ 32) by nia. assert (0 <= Z.of_nat g * blocks_per_block_group s) by nia. unfold block_number in *.
  rewrite Ew, (wrap_small 32 (Z.of_nat i)) by (unfold in_u; lia). rewrite mul_chk_ok, !add_chk_ok by lia. done.
Qed.

(** The first clear bit is set, both counters go down by one, the block is zeroed. *)
Lemma flat_alloc_block c s x g d : super_ok s x -> disk_ok c -> group_ok s c g d -> 0 < unallocated_blocks s -> (0 < free_bits (block_bitmap s c d))%nat ->
  exists i bm, block_bitmap s c d !! i = Some false /\ (forall j, (j < i)%nat -> block_bitmap s c d !! j = Some true) /\
    bits_of bm = <[i := true]> (block_bitmap s c d) /\ length bm = block_bytes s /\ Forall is_byte bm /\
    let s' := set_unallocated_blocks s (unallocated_blocks s - 1) in
    let d' := set_unallocated_blocks_in_group d (unallocated_blocks_in_group d - 1) in
    alloc_block (Z.of_nat g) (MkExt2 c s x false) =
      Ret (MkExt2 (put_block s (commit s' x c (block_addr_for_block_usage_bitmap d) bm g d') (block_number s g i) (replicate (block_bytes s) 0)) s' x false,
           Some (block_number s g i)).
Proof.
  intros H Hc G Hu Hf. destruct (gr_bitmap _ _ _ _ G) as [Hb Hsp]. destruct (super_block_size _ _ H) as [Hs _].
  destruct (free_bit_found s c d (proj1 Hc) Hb Hf) as (loc & byte & bit & Ef & Ebit & Hclear & Hbefore & Hbits & L1 & B1).
  set (b := block_addr_for_block_usage_bitmap d) in *. set (i := (loc * 8 + bit)%nat) in *. destruct (gr_free _ _ _ _ G i Hclear) as (Hi & Hp & Hpne).
  set (bm := <[loc := _]> _) in *. exists i, bm. do 5 (split; [done|]). intros s' d'. pose proof (super_ok_set s x (unallocated_blocks s - 1) H) as H'. fold s' in H'.
  destruct (flat_read_bitmap c s x false g d H Hc G) as [E1 E2]. destruct (block_number_chk s x c g i H Hc Hp Hi) as (C1 & C2 & C3).
  destruct (flat_commit c s x s' b bm g d' H H' eq_refl Hc Hb Hsp (gr_index _ _ _ _ G) L1 B1) as (W1 & W2 & W3).
  unfold alloc_block. rewrite (so_bind_Some _ _ _ (MkExt2 c s x false) s) by done. rewrite (proj2 (Z.eqb_neq _ _)) by lia.
  rewrite (so_bind_Some _ _ _ _ _ E1). pose proof (gr_count _ _ _ _ G) as Ec.
  rewrite (proj2 (Z.eqb_neq (unallocated_blocks_in_group d) 0)) by lia. rewrite (so_bind_Some _ _ _ _ _ E2). fold b.
  rewrite (so_bind_Some _ _ _ (MkExt2 c s x false) (loc, byte)) by (unfold so_option; by rewrite Ef). rewrite Ebit. fold bm.
  replace (Z.of_nat loc * 8 + Z.of_nat bit) with (Z.of_nat i) by lia. rewrite (so_bind_lift _ _ _ _ C1), (so_bind_lift _ _ _ _ C2).
  rewrite (so_bind_Some _ _ _ (MkExt2 c s x false) (special_blocks s)) by (unfold geometry; by rewrite (proj1 (special_of (MkExt2 c s x false) H))).
  rewrite (so_bind_lift _ _ _ _ C3), (so_bind_Some _ _ _ _ _ W1). erewrite so_bind_lift by (apply sub_chk_ok; lia). fold d'.
  rewrite (so_bind_Some _ _ _ _ _ W2). erewrite so_bind_lift by (apply sub_chk_ok; lia). fold s'.
  erewrite so_bind_Some by reflexivity. cbn [backing_device extended_sb read_only]. rewrite (so_bind_try _ _ _ _ _ W3).
  rewrite (so_bind_Some _ _ _ (MkExt2 (commit s' x c b bm g d') s' x false) (Z.of_nat (block_bytes s))) by (unfold geometry; by rewrite block_size_of).
  pose proof (commit_committed s' x c b bm g d' H' Hc Hb Hsp (gr_index _ _ _ _ G) L1 B1) as M.
  assert (block_in s' (commit s' x c b bm g d') (block_number s g i)) as Hp' by (unfold block_in; rewrite (cm_length _ _ _ _ _ _ _ _ M); exact Hp).
  pose proof (flat_write_block ok Hok _ (replicate (block_bytes s) 0) _ s' x Hs (cm_disk _ _ _ _ _ _ _ _ M) Hp'
    (length_replicate _ _) ltac:(by apply Forall_replicate)) as W4.
  rewrite Nat2Z.id, (so_bind_Some _ _ _ _ _ W4). done.
Qed.

(** The group and the position of a block. *)
Lemma block_number_index (fs : Ext2FS (list Z)) g i : super_ok (sb fs) (extended_sb fs) -> Z.of_nat i < blocks_per_block_group (sb fs) ->
  get_descriptor_index_of_block_number fs (block_number (sb fs) g i) = Ret (Some (Z.of_nat g)) /\
  get_descriptor_subindex_of_block_number fs (block_number (sb fs) g i) = Ret (Some (Z.of_nat i)).
Proof.
  intros H Hi. destruct (special_of fs H) as (Es & Ew & _). destruct (su_blocks _ _ H) as [Hb _]. pose proof (block_number_special _ _ g i H) as Hs.
  unfold get_descriptor_index_of_block_number, get_descriptor_subindex_of_block_number. rewrite Es. cbn [obind]. rewrite Ew.
  rewrite (proj2 (Z.ltb_ge _ _)) by done. unfold div_chk, rem_chk. rewrite (proj2 (Z.eqb_neq _ _)) by lia. cbn [obind].
  replace (block_number (sb fs) g i - special_blocks (sb fs)) with (Z.of_nat i + Z.of_nat g * blocks_per_block_group (sb fs)) by (unfold block_number; lia).
  rewrite Z.div_add, Z.mod_add, Z.div_small, Z.mod_small by lia. by rewrite Z.add_0_l.
Qed.

(** A block in use is released: its bit is cleared, both counters go up by one.  One that
    is free already is refused. *)
Lemma flat_dealloc_block c s x g d i v : super_ok s x -> disk_ok c -> group_ok s c g d -> Z.of_nat i < blocks_per_block_group s ->
  unallocated_blocks s <> max_no_of_blocks s -> unallocated_blocks_in_group d <> blocks_per_block_group s ->
  unallocated_blocks s + 1 < 2 ^ 32 -> unallocated_blocks_in_group d + 1 < 2 ^ 16 -> block_bitmap s c d !! i = Some v ->
  if (v : bool) then
    exists bm, bits_of bm = <[i := false]> (block_bitmap s c d) /\ length bm = block_bytes s /\ Forall is_byte bm /\
    let s' := set_unallocated_blocks s (unallocated_blocks s + 1) in
    let d' := set_unallocated_blocks_in_group d (unallocated_blocks_in_group d + 1) in
    dealloc_block (block_number s g i) (MkExt2 c s x false) =
      Ret (MkExt2 (commit s' x c (block_addr_for_block_usage_bitmap d) bm g d') s' x false, Some ())
  else dealloc_block (block_number s g i) (MkExt2 c s x false) = Ret (MkExt2 c s x false, None).
Proof.
  intros H Hc G Hi Hu Hn Hu32 Hn16 Hv. destruct (gr_bitmap _ _ _ _ G) as [Hb Hsp]. pose proof (length_block_at s c _ Hb) as Lb.
  pose proof (block_at_is_byte s c (block_addr_for_block_usage_bitmap d) (proj1 Hc)) as Bb. set (b := block_addr_for_block_usage_bitmap d) in *.
  unfold block_bitmap in Hv. fold b in Hv. destruct (bit_cleared _ _ _ Bb Hv) as (byte & Hbyte & Ev & Hbits & L1 & B1). rewrite Lb in L1.
  set (fs := MkExt2 c s x false). destruct (block_number_index fs g i H Hi) as [I1 I2]. destruct (flat_read_bitmap c s x false g d H Hc G) as [E1 E2]. fold fs in E1, E2.
  set (bm := <[Z.to_nat (Z.of_nat i / 8) := _]> _) in *.
  set (s' := set_unallocated_blocks s (unallocated_blocks s + 1)). set (d' := set_unallocated_blocks_in_group d (unallocated_blocks_in_group d + 1)).
  pose proof (super_ok_set s x (unallocated_blocks s + 1) H) as H'. fold s' in H'.
  destruct (flat_commit c s x s' b bm g d' H H' eq_refl Hc Hb Hsp (gr_index _ _ _ _ G) L1 B1) as (W1 & W2 & W3). fold fs in W1.
  assert (dealloc_block (block_number s g i) fs = if v then Ret (MkExt2 (commit s' x c b bm g d') s' x false, Some ()) else Ret (fs, None)) as Ed.
  { unfold dealloc_block. rewrite (so_bind_Some _ _ _ fs s) by done. rewrite (proj2 (Z.eqb_neq _ _)) by done.
    rewrite (so_bind_Some _ _ _ fs (Z.of_nat g)) by (unfold geometry_opt; cbn [sb fs] in I1; by rewrite I1).
    rewrite (so_bind_Some _ _ _ fs (Z.of_nat i)) by (unfold geometry_opt; cbn [sb fs] in I2; by rewrite I2).
    rewrite (so_bind_Some _ _ _ _ _ E1). rewrite (so_bind_lift _ _ _ ()) by (by rewrite (proj2 (Z.eqb_neq _ _))).
    rewrite (so_bind_Some _ _ _ _ _ E2). fold b. rewrite (so_bind_lift _ _ _ byte) by exact Hbyte.
    rewrite Ev. destruct v; [|done]. cbn [negb]. fold bm. rewrite (so_bind_try _ _ _ _ _ W1).
    erewrite so_bind_lift by (by apply add_chk_ok). fold d'. rewrite (so_bind_Some _ _ _ _ _ W2). erewrite so_bind_lift by (by apply add_chk_ok). fold s'.
    erewrite so_bind_Some by reflexivity. cbn [backing_device extended_sb read_only]. by rewrite (so_bind_try _ _ _ _ _ W3). }
  destruct v; [|exact Ed]. by exists bm.
Qed.

(** * The effect of allocating *)

Record allocated (s : Ext2SuperBlock) (x : option Ext2ExtendedSuperblock) (c : list Z) (g : nat) (d : Ext2BlockGroupDescriptor) (i : nat)
    (s' : Ext2SuperBlock) (d' : Ext2BlockGroupDescriptor) (c' : list Z) : Prop := MkAllocated {
  al_first : block_bitmap s c d !! i = Some false /\ forall j, (j < i)%nat -> block_bitmap s c d !! j = Some true;
  al_bitmap : block_bitmap s' c' d' = <[i := true]> (block_bitmap s c d);
  al_length : length c' = length c;
  al_group : disk_ok c' /\ group_ok s' c' g d';
  al_zero : block_at s c' (block_number s g i) = replicate (block_bytes s) 0;
  al_blocks : forall q, special_blocks s <= q -> q <> block_number s g i -> q <> block_addr_for_block_usage_bitmap d -> block_at s c' q = block_at s c q;
  al_groups : forall h, h <> g -> Z.of_nat h < group_count s -> descriptor_at c' h = descriptor_at c h;
  al_super : take (length (superblock_bytes s' x)) (drop 1024 c') = superblock_bytes s' x;
}.

Lemma alloc_effect c s x g d : super_ok s x -> disk_ok c -> group_ok s c g d -> 0 < unallocated_blocks s -> (0 < free_bits (block_bitmap s c d))%nat ->
  let s' := set_unallocated_blocks s (unallocated_blocks s - 1) in
  let d' := set_unallocated_blocks_in_group d (unallocated_blocks_in_group d - 1) in
  exists i c', alloc_block (Z.of_nat g) (MkExt2 c s x false) = Ret (MkExt2 c' s' x false, Some (block_number s g i)) /\
    allocated s x c g d i s' d' c'.
Proof.
  intros H Hc G Hu Hf s' d'. destruct (flat_alloc_block c s x g d H Hc G Hu Hf) as (i & bm & Hi & Hbefore & Hbits & L1 & B1 & E). fold s' d' in E.
  destruct (gr_bitmap _ _ _ _ G) as [Hb Hsp]. destruct (gr_free _ _ _ _ G i Hi) as (Hlt & Hp & Hne). set (b := block_addr_for_block_usage_bitmap d) in *.
  pose proof (super_ok_set s x (unallocated_blocks s - 1) H) as H'. fold s' in H'.
  pose proof (commit_committed s' x c b bm g d' H' Hc Hb Hsp (gr_index _ _ _ _ G) L1 B1) as M. set (c1 := commit s' x c b bm g d') in *.
  exists i, (put_block s c1 (block_number s g i) (replicate (block_bytes s) 0)). split; [exact E|].
  pose proof (block_number_special s x g i H) as Hps. assert (block_in s c1 (block_number s g i)) as Hp1 by (unfold block_in; rewrite (cm_length _ _ _ _ _ _ _ _ M); exact Hp).
  pose proof (gr_count _ _ _ _ G) as Ec. pose proof (tables_before s x (block_number s g i) g H Hps (gr_index _ _ _ _ G)) as T. pose proof Hp1 as [Hp0 Hpl].
  destruct (descriptor_counts c g d (proj1 Hc)) as [[_ H16] _]; [rewrite <- (cm_length _ _ _ _ _ _ _ _ M); lia|apply G|].
  assert (group_ok s' c1 g d') as G1.
  { apply (group_ok_commit s x c g d _ bm c1 i true (unallocated_blocks_in_group d - 1) H G Hc); try done. lia. }
  pose proof (length_replicate (block_bytes s) 0) as Lz. pose proof (length_superblock_bytes s' x H') as L84.
  assert (forall a n, (a + n <= descriptor_pos g + 32)%nat -> take n (drop a (put_block s c1 (block_number s g i) (replicate (block_bytes s) 0))) = take n (drop a c1)) as Low.
  { intros a n Ha. apply splice_outside; lia. }
  split.
  - done.
  - unfold block_bitmap at 1. change (block_addr_for_block_usage_bitmap d') with b. change (block_at s' ?c b) with (block_at s c b).
    rewrite block_at_put_other by (done || destruct Hb; lia). change (block_at s c1 b) with (block_at s' c1 b). by rewrite (cm_bitmap _ _ _ _ _ _ _ _ M).
  - unfold put_block. rewrite length_splice by lia. apply M.
  - split; [|exact (group_ok_put s' x c1 g d' _ _ H' G1 Hp1 Hps Hne Lz)]. apply disk_ok_put; [apply M|done|done|by apply Forall_replicate].
  - by apply block_at_put.
  - intros q Hq Hqp Hqb. rewrite block_at_put_other; [exact (cm_blocks _ _ _ _ _ _ _ _ M q Hq Hqb)|done| |done|done].
    pose proof (tables_before s x q g H Hq (gr_index _ _ _ _ G)). unfold descriptor_pos in *. lia.
  - intros h Hh Hhg. pose proof (tables_before s x (block_number s g i) h H Hps Hhg) as Th. unfold descriptor_at. unfold put_block.
    rewrite splice_outside by lia. by rewrite (cm_descriptors _ _ _ _ _ _ _ _ M h Hh Hhg).
  - rewrite Low by (unfold descriptor_pos; lia). exact (cm_super _ _ _ _ _ _ _ _ M).
Qed.

(** Releasing the block that was allocated last gives the counters and the bitmap
    back. *)
Lemma alloc_release c s x g d : super_ok s x -> disk_ok c -> group_ok s c g d -> 0 < unallocated_blocks s <= max_no_of_blocks s ->
  unallocated_blocks s < 2 ^ 32 -> (0 < free_bits (block_bitmap s c d))%nat ->
  exists p fs c', alloc_block (Z.of_nat g) (MkExt2 c s x false) = Ret (fs, Some p) /\
    dealloc_block p fs = Ret (MkExt2 c' s x false, Some ()) /\ disk_ok c' /\ group_ok s c' g d /\
    block_bitmap s c' d = block_bitmap s c d /\
    forall q, special_blocks s <= q -> q <> p -> q <> block_addr_for_block_usage_bitmap d -> block_at s c' q = block_at s c q.
Proof.
  intros H Hc G Hu Hu32 Hf. destruct (alloc_effect c s x g d H Hc G ltac:(lia) Hf) as (i & c1 & E & A).
  set (s1 := set_unallocated_blocks s _) in *. set (d1 := set_unallocated_blocks_in_group d _) in *.
  pose proof (super_ok_set s x (unallocated_blocks s - 1) H) as H1. fold s1 in H1. destruct (al_group _ _ _ _ _ _ _ _ _ A) as [Hc1 G1].
  destruct (al_first _ _ _ _ _ _ _ _ _ A) as [Hi _]. destruct (gr_free _ _ _ _ G i Hi) as (Hlt & Hp & Hne). destruct (gr_bitmap _ _ _ _ G) as [Hb Hsp].
  pose proof (tables_before s x _ g H Hsp (gr_index _ _ _ _ G)) as T. pose proof Hb as [_ Hbl].
  destruct (descriptor_counts c g d (proj1 Hc) ltac:(lia) (gr_descriptor _ _ _ _ G)) as [[H0 H16] _].
  assert (unallocated_blocks_in_group d <= blocks_per_block_group s) as Hle.
  { rewrite (gr_count _ _ _ _ G). destruct (su_blocks _ _ H) as [[? _] _]. apply free_bits_bound; [lia|]. intros j Hj. by apply (gr_free _ _ _ _ G). }
  assert (block_bitmap s1 c1 d1 !! i = Some true) as Hi1. { rewrite (al_bitmap _ _ _ _ _ _ _ _ _ A). apply list_lookup_insert_eq. by eapply lookup_lt_Some. }
  pose proof (gr_count _ _ _ _ G) as Ec. set (u := unallocated_blocks_in_group d) in *.
  assert (unallocated_blocks s1 + 1 = unallocated_blocks s) as Eu by (cbn; lia). assert (unallocated_blocks_in_group d1 + 1 = u) as Ed by (cbn; lia).
  destruct (flat_dealloc_block c1 s1 x g d1 i true H1 Hc1 G1 Hlt) as (bm & Hbits & L1 & B1 & Er); [cbn; lia|cbn; lia|cbn; lia|cbn; lia|exact Hi1|].
  rewrite Eu, Ed in Er. assert (set_unallocated_blocks s1 (unallocated_blocks s) = s) as Es by (by destruct s). assert (set_unallocated_blocks_in_group d1 u = d) as Ed' by (by destruct d).
  rewrite Es, Ed' in Er. change (block_addr_for_block_usage_bitmap d1) with (block_addr_for_block_usage_bitmap d) in Er.
  assert (block_in s c1 (block_addr_for_block_usage_bitmap d)) as Hb1 by exact (proj1 (gr_bitmap _ _ _ _ G1)).
  pose proof (commit_committed s x c1 _ bm g d H Hc1 Hb1 Hsp (gr_index _ _ _ _ G) L1 B1) as M. set (c2 := commit _ _ _ _ _ _ _) in *.
  exists (block_number s g i), (MkExt2 c1 s1 x false), c2. split; [exact E|]. split; [exact Er|]. split; [apply M|].
  assert (block_bitmap s c2 d = block_bitmap s c d) as Eb.
  { unfold block_bitmap at 1. rewrite (cm_bitmap _ _ _ _ _ _ _ _ M), Hbits, (al_bitmap _ _ _ _ _ _ _ _ _ A), list_insert_insert_eq. by apply list_insert_id. }
  split; [|split; [exact Eb|]].
  - rewrite <- Es, <- Ed' in M. rewrite <- Es, <- Ed'. refine (group_ok_commit s1 x c1 g d1 _ bm c2 i false u H1 G1 Hc1 Hi1 Hbits _ _ _ M); [cbn; lia|lia|].
    intros _. split; [exact Hlt|]. split; [|exact Hne]. unfold block_in. rewrite (al_length _ _ _ _ _ _ _ _ _ A). exact Hp.
  - intros q Hq Hqp Hqb. rewrite (cm_blocks _ _ _ _ _ _ _ _ M q Hq Hqb). by apply (al_blocks _ _ _ _ _ _ _ _ _ A).
Qed.
End Alloc.
