(* ===== verification/Ext2Table.v ===== *)
(** Inodes on disk: reading and writing them in the table of their group, and
    releasing them. *)
From S2P Require Import Prelude MachineInt Str PackedStruct Device Path Vfs Ext2 Ext2Inode Ext2Dir Ext2Flat Ext2Alloc.
From stdpp Require Import list.
#[local] Open Scope Z_scope.

(** Fields that fit their integers, arrays of their lengths. *)
Record inode_ok (i : Ext2RawInode) : Prop := MkInodeOk {
  ino_values : values_ok inode_sizes (inode_values i);
  ino_direct : length (direct_block_pointers i) = 12%nat;
  ino_os : length (os_value_2 i) = 3%nat;
}.

Definition inode_bytes (i : Ext2RawInode) : list Z := join_fields Lsb inode_sizes (inode_values i).

(** The group of an inode, and where it is: in the table the descriptor names. *)
Definition inode_group (s : Ext2SuperBlock) (a : Z) : nat := Z.to_nat ((a - 1) / inodes_per_block_group s).
Definition inode_index (s : Ext2SuperBlock) (a : Z) : nat := Z.to_nat ((a - 1) mod inodes_per_block_group s).
Definition inode_pos (s : Ext2SuperBlock) (isize : nat) (d : Ext2BlockGroupDescriptor) (a : Z) : nat :=
  (Z.to_nat (block_addr_for_inode_table d) * block_bytes s + inode_index s a * isize)%nat.

(** The size of an inode on disk: 128 bytes, or a multiple of it that the extended
    superblock gives. *)
Definition inode_size_of (s : Ext2SuperBlock) (x : option Ext2ExtendedSuperblock) : option Z :=
  if major_version s >=? 1 then inode_size <$> x else Some 128.

Record inode_here (s : Ext2SuperBlock) (x : option Ext2ExtendedSuperblock) (c : list Z) (isize : nat) (a : Z) (d : Ext2BlockGroupDescriptor) : Prop := MkHere {
  ih_addr : 0 < a;
  ih_group : Z.of_nat (inode_group s a) < group_count s;
  ih_descriptor : descriptor_at c (inode_group s a) = Some d;
  ih_size : inode_size_of s x = Some (Z.of_nat isize) /\ (isize mod 128 = 0)%nat /\ 0 < Z.of_nat isize < 2 ^ 16;
  ih_table : special_blocks s <= block_addr_for_inode_table d;
  ih_inside : (inode_pos s isize d a + 128 <= length c)%nat;
}.

Lemma length_inode_bytes i : inode_ok i -> length (inode_bytes i) = 128%nat.
Proof. intros H. unfold inode_bytes. rewrite join_fields_length; [done|]. eapply list.Forall2_length. apply H. Qed.

Lemma inode_of_values i : inode_ok i -> inode_of (inode_values i) = Some i.
Proof.
  intros [_ Hd Ho]. destruct i as [? ? ? ? ? ? ? ? ? ? ? ? dir ? ? ? ? ? ? ? os]. cbn [direct_block_pointers os_value_2] in Hd, Ho.
  do 12 (destruct dir as [|? dir]; [done|]). destruct dir; [|done]. do 3 (destruct os as [|? os]; [done|]). destruct os; [|done]. reflexivity.
Qed.

Section Table.
Context {PS : PackedStruct} {PSok : PackedStructOk PS} (ok : nat -> nat -> bool) (Hok : serves_sectors ok).
#[local] Instance flat_table : DeviceFile (list Z) := flat_device ok.

Lemma inode_before s x c isize a d : super_ok s x -> inode_here s x c isize a d ->
  (descriptor_pos (inode_group s a) + 32 <= inode_pos s isize d a)%nat /\ (inode_pos s isize d a mod 512 + 128 <= 512)%nat.
Proof.
  intros H I. destruct (super_block_size _ _ H) as [Hs _]. split.
  - pose proof (tables_before s x _ _ H (ih_table _ _ _ _ _ _ I) (ih_group _ _ _ _ _ _ I)). unfold inode_pos. lia.
  - destruct (ih_size _ _ _ _ _ _ I) as (_ & Hm & Hi). destruct (block_bytes_mul s Hs) as (m & Em & _). unfold inode_pos. rewrite Em.
    pose proof (Nat.div_mod_eq isize 128) as Ei. rewrite Hm, Nat.add_0_r in Ei. rewrite Ei.
    set (k := (inode_index s a * (isize / 128))%nat). pose proof (Nat.div_mod_eq k 4). assert (k mod 4 < 4)%nat by (apply Nat.mod_upper_bound; lia).
    replace (inode_index s a * (128 * (isize / 128)))%nat with (128 * k)%nat by (unfold k; lia). clearbody k.
    replace (Z.to_nat (block_addr_for_inode_table d) * (512 * m) + 128 * k)%nat
      with (128 * (k mod 4) + (Z.to_nat (block_addr_for_inode_table d) * m + k / 4) * 512)%nat by lia.
    rewrite Nat.Div0.mod_add, Nat.mod_small; lia.
Qed.

(** The address of an inode is computed without overflow. *)
Lemma inode_address s x c r isize a d : super_ok s x -> disk_ok c -> inode_here s x c isize a d ->
  get_descriptor_index_of_inode_addr (MkExt2 c s x r) a = Ret (Z.of_nat (inode_group s a)) /\
  get_descriptor_subindex_of_inode_addr (MkExt2 c s x r) a = Ret (Z.of_nat (inode_index s a)) /\
  inode_addr_in_table (MkExt2 c s x r) d a = Ret (Z.of_nat (inode_pos s isize d a)).
Proof.
  intros H [_ Hc] I. pose proof (su_inodes _ _ H) as Hi. pose proof (ih_addr _ _ _ _ _ _ I) as Ha. destruct (super_block_size _ _ H) as [Hs _].
  assert (Z.of_nat (inode_group s a) = (a - 1) / inodes_per_block_group s) as Eg by (apply Z2Nat.id, Z.div_pos; lia).
  assert (Z.of_nat (inode_index s a) = (a - 1) mod inodes_per_block_group s) as Ek by (apply Z2Nat.id, Z.mod_pos_bound; lia).
  assert (get_descriptor_subindex_of_inode_addr (MkExt2 c s x r) a = Ret (Z.of_nat (inode_index s a))) as E2.
  { unfold get_descriptor_subindex_of_inode_addr, rem_chk. rewrite sub_chk_ok by lia. cbn [obind sb]. rewrite (proj2 (Z.eqb_neq _ _)) by lia. by rewrite Ek. }
  split_and!; [|exact E2|].
  - unfold get_descriptor_index_of_inode_addr, div_chk. rewrite sub_chk_ok by lia. cbn [obind sb]. rewrite (proj2 (Z.eqb_neq _ _)) by lia. by rewrite Eg.
  - destruct (ih_size _ _ _ _ _ _ I) as (Ez & _ & Hz). pose proof (ih_inside _ _ _ _ _ _ I) as Hin. pose proof (ih_table _ _ _ _ _ _ I) as Ht.
    assert (get_ondisk_inode_size (MkExt2 c s x r) = Ret (Z.of_nat isize)) as E3.
    { unfold get_ondisk_inode_size, inode_size_of in *. cbn [sb extended_sb]. destruct (major_version s >=? 1); [|by injection Ez as <-].
      destruct x as [e|]; [|done]. injection Ez as Ez. cbn [unwrap obind]. by rewrite Ez. }
    pose proof (tables_before s x _ _ H Ht (ih_group _ _ _ _ _ _ I)) as T. unfold inode_pos in *.
    assert (0 <= block_addr_for_inode_table d) by lia. unfold inode_addr_in_table. rewrite block_size_of by done. cbn [obind sb].
    rewrite mul_chk_ok by nia. cbn [obind]. rewrite E2. cbn [obind]. rewrite E3. cbn [obind]. rewrite wrap_small by (unfold in_u; lia).
    rewrite mul_chk_ok by lia. cbn [obind]. rewrite add_chk_ok; [f_equal|]; nia.
Qed.

Lemma flat_read_inode s x c r isize a d i : super_ok s x -> disk_ok c -> inode_here s x c isize a d -> inode_ok i ->
  take 128 (drop (inode_pos s isize d a) c) = inode_bytes i -> read_inode a (MkExt2 c s x r) = Ret (MkExt2 c s x r, Some i).
Proof.
  intros H Hc I Hi Eb. destruct (inode_address s x c r isize a d H Hc I) as (E1 & _ & E3). destruct (inode_before s x c isize a d H I) as [Hb Hal].
  pose proof (ih_inside _ _ _ _ _ _ I) as Hin. unfold read_inode.
  rewrite (so_bind_Some _ _ _ (MkExt2 c s x r) (Z.of_nat (inode_group s a))) by (unfold geometry; by rewrite E1).
  erewrite so_bind_Some; [|apply (flat_read_descriptor ok Hok); [done|done|apply I|lia|apply I]].
  rewrite (so_bind_Some _ _ _ (MkExt2 c s x r) (Z.of_nat (inode_pos s isize d a))) by (unfold geometry; by rewrite E3).
  change (packed_size inode_sizes) with (Z.of_nat 128). erewrite so_bind_Some; [|apply (flat_read ok Hok); [lia|done|by left]].
  unfold so_unpack, so_option. rewrite Eb. unfold inode_bytes. rewrite unpack_join by apply Hi. cbn [mbind option_bind]. by rewrite inode_of_values.
Qed.

Lemma flat_write_inode s x c isize a d i : super_ok s x -> disk_ok c -> inode_here s x c isize a d -> inode_ok i ->
  write_inode a i (MkExt2 c s x false) = Ret (MkExt2 (splice c (inode_pos s isize d a) (inode_bytes i)) s x false, Some ()).
Proof.
  intros H Hc I Hi. destruct (inode_address s x c false isize a d H Hc I) as (E1 & _ & E3). destruct (inode_before s x c isize a d H I) as [Hb Hal].
  pose proof (ih_inside _ _ _ _ _ _ I) as Hin. pose proof (length_inode_bytes i Hi) as Li. unfold write_inode.
  rewrite (so_bind_Some _ _ _ (MkExt2 c s x false) (Z.of_nat (inode_group s a))) by (unfold geometry; by rewrite E1).
  erewrite so_bind_Some; [|apply (flat_read_descriptor ok Hok); [done|done|apply I|lia|apply I]].
  rewrite (so_bind_Some _ _ _ (MkExt2 c s x false) (Z.of_nat (inode_pos s isize d a))) by (unfold geometry; by rewrite E3).
  rewrite (so_bind_Some _ _ _ (MkExt2 c s x false) (inode_bytes i)).
  2:{ unfold so_pack, so_option. rewrite pack_bytes_spec; [done|]. eapply list.Forall2_length. apply Hi. }
  erewrite so_bind_Some; [done|]. apply (flat_write ok Hok); rewrite ?Li; [lia|done|apply join_fields_is_byte|by left].
Qed.

Lemma descriptors_before s x c isize a d g : super_ok s x -> inode_here s x c isize a d -> Z.of_nat g < group_count s ->
  (descriptor_pos g + 32 <= inode_pos s isize d a)%nat.
Proof. intros H I Hg. pose proof (tables_before s x _ g H (ih_table _ _ _ _ _ _ I) Hg). unfold inode_pos. lia. Qed.

(** After a write of an inode the tables are where they were. *)
Lemma inode_here_splice s x c isize a d a' d' i : super_ok s x -> inode_here s x c isize a d -> inode_ok i ->
  inode_here s x c isize a' d' -> inode_here s x (splice c (inode_pos s isize d a) (inode_bytes i)) isize a' d'.
Proof.
  intros H I Hi I'. pose proof (ih_inside _ _ _ _ _ _ I) as Hin. pose proof (length_inode_bytes i Hi) as Li. destruct I' as [? Hg Hdesc ? ? ?].
  pose proof (descriptors_before s x c isize a d _ H I Hg) as Hb. split; try done; [|rewrite length_splice; lia].
  unfold descriptor_at in *. rewrite splice_outside; [done|lia|lia].
Qed.

(** Inodes of one group do not overlap. *)
Lemma inodes_apart s x c isize a a' d : super_ok s x -> inode_here s x c isize a d -> inode_here s x c isize a' d ->
  inode_group s a = inode_group s a' -> a <> a' ->
  (inode_pos s isize d a + 128 <= inode_pos s isize d a' \/ inode_pos s isize d a' + 128 <= inode_pos s isize d a)%nat.
Proof.
  intros H I I' Eg Hne. pose proof (su_inodes _ _ H) as Hi. pose proof (ih_addr _ _ _ _ _ _ I). pose proof (ih_addr _ _ _ _ _ _ I').
  destruct (ih_size _ _ _ _ _ _ I) as (_ & Hm & Hz). assert (128 <= isize)%nat by (pose proof (Nat.div_mod_eq isize 128); lia).
  assert (inode_index s a <> inode_index s a') as Hidx.
  { unfold inode_index, inode_group in *. intros E. apply Hne. pose proof (Z.div_mod (a - 1) (inodes_per_block_group s) ltac:(lia)).
    pose proof (Z.div_mod (a' - 1) (inodes_per_block_group s) ltac:(lia)). pose proof (Z.mod_pos_bound (a - 1) _ Hi). pose proof (Z.mod_pos_bound (a' - 1) _ Hi).
    pose proof (Z.div_pos (a - 1) _ ltac:(lia) Hi). pose proof (Z.div_pos (a' - 1) _ ltac:(lia) Hi). 
    assert ((a - 1) / inodes_per_block_group s = (a' - 1) / inodes_per_block_group s) as E1 by (apply Z2Nat.inj; done).
    assert ((a - 1) mod inodes_per_block_group s = (a' - 1) mod inodes_per_block_group s) as E2 by (apply Z2Nat.inj; lia).
    rewrite E1, E2 in *. lia. }
  unfold inode_pos. assert (inode_index s a < inode_index s a' \/ inode_index s a' < inode_index s a)%nat as [?|?] by lia; [left|right]; nia.
Qed.

(** * Releasing an inode *)

Definition inode_bitmap (s : Ext2SuperBlock) (c : list Z) (d : Ext2BlockGroupDescriptor) : list bool :=
  bits_of (block_at s c (block_addr_for_inode_usage_bitmap d)).

Lemma super_ok_set_inodes s x n : super_ok s x -> super_ok (set_unallocated_inodes s n) x.
Proof. intros []. by split. Qed.

(** The bit of an inode in use is cleared, and both counters go up by one. *)
Lemma flat_dealloc_inode s x c isize a d : super_ok s x -> disk_ok c -> inode_here s x c isize a d ->
  block_in s c (block_addr_for_inode_usage_bitmap d) -> special_blocks s <= block_addr_for_inode_usage_bitmap d ->
  unallocated_inodes s <> max_no_of_inodes s -> unallocated_inodes_in_group d <> inodes_per_block_group s ->
  unallocated_inodes s + 1 < 2 ^ 32 -> unallocated_inodes_in_group d + 1 < 2 ^ 16 -> inode_bitmap s c d !! inode_index s a = Some true ->
  exists bm, bits_of bm = <[inode_index s a := false]> (inode_bitmap s c d) /\ length bm = block_bytes s /\ Forall is_byte bm /\
  let s' := set_unallocated_inodes s (unallocated_inodes s + 1) in
  let d' := set_unallocated_inodes_in_group d (unallocated_inodes_in_group d + 1) in
  dealloc_inode a (MkExt2 c s x false) =
    Ret (MkExt2 (commit s' x c (block_addr_for_inode_usage_bitmap d) bm (inode_group s a) d') s' x false, Some ()).
Proof.
  intros H Hc I Hb Hsp Hu Hn Hu32 Hn16 Hv. destruct (super_block_size _ _ H) as [Hs _]. pose proof (length_block_at s c _ Hb) as Lb.
  pose proof (block_at_is_byte s c (block_addr_for_inode_usage_bitmap d) (proj1 Hc)) as Bb. set (b := block_addr_for_inode_usage_bitmap d) in *.
  set (i := inode_index s a) in *. destruct (bit_cleared _ _ _ Bb Hv) as (byte & Hbyte & Ev & Hbits & L1 & B1). rewrite Lb in L1.
  set (fs := MkExt2 c s x false). destruct (inode_address s x c false isize a d H Hc I) as (I1 & I2 & _). fold fs i in I1, I2.
  destruct (inode_before s x c isize a d H I) as [Hbe _]. pose proof (ih_inside _ _ _ _ _ _ I) as Hin.
  set (bm := <[Z.to_nat (Z.of_nat i / 8) := _]> _) in *. exists bm. do 3 (split; [done|]).
  intros s' d'. pose proof (super_ok_set_inodes s x (unallocated_inodes s + 1) H) as H'. fold s' in H'.
  destruct (flat_commit ok Hok c s x s' b bm (inode_group s a) d' H H' eq_refl Hc Hb Hsp (ih_group _ _ _ _ _ _ I) L1 B1) as (W1 & W2 & W3). fold fs in W1.
  unfold dealloc_inode. rewrite (so_bind_Some _ _ _ fs s) by done. rewrite (proj2 (Z.eqb_neq _ _)) by done.
  rewrite (so_bind_Some _ _ _ fs (Z.of_nat (inode_group s a))) by (unfold geometry; by rewrite I1).
  rewrite (so_bind_Some _ _ _ fs (Z.of_nat i)) by (unfold geometry; by rewrite I2).
  erewrite so_bind_Some; [|apply (flat_read_descriptor ok Hok); [done|done|apply I|lia|apply I]]. rewrite (proj2 (Z.eqb_neq _ _)) by done.
  erewrite so_bind_Some; [|apply (flat_read_block ok Hok); done]. fold b fs. rewrite (so_bind_lift _ _ _ byte) by exact Hbyte.
  rewrite Ev. cbn [negb]. fold bm. rewrite (so_bind_Some _ _ _ _ _ W1).
  erewrite so_bind_lift by (by apply add_chk_ok). fold d'. rewrite (so_bind_Some _ _ _ _ _ W2). erewrite so_bind_lift by (by apply add_chk_ok). fold s'.
  erewrite so_bind_Some by reflexivity. cbn [backing_device extended_sb read_only]. by rewrite (so_bind_try _ _ _ _ _ W3).
Qed.

(** * One link less *)

Lemma inode_ok_links i n : inode_ok i -> in_u 16 n -> inode_ok (set_links i n).
Proof.
  intros [V D O] Hn. split; [|done|done]. change (inode_values (set_links i n)) with (<[8%nat := n]> (inode_values i)).
  change inode_sizes with (<[8%nat := 2%nat]> inode_sizes). by apply Forall2_insert.
Qed.

(** An inode in use whose group can take it back. *)
Record releasable (s : Ext2SuperBlock) (c : list Z) (isize : nat) (a : Z) (d : Ext2BlockGroupDescriptor) : Prop := MkReleasable {
  re_bitmap : block_in s c (block_addr_for_inode_usage_bitmap d) /\ special_blocks s <= block_addr_for_inode_usage_bitmap d;
  re_super : unallocated_inodes s <> max_no_of_inodes s /\ unallocated_inodes s + 1 < 2 ^ 32;
  re_group : unallocated_inodes_in_group d <> inodes_per_block_group s /\ unallocated_inodes_in_group d + 1 < 2 ^ 16;
  re_used : inode_bitmap s c d !! inode_index s a = Some true;
  re_apart : let b := (Z.to_nat (block_addr_for_inode_usage_bitmap d) * block_bytes s)%nat in
    (inode_pos s isize d a + 128 <= b \/ b + block_bytes s <= inode_pos s isize d a)%nat;
}.

(** Inode [a] is free again: its bit is clear and the other bits are as they were, and
    the counters of its group and of the superblock are one higher, on disk too. *)
Record inode_released (s : Ext2SuperBlock) (x : option Ext2ExtendedSuperblock) (c : list Z) (a : Z) (d : Ext2BlockGroupDescriptor)
    (s' : Ext2SuperBlock) (c' : list Z) : Prop := MkInodeReleased {
  ir_super : s' = set_unallocated_inodes s (unallocated_inodes s + 1);
  ir_super_disk : take (length (superblock_bytes s' x)) (drop 1024 c') = superblock_bytes s' x;
  ir_group : descriptor_at c' (inode_group s a) = Some (set_unallocated_inodes_in_group d (unallocated_inodes_in_group d + 1));
  ir_bitmap : inode_bitmap s c' d = <[inode_index s a := false]> (inode_bitmap s c d);
}.

(** The disk after the removal of a link of inode [a]: the inode has one link less; the
    blocks other than the inode bitmap and the one with the inode are as before. *)
Record unlinked (s : Ext2SuperBlock) (c : list Z) (isize : nat) (a : Z) (d : Ext2BlockGroupDescriptor) (i : Ext2RawInode) (c' : list Z) : Prop := MkUnlinked {
  un_disk : disk_ok c' /\ length c' = length c;
  un_inode : take 128 (drop (inode_pos s isize d a) c') = inode_bytes (set_links i (hard_links_to_inode i - 1));
  un_blocks : forall q, special_blocks s <= q -> q <> block_addr_for_inode_usage_bitmap d ->
    (inode_pos s isize d a + 128 <= Z.to_nat q * block_bytes s \/ Z.to_nat q * block_bytes s + block_bytes s <= inode_pos s isize d a)%nat ->
    block_at s c' q = block_at s c q;
}.

Lemma unlinked_splice s c c1 isize a d i : disk_ok c1 -> length c1 = length c -> inode_ok (set_links i (hard_links_to_inode i - 1)) ->
  (inode_pos s isize d a + 128 <= length c)%nat ->
  (forall q, special_blocks s <= q -> q <> block_addr_for_inode_usage_bitmap d -> block_at s c1 q = block_at s c q) ->
  unlinked s c isize a d i (splice c1 (inode_pos s isize d a) (inode_bytes (set_links i (hard_links_to_inode i - 1)))).
Proof.
  intros Hc1 L1 Hi Hin Hb. pose proof (length_inode_bytes _ Hi) as Li. split.
  - split; [apply disk_ok_splice; [done|apply join_fields_is_byte|lia]|rewrite length_splice; lia].
  - rewrite <- Li at 1. apply splice_read. lia.
  - intros q Hq Hne Hap. rewrite block_at_apart by lia. by apply Hb.
Qed.

(** Another link remains: the inode is written back. *)
Lemma flat_unlink_linked s x c isize a d i : super_ok s x -> disk_ok c -> inode_here s x c isize a d -> inode_ok i ->
  take 128 (drop (inode_pos s isize d a) c) = inode_bytes i -> 2 <= hard_links_to_inode i < 2 ^ 16 ->
  exists c', unlink_inode a (MkExt2 c s x false) = Ret (MkExt2 c' s x false, Some ()) /\ unlinked s c isize a d i c'.
Proof.
  intros H Hc I Hi Eb Hl. assert (inode_ok (set_links i (hard_links_to_inode i - 1))) as Hi' by (apply inode_ok_links; [done|unfold in_u; lia]).
  eexists. split; [|by apply (unlinked_splice s c c); [| | |apply I|]].
  unfold unlink_inode. erewrite so_bind_Some by (unfold so_expect; by rewrite (flat_read_inode s x c false isize a d i)).
  rewrite (proj2 (Z.geb_le _ _)) by lia. rewrite (proj2 (Z.eqb_neq _ _)) by lia. erewrite so_bind_Some by reflexivity. by apply flat_write_inode.
Qed.

(** It was the last link of an empty file: the inode is released. *)
Lemma flat_unlink_last s x c isize a d i : super_ok s x -> disk_ok c -> inode_here s x c isize a d -> inode_ok i ->
  take 128 (drop (inode_pos s isize d a) c) = inode_bytes i -> hard_links_to_inode i = 1 -> Ext2Inode.get_size i = 0 -> releasable s c isize a d ->
  exists c' s', unlink_inode a (MkExt2 c s x false) = Ret (MkExt2 c' s' x false, Some ()) /\
    unlinked s c isize a d i c' /\ inode_released s x c a d s' c'.
Proof.
  intros H Hc I Hi Eb Hl Hz [[Hb Hsp] [Hu Hu32] [Hn Hn16] Hv Hap].
  destruct (flat_dealloc_inode s x c isize a d H Hc I Hb Hsp Hu Hn Hu32 Hn16 Hv) as (bm & Hbits & L1 & B1 & Ed).
  set (s' := set_unallocated_inodes s _) in *. set (d' := set_unallocated_inodes_in_group d _) in *. set (b := block_addr_for_inode_usage_bitmap d) in *.
  pose proof (super_ok_set_inodes s x (unallocated_inodes s + 1) H) as H'. fold s' in H'.
  pose proof (commit_committed s' x c b bm (inode_group s a) d' H' Hc Hb Hsp (ih_group _ _ _ _ _ _ I) L1 B1) as M. set (c1 := commit _ _ _ _ _ _ _) in *.
  assert (inode_ok (set_links i (hard_links_to_inode i - 1))) as Hi' by (apply inode_ok_links; [done|unfold in_u; lia]).
  pose proof (inode_before s x c isize a d H I) as [Hbe _]. pose proof (ih_inside _ _ _ _ _ _ I) as Hin.
  assert (descriptor_at c1 (inode_group s a) = Some d') as Ed1.
  { apply descriptor_at_bytes; [apply M|]. destruct (descriptor_at_spec c (inode_group s a) d (proj1 Hc) ltac:(lia) (ih_descriptor _ _ _ _ _ _ I)) as [V _].
    change (descriptor_values d') with (<[4%nat := unallocated_inodes_in_group d + 1]> (descriptor_values d)).
    change descriptor_sizes with (<[4%nat := 2%nat]> descriptor_sizes). apply Forall2_insert; [done|].
    unfold values_ok, descriptor_values, descriptor_sizes in V. do 5 apply Forall2_cons in V as [? V]. destruct H4. split; [lia|done]. }
  assert (inode_here s' x c1 isize a d') as I' by (destruct I; split; try done; rewrite (cm_length _ _ _ _ _ _ _ _ M); done).
  pose proof (length_inode_bytes _ Hi') as Li. pose proof (cm_length _ _ _ _ _ _ _ _ M) as L1'. pose proof (length_superblock_bytes s' x H') as L84.
  exists (splice c1 (inode_pos s isize d a) (inode_bytes (set_links i (hard_links_to_inode i - 1)))), s'.
  split; [|split; [apply (unlinked_splice s c c1); [apply M|apply M|done|done|exact (cm_blocks _ _ _ _ _ _ _ _ M)]|split; [done|..]]].
  2:{ rewrite splice_outside by (unfold descriptor_pos in *; lia). exact (cm_super _ _ _ _ _ _ _ _ M). }
  2:{ unfold descriptor_at. rewrite splice_outside by lia. exact Ed1. }
  2:{ rewrite <- Hbits. unfold inode_bitmap. fold b. rewrite block_at_apart by (cbv zeta in Hap; fold b in Hap; lia). f_equal. exact (cm_bitmap _ _ _ _ _ _ _ _ M). }
  unfold unlink_inode. erewrite so_bind_Some by (unfold so_expect; by rewrite (flat_read_inode s x c false isize a d i)).
  rewrite (proj2 (Z.geb_le _ _)) by lia. rewrite (proj2 (Z.eqb_eq (hard_links_to_inode i - 1) 0)) by lia. rewrite Hz. cbn [Z.eqb negb].
  erewrite so_bind_Some; [|erewrite so_bind_Some by exact Ed; reflexivity].
  exact (flat_write_inode s' x c1 isize a d' _ H' (cm_disk _ _ _ _ _ _ _ _ M) I' Hi').
Qed.

(** It is the last link of a file with data: nothing is done. *)
Lemma flat_unlink_refused s x c isize a d i : super_ok s x -> disk_ok c -> inode_here s x c isize a d -> inode_ok i ->
  take 128 (drop (inode_pos s isize d a) c) = inode_bytes i -> hard_links_to_inode i = 1 -> Ext2Inode.get_size i <> 0 ->
  unlink_inode a (MkExt2 c s x false) = Ret (MkExt2 c s x false, None).
Proof.
  intros H Hc I Hi Eb Hl Hz. unfold unlink_inode. erewrite so_bind_Some by (unfold so_expect; by rewrite (flat_read_inode s x c false isize a d i)).
  rewrite Hl. apply Z.eqb_neq in Hz. simpl. rewrite Hz. done.
Qed.
End Table.
