(* ===== verification/Ext2Unlink.v ===== *)
(** Directory entries: what [get_entries] finds in the bytes of a folder, and what
    removing an entry changes; then removing an entry of a folder as a whole operation
    on a sequence of bytes. *)
From S2P Require Import Prelude MachineInt Device Str Path Vfs PackedStruct Ext2 Ext2Inode Ext2Dir Ext2Flat Ext2Tree Ext2Bytes Ext2Alloc Ext2Table.
From stdpp Require Import list.
From stdpp Require Import list sets.
#[local] Open Scope Z_scope.

(** An entry as it is on disk: header, name, and what fills it up. *)
Record Entry := MkEntry { e_header : Ext2DirectoryEntryHeader; e_name : str; e_pad : list Z }.

Definition header_bytes (h : Ext2DirectoryEntryHeader) : list Z := join_fields Lsb header_sizes (header_values h).
Definition entry_image (e : Entry) : list Z := header_bytes (e_header e) ++ as_bytes (e_name e) ++ e_pad e.
Definition dir_image (es : list Entry) : list Z := concat (entry_image <$> es).

(** The size is that of the whole entry, and the name's length that of the name. *)
Record entry_ok (e : Entry) : Prop := MkEntryOk {
  en_values : values_ok header_sizes (header_values (e_header e));
  en_size : entry_size (e_header e) = Z.of_nat (8 + length (as_bytes (e_name e)) + length (e_pad e));
  en_name : name_length_low8 (e_header e) = Z.of_nat (length (as_bytes (e_name e)));
  en_chars : Forall char_ok (e_name e);
}.

(** The entries in use, with the index of their first byte. *)
Fixpoint entries_from (start : Z) (es : list Entry) : list DirEntry :=
  match es with
  | [] => []
  | e :: es =>
      if entry_inode (e_header e) =? 0 then entries_from (start + entry_size (e_header e)) es
      else (start, e_header e, e_name e) :: entries_from (start + entry_size (e_header e)) es
  end.

Lemma length_header_bytes h : length (header_bytes h) = 8%nat.
Proof. unfold header_bytes. by rewrite join_fields_length. Qed.

Lemma length_entry_image e : entry_ok e -> Z.of_nat (length (entry_image e)) = entry_size (e_header e).
Proof. intros H. unfold entry_image. rewrite (en_size _ H), !length_app, length_header_bytes. lia. Qed.

Lemma bytes_range_at pre l post : bytes_range (pre ++ l ++ post) (Z.of_nat (length pre)) (Z.of_nat (length pre + length l)) = Ret l.
Proof.
  unfold bytes_range. rewrite !length_app, (proj2 (Z.leb_le _ _)) by lia. rewrite Nat2Z.id, drop_app_length.
  replace (Z.to_nat _) with (length l) by lia. by rewrite take_app_length.
Qed.

Section Entries.
Context {PS : PackedStruct} {PSok : PackedStructOk PS}.

Lemma parse_entries_at raw pre es (n : nat) : Forall entry_ok es -> raw = pre ++ dir_image es -> (length es < n)%nat ->
  parse_entries raw (Z.of_nat (length pre)) n = Ret (entries_from (Z.of_nat (length pre)) es).
Proof.
  intros H. revert pre n. induction H as [|e es He _ IH]; intros pre n Hraw Hn; (destruct n as [|n]; [lia|]); cbn [parse_entries entries_from].
  { rewrite Hraw, app_nil_r, Z.ltb_irrefl. done. }
  unfold dir_image in Hraw. cbn [fmap list_fmap concat] in Hraw. fold (dir_image es) in Hraw. pose proof (length_entry_image e He) as Li.
  set (h := header_bytes (e_header e)). pose proof (length_header_bytes (e_header e)) as L8. fold h in L8.
  assert (bytes_range raw (Z.of_nat (length pre)) (Z.of_nat (length pre) + get_ondisk_directory_entry_header_size) = Ret h) as B1.
  { replace (Z.of_nat (length pre) + get_ondisk_directory_entry_header_size) with (Z.of_nat (length pre + length h)) by (rewrite L8; unfold get_ondisk_directory_entry_header_size; lia).
    rewrite Hraw. unfold entry_image. fold h. rewrite <- app_assoc. apply bytes_range_at. }
  assert (bytes_range raw (Z.of_nat (length pre) + get_ondisk_directory_entry_header_size)
    (Z.of_nat (length pre) + get_ondisk_directory_entry_header_size + name_length_low8 (e_header e)) = Ret (as_bytes (e_name e))) as B2.
  { pose proof (bytes_range_at (pre ++ h) (as_bytes (e_name e)) (e_pad e ++ dir_image es)) as Br. rewrite length_app, L8, <- !app_assoc in Br.
    rewrite (en_name _ He), Hraw. unfold entry_image. fold h. rewrite <- !app_assoc. unfold get_ondisk_directory_entry_header_size. rewrite !Nat2Z.inj_add in Br. exact Br. }
  rewrite (proj2 (Z.ltb_lt _ _)) by (rewrite Hraw; unfold entry_image; fold h; rewrite !length_app; lia). rewrite B1. cbn [obind].
  unfold h, header_bytes. rewrite unpack_join by apply He.
  assert (header_of (header_values (e_header e)) = Some (e_header e)) as Eh by (by destruct (e_header e)). cbn [mbind option_bind]. rewrite Eh. cbn [unwrap obind].
  rewrite sub_chk_ok by (rewrite (en_size _ He); unfold get_ondisk_directory_entry_header_size; lia). cbn [obind].
  specialize (IH (pre ++ entry_image e) n). rewrite length_app, <- app_assoc, Nat2Z.inj_add, Li in IH. simpl in Hn. specialize (IH Hraw ltac:(lia)).
  replace (Z.of_nat (length pre) + get_ondisk_directory_entry_header_size + (entry_size (e_header e) - get_ondisk_directory_entry_header_size))
    with (Z.of_nat (length pre) + entry_size (e_header e)) by lia.
  rewrite IH. destruct (Z.eqb_spec (entry_inode (e_header e)) 0) as [E0|E0]; [done|]. rewrite B2. cbn [obind]. rewrite from_utf8_as_bytes by apply He. done.
Qed.

(** The entries of a folder whose bytes are an image are those of the image. *)
Lemma parse_image es : Forall entry_ok es -> parse_entries (dir_image es) 0 (S (length (dir_image es))) = Ret (entries_from 0 es).
Proof.
  intros H. apply (parse_entries_at (dir_image es) [] es); [done|done|]. apply Nat.lt_succ_r.
  induction H as [|e es He _ IH]; [done|]. unfold dir_image. cbn [fmap list_fmap concat length]. rewrite length_app. fold (dir_image es).
  unfold entry_image. rewrite !length_app, length_header_bytes. lia.
Qed.
End Entries.

(** * Replacing bytes of a buffer *)

Lemma store_at_splice bytes i data : (i + length data <= length bytes)%nat -> store_at bytes i data = Ret (splice bytes i data).
Proof.
  revert bytes i. induction data as [|b data IH]; intros bytes i H; cbn [store_at]; [by rewrite splice_nil|]. simpl in H.
  rewrite (proj2 (Nat.ltb_lt _ _)) by lia. rewrite IH by (rewrite length_insert; lia). f_equal.
  assert (<[i := b]> bytes = splice bytes i [b]) as -> by (unfold splice; rewrite insert_take_drop by lia; simpl; do 3 f_equal; lia).
  replace (S i) with (i + length [b])%nat by (simpl; lia). rewrite splice_app by (simpl; lia). done.
Qed.

Lemma write_header_spec {PS : PackedStruct} {PSok : PackedStructOk PS} {S} raw (start : nat) h name (st : S) : (start + 8 <= length raw)%nat ->
  write_entry_header_to_buffer raw (Z.of_nat start, h, name) st = Ret (st, Some (splice raw start (header_bytes h))).
Proof.
  intros H. unfold write_entry_header_to_buffer. erewrite so_bind_Some; [|unfold so_option; rewrite pack_bytes_spec by done; reflexivity].
  unfold so_lift. fold (header_bytes h). by rewrite Nat2Z.id, store_at_splice by (by rewrite length_header_bytes).
Qed.

Lemma splice_at pre l l' post : length l = length l' -> splice (pre ++ l ++ post) (length pre) l' = pre ++ l' ++ post.
Proof. intros E. unfold splice. rewrite take_app_length, drop_app_ge by lia. do 2 f_equal. rewrite <- E. replace (length pre + length l - length pre)%nat with (length l) by lia. apply drop_app_length. Qed.

(** * Removing an entry *)

(** The entry before it takes its bytes. *)
Definition absorb (last child : Entry) : Entry :=
  MkEntry (set_entry_size (e_header last) (entry_size (e_header last) + entry_size (e_header child))) (e_name last) (e_pad last ++ entry_image child).

Lemma absorb_ok last child : entry_ok last -> entry_ok child -> entry_size (e_header last) + entry_size (e_header child) < 2 ^ 16 -> entry_ok (absorb last child).
Proof.
  intros Hl Hc Hs. pose proof (length_entry_image child Hc) as Lc. pose proof (en_values _ Hl) as V. unfold values_ok, header_values, header_sizes in V.
  do 3 apply Forall2_cons in V as [? V]. split; cbn [absorb e_header e_name e_pad set_entry_size entry_size name_length_low8].
  - unfold values_ok, header_values, header_sizes. apply Forall2_cons in V as [? V].
    repeat (apply Forall2_cons; split; [first [assumption|split; [cbn [set_entry_size entry_size]; rewrite (en_size _ Hl), <- Lc; lia|exact Hs]]|]). constructor.
  - rewrite (en_size _ Hl), length_app. lia.
  - apply Hl.
  - apply Hl.
Qed.

Lemma dir_image_app es fs : dir_image (es ++ fs) = dir_image es ++ dir_image fs.
Proof. unfold dir_image. by rewrite fmap_app, concat_app. Qed.

Lemma dir_image_cons e es : dir_image (e :: es) = entry_image e ++ dir_image es.
Proof. done. Qed.

Lemma absorb_image pre last child post : entry_ok last -> entry_ok child ->
  splice (dir_image (pre ++ last :: child :: post)) (length (dir_image pre)) (header_bytes (e_header (absorb last child))) =
  dir_image (pre ++ absorb last child :: post).
Proof.
  intros Hl Hc. rewrite !dir_image_app, !dir_image_cons.
  change (entry_image last) with (header_bytes (e_header last) ++ as_bytes (e_name last) ++ e_pad last).
  change (entry_image (absorb last child)) with (header_bytes (e_header (absorb last child)) ++ as_bytes (e_name last) ++ (e_pad last ++ entry_image child)).
  rewrite <- !app_assoc. by rewrite splice_at by (by rewrite !length_header_bytes).
Qed.

(** The names before the entry are different, and it is found with the one before. *)
Lemma entries_from_app start es fs : Forall entry_ok es -> entries_from start (es ++ fs) = entries_from start es ++ entries_from (start + Z.of_nat (length (dir_image es))) fs.
Proof.
  intros H. revert start. induction H as [|e es He _ IH]; intros start; [by rewrite Z.add_0_r|]. cbn [app entries_from]. rewrite IH. pose proof (length_entry_image e He) as Li.
  unfold dir_image. cbn [fmap list_fmap concat]. rewrite length_app. fold (dir_image es).
  replace (start + entry_size (e_header e) + Z.of_nat (length (dir_image es))) with (start + Z.of_nat (length (entry_image e) + length (dir_image es))) by lia.
  by destruct (entry_inode (e_header e) =? 0).
Qed.

Lemma find_entry_skip name es fs l : Forall (fun e : DirEntry => e.2 <> name) es ->
  find_entry name l (es ++ fs) = find_entry name (match last es with Some e => Some e | None => l end) fs.
Proof.
  intros H. revert l. induction H as [|e es He _ IH]; intros l; [done|]. cbn [app find_entry]. rewrite decide_False by done. rewrite IH.
  destruct es as [|e' es]; [done|]. rewrite !last_cons. by destruct (last es).
Qed.

(** * Removing an entry *)

(** * Files when other blocks change *)

Lemma file_ok_same s c c' i bl : file_ok s c i bl -> length c' = length c ->
  (forall q, q ∈ bl ++ inode_inner s c i -> block_at s c' q = block_at s c q) ->
  file_ok s c' i bl /\ block_data s c' bl = block_data s c bl.
Proof.
  intros F L H. assert (forall q, block_in s c' q <-> block_in s c q) as Hin by (intros q; unfold block_in; by rewrite L).
  destruct (same_inode_tree s c c' i Hin) as (E1 & E2 & E3); [set_solver|]. split.
  - destruct F. split; rewrite ?E1, ?E2, ?E3; try done. eapply Forall_impl; [done|]. intros q. apply Hin.
  - unfold block_data. f_equal. apply Forall_fmap_ext_1, Forall_forall. intros q Hq. apply H. set_solver.
Qed.

(** Only the size of a block matters of the superblock. *)
Lemma same_block_size_tree s s' c level p : block_bytes s' = block_bytes s ->
  leaves s' c level p = leaves s c level p /\ tree_okb s' c level p = tree_okb s c level p /\ inner_blocks s' c level p = inner_blocks s c level p.
Proof.
  intros E. assert (forall q, block_at s' c q = block_at s c q) as Ea by (intros q; unfold block_at; by rewrite E).
  revert p. induction level as [|k IH]; intros p; [done|]. cbn [leaves tree_okb inner_blocks]. unfold ppb. rewrite Ea, E.
  rewrite (Forall_fmap_ext_1 (leaves s' c k) (leaves s c k)), (forallb_ext_Forall (tree_okb s' c k) (tree_okb s c k)),
    (Forall_fmap_ext_1 (inner_blocks s' c k) (inner_blocks s c k)) by (apply Forall_forall; intros; apply IH).
  rewrite (bool_decide_ext (block_in s' c p) (block_in s c p)) by (unfold block_in; by rewrite E). done.
Qed.

Lemma file_ok_super s s' c i bl : block_bytes s' = block_bytes s -> file_ok s c i bl -> file_ok s' c i bl /\ block_data s' c bl = block_data s c bl.
Proof.
  intros E F. assert (forall level p, leaves s' c level p = leaves s c level p) as E1 by (intros; by apply same_block_size_tree).
  assert (forall level p, tree_okb s' c level p = tree_okb s c level p) as E2 by (intros; by apply same_block_size_tree).
  assert (forall level p, inner_blocks s' c level p = inner_blocks s c level p) as E3 by (intros; by apply same_block_size_tree).
  split; [|unfold block_data; f_equal; apply list_fmap_ext; intros ? q _; unfold block_at; by rewrite E].
  destruct F as [F1 F2 F3 F4 F5 F6 F7]. split; try done.
  - unfold inode_tree_okb in *. by rewrite !E2.
  - rewrite F3. unfold blocks_for. by rewrite E.
  - unfold inode_leaves in *. by rewrite !E1.
  - eapply Forall_impl; [done|]. intros q. unfold block_in. by rewrite E.
  - unfold inode_inner in *. by rewrite !E3.
Qed.

(** Bytes inside one block. *)
Lemma bytes_of_block s c pos n : (0 < block_bytes s)%nat -> (pos mod block_bytes s + n <= block_bytes s)%nat ->
  take n (drop pos c) = take n (drop (pos mod block_bytes s) (block_at s c (Z.of_nat (pos / block_bytes s)))).
Proof.
  intros H0 H. unfold block_at. rewrite Nat2Z.id, skipn_firstn_comm, take_take, drop_drop, Nat.min_l by lia. do 2 f_equal.
  pose proof (Nat.div_mod_eq pos (block_bytes s)). lia.
Qed.

Section Unlink.
Context {PS : PackedStruct} {PSok : PackedStructOk PS} (ok : nat -> nat -> bool) (Hok : serves_sectors ok).
#[local] Instance flat_unlink : DeviceFile (list Z) := flat_device ok.

Lemma length_file_content s c i bl : block_size_ok s -> file_ok s c i bl -> length (file_content s c i bl) = Z.to_nat (Ext2Inode.get_size i).
Proof.
  intros Hs F. unfold file_content. rewrite length_take, length_block_data, (fo_length _ _ _ _ F) by apply F.
  pose proof (blocks_for_bounds s (Z.to_nat (Ext2Inode.get_size i)) Hs). lia.
Qed.

(** The whole content read at once. *)
Lemma flat_read_content s x c r i bl : block_size_ok s -> disk_ok c -> file_ok s c i bl -> 0 < Ext2Inode.get_size i < 2 ^ 64 ->
  read_bytes i 0 (Ext2Inode.get_size i) (MkExt2 c s x r) = Ret (MkExt2 c s x r, Some (file_content s c i bl)).
Proof.
  intros Hs Hc F Hz. pose proof (flat_read_bytes ok Hok s x i bl Hs c r 0 (Z.to_nat (Ext2Inode.get_size i)) Hc F ltac:(lia) ltac:(lia) ltac:(lia)) as E.
  rewrite Z2Nat.id in E by lia. etransitivity; [exact E|]. do 3 f_equal. destruct (block_bytes_mul s Hs) as (k & Ek & Hk). rewrite Nat.Div0.mod_0_l.
  set (n := Z.to_nat (Ext2Inode.get_size i)). pose proof (blocks_for_bounds s n Hs).
  assert (blocks_for s n * block_bytes s <= Nat.max 1 (blocks_for s n) * block_bytes s)%nat by (apply Nat.mul_le_mono_r; lia).
  rewrite Nat.min_l by lia. rewrite drop_0. apply take_ge.
  by rewrite length_file_content.
Qed.

(** The whole content replaced. *)
Lemma flat_write_content s x c i bl data isize : block_size_ok s -> disk_ok c -> file_ok s c i bl -> data <> [] ->
  Ext2Inode.get_size i = Z.of_nat (length data) -> Ext2Inode.get_size i < 2 ^ 64 -> Forall is_byte data ->
  get_ondisk_inode_size (MkExt2 c s x false) = Ret (Z.of_nat isize) -> (0 < isize <= block_bytes s)%nat ->
  exists c', write_bytes i 0 data (MkExt2 c s x false) = Ret (MkExt2 c' s x false, Some (Z.of_nat (length data))) /\
    disk_ok c' /\ file_ok s c' i bl /\ length c' = length c /\ file_content s c' i bl = data /\
    forall q, 0 <= q -> q ∉ bl -> block_at s c' q = block_at s c q.
Proof.
  intros Hs Hc F Hd El H64 Hb Ei Hi. pose proof (blocks_for_bounds s (length data) Hs) as Hbb.
  destruct (flat_write_bytes ok Hok s x i bl Hs c 0 data isize Hc F Hd ltac:(lia) H64 Hb Ei Hi) as (c' & E & Hc' & F' & L & D & O).
  rewrite Nat.Div0.mod_0_l, Nat.sub_0_r, (take_ge data) in E, D by lia. rewrite Nat.Div0.div_0_l in D. exists c'. split; [exact E|]. do 3 (split; [done|]). split; [|done].
  unfold file_content. rewrite D, El, Nat2Z.id. unfold splice. rewrite take_0. cbn [app]. apply take_app_length.
Qed.

Lemma flat_get_entries s x c r i bl es : block_size_ok s -> disk_ok c -> file_ok s c i bl -> 0 < Ext2Inode.get_size i < 2 ^ 64 ->
  file_content s c i bl = dir_image es -> Forall entry_ok es ->
  get_entries i (MkExt2 c s x r) = Ret (MkExt2 c s x r, Some (entries_from 0 es)).
Proof.
  intros Hs Hc F Hz E Hes. unfold get_entries. erewrite so_bind_try by by apply flat_read_content.
  rewrite E. unfold so_lift. by rewrite parse_image.
Qed.

(** The folder and the entry to remove. *)
Record folder_with (s : Ext2SuperBlock) (c : list Z) (self : Ext2RawInode) (bl : list Z) (pre : list Entry) (last child : Entry) (post : list Entry) : Prop := MkFolder {
  fw_file : file_ok s c self bl;
  fw_content : file_content s c self bl = dir_image (pre ++ last :: child :: post);
  fw_entries : Forall entry_ok (pre ++ last :: child :: post);
  fw_used : entry_inode (e_header last) <> 0 /\ entry_inode (e_header child) <> 0;
  fw_first : Forall (fun e : DirEntry => e.2 <> e_name child) (entries_from 0 pre) /\ e_name last <> e_name child;
  fw_fits : entry_size (e_header last) + entry_size (e_header child) < 2 ^ 16;
}.

Lemma find_in_folder s c self bl pre last child post : folder_with s c self bl pre last child post ->
  let start := Z.of_nat (length (dir_image pre)) in
  find_entry (e_name child) None (entries_from 0 (pre ++ last :: child :: post)) =
    (Some (start + entry_size (e_header last), e_header child, e_name child), Some (start, e_header last, e_name last)).
Proof.
  intros [_ _ He [Hl Hc] [H1 H2] _] start. rewrite entries_from_app by (by apply Forall_app in He as [? _]). rewrite Z.add_0_l. fold start.
  cbn [entries_from]. rewrite !(proj2 (Z.eqb_neq _ 0)) by done. rewrite find_entry_skip by done. cbn [find_entry snd].
  rewrite decide_False by done. by rewrite decide_True by done.
Qed.

(** Once the inode has lost a link, the entry is given to the one before it. *)
Lemma flat_unlink_entry s s1 x c c1 self bl pre last child post isize :
  super_ok s x -> super_ok s1 x -> disk_ok c -> disk_ok c1 -> folder_with s c self bl pre last child post -> folder_with s1 c1 self bl pre last child post ->
  0 < Ext2Inode.get_size self < 2 ^ 32 -> inode_size_of s1 x = Some (Z.of_nat isize) -> (0 < isize <= block_bytes s1)%nat ->
  unlink_inode (entry_inode (e_header child)) (MkExt2 c s x false) = Ret (MkExt2 c1 s1 x false, Some ()) ->
  exists c', ext2_unlink self (e_name child) (MkExt2 c s x false) = Ret (MkExt2 c' s1 x false, Some ()) /\
    disk_ok c' /\ file_ok s1 c' self bl /\ length c' = length c1 /\ file_content s1 c' self bl = dir_image (pre ++ absorb last child :: post) /\
    forall q, 0 <= q -> q ∉ bl -> block_at s1 c' q = block_at s1 c1 q.
Proof.
  intros H H1 Hc Hc1 W W1 Hz Eisz Hi Eu. destruct (super_block_size _ _ H) as [Hs _]. destruct (super_block_size _ _ H1) as [Hs1 _].
  pose proof (fw_file _ _ _ _ _ _ _ _ W) as F. pose proof (fw_file _ _ _ _ _ _ _ _ W1) as F1. pose proof (fw_entries _ _ _ _ _ _ _ _ W) as He.
  pose proof He as [_ [Hel [Hec _]%Forall_cons]%Forall_cons]%Forall_app. pose proof (length_file_content s1 c1 self bl Hs1 F1) as Lc.
  rewrite (fw_content _ _ _ _ _ _ _ _ W1) in Lc. unfold ext2_unlink.
  erewrite so_bind_Some; [|eapply flat_get_entries; [done|done|exact F|lia|apply W|done]].
  rewrite (find_in_folder s c self bl pre last child post W). erewrite so_bind_Some by reflexivity. erewrite so_bind_Some by reflexivity. cbn [fst snd].
  rewrite (so_bind_Some _ _ _ _ _ Eu). erewrite so_bind_lift; [|apply add_chk_ok; exact (fw_fits _ _ _ _ _ _ _ _ W)].
  erewrite so_bind_Some; [|apply (flat_read_content s1 x c1 false self bl); try done; lia]. rewrite (fw_content _ _ _ _ _ _ _ _ W1).
  pose proof (absorb_image pre last child post Hel Hec) as Ea. set (raw := dir_image (pre ++ last :: child :: post)) in *.
  assert (length (dir_image pre) + 8 <= length raw)%nat as Lr.
  { unfold raw. rewrite dir_image_app, dir_image_cons, !length_app. unfold entry_image. rewrite !length_app, length_header_bytes. lia. }
  erewrite so_bind_try with (o := Some (dir_image (pre ++ absorb last child :: post))).
  2:{ etransitivity; [by apply write_header_spec|]. do 3 f_equal. exact Ea. }
  change (default raw (Some ?l)) with l. cbv zeta. assert (length (dir_image (pre ++ absorb last child :: post)) = length raw) as Ln.
  { rewrite <- Ea. apply length_splice. rewrite length_header_bytes. exact Lr. }
  rewrite (so_bind_lift _ _ _ ()) by (by rewrite Ln, Lc, Z2Nat.id, Z.eqb_refl by lia).
  destruct (flat_write_content s1 x c1 self bl (dir_image (pre ++ absorb last child :: post)) isize Hs1 Hc1 F1) as (c' & Ew & Hc' & F' & L' & C' & O').
  { intros E0. rewrite E0 in Ln. simpl in Ln. lia. } { lia. } { lia. }
  { rewrite <- Ea. apply splice_is_byte; [|apply join_fields_is_byte]. unfold raw. rewrite <- (fw_content _ _ _ _ _ _ _ _ W1). unfold file_content.
    apply Forall_take. unfold block_data. apply Forall_concat, Forall_fmap, Forall_forall. intros q _. by apply block_at_is_byte, Hc1. }
  { unfold get_ondisk_inode_size, inode_size_of in *. cbn [sb extended_sb]. destruct (major_version s1 >=? 1); [|by injection Eisz as <-].
    destruct x as [e|]; [|done]. injection Eisz as Eisz. cbn [unwrap obind]. by rewrite Eisz. } { done. }
  exists c'. split; [|done]. rewrite (so_bind_Some _ _ _ _ _ Ew). by rewrite Z.eqb_refl.
Qed.
End Unlink.
