(* ===== verification/Ext2Theorems.v ===== *)
(** ext2: the properties of the operations on a sequence of bytes, and with
    [Ext2Sim] on every device that keeps its promises. *)
From S2P Require Import Prelude MachineInt Str PackedStruct Device Path Vfs Ata AtaDrive AtaTheorems Partition Ext2 Ext2Inode Ext2Dir Ext2Sim Ext2Flat Ext2Tree Ext2Bytes Ext2Alloc Ext2Table Ext2Unlink.
From stdpp Require Import list sets.
#[local] Open Scope Z_scope.

Section Theorems.
Context {PS : PackedStruct} {PSok : PackedStructOk PS} (ok : nat -> nat -> bool).
#[local] Instance flat_dev : DeviceFile (list Z) := flat_device ok.

(** C16: the tree of block pointers is a flat array: [read_data_block_pointer] finds at
    every position the data block that stands there when the leaves of the tree are
    listed from left to right; it finds none where an indirect block is missing, nor past
    the end. *)
Theorem data_block_pointer_is_leaf c s x r i (n : nat) :
  serves_sectors ok -> block_size_ok s -> disk_ok c -> inode_tree_okb s c i = true ->
  read_data_block_pointer i (Z.of_nat n) (MkExt2 c s x r) = Ret (MkExt2 c s x r, leaf_at (inode_leaves s c i) n).
Proof. intros Hok Hs Hc Ht. by apply pointer_is_leaf. Qed.

(** C18: what [read_bytes] delivers: the file's bytes from the offset on.  It reads the
    blocks the length needs, so that a range with an offset inside its first block
    that ends past them is cut there. *)
Theorem read_bytes_delivers c s x r i bl (off len : nat) :
  serves_sectors ok -> block_size_ok s -> disk_ok c -> file_ok s c i bl -> Ext2Inode.get_size i < 2 ^ 32 ->
  Z.of_nat off < Ext2Inode.get_size i -> Z.of_nat (off + len) <= Ext2Inode.get_size i ->
  read_bytes i (Z.of_nat off) (Z.of_nat len) (MkExt2 c s x r) = Ret (MkExt2 c s x r,
    Some (take (Nat.min len (Nat.max 1 (blocks_for s len) * block_bytes s - off mod block_bytes s)) (drop off (file_content s c i bl)))).
Proof. intros Hok Hs Hc F Hz H1 H2. apply flat_read_bytes; (done || lia). Qed.

(** C17: what [write_bytes] does when the offset in its first block is less than the size
    of an inode: the data replaces the file's bytes from the offset on, as far as the
    blocks its length needs reach, the number of bytes written is returned, and no
    other block of the device changes.  (The offset is reduced modulo the size of an
    inode, not of a block: with a larger one the data goes to the reduced offset.) *)
Theorem write_bytes_stores c s x i bl (off isize : nat) data :
  serves_sectors ok -> block_size_ok s -> disk_ok c -> file_ok s c i bl -> Ext2Inode.get_size i < 2 ^ 32 ->
  data <> [] -> Forall is_byte data -> Z.of_nat (off + length data) <= Ext2Inode.get_size i ->
  get_ondisk_inode_size (MkExt2 c s x false) = Ret (Z.of_nat isize) -> (0 < isize <= block_bytes s)%nat ->
  exists c', let d := take (blocks_for s (length data) * block_bytes s - off mod isize) data in
    let at_ := (off / block_bytes s * block_bytes s + off mod isize)%nat in
    write_bytes i (Z.of_nat off) data (MkExt2 c s x false) = Ret (MkExt2 c' s x false, Some (Z.of_nat (length d))) /\
    disk_ok c' /\ file_ok s c' i bl /\
    ((off mod block_bytes s < isize)%nat -> (isize | block_bytes s)%nat -> at_ = off) /\
    ((at_ + length d <= Z.to_nat (Ext2Inode.get_size i))%nat -> file_content s c' i bl = splice (file_content s c i bl) at_ d) /\
    forall q, 0 <= q -> q ∉ bl -> block_at s c' q = block_at s c q.
Proof.
  intros Hok Hs Hc F Hz Hd Hb Hl Hi Hsz.
  destruct (flat_write_bytes ok Hok s x i bl Hs c off data isize Hc F Hd ltac:(lia) ltac:(lia) Hb Hi Hsz) as (c' & E & Hc' & F' & L & D & O).
  exists c'. intros d at_. do 3 (split; [done|]). split; [|split; [|exact O]].
  - intros Ho [k Ek]. unfold at_. pose proof (Nat.div_mod_eq off (block_bytes s)) as Eo. assert (off mod isize = off mod block_bytes s)%nat as ->; [|lia].
    rewrite <- (Nat.mod_small (off mod block_bytes s) isize Ho). rewrite Eo at 1. rewrite Ek at 1.
    replace (k * isize * (off / block_bytes s) + off mod block_bytes s)%nat with (off mod block_bytes s + (k * (off / block_bytes s)) * isize)%nat by lia.
    apply Nat.Div0.mod_add.
  - intros Hlt. unfold file_content. rewrite D. fold at_ d. pose proof (length_block_data s c bl (fo_in _ _ _ _ F)) as LX.
    rewrite (fo_length _ _ _ _ F) in LX. pose proof (blocks_for_bounds s (Z.to_nat (Ext2Inode.get_size i)) Hs).
    pose proof (splice_inside (block_data s c bl) at_ d 0 (Z.to_nat (Ext2Inode.get_size i)) ltac:(lia) ltac:(lia) ltac:(lia)) as E0.
    rewrite !drop_0 in E0. exact E0.
Qed.

(** C7: a group keeps its free-block counter equal to the number of clear bits of its
    bitmap.  Without a clear bit allocation fails and changes nothing.  Otherwise it
    takes the first one: the bit is set, the counters of the group and of the superblock
    go down by one, on disk too, the block is all zeros, and every other block, and the
    descriptor of every other group, is as before. *)
Theorem alloc_block_takes_first_free c s x g d :
  serves_sectors ok -> super_ok s x -> disk_ok c -> group_ok s c g d -> 0 < unallocated_blocks s ->
  if (unallocated_blocks_in_group d =? 0) then alloc_block (Z.of_nat g) (MkExt2 c s x false) = Ret (MkExt2 c s x false, None)
  else
    let s' := set_unallocated_blocks s (unallocated_blocks s - 1) in
    let d' := set_unallocated_blocks_in_group d (unallocated_blocks_in_group d - 1) in
    exists i c', alloc_block (Z.of_nat g) (MkExt2 c s x false) = Ret (MkExt2 c' s' x false, Some (block_number s g i)) /\
      allocated s x c g d i s' d' c'.
Proof.
  intros Hok H Hc G Hu. pose proof (gr_count _ _ _ _ G) as Ec. destruct (Z.eqb_spec (unallocated_blocks_in_group d) 0) as [E|E].
  - apply (flat_alloc_full ok Hok c s x false g d H Hc G). right. lia.
  - apply (alloc_effect ok Hok c s x g d H Hc G Hu). lia.
Qed.

(** A block that is allocated and released again leaves the bitmap, the counters and
    the superblock as they were, and no block changed but itself. *)
Theorem alloc_then_release_restores c s x g d :
  serves_sectors ok -> super_ok s x -> disk_ok c -> group_ok s c g d -> 0 < unallocated_blocks s <= max_no_of_blocks s ->
  unallocated_blocks s < 2 ^ 32 -> 0 < unallocated_blocks_in_group d ->
  exists p fs c', alloc_block (Z.of_nat g) (MkExt2 c s x false) = Ret (fs, Some p) /\
    dealloc_block p fs = Ret (MkExt2 c' s x false, Some ()) /\ disk_ok c' /\ group_ok s c' g d /\
    block_bitmap s c' d = block_bitmap s c d /\
    forall q, special_blocks s <= q -> q <> p -> q <> block_addr_for_block_usage_bitmap d -> block_at s c' q = block_at s c q.
Proof. intros Hok H Hc G Hu H32 Hf. apply (alloc_release ok Hok c s x g d H Hc G Hu H32). pose proof (gr_count _ _ _ _ G). lia. Qed.

(** An inode that was written is read back, and the other inodes of its group are
    read as before. *)
Theorem inode_write_read_back c s x isize a d i :
  serves_sectors ok -> super_ok s x -> disk_ok c -> inode_here s x c isize a d -> inode_ok i ->
  exists c', write_inode a i (MkExt2 c s x false) = Ret (MkExt2 c' s x false, Some ()) /\
    read_inode a (MkExt2 c' s x false) = Ret (MkExt2 c' s x false, Some i) /\
    forall a' i', a' <> a -> inode_group s a' = inode_group s a -> inode_here s x c isize a' d -> inode_ok i' ->
      take 128 (drop (inode_pos s isize d a') c) = inode_bytes i' ->
      read_inode a' (MkExt2 c' s x false) = Ret (MkExt2 c' s x false, Some i').
Proof.
  intros Hok H Hc I Hi. pose proof (ih_inside _ _ _ _ _ _ I) as Hin. pose proof (length_inode_bytes i Hi) as Li. eexists. split; [by apply flat_write_inode|].
  assert (disk_ok (splice c (inode_pos s isize d a) (inode_bytes i))) as Hc' by (apply disk_ok_splice; [done|apply join_fields_is_byte|lia]). split.
  - apply (flat_read_inode ok Hok s x _ false isize a d i); [done|done|by apply inode_here_splice|done|]. rewrite <- Li at 1. apply splice_read. lia.
  - intros a' i' Hne Eg I' Hi' Eb. apply (flat_read_inode ok Hok s x _ false isize a' d i'); [done|done|by apply inode_here_splice|done|].
    rewrite splice_outside; [done|lia|]. destruct (inodes_apart s x c isize a' a d H I' I Eg Hne); lia.
Qed.

(** What is asked of the entry's inode: it has a link, and when that is its last and it
    is empty, its group can take it back. *)
Definition unlinkable (s : Ext2SuperBlock) (c : list Z) (isize : nat) (a : Z) (d : Ext2BlockGroupDescriptor) (i : Ext2RawInode) : Prop :=
  1 <= hard_links_to_inode i < 2 ^ 16 /\
  (hard_links_to_inode i = 1 -> Ext2Inode.get_size i = 0 -> releasable s c isize a d).

(** It is not released while it has data. *)
Definition keeps_data (i : Ext2RawInode) : bool := (hard_links_to_inode i =? 1) && negb (Ext2Inode.get_size i =? 0).

(** The folder's blocks are not those of the inode or its bitmap. *)
Definition folder_apart (s : Ext2SuperBlock) (c : list Z) (self : Ext2RawInode) (bl : list Z) (isize : nat) (a : Z) (d : Ext2BlockGroupDescriptor) : Prop :=
  forall q, q ∈ bl ++ inode_inner s c self -> special_blocks s <= q /\ q <> block_addr_for_inode_usage_bitmap d /\
    (inode_pos s isize d a + 128 <= Z.to_nat q * block_bytes s \/ Z.to_nat q * block_bytes s + block_bytes s <= inode_pos s isize d a)%nat.

Lemma folder_with_unlinked s s1 c c1 self bl pre last child post isize a d i : block_bytes s1 = block_bytes s ->
  folder_with s c self bl pre last child post -> folder_apart s c self bl isize a d -> unlinked s c isize a d i c1 -> folder_with s1 c1 self bl pre last child post.
Proof.
  intros Eb [F C E U Fi Ft] Hap [[Hd L] _ Hbl]. destruct (file_ok_same s c c1 self bl F L) as [F1 D1].
  { intros q Hq. destruct (Hap q Hq) as (H1 & H2 & H3). by apply Hbl. }
  destruct (file_ok_super s s1 c1 self bl Eb F1) as [F2 D2]. split; try done. unfold file_content in *. by rewrite D2, D1.
Qed.

(** Bytes within a block that is not one of the folder's. *)
Lemma bytes_kept s (bl : list Z) c c' pos n : block_size_ok s -> (pos mod block_bytes s + n <= block_bytes s)%nat ->
  (forall q, 0 <= q -> q ∉ bl -> block_at s c' q = block_at s c q) -> Z.of_nat (pos / block_bytes s) ∉ bl ->
  take n (drop pos c') = take n (drop pos c).
Proof.
  intros Hs Hn Hk Hp. destruct (block_bytes_mul s Hs) as (k & Ek & Hk0).
  rewrite (bytes_of_block s c'), (bytes_of_block s c) by lia. do 2 f_equal. apply Hk; [lia|done].
Qed.

(** The tables lie before the blocks of a file. *)
Lemma table_not_in s x (bl : list Z) c c' pos n (g : nat) : super_ok s x -> Forall (fun q => special_blocks s <= q) bl -> Z.of_nat g < group_count s ->
  (pos < descriptor_pos g + 32)%nat -> (pos mod block_bytes s + n <= block_bytes s)%nat ->
  (forall q, 0 <= q -> q ∉ bl -> block_at s c' q = block_at s c q) -> take n (drop pos c') = take n (drop pos c).
Proof.
  intros H Hbl Hg Hp Hn Hk. destruct (super_block_size _ _ H) as [Hs _]. apply (bytes_kept s bl); [done|done|done|].
  intros Hq. rewrite Forall_forall in Hbl. pose proof (tables_before s x _ g H (Hbl _ Hq) Hg) as T.
  rewrite Nat2Z.id in T. destruct (block_bytes_mul s Hs) as (k & Ek & Hk0). pose proof (Nat.div_mod_eq pos (block_bytes s)). lia.
Qed.

Lemma descriptor_in_block s x g : super_ok s x -> (descriptor_pos g mod block_bytes s + 18 <= block_bytes s)%nat.
Proof.
  intros H. destruct (super_block_size _ _ H) as [_ E]. unfold descriptor_pos.
  pose proof (Nat.div_mod_eq (2048 + 32 * g) 32). pose proof (Nat.div_mod_eq (2048 + 32 * g) (block_bytes s)) as Eg.
  destruct E as [E|E]; rewrite E in *; pose proof (Nat.mod_upper_bound (2048 + 32 * g) 1024 ltac:(lia)); pose proof (Nat.mod_upper_bound (2048 + 32 * g) 2048 ltac:(lia)); lia.
Qed.

Lemma released_kept s x c a d s1 c1 c2 (bl : list Z) : super_ok s x -> super_ok s1 x -> block_bytes s1 = block_bytes s -> inode_released s x c a d s1 c1 ->
  Z.of_nat (inode_group s a) < group_count s -> Forall (fun q => special_blocks s <= q) bl -> block_addr_for_inode_usage_bitmap d ∉ bl ->
  0 <= block_addr_for_inode_usage_bitmap d ->
  (forall q, 0 <= q -> q ∉ bl -> block_at s1 c2 q = block_at s1 c1 q) -> inode_released s x c a d s1 c2.
Proof.
  intros H H1 Eb [R1 R2 R3 R4] Hg Hbl Hb Hb0 Hk. assert (forall q, 0 <= q -> q ∉ bl -> block_at s c2 q = block_at s c1 q) as Hk'.
  { intros q Hq Hn. specialize (Hk q Hq Hn). unfold block_at in *. by rewrite Eb in Hk. }
  pose proof (length_superblock_bytes s1 x H1) as L84. destruct (super_block_size _ _ H) as [_ E]. split; [done|..].
  - etransitivity; [|exact R2]. apply (table_not_in s x bl _ _ _ _ (inode_group s a)); try done; [unfold descriptor_pos; lia|].
    destruct E as [E|E]; rewrite E; [change (1024 mod 1024)%nat with 0%nat|change (1024 mod 2048)%nat with 1024%nat]; lia.
  - etransitivity; [|exact R3]. unfold descriptor_at. do 2 f_equal. apply (table_not_in s x bl _ _ _ _ (inode_group s a)); try done; [lia|by eapply descriptor_in_block].
  - etransitivity; [|exact R4]. unfold inode_bitmap. f_equal. by apply Hk'.
Qed.

(** What [unlink_inode] does before the folder is written. *)
Lemma unlink_inode_effect s x c isize a d i : serves_sectors ok -> super_ok s x -> disk_ok c -> inode_here s x c isize a d -> inode_ok i ->
  take 128 (drop (inode_pos s isize d a) c) = inode_bytes i -> unlinkable s c isize a d i ->
  if keeps_data i then unlink_inode a (MkExt2 c s x false) = Ret (MkExt2 c s x false, None)
  else exists c1 s1, unlink_inode a (MkExt2 c s x false) = Ret (MkExt2 c1 s1 x false, Some ()) /\ unlinked s c isize a d i c1 /\
    if hard_links_to_inode i =? 1 then inode_released s x c a d s1 c1 else s1 = s.
Proof.
  intros Hok H Hc I Hi Eb [Hl Hr]. unfold keeps_data. destruct (Z.eqb_spec (hard_links_to_inode i) 1) as [E1|E1]; cbn [andb].
  - destruct (Z.eqb_spec (Ext2Inode.get_size i) 0) as [E0|E0]; cbn [negb].
    + exact (flat_unlink_last ok Hok s x c isize a d i H Hc I Hi Eb E1 E0 (Hr E1 E0)).
    + by eapply flat_unlink_refused.
  - destruct (flat_unlink_linked ok Hok s x c isize a d i H Hc I Hi Eb ltac:(lia)) as (c1 & Eu & U). by exists c1, s.
Qed.

(** The search ends at the entry; when its inode is not to be released the call fails there. *)
Lemma flat_unlink_fails s x c self bl pre last child post : serves_sectors ok -> super_ok s x -> disk_ok c ->
  folder_with s c self bl pre last child post -> 0 < Ext2Inode.get_size self < 2 ^ 32 ->
  unlink_inode (entry_inode (e_header child)) (MkExt2 c s x false) = Ret (MkExt2 c s x false, None) ->
  ext2_unlink self (e_name child) (MkExt2 c s x false) = Ret (MkExt2 c s x false, None).
Proof.
  intros Hok H Hc W Hz Eu. destruct (super_block_size _ _ H) as [Hs _]. unfold ext2_unlink.
  erewrite so_bind_Some; [|eapply (flat_get_entries ok Hok); [done|done|apply W|lia|apply W|apply W]].
  rewrite (find_in_folder s c self bl pre last child post W). erewrite so_bind_Some by reflexivity. erewrite so_bind_Some by reflexivity.
  cbn [fst snd]. by rewrite (so_bind_None _ _ _ _ Eu).
Qed.

(** C6: removing a name that stands behind the folder's first entry, on a file system with
    blocks of 1 or 2 KiB.  When the inode has one link and data, the call fails and
    changes nothing.  Otherwise exactly the entry is removed: the entry before it takes
    the bytes over, all other entries are found as before, and the inode has one link
    less; when that was the last, its bit in the bitmap is cleared (and no other), and
    the free-inode counters of its group and of the superblock go up by one, on disk
    too; else the superblock is as before. *)
Theorem unlink_removes_entry c s x self bl pre last child post isize d i :
  serves_sectors ok -> super_ok s x -> disk_ok c -> folder_with s c self bl pre last child post -> 0 < Ext2Inode.get_size self < 2 ^ 32 ->
  (isize <= block_bytes s)%nat -> inode_here s x c isize (entry_inode (e_header child)) d -> inode_ok i ->
  take 128 (drop (inode_pos s isize d (entry_inode (e_header child))) c) = inode_bytes i ->
  unlinkable s c isize (entry_inode (e_header child)) d i -> folder_apart s c self bl isize (entry_inode (e_header child)) d ->
  0 <= block_addr_for_inode_usage_bitmap d ->
  if keeps_data i then ext2_unlink self (e_name child) (MkExt2 c s x false) = Ret (MkExt2 c s x false, None)
  else exists c' s', ext2_unlink self (e_name child) (MkExt2 c s x false) = Ret (MkExt2 c' s' x false, Some ()) /\
    get_entries self (MkExt2 c' s' x false) = Ret (MkExt2 c' s' x false, Some (entries_from 0 (pre ++ absorb last child :: post))) /\
    take 128 (drop (inode_pos s isize d (entry_inode (e_header child))) c') = inode_bytes (set_links i (hard_links_to_inode i - 1)) /\
    if hard_links_to_inode i =? 1 then inode_released s x c (entry_inode (e_header child)) d s' c' else s' = s.
Proof.
  intros Hok H Hc W Hz Hisz I Hi Eb Hu Hap Hb0. set (a := entry_inode (e_header child)) in *. destruct (super_block_size _ _ H) as [Hs Hbb].
  destruct (ih_size _ _ _ _ _ _ I) as (Esz & Hm & Hpos). pose proof (unlink_inode_effect s x c isize a d i Hok H Hc I Hi Eb Hu) as Ef.
  destruct (keeps_data i); [by eapply flat_unlink_fails|]. destruct Ef as (c1 & s1 & Eu & U & Hr).
  assert (super_ok s1 x /\ block_bytes s1 = block_bytes s /\ inode_size_of s1 x = inode_size_of s x) as (H1 & E1 & E2).
  { destruct (hard_links_to_inode i =? 1); [destruct Hr as [-> _ _ _]; split; [by apply super_ok_set_inodes|done]|by subst s1]. }
  pose proof (folder_with_unlinked s s1 c c1 self bl pre last child post isize a d i E1 W Hap U) as W1. destruct (un_disk _ _ _ _ _ _ _ U) as [Hc1 L1].
  assert (128 <= isize)%nat as H128 by (pose proof (Nat.div_mod_eq isize 128); lia).
  destruct (flat_unlink_entry ok Hok s s1 x c c1 self bl pre last child post isize H H1 Hc Hc1 W W1 Hz) as (c' & E & Hc' & F' & L' & C' & O'); [by rewrite E2|lia|exact Eu|].
  exists c', s1. split; [exact E|]. pose proof (fw_entries _ _ _ _ _ _ _ _ W) as [Hpre [Hl [Hch Hpost]%Forall_cons]%Forall_cons]%Forall_app.
  destruct (super_block_size _ _ H1) as [Hs1 _]. split; [|split].
  - eapply flat_get_entries; [done|done|done|exact F'|lia|exact C'|]. apply Forall_app. split; [done|]. constructor; [|done]. apply absorb_ok; [done|done|apply W].
  - rewrite <- (un_inode _ _ _ _ _ _ _ U). destruct (inode_before s x c isize a d H I) as [_ Hal]. set (pos := inode_pos s isize d a) in *.
    pose proof (sector_in_block s pos 128 Hs Hal) as Hin. apply (bytes_kept s1 bl); [done|by rewrite E1|done|].
    rewrite E1. intros Hq. destruct (Hap (Z.of_nat (pos / block_bytes s))) as (_ & _ & Hd); [set_solver|]. fold pos in Hd.
    rewrite Nat2Z.id in Hd. pose proof (Nat.div_mod_eq pos (block_bytes s)). lia.
  - destruct (hard_links_to_inode i =? 1); [|done]. eapply (released_kept s x c a d s1 c1 c' bl); try done; [apply I| |].
    + apply Forall_forall. intros q Hq. apply Hap. set_solver.
    + intros Hq. destruct (Hap (block_addr_for_inode_usage_bitmap d)) as (_ & Hd & _); [set_solver|]. done.
Qed.

(** The superblocks on disk. *)
Definition superblock_at (c : list Z) : option Ext2SuperBlock := superblock_of (split_fields Lsb superblock_sizes (take 84 (drop 1024 c))).
Definition extended_at (c : list Z) : option Ext2ExtendedSuperblock := extended_of (split_fields Lsb extended_sizes (take 152 (drop 1108 c))).

Lemma land_low (k v : Z) : 0 <= k -> 0 <= v -> Z.land v (Z.ones k) = v <-> v < 2 ^ k.
Proof. intros Hk Hv. rewrite Z.land_ones by done. pose proof (Z.mod_pos_bound v (2 ^ k) (pow2_pos k Hk)). split; intros H'; [lia|by apply Z.mod_small]. Qed.

Lemma check_features_spec e ro : 0 <= required_features e -> 0 <= write_features e ->
  check_features e ro = if (required_features e =? 0) || (required_features e =? 2) then Some (ro || (write_features e >=? 4)) else None.
Proof.
  intros Hr Hw. unfold check_features, has_unrecognised_required_features, has_required_feature_compression, has_required_feature_journal_device,
    has_required_feature_replay_journal, has_unrecognised_write_required_features, has_write_required_feature_directory_contents_binary_tree.
  pose proof (land_low 4 (required_features e) ltac:(lia) Hr) as L1. pose proof (land_low 3 (write_features e) ltac:(lia) Hw) as L2.
  change (Z.ones 4) with 0x000F in L1. change (Z.ones 3) with 0x0007 in L2. set (f := required_features e) in *. set (v := write_features e) in *.
  assert ((if negb (Z.land v 0x0007 =? v) then true else if negb (Z.land v 0x0004 =? 0) then true else ro) = ro || (v >=? 4)) as ->.
  { destruct (Z.eqb_spec (Z.land v 0x0007) v) as [E|E]; cbn [negb].
    - apply L2 in E. assert (v ∈ seqZ 0 8) as Hv by (apply elem_of_seqZ; lia). clearbody v. clear -Hv. repeat (apply elem_of_cons in Hv as [->|Hv]; [by destruct ro|]). by apply elem_of_nil in Hv.
    - assert (v >=? 4 = true) as -> by (apply Z.geb_le; destruct (Z.le_gt_cases 8 v); [lia|]; destruct E; apply L2; lia). by destruct ro. }
  destruct (Z.eqb_spec (Z.land f 0x000F) f) as [E|E]; cbn [negb].
  - apply L1 in E. assert (f ∈ seqZ 0 16) as Hf by (apply elem_of_seqZ; lia). clearbody f v. clear -Hf. repeat (apply elem_of_cons in Hf as [->|Hf]; [done|]). by apply elem_of_nil in Hf.
  - assert (16 <= f) by (destruct (Z.le_gt_cases 16 f); [done|]; destruct E; apply L1; lia). rewrite !(proj2 (Z.eqb_neq f _)) by lia. done.
Qed.

Lemma extended_of_fields vs e : extended_of vs = Some e -> required_features e ∈ vs /\ write_features e ∈ vs.
Proof.
  intros H. assert (required_features e ∈ take 6 vs /\ write_features e ∈ take 6 vs) as [H1 H2].
  { unfold extended_of in H. destruct (take 6 vs) as [|? [|? [|? [|? [|? [|? []]]]]]]; try done.
    destruct (take 4 (drop 102 vs)) as [|? [|? [|? [|? []]]]]; try done. destruct (drop 122 vs) as [|? [|? [|? []]]]; try done.
    injection H as <-. split; set_solver. }
  rewrite <- (take_drop 6 vs). set_solver.
Qed.

Lemma values_nonneg sizes vs v : values_ok sizes vs -> v ∈ vs -> 0 <= v.
Proof. intros H [i Hi]%list_elem_of_lookup. destruct (Forall2_lookup_r _ _ _ _ _ H Hi) as (n & _ & [? _]). done. Qed.

(** Mounting: without inodes in a group there is no file system; major version 0
    has no extended superblock; later versions are mounted when the only required
    feature is at most the type field of directory entries, and then read-only when
    asked for or when a feature is set that is needed to write and not supported. *)
Theorem mount_checks_features c s ro :
  serves_sectors ok -> disk_ok c -> (1260 <= length c)%nat -> superblock_at c = Some s ->
  ext2_new c ro = Ret (c,
    if inodes_per_block_group s <? 1 then None
    else if major_version s >=? 1 then
      match extended_at c with
      | Some e => if (required_features e =? 0) || (required_features e =? 2)
                  then Some (MkExt2 c s (Some e) (ro || (write_features e >=? 4))) else None
      | None => None
      end
    else Some (MkExt2 c s None ro)).
Proof.
  intros Hok Hc Hl Es. assert (forall a n, (a + n <= 1260)%nat -> (0 < n)%nat -> (a mod 512 + n <= 512)%nat ->
    dev_read c (Z.of_nat a) (Z.of_nat n) = Ret (c, Some (take n (drop a c)))) as Hrd.
  { intros a n Ha Hn Hm. simpl. rewrite (proj2 (flat_range_spec ok c (Z.of_nat a) (Z.of_nat n))); [by rewrite !Nat2Z.id|].
    rewrite !Nat2Z.id. split_and!; try lia. apply Hok. by left. }
  unfold ext2_new. change 1024 with (Z.of_nat 1024) at 1. change (packed_size superblock_sizes) with (Z.of_nat 84). rewrite Hrd by (lia || (vm_compute; lia)).
  cbn [obind mbind option_bind]. rewrite unpack_bytes_spec; [|rewrite length_take, length_drop; change (sum_list superblock_sizes) with 84%nat; lia|by apply Forall_take, Forall_drop, Hc].
  cbn [mbind option_bind]. unfold superblock_at in Es. rewrite Es. destruct (inodes_per_block_group s <? 1); [done|]. destruct (major_version s >=? 1); [|done].
  change (1024 + get_ondisk_super_block_size) with (Z.of_nat 1108). change (packed_size extended_sizes) with (Z.of_nat 152). rewrite Hrd by (lia || (vm_compute; lia)).
  set (raw := take 152 (drop 1108 c)). cbn [obind mbind option_bind]. assert (length raw = sum_list extended_sizes) as Lr by (unfold raw; rewrite length_take, length_drop; change (sum_list extended_sizes) with 152%nat; lia).
  assert (Forall is_byte raw) as Br by by apply Forall_take, Forall_drop, Hc. rewrite unpack_bytes_spec by done. cbn [mbind option_bind]. unfold extended_at. fold raw.
  destruct (extended_of _) as [e|] eqn:Ee; [|done]. destruct (extended_of_fields _ _ Ee) as [F1 F2].
  destruct (join_split Lsb extended_sizes raw Lr Br) as [_ V]. rewrite check_features_spec by (by eapply values_nonneg). by destruct (_ || _).
Qed.
End Theorems.

(** * On a partition of a drive *)

Section Drive.
Context {B : Type} {P : AtaPorts B} {PS : PackedStruct} {PSok : PackedStructOk PS} (polls : nat) {OK : AtaDriveOk B polls} (device : ATADevice) (p : MBRPartitionFile).
#[local] Existing Instance part_device_ok.

(** The partition as a device of ext2, and its bytes as one. *)
Definition drive_part : DeviceFile (ATABus B) := part_device (DF := ata_device polls device) p.
Definition part_as_bytes (before : list Z) : DeviceFile (list Z) := flat_device (whole (DF := drive_part) (DeviceFileOk := part_device_ok p before)).

(** C5: ext2 on a partition of a drive does what it does on the partition's bytes: every
    sequence of calls of a file or folder (reading, writing, resizing, listing,
    removing, creating) that runs on the bytes runs on the drive with the same replies
    and the same inode, the drive then holds the changed bytes, and the bytes of every
    other partition are what they were.  The device of the partition's bytes serves what
    the drive does: ranges in the drive's first 512 MiB that end in the sectors counted
    for their length; a call that asks for any other range is not covered. *)
Theorem ext2_on_partition_of_drive bus all s x r inode a calls fs' inode' rs :
  holds (DeviceFileOk := ata_device_ok polls device) bus all -> part_inside p all ->
  ext2_calls (DF := part_as_bytes all) a calls (MkExt2 (part_bytes p all) s x r, inode) = Ret ((fs', inode'), rs) ->
  exists bus' all', ext2_calls (DF := drive_part) a calls (MkExt2 bus s x r, inode) =
      Ret ((MkExt2 bus' (sb fs') (extended_sb fs') (read_only fs'), inode'), rs) /\
    holds (DeviceFileOk := ata_device_ok polls device) bus' all' /\ part_bytes p all' = backing_device fs' /\
    forall q, part_inside q all -> parts_apart p q -> part_bytes q all' = part_bytes q all.
Proof.
  intros Hh Hp E. pose proof (sim_calls (DF := drive_part) (DFok := part_device_ok p all) a calls) as S.
  destruct (S (MkExt2 bus s x r, inode) (MkExt2 (part_bytes p all) s x r, inode) (fs', inode') rs) as ([fs i'] & E' & [HR Ei]); [|exact E|].
  { split; [|done]. exists bus, (part_bytes p all), s, x, r. split; [done|]. split; [done|]. by exists all. }
  cbn [fst snd] in *. subst i'. destruct HR as (bus' & c & s' & x' & r' & -> & -> & all' & Hh' & _ & -> & _ & Hq). exists bus', all'. split; [exact E'|]. done.
Qed.
End Drive.
