(* ===== verification/Ext2Demo.v ===== *)
(** A small ext2 file system of sixteen blocks of 1 KiB: a folder with an empty file
    [a] and a file [b]; the theorems applied to it. *)
From S2P Require Import Prelude MachineInt Str PackedStruct Device Path Vfs Ata AtaDrive AtaTheorems Partition Ext2 Ext2Inode Ext2Dir Ext2Sim Ext2Flat Ext2Tree Ext2Bytes Ext2Alloc Ext2Table Ext2Unlink Ext2Theorems.
From stdpp Require Import list sets.
#[local] Open Scope Z_scope.

#[local] Instance demo_device : DeviceFile (list Z) := flat_device (fun _ _ => true).

Definition demo_sb : Ext2SuperBlock := MkSuperBlock 16 16 0 5 4 1 0 0 8192 8192 16 0 0 0 0 0xEF53 1 1 0 0 0 0 0 0 0.
Definition demo_desc : Ext2BlockGroupDescriptor := MkDescriptor 3 4 5 5 4 1.
Definition demo_inode (typ size links : Z) (blocks : list Z) (singly : Z) : Ext2RawInode :=
  MkInode typ 0 size 0 0 0 0 0 links 2 0 0 (blocks ++ replicate (12 - length blocks) 0) singly 0 0 0 0 0 0 [0; 0; 0].
Definition demo_root : Ext2RawInode := demo_inode 0x41FF 1024 2 [7] 0.
Definition demo_a : Ext2RawInode := demo_inode 0x81FF 0 1 [] 0.
Definition demo_b : Ext2RawInode := demo_inode 0x81FF 1000 2 [8] 9.

Definition demo_entry (inode size : Z) (name : str) (pad : nat) : Entry :=
  MkEntry (MkHeader inode size (Z.of_nat (length (as_bytes name))) 0) name (replicate pad 0).
Definition demo_dot : Entry := demo_entry 2 12 [46] 3.
Definition demo_dotdot : Entry := demo_entry 2 12 [46; 46] 2.
Definition demo_entry_a : Entry := demo_entry 11 12 [97] 3.
Definition demo_entry_b : Entry := demo_entry 12 988 [98] 979.

(** Block bitmap in block 3, inode bitmap in 4, inode table in 5 and 6, the folder in 7,
    the data of [b] in 8, its pointer block in 9, which points to 10. *)
Definition demo_image : list Z :=
  foldl (fun c '(pos, data) => splice c pos data) (replicate 16384 0)
    [(1024%nat, join_fields Lsb superblock_sizes (superblock_values demo_sb));
     (2048%nat, descriptor_bytes demo_desc);
     (3072%nat, 0xFF :: 0xE0 :: replicate 1022 0xFF);
     (4096%nat, 0xFF :: 0x0F :: replicate 1022 0xFF);
     (5248%nat, inode_bytes demo_root); (6400%nat, inode_bytes demo_a); (6528%nat, inode_bytes demo_b);
     (7168%nat, dir_image [demo_dot; demo_dotdot; demo_entry_a; demo_entry_b]);
     (8192%nat, replicate 1000 65); (9216%nat, [10; 0; 0; 0])].
Definition demo_fs : Ext2FS (list Z) := MkExt2 demo_image demo_sb None false.

(** Facts about the image, computed. *)
Ltac compute_decide := apply bool_decide_unpack; vm_compute; exact I.

Lemma demo_serves : serves_sectors (fun _ _ => true).
Proof. done. Qed.

Lemma demo_size : block_size_ok demo_sb.
Proof. unfold block_size_ok. simpl. lia. Qed.

Lemma demo_disk_bytes : disk_ok demo_image.
Proof. apply (bool_decide_unpack (disk_ok demo_image)). vm_compute. exact I. Qed.

Lemma demo_super : super_ok demo_sb None.
Proof. split; simpl; try lia; done. Qed.

Lemma demo_tree : inode_tree_okb demo_sb demo_image demo_b = true.
Proof. vm_compute. reflexivity. Qed.

(** The thirteenth data block of [b] is found through its pointer block. *)
Lemma data_block_pointer_is_leaf_witness :
  read_data_block_pointer demo_b 12 demo_fs = Ret (demo_fs, leaf_at (inode_leaves demo_sb demo_image demo_b) 12) /\
  read_data_block_pointer demo_b 12 demo_fs = Ret (demo_fs, Some 10).
Proof.
  split.
  - exact (data_block_pointer_is_leaf (fun _ _ => true) demo_image demo_sb None false demo_b 12 demo_serves demo_size demo_disk_bytes demo_tree).
  - vm_compute. reflexivity.
Defined.

(** A file with direct blocks only. *)
Lemma direct_file_ok s c i bl : inode_tree_okb s c i = true -> 0 <= Ext2Inode.get_size i -> length bl = blocks_for s (Z.to_nat (Ext2Inode.get_size i)) ->
  bl `prefix_of` direct_block_pointers i -> Forall (block_in s c) bl -> NoDup bl -> Forall (fun b => b ∉ inode_inner s c i) bl -> file_ok s c i bl.
Proof.
  intros H1 H2 H3 [k Hk] H5 H6 H7. split; try done; [|by rewrite Forall_forall in H7].
  intros j b Hj. unfold leaf_at, inode_leaves. rewrite Hk, fmap_app, <- !app_assoc.
  rewrite lookup_app_l by (rewrite length_fmap; by eapply lookup_lt_Some). by rewrite list_lookup_fmap, Hj.
Qed.

Lemma demo_file_b : file_ok demo_sb demo_image demo_b [8].
Proof.
  apply direct_file_ok; [exact demo_tree|simpl; lia|vm_compute; reflexivity|by exists (replicate 11 0)| | |].
  - apply (bool_decide_unpack (Forall (block_in demo_sb demo_image) [8])). vm_compute. exact I.
  - apply NoDup_singleton.
  - apply (bool_decide_unpack (Forall (fun b => b ∉ inode_inner demo_sb demo_image demo_b) [8])). vm_compute. exact I.
Qed.

Lemma read_bytes_delivers_witness : exists bytes, read_bytes demo_b (Z.of_nat 990) (Z.of_nat 10) demo_fs = Ret (demo_fs, Some bytes) /\ bytes = replicate 10 65.
Proof.
  eexists. split.
  - apply (read_bytes_delivers (fun _ _ => true) demo_image demo_sb None false demo_b [8] 990 10 demo_serves demo_size demo_disk_bytes demo_file_b); simpl; lia.
  - vm_compute. reflexivity.
Defined.

(** At offset 200 the data ends up at offset 72. *)
Lemma write_bytes_stores_witness : exists c',
  write_bytes demo_b (Z.of_nat 200) [1; 2; 3] demo_fs = Ret (MkExt2 c' demo_sb None false, Some 3) /\
  file_content demo_sb c' demo_b [8] = splice (file_content demo_sb demo_image demo_b [8]) 72 [1; 2; 3].
Proof.
  destruct (write_bytes_stores (fun _ _ => true) demo_image demo_sb None demo_b [8] 200 128 [1; 2; 3] demo_serves demo_size demo_disk_bytes demo_file_b)
    as (c' & E & _ & _ & _ & C & _); [simpl; lia|done|repeat (constructor; [done|]); constructor|simpl; lia|done|vm_compute; lia|].
  exists c'. split; [exact E|]. apply C. apply Nat.leb_le. vm_compute. reflexivity.
Defined.

(** The group's bits: those that are clear stand for the blocks 11 to 15. *)
Definition free_okb (i : nat) : bool := bool_decide (Z.of_nat i < blocks_per_block_group demo_sb /\ block_in demo_sb demo_image (block_number demo_sb 0 i) /\
  block_number demo_sb 0 i <> block_addr_for_block_usage_bitmap demo_desc).
Lemma demo_free : forallb (fun ib : nat * bool => if ib.2 then true else free_okb ib.1) (imap pair (block_bitmap demo_sb demo_image demo_desc)) = true.
Proof. vm_compute. reflexivity. Qed.

Lemma demo_group : group_ok demo_sb demo_image 0 demo_desc.
Proof.
  split.
  - reflexivity.
  - vm_compute. reflexivity.
  - split; [|vm_compute; discriminate]. apply (bool_decide_unpack (block_in demo_sb demo_image 3)). vm_compute. exact I.
  - intros i Hi. pose proof (proj1 (forallb_forall _ _) demo_free (i, false)) as H. apply (bool_decide_eq_true_1 _). apply H.
    apply list_elem_of_In, list_elem_of_lookup. exists i. by rewrite list_lookup_imap, Hi.
  - vm_compute. reflexivity.
Qed.

(** The next block is 11. *)
Lemma alloc_block_takes_first_free_witness : exists i c',
  alloc_block 0 demo_fs = Ret (MkExt2 c' (set_unallocated_blocks demo_sb 4) None false, Some (block_number demo_sb 0 i)) /\
  block_bitmap demo_sb demo_image demo_desc !! i = Some false /\ block_at demo_sb c' (block_number demo_sb 0 i) = replicate (block_bytes demo_sb) 0.
Proof.
  destruct (alloc_block_takes_first_free (fun _ _ => true) demo_image demo_sb None 0 demo_desc demo_serves demo_super demo_disk_bytes demo_group ltac:(reflexivity))
    as (i & c' & E & A).
  exists i, c'. split; [exact E|]. split; [apply A|apply A].
Defined.

Lemma alloc_then_release_restores_witness : exists p fs c',
  alloc_block 0 demo_fs = Ret (fs, Some p) /\ dealloc_block p fs = Ret (MkExt2 c' demo_sb None false, Some ()) /\
  block_bitmap demo_sb c' demo_desc = block_bitmap demo_sb demo_image demo_desc.
Proof.
  destruct (alloc_then_release_restores (fun _ _ => true) demo_image demo_sb None 0 demo_desc demo_serves demo_super demo_disk_bytes demo_group)
    as (p & fs & c' & E1 & E2 & _ & _ & E3 & _); [simpl; lia|simpl; lia|simpl; lia|].
  exists p, fs, c'. split; [exact E1|]. split; [exact E2|exact E3].
Defined.

(** Inodes of the demo. *)
Lemma demo_here a : 0 < a <= 16 -> inode_here demo_sb None demo_image 128 a demo_desc.
Proof.
  intros Ha. assert (inode_group demo_sb a = 0%nat) as Eg by (unfold inode_group; change (inodes_per_block_group demo_sb) with 16; rewrite Z.div_small; lia).
  split; [lia|by rewrite Eg|rewrite Eg; vm_compute; reflexivity|done|vm_compute; discriminate|].
  apply Nat2Z.inj_le. assert (Z.of_nat (length demo_image) = 16384) as -> by (vm_compute; reflexivity). unfold inode_pos, inode_index.
  assert (Z.of_nat (Z.to_nat (block_addr_for_inode_table demo_desc) * block_bytes demo_sb) = 5120) as E by (vm_compute; reflexivity).
  change (inodes_per_block_group demo_sb) with 16. rewrite Z.mod_small by lia. rewrite !Nat2Z.inj_add, E. lia.
Qed.

Ltac demo_values := repeat (apply Forall2_cons; split; [split; vm_compute; congruence|]); constructor.

Lemma demo_inode_ok : inode_ok demo_root /\ inode_ok demo_a.
Proof. split; (split; [unfold values_ok; cbv [inode_sizes inode_values]; simpl; demo_values|reflexivity|reflexivity]). Qed.

Lemma inode_write_read_back_witness : exists c',
  write_inode 11 demo_root demo_fs = Ret (MkExt2 c' demo_sb None false, Some ()) /\
  read_inode 11 (MkExt2 c' demo_sb None false) = Ret (MkExt2 c' demo_sb None false, Some demo_root) /\
  read_inode 2 (MkExt2 c' demo_sb None false) = Ret (MkExt2 c' demo_sb None false, Some demo_root).
Proof.
  destruct (inode_write_read_back (fun _ _ => true) demo_image demo_sb None 128 11 demo_desc demo_root demo_serves demo_super demo_disk_bytes
    (demo_here 11 ltac:(lia)) (proj1 demo_inode_ok)) as (c' & E1 & E2 & E3).
  exists c'. split; [exact E1|]. split; [exact E2|]. apply (E3 2 demo_root); [done|done|apply demo_here; lia|apply demo_inode_ok|vm_compute; reflexivity].
Defined.

(** The folder. *)
Lemma demo_entries_ok : Forall entry_ok [demo_dot; demo_dotdot; demo_entry_a; demo_entry_b].
Proof.
  repeat (constructor; [split; [unfold values_ok, header_sizes, header_values; demo_values|reflexivity|reflexivity|repeat (constructor; [vm_compute; intuition congruence|]); constructor]|]). constructor.
Qed.

Lemma demo_root_file : file_ok demo_sb demo_image demo_root [7].
Proof.
  apply direct_file_ok; [vm_compute; reflexivity|simpl; lia|vm_compute; reflexivity|by exists (replicate 11 0)| | |].
  - apply (bool_decide_unpack (Forall (block_in demo_sb demo_image) [7])). vm_compute. exact I.
  - apply NoDup_singleton.
  - apply (bool_decide_unpack (Forall (fun b => b ∉ inode_inner demo_sb demo_image demo_root) [7])). vm_compute. exact I.
Qed.

Lemma demo_folder : folder_with demo_sb demo_image demo_root [7] [demo_dot] demo_dotdot demo_entry_a [demo_entry_b].
Proof.
  split; [exact demo_root_file|vm_compute; reflexivity|exact demo_entries_ok|by split| |vm_compute; reflexivity].
  split; [|vm_compute; congruence]. constructor; [vm_compute; congruence|constructor].
Qed.

Lemma demo_releasable : releasable demo_sb demo_image 128 11 demo_desc.
Proof.
  split; [split; [|vm_compute; discriminate]|split; vm_compute; congruence|split; vm_compute; congruence|vm_compute; reflexivity|right; apply Nat.leb_le; vm_compute; reflexivity].
  apply (bool_decide_unpack (block_in demo_sb demo_image 4)). vm_compute. exact I.
Qed.

Lemma demo_apart : folder_apart demo_sb demo_image demo_root [7] 128 11 demo_desc.
Proof.
  intros q Hq. change ([7] ++ inode_inner demo_sb demo_image demo_root) with [7] in Hq. apply list_elem_of_singleton in Hq as ->.
  split; [vm_compute; congruence|]. split; [vm_compute; congruence|]. left. apply Nat.leb_le. vm_compute. reflexivity.
Qed.

(** The empty file [a] is removed: the entries are ., .. and b, and its inode is free. *)
Lemma unlink_removes_entry_witness : exists c' s',
  ext2_unlink demo_root [97] demo_fs = Ret (MkExt2 c' s' None false, Some ()) /\ unallocated_inodes s' = 5 /\
  inode_bitmap demo_sb c' demo_desc !! 10%nat = Some false /\
  exists entries, get_entries demo_root (MkExt2 c' s' None false) = Ret (MkExt2 c' s' None false, Some entries) /\ entries.*2 = [[46]; [46; 46]; [98]].
Proof.
  pose proof (unlink_removes_entry (fun _ _ => true) demo_image demo_sb None demo_root [7] [demo_dot] demo_dotdot demo_entry_a [demo_entry_b] 128 demo_desc demo_a
    demo_serves demo_super demo_disk_bytes demo_folder) as T.
  change (keeps_data demo_a) with false in T. change (hard_links_to_inode demo_a =? 1) with true in T. destruct T as (c' & s' & E & Eg & _ & [R1 _ _ R4]).
  - simpl. lia.
  - apply Nat.leb_le. vm_compute. reflexivity.
  - apply demo_here. simpl. lia.
  - apply demo_inode_ok.
  - vm_compute. reflexivity.
  - split; [done|]. intros _ _. exact demo_releasable.
  - exact demo_apart.
  - vm_compute. discriminate.
  - exists c', s'. split; [exact E|]. split; [by rewrite R1|]. split; [rewrite R4; vm_compute; reflexivity|].
    eexists. split; [exact Eg|]. vm_compute. reflexivity.
Defined.

Lemma mount_checks_features_witness : ext2_new demo_image false = Ret (demo_image, Some demo_fs).
Proof.
  pose proof (mount_checks_features (fun _ _ => true) demo_image demo_sb false demo_serves demo_disk_bytes) as H.
  etransitivity; [apply H; [apply Nat.leb_le; vm_compute; reflexivity|vm_compute; reflexivity]|reflexivity].
Defined.

(** * On a drive *)

(** The image in the sectors 1 to 32 of a drive. *)
Fixpoint words_of (bytes : list Z) : list Z :=
  match bytes with a :: b :: bytes => (a + 256 * b) :: words_of bytes | _ => [] end.
Definition image_sectors : list (list Z) := (fun i => words_of (take 512 (drop (512 * i) demo_image))) <$> seq 0 32.
Definition drive_disk : Disk := MkDisk (replicate 256 0 :: image_sectors) (replicate 256 0).
Definition drive_bus : ATABus SimDrive := MkBus (MkSim (MkDrive (Some drive_disk) None 0 0 0 0 0 (Idle false)) 0) None None Primary.
Definition drive_partition : MBRPartitionFile := MkPartition 512 16384 PART_0.

#[local] Instance sector_ok_dec v : Decision (sector_ok v).
Proof. unfold sector_ok, in_u. solve_decision. Defined.

Lemma drive_sectors_ok : Forall sector_ok (sectors drive_disk).
Proof. apply (bool_decide_unpack (Forall sector_ok (sectors drive_disk))). vm_compute. exact I. Qed.

Lemma drive_bus_holds : holds (DeviceFileOk := ata_device_ok 3 MASTER) drive_bus (disk_bytes drive_disk).
Proof. exists drive_disk. split; [|reflexivity]. split; [done|]. split; [reflexivity|]. exact drive_sectors_ok. Qed.

Lemma drive_partition_inside : part_inside drive_partition (disk_bytes drive_disk).
Proof.
  unfold part_inside. assert (Z.of_nat (length (disk_bytes drive_disk)) = 16896) as -> by (vm_compute; reflexivity). simpl. lia.
Qed.

Definition demo_calls : list Ext2Call := [CallRead 0 4; CallUnlink [97]; CallCreate [99] TFile; CallResize 2048].

(** The calls on the bytes of the partition: all succeed. *)
Abbreviation demo_run := (ext2_calls (DF := part_as_bytes 3 MASTER drive_partition (disk_bytes drive_disk)) 2 demo_calls
  (MkExt2 (part_bytes drive_partition (disk_bytes drive_disk)) demo_sb None false, demo_root)).
Definition reply_ok (r : Ext2Reply) : bool :=
  match r with Bytes (Some _) | Count (Some _) | Done (Some _) | Children _ | Created (Some _) => true | _ => false end.
Lemma demo_run_ok : match demo_run with Ret (_, Some rs) => forallb reply_ok rs | _ => false end = true.
Proof. vm_compute. reflexivity. Qed.

Lemma demo_run_result : exists fs' inode' rs, demo_run = Ret ((fs', inode'), Some rs) /\ forallb reply_ok rs = true.
Proof.
  pose proof demo_run_ok as H. destruct demo_run as [[[fs' inode'] [rs|]]|]; [|discriminate H|discriminate H]. exists fs', inode', rs. split; [reflexivity|exact H].
Qed.

Lemma ext2_on_partition_of_drive_witness : exists (fs' : Ext2FS (list Z)) inode' rs bus',
  ext2_calls (DF := drive_part 3 MASTER drive_partition) 2 demo_calls (MkExt2 drive_bus demo_sb None false, demo_root) =
    Ret ((MkExt2 bus' (sb fs') (extended_sb fs') (read_only fs'), inode'), Some rs) /\ forallb reply_ok rs = true.
Proof.
  destruct demo_run_result as (fs' & inode' & rs & E & H).
  destruct (ext2_on_partition_of_drive 3 MASTER drive_partition drive_bus (disk_bytes drive_disk) demo_sb None false demo_root 2 demo_calls fs' inode' (Some rs)
    drive_bus_holds drive_partition_inside E) as (bus' & all' & E' & _).
  exists fs', inode', rs, bus'. split; [exact E'|exact H].
Defined.
