(* ===== verification/Compressed.v ===== *)
(** The expansion of compressed instructions, the first half of
    [Riscv64Cpu::tick] in kernel/src/emulator.rs: the 32-bit word it builds for
    a halfword decodes to the instruction the manual gives for that halfword. *)
From S2P Require Import Prelude MachineInt PackedStruct RiscvInst RiscvIsa EmulatorMemory Cpu Decode.
#[local] Open Scope Z_scope.

(** Check an equation on every value of one or two small fields. *)
Ltac enum1 n :=
  let a := fresh "a" in let Ha := fresh "Ha" in
  intros a Ha; apply Z.eqb_eq;
  match goal with |- ?b = true =>
    let e := eval pattern a in b in
    match e with ?P a => exact (forall_range n P ltac:(vm_cast_no_check (eq_refl true)) a Ha) end
  end.

Ltac enum2 n m :=
  let a := fresh "a" in let b := fresh "b" in let Ha := fresh "Ha" in let Hb := fresh "Hb" in
  intros a b Ha Hb; apply Z.eqb_eq;
  match goal with |- ?e = true =>
    let e' := eval pattern a, b in e in
    match e' with ?P a b =>
      exact (forall_range2 n m P ltac:(vm_cast_no_check (eq_refl true)) a b Ha Hb) end
  end.

(** * Immediates of the compressed formats, as functions of their fields *)

Lemma ci_imm6 : forall p1 p2, 0 <= p1 < 32 -> 0 <= p2 < 2 ->
  sign_extend 8 32 (Z.lor (Z.lor (Z.lor (shl 8 p2 7) (shl 8 p2 6)) (shl 8 p2 5)) p1)
  = wrap 32 (to_signed 6 (p1 + p2 * 32)).
Proof. enum2 32 2. Qed.

Lemma ci_lui : forall p1 p2, 0 <= p1 < 32 -> 0 <= p2 < 2 ->
  shl 32 (wrap 32 (to_signed 6 (p1 + p2 * 32))) 12 = wrap 32 (to_signed 6 (p1 + p2 * 32) * 4096).
Proof. enum2 32 2. Qed.

Lemma ci_shamt : forall p1 p2, 0 <= p1 < 32 -> 0 <= p2 < 2 ->
  Z.lor (shl 32 (Z.land p2 1) 5) p1 = wrap 32 (p1 + p2 * 32).
Proof. enum2 32 2. Qed.

Lemma ci_lwsp : forall p1 p2, 0 <= p1 < 32 -> 0 <= p2 < 2 ->
  Z.lor (Z.lor (shl 32 (Z.land p1 3) 6) (shl 32 p2 5)) (Z.land p1 0x1c)
  = wrap 32 (bits p1 2 3 * 4 + p2 * 32 + bits p1 0 2 * 64).
Proof. enum2 32 2. Qed.

Lemma ci_ldsp : forall p1 p2, 0 <= p1 < 32 -> 0 <= p2 < 2 ->
  Z.lor (Z.lor (shl 32 (Z.land p1 7) 6) (shl 32 p2 5)) (Z.land p1 0x18)
  = wrap 32 (bits p1 3 2 * 8 + p2 * 32 + bits p1 0 3 * 64).
Proof. enum2 32 2. Qed.

Lemma ci_16sp : forall p1 p2, 0 <= p1 < 32 -> 0 <= p2 < 2 ->
  (let imm := Z.lor (Z.lor (Z.lor (Z.lor
       (shl 32 (Z.land p2 1) 9) (shl 32 (Z.land (Z.shiftr p1 1) 3) 7))
       (shl 32 (Z.land (Z.shiftr p1 3) 1) 6)) (shl 32 (Z.land p1 1) 5)) (Z.land p1 0x10) in
   if negb (Z.land p2 1 =? 0) then Z.lor imm (bnot 32 0x3ff) else Z.land imm 0x3ff)
  = wrap 32 (to_signed 10 (bits p1 4 1 * 16 + bits p1 0 1 * 32 + bits p1 3 1 * 64
                           + bits p1 1 2 * 128 + p2 * 512)).
Proof. enum2 32 2. Qed.

Lemma css_swsp : forall p, 0 <= p < 64 ->
  Z.lor (Z.land p 0x3c) (shl 32 (Z.land p 3) 6) = wrap 32 (bits p 2 4 * 4 + bits p 0 2 * 64).
Proof. enum1 64. Qed.

Lemma css_sdsp : forall p, 0 <= p < 64 ->
  Z.lor (Z.land p 0x38) (shl 32 (Z.land p 7) 6) = wrap 32 (bits p 3 3 * 8 + bits p 0 3 * 64).
Proof. enum1 64. Qed.

Lemma ciw_uimm : forall p, 0 <= p < 256 ->
  Z.lor (Z.lor (Z.lor (shl 32 (Z.land (Z.shiftr p 2) 0xf) 6) (shl 32 (Z.land (Z.shiftr p 6) 3) 4))
    (shl 32 (Z.land (Z.shiftr p 0) 1) 3)) (shl 32 (Z.land (Z.shiftr p 1) 1) 2)
  = wrap 32 (bits p 2 4 * 64 + bits p 6 2 * 16 + bits p 0 1 * 8 + bits p 1 1 * 4).
Proof. enum1 256. Qed.

Lemma cl_off_w : forall p1 p2, 0 <= p1 < 4 -> 0 <= p2 < 8 ->
  Z.lor (Z.lor (shl 32 (Z.land (Z.shiftr p1 0) 1) 6) (shl 32 p2 3))
    (shl 32 (Z.land (Z.shiftr p1 1) 1) 2)
  = wrap 32 (bits p1 0 1 * 64 + p2 * 8 + bits p1 1 1 * 4).
Proof. enum2 4 8. Qed.

Lemma cl_off_d : forall p1 p2, 0 <= p1 < 4 -> 0 <= p2 < 8 ->
  Z.lor (Z.lor (shl 32 (Z.land (Z.shiftr p1 1) 1) 7) (shl 32 (Z.land (Z.shiftr p1 0) 1) 6))
    (shl 32 p2 3)
  = wrap 32 (p1 * 64 + p2 * 8).
Proof. enum2 4 8. Qed.

Lemma cb_off : forall p1 p2, 0 <= p1 < 32 -> 0 <= p2 < 8 ->
  (let imm := Z.lor (Z.lor (Z.lor (Z.lor
       (shl 32 (Z.land (Z.shiftr p2 2) 1) 8) (shl 32 (Z.land (Z.shiftr p1 3) 3) 6))
       (shl 32 (Z.land p1 1) 5)) (shl 32 (Z.land p2 3) 3)) (Z.land p1 6) in
   if Z.land (Z.shiftr p2 2) 1 =? 1 then Z.lor imm (bnot 32 0x1ff) else Z.land imm 0x1ff)
  = wrap 32 (to_signed 9 (bits p1 1 2 * 2 + bits p2 0 2 * 8 + bits p1 0 1 * 32
                          + bits p1 3 2 * 64 + bits p2 2 1 * 256)).
Proof. enum2 32 8. Qed.

Lemma cb_shamt : forall p1 p2, 0 <= p1 < 32 -> 0 <= p2 < 8 ->
  Z.lor (shl 32 (Z.shiftr p2 2) 5) p1 = wrap 32 (p1 + bits p2 2 1 * 32).
Proof. enum2 32 8. Qed.

Lemma cb_imm6 : forall p1 p2, 0 <= p1 < 32 -> 0 <= p2 < 8 ->
  sign_extend 8 32 (Z.lor (Z.lor (Z.lor (shl 8 (Z.shiftr p2 2) 7) (shl 8 (Z.shiftr p2 2) 6))
    (shl 8 (Z.shiftr p2 2) 5)) p1)
  = wrap 32 (to_signed 6 (p1 + bits p2 2 1 * 32)).
Proof. enum2 32 8. Qed.

Lemma cj_off : forall p, 0 <= p < 2048 ->
  sign_extend 16 32 (Z.lor (Z.lor (Z.lor (Z.lor (Z.lor (Z.lor (Z.lor (Z.lor (Z.lor (Z.lor (Z.lor
    (shl 16 (bits p 10 1) 15) (shl 16 (bits p 10 1) 14)) (shl 16 (bits p 10 1) 13))
    (shl 16 (bits p 10 1) 12)) (shl 16 (bits p 10 1) 11)) (shl 16 (bits p 6 1) 10))
    (shl 16 (bits p 7 2) 8)) (shl 16 (bits p 4 1) 7)) (shl 16 (bits p 5 1) 6))
    (shl 16 (bits p 0 1) 5)) (shl 16 (bits p 9 1) 4)) (shl 16 (bits p 1 3) 1))
  = wrap 32 (to_signed 12 (bits p 1 3 * 2 + bits p 9 1 * 16 + bits p 0 1 * 32 + bits p 5 1 * 64
      + bits p 4 1 * 128 + bits p 7 2 * 256 + bits p 6 1 * 1024 + bits p 10 1 * 2048)).
Proof. enum1 2048. Qed.

(** * Expansion *)

Section Expand.
Context {PS : PackedStruct} {PSok : PackedStructOk PS}.

Definition expands_to (w : Z) (i : instr) : Prop :=
  exists w', expand_compressed w = Ret (Some w') /\ in_u 32 w' /\ decode w' = Some i.

Lemma compressed_opcode_C0 h : bits h 0 2 = 0 -> compressed_opcode_of h = Some C0.
Proof. unfold compressed_opcode_of. by intros ->. Qed.
Lemma compressed_opcode_C1 h : bits h 0 2 = 1 -> compressed_opcode_of h = Some C1.
Proof. unfold compressed_opcode_of. by intros ->. Qed.
Lemma compressed_opcode_C2 h : bits h 0 2 = 2 -> compressed_opcode_of h = Some C2.
Proof. unfold compressed_opcode_of. by intros ->. Qed.

Lemma compressed_type_word h :
  get_compressed_instruction_type h =
  @get_compressed_instruction_type reference_packed_struct h.
Proof.
  unfold get_compressed_instruction_type.
  by rewrite from_primitive_reference by apply NoDup_compressed_opcodes.
Qed.

(** The format of a halfword whose opcode, funct3 and (in the mixed group)
    funct2 are known. *)
Ltac compressed_type :=
  unfold expands_to, expand_compressed; rewrite compressed_type_word;
  unfold get_compressed_instruction_type;
  match goal with h := wrap 16 ?w |- _ =>
    fold h; change (Z.land h 3) with (bits h 0 2);
    change (Z.land (Z.shiftr h 13) 7) with (bits h 13 3);
    change (Z.land (Z.shiftr h 10) 3) with (bits h 10 2)
  end;
  repeat match goal with E : bits _ _ _ = _ |- _ => rewrite E end;
  change (from_primitive RiscvCompressedOpcode_table (wrap 8 0)) with (Some C0);
  change (from_primitive RiscvCompressedOpcode_table (wrap 8 1)) with (Some C1);
  change (from_primitive RiscvCompressedOpcode_table (wrap 8 2)) with (Some C2);
  cbn [mbind option_bind otry].

#[local] Arguments bits : simpl never.
#[local] Arguments shl : simpl never.
#[local] Arguments wrap : simpl never.
#[local] Arguments bnot : simpl never.
#[local] Arguments sign_extend : simpl never.
#[local] Arguments to_signed : simpl never.
#[local] Arguments Z.shiftr : simpl never.
#[local] Arguments Z.mul : simpl never.
#[local] Arguments Z.add : simpl never.
#[local] Arguments Z.land : simpl never.
#[local] Arguments Z.lor : simpl never.

(** Replace the fields of an unpacked record by the bits of the halfword; the
    opcode and the funct3 are known. *)
Ltac read_fields :=
  cbv beta iota zeta delta
    [otry mbind option_bind
     cr_opcode cr_rs2 cr_rd_rs1 cr_funct4 ci_opcode ci_imm_part1 ci_rd_rs1 ci_imm_part2 ci_funct3
     css_opcode css_rs2 css_imm css_funct3 ciw_opcode ciw_compressed_rd ciw_imm ciw_funct3
     cl_opcode cl_compressed_rd cl_imm_part1 cl_compressed_rs1 cl_imm_part2 cl_funct3
     cs_opcode cs_compressed_rs2 cs_imm_part1 cs_compressed_rs1 cs_imm_part2 cs_funct3
     ca_opcode ca_compressed_rs2 ca_funct2 ca_compressed_rd_rs1 ca_funct6
     cb_opcode cb_imm_part1 cb_compressed_rd_rs1 cb_imm_part2 cb_funct3
     cj_opcode cj_imm_bit5 cj_imm_3_1 cj_imm_bit7 cj_imm_bit6 cj_imm_bit10 cj_imm_9_8 cj_imm_bit4
     cj_imm_bit11 cj_funct3
     citype_parse_imm csstype_parse_imm ciwtype_parse_imm ciwtype_parse_rd cltype_parse_imm
     cltype_parse_rs1 cltype_parse_rd cstype_parse_imm cstype_parse_rs1 cstype_parse_rs2
     catype_parse_rs2 catype_parse_rd_rs1 cbtype_parse_imm cbtype_parse_funct2
     cbtype_parse_rd_rs1 cjtype_parse_imm];
  repeat match goal with E : bits _ _ _ = _ |- _ => rewrite E end;
  cbv beta iota.

Ltac unpacked lem :=
  rewrite lem by done;
  first [rewrite compressed_opcode_C0 by done | rewrite compressed_opcode_C1 by done
        |rewrite compressed_opcode_C2 by done];
  read_fields.

Lemma creg_ok h lo : 0 <= lo -> add_chk 8 (bits h lo 3) 8 = Ret (8 + bits h lo 3) /\ in_u 5 (8 + bits h lo 3).
Proof.
  intros Hlo. pose proof (bits_range h lo 3 Hlo ltac:(lia)). unfold in_u in *.
  rewrite add_chk_ok by lia. split; [f_equal; lia|lia].
Qed.

(** The word [lem] builds is the expansion; what remains is to decode it. *)
Ltac encoded lem :=
  let w' := fresh "w'" in let Hw := fresh "Hw" in let B := fresh "B" in
  edestruct lem as (w' & -> & Hw & B);
  [..|exists w'; split_and!; [done|done|]; destruct_and? B; simpl in *;
      unfold decode, decode_opimm, decode_opimm32;
      repeat match goal with E : bits w' _ _ = _ |- _ => rewrite E
                           | E : imm_I w' = _ |- _ => rewrite E
                           | E : imm_S w' = _ |- _ => rewrite E
                           | E : imm_B w' = _ |- _ => rewrite E
                           | E : imm_U w' = _ |- _ => rewrite E
                           | E : imm_J w' = _ |- _ => rewrite E end].

Lemma bits_bits z lo len i n :
  0 <= lo -> 0 <= i -> 0 <= n -> i + n <= len -> bits (bits z lo len) i n = bits z (lo + i) n.
Proof. intros. rewrite (bits_sub z lo len (lo + i) n) by lia. f_equal. lia. Qed.

(** Name the sub-fields of a field by their position in the halfword. *)
Ltac flatten_bits :=
  rewrite ?bits_bits by lia;
  repeat match goal with |- context [Zpos ?a + Zpos ?b] =>
    let v := eval compute in (Zpos a + Zpos b) in change (Zpos a + Zpos b) with v end;
  rewrite ?Z.add_0_r.

(** Bounds that follow from the widths of the fields in the goal. *)
Ltac bits_bounds :=
  match goal with
  | |- in_u ?n (8 + bits ?h ?lo 3) => apply (creg_ok h lo); lia
  | |- in_u _ _ => first [done | apply bits_range; lia | unfold in_u]
  | |- _ <= to_signed ?n ?x < _ =>
      enough (- 2 ^ (n - 1) <= to_signed n x < 2 ^ (n - 1)) by lia; apply to_signed_range; [lia|];
      unfold in_u
  | _ => idtac
  end;
  repeat match goal with |- context [bits ?a ?b ?c] =>
    let H := fresh in
    pose proof (bits_range a b c ltac:(lia) ltac:(lia)) as H; unfold in_u in H;
    generalize dependent (bits a b c); intros end;
  try lia.

Lemma expand_c0 w i :
  let h := wrap 16 w in
  bits h 0 2 = 0 -> decode_c0 h = Some i -> expands_to w i.
Proof.
  intros h E0 Hd. assert (in_u 16 h) as Hh by (by apply in_u_wrap).
  pose proof (cases_u3 _ (bits_range h 13 3 ltac:(lia) ltac:(lia))) as E13.
  destruct (creg_ok h 2 ltac:(lia)) as [R2 _]. destruct (creg_ok h 7 ltac:(lia)) as [R7 _].
  unfold decode_c0 in Hd. range_cases E13; rewrite E13 in Hd; try discriminate Hd;
  compressed_type.
  - case_match; simplify_eq.
    unfold expand_ciw. unpacked ciwtype_unpack_word.
    rewrite R2, ciw_uimm by (apply bits_range; lia). simpl. rewrite pack_i_be_word, <- repack_i_word.
    flatten_bits. encoded encode_i; [bits_bounds..|done].
  - simplify_eq. unfold expand_cl. unpacked cltype_unpack_word.
    rewrite R2, R7, cl_off_w by (apply bits_range; lia). simpl.
    flatten_bits. encoded encode_i; [bits_bounds..|done].
  - simplify_eq. unfold expand_cl. unpacked cltype_unpack_word.
    rewrite R2, R7, cl_off_d by (apply bits_range; lia). simpl.
    flatten_bits. encoded encode_i; [bits_bounds..|done].
  - simplify_eq. unfold expand_cs. unpacked cstype_unpack_word.
    rewrite R2, R7, cl_off_w by (apply bits_range; lia). simpl.
    flatten_bits. encoded encode_s; [bits_bounds..|done].
  - simplify_eq. unfold expand_cs. unpacked cstype_unpack_word.
    rewrite R2, R7, cl_off_d by (apply bits_range; lia). simpl.
    flatten_bits. encoded encode_s; [bits_bounds..|done].
Qed.

(** The shift amount and the shift kind of an encoded shift. *)
Lemma shift_amount w z s k :
  bits w 20 12 = wrap 12 z -> in_u 6 s -> in_u 6 k -> z = s + k * 64 ->
  bits w 20 6 = s /\ bits w 26 6 = k.
Proof.
  unfold in_u. intros Hz Hs Hk ->.
  rewrite (bits_sub w 20 12 20 6), (bits_sub w 20 12 26 6), Hz by lia.
  rewrite wrap_small, !bits_spec by (unfold in_u; lia). change (26 - 20) with 6.
  rewrite Z.div_1_r, Z.div_add, (Z.div_small s), Z.add_0_l by lia. change (2 ^ 6) with 64 in *.
  by rewrite Z.mod_add, !Z.mod_small by lia.
Qed.

Ltac decode_shift Hs k :=
  match goal with E : bits ?w 20 12 = wrap 12 _ |- _ =>
    destruct (shift_amount w _ _ k E Hs ltac:(done) ltac:(lia)) as [-> ->]; done
  end.

Lemma cb_shamt_srai : forall p1 p2, 0 <= p1 < 32 -> 0 <= p2 < 8 ->
  Z.lor (wrap 32 (p1 + bits p2 2 1 * 32)) 0x400 = wrap 32 (p1 + bits p2 2 1 * 32 + 16 * 64).
Proof. enum2 32 8. Qed.

Lemma to_signed_even n x : 1 < n -> (2 | x) -> (2 | to_signed n x).
Proof.
  intros Hn Hx. unfold to_signed. destruct (_ <? _); [done|]. apply Z.divide_sub_r; [done|].
  exists (2 ^ (n - 1)). rewrite pow2_half by lia. lia.
Qed.

Lemma ca_funct6_word h : bits h 10 6 = bits h 10 2 + bits h 12 1 * 4 + bits h 13 3 * 8.
Proof. rewrite <- (bits_join h 10 2 4 12 6), <- (bits_join h 12 1 3 13 4) by lia. lia. Qed.

(** Unfold a CI, CB or CA expansion and its immediate. *)
Ltac unpack_ci := unfold expand_ci; unpacked citype_unpack_word.
Ltac unpack_cb := unfold expand_cb; unpacked cbtype_unpack_word.
Ltac unpack_cb_alu :=
  unpack_cb;
  match goal with |- context [Z.land (bits ?h 10 3) 3] =>
    change (Z.land (bits h 10 3) 3) with (bits (bits h 10 3) 0 2);
    rewrite (bits_bits h 10 3 0 2) by lia; change (10 + 0) with 10
  end;
  repeat match goal with E : bits _ _ _ = _ |- _ => rewrite E end; cbv beta iota.

Lemma expand_c1_ci w i :
  let h := wrap 16 w in
  bits h 0 2 = 1 -> bits h 13 3 < 4 -> decode_c1 h = Some i -> expands_to w i.
Proof.
  intros h E0 Hlt Hd. assert (in_u 16 h) as Hh by (by apply in_u_wrap).
  pose proof (cases_u3 _ (bits_range h 13 3 ltac:(lia) ltac:(lia))) as E13.
  unfold decode_c1 in Hd. range_cases E13; try lia; rewrite E13 in Hd; compressed_type.
  - simplify_eq. unpack_ci. rewrite ci_imm6 by (apply bits_range; lia).
    encoded encode_i; [bits_bounds..|done].
  - case_match; simplify_eq. unpack_ci. rewrite ci_imm6 by (apply bits_range; lia).
    encoded encode_i; [bits_bounds..|done].
  - simplify_eq. unpack_ci. rewrite ci_imm6 by (apply bits_range; lia).
    encoded encode_i; [bits_bounds..|done].
  - unpack_ci. destruct (bits h 7 5 =? 2) eqn:E2; case_match; simplify_eq; simpl.
    + rewrite ci_16sp by (apply bits_range; lia). flatten_bits.
      encoded encode_i; [bits_bounds..|done].
    + rewrite ci_imm6, ci_lui by (apply bits_range; lia).
      assert (in_u 6 (bits h 2 5 + bits h 12 1 * 32)) as Hr%to_signed_range by bits_bounds; [|lia].
      edestruct (encode_u LUI (bits h 7 5) (to_signed 6 (bits h 2 5 + bits h 12 1 * 32) * 4096))
        as (w' & -> & Hw & B1 & B2 & B3); [bits_bounds|lia|by eexists|].
      exists w'. unfold decode. by rewrite B1, B2, B3.
Qed.

Lemma expand_c1_alu w i :
  let h := wrap 16 w in
  bits h 0 2 = 1 -> bits h 13 3 = 4 -> decode_c1 h = Some i -> expands_to w i.
Proof.
  intros h E0 E13 Hd. assert (in_u 16 h) as Hh by (by apply in_u_wrap).
  destruct (creg_ok h 2 ltac:(lia)) as [R2 _]. destruct (creg_ok h 7 ltac:(lia)) as [R7 _].
  assert (in_u 6 (bits h 2 5 + bits h 12 1 * 32)) as Hs by bits_bounds.
  pose proof (cases_u2 _ (bits_range h 10 2 ltac:(lia) ltac:(lia))) as E10.
  unfold decode_c1 in Hd. rewrite E13 in Hd. range_cases E10; rewrite E10 in Hd; compressed_type.
  - simplify_eq. unpack_cb_alu. rewrite R7, cb_shamt by (apply bits_range; lia). simpl. flatten_bits.
    encoded encode_i; [bits_bounds..|]. decode_shift Hs 0.
  - simplify_eq. unpack_cb_alu. rewrite R7, cb_shamt by (apply bits_range; lia). simpl.
    rewrite cb_shamt_srai by (apply bits_range; lia). flatten_bits.
    encoded encode_i; [bits_bounds..|]. decode_shift Hs 16.
  - simplify_eq. unpack_cb_alu. rewrite R7, cb_imm6 by (apply bits_range; lia). simpl. flatten_bits.
    encoded encode_i; [bits_bounds..|done].
  - unfold expand_ca. rewrite catype_unpack_word, compressed_opcode_C1 by done. simpl.
    rewrite ca_funct6_word, E10, E13. unfold catype_parse_rd_rs1, catype_parse_rs2. simpl.
    rewrite R2, R7. simpl.
    pose proof (bits_range h 12 1 ltac:(lia) ltac:(lia)) as R12.
    assert (bits h 12 1 = 0 \/ bits h 12 1 = 1) as E12 by (unfold in_u in R12; lia).
    pose proof (cases_u2 _ (bits_range h 5 2 ltac:(lia) ltac:(lia))) as E5.
    range_cases E12; rewrite E12 in *; range_cases E5; rewrite E5 in *; simplify_eq;
      change (3 + 0 * 4 + 4 * 8) with 35; change (3 + 1 * 4 + 4 * 8) with 39; simpl;
      (encoded encode_r; [bits_bounds..|done]).
Qed.

Lemma expand_c1_jump w i :
  let h := wrap 16 w in
  bits h 0 2 = 1 -> 4 < bits h 13 3 -> decode_c1 h = Some i -> expands_to w i.
Proof.
  intros h E0 Hlt Hd. assert (in_u 16 h) as Hh by (by apply in_u_wrap).
  destruct (creg_ok h 7 ltac:(lia)) as [R7 _].
  pose proof (cases_u3 _ (bits_range h 13 3 ltac:(lia) ltac:(lia))) as E13.
  unfold decode_c1 in Hd. range_cases E13; try lia; rewrite E13 in Hd; compressed_type; simplify_eq.
  - unfold expand_cj. unpacked cjtype_unpack_word.
    pose proof (cj_off (bits h 2 11) ltac:(apply bits_range; lia)) as E. revert E. flatten_bits. intros ->.
    edestruct (encode_j JAL 0) as (w' & -> & Hw & B1 & B2 & B3); [done| | |].
    3: { exists w'. unfold decode. by rewrite B1, B2, B3. }
    + bits_bounds.
    + apply to_signed_even; [lia|]. repeat apply Z.divide_add_r; (apply Z.divide_mul_r; by apply Z.mod_divide).
  - unpack_cb. rewrite R7, cb_off by (apply bits_range; lia). simpl. flatten_bits.
    encoded encode_b; [bits_bounds..| |done].
    apply to_signed_even; [lia|]. repeat apply Z.divide_add_r; (apply Z.divide_mul_r; by apply Z.mod_divide).
  - unpack_cb. rewrite R7, cb_off by (apply bits_range; lia). simpl. flatten_bits.
    encoded encode_b; [bits_bounds..| |done].
    apply to_signed_even; [lia|]. repeat apply Z.divide_add_r; (apply Z.divide_mul_r; by apply Z.mod_divide).
Qed.

Lemma expand_c2_load w i :
  let h := wrap 16 w in
  bits h 0 2 = 2 -> bits h 13 3 < 4 -> decode_c2 h = Some i -> expands_to w i.
Proof.
  intros h E0 Hlt Hd. assert (in_u 16 h) as Hh by (by apply in_u_wrap).
  assert (in_u 6 (bits h 2 5 + bits h 12 1 * 32)) as Hs by bits_bounds.
  pose proof (cases_u3 _ (bits_range h 13 3 ltac:(lia) ltac:(lia))) as E13.
  unfold decode_c2 in Hd. range_cases E13; try lia; rewrite E13 in Hd; try discriminate Hd;
    compressed_type.
  - simplify_eq. unpack_ci. rewrite ci_shamt by (apply bits_range; lia).
    encoded encode_i; [bits_bounds..|decode_shift Hs 0].
  - case_match; simplify_eq. unpack_ci. rewrite ci_lwsp by (apply bits_range; lia). flatten_bits.
    encoded encode_i; [bits_bounds..|done].
  - case_match; simplify_eq. unpack_ci. rewrite ci_ldsp by (apply bits_range; lia). flatten_bits.
    encoded encode_i; [bits_bounds..|done].
Qed.

Lemma encode_i_0 op rd f3 rs1 :
  in_u 5 rd -> in_u 3 f3 -> in_u 5 rs1 ->
  exists w, repack_i op rd f3 rs1 0 = Ret (Some w) /\ in_u 32 w /\
    bits w 0 7 = RiscvOpcode_discr op /\ bits w 7 5 = rd /\ bits w 12 3 = f3 /\
    bits w 15 5 = rs1 /\ bits w 20 12 = wrap 12 0 /\ imm_I w = 0.
Proof. intros. change 0 with (wrap 32 0) at 1. by apply encode_i. Qed.

Lemma cr_funct4_word h : bits h 12 4 = bits h 12 1 + bits h 13 3 * 2.
Proof. rewrite <- (bits_join h 12 1 3 13 4) by lia. lia. Qed.

Lemma expand_c2_rest w i :
  let h := wrap 16 w in
  bits h 0 2 = 2 -> 4 <= bits h 13 3 -> decode_c2 h = Some i -> expands_to w i.
Proof.
  intros h E0 Hlt Hd. assert (in_u 16 h) as Hh by (by apply in_u_wrap).
  pose proof (cases_u3 _ (bits_range h 13 3 ltac:(lia) ltac:(lia))) as E13.
  unfold decode_c2 in Hd. range_cases E13; try lia; rewrite E13 in Hd; try discriminate Hd;
    compressed_type.
  - unfold expand_cr. unpacked crtype_unpack_word. rewrite cr_funct4_word, E13.
    pose proof (bits_range h 12 1 ltac:(lia) ltac:(lia)) as R12.
    assert (bits h 12 1 = 0 \/ bits h 12 1 = 1) as E12 by (unfold in_u in R12; lia).
    range_cases E12; rewrite E12 in *; simpl in Hd; change (0 + 4 * 2) with 8;
      change (1 + 4 * 2) with 9; repeat case_match; simplify_eq; simpl in *; simplify_eq;
      first [encoded encode_i_0; [bits_bounds..|done] | encoded encode_r; [bits_bounds..|done]].
  - simplify_eq. unfold expand_css. unpacked csstype_unpack_word.
    rewrite css_swsp by (apply bits_range; lia). flatten_bits.
    encoded encode_s; [bits_bounds..|done].
  - simplify_eq. unfold expand_css. unpacked csstype_unpack_word.
    rewrite css_sdsp by (apply bits_range; lia). flatten_bits.
    encoded encode_s; [bits_bounds..|done].
Qed.

(** The 32-bit word built for a halfword decodes to the halfword's
    instruction. *)
Lemma expand_compressed_decode w i :
  decode_compressed (wrap 16 w) = Some i -> expands_to w i.
Proof.
  unfold decode_compressed. intros Hd.
  pose proof (cases_u2 _ (bits_range (wrap 16 w) 0 2 ltac:(lia) ltac:(lia))) as E0.
  destruct (Z.lt_total (bits (wrap 16 w) 13 3) 4) as [|[|]];
    range_cases E0; rewrite E0 in Hd; try discriminate Hd;
    eauto using expand_c0, expand_c1_ci, expand_c1_alu, expand_c1_jump, expand_c2_load.
  all: apply expand_c2_rest; (done || lia).
Qed.

End Expand.
