(* ===== verification/CpuAlu.v ===== *)
(** The arithmetic of kernel/src/emulator.rs: every register-register and
    register-immediate arm of the cpu computes the value the manual gives, on
    every pair of 64-bit operands for which the Rust expression does not panic. *)
From S2P Require Import Prelude MachineInt PackedStruct RiscvInst RiscvIsa EmulatorMemory Cpu Decode.
#[local] Open Scope Z_scope.

(** * Registers *)

(** The value of a register, and the cpu after an assignment, as the manual
    states them: register 0 is the constant 0. *)
Definition reg {M} (c : Riscv64Cpu M) (r : Z) : Z :=
  if r =? 0 then 0 else default 0 (registers c !! Z.to_nat (r - 1)).
Definition set_reg {M} (c : Riscv64Cpu M) (r v : Z) : Riscv64Cpu M :=
  if r =? 0 then c
  else MkCpu (program_counter c) (<[Z.to_nat (r - 1) := v]> (registers c)) (memory c).

Definition regs_ok (regs : list Z) : Prop := length regs = 31%nat /\ Forall (in_u 64) regs.

Lemma read_reg_ok {M} (c : Riscv64Cpu M) r :
  regs_ok (registers c) -> in_u 5 r -> read_reg c r = Ret (reg c r) /\ in_u 64 (reg c r).
Proof.
  intros [Hlen Hf] Hr. unfold in_u in Hr. unfold read_reg, reg.
  destruct (Z.eqb_spec r 0); [done|].
  destruct (lookup_lt_is_Some_2 (registers c) (Z.to_nat (r - 1))) as [v Hv]; [lia|].
  rewrite Hv. split; [done|]. by eapply Forall_lookup_1 in Hf.
Qed.

Lemma write_reg_ok {M} (c : Riscv64Cpu M) r v :
  regs_ok (registers c) -> in_u 5 r -> write_reg c r v = Ret (set_reg c r v).
Proof.
  intros [Hlen _] Hr. unfold in_u in Hr. unfold write_reg, set_reg.
  destruct (Z.eqb_spec r 0); [done|]. simpl. rewrite decide_True by lia. done.
Qed.

Lemma regs_ok_insert regs k v : regs_ok regs -> in_u 64 v -> regs_ok (<[k := v]> regs).
Proof. intros [H1 H2] Hv. split; [by rewrite length_insert|by apply Forall_insert]. Qed.

Lemma regs_ok_set_reg {M} (c : Riscv64Cpu M) r v :
  regs_ok (registers c) -> in_u 64 v -> regs_ok (registers (set_reg c r v)).
Proof. intros. unfold set_reg. destruct (_ =? _); [done|]. by apply regs_ok_insert. Qed.

Lemma reg_set_reg {M} (c : Riscv64Cpu M) r r' v :
  regs_ok (registers c) -> in_u 5 r -> in_u 5 r' ->
  reg (set_reg c r v) r' = if (r' =? r) && negb (r =? 0) then v else reg c r'.
Proof.
  intros [Hlen _] Hr Hr'. unfold in_u in *. unfold reg, set_reg.
  destruct (Z.eqb_spec r 0), (Z.eqb_spec r' 0), (Z.eqb_spec r' r); subst; simpl; try done; try lia.
  - by rewrite list_lookup_insert_eq by lia.
  - by rewrite list_lookup_insert_ne by lia.
Qed.

(** * Shifts and extensions *)

Lemma land_63 b : Z.land b 0x3f = b mod 64.
Proof. apply (Z.land_ones b 6). lia. Qed.
Lemma land_31 b : Z.land b 0x1f = b mod 32.
Proof. apply (Z.land_ones b 5). lia. Qed.

Lemma shl_chk_ok w a n : 0 <= n < w -> shl_chk w a n = Ret (wrap w (a * 2 ^ n)).
Proof.
  intros. unfold shl_chk, shl. rewrite (proj2 (Z.ltb_lt n w)) by lia. by rewrite Z.shiftl_mul_pow2 by lia.
Qed.
Lemma shr_chk_ok w a n : 0 <= n < w -> shr_chk w a n = Ret (a / 2 ^ n).
Proof.
  intros. unfold shr_chk. rewrite (proj2 (Z.ltb_lt n w)) by lia. by rewrite Z.shiftr_div_pow2 by lia.
Qed.
Lemma sar_chk_ok w a n : 0 <= n < w -> sar_chk w a n = Ret (wrap w (to_signed w a / 2 ^ n)).
Proof.
  intros. unfold sar_chk. rewrite (proj2 (Z.ltb_lt n w)) by lia. by rewrite Z.shiftr_div_pow2 by lia.
Qed.

Lemma sign_extend_sx32 v : sign_extend 32 64 (wrap 32 v) = sx32 v.
Proof. apply sign_extend_spec; [lia|by apply in_u_wrap]. Qed.
Lemma sign_extend_sx32_small v : in_u 32 v -> sign_extend 32 64 v = sx32 v.
Proof. intros. by rewrite <- sign_extend_sx32, wrap_small. Qed.

Lemma sx32_wrap v : sx32 (wrap 32 v) = sx32 v.
Proof. unfold sx32, s32. by rewrite wrap_wrap by lia. Qed.

Lemma in_u_div n a b : in_u n a -> 0 < b -> in_u n (a / b).
Proof.
  unfold in_u. intros [? ?] ?. split; [apply Z.div_pos; lia|].
  apply Z.le_lt_trans with a; [apply Z.div_le_upper_bound; nia|done].
Qed.

Lemma in_u_mod n a b : in_u n a -> 0 < b -> in_u n (a mod b).
Proof.
  unfold in_u. intros [? ?] ?. pose proof (Z.mod_pos_bound a b). pose proof (Z.mod_le a b). lia.
Qed.

Lemma in_u_nonzero n b : in_u n b -> b <> 0 -> 0 < b.
Proof. unfold in_u. lia. Qed.

(** The upper half of a 128-bit product. *)
Lemma mul_high x : wrap 64 (Z.shiftr (wrap 128 x) 64) = wrap 64 (x / 2 ^ 64).
Proof.
  rewrite Z.shiftr_div_pow2 by lia. unfold wrap. change (2 ^ 128) with (2 ^ 64 * 2 ^ 64).
  rewrite Z.rem_mul_r by done.
  rewrite (Z.mul_comm (2 ^ 64)), Z.div_add, Z.div_small, Z.add_0_l by (lia || by apply Z.mod_pos_bound).
  by apply Z.mod_mod.
Qed.

Lemma mulhu_high a b : in_u 64 a -> in_u 64 b -> wrap 64 (a * b / 2 ^ 64) = a * b / 2 ^ 64.
Proof.
  intros Ha Hb. apply wrap_small. unfold in_u in *. split; [apply Z.div_pos; nia|].
  apply Z.div_lt_upper_bound; nia.
Qed.

Lemma mod_wrap32 b : wrap 32 b mod 32 = b mod 32.
Proof. apply (wrap_wrap 5 32). lia. Qed.

Create HintDb alu.

(** * Register-register operations *)

(** The divisor of a division is not zero: the operands on which the kernel
    does not panic. *)
Definition rop_safe (op : rop) (b : Z) : Prop :=
  match op with DIV | DIVU | REM | REMU => b <> 0 | _ => True end.
Definition ropw_safe (op : ropw) (b : Z) : Prop :=
  match op with DIVW | DIVUW | REMW | REMUW => wrap 32 b <> 0 | _ => True end.

Lemma div_signed_ok w a b :
  b <> 0 -> wrapping_div_signed w a b = Ret (wrap w (Z.quot (to_signed w a) (to_signed w b))).
Proof. unfold wrapping_div_signed. by intros ->%Z.eqb_neq. Qed.
Lemma rem_signed_ok w a b :
  b <> 0 -> wrapping_rem_signed w a b = Ret (wrap w (Z.rem (to_signed w a) (to_signed w b))).
Proof. unfold wrapping_rem_signed. by intros ->%Z.eqb_neq. Qed.
Lemma div_chk_ok a b : b <> 0 -> div_chk a b = Ret (a / b).
Proof. unfold div_chk. by intros ->%Z.eqb_neq. Qed.
Lemma rem_chk_ok a b : b <> 0 -> rem_chk a b = Ret (a mod b).
Proof. unfold rem_chk. by intros ->%Z.eqb_neq. Qed.

Lemma mod_64_bound b : 0 <= b mod 64 < 64.
Proof. by apply Z.mod_pos_bound. Qed.
Lemma mod_32_bound b : 0 <= b mod 32 < 32.
Proof. by apply Z.mod_pos_bound. Qed.
Lemma in_u_wrap32 z : in_u 32 (wrap 32 z).
Proof. by apply in_u_wrap. Qed.
Lemma pow2_mod_pos b n : 0 < n -> 0 < 2 ^ (b mod n).
Proof. intros. apply pow2_pos, Z.mod_pos_bound. lia. Qed.
Lemma wrap_nonzero_pos w b : 0 <= w -> wrap w b <> 0 -> 0 < wrap w b.
Proof. intros. by eapply in_u_nonzero; [apply in_u_wrap|]. Qed.
#[local] Hint Resolve mod_64_bound mod_32_bound in_u_wrap32 in_u_div in_u_mod wrap_nonzero_pos : alu.
#[local] Hint Extern 1 (0 < 2 ^ _) => (apply pow2_mod_pos; lia) : alu.
#[local] Hint Extern 1 (0 <= _) => lia : alu.

Create Rewrite HintDb alu.
#[local] Hint Rewrite land_63 land_31 mul_high mod_wrap32 sign_extend_sx32 : alu.
#[local] Hint Rewrite shl_chk_ok shr_chk_ok sar_chk_ok using (by auto with alu) : alu.
#[local] Hint Rewrite div_signed_ok rem_signed_ok div_chk_ok rem_chk_ok using done : alu.

(** Evaluate a Rust arithmetic expression and compare it with the manual's. *)
Ltac solve_alu :=
  unfold wrapping_mul, wrapping_add, wrapping_sub;
  rewrite ?(sign_extend_spec 64 128) by (done || lia);
  autorewrite with wrap; autorewrite with alu; simpl;
  repeat match goal with H : ?x <> 0 |- context [?x =? 0] => rewrite (proj2 (Z.eqb_neq x 0) H) end;
  rewrite ?mulhu_high by done; autorewrite with wrap; rewrite ?sign_extend_sx32;
  rewrite ?sign_extend_sx32_small by auto with alu; try done.

Section Alu.
Context {M : Type}.
Implicit Types c : Riscv64Cpu M.

Lemma alu2_ok c rd rs1 rs2 f v :
  regs_ok (registers c) -> in_u 5 rd -> in_u 5 rs1 -> in_u 5 rs2 ->
  f (reg c rs1) (reg c rs2) = Ret v -> alu2 c rs1 rs2 rd f = Ret (set_reg c rd v).
Proof.
  intros Hc Hd H1 H2 Hf. unfold alu2.
  destruct (read_reg_ok c rs1 Hc H1) as [-> _]. destruct (read_reg_ok c rs2 Hc H2) as [-> _].
  simpl. rewrite Hf. simpl. by apply write_reg_ok.
Qed.

Lemma execute_rop c op rd rs1 rs2 f3 f7 :
  regs_ok (registers c) -> in_u 5 rd -> in_u 5 rs1 -> in_u 5 rs2 ->
  decode_op f3 f7 = Some op -> rop_safe op (reg c rs2) ->
  execute_rtype_inst c {| r_opcode := OP; r_rd := rd; r_funct3 := f3; r_rs1 := rs1; r_rs2 := rs2;
                          r_funct7 := f7 |}
  = Ret (set_reg c rd (eval_rop op (reg c rs1) (reg c rs2))).
Proof.
  intros Hc Hd H1 H2 Hop Hs.
  destruct (read_reg_ok c rs1 Hc H1) as [_ Ra]. destruct (read_reg_ok c rs2 Hc H2) as [_ Rb].
  unfold decode_op in Hop. repeat case_match; simplify_eq; simpl in Hs;
    (apply alu2_ok; [done..|]); simpl; f_equal.
  all: solve_alu.
Qed.

Lemma execute_ropw c op rd rs1 rs2 f3 f7 :
  regs_ok (registers c) -> in_u 5 rd -> in_u 5 rs1 -> in_u 5 rs2 ->
  decode_op32 f3 f7 = Some op -> ropw_safe op (reg c rs2) ->
  execute_rtype_inst c {| r_opcode := OP32; r_rd := rd; r_funct3 := f3; r_rs1 := rs1; r_rs2 := rs2;
                          r_funct7 := f7 |}
  = Ret (set_reg c rd (eval_ropw op (reg c rs1) (reg c rs2))).
Proof.
  intros Hc Hd H1 H2 Hop Hs.
  destruct (read_reg_ok c rs1 Hc H1) as [_ Ra]. destruct (read_reg_ok c rs2 Hc H2) as [_ Rb].
  unfold decode_op32 in Hop. repeat case_match; simplify_eq; simpl in Hs;
    (apply alu2_ok; [done..|]); simpl; try f_equal.
  all: solve_alu.
Qed.

(** * Register-immediate operations *)

Lemma imm64_ok z : - 2 ^ 31 <= z < 2 ^ 31 -> sign_extend_to_u64 32 (wrap 32 z) = wrap 64 z.
Proof. apply sign_extend_wrap32. Qed.

(** The test that tells SRAI from SRLI: a bit of the immediate above the shift
    amount is set. *)
Lemma high_bits_zero z n w : 0 <= n <= w -> 
  (Z.land (wrap w z) (bnot w (Z.ones n)) =? 0) = (bits (wrap w z) n (w - n) =? 0).
Proof.
  intros. rewrite bnot_ones_shiftl by lia.
  assert (Z.land (wrap w z) (Z.shiftl (Z.ones (w - n)) n) = Z.shiftl (bits (wrap w z) n (w - n)) n) as ->.
  { apply Z.bits_inj'. intros i Hi. autorewrite with testbit.
    destruct (Z.lt_ge_cases i n).
    - by rewrite !Z.testbit_neg_r with (n := i - n), andb_false_r by lia.
    - autorewrite with testbit. by replace (i - n + n) with i by lia. }
  rewrite Z.shiftl_mul_pow2 by lia. pose proof (pow2_pos n).
  destruct (Z.eqb_spec (bits (wrap w z) n (w - n)) 0) as [->|]; [done|]. apply Z.eqb_neq. nia.
Qed.

Lemma shift_imm w n s k :
  0 <= n <= w -> in_u n s -> in_u (w - n) k ->
  (Z.land (wrap w (s + k * 2 ^ n)) (bnot w (Z.ones n)) =? 0) = (k =? 0) /\
  Z.land (wrap w (s + k * 2 ^ n)) (Z.ones n) = s.
Proof.
  intros Hn Hs Hk.
  assert (in_u w (s + k * 2 ^ n)) as Hw.
  { replace w with (n + (w - n)) by lia. apply in_u_shift_add; (done || lia). }
  rewrite high_bits_zero, bits_spec, Z.land_ones, wrap_small by (done || lia).
  unfold in_u in *. rewrite Z.div_add, (Z.div_small s), Z.mod_add, !Z.mod_small by lia. done.
Qed.

Lemma imm_I_split w n k :
  0 <= n < 12 -> k = 12 - n -> bits w (20 + n) k < 2 ^ (11 - n) ->
  imm_I w = bits w 20 n + bits w (20 + n) k * 2 ^ n.
Proof.
  intros Hn -> Hk. unfold imm_I. replace 12 with (n + (12 - n)) at 2 by lia.
  rewrite bits_app by lia. unfold to_signed.
  pose proof (bits_range w 20 n ltac:(lia) ltac:(lia)) as [? ?].
  pose proof (bits_range w (20 + n) (12 - n) ltac:(lia) ltac:(lia)) as [? ?].
  rewrite (proj2 (Z.ltb_lt _ _)); [done|].
  replace (12 - 1) with (n + (11 - n)) by lia. rewrite Z.pow_add_r by lia. nia.
Qed.

(** The test of the immediate's upper part and the shift amount of an encoded
    shift. *)
Lemma shift_imm_word W n w k :
  0 <= n < 12 -> 12 <= W -> bits w (20 + n) (12 - n) = k -> k < 2 ^ (11 - n) ->
  (Z.land (wrap W (imm_I w)) (bnot W (Z.ones n)) =? 0) = (k =? 0) /\
  Z.land (wrap W (imm_I w)) (Z.ones n) = bits w 20 n.
Proof.
  intros Hn HW E Hk. rewrite (imm_I_split w n (12 - n)), E by lia.
  apply shift_imm; [lia|apply bits_range; lia|]. rewrite <- E.
  eapply in_u_weaken; [|apply bits_range]; lia.
Qed.

Lemma shift_imm_6 w k : bits w 26 6 = k -> k < 32 ->
  (Z.land (wrap 64 (imm_I w)) (bnot 64 0x3f) =? 0) = (k =? 0) /\
  Z.land (wrap 64 (imm_I w)) 0x3f = bits w 20 6 /\ 0 <= bits w 20 6 < 64.
Proof.
  intros. destruct (shift_imm_word 64 6 w k) as [H1 H2]; [lia|lia|done..|].
  split_and!; [done|done|apply (bits_range w 20 6); lia..].
Qed.
Lemma shift_imm_5 w k : bits w 25 7 = k -> k < 64 ->
  (Z.land (wrap 32 (imm_I w)) (bnot 32 0x1f) =? 0) = (k =? 0) /\
  Z.land (wrap 32 (imm_I w)) 0x1f = bits w 20 5 /\ 0 <= bits w 20 5 < 32.
Proof.
  intros. destruct (shift_imm_word 32 5 w k) as [H1 H2]; [lia|lia|done..|].
  split_and!; [done|done|apply (bits_range w 20 5); lia..].
Qed.

Lemma execute_opimm_ok c w inst op rd rs1 imm :
  regs_ok (registers c) -> i_opcode inst = OPIMM -> i_rd inst = bits w 7 5 ->
  i_funct3 inst = bits w 12 3 -> i_rs1 inst = bits w 15 5 -> i_imm inst = bits w 20 12 ->
  decode_opimm w (bits w 7 5) (bits w 12 3) (bits w 15 5) = Some (Iop op rd rs1 imm) ->
  execute_opimm c inst = Some (Ret (set_reg c rd (eval_iop op (reg c rs1) imm))).
Proof.
  intros Hc Eop Erd Ef3 Ers1 Eimm Hdec.
  assert (in_u 5 (bits w 7 5)) as Rd by (apply bits_range; lia).
  assert (in_u 5 (bits w 15 5)) as Rs by (apply bits_range; lia).
  assert (in_u 6 (bits w 20 6)) as R6 by (apply bits_range; lia).
  destruct (read_reg_ok c _ Hc Rs) as [Er Ra].
  pose proof (imm_I_range w). unfold execute_opimm. rewrite Eop, Erd, Ers1, Er.
  rewrite (itype_parse_imm_word w) by done. rewrite imm64_ok by lia.
  pose proof (cases_u3 _ (bits_range w 12 3 ltac:(lia) ltac:(lia))) as E3.
  unfold decode_opimm in Hdec. rewrite Ef3 in *.
  range_cases E3; rewrite E3 in *; cbn [obind]; cbv beta iota in Hdec; f_equal.
  all: try (injection Hdec as <- <- <- <-; rewrite write_reg_ok by done; do 2 f_equal; cbn [eval_iop]).
  - apply wrap_add_r.
  - destruct (Z.eqb_spec (bits w 26 6) 0) as [E|]; simplify_eq.
    destruct (shift_imm_6 w 0 E) as (T1 & T2 & T3); [done|]. rewrite ?T1, T2. cbn [negb Z.eqb]. rewrite shl_chk_ok by done. cbn [obind]. by rewrite write_reg_ok.
  - by rewrite to_signed_wrap by lia.
  - destruct (Z.eqb_spec (bits w 26 6) 0) as [E|]; [|destruct (Z.eqb_spec (bits w 26 6) 16) as [E|]];
      simplify_eq.
    + destruct (shift_imm_6 w 0 E) as (T1 & T2 & T3); [done|]. rewrite ?T1, T2. cbn [negb Z.eqb]. rewrite shr_chk_ok by done. cbn [obind]. by rewrite write_reg_ok.
    + destruct (shift_imm_6 w 16 E) as (T1 & T2 & T3); [done|]. rewrite ?T1, T2. cbn [negb Z.eqb]. rewrite sar_chk_ok by done. cbn [obind]. by rewrite write_reg_ok.
Qed.

Lemma execute_opimm32_ok c w inst op rd rs1 imm :
  regs_ok (registers c) -> i_opcode inst = OPIMM32 -> i_rd inst = bits w 7 5 ->
  i_funct3 inst = bits w 12 3 -> i_rs1 inst = bits w 15 5 -> i_imm inst = bits w 20 12 ->
  decode_opimm32 w (bits w 7 5) (bits w 12 3) (bits w 15 5) = Some (IopW op rd rs1 imm) ->
  execute_opimm c inst = Some (Ret (set_reg c rd (eval_iopw op (reg c rs1) imm))).
Proof.
  intros Hc Eop Erd Ef3 Ers1 Eimm Hdec.
  assert (in_u 5 (bits w 7 5)) as Rd by (apply bits_range; lia).
  assert (in_u 5 (bits w 15 5)) as Rs by (apply bits_range; lia).
  assert (in_u 5 (bits w 20 5)) as R5 by (apply bits_range; lia).
  destruct (read_reg_ok c _ Hc Rs) as [Er Ra].
  pose proof (imm_I_range w). unfold execute_opimm. rewrite Eop, Erd, Ers1, Er.
  rewrite (itype_parse_imm_word w) by done.
  pose proof (cases_u3 _ (bits_range w 12 3 ltac:(lia) ltac:(lia))) as E3.
  unfold decode_opimm32 in Hdec. rewrite Ef3 in *.
  range_cases E3; rewrite E3 in *; cbn [obind]; cbv beta iota in Hdec; try discriminate Hdec; f_equal.
  - injection Hdec as <- <- <- <-. rewrite write_reg_ok by done. do 2 f_equal. cbn [eval_iopw].
    unfold wrapping_add. autorewrite with wrap. apply sign_extend_sx32.
  - destruct (Z.eqb_spec (bits w 25 7) 0) as [E|]; simplify_eq.
    destruct (shift_imm_5 w 0 E) as (T1 & T2 & T3); [done|]. rewrite ?T1, T2. cbn [negb Z.eqb]. rewrite shl_chk_ok by done. cbn [obind].
    rewrite write_reg_ok, sign_extend_sx32 by done. cbn [eval_iopw]. by rewrite <- sx32_wrap, wrap_mul_l, sx32_wrap.
  - destruct (Z.eqb_spec (bits w 25 7) 0) as [E|]; [|destruct (Z.eqb_spec (bits w 25 7) 32) as [E|]];
      simplify_eq.
    + destruct (shift_imm_5 w 0 E) as (T1 & T2 & T3); [done|]. rewrite ?T1, T2. cbn [negb Z.eqb]. rewrite shr_chk_ok by done. cbn [obind].
      rewrite sign_extend_sx32_small, write_reg_ok; [done..|].
      apply in_u_div; [apply in_u_wrap32|apply pow2_pos; lia].
    + destruct (shift_imm_5 w 32 E) as (T1 & T2 & T3); [done|]. rewrite ?T1, T2. cbn [negb Z.eqb]. rewrite sar_chk_ok by done. cbn [obind].
      by rewrite write_reg_ok, sign_extend_sx32.
Qed.

End Alu.
