(* ===== verification/CpuRefine.v ===== *)
(** The emulated cpu implements RV64IMC: [tick] of kernel/src/emulator.rs against
    the semantics of the instruction set.  [isa_exec] is one step of the manual's
    machine; [tick_word] reduces a tick to the execution of one 32-bit
    instruction, and the theorems relate the two. *)
From S2P Require Import Prelude MachineInt PackedStruct RiscvInst RiscvIsa EmulatorMemory.
From S2P Require Import Cpu Decode Compressed CpuAlu.
#[local] Open Scope Z_scope.

(** * One step of the instruction set *)

Section Isa.
Context {M : Type} `{EmulatorMemory M}.
Implicit Types c : Riscv64Cpu M.

Definition isa_load (op : lop) (m : M) (a : Z) : outcome Z :=
  let signed w v := Ret (wrap 64 (to_signed w v)) in
  match op with
  | LB => let! v := read_u8_ne m a in signed 8 v
  | LH => let! v := read_u16_ne m a in signed 16 v
  | LW => let! v := read_u32_ne m a in signed 32 v
  | LD => read_u64_ne m a
  | LBU => read_u8_ne m a
  | LHU => read_u16_ne m a
  | LWU => read_u32_ne m a
  end.

Definition isa_store (op : sop) (m : M) (a v : Z) : outcome M :=
  match op with
  | SB => write_u8_ne m a (wrap 8 v)
  | SH => write_u16_ne m a (wrap 16 v)
  | SW => write_u32_ne m a (wrap 32 v)
  | SD => write_u64_ne m a v
  end.

(** Where control goes when the instruction jumps. *)
Definition isa_target (i : instr) c : option Z :=
  match i with
  | Branch op rs1 rs2 imm =>
      if eval_bop op (reg c rs1) (reg c rs2) then Some (wrap 64 (program_counter c + imm)) else None
  | Jal _ imm => Some (wrap 64 (program_counter c + imm))
  | Jalr _ rs1 imm => Some (wrap 64 (reg c rs1 + imm) / 2 * 2)
  | _ => None
  end.

(** The effect on registers and memory; a memory access the implementation
    refuses stops the machine. *)
Definition isa_effect (i : instr) (size : Z) c : outcome (Riscv64Cpu M) :=
  match i with
  | Rop op rd rs1 rs2 => Ret (set_reg c rd (eval_rop op (reg c rs1) (reg c rs2)))
  | RopW op rd rs1 rs2 => Ret (set_reg c rd (eval_ropw op (reg c rs1) (reg c rs2)))
  | Iop op rd rs1 imm => Ret (set_reg c rd (eval_iop op (reg c rs1) imm))
  | IopW op rd rs1 imm => Ret (set_reg c rd (eval_iopw op (reg c rs1) imm))
  | Load op rd rs1 imm =>
      let! v := isa_load op (memory c) (wrap 64 (reg c rs1 + imm)) in Ret (set_reg c rd v)
  | Store op rs1 rs2 imm =>
      let! m := isa_store op (memory c) (wrap 64 (reg c rs1 + imm)) (reg c rs2) in Ret (set_memory c m)
  | Lui rd imm => Ret (set_reg c rd (wrap 64 imm))
  | Auipc rd imm => Ret (set_reg c rd (wrap 64 (program_counter c + imm)))
  | Jal rd _ => Ret (set_reg c rd (program_counter c + size))
  | Jalr rd _ _ => Ret (set_reg c rd (program_counter c + size))
  | Branch _ _ _ _ | Fence | Ecall => Ret c
  end.

Definition isa_exec (i : instr) (size : Z) c : outcome (Riscv64Cpu M) :=
  let! c' := isa_effect i size c in
  Ret (set_pc c' (default (program_counter c + size) (isa_target i c))).

(** What the kernel asks of a program beyond the manual: the address after the
    instruction is a 64-bit address, no division by zero, no jump to the first
    bytes of memory, no jump of an instruction to itself. *)
Definition isa_safe (i : instr) (size : Z) c : Prop :=
  program_counter c + size < 2 ^ 64 /\
  (forall t, isa_target i c = Some t -> size <= t) /\
  match i with
  | Rop op _ _ rs2 => rop_safe op (reg c rs2)
  | RopW op _ _ rs2 => ropw_safe op (reg c rs2)
  | Jal _ _ | Jalr _ _ _ => isa_target i c <> Some (program_counter c)
  | _ => True
  end.

End Isa.

Definition is_ecall (i : instr) : bool := match i with Ecall => true | _ => false end.

Definition is_jump (i : instr) : bool := match i with Jal _ _ | Jalr _ _ _ => true | _ => false end.

Definition is_div (op : rop) : bool := match op with DIV | DIVU | REM | REMU => true | _ => false end.
Definition is_divw (op : ropw) : bool := match op with DIVW | DIVUW | REMW | REMUW => true | _ => false end.

(** The three kinds of instruction on which the kernel departs from the manual:
    a division or remainder by zero, a jump to the instruction's own address, and
    a jump or taken branch to an address below the size of the instruction. *)
Definition divides_by_zero {M} (i : instr) (c : Riscv64Cpu M) : bool :=
  match i with
  | Rop op _ _ rs2 => is_div op && (reg c rs2 =? 0)
  | RopW op _ _ rs2 => is_divw op && (wrap 32 (reg c rs2) =? 0)
  | _ => false
  end.

Definition jumps_to_itself {M} (i : instr) (c : Riscv64Cpu M) : bool :=
  match isa_target i c with Some t => is_jump i && (t =? program_counter c) | None => false end.

Definition jumps_too_low {M} (i : instr) (size : Z) (c : Riscv64Cpu M) : bool :=
  match isa_target i c with Some t => t <? size | None => false end.

Lemma isa_safe_intro {M} (i : instr) size (c : Riscv64Cpu M) :
  program_counter c + size < 2 ^ 64 -> divides_by_zero i c = false ->
  jumps_to_itself i c = false -> jumps_too_low i size c = false -> isa_safe i size c.
Proof.
  unfold isa_safe, jumps_to_itself, jumps_too_low. intros Hpc Hd Hs Hl. split_and!; [done| |].
  - intros t Ht. rewrite Ht in Hl. by apply Z.ltb_ge in Hl.
  - destruct i as [op ? ? r|op ? ? r| | | | | | | | | | |]; try done.
    + destruct op; try done; simpl in Hd |- *; by apply Z.eqb_neq.
    + destruct op; try done; simpl in Hd |- *; by apply Z.eqb_neq.
    + cbn in Hs |- *. intros [= E]. by rewrite E, Z.eqb_refl in Hs.
    + cbn in Hs |- *. intros [= E]. by rewrite E, Z.eqb_refl in Hs.
Qed.

Definition cpu_wf {M} `{EmulatorMemoryOk M} (c : Riscv64Cpu M) : Prop :=
  in_u 64 (program_counter c) /\ regs_ok (registers c) /\ mem_wf (memory c).

Lemma isa_target_range {M} i (c : Riscv64Cpu M) t : isa_target i c = Some t -> in_u 64 t.
Proof.
  intros Ht. destruct i; simplify_eq/=; try case_match; simplify_eq; try (by apply in_u_wrap).
  match goal with |- in_u _ (wrap 64 ?x / 2 * 2) =>
    generalize (in_u_wrap 64 x ltac:(lia)); generalize (wrap 64 x) end.
  unfold in_u. intros. Z.to_euclidean_division_equations. lia.
Qed.

(** * A tick executes one 32-bit instruction *)

Section Tick.
Context {PS : PackedStruct} {PSok : PackedStructOk PS}.
Context {M PD : Type} `{EmulatorMemoryOk M}.
Context (syscall : Riscv64Cpu M -> PD -> outcome (Riscv64Cpu M * PD * CpuAction)).
Implicit Types c : Riscv64Cpu M.

(** The second half of [tick], on an instruction that is 32 bits wide. *)
Definition run_word c (pd : PD) (w size : Z) : outcome (Riscv64Cpu M * PD * option unit) :=
  match opcode_of w with
  | None => Ret (c, pd, None)
  | Some opcode =>
    let! executed := execute syscall c pd w size opcode in
    match executed with
    | None => Ret (c, pd, None)
    | Some (c', pd', action) => finish_tick c' pd' size action
    end
  end.

Lemma opcode_of_word w :
  from_primitive RiscvOpcode_table (wrap 8 (Z.land w 0x7f)) = opcode_of w.
Proof.
  unfold opcode_of. rewrite from_primitive_reference by apply NoDup_opcodes.
  change (Z.land w 0x7f) with (bits w 0 7). rewrite wrap_small; [done|].
  eapply in_u_weaken; [|apply bits_range]; lia.
Qed.

Lemma tick_full c pd w :
  read_u32_le (memory c) (program_counter c) = Ret w -> bits w 0 2 = 3 ->
  tick syscall c pd = run_word c pd w 4.
Proof.
  intros Hr Hb. unfold tick. rewrite Hr. cbn [obind]. change (Z.land w 3) with (bits w 0 2).
  rewrite Hb. cbn [Z.eqb Pos.eqb negb obind]. by rewrite opcode_of_word.
Qed.

Lemma tick_compressed c pd w w' :
  read_u32_le (memory c) (program_counter c) = Ret w -> bits w 0 2 <> 3 ->
  expand_compressed w = Ret (Some w') -> tick syscall c pd = run_word c pd w' 2.
Proof.
  intros Hr Hb He. unfold tick. rewrite Hr. cbn [obind]. change (Z.land w 3) with (bits w 0 2).
  rewrite (proj2 (Z.eqb_neq _ _)) by done. cbn [negb]. rewrite He. cbn [obind].
  by rewrite opcode_of_word.
Qed.

(** Fetching a defined instruction is running a 32-bit word that decodes to it. *)
Lemma tick_word c pd w i size :
  mem_wf (memory c) -> read_u32_le (memory c) (program_counter c) = Ret w ->
  decode_fetch w = Some (i, size) ->
  exists w', in_u 32 w' /\ decode w' = Some i /\ tick syscall c pd = run_word c pd w' size.
Proof.
  intros Hm Hr Hd. destruct (read_u32_le_ok _ _ _ Hm Hr) as [Hw _]. unfold decode_fetch in Hd.
  destruct (Z.eqb_spec (bits w 0 2) 3).
  - destruct (decode w) eqn:E; simplify_eq/=. exists w. split_and!; [done|done|by apply tick_full].
  - destruct (decode_compressed (wrap 16 w)) eqn:E; simplify_eq/=.
    destruct (expand_compressed_decode w _ E) as (w' & He & Hw' & Hd').
    exists w'. split_and!; [done|done|by apply (tick_compressed c pd w)].
Qed.

(** * Execution of one 32-bit instruction *)

(** The instruction of a word whose opcode is known. *)
Definition decode_as (op : RiscvOpcode) (w : Z) : option instr :=
  let rd := bits w 7 5 in
  let f3 := bits w 12 3 in
  let rs1 := bits w 15 5 in
  let rs2 := bits w 20 5 in
  let f7 := bits w 25 7 in
  match op with
  | OP => op ← decode_op f3 f7; Some (Rop op rd rs1 rs2)
  | OP32 => op ← decode_op32 f3 f7; Some (RopW op rd rs1 rs2)
  | OPIMM => decode_opimm w rd f3 rs1
  | OPIMM32 => decode_opimm32 w rd f3 rs1
  | LOAD => op ← decode_load f3; Some (Load op rd rs1 (imm_I w))
  | STORE => op ← decode_store f3; Some (Store op rs1 rs2 (imm_S w))
  | BRANCH => op ← decode_branch f3; Some (Branch op rs1 rs2 (imm_B w))
  | LUI => Some (Lui rd (imm_U w))
  | AUIPC => Some (Auipc rd (imm_U w))
  | JAL => Some (Jal rd (imm_J w))
  | JALR => if f3 =? 0 then Some (Jalr rd rs1 (imm_I w)) else None
  | MISCMEM => if f3 =? 0 then Some Fence else None
  | SYSTEM => if w =? 0x73 then Some Ecall else None
  end.

Lemma decode_opcode w i :
  decode w = Some i -> exists op, opcode_of w = Some op /\ decode_as op w = Some i.
Proof.
  unfold decode, opcode_of. cbv zeta. generalize (bits w 0 7) as o. intros o Hd.
  destruct o as [|p|p]; try discriminate Hd.
  do 7 (try (destruct p as [p|p|]; try discriminate Hd));
    (eexists; split; [vm_compute; reflexivity|exact Hd]).
Qed.

Lemma pc_set_reg c r v : program_counter (set_reg c r v) = program_counter c.
Proof. unfold set_reg. by destruct (_ =? _). Qed.
Lemma set_pc_set_pc c p q : set_pc (set_pc c p) q = set_pc c q.
Proof. done. Qed.

Lemma finish_next c (pd : PD) size :
  program_counter c + size < 2 ^ 64 ->
  finish_tick c pd size NONE = Ret (set_pc c (program_counter c + size), pd, Some ()).
Proof. intros Hpc. unfold finish_tick. simpl. by rewrite add_chk_ok. Qed.

Lemma finish_jump c (pd : PD) size t :
  0 <= size <= t -> in_u 64 t ->
  finish_tick (set_pc c (wrapping_sub 64 t size)) pd size NONE = Ret (set_pc c t, pd, Some ()).
Proof.
  intros Hs Ht. unfold in_u in Ht. unfold wrapping_sub. rewrite wrap_small by (unfold in_u; lia).
  rewrite finish_next; simpl; [|lia]. by rewrite Z.sub_add.
Qed.

(** The instruction [i] runs as the manual says: the shape every case below
    has. *)
Definition runs (i : instr) (size : Z) c (pd : PD) (w : Z) : Prop :=
  run_word c pd w size = let! c' := isa_exec i size c in Ret (c', pd, Some ()).

Lemma runs_effect i size c pd w op c' :
  opcode_of w = Some op -> isa_target i c = None -> program_counter c + size < 2 ^ 64 ->
  program_counter c' = program_counter c ->
  execute syscall c pd w size op = Ret (Some (c', pd, NONE)) ->
  isa_effect i size c = Ret c' -> runs i size c pd w.
Proof.
  intros Ho Ht Hpc Hpc' He Hi. unfold runs, run_word, isa_exec. rewrite Ho, He, Hi, Ht.
  cbn [obind default]. rewrite finish_next by (by rewrite Hpc'). by rewrite Hpc'.
Qed.

Lemma runs_op c pd w size op :
  in_u 32 w -> regs_ok (registers c) -> opcode_of w = Some OP ->
  decode_op (bits w 12 3) (bits w 25 7) = Some op ->
  isa_safe (Rop op (bits w 7 5) (bits w 15 5) (bits w 20 5)) size c ->
  runs (Rop op (bits w 7 5) (bits w 15 5) (bits w 20 5)) size c pd w.
Proof.
  intros Hw Hr Ho Hd (Hpc & _ & Hs). eapply runs_effect; [done|done|done| | |reflexivity].
  - apply pc_set_reg.
  - unfold execute. cbn [get_type]. rewrite rtype_unpack_word, Ho by done. cbn [mbind option_bind otry].
    erewrite execute_rop; [done|try done; apply bits_range; lia..].
Qed.

Lemma runs_op32 c pd w size op :
  in_u 32 w -> regs_ok (registers c) -> opcode_of w = Some OP32 ->
  decode_op32 (bits w 12 3) (bits w 25 7) = Some op ->
  isa_safe (RopW op (bits w 7 5) (bits w 15 5) (bits w 20 5)) size c ->
  runs (RopW op (bits w 7 5) (bits w 15 5) (bits w 20 5)) size c pd w.
Proof.
  intros Hw Hr Ho Hd (Hpc & _ & Hs). eapply runs_effect; [done|done|done| | |reflexivity].
  - apply pc_set_reg.
  - unfold execute. cbn [get_type]. rewrite rtype_unpack_word, Ho by done. cbn [mbind option_bind otry].
    erewrite execute_ropw; [done|try done; apply bits_range; lia..].
Qed.

Lemma decode_opimm_form w rd f3 rs1 i :
  decode_opimm w rd f3 rs1 = Some i -> exists op imm, i = Iop op rd rs1 imm.
Proof. unfold decode_opimm. intros. repeat case_match; simplify_eq; eauto. Qed.
Lemma decode_opimm32_form w rd f3 rs1 i :
  decode_opimm32 w rd f3 rs1 = Some i -> exists op imm, i = IopW op rd rs1 imm.
Proof. unfold decode_opimm32. intros. repeat case_match; simplify_eq; eauto. Qed.

Lemma runs_opimm c pd w size i :
  in_u 32 w -> regs_ok (registers c) -> opcode_of w = Some OPIMM ->
  decode_opimm w (bits w 7 5) (bits w 12 3) (bits w 15 5) = Some i ->
  isa_safe i size c -> runs i size c pd w.
Proof.
  intros Hw Hr Ho Hd (Hpc & _). destruct (decode_opimm_form _ _ _ _ _ Hd) as (op & imm & ->).
  eapply runs_effect; [done|done|done| | |reflexivity].
  - apply pc_set_reg.
  - unfold execute. cbn [get_type]. rewrite itype_unpack_word, Ho by done. cbn [mbind option_bind otry].
    unfold execute_itype_inst. by erewrite (execute_opimm_ok c w) by done.
Qed.

Lemma runs_opimm32 c pd w size i :
  in_u 32 w -> regs_ok (registers c) -> opcode_of w = Some OPIMM32 ->
  decode_opimm32 w (bits w 7 5) (bits w 12 3) (bits w 15 5) = Some i ->
  isa_safe i size c -> runs i size c pd w.
Proof.
  intros Hw Hr Ho Hd (Hpc & _). destruct (decode_opimm32_form _ _ _ _ _ Hd) as (op & imm & ->).
  eapply runs_effect; [done|done|done| | |reflexivity].
  - apply pc_set_reg.
  - unfold execute. cbn [get_type]. rewrite itype_unpack_word, Ho by done. cbn [mbind option_bind otry].
    unfold execute_itype_inst. by erewrite (execute_opimm32_ok c w) by done.
Qed.

Lemma runs_upper c pd w size op :
  in_u 32 w -> cpu_wf c -> opcode_of w = Some op -> (op = LUI \/ op = AUIPC) ->
  forall i, decode_as op w = Some i -> isa_safe i size c -> runs i size c pd w.
Proof.
  intros Hw (_ & Hr & _) Ho Hop i Hd (Hpc & _).
  assert (in_u 5 (bits w 7 5)) as Rd by (apply bits_range; lia). pose proof (imm_U_range w).
  destruct Hop; subst; simplify_eq/=;
    (eapply runs_effect; [done|done|done|apply pc_set_reg| |reflexivity]);
    unfold execute; cbn [get_type]; rewrite utype_unpack_word, Ho by done; cbn [mbind option_bind otry];
    unfold execute_utype_inst; cbn [u_opcode u_rd];
    rewrite (utype_parse_imm_word w), imm64_ok, write_reg_ok by (done || lia); [done|].
  unfold wrapping_add. by rewrite wrap_add_l, Z.add_comm.
Qed.

Lemma runs_memory i size c pd w op :
  opcode_of w = Some op -> isa_target i c = None -> program_counter c + size < 2 ^ 64 ->
  (forall c', isa_effect i size c = Ret c' -> program_counter c' = program_counter c) ->
  execute syscall c pd w size op
  = (let! c' := isa_effect i size c in Ret (Some (c', pd, NONE))) ->
  runs i size c pd w.
Proof.
  intros Ho Ht Hpc Hpc' He. unfold runs, run_word, isa_exec. rewrite Ho, He, Ht.
  destruct (isa_effect i size c) as [c'|]; [|done]. cbn [obind default]. specialize (Hpc' _ eq_refl).
  rewrite finish_next by (by rewrite Hpc'). by rewrite Hpc'.
Qed.

Lemma runs_load c pd w size op :
  in_u 32 w -> cpu_wf c -> opcode_of w = Some LOAD -> decode_load (bits w 12 3) = Some op ->
  isa_safe (Load op (bits w 7 5) (bits w 15 5) (imm_I w)) size c ->
  runs (Load op (bits w 7 5) (bits w 15 5) (imm_I w)) size c pd w.
Proof.
  intros Hw Hc Ho Hd (Hpc & _). eapply runs_memory; [done|done|done| |].
  { intros c' He. simpl in He. inv_outcome. apply pc_set_reg. }
  assert (in_u 5 (bits w 7 5)) as Rd by (apply bits_range; lia).
  assert (in_u 5 (bits w 15 5)) as Rs by (apply bits_range; lia).
  destruct (read_reg_ok c _ (proj1 (proj2 Hc)) Rs) as [Er _]. pose proof (imm_I_range w).
  unfold execute. cbn [get_type]. rewrite itype_unpack_word, Ho by done. cbn [mbind option_bind otry].
  unfold execute_itype_inst, execute_opimm. cbn [i_opcode i_funct3].
  unfold execute_load. cbv zeta beta. cbn [i_opcode i_funct3 i_rs1 i_rd].
  rewrite Er, (itype_parse_imm_word w) by done. rewrite sign_extend_wrap32 by lia.
  unfold wrapping_add. cbn [obind isa_effect]. rewrite !wrap_add_r.
  unfold decode_load in Hd.
  pose proof (cases_u3 _ (bits_range w 12 3 ltac:(lia) ltac:(lia))) as E3.
  range_cases E3; rewrite E3 in *; simplify_eq; cbv beta iota; cbn [isa_load];
    match goal with |- context [obind (?rd (memory _) ?a) _] =>
      destruct (rd (memory c) a) as [v|] eqn:E; [|done] end;
    cbn [obind]; rewrite write_reg_ok by (done || apply Hc); cbn [obind]; try done.
  - apply read_u8_ok in E as [Hv _]; [|apply Hc]. by rewrite (sign_extend_spec 8 64).
  - apply read_u16_ok in E as [Hv _]; [|apply Hc]. by rewrite (sign_extend_spec 16 64).
  - apply read_u32_ok in E as [Hv _]; [|apply Hc]. by rewrite (sign_extend_spec 32 64).
Qed.

Lemma runs_store c pd w size op :
  in_u 32 w -> cpu_wf c -> opcode_of w = Some STORE -> decode_store (bits w 12 3) = Some op ->
  isa_safe (Store op (bits w 15 5) (bits w 20 5) (imm_S w)) size c ->
  runs (Store op (bits w 15 5) (bits w 20 5) (imm_S w)) size c pd w.
Proof.
  intros Hw Hc Ho Hd (Hpc & _). eapply runs_memory; [done|done|done| |].
  { intros c' He. simpl in He. inv_outcome. done. }
  assert (in_u 5 (bits w 20 5)) as Rs2 by (apply bits_range; lia).
  assert (in_u 5 (bits w 15 5)) as Rs by (apply bits_range; lia).
  destruct (read_reg_ok c _ (proj1 (proj2 Hc)) Rs) as [Er _].
  destruct (read_reg_ok c _ (proj1 (proj2 Hc)) Rs2) as [Er2 _]. pose proof (imm_S_range w).
  unfold execute. cbn [get_type]. rewrite stype_unpack_word, Ho by done. cbn [mbind option_bind otry].
  unfold execute_stype_inst. cbv zeta beta. cbn [s_opcode s_funct3 s_rs1 s_rs2].
  rewrite Er, Er2, (stype_parse_imm_word w) by done. rewrite sign_extend_wrap32 by lia.
  unfold wrapping_add. cbn [obind isa_effect]. rewrite !wrap_add_r.
  unfold decode_store in Hd.
  pose proof (cases_u3 _ (bits_range w 12 3 ltac:(lia) ltac:(lia))) as E3.
  range_cases E3; rewrite E3 in *; simplify_eq; done.
Qed.

Lemma execute_branch_word c pd w size op :
  in_u 32 w -> cpu_wf c -> opcode_of w = Some BRANCH -> decode_branch (bits w 12 3) = Some op ->
  execute syscall c pd w size BRANCH =
  Ret (Some (if eval_bop op (reg c (bits w 15 5)) (reg c (bits w 20 5))
             then set_pc c (wrapping_sub 64 (wrap 64 (program_counter c + imm_B w)) size) else c,
             pd, NONE)).
Proof.
  intros Hw Hc Ho Hd.
  assert (in_u 5 (bits w 20 5)) as Rs2 by (apply bits_range; lia).
  assert (in_u 5 (bits w 15 5)) as Rs by (apply bits_range; lia).
  destruct (read_reg_ok c _ (proj1 (proj2 Hc)) Rs) as [Er _].
  destruct (read_reg_ok c _ (proj1 (proj2 Hc)) Rs2) as [Er2 _]. pose proof (imm_B_range w).
  unfold execute. cbn [get_type]. rewrite btype_unpack_word, Ho by done. cbn [mbind option_bind otry].
  unfold execute_btype_inst. cbv zeta beta. cbn [b_opcode b_funct3 b_rs1 b_rs2].
  rewrite Er, Er2, (btype_parse_imm_word w) by done. rewrite imm64_ok by lia.
  unfold wrapping_add. cbn [obind]. rewrite !wrap_add_r. unfold decode_branch in Hd.
  pose proof (cases_u3 _ (bits_range w 12 3 ltac:(lia) ltac:(lia))) as E3.
  range_cases E3; rewrite E3 in *; simplify_eq; done.
Qed.

(** What JAL and JALR do, given their target. *)
Definition jump_result c (pd : PD) (rd size t : Z)
  : outcome (option (Riscv64Cpu M * PD * CpuAction)) :=
  if t =? program_counter c then Ret (Some (c, pd, RAISE_EXCEPTION))
  else
    let! link := add_chk 64 (program_counter c) size in
    Ret (Some (set_pc (set_reg c rd link) (wrapping_sub 64 t size), pd, NONE)).

Lemma execute_jal_word c pd w size :
  in_u 32 w -> cpu_wf c -> opcode_of w = Some JAL ->
  execute syscall c pd w size JAL
  = jump_result c pd (bits w 7 5) size (wrap 64 (program_counter c + imm_J w)).
Proof.
  intros Hw Hc Ho.
  assert (in_u 5 (bits w 7 5)) as Rd by (apply bits_range; lia). pose proof (imm_J_range w).
  unfold execute, jump_result. cbn [get_type]. rewrite jtype_unpack_word, Ho by done.
  cbn [mbind option_bind otry]. unfold execute_jtype_inst. cbv zeta beta. cbn [j_opcode j_rd].
  rewrite (jtype_parse_imm_word w), imm64_ok by (done || lia). unfold wrapping_add.
  rewrite wrap_add_l, (Z.add_comm (imm_J w)). destruct (_ =? _); [done|].
  destruct (add_chk _ _ _); [|done]. cbn [obind]. by rewrite write_reg_ok by (done || apply Hc).
Qed.

(** Clearing the lowest bit of a jump target. *)
Lemma clear_bit0 z : in_u 64 z -> Z.land z (bnot 64 1) = z / 2 * 2.
Proof.
  intros Hz. change 1 with (Z.ones 1). rewrite bnot_ones_shiftl by lia.
  apply Z.bits_inj'. intros i Hi. change (z / 2 * 2) with (z / 2 ^ 1 * 2 ^ 1).
  rewrite <- Z.shiftr_div_pow2, <- Z.shiftl_mul_pow2 by lia. autorewrite with testbit.
  destruct (Z.lt_ge_cases i 1).
  - by rewrite !Z.testbit_neg_r with (n := i - 1), andb_false_r by lia.
  - autorewrite with testbit. rewrite Z.sub_add. destruct (Z.ltb_spec (i - 1) (64 - 1)).
    + by rewrite andb_true_r.
    + by rewrite (testbit_above 64 z) by (done || lia).
Qed.

Lemma execute_jalr_word c pd w size :
  in_u 32 w -> cpu_wf c -> opcode_of w = Some JALR -> bits w 12 3 = 0 ->
  execute syscall c pd w size JALR
  = jump_result c pd (bits w 7 5) size (wrap 64 (reg c (bits w 15 5) + imm_I w) / 2 * 2).
Proof.
  intros Hw Hc Ho E3.
  assert (in_u 5 (bits w 7 5)) as Rd by (apply bits_range; lia).
  assert (in_u 5 (bits w 15 5)) as Rs by (apply bits_range; lia).
  destruct (read_reg_ok c _ (proj1 (proj2 Hc)) Rs) as [Er _]. pose proof (imm_I_range w).
  unfold execute, jump_result. cbn [get_type]. rewrite itype_unpack_word, Ho by done.
  cbn [mbind option_bind otry]. unfold execute_itype_inst, execute_opimm, execute_load. cbv zeta beta.
  cbn [i_opcode i_funct3 i_rs1 i_rd]. rewrite E3. cbv beta iota.
  rewrite Er, (itype_parse_imm_word w), imm64_ok by (done || lia). unfold wrapping_add. cbn [obind].
  rewrite wrap_add_l, (Z.add_comm (imm_I w)), clear_bit0 by (by apply in_u_wrap).
  destruct (_ =? _); [done|]. destruct (add_chk _ _ _); [|done]. cbn [obind].
  by rewrite write_reg_ok by (done || apply Hc).
Qed.

Lemma runs_branch c pd w size op :
  in_u 32 w -> cpu_wf c -> 0 <= size -> opcode_of w = Some BRANCH ->
  decode_branch (bits w 12 3) = Some op ->
  isa_safe (Branch op (bits w 15 5) (bits w 20 5) (imm_B w)) size c ->
  runs (Branch op (bits w 15 5) (bits w 20 5) (imm_B w)) size c pd w.
Proof.
  intros Hw Hc Hsz Ho Hd (Hpc & Ht & _). unfold runs, run_word, isa_exec.
  rewrite Ho, (execute_branch_word c pd w size op) by done. cbn [obind isa_effect isa_target] in *.
  destruct (eval_bop _ _ _); [|by apply finish_next].
  apply finish_jump; [split; [done|by apply Ht]|by apply in_u_wrap].
Qed.

Lemma run_jump i c pd w size rd t op :
  cpu_wf c -> 0 <= size -> opcode_of w = Some op -> isa_target i c = Some t ->
  isa_effect i size c = Ret (set_reg c rd (program_counter c + size)) ->
  execute syscall c pd w size op = jump_result c pd rd size t ->
  program_counter c + size < 2 ^ 64 -> size <= t -> t <> program_counter c ->
  runs i size c pd w.
Proof.
  intros Hc Hsz Ho Ht He Hx Hpc Hle Hself. unfold runs, run_word, isa_exec.
  rewrite Ho, Hx, He, Ht. unfold jump_result. rewrite (proj2 (Z.eqb_neq _ _)), add_chk_ok by (done || lia).
  cbn [obind default]. apply finish_jump; [by split|by eapply isa_target_range].
Qed.

Lemma runs_fence c pd w size :
  in_u 32 w -> opcode_of w = Some MISCMEM -> isa_safe Fence size c -> runs Fence size c pd w.
Proof.
  intros Hw Ho (Hpc & _). eapply runs_effect; [done|done|done| | |reflexivity]; [done|].
  unfold execute. cbn [get_type]. rewrite itype_unpack_word, Ho by done. done.
Qed.

(** Every defined instruction but ECALL, on a state the kernel accepts. *)
Lemma run_word_exec c pd w i size :
  in_u 32 w -> cpu_wf c -> 0 <= size -> decode w = Some i -> is_ecall i = false ->
  isa_safe i size c -> runs i size c pd w.
Proof.
  intros Hw Hc Hsz Hd Hi Hs. destruct (decode_opcode w i Hd) as (op & Ho & Hd').
  assert (regs_ok (registers c)) as Hr by apply Hc.
  destruct op; cbn [decode_as] in Hd'; try (by eapply runs_upper; eauto).
  - by apply runs_opimm.
  - by apply runs_opimm32.
  - apply bind_Some in Hd' as (op & E & [= <-]). by apply runs_op.
  - apply bind_Some in Hd' as (op & E & [= <-]). by apply runs_op32.
  - simplify_eq. destruct Hs as (Hpc & Ht & Hself).
    eapply run_jump; [done|done|done|done|done|by apply execute_jal_word|done|by apply Ht|cbn [isa_target] in Hself; congruence].
  - destruct (Z.eqb_spec (bits w 12 3) 0); simplify_eq. destruct Hs as (Hpc & Ht & Hself).
    eapply run_jump; [done|done|done|done|done|by apply execute_jalr_word|done|by apply Ht|].
    cbn [isa_target] in Hself. congruence.
  - apply bind_Some in Hd' as (op & E & [= <-]). by apply runs_branch.
  - apply bind_Some in Hd' as (op & E & [= <-]). by apply runs_load.
  - apply bind_Some in Hd' as (op & E & [= <-]). by apply runs_store.
  - destruct (Z.eqb_spec (bits w 12 3) 0); simplify_eq. by apply runs_fence.
  - destruct (Z.eqb_spec w 0x73); simplify_eq.
Qed.

Lemma decode_fetch_size w i size : decode_fetch w = Some (i, size) -> 2 <= size <= 4.
Proof.
  unfold decode_fetch. case_match; [destruct (decode w)|destruct (decode_compressed _)];
    intros; simplify_eq/=; lia.
Qed.

(** * Where the kernel departs from the manual *)

Lemma execute_div_zero c pd w size o i :
  in_u 32 w -> cpu_wf c -> opcode_of w = Some o -> decode_as o w = Some i ->
  divides_by_zero i c = true -> execute syscall c pd w size o = Panic.
Proof.
  intros Hw Hc Ho Hd Hz.
  assert (in_u 5 (bits w 15 5)) as R1 by (apply bits_range; lia).
  assert (in_u 5 (bits w 20 5)) as R2 by (apply bits_range; lia).
  destruct (read_reg_ok c _ (proj1 (proj2 Hc)) R1) as [E1 _].
  destruct (read_reg_ok c _ (proj1 (proj2 Hc)) R2) as [E2 _].
  destruct o; cbn [decode_as] in Hd; try (apply bind_Some in Hd as (? & Hdec & Hd)); simplify_eq;
    try done; try (by case_match; simplify_eq).
  { apply decode_opimm_form in Hd as (? & ? & ->). done. }
  { apply decode_opimm32_form in Hd as (? & ? & ->). done. }
  all: cbn [divides_by_zero] in Hz; apply andb_prop in Hz as [Hop H0'];
    unfold execute; cbn [get_type]; rewrite rtype_unpack_word, Ho by done; cbn [mbind option_bind otry];
    unfold decode_op, decode_op32 in Hdec; repeat case_match; simplify_eq; try done;
    unfold execute_rtype_inst, execute_rtype_m, alu2, wrapping_div_signed, wrapping_rem_signed, div_chk, rem_chk;
    cbn [r_opcode r_funct3 r_funct7 r_rs1 r_rs2 r_rd];
    rewrite E1, E2; cbn [obind]; by rewrite ?H0'.
Qed.

Lemma execute_jump c pd w i size t :
  in_u 32 w -> cpu_wf c -> decode w = Some i -> is_jump i = true -> isa_target i c = Some t ->
  exists op rd, opcode_of w = Some op /\ execute syscall c pd w size op = jump_result c pd rd size t.
Proof.
  intros Hw Hc Hd Hj Ht. destruct (decode_opcode w i Hd) as (op & Ho & Hd').
  destruct op; cbn [decode_as] in Hd';
    try (apply bind_Some in Hd' as (? & Hdec & Hd')); simplify_eq; try done.
  - apply decode_opimm_form in Hd' as (? & ? & ->). done.
  - apply decode_opimm32_form in Hd' as (? & ? & ->). done.
  - eexists _, _. split; [done|]. simplify_eq/=. by apply execute_jal_word.
  - destruct (Z.eqb_spec (bits w 12 3) 0); simplify_eq. eexists _, _. split; [done|].
    cbn [isa_target] in Ht. simplify_eq. by apply execute_jalr_word.
  - destruct (_ =? _); by simplify_eq.
  - destruct (_ =? _); by simplify_eq.
Qed.

Lemma execute_taken_branch c pd w i size t :
  in_u 32 w -> cpu_wf c -> decode w = Some i -> is_jump i = false -> isa_target i c = Some t ->
  opcode_of w = Some BRANCH /\
  execute syscall c pd w size BRANCH = Ret (Some (set_pc c (wrapping_sub 64 t size), pd, NONE)).
Proof.
  intros Hw Hc Hd Hj Ht. destruct (decode_opcode w i Hd) as (op & Ho & Hd').
  destruct op; cbn [decode_as] in Hd';
    try (apply bind_Some in Hd' as (? & Hdec & Hd')); simplify_eq; try done.
  - apply decode_opimm_form in Hd' as (? & ? & ->). done.
  - apply decode_opimm32_form in Hd' as (? & ? & ->). done.
  - destruct (_ =? _); by simplify_eq.
  - split; [done|]. erewrite execute_branch_word by done. cbn [isa_target] in Ht.
    destruct (eval_bop _ _ _); by simplify_eq.
  - destruct (_ =? _); by simplify_eq.
  - destruct (_ =? _); by simplify_eq.
Qed.

(** Rewinding a target below the size of the instruction wraps around, and
    stepping forward again overflows. *)
Lemma finish_low c (pd : PD) size t :
  0 <= t < size -> size <= 4 ->
  finish_tick (set_pc c (wrapping_sub 64 t size)) pd size NONE = Panic.
Proof.
  intros Ht Hs. unfold finish_tick, wrapping_sub, wrap. simpl.
  rewrite <- (Z.mod_unique (t - size) (2 ^ 64) (-1) (2 ^ 64 + t - size)) by lia.
  unfold add_chk. rewrite (proj2 (Z.ltb_ge _ _)) by lia. done.
Qed.

End Tick.
