(* ===== verification/CpuTheorems.v ===== *)
(** The type invariant of the emulated cpu: whatever word is fetched, defined by
    the manual or not, a tick of kernel/src/emulator.rs that returns leaves 31
    registers of 64 bits, a 64-bit program counter and a well-formed memory.  Then the
    theorems on [Riscv64Cpu::tick], each with a run on a concrete cpu over the kernel's
    virtual memory. *)
From S2P Require Import Prelude MachineInt PackedStruct RiscvInst RiscvIsa EmulatorMemory VirtMem Cpu Decode Compressed CpuAlu CpuRefine.

#[local] Open Scope Z_scope.

(** * Ranges of the emulator's arithmetic *)

Lemma in_u_wrap' w z : (0 <=? w) = true -> in_u w (wrap w z).
Proof. intros ?%Z.leb_le. by apply in_u_wrap. Qed.

Lemma sign_extend_range t u v :
  (0 <? t) && (t <=? u) = true -> in_u t v -> in_u u (sign_extend t u v).
Proof.
  intros [?%Z.ltb_lt ?%Z.leb_le]%andb_prop ?. rewrite sign_extend_spec by (done || lia).
  apply in_u_wrap. lia.
Qed.

Lemma in_u_lxor n a b : 0 <= n -> in_u n a -> in_u n b -> in_u n (Z.lxor a b).
Proof.
  intros Hn Ha Hb. apply in_u_testbit; [done|apply Z.lxor_nonneg; unfold in_u in *; lia|].
  intros i Hi. by rewrite Z.lxor_spec, (testbit_above n a), (testbit_above n b) by (done || lia).
Qed.

Lemma in_u_land n a b : 0 <= n -> in_u n a -> 0 <= b -> in_u n (Z.land a b).
Proof.
  intros Hn Ha Hb. apply in_u_testbit; [done|apply Z.land_nonneg; unfold in_u in *; lia|].
  intros i Hi. by rewrite Z.land_spec, (testbit_above n a) by (done || lia).
Qed.

Lemma in_u_bool n (b : bool) : 0 < n -> in_u n (if b then 1 else 0).
Proof. intros. unfold in_u. pose proof (pow2_half n). pose proof (pow2_pos (n - 1)). destruct b; lia. Qed.

Lemma in_u_shiftr n a k : in_u n a -> 0 <= k -> in_u n (Z.shiftr a k).
Proof. intros. rewrite Z.shiftr_div_pow2 by done. apply in_u_div; [done|by apply pow2_pos]. Qed.

Lemma in_u_nonneg n a : in_u n a -> 0 <= a.
Proof. unfold in_u. lia. Qed.

Lemma shl_chk_range w a n v : (0 <=? w) = true -> shl_chk w a n = Ret v -> in_u w v.
Proof. intros Hw. unfold shl_chk. case_match; [|done]. intros [= <-]. by apply in_u_wrap'. Qed.

Lemma shr_chk_range w a n v : in_u w a -> 0 <= n -> shr_chk w a n = Ret v -> in_u w v.
Proof. intros Ha Hn. unfold shr_chk. case_match; [|done]. intros [= <-]. by apply in_u_shiftr. Qed.

Lemma sar_chk_range w a n v : (0 <=? w) = true -> sar_chk w a n = Ret v -> in_u w v.
Proof. intros Hw. unfold sar_chk. case_match; [|done]. intros [= <-]. by apply in_u_wrap'. Qed.

Lemma div_signed_range w a b v : (0 <=? w) = true -> wrapping_div_signed w a b = Ret v -> in_u w v.
Proof. intros Hw. unfold wrapping_div_signed. case_match; [done|]. intros [= <-]. by apply in_u_wrap'. Qed.

Lemma rem_signed_range w a b v : (0 <=? w) = true -> wrapping_rem_signed w a b = Ret v -> in_u w v.
Proof. intros Hw. unfold wrapping_rem_signed. case_match; [done|]. intros [= <-]. by apply in_u_wrap'. Qed.

Lemma div_chk_range w a b v : in_u w a -> in_u w b -> div_chk a b = Ret v -> in_u w v.
Proof.
  intros Ha Hb. unfold div_chk. destruct (Z.eqb_spec b 0); [done|]. intros [= <-].
  apply in_u_div; [done|by eapply in_u_nonzero].
Qed.

Lemma rem_chk_range w a b v : in_u w a -> in_u w b -> rem_chk a b = Ret v -> in_u w v.
Proof.
  intros Ha Hb. unfold rem_chk. destruct (Z.eqb_spec b 0); [done|]. intros [= <-].
  apply in_u_mod; [done|by eapply in_u_nonzero].
Qed.

(** The range of an expression, by its head; the checked operations have been
    turned into ranges of their results first. *)
Ltac in_range :=
  match goal with
  | H : in_u ?w ?v |- in_u ?w ?v => exact H
  | |- in_u _ (wrap _ _) => apply in_u_wrap'; reflexivity
  | |- in_u _ (wrapping_add _ _ _) => apply in_u_wrap'; reflexivity
  | |- in_u _ (wrapping_sub _ _ _) => apply in_u_wrap'; reflexivity
  | |- in_u _ (wrapping_mul _ _ _) => apply in_u_wrap'; reflexivity
  | |- in_u _ (sign_extend _ _ _) => apply sign_extend_range; [reflexivity|in_range]
  | |- in_u _ (sign_extend_to_u64 _ _) => apply sign_extend_range; [reflexivity|in_range]
  | |- in_u _ (if _ then 1 else 0) => apply in_u_bool; lia
  | |- in_u _ (Z.lxor _ _) => apply in_u_lxor; [lia|in_range..]
  | |- in_u _ (Z.lor _ _) => apply in_u_lor; [lia|in_range..]
  | |- in_u ?n (Z.land _ _) => apply in_u_land; [lia|in_range|apply (in_u_nonneg n); in_range]
  end.

Ltac land_pos := apply Z.land_nonneg; right; lia.

Ltac checked_ranges :=
  repeat match goal with
  | H : shl_chk _ _ _ = Ret _ |- _ => apply shl_chk_range in H; [|reflexivity]
  | H : shr_chk ?w _ _ = Ret _ |- _ => apply shr_chk_range in H; [|in_range|land_pos]
  | H : sar_chk _ _ _ = Ret _ |- _ => apply sar_chk_range in H; [|reflexivity]
  | H : wrapping_div_signed _ _ _ = Ret _ |- _ => apply div_signed_range in H; [|reflexivity]
  | H : wrapping_rem_signed _ _ _ = Ret _ |- _ => apply rem_signed_range in H; [|reflexivity]
  | H : div_chk (wrap 32 _) _ = Ret _ |- _ => apply (div_chk_range 32) in H; [|in_range..]
  | H : rem_chk (wrap 32 _) _ = Ret _ |- _ => apply (rem_chk_range 32) in H; [|in_range..]
  | H : div_chk _ _ = Ret _ |- _ => apply (div_chk_range 64) in H; [|in_range..]
  | H : rem_chk _ _ = Ret _ |- _ => apply (rem_chk_range 64) in H; [|in_range..]
  end.

(** * Preservation *)

Section Invariant.
Context {PS : PackedStruct} {PSok : PackedStructOk PS}.
Context {M PD : Type} `{EmulatorMemoryOk M}.
Implicit Types c : Riscv64Cpu M.

Lemma read_reg_range c r v : cpu_wf c -> read_reg c r = Ret v -> in_u 64 v.
Proof.
  intros (_ & [_ Hf] & _). unfold read_reg. case_match; [by intros [= <-]|].
  intros E%unwrap_Ret. by eapply Forall_lookup_1 in E.
Qed.

Lemma write_reg_wf c r v c' : cpu_wf c -> in_u 64 v -> write_reg c r v = Ret c' -> cpu_wf c'.
Proof.
  intros (Hp & Hr & Hm) Hv. unfold write_reg. repeat case_match; try done; intros [= <-]; [|done].
  split_and!; [done|by apply regs_ok_insert|done].
Qed.

Lemma set_pc_wf c p : cpu_wf c -> in_u 64 p -> cpu_wf (set_pc c p).
Proof. by intros (? & ? & ?) ?. Qed.

Lemma alu2_wf c rs1 rs2 rd f c' :
  cpu_wf c -> (forall a b v, in_u 64 a -> in_u 64 b -> f a b = Ret v -> in_u 64 v) ->
  alu2 c rs1 rs2 rd f = Ret c' -> cpu_wf c'.
Proof.
  intros Hc Hf Ha. unfold alu2 in Ha. inv_outcome. eapply write_reg_wf; [done| |done].
  eapply Hf; [| |done]; by eapply read_reg_range.
Qed.

Ltac alu_range :=
  let v := fresh "v" in intros ? ? v ? ? ?; inv_outcome; checked_ranges; in_range.

Lemma execute_rtype_m_wf c inst c' : cpu_wf c -> execute_rtype_m c inst = Ret c' -> cpu_wf c'.
Proof.
  intros Hc. unfold execute_rtype_m. repeat case_match; try (by intros [= <-]);
    (apply alu2_wf; [done|alu_range]).
Qed.

Lemma execute_rtype_wf c inst c' : cpu_wf c -> execute_rtype_inst c inst = Ret c' -> cpu_wf c'.
Proof.
  intros Hc. unfold execute_rtype_inst. repeat case_match; try (by apply execute_rtype_m_wf);
    (apply alu2_wf; [done|alu_range]).
Qed.

Lemma execute_opimm_wf c inst r c' :
  cpu_wf c -> in_u 32 (itype_parse_imm inst) -> execute_opimm c inst = Some r -> r = Ret c' -> cpu_wf c'.
Proof.
  intros Hc Hi. assert (in_u 64 (sign_extend_to_u64 32 (itype_parse_imm inst))) by in_range.
  unfold execute_opimm. repeat case_match; try done;
    (intros [= <-] ?; inv_outcome;
     match goal with E : read_reg _ _ = _ |- _ => apply read_reg_range in E; [|done] end;
     eapply write_reg_wf; [done| |done]; checked_ranges; in_range).
Qed.

Lemma execute_load_wf c inst r c' :
  cpu_wf c -> execute_load c inst = Some r -> r = Ret c' -> cpu_wf c'.
Proof.
  intros Hc. unfold execute_load. repeat case_match; try done; intros [= <-] ?; inv_outcome;
    (eapply write_reg_wf; [done| |done]).
  all: repeat match goal with
    | E : read_u8_ne _ _ = _ |- _ => apply read_u8_ok in E as [E _]; [|apply Hc]
    | E : read_u16_ne _ _ = _ |- _ => apply read_u16_ok in E as [E _]; [|apply Hc]
    | E : read_u32_ne _ _ = _ |- _ => apply read_u32_ok in E as [E _]; [|apply Hc]
    | E : read_u64_ne _ _ = _ |- _ => apply read_u64_ok in E as [E _]; [|apply Hc]
    end.
  all: first [apply sign_extend_range; [reflexivity|done]
             |eapply in_u_weaken; [|eassumption]; simpl; lia].
Qed.

Lemma execute_stype_wf c inst c' : cpu_wf c -> execute_stype_inst c inst = Ret c' -> cpu_wf c'.
Proof.
  intros Hc. unfold execute_stype_inst. repeat case_match; try (by intros [= <-]); intros ?; inv_outcome;
    repeat match goal with E : read_reg _ _ = _ |- _ => apply read_reg_range in E; [|done] end;
    match goal with
    | E : write_u8_ne _ _ _ = _ |- _ => apply write_u8_ok in E as [E _]
    | E : write_u16_ne _ _ _ = _ |- _ => apply write_u16_ok in E as [E _]
    | E : write_u32_ne _ _ _ = _ |- _ => apply write_u32_ok in E as [E _]
    | E : write_u64_ne _ _ _ = _ |- _ => apply write_u64_ok in E as [E _]
    end;
    first [by apply Hc | done | by apply in_u_wrap' | by destruct Hc as (? & ? & ?)].
Qed.

Lemma execute_btype_wf c inst size c' : cpu_wf c -> execute_btype_inst c inst size = Ret c' -> cpu_wf c'.
Proof.
  intros Hc. unfold execute_btype_inst. repeat case_match; try (by intros [= <-]); intros ?; inv_outcome;
    case_match; try done; (apply set_pc_wf; [done|in_range]).
Qed.

Lemma execute_utype_wf c inst c' :
  cpu_wf c -> in_u 32 (utype_parse_imm inst) -> execute_utype_inst c inst = Ret c' -> cpu_wf c'.
Proof.
  intros Hc Hi. unfold execute_utype_inst. repeat case_match; try (by intros [= <-]);
    (apply write_reg_wf; [done|in_range]).
Qed.

(** The link and the jump of JAL and JALR. *)
Lemma jump_wf c r size t c1 link :
  cpu_wf c -> 0 <= size -> add_chk 64 (program_counter c) size = Ret link ->
  write_reg c r link = Ret c1 -> cpu_wf (set_pc c1 (wrapping_sub 64 t size)).
Proof.
  intros Hc Hs Hl Hw. apply set_pc_wf; [|in_range]. eapply write_reg_wf; [done| |done].
  apply add_chk_Ret in Hl as [-> ?]. destruct Hc as ([? ?] & _). split; [lia|done].
Qed.

Lemma execute_jtype_wf c inst size c' a :
  cpu_wf c -> 0 <= size -> execute_jtype_inst c inst size = Ret (c', a) -> cpu_wf c'.
Proof.
  intros Hc Hs. unfold execute_jtype_inst. repeat case_match; try (by intros [= <- <-]);
    intros ?; inv_outcome; simplify_eq. by eapply jump_wf.
Qed.

Context (syscall : Riscv64Cpu M -> PD -> outcome (Riscv64Cpu M * PD * CpuAction)).
Context (syscall_wf : forall c pd c' pd' a, cpu_wf c -> syscall c pd = Ret (c', pd', a) -> cpu_wf c').

Lemma execute_itype_wf c inst size pd c' pd' a :
  cpu_wf c -> 0 <= size -> in_u 32 (itype_parse_imm inst) ->
  execute_itype_inst syscall c inst size pd = Ret (c', pd', a) -> cpu_wf c'.
Proof.
  intros Hc Hs Hi. unfold execute_itype_inst.
  destruct (execute_opimm c inst) as [r|] eqn:E1.
  { intros ?. inv_outcome. simplify_eq. by eapply execute_opimm_wf. }
  destruct (execute_load c inst) as [r|] eqn:E2.
  { intros ?. inv_outcome. simplify_eq. by eapply execute_load_wf. }
  repeat case_match; try (by intros [= <- <- <-]); try (by apply syscall_wf);
    intros ?; inv_outcome; simplify_eq; try done.
  case_match; inv_outcome; simplify_eq; [done|]. by eapply jump_wf.
Qed.

Lemma execute_wf c pd w size op c' pd' a :
  cpu_wf c -> 0 <= size -> in_u 32 w ->
  execute syscall c pd w size op = Ret (Some (c', pd', a)) -> cpu_wf c'.
Proof.
  intros Hc Hs Hw. unfold execute.
  rewrite rtype_unpack_word, itype_unpack_word, stype_unpack_word, btype_unpack_word,
    utype_unpack_word, jtype_unpack_word by done.
  destruct (opcode_of w) as [o|]; cbn [mbind option_bind otry]; [|by destruct (get_type op)].
  destruct (get_type op); intros ?; inv_outcome; simplify_eq;
    eauto using execute_rtype_wf, execute_stype_wf, execute_btype_wf, execute_jtype_wf.
  - eapply execute_itype_wf; [done|done| |done]. erewrite itype_parse_imm_word; [in_range|done].
  - eapply execute_utype_wf; [done| |done]. erewrite utype_parse_imm_word; [in_range|done].
Qed.

(** * The expansion of a compressed instruction is a 32-bit word *)

Definition word_or_none (e : outcome (option Z)) : Prop := forall w, e = Ret (Some w) -> in_u 32 w.

Lemma word_ret w : in_u 32 w -> word_or_none (Ret (Some w)).
Proof. by intros ? ? [= <-]. Qed.

Lemma word_try {A} (e : outcome (option A)) k :
  (forall a, word_or_none (k a)) -> word_or_none (otry e k).
Proof. intros Hk w Hw. apply otry_Some in Hw as (a & _ & Hw). by eapply Hk. Qed.

Lemma word_bind {A} (e : outcome A) k :
  (forall a, word_or_none (k a)) -> word_or_none (obind e k).
Proof. intros Hk w Hw. apply obind_Ret in Hw as (a & _ & Hw). by eapply Hk. Qed.

Lemma expand_compressed_range w : in_u 32 w -> word_or_none (expand_compressed w).
Proof.
  intros Hw. unfold expand_compressed. apply word_try. intros typ.
  destruct typ; [unfold expand_cr|unfold expand_ci|unfold expand_css|unfold expand_ciw|unfold expand_cl
    |unfold expand_cs|unfold expand_ca|unfold expand_cb|unfold expand_cj];
  (apply word_try; intros inst; repeat case_match;
   repeat first [apply word_try; intros ? | apply word_bind; intros ?];
   rewrite ?repack_r_word, ?repack_i_word, ?repack_s_word, ?repack_b_word, ?repack_u_word,
     ?repack_j_word, ?pack_i_be_word;
   apply word_ret; first [done | apply assemble_u32; solve_fields_ok]).
Qed.

Lemma finish_wf c (pd : PD) size a c' pd' r :
  cpu_wf c -> 0 <= size -> finish_tick c pd size a = Ret (c', pd', r) -> cpu_wf c' /\ pd' = pd.
Proof.
  intros Hc Hs. unfold finish_tick.
  assert (forall q, (if decide (a <> REPEAT_INSTRUCTION)
    then let! pc := add_chk 64 (program_counter c) size in Ret (set_pc c pc) else Ret c) = Ret q ->
    cpu_wf q) as Hq.
  { intros q. case_decide; intros ?; inv_outcome; [|done]. apply set_pc_wf; [done|].
    match goal with E : add_chk _ _ _ = _ |- _ => apply add_chk_Ret in E as [-> ?] end.
    destruct Hc as ([? ?] & _). split; [lia|done]. }
  intros (q & Hq' & Hf)%obind_Ret. specialize (Hq q Hq'). case_decide; by simplify_eq.
Qed.

End Invariant.

(** * Results *)

Section Theorems.
Context {PS : PackedStruct} {PSok : PackedStructOk PS}.
Context {M PD : Type} `{EmulatorMemoryOk M}.
Context (syscall : Riscv64Cpu M -> PD -> outcome (Riscv64Cpu M * PD * CpuAction)).
Implicit Types c : Riscv64Cpu M.

(** A division or remainder whose divisor is zero stops the whole machine,
    where the manual gives a result (all ones, or the dividend). *)
Lemma tick_division_by_zero c pd w i size :
  cpu_wf c -> read_u32_le (memory c) (program_counter c) = Ret w ->
  decode_fetch w = Some (i, size) -> divides_by_zero i c = true -> tick syscall c pd = Panic.
Proof.
  intros Hc Hr Hd Hz. destruct (tick_word syscall c pd w _ _ (proj2 (proj2 Hc)) Hr Hd)
    as (w' & Hw & Hd' & ->).
  destruct (decode_opcode w' _ Hd') as (o & Ho & Hd''). unfold run_word. rewrite Ho.
  by rewrite (execute_div_zero syscall c pd w' size o i).
Qed.

(** A jump of an instruction to its own address is taken for an endless loop:
    the tick reports an exception, with no register written. *)
Lemma tick_self_jump c pd w i size :
  cpu_wf c -> read_u32_le (memory c) (program_counter c) = Ret w ->
  decode_fetch w = Some (i, size) -> jumps_to_itself i c = true -> program_counter c + size < 2 ^ 64 ->
  tick syscall c pd = Ret (set_pc c (program_counter c + size), pd, None).
Proof.
  unfold jumps_to_itself. intros Hc Hr Hd Hj Hpc.
  destruct (isa_target i c) as [t|] eqn:Ht; [|done]. apply andb_prop in Hj as [Hj ->%Z.eqb_eq].
  destruct (tick_word syscall c pd w i size) as (w' & Hw & Hd' & ->); [apply Hc|done..|].
  destruct (execute_jump syscall c pd w' i size _ Hw Hc Hd' Hj Ht) as (op & rd & Ho & Hx).
  unfold run_word. rewrite Ho, Hx. unfold jump_result. rewrite Z.eqb_refl. cbn [obind].
  unfold finish_tick. simpl. by rewrite add_chk_ok.
Qed.

(** A jump or a taken branch to an address below the size of the instruction
    (such as address 0) stops the machine: the target is reached by stepping
    back and forward again, and the second step overflows. *)
Lemma tick_low_jump c pd w i size :
  cpu_wf c -> read_u32_le (memory c) (program_counter c) = Ret w ->
  decode_fetch w = Some (i, size) -> jumps_too_low i size c = true -> jumps_to_itself i c = false ->
  tick syscall c pd = Panic.
Proof.
  unfold jumps_too_low, jumps_to_itself. intros Hc Hr Hd Hlt Hself.
  destruct (isa_target i c) as [t|] eqn:Ht; [|done]. apply Z.ltb_lt in Hlt.
  pose proof (decode_fetch_size w i size Hd) as Hsz. pose proof (isa_target_range i c t Ht) as [Ht0 _].
  destruct (tick_word syscall c pd w i size) as (w' & Hw & Hd' & ->); [apply Hc|done..|].
  unfold run_word. destruct (is_jump i) eqn:Hj.
  - destruct (execute_jump syscall c pd w' i size _ Hw Hc Hd' Hj Ht) as (op & rd & Ho & Hx).
    rewrite Ho, Hx. unfold jump_result. cbn [andb] in Hself. rewrite Hself.
    destruct (add_chk _ _ _); [|done]. cbn [obind]. apply finish_low; lia.
  - destruct (execute_taken_branch syscall c pd w' i size t Hw Hc Hd' Hj Ht) as [-> ->].
    cbn [obind]. apply finish_low; lia.
Qed.

(** C2: a tick implements RV64IMC but for three kinds of instruction.  When the
    word at the program counter is a defined 32-bit or compressed instruction other
    than ECALL, and the address after it is below 2^64, the tick makes exactly the
    step the manual prescribes (registers, memory and program counter; it stops where
    the memory refuses the access), except that a division or remainder by zero
    panics, a JAL or JALR to its own address raises an exception with no register
    written, and any other jump or taken branch to an address below the size of the
    instruction panics. *)
Theorem tick_refines_isa c pd w i size :
  cpu_wf c -> read_u32_le (memory c) (program_counter c) = Ret w ->
  decode_fetch w = Some (i, size) -> is_ecall i = false -> program_counter c + size < 2 ^ 64 ->
  tick syscall c pd =
    if divides_by_zero i c then Panic
    else if jumps_to_itself i c then Ret (set_pc c (program_counter c + size), pd, None)
    else if jumps_too_low i size c then Panic
    else let! c' := isa_exec i size c in Ret (c', pd, Some ()).
Proof.
  intros Hc Hr Hd Hi Hpc.
  destruct (divides_by_zero i c) eqn:E1; [by eapply tick_division_by_zero|].
  destruct (jumps_to_itself i c) eqn:E2; [by eapply tick_self_jump|].
  destruct (jumps_too_low i size c) eqn:E3; [by eapply tick_low_jump|].
  pose proof (decode_fetch_size w i size Hd) as Hsz.
  destruct (tick_word syscall c pd w i size) as (w' & Hw & Hd' & ->); [apply Hc|done..|].
  apply run_word_exec; (done || lia || by apply isa_safe_intro).
Qed.

(** ECALL hands the cpu and the process data to the syscall handler, and the
    handler's action decides what happens to the program counter: it moves past
    the instruction, stays for the instruction to be repeated, or moves and the
    tick reports an exception. *)
Theorem tick_ecall c pd c' pd' action :
  read_u32_le (memory c) (program_counter c) = Ret 0x73 ->
  syscall c pd = Ret (c', pd', action) -> program_counter c' + 4 < 2 ^ 64 ->
  tick syscall c pd =
  Ret (match action with
       | NONE => (set_pc c' (program_counter c' + 4), pd', Some ())
       | REPEAT_INSTRUCTION => (c', pd', Some ())
       | RAISE_EXCEPTION => (set_pc c' (program_counter c' + 4), pd', None)
       end).
Proof.
  intros Hr Hs Hpc. rewrite (tick_full syscall c pd 0x73) by done.
  unfold run_word. change (opcode_of 0x73) with (Some SYSTEM). cbv iota.
  unfold execute. cbn [get_type]. rewrite itype_unpack_word by done.
  change (opcode_of 0x73) with (Some SYSTEM). cbn [mbind option_bind otry].
  unfold execute_itype_inst, execute_opimm, execute_load. cbn [i_opcode i_funct3].
  change (itype_parse_imm _ =? 0) with true. cbv iota beta. rewrite Hs. cbn [obind].
  unfold finish_tick. destruct action; simpl; by rewrite ?add_chk_ok.
Qed.

(** The registers, the program counter and the memory stay well formed
    across a tick, whatever the fetched word, as long as the syscall handler
    keeps them so. *)
Theorem tick_preserves_wf c pd c' pd' r :
  (forall c pd c' pd' a, cpu_wf c -> syscall c pd = Ret (c', pd', a) -> cpu_wf c') ->
  cpu_wf c -> tick syscall c pd = Ret (c', pd', r) -> cpu_wf c'.
Proof.
  intros Hsys Hc Ht. unfold tick in Ht. apply obind_Ret in Ht as (w & Hw & Ht).
  apply read_u32_le_ok in Hw as [Hw _]; [|apply Hc].
  apply obind_Ret in Ht as (e & He & Ht). destruct e as [w'|]; [|by simplify_eq].
  assert (in_u 32 w') as Hw'.
  { destruct (negb _); [by apply (expand_compressed_range w)|by simplify_eq]. }
  case_match; [|by simplify_eq]. apply obind_Ret in Ht as (x & Hx & Ht).
  assert (forall b : bool, 0 <= (if b then 2 else 4)) as Hsz by (intros []; lia).
  destruct x as [[[c1 pd1] a]|]; [|by simplify_eq].
  eapply finish_wf; [|apply Hsz|exact Ht]. eapply (execute_wf syscall Hsys); [done|apply Hsz|done|exact Hx].
Qed.

End Theorems.

(** * Instruction encoding *)

Section Encoding.
Context {PS : PackedStruct} {PSok : PackedStructOk PS}.

(** Every compressed instruction the manual defines is expanded, without
    panicking, to a 32-bit word that decodes to the instruction the manual gives
    for it. *)
Theorem compressed_expansion_correct w i :
  decode_compressed (wrap 16 w) = Some i ->
  exists w', expand_compressed w = Ret (Some w') /\ in_u 32 w' /\ decode w' = Some i.
Proof. apply expand_compressed_decode. Qed.

(** Building an I-, S-, B-, U- or J-type instruction, packing it and reading
    the word back gives the registers and the signed immediate it was built
    from. *)
Theorem encode_immediate_roundtrip op rd f3 rs1 rs2 z :
  in_u 5 rd -> in_u 3 f3 -> in_u 5 rs1 -> in_u 5 rs2 ->
  (- 2 ^ 11 <= z < 2 ^ 11 ->
     exists w, repack_i op rd f3 rs1 (wrap 32 z) = Ret (Some w) /\ bits w 7 5 = rd /\
       bits w 12 3 = f3 /\ bits w 15 5 = rs1 /\ imm_I w = z) /\
  (- 2 ^ 11 <= z < 2 ^ 11 ->
     exists w, repack_s op f3 rs1 rs2 (wrap 32 z) = Ret (Some w) /\ bits w 12 3 = f3 /\
       bits w 15 5 = rs1 /\ bits w 20 5 = rs2 /\ imm_S w = z) /\
  (- 2 ^ 12 <= z < 2 ^ 12 -> (2 | z) ->
     exists w, repack_b op f3 rs1 rs2 (wrap 32 z) = Ret (Some w) /\ bits w 12 3 = f3 /\
       bits w 15 5 = rs1 /\ bits w 20 5 = rs2 /\ imm_B w = z) /\
  (- 2 ^ 31 <= z < 2 ^ 31 -> (2 ^ 12 | z) ->
     exists w, repack (utype_pack (utype_from op rd (wrap 32 z))) = Some w /\ bits w 7 5 = rd /\
       imm_U w = z) /\
  (- 2 ^ 20 <= z < 2 ^ 20 -> (2 | z) ->
     exists w, repack (jtype_pack (jtype_from op rd (wrap 32 z))) = Some w /\ bits w 7 5 = rd /\
       imm_J w = z).
Proof.
  intros Hrd Hf3 Hrs1 Hrs2. split_and!; intros.
  - destruct (encode_i op rd f3 rs1 z) as (w & ?); [done..|]. exists w. tauto.
  - destruct (encode_s op f3 rs1 rs2 z) as (w & ?); [done..|]. exists w. tauto.
  - destruct (encode_b op f3 rs1 rs2 z) as (w & ?); [done..|]. exists w. tauto.
  - destruct (encode_u op rd z) as (w & ?); [done..|]. exists w. tauto.
  - destruct (encode_j op rd z) as (w & ?); [done..|]. exists w. tauto.
Qed.

End Encoding.

(** [sign_extend] from [t] to [u] bits is two's complement: the result read
    as a signed [u]-bit integer is the argument read as a signed [t]-bit
    integer. *)
Theorem sign_extend_twos_complement t u v :
  0 < t <= u -> in_u t v ->
  in_u u (sign_extend t u v) /\ to_signed u (sign_extend t u v) = to_signed t v.
Proof.
  intros Ht Hv. rewrite sign_extend_spec by done. split; [apply in_u_wrap; lia|].
  apply to_signed_wrap; [lia|]. pose proof (to_signed_range t v ltac:(lia) Hv).
  pose proof (Z.pow_le_mono_r 2 (t - 1) (u - 1)). lia.
Qed.

(** Writing a register and reading it back gives the value, other registers
    keep theirs, and register 0 stays 0. *)
Theorem write_read_reg {M} (c : Riscv64Cpu M) r r' v :
  regs_ok (registers c) -> in_u 5 r -> in_u 5 r' -> in_u 64 v ->
  exists c', write_reg c r v = Ret c' /\ regs_ok (registers c') /\
    read_reg c' r' =
    Ret (if r' =? 0 then 0 else if r' =? r then v else reg c r').
Proof.
  intros Hc Hr Hr' Hv. exists (set_reg c r v). split; [by apply write_reg_ok|].
  assert (regs_ok (registers (set_reg c r v))) as Hc' by (by apply regs_ok_set_reg).
  split; [done|]. destruct (read_reg_ok _ r' Hc' Hr') as [-> _]. rewrite reg_set_reg by done. f_equal.
  destruct (Z.eqb_spec r' 0) as [->|Hne].
  - by destruct (Z.eqb_spec 0 r) as [<-|].
  - destruct (Z.eqb_spec r' r) as [->|]; [|done]. by rewrite (proj2 (Z.eqb_neq r 0)).
Qed.

(** * Runs on a concrete machine *)

Definition idle_syscall (c : Riscv64Cpu LittleEndianVirtualMemory) (pd : unit)
  : outcome (Riscv64Cpu LittleEndianVirtualMemory * unit * CpuAction) := Ret (c, pd, NONE).

Definition demo_cpu (code : list Z) : Riscv64Cpu LittleEndianVirtualMemory :=
  cpu_from [MkRegion 0x1000 code] 0x1000.

Lemma demo_cpu_wf code :
  forallb (fun b => (0 <=? b) && (b <? 256)) code = true -> (length code < 4096)%nat ->
  cpu_wf (demo_cpu code).
Proof.
  intros Hb Hl. split_and!; [done|by split; [|apply Forall_replicate]|]. split.
  - constructor; [|constructor]. split_and!; simpl; unfold region_len; simpl; try lia.
    apply Forall_forall. intros b Hin. rewrite forallb_forall in Hb.
    apply Hb, andb_prop in Hin as [?%Z.leb_le ?%Z.ltb_lt]. split; done.
  - intros [|] [|] r s a Hr Hs _ _; done.
Qed.

(** addi x1, x0, 5 is executed; div x1, x0, x0 and jalr x0, 0(x0) stop the kernel,
    and jal x0, 0 raises an exception. *)
Lemma tick_refines_isa_witness :
  (exists c', tick idle_syscall (demo_cpu [0x93; 0x00; 0x50; 0x00]) () = Ret (c', (), Some ()) /\
              reg c' 1 = 5 /\ program_counter c' = 0x1004) /\
  tick idle_syscall (demo_cpu [0xb3; 0x40; 0x00; 0x02]) () = Panic /\
  tick idle_syscall (demo_cpu [0x67; 0x00; 0x00; 0x00]) () = Panic /\
  tick idle_syscall (demo_cpu [0x6f; 0x00; 0x00; 0x00]) ()
  = Ret (set_pc (demo_cpu [0x6f; 0x00; 0x00; 0x00]) 0x1004, (), None).
Proof.
  split_and!.
  - eexists. split; [|split].
    + rewrite (tick_refines_isa idle_syscall _ _ 0x00500093 (Iop ADDI 1 0 5) 4);
        [reflexivity|apply demo_cpu_wf; [reflexivity|simpl; lia]|reflexivity..].
    + reflexivity.
    + reflexivity.
  - rewrite (tick_refines_isa idle_syscall _ _ 0x020040b3 (Rop DIV 1 0 0) 4);
      [reflexivity|apply demo_cpu_wf; [reflexivity|simpl; lia]|reflexivity..].
  - rewrite (tick_refines_isa idle_syscall _ _ 0x67 (Jalr 0 0 0) 4);
      [reflexivity|apply demo_cpu_wf; [reflexivity|simpl; lia]|reflexivity..].
  - rewrite (tick_refines_isa idle_syscall _ _ 0x6f (Jal 0 0) 4);
      [reflexivity|apply demo_cpu_wf; [reflexivity|simpl; lia]|reflexivity..].
Defined.

Lemma tick_ecall_witness :
  tick idle_syscall (demo_cpu [0x73; 0x00; 0x00; 0x00]) ()
  = Ret (set_pc (demo_cpu [0x73; 0x00; 0x00; 0x00]) 0x1004, (), Some ()).
Proof.
  apply (tick_ecall idle_syscall _ () (demo_cpu [0x73; 0x00; 0x00; 0x00]) () NONE); reflexivity.
Defined.

Lemma tick_preserves_wf_witness :
  exists c', tick idle_syscall (demo_cpu [0x93; 0x00; 0x50; 0x00]) () = Ret (c', (), Some ()) /\ cpu_wf c'.
Proof.
  eexists. split; [vm_compute; reflexivity|].
  refine (tick_preserves_wf idle_syscall (demo_cpu [0x93; 0x00; 0x50; 0x00]) () _ () (Some ()) _ _ _).
  - intros c pd c' pd' a Hc [= <- <- <-]. exact Hc.
  - apply demo_cpu_wf; [reflexivity|simpl; lia].
  - vm_compute. reflexivity.
Defined.

(** c.li x10, -1. *)
Lemma compressed_expansion_correct_witness :
  exists w', @expand_compressed reference_packed_struct 0x557d = Ret (Some w') /\ in_u 32 w' /\
             decode w' = Some (Iop ADDI 10 0 (-1)).
Proof. apply (compressed_expansion_correct 0x557d). reflexivity. Defined.

Lemma encode_immediate_roundtrip_witness :
  exists w, @repack_i reference_packed_struct OPIMM 1 0 2 (wrap 32 (-7)) = Ret (Some w) /\ imm_I w = -7.
Proof.
  destruct (encode_immediate_roundtrip OPIMM 1 0 2 3 (-7)) as [Hi _]; [done..|].
  destruct Hi as (w & Hw & _ & _ & _ & Himm); [lia|]. exists w. split; [exact Hw|exact Himm].
Defined.

Lemma sign_extend_twos_complement_witness : to_signed 64 (sign_extend 8 64 0x80) = -128.
Proof. apply (sign_extend_twos_complement 8 64 0x80); [lia|done]. Defined.

Lemma write_read_reg_witness :
  exists c', write_reg (demo_cpu []) 5 42 = Ret c' /\ read_reg c' 5 = Ret 42.
Proof.
  destruct (write_read_reg (demo_cpu []) 5 5 42) as (c' & Hw & _ & Hr); try done.
  - split; [done|by apply Forall_replicate].
  - exists c'. split; [exact Hw|exact Hr].
Defined.
