(* ===== verification/Allocator.v ===== *)
(** [BasicAlloc] of kernel/src/allocator.rs: the bump allocator behind the
    kernel's heap and the heaps of its processes.  Blocks that cannot be popped
    from the top are stashed in a fixed array until the blocks above them are
    freed.  The invariant says that every address below the top belongs to
    exactly one block: live, stashed, or lost because the array was full. *)
From stdpp Require Import sorting.
From S2P Require Import Prelude MachineInt.
#[local] Open Scope Z_scope.

(** * Layouts and blocks *)

Record Layout := MkLayout { l_size : Z; l_align : Z }.

(** A block is a pointer and its layout; [null] marks a free slot. *)
Abbreviation block := (Z * Layout)%type.
Definition null : Z := 0.
Definition empty_slot : block := (null, MkLayout 1 1).

Definition is_null (b : block) : bool := b.1 =? null.

Section Alloc.
(** The width of [usize]. *)
Context (W : Z).

(** [Layout::from_size_align]: the alignment is a power of two and the size,
    rounded up to it, does not exceed [isize::MAX]. *)
Definition from_size_align (size align : Z) : option Layout :=
  if (0 <? align) && (Z.land align (align - 1) =? 0) && (size <=? 2 ^ (W - 1) - align)
  then Some (MkLayout size align) else None.

Record BasicAlloc := MkAlloc {
  base : Z;
  len : Z;
  alloc_count : Z;
  next : Z;
  is_virtual : bool;
  stashed_deallocations : list block;
}.

Definition set_next (a : BasicAlloc) (n : Z) : BasicAlloc :=
  MkAlloc (base a) (len a) (alloc_count a) n (is_virtual a) (stashed_deallocations a).
Definition set_count (a : BasicAlloc) (n : Z) : BasicAlloc :=
  MkAlloc (base a) (len a) n (next a) (is_virtual a) (stashed_deallocations a).
Definition set_stash (a : BasicAlloc) (s : list block) : BasicAlloc :=
  MkAlloc (base a) (len a) (alloc_count a) (next a) (is_virtual a) s.

Definition alloc_new (virt : bool) : BasicAlloc := MkAlloc null 0 0 0 virt (replicate 1024 empty_slot).

Definition alloc_from (b l : Z) (virt : bool) : BasicAlloc :=
  MkAlloc b l 0 0 virt (replicate 1024 empty_slot).

Definition init (a : BasicAlloc) (b l : Z) : BasicAlloc * option unit :=
  if negb (alloc_count a =? 0) then (a, None)
  else (MkAlloc b l (alloc_count a) (next a) (is_virtual a) (stashed_deallocations a), Some ()).

Definition grow_heap_space (a : BasicAlloc) (l : Z) : outcome BasicAlloc :=
  let! n := add_chk W (len a) l in
  Ret (MkAlloc (base a) n (alloc_count a) (next a) (is_virtual a) (stashed_deallocations a)).

Definition get_heap_used (a : BasicAlloc) : Z := next a.
Definition get_heap_max (a : BasicAlloc) : Z := len a.

(** The index of the first free slot. *)
Definition find_free_dealloc_ind (a : BasicAlloc) : option nat :=
  fst <$> list_find (fun b => is_null b = true) (stashed_deallocations a).

(** [ptr.add(size).sub(next) == base], addresses taken modulo the word size. *)
Definition try_dealloc (a : BasicAlloc) (ptr : Z) (layout : Layout) : outcome (BasicAlloc * bool) :=
  if wrap W (ptr + l_size layout - next a) =? base a then
    let! n := sub_chk (next a) (l_size layout) in Ret (set_next a n, true)
  else if alloc_count a =? 0 then
    Ret (set_stash (set_next a 0) ((fun _ => empty_slot) <$> stashed_deallocations a), true)
  else Ret (a, false).

(** Store a block in the first free slot; with none left it is lost. *)
Definition stash (a : BasicAlloc) (b : block) : BasicAlloc :=
  match find_free_dealloc_ind a with
  | Some i => set_stash a (<[i := b]> (stashed_deallocations a))
  | None => a
  end.

(** [alloc] after the padding: take [layout.size()] bytes from the top. *)
Definition bump (a : BasicAlloc) (layout : Layout) : outcome (BasicAlloc * Z) :=
  let! n := add_chk W (next a) (l_size layout) in
  if len a <=? n then
    let! n' := sub_chk n (l_size layout) in Ret (set_next a n', null)
  else
    let! count := add_chk W (alloc_count a) 1 in
    Ret (set_count (set_next a n) count, wrap W (base a + n - l_size layout)).

Definition alloc (a : BasicAlloc) (layout : Layout) : outcome (BasicAlloc * Z) :=
  let! r := rem_chk (next a) (l_align layout) in
  if negb (r =? 0) then
    let! p := sub_chk (l_align layout) r in
    match from_size_align p 1 with
    | Some padding =>
        let! n := add_chk W (next a) (l_size padding) in
        if len a <=? n then
          let! n' := sub_chk n (l_size padding) in Ret (set_next a n', null)
        else
          let a' := set_next a n in
          let padding_ptr := wrap W (base a + n - l_size padding) in
          bump (stash a' (padding_ptr, padding)) layout
    | None => Ret (a, null)
    end
  else bump a layout.

(** [sort_unstable_by(|x, y| y.0.cmp(&x.0))]: highest address first. *)
Fixpoint insert_desc (b : block) (l : list block) : list block :=
  match l with
  | [] => [b]
  | c :: t => if c.1 <? b.1 then b :: l else c :: insert_desc b t
  end.
Fixpoint sort_desc (l : list block) : list block :=
  match l with
  | [] => []
  | b :: t => insert_desc b (sort_desc t)
  end.

(** The loop over the stashed blocks, from slot [i] on, for [n] more slots. *)
Fixpoint release (n : nat) (i : nat) (a : BasicAlloc) : outcome BasicAlloc :=
  match n with
  | O => Ret a
  | S n =>
      let! b := unwrap (stashed_deallocations a !! i) in
      if is_null b then Ret a
      else
        let! (a', ok) := try_dealloc a b.1 b.2 in
        if ok then release n (S i) (set_stash a' (<[i := empty_slot]> (stashed_deallocations a')))
        else Ret a'
  end.

Definition dealloc (a : BasicAlloc) (ptr : Z) (layout : Layout) : outcome BasicAlloc :=
  let! count := sub_chk (alloc_count a) 1 in
  let! (a', did_dealloc) := try_dealloc (set_count a count) ptr layout in
  if negb did_dealloc then Ret (stash a' (ptr, layout))
  else
    let sorted := sort_desc (stashed_deallocations a') in
    release (length sorted) 0 (set_stash a' sorted).

(** The new pointer, and the copy the function asks [memcpy] for: destination,
    source and number of bytes. *)
Definition realloc (a : BasicAlloc) (ptr : Z) (layout : Layout) (new_size : Z)
  : outcome (BasicAlloc * Z * option (Z * Z * Z)) :=
  match from_size_align new_size (l_align layout) with
  | None => Ret (a, null, None)
  | Some new_layout =>
      let! (a1, new_ptr) := alloc a new_layout in
      if negb (new_ptr =? null) then
        let copy :=
          if negb (is_virtual a1) then Some (new_ptr, ptr, Z.min (l_size layout) new_size) else None in
        let! a2 := dealloc a1 ptr layout in Ret (a2, new_ptr, copy)
      else Ret (a1, new_ptr, None)
  end.

(** * Invariant *)

(** The block owns the address. *)
Definition owns (b : block) (addr : Z) : Prop := b.1 <= addr < b.1 + l_size b.2.

#[global] Instance owns_dec b addr : Decision (owns b addr).
Proof. unfold owns. apply _. Defined.

Definition owners (addr : Z) (l : list block) : nat := length (filter (fun b => owns b addr) l).

(** The stashed blocks. *)
Definition stashed (a : BasicAlloc) : list block :=
  filter (fun b => is_null b = false) (stashed_deallocations a).

(** [live] are the blocks the clients hold, [lost] the freed ones that found no
    slot. *)
Record alloc_inv (a : BasicAlloc) (live lost : list block) : Prop := {
  inv_base : 0 < base a;
  inv_len : 0 <= len a;
  inv_fits : base a + len a < 2 ^ W;
  inv_next : 0 <= next a <= len a;
  inv_count : alloc_count a = Z.of_nat (length live);
  inv_blocks : Forall (fun b => 0 < b.1 /\ 0 <= l_size b.2) (live ++ stashed a ++ lost);
  inv_owned : forall addr,
    owners addr (live ++ stashed a ++ lost) =
    if decide (base a <= addr < base a + next a) then 1%nat else 0%nat;
}.

(** * Counting owners *)

Lemma owners_nil addr : owners addr [] = 0%nat.
Proof. done. Qed.

Lemma owners_cons addr b l :
  owners addr (b :: l) = ((if decide (owns b addr) then 1 else 0) + owners addr l)%nat.
Proof. unfold owners. rewrite filter_cons. by case_decide. Qed.

Lemma owners_app addr l k : owners addr (l ++ k) = (owners addr l + owners addr k)%nat.
Proof. unfold owners. by rewrite list.filter_app, length_app. Qed.

#[global] Instance owners_proper addr : Proper ((≡ₚ) ==> (=)) (owners addr).
Proof. intros l k Hp. unfold owners. by rewrite Hp. Qed.

Lemma owners_elem addr b l : b ∈ l -> owns b addr -> (1 <= owners addr l)%nat.
Proof.
  intros (l1 & l2 & ->)%list_elem_of_split Ho. rewrite owners_app, owners_cons, decide_True by done. lia.
Qed.

(** * Slots *)

Lemma filter_insert_null (l : list block) i b c :
  l !! i = Some c -> is_null c = true -> is_null b = false ->
  filter (fun b => is_null b = false) (<[i := b]> l) ≡ₚ b :: filter (fun b => is_null b = false) l.
Proof.
  intros Hi Hc Hb. pose proof (lookup_lt_Some _ _ _ Hi).
  rewrite insert_take_drop by done. rewrite <- (take_drop_middle l i c Hi) at 3.
  rewrite !list.filter_app, !filter_cons, decide_True, decide_False by congruence.
  by rewrite Permutation_middle.
Qed.

Lemma filter_insert_free (l : list block) i b :
  l !! i = Some b -> is_null b = false ->
  b :: filter (fun b => is_null b = false) (<[i := empty_slot]> l)
  ≡ₚ filter (fun b => is_null b = false) l.
Proof.
  intros Hi Hb. pose proof (lookup_lt_Some _ _ _ Hi).
  rewrite insert_take_drop by done. rewrite <- (take_drop_middle l i b Hi) at 3.
  rewrite !list.filter_app, !filter_cons, decide_False, decide_True by (done || discriminate).
  by rewrite Permutation_middle.
Qed.

Lemma stash_spec a b :
  is_null b = false ->
  (stashed (stash a b) ≡ₚ b :: stashed a) \/
  (stash a b = a /\ Forall (fun b => is_null b = false) (stashed_deallocations a)).
Proof.
  intros Hb. unfold stash, find_free_dealloc_ind.
  destruct (list_find _ _) as [[i c]|] eqn:E; simpl.
  - left. apply list_find_Some in E as (Hi & Hc & _). by apply filter_insert_null with c.
  - right. split; [done|]. apply list_find_None in E. eapply Forall_impl; [|exact E].
    intros x Hx. simpl in Hx. by destruct (is_null x).
Qed.

Lemma stash_fields a b :
  base (stash a b) = base a /\ len (stash a b) = len a /\ next (stash a b) = next a /\
  alloc_count (stash a b) = alloc_count a.
Proof. unfold stash. by destruct (find_free_dealloc_ind a). Qed.

Lemma insert_desc_perm b l : insert_desc b l ≡ₚ b :: l.
Proof.
  induction l as [|c l IH]; simpl; [done|]. case_match; [done|]. by rewrite IH, Permutation_swap.
Qed.

Lemma sort_desc_perm l : sort_desc l ≡ₚ l.
Proof. induction l as [|b l IH]; simpl; [done|]. by rewrite insert_desc_perm, IH. Qed.

Lemma stashed_set_stash_perm a l : l ≡ₚ stashed_deallocations a -> stashed (set_stash a l) ≡ₚ stashed a.
Proof. intros Hp. unfold stashed. simpl. by rewrite Hp. Qed.

Lemma filter_cleared (l : list block) :
  filter (fun b => is_null b = false) ((fun _ => empty_slot) <$> l) = [].
Proof. induction l as [|b l IH]; [done|]. simpl. rewrite filter_cons, decide_False by discriminate. done. Qed.

(** * Steps of the allocator *)

(** The invariant only depends on the multiset of blocks. *)
Lemma alloc_inv_perm a a' live live' lost lost' :
  base a' = base a -> len a' = len a -> next a' = next a ->
  alloc_count a' = Z.of_nat (length live') ->
  live' ++ stashed a' ++ lost' ≡ₚ live ++ stashed a ++ lost ->
  alloc_inv a live lost -> alloc_inv a' live' lost'.
Proof.
  intros Hb Hl Hn Hc Hp [I1 I2 I3 I4 I5 I6 I7]. split; rewrite ?Hb, ?Hl, ?Hn; try done.
  - by rewrite Hp.
  - intros addr. by rewrite Hp, I7.
Qed.

(** Taking [s] bytes from the top for a block that joins the multiset. *)
Lemma alloc_inv_push a a' live live' lost lost' p layout :
  base a' = base a -> len a' = len a -> next a' = next a + l_size layout ->
  alloc_count a' = Z.of_nat (length live') -> 0 <= l_size layout -> next a' <= len a ->
  p = base a + next a ->
  live' ++ stashed a' ++ lost' ≡ₚ (p, layout) :: (live ++ stashed a ++ lost) ->
  alloc_inv a live lost -> alloc_inv a' live' lost'.
Proof.
  intros Hb Hl Hn Hc Hs Hle -> Hp [I1 I2 I3 I4 I5 I6 I7]. split; rewrite ?Hb, ?Hl, ?Hn in *; try done; try lia.
  - rewrite Hp. constructor; [simpl; lia|done].
  - intros addr. rewrite Hp, owners_cons, I7. unfold owns. simpl. repeat case_decide; lia.
Qed.

(** Giving the topmost block back. *)
Lemma alloc_inv_pop a a' live live' lost lost' p layout :
  base a' = base a -> len a' = len a -> next a' = next a - l_size layout ->
  alloc_count a' = Z.of_nat (length live') -> 0 <= next a' ->
  l_size layout = 0 \/ p + l_size layout = base a + next a ->
  live ++ stashed a ++ lost ≡ₚ (p, layout) :: (live' ++ stashed a' ++ lost') ->
  alloc_inv a live lost -> alloc_inv a' live' lost'.
Proof.
  intros Hb Hl Hn Hc Hge Htop Hp [I1 I2 I3 I4 I5 I6 I7].
  assert (0 <= l_size layout) as Hs.
  { rewrite Hp in I6. by apply Forall_inv in I6 as [_ ?]. }
  split; rewrite ?Hb, ?Hl, ?Hn in *; try done; try lia.
  - rewrite Hp in I6. by apply Forall_inv_tail in I6.
  - intros addr. specialize (I7 addr). rewrite Hp, owners_cons in I7. unfold owns in I7. simpl in I7.
    repeat case_decide; lia.
Qed.

(** What [try_dealloc] does with a block of the multiset: pop it, clear
    everything when no client holds a block, or nothing.  It never panics. *)
Lemma try_dealloc_cases a live lost p layout :
  alloc_inv a live lost -> (p, layout) ∈ live ++ stashed a ++ lost ->
  (try_dealloc a p layout = Ret (set_next a (next a - l_size layout), true) /\
   0 <= next a - l_size layout /\ (l_size layout = 0 \/ p + l_size layout = base a + next a)) \/
  (alloc_count a = 0 /\
   try_dealloc a p layout =
   Ret (set_stash (set_next a 0) ((fun _ => empty_slot) <$> stashed_deallocations a), true)) \/
  (0 < alloc_count a /\ try_dealloc a p layout = Ret (a, false)).
Proof.
  intros [I1 I2 I3 I4 I5 I6 I7] Hin. unfold try_dealloc.
  pose proof (proj1 (list.Forall_forall _ _) I6 _ Hin) as [Hpos Hs]. simpl in Hpos, Hs.
  destruct (Z.eqb_spec (wrap W (p + l_size layout - next a)) (base a)) as [E|E].
  - left. destruct (Z.eq_dec (l_size layout) 0) as [H0|H0].
    { rewrite sub_chk_ok by lia. split_and!; [done|lia|by left]. }
    assert (base a <= p < base a + next a /\ p + l_size layout <= base a + next a) as [Hp Hp'].
    { assert (forall addr, owns (p, layout) addr -> base a <= addr < base a + next a) as Hr.
      { intros addr Ho. pose proof (owners_elem addr _ _ Hin Ho) as H1. rewrite I7 in H1.
        case_decide; lia. }
      unfold owns in Hr. simpl in Hr. pose proof (Hr p ltac:(lia)).
      pose proof (Hr (p + l_size layout - 1) ltac:(lia)). lia. }
    assert (p + l_size layout = base a + next a) as Htop.
    { unfold wrap in E. destruct (Z.lt_ge_cases (p + l_size layout - next a) 0).
      - rewrite <- (Z.mod_unique (p + l_size layout - next a) (2 ^ W) (-1)
                      (p + l_size layout - next a + 2 ^ W)) in E by lia. lia.
      - rewrite Z.mod_small in E by lia. lia. }
    rewrite sub_chk_ok by lia. split_and!; [done|lia|by right].
  - right. destruct (Z.eqb_spec (alloc_count a) 0); [by left|right]. split; [lia|done].
Qed.

Lemma alloc_inv_reset a lost :
  alloc_inv a [] lost ->
  alloc_inv (set_stash (set_next a 0) ((fun _ => empty_slot) <$> stashed_deallocations a)) [] [].
Proof.
  intros [I1 I2 I3 I4 I5 I6 I7]. split; simpl; try done; try lia.
  - unfold stashed. simpl. by rewrite filter_cleared.
  - intros addr. unfold stashed. simpl. rewrite filter_cleared. simpl. rewrite decide_False by lia. done.
Qed.

Lemma count_zero_live a live lost : alloc_inv a live lost -> alloc_count a = 0 -> live = [].
Proof. intros [_ _ _ _ I5 _ _] H0. rewrite I5 in H0. destruct live; simpl in *; [done|lia]. Qed.

Lemma stashed_clear a live lost i b :
  stashed_deallocations a !! i = Some b -> is_null b = false ->
  live ++ stashed a ++ lost ≡ₚ
  b :: (live ++ stashed (set_stash a (<[i := empty_slot]> (stashed_deallocations a))) ++ lost).
Proof.
  intros Hb Hn. unfold stashed. simpl. rewrite <- (filter_insert_free _ i b Hb Hn) at 1. simpl.
  by rewrite <- Permutation_middle.
Qed.

Lemma alloc_inv_cleared a lost i :
  alloc_inv a [] lost ->
  let slots := (fun _ => empty_slot) <$> stashed_deallocations a in
  alloc_inv (set_stash (set_stash (set_next a 0) slots) (<[i := empty_slot]> slots)) [] [].
Proof.
  intros Hinv slots. apply (alloc_inv_perm (set_stash (set_next a 0) slots) _ [] [] [] []); try done.
  - apply Hinv.
  - simpl. rewrite !app_nil_r. unfold stashed. simpl.
    destruct (decide (i < length slots)%nat) as [Hlt|].
    + rewrite list_insert_id; [done|]. subst slots. rewrite length_fmap in Hlt.
      destruct (lookup_lt_is_Some_2 _ _ Hlt) as [c Hc]. by rewrite list_lookup_fmap, Hc.
    + by rewrite list_insert_ge by lia.
  - by eapply alloc_inv_reset.
Qed.

(** The release loop gives back stashed blocks only, and never panics. *)
Lemma release_spec n i a live lost :
  alloc_inv a live lost -> (i + n = length (stashed_deallocations a))%nat ->
  exists a' lost', release n i a = Ret a' /\ alloc_inv a' live lost' /\ (lost' = lost \/ lost' = []).
Proof.
  revert i a lost. induction n as [|n IH]; intros i a lost Hinv Hlen; simpl; [eauto 6|].
  destruct (lookup_lt_is_Some_2 (stashed_deallocations a) i) as [b Hb]; [lia|]. rewrite Hb. simpl.
  destruct (is_null b) eqn:Hn; [eauto 6|].
  pose proof (stashed_clear a live lost i b Hb Hn) as Hp.
  destruct b as [p layout]. cbn [fst snd].
  destruct (try_dealloc_cases a live lost p layout) as [(-> & H1 & H2)|[(H0 & ->)|(H0 & ->)]]; [done| | | |].
  - rewrite Hp. by left.
  - simpl. edestruct (IH (S i)) as (a' & lost' & Hr & Hi' & Hl'); [| |eauto 6].
    + eapply alloc_inv_pop; [..|exact Hp|exact Hinv]; try done. apply Hinv.
    + simpl. rewrite length_insert. lia.
  - simpl. pose proof (count_zero_live _ _ _ Hinv H0) as ->.
    match goal with |- context [release n (S i) ?x] =>
      destruct (IH (S i) x []) as (a' & lost' & Hr & Hi' & Hl');
        [| |exists a', lost'; split_and!; [exact Hr|done|right; by destruct Hl']] end.
    + by eapply alloc_inv_cleared.
    + simpl. rewrite length_insert, length_fmap. lia.
  - simpl. eauto 6.
Qed.

(** A block that has just been pushed meets no other. *)
Lemma alloc_inv_fresh a b live lost b' addr :
  alloc_inv a (b :: live) lost -> b' ∈ live -> owns b' addr -> owns b addr -> False.
Proof.
  intros Hinv Hin Ho' Ho. pose proof (inv_owned _ _ _ Hinv addr) as H1.
  rewrite <- app_comm_cons, owners_cons, owners_app, decide_True in H1 by done.
  pose proof (owners_elem addr b' live Hin Ho'). case_decide; lia.
Qed.

(** A block the clients gave up, kept in a slot or lost. *)
Lemma alloc_inv_stash a live lost b :
  alloc_inv a live (b :: lost) ->
  exists lost', alloc_inv (stash a b) live lost' /\
    (lost' = lost \/ lost' = b :: lost /\ Forall (fun b => is_null b = false) (stashed_deallocations a)).
Proof.
  intros Hinv. destruct (stash_fields a b) as (Hb & Hl & Hn & Hc).
  assert (b ∈ live ++ stashed a ++ b :: lost) as Hin by (rewrite !elem_of_app, elem_of_cons; auto).
  destruct (proj1 (list.Forall_forall _ _) (inv_blocks _ _ _ Hinv) _ Hin) as [Hpos _].
  destruct (stash_spec a b) as [Hs|[Hs Hfull]]; [unfold is_null, null; by apply Z.eqb_neq; lia| |].
  - exists lost. split; [|by left]. eapply alloc_inv_perm; [done|done|done| | |exact Hinv].
    + rewrite Hc. apply Hinv.
    + rewrite Hs. simpl. f_equiv. by rewrite Permutation_middle.
  - exists (b :: lost). rewrite Hs. auto.
Qed.

Lemma bump_spec a live lost layout a' p :
  alloc_inv a live lost -> 0 <= l_size layout -> bump a layout = Ret (a', p) ->
  (p = null /\ a' = a) \/
  (p = base a + next a /\ p + l_size layout < base a + len a /\ base a' = base a /\ len a' = len a /\
   alloc_inv a' ((p, layout) :: live) lost).
Proof.
  intros Hinv Hs Hbump. pose proof Hinv as [I1 I2 I3 I4 I5 I6 I7]. unfold bump in Hbump.
  apply obind_Ret in Hbump as (n & (-> & Hn)%add_chk_Ret & Hbump).
  destruct (Z.leb_spec (len a) (next a + l_size layout)).
  - left. rewrite sub_chk_ok in Hbump by lia. simplify_eq/=. split; [done|].
    unfold set_next. rewrite Z.add_simpl_r. by destruct a.
  - right. apply obind_Ret in Hbump as (count & (-> & _)%add_chk_Ret & [= <- <-]).
    replace (base a + (next a + l_size layout) - l_size layout) with (base a + next a) by lia.
    rewrite wrap_small by (unfold in_u; lia). split_and!; [done|lia|done|done|].
    eapply (alloc_inv_push a); [done|done|done| |done|simpl; lia|reflexivity| |exact Hinv].
    + simpl. rewrite I5. lia.
    + done.
Qed.

(** The padding that aligns the top becomes a stashed block. *)
Lemma pad_spec a live lost padding n :
  alloc_inv a live lost -> 0 <= l_size padding -> n = next a + l_size padding -> n <= len a ->
  let a' := stash (set_next a n) (wrap W (base a + n - l_size padding), padding) in
  exists lost', alloc_inv a' live lost' /\ base a' = base a /\ len a' = len a /\ next a' = n /\
    alloc_count a' = alloc_count a /\
    (lost' = lost \/ Forall (fun b => is_null b = false) (stashed_deallocations a)).
Proof.
  intros Hinv Hs -> Hle a'. pose proof Hinv as [I1 I2 I3 I4 I5 I6 I7].
  destruct (stash_fields (set_next a (next a + l_size padding))
              (wrap W (base a + (next a + l_size padding) - l_size padding), padding)) as (E1 & E2 & E3 & E4).
  edestruct (alloc_inv_stash (set_next a (next a + l_size padding)) live lost) as (lost' & Hi & Hl).
  - eapply (alloc_inv_push a _ live live lost); [done|done|done|done|done|done|reflexivity| |done].
    by rewrite <- !Permutation_middle.
  - exists lost'. subst a'.
    replace (base a + (next a + l_size padding) - l_size padding) with (base a + next a) in * by lia.
    rewrite wrap_small in * by (unfold in_u; lia). split_and!; [exact Hi|done|done|done|done|].
    by destruct Hl as [?|[_ ?]]; [left|right].
Qed.

Lemma from_size_align_Some size align l : from_size_align size align = Some l -> l = MkLayout size align.
Proof. unfold from_size_align. case_match; congruence. Qed.

Lemma pad_aligned x align : 0 < align -> x mod align <> 0 -> (x + (align - x mod align)) mod align = 0.
Proof.
  intros Ha _. replace (x + (align - x mod align)) with (0 + (x / align + 1) * align).
  - by rewrite Z.mod_add by lia.
  - rewrite Z.mod_eq by lia. lia.
Qed.

Lemma alloc_spec a live lost layout a' p :
  alloc_inv a live lost -> 0 <= l_size layout -> 0 < l_align layout ->
  alloc a layout = Ret (a', p) ->
  exists lost',
    (lost' = lost \/ Forall (fun b => is_null b = false) (stashed_deallocations a)) /\
    ((p = null /\ alloc_inv a' live lost') \/
     (base a <= p /\ p + l_size layout < base a + len a /\ (p - base a) mod l_align layout = 0 /\
      (forall b addr, b ∈ live -> owns b addr -> owns (p, layout) addr -> False) /\
      alloc_inv a' ((p, layout) :: live) lost')).
Proof.
  intros Hinv Hs Ha Hal. unfold alloc, rem_chk in Hal. rewrite (proj2 (Z.eqb_neq _ _)) in Hal by lia.
  cbn [obind] in Hal. pose proof (Z.mod_pos_bound (next a) (l_align layout) Ha) as Hm.
  destruct (Z.eqb_spec (next a mod l_align layout) 0) as [H0|H0]; cbn [negb] in Hal.
  - exists lost. split; [by left|].
    destruct (bump_spec _ _ _ _ _ _ Hinv Hs Hal) as [[-> ->]|(-> & Hf & _ & _ & Hi)]; [by left|right].
    pose proof (inv_next _ _ _ Hinv). split_and!; [lia|done| | |done].
    + by replace (base a + next a - base a) with (next a) by lia.
    + intros b addr. by apply (alloc_inv_fresh _ _ _ _ b addr Hi).
  - rewrite sub_chk_ok in Hal by lia. cbn [obind] in Hal.
    destruct (from_size_align _ 1) as [l|] eqn:El; [|simplify_eq; exists lost; auto].
    apply from_size_align_Some in El as ->. cbn [l_size] in Hal.
    apply obind_Ret in Hal as (n & (-> & Hn)%add_chk_Ret & Hal).
    destruct (Z.leb_spec (len a) (next a + (l_align layout - next a mod l_align layout))).
    + rewrite sub_chk_ok in Hal by (pose proof (inv_next _ _ _ Hinv); lia). simplify_eq/=.
      exists lost. split; [by left|]. left. split; [done|].
      apply (alloc_inv_perm a _ live live lost lost); [done|done|simpl; lia|apply Hinv|done|exact Hinv].
    + edestruct (pad_spec a live lost (MkLayout (l_align layout - next a mod l_align layout) 1))
        as (lost' & Hi & E1 & E2 & E3 & E4 & Hl); [done|simpl; lia|reflexivity|simpl; lia|].
      exists lost'. split; [done|]. cbn [l_size] in *.
      destruct (bump_spec _ _ _ _ _ _ Hi Hs Hal) as [[-> ->]|(-> & Hf & _ & _ & Hi')]; [by left|right].
      rewrite E1, E2, E3 in *. pose proof (inv_next _ _ _ Hinv). split_and!; [lia|done| | |done].
      * rewrite Z.add_simpl_l. by apply pad_aligned.
      * intros b addr. by apply (alloc_inv_fresh _ _ _ _ b addr Hi').
Qed.

Lemma dealloc_step a b live lost :
  alloc_inv a (b :: live) lost ->
  alloc_inv (set_count a (alloc_count a - 1)) live (b :: lost).
Proof.
  intros Hinv. apply (alloc_inv_perm a _ (b :: live) live lost (b :: lost)); try done.
  - simpl. rewrite (inv_count _ _ _ Hinv). simpl. lia.
  - simpl. by rewrite <- !Permutation_middle.
Qed.

Lemma dealloc_spec a live live' lost ptr layout :
  alloc_inv a live lost -> live ≡ₚ (ptr, layout) :: live' ->
  exists a' lost', dealloc a ptr layout = Ret a' /\ alloc_inv a' live' lost' /\
    (lost' = lost \/ lost' = [] \/
     lost' = (ptr, layout) :: lost /\ Forall (fun b => is_null b = false) (stashed_deallocations a)).
Proof.
  intros Hinv0 Hp. assert (alloc_inv a ((ptr, layout) :: live') lost) as Hinv.
  { apply (alloc_inv_perm a _ live _ lost lost); try done; rewrite <- Hp; [apply Hinv0|done]. }
  clear Hinv0 Hp. pose proof (dealloc_step _ _ _ _ Hinv) as Hstep. unfold dealloc.
  rewrite sub_chk_ok by (rewrite (inv_count _ _ _ Hinv); simpl; lia). cbn [obind].
  destruct (try_dealloc_cases _ _ _ ptr layout Hstep) as [(-> & H1 & H2)|[(H0 & ->)|(H0 & ->)]].
  - rewrite !elem_of_app, elem_of_cons. auto.
  - cbn [obind negb].
    match goal with |- context [release ?n ?i ?x] =>
      destruct (release_spec n i x live' lost) as (a' & lost' & -> & Hi & Hl);
        [|done|exists a', lost'; split_and!; [done|exact Hi|tauto]] end.
    eapply (alloc_inv_pop _ _ live' live' ((ptr, layout) :: lost) lost); [..|exact Hstep]; try done.
    + apply Hstep.
    + rewrite <- !Permutation_middle. do 3 f_equiv. unfold stashed. simpl. by rewrite sort_desc_perm.
  - cbn [obind negb]. pose proof (count_zero_live _ _ _ Hstep H0) as ->.
    match goal with |- context [release ?n ?i ?x] =>
      destruct (release_spec n i x [] []) as (a' & lost' & -> & Hi & Hl);
        [|done|exists a', lost'; split_and!; [done|exact Hi|tauto]] end.
    eapply (alloc_inv_perm _ _ [] [] [] []); [..|by eapply alloc_inv_reset]; try done.
    unfold stashed. simpl. by rewrite sort_desc_perm.
  - cbn [obind negb]. destruct (alloc_inv_stash _ _ _ _ Hstep) as (lost' & Hi & Hl).
    exists (stash (set_count a (alloc_count a - 1)) (ptr, layout)), lost'. split_and!; [done|exact Hi|tauto].
Qed.

Lemma alloc_virtual a layout a' p : alloc a layout = Ret (a', p) -> is_virtual a' = is_virtual a.
Proof.
  unfold alloc, bump, stash. intros Hal.
  repeat first [progress inv_outcome | case_match; simplify_eq/=]; done.
Qed.

Lemma alloc_total a live lost layout :
  alloc_inv a live lost -> 0 <= l_size layout -> 0 < l_align layout ->
  next a + l_align layout + l_size layout < 2 ^ W -> alloc_count a + 1 < 2 ^ W ->
  exists a' p, alloc a layout = Ret (a', p).
Proof.
  intros Hinv Hs Ha Hw Hc. unfold alloc, rem_chk. rewrite (proj2 (Z.eqb_neq _ _)) by lia. cbn [obind].
  pose proof (Z.mod_pos_bound (next a) (l_align layout) Ha).
  pose proof (inv_next _ _ _ Hinv).
  assert (forall a', 0 <= next a' -> next a' + l_size layout < 2 ^ W -> alloc_count a' = alloc_count a ->
    exists a'' p, bump a' layout = Ret (a'', p)) as Hb.
  { intros a' Hge Hn Hc'. unfold bump. rewrite add_chk_ok by done. cbn [obind].
    case_match; [rewrite sub_chk_ok by lia; simpl; eauto|].
    rewrite add_chk_ok by lia. simpl. eauto. }
  destruct (_ =? 0); cbn [negb]; [apply Hb; [lia|lia|done]|].
  rewrite sub_chk_ok by lia. cbn [obind].
  destruct (from_size_align _ 1) as [l|] eqn:El; [|eauto]. apply from_size_align_Some in El as ->.
  cbn [l_size]. rewrite add_chk_ok by lia. cbn [obind].
  case_match; [rewrite sub_chk_ok by (pose proof (inv_next _ _ _ Hinv); lia); simpl; eauto|].
  match goal with |- context [stash ?x ?y] => destruct (stash_fields x y) as (_ & _ & E3 & E4) end.
  apply Hb; [rewrite E3; simpl; lia..|by rewrite E4].
Qed.

(** * Reclaiming the whole heap *)

Definition desc (l : list block) : Prop := StronglySorted (fun x y => y.1 <= x.1) l.

Lemma insert_desc_desc b l : desc l -> desc (insert_desc b l).
Proof.
  unfold desc. induction 1 as [|c l Hl IH Hc]; simpl; [repeat constructor|].
  destruct (Z.ltb_spec c.1 b.1).
  - constructor; [by constructor|]. constructor; [lia|]. eapply Forall_impl; [|exact Hc]. simpl. lia.
  - constructor; [done|]. rewrite insert_desc_perm. constructor; [lia|done].
Qed.

Lemma sort_desc_desc l : desc (sort_desc l).
Proof. induction l as [|b l IH]; simpl; [constructor|]. by apply insert_desc_desc. Qed.

Lemma desc_lookup l j k x y :
  desc l -> (j <= k)%nat -> l !! j = Some x -> l !! k = Some y -> y.1 <= x.1.
Proof.
  unfold desc. intros Hd. revert j k. induction Hd as [|c l Hl IH Hc]; intros j k Hjk Hj Hk; [done|].
  destruct j as [|j], k as [|k]; simplify_eq/=; try lia.
  - by eapply Forall_lookup_1 in Hc.
  - eapply IH; [|done|done]. lia.
Qed.

Lemma stashed_nil a : (forall k b, stashed_deallocations a !! k = Some b -> is_null b = true) -> stashed a = [].
Proof.
  intros Hn. unfold stashed. generalize dependent (stashed_deallocations a). intros l Hl.
  induction l as [|b l IH]; [done|]. rewrite filter_cons, decide_False.
  - apply IH. intros k c. apply (Hl (S k)).
  - by rewrite (Hl 0%nat b eq_refl).
Qed.

(** With no block held, the loop empties the array. *)
Lemma release_all n i a lost :
  alloc_inv a [] lost -> (i + n = length (stashed_deallocations a))%nat ->
  (forall k b, (k < i)%nat -> stashed_deallocations a !! k = Some b -> is_null b = true) ->
  (forall j k x y, (i <= j <= k)%nat -> stashed_deallocations a !! j = Some x ->
     stashed_deallocations a !! k = Some y -> y.1 <= x.1) ->
  exists a', release n i a = Ret a' /\ stashed a' = [].
Proof.
  revert i a lost. induction n as [|n IH]; intros i a lost Hinv Hlen Hlow Hsort; simpl.
  { exists a. split; [done|]. apply stashed_nil. intros k b Hk. apply (Hlow k); [|done].
    apply lookup_lt_Some in Hk. lia. }
  destruct (lookup_lt_is_Some_2 (stashed_deallocations a) i) as [b Hb]; [lia|]. rewrite Hb. simpl.
  destruct (is_null b) eqn:Hn.
  { exists a. split; [done|]. apply stashed_nil. intros k c Hk.
    destruct (decide (k < i)%nat); [by apply (Hlow k)|].
    pose proof (Hsort i k b c ltac:(lia) Hb Hk) as Hle.
    destruct (is_null c) eqn:Hc; [done|exfalso].
    assert (c ∈ stashed a) as Hin.
    { apply list_elem_of_filter. split; [done|]. by eapply list_elem_of_lookup_2. }
    assert (0 < c.1 /\ 0 <= l_size c.2) as [Hpos _].
    { pose proof (inv_blocks _ _ _ Hinv) as HF. eapply (proj1 (list.Forall_forall _ _) HF).
      rewrite !elem_of_app. auto. }
    unfold is_null, null in Hn. apply Z.eqb_eq in Hn. lia. }
  pose proof (stashed_clear a [] lost i b Hb Hn) as Hp. destruct b as [p layout]. cbn [fst snd].
  destruct (try_dealloc_cases a [] lost p layout) as [(-> & H1 & H2)|[(H0 & ->)|(H0 & _)]];
    [done|rewrite Hp; by left| | |rewrite (inv_count _ _ _ Hinv) in H0; done]; cbn [obind].
  - eapply (IH (S i) _ lost).
    + eapply alloc_inv_pop; [..|exact Hp|exact Hinv]; try done. apply Hinv.
    + simpl. rewrite length_insert. lia.
    + simpl. intros k c Hk [(<- & <- & _)|[Hne Hc]]%list_lookup_insert_Some; [done|].
      apply (Hlow k); [lia|done].
    + simpl. intros j k x y Hjk Hx Hy. rewrite list_lookup_insert_ne in Hx, Hy by lia.
      eapply Hsort; [|done|done]. lia.
  - eapply (IH (S i) _ []).
    + by eapply alloc_inv_cleared.
    + simpl. rewrite length_insert, length_fmap. lia.
    + simpl. intros k c _ [(_ & <- & _)|[_ Hc]]%list_lookup_insert_Some; [done|].
      rewrite list_lookup_fmap in Hc. by apply fmap_Some in Hc as (? & _ & ->).
    + simpl. intros j k x y Hjk Hx Hy. rewrite list_lookup_insert_ne, list_lookup_fmap in Hx, Hy by lia.
      apply fmap_Some in Hx as (? & _ & ->). apply fmap_Some in Hy as (? & _ & ->). done.
Qed.

Lemma alloc_inv_empty a lost :
  alloc_inv a [] lost -> lost = [] -> stashed a = [] -> next a = 0.
Proof.
  intros Hinv -> Hs. pose proof (inv_next _ _ _ Hinv).
  pose proof (inv_owned _ _ _ Hinv (base a)) as Ho. rewrite Hs in Ho. cbn in Ho. case_decide; lia.
Qed.

Lemma release_reclaims a :
  alloc_inv a [] [] -> desc (stashed_deallocations a) ->
  exists a', release (length (stashed_deallocations a)) 0 a = Ret a' /\ alloc_inv a' [] [] /\ next a' = 0.
Proof.
  intros Hinv Hd. set (n := length _).
  destruct (release_spec n 0 a [] []) as (a' & lost & Hr & Hi & Hl); [done|done|].
  destruct (release_all n 0 a []) as (a2 & Hr2 & Hs); [done|done|lia| |].
  { intros j k x y Hjk. eapply desc_lookup; [done|lia]. }
  assert (lost = []) as -> by (by destruct Hl). exists a'. split_and!; [done|done|].
  apply alloc_inv_empty with []; [done|done|congruence].
Qed.

(** * Properties *)

(** C34: an allocation either returns null and keeps every block, or returns a
    block inside the heap that shares no byte with a block a client holds; a freed
    block is lost only when the array of stashed blocks is full.  The allocator aligns
    the offset of the block in the heap and not its address: the address is a multiple
    of the alignment exactly when the base of the heap is one. *)
Theorem alloc_safe a live lost layout :
  alloc_inv a live lost -> 0 <= l_size layout -> 0 < l_align layout ->
  next a + l_align layout + l_size layout < 2 ^ W -> alloc_count a + 1 < 2 ^ W ->
  exists a' p lost', alloc a layout = Ret (a', p) /\
    (lost' = lost \/ Forall (fun b => is_null b = false) (stashed_deallocations a)) /\
    ((p = null /\ alloc_inv a' live lost') \/
     (base a <= p /\ p + l_size layout < base a + len a /\ (p - base a) mod l_align layout = 0 /\
      ((l_align layout | p) <-> (l_align layout | base a)) /\
      (forall b addr, b ∈ live -> owns b addr -> owns (p, layout) addr -> False) /\
      alloc_inv a' ((p, layout) :: live) lost')).
Proof.
  intros Hinv Hs Ha Hw Hc. destruct (alloc_total a live lost layout) as (a' & p & Hal); [done..|].
  destruct (alloc_spec _ _ _ _ _ _ Hinv Hs Ha Hal) as (lost' & H1 & H2). exists a', p, lost'. split; [done|]. split; [done|].
  destruct H2 as [?|(B1 & B2 & B3 & B4)]; [by left|right]. do 3 (split; [done|]). split; [|exact B4].
  apply Z.mod_divide in B3; [|lia]. split; intros Hd.
  - replace (base a) with (p - (p - base a)) by lia. by apply Z.divide_sub_r.
  - replace p with (base a + (p - base a)) by lia. by apply Z.divide_add_r.
Qed.

(** Freeing a block a client holds never panics, leaves the other clients'
    blocks where they are, and keeps the accounting exact; the block is lost only
    when the array of stashed blocks is full. *)
Theorem dealloc_safe a live live' lost ptr layout :
  alloc_inv a live lost -> live ≡ₚ (ptr, layout) :: live' ->
  exists a' lost', dealloc a ptr layout = Ret a' /\ alloc_inv a' live' lost' /\
    (lost' = lost \/ lost' = [] \/
     lost' = (ptr, layout) :: lost /\ Forall (fun b => is_null b = false) (stashed_deallocations a)).
Proof. apply dealloc_spec. Qed.

(** When nothing was lost, freeing the last block a client holds makes the
    whole heap available again. *)
Theorem dealloc_last_reclaims a ptr layout :
  alloc_inv a [(ptr, layout)] [] ->
  exists a', dealloc a ptr layout = Ret a' /\ alloc_inv a' [] [] /\ next a' = 0.
Proof.
  intros Hinv. pose proof (dealloc_step _ _ _ _ Hinv) as Hstep. unfold dealloc.
  rewrite sub_chk_ok by (rewrite (inv_count _ _ _ Hinv); simpl; lia). cbn [obind].
  destruct (try_dealloc_cases _ _ _ ptr layout Hstep) as [(-> & H1 & H2)|[(H0 & ->)|(H0 & _)]].
  - rewrite !elem_of_app, elem_of_cons. auto.
  - cbn [obind negb]. match goal with |- context [release _ 0 ?x] => apply (release_reclaims x) end;
      [|apply sort_desc_desc].
    eapply (alloc_inv_pop _ _ [] [] [(ptr, layout)] []); [..|exact Hstep]; try done; [apply Hstep|].
    rewrite <- !Permutation_middle. do 3 f_equiv. unfold stashed. simpl. by rewrite sort_desc_perm.
  - cbn [obind negb]. match goal with |- context [release _ 0 ?x] => apply (release_reclaims x) end;
      [|apply sort_desc_desc].
    eapply (alloc_inv_perm _ _ [] [] [] []); [..|by eapply alloc_inv_reset]; try done.
    unfold stashed. simpl. by rewrite sort_desc_perm.
  - rewrite (inv_count _ _ _ Hstep) in H0. done.
Qed.

(** A reallocation that succeeds hands over a block for the old one: the new
    block has the requested size, the old one is free, every other block is
    untouched, and the bytes to copy fit both blocks; one that fails keeps the
    old block. *)
Theorem realloc_safe a live lost ptr layout new_size a' p copy :
  alloc_inv a ((ptr, layout) :: live) lost -> 0 <= new_size -> 0 < l_align layout ->
  realloc a ptr layout new_size = Ret (a', p, copy) ->
  (p = null /\ copy = None /\ exists lost', alloc_inv a' ((ptr, layout) :: live) lost') \/
  ((exists lost', alloc_inv a' ((p, MkLayout new_size (l_align layout)) :: live) lost') /\
   (is_virtual a = false ->
    exists n, copy = Some (p, ptr, n) /\ n <= new_size /\ n <= l_size layout)).
Proof.
  intros Hinv Hn Ha Hr. unfold realloc in Hr.
  destruct (from_size_align new_size (l_align layout)) as [nl|] eqn:El; [|simplify_eq; left; eauto].
  apply from_size_align_Some in El as ->. apply obind_Ret in Hr as ([a1 q] & Hal & Hr).
  pose proof (alloc_virtual _ _ _ _ Hal) as Hv.
  destruct (alloc_spec _ _ _ (MkLayout new_size (l_align layout)) _ _ Hinv Hn Ha Hal) as (lost1 & _ & [[-> Hi]|(Hb & Hf & _ & _ & Hi)]).
  - left. cbn in Hr. simplify_eq. eauto.
  - right. pose proof (inv_base _ _ _ Hinv).
    rewrite (proj2 (Z.eqb_neq q null)) in Hr by (unfold null; lia). cbn [negb] in Hr.
    apply obind_Ret in Hr as (a2 & Hd & Hr). injection Hr as <- <- <-. split.
    + edestruct (dealloc_spec a1 _ ((q, MkLayout new_size (l_align layout)) :: live) lost1 ptr layout Hi)
        as (a3 & lost3 & Hd' & Hi' & _); [apply Permutation_swap|]. rewrite Hd in Hd'. simplify_eq. eauto.
    + intros Hv'. rewrite Hv, Hv'. simpl. eexists. split; [done|]. lia.
Qed.

(** A fresh allocator over a heap that does not start at address 0 meets the
    invariant with no block held. *)
Lemma alloc_from_inv b l virt :
  0 < b -> 0 <= l -> b + l < 2 ^ W -> alloc_inv (alloc_from b l virt) [] [].
Proof.
  intros Hb Hl Hw. assert (stashed (alloc_from b l virt) = []) as Hs.
  { apply stashed_nil. intros k c Hk. by apply lookup_replicate in Hk as [-> _]. }
  split; rewrite ?Hs; try (simpl; lia); try done.
  intros addr. simpl. by rewrite decide_False by lia.
Qed.

End Alloc.

(** * Runs on a concrete heap *)

Definition demo_heap : BasicAlloc := alloc_from 0x100000 0x10000 true.

Lemma demo_heap_inv : alloc_inv 64 demo_heap [] [].
Proof. apply alloc_from_inv; lia. Qed.

Definition demo_layout : Layout := MkLayout 24 8.

Lemma alloc_safe_witness :
  exists a' p, alloc 64 demo_heap demo_layout = Ret (a', p) /\
    (p = null \/ exists lost, alloc_inv 64 a' [(p, demo_layout)] lost).
Proof.
  destruct (alloc_safe 64 demo_heap [] [] demo_layout) as (a' & p & lost' & Hal & _ & Hr);
    [exact demo_heap_inv|simpl; lia..|].
  exists a', p. split; [exact Hal|].
  destruct Hr as [[Hp _]|(_ & _ & _ & _ & _ & Hi)]; [left; exact Hp|right; exists lost'; exact Hi].
Defined.

(** The heap with one block held. *)
Definition demo_held : BasicAlloc := set_count (set_next demo_heap 24) 1.

Lemma demo_held_inv : alloc_inv 64 demo_held [(0x100000, demo_layout)] [].
Proof.
  apply (alloc_inv_push 64 demo_heap _ [] _ [] [] 0x100000 demo_layout);
    try done; exact demo_heap_inv.
Qed.

Lemma dealloc_safe_witness :
  exists a' lost', dealloc 64 demo_held 0x100000 demo_layout = Ret a' /\ alloc_inv 64 a' [] lost'.
Proof.
  destruct (dealloc_safe 64 demo_held [(0x100000, demo_layout)] [] [] 0x100000 demo_layout)
    as (a' & lost' & Hd & Hi & _); [exact demo_held_inv|reflexivity|].
  exists a', lost'. split; [exact Hd|exact Hi].
Defined.

Lemma dealloc_last_reclaims_witness :
  exists a', dealloc 64 demo_held 0x100000 demo_layout = Ret a' /\ next a' = 0.
Proof.
  destruct (dealloc_last_reclaims 64 demo_held 0x100000 demo_layout) as (a' & Hd & _ & Hn);
    [exact demo_held_inv|]. exists a'. split; [exact Hd|exact Hn].
Defined.

Lemma realloc_safe_witness :
  exists a' p copy, realloc 64 demo_held 0x100000 demo_layout 48 = Ret (a', p, copy) /\
    (p = null \/ exists lost, alloc_inv 64 a' [(p, MkLayout 48 8)] lost).
Proof.
  destruct (realloc 64 demo_held 0x100000 demo_layout 48) as [[[a' p] copy]|] eqn:E;
    [|vm_compute in E; discriminate E].
  exists a', p, copy. split; [reflexivity|].
  destruct (realloc_safe 64 demo_held [] [] 0x100000 demo_layout 48 a' p copy) as [[Hp _]|[Hi _]];
    [exact demo_held_inv|lia|simpl; lia|exact E|left; exact Hp|right; exact Hi].
Defined.
