(* ===== verification/Scheduler.v ===== *)
(** Processes and the scheduler: the process states and signals of
    kernel/src/process.rs, and the task list, signal queues and [tick] of
    kernel/src/scheduler.rs.  The global tables the kernel keeps behind mutexes
    are one record; the part a process can reach while it runs ([Globals], with the
    devices that only processes look at) is separate from the task list, which the scheduler holds locked.  What a
    process does in a tick of its own, and the pipes its drop handler closes, are
    parameters. *)
From S2P Require Import Prelude MachineInt.
#[local] Open Scope Z_scope.

(** * Process states *)

Inductive SignalType := SIGILL | SIGKILL.
Record ProcessSignal := MkSignal { signal_type : SignalType }.

Inductive WaitAction :=
| EXITED (exit_code : Z)
| TERMINATED_BY_SIGNAL (signal : ProcessSignal).
Record WaitInformation := MkWait { wait_cpid : nat; wait_action : WaitAction }.

Inductive ProcessState :=
| RUNNING
| RUNNING_NEW_CHILD_JUST_FORKED
| FINISHED_WAITING_FOR_CHILD_PROCESS (info : option WaitInformation)
| WAITING_FOR_CHILD_PROCESS (cpid : option nat)
| WAITING_FOR_READ_PIPE (pipe_index : nat)
| TERMINATED_NORMALLY_CHILD_WAITING_FOR_PARENT_ACKNOWLEDGEMENT (exit_code : Z)
| TERMINATED_DUE_TO_SIGNAL_CHILD_WAITING_FOR_PARENT_ACKNOWLEDGEMENT (signal : ProcessSignal)
| TERMINATED_NORMALLY_WAITING_TO_BE_DEALLOCATED (exit_code : Z)
| TERMINATED_DUE_TO_SIGNAL_WAITING_TO_BE_DEALLOCATED (signal : ProcessSignal).

#[export] Instance SignalType_eq_dec : EqDecision SignalType.
Proof. solve_decision. Defined.
#[export] Instance ProcessSignal_eq_dec : EqDecision ProcessSignal.
Proof. solve_decision. Defined.
#[export] Instance WaitAction_eq_dec : EqDecision WaitAction.
Proof. solve_decision. Defined.
#[export] Instance WaitInformation_eq_dec : EqDecision WaitInformation.
Proof. solve_decision. Defined.
#[export] Instance ProcessState_eq_dec : EqDecision ProcessState.
Proof. solve_decision. Defined.

Record ProcessPipe := MkPipe { pipe_buf : list Z; readers_count : nat; writers_count : nat }.

Section Scheduler.
(** The emulator and the data of a process the scheduler does not look at, and
    the global state only processes look at: the file system, the terminal. *)
Context {X D : Type}.

Record Process := MkProcess {
  proc_rest : X;
  state : ProcessState;
  pid : option nat;
  parent_pid : option nat;
}.

Definition set_state (p : Process) (st : ProcessState) : Process :=
  MkProcess (proc_rest p) st (pid p) (parent_pid p).
Definition set_pid (p : Process) (n : nat) : Process :=
  MkProcess (proc_rest p) (state p) (Some n) (parent_pid p).

Definition is_dead (st : ProcessState) : bool :=
  match st with
  | TERMINATED_NORMALLY_CHILD_WAITING_FOR_PARENT_ACKNOWLEDGEMENT _ => true
  | TERMINATED_NORMALLY_WAITING_TO_BE_DEALLOCATED _ => true
  | TERMINATED_DUE_TO_SIGNAL_CHILD_WAITING_FOR_PARENT_ACKNOWLEDGEMENT _ => true
  | TERMINATED_DUE_TO_SIGNAL_WAITING_TO_BE_DEALLOCATED _ => true
  | _ => false
  end.

Definition dispostion_terminate (p : Process) (signal : ProcessSignal) : Process :=
  if negb (is_dead (state p)) then
    match parent_pid p with
    | None => set_state p (TERMINATED_DUE_TO_SIGNAL_WAITING_TO_BE_DEALLOCATED signal)
    | Some _ => set_state p (TERMINATED_DUE_TO_SIGNAL_CHILD_WAITING_FOR_PARENT_ACKNOWLEDGEMENT signal)
    end
  else p.

Definition recive_signal (p : Process) (signal : ProcessSignal) : Process :=
  match signal_type signal with
  | SIGKILL => dispostion_terminate p signal
  | SIGILL => dispostion_terminate p signal
  end.

(** * The scheduler's tables *)

Record Globals := MkGlobals {
  number_of_tasks : nat;
  new_task_list : list Process;
  pipes : list (option ProcessPipe);
  signal_queues : list (option (list ProcessSignal));
  devices : D;
}.

Record Sched := MkSched { task_list : list (option Process); globals : Globals }.

Definition sched_init (d : D) : Sched := MkSched [] (MkGlobals 0 [] [] [] d).

Definition set_task (s : Sched) (i : nat) (p : option Process) : Sched :=
  MkSched (<[i := p]> (task_list s)) (globals s).
Definition set_signals (g : Globals) (q : list (option (list ProcessSignal))) : Globals :=
  MkGlobals (number_of_tasks g) (new_task_list g) (pipes g) q (devices g).
Definition set_pipes (g : Globals) (ps : list (option ProcessPipe)) : Globals :=
  MkGlobals (number_of_tasks g) (new_task_list g) ps (signal_queues g) (devices g).

Definition new_task (g : Globals) (p : Process) : Globals * nat :=
  let new_pid := S (number_of_tasks g) in
  (MkGlobals (S (number_of_tasks g)) (new_task_list g ++ [set_pid p new_pid]) (pipes g)
     (signal_queues g ++ [Some []]) (devices g), new_pid).

(** [while let Some(p) = new_list.pop() { list.push(p); }]: the newest task comes
    first. *)
Fixpoint pop_all (new_list : list Process) (list_ : list (option Process)) (n : nat)
  : list (option Process) :=
  match n, rev new_list with
  | S n, p :: rest => pop_all (rev rest) (list_ ++ [Some p]) n
  | _, _ => list_
  end.

Definition move_new_tasks_into_list (s : Sched) : Sched :=
  let g := globals s in
  let l := pop_all (new_task_list g) (task_list s) (length (new_task_list g)) in
  MkSched l (MkGlobals (length l) [] (pipes g) (signal_queues g) (devices g)).

(** [pid - 1] on [usize]. *)
Definition pred_chk (n : nat) : outcome nat := match n with O => Panic | S k => Ret k end.

Definition kill_task (g : Globals) (p : nat) (signal : ProcessSignal) : outcome (Globals * option unit) :=
  let! i := pred_chk p in
  match signal_queues g !! i with
  | Some (Some q) => Ret (set_signals g (<[i := Some (q ++ [signal])]> (signal_queues g)), Some ())
  | _ => Ret (g, None)
  end.

(** [while list.last().map(|v| v.is_none()).unwrap_or(false) { list.pop(); }]. *)
Fixpoint drain {A} (l : list (option A)) : list (option A) :=
  match l with
  | [] => []
  | x :: t =>
      match drain t, x with
      | [], None => []
      | t', _ => x :: t'
      end
  end.

(** * One tick *)

(** What a process does when it is ticked, and the pipes left when it is
    dropped. *)
Context (proc_tick : Process -> Globals -> outcome (Process * Globals * option unit)).
Context (drop_pipes : Process -> list (option ProcessPipe) -> outcome (list (option ProcessPipe))).

(** Queued signals reach the process at the start of its turn. *)
Definition deliver_signals (s : Sched) (i : nat) (p : Process) : outcome (Sched * Process) :=
  let! slot := unwrap (signal_queues (globals s) !! i) in
  let! q := unwrap slot in
  let p' := fold_left recive_signal q p in
  Ret (MkSched (<[i := Some p']> (task_list s))
         (set_signals (globals s) (<[i := Some []]> (signal_queues (globals s)))), p').

Definition run_task (s : Sched) (i : nat) (p : Process) : outcome Sched :=
  let! (p', g, r) := proc_tick p (globals s) in
  let s := MkSched (<[i := Some p']> (task_list s)) g in
  let! g :=
    match r with
    | None => let! (g', _) := kill_task (globals s) (S i) (MkSignal SIGILL) in Ret g'
    | Some _ => Ret (globals s)
    end in
  Ret (move_new_tasks_into_list (MkSched (task_list s) g)).

(** The state change of a child a parent can be told of, and the child after it
    was told. *)
Definition acknowledge (child : Process) : outcome (option (WaitInformation * Process)) :=
  match state child with
  | TERMINATED_NORMALLY_CHILD_WAITING_FOR_PARENT_ACKNOWLEDGEMENT exit_code =>
      let! n := unwrap (pid child) in
      Ret (Some (MkWait n (EXITED exit_code),
                 set_state child (TERMINATED_NORMALLY_WAITING_TO_BE_DEALLOCATED exit_code)))
  | TERMINATED_DUE_TO_SIGNAL_CHILD_WAITING_FOR_PARENT_ACKNOWLEDGEMENT signal =>
      let! n := unwrap (pid child) in
      Ret (Some (MkWait n (TERMINATED_BY_SIGNAL signal),
                 set_state child (TERMINATED_DUE_TO_SIGNAL_WAITING_TO_BE_DEALLOCATED signal)))
  | _ => Ret None
  end.

(** Waiting for one process: the state change, whether waiting is invalid, and
    the task list. *)
Definition wait_for_pid (l : list (option Process)) (our_pid cpid : nat)
  : outcome (option WaitInformation * bool * list (option Process)) :=
  let! k := pred_chk cpid in
  match l !! k with
  | Some (Some child) =>
      let! parent := unwrap (parent_pid child) in
      if decide (parent = our_pid) then
        let! r := acknowledge child in
        match r with
        | Some (info, child') => Ret (Some info, false, <[k := Some child']> l)
        | None => Ret (None, false, l)
        end
      else Ret (None, true, l)
  | _ => Ret (None, true, l)
  end.

(** Waiting for any child: the tasks in order, the first that has a change to
    report. *)
Fixpoint wait_for_any (l : list (option Process)) (our_pid : nat) (invalid : bool)
  : outcome (option WaitInformation * bool * list (option Process)) :=
  match l with
  | [] => Ret (None, invalid, [])
  | None :: rest =>
      let! (i, inv, rest') := wait_for_any rest our_pid invalid in Ret (i, inv, None :: rest')
  | Some proc :: rest =>
      if decide (parent_pid proc = Some our_pid) then
        let! r := acknowledge proc in
        match r with
        | Some (info, proc') => Ret (Some info, false, Some proc' :: rest)
        | None =>
            let! (i, inv, rest') := wait_for_any rest our_pid false in Ret (i, inv, Some proc :: rest')
        end
      else let! (i, inv, rest') := wait_for_any rest our_pid invalid in Ret (i, inv, Some proc :: rest')
  end.

Definition finish_wait (s : Sched) (i : nat) (st : ProcessState) : outcome Sched :=
  let! slot := unwrap (task_list s !! i) in
  let! p := unwrap slot in
  Ret (set_task s i (Some (set_state p st))).

Definition wait_child (s : Sched) (i : nat) (cpid : option nat) : outcome Sched :=
  let our_pid := S i in
  let! (change, invalid, l) :=
    match cpid with
    | Some cpid => wait_for_pid (task_list s) our_pid cpid
    | None => wait_for_any (task_list s) our_pid true
    end in
  let s := MkSched l (globals s) in
  match change with
  | Some info => finish_wait s i (FINISHED_WAITING_FOR_CHILD_PROCESS (Some info))
  | None => if invalid then finish_wait s i (FINISHED_WAITING_FOR_CHILD_PROCESS None) else Ret s
  end.

Definition wait_pipe (s : Sched) (i : nat) (p : Process) (pipe_index : nat) : outcome Sched :=
  let! slot := unwrap (pipes (globals s) !! pipe_index) in
  let! pipe := unwrap slot in
  if (0 <? Z.of_nat (length (pipe_buf pipe))) || (Z.of_nat (writers_count pipe) =? 0)
  then Ret (set_task s i (Some (set_state p RUNNING))) else Ret s.

(** [list.get_mut(parents_pid)]: the index is the parent's pid, not pid - 1. *)
Definition parent_exists (s : Sched) (p : Process) : outcome bool :=
  let! parents_pid := unwrap (parent_pid p) in
  Ret (match task_list s !! parents_pid with Some (Some _) => true | _ => false end).

Definition orphan (s : Sched) (i : nat) (p : Process) (st : ProcessState) : outcome Sched :=
  let! b := parent_exists s p in
  if negb b then Ret (set_task s i (Some (set_state p st))) else Ret s.

Definition deallocate (s : Sched) (i : nat) (p : Process) : outcome Sched :=
  let! ps := drop_pipes p (pipes (globals s)) in
  let g := set_pipes (globals s) ps in
  let l := drain (<[i := None]> (task_list s)) in
  if decide (i < length (signal_queues g))%nat
  then Ret (MkSched l (set_signals g (drain (<[i := None]> (signal_queues g)))))
  else Panic.

(** The body of the loop of [tick]. *)
Definition tick_task (s : Sched) (i : nat) : outcome Sched :=
  let! slot := unwrap (task_list s !! i) in
  match slot with
  | None => Ret s
  | Some p =>
      let! (s, p) := deliver_signals s i p in
      match state p with
      | RUNNING | RUNNING_NEW_CHILD_JUST_FORKED | FINISHED_WAITING_FOR_CHILD_PROCESS _ => run_task s i p
      | WAITING_FOR_CHILD_PROCESS cpid => wait_child s i cpid
      | WAITING_FOR_READ_PIPE pipe_index => wait_pipe s i p pipe_index
      | TERMINATED_NORMALLY_CHILD_WAITING_FOR_PARENT_ACKNOWLEDGEMENT exit_code =>
          orphan s i p (TERMINATED_NORMALLY_WAITING_TO_BE_DEALLOCATED exit_code)
      | TERMINATED_DUE_TO_SIGNAL_CHILD_WAITING_FOR_PARENT_ACKNOWLEDGEMENT signal =>
          orphan s i p (TERMINATED_DUE_TO_SIGNAL_WAITING_TO_BE_DEALLOCATED signal)
      | TERMINATED_NORMALLY_WAITING_TO_BE_DEALLOCATED _ => deallocate s i p
      | TERMINATED_DUE_TO_SIGNAL_WAITING_TO_BE_DEALLOCATED _ => deallocate s i p
      end
  end.

(** [for i in 0..list.len()]: the bound is read before the loop. *)
Fixpoint tick_loop (s : Sched) (i n : nat) : outcome Sched :=
  match n with
  | O => Ret s
  | S n => let! s' := tick_task s i in tick_loop s' (S i) n
  end.

Definition sched_tick (s : Sched) : outcome (Sched * bool) :=
  let s := move_new_tasks_into_list s in
  let! s' := tick_loop s 0 (length (task_list s)) in
  Ret (s', bool_decide (0 < length (task_list s'))%nat).

End Scheduler.
