(* ===== verification/SchedInvariant.v ===== *)
(** The invariant of the scheduler's tables and the functional behaviour of its
    steps: every live task has a signal queue at its index, its pid is its index
    plus one, the list ends in a live task, and a zombie has a parent.  What the
    invariant asks of a process's own tick is the class [ProcTickOk]. *)
From S2P Require Import Prelude MachineInt Scheduler.
From stdpp Require Import list.
#[local] Open Scope nat_scope.

Section Tables.
Context {X D : Type}.
Implicit Types (p : Process (X := X)) (l : list (option (Process (X := X)))).

(** * Removing the trailing [None]s *)

Definition shape {A} (l : list (option A)) : list bool :=
  map (fun o => match o with Some _ => true | None => false end) l.

Lemma shape_length {A} (l : list (option A)) : length (shape l) = length l.
Proof. apply length_map. Qed.

Lemma shape_lookup {A} (l : list (option A)) i :
  shape l !! i = (fun o => match o with Some _ => true | None => false end) <$> l !! i.
Proof. apply list_lookup_fmap. Qed.

Lemma shape_insert {A B} (l : list (option A)) (q : list (option B)) i x y :
  shape l = shape q -> (x = None <-> y = None) -> shape (<[i := x]> l) = shape (<[i := y]> q).
Proof.
  intros E Hxy. unfold shape in *.
  rewrite !(list_fmap_insert (fun o => match o with Some _ => true | None => false end) _ i).
  f_equal; [|done]. destruct x, y; naive_solver.
Qed.

Lemma drain_shape {A B} (l : list (option A)) (q : list (option B)) :
  shape l = shape q -> shape (drain l) = shape (drain q).
Proof.
  revert q. induction l as [|x l IH]; intros [|y q] E; try done.
  simpl in E. injection E as E1 E2. specialize (IH _ E2). simpl.
  destruct (drain l), (drain q), x, y; try done; simpl in *; congruence.
Qed.

Lemma drain_split {A} (l : list (option A)) : exists k, l = drain l ++ replicate k None.
Proof.
  induction l as [|x l [k IH]]; [by exists 0|]. simpl.
  destruct (drain l) eqn:E, x; [exists k|exists (S k)|exists k|exists k];
    rewrite IH at 1; reflexivity.
Qed.

Lemma drain_last {A} (l : list (option A)) : last (drain l) <> Some None.
Proof.
  induction l as [|x l IH]; [done|]. simpl.
  destruct (drain l) eqn:E, x; try done.
Qed.

Lemma drain_lookup {A} (l : list (option A)) i x :
  drain l !! i = Some (Some x) <-> l !! i = Some (Some x).
Proof.
  destruct (drain_split l) as [k E]. split; intros H.
  - rewrite E. by apply lookup_app_l_Some.
  - rewrite E in H. apply lookup_app_Some in H as [H|[_ H]]; [done|].
    by apply lookup_replicate in H as [? _].
Qed.

Lemma drain_id {A} (l : list (option A)) : last l <> Some None -> drain l = l.
Proof.
  destruct (drain_split l) as [[|k] E]; [by rewrite app_nil_r in E|].
  intros H. destruct H. rewrite E.
  rewrite last_app. replace (S k) with (k + 1) by lia.
  by rewrite replicate_add, last_app.
Qed.

Lemma drain_insert_inner {A} (l : list (option A)) i :
  last l <> Some None -> S i < length l -> drain (<[i := None]> l) = <[i := None]> l.
Proof.
  intros H Hi. apply drain_id. rewrite last_lookup, length_insert.
  rewrite list_lookup_insert_ne by lia. by rewrite <- last_lookup.
Qed.

(** * The invariant of the task list and the signal queues *)

Definition zombie (st : ProcessState) : bool :=
  match st with
  | TERMINATED_NORMALLY_CHILD_WAITING_FOR_PARENT_ACKNOWLEDGEMENT _ => true
  | TERMINATED_DUE_TO_SIGNAL_CHILD_WAITING_FOR_PARENT_ACKNOWLEDGEMENT _ => true
  | _ => false
  end.

(** A zombie has a parent to report to. *)
Definition parent_ok p : Prop := zombie (state p) = true -> parent_pid p <> None.

Record tables_ok l (q : list (option (list ProcessSignal))) : Prop := {
  t_shape : shape l = shape q;
  t_last : last l <> Some None;
  t_pid : forall i p, l !! i = Some (Some p) -> pid p = Some (S i);
  t_parent : forall i p, l !! i = Some (Some p) -> parent_ok p;
}.

(** [p'] is [p] after a step that leaves its identity alone. *)
Record keeps p p' : Prop := {
  k_pid : pid p' = pid p;
  k_parent_pid : parent_pid p' = parent_pid p;
  k_parent : parent_ok p -> parent_ok p';
}.

Lemma keeps_refl p : keeps p p.
Proof. by split. Qed.

Lemma keeps_trans p1 p2 p3 : keeps p1 p2 -> keeps p2 p3 -> keeps p1 p3.
Proof. intros [? ? ?] [? ? ?]. split; [congruence..|auto]. Qed.

Lemma keeps_state p st : (zombie st = true -> parent_pid p <> None) -> keeps p (set_state p st).
Proof. by split. Qed.

Definition keeps_all l l' : Prop := Forall2 (option_Forall2 keeps) l l'.

Lemma keeps_all_refl l : keeps_all l l.
Proof.
  apply Forall_Forall2_diag, list.Forall_forall. intros [p|] _; constructor. apply keeps_refl.
Qed.

Lemma keeps_all_trans l1 l2 l3 : keeps_all l1 l2 -> keeps_all l2 l3 -> keeps_all l1 l3.
Proof.
  intros H. revert l3. induction H as [|o1 o2 l1 l2 H1 _ IH]; intros l3 H3; [done|].
  apply Forall2_cons_inv_l in H3 as (o3 & l & H2 & ? & ->). constructor; [|by apply IH].
  inversion H1; subst; inversion H2; subst; constructor. eauto using keeps_trans.
Qed.

Lemma keeps_all_insert l i p p' :
  l !! i = Some (Some p) -> keeps p p' -> keeps_all l (<[i := Some p']> l).
Proof.
  intros Hi Hk. rewrite <- (list_insert_id l i (Some p) Hi) at 1.
  apply Forall2_insert; [apply keeps_all_refl|by constructor].
Qed.

Lemma keeps_all_lookup l l' i p :
  keeps_all l l' -> l !! i = Some (Some p) -> exists p', l' !! i = Some (Some p') /\ keeps p p'.
Proof.
  intros H Hi. destruct (Forall2_lookup_l _ _ _ _ _ H Hi) as (o & ? & Ho).
  inversion Ho; subst. eauto.
Qed.

Lemma keeps_all_shape l l' : keeps_all l l' -> shape l' = shape l.
Proof. intros H. induction H as [|o o' l l' Ho Hl IH]; [done|]. simpl. rewrite IH. by destruct Ho. Qed.

Lemma shape_last {A B} (l : list (option A)) (q : list (option B)) :
  shape l = shape q -> last l <> Some None -> last q <> Some None.
Proof.
  intros E H Hq. apply H. pose proof (f_equal last E) as L. unfold shape in L.
  rewrite !(fmap_last (fun o => match o with Some _ => true | None => false end)) in L.
  rewrite Hq in L. destruct (last l) as [[]|]; done.
Qed.

Lemma tables_keep l l' q q' :
  tables_ok l q -> keeps_all l l' -> shape q' = shape q -> tables_ok l' q'.
Proof.
  intros [S1 S2 S3 S4] K Q. pose proof (keeps_all_shape _ _ K) as S.
  assert (forall i p', l' !! i = Some (Some p') -> exists p, l !! i = Some (Some p) /\ keeps p p') as Hb.
  { intros i p' Hi. destruct (Forall2_lookup_r _ _ _ _ _ K Hi) as (o & ? & Ho).
    inversion Ho; subst. eauto. }
  split.
  - congruence.
  - eapply shape_last; [symmetry; exact S|done].
  - intros i p' Hi. destruct (Hb _ _ Hi) as (p & Hp & [? ? ?]). rewrite k_pid0. eauto.
  - intros i p' Hi. destruct (Hb _ _ Hi) as (p & Hp & [? ? ?]). eauto.
Qed.

Lemma tables_queue l q i p :
  tables_ok l q -> l !! i = Some (Some p) -> exists k, q !! i = Some (Some k).
Proof.
  intros [S1 _ _ _] Hi. pose proof (f_equal (.!! i) S1) as E. simpl in E.
  rewrite !shape_lookup, Hi in E. simpl in E.
  destruct (q !! i) as [[k|]|]; simpl in E; try discriminate. eauto.
Qed.

Lemma tables_remove l q i :
  tables_ok l q -> tables_ok (drain (<[i := None]> l)) (drain (<[i := None]> q)).
Proof.
  intros [S1 S2 S3 S4].
  assert (forall j p, drain (<[i := None]> l) !! j = Some (Some p) -> l !! j = Some (Some p)) as H.
  { intros j p Hj. rewrite drain_lookup in Hj.
    apply list_lookup_insert_Some in Hj as [(_ & ? & _)|[_ ?]]; [discriminate|done]. }
  split; eauto using drain_last.
  by apply drain_shape, shape_insert.
Qed.

Lemma tables_add l q p :
  tables_ok l q -> pid p = Some (S (length l)) -> parent_ok p ->
  tables_ok (l ++ [Some p]) (q ++ [Some []]).
Proof.
  intros [S1 S2 S3 S4] Hp Hq.
  assert (forall j p', (l ++ [Some p]) !! j = Some (Some p') ->
            l !! j = Some (Some p') \/ j = length l /\ p' = p) as H.
  { intros j p' Hj. apply lookup_app_Some in Hj as [?|[? Hj]]; [by left|].
    apply list_lookup_singleton_Some in Hj as [? [= ->]]. right. split; [lia|done]. }
  split.
  - unfold shape in *. rewrite !map_app. simpl. by rewrite S1.
  - by rewrite last_snoc.
  - intros j p' Hj. destruct (H _ _ Hj) as [?|[-> ->]]; eauto.
  - intros j p' Hj. destruct (H _ _ Hj) as [?|[-> ->]]; eauto.
Qed.

End Tables.

(** * Signals *)

Section Signals.
Context {X D : Type}.
Implicit Types p : Process (X := X).

Lemma recive_signal_dead p sg : is_dead (state p) = true -> recive_signal p sg = p.
Proof. intros H. unfold recive_signal, dispostion_terminate. rewrite H. by destruct (signal_type sg). Qed.

Lemma recive_signal_live p sg :
  is_dead (state p) = false ->
  recive_signal p sg =
    set_state p (if parent_pid p is None then TERMINATED_DUE_TO_SIGNAL_WAITING_TO_BE_DEALLOCATED sg
                 else TERMINATED_DUE_TO_SIGNAL_CHILD_WAITING_FOR_PARENT_ACKNOWLEDGEMENT sg).
Proof.
  intros H. unfold recive_signal, dispostion_terminate. rewrite H. simpl.
  by destruct (signal_type sg), (parent_pid p).
Qed.

Lemma recive_signal_keeps p sg : keeps p (recive_signal p sg).
Proof.
  destruct (is_dead (state p)) eqn:E; [rewrite recive_signal_dead by done; apply keeps_refl|].
  rewrite recive_signal_live by done. apply keeps_state. by destruct (parent_pid p).
Qed.

Lemma recive_signals_dead q p : is_dead (state p) = true -> fold_left recive_signal q p = p.
Proof. induction q as [|sg q IH]; [done|]. intros H. simpl. rewrite recive_signal_dead by done. auto. Qed.

Lemma recive_signals_keeps q p : keeps p (fold_left recive_signal q p).
Proof.
  revert p. induction q as [|sg q IH]; intros p; [apply keeps_refl|].
  eapply keeps_trans; [apply (recive_signal_keeps p sg)|apply IH].
Qed.

(** The first queued signal decides how a live process ends. *)
Lemma recive_signals_first sg q p :
  is_dead (state p) = false -> fold_left recive_signal (sg :: q) p = recive_signal p sg.
Proof.
  intros H. simpl. apply recive_signals_dead. rewrite recive_signal_live by done. simpl.
  by destruct (parent_pid p).
Qed.

End Signals.

(** * Moving the pending tasks into the list *)

Section Steps.
Context {X D : Type}.
Implicit Types (p : Process (X := X)) (l : list (option (Process (X := X)))).

Lemma pop_all_rev (new : list (Process (X := X))) l :
  pop_all new l (length new) = l ++ map Some (rev new).
Proof.
  rewrite <- (rev_involutive new) at 1 2. rewrite length_rev.
  generalize (rev new) as r. clear new. intros r. revert l.
  induction r as [|p r IH]; intros l; simpl; [by rewrite app_nil_r|].
  rewrite rev_app_distr, rev_involutive. simpl. rewrite IH.
  by rewrite <- app_assoc.
Qed.

Lemma move_tasks (s : Sched (X := X) (D := D)) :
  task_list (move_new_tasks_into_list s) =
    task_list s ++ map Some (rev (new_task_list (globals s))).
Proof. unfold move_new_tasks_into_list. simpl. apply pop_all_rev. Qed.

(** * What a state change of a child reports *)

(** The report of a zombie and the process once it was reported. *)
Definition report p : option (WaitAction * Process (X := X)) :=
  match state p with
  | TERMINATED_NORMALLY_CHILD_WAITING_FOR_PARENT_ACKNOWLEDGEMENT c =>
      Some (EXITED c, set_state p (TERMINATED_NORMALLY_WAITING_TO_BE_DEALLOCATED c))
  | TERMINATED_DUE_TO_SIGNAL_CHILD_WAITING_FOR_PARENT_ACKNOWLEDGEMENT sg =>
      Some (TERMINATED_BY_SIGNAL sg, set_state p (TERMINATED_DUE_TO_SIGNAL_WAITING_TO_BE_DEALLOCATED sg))
  | _ => None
  end.

Lemma acknowledge_report p n :
  pid p = Some n ->
  acknowledge p = Ret (option_map (fun '(a, p') => (MkWait n a, p')) (report p)).
Proof. intros H. unfold acknowledge, report. rewrite H. by destruct (state p). Qed.

Lemma report_keeps p a p' : report p = Some (a, p') -> keeps p p'.
Proof. unfold report. destruct (state p); intros [= <- <-]; by apply keeps_state. Qed.

Lemma report_zombie p : zombie (state p) = true <-> exists a p', report p = Some (a, p').
Proof. unfold report. destruct (state p); simpl; split; try done; try naive_solver; eauto. Qed.

Lemma report_once p a p' : report p = Some (a, p') -> report p' = None /\ is_dead (state p') = true.
Proof. unfold report. destruct (state p); intros [= <- <-]; done. Qed.

(** * Waiting for a child *)

Definition child_of (n : nat) (o : option (Process (X := X))) : Prop :=
  match o with Some p => parent_pid p = Some n | None => False end.
Definition zombie_of (n : nat) (o : option (Process (X := X))) : Prop :=
  match o with Some p => parent_pid p = Some n /\ zombie (state p) = true | None => False end.
#[global] Instance child_of_dec n o : Decision (child_of n o).
Proof. destruct o; simpl; apply _. Defined.
#[global] Instance zombie_of_dec n o : Decision (zombie_of n o).
Proof. destruct o; simpl; apply _. Defined.

(** The answer to a wait for any child: the first zombie child in the list, or
    that there is none; waiting is invalid when there is no child at all. *)
Definition any_answer l (n : nat) (invalid : bool) (first_pid : nat)
  : option WaitInformation * bool * list (option (Process (X := X))) :=
  match list_find (zombie_of n) l with
  | Some (k, Some p) =>
      match report p with
      | Some (a, p') => (Some (MkWait (first_pid + k) a), false, <[k := Some p']> l)
      | None => (None, false, l)
      end
  | _ => (None, invalid && negb (bool_decide (Exists (child_of n) l)), l)
  end.

Lemma any_answer_skip o l n invalid f :
  ~ zombie_of n o ->
  any_answer (o :: l) n invalid f =
    (let '(i, inv, l') := any_answer l n (if decide (child_of n o) then false else invalid) (S f) in
     (i, inv, o :: l')).
Proof.
  intros Ho. unfold any_answer. simpl. rewrite decide_False by done.
  destruct (list_find (zombie_of n) l) as [[k o']|] eqn:E; simpl.
  - destruct o' as [p|].
    + destruct (report p) as [[a p']|]; [|done]. simpl. by rewrite Nat.add_succ_r.
    + apply list_find_Some in E as (_ & [] & _).
  - do 2 f_equal.
    rewrite (bool_decide_ext _ (child_of n o \/ Exists (child_of n) l)) by apply Exists_cons.
    rewrite bool_decide_or. destruct (decide (child_of n o)) as [H|H].
    + rewrite (bool_decide_eq_true_2 _ H). simpl. apply andb_false_r.
    + by rewrite (bool_decide_eq_false_2 _ H).
Qed.

Lemma wait_for_any_spec l n invalid f :
  (forall i p, l !! i = Some (Some p) -> pid p = Some (f + i)) ->
  wait_for_any l n invalid = Ret (any_answer l n invalid f).
Proof.
  revert invalid f. induction l as [|o l IH]; intros invalid f Hpid.
  { unfold any_answer. simpl. by rewrite andb_comm. }
  assert (forall inv, wait_for_any l n inv = Ret (any_answer l n inv (S f))) as IH'.
  { intros inv. apply IH. intros i p Hi. rewrite (Hpid (S i) p Hi). f_equal. lia. }
  destruct o as [p|]; simpl.
  2:{ rewrite (any_answer_skip None) by (intros []). rewrite decide_False by (intros []).
      rewrite IH'. simpl. by destruct (any_answer l n invalid (S f)) as [[? ?] ?]. }
  pose proof (Hpid 0 p eq_refl) as Hp. rewrite Nat.add_0_r in Hp.
  destruct (decide (parent_pid p = Some n)) as [Hc|Hc].
  - rewrite (acknowledge_report p f Hp). simpl. destruct (report p) as [[a p']|] eqn:R; simpl.
    + unfold any_answer. simpl. rewrite decide_True.
      * rewrite R. by rewrite Nat.add_0_r.
      * split; [done|]. apply report_zombie. eauto.
    + rewrite IH'. rewrite (any_answer_skip (Some p)).
      * rewrite decide_True by done. simpl. by destruct (any_answer l n false (S f)) as [[? ?] ?].
      * intros [_ Hz]. apply report_zombie in Hz as (a & p' & Hz). congruence.
  - rewrite IH', (any_answer_skip (Some p)) by (by intros [? _]).
    rewrite decide_False by done. simpl. by destruct (any_answer l n invalid (S f)) as [[? ?] ?].
Qed.

Lemma any_answer_keeps l n invalid f : keeps_all l (any_answer l n invalid f).2.
Proof.
  unfold any_answer. destruct (list_find (zombie_of n) l) as [[k [p|]]|] eqn:E;
    try apply keeps_all_refl.
  apply list_find_Some in E as (Hk & _ & _).
  destruct (report p) as [[a p']|] eqn:R; simpl; [|apply keeps_all_refl].
  eapply keeps_all_insert; eauto using report_keeps.
Qed.

(** The answer to a wait for the process [cpid]. *)
Definition pid_answer l (n cpid : nat)
  : option WaitInformation * bool * list (option (Process (X := X))) :=
  match l !! (cpid - 1) with
  | Some (Some p) =>
      if decide (parent_pid p = Some n) then
        match report p with
        | Some (a, p') => (Some (MkWait cpid a), false, <[cpid - 1 := Some p']> l)
        | None => (None, false, l)
        end
      else (None, true, l)
  | _ => (None, true, l)
  end.

(** The process to wait for is in the table and was not started by another. *)
Definition wait_target_parentless l (cpid : nat) : bool :=
  match l !! (cpid - 1) with
  | Some (Some p) => if parent_pid p is None then true else false
  | _ => false
  end.

Lemma wait_for_pid_spec l q n cpid :
  tables_ok l q ->
  wait_for_pid l n cpid =
    if bool_decide (cpid = 0) || wait_target_parentless l cpid then Panic
    else Ret (pid_answer l n cpid).
Proof.
  intros T. unfold wait_for_pid, wait_target_parentless, pid_answer.
  destruct cpid as [|k]; simpl; [done|]. rewrite Nat.sub_0_r.
  destruct (l !! k) as [[p|]|] eqn:E; [|done..].
  destruct (parent_pid p) as [m|] eqn:Pp; simpl; [|done].
  destruct (decide (m = n)) as [->|Hm]; [|rewrite decide_False; congruence].
  rewrite decide_True by done.
  rewrite (acknowledge_report p (S k) (t_pid _ _ T _ _ E)). simpl.
  by destruct (report p) as [[a p']|].
Qed.

Lemma pid_answer_keeps l n cpid : keeps_all l (pid_answer l n cpid).2.
Proof.
  unfold pid_answer. destruct (l !! (cpid - 1)) as [[p|]|] eqn:E; try apply keeps_all_refl.
  destruct (decide _); [|apply keeps_all_refl].
  destruct (report p) as [[a p']|] eqn:R; simpl; [|apply keeps_all_refl].
  eapply keeps_all_insert; eauto using report_keeps.
Qed.

(** Whether [wait_child] panics, and otherwise its effect. *)
Definition wait_panics (s : Sched (X := X) (D := D)) (c : option nat) : bool :=
  match c with
  | Some cpid => bool_decide (cpid = 0) || wait_target_parentless (task_list s) cpid
  | None => false
  end.

Definition wait_answer l (i : nat) (c : option nat) :=
  match c with
  | Some cpid => pid_answer l (S i) cpid
  | None => any_answer l (S i) true 1
  end.

Lemma wait_answer_keeps l i c : keeps_all l (wait_answer l i c).2.
Proof. destruct c; [apply pid_answer_keeps|apply any_answer_keeps]. Qed.

Lemma finish_wait_spec (s : Sched (X := X) (D := D)) i p st :
  task_list s !! i = Some (Some p) ->
  finish_wait s i st = Ret (set_task s i (Some (set_state p st))).
Proof. intros H. unfold finish_wait. by rewrite H. Qed.

Lemma wait_child_spec (s : Sched (X := X) (D := D)) i c p :
  tables_ok (task_list s) (signal_queues (globals s)) ->
  task_list s !! i = Some (Some p) ->
  wait_child s i c =
    if wait_panics s c then Panic else
    let '(change, invalid, l) := wait_answer (task_list s) i c in
    let s := MkSched l (globals s) in
    match change with
    | Some info => finish_wait s i (FINISHED_WAITING_FOR_CHILD_PROCESS (Some info))
    | None => if invalid then finish_wait s i (FINISHED_WAITING_FOR_CHILD_PROCESS None) else Ret s
    end.
Proof.
  intros T Hi. unfold wait_child, wait_panics, wait_answer. destruct c as [cpid|].
  - rewrite (wait_for_pid_spec _ _ _ _ T). by destruct (bool_decide (cpid = 0) || _).
  - rewrite (wait_for_any_spec _ _ _ 1); [done|]. intros j r Hj. apply (t_pid _ _ T _ _ Hj).
Qed.

(** A wait that does not panic returns, and keeps every task's identity. *)
Lemma wait_child_keeps (s : Sched (X := X) (D := D)) i c p :
  tables_ok (task_list s) (signal_queues (globals s)) ->
  task_list s !! i = Some (Some p) -> wait_panics s c = false ->
  exists l, wait_child s i c = Ret (MkSched l (globals s)) /\ keeps_all (task_list s) l.
Proof.
  intros T Hi W. rewrite (wait_child_spec s i c p T Hi), W.
  pose proof (wait_answer_keeps (task_list s) i c) as K.
  destruct (wait_answer (task_list s) i c) as [[ch inv] l]. simpl in *.
  destruct (keeps_all_lookup _ _ _ _ K Hi) as (p1 & Hp1 & Kp).
  assert (forall st, zombie st = false -> exists l',
    finish_wait (MkSched l (globals s)) i st = Ret (MkSched l' (globals s)) /\ keeps_all (task_list s) l') as F.
  { intros st Hst. rewrite (finish_wait_spec (MkSched l (globals s)) i p1 st Hp1).
    eexists. split; [reflexivity|]. apply (keeps_all_trans _ l); [done|].
    apply (keeps_all_insert _ _ p1); [done|]. apply keeps_state. congruence. }
  destruct ch as [info|]; [by apply F|]. destruct inv; [by apply F|]. eauto.
Qed.

End Steps.
