(* ===== verification/SchedTheorems.v ===== *)
(** The theorems about the scheduler: a tick keeps the tables consistent and
    panics for named reasons only, waiting reports each child once, a process
    whose tick fails is removed; and the cases in which pids and parents go
    wrong. *)
From S2P Require Import Prelude MachineInt Scheduler SchedInvariant.
From stdpp Require Import list.
#[local] Open Scope nat_scope.

(** The task tables of two global states agree; the pipes and the devices may differ. *)
Record same_tasks {X D} (g g' : Globals (X := X) (D := D)) : Prop := {
  st_number : number_of_tasks g' = number_of_tasks g;
  st_new : new_task_list g' = new_task_list g;
  st_signals : signal_queues g' = signal_queues g;
}.

(** What the scheduler relies on when it lets a process run for a tick: the
    process keeps its pid and its parent, becomes a zombie only if it has a
    parent, and changes the task tables by at most one call of [new_task]. *)
Class ProcTickOk {X D} (proc_tick : Process (X := X) -> Globals (X := X) (D := D) -> outcome (Process (X := X) * Globals (X := X) (D := D) * option unit))
  : Prop := {
  pt_keeps : forall p (g : Globals (X := X) (D := D)) p' (g' : Globals (X := X) (D := D)) r, proc_tick p g = Ret (p', g', r) -> keeps p p';
  pt_globals : forall p (g : Globals (X := X) (D := D)) p' (g' : Globals (X := X) (D := D)) r, proc_tick p g = Ret (p', g', r) ->
    same_tasks g g' \/ exists c : Process (X := X), parent_ok c /\ same_tasks (new_task g c).1 g';
}.

Section Tick.
Context {X D : Type}.
Context (proc_tick : Process (X := X) -> Globals (X := X) (D := D) -> outcome (Process (X := X) * Globals (X := X) (D := D) * option unit)).
Context (drop_pipes : Process (X := X) -> list (option ProcessPipe) -> outcome (list (option ProcessPipe))).
Context `{!ProcTickOk proc_tick}.
Implicit Types (s : Sched (X := X) (D := D)) (p : Process (X := X)).

Abbreviation turn := (tick_task proc_tick drop_pipes).
Abbreviation loop := (tick_loop proc_tick drop_pipes).
Abbreviation tick := (sched_tick proc_tick drop_pipes).

Definition sched_ok s : Prop := tables_ok (task_list s) (signal_queues (globals s)).

(** The reasons for which a turn may panic, by the state of the process once its
    signals were delivered. *)
Definition turn_panics s (i : nat) : Prop :=
  exists p q, task_list s !! i = Some (Some p) /\ signal_queues (globals s) !! i = Some (Some q) /\
  let p' := fold_left recive_signal q p in
  match state p' with
  | RUNNING | RUNNING_NEW_CHILD_JUST_FORKED | FINISHED_WAITING_FOR_CHILD_PROCESS _ =>
      proc_tick p' (set_signals (globals s) (<[i := Some []]> (signal_queues (globals s)))) = Panic
  | WAITING_FOR_CHILD_PROCESS c => wait_panics (set_task s i (Some p')) c = true
  | WAITING_FOR_READ_PIPE k => forall pipe, pipes (globals s) !! k <> Some (Some pipe)
  | TERMINATED_NORMALLY_WAITING_TO_BE_DEALLOCATED _
  | TERMINATED_DUE_TO_SIGNAL_WAITING_TO_BE_DEALLOCATED _ => drop_pipes p' (pipes (globals s)) = Panic
  | _ => False
  end.

(** What holds of the tables after the turn of task [i]. *)
Definition turn_post s (i : nat) s' : Prop :=
  sched_ok s' /\ new_task_list (globals s') = [] /\
  (S i < length (task_list s) ->
   length (task_list s) <= length (task_list s') /\ number_of_tasks (globals s') = length (task_list s')).

Definition turn_pre s (i : nat) : Prop :=
  sched_ok s /\ new_task_list (globals s) = [] /\ number_of_tasks (globals s) = length (task_list s) /\
  i < length (task_list s).

Lemma turn_post_keeps s i s' :
  turn_pre s i -> keeps_all (task_list s) (task_list s') ->
  new_task_list (globals s') = [] -> number_of_tasks (globals s') = number_of_tasks (globals s) ->
  shape (signal_queues (globals s')) = shape (signal_queues (globals s)) ->
  turn_post s i s'.
Proof.
  intros (T & N & L & _) K N' L' Q. split; [by eapply tables_keep|]. split; [done|].
  intros _. apply Forall2_length in K. lia.
Qed.

Lemma shape_insert_some {A} (q : list (option A)) i a b :
  q !! i = Some (Some a) -> shape (<[i := Some b]> q) = shape q.
Proof.
  intros H. rewrite <- (list_insert_id q i (Some a) H) at 2. by apply shape_insert.
Qed.

(** Delivering the signals: the task and its emptied queue. *)
Lemma deliver_spec s i p :
  sched_ok s -> task_list s !! i = Some (Some p) ->
  exists q, signal_queues (globals s) !! i = Some (Some q) /\
    deliver_signals s i p =
      Ret (MkSched (<[i := Some (fold_left recive_signal q p)]> (task_list s))
             (set_signals (globals s) (<[i := Some []]> (signal_queues (globals s)))),
           fold_left recive_signal q p).
Proof.
  intros T Hi. destruct (tables_queue _ _ _ _ T Hi) as [q Hq].
  exists q. unfold deliver_signals. by rewrite Hq.
Qed.

Lemma deliver_pre s i p q :
  turn_pre s i -> task_list s !! i = Some (Some p) -> signal_queues (globals s) !! i = Some (Some q) ->
  turn_pre (MkSched (<[i := Some (fold_left recive_signal q p)]> (task_list s))
             (set_signals (globals s) (<[i := Some []]> (signal_queues (globals s))))) i.
Proof.
  intros (T & N & L & Hl) Hi Hq. unfold turn_pre, sched_ok. simpl. rewrite length_insert.
  split; [|done]. eapply tables_keep; [done| |by eapply shape_insert_some].
  eapply keeps_all_insert; [done|apply recive_signals_keeps].
Qed.

(** A step that only changes the state of the task in turn. *)
Lemma set_task_post s i p st :
  turn_pre s i -> task_list s !! i = Some (Some p) -> zombie st = false ->
  turn_post s i (set_task s i (Some (set_state p st))).
Proof.
  intros P Hi Hz. apply turn_post_keeps; try done; [|by destruct P as (_ & ? & _)].
  eapply keeps_all_insert; [done|]. apply keeps_state. congruence.
Qed.

Lemma same_post s i : turn_pre s i -> turn_post s i s.
Proof. intros P. apply turn_post_keeps; try done; [apply keeps_all_refl|by destruct P as (_ & ? & _)]. Qed.

Lemma kill_task_tasks (g g' : Globals (X := X) (D := D)) n sg r :
  kill_task g n sg = Ret (g', r) ->
  number_of_tasks g' = number_of_tasks g /\ new_task_list g' = new_task_list g /\
  shape (signal_queues g') = shape (signal_queues g).
Proof.
  unfold kill_task. destruct n as [|i]; simpl; [discriminate|].
  destruct (signal_queues g !! i) as [[q|]|] eqn:E; intros [= <- <-]; try done.
  simpl. by rewrite (shape_insert_some _ _ q).
Qed.

Lemma shape_app {A} (l1 l2 : list (option A)) : shape (l1 ++ l2) = shape l1 ++ shape l2.
Proof. apply map_app. Qed.

(** Moving at most one new task keeps the tables. *)
Lemma move_post s i l g :
  turn_pre s i -> keeps_all (task_list s) l ->
  (exists g0, (same_tasks (globals s) g0 \/ exists c, parent_ok c /\ same_tasks (new_task (globals s) c).1 g0) /\
     number_of_tasks g = number_of_tasks g0 /\ new_task_list g = new_task_list g0 /\
     shape (signal_queues g) = shape (signal_queues g0)) ->
  turn_post s i (move_new_tasks_into_list (MkSched l g)).
Proof.
  intros (T & N & L & Hl) K (g0 & G & _ & G2 & G3).
  pose proof (Forall2_length _ _ _ K) as Kl.
  unfold turn_post, sched_ok.
  assert (number_of_tasks (globals (move_new_tasks_into_list (MkSched l g))) =
    length (task_list (move_new_tasks_into_list (MkSched l g)))) as -> by done.
  assert (new_task_list (globals (move_new_tasks_into_list (MkSched l g))) = []) as -> by done.
  rewrite move_tasks. simpl. rewrite length_app, G2.
  split; [|split; [done|lia]].
  destruct G as [[_ E2 E3]|(c & Hc & [_ E2 E3])]; rewrite E2; simpl in *; rewrite N in *; simpl.
  - rewrite app_nil_r. eapply tables_keep; [done..|]. congruence.
  - assert (tables_ok l (signal_queues (globals s))) as T' by by eapply tables_keep.
    pose proof (tables_add _ _ (set_pid c (S (number_of_tasks (globals s)))) T') as A.
    eapply tables_keep; [apply A|apply keeps_all_refl|].
    + simpl. congruence.
    + done.
    + congruence.
Qed.

Lemma run_task_safe s i p :
  turn_pre s i -> task_list s !! i = Some (Some p) ->
  match run_task proc_tick s i p with
  | Panic => proc_tick p (globals s) = Panic
  | Ret s' => turn_post s i s'
  end.
Proof.
  intros P Hi. unfold run_task. destruct (proc_tick p (globals s)) as [[[p' g'] r]|] eqn:E; [|done].
  simpl. pose proof (pt_keeps _ _ _ _ _ E) as K. pose proof (pt_globals _ _ _ _ _ E) as G.
  assert (keeps_all (task_list s) (<[i := Some p']> (task_list s))) as K' by by eapply keeps_all_insert.
  destruct r as [u|]; simpl.
  - apply move_post; [done..|]. exists g'. auto.
  - destruct (kill_task g' (S i) (MkSignal SIGILL)) as [[g2 r]|] eqn:Ek; simpl.
    + apply kill_task_tasks in Ek. apply move_post; [done..|]. exists g'. tauto.
    + unfold kill_task in Ek. simpl in Ek. destruct (signal_queues g' !! i) as [[]|]; discriminate.
Qed.

Lemma orphan_safe s i p st :
  turn_pre s i -> task_list s !! i = Some (Some p) -> zombie (state p) = true -> zombie st = false ->
  exists s', orphan s i p st = Ret s' /\ turn_post s i s'.
Proof.
  intros P Hi Hz Hst. unfold orphan, parent_exists.
  destruct (parent_pid p) as [n|] eqn:E.
  - simpl. destruct (task_list s !! n) as [[]|]; simpl; eauto using set_task_post, same_post.
  - destruct P as (T & _). by destruct (t_parent _ _ T _ _ Hi Hz).
Qed.

Lemma wait_pipe_safe s i p k :
  turn_pre s i -> task_list s !! i = Some (Some p) ->
  match wait_pipe s i p k with
  | Panic => forall pipe, pipes (globals s) !! k <> Some (Some pipe)
  | Ret s' => turn_post s i s'
  end.
Proof.
  intros P Hi. unfold wait_pipe. destruct (pipes (globals s) !! k) as [[pipe|]|]; simpl; try done.
  destruct ((0 <? _)%Z || _); [by apply set_task_post|by apply same_post].
Qed.

Lemma deallocate_safe s i p :
  turn_pre s i -> task_list s !! i = Some (Some p) ->
  match deallocate drop_pipes s i p with
  | Panic => drop_pipes p (pipes (globals s)) = Panic
  | Ret s' => turn_post s i s'
  end.
Proof.
  intros (T & N & L & Hl) Hi. unfold deallocate.
  destruct (drop_pipes p (pipes (globals s))) as [ps|]; simpl; [|done].
  assert (length (signal_queues (globals s)) = length (task_list s)) as Hq.
  { by rewrite <- !shape_length, (t_shape _ _ T). }
  rewrite decide_True by lia.
  split; [by apply tables_remove|]. split; [done|]. simpl. intros Hi'.
  rewrite drain_insert_inner by (try done; apply T). rewrite length_insert. lia.
Qed.

Lemma wait_safe s i p c :
  turn_pre s i -> task_list s !! i = Some (Some p) ->
  match wait_child s i c with Panic => wait_panics s c = true | Ret s' => turn_post s i s' end.
Proof.
  intros P Hi. destruct (wait_panics s c) eqn:W.
  - rewrite (wait_child_spec s i c p) by (done || apply P). by rewrite W.
  - destruct (wait_child_keeps s i c p) as (l & -> & K); [apply P|done..|].
    apply turn_post_keeps; try done. apply P.
Qed.

(** A turn panics only for the reasons of [turn_panics], and otherwise keeps the
    tables. *)
Lemma turn_safe s i :
  turn_pre s i -> match turn s i with Panic => turn_panics s i | Ret s' => turn_post s i s' end.
Proof.
  intros P. pose proof P as (T & N & L & Hl). unfold tick_task.
  destruct (lookup_lt_is_Some_2 _ _ Hl) as [[p|] Hi]; rewrite Hi; simpl; [|by apply same_post].
  destruct (deliver_spec s i p T Hi) as (q & Hq & ->). simpl.
  pose proof (deliver_pre s i p q P Hi Hq) as P1.
  set (p1 := fold_left recive_signal q p) in *.
  set (s1 := MkSched _ _) in *.
  assert (task_list s1 !! i = Some (Some p1)) as Hi1 by by apply list_lookup_insert_eq.
  assert (forall (R : Prop) (o : outcome (Sched (X := X) (D := D))),
     (match o with Panic => R | Ret s' => turn_post s1 i s' end) -> (R -> turn_panics s i) ->
     match o with Panic => turn_panics s i | Ret s' => turn_post s i s' end) as blame.
  { intros R [s'|]; [|auto]. intros (? & ? & Hs) _. split; [done|]. split; [done|].
    unfold s1 in Hs. simpl in Hs. by rewrite length_insert in Hs. }
  assert (forall st, zombie (state p1) = true -> zombie st = false ->
    match orphan s1 i p1 st with Panic => False | Ret s' => turn_post s1 i s' end) as Horph.
  { intros st Hz Hst. by destruct (orphan_safe s1 i p1 st P1 Hi1 Hz Hst) as (s' & -> & ?). }
  destruct (state p1) eqn:E; (eapply blame;
    [first [by apply run_task_safe|by eapply wait_safe|by apply wait_pipe_safe|by apply Horph|by apply deallocate_safe]
    |intros HR; first [done|exists p, q; do 2 (split; [done|]); cbv zeta; fold p1; rewrite E; exact HR]]).
Qed.

(** * A whole tick *)

(** The tables between two ticks: they are consistent once the pending task, if
    there is one, is in the list. *)
Definition sched_ready s : Prop :=
  tables_ok (task_list s ++ map Some (rev (new_task_list (globals s)))) (signal_queues (globals s)) /\
  last (task_list s) <> Some None.

Lemma ready_move s : sched_ready s -> sched_ok (move_new_tasks_into_list s).
Proof. intros [T _]. unfold sched_ok. by rewrite move_tasks. Qed.

Lemma ok_ready s : sched_ok s -> new_task_list (globals s) = [] -> sched_ready s.
Proof. intros T N. unfold sched_ready. rewrite N. simpl. rewrite app_nil_r. split; [done|apply T]. Qed.

Lemma loop_safe s i n :
  sched_ok s -> new_task_list (globals s) = [] ->
  (n = 0 \/ number_of_tasks (globals s) = length (task_list s) /\ i + n <= length (task_list s)) ->
  match loop s i n with
  | Panic => exists k s', k < n /\ loop s i k = Ret s' /\ turn_panics s' (i + k)
  | Ret s' => sched_ok s' /\ new_task_list (globals s') = []
  end.
Proof.
  revert s i. induction n as [|n IH]; intros s i T N B; [done|].
  destruct B as [B|[L B]]; [lia|].
  pose proof (turn_safe s i ltac:(split_and!; done || lia)) as H.
  cbn [tick_loop]. destruct (turn s i) as [s1|] eqn:E; simpl.
  - destruct H as (T1 & N1 & L1). specialize (IH s1 (S i) T1 N1).
    destruct (loop s1 (S i) n).
    + apply IH. destruct n; [by left|right]. destruct L1; [lia|]. split; lia.
    + destruct IH as (k & s' & Hk & Hl & Hp).
      { destruct n; [by left|right]. destruct L1; [lia|]. split; lia. }
      exists (S k), s'. split; [lia|]. cbn [tick_loop]. rewrite E. split; [done|].
      by replace (i + S k) with (S i + k) by lia.
  - exists 0, s. split; [lia|]. split; [done|]. by rewrite Nat.add_0_r.
Qed.

Lemma sched_tick_ok s :
  sched_ready s ->
  match tick s with
  | Ret (s', more) =>
      sched_ready s' /\ new_task_list (globals s') = [] /\ (more = true <-> task_list s' <> [])
  | Panic =>
      exists k s', k < length (task_list (move_new_tasks_into_list s)) /\
        loop (move_new_tasks_into_list s) 0 k = Ret s' /\ turn_panics s' k
  end.
Proof.
  intros R. unfold sched_tick.
  pose proof (loop_safe (move_new_tasks_into_list s) 0
    (length (task_list (move_new_tasks_into_list s))) (ready_move s R) eq_refl ltac:(right; split; done)) as H.
  destruct (loop _ 0 _) as [s'|]; simpl; [|done].
  destruct H as [T N]. split; [by apply ok_ready|]. split; [done|].
  rewrite bool_decide_eq_true. destruct (task_list s'); simpl; split; try done; lia.
Qed.

(** C11: From consistent tables (every live task has a signal queue at its index,
    its pid is its index plus one, zombies have parents, the list ends in a live
    task, and at most one task is pending, with the next pid) a tick of the
    scheduler ends in consistent tables again with no task pending and says
    whether a task is left.  It panics only when a turn finds one of the
    conditions of [turn_panics] (the process's own tick or the release of its
    pipes panics, it waits for pid 0 or for a process without a parent, or it
    waits on a pipe that is gone): the task list and the queues are never indexed
    out of range and no slot that is unwrapped is empty, although tasks are added
    and trailing slots removed while the loop runs. *)
Theorem sched_tick_safe s :
  sched_ready s ->
  match tick s with
  | Ret (s', more) =>
      sched_ready s' /\ new_task_list (globals s') = [] /\ (more = true <-> task_list s' <> [])
  | Panic =>
      exists k s', k < length (task_list (move_new_tasks_into_list s)) /\
        loop (move_new_tasks_into_list s) 0 k = Ret s' /\ turn_panics s' k
  end.
Proof. apply sched_tick_ok. Qed.

(** A task started while nothing is pending and the task count is up to date
    gets the pid after the last one; with it pending the tables are consistent,
    and once it is moved into the list it is found at the index its pid names,
    with an empty signal queue. *)
Theorem new_task_pid s p :
  sched_ok s -> new_task_list (globals s) = [] ->
  number_of_tasks (globals s) = length (task_list s) -> parent_ok p ->
  let '(g, n) := new_task (globals s) p in
  let s' := MkSched (task_list s) g in
  n = S (length (task_list s)) /\ sched_ready s' /\
  task_list (move_new_tasks_into_list s') !! (n - 1) = Some (Some (set_pid p n)) /\
  signal_queues g !! (n - 1) = Some (Some []).
Proof.
  intros T N L Hp. unfold new_task, sched_ready. rewrite move_tasks. simpl.
  rewrite N, L. simpl. rewrite Nat.sub_0_r.
  assert (length (signal_queues (globals s)) = length (task_list s)) as Hq
    by by rewrite <- !shape_length, (t_shape _ _ T).
  split; [done|]. split; [split; [by apply tables_add|apply T]|].
  rewrite lookup_app_r by lia. rewrite lookup_app_r by lia. by rewrite Hq, Nat.sub_diag.
Qed.

(** * A process whose tick fails *)

(** A process the scheduler lets run. *)
Definition runs (st : ProcessState) : bool :=
  match st with
  | RUNNING | RUNNING_NEW_CHILD_JUST_FORKED | FINISHED_WAITING_FOR_CHILD_PROCESS _ => true
  | _ => false
  end.

Definition ended_by (sg : ProcessSignal) (st : ProcessState) : Prop :=
  st = TERMINATED_DUE_TO_SIGNAL_CHILD_WAITING_FOR_PARENT_ACKNOWLEDGEMENT sg \/
  st = TERMINATED_DUE_TO_SIGNAL_WAITING_TO_BE_DEALLOCATED sg.

Lemma pt_queue p g p' g' r i q :
  proc_tick p g = Ret (p', g', r) -> signal_queues g !! i = Some q -> signal_queues g' !! i = Some q.
Proof.
  intros E Hq. destruct (pt_globals _ _ _ _ _ E) as [[_ _ ->]|(c & _ & [_ _ ->])]; [done|].
  simpl. by apply lookup_app_l_Some.
Qed.

Lemma kill_task_push (g : Globals (X := X) (D := D)) i q sg :
  signal_queues g !! i = Some (Some q) ->
  kill_task g (S i) sg = Ret (set_signals g (<[i := Some (q ++ [sg])]> (signal_queues g)), Some ()).
Proof. intros H. unfold kill_task. simpl. by rewrite H. Qed.

(** The turn in which the tick fails queues SIGILL. *)
Lemma crash_turn s i p p' g' :
  sched_ok s -> task_list s !! i = Some (Some p) -> signal_queues (globals s) !! i = Some (Some []) ->
  runs (state p) = true -> proc_tick p (globals s) = Ret (p', g', None) ->
  exists s1, turn s i = Ret s1 /\ task_list s1 !! i = Some (Some p') /\
    signal_queues (globals s1) !! i = Some (Some [MkSignal SIGILL]).
Proof.
  intros T Hi Hq Hr E. unfold tick_task. rewrite Hi. simpl.
  unfold deliver_signals. rewrite Hq. simpl.
  rewrite (list_insert_id (task_list s)), (list_insert_id (signal_queues (globals s))) by done.
  assert (MkSched (task_list s) (set_signals (globals s) (signal_queues (globals s))) = s) as ->
    by by destruct s as [? []].
  destruct (state p); simpl in Hr; try discriminate; unfold run_task; rewrite E; simpl;
    rewrite (kill_task_push _ _ []) by (eapply pt_queue; eauto); simpl;
    (eexists; split; [reflexivity|]; rewrite move_tasks; simpl;
     split; [apply lookup_app_l_Some|]; apply list_lookup_insert_eq;
     [apply lookup_lt_Some in Hi; done|eapply lookup_lt_Some, pt_queue; eauto]).
Qed.

(** A process whose tick fails (an illegal instruction, a bad memory access)
    is sent SIGILL and is ended at its next turn: after it, either its slot no
    longer holds a process or the process there has been ended by SIGILL; and a
    process without a parent is gone from the table, its slot and its signal
    queue with it. *)
Theorem crash_ends_process s i p p' g' :
  sched_ok s -> task_list s !! i = Some (Some p) -> signal_queues (globals s) !! i = Some (Some []) ->
  runs (state p) = true -> proc_tick p (globals s) = Ret (p', g', None) -> is_dead (state p') = false ->
  (forall q ps, drop_pipes q ps <> Panic) ->
  exists s1 s2, turn s i = Ret s1 /\ turn s1 i = Ret s2 /\
    (forall q, task_list s2 !! i = Some (Some q) -> ended_by (MkSignal SIGILL) (state q)) /\
    (parent_pid p = None ->
       (forall q, task_list s2 !! i <> Some (Some q)) /\
       (forall q, signal_queues (globals s2) !! i <> Some (Some q))).
Proof.
  intros T Hi Hq Hr E Hd Hdrop.
  destruct (crash_turn s i p p' g' T Hi Hq Hr E) as (s1 & Ht & Hi1 & Hq1).
  pose proof (k_parent_pid _ _ (pt_keeps _ _ _ _ _ E)) as Hp.
  exists s1. unfold tick_task at 2. rewrite Hi1. simpl. unfold deliver_signals. rewrite Hq1. simpl.
  rewrite recive_signal_live by done. simpl.
  assert (i < length (task_list s1)) as Hl by by eapply lookup_lt_Some.
  assert (i < length (signal_queues (globals s1))) as Hlq by by eapply lookup_lt_Some.
  rewrite <- Hp. destruct (parent_pid p') as [n|] eqn:Pp; simpl.
  - unfold orphan, parent_exists. simpl. rewrite Pp. simpl.
    destruct (negb _); eexists; (split; [done|]; split; [reflexivity|]; split; [|done]);
      intros q; simpl; rewrite !list_lookup_insert_eq by (rewrite ?length_insert; done);
      intros [= <-]; [by right|by left].
  - unfold deallocate. simpl. destruct (drop_pipes _ _) as [ps|] eqn:Ed; [|by destruct (Hdrop _ _ Ed)].
    simpl. rewrite decide_True by by rewrite length_insert.
    eexists. split; [done|]. split; [reflexivity|]. simpl.
    assert (forall q, drain (<[i := None]> (<[i := Some (set_state p'
      (TERMINATED_DUE_TO_SIGNAL_WAITING_TO_BE_DEALLOCATED (MkSignal SIGILL)))]> (task_list s1))) !! i
        <> Some (Some q)) as H1.
    { intros q Hx. rewrite drain_lookup in Hx.
      rewrite list_lookup_insert_eq in Hx by (by rewrite length_insert). discriminate. }
    split; [intros q Hx; by destruct (H1 q)|]. intros _. split; [done|].
    intros q Hx. rewrite drain_lookup in Hx.
    rewrite list_lookup_insert_eq in Hx by (by rewrite length_insert). discriminate.
Qed.

End Tick.

(** * Waiting for children *)

Section Waiting.
Context {X D : Type}.
Implicit Types (s : Sched (X := X) (D := D)) (p : Process (X := X)).

Lemma wait_any_found s i p k c a c' :
  tables_ok (task_list s) (signal_queues (globals s)) ->
  task_list s !! i = Some (Some p) ->
  list_find (zombie_of (S i)) (task_list s) = Some (k, Some c) -> report c = Some (a, c') -> k <> i ->
  wait_child s i None =
    Ret (MkSched (<[i := Some (set_state p (FINISHED_WAITING_FOR_CHILD_PROCESS (Some (MkWait (S k) a))))]>
                    (<[k := Some c']> (task_list s))) (globals s)).
Proof.
  intros T Hi F R Hk. rewrite (wait_child_spec s i None p) by done. simpl.
  unfold any_answer. rewrite F, R. simpl.
  rewrite (finish_wait_spec _ _ p); [done|]. simpl. by rewrite list_lookup_insert_ne.
Qed.

(** What a process that waits for any child gets at its turn.  If it has a
    zombie child, the wait ends with the pid and the exit code or signal of the
    first one in the list, which is then marked for removal, so that no later
    wait reports it again; all other tasks are as before.  If it has children but
    no zombie, nothing changes and it keeps waiting; if it has no child, the wait
    ends without a report. *)
Theorem wait_any_reports_once s i p :
  tables_ok (task_list s) (signal_queues (globals s)) ->
  task_list s !! i = Some (Some p) -> zombie (state p) = false ->
  match list_find (zombie_of (S i)) (task_list s) with
  | Some (k, oc) => exists c a c',
      oc = Some c /\ report c = Some (a, c') /\ report c' = None /\
      wait_child s i None =
        Ret (MkSched (<[i := Some (set_state p (FINISHED_WAITING_FOR_CHILD_PROCESS (Some (MkWait (S k) a))))]>
                        (<[k := Some c']> (task_list s))) (globals s)) /\
      ~ zombie_of (S i) (Some c')
  | None =>
      wait_child s i None =
        Ret (if decide (Exists (child_of (S i)) (task_list s)) then s
             else set_task s i (Some (set_state p (FINISHED_WAITING_FOR_CHILD_PROCESS None))))
  end.
Proof.
  intros T Hi Hz. destruct (list_find (zombie_of (S i)) (task_list s)) as [[k oc]|] eqn:F.
  - pose proof F as F'. apply list_find_Some in F' as (Hk & Hzk & _).
    destruct oc as [c|]; [|done]. destruct Hzk as [_ Hc].
    apply report_zombie in Hc as Hc'. destruct Hc' as (a & c' & R). exists c, a, c'.
    destruct (report_once _ _ _ R) as [R' _].
    split; [done|]. split; [done|]. split; [done|]. split.
    + eapply wait_any_found; eauto. intros ->. rewrite Hi in Hk. injection Hk as ->. congruence.
    + intros [_ H]. apply report_zombie in H as (? & ? & H). congruence.
  - rewrite (wait_child_spec s i None p) by done. simpl. unfold any_answer. rewrite F. simpl.
    destruct (decide (Exists (child_of (S i)) (task_list s))) as [H|H].
    + rewrite (bool_decide_eq_true_2 _ H). simpl. by destruct s.
    + rewrite (bool_decide_eq_false_2 _ H). simpl. by rewrite (finish_wait_spec _ _ p).
Qed.

(** A wait for one pid: it ends with a report exactly when that process is a
    zombie child of the caller, which is then marked for removal; it goes on when
    the process is a live child; it ends without a report when there is no such
    process or it is another's child; and it panics when the pid is 0 or names a
    process that no process started. *)
Theorem wait_pid_answers s i p cpid :
  tables_ok (task_list s) (signal_queues (globals s)) ->
  task_list s !! i = Some (Some p) -> zombie (state p) = false ->
  wait_child s i (Some cpid) =
    match cpid with
    | O => Panic
    | S k =>
        match task_list s !! k with
        | Some (Some c) =>
            match parent_pid c with
            | None => Panic
            | Some n =>
                if decide (n = S i) then
                  match report c with
                  | Some (a, c') =>
                      Ret (MkSched (<[i := Some (set_state p (FINISHED_WAITING_FOR_CHILD_PROCESS (Some (MkWait cpid a))))]>
                                      (<[k := Some c']> (task_list s))) (globals s))
                  | None => Ret s
                  end
                else Ret (set_task s i (Some (set_state p (FINISHED_WAITING_FOR_CHILD_PROCESS None))))
            end
        | _ => Ret (set_task s i (Some (set_state p (FINISHED_WAITING_FOR_CHILD_PROCESS None))))
        end
    end.
Proof.
  intros T Hi Hz. rewrite (wait_child_spec s i (Some cpid) p) by done. simpl.
  unfold wait_target_parentless, pid_answer.
  destruct cpid as [|k]; [done|]. rewrite bool_decide_eq_false_2 by done. simpl. rewrite Nat.sub_0_r.
  destruct (task_list s !! k) as [[c|]|] eqn:Hk; simpl; [|by rewrite (finish_wait_spec _ _ p)..].
  destruct (parent_pid c) as [n|] eqn:Pp; [|done].
  destruct (decide (n = S i)) as [->|Hn].
  - rewrite decide_True by done. destruct (report c) as [[a c']|] eqn:R; [|by destruct s].
    rewrite (finish_wait_spec _ _ p); [done|]. simpl.
    rewrite list_lookup_insert_ne; [done|]. intros ->. rewrite Hi in Hk. injection Hk as ->.
    assert (zombie (state c) = true) by (apply report_zombie; eauto). congruence.
  - rewrite decide_False by congruence. by rewrite (finish_wait_spec _ _ p).
Qed.

End Waiting.

(** * Where pids and parents go wrong *)

Section Divergences.
Context {X D : Type}.
Context (proc_tick : Process (X := X) -> Globals (X := X) (D := D) -> outcome (Process (X := X) * Globals (X := X) (D := D) * option unit)).
Context (drop_pipes : Process (X := X) -> list (option ProcessPipe) -> outcome (list (option ProcessPipe))).
Implicit Types (s : Sched (X := X) (D := D)) (p : Process (X := X)).

(** Two tasks started between two ticks end up at each other's index: the
    pending list is emptied from its end, so that the first free index holds the
    process that was given the second pid. *)
Theorem pending_pids_swapped s p1 p2 :
  new_task_list (globals s) = [] -> number_of_tasks (globals s) = length (task_list s) ->
  let '(g1, n1) := new_task (globals s) p1 in
  let '(g2, n2) := new_task g1 p2 in
  let l := task_list (move_new_tasks_into_list (MkSched (task_list s) g2)) in
  n1 = S (length (task_list s)) /\ n2 = S n1 /\
  l !! (n1 - 1) = Some (Some (set_pid p2 n2)) /\ l !! (n2 - 1) = Some (Some (set_pid p1 n1)).
Proof.
  intros N L. unfold new_task. cbv beta iota zeta. rewrite move_tasks. simpl. rewrite N, L. simpl.
  rewrite Nat.sub_0_r. split; [done|]. split; [done|].
  rewrite lookup_app_r, Nat.sub_diag by lia. split; [done|].
  rewrite lookup_app_r by lia. by replace (S _ - _) with 1 by lia.
Qed.

(** The count of tasks is not lowered when the last task is removed: after a
    tick that leaves no task, the next task gets the pid 2 although it will be
    the first of the list, so that its pid is not its index plus one. *)
Theorem stale_task_count p c np q ps ps' (d : D) :
  state p = TERMINATED_NORMALLY_WAITING_TO_BE_DEALLOCATED c -> drop_pipes p ps = Ret ps' ->
  exists s', sched_tick proc_tick drop_pipes (MkSched [Some p] (MkGlobals np [] ps [Some []] d)) = Ret (s', false) /\
    task_list s' = [] /\
    let '(g, n) := new_task (globals s') q in
    n = 2 /\ task_list (move_new_tasks_into_list (MkSched [] g)) = [Some (set_pid q 2)].
Proof.
  intros Hp Hd. unfold sched_tick. cbn. rewrite Hp. cbn. unfold deallocate. cbn. rewrite Hd. cbn.
  eexists. split; [reflexivity|]. done.
Qed.

Lemma zombie_turn s i p n :
  task_list s !! i = Some (Some p) -> signal_queues (globals s) !! i = Some (Some []) ->
  zombie (state p) = true -> parent_pid p = Some n ->
  tick_task proc_tick drop_pipes s i =
    Ret (if match task_list s !! n with Some (Some _) => true | _ => false end then s
         else set_task s i (option_map snd (report p))).
Proof.
  intros Hi Hq Hz Hn. unfold tick_task. rewrite Hi. simpl. unfold deliver_signals. rewrite Hq. simpl.
  rewrite (list_insert_id (task_list s)), (list_insert_id (signal_queues (globals s))) by done.
  assert (MkSched (task_list s) (set_signals (globals s) (signal_queues (globals s))) = s) as ->
    by by destruct s as [? []].
  unfold orphan, parent_exists, report. rewrite Hn. simpl.
  destruct (state p); try discriminate; by destruct (task_list s !! n) as [[]|].
Qed.

(** Whether a zombie has lost its parent is looked up at the parent's pid
    instead of at the pid minus one.  A zombie whose parent, of pid [n], is alive
    is marked for removal without a report when the slot after the parent's is
    empty or past the end of the list. *)
Theorem live_parent_overlooked s i p n parent :
  task_list s !! i = Some (Some p) -> signal_queues (globals s) !! i = Some (Some []) ->
  zombie (state p) = true -> parent_pid p = Some (S n) -> task_list s !! n = Some (Some parent) ->
  (forall q, task_list s !! S n <> Some (Some q)) ->
  exists a p', report p = Some (a, p') /\
    tick_task proc_tick drop_pipes s i = Ret (set_task s i (Some p')).
Proof.
  intros Hi Hq Hz Hn Hpar Hfree. rewrite (zombie_turn s i p (S n)) by done.
  pose proof Hz as Hr. apply report_zombie in Hr as (a & p' & R). exists a, p'. split; [done|].
  rewrite R. simpl. destruct (task_list s !! S n) as [[q|]|] eqn:E; try done. by destruct (Hfree q).
Qed.

(** And a zombie in the slot after its parent's finds itself there, so it is
    never found to be an orphan: when a program starts a second one and ends
    first, every later tick leaves the tables as they are and reports that a task
    is left, so that the loop that waits for all tasks to finish does not end. *)
Theorem orphan_never_freed p g k :
  zombie (state p) = true -> parent_pid p = Some 1 ->
  new_task_list g = [] -> number_of_tasks g = 2 -> signal_queues g = [None; Some []] ->
  let s := MkSched [None; Some p] g in
  Nat.iter k (fun r => let! (s, _) := r in sched_tick proc_tick drop_pipes s) (Ret (s, true)) = Ret (s, true).
Proof.
  intros Hz Hp N L Q. cbv zeta. induction k as [|k IH]; [done|]. rewrite Nat.iter_succ, IH. simpl.
  unfold sched_tick, move_new_tasks_into_list. simpl. rewrite N. simpl.
  assert (MkGlobals 2 [] (pipes g) (signal_queues g) (devices g) = g) as -> by (destruct g; simpl in *; congruence).
  assert (tick_task proc_tick drop_pipes (MkSched [None; Some p] g) 0 = Ret (MkSched [None; Some p] g)) as E0 by done.
  rewrite (zombie_turn (MkSched [None; Some p] g) 1 p 1) by (simpl; rewrite ?Q; done). done.
Qed.

End Divergences.

(** * A process that follows a script, and the witnesses *)

Inductive action := DoFork | DoWait | DoExit (code : Z) | DoTrap.

(** Each tick takes the next action; an empty script is an illegal instruction. *)
Definition script_tick (p : Process (X := list action)) (g : Globals (X := list action) (D := unit))
  : outcome (Process (X := list action) * Globals (X := list action) (D := unit) * option unit) :=
  match proc_rest p with
  | DoFork :: rest =>
      Ret (MkProcess rest RUNNING (pid p) (parent_pid p),
           (new_task g (MkProcess [DoExit 7] RUNNING (pid p) (pid p))).1, Some ())
  | DoWait :: rest =>
      Ret (MkProcess rest (WAITING_FOR_CHILD_PROCESS None) (pid p) (parent_pid p), g, Some ())
  | DoExit c :: rest =>
      Ret (MkProcess rest
             (if parent_pid p is None then TERMINATED_NORMALLY_WAITING_TO_BE_DEALLOCATED c
              else TERMINATED_NORMALLY_CHILD_WAITING_FOR_PARENT_ACKNOWLEDGEMENT c) (pid p) (parent_pid p), g, Some ())
  | _ => Ret (p, g, None)
  end.

Definition keep_pipes (_ : Process (X := list action)) (ps : list (option ProcessPipe)) := Ret ps.

#[export] Instance script_tick_ok : ProcTickOk script_tick.
Proof.
  split; intros p g p' g' r; unfold script_tick; destruct (proc_rest p) as [|[] rest]; intros [= <- <- <-].
  - apply keeps_refl.
  - by split.
  - by split.
  - split; try done. unfold parent_ok. simpl. by destruct (parent_pid p).
  - apply keeps_refl.
  - by left.
  - right. eexists. split; [|by split]. done.
  - by left.
  - by left.
  - by left.
Qed.

Definition script_proc (acts : list action) : Process (X := list action) := MkProcess acts RUNNING None None.
Definition script_sched (acts : list action) : Sched (X := list action) (D := unit) :=
  MkSched [Some (set_pid (script_proc acts) 1)] (MkGlobals 1 [] [] [Some []] ()).

Lemma script_sched_ok acts : sched_ok (script_sched acts).
Proof.
  split; try done; intros i p Hi; destruct i as [|i]; simpl in Hi; try (destruct i; discriminate);
    injection Hi as <-; done.
Defined.

(** The first program forks, waits for its child and ends: the tables on the way
    and the empty table at the end. *)
Example script_run :
  sched_tick script_tick keep_pipes (script_sched [DoFork; DoWait; DoExit 0]) =
    Ret (MkSched [Some (MkProcess [DoWait; DoExit 0] RUNNING (Some 1) None);
                  Some (MkProcess [DoExit 7] RUNNING (Some 2) (Some 1))]
           (MkGlobals 2 [] [] [Some []; Some []] ()), true) /\
  (let! (s, more) := Nat.iter 7 (fun r => let! (s, _) := r in sched_tick script_tick keep_pipes s)
     (Ret (script_sched [DoFork; DoWait; DoExit 0], true)) in Ret (task_list s, more)) = Ret ([], false).
Proof. split; vm_compute; reflexivity. Qed.

Definition zombie_proc : Process (X := list action) :=
  MkProcess [] (TERMINATED_NORMALLY_CHILD_WAITING_FOR_PARENT_ACKNOWLEDGEMENT 7) (Some 2) (Some 1).
Definition waiting_sched : Sched (X := list action) (D := unit) :=
  MkSched [Some (MkProcess [] (WAITING_FOR_CHILD_PROCESS None) (Some 1) None); Some zombie_proc]
    (MkGlobals 2 [] [] [Some []; Some []] ()).

Lemma waiting_sched_ok : sched_ok waiting_sched.
Proof.
  split; try done; intros i p Hi; destruct i as [|[|i]]; simpl in Hi; try (destruct i; discriminate);
    injection Hi as <-; done.
Defined.

Lemma sched_tick_safe_witness :
  sched_ready (script_sched [DoFork; DoWait; DoExit 0]) /\
  match sched_tick script_tick keep_pipes (script_sched [DoFork; DoWait; DoExit 0]) with
  | Ret (s', more) => sched_ready s' /\ new_task_list (globals s') = [] /\ (more = true <-> task_list s' <> [])
  | Panic => False
  end.
Proof.
  assert (sched_ready (script_sched [DoFork; DoWait; DoExit 0])) as R
    by (apply ok_ready; [apply script_sched_ok|done]).
  split; [exact R|]. exact (sched_tick_safe script_tick keep_pipes _ R).
Defined.

Lemma new_task_pid_witness :
  let '(g, n) := new_task (globals (script_sched [])) (script_proc [DoTrap]) in
  n = 2 /\ sched_ready (MkSched (task_list (script_sched [])) g).
Proof.
  destruct (new_task_pid (script_sched []) (script_proc [DoTrap]) (script_sched_ok []) eq_refl eq_refl
    ltac:(done)) as (H1 & H2 & _). exact (conj H1 H2).
Defined.

Lemma crash_ends_process_witness :
  exists s1 s2,
    tick_task script_tick keep_pipes (script_sched [DoTrap]) 0 = Ret s1 /\
    tick_task script_tick keep_pipes s1 0 = Ret s2 /\
    forall q, task_list s2 !! 0 <> Some (Some q).
Proof.
  destruct (crash_ends_process script_tick keep_pipes (script_sched [DoTrap]) 0 _ _ _
    (script_sched_ok [DoTrap]) eq_refl eq_refl eq_refl eq_refl eq_refl ltac:(done))
    as (s1 & s2 & H1 & H2 & _ & H3).
  exists s1, s2. split; [exact H1|]. split; [exact H2|]. exact (proj1 (H3 eq_refl)).
Defined.

Lemma wait_any_reports_once_witness :
  wait_child waiting_sched 0 None =
    Ret (MkSched [Some (MkProcess [] (FINISHED_WAITING_FOR_CHILD_PROCESS (Some (MkWait 2 (EXITED 7)))) (Some 1) None);
                  Some (MkProcess [] (TERMINATED_NORMALLY_WAITING_TO_BE_DEALLOCATED 7) (Some 2) (Some 1))]
           (globals waiting_sched)).
Proof.
  pose proof (wait_any_reports_once waiting_sched 0 _ waiting_sched_ok eq_refl eq_refl) as H.
  change (list_find _ _) with (Some (1, Some zombie_proc)) in H. cbv iota in H.
  destruct H as (c & a & c' & [= <-] & [= <- <-] & _ & H & _). exact H.
Defined.

Lemma wait_pid_answers_witness :
  wait_child waiting_sched 0 (Some 1) = Panic /\ wait_child waiting_sched 0 (Some 3) =
    Ret (set_task waiting_sched 0
      (Some (MkProcess [] (FINISHED_WAITING_FOR_CHILD_PROCESS None) (Some 1) None))).
Proof.
  split; exact (wait_pid_answers waiting_sched 0 _ _ waiting_sched_ok eq_refl eq_refl).
Defined.

Lemma pending_pids_swapped_witness :
  task_list (move_new_tasks_into_list
    (MkSched [] (new_task (new_task (globals (sched_init ())) (script_proc [DoTrap])).1 (script_proc [])).1)) !! 0
  = Some (Some (set_pid (script_proc []) 2)).
Proof.
  exact (proj1 (proj2 (proj2 (pending_pids_swapped (sched_init ()) (script_proc [DoTrap]) (script_proc [])
    eq_refl eq_refl)))).
Defined.

Definition ended_proc : Process (X := list action) :=
  MkProcess [] (TERMINATED_NORMALLY_WAITING_TO_BE_DEALLOCATED 0) (Some 1) None.

Lemma stale_task_count_witness :
  exists s', sched_tick script_tick keep_pipes (MkSched [Some ended_proc] (MkGlobals 1 [] [] [Some []] ())) = Ret (s', false) /\
    (new_task (globals s') (script_proc [])).2 = 2.
Proof.
  destruct (stale_task_count script_tick keep_pipes ended_proc 0 1 (script_proc []) [] [] () eq_refl eq_refl)
    as (s' & H1 & _ & H2 & _). exists s'. split; [exact H1|exact H2].
Defined.

(** The parent of pid 1 is alive, its first child's slot is free again, and its
    second child is a zombie. *)
Definition overlooked_sched : Sched (X := list action) (D := unit) :=
  MkSched [Some (MkProcess [] RUNNING (Some 1) None); None;
           Some (MkProcess [] (TERMINATED_NORMALLY_CHILD_WAITING_FOR_PARENT_ACKNOWLEDGEMENT 7) (Some 3) (Some 1))]
    (MkGlobals 3 [] [] [Some []; None; Some []] ()).

Lemma live_parent_overlooked_witness :
  exists a p', tick_task script_tick keep_pipes overlooked_sched 2 = Ret (set_task overlooked_sched 2 (Some p')) /\
    report (MkProcess (X := list action) [] (TERMINATED_NORMALLY_CHILD_WAITING_FOR_PARENT_ACKNOWLEDGEMENT 7)
              (Some 3) (Some 1)) = Some (a, p').
Proof.
  destruct (live_parent_overlooked script_tick keep_pipes overlooked_sched 2 _ 0 _
    eq_refl eq_refl eq_refl eq_refl eq_refl ltac:(done)) as (a & p' & H1 & H2).
  exists a, p'. split; [exact H2|exact H1].
Defined.

Lemma orphan_never_freed_witness :
  sched_tick script_tick keep_pipes (MkSched [None; Some zombie_proc] (MkGlobals 2 [] [] [None; Some []] ())) =
    Ret (MkSched [None; Some zombie_proc] (MkGlobals 2 [] [] [None; Some []] ()), true).
Proof.
  exact (orphan_never_freed script_tick keep_pipes zombie_proc (MkGlobals 2 [] [] [None; Some []] ()) 1
    eq_refl eq_refl eq_refl eq_refl eq_refl).
Defined.
