(* ===== verification/Elf.v ===== *)
(** ELF files: the headers and [ElfFile::from_bytes] of kernel/src/elf.rs, with
    the packed_struct crate as an interface.  A file is read exactly when its
    bytes are the encoding of the headers, for both word sizes and both byte
    orders. *)
From S2P Require Import Prelude MachineInt PackedStruct.
#[local] Open Scope Z_scope.

(** * Headers *)

Inductive Endianess := LITTLE | BIG.
Inductive ArchWidth := Width32Bit | Width64Bit.
#[export] Instance Endianess_eq_dec : EqDecision Endianess.
Proof. solve_decision. Defined.
#[export] Instance ArchWidth_eq_dec : EqDecision ArchWidth.
Proof. solve_decision. Defined.

Definition Endianess_table : list (Endianess * Z) := [(LITTLE, 1); (BIG, 2)].
Definition ArchWidth_table : list (ArchWidth * Z) := [(Width32Bit, 1); (Width64Bit, 2)].

Record ElfIdentification := {
  magic : list Z;
  arch_width : ArchWidth;
  endianess : Endianess;
  elf_version : Z;
}.

Inductive ElfType := RELOCATABLE | EXECUTABLE | SHARED | CORE.
Inductive InstructionSet :=
  SPARC | X86 | MIPS | PowerPC | ARM | SuperH | IA64 | X86_64 | AArch64 | RiscV.
#[export] Instance ElfType_eq_dec : EqDecision ElfType.
Proof. solve_decision. Defined.
#[export] Instance InstructionSet_eq_dec : EqDecision InstructionSet.
Proof. solve_decision. Defined.

Definition ElfType_table : list (ElfType * Z) :=
  [(RELOCATABLE, 1); (EXECUTABLE, 2); (SHARED, 3); (CORE, 4)].
Definition InstructionSet_table : list (InstructionSet * Z) :=
  [(SPARC, 2); (X86, 3); (MIPS, 8); (PowerPC, 0x14); (ARM, 0x28); (SuperH, 0x2A);
   (IA64, 0x32); (X86_64, 0x3E); (AArch64, 0xB7); (RiscV, 0xF3)].

(** The four packed records of the file header have the same fields; they differ
    in the sizes of the addresses and in the byte order. *)
Record packed_layout := PackedLayout { lay_order : byte_order; lay_sizes : list nat }.
Definition packed_bytes_size (l : packed_layout) : Z := Z.of_nat (sum_list (lay_sizes l)).

Definition ElfHeader32BitLittle := PackedLayout Lsb [2; 2; 4; 4; 4; 4; 4; 2; 2; 2; 2; 2; 2]%nat.
Definition ElfHeader32BitBig := PackedLayout Msb [2; 2; 4; 4; 4; 4; 4; 2; 2; 2; 2; 2; 2]%nat.
Definition ElfHeader64BitLittle := PackedLayout Lsb [2; 2; 4; 8; 8; 8; 4; 2; 2; 2; 2; 2; 2]%nat.
Definition ElfHeader64BitBig := PackedLayout Msb [2; 2; 4; 8; 8; 8; 4; 2; 2; 2; 2; 2; 2]%nat.

Record UniversalElfHeader := MkElfHeader {
  elf_type : ElfType;
  instruction_set : InstructionSet;
  elf_header_version : Z;
  program_entry : Z;
  program_header_table_offset : Z;
  section_header_table_offset : Z;
  elf_flags : Z;
  header_size : Z;
  program_header_table_entry_size : Z;
  program_header_table_len : Z;
  section_header_table_entry_size : Z;
  section_header_table_len : Z;
  section_header_table_index_of_names : Z;
}.

Inductive ProgramHeaderType := Null | Load | Dynamic | Interp | Note.
#[export] Instance ProgramHeaderType_eq_dec : EqDecision ProgramHeaderType.
Proof. solve_decision. Defined.
Definition ProgramHeaderType_table : list (ProgramHeaderType * Z) :=
  [(Null, 0); (Load, 1); (Dynamic, 2); (Interp, 3); (Note, 4)].

(** The 32-bit program headers keep the flags last, the 64-bit ones second. *)
Definition ProgramHeader32BitBig := PackedLayout Msb [4; 4; 4; 4; 4; 4; 4]%nat.
Definition ProgramHeader32BitLittle := PackedLayout Lsb [4; 4; 4; 4; 4; 4; 4]%nat.
Definition ProgramHeader64BitBig := PackedLayout Msb [4; 4; 8; 8; 8; 8; 8]%nat.
Definition ProgramHeader64BitLittle := PackedLayout Lsb [4; 4; 8; 8; 8; 8; 8]%nat.

Record UniversalProgramHeader := MkProgramHeader {
  segment_type : EnumCatchAll ProgramHeaderType;
  flags : Z;
  segment_file_offset : Z;
  segment_virtual_address : Z;
  segment_file_size : Z;
  segment_virtual_size : Z;
}.

Record ElfFile := MkElf { header : UniversalElfHeader; program_headers : list UniversalProgramHeader }.

Definition get_ondisk_identification_size : Z := 16.
Definition get_ondisk_elf_header_size (width : ArchWidth) : Z :=
  match width with Width32Bit => 52 | Width64Bit => 64 end.

(** [&bytes[a..b]]. *)
Definition slice_range (bytes : list Z) (a b : Z) : outcome (list Z) :=
  if (a <=? b) && (b <=? Z.of_nat (length bytes))
  then Ret (take (Z.to_nat (b - a)) (drop (Z.to_nat a) bytes)) else Panic.

Section Elf.
Context {PS : PackedStruct}.

(** [R::unpack], the enum fields converted from their discriminants. *)
Definition unpack_identification (bytes : list Z) : option ElfIdentification :=
  match unpack_bytes Msb [1; 1; 1; 1; 1; 1; 1]%nat bytes with
  | Some [m0; m1; m2; m3; w; e; v] =>
      width ← from_primitive ArchWidth_table w;
      endian ← from_primitive Endianess_table e;
      Some {| magic := [m0; m1; m2; m3]; arch_width := width; endianess := endian; elf_version := v |}
  | _ => None
  end.

(** [ElfHeader..::unpack(..)?.into()]. *)
Definition unpack_elf_header (l : packed_layout) (bytes : list Z) : option UniversalElfHeader :=
  match unpack_bytes (lay_order l) (lay_sizes l) bytes with
  | Some [ty; set; version; entry; phoff; shoff; fl; size; phentsize; phnum; shentsize; shnum; shstrndx] =>
      ty' ← from_primitive ElfType_table ty;
      set' ← from_primitive InstructionSet_table set;
      Some (MkElfHeader ty' set' version entry phoff shoff fl size phentsize phnum shentsize shnum shstrndx)
  | _ => None
  end.

(** [ProgramHeader32Bit..::unpack(..)?.into()]. *)
Definition unpack_program_header_32 (l : packed_layout) (bytes : list Z) : option UniversalProgramHeader :=
  match unpack_bytes (lay_order l) (lay_sizes l) bytes with
  | Some [ty; off; vaddr; unused; filesz; memsz; fl] =>
      Some (MkProgramHeader (from_catch_all ProgramHeaderType_table ty) fl off vaddr filesz memsz)
  | _ => None
  end.

Definition unpack_program_header_64 (l : packed_layout) (bytes : list Z) : option UniversalProgramHeader :=
  match unpack_bytes (lay_order l) (lay_sizes l) bytes with
  | Some [ty; fl; off; vaddr; unused; filesz; memsz] =>
      Some (MkProgramHeader (from_catch_all ProgramHeaderType_table ty) fl off vaddr filesz memsz)
  | _ => None
  end.

(** A packed record read at an offset: [R::unpack(bytes[o..o + size].try_into().ok()?).ok()?]. *)
Definition read_record {A} (bytes : list Z) (curr_offset size : Z) (unpack : list Z -> option A)
  : outcome (option A) :=
  let! e := add_chk 64 curr_offset size in
  let! raw := slice_range bytes curr_offset e in
  Ret (unpack raw).

Definition read_elf_header (bytes : list Z) (e : Endianess) (w : ArchWidth) (curr_offset : Z)
  : outcome (option UniversalElfHeader) :=
  let read l := read_record bytes curr_offset (packed_bytes_size l) (unpack_elf_header l) in
  match e, w with
  | LITTLE, Width32Bit => read ElfHeader32BitLittle
  | LITTLE, Width64Bit => read ElfHeader64BitLittle
  | BIG, Width32Bit => read ElfHeader32BitBig
  | BIG, Width64Bit => read ElfHeader64BitBig
  end.

Definition read_program_header (bytes : list Z) (e : Endianess) (w : ArchWidth) (curr_offset : Z)
  : outcome (option UniversalProgramHeader) :=
  let read32 l := read_record bytes curr_offset (packed_bytes_size l) (unpack_program_header_32 l) in
  let read64 l := read_record bytes curr_offset (packed_bytes_size l) (unpack_program_header_64 l) in
  match e, w with
  | LITTLE, Width32Bit => read32 ProgramHeader32BitLittle
  | LITTLE, Width64Bit => read64 ProgramHeader64BitLittle
  | BIG, Width32Bit => read32 ProgramHeader32BitBig
  | BIG, Width64Bit => read64 ProgramHeader64BitBig
  end.

(** The loop over the program header table. *)
Fixpoint read_program_headers (bytes : list Z) (e : Endianess) (w : ArchWidth) (entry_size : Z)
    (n : nat) (curr_offset : Z) : outcome (option (list UniversalProgramHeader)) :=
  match n with
  | O => Ret (Some [])
  | S n =>
      let? ph := read_program_header bytes e w curr_offset in
      let! curr_offset := add_chk 64 curr_offset entry_size in
      let? rest := read_program_headers bytes e w entry_size n curr_offset in
      Ret (Some (ph :: rest))
  end.

Definition from_bytes (bytes : list Z) : outcome (option ElfFile) :=
  let? id := read_record bytes 0 7 unpack_identification in
  let! curr_offset := add_chk 64 0 get_ondisk_identification_size in
  if negb (bool_decide (magic id = [0x7f; 0x45; 0x4c; 0x46])) then Ret None
  else if negb (elf_version id =? 1) then Ret None
  else
    let? h := read_elf_header bytes (endianess id) (arch_width id) curr_offset in
    if negb (header_size h =? get_ondisk_elf_header_size (arch_width id)) then Ret None
    else if negb (elf_header_version h =? 1) then Ret None
    else
      let? phs := read_program_headers bytes (endianess id) (arch_width id)
                    (program_header_table_entry_size h) (Z.to_nat (program_header_table_len h))
                    (program_header_table_offset h) in
      Ret (Some (MkElf h phs)).

End Elf.

(** * The encoding *)

(** The number of a constructor. *)
Definition discr {A} `{EqDecision A} (tbl : list (A * Z)) (a : A) : Z :=
  match list_find (fun q => q.1 = a) tbl with Some (_, (_, v)) => v | None => 0 end.

Definition encode_identification (e : Endianess) (w : ArchWidth) : list Z :=
  [0x7f; 0x45; 0x4c; 0x46; discr ArchWidth_table w; discr Endianess_table e; 1].

Definition header_values (h : UniversalElfHeader) : list Z :=
  [discr ElfType_table (elf_type h); discr InstructionSet_table (instruction_set h);
   elf_header_version h; program_entry h; program_header_table_offset h;
   section_header_table_offset h; elf_flags h; header_size h; program_header_table_entry_size h;
   program_header_table_len h; section_header_table_entry_size h; section_header_table_len h;
   section_header_table_index_of_names h].

Definition header_layout (e : Endianess) (w : ArchWidth) : packed_layout :=
  match e, w with
  | LITTLE, Width32Bit => ElfHeader32BitLittle
  | LITTLE, Width64Bit => ElfHeader64BitLittle
  | BIG, Width32Bit => ElfHeader32BitBig
  | BIG, Width64Bit => ElfHeader64BitBig
  end.

Definition type_number (t : EnumCatchAll ProgramHeaderType) : Z :=
  match t with EnumVal a => discr ProgramHeaderType_table a | CatchAll v => v end.
(** A type without a name is not one of the numbers that have one. *)
Definition type_ok (t : EnumCatchAll ProgramHeaderType) : Prop :=
  match t with EnumVal _ => True | CatchAll v => v ∉ ProgramHeaderType_table.*2 end.

Definition program_header_values (w : ArchWidth) (unused : Z) (ph : UniversalProgramHeader) : list Z :=
  match w with
  | Width32Bit => [type_number (segment_type ph); segment_file_offset ph; segment_virtual_address ph;
                   unused; segment_file_size ph; segment_virtual_size ph; flags ph]
  | Width64Bit => [type_number (segment_type ph); flags ph; segment_file_offset ph;
                   segment_virtual_address ph; unused; segment_file_size ph; segment_virtual_size ph]
  end.

Definition program_header_layout (e : Endianess) (w : ArchWidth) : packed_layout :=
  match e, w with
  | LITTLE, Width32Bit => ProgramHeader32BitLittle
  | LITTLE, Width64Bit => ProgramHeader64BitLittle
  | BIG, Width32Bit => ProgramHeader32BitBig
  | BIG, Width64Bit => ProgramHeader64BitBig
  end.

Definition encode (l : packed_layout) (values : list Z) : list Z :=
  join_fields (lay_order l) (lay_sizes l) values.

(** [data] lies at offset [off] of the file. *)
Definition holds (bytes : list Z) (off : Z) (data : list Z) : Prop :=
  0 <= off /\ off + Z.of_nat (length data) <= Z.of_nat (length bytes) /\
  take (length data) (drop (Z.to_nat off) bytes) = data.

(** The bytes are an ELF file of the given word size and byte order with these
    headers. *)
Record elf_image (bytes : list Z) (e : Endianess) (w : ArchWidth) (f : ElfFile) : Prop := {
  im_id : holds bytes 0 (encode_identification e w);
  im_header : holds bytes 16 (encode (header_layout e w) (header_values (header f)));
  im_header_ok : values_ok (lay_sizes (header_layout e w)) (header_values (header f));
  im_size : header_size (header f) = get_ondisk_elf_header_size w;
  im_version : elf_header_version (header f) = 1;
  im_count : Z.of_nat (length (program_headers f)) = program_header_table_len (header f);
  im_table : forall i ph, program_headers f !! i = Some ph ->
    exists unused, values_ok (lay_sizes (program_header_layout e w)) (program_header_values w unused ph) /\
      type_ok (segment_type ph) /\
      holds bytes (program_header_table_offset (header f) + Z.of_nat i * program_header_table_entry_size (header f))
        (encode (program_header_layout e w) (program_header_values w unused ph));
  im_table_end : program_header_table_offset (header f) +
    program_header_table_len (header f) * program_header_table_entry_size (header f) < 2 ^ 64;
}.

Section ElfLemmas.
Context {PS : PackedStruct} {PSok : PackedStructOk PS}.

Lemma primitive_discr {A} `{EqDecision A} (tbl : list (A * Z)) v a :
  NoDup tbl.*1 -> NoDup tbl.*2 -> (exists v', (a, v') ∈ tbl) ->
  from_primitive tbl v = Some a <-> v = discr tbl a.
Proof.
  intros N1 N2 [v' Ha]. rewrite from_primitive_spec by done.
  assert (discr tbl a = v') as ->.
  { unfold discr. destruct (list_find (fun q => q.1 = a) tbl) as [[i [b u]]|] eqn:E.
    - apply list_find_Some in E as (Hi & Hb & _). simpl in Hb. subst.
      apply list_elem_of_lookup in Ha as [j Hj].
      assert (i = j) as ->.
      { eapply (NoDup_lookup _ i j a N1); by rewrite list_lookup_fmap, ?Hi, ?Hj. }
      congruence.
    - eapply list_find_None in E. rewrite list.Forall_forall in E. by destruct (E _ Ha). }
  split; [|by intros ->]. intros Hv.
  apply list_elem_of_lookup in Ha as [i Hi]. apply list_elem_of_lookup in Hv as [j Hj].
  assert (i = j) as ->.
  { eapply (NoDup_lookup _ i j a N1); by rewrite list_lookup_fmap, ?Hi, ?Hj. }
  congruence.
Qed.

Ltac table_discr a := apply primitive_discr;
  [by apply (bool_decide_unpack _)..|];
  destruct a; eexists; repeat first [apply list_elem_of_here|apply list_elem_of_further].

Lemma width_discr v w : from_primitive ArchWidth_table v = Some w <-> v = discr ArchWidth_table w.
Proof. table_discr w. Qed.
Lemma endian_discr v e : from_primitive Endianess_table v = Some e <-> v = discr Endianess_table e.
Proof. table_discr e. Qed.
Lemma elf_type_discr v t : from_primitive ElfType_table v = Some t <-> v = discr ElfType_table t.
Proof. table_discr t. Qed.
Lemma instruction_set_discr v t :
  from_primitive InstructionSet_table v = Some t <-> v = discr InstructionSet_table t.
Proof. table_discr t. Qed.
Lemma header_type_discr v t :
  from_primitive ProgramHeaderType_table v = Some t <-> v = discr ProgramHeaderType_table t.
Proof. table_discr t. Qed.

Lemma catch_all_number v t :
  from_catch_all ProgramHeaderType_table v = t <-> v = type_number t /\ type_ok t.
Proof.
  rewrite from_catch_all_spec by by apply (bool_decide_unpack _).
  destruct (from_primitive ProgramHeaderType_table v) as [a|] eqn:E.
  - apply header_type_discr in E as ->. split; [by intros <-|].
    destruct t as [b|u]; simpl; intros [H1 H2].
    + f_equal. destruct a, b; (done || discriminate H1).
    + destruct H2. rewrite <- H1. destruct a; by apply (bool_decide_unpack _).
  - split.
    + intros <-. split; [done|]. intros H. change (v ∈ ProgramHeaderType_table.*2) in H.
      apply list_elem_of_fmap in H as ([a u] & -> & H).
      apply from_primitive_spec in H; [|by apply (bool_decide_unpack _)]. simpl in E. congruence.
    + intros [-> H]. destruct t as [b|u]; [|done].
      assert (from_primitive ProgramHeaderType_table (type_number (EnumVal b)) = Some b) as E'
        by by apply header_type_discr.
      congruence.
Qed.

(** * Reading one record *)

Lemma read_record_Some {A} bytes off size (unpack : list Z -> option A) a :
  Z.of_nat (length bytes) < 2 ^ 64 -> 0 <= off -> 0 <= size ->
  read_record bytes off size unpack = Ret (Some a) <->
  exists raw, holds bytes off raw /\ Z.of_nat (length raw) = size /\ unpack raw = Some a.
Proof.
  intros Hb Ho Hs. unfold read_record, slice_range. split.
  - intros H. inv_outcome. apply add_chk_Ret in H0 as [-> ?].
    apply andb_true_iff in Heqb as [? ?]. rewrite ?Z.leb_le in *.
    match goal with H : unpack ?r = _ |- _ => exists r; assert (length r = Z.to_nat size) as L end.
    { rewrite length_take, length_drop. lia. }
    split; [|split; [lia|done]]. split; [done|]. rewrite L. split; [lia|].
    f_equal. lia.
  - intros (raw & (_ & Hl & Hraw) & <- & Hu). rewrite add_chk_ok by lia. simpl.
    rewrite (proj2 (andb_true_iff _ _)) by (rewrite !Z.leb_le; lia). simpl.
    replace (Z.to_nat _) with (length raw) by lia. by rewrite Hraw, Hu.
Qed.

Lemma holds_is_byte bytes off data : Forall is_byte bytes -> holds bytes off data -> Forall is_byte data.
Proof. intros H (_ & _ & <-). by apply Forall_take, Forall_drop. Qed.

Lemma join_single_bytes values :
  values_ok (replicate (length values) 1%nat) values ->
  join_fields Msb (replicate (length values) 1%nat) values = values.
Proof.
  induction values as [|v vs IH]; [done|]. intros H. inversion H; subst. simpl. rewrite IH by done.
  unfold to_be_bytes. simpl. by rewrite Z.mod_small.
Qed.

Lemma unpack_identification_Some raw e w :
  Forall is_byte raw -> length raw = 7%nat ->
  (exists id, unpack_identification raw = Some id /\ magic id = [0x7f; 0x45; 0x4c; 0x46] /\
     elf_version id = 1 /\ endianess id = e /\ arch_width id = w) <->
  raw = encode_identification e w.
Proof.
  intros Hb Hl. unfold unpack_identification. split.
  - intros (id & H & Hm & Hv & He & Hw).
    destruct (unpack_bytes Msb _ raw) as [values|] eqn:E; [|done].
    apply unpack_bytes_inv in E as [-> Hok]; [|done..].
    do 7 (destruct values as [|? values]; [done|]). destruct values; [|done].
    pose proof (join_single_bytes [_; _; _; _; _; _; _] Hok) as J. cbn [length replicate] in J. rewrite J.
    destruct (from_primitive ArchWidth_table _) as [w'|] eqn:Ew; [|done]. simpl in H.
    destruct (from_primitive Endianess_table _) as [e'|] eqn:Ee; [|done]. simpl in H.
    apply width_discr in Ew as ->. apply endian_discr in Ee as ->.
    injection H as <-. simpl in *. by simplify_eq.
  - intros ->.
    assert (values_ok (replicate 7 1%nat) (encode_identification e w)) as Hok
      by (unfold values_ok; destruct e, w; apply (bool_decide_unpack _); by vm_compute).
    rewrite <- (join_single_bytes (encode_identification e w)) by done.
    change (replicate _ _) with [1; 1; 1; 1; 1; 1; 1]%nat. rewrite unpack_join by done. simpl.
    rewrite (proj2 (width_discr _ w) eq_refl). simpl.
    rewrite (proj2 (endian_discr _ e) eq_refl). simpl. eexists. split; [reflexivity|]. done.
Qed.

Lemma unpack_elf_header_Some l raw h :
  length (lay_sizes l) = 13%nat -> Forall is_byte raw -> length raw = sum_list (lay_sizes l) ->
  unpack_elf_header l raw = Some h <->
  raw = encode l (header_values h) /\ values_ok (lay_sizes l) (header_values h).
Proof.
  intros H13 Hb Hl. unfold unpack_elf_header. split.
  - intros H. destruct (unpack_bytes _ _ raw) as [values|] eqn:E; [|done].
    apply unpack_bytes_inv in E as [-> Hok]; [|done..].
    do 13 (destruct values as [|? values]; [done|]). destruct values; [|done].
    destruct (from_primitive ElfType_table _) as [t|] eqn:Et; [|done]. simpl in H.
    destruct (from_primitive InstructionSet_table _) as [i|] eqn:Ei; [|done]. simpl in H.
    apply elf_type_discr in Et as ->. apply instruction_set_discr in Ei as ->.
    injection H as <-. done.
  - intros [-> Hok]. unfold encode. rewrite unpack_join by done. simpl.
    rewrite (proj2 (elf_type_discr _ (elf_type h)) eq_refl). simpl.
    rewrite (proj2 (instruction_set_discr _ (instruction_set h)) eq_refl). simpl. by destruct h.
Qed.

Definition unpack_program_header (w : ArchWidth) : packed_layout -> list Z -> option UniversalProgramHeader :=
  match w with Width32Bit => unpack_program_header_32 | Width64Bit => unpack_program_header_64 end.

Lemma unpack_program_header_Some w l raw ph :
  length (lay_sizes l) = 7%nat -> Forall is_byte raw -> length raw = sum_list (lay_sizes l) ->
  unpack_program_header w l raw = Some ph <->
  exists unused, raw = encode l (program_header_values w unused ph) /\
    values_ok (lay_sizes l) (program_header_values w unused ph) /\ type_ok (segment_type ph).
Proof.
  intros H7 Hb Hl. split.
  - intros H. destruct w; simpl in H; unfold unpack_program_header_32, unpack_program_header_64 in H;
      (destruct (unpack_bytes _ _ raw) as [values|] eqn:E; [|done]);
      (apply unpack_bytes_inv in E as [-> Hok]; [|done..]);
      do 7 (destruct values as [|? values]; [done|]); (destruct values; [|done]);
      injection H as <-; simpl;
      match goal with |- context [from_catch_all _ ?v] =>
        destruct (proj1 (catch_all_number v _) eq_refl) as [E Ht] end;
      eexists; rewrite <- E; split_and!; done.
  - intros (unused & -> & Hok & Ht). unfold encode, unpack_program_header.
    destruct w; unfold unpack_program_header_32, unpack_program_header_64;
      rewrite unpack_join by done; simpl;
      rewrite (proj2 (catch_all_number _ (segment_type ph)) (conj eq_refl Ht)); by destruct ph.
Qed.

Lemma read_elf_header_layout bytes e w off :
  read_elf_header bytes e w off =
  read_record bytes off (packed_bytes_size (header_layout e w)) (unpack_elf_header (header_layout e w)).
Proof. by destruct e, w. Qed.

Lemma read_program_header_layout bytes e w off :
  read_program_header bytes e w off =
  read_record bytes off (packed_bytes_size (program_header_layout e w))
    (unpack_program_header w (program_header_layout e w)).
Proof. by destruct e, w. Qed.

Lemma encode_length l values : length (lay_sizes l) = length values -> length (encode l values) = sum_list (lay_sizes l).
Proof. apply join_fields_length. Qed.

Lemma read_elf_header_Some bytes e w off h :
  Forall is_byte bytes -> Z.of_nat (length bytes) < 2 ^ 64 -> 0 <= off ->
  read_elf_header bytes e w off = Ret (Some h) <->
  holds bytes off (encode (header_layout e w) (header_values h)) /\
  values_ok (lay_sizes (header_layout e w)) (header_values h).
Proof.
  intros Hb Hl Ho. rewrite read_elf_header_layout.
  assert (length (lay_sizes (header_layout e w)) = 13%nat) as H13 by by destruct e, w.
  rewrite read_record_Some by (done || apply Nat2Z.is_nonneg). split.
  - intros (raw & Hh & Hr & Hu). apply unpack_elf_header_Some in Hu as [-> ?]; [done..| |].
    + by eapply holds_is_byte.
    + unfold packed_bytes_size in Hr. lia.
  - intros [Hh Hok]. eexists. split; [exact Hh|].
    pose proof (encode_length (header_layout e w) (header_values h) H13) as L.
    split; [unfold packed_bytes_size; lia|].
    apply unpack_elf_header_Some; [done|by eapply holds_is_byte|done|done].
Qed.

Lemma read_program_header_Some bytes e w off ph :
  Forall is_byte bytes -> Z.of_nat (length bytes) < 2 ^ 64 -> 0 <= off ->
  read_program_header bytes e w off = Ret (Some ph) <->
  exists unused, values_ok (lay_sizes (program_header_layout e w)) (program_header_values w unused ph) /\
    type_ok (segment_type ph) /\
    holds bytes off (encode (program_header_layout e w) (program_header_values w unused ph)).
Proof.
  intros Hb Hl Ho. rewrite read_program_header_layout.
  assert (length (lay_sizes (program_header_layout e w)) = 7%nat) as H7 by by destruct e, w.
  rewrite read_record_Some by (done || apply Nat2Z.is_nonneg). split.
  - intros (raw & Hh & Hr & Hu).
    apply unpack_program_header_Some in Hu as (unused & -> & ? & ?); [eauto|done|by eapply holds_is_byte|].
    unfold packed_bytes_size in Hr. lia.
  - intros (unused & Hok & Ht & Hh). eexists. split; [exact Hh|].
    assert (length (program_header_values w unused ph) = 7%nat) as H7' by by destruct w.
    pose proof (encode_length (program_header_layout e w) (program_header_values w unused ph)
      ltac:(congruence)) as L.
    split; [unfold packed_bytes_size; lia|].
    apply unpack_program_header_Some; [done|by eapply holds_is_byte|done|eauto].
Qed.

Lemma read_program_headers_Some bytes e w entry n off phs :
  Forall is_byte bytes -> Z.of_nat (length bytes) < 2 ^ 64 -> 0 <= off -> 0 <= entry ->
  read_program_headers bytes e w entry n off = Ret (Some phs) <->
  length phs = n /\ (n = O \/ off + Z.of_nat n * entry < 2 ^ 64) /\
  forall i ph, phs !! i = Some ph -> read_program_header bytes e w (off + Z.of_nat i * entry) = Ret (Some ph).
Proof.
  intros Hb Hl. revert off phs. induction n as [|n IH]; intros off phs Ho He; cbn [read_program_headers].
  - split.
    + intros [= <-]. split; [done|]. split; [by left|]. by intros i ph Hi.
    + intros (H & _). by destruct phs.
  - rewrite otry_Some. split.
    + intros (ph & Hph & H). apply obind_Ret in H as (off' & Ha & H).
      apply add_chk_Ret in Ha as [-> Ha]. apply otry_Some in H as (rest & Hr & [= <-]).
      apply IH in Hr as (Hn & Hov & Hi); [|lia..]. split; [simpl; lia|]. split.
      * right. destruct Hov as [->|Hov]; lia.
      * intros [|i] q Hq; simpl in Hq; [injection Hq as <-; by rewrite Z.mul_0_l, Z.add_0_r|].
        replace (off + Z.of_nat (S i) * entry) with (off + entry + Z.of_nat i * entry) by lia. auto.
    + intros (Hn & Hov & Hi). destruct phs as [|ph rest]; [done|]. simpl in Hn.
      destruct Hov as [?|Hov]; [done|]. exists ph. split.
      * specialize (Hi O ph eq_refl). by rewrite Z.mul_0_l, Z.add_0_r in Hi.
      * rewrite add_chk_ok by nia. simpl. apply otry_Some. exists rest. split; [|done].
        apply IH; [lia..|]. split; [lia|]. split; [right; lia|].
        intros i q Hq. specialize (Hi (S i) q Hq).
        by replace (off + entry + Z.of_nat i * entry) with (off + Z.of_nat (S i) * entry) by lia.
Qed.

Lemma values_ok_nonneg sizes values v : values_ok sizes values -> v ∈ values -> 0 <= v.
Proof.
  intros H Hv. apply list_elem_of_lookup in Hv as [i Hi].
  destruct (Forall2_lookup_r _ _ _ _ _ H Hi) as (n & _ & Hn). apply Hn.
Qed.

Lemma header_nonneg e w h :
  values_ok (lay_sizes (header_layout e w)) (header_values h) ->
  0 <= program_header_table_offset h /\ 0 <= program_header_table_entry_size h /\
  0 <= program_header_table_len h.
Proof.
  intros H. split_and!; eapply values_ok_nonneg; try exact H; unfold header_values;
    repeat first [apply list_elem_of_here|apply list_elem_of_further].
Qed.

End ElfLemmas.

Section ElfTheorems.
Context {PS : PackedStruct} {PSok : PackedStructOk PS}.

Lemma read_identification_Some bytes e w :
  Forall is_byte bytes -> Z.of_nat (length bytes) < 2 ^ 64 ->
  (exists id, read_record bytes 0 7 unpack_identification = Ret (Some id) /\
     magic id = [0x7f; 0x45; 0x4c; 0x46] /\ elf_version id = 1 /\ endianess id = e /\ arch_width id = w) <->
  holds bytes 0 (encode_identification e w).
Proof.
  intros Hb Hl. split.
  - intros (id & Hr & Hid). apply read_record_Some in Hr as (raw & Hh & Hlen & Hu); [|lia..].
    assert (raw = encode_identification e w) as <-; [|done].
    apply unpack_identification_Some; [by eapply holds_is_byte|lia|eauto].
  - intros Hh. destruct (proj2 (unpack_identification_Some (encode_identification e w) e w
      ltac:(by eapply holds_is_byte) eq_refl) eq_refl) as (id & Hu & Hid).
    exists id. split; [|done]. apply read_record_Some; [lia..|]. eauto.
Qed.

(** C35: [from_bytes] reads a file as [f] exactly when the file is an ELF image of
    [f]: for one of the two word sizes and one of the two byte orders it starts
    with the identification, holds the encoding of the header at offset 16 with
    the size of that class and version 1, and holds the encodings of the program
    headers at the offsets the header gives.  So every image is read, and what is
    read determines the headers. *)
Theorem from_bytes_iff_image bytes f :
  Forall is_byte bytes -> Z.of_nat (length bytes) < 2 ^ 64 -> program_headers f <> [] ->
  from_bytes bytes = Ret (Some f) <-> exists e w, elf_image bytes e w f.
Proof.
  intros Hb Hl Hne. unfold from_bytes. split.
  - intros H. apply otry_Some in H as (id & Hid & H). simpl in H.
    destruct (bool_decide _) eqn:Em; [|done]. apply bool_decide_eq_true in Em. simpl in H.
    destruct (elf_version id =? 1) eqn:Ev; [|done]. apply Z.eqb_eq in Ev. simpl in H.
    apply otry_Some in H as (h & Hh & H).
    destruct (header_size h =? _) eqn:Es; [|done]. apply Z.eqb_eq in Es. simpl in H.
    destruct (elf_header_version h =? 1) eqn:Ehv; [|done]. apply Z.eqb_eq in Ehv. simpl in H.
    apply otry_Some in H as (phs & Hphs & [= <-]).
    apply read_elf_header_Some in Hh as [Hh Hok]; [|done..].
    destruct (header_nonneg _ _ _ Hok) as (N1 & N2 & N3).
    apply read_program_headers_Some in Hphs as (Hn & Hov & Hi); [|done..].
    exists (endianess id), (arch_width id). split; simpl; try done.
    + apply read_identification_Some; [done..|]. exists id. done.
    + lia.
    + intros i ph Hph.
      assert (0 <= program_header_table_offset h + Z.of_nat i * program_header_table_entry_size h) as Ho by nia.
      apply (read_program_header_Some _ _ _ _ ph Hb Hl Ho), Hi, Hph.
    + destruct Hov as [H0|Hov]; [|lia]. destruct phs; [done|]. simpl in Hn. lia.
  - intros (e & w & [I1 I2 I3 I4 I5 I6 I7 I8]). apply otry_Some.
    apply read_identification_Some in I1 as (id & Hid & Em & Ev & <- & <-); [|done..].
    exists id. split; [done|]. simpl. rewrite bool_decide_eq_true_2, Ev by done. simpl.
    destruct (header_nonneg _ _ _ I3) as (N1 & N2 & N3).
    apply otry_Some. exists (header f). split; [by apply read_elf_header_Some|].
    rewrite I4, I5, !Z.eqb_refl. simpl.
    apply otry_Some. exists (program_headers f). split; [|by destruct f].
    apply read_program_headers_Some; [done..|]. split; [lia|]. split; [right; lia|].
    intros i ph Hph.
    assert (0 <= program_header_table_offset (header f) +
      Z.of_nat i * program_header_table_entry_size (header f)) as Ho by nia.
    apply (read_program_header_Some _ _ _ _ ph Hb Hl Ho), I7, Hph.
Qed.

(** A file shorter than the identification stops the kernel instead of being
    refused: the slice of its first bytes is out of range.  So does one that has
    a valid identification and ends before its header. *)
Theorem short_file_panics bytes :
  (length bytes < 7)%nat \/
  (Forall is_byte bytes /\ exists e w, holds bytes 0 (encode_identification e w) /\
   Z.of_nat (length bytes) < 16 + packed_bytes_size (header_layout e w)) ->
  from_bytes bytes = Panic.
Proof.
  unfold from_bytes. intros [H|(Hb & e & w & Hh & H)].
  - unfold read_record, slice_range, add_chk. simpl.
    rewrite (proj2 (Z.leb_gt _ _)) by lia. done.
  - apply read_identification_Some in Hh as (id & -> & Em & Ev & <- & <-); [|done|].
    2:{ eapply Z.lt_trans; [exact H|]. by destruct e, w. }
    simpl. rewrite bool_decide_eq_true_2, Ev by done. simpl.
    rewrite read_elf_header_layout. unfold read_record, slice_range.
    rewrite add_chk_ok by (destruct (endianess id), (arch_width id); by vm_compute). simpl.
    rewrite (proj2 (andb_false_iff _ _)); [done|]. right. by apply Z.leb_gt.
Qed.

End ElfTheorems.

(** * A small executable *)

Definition demo_header : UniversalElfHeader :=
  MkElfHeader EXECUTABLE RiscV 1 0x1000 64 0 0 64 56 1 0 0 0.
Definition demo_segment : UniversalProgramHeader :=
  MkProgramHeader (EnumVal Load) 5 120 0x1000 8 16.
Definition demo_elf : ElfFile := MkElf demo_header [demo_segment].

(** [addi a0, a0, 1] and a jump back to it. *)
Definition demo_code : list Z := [0x13; 0x05; 0x15; 0x00; 0x6f; 0xf0; 0xdf; 0xff].

Definition demo_elf_bytes : list Z :=
  encode_identification LITTLE Width64Bit ++ replicate 9 0 ++
  encode ElfHeader64BitLittle (header_values demo_header) ++
  encode ProgramHeader64BitLittle (program_header_values Width64Bit 0 demo_segment) ++
  replicate 8 0 (* the alignment, which the loader does not read *) ++ demo_code.

Lemma demo_elf_image : elf_image demo_elf_bytes LITTLE Width64Bit demo_elf.
Proof.
  split; try reflexivity.
  1,2: by vm_compute.
  1: unfold values_ok; apply (bool_decide_unpack _); by vm_compute.
  intros [|i] ph Hi; [|destruct i; discriminate Hi]. injection Hi as <-. exists 0.
  split; [unfold values_ok; apply (bool_decide_unpack _); by vm_compute|]. split; [done|].
  by vm_compute.
Qed.

Lemma from_bytes_iff_image_witness : from_bytes demo_elf_bytes = Ret (Some demo_elf).
Proof.
  apply (from_bytes_iff_image demo_elf_bytes demo_elf).
  - apply (bool_decide_unpack _). by vm_compute.
  - by vm_compute.
  - discriminate.
  - exists LITTLE, Width64Bit. exact demo_elf_image.
Defined.

Lemma short_file_panics_witness : from_bytes [0x23; 0x21] = Panic.
Proof. apply (short_file_panics [0x23; 0x21]). left. simpl. lia. Defined.
