(* ===== verification/Loader.v ===== *)
(** Loading a program: [ProcessData], [load_elf_into_virtual_memory],
    [load_args_into_virtual_memory], [load_env_into_virtual_memory] and
    [from_elf] of kernel/src/process.rs.  On success the segments, the stack, the
    argument strings with the array that points to them, and the environment
    strings are regions of the new memory. *)
From S2P Require Import Prelude MachineInt Device Str PackedStruct EmulatorMemory VirtMem Allocator Scheduler Cpu Elf.
From stdpp Require Import gmap.
#[local] Open Scope Z_scope.

(** * The data of a process *)

Inductive FdMapping :=
| Regular (node_index : nat)
| PipeReadEnd (pipe_index : nat)
| PipeWriteEnd (pipe_index : nat)
| Stdin
| Stdout
| Stderr.
#[export] Instance FdMapping_eq_dec : EqDecision FdMapping.
Proof. solve_decision. Defined.

(** [N] is a node of the file system and [P] a path. *)
Record ProcessNode (N P : Type) := MkNode {
  vfs_node : N;
  cursor : Z;
  node_flags : Z;
  node_path : P;
  reference_count : nat;
}.
Arguments MkNode {N P} _ _ _ _ _.
Arguments vfs_node {N P} _.
Arguments cursor {N P} _.
Arguments node_flags {N P} _.
Arguments node_path {N P} _.
Arguments reference_count {N P} _.

Record ProcessData (N P : Type) := MkData {
  open_nodes : list (option (ProcessNode N P));
  fd_mappings : list (option FdMapping);
  cwd : P;
  env : gmap str Z;
  virtual_allocator : BasicAlloc;
  pd_state : ProcessState;
  pd_pid : option nat;
  pd_parent_pid : option nat;
}.
Arguments MkData {N P} _ _ _ _ _ _ _ _.
Arguments open_nodes {N P} _.
Arguments fd_mappings {N P} _.
Arguments cwd {N P} _.
Arguments env {N P} _.
Arguments virtual_allocator {N P} _.
Arguments pd_state {N P} _.
Arguments pd_pid {N P} _.
Arguments pd_parent_pid {N P} _.

Definition process_data_new {N P : Type} (c : P) (e : gmap str Z) (a : BasicAlloc) : ProcessData N P :=
  MkData [] [Some Stdin; Some Stdout; Some Stderr] c e a RUNNING None None.

(** * Loading *)

(** A string as the bytes of a C string: one byte per character, at the index of
    the character, in a buffer of the string's length plus one. *)
Definition c_string (s : str) : outcome (list Z) :=
  let! buf := store_bytes (replicate (str_len s + 1) 0) 0 (wrap 8 <$> s) in
  let end_indx := (length buf - 1)%nat in
  Ret (<[end_indx := 0]> buf).

(** What is changed in place: the memory and the allocator of the process.  A function
    that leaves early keeps what it has changed so far. *)
Abbreviation Space := (LittleEndianVirtualMemory * BasicAlloc)%type.

(** [virtual_allocator.alloc(Layout::from_size_align(size, 1).ok()?)]; a null
    pointer leaves the function. *)
Definition alloc_bytes (size : Z) : SO BasicAlloc Z := fun a =>
  match from_size_align 64 size 1 with
  | None => Ret (a, None)
  | Some layout => let! (a, p) := alloc 64 a layout in Ret (a, if p =? 0 then None else Some p)
  end.

(** [virt_mem.add_region(addr, data)?]. *)
Definition map_region (addr : Z) (data : list Z) : SO LittleEndianVirtualMemory unit := fun m => add_region m addr data.

(** A string on the heap: its C string, the space for it and the region. *)
Definition load_string (s : str) : SO Space Z :=
  do! allocated := so_lift (c_string s) in
  do! size := so_lift (mul_chk 64 (Z.of_nat (length allocated)) 1) in
  do! ptr := so_snd (alloc_bytes size) in
  do! _ := so_fst (map_region ptr allocated) in
  so_ret ptr.

Fixpoint load_arg_strings (args : list str) (index : nat) (argv : list Z) : SO Space (list Z) :=
  match args with
  | [] => so_ret argv
  | arg :: rest =>
      do! ptr := load_string arg in
      do! argv := so_lift (store_bytes argv (index * 8) (to_le_bytes 8 ptr)) in
      load_arg_strings rest (S index) argv
  end.

Definition load_args_into_virtual_memory (args : list str) (args_len : nat) : SO Space Z :=
  do! n := so_lift (mul_chk 64 (Z.of_nat args_len) 8) in
  let argv := replicate (Z.to_nat n) 0 in
  do! size := so_lift (mul_chk 64 (Z.of_nat (length argv)) 8) in
  do! argv_virtual_ptr := so_snd (alloc_bytes size) in
  do! argv := load_arg_strings args 0 argv in
  do! _ := so_fst (map_region argv_virtual_ptr argv) in
  so_ret argv_virtual_ptr.

Fixpoint load_env_into_virtual_memory (e : list (str * str)) (map : gmap str Z) : SO Space (gmap str Z) :=
  match e with
  | [] => so_ret map
  | (key, value) :: rest =>
      do! ptr := load_string value in
      load_env_into_virtual_memory rest (<[key := ptr]> map)
  end.

(** [Vec::resize(n, 0)]. *)
Definition vec_resize (l : list Z) (n : nat) : list Z := take n l ++ replicate (n - length l) 0.

Fixpoint load_segments (hs : list UniversalProgramHeader) (elf_bytes : list Z) (lower_virt_addr : Z)
  : SO LittleEndianVirtualMemory Z :=
  match hs with
  | [] => so_ret lower_virt_addr
  | h :: rest =>
      if bool_decide (segment_type h = EnumVal Interp) then so_none
      else if bool_decide (segment_type h = EnumVal Load) then
        do! e := so_lift (add_chk 64 (segment_file_offset h) (segment_file_size h)) in
        do! segment_data := so_lift (slice_range elf_bytes (segment_file_offset h) e) in
        let segment := vec_resize segment_data (Z.to_nat (segment_virtual_size h)) in
        do! seg_end := so_lift (add_chk 64 (segment_virtual_address h) (Z.of_nat (length segment))) in
        let lower_virt_addr := if seg_end >? lower_virt_addr then seg_end else lower_virt_addr in
        do! _ := map_region (segment_virtual_address h) segment in
        load_segments rest elf_bytes lower_virt_addr
      else load_segments rest elf_bytes lower_virt_addr
  end.

Definition load_elf_into_virtual_memory (elf : ElfFile) (elf_bytes : list Z) : SO LittleEndianVirtualMemory Z :=
  load_segments (program_headers elf) elf_bytes 0.

Definition PROGRAM_STACK_SIZE : Z := 8 * 1024.
Definition u64_max : Z := 2 ^ 64 - 1.

Section FromElf.
Context {PS : PackedStruct} {N P : Type}.

Definition from_elf (elf_bytes : list Z) (args : list str) (c : P) (e : list (str * str))
  : outcome (option (Riscv64Cpu LittleEndianVirtualMemory * ProcessData N P)) :=
  let? elf := from_bytes elf_bytes in
  if negb (bool_decide (instruction_set (header elf) = RiscV)) then Ret None
  else if negb (bool_decide (elf_type (header elf) = EXECUTABLE)) then Ret None
  else
    let! (m, lower_virt_addr) := load_elf_into_virtual_memory elf elf_bytes new_memory in
    let? lower_virt_addr := Ret lower_virt_addr in
    let program_stack := replicate (Z.to_nat PROGRAM_STACK_SIZE) 0 in
    let! (m, did_create_stack_region) := map_region (u64_max - PROGRAM_STACK_SIZE + 1) program_stack m in
    let? _ := Ret did_create_stack_region in
    let! taken := add_chk 64 PROGRAM_STACK_SIZE lower_virt_addr in
    let! heap_len := sub_chk u64_max taken in
    let a := alloc_from lower_virt_addr heap_len true in
    let! ((m, a), argv_virtual_ptr) := load_args_into_virtual_memory args (length args) (m, a) in
    let? argv_virtual_ptr := Ret argv_virtual_ptr in
    let! ((m, a), prog_env) := load_env_into_virtual_memory e ∅ (m, a) in
    let? prog_env := Ret prog_env in
    let emu := cpu_from m (program_entry (header elf)) in
    let! emu := write_reg emu 10 (Z.of_nat (length args)) in
    let! emu := write_reg emu 11 argv_virtual_ptr in
    Ret (Some (emu, process_data_new c prog_env a)).

End FromElf.
