(* ===== verification/LoaderTheorems.v ===== *)
(** What loading a program establishes: where the segments, the argument strings,
    the argument array and the environment strings lie in the memory of the new
    process, and that loading succeeds whenever the segments do not overlap and
    the address space has room. *)
From S2P Require Import Prelude MachineInt Str PackedStruct Device EmulatorMemory VirtMem Allocator Scheduler Cpu CpuAlu CpuRefine Elf Loader.
From stdpp Require Import gmap list.
#[local] Open Scope Z_scope.

(** * C strings *)

(** One byte per character, then zeros up to the length of the string plus one. *)
Definition c_bytes (s : str) : list Z := (wrap 8 <$> s) ++ replicate (str_len s + 1 - length s) 0.

Lemma char_len_pos c : (1 <= char_len_utf8 c)%nat.
Proof. unfold char_len_utf8. repeat case_match; lia. Qed.

Lemma str_len_length s : (length s <= str_len s)%nat.
Proof.
  induction s as [|c s IH]; [done|]. change (str_len (c :: s)) with (char_len_utf8 c + str_len s)%nat. simpl.
  pose proof (char_len_pos c). lia.
Qed.

Lemma c_bytes_length s : length (c_bytes s) = (str_len s + 1)%nat.
Proof.
  unfold c_bytes. rewrite length_app, length_fmap, length_replicate.
  pose proof (str_len_length s). lia.
Qed.

Lemma c_bytes_is_byte s : Forall is_byte (c_bytes s).
Proof.
  unfold c_bytes. apply Forall_app. split.
  - apply list.Forall_forall. intros b (c & -> & _)%list_elem_of_fmap. by apply in_u_wrap.
  - apply Forall_replicate. by vm_compute.
Qed.

Lemma store_bytes_at bytes pre mid post :
  length bytes = length mid -> store_bytes (pre ++ mid ++ post) (length pre) bytes = Ret (pre ++ bytes ++ post).
Proof.
  revert pre mid. induction bytes as [|b bytes IH]; intros pre [|x mid] H; try done. simpl.
  rewrite decide_True by (rewrite length_app; simpl; lia).
  rewrite insert_app_r_alt, Nat.sub_diag by lia. simpl.
  replace (pre ++ b :: mid ++ post) with ((pre ++ [b]) ++ mid ++ post) by by rewrite <- app_assoc.
  replace (S (length pre)) with (length (pre ++ [b])) by (rewrite length_app; simpl; lia).
  rewrite IH by (simpl in H; lia). by rewrite <- app_assoc.
Qed.

Lemma c_string_ok s : c_string s = Ret (c_bytes s).
Proof.
  unfold c_string. pose proof (str_len_length s) as H.
  replace (str_len s + 1)%nat with (length s + (str_len s + 1 - length s))%nat at 1 by lia.
  rewrite replicate_add.
  pose proof (store_bytes_at (wrap 8 <$> s) [] (replicate (length s) 0)
    (replicate (str_len s + 1 - length s) 0)) as E. simpl in E. rewrite E by by rewrite length_fmap, length_replicate.
  simpl. fold (c_bytes s). rewrite c_bytes_length. f_equal.
  replace (str_len s + 1 - 1)%nat with (str_len s) by lia.
  apply list_insert_id. unfold c_bytes. rewrite lookup_app_r by (rewrite length_fmap; lia).
  rewrite length_fmap. apply lookup_replicate. lia.
Qed.

(** * The heap above which nothing is mapped *)

Record heap_ok (m : LittleEndianVirtualMemory) (a : BasicAlloc) : Prop := {
  h_wf : vm_wf m;
  h_base : 1 <= base a;
  h_next : 0 <= next a;
  h_count : 0 <= alloc_count a <= next a;
  h_end : base a + len a < 2 ^ 64;
  h_free : Forall (fun r => virtual_start r + region_len r <= base a + next a \/
                            base a + len a <= virtual_start r) m;
}.

(** The allocator after it handed out [size] more bytes. *)
Definition advance (a : BasicAlloc) (size : Z) : BasicAlloc :=
  set_count (set_next a (next a + size)) (alloc_count a + 1).

Lemma alloc_bytes_ok m a size :
  heap_ok m a -> 0 < size < 2 ^ 63 -> next a + size < len a ->
  alloc_bytes size a = Ret (advance a size, Some (base a + next a)).
Proof.
  intros [Hw Hb Hn Hc He Hf] Hs Hl. unfold alloc_bytes, from_size_align.
  rewrite (proj2 (Z.leb_le size _)) by (change (2 ^ (64 - 1)) with (2 ^ 63); lia). simpl.
  unfold alloc, rem_chk. simpl. rewrite Z.mod_1_r. simpl. unfold bump. simpl.
  rewrite add_chk_ok by lia. simpl. rewrite (proj2 (Z.leb_gt _ _)) by lia.
  rewrite add_chk_ok by lia. simpl.
  replace (base a + (next a + size) - size) with (base a + next a) by lia.
  rewrite wrap_small by (unfold in_u; lia). by rewrite (proj2 (Z.eqb_neq _ _)) by lia.
Qed.

(** Mapping the block just handed out. *)
Lemma map_region_heap m a data :
  heap_ok m a -> data <> [] -> Forall is_byte data ->
  let size := Z.of_nat (length data) in
  next a + size < len a ->
  map_region (base a + next a) data m = Ret (m ++ [MkRegion (base a + next a) data], Some ()) /\
  heap_ok (m ++ [MkRegion (base a + next a) data]) (advance a size).
Proof.
  intros [Hw Hb Hn Hc He Hf] Hd Hby size Hs. unfold map_region.
  assert (0 < size) by (unfold size; destruct data; [done|simpl; lia]).
  destruct (add_region_apart m (base a + next a) data) as [-> W].
  - done.
  - split; [simpl; lia|]. unfold region_len. simpl. split; [lia|done].
  - eapply list.Forall_impl; [exact Hf|]. intros r [?|?]; [left|right]; unfold region_len in *; simpl; lia.
  - simpl. split; [done|]. split; simpl; try done; try lia.
    apply Forall_app. split.
    + eapply list.Forall_impl; [exact Hf|]. intros r [?|?]; lia.
    + apply Forall_singleton. left. unfold region_len. simpl. lia.
Qed.

Lemma load_string_ok s m a :
  heap_ok m a -> next a + Z.of_nat (str_len s + 1) < len a -> Z.of_nat (str_len s + 1) < 2 ^ 63 ->
  load_string s (m, a) = Ret ((m ++ [MkRegion (base a + next a) (c_bytes s)], advance a (Z.of_nat (str_len s + 1))),
                              Some (base a + next a)) /\
  heap_ok (m ++ [MkRegion (base a + next a) (c_bytes s)]) (advance a (Z.of_nat (str_len s + 1))).
Proof.
  intros H Hl Hs. unfold load_string. rewrite (so_bind_lift _ _ _ _ (c_string_ok s)), c_bytes_length.
  erewrite so_bind_lift by (apply mul_chk_ok; lia). rewrite Z.mul_1_r.
  erewrite so_bind_Some by (unfold so_snd; cbn [snd]; by rewrite (alloc_bytes_ok m) by (done || lia)). cbn [fst].
  destruct (map_region_heap m a (c_bytes s)) as [E W]; [done| |apply c_bytes_is_byte|..].
  - intros E. pose proof (c_bytes_length s) as L. rewrite E in L. simpl in L. lia.
  - by rewrite c_bytes_length.
  - rewrite c_bytes_length in W. erewrite so_bind_Some by (unfold so_fst; cbn [fst]; by rewrite E). done.
Qed.

(** * Strings one after the other *)

Fixpoint place (p : Z) (l : list str) : list (Z * str) :=
  match l with
  | [] => []
  | s :: l => (p, s) :: place (p + Z.of_nat (str_len s + 1)) l
  end.
Definition total (l : list str) : Z := Z.of_nat (sum_list ((fun s => str_len s + 1)%nat <$> l)).
Definition string_region (q : Z * str) : VirtRegion := MkRegion q.1 (c_bytes q.2).

Lemma total_cons s l : total (s :: l) = Z.of_nat (str_len s + 1) + total l.
Proof. unfold total. rewrite <- Nat2Z.inj_add. reflexivity. Qed.

Lemma total_nonneg l : 0 <= total l.
Proof. unfold total. lia. Qed.

Lemma place_lookup p l k s :
  l !! k = Some s -> exists q, place p l !! k = Some (q, s) /\ p <= q /\ q + Z.of_nat (str_len s + 1) <= p + total l.
Proof.
  revert p k. induction l as [|s' l IH]; intros p [|k] H; try done; simpl in H.
  - injection H as ->. exists p. rewrite total_cons. pose proof (total_nonneg l). simpl. split; [done|lia].
  - destruct (IH (p + Z.of_nat (str_len s' + 1)) k H) as (q & Hq & H1 & H2). exists q.
    rewrite total_cons. split; [done|lia].
Qed.

Lemma place_bounds p l q s : (q, s) ∈ place p l -> p <= q /\ q + Z.of_nat (str_len s + 1) <= p + total l.
Proof.
  revert p. induction l as [|s' l IH]; intros p H; simpl in H.
  - by apply list_elem_of_In in H.
  - rewrite total_cons. pose proof (total_nonneg l).
    apply elem_of_cons in H as [[= -> ->]|H]; [lia|]. apply IH in H. lia.
Qed.

(** The allocator and the regions after a list of strings was loaded. *)
Fixpoint advance_all (a : BasicAlloc) (l : list str) : BasicAlloc :=
  match l with
  | [] => a
  | s :: l => advance_all (advance a (Z.of_nat (str_len s + 1))) l
  end.

Lemma advance_all_fields a l :
  base (advance_all a l) = base a /\ len (advance_all a l) = len a /\ next (advance_all a l) = next a + total l.
Proof.
  revert a. induction l as [|s l IH]; intros a; simpl.
  - unfold total. simpl. split_and!; [done|done|lia].
  - destruct (IH (advance a (Z.of_nat (str_len s + 1)))) as (-> & -> & ->). rewrite total_cons. simpl.
    split_and!; [done|done|lia].
Qed.

Definition pointer_bytes (l : list (Z * str)) : list Z := concat ((fun q => to_le_bytes 8 q.1) <$> l).

Lemma pointer_bytes_length l : length (pointer_bytes l) = (8 * length l)%nat.
Proof.
  unfold pointer_bytes. induction l as [|q l IH]; [done|]. cbn [fmap list_fmap concat].
  rewrite length_app, length_to_le_bytes, IH. simpl. lia.
Qed.

Lemma load_arg_strings_ok l pre rest m a index :
  heap_ok m a -> next a + total l < len a -> total l < 2 ^ 63 ->
  length pre = (8 * index)%nat -> length rest = (8 * length l)%nat ->
  load_arg_strings l index (pre ++ rest) (m, a) =
    Ret ((m ++ (string_region <$> place (base a + next a) l), advance_all a l),
         Some (pre ++ pointer_bytes (place (base a + next a) l))) /\
  heap_ok (m ++ (string_region <$> place (base a + next a) l)) (advance_all a l).
Proof.
  revert pre rest m a index. induction l as [|s l IH]; intros pre rest m a index H Hl Ht Hp Hr.
  { destruct rest; [|done]. simpl. rewrite !app_nil_r. done. }
  rewrite total_cons in Hl, Ht. pose proof (total_nonneg l).
  destruct (load_string_ok s m a) as [E W]; [done|lia|lia|].
  cbn [load_arg_strings]. rewrite (so_bind_Some _ _ _ _ _ E).
  simpl in Hr. rewrite <- (take_drop 8 rest).
  replace (index * 8)%nat with (length pre) by lia.
  erewrite so_bind_lift by (apply store_bytes_at; rewrite length_to_le_bytes, length_take; lia).
  rewrite app_assoc.
  destruct (IH (pre ++ to_le_bytes 8 (base a + next a)) (drop 8 rest) _ _ (S index) W) as [-> W'].
  - simpl. lia.
  - lia.
  - rewrite length_app, length_to_le_bytes. lia.
  - rewrite length_drop. lia.
  - cbn [place fmap list_fmap advance_all pointer_bytes concat] in *. unfold pointer_bytes in *. simpl in *.
    rewrite <- !app_assoc in *. simpl in *.
    replace (base a + (next a + Z.of_nat (str_len s + 1))) with (base a + next a + Z.of_nat (str_len s + 1)) in * by lia.
    done.
Qed.

(** * Reading what was loaded *)

Lemma region_view m r : vm_wf m -> r ∈ m -> view_bytes (vm_view m) (virtual_start r) (backing_storage r).
Proof.
  intros [Hok Hd] [i Hi]%list_elem_of_lookup k b Hk.
  assert (covers r (virtual_start r + Z.of_nat k)) as Hc.
  { apply lookup_lt_Some in Hk. unfold covers, region_len. lia. }
  rewrite (vm_view_covers m _ i r) by done. unfold region_get. rewrite decide_True by done.
  by replace (Z.to_nat _) with k by lia.
Qed.

Lemma view_bytes_slice (v : view) p l k l' :
  view_bytes v p l -> (forall j b, l' !! j = Some b -> l !! (k + j)%nat = Some b) ->
  view_bytes v (p + Z.of_nat k) l'.
Proof.
  intros H Hs j b Hj. apply Hs in Hj. apply H in Hj. by replace (p + Z.of_nat k + Z.of_nat j) with (p + Z.of_nat (k + j)) by lia.
Qed.

Lemma pointer_bytes_lookup l k q j b :
  l !! k = Some q -> to_le_bytes 8 q.1 !! j = Some b -> pointer_bytes l !! (8 * k + j)%nat = Some b.
Proof.
  revert k. induction l as [|q' l IH]; intros [|k] Hk Hj; try done; simpl in Hk;
    unfold pointer_bytes; cbn [fmap list_fmap concat].
  - injection Hk as ->. rewrite Nat.mul_0_r. by apply lookup_app_l_Some.
  - rewrite lookup_app_r by (rewrite length_to_le_bytes; lia). rewrite length_to_le_bytes.
    replace (8 * S k + j - 8)%nat with (8 * k + j)%nat by lia. by apply IH.
Qed.

(** The array at [argv] points to the C strings of [args]. *)
Definition args_in_memory (m : LittleEndianVirtualMemory) (argv : Z) (args : list str) : Prop :=
  forall k s, args !! k = Some s ->
    exists p, read_le 8 m (argv + 8 * Z.of_nat k) = Ret p /\ view_bytes (vm_view m) p (c_bytes s).

Lemma region_range m r : vm_wf m -> r ∈ m -> region_ok r.
Proof. intros [Hok _] Hr. rewrite list.Forall_forall in Hok. auto. Qed.

Lemma place_length p l : length (place p l) = length l.
Proof. revert p. induction l as [|s l IH]; intros p; simpl; [done|]. by rewrite IH. Qed.

Lemma args_in_memory_regions m argv p0 args :
  vm_wf m -> (forall q, q ∈ place p0 args -> string_region q ∈ m) ->
  MkRegion argv (pointer_bytes (place p0 args)) ∈ m -> args_in_memory m argv args.
Proof.
  intros Hm Hs Ha k s Hk. destruct (place_lookup p0 args k s Hk) as (p & Hp & _). exists p.
  assert (string_region (p, s) ∈ m) as Hin by (eapply Hs, list_elem_of_lookup_2, Hp).
  destruct (region_range m _ Hm Hin) as (R1 & R2 & _). unfold region_len in R2. simpl in R1, R2.
  rewrite c_bytes_length in R2.
  split; [|by apply (region_view m (string_region (p, s)))].
  pose proof (lookup_lt_Some _ _ _ Hk) as Hlt.
  apply read_le_of_view; [done|change (8 * Z.of_nat 8) with 64; unfold in_u; lia| |].
  - apply list_elem_of_lookup in Ha as [i Hi]. exists i. eexists. split; [exact Hi|].
    unfold covers, region_len. simpl. rewrite pointer_bytes_length, place_length. lia.
  - replace (8 * Z.of_nat k) with (Z.of_nat (8 * k)) by lia.
    eapply view_bytes_slice; [apply (region_view m _ Hm Ha)|]. simpl.
    intros j b Hj. by eapply pointer_bytes_lookup.
Qed.

(** * Arguments and environment *)

Lemma app_elem_r {A} (l k : list A) x : x ∈ k -> x ∈ l ++ k.
Proof. rewrite elem_of_app. auto. Qed.

(** The memory after the arguments were loaded at the top of the heap. *)
Definition args_regions (p : Z) (args : list str) : list VirtRegion :=
  let strings := place (p + 64 * Z.of_nat (length args)) args in
  (string_region <$> strings) ++ [MkRegion p (pointer_bytes strings)].

Lemma pointer_bytes_is_byte l : Forall is_byte (pointer_bytes l).
Proof.
  unfold pointer_bytes. apply Forall_concat, list.Forall_forall.
  intros bs (q & -> & _)%list_elem_of_fmap. apply to_le_bytes_is_byte.
Qed.

Lemma reserve_heap m a size : heap_ok m a -> 0 < size -> next a + size <= len a -> heap_ok m (advance a size).
Proof.
  intros [? ? ? ? ? Hf] Hs Hl. split; simpl; try done; try lia.
  eapply list.Forall_impl; [exact Hf|]. intros r [?|?]; lia.
Qed.

Lemma load_args_ok m a args :
  heap_ok m a -> args <> [] ->
  next a + 64 * Z.of_nat (length args) + total args < len a -> total args < 2 ^ 63 ->
  64 * Z.of_nat (length args) < 2 ^ 63 ->
  exists a', load_args_into_virtual_memory args (length args) (m, a) =
      Ret ((m ++ args_regions (base a + next a) args, a'), Some (base a + next a)) /\
    base a' = base a /\ len a' = len a /\
    next a' = next a + 64 * Z.of_nat (length args) + total args /\
    heap_ok (m ++ args_regions (base a + next a) args) a'.
Proof.
  intros H Hne Hl Ht H64. unfold load_args_into_virtual_memory.
  assert (0 < Z.of_nat (length args)) as Hn by (destruct args; [done|simpl; lia]).
  pose proof (total_nonneg args). pose proof (h_end _ _ H). pose proof (h_base _ _ H). pose proof (h_next _ _ H).
  erewrite so_bind_lift by (apply mul_chk_ok; lia). cbv zeta. rewrite length_replicate. erewrite so_bind_lift by (apply mul_chk_ok; lia).
  replace (Z.of_nat (Z.to_nat (Z.of_nat (length args) * 8)) * 8) with (64 * Z.of_nat (length args)) by lia.
  set (size := 64 * Z.of_nat (length args)) in *.
  erewrite so_bind_Some by (unfold so_snd; cbn [snd]; by rewrite (alloc_bytes_ok m) by (done || lia)). cbn [fst].
  pose proof (reserve_heap m a size H ltac:(lia) ltac:(lia)) as Hres.
  destruct (load_arg_strings_ok args [] (replicate (Z.to_nat (Z.of_nat (length args) * 8)) 0) m
    (advance a size) 0 Hres) as [E W]; [simpl; lia|lia|done|rewrite length_replicate; lia|].
  cbn [app] in E. rewrite (so_bind_Some _ _ _ _ _ E).
  replace (base (advance a size) + next (advance a size)) with (base a + next a + size) in * by (simpl; lia).
  destruct (advance_all_fields (advance a size) args) as (F1 & F2 & F3).
  set (strings := place (base a + next a + size) args) in *.
  set (a' := advance_all (advance a size) args) in *. simpl in F1, F2, F3.
  assert (region_ok (MkRegion (base a + next a) (pointer_bytes strings))) as Hr.
  { split; [simpl; lia|]. split; [|apply pointer_bytes_is_byte].
    unfold region_len. simpl. rewrite pointer_bytes_length. unfold strings. rewrite place_length. lia. }
  destruct (add_region_apart _ (base a + next a) (pointer_bytes strings) (h_wf _ _ W) Hr) as [E' W'].
  { apply Forall_app. unfold apart, region_len. simpl. rewrite pointer_bytes_length. unfold strings at 1.
    rewrite place_length. split.
    - eapply list.Forall_impl; [apply (h_free _ _ H)|]. intros r [?|?]; [left; done|right; unfold region_len in *; lia].
    - apply list.Forall_forall. intros r ([q s] & -> & Hq)%list_elem_of_fmap. right.
      apply place_bounds in Hq. simpl. unfold strings. rewrite place_length. lia. }
  erewrite so_bind_Some by (unfold so_fst, map_region; cbn [fst]; by rewrite E'). exists a'. unfold args_regions.
  fold size. fold strings. rewrite app_assoc. split; [done|]. rewrite F1, F2, F3.
  split; [done|]. split; [done|]. split; [lia|].
  destruct W as [W1 W2 W3 W4 W5 W6]. split; try done.
  apply Forall_app. split; [done|]. apply Forall_singleton. left. unfold region_len. simpl.
  rewrite pointer_bytes_length. unfold strings. rewrite place_length, F1, F3. lia.
Qed.

(** The map from the names to the addresses of their values. *)
Fixpoint env_map (map : gmap str Z) (l : list (str * (Z * str))) : gmap str Z :=
  match l with
  | [] => map
  | (key, q) :: l => env_map (<[key := q.1]> map) l
  end.

Lemma load_env_ok e map m a :
  heap_ok m a -> next a + total (snd <$> e) < len a -> total (snd <$> e) < 2 ^ 63 ->
  let placed := place (base a + next a) (snd <$> e) in
  load_env_into_virtual_memory e map (m, a) =
    Ret ((m ++ (string_region <$> placed), advance_all a (snd <$> e)), Some (env_map map (zip (fst <$> e) placed))) /\
  heap_ok (m ++ (string_region <$> placed)) (advance_all a (snd <$> e)).
Proof.
  revert map m a. induction e as [|[key value] e IH]; intros map m a H Hl Ht.
  { simpl. rewrite app_nil_r. done. }
  cbn [fmap list_fmap snd fst] in *. rewrite total_cons in Hl, Ht. pose proof (total_nonneg (snd <$> e)).
  destruct (load_string_ok value m a) as [E W]; [done|lia|lia|].
  cbn [load_env_into_virtual_memory]. rewrite (so_bind_Some _ _ _ _ _ E).
  destruct (IH (<[key := base a + next a]> map) _ _ W) as [-> W']; [simpl; lia|lia|].
  cbn [place fmap list_fmap advance_all zip_with env_map fst snd] in *. simpl in *.
  rewrite <- !app_assoc in *. simpl in *.
  replace (base a + (next a + Z.of_nat (str_len value + 1))) with (base a + next a + Z.of_nat (str_len value + 1)) in * by lia.
  done.
Qed.

Lemma env_map_other map l key :
  key ∉ (fst <$> l) -> env_map map l !! key = map !! key.
Proof.
  revert map. induction l as [|[k q] l IH]; intros map H; [done|]. cbn [fmap list_fmap fst] in H.
  rewrite not_elem_of_cons in H. destruct H. cbn [env_map]. rewrite IH by done. by rewrite lookup_insert_ne.
Qed.

Lemma env_map_lookup map l k key q :
  NoDup (fst <$> l) -> l !! k = Some (key, q) -> env_map map l !! key = Some q.1.
Proof.
  revert map k. induction l as [|[key' q'] l IH]; intros map [|k] Hnd Hk; try done; simpl in Hk;
    cbn [fmap list_fmap fst] in Hnd; apply NoDup_cons in Hnd as [H1 H2].
  - injection Hk as -> ->. cbn [env_map]. rewrite env_map_other by done. by rewrite lookup_insert_eq.
  - cbn [env_map]. by eapply IH.
Qed.

Lemma fst_zip_place (keys : list str) p values :
  length keys = length values -> fst <$> zip keys (place p values) = keys.
Proof. intros H. apply fst_zip. rewrite place_length. lia. Qed.

(** * Segments *)

Definition is_load (h : UniversalProgramHeader) : Prop := segment_type h = EnumVal Load.
#[export] Instance is_load_dec h : Decision (is_load h).
Proof. unfold is_load. apply _. Defined.

Definition segment_bytes (file : list Z) (h : UniversalProgramHeader) : list Z :=
  vec_resize (take (Z.to_nat (segment_file_size h)) (drop (Z.to_nat (segment_file_offset h)) file))
    (Z.to_nat (segment_virtual_size h)).
Definition segment_region (file : list Z) (h : UniversalProgramHeader) : VirtRegion :=
  MkRegion (segment_virtual_address h) (segment_bytes file h).
Definition segment_end (h : UniversalProgramHeader) : Z := segment_virtual_address h + segment_virtual_size h.

(** A segment that lies in the file and ends below the stack. *)
Record segment_ok (file : list Z) (h : UniversalProgramHeader) : Prop := {
  s_offset : 0 <= segment_file_offset h;
  s_file : 0 <= segment_file_size h;
  s_range : segment_file_offset h + segment_file_size h <= Z.of_nat (length file);
  s_size : 0 <= segment_virtual_size h;
  s_start : 1 <= segment_virtual_address h;
  s_end : segment_end h <= 2 ^ 64 - PROGRAM_STACK_SIZE;
}.

(** Regions each of which is apart from those before it. *)
Fixpoint apart_from (m : list VirtRegion) (rs : list VirtRegion) : Prop :=
  match rs with
  | [] => True
  | r :: rs => Forall (fun x => apart x r) m /\ apart_from (m ++ [r]) rs
  end.

Lemma vec_resize_length l n : length (vec_resize l n) = n.
Proof. unfold vec_resize. rewrite length_app, length_take, length_replicate. lia. Qed.

Lemma segment_region_ok file h : Forall is_byte file -> segment_ok file h -> region_ok (segment_region file h).
Proof.
  intros Hb [? ? ? ? ? He]. split; [done|]. unfold segment_end in He. split.
  - unfold region_len, segment_region, segment_bytes. simpl. rewrite vec_resize_length.
    unfold PROGRAM_STACK_SIZE in He. lia.
  - unfold segment_region, segment_bytes, vec_resize. simpl. apply Forall_app. split.
    + by apply Forall_take, Forall_take, Forall_drop.
    + apply Forall_replicate. by vm_compute.
Qed.

Lemma load_segments_ok hs file lower m :
  vm_wf m -> Forall is_byte file -> Z.of_nat (length file) < 2 ^ 64 ->
  Forall (fun h => segment_type h <> EnumVal Interp) hs -> Forall (segment_ok file) (filter is_load hs) ->
  apart_from m (segment_region file <$> filter is_load hs) ->
  let m' := m ++ (segment_region file <$> filter is_load hs) in
  load_segments hs file lower m =
    Ret (m', Some (foldl Z.max lower (segment_end <$> filter is_load hs))) /\ vm_wf m'.
Proof.
  intros Hm Hb Hl. revert lower m Hm. induction hs as [|h hs IH]; intros lower m Hm Hi Hs Ha.
  { simpl. by rewrite app_nil_r. }
  inversion Hi as [|? ? Hih Hi']; subst. cbn [load_segments].
  rewrite bool_decide_eq_false_2 by done.
  destruct (decide (is_load h)) as [Hload|Hload].
  - rewrite bool_decide_eq_true_2 by done.
    rewrite filter_cons_True in Hs, Ha |- * by done. inversion Hs as [|? ? Hh Hs']; subst.
    cbn [fmap list_fmap apart_from foldl] in *. destruct Ha as [Ha1 Ha2].
    pose proof (segment_region_ok file h Hb Hh) as Hr. pose proof Hh as [S1 S2 S3 S4 S5 S6].
    unfold segment_end, PROGRAM_STACK_SIZE in S6.
    erewrite so_bind_lift by (apply add_chk_ok; lia). unfold slice_range.
    rewrite (proj2 (andb_true_iff _ _)) by (rewrite !Z.leb_le; lia). erewrite so_bind_lift by reflexivity.
    replace (segment_file_offset h + segment_file_size h - segment_file_offset h) with (segment_file_size h) by lia.
    fold (segment_bytes file h). unfold segment_bytes at 1. rewrite vec_resize_length, Z2Nat.id by done.
    erewrite so_bind_lift by (apply add_chk_ok; lia).
    destruct (add_region_apart m (segment_virtual_address h) (segment_bytes file h) Hm Hr Ha1) as [E W].
    rewrite (so_bind_Some (map_region _ _) _ _ _ _ E).
    destruct (IH (Z.max lower (segment_end h)) _ W Hi' Hs' Ha2) as [E' W'].
    replace (if segment_virtual_address h + segment_virtual_size h >? lower then _ else lower)
      with (Z.max lower (segment_end h)) by (unfold segment_end; rewrite Z.gtb_ltb; destruct (Z.ltb_spec lower
        (segment_virtual_address h + segment_virtual_size h)); lia).
    rewrite E'. rewrite <- !app_assoc in *. done.
  - rewrite bool_decide_eq_false_2 by done. rewrite filter_cons_False in Hs, Ha |- * by done. by apply IH.
Qed.

Lemma vm_wf_nil : vm_wf [].
Proof. split; [constructor|]. by intros i j r s a Hi. Qed.

Lemma foldl_max_ge l lower x : x ∈ l \/ x <= lower -> x <= foldl Z.max lower l.
Proof.
  revert lower. induction l as [|y l IH]; intros lower H; simpl.
  - destruct H as [H|H]; [by apply not_elem_of_nil in H|done].
  - apply IH. rewrite elem_of_cons in H. destruct H as [[->|H]|H]; [right; lia|by left|right; lia].
Qed.

Lemma foldl_max_le l lower b : Forall (fun x => x <= b) l -> lower <= b -> foldl Z.max lower l <= b.
Proof. intros H. revert lower. induction H; intros lower Hl; simpl; [done|]. apply IHForall. lia. Qed.

(** * The whole loader *)

(** Where the heap starts: after the last segment. *)
Definition heap_start (elf : ElfFile) : Z :=
  foldl Z.max 0 (segment_end <$> filter is_load (program_headers elf)).

(** A file that can be run: a RISC-V executable without an interpreter whose
    segments lie in the file, below the stack and apart from each other. *)
Record runnable (file : list Z) (elf : ElfFile) : Prop := {
  r_bytes : Forall is_byte file;
  r_length : Z.of_nat (length file) < 2 ^ 64;
  r_isa : instruction_set (header elf) = RiscV;
  r_type : elf_type (header elf) = EXECUTABLE;
  r_entry : in_u 64 (program_entry (header elf));
  r_interp : Forall (fun h => segment_type h <> EnumVal Interp) (program_headers elf);
  r_some : filter is_load (program_headers elf) <> [];
  r_segments : Forall (segment_ok file) (filter is_load (program_headers elf));
  r_apart : apart_from [] (segment_region file <$> filter is_load (program_headers elf));
}.

(** The strings and the argument array fit between the segments and the stack. *)
Definition room (elf : ElfFile) (args : list str) (e : list (str * str)) : Prop :=
  64 * Z.of_nat (length args) + total args + total (snd <$> e) < 2 ^ 63 /\
  heap_start elf + 64 * Z.of_nat (length args) + total args + total (snd <$> e) <
    u64_max - PROGRAM_STACK_SIZE.

Section FromElfTheorems.
Context {PS : PackedStruct} {N P : Type}.

Definition stack_region : VirtRegion :=
  MkRegion (u64_max - PROGRAM_STACK_SIZE + 1) (replicate (Z.to_nat PROGRAM_STACK_SIZE) 0).

(** The memory of the new process. *)
Definition image (file : list Z) (elf : ElfFile) (args : list str) (e : list (str * str)) : LittleEndianVirtualMemory :=
  ((segment_region file <$> filter is_load (program_headers elf)) ++ [stack_region]) ++
  args_regions (heap_start elf) args ++
  (string_region <$> place (heap_start elf + 64 * Z.of_nat (length args) + total args) (snd <$> e)).

Lemma heap_start_bounds file elf :
  runnable file elf -> 1 <= heap_start elf <= 2 ^ 64 - PROGRAM_STACK_SIZE.
Proof.
  intros [_ _ _ _ _ _ Hs Hok _]. unfold heap_start. split.
  - destruct (filter is_load (program_headers elf)) as [|h l]; [done|].
    inversion Hok as [|? ? [? ? ? ? ? ?] _]; subst.
    transitivity (segment_end h); [unfold segment_end; lia|].
    apply foldl_max_ge. left. by apply list_elem_of_here.
  - apply foldl_max_le; [|by vm_compute].
    apply Forall_fmap. eapply list.Forall_impl; [exact Hok|]. intros h []. done.
Qed.

Lemma initial_heap file elf :
  runnable file elf -> heap_start elf < u64_max - PROGRAM_STACK_SIZE ->
  let m := (segment_region file <$> filter is_load (program_headers elf)) in
  map_region (u64_max - PROGRAM_STACK_SIZE + 1) (replicate (Z.to_nat PROGRAM_STACK_SIZE) 0) m =
    Ret (m ++ [stack_region], Some ()) /\
  heap_ok (m ++ [stack_region])
    (alloc_from (heap_start elf) (u64_max - (PROGRAM_STACK_SIZE + heap_start elf)) true).
Proof.
  intros R Hroom m. pose proof (heap_start_bounds file elf R) as Hb. pose proof R as [R1 R2 _ _ _ R3 R4 R5 R6].
  destruct (load_segments_ok (program_headers elf) file 0 [] vm_wf_nil) as [_ W]; [done..|].
  simpl in W. fold m in W.
  assert (Forall (fun r => virtual_start r + region_len r <= heap_start elf) m) as Hseg.
  { apply Forall_fmap. apply list.Forall_forall. intros h Hh. unfold region_len. simpl.
    unfold segment_bytes. rewrite vec_resize_length.
    rewrite list.Forall_forall in R5. destruct (R5 h Hh). rewrite Z2Nat.id by done.
    apply foldl_max_ge. left. change (segment_virtual_address h + segment_virtual_size h) with (segment_end h).
    apply list_elem_of_fmap_2, Hh. }
  destruct (add_region_apart m (u64_max - PROGRAM_STACK_SIZE + 1)
    (replicate (Z.to_nat PROGRAM_STACK_SIZE) 0) W) as [E W'].
  - unfold region_ok, region_len. cbn [virtual_start backing_storage]. rewrite length_replicate.
    split; [by vm_compute|]. split; [by vm_compute|]. apply Forall_replicate. by vm_compute.
  - eapply list.Forall_impl; [exact Hseg|]. intros r Hr. left.
    cbn [virtual_start]. unfold u64_max, PROGRAM_STACK_SIZE in *. lia.
  - unfold map_region. rewrite E. split; [done|]. unfold u64_max, PROGRAM_STACK_SIZE in *.
    split; cbn [base len next alloc_count alloc_from]; try done; try lia.
    apply Forall_app. split.
    + eapply list.Forall_impl; [exact Hseg|]. intros r Hr. left. cbv beta in Hr. lia.
    + apply Forall_singleton. right. unfold stack_region. cbn [virtual_start]. unfold u64_max, PROGRAM_STACK_SIZE. lia.
Qed.

Lemma from_elf_image file elf args (c : P) e :
  from_bytes file = Ret (Some elf) -> runnable file elf -> args <> [] -> room elf args e ->
  exists a, from_elf (N := N) file args c e =
      Ret (Some (MkCpu (program_entry (header elf))
                   (<[10%nat := heap_start elf]> (<[9%nat := Z.of_nat (length args)]> (replicate 31 0)))
                   (image file elf args e),
                 process_data_new c (env_map ∅ (zip (fst <$> e)
                   (place (heap_start elf + 64 * Z.of_nat (length args) + total args) (snd <$> e)))) a)) /\
    heap_ok (image file elf args e) a.
Proof.
  intros Hf R Hne [Hr1 Hr2]. pose proof (total_nonneg args). pose proof (total_nonneg (snd <$> e)).
  pose proof R as [R1 R2 R3 R4 _ R5 R6 R7 R8].
  destruct (initial_heap file elf R) as [E1 H1]; [lia|].
  unfold from_elf. rewrite Hf. cbn [otry]. rewrite R3, R4. cbn -[u64_max PROGRAM_STACK_SIZE map_region].
  unfold load_elf_into_virtual_memory, new_memory.
  destruct (load_segments_ok (program_headers elf) file 0 [] vm_wf_nil) as [-> _]; [done..|].
  fold (heap_start elf). cbn [otry obind app]. rewrite E1. cbn [otry obind].
  pose proof (heap_start_bounds file elf R) as Hb.
  rewrite add_chk_ok by (unfold u64_max in *; lia). cbn [obind].
  rewrite sub_chk_ok by lia. cbn [obind].
  destruct (load_args_ok _ _ args H1 Hne) as (a1 & -> & B1 & B2 & B3 & H2); [simpl; lia|lia|lia|].
  cbn [otry obind base next alloc_from] in *. rewrite Z.add_0_r in *.
  destruct (load_env_ok e ∅ _ a1 H2) as [-> H3]; [rewrite B2, B3; simpl; lia|lia|]. cbn [otry obind].
  rewrite B1, B3 in *.
  replace (heap_start elf + (0 + 64 * Z.of_nat (length args) + total args))
    with (heap_start elf + 64 * Z.of_nat (length args) + total args) in * by lia.
  rewrite <- app_assoc in *. fold (image file elf args e) in *.
  eexists. split; [|exact H3]. reflexivity.
Qed.

(** C13: Loading a runnable file with at least one argument, when the strings fit
    between the segments and the stack, succeeds.  The program counter is the
    entry point, [a0] the number of arguments and [a1] an array of pointers to
    the arguments as C strings; each loadable segment is in memory at its
    address, filled with zeros beyond its bytes in the file; the 8 kB below the
    end of the address space are zeros; each environment variable's value is in
    memory at the address the process's environment gives; and the registers and
    the memory meet the emulator's invariant. *)
Theorem from_elf_loads file elf args (c : P) e :
  from_bytes file = Ret (Some elf) -> runnable file elf -> args <> [] -> room elf args e -> NoDup (fst <$> e) ->
  exists emu data, from_elf (N := N) file args c e = Ret (Some (emu, data)) /\
    cpu_wf emu /\ program_counter emu = program_entry (header elf) /\
    read_reg emu 10 = Ret (Z.of_nat (length args)) /\
    (exists argv, read_reg emu 11 = Ret argv /\ args_in_memory (memory emu) argv args) /\
    (forall h, h ∈ program_headers elf -> is_load h ->
       view_bytes (vm_view (memory emu)) (segment_virtual_address h) (segment_bytes file h)) /\
    (forall a, 2 ^ 64 - PROGRAM_STACK_SIZE <= a < 2 ^ 64 -> vm_view (memory emu) a = Some 0) /\
    (forall key value, (key, value) ∈ e ->
       exists p, env data !! key = Some p /\ view_bytes (vm_view (memory emu)) p (c_bytes value)) /\
    fd_mappings data = [Some Stdin; Some Stdout; Some Stderr] /\ pd_state data = RUNNING.
Proof.
  intros Hf R Hne Hroom Hnd. destruct (from_elf_image file elf args c e Hf R Hne Hroom) as (a & -> & H).
  pose proof (h_wf _ _ H) as W. destruct (heap_start_bounds file elf R) as [B1 B2]. destruct Hroom as [Q1 Q2].
  pose proof (total_nonneg args). pose proof (total_nonneg (snd <$> e)).
  eexists _, _. split; [reflexivity|]. cbn [program_counter memory].
  split_and!; try done.
  - split; [apply R|]. split; [|exact W].
    repeat (apply regs_ok_insert; [|unfold in_u, u64_max, PROGRAM_STACK_SIZE in *; cbn [length] in *; lia]).
    split; [done|]. apply Forall_replicate. by vm_compute.
  - exists (heap_start elf). split; [done|].
    eapply (args_in_memory_regions _ _ (heap_start elf + 64 * Z.of_nat (length args)));
      [done|intros q Hq|]; unfold image, args_regions; rewrite !elem_of_app.
    + right. left. left. by apply list_elem_of_fmap_2.
    + right. left. right. by apply list_elem_of_here.
  - intros h Hh Hl. apply (region_view _ (segment_region file h) W). unfold image. rewrite !elem_of_app.
    left. left. apply list_elem_of_fmap_2, list_elem_of_filter. done.
  - intros x Hx. assert (stack_region ∈ image file elf args e) as Hs.
    { unfold image. rewrite !elem_of_app. left. right. by apply list_elem_of_here. }
    pose proof (region_view _ _ W Hs (Z.to_nat (x - (u64_max - PROGRAM_STACK_SIZE + 1))) 0) as V.
    unfold stack_region in V. cbn [virtual_start backing_storage] in V.
    unfold u64_max, PROGRAM_STACK_SIZE in *. rewrite Z2Nat.id in V by lia.
    rewrite <- V; [f_equal; lia|]. apply lookup_replicate. split; [done|lia].
  - intros key value [k Hk]%list_elem_of_lookup.
    destruct (place_lookup (heap_start elf + 64 * Z.of_nat (length args) + total args) (snd <$> e) k value)
      as (p & Hp & _); [by rewrite list_lookup_fmap, Hk|]. exists p. split.
    + cbn [env process_data_new]. apply (env_map_lookup _ _ k key (p, value)).
      * rewrite fst_zip_place; [done|by rewrite !length_fmap].
      * rewrite lookup_zip_with, list_lookup_fmap, Hk, Hp. done.
    + apply (region_view _ (string_region (p, value)) W). unfold image. rewrite !elem_of_app. right. right.
      eapply list_elem_of_fmap_2, list_elem_of_lookup_2, Hp.
Qed.

Lemma read_le_unmapped n m x : vm_wf m -> Forall (fun r => ~ covers r x) m -> read_le n m x = Panic.
Proof.
  intros [Hok _] Hn. unfold read_le, try_map. rewrite find_region_ok by done.
  destruct (list_find (fun r => covers r x) m) as [[i r]|] eqn:E; [|done].
  apply list_find_Some in E as (Hi & Hc & _). rewrite Forall_lookup in Hn. by destruct (Hn _ _ Hi).
Qed.

(** The argument array has no null pointer after the last argument, and
    nothing is mapped there: reading [argv\[argc\]] as C programs do panics. *)
Theorem argv_end_unmapped file elf args (c : P) e :
  from_bytes file = Ret (Some elf) -> runnable file elf -> args <> [] -> room elf args e ->
  exists emu data argv, from_elf (N := N) file args c e = Ret (Some (emu, data)) /\
    read_reg emu 11 = Ret argv /\ read_le 8 (memory emu) (argv + 8 * Z.of_nat (length args)) = Panic.
Proof.
  intros Hf R Hne Hroom. destruct (from_elf_image file elf args c e Hf R Hne Hroom) as (a & -> & H).
  eexists _, _, (heap_start elf). split; [reflexivity|]. split; [done|]. cbn [memory].
  destruct Hroom as [Q1 Q2]. pose proof (total_nonneg args). pose proof (total_nonneg (snd <$> e)).
  assert (0 < Z.of_nat (length args)) as Hn by (destruct args; [done|simpl; lia]).
  destruct (initial_heap file elf R) as [_ [_ _ _ _ _ Hfree]]; [lia|].
  apply read_le_unmapped; [by apply h_wf in H|]. unfold image, args_regions. rewrite !Forall_app. split_and!.
  - apply Forall_app in Hfree as [Hfree _]. eapply list.Forall_impl; [exact Hfree|].
    cbn [base len next alloc_from]. unfold covers. intros r [?|?] ?; unfold u64_max, PROGRAM_STACK_SIZE in *; lia.
  - apply Forall_singleton. unfold covers, stack_region. cbn [virtual_start].
    unfold u64_max, PROGRAM_STACK_SIZE in *. lia.
  - apply list.Forall_forall. intros r ([q s] & -> & Hq%place_bounds)%list_elem_of_fmap. unfold covers.
    cbn [string_region virtual_start fst]. lia.
  - apply Forall_singleton. unfold covers, region_len. cbn [virtual_start backing_storage].
    rewrite pointer_bytes_length, place_length. lia.
  - apply list.Forall_forall. intros r ([q s] & -> & Hq%place_bounds)%list_elem_of_fmap. unfold covers.
    cbn [string_region virtual_start fst]. lia.
Qed.

End FromElfTheorems.

(** * Loading the small executable *)

Definition demo_args : list str := [[0x70]; [0x78; 0x79]].
Definition demo_env : list (str * str) := [([0x48], [0x2f])].

Lemma demo_runnable : runnable demo_elf_bytes demo_elf.
Proof.
  split; try done.
  - apply (bool_decide_unpack _). by vm_compute.
  - by repeat constructor.
  - change (Forall (segment_ok demo_elf_bytes) [demo_segment]). apply Forall_singleton.
    split; (by vm_compute) || (unfold segment_end, PROGRAM_STACK_SIZE; simpl; lia).
Qed.

Lemma demo_room : room demo_elf demo_args demo_env.
Proof. by split; vm_compute. Qed.

Lemma demo_from_bytes : from_bytes demo_elf_bytes = Ret (Some demo_elf).
Proof. vm_compute. reflexivity. Qed.

Lemma demo_env_keys : NoDup (fst <$> demo_env).
Proof. apply NoDup_singleton. Qed.

Lemma from_elf_loads_witness :
  exists emu data, from_elf (N := unit) demo_elf_bytes demo_args tt demo_env = Ret (Some (emu, data)) /\
    program_counter emu = 0x1000 /\ read_reg emu 10 = Ret 2 /\
    view_bytes (vm_view (memory emu)) 0x1000 (demo_code ++ replicate 8 0).
Proof.
  destruct (from_elf_loads (N := unit) demo_elf_bytes demo_elf demo_args tt demo_env
    demo_from_bytes demo_runnable ltac:(discriminate) demo_room demo_env_keys) as (emu & data & H1 & _ & H2 & H3 & _ & H4 & _).
  exists emu, data. split; [exact H1|]. split; [exact H2|]. split; [exact H3|].
  exact (H4 demo_segment ltac:(apply list_elem_of_here) eq_refl).
Defined.

Lemma argv_end_unmapped_witness :
  exists emu data argv, from_elf (N := unit) demo_elf_bytes demo_args tt demo_env = Ret (Some (emu, data)) /\
    read_reg emu 11 = Ret argv /\ read_le 8 (memory emu) (argv + 16) = Panic.
Proof.
  exact (argv_end_unmapped (N := unit) demo_elf_bytes demo_elf demo_args tt demo_env
    demo_from_bytes demo_runnable ltac:(discriminate) demo_room).
Defined.
