(* ===== verification/FdTable.v ===== *)
(** File descriptors and pipes: [close], [dup], [dup2], [pipe], the pipe ends of
    [read] and [write], and what [fork] and the end of a process do to the pipes,
    from kernel/src/syscall.rs and process.rs.  A process maps descriptors to open
    nodes of its own and to the ends of global pipes; nodes and pipes count the
    descriptors that refer to them and are freed with the last one. *)
From S2P Require Import Prelude MachineInt Str EmulatorMemory VirtMem Allocator Scheduler Loader.
From stdpp Require Import list.
#[local] Open Scope nat_scope.

Section FdTable.
Context {N P : Type}.
Implicit Types (pd : ProcessData N P) (ps : list (option ProcessPipe)).

Definition set_nodes pd (l : list (option (ProcessNode N P))) : ProcessData N P :=
  MkData l (fd_mappings pd) (cwd pd) (env pd) (virtual_allocator pd) (pd_state pd) (pd_pid pd) (pd_parent_pid pd).
Definition set_fds pd (l : list (option FdMapping)) : ProcessData N P :=
  MkData (open_nodes pd) l (cwd pd) (env pd) (virtual_allocator pd) (pd_state pd) (pd_pid pd) (pd_parent_pid pd).
Definition set_pd_state pd (st : ProcessState) : ProcessData N P :=
  MkData (open_nodes pd) (fd_mappings pd) (cwd pd) (env pd) (virtual_allocator pd) st (pd_pid pd) (pd_parent_pid pd).

Definition set_references (n : ProcessNode N P) (k : nat) : ProcessNode N P :=
  MkNode (vfs_node n) (cursor n) (node_flags n) (node_path n) k.
Definition set_readers (p : ProcessPipe) (k : nat) : ProcessPipe := MkPipe (pipe_buf p) k (writers_count p).
Definition set_writers (p : ProcessPipe) (k : nat) : ProcessPipe := MkPipe (pipe_buf p) (readers_count p) k.
Definition set_buf (p : ProcessPipe) (b : list Z) : ProcessPipe := MkPipe b (readers_count p) (writers_count p).

(** [fd_mappings.get(fd)] and both levels of [Some]. *)
Definition get_mapping pd (fd : nat) : option FdMapping :=
  match fd_mappings pd !! fd with Some (Some m) => Some m | _ => None end.

(** [l[i].as_mut().unwrap()]. *)
Definition get_slot {A} (l : list (option A)) (i : nat) : outcome A :=
  match l !! i with Some (Some x) => Ret x | _ => Panic end.

(** The first free slot of a table, or a new one at its end. *)
Definition is_free {A} (o : option A) : bool := match o with None => true | Some _ => false end.
Definition put_slot {A} (l : list (option A)) (x : A) : list (option A) * nat :=
  match list_find (fun o => is_free o = true) l with
  | Some (i, _) => (<[i := Some x]> l, i)
  | None => (l ++ [Some x], length l)
  end.

(** * Closing *)

Definition close_node (nodes : list (option (ProcessNode N P))) (i : nat)
  : outcome (list (option (ProcessNode N P))) :=
  let! node := get_slot nodes i in
  Ret (if reference_count node =? 1 then <[i := None]> nodes
       else if 1 <? reference_count node
            then <[i := Some (set_references node (reference_count node - 1))]> nodes
            else nodes).

Definition close_read_end ps (i : nat) : outcome (list (option ProcessPipe)) :=
  let! pipe := get_slot ps i in
  Ret (if (readers_count pipe =? 1) && (writers_count pipe =? 0) then drain (<[i := None]> ps)
       else if 1 <=? readers_count pipe
            then <[i := Some (set_readers pipe (readers_count pipe - 1))]> ps else ps).

Definition close_write_end ps (i : nat) : outcome (list (option ProcessPipe)) :=
  let! pipe := get_slot ps i in
  Ret (if (writers_count pipe =? 1) && (readers_count pipe =? 0) then drain (<[i := None]> ps)
       else if 1 <=? writers_count pipe
            then <[i := Some (set_writers pipe (writers_count pipe - 1))]> ps else ps).

(** One descriptor less refers to the node or the pipe end. *)
Definition drop_reference (nodes : list (option (ProcessNode N P))) ps (mapping : FdMapping)
  : outcome (list (option (ProcessNode N P)) * list (option ProcessPipe)) :=
  match mapping with
  | Regular node_index => let! nodes := close_node nodes node_index in Ret (nodes, ps)
  | PipeReadEnd pipe_index => let! ps := close_read_end ps pipe_index in Ret (nodes, ps)
  | PipeWriteEnd pipe_index => let! ps := close_write_end ps pipe_index in Ret (nodes, ps)
  | Stdin | Stdout | Stderr => Ret (nodes, ps)
  end.

Definition close pd ps (fd : nat) : outcome (ProcessData N P * list (option ProcessPipe) * Z) :=
  match get_mapping pd fd with
  | None => Ret (pd, ps, (-1)%Z)
  | Some mapping =>
      let! (nodes, ps) := drop_reference (open_nodes pd) ps mapping in
      let pd := set_fds pd (drain (<[fd := None]> (fd_mappings pd))) in
      Ret (set_nodes pd (drain nodes), ps, 0%Z)
  end.

(** * Duplicating *)

(** One more descriptor refers to the node or the pipe end. *)
Definition add_reference pd ps (mapping : FdMapping) : outcome (ProcessData N P * list (option ProcessPipe)) :=
  match mapping with
  | Regular i =>
      let! node := get_slot (open_nodes pd) i in
      Ret (set_nodes pd (<[i := Some (set_references node (reference_count node + 1))]> (open_nodes pd)), ps)
  | PipeReadEnd i =>
      let! pipe := get_slot ps i in
      Ret (pd, <[i := Some (set_readers pipe (readers_count pipe + 1))]> ps)
  | PipeWriteEnd i =>
      let! pipe := get_slot ps i in
      Ret (pd, <[i := Some (set_writers pipe (writers_count pipe + 1))]> ps)
  | Stdin | Stdout | Stderr => Ret (pd, ps)
  end.

Definition dup pd ps (oldfd : nat) : outcome (ProcessData N P * list (option ProcessPipe) * Z) :=
  match get_mapping pd oldfd with
  | None => Ret (pd, ps, (-1)%Z)
  | Some mapping =>
      let! (pd, ps) := add_reference pd ps mapping in
      let (fds, fd) := put_slot (fd_mappings pd) mapping in
      Ret (set_fds pd fds, ps, Z.of_nat fd)
  end.

(** The table is grown only when [newfd] is above its length. *)
Definition dup2 pd ps (oldfd newfd : nat) : outcome (ProcessData N P * list (option ProcessPipe) * Z) :=
  match get_mapping pd oldfd with
  | None => Ret (pd, ps, (-1)%Z)
  | Some mapping =>
      let! (pd, ps, _) := close pd ps newfd in
      let! (pd, ps) := add_reference pd ps mapping in
      let fds := fd_mappings pd in
      let fds := if length fds <? newfd then fds ++ replicate (newfd + 1 - length fds) None else fds in
      if newfd <? length fds
      then Ret (set_fds pd (<[newfd := Some mapping]> fds), ps, Z.of_nat newfd)
      else Panic
  end.

(** * Pipes *)

(** [fds] is an array of two [c_int]s in the process's memory; writing past the
    end of its region is undefined and counted as a panic. *)
Definition pipe (m : LittleEndianVirtualMemory) pd ps (fds : UserPointer)
  : outcome (LittleEndianVirtualMemory * ProcessData N P * list (option ProcessPipe) * Z) :=
  let! mapped := try_as_ptr fds m in
  match mapped with
  | None => Ret (m, pd, ps, (-1)%Z)
  | Some info =>
      let pipe_index := length ps in
      let ps := ps ++ [Some (MkPipe [] 1 1)] in
      let (t, read_fd) := put_slot (fd_mappings pd) (PipeReadEnd pipe_index) in
      let (t, write_fd) := put_slot t (PipeWriteEnd pipe_index) in
      let! r := unwrap (m !! region_index info) in
      let! bs := store_bytes (backing_storage r) (offset_in_region info)
                   (to_le_bytes 4 (Z.of_nat read_fd) ++ to_le_bytes 4 (Z.of_nat write_fd)) in
      Ret (<[region_index info := MkRegion (virtual_start r) bs]> m, set_fds pd t, ps, 0%Z)
  end.

(** [x as i32]. *)
Definition as_i32 (n : nat) : Z := to_signed 32 (wrap 32 (Z.of_nat n)).

(** [write] to a pipe's write end. *)
Definition write_pipe ps (pipe_index : nat) (buf : list Z) : outcome (list (option ProcessPipe) * Z) :=
  let! p := get_slot ps pipe_index in
  if readers_count p =? 0 then Ret (ps, (-1)%Z)
  else Ret (<[pipe_index := Some (set_buf p (pipe_buf p ++ buf))]> ps, as_i32 (length buf)).

(** [read] from a pipe's read end: the bytes for the caller's buffer, and the
    result; without one the process waits and the call is repeated. *)
Definition read_pipe pd ps (pipe_index count : nat)
  : outcome (ProcessData N P * list (option ProcessPipe) * list Z * option Z) :=
  let! p := get_slot ps pipe_index in
  let bytes := take count (pipe_buf p) in
  let ps' := <[pipe_index := Some (set_buf p (drop count (pipe_buf p)))]> ps in
  if length bytes =? 0 then
    if writers_count p =? 0 then Ret (pd, ps', [], Some 0%Z)
    else Ret (set_pd_state pd (WAITING_FOR_READ_PIPE pipe_index), ps', [], None)
  else Ret (pd, ps', bytes, Some (as_i32 (length bytes))).

(** * Fork and the end of a process *)

(** The loop of [fork] over the descriptors of the child. *)
Fixpoint fork_pipes ps (fds : list (option FdMapping)) : outcome (list (option ProcessPipe)) :=
  match fds with
  | [] => Ret ps
  | Some (PipeReadEnd i) :: rest =>
      let! p := get_slot ps i in
      fork_pipes (<[i := Some (set_readers p (readers_count p + 1))]> ps) rest
  | Some (PipeWriteEnd i) :: rest =>
      let! p := get_slot ps i in
      fork_pipes (<[i := Some (set_writers p (writers_count p + 1))]> ps) rest
  | _ :: rest => fork_pipes ps rest
  end.

(** [ProcessData::drop]: for [fd] in [fd..fd + n]; an index out of range
    panics. *)
Fixpoint drop_loop pd ps (fd n : nat) : outcome (ProcessData N P * list (option ProcessPipe)) :=
  match n with
  | O => Ret (pd, ps)
  | S n =>
      let! slot := unwrap (fd_mappings pd !! fd) in
      match slot with
      | Some (PipeReadEnd _) | Some (PipeWriteEnd _) =>
          let! (pd, ps, _) := close pd ps fd in drop_loop pd ps (S fd) n
      | _ => drop_loop pd ps (S fd) n
      end
  end.
Definition drop_process pd ps : outcome (list (option ProcessPipe)) :=
  let! (_, ps) := drop_loop pd ps 0 (length (fd_mappings pd)) in Ret ps.

End FdTable.
