(* ===== verification/FdTheorems.v ===== *)
(** Reference counts of open nodes and pipes: every operation on descriptors
    keeps them equal to the number of descriptors that refer to the node or the
    pipe end, so that no descriptor ever refers to something freed and nothing
    stays allocated without a descriptor. *)
From S2P Require Import Prelude MachineInt Str EmulatorMemory VirtMem Allocator Scheduler SchedInvariant Loader FdTable.
From stdpp Require Import list.
#[local] Open Scope nat_scope.

(** * Slots *)

(** What a table holds at an index. *)
Definition slot {A} (l : list (option A)) (i : nat) : option A := mjoin (l !! i).

Lemma slot_Some {A} (l : list (option A)) i x : slot l i = Some x <-> l !! i = Some (Some x).
Proof. unfold slot. destruct (l !! i) as [[]|]; simpl; naive_solver. Qed.

Lemma get_slot_slot {A} (l : list (option A)) i : get_slot l i = unwrap (slot l i).
Proof. unfold get_slot, slot. by destruct (l !! i) as [[]|]. Qed.

Lemma slot_drain {A} (l : list (option A)) i : slot (drain l) i = slot l i.
Proof.
  destruct (slot l i) eqn:E.
  - apply slot_Some, drain_lookup, slot_Some, E.
  - destruct (slot (drain l) i) eqn:E'; [|done].
    apply slot_Some in E'. rewrite drain_lookup in E'. apply slot_Some in E'. congruence.
Qed.

Lemma slot_insert {A} (l : list (option A)) i o j :
  i < length l -> slot (<[i := o]> l) j = if decide (j = i) then o else slot l j.
Proof.
  intros H. unfold slot. destruct (decide (j = i)) as [->|Hj].
  - by rewrite list_lookup_insert_eq.
  - by rewrite list_lookup_insert_ne.
Qed.

Lemma slot_lt {A} (l : list (option A)) i x : slot l i = Some x -> i < length l.
Proof. rewrite slot_Some. apply lookup_lt_Some. Qed.

Lemma slot_app {A} (l : list (option A)) x j :
  slot (l ++ [Some x]) j = if decide (j = length l) then Some x else slot l j.
Proof.
  unfold slot. destruct (decide (j = length l)) as [->|Hj].
  - by rewrite list_lookup_middle.
  - destruct (decide (j < length l)).
    + by rewrite lookup_app_l.
    + rewrite lookup_ge_None_2 by (rewrite length_app; simpl; lia). by rewrite lookup_ge_None_2 by lia.
Qed.

(** A slot taken from a table was free, and the others are as before. *)
Lemma put_slot_spec {A} (l : list (option A)) x l' i :
  put_slot l x = (l', i) ->
  slot l i = None /\ (forall k, k < i -> slot l k <> None) /\ i <= length l /\
  forall j, slot l' j = if decide (j = i) then Some x else slot l j.
Proof.
  unfold put_slot. destruct (list_find (fun o => is_free o = true) l) as [[k o]|] eqn:E; intros [= <- <-].
  - apply list_find_Some in E as (Hk & Ho & Hfirst). destruct o; [done|].
    split; [unfold slot; by rewrite Hk|]. split; [|split; [apply lookup_lt_Some in Hk; lia|]].
    + intros j Hj Hs. destruct (lookup_lt_is_Some_2 l j) as [o Ho'].
      { apply lookup_lt_Some in Hk. lia. }
      destruct o as [a|]; [unfold slot in Hs; by rewrite Ho' in Hs|]. by destruct (Hfirst j None Ho' Hj).
    + intros j. apply slot_insert. by apply lookup_lt_Some in Hk.
  - apply list_find_None in E. split; [unfold slot; by rewrite lookup_ge_None_2|].
    split; [|split; [lia|intros j; apply slot_app]].
    intros k Hk Hs. destruct (lookup_lt_is_Some_2 l k Hk) as [o Ho].
    rewrite Forall_lookup in E. specialize (E k o Ho). unfold slot in Hs. rewrite Ho in Hs.
    simpl in Hs. subst. by destruct E.
Qed.

(** * Counting references *)

(** The number of descriptors mapped to [x]. *)
Definition hits (x : FdMapping) (o : option FdMapping) : nat := if decide (o = Some x) then 1 else 0.
Definition refs (x : FdMapping) (l : list (option FdMapping)) : nat := sum_list_with (hits x) l.

Lemma refs_insert x l i o o' :
  l !! i = Some o -> refs x (<[i := o']> l) + hits x o = refs x l + hits x o'.
Proof.
  revert i. unfold refs. induction l as [|y l IH]; intros [|i] Hi; try done; simpl in *.
  - injection Hi as ->. lia.
  - specialize (IH i Hi). lia.
Qed.

Lemma refs_app x l k : refs x (l ++ k) = refs x l + refs x k.
Proof. apply sum_list_with_app. Qed.

Lemma refs_replicate_none x n : refs x (replicate n None) = 0.
Proof. induction n; [done|]. unfold refs in *. simpl. by rewrite IHn. Qed.

Lemma refs_drain x l : refs x (drain l) = refs x l.
Proof.
  destruct (drain_split l) as [k E]. rewrite E at 2. rewrite refs_app, refs_replicate_none. lia.
Qed.

Lemma refs_slot x l i : slot l i = Some x -> 0 < refs x l.
Proof.
  intros H. apply slot_Some in H. pose proof (refs_insert x l i (Some x) None H) as E.
  unfold hits in E. rewrite decide_True, decide_False in E by done. lia.
Qed.

Lemma refs_clear x l i y :
  slot l i = Some y -> refs x (<[i := None]> l) = refs x l - (if decide (x = y) then 1 else 0).
Proof.
  intros H. pose proof H as Hp. apply slot_Some in H. pose proof (refs_insert x l i (Some y) None H) as E.
  unfold hits in E. rewrite (decide_False (P := None = Some x)) in E by done.
  destruct (decide (Some y = Some x)), (decide (x = y)); try congruence; lia.
Qed.

Lemma refs_set x l i y :
  i < length l -> slot l i = None ->
  refs x (<[i := Some y]> l) = refs x l + (if decide (x = y) then 1 else 0).
Proof.
  intros Hl H. destruct (lookup_lt_is_Some_2 l i Hl) as [o Ho].
  assert (o = None) as -> by (unfold slot in H; rewrite Ho in H; by destruct o).
  pose proof (refs_insert x l i None (Some y) Ho) as E. unfold hits in E.
  rewrite (decide_False (P := None = Some x)) in E by done.
  destruct (decide (Some y = Some x)), (decide (x = y)); try congruence; lia.
Qed.

Lemma refs_put x l y l' i :
  put_slot l y = (l', i) -> refs x l' = refs x l + (if decide (x = y) then 1 else 0).
Proof.
  intros E. pose proof (put_slot_spec l y l' i E) as (Hf & _ & Hi & _). unfold put_slot in E.
  destruct (list_find _ l) as [[k o]|] eqn:F; injection E as <- <-.
  - apply list_find_Some in F as (Hk & _). apply refs_set; [by apply lookup_lt_Some in Hk|done].
  - rewrite refs_app. unfold refs at 2. simpl. unfold hits.
    destruct (decide (Some y = Some x)), (decide (x = y)); try congruence; lia.
Qed.

(** * Counted tables *)

(** Each node is there exactly while something refers to it, and knows how
    often. *)
Definition node_counts {N P} (c : nat -> nat) (l : list (option (ProcessNode N P))) : Prop :=
  forall i, match slot l i with
            | Some n => reference_count n = c i /\ 0 < c i
            | None => c i = 0
            end.

Definition pipe_counts (r w : nat -> nat) (l : list (option ProcessPipe)) : Prop :=
  forall i, match slot l i with
            | Some p => readers_count p = r i /\ writers_count p = w i /\ 0 < r i + w i
            | None => r i = 0 /\ w i = 0
            end.

#[export] Instance node_counts_proper {N P} :
  Proper (pointwise_relation nat eq ==> eq ==> iff) (@node_counts N P).
Proof.
  intros c c' H l ? <-. unfold node_counts. split; intros Hc i; specialize (Hc i); specialize (H i);
    destruct (slot l i); intuition congruence.
Qed.

#[export] Instance pipe_counts_proper :
  Proper (pointwise_relation nat eq ==> pointwise_relation nat eq ==> eq ==> iff) pipe_counts.
Proof.
  intros r r' Hr w w' Hw l ? <-. unfold pipe_counts. split; intros Hc i; specialize (Hc i);
    specialize (Hr i); specialize (Hw i); destruct (slot l i); intuition congruence.
Qed.

Definition upd (f : nat -> nat) (i v : nat) : nat -> nat := fun j => if decide (j = i) then v else f j.

Lemma node_counts_drain {N P} c (l : list (option (ProcessNode N P))) : node_counts c l -> node_counts c (drain l).
Proof. intros H i. rewrite slot_drain. apply H. Qed.

Lemma pipe_counts_drain r w l : pipe_counts r w l -> pipe_counts r w (drain l).
Proof. intros H i. rewrite slot_drain. apply H. Qed.

Lemma node_counts_insert {N P} c (l : list (option (ProcessNode N P))) i o v :
  node_counts c l -> i < length l ->
  match o with Some n => reference_count n = v /\ 0 < v | None => v = 0 end ->
  node_counts (upd c i v) (<[i := o]> l).
Proof.
  intros H Hi Ho j. rewrite slot_insert by done. unfold upd. destruct (decide (j = i)); [done|apply H].
Qed.

Lemma pipe_counts_insert r w l i o vr vw :
  pipe_counts r w l -> i < length l ->
  match o with Some p => readers_count p = vr /\ writers_count p = vw /\ 0 < vr + vw | None => vr = 0 /\ vw = 0 end ->
  pipe_counts (upd r i vr) (upd w i vw) (<[i := o]> l).
Proof.
  intros H Hi Ho j. rewrite slot_insert by done. unfold upd. destruct (decide (j = i)); [done|apply H].
Qed.

Lemma upd_same f i : pointwise_relation nat eq (upd f i (f i)) f.
Proof. intros j. unfold upd. by destruct (decide (j = i)) as [->|]. Qed.

(** * One reference less, one reference more *)

Lemma close_node_counts {N P} c (l : list (option (ProcessNode N P))) i :
  node_counts c l -> 0 < c i ->
  exists l', close_node l i = Ret l' /\ node_counts (upd c i (c i - 1)) l'.
Proof.
  intros H Hc. pose proof (H i) as Hi. unfold close_node. rewrite get_slot_slot.
  destruct (slot l i) as [n|] eqn:E; [|lia]. apply slot_lt in E as Hl. destruct Hi as [Hn _]. cbn [unwrap obind].
  eexists. split; [reflexivity|]. destruct (Nat.eqb_spec (reference_count n) 1).
  - apply node_counts_insert; [done..|]. lia.
  - destruct (Nat.ltb_spec 1 (reference_count n)); [|lia].
    apply node_counts_insert; [done..|]. simpl. lia.
Qed.

Lemma close_read_end_counts r w l i :
  pipe_counts r w l -> 0 < r i ->
  exists l', close_read_end l i = Ret l' /\ pipe_counts (upd r i (r i - 1)) w l'.
Proof.
  intros H Hc. pose proof (H i) as Hi. unfold close_read_end. rewrite get_slot_slot.
  destruct (slot l i) as [p|] eqn:E; [|lia]. apply slot_lt in E as Hl. destruct Hi as (Hr & Hw & _). cbn [unwrap obind].
  eexists. split; [reflexivity|]. rewrite <- (upd_same w i).
  destruct (Nat.eqb_spec (readers_count p) 1), (Nat.eqb_spec (writers_count p) 0); cbn [andb].
  1: apply pipe_counts_drain, pipe_counts_insert; [done..|]; lia.
  all: destruct (Nat.leb_spec 1 (readers_count p)); [|lia]; apply pipe_counts_insert; [done..|]; simpl; lia.
Qed.

Lemma close_write_end_counts r w l i :
  pipe_counts r w l -> 0 < w i ->
  exists l', close_write_end l i = Ret l' /\ pipe_counts r (upd w i (w i - 1)) l'.
Proof.
  intros H Hc. pose proof (H i) as Hi. unfold close_write_end. rewrite get_slot_slot.
  destruct (slot l i) as [p|] eqn:E; [|lia]. apply slot_lt in E as Hl. destruct Hi as (Hr & Hw & _). cbn [unwrap obind].
  eexists. split; [reflexivity|]. rewrite <- (upd_same r i).
  destruct (Nat.eqb_spec (writers_count p) 1), (Nat.eqb_spec (readers_count p) 0); cbn [andb].
  1: apply pipe_counts_drain, pipe_counts_insert; [done..|]; lia.
  all: destruct (Nat.leb_spec 1 (writers_count p)); [|lia]; apply pipe_counts_insert; [done..|]; simpl; lia.
Qed.

Lemma more_readers r w l i p :
  pipe_counts r w l -> slot l i = Some p ->
  pipe_counts (upd r i (r i + 1)) w (<[i := Some (set_readers p (readers_count p + 1))]> l).
Proof.
  intros H E. pose proof (H i) as Hi. rewrite E in Hi. rewrite <- (upd_same w i).
  apply pipe_counts_insert; [done|by eapply slot_lt|]. simpl. lia.
Qed.

Lemma more_writers r w l i p :
  pipe_counts r w l -> slot l i = Some p ->
  pipe_counts r (upd w i (w i + 1)) (<[i := Some (set_writers p (writers_count p + 1))]> l).
Proof.
  intros H E. pose proof (H i) as Hi. rewrite E in Hi. rewrite <- (upd_same r i).
  apply pipe_counts_insert; [done|by eapply slot_lt|]. simpl. lia.
Qed.

Lemma pipe_exists r w l i : pipe_counts r w l -> 0 < r i + w i -> exists p, slot l i = Some p.
Proof. intros H Hc. specialize (H i). destruct (slot l i); [eauto|lia]. Qed.

(** * The invariant *)

(** [others i] are the numbers of read and write ends of pipe [i] that other
    processes hold. *)
Record fd_inv {N P} (others : nat -> nat * nat) (pd : ProcessData N P) (ps : list (option ProcessPipe)) : Prop := {
  fd_nodes : node_counts (fun i => refs (Regular i) (fd_mappings pd)) (open_nodes pd);
  fd_pipes : pipe_counts (fun i => refs (PipeReadEnd i) (fd_mappings pd) + (others i).1)
               (fun i => refs (PipeWriteEnd i) (fd_mappings pd) + (others i).2) ps;
  fd_last : last (fd_mappings pd) <> Some None;
}.

Section FdTheorems.
Context {N P : Type}.
Implicit Types (pd : ProcessData N P) (ps : list (option ProcessPipe)) (others : nat -> nat * nat).

Lemma get_mapping_slot pd fd : get_mapping pd fd = slot (fd_mappings pd) fd.
Proof. unfold get_mapping, slot. by destruct (fd_mappings pd !! fd) as [[]|]. Qed.

(** The change of a count when a descriptor mapped to [m] comes or goes. *)
Definition one (x m : FdMapping) : nat := if decide (x = m) then 1 else 0.

Lemma one_eq x m : x = m -> one x m = 1.
Proof. intros. unfold one. by rewrite decide_True. Qed.
Lemma one_ne x m : x <> m -> one x m = 0.
Proof. intros. unfold one. by rewrite decide_False. Qed.

(** The counts once a descriptor mapped to [m] is gone. *)
Lemma refs_closed (fds : list (option FdMapping)) fd m x :
  slot fds fd = Some m -> refs x (drain (<[fd := None]> fds)) = refs x fds - one x m.
Proof. intros H. rewrite refs_drain. by apply refs_clear. Qed.

Lemma upd_one_minus (c : nat -> nat) (mk : nat -> FdMapping) i :
  (forall j, mk j = mk i -> j = i) ->
  pointwise_relation nat eq (upd c i (c i - 1)) (fun j => c j - one (mk j) (mk i)).
Proof.
  intros inj j. unfold upd. destruct (decide (j = i)) as [->|]; [by rewrite one_eq|].
  rewrite one_ne by auto. lia.
Qed.

Lemma upd_one_plus (c : nat -> nat) (mk : nat -> FdMapping) i :
  (forall j, mk j = mk i -> j = i) ->
  pointwise_relation nat eq (upd c i (c i + 1)) (fun j => c j + one (mk j) (mk i)).
Proof.
  intros inj j. unfold upd. destruct (decide (j = i)) as [->|]; [by rewrite one_eq|].
  rewrite one_ne by auto. lia.
Qed.

(** The three counts that a mapping contributes to. *)
Definition counts_ok (c r w : nat -> nat) (nodes : list (option (ProcessNode N P))) ps : Prop :=
  node_counts c nodes /\ pipe_counts r w ps.
Definition has_reference (c r w : nat -> nat) (m : FdMapping) : Prop :=
  match m with
  | Regular i => 0 < c i
  | PipeReadEnd i => 0 < r i
  | PipeWriteEnd i => 0 < w i
  | _ => True
  end.

Lemma counts_ok_ext c r w c' r' w' nodes ps :
  (forall i, c i = c' i) -> (forall i, r i = r' i) -> (forall i, w i = w' i) ->
  counts_ok c r w nodes ps -> counts_ok c' r' w' nodes ps.
Proof.
  intros Hc Hr Hw [H1 H2]. split.
  - by eapply node_counts_proper; [symmetry; exact Hc|reflexivity|].
  - by eapply pipe_counts_proper; [symmetry; exact Hr|symmetry; exact Hw|reflexivity|].
Qed.

Lemma drop_reference_counts c r w nodes ps m :
  counts_ok c r w nodes ps -> has_reference c r w m ->
  exists nodes' ps', drop_reference nodes ps m = Ret (nodes', ps') /\
    counts_ok (fun i => c i - one (Regular i) m) (fun i => r i - one (PipeReadEnd i) m)
      (fun i => w i - one (PipeWriteEnd i) m) nodes' ps'.
Proof.
  intros [Hn Hp] Hm. destruct m as [i|i|i| | |]; simpl in Hm;
    [ destruct (close_node_counts _ _ i Hn Hm) as (l & E & Hc)
    | destruct (close_read_end_counts _ _ _ i Hp Hm) as (l & E & Hc)
    | destruct (close_write_end_counts _ _ _ i Hp Hm) as (l & E & Hc) | | | ];
    cbn [drop_reference]; rewrite ?E; cbn [obind]; (eexists _, _; split; [reflexivity|]).
  - eapply (counts_ok_ext (upd c i (c i - 1)) r w); [apply (upd_one_minus c Regular); congruence|..|done];
      intros j; rewrite one_ne by done; lia.
  - eapply (counts_ok_ext c (upd r i (r i - 1)) w); [|apply (upd_one_minus r PipeReadEnd); congruence|..|done];
      intros j; rewrite one_ne by done; lia.
  - eapply (counts_ok_ext c r (upd w i (w i - 1))); [| |apply (upd_one_minus w PipeWriteEnd); congruence|done];
      intros j; rewrite one_ne by done; lia.
  - eapply counts_ok_ext; [..|by split]; intros j; rewrite one_ne by done; lia.
  - eapply counts_ok_ext; [..|by split]; intros j; rewrite one_ne by done; lia.
  - eapply counts_ok_ext; [..|by split]; intros j; rewrite one_ne by done; lia.
Qed.

Lemma fd_inv_counts others pd ps :
  fd_inv others pd ps <->
  counts_ok (fun i => refs (Regular i) (fd_mappings pd))
    (fun i => refs (PipeReadEnd i) (fd_mappings pd) + (others i).1)
    (fun i => refs (PipeWriteEnd i) (fd_mappings pd) + (others i).2) (open_nodes pd) ps /\
  last (fd_mappings pd) <> Some None.
Proof. split; [intros []; done|intros [[] ?]; done]. Qed.

Lemma mapping_reference others pd ps fd m :
  slot (fd_mappings pd) fd = Some m ->
  has_reference (fun i => refs (Regular i) (fd_mappings pd))
    (fun i => refs (PipeReadEnd i) (fd_mappings pd) + (others i).1)
    (fun i => refs (PipeWriteEnd i) (fd_mappings pd) + (others i).2) m.
Proof. intros E. pose proof (refs_slot _ _ _ E). destruct m; simpl; lia || done. Qed.

(** [close]: the mapping is gone, the others are as before, and the counts are
    right again. *)
Lemma close_spec others pd ps fd :
  fd_inv others pd ps ->
  exists pd' ps', close pd ps fd = Ret (pd', ps', if slot (fd_mappings pd) fd then 0%Z else (-1)%Z) /\
    fd_inv others pd' ps' /\
    fd_mappings pd' = (if slot (fd_mappings pd) fd then drain (<[fd := None]> (fd_mappings pd)) else fd_mappings pd).
Proof.
  intros H. unfold close. rewrite get_mapping_slot.
  destruct (slot (fd_mappings pd) fd) as [m|] eqn:E; [|by exists pd, ps].
  pose proof (refs_slot _ _ _ E) as Hpos. pose proof H as [Hc _]%fd_inv_counts.
  destruct (drop_reference_counts _ _ _ _ _ m Hc (mapping_reference others pd ps fd m E)) as (nodes & ps' & -> & Hc').
  cbn [obind]. eexists _, ps'. split; [reflexivity|]. split; [|done].
  apply fd_inv_counts. cbn [fd_mappings open_nodes set_nodes set_fds]. split; [|apply drain_last].
  destruct Hc' as [H1 H2]. split; [apply node_counts_drain|].
  - eapply node_counts_proper; [|reflexivity|exact H1]. intros i. by apply refs_closed.
  - eapply pipe_counts_proper; [| |reflexivity|exact H2]; intros i; rewrite (refs_closed _ _ m) by done;
      unfold one; case_decide; subst; lia.
Qed.

Lemma slot_closed (fds : list (option FdMapping)) fd m j :
  slot fds fd = Some m -> slot (drain (<[fd := None]> fds)) j = if decide (j = fd) then None else slot fds j.
Proof. intros H. rewrite slot_drain. apply slot_insert. by eapply slot_lt. Qed.

(** One reference more. *)
Lemma add_reference_counts c r w pd ps m :
  counts_ok c r w (open_nodes pd) ps -> has_reference c r w m ->
  exists nodes ps', add_reference pd ps m = Ret (set_nodes pd nodes, ps') /\
    counts_ok (fun i => c i + one (Regular i) m) (fun i => r i + one (PipeReadEnd i) m)
      (fun i => w i + one (PipeWriteEnd i) m) nodes ps'.
Proof.
  intros [Hn Hp] Hm.
  assert (counts_ok (fun i => c i + 0) (fun i => r i + 0) (fun i => w i + 0) (open_nodes pd) ps) as H0
    by (eapply counts_ok_ext; [..|by split]; intros; lia).
  assert (set_nodes pd (open_nodes pd) = pd) as Eself by by destruct pd.
  destruct m as [i|i|i| | |]; simpl in Hm; cbn [add_reference]; rewrite ?get_slot_slot.
  - pose proof (Hn i) as Hi. destruct (slot (open_nodes pd) i) as [n|] eqn:E; [|lia]. cbn [unwrap obind].
    eexists _, _. split; [reflexivity|].
    eapply (counts_ok_ext (upd c i (c i + 1)) r w); [apply (upd_one_plus c Regular); congruence|..].
    1,2: intros j; rewrite one_ne by done; lia.
    split; [|done]. apply node_counts_insert; [done|by eapply slot_lt|]. simpl. lia.
  - destruct (pipe_exists _ _ _ i Hp) as [p E]; [lia|]. rewrite E. cbn [unwrap obind].
    eexists (open_nodes pd), _. rewrite Eself. split; [reflexivity|].
    eapply (counts_ok_ext c (upd r i (r i + 1)) w); [|apply (upd_one_plus r PipeReadEnd); congruence|..].
    1,2: intros j; rewrite one_ne by done; lia.
    split; [done|by apply more_readers].
  - destruct (pipe_exists _ _ _ i Hp) as [p E]; [lia|]. rewrite E. cbn [unwrap obind].
    eexists (open_nodes pd), _. rewrite Eself. split; [reflexivity|].
    eapply (counts_ok_ext c r (upd w i (w i + 1))); [| |apply (upd_one_plus w PipeWriteEnd); congruence|].
    1,2: intros j; rewrite one_ne by done; lia.
    split; [done|by apply more_writers].
  - eexists (open_nodes pd), _. rewrite Eself. split; [reflexivity|exact H0].
  - eexists (open_nodes pd), _. rewrite Eself. split; [reflexivity|exact H0].
  - eexists (open_nodes pd), _. rewrite Eself. split; [reflexivity|exact H0].
Qed.

(** * Properties *)

(** Closing a descriptor never panics and keeps every count right: the node
    or pipe end it was mapped to has one reference less and is freed with the
    last one, whatever other processes hold.  It answers 0 exactly when the
    descriptor was open; afterwards the descriptor is closed and every other
    descriptor is mapped as before. *)
Theorem close_keeps_counts others pd ps fd :
  fd_inv others pd ps ->
  exists pd' ps' r, close pd ps fd = Ret (pd', ps', r) /\ fd_inv others pd' ps' /\
    (r = 0%Z <-> get_mapping pd fd <> None) /\
    forall j, get_mapping pd' j = if decide (j = fd) then None else get_mapping pd j.
Proof.
  intros H. destruct (close_spec others pd ps fd H) as (pd' & ps' & E & H' & M).
  eexists pd', ps', _. split; [exact E|]. split; [done|]. rewrite get_mapping_slot.
  destruct (slot (fd_mappings pd) fd) as [m|] eqn:S.
  - split; [done|]. intros j. rewrite !get_mapping_slot, M. by eapply slot_closed.
  - split; [done|]. intros j. rewrite !get_mapping_slot, M. by destruct (decide (j = fd)) as [->|].
Qed.

Lemma put_slot_last {A} (l : list (option A)) x l' i :
  put_slot l x = (l', i) -> last l <> Some None -> last l' <> Some None.
Proof.
  unfold put_slot. destruct (list_find _ l) as [[k o]|] eqn:E; intros [= <- <-] H; [|by rewrite last_snoc].
  rewrite last_lookup, length_insert. intros E'. apply list_lookup_insert_Some in E' as [(_ & ? & _)|[_ E']]; [done|].
  by rewrite <- last_lookup in E'.
Qed.

(** Mapping a fresh descriptor after its reference was counted. *)
Lemma put_mapping_inv others pd nodes ps m fds fd :
  fd_inv others pd ps -> put_slot (fd_mappings pd) m = (fds, fd) ->
  forall ps', counts_ok (fun i => refs (Regular i) (fd_mappings pd) + one (Regular i) m)
    (fun i => refs (PipeReadEnd i) (fd_mappings pd) + (others i).1 + one (PipeReadEnd i) m)
    (fun i => refs (PipeWriteEnd i) (fd_mappings pd) + (others i).2 + one (PipeWriteEnd i) m) nodes ps' ->
  fd_inv others (set_fds (set_nodes pd nodes) fds) ps'.
Proof.
  intros H E ps' Hc. apply fd_inv_counts. cbn [fd_mappings open_nodes set_nodes set_fds].
  split; [|eapply put_slot_last; [exact E|apply H]].
  eapply counts_ok_ext; [..|exact Hc]; intros i; rewrite (refs_put _ _ _ _ _ E); unfold one; case_decide; lia.
Qed.

(** Duplicating an open descriptor never panics, maps the lowest free
    descriptor to the same node or pipe end, leaves the other descriptors alone
    and counts the new reference; a descriptor that is not open gives -1 and
    changes nothing. *)
Theorem dup_keeps_counts others pd ps oldfd :
  fd_inv others pd ps ->
  match get_mapping pd oldfd with
  | None => dup pd ps oldfd = Ret (pd, ps, (-1)%Z)
  | Some m => exists pd' ps' fd, dup pd ps oldfd = Ret (pd', ps', Z.of_nat fd) /\ fd_inv others pd' ps' /\
      get_mapping pd fd = None /\ (forall k, k < fd -> get_mapping pd k <> None) /\
      forall j, get_mapping pd' j = if decide (j = fd) then Some m else get_mapping pd j
  end.
Proof.
  intros H. unfold dup. destruct (get_mapping pd oldfd) as [m|] eqn:S; [|done].
  rewrite get_mapping_slot in S. pose proof H as [Hc _]%fd_inv_counts.
  destruct (add_reference_counts _ _ _ _ _ m Hc (mapping_reference others pd ps oldfd m S)) as (nodes & ps' & -> & Hc').
  cbn [obind]. destruct (put_slot (fd_mappings (set_nodes pd nodes)) m) as [fds fd] eqn:E.
  change (fd_mappings (set_nodes pd nodes)) with (fd_mappings pd) in E.
  eexists _, ps', fd. split; [reflexivity|]. destruct (put_slot_spec _ _ _ _ E) as (F1 & F2 & _ & F4).
  split; [by eapply put_mapping_inv|]. split; [by rewrite get_mapping_slot|].
  split; [intros k; rewrite get_mapping_slot; apply F2|]. intros j. rewrite !get_mapping_slot. apply F4.
Qed.

(** The tables with a new pipe and its two descriptors. *)
Lemma pipe_tables others pd ps t1 rfd t2 wfd :
  fd_inv others pd ps -> put_slot (fd_mappings pd) (PipeReadEnd (length ps)) = (t1, rfd) ->
  put_slot t1 (PipeWriteEnd (length ps)) = (t2, wfd) -> fd_inv others (set_fds pd t2) (ps ++ [Some (MkPipe [] 1 1)]).
Proof.
  intros H E1 E2. apply fd_inv_counts. cbn [fd_mappings open_nodes set_fds]. destruct H as [H1 H2 H3]. split.
  2:{ eapply put_slot_last; [exact E2|]. by eapply put_slot_last. }
  pose proof (fun x => refs_put x _ _ _ _ E1) as R1. pose proof (fun x => refs_put x _ _ _ _ E2) as R2.
  split.
  - eapply node_counts_proper; [|reflexivity|exact H1]. intros j. rewrite R2, R1, !decide_False by done. lia.
  - intros j. rewrite slot_app, !R2, !R1. specialize (H2 j). rewrite !(decide_False (P := PipeReadEnd j = PipeWriteEnd _)),
      !(decide_False (P := PipeWriteEnd j = PipeReadEnd _)) by done.
    destruct (decide (j = length ps)) as [->|Hj].
    + rewrite !decide_True by done. unfold slot in H2. rewrite lookup_ge_None_2 in H2 by lia. simpl in H2. simpl. lia.
    + rewrite !decide_False by congruence. destruct (slot ps j); lia.
Qed.

Lemma pipe_inv others m pd ps fds m' pd' ps' v :
  fd_inv others pd ps -> pipe m pd ps fds = Ret (m', pd', ps', v) -> fd_inv others pd' ps'.
Proof.
  intros H E. unfold pipe in E. apply obind_Ret in E as ([info|] & _ & E); [|by simplify_eq].
  destruct (put_slot (fd_mappings pd) _) as [t1 rfd] eqn:E1. destruct (put_slot t1 _) as [t2 wfd] eqn:E2.
  apply obind_Ret in E as (r & _ & E). apply obind_Ret in E as (bs & _ & E). simplify_eq. by eapply pipe_tables.
Qed.

(** Creating a pipe never panics when the array for the two descriptors lies
    in one region: the pipe takes a new index, its read end and write end are
    mapped to two descriptors that were free, which are stored in the array as
    32-bit integers, the other descriptors are unchanged, and the counts are
    right. *)
Theorem pipe_keeps_counts others m pd ps fds r i :
  fd_inv others pd ps -> vm_wf m -> m !! i = Some r -> covers r (inner fds) ->
  (inner fds + 8 <= virtual_start r + region_len r)%Z ->
  exists bs pd' ps' rfd wfd,
    pipe m pd ps fds = Ret (<[i := MkRegion (virtual_start r) bs]> m, pd', ps', 0%Z) /\
    store_bytes (backing_storage r) (Z.to_nat (inner fds - virtual_start r))
      (to_le_bytes 4 (Z.of_nat rfd) ++ to_le_bytes 4 (Z.of_nat wfd)) = Ret bs /\
    fd_inv others pd' ps' /\
    rfd <> wfd /\ get_mapping pd rfd = None /\ get_mapping pd wfd = None /\
    (forall j, get_mapping pd' j = if decide (j = wfd) then Some (PipeWriteEnd (length ps))
                                  else if decide (j = rfd) then Some (PipeReadEnd (length ps))
                                  else get_mapping pd j).
Proof.
  intros H Hm Hi Hcov Hfit. unfold pipe, try_as_ptr. rewrite (try_map_covers m _ i r) by done.
  cbn [obind fmap option_fmap option_map snd].
  destruct (put_slot (fd_mappings pd) (PipeReadEnd (length ps))) as [t1 rfd] eqn:E1.
  destruct (put_slot t1 (PipeWriteEnd (length ps))) as [t2 wfd] eqn:E2.
  cbn [region_index offset_in_region]. rewrite Hi. cbn [unwrap obind].
  destruct (store_bytes_ok (to_le_bytes 4 (Z.of_nat rfd) ++ to_le_bytes 4 (Z.of_nat wfd)) (backing_storage r)
    (Z.to_nat (inner fds - virtual_start r))) as [bs Ebs].
  { rewrite length_app, !length_to_le_bytes. unfold covers, region_len in *. lia. }
  rewrite Ebs. cbn [obind]. destruct (put_slot_spec _ _ _ _ E1) as (A1 & _ & _ & A4).
  destruct (put_slot_spec _ _ _ _ E2) as (B1 & _ & _ & B4).
  eexists _, _, _, rfd, wfd. split; [reflexivity|]. split; [exact Ebs|].
  assert (rfd <> wfd) as Hne by (intros ->; by rewrite A4, decide_True in B1).
  rewrite A4, decide_False in B1 by done.
  split; [|rewrite !get_mapping_slot; split; [done|]; split; [done|]; split; [done|];
    intros j; rewrite !get_mapping_slot; simpl; rewrite B4, A4; done].
  by eapply pipe_tables.
Qed.

(** The descriptors once [newfd] was closed. *)
Definition table_after_close pd (newfd : nat) : list (option FdMapping) :=
  match slot (fd_mappings pd) newfd with Some _ => drain (<[newfd := None]> (fd_mappings pd)) | None => fd_mappings pd end.

Lemma table_after_close_slot pd newfd j :
  slot (table_after_close pd newfd) j = if decide (j = newfd) then None else slot (fd_mappings pd) j.
Proof.
  unfold table_after_close. destruct (slot (fd_mappings pd) newfd) eqn:E; [by eapply slot_closed|].
  by destruct (decide (j = newfd)) as [->|].
Qed.

Lemma slot_grow {A} (l : list (option A)) n j : slot (l ++ replicate n None) j = slot l j.
Proof.
  unfold slot. destruct (decide (j < length l)); [by rewrite lookup_app_l|].
  rewrite lookup_app_r, (lookup_ge_None_2 l) by lia.
  destruct (replicate n None !! (j - length l)) as [o|] eqn:E; [|done].
  by apply lookup_replicate in E as [-> _].
Qed.

(** A reference that could be added is counted. *)
Lemma add_reference_inv others pd ps m pd' ps' :
  fd_inv others pd ps -> add_reference pd ps m = Ret (pd', ps') ->
  exists nodes, pd' = set_nodes pd nodes /\
    counts_ok (fun i => refs (Regular i) (fd_mappings pd) + one (Regular i) m)
      (fun i => refs (PipeReadEnd i) (fd_mappings pd) + (others i).1 + one (PipeReadEnd i) m)
      (fun i => refs (PipeWriteEnd i) (fd_mappings pd) + (others i).2 + one (PipeWriteEnd i) m) nodes ps'.
Proof.
  intros H E. pose proof H as [[Hn Hp] _]%fd_inv_counts.
  destruct m as [i|i|i| | |]; cbn [add_reference] in E; inv_outcome; simplify_eq;
    try (rewrite get_slot_slot in *; inv_outcome).
  - eexists. split; [reflexivity|]. pose proof (Hn i) as Hi. rewrite H0 in Hi. simpl in Hi. destruct Hi as [Hi Hpos].
    eapply counts_ok_ext; [..|split; [eapply (node_counts_insert _ _ i _ (refs (Regular i) (fd_mappings pd) + 1)); [exact Hn|by eapply slot_lt|]|exact Hp]].
    + apply (upd_one_plus (fun i => refs (Regular i) (fd_mappings pd)) Regular). congruence.
    + intros j. rewrite one_ne by done. lia.
    + intros j. rewrite one_ne by done. lia.
    + simpl. lia.
  - exists (open_nodes pd'). split; [by destruct pd'|].
    eapply counts_ok_ext; [..|split; [exact Hn|by eapply more_readers]].
    + intros j. rewrite one_ne by done. lia.
    + eapply (upd_one_plus (fun i => _ + _) PipeReadEnd). congruence.
    + intros j. rewrite one_ne by done. lia.
  - exists (open_nodes pd'). split; [by destruct pd'|].
    eapply counts_ok_ext; [..|split; [exact Hn|by eapply more_writers]].
    + intros j. rewrite one_ne by done. lia.
    + intros j. rewrite one_ne by done. lia.
    + eapply (upd_one_plus (fun i => _ + _) PipeWriteEnd). congruence.
  - exists (open_nodes pd'). split; [by destruct pd'|].
    eapply counts_ok_ext; [..|by split]; intros j; rewrite one_ne by done; lia.
  - exists (open_nodes pd'). split; [by destruct pd'|].
    eapply counts_ok_ext; [..|by split]; intros j; rewrite one_ne by done; lia.
  - exists (open_nodes pd'). split; [by destruct pd'|].
    eapply counts_ok_ext; [..|by split]; intros j; rewrite one_ne by done; lia.
Qed.

Lemma dup_inv others pd ps oldfd pd' ps' v :
  fd_inv others pd ps -> dup pd ps oldfd = Ret (pd', ps', v) -> fd_inv others pd' ps'.
Proof.
  intros H E. unfold dup in E. destruct (get_mapping pd oldfd) as [m|]; [|by simplify_eq].
  apply obind_Ret in E as ([pd1 ps1] & E1 & E). destruct (add_reference_inv _ _ _ _ _ _ H E1) as (nodes & -> & Hc).
  destruct (put_slot _ m) as [fds fd] eqn:Ep. simplify_eq. by eapply put_mapping_inv.
Qed.

(** A table grown to hold descriptor [newfd]. *)
Definition grown (t : list (option FdMapping)) (newfd : nat) : list (option FdMapping) :=
  if length t <? newfd then t ++ replicate (newfd + 1 - length t) None else t.

Lemma grown_slot t newfd j : slot (grown t newfd) j = slot t j.
Proof. unfold grown. case_match; [apply slot_grow|done]. Qed.

Lemma grown_refs t newfd x : refs x (grown t newfd) = refs x t.
Proof. unfold grown. case_match; [|done]. rewrite refs_app, refs_replicate_none. lia. Qed.

(** Mapping a free descriptor of one's choice after its reference was counted. *)
Lemma set_mapping_inv others pd nodes ps' m newfd :
  last (fd_mappings pd) <> Some None -> slot (fd_mappings pd) newfd = None ->
  newfd < length (grown (fd_mappings pd) newfd) ->
  counts_ok (fun i => refs (Regular i) (fd_mappings pd) + one (Regular i) m)
    (fun i => refs (PipeReadEnd i) (fd_mappings pd) + (others i).1 + one (PipeReadEnd i) m)
    (fun i => refs (PipeWriteEnd i) (fd_mappings pd) + (others i).2 + one (PipeWriteEnd i) m) nodes ps' ->
  fd_inv others (set_fds (set_nodes pd nodes) (<[newfd := Some m]> (grown (fd_mappings pd) newfd))) ps'.
Proof.
  intros Hlast Hs Hlt Hc. apply fd_inv_counts. cbn [fd_mappings open_nodes set_nodes set_fds]. split.
  - eapply counts_ok_ext; [..|exact Hc]; intros i;
      (rewrite refs_set, grown_refs; [unfold one; case_decide; lia|done|by rewrite grown_slot]).
  - rewrite last_lookup, length_insert. intros E. apply list_lookup_insert_Some in E as [(_ & ? & _)|[Hn E]]; [done|].
    unfold grown in *. destruct (Nat.ltb_spec (length (fd_mappings pd)) newfd).
    + rewrite length_app, length_replicate in *. lia.
    + by rewrite <- last_lookup in E.
Qed.

Lemma dup2_inv others pd ps oldfd newfd pd' ps' v :
  fd_inv others pd ps -> dup2 pd ps oldfd newfd = Ret (pd', ps', v) -> fd_inv others pd' ps'.
Proof.
  intros H E. unfold dup2 in E. destruct (get_mapping pd oldfd) as [m|]; [|by simplify_eq].
  destruct (close_spec others pd ps newfd H) as (pd1 & ps1 & E0 & H1 & M). rewrite E0 in E. cbn [obind] in E.
  fold (table_after_close pd newfd) in M.
  apply obind_Ret in E as ([pd2 ps2] & E1 & E). destruct (add_reference_inv _ _ _ _ _ _ H1 E1) as (nodes & -> & Hc).
  change (fd_mappings (set_nodes pd1 nodes)) with (fd_mappings pd1) in E.
  fold (grown (fd_mappings pd1) newfd) in E. destruct (Nat.ltb_spec newfd (length (grown (fd_mappings pd1) newfd))); [|done].
  simplify_eq. apply set_mapping_inv; [apply H1| |done|done]. by rewrite M, table_after_close_slot, decide_True.
Qed.

(** Duplicating an open descriptor onto another number works unless, once that
    number was closed, it is just past the end of the table: the number is then
    mapped to the same node or pipe end, what it was mapped to before has lost a
    reference, all other descriptors are as before, and the counts are right. *)
Theorem dup2_keeps_counts others pd ps oldfd newfd m :
  fd_inv others pd ps -> get_mapping pd oldfd = Some m -> oldfd <> newfd ->
  newfd <> length (table_after_close pd newfd) ->
  exists pd' ps', dup2 pd ps oldfd newfd = Ret (pd', ps', Z.of_nat newfd) /\ fd_inv others pd' ps' /\
    forall j, get_mapping pd' j = if decide (j = newfd) then Some m else get_mapping pd j.
Proof.
  intros H S Hne Hend. unfold dup2. rewrite S. rewrite get_mapping_slot in S.
  destruct (close_spec others pd ps newfd H) as (pd1 & ps1 & -> & H1 & M). cbn [obind].
  fold (table_after_close pd newfd) in M.
  assert (slot (fd_mappings pd1) oldfd = Some m) as S1
    by by rewrite M, table_after_close_slot, decide_False.
  pose proof H1 as [Hc Hlast]%fd_inv_counts.
  destruct (add_reference_counts _ _ _ _ _ m Hc (mapping_reference others pd1 ps1 oldfd m S1)) as (nodes & ps' & -> & Hc').
  cbn [obind]. change (fd_mappings (set_nodes pd1 nodes)) with (fd_mappings pd1). rewrite M in *.
  pose proof (table_after_close_slot pd newfd) as Ht. set (t := table_after_close pd newfd) in *.
  fold (grown t newfd).
  assert (newfd < length (grown t newfd)) as Hlt.
  { unfold grown. destruct (Nat.ltb_spec (length t) newfd); [rewrite length_app, length_replicate|]; lia. }
  rewrite (proj2 (Nat.ltb_lt newfd _) Hlt). eexists _, ps'. split; [reflexivity|]. split.
  - rewrite <- M. apply set_mapping_inv; rewrite ?M; try done. by rewrite Ht, decide_True.
  - intros j. rewrite !get_mapping_slot. cbn [fd_mappings set_fds]. rewrite slot_insert by done.
    destruct (decide (j = newfd)); [done|]. by rewrite grown_slot, Ht, decide_False.
Qed.

(** [dup2] panics in two cases a program can bring about: when the new number
    is just past the end of the table after it was closed, as for [dup2(1, 2)] in
    a process that has only the three standard descriptors, since the table is
    grown only for numbers above its length; and when a file's only descriptor is
    duplicated onto itself, since it is closed first. *)
Theorem dup2_panics others pd ps oldfd newfd m :
  fd_inv others pd ps -> get_mapping pd oldfd = Some m ->
  (oldfd <> newfd /\ newfd = length (table_after_close pd newfd)) \/
  (oldfd = newfd /\ exists i, m = Regular i /\ refs m (fd_mappings pd) = 1) ->
  dup2 pd ps oldfd newfd = Panic.
Proof.
  intros H S Hcase. unfold dup2. rewrite S. rewrite get_mapping_slot in S.
  destruct (close_spec others pd ps newfd H) as (pd1 & ps1 & -> & H1 & M). cbn [obind].
  fold (table_after_close pd newfd) in M. pose proof H1 as [Hc Hlast]%fd_inv_counts.
  destruct Hcase as [[Hne Hend]|[-> (i & -> & Href)]].
  - assert (slot (fd_mappings pd1) oldfd = Some m) as S1 by by rewrite M, table_after_close_slot, decide_False.
    destruct (add_reference_counts _ _ _ _ _ m Hc (mapping_reference others pd1 ps1 oldfd m S1)) as (nodes & ps' & -> & _).
    cbn [obind]. change (fd_mappings (set_nodes pd1 nodes)) with (fd_mappings pd1). rewrite M, <- Hend.
    rewrite Nat.ltb_irrefl. by rewrite <- Hend, Nat.ltb_irrefl.
  - assert (refs (Regular i) (fd_mappings pd1) = 0) as R0.
    { rewrite M. unfold table_after_close. rewrite S. rewrite (refs_closed _ _ (Regular i)), Href, one_eq by done. done. }
    pose proof (proj1 Hc i) as Hi. simpl in Hi. rewrite R0 in Hi. cbn [add_reference]. rewrite get_slot_slot.
    destruct (slot (open_nodes pd1) i); [lia|done].
Qed.

(** * Fork and the end of a process *)

Lemma fork_pipes_counts l r w ps :
  pipe_counts r w ps ->
  (forall i, 0 < refs (PipeReadEnd i) l -> 0 < r i) -> (forall i, 0 < refs (PipeWriteEnd i) l -> 0 < w i) ->
  exists ps', fork_pipes ps l = Ret ps' /\
    pipe_counts (fun i => r i + refs (PipeReadEnd i) l) (fun i => w i + refs (PipeWriteEnd i) l) ps'.
Proof.
  revert r w ps. induction l as [|o l IH]; intros r w ps H Hr Hw.
  { exists ps. split; [done|]. eapply pipe_counts_proper; [| |reflexivity|exact H]; intros i; unfold refs; simpl; lia. }
  assert (forall x, refs x (o :: l) = hits x o + refs x l) as R by done.
  assert (forall x, o <> Some x -> refs x (o :: l) = refs x l) as R0.
  { intros x Hx. rewrite R. unfold hits. by rewrite decide_False. }
  destruct o as [[i|i|i| | |]|].
  2:{ assert (0 < r i) as Hpos by (apply Hr; rewrite R; unfold hits; rewrite decide_True by done; lia).
      destruct (pipe_exists _ _ _ i H) as [p E]; [lia|]. cbn [fork_pipes]. rewrite get_slot_slot, E. cbn [unwrap obind].
      destruct (IH (upd r i (r i + 1)) w _ (more_readers _ _ _ _ _ H E)) as (ps' & -> & H').
      - intros j Hj. unfold upd. case_decide; [lia|]. apply Hr. rewrite R. lia.
      - intros j Hj. apply Hw. rewrite R. lia.
      - exists ps'. split; [done|]. eapply pipe_counts_proper; [| |reflexivity|exact H']; intros j.
        + rewrite R, (upd_one_plus r PipeReadEnd i ltac:(congruence) j). unfold hits, one.
          destruct (decide (Some (PipeReadEnd i) = Some (PipeReadEnd j))), (decide (PipeReadEnd j = PipeReadEnd i));
            try congruence; lia.
        + by rewrite R0. }
  2:{ assert (0 < w i) as Hpos by (apply Hw; rewrite R; unfold hits; rewrite decide_True by done; lia).
      destruct (pipe_exists _ _ _ i H) as [p E]; [lia|]. cbn [fork_pipes]. rewrite get_slot_slot, E. cbn [unwrap obind].
      destruct (IH r (upd w i (w i + 1)) _ (more_writers _ _ _ _ _ H E)) as (ps' & -> & H').
      - intros j Hj. apply Hr. rewrite R. lia.
      - intros j Hj. unfold upd. case_decide; [lia|]. apply Hw. rewrite R. lia.
      - exists ps'. split; [done|]. eapply pipe_counts_proper; [| |reflexivity|exact H']; intros j.
        + by rewrite R0.
        + rewrite R, (upd_one_plus w PipeWriteEnd i ltac:(congruence) j). unfold hits, one.
          destruct (decide (Some (PipeWriteEnd i) = Some (PipeWriteEnd j))), (decide (PipeWriteEnd j = PipeWriteEnd i));
            try congruence; lia. }
  all: destruct (IH r w ps H) as (ps' & E & H');
    [intros j Hj; apply Hr; rewrite R; lia|intros j Hj; apply Hw; rewrite R; lia|];
    exists ps'; split; [exact E|];
    eapply pipe_counts_proper; [| |reflexivity|exact H']; intros j; by rewrite R0.
Qed.

Definition own_ends (fds : list (option FdMapping)) (i : nat) : nat * nat :=
  (refs (PipeReadEnd i) fds, refs (PipeWriteEnd i) fds).

Lemma fork_counts others pd ps :
  fd_inv others pd ps ->
  exists ps', fork_pipes ps (fd_mappings pd) = Ret ps' /\
    fd_inv (fun i => ((others i).1 + (own_ends (fd_mappings pd) i).1, (others i).2 + (own_ends (fd_mappings pd) i).2)) pd ps'.
Proof.
  intros [H1 H2 H3]. destruct (fork_pipes_counts (fd_mappings pd) _ _ _ H2) as (ps' & E & H').
  - intros i. simpl. lia.
  - intros i. simpl. lia.
  - exists ps'. split; [done|]. split; [done| |done].
    eapply pipe_counts_proper; [| |reflexivity|exact H']; intros i; simpl; lia.
Qed.

(** When a process forks, the counts of the pipes it has open are raised by
    the number of its descriptors for each end, without a panic: afterwards the
    invariant holds for the parent with the child's descriptors among the others,
    and so, since the child has a copy of the parent's descriptors and nodes, for
    the child with the parent's among the others. *)
Theorem fork_keeps_counts others pd ps :
  fd_inv others pd ps ->
  exists ps', fork_pipes ps (fd_mappings pd) = Ret ps' /\
    fd_inv (fun i => ((others i).1 + (own_ends (fd_mappings pd) i).1, (others i).2 + (own_ends (fd_mappings pd) i).2)) pd ps'.
Proof. apply fork_counts. Qed.

Definition is_pipe_end (m : FdMapping) : bool :=
  match m with PipeReadEnd _ | PipeWriteEnd _ => true | _ => false end.

Lemma refs_none x l : (forall j, slot l j <> Some x) -> refs x l = 0.
Proof.
  induction l as [|o l IH]; intros H; [done|]. change (refs x (o :: l)) with (hits x o + refs x l).
  rewrite IH by (intros j; apply (H (S j))). unfold hits. rewrite decide_False; [done|].
  intros ->. by destruct (H 0).
Qed.

Lemma drop_loop_counts others n pd ps fd :
  fd_inv others pd ps ->
  (n = 0 /\ length (fd_mappings pd) <= fd \/ fd + n = length (fd_mappings pd)) ->
  (forall j m, j < fd -> slot (fd_mappings pd) j = Some m -> is_pipe_end m = false) ->
  exists pd' ps', drop_loop pd ps fd n = Ret (pd', ps') /\ fd_inv others pd' ps' /\
    forall j m, slot (fd_mappings pd') j = Some m -> is_pipe_end m = false.
Proof.
  revert pd ps fd. induction n as [|n IH]; intros pd ps fd H Hlen Hdone.
  { exists pd, ps. split; [done|]. split; [done|]. intros j m Hj. apply (Hdone j m); [|done].
    apply slot_lt in Hj. lia. }
  destruct Hlen as [[? _]|Hlen]; [done|]. cbn [drop_loop].
  destruct (lookup_lt_is_Some_2 (fd_mappings pd) fd) as [o Ho]; [lia|]. rewrite Ho. cbn [unwrap obind].
  assert (slot (fd_mappings pd) fd = o) as Hs by (unfold slot; by rewrite Ho).
  assert (forall m, o = Some m -> is_pipe_end m = true ->
    exists pd' ps', (let! (pd1, ps1, _) := close pd ps fd in drop_loop pd1 ps1 (S fd) n) = Ret (pd', ps') /\
      fd_inv others pd' ps' /\ forall j m, slot (fd_mappings pd') j = Some m -> is_pipe_end m = false) as Hclose.
  { intros m -> Hm. destruct (close_spec others pd ps fd H) as (pd1 & ps1 & -> & H1 & M). cbn [obind].
    rewrite Hs in M. apply IH; [done| |].
    - rewrite M. destruct (decide (n = 0)) as [->|Hn].
      + left. split; [done|]. destruct (drain_split (<[fd := None]> (fd_mappings pd))) as [k Ek].
        apply (f_equal length) in Ek. rewrite length_app, length_insert in Ek. lia.
      + right. rewrite drain_insert_inner by (lia || apply H). rewrite length_insert. lia.
    - intros j m' Hj. rewrite M, (slot_closed _ _ _ _ Hs). case_decide; [done|]. intros Hj'. apply (Hdone j); [lia|done]. }
  assert ((forall m, o = Some m -> is_pipe_end m = false) ->
    exists pd' ps', drop_loop pd ps (S fd) n = Ret (pd', ps') /\
      fd_inv others pd' ps' /\ forall j m, slot (fd_mappings pd') j = Some m -> is_pipe_end m = false) as Hskip.
  { intros Hm. apply IH; [done|right; lia|]. intros j m Hj Hj'.
    destruct (decide (j = fd)) as [->|]; [apply Hm; congruence|]. apply (Hdone j); [lia|done]. }
  destruct o as [[i|i|i| | |]|]; try (by eapply Hclose);
    apply Hskip; intros m E; by simplify_eq/=.
Qed.

Lemma drop_counts others pd ps :
  fd_inv others pd ps ->
  exists ps', drop_process pd ps = Ret ps' /\ pipe_counts (fun i => (others i).1) (fun i => (others i).2) ps'.
Proof.
  intros H. unfold drop_process.
  destruct (drop_loop_counts others (length (fd_mappings pd)) pd ps 0 H) as (pd' & ps' & -> & H' & Hnone);
    [right; done|intros; lia|].
  exists ps'. split; [done|]. eapply pipe_counts_proper; [| |reflexivity|apply H']; intros i;
    rewrite refs_none; try done; intros j Hj; by apply Hnone in Hj.
Qed.

(** When a process is dropped every pipe end it still has open is closed,
    without a panic, although the table shrinks while it is walked: afterwards the
    pipes count exactly the ends the other processes hold, and a pipe that only
    this process used is gone. *)
Theorem drop_releases_pipes others pd ps :
  fd_inv others pd ps ->
  exists ps', drop_process pd ps = Ret ps' /\ pipe_counts (fun i => (others i).1) (fun i => (others i).2) ps'.
Proof. apply drop_counts. Qed.

(** A pipe is a queue: bytes written to it while a reader is left are read in
    the order they were written, behind those already there; a read takes at most
    [count] bytes and leaves the rest; a read of an empty pipe ends with 0 when no
    writer is left and makes the process wait on the pipe otherwise; and nobody
    can write once no reader is left.  The counts are not touched. *)
Theorem pipe_is_queue r w pd ps i p buf count :
  pipe_counts r w ps -> slot ps i = Some p -> 0 < count ->
  write_pipe ps i buf =
    Ret (if decide (r i = 0) then (ps, (-1)%Z)
         else (<[i := Some (MkPipe (pipe_buf p ++ buf) (r i) (w i))]> ps, as_i32 (length buf))) /\
  read_pipe pd ps i count =
    Ret (if decide (pipe_buf p = []) then
           (if decide (w i = 0) then (pd, ps, [], Some 0%Z)
            else (set_pd_state pd (WAITING_FOR_READ_PIPE i), ps, [], None))
         else (pd, <[i := Some (MkPipe (drop count (pipe_buf p)) (r i) (w i))]> ps, take count (pipe_buf p),
               Some (as_i32 (min count (length (pipe_buf p)))))).
Proof.
  intros H E Hcount. pose proof (H i) as Hi. rewrite E in Hi. destruct Hi as (Hr & Hw & _).
  unfold write_pipe, read_pipe. rewrite get_slot_slot, E. cbn [unwrap obind]. unfold set_buf. rewrite Hr, Hw. split.
  - destruct (Nat.eqb_spec (r i) 0), (decide (r i = 0)); done.
  - rewrite length_take. destruct (decide (pipe_buf p = [])) as [Hb|Hb].
    + rewrite Hb. rewrite Nat.min_0_r, drop_nil, take_nil. simpl.
      assert (<[i := Some (MkPipe [] (r i) (w i))]> ps = ps) as ->.
      { apply list_insert_id. apply slot_Some in E. rewrite E. destruct p; simpl in *. congruence. }
      destruct (Nat.eqb_spec (w i) 0), (decide (w i = 0)); done.
    + destruct (Nat.eqb_spec (min count (length (pipe_buf p))) 0) as [E0|]; [|done].
      destruct (pipe_buf p); [done|]. simpl in E0. lia.
Qed.

End FdTheorems.

(** * A process with a pipe *)

Definition demo_pd : ProcessData unit unit := process_data_new tt ∅ (alloc_from 0x100000 0x10000 true).
(** Descriptors 3 and 4 are the ends of pipe 0, whose buffer holds two bytes. *)
Definition demo_piped : ProcessData unit unit :=
  set_fds demo_pd [Some Stdin; Some Stdout; Some Stderr; Some (PipeReadEnd 0); Some (PipeWriteEnd 0)].
Definition demo_pipes : list (option ProcessPipe) := [Some (MkPipe [65; 66]%Z 1 1)].
Definition no_others : nat -> nat * nat := fun _ => (0, 0).

Lemma demo_pd_inv : fd_inv no_others demo_pd [].
Proof. split; [intros i; by destruct i|intros i; by destruct i|done]. Qed.

Lemma demo_piped_inv : fd_inv no_others demo_piped demo_pipes.
Proof. split; [intros i; by destruct i|intros [|[|i]]; vm_compute; auto|done]. Qed.

Lemma close_keeps_counts_witness :
  exists pd' ps' r, close demo_piped demo_pipes 3 = Ret (pd', ps', r) /\ fd_inv no_others pd' ps'.
Proof.
  destruct (close_keeps_counts no_others demo_piped demo_pipes 3 demo_piped_inv) as (pd' & ps' & r & H1 & H2 & _).
  exists pd', ps', r. split; [exact H1|exact H2].
Defined.

Lemma dup_keeps_counts_witness :
  exists pd' ps' fd, dup demo_piped demo_pipes 4 = Ret (pd', ps', Z.of_nat fd) /\ fd_inv no_others pd' ps'.
Proof.
  destruct (dup_keeps_counts no_others demo_piped demo_pipes 4 demo_piped_inv) as (pd' & ps' & fd & H1 & H2 & _).
  exists pd', ps', fd. split; [exact H1|exact H2].
Defined.

Lemma pipe_keeps_counts_witness :
  exists bs pd' ps' (rfd wfd : nat), pipe [MkRegion 0x1000 (replicate 8 0%Z)] demo_pd [] (MkPtr 0x1000) =
    Ret ([MkRegion 0x1000 bs], pd', ps', 0%Z) /\ rfd <> wfd /\ fd_inv no_others pd' ps'.
Proof.
  destruct (pipe_keeps_counts no_others [MkRegion 0x1000 (replicate 8 0%Z)] demo_pd [] (MkPtr 0x1000)
    (MkRegion 0x1000 (replicate 8 0%Z)) 0 demo_pd_inv) as (bs & pd' & ps' & rfd & wfd & H1 & _ & H2 & H3 & _).
  - split; [apply Forall_singleton; split_and!; [by vm_compute..|by apply (bool_decide_unpack _)]|]. intros i j r s a Hi Hj _ _.
    apply list_lookup_singleton_Some in Hi as [-> _]. by apply list_lookup_singleton_Some in Hj as [-> _].
  - reflexivity.
  - by vm_compute.
  - by vm_compute.
  - exists bs, pd', ps', rfd, wfd. split; [exact H1|]. split; [exact H3|exact H2].
Defined.

Lemma dup2_keeps_counts_witness :
  exists pd' ps', dup2 demo_piped demo_pipes 4 1 = Ret (pd', ps', 1%Z) /\ fd_inv no_others pd' ps'.
Proof.
  destruct (dup2_keeps_counts no_others demo_piped demo_pipes 4 1 (PipeWriteEnd 0) demo_piped_inv eq_refl
    ltac:(lia) ltac:(vm_compute; lia)) as (pd' & ps' & H1 & H2 & _).
  exists pd', ps'. split; [exact H1|exact H2].
Defined.

Lemma dup2_panics_witness : dup2 demo_pd [] 1 2 = Panic.
Proof.
  apply (dup2_panics no_others demo_pd [] 1 2 Stdout demo_pd_inv eq_refl).
  left. split; [lia|reflexivity].
Defined.

Lemma fork_keeps_counts_witness :
  exists ps', fork_pipes demo_pipes (fd_mappings demo_piped) = Ret ps' /\
    fd_inv (fun i => (0 + (own_ends (fd_mappings demo_piped) i).1, 0 + (own_ends (fd_mappings demo_piped) i).2)) demo_piped ps'.
Proof. exact (fork_keeps_counts no_others demo_piped demo_pipes demo_piped_inv). Defined.

Lemma drop_releases_pipes_witness :
  exists ps', drop_process demo_piped demo_pipes = Ret ps' /\ pipe_counts (fun _ => 0) (fun _ => 0) ps'.
Proof. exact (drop_releases_pipes no_others demo_piped demo_pipes demo_piped_inv). Defined.

Lemma pipe_is_queue_witness :
  write_pipe demo_pipes 0 [67%Z] = Ret ([Some (MkPipe [65; 66; 67]%Z 1 1)], 1%Z) /\
  read_pipe demo_piped demo_pipes 0 1 = Ret (demo_piped, [Some (MkPipe [66]%Z 1 1)], [65%Z], Some 1%Z).
Proof.
  exact (pipe_is_queue _ _ demo_piped demo_pipes 0 (MkPipe [65; 66]%Z 1 1) [67%Z] 1
    (fd_pipes _ _ _ demo_piped_inv) eq_refl ltac:(lia)).
Defined.
