(* ===== verification/Heap.v ===== *)
(** The heap of a process: [malloc], [free] and [realloc] of
    kernel/src/syscall.rs.  A block is a region of the process's memory that starts
    with its own size; the addresses come from the process's virtual allocator.
    The invariant ties the two together: every region in the heap's range lies in a
    block the allocator counts as held. *)
From S2P Require Import Prelude MachineInt Str EmulatorMemory VirtMem Allocator Loader LoaderTheorems.
From stdpp Require Import list.
#[local] Open Scope Z_scope.

Definition USERSPACE_NULL_PTR : Z := 0.
Definition size_of_usize : Z := 8.

(** * Operations *)

(** [emu.memory] and [proc_data.virtual_allocator] are passed and returned; the
    result of [add_region] is ignored. *)
Definition malloc (m : LittleEndianVirtualMemory) (a : BasicAlloc) (size : Z)
  : outcome (LittleEndianVirtualMemory * BasicAlloc * Z) :=
  let! total := add_chk 64 size size_of_usize in
  match from_size_align 64 total 8 with
  | None => Ret (m, a, USERSPACE_NULL_PTR)
  | Some allocation_info =>
      let! physical_allocation :=
        store_bytes (replicate (Z.to_nat (l_size allocation_info)) 0) 0
          (to_le_bytes 8 (l_size allocation_info)) in
      let! (a, virtual_allocation_ptr) := alloc 64 a allocation_info in
      if virtual_allocation_ptr =? USERSPACE_NULL_PTR then Ret (m, a, USERSPACE_NULL_PTR)
      else
        let! (m, _) := add_region m virtual_allocation_ptr physical_allocation in
        let! p := add_chk 64 virtual_allocation_ptr size_of_usize in
        Ret (m, a, p)
  end.

Definition free (m : LittleEndianVirtualMemory) (a : BasicAlloc) (virtual_ptr : Z)
  : outcome (LittleEndianVirtualMemory * BasicAlloc) :=
  let! mapped_alloc := try_map m virtual_ptr in
  match mapped_alloc with
  | None => Ret (m, a)
  | Some (r, info) =>
      let! raw := slice (backing_storage r) 0 8 in
      let size := from_le_bytes raw in
      match from_size_align 64 size 8 with
      | None => Ret (m, a)
      | Some allocation_info =>
          let! m := remove_region m (region_index info) in
          let! p := sub_chk virtual_ptr size_of_usize in
          let! a := dealloc 64 a p allocation_info in
          Ret (m, a)
      end
  end.

Definition realloc (m : LittleEndianVirtualMemory) (a : BasicAlloc) (virtual_ptr new_size : Z)
  : outcome (LittleEndianVirtualMemory * BasicAlloc * Z) :=
  let! mapped_alloc := try_map m virtual_ptr in
  match mapped_alloc with
  | None => Ret (m, a, USERSPACE_NULL_PTR)
  | Some (r, _) =>
      let data := backing_storage r in
      let! (m, a) := free m a virtual_ptr in
      let! (m, a, new_virtual_ptr) := malloc m a new_size in
      let! new_mapped_alloc := try_map m new_virtual_ptr in
      match new_mapped_alloc with
      | None => Ret (m, a, USERSPACE_NULL_PTR)
      | Some (r', info) => Ret (<[region_index info := MkRegion (virtual_start r') data]> m, a, new_virtual_ptr)
      end
  end.

(** * Invariant *)

Definition in_block (b : Allocator.block) (r : VirtRegion) : Prop :=
  b.1 <= virtual_start r /\ virtual_start r + region_len r <= b.1 + l_size b.2.

Record heap_inv (m : LittleEndianVirtualMemory) (a : BasicAlloc) (live lost : list Allocator.block) : Prop := {
  hi_mem : vm_wf m;
  hi_alloc : alloc_inv 64 a live lost;
  hi_nonempty : Forall (fun r => 0 < region_len r) m;
  hi_regions : Forall (fun r => (exists b, b ∈ live /\ in_block b r) \/
    virtual_start r + region_len r <= base a \/ base a + len a <= virtual_start r) m;
}.

(** The bytes of a fresh block of [n] bytes, its size included. *)
Definition fresh_block (n : Z) : list Z := to_le_bytes 8 n ++ replicate (Z.to_nat (n - 8)) 0.

Lemma fresh_block_length n : 8 <= n -> Z.of_nat (length (fresh_block n)) = n.
Proof. intros. unfold fresh_block. rewrite length_app, length_to_le_bytes, length_replicate. lia. Qed.

Lemma fresh_block_is_byte n : Forall is_byte (fresh_block n).
Proof.
  unfold fresh_block. apply Forall_app. split; [apply to_le_bytes_is_byte|]. apply Forall_replicate. by vm_compute.
Qed.

Lemma fresh_block_stored n :
  8 <= n -> store_bytes (replicate (Z.to_nat n) 0) 0 (to_le_bytes 8 n) = Ret (fresh_block n).
Proof.
  intros H. replace (Z.to_nat n) with (8 + Z.to_nat (n - 8))%nat by lia. rewrite replicate_add.
  exact (store_bytes_at (to_le_bytes 8 n) [] (replicate 8 0) (replicate (Z.to_nat (n - 8)) 0)
    ltac:(by rewrite length_to_le_bytes)).
Qed.

(** Allocation and deallocation move neither end of the heap. *)
Lemma stash_ends a b : base (stash a b) = base a /\ len (stash a b) = len a.
Proof. unfold stash. by case_match. Qed.

Lemma alloc_ends W a layout a' p : alloc W a layout = Ret (a', p) -> base a' = base a /\ len a' = len a.
Proof.
  unfold alloc, bump, stash. intros Hal.
  repeat first [progress inv_outcome | case_match; simplify_eq/=]; done.
Qed.

Lemma try_dealloc_ends W a p layout a' ok :
  try_dealloc W a p layout = Ret (a', ok) -> base a' = base a /\ len a' = len a.
Proof. unfold try_dealloc. intros H. repeat first [progress inv_outcome | case_match; simplify_eq/=]; done. Qed.

Lemma release_ends W n i a a' : release W n i a = Ret a' -> base a' = base a /\ len a' = len a.
Proof.
  revert i a. induction n as [|n IH]; intros i a H; [by simplify_eq/=|]. cbn [release] in H.
  apply obind_Ret in H as (b & _ & H). case_match; [by simplify_eq|].
  apply obind_Ret in H as ([a1 ok] & Ht%try_dealloc_ends & H). destruct ok; [|by simplify_eq].
  apply IH in H. simpl in H. intuition congruence.
Qed.

Lemma dealloc_ends W a p layout a' : dealloc W a p layout = Ret a' -> base a' = base a /\ len a' = len a.
Proof.
  unfold dealloc. intros H. apply obind_Ret in H as (c & _ & H).
  apply obind_Ret in H as ([a1 ok] & Ht%try_dealloc_ends & H). simpl in Ht. destruct ok; cbn [negb] in H.
  - apply release_ends in H. simpl in H. intuition congruence.
  - injection H as <-. destruct (stash_ends a1 (p, layout)). intuition congruence.
Qed.

(** A region outside every held block is apart from a new block. *)
Lemma new_block_apart m a live lost p layout :
  heap_inv m a live lost -> base a <= p -> p + l_size layout < base a + len a -> 0 < l_size layout ->
  (forall b addr, b ∈ live -> owns b addr -> owns (p, layout) addr -> False) ->
  forall data, Z.of_nat (length data) = l_size layout -> Forall (fun r => apart r (MkRegion p data)) m.
Proof.
  intros [_ _ Hne Hr] H1 H2 Hs Hd data Hlen. apply list.Forall_forall. intros r Hin.
  rewrite list.Forall_forall in Hne, Hr. specialize (Hne r Hin). unfold apart, region_len at 2. simpl. rewrite Hlen.
  destruct (Hr r Hin) as [(b & Hb & Hb1 & Hb2)|[?|?]]; [|lia..].
  destruct (decide (virtual_start r + region_len r <= p)); [by left|].
  destruct (decide (p + l_size layout <= virtual_start r)); [by right|]. exfalso.
  apply (Hd b (Z.max p (virtual_start r)) Hb); unfold owns; simpl; lia.
Qed.

Lemma heap_inv_alloc m a live lost a' live' lost' :
  heap_inv m a live lost -> alloc_inv 64 a' live' lost' -> base a' = base a -> len a' = len a ->
  (forall b, b ∈ live -> b ∈ live') -> heap_inv m a' live' lost'.
Proof.
  intros [H1 H2 H3 H4] Ha Eb El Hin. split; try done. rewrite Eb, El.
  eapply list.Forall_impl; [exact H4|]. intros r [(b & Hb & Hr)|?]; [left|by right]. exists b. auto.
Qed.

(** * Properties *)

(** [malloc] either fails with a null pointer and leaves the memory as it was,
    or maps a new region of the requested size plus eight, which starts with that
    size and is zero otherwise, shares no address with any other region or held
    block, and returns its ninth address. *)
Theorem malloc_spec m a live lost size :
  heap_inv m a live lost -> 0 <= size -> next a + size + 16 < 2 ^ 64 -> alloc_count a + 1 < 2 ^ 64 ->
  exists m' a' q lost', malloc m a size = Ret (m', a', q) /\
    ((q = 0 /\ m' = m /\ heap_inv m a' live lost') \/
     exists p, q = p + 8 /\ 0 < p /\ m' = m ++ [MkRegion p (fresh_block (size + 8))] /\
       heap_inv m' a' ((p, MkLayout (size + 8) 8) :: live) lost').
Proof.
  intros H Hs Hw Hc. pose proof H as [Hm Ha Hne Hr]. pose proof (inv_next _ _ _ _ Ha) as Hn.
  unfold malloc, size_of_usize. rewrite add_chk_ok by lia. cbn [obind].
  destruct (from_size_align 64 (size + 8) 8) as [layout|] eqn:El.
  2:{ exists m, a, 0, lost. split; [done|]. by left. }
  apply from_size_align_Some in El as ->. cbn [l_size]. rewrite fresh_block_stored by lia. cbn [obind].
  destruct (alloc_total 64 a live lost (MkLayout (size + 8) 8)) as (a' & p & Hal); [done|simpl; lia..|].
  rewrite Hal. cbn [obind]. pose proof (alloc_ends _ _ _ _ _ Hal) as [Eb Ee].
  destruct (alloc_spec 64 a live lost (MkLayout (size + 8) 8) a' p Ha) as (lost' & _ & Hcase); [simpl; lia..|done|].
  destruct Hcase as [[-> Hi]|(P1 & P2 & _ & P3 & Hi)].
  { exists m, a', 0, lost'. split; [done|]. left. split; [done|]. split; [done|].
    by eapply heap_inv_alloc. }
  simpl in P2. pose proof (inv_base _ _ _ _ Ha). pose proof (inv_fits _ _ _ _ Ha).
  rewrite (proj2 (Z.eqb_neq p USERSPACE_NULL_PTR)) by (unfold USERSPACE_NULL_PTR; lia).
  pose proof (fresh_block_length (size + 8) ltac:(lia)) as Hfl.
  destruct (add_region_apart m p (fresh_block (size + 8)) Hm) as [-> Hwf].
  { unfold region_ok, region_len. cbn [virtual_start backing_storage]. rewrite Hfl.
    split; [lia|]. split; [lia|apply fresh_block_is_byte]. }
  { apply (new_block_apart m a live lost p (MkLayout (size + 8) 8)); simpl; done || lia. }
  cbn [obind]. rewrite add_chk_ok by lia. cbn [obind].
  exists (m ++ [MkRegion p (fresh_block (size + 8))]), a', (p + 8), lost'. split; [done|].
  right. exists p. split; [done|]. split; [lia|]. split; [done|].
  destruct (heap_inv_alloc m a live lost a' ((p, MkLayout (size + 8) 8) :: live) lost' H Hi Eb Ee) as [G1 G2 G3 G4].
  { intros b Hb. by apply list_elem_of_further. }
  split; try done; apply Forall_app; (split; [done|]); apply Forall_singleton.
  - unfold region_len. cbn [backing_storage]. lia.
  - left. exists (p, MkLayout (size + 8) 8). split; [apply list_elem_of_here|].
    unfold in_block, region_len. cbn [fst snd l_size virtual_start backing_storage]. lia.
Qed.

Lemma delete_elem {A} (l : list A) i x : x ∈ delete i l -> exists j, j <> i /\ l !! j = Some x.
Proof.
  intros [k Hk]%list_elem_of_lookup. rewrite list_lookup_delete in Hk.
  destruct (decide (k < i)%nat); eexists; (split; [|exact Hk]); lia.
Qed.

(** No other region lies in the block a region fills. *)
Lemma heap_inv_delete m a live live' lost i p layout data a' lost' :
  heap_inv m a live lost -> m !! i = Some (MkRegion p data) -> Z.of_nat (length data) = l_size layout ->
  live ≡ₚ (p, layout) :: live' -> alloc_inv 64 a' live' lost' -> base a' = base a -> len a' = len a ->
  heap_inv (delete i m) a' live' lost'.
Proof.
  intros [H1 H2 H3 H4] Hi Hlen Hp Ha Eb El. split; [by apply vm_wf_delete|done|by apply Forall_delete|].
  apply list.Forall_forall. intros r (j & Hj & Hr)%delete_elem. rewrite Eb, El.
  pose proof (Forall_lookup_1 _ _ _ _ H4 Hr) as [(b & Hb & Hin)|?]; [|by right]. left.
  rewrite Hp in Hb. apply elem_of_cons in Hb as [->|Hb]; [|eauto]. exfalso. apply Hj.
  pose proof (Forall_lookup_1 _ _ _ _ H3 Hr) as Hpos. simpl in Hpos. destruct Hin as [B1 B2]. simpl in B1, B2.
  destruct H1 as [_ Hd]. eapply (Hd j i r _ (virtual_start r)); [done|exact Hi|..]; unfold covers.
  - lia.
  - unfold region_len in *. cbn [virtual_start backing_storage]. lia.
Qed.

(** [free] of a pointer that [malloc] returned for a request of at least one
    byte, while the size at the start of its block is intact, never panics, removes
    exactly that block's region and gives its addresses back to the allocator:
    every other region and every other block is as before. *)
Theorem free_spec m a live live' lost i p n data :
  heap_inv m a live lost -> m !! i = Some (MkRegion p (to_le_bytes 8 n ++ data)) ->
  Z.of_nat (length data) = n - 8 -> 8 < n <= 2 ^ 63 - 8 -> live ≡ₚ (p, MkLayout n 8) :: live' ->
  exists a' lost', free m a (p + 8) = Ret (delete i m, a') /\ heap_inv (delete i m) a' live' lost'.
Proof.
  intros H Hi Hlen Hn Hp. pose proof H as [Hm Ha _ _]. unfold free.
  assert (Z.of_nat (length (to_le_bytes 8 n ++ data)) = n) as Hlen'
    by (rewrite length_app, length_to_le_bytes; lia).
  rewrite (try_map_covers m (p + 8) i (MkRegion p (to_le_bytes 8 n ++ data))); [|done|done|].
  2:{ unfold covers, region_len. cbn [virtual_start backing_storage]. lia. }
  cbn [obind backing_storage region_index]. unfold slice. rewrite decide_True by lia.
  cbn [obind]. rewrite drop_0, take_app_length' by (by rewrite length_to_le_bytes).
  rewrite from_to_le_bytes, wrap_small by (unfold in_u; change (8 * Z.of_nat 8) with 64; lia).
  assert (from_size_align 64 n 8 = Some (MkLayout n 8)) as ->.
  { unfold from_size_align. simpl. by rewrite (proj2 (Z.leb_le _ _)) by (change (2 ^ (64 - 1)) with (2 ^ 63); lia). }
  unfold remove_region. rewrite decide_True by (by eapply lookup_lt_Some). cbn [obind].
  unfold size_of_usize. rewrite sub_chk_ok by (pose proof (Forall_lookup_1 _ _ _ _ (proj1 Hm) Hi) as [R _]; simpl in R; lia).
  cbn [obind]. replace (p + 8 - 8) with p by lia.
  destruct (dealloc_spec 64 a live live' lost p (MkLayout n 8) Ha Hp) as (a' & lost' & Ed & Ha' & _).
  rewrite Ed. cbn [obind]. exists a', lost'. split; [done|]. apply dealloc_ends in Ed as [Eb El].
  by apply (heap_inv_delete m a live live' lost i p (MkLayout n 8) (to_le_bytes 8 n ++ data)).
Qed.

Lemma find_region_index m x k r info :
  find_region m x k = Ret (Some (r, info)) -> exists j, region_index info = (k + j)%nat /\ m !! j = Some r.
Proof.
  revert k. induction m as [|s m IH]; intros k H; cbn [find_region] in H; [done|].
  apply obind_Ret in H as (o & _ & H). destruct o as [off|].
  - injection H as <- <-. exists 0%nat. simpl. split; [lia|done].
  - destruct (IH (S k) H) as (j & -> & Hj). exists (S j). split; [lia|done].
Qed.

Lemma try_map_lookup m x r info : try_map m x = Ret (Some (r, info)) -> m !! region_index info = Some r.
Proof. intros (j & -> & Hj)%find_region_index. done. Qed.

(** [realloc] that returns a block leaves in it the bytes of the old one, size
    included: the region at the new address has the length of the old block,
    whatever size was asked for. *)
Theorem realloc_keeps_old_length m a virtual_ptr new_size m' a' q r info :
  try_map m virtual_ptr = Ret (Some (r, info)) ->
  realloc m a virtual_ptr new_size = Ret (m', a', q) -> q <> 0 ->
  exists i p, m' !! i = Some (MkRegion p (backing_storage r)).
Proof.
  intros Hmap H Hq. unfold realloc in H. rewrite Hmap in H. cbn [obind] in H.
  apply obind_Ret in H as ([m1 a1] & _ & H). apply obind_Ret in H as ([[m2 a2] q2] & _ & H).
  apply obind_Ret in H as (mapped & Hm2 & H). destruct mapped as [[r' info']|]; [|by simplify_eq].
  injection H as <- <- <-.
  apply try_map_lookup in Hm2.
  eexists _, _. apply list_lookup_insert_eq. by eapply lookup_lt_Some.
Qed.

(** * Runs *)

Lemma demo_heap_ok : heap_inv [] demo_heap [] [].
Proof. split; [apply vm_wf_nil|apply demo_heap_inv|constructor|constructor]. Qed.

Lemma malloc_spec_witness :
  exists m' a' q lost', malloc [] demo_heap 24 = Ret (m', a', q) /\
    ((q = 0 /\ m' = [] /\ heap_inv [] a' [] lost') \/
     exists p, q = p + 8 /\ 0 < p /\ m' = [MkRegion p (fresh_block 32)] /\ heap_inv m' a' [(p, MkLayout 32 8)] lost').
Proof.
  exact (malloc_spec [] demo_heap [] [] 24 demo_heap_ok ltac:(lia) ltac:(by vm_compute) ltac:(by vm_compute)).
Defined.

(** The heap with one block of 32 bytes. *)
Definition demo_block : LittleEndianVirtualMemory := [MkRegion 0x100000 (fresh_block 32)].
Definition demo_used : BasicAlloc := set_count (set_next demo_heap 32) 1.

Lemma demo_used_ok : heap_inv demo_block demo_used [(0x100000, MkLayout 32 8)] [].
Proof.
  split.
  - apply (vm_wf_app [] (MkRegion 0x100000 (fresh_block 32))); [apply vm_wf_nil| |by intros r x Hr%not_elem_of_nil].
    split; [by vm_compute|]. split; [by vm_compute|apply fresh_block_is_byte].
  - apply (alloc_inv_push 64 demo_heap _ [] _ [] [] 0x100000 (MkLayout 32 8)); try done. exact demo_heap_inv.
  - apply Forall_singleton. by vm_compute.
  - apply Forall_singleton. left. exists (0x100000, MkLayout 32 8). split; [apply list_elem_of_here|]. by vm_compute.
Qed.

Lemma free_spec_witness :
  exists a' lost', free demo_block demo_used (0x100000 + 8) = Ret ([], a') /\ heap_inv [] a' [] lost'.
Proof.
  exact (free_spec demo_block demo_used _ [] [] 0 0x100000 32 (replicate 24 0) demo_used_ok eq_refl eq_refl
    ltac:(lia) ltac:(reflexivity)).
Defined.

Lemma realloc_keeps_old_length_witness :
  exists m' a' q i p, realloc demo_block demo_used 0x100008 100 = Ret (m', a', q) /\
    m' !! i = Some (MkRegion p (fresh_block 32)).
Proof.
  destruct (realloc demo_block demo_used 0x100008 100) as [[[m' a'] q]|] eqn:E; [|vm_compute in E; discriminate E].
  assert (q <> 0) as Hq by (intros ->; vm_compute in E; discriminate E).
  destruct (realloc_keeps_old_length demo_block demo_used 0x100008 100 m' a' q (MkRegion 0x100000 (fresh_block 32))
    (MkMapping 8 0) ltac:(vm_compute; reflexivity) E Hq) as (i & p & Hi).
  exists m', a', q, i, p. split; [reflexivity|exact Hi].
Defined.

(** The hundredth byte of the block that [realloc] returned is not mapped. *)
Example realloc_block_too_short :
  (let! (m, a, q) := realloc demo_block demo_used 0x100008 100 in write_u8 m (q + 99) 1) = Panic.
Proof. vm_compute. reflexivity. Qed.

(** The pointer for an empty request lies just past its region; after a second
    request it is the first address of that one's region, which [free] of the
    first pointer then removes. *)
Theorem free_of_empty_request :
  exists m a q1 q2, (let! (m1, a1, q1) := malloc [] demo_heap 0 in
     let! (m2, a2, q2) := malloc m1 a1 16 in Ret (m2, a2, q1, q2)) = Ret (m, a, q1, q2) /\
  is_ret (write_u8 m q2 1) = true /\
  (let! (m', _) := free m a q1 in write_u8 m' q2 1) = Panic.
Proof. do 4 eexists. split; [vm_compute; reflexivity|]. by vm_compute. Qed.
