(* ===== verification/CMem.v ===== *)
(** The memory functions of the C library (rlibc/src/mem.rs), on the memory of the
    process that calls them: memcpy, memcmp, memset, bcmp, memmove and memchr.  The
    library is built in release mode, where arithmetic wraps; its [c_char] is [i8]. *)
From S2P Require Import Prelude MachineInt EmulatorMemory VirtMem.
From stdpp Require Import list.
#[local] Open Scope Z_scope.

Abbreviation memory_ := LittleEndianVirtualMemory.

(** [ptr.add(i)]. *)
Definition ptr_add (p i : Z) : Z := wrap 64 (p + i).

(** The value of a byte as a [c_char], and the byte of a [c_int] as a [c_char]. *)
Definition as_char (b : Z) : Z := to_signed 8 b.
Definition char_byte (c : Z) : Z := wrap 8 c.

Definition size_of_usize : Z := 8.

(** * Copying *)

(** [for i in i..i + n { *dest.add(i) = *src.add(i) }] on values of [w] bytes. *)
Fixpoint copy_loop (w : nat) (m : memory_) (dest src i : Z) (n : nat) : outcome memory_ :=
  match n with
  | O => Ret m
  | S n =>
      let! v := read_le w m (ptr_add src (i * Z.of_nat w)) in
      let! m := write_le w m (ptr_add dest (i * Z.of_nat w)) v in
      copy_loop w m dest src (i + 1) n
  end.

Definition memcpy (m : memory_) (dest src n : Z) : outcome (memory_ * Z) :=
  if dest =? src then Ret (m, dest)
  else if n <? size_of_usize then
    let! m := copy_loop 1 m dest src 0 (Z.to_nat n) in Ret (m, dest)
  else
    let n_size := n / size_of_usize in
    let! m := copy_loop 8 m dest src 0 (Z.to_nat n_size) in
    let! m := copy_loop 1 m dest src (n_size * size_of_usize) (Z.to_nat (n - n_size * size_of_usize)) in
    Ret (m, dest).

(** [for i in (0..n).rev() { *dest.add(i) = *src.add(i) }]. *)
Fixpoint copy_down (m : memory_) (dest src : Z) (n : nat) : outcome memory_ :=
  match n with
  | O => Ret m
  | S n =>
      let! v := read_le 1 m (ptr_add src (Z.of_nat n)) in
      let! m := write_le 1 m (ptr_add dest (Z.of_nat n)) v in
      copy_down m dest src n
  end.

Definition memmove (m : memory_) (dest src n : Z) : outcome (memory_ * Z) :=
  if (dest =? src) || (n =? 0) then Ret (m, dest)
  else
    let src_last := ptr_add src (n - 1) in
    let dest_last := ptr_add dest (n - 1) in
    let contains p := (src <=? p) && (p <=? src_last) in
    let has_overlap := contains dest || contains dest_last in
    if negb has_overlap then let! (m, _) := memcpy m dest src n in Ret (m, dest)
    else if dest <? src then let! m := copy_loop 1 m dest src 0 (Z.to_nat n) in Ret (m, dest)
    else if dest >? src then let! m := copy_down m dest src (Z.to_nat n) in Ret (m, dest)
    else Ret (m, dest).

(** * Comparing *)

(** The first index from [i] on, below [i + n], at which the values of [w] bytes
    differ. *)
Fixpoint diff_loop (w : nat) (m : memory_) (ptr1 ptr2 i : Z) (n : nat) : outcome (option Z) :=
  match n with
  | O => Ret None
  | S n =>
      let! a := read_le w m (ptr_add ptr1 (i * Z.of_nat w)) in
      let! b := read_le w m (ptr_add ptr2 (i * Z.of_nat w)) in
      if negb (a =? b) then Ret (Some i) else diff_loop w m ptr1 ptr2 (i + 1) n
  end.

Definition memcmp (m : memory_) (ptr1 ptr2 n : Z) : outcome Z :=
  if ptr1 =? ptr2 then Ret 0
  else
    let n_size := n / size_of_usize in
    let! word := diff_loop 8 m ptr1 ptr2 0 (Z.to_nat n_size) in
    let! ineq_i :=
      match word with
      | Some i => diff_loop 1 m ptr1 ptr2 (i * size_of_usize) (Z.to_nat size_of_usize)
      | None => Ret None
      end in
    let! ineq_i :=
      match ineq_i with
      | Some i => Ret (Some i)
      | None => diff_loop 1 m ptr1 ptr2 (n_size * size_of_usize) (Z.to_nat (n - n_size * size_of_usize))
      end in
    match ineq_i with
    | Some i =>
        let! a := read_le 1 m (ptr_add ptr1 i) in
        let! b := read_le 1 m (ptr_add ptr2 i) in
        Ret (as_char a - as_char b)
    | None => Ret 0
    end.

Definition bcmp (m : memory_) (ptr1 ptr2 n : Z) : outcome Z := memcmp m ptr1 ptr2 n.

(** * Filling and searching *)

(** [for i in i..i + n { *dest.add(i) = v }] on values of [w] bytes. *)
Fixpoint fill_loop (w : nat) (m : memory_) (dest v i : Z) (n : nat) : outcome memory_ :=
  match n with
  | O => Ret m
  | S n =>
      let! m := write_le w m (ptr_add dest (i * Z.of_nat w)) v in
      fill_loop w m dest v (i + 1) n
  end.

(** [for i in 0..8 { c_size |= (c as usize) << (i * 8) }]. *)
Definition repeat_char (c : Z) : Z :=
  fold_left (fun c_size i => Z.lor c_size (shl 64 (wrap 64 c) (i * 8))) [0; 1; 2; 3; 4; 5; 6; 7] 0.

Definition memset (m : memory_) (dest c n : Z) : outcome (memory_ * Z) :=
  let c := as_char (char_byte c) in
  if n <? size_of_usize then
    let! m := fill_loop 1 m dest (char_byte c) 0 (Z.to_nat n) in Ret (m, dest)
  else
    let n_size := n / size_of_usize in
    let! m := fill_loop 8 m dest (repeat_char c) 0 (Z.to_nat n_size) in
    let! m := fill_loop 1 m dest (char_byte c) (n_size * size_of_usize) (Z.to_nat (n - n_size * size_of_usize)) in
    Ret (m, dest).

(** The null pointer is 0. *)
Fixpoint find_byte (m : memory_) (ptr ch i : Z) (n : nat) : outcome Z :=
  match n with
  | O => Ret 0
  | S n =>
      let! b := read_le 1 m (ptr_add ptr i) in
      if b =? ch then Ret (ptr_add ptr i) else find_byte m ptr ch (i + 1) n
  end.

Definition memchr (m : memory_) (ptr ch count : Z) : outcome Z := find_byte m ptr (char_byte ch) 0 (Z.to_nat count).

(** * Ranges of memory *)

(** The process may access [n] bytes at [a]. *)
Definition room (m : memory_) (a : Z) (n : nat) : Prop := n = 0%nat \/ fits m a n.

(** The bytes [bs] are at [a]. *)
Definition bytes_at (m : memory_) (a : Z) (bs : list Z) : Prop := room m a (length bs) /\ view_bytes (vm_view m) a bs.

(** [m'] is [m] with [bs] stored at [a]. *)
Record stored (m : memory_) (a : Z) (bs : list Z) (m' : memory_) : Prop := {
  st_wf : vm_wf m';
  st_view : forall x, vm_view m' x = view_write (vm_view m) a bs x;
  st_room : forall x n, room m x n -> room m' x n;
}.

Lemma room_sub m a n k j : room m a n -> (k + j <= n)%nat -> room m (a + Z.of_nat k) j.
Proof.
  intros [->|(i & r & Hi & Hc & Hf)] Hk; [left; lia|]. destruct j as [|j]; [by left|]. right.
  exists i, r. unfold covers in *. split_and!; [done|lia|lia|lia].
Qed.

Lemma room_range m a n : vm_wf m -> room m a n -> (0 < n)%nat -> 1 <= a /\ a + Z.of_nat n <= 2 ^ 64.
Proof.
  intros [Hok _] [->|(i & r & Hi & Hc & Hf)] Hn; [lia|].
  destruct (Forall_lookup_1 _ _ _ _ Hok Hi) as (H1 & H2 & _). unfold covers in Hc. lia.
Qed.

(** Pointers into an object do not wrap. *)
Lemma ptr_add_in m a n i : vm_wf m -> room m a n -> 0 <= i < Z.of_nat n -> ptr_add a i = a + i.
Proof. intros Hm Hr Hi. destruct (room_range m a n Hm Hr); [lia|]. apply wrap_small. unfold in_u. lia. Qed.

Lemma bytes_at_app m a bs1 bs2 :
  bytes_at m a (bs1 ++ bs2) -> bytes_at m a bs1 /\ bytes_at m (a + Z.of_nat (length bs1)) bs2.
Proof.
  intros [Hr Hv]. rewrite length_app in Hr. split; split.
  - replace a with (a + Z.of_nat 0) by lia. eapply room_sub; [exact Hr|lia].
  - intros i b Hi. apply Hv. by apply lookup_app_l_Some.
  - eapply room_sub; [exact Hr|lia].
  - intros i b Hi. replace (a + Z.of_nat (length bs1) + Z.of_nat i) with (a + Z.of_nat (length bs1 + i)) by lia.
    apply Hv. by rewrite lookup_app_r, Nat.add_sub_swap, Nat.sub_diag by lia.
Qed.

Lemma bytes_at_part m p bs a n : bytes_at m p bs -> (a + n <= length bs)%nat -> bytes_at m (p + Z.of_nat a) (take n (drop a bs)).
Proof.
  intros B Hn. rewrite <- (take_drop a bs) in B. apply bytes_at_app in B as [_ B]. rewrite length_take, Nat.min_l in B by lia.
  rewrite <- (take_drop n (drop a bs)) in B. by apply bytes_at_app in B as [B _].
Qed.

(** The number of whole words in [n] bytes. *)
Lemma div8 (n : nat) : exists q : nat, Z.of_nat n / 8 = Z.of_nat q /\ (q * 8 <= n < q * 8 + 8)%nat.
Proof.
  exists (n / 8)%nat. pose proof (Nat.div_mod n 8 ltac:(lia)). pose proof (Nat.mod_upper_bound n 8 ltac:(lia)).
  split; [by rewrite Nat2Z.inj_div|lia].
Qed.

Lemma read_at m a bs :
  vm_wf m -> bytes_at m a bs -> (0 < length bs)%nat ->
  exists v, read_le (length bs) m a = Ret v /\ to_le_bytes (length bs) v = bs /\ in_u (8 * Z.of_nat (length bs)) v.
Proof.
  intros Hm [[E|(i & r & Hi & Hc & Hf)] Hv] Hn; [lia|]. destruct (read_le_ok (length bs) m a i r Hm Hi Hc Hf) as [v Hr].
  exists v. destruct (read_le_sound _ _ _ _ Hm Hr) as [Hu Hb]. split; [done|]. split; [|done].
  eapply view_bytes_eq; [by rewrite length_to_le_bytes|exact Hb|exact Hv].
Qed.

Lemma read_byte_at m a bs (i : nat) b :
  vm_wf m -> bytes_at m a bs -> bs !! i = Some b -> read_le 1 m (ptr_add a (Z.of_nat i)) = Ret b.
Proof.
  intros Hm Hb Hi. pose proof (lookup_lt_Some _ _ _ Hi) as Hl.
  rewrite (ptr_add_in m a (length bs)) by (done || exact (proj1 Hb) || lia).
  assert (bytes_at m (a + Z.of_nat i) [b]) as H1.
  { rewrite <- (take_drop_middle _ _ _ Hi) in Hb. change (b :: drop (S i) bs) with ([b] ++ drop (S i) bs) in Hb.
    apply bytes_at_app in Hb as [_ Hb]. rewrite length_take, Nat.min_l in Hb by lia. by apply bytes_at_app in Hb as [Hb _]. }
  destruct (read_at m _ [b] Hm H1 ltac:(simpl; lia)) as (v & Hr & Hv & Hu). simpl in Hr, Hv, Hu. rewrite Hr. f_equal.
  injection Hv as Hv. rewrite Z.mod_small in Hv; [done|]. unfold in_u in Hu. lia.
Qed.

Lemma write_at m a w v :
  vm_wf m -> room m a w -> (0 < w)%nat -> in_u (8 * Z.of_nat w) v ->
  exists m', write_le w m a v = Ret m' /\ stored m a (to_le_bytes w v) m'.
Proof.
  intros Hm [->|(i & r & Hi & Hc & Hf)] Hw Hv; [lia|]. destruct (write_le_ok w m a i r v Hm Hi Hc Hf) as [m' E].
  exists m'. split; [done|]. destruct (write_le_sound w Hw m a v m' Hm Hv E) as [H1 H2]. split; [done|done|].
  intros x n [->|Hx]; [by left|right]. exact (write_le_keeps_fit _ _ _ _ _ _ _ Hm E Hx).
Qed.

Lemma view_write_nil v a x : view_write v a [] x = v x.
Proof. unfold view_write. simpl. by rewrite decide_False by lia. Qed.

Lemma stored_nil m a : vm_wf m -> stored m a [] m.
Proof. intros Hm. split; [done| |done]. intros x. by rewrite view_write_nil. Qed.

Lemma view_write_app v a bs1 bs2 x :
  view_write (view_write v a bs1) (a + Z.of_nat (length bs1)) bs2 x = view_write v a (bs1 ++ bs2) x.
Proof.
  unfold view_write. rewrite length_app. destruct (decide (_ <= x < _ + _)) as [H2|H2].
  - rewrite decide_True by lia. rewrite lookup_app_r by lia. f_equal. lia.
  - destruct (decide (a <= x < a + Z.of_nat (length bs1))) as [H1|H1].
    + rewrite decide_True by lia. by rewrite lookup_app_l by lia.
    + by rewrite decide_False by lia.
Qed.

Lemma stored_app m a bs1 m1 bs2 m2 :
  stored m a bs1 m1 -> stored m1 (a + Z.of_nat (length bs1)) bs2 m2 -> stored m a (bs1 ++ bs2) m2.
Proof.
  intros [W1 V1 R1] [W2 V2 R2]. split; [done| |auto]. intros x. rewrite V2, <- view_write_app.
  unfold view_write at 1 2. case_decide; [done|apply V1].
Qed.

(** The same with the upper part first. *)
Lemma stored_app_rev m a bs1 m1 bs2 m2 :
  stored m (a + Z.of_nat (length bs1)) bs2 m1 -> stored m1 a bs1 m2 -> stored m a (bs1 ++ bs2) m2.
Proof.
  intros [W1 V1 R1] [W2 V2 R2]. split; [done| |auto]. intros x. rewrite V2, <- view_write_app.
  unfold view_write. rewrite V1. unfold view_write. repeat case_decide; try done; lia.
Qed.

(** Bytes elsewhere are still there. *)
Lemma stored_elsewhere m a bs m' x bs' :
  stored m a bs m' -> bytes_at m x bs' -> x + Z.of_nat (length bs') <= a \/ a + Z.of_nat (length bs) <= x -> bytes_at m' x bs'.
Proof.
  intros [_ V R] [Hr Hv] Hd. split; [by apply R|]. intros i b Hi. rewrite V. unfold view_write.
  apply lookup_lt_Some in Hi as Hl. rewrite decide_False by lia. by apply Hv.
Qed.

Lemma stored_bytes m a bs m' : room m a (length bs) -> stored m a bs m' -> bytes_at m' a bs.
Proof.
  intros Hr [_ V R]. split; [by apply R|]. intros i b Hi. rewrite V. by apply view_write_bytes.
Qed.

(** * Copying *)

(** Copying upwards is right when the destination does not start inside the source. *)
Lemma copy_loop_spec w n m dest src i bs :
  vm_wf m -> (0 < w)%nat -> length bs = (n * w)%nat -> 0 <= i ->
  room m dest (Z.to_nat i * w + n * w) -> room m src (Z.to_nat i * w + n * w) -> bytes_at m (src + i * Z.of_nat w) bs ->
  dest <= src \/ src + i * Z.of_nat w + Z.of_nat (length bs) <= dest ->
  exists m', copy_loop w m dest src i n = Ret m' /\ stored m (dest + i * Z.of_nat w) bs m'.
Proof.
  revert m i bs. induction n as [|n IH]; intros m i bs Hm Hw Hl Hi Hd Hsrc Hs Ho.
  { destruct bs; [|simpl in Hl; lia]. exists m. split; [done|by apply stored_nil]. }
  rewrite <- (take_drop w bs) in Hs. apply bytes_at_app in Hs as [Hs1 Hs2].
  assert (length (take w bs) = w) as Lw by (rewrite length_take; lia). rewrite Lw in Hs2.
  destruct (read_at m _ _ Hm Hs1) as (v & Hr & Hv & Hu); [lia|]. rewrite Lw in Hr, Hv, Hu.
  assert (room m (dest + i * Z.of_nat w) w) as Hrw.
  { replace (i * Z.of_nat w) with (Z.of_nat (Z.to_nat i * w)) by lia. eapply room_sub; [exact Hd|lia]. }
  destruct (write_at m _ w v Hm Hrw Hw Hu) as (m1 & Hwr & Hst). rewrite Hv in Hst.
  cbn [copy_loop]. rewrite (ptr_add_in m src _ _ Hm Hsrc) by nia. rewrite Hr. cbn [obind].
  rewrite (ptr_add_in m dest _ _ Hm Hd) by nia. rewrite Hwr. cbn [obind].
  replace (src + i * Z.of_nat w + Z.of_nat w) with (src + (i + 1) * Z.of_nat w) in Hs2 by lia.
  assert (Z.to_nat (i + 1) * w + n * w = Z.to_nat i * w + S n * w)%nat as El by nia.
  assert (length (drop w bs) = (n * w)%nat) as Ld by (rewrite length_drop; lia).
  destruct (IH m1 (i + 1) (drop w bs)) as (m' & E & Hst'); [apply Hst|done|done|lia|rewrite El; by apply Hst|rewrite El; by apply Hst| | |].
  - eapply stored_elsewhere; [exact Hst|exact Hs2|]. rewrite Lw, Ld. nia.
  - rewrite Ld. nia.
  - exists m'. split; [done|]. rewrite <- (take_drop w bs). eapply stored_app; [exact Hst|]. rewrite Lw.
    by replace (dest + i * Z.of_nat w + Z.of_nat w) with (dest + (i + 1) * Z.of_nat w) by lia.
Qed.

Lemma memcpy_stores m dest src bs :
  vm_wf m -> bytes_at m src bs -> room m dest (length bs) ->
  dest <= src \/ src + Z.of_nat (length bs) <= dest ->
  exists m', memcpy m dest src (Z.of_nat (length bs)) = Ret (m', dest) /\ stored m dest bs m'.
Proof.
  intros Hm Hs Hd Ho. unfold memcpy. destruct (Z.eqb_spec dest src) as [<-|Hne].
  { exists m. split; [done|]. split; [done| |done]. intros x. unfold view_write. case_decide as Hx; [|done].
    destruct (lookup_lt_is_Some_2 bs (Z.to_nat (x - dest))) as [b Hb]; [lia|]. rewrite Hb. rewrite <- (proj2 Hs _ _ Hb). f_equal. lia. }
  unfold size_of_usize. destruct (Z.ltb_spec (Z.of_nat (length bs)) 8) as [H8|H8].
  - rewrite Nat2Z.id. destruct (copy_loop_spec 1 (length bs) m dest src 0 bs) as (m' & E & Hst);
      rewrite ?Z.mul_0_l, ?Z.add_0_r, ?Nat.mul_1_r in *; try done; try lia; [exact (proj1 Hs)|].
    exists m'. by rewrite E.
  - set (q := Z.of_nat (length bs) / 8).
    assert (q * 8 <= Z.of_nat (length bs) < q * 8 + 8 /\ 0 <= q) as (Hq & Hq0).
    { unfold q. pose proof (Z.div_mod (Z.of_nat (length bs)) 8). pose proof (Z.mod_pos_bound (Z.of_nat (length bs)) 8).
      pose proof (Z.div_pos (Z.of_nat (length bs)) 8). lia. }
    set (k := Z.to_nat (q * 8)). pose proof (proj1 Hs) as Hsrc. rewrite <- (take_drop k bs) in Hs.
    apply bytes_at_app in Hs as [Hs1 Hs2]. assert (length (take k bs) = k) as Lk by (rewrite length_take; lia).
    assert (length (drop k bs) = (length bs - k)%nat) as Ld by apply length_drop. rewrite Lk in Hs2.
    destruct (copy_loop_spec 8 (Z.to_nat q) m dest src 0 (take k bs)) as (m1 & -> & Hst1);
      rewrite ?Z.mul_0_l, ?Z.add_0_r, ?Lk; try done; try lia.
    { replace dest with (dest + Z.of_nat 0) by lia. eapply room_sub; [exact Hd|lia]. }
    { replace src with (src + Z.of_nat 0) by lia. eapply room_sub; [exact Hsrc|lia]. }
    rewrite Z.mul_0_l, Z.add_0_r in Hst1. cbn [obind].
    destruct (copy_loop_spec 1 (Z.to_nat (Z.of_nat (length bs) - q * 8)) m1 dest src (q * 8) (drop k bs)) as (m2 & -> & Hst2);
      rewrite ?Z.mul_1_r, ?Nat.mul_1_r, ?Ld; try lia; [apply Hst1|apply (st_room _ _ _ _ Hst1)|apply (st_room _ _ _ _ Hst1)| |].
    { replace (_ + _)%nat with (length bs) by lia. done. }
    { replace (_ + _)%nat with (length bs) by lia. done. }
    { eapply stored_elsewhere; [exact Hst1| |]; rewrite ?Lk, ?Ld; [by replace (q * 8) with (Z.of_nat k) by lia|lia]. }
    exists m2. split; [done|]. rewrite <- (take_drop k bs). eapply stored_app; [exact Hst1|]. rewrite Lk.
    by replace (Z.of_nat k) with (q * 8 * Z.of_nat 1) by lia.
Qed.

(** Copying downwards is right when the source does not start inside the destination. *)
Lemma copy_down_spec n m dest src bs :
  vm_wf m -> length bs = n -> room m dest n -> bytes_at m src bs ->
  src <= dest \/ dest + Z.of_nat n <= src ->
  exists m', copy_down m dest src n = Ret m' /\ stored m dest bs m'.
Proof.
  revert m bs. induction n as [|n IH]; intros m bs Hm Hl Hd Hs Ho.
  { destruct bs; [|done]. exists m. split; [done|by apply stored_nil]. }
  destruct bs as [|b bs _] using rev_ind; [done|]. rewrite length_app in Hl. simpl in Hl.
  assert (length bs = n) as Ln by lia.
  assert ((bs ++ [b]) !! n = Some b) as Hn by (rewrite lookup_app_r, Ln, Nat.sub_diag by lia; done).
  cbn [copy_down]. rewrite (read_byte_at m src _ n b Hm Hs Hn). cbn [obind].
  rewrite (ptr_add_in m dest (S n)) by (done || lia).
  assert (in_u 8 b) as Hb.
  { destruct (read_le_sound 1 m (ptr_add src (Z.of_nat n)) b Hm (read_byte_at m src _ n b Hm Hs Hn)) as [H _]. done. }
  destruct (write_at m (dest + Z.of_nat n) 1 b Hm) as (m1 & -> & Hst); [eapply room_sub; [exact Hd|lia]|lia|done|]. cbn [obind].
  apply bytes_at_app in Hs as [Hs _].
  destruct (IH m1 bs) as (m' & E & Hst'); [apply Hst|done| | |lia|].
  - apply (st_room _ _ _ _ Hst). replace dest with (dest + Z.of_nat 0) by lia. eapply room_sub; [exact Hd|lia].
  - eapply stored_elsewhere; [exact Hst|exact Hs|]. simpl. lia.
  - exists m'. split; [done|]. rewrite <- Ln in Hst. eapply stored_app_rev; [|exact Hst'].
    simpl in Hst. by rewrite (Z.mod_small b) in Hst by exact Hb.
Qed.

(** [memmove] copies any [n] bytes the process may access anywhere it may access
    them, whether or not source and destination overlap: the destination holds what
    the source held before, every other byte is as it was, and the pointer is
    returned.  It chooses the direction of the copy by looking only at the ends of
    the two ranges, and copies by words when they are apart. *)
Theorem memmove_correct m dest src bs :
  vm_wf m -> bytes_at m src bs -> room m dest (length bs) ->
  exists m', memmove m dest src (Z.of_nat (length bs)) = Ret (m', dest) /\ vm_wf m' /\
    forall x, vm_view m' x = view_write (vm_view m) dest bs x.
Proof.
  intros Hm Hs Hd.
  assert (exists m', memmove m dest src (Z.of_nat (length bs)) = Ret (m', dest) /\ stored m dest bs m') as (m' & E & [H1 H2 _]);
    [|by exists m'].
  unfold memmove. destruct (Z.eqb_spec dest src) as [->|Hne].
  { destruct (memcpy_stores m src src bs Hm Hs Hd ltac:(lia)) as (m' & E & Hst). unfold memcpy in E. rewrite Z.eqb_refl in E.
    injection E as <-. by exists m. }
  destruct (Z.eqb_spec (Z.of_nat (length bs)) 0) as [E0|H0].
  { destruct bs; [|simpl in E0; lia]. exists m. split; [done|by apply stored_nil]. }
  cbn [orb]. rewrite (ptr_add_in m src _ _ Hm (proj1 Hs)), (ptr_add_in m dest _ _ Hm Hd) by lia.
  destruct (negb _) eqn:Ec.
  - destruct (memcpy_stores m dest src bs Hm Hs Hd) as (m' & -> & Hst); [|by exists m'].
    apply negb_true_iff, orb_false_iff in Ec as [C1 C2]. apply andb_false_iff in C1, C2. rewrite !Z.leb_gt in C1, C2. lia.
  - rewrite Nat2Z.id. destruct (Z.ltb_spec dest src).
    + destruct (copy_loop_spec 1 (length bs) m dest src 0 bs) as (m' & -> & Hst);
        rewrite ?Z.mul_0_l, ?Z.add_0_r, ?Nat.mul_1_r in *; try done; try lia; [exact (proj1 Hs)|]. by exists m'.
    + rewrite Z.gtb_ltb. destruct (Z.ltb_spec src dest); [|lia].
      destruct (copy_down_spec (length bs) m dest src bs) as (m' & -> & Hst); [done|done|done|done|lia|]. by exists m'.
Qed.

(** * Comparing *)

(** The difference of the first two characters that differ, as signed characters. *)
Fixpoint compare_chars (bs1 bs2 : list Z) : Z :=
  match bs1, bs2 with
  | a :: bs1, b :: bs2 => if decide (a = b) then compare_chars bs1 bs2 else as_char a - as_char b
  | _, _ => 0
  end.

Lemma compare_chars_refl bs : compare_chars bs bs = 0.
Proof. induction bs as [|b bs IH]; [done|]. simpl. by rewrite decide_True. Qed.

(** Position [j] is the first at which the sequences differ. *)
Definition differ_at (bs1 bs2 : list Z) (j : nat) : Prop :=
  take j bs1 = take j bs2 /\ exists a b, bs1 !! j = Some a /\ bs2 !! j = Some b /\ a <> b.

Lemma compare_chars_at bs1 bs2 j a b :
  differ_at bs1 bs2 j -> bs1 !! j = Some a -> bs2 !! j = Some b -> compare_chars bs1 bs2 = as_char a - as_char b.
Proof.
  intros [Ht (a' & b' & Ha' & Hb' & Hne)] Ha Hb.
  assert (a' = a) as -> by congruence. assert (b' = b) as -> by congruence. clear Ha' Hb'. revert bs1 bs2 Ht Ha Hb.
  induction j as [|j IH]; intros [|x bs1] [|y bs2] Ht Ha Hb; simplify_eq/=; [by rewrite decide_False|].
  rewrite decide_True by done. by apply IH.
Qed.

Lemma differ_at_app l1 l2 bs1 bs2 j : l1 = l2 -> differ_at bs1 bs2 j -> differ_at (l1 ++ bs1) (l2 ++ bs2) (length l1 + j).
Proof.
  intros <- [Ht (a & b & Ha & Hb & Hne)]. split; [by rewrite !take_app_add, Ht|].
  exists a, b. by rewrite !lookup_app_r, Nat.add_sub_swap, Nat.sub_diag by lia.
Qed.

(** What the loop over units of [w] bytes finds in [n] units. *)
Definition diff_result (w n : nat) (i : Z) (bs1 bs2 : list Z) (r : option Z) : Prop :=
  match r with
  | None => bs1 = bs2
  | Some k => exists j, k = i + Z.of_nat j /\ (j < n)%nat /\ take (j * w) bs1 = take (j * w) bs2 /\
      take w (drop (j * w) bs1) <> take w (drop (j * w) bs2)
  end.

Lemma diff_loop_spec w n m p1 p2 i bs1 bs2 :
  vm_wf m -> (0 < w)%nat -> length bs1 = (n * w)%nat -> length bs2 = (n * w)%nat -> 0 <= i ->
  room m p1 (Z.to_nat i * w + n * w) -> room m p2 (Z.to_nat i * w + n * w) ->
  bytes_at m (p1 + i * Z.of_nat w) bs1 -> bytes_at m (p2 + i * Z.of_nat w) bs2 ->
  exists r, diff_loop w m p1 p2 i n = Ret r /\ diff_result w n i bs1 bs2 r.
Proof.
  intros Hm Hw. revert i bs1 bs2. induction n as [|n IH]; intros i bs1 bs2 L1 L2 Hi R1 R2 B1 B2.
  { destruct bs1, bs2; try done. by exists None. }
  assert (Z.to_nat (i + 1) * w + n * w = Z.to_nat i * w + S n * w)%nat as El by nia.
  rewrite <- (take_drop w bs1) in B1. rewrite <- (take_drop w bs2) in B2.
  apply bytes_at_app in B1 as [B1 C1]. apply bytes_at_app in B2 as [B2 C2].
  assert (length (take w bs1) = w) as T1 by (rewrite length_take; lia). rewrite T1 in C1.
  assert (length (take w bs2) = w) as T2 by (rewrite length_take; lia). rewrite T2 in C2.
  destruct (read_at m _ _ Hm B1) as (v1 & E1 & V1 & U1); [lia|]. destruct (read_at m _ _ Hm B2) as (v2 & E2 & V2 & U2); [lia|].
  rewrite T1 in E1, V1, U1. rewrite T2 in E2, V2, U2. cbn [diff_loop].
  rewrite (ptr_add_in m p1 _ _ Hm R1) by nia. rewrite E1. cbn [obind].
  rewrite (ptr_add_in m p2 _ _ Hm R2) by nia. rewrite E2. cbn [obind].
  destruct (Z.eqb_spec v1 v2) as [<-|Hne]; cbn [negb].
  - replace (p1 + i * Z.of_nat w + Z.of_nat w) with (p1 + (i + 1) * Z.of_nat w) in C1 by lia.
    replace (p2 + i * Z.of_nat w + Z.of_nat w) with (p2 + (i + 1) * Z.of_nat w) in C2 by lia.
    destruct (IH (i + 1) (drop w bs1) (drop w bs2)) as (r & E & Hr); rewrite ?length_drop, ?El; try done; try lia.
    exists r. split; [done|]. destruct r as [k|]; simpl in *.
    + destruct Hr as (j & -> & Hj & Hjt & Hjd). exists (S j). rewrite !drop_drop in Hjd.
      split; [lia|]. split; [lia|]. simpl. rewrite <- !take_take_drop. split; [|done]. congruence.
    + rewrite <- (take_drop w bs1), <- (take_drop w bs2). congruence.
  - exists (Some i). split; [done|]. exists 0%nat. split; [lia|]. split; [lia|]. split; [done|]. simpl. rewrite !drop_0.
    intros E. apply Hne, (to_le_bytes_inj w); [done|done|]. congruence.
Qed.

(** With single bytes the loop finds the first difference. *)
Lemma diff_bytes n i bs1 bs2 k :
  length bs1 = n -> length bs2 = n -> diff_result 1 n i bs1 bs2 (Some k) ->
  exists j, k = i + Z.of_nat j /\ (j < n)%nat /\ differ_at bs1 bs2 j.
Proof.
  intros L1 L2 (j & -> & Hj & Ht & Hd). exists j. split; [done|]. split; [done|]. rewrite Nat.mul_1_r in *. split; [done|].
  destruct (lookup_lt_is_Some_2 bs1 j) as [a Ha]; [lia|]. destruct (lookup_lt_is_Some_2 bs2 j) as [b Hb]; [lia|].
  exists a, b. split; [done|]. split; [done|]. intros <-. apply Hd. by rewrite (drop_S _ _ _ Ha), (drop_S _ _ _ Hb).
Qed.

(** The loop on a part of two objects of the same length. *)
Lemma diff_loop_part w n m p1 p2 bs1 bs2 (i : nat) :
  vm_wf m -> (0 < w)%nat -> length bs1 = length bs2 -> bytes_at m p1 bs1 -> bytes_at m p2 bs2 -> (i * w + n * w <= length bs1)%nat ->
  exists r, diff_loop w m p1 p2 (Z.of_nat i) n = Ret r /\
    diff_result w n (Z.of_nat i) (take (n * w) (drop (i * w) bs1)) (take (n * w) (drop (i * w) bs2)) r.
Proof.
  intros Hm Hw Hl B1 B2 Hn.
  assert (forall p bs, length bs = length bs1 -> bytes_at m p bs -> bytes_at m (p + Z.of_nat i * Z.of_nat w) (take (n * w) (drop (i * w) bs)))
    as Hpart by (intros p bs E B; rewrite <- Nat2Z.inj_mul; apply bytes_at_part; [done|lia]).
  assert (forall p bs, length bs = length bs1 -> bytes_at m p bs -> room m p (Z.to_nat (Z.of_nat i) * w + n * w)) as Hroom.
  { intros p bs E B. rewrite Nat2Z.id. replace p with (p + Z.of_nat 0) by lia. eapply room_sub; [apply B|lia]. }
  apply diff_loop_spec; rewrite ?length_take, ?length_drop; eauto with lia.
Qed.

(** A difference of a part is one of the whole. *)
Lemma differ_at_part bs1 bs2 a n j :
  take a bs1 = take a bs2 -> (a <= length bs1)%nat -> differ_at (take n (drop a bs1)) (take n (drop a bs2)) j -> differ_at bs1 bs2 (a + j).
Proof.
  intros Ht La Hd. rewrite <- (take_drop a bs1), <- (take_drop a bs2).
  replace (a + j)%nat with (length (take a bs1) + j)%nat by (rewrite length_take; lia). apply differ_at_app; [done|].
  destruct Hd as [Hj (x & y & Hx & Hy & Hne)].
  assert (j < n)%nat as Hjn by (apply lookup_lt_Some in Hx; rewrite length_take in Hx; lia).
  rewrite !take_take, Nat.min_l in Hj by lia. split; [done|]. exists x, y. by rewrite !lookup_take_lt in * by lia.
Qed.

Lemma memcmp_compares m p1 p2 bs1 bs2 :
  vm_wf m -> length bs1 = length bs2 -> bytes_at m p1 bs1 -> bytes_at m p2 bs2 ->
  memcmp m p1 p2 (Z.of_nat (length bs1)) = Ret (compare_chars bs1 bs2).
Proof.
  intros Hm Hl B1 B2. unfold memcmp. destruct (Z.eqb_spec p1 p2) as [<-|Hne].
  { rewrite (view_bytes_eq _ _ _ _ Hl (proj2 B1) (proj2 B2)). by rewrite compare_chars_refl. }
  assert (forall j, differ_at bs1 bs2 j ->
    (let! a := read_le 1 m (ptr_add p1 (Z.of_nat j)) in
     let! b := read_le 1 m (ptr_add p2 (Z.of_nat j)) in Ret (as_char a - as_char b)) = Ret (compare_chars bs1 bs2)) as Hfound.
  { intros j Hd. destruct (proj2 Hd) as (a & b & Ha & Hb & _).
    by rewrite (read_byte_at m p1 bs1 j a Hm B1 Ha), (read_byte_at m p2 bs2 j b Hm B2 Hb), (compare_chars_at _ _ _ _ _ Hd Ha Hb). }
  unfold size_of_usize. change (Z.to_nat 8) with 8%nat. destruct (div8 (length bs1)) as (q & -> & Hq). rewrite Nat2Z.id.
  replace (Z.to_nat (Z.of_nat (length bs1) - Z.of_nat q * 8)) with (length bs1 - q * 8)%nat by lia.
  change 0 with (Z.of_nat 0) at 1.
  destruct (diff_loop_part 8 q m p1 p2 bs1 bs2 0 Hm ltac:(lia) Hl B1 B2 ltac:(lia)) as (r & -> & Hr). cbn [obind].
  rewrite !drop_0 in Hr. destruct r as [i|].
  - destruct Hr as (j & -> & Hj & Ht & Hd). rewrite Z.add_0_l. replace (Z.of_nat j * 8) with (Z.of_nat (j * 8)) by lia.
    rewrite !take_take, !Nat.min_l in Ht by lia.
    assert (forall bs : list Z, take 8 (drop (j * 8) (take (q * 8) bs)) = take 8 (drop (j * 8) bs)) as Htd
      by (intros bs; rewrite skipn_firstn_comm, take_take; f_equal; lia).
    rewrite !Htd in Hd.
    destruct (diff_loop_part 1 8 m p1 p2 bs1 bs2 (j * 8) Hm ltac:(lia) Hl B1 B2 ltac:(lia)) as (r & -> & Hr). cbn [obind].
    rewrite !Nat.mul_1_r in Hr. destruct r as [k|]; [|by destruct Hd].
    apply diff_bytes in Hr as (j' & -> & _ & Hd'); [|rewrite length_take, length_drop; lia..]. cbn [obind]. rewrite <- Nat2Z.inj_add. apply Hfound. eapply differ_at_part; [exact Ht|lia|exact Hd'].
  - simpl in Hr. cbn [obind]. replace (Z.of_nat q * 8) with (Z.of_nat (q * 8)) by lia.
    destruct (diff_loop_part 1 (length bs1 - q * 8) m p1 p2 bs1 bs2 (q * 8) Hm ltac:(lia) Hl B1 B2 ltac:(lia)) as (r & -> & Hr').
    cbn [obind]. rewrite !Nat.mul_1_r in Hr'. destruct r as [k|].
    + apply diff_bytes in Hr' as (j' & -> & _ & Hd'); [|rewrite length_take, length_drop; lia..]. rewrite <- Nat2Z.inj_add. apply Hfound. eapply differ_at_part; [exact Hr|lia|exact Hd'].
    + simpl in Hr'. assert (bs1 = bs2) as <-; [|by rewrite compare_chars_refl].
      rewrite <- (take_drop (q * 8) bs1), <- (take_drop (q * 8) bs2). rewrite !take_ge in Hr' by (rewrite length_drop; lia). congruence.
Qed.

Lemma bytes_at_is_byte m p bs : vm_wf m -> bytes_at m p bs -> Forall is_byte bs.
Proof.
  intros Hm B. apply list.Forall_lookup. intros i b Hi.
  exact (proj1 (read_le_sound 1 m _ b Hm (read_byte_at m p bs i b Hm B Hi))).
Qed.

Lemma as_char_inj a b : is_byte a -> is_byte b -> as_char a = as_char b -> a = b.
Proof.
  unfold is_byte, in_u, as_char, to_signed. intros Ha Hb. change (2 ^ (8 - 1)) with 128. change (2 ^ 8) with 256 in *.
  destruct (Z.ltb_spec a 128), (Z.ltb_spec b 128); lia.
Qed.

Lemma compare_chars_zero bs1 bs2 :
  Forall is_byte bs1 -> Forall is_byte bs2 -> length bs1 = length bs2 -> compare_chars bs1 bs2 = 0 -> bs1 = bs2.
Proof.
  revert bs2. induction bs1 as [|a bs1 IH]; intros [|b bs2] H1 H2 Hl Hc; simplify_eq/=; [done|].
  inversion H1; inversion H2; subst. case_decide as E; [subst; f_equal; by apply IH|].
  destruct E. apply as_char_inj; [done|done|lia].
Qed.

(** [memcmp] compares by words, but its answer is that of a comparison byte by
    byte: the difference of the first two bytes that differ, taken as signed
    characters, and 0 exactly when all bytes are equal. *)
Theorem memcmp_correct m p1 p2 bs1 bs2 :
  vm_wf m -> length bs1 = length bs2 -> bytes_at m p1 bs1 -> bytes_at m p2 bs2 ->
  exists r, memcmp m p1 p2 (Z.of_nat (length bs1)) = Ret r /\ r = compare_chars bs1 bs2 /\ (r = 0 <-> bs1 = bs2).
Proof.
  intros Hm Hl B1 B2. eexists. split; [by apply memcmp_compares|]. split; [done|]. split.
  - apply compare_chars_zero; [by eapply bytes_at_is_byte|by eapply bytes_at_is_byte|done].
  - intros ->. apply compare_chars_refl.
Qed.

(** * Filling *)

Lemma fill_loop_spec w n m dest v i :
  vm_wf m -> (0 < w)%nat -> in_u (8 * Z.of_nat w) v -> 0 <= i -> room m dest (Z.to_nat i * w + n * w) ->
  exists m', fill_loop w m dest v i n = Ret m' /\ stored m (dest + i * Z.of_nat w) (concat (replicate n (to_le_bytes w v))) m'.
Proof.
  intros Hm Hw Hv. revert m i Hm. induction n as [|n IH]; intros m i Hm Hi Hd.
  { exists m. split; [done|by apply stored_nil]. }
  assert (room m (dest + i * Z.of_nat w) w) as Hrw.
  { replace (i * Z.of_nat w) with (Z.of_nat (Z.to_nat i * w)) by lia. eapply room_sub; [exact Hd|lia]. }
  destruct (write_at m _ w v Hm Hrw Hw Hv) as (m1 & Hwr & Hst).
  cbn [fill_loop]. rewrite (ptr_add_in m dest _ _ Hm Hd) by nia. rewrite Hwr. cbn [obind].
  destruct (IH m1 (i + 1)) as (m' & E & Hst'); [apply Hst|lia| |].
  { apply (st_room _ _ _ _ Hst). by replace (Z.to_nat (i + 1) * w + n * w)%nat with (Z.to_nat i * w + S n * w)%nat by nia. }
  exists m'. split; [done|]. cbn [replicate concat]. eapply stored_app; [exact Hst|]. rewrite length_to_le_bytes.
  by replace (dest + i * Z.of_nat w + Z.of_nat w) with (dest + (i + 1) * Z.of_nat w) by lia.
Qed.

(** Eight bytes of the word that [memset] stores. *)
Lemma repeat_char_bytes b :
  is_byte b -> to_le_bytes 8 (repeat_char (as_char b)) = b :: replicate 7 (if b <? 128 then b else 255).
Proof.
  intros Hb. assert (forall n : nat, (n < 256)%nat -> to_le_bytes 8 (repeat_char (as_char (Z.of_nat n))) =
    Z.of_nat n :: replicate 7 (if Z.of_nat n <? 128 then Z.of_nat n else 255)) as H.
  { assert (Forall (fun n => to_le_bytes 8 (repeat_char (as_char (Z.of_nat n))) =
      Z.of_nat n :: replicate 7 (if Z.of_nat n <? 128 then Z.of_nat n else 255)) (seq 0 256)) as H
      by (apply (bool_decide_unpack _); vm_compute; exact I).
    intros n Hn. rewrite list.Forall_forall in H. apply H, elem_of_seq. lia. }
  unfold is_byte, in_u in Hb. specialize (H (Z.to_nat b)). rewrite Z2Nat.id in H by lia. apply H. lia.
Qed.

Lemma repeat_char_range c : in_u 64 (repeat_char c).
Proof.
  unfold repeat_char. assert (forall l acc, in_u 64 acc -> in_u 64 (fold_left (fun c_size i => Z.lor c_size (shl 64 (wrap 64 c) (i * 8))) l acc)) as H.
  { induction l as [|i l IH]; intros acc Ha; [done|]. simpl. apply IH. apply in_u_lor; [lia|done|]. apply in_u_wrap. lia. }
  apply H. unfold in_u. lia.
Qed.

(** The bytes [memset] leaves: every byte of a word but the lowest is made from the
    sign of the character. *)
Definition filled (b : Z) (n : nat) : list Z :=
  if (n <? 8)%nat then replicate n b
  else concat (replicate (n / 8) (b :: replicate 7 (if b <? 128 then b else 255))) ++ replicate (n mod 8) b.

Lemma char_byte_of_char c : char_byte (as_char (char_byte c)) = char_byte c.
Proof. unfold char_byte, as_char. apply wrap_to_signed; [lia|]. by apply in_u_wrap. Qed.

Lemma concat_replicates {A} n k (b : A) : concat (replicate n (replicate k b)) = replicate (n * k) b.
Proof. induction n as [|n IH]; [done|]. cbn [replicate concat Nat.mul]. by rewrite IH, replicate_add. Qed.
Lemma concat_singletons {A} n (b : A) : concat (replicate n [b]) = replicate n b.
Proof. rewrite <- (Nat.mul_1_r n) at 2. apply (concat_replicates n 1). Qed.

Lemma memset_stores m dest c (n : nat) :
  vm_wf m -> room m dest n ->
  exists m', memset m dest c (Z.of_nat n) = Ret (m', dest) /\ stored m dest (filled (char_byte c) n) m'.
Proof.
  intros Hm Hd. set (b := char_byte c). assert (is_byte b) as Hb by by apply in_u_wrap.
  assert (to_le_bytes 1 b = [b]) as Eb by (simpl; rewrite Z.mod_small by exact Hb; done).
  unfold memset, filled, size_of_usize. rewrite char_byte_of_char. fold b.
  destruct (Z.ltb_spec (Z.of_nat n) 8) as [H8|H8].
  - rewrite (proj2 (Nat.ltb_lt n 8)) by lia. rewrite Nat2Z.id.
    destruct (fill_loop_spec 1 n m dest b 0 Hm) as (m' & -> & Hst); [lia|done|lia|replace (Z.to_nat 0 * 1 + n * 1)%nat with n by lia; exact Hd|].
    rewrite Z.mul_0_l, Z.add_0_r, Eb, concat_singletons in Hst. by exists m'.
  - rewrite (proj2 (Nat.ltb_ge n 8)) by lia. rewrite <- (Nat2Z.inj_div n 8 : _ = Z.of_nat n / 8), Nat2Z.id.
    pose proof (Nat.div_mod n 8 ltac:(lia)) as Hdm. set (q := (n / 8)%nat) in *. set (r := (n mod 8)%nat) in *.
    replace (Z.to_nat (Z.of_nat n - Z.of_nat q * 8)) with r by lia.
    destruct (fill_loop_spec 8 q m dest (repeat_char (as_char b)) 0 Hm) as (m1 & -> & Hst1);
      [lia|apply repeat_char_range|lia| |].
    { replace dest with (dest + Z.of_nat 0) by lia. eapply room_sub; [exact Hd|lia]. }
    cbn [obind]. rewrite Z.mul_0_l, Z.add_0_r, repeat_char_bytes in Hst1 by done. set (word := b :: replicate 7 _) in *.
    destruct (fill_loop_spec 1 r m1 dest b (Z.of_nat q * 8)) as (m2 & -> & Hst2); [apply Hst1|lia|done|lia| |].
    { apply (st_room _ _ _ _ Hst1). by replace (Z.to_nat (Z.of_nat q * 8) * 1 + r * 1)%nat with n by lia. }
    exists m2. split; [done|]. rewrite Eb, concat_singletons in Hst2. eapply stored_app; [exact Hst1|].
    assert (length (concat (replicate q word)) = (q * 8)%nat) as ->.
    { clear. induction q as [|q IH]; [done|]. simpl. rewrite IH. lia. }
    by replace (Z.of_nat (q * 8)) with (Z.of_nat q * 8 * Z.of_nat 1) by lia.
Qed.

Lemma filled_iff b n : is_byte b -> (filled b n = replicate n b <-> (n < 8)%nat \/ b < 128 \/ b = 255).
Proof.
  intros Hb. unfold filled. destruct (Nat.ltb_spec n 8) as [H8|H8]; [by split; [left|]|].
  pose proof (Nat.div_mod n 8 ltac:(lia)) as Hdm. assert (1 <= n / 8)%nat as Hq by (apply Nat.div_le_lower_bound; lia).
  set (q := (n / 8)%nat) in *. set (r := (n mod 8)%nat) in *. split.
  - intros E. right. destruct (Z.ltb_spec b 128); [by left|right]. destruct q as [|q]; [lia|].
    apply (f_equal (fun l => l !! 1%nat)) in E. cbn [replicate concat app lookup list_lookup] in E.
    destruct n as [|[|n]]; [lia|lia|]. by injection E.
  - intros [?|H]; [lia|]. assert ((if b <? 128 then b else 255) = b) as -> by (destruct (Z.ltb_spec b 128); lia).
    change (b :: replicate 7 b) with (replicate 8 b). replace n with (q * 8 + r)%nat by lia. rewrite replicate_add. f_equal.
    apply concat_replicates.
Qed.

(** [memset] fills the [n] bytes at [dest], which the process may access, and
    changes no other; but the bytes are [n] times the wanted one only if there are
    fewer than eight of them, or the byte is below 128, or it is 255: the word it
    stores eight bytes at a time is made from the sign-extended character. *)
Theorem memset_fills m dest c (n : nat) :
  vm_wf m -> room m dest n ->
  exists m' bs, memset m dest c (Z.of_nat n) = Ret (m', dest) /\ vm_wf m' /\
    (forall x, vm_view m' x = view_write (vm_view m) dest bs x) /\
    (bs = replicate n (c mod 256) <-> (n < 8)%nat \/ c mod 256 < 128 \/ c mod 256 = 255).
Proof.
  intros Hm Hd. destruct (memset_stores m dest c n Hm Hd) as (m' & E & [H1 H2 _]). exists m', (filled (char_byte c) n).
  split; [done|]. split; [done|]. split; [done|]. apply filled_iff. by apply in_u_wrap.
Qed.

(** * Searching *)

Lemma find_byte_spec n m p ch i bs :
  vm_wf m -> bytes_at m p bs -> (i + n = length bs)%nat -> Forall (fun b => b <> ch) (take i bs) ->
  find_byte m p ch (Z.of_nat i) n =
    Ret (match list_find (fun b => b = ch) bs with Some (j, _) => p + Z.of_nat j | None => 0 end).
Proof.
  intros Hm B. revert i. induction n as [|n IH]; intros i Hi Hf; simpl.
  - rewrite take_ge in Hf by lia. by rewrite (proj2 (list_find_None _ _)).
  - destruct (lookup_lt_is_Some_2 bs i) as [b Hb]; [lia|]. rewrite (read_byte_at m p bs i b Hm B Hb). cbn [obind].
    destruct (Z.eqb_spec b ch) as [->|Hne].
    + rewrite (ptr_add_in m p (length bs)) by (done || exact (proj1 B) || lia).
      assert (list_find (fun b => b = ch) bs = Some (i, ch)) as ->; [|done].
      apply list_find_Some. split; [done|]. split; [done|]. intros j y Hy Hj.
      rewrite list.Forall_forall in Hf. apply Hf. apply list_elem_of_lookup. exists j. by rewrite lookup_take_lt.
    + replace (Z.of_nat i + 1) with (Z.of_nat (S i)) by lia. apply IH; [lia|].
      rewrite (take_S_r _ _ _ Hb). apply Forall_app. split; [done|by constructor].
Qed.

(** [memchr] finds the first of the bytes, or answers with the null pointer. *)
Lemma memchr_finds m p ch bs :
  vm_wf m -> bytes_at m p bs ->
  memchr m p ch (Z.of_nat (length bs)) =
    Ret (match list_find (fun b => b = ch mod 256) bs with Some (j, _) => p + Z.of_nat j | None => 0 end).
Proof. intros Hm B. unfold memchr. rewrite Nat2Z.id. apply (find_byte_spec (length bs) m p _ 0 bs); [done|done|done|constructor]. Qed.

(** * Examples *)

Lemma vm_wf_single r : region_ok r -> vm_wf [r].
Proof.
  intros Hr. split; [by constructor|]. intros i j r1 r2 a Hi Hj _ _.
  apply list_lookup_singleton_Some in Hi as [-> _]. by apply list_lookup_singleton_Some in Hj as [-> _].
Qed.

(** The bytes of a region are where it says. *)
Lemma bytes_at_region r bs (off : nat) :
  region_ok r -> bs <> [] -> take (length bs) (drop off (backing_storage r)) = bs ->
  bytes_at [r] (virtual_start r + Z.of_nat off) bs.
Proof.
  intros Hr Hne E. assert (off + length bs <= length (backing_storage r))%nat as Hl.
  { apply (f_equal length) in E. rewrite length_take, length_drop in E. assert (0 < length bs)%nat by (destruct bs; [done|simpl; lia]). lia. }
  assert (0 < length bs)%nat as Hp by (destruct bs; [done|simpl; lia]). split.
  - right. exists 0%nat, r. unfold covers, region_len. split_and!; [done|lia|lia|lia].
  - intros i b Hi. pose proof (lookup_lt_Some _ _ _ Hi) as Hlt.
    rewrite (vm_view_covers [r] _ 0 r (proj2 (vm_wf_single r Hr)) eq_refl) by (unfold covers, region_len; lia).
    unfold region_get. rewrite decide_True by (unfold covers, region_len; lia).
    rewrite <- Hi, <- E, lookup_take_lt, lookup_drop by (rewrite ?E; lia). f_equal. lia.
Qed.

Definition demo_region : VirtRegion := MkRegion 0x1000 [97; 98; 0; 97; 98; 99; 0; 200; 0; 0; 0; 0; 0; 0; 0; 0].

Lemma demo_region_ok : region_ok demo_region.
Proof. split; [done|]. split; [done|]. repeat (constructor; [done|]). constructor. Qed.

Lemma memmove_correct_witness :
  exists m', memmove [demo_region] 0x1001 0x1000 6 = Ret (m', 0x1001) /\ vm_wf m' /\
    forall x, vm_view m' x = view_write (vm_view [demo_region]) 0x1001 [97; 98; 0; 97; 98; 99] x.
Proof.
  apply (memmove_correct [demo_region] 0x1001 0x1000 [97; 98; 0; 97; 98; 99] (vm_wf_single _ demo_region_ok)).
  - exact (bytes_at_region demo_region [97; 98; 0; 97; 98; 99] 0 demo_region_ok ltac:(done) eq_refl).
  - exact (proj1 (bytes_at_region demo_region [98; 0; 97; 98; 99; 0] 1 demo_region_ok ltac:(done) eq_refl)).
Defined.

Lemma memcmp_correct_witness : exists r, memcmp [demo_region] 0x1000 0x1003 3 = Ret r /\ r = -99 /\ r <> 0.
Proof.
  destruct (memcmp_correct [demo_region] 0x1000 0x1003 [97; 98; 0] [97; 98; 99] (vm_wf_single _ demo_region_ok) eq_refl) as (r & E & Hr & _).
  - exact (bytes_at_region demo_region [97; 98; 0] 0 demo_region_ok ltac:(done) eq_refl).
  - exact (bytes_at_region demo_region [97; 98; 99] 3 demo_region_ok ltac:(done) eq_refl).
  - exists r. split; [exact E|]. split; [exact Hr|]. rewrite Hr. done.
Defined.

(** Eight bytes 0x80 are asked for. *)
Lemma memset_fills_witness :
  exists m' bs, memset [demo_region] 0x1000 0x80 8 = Ret (m', 0x1000) /\
    (forall x, vm_view m' x = view_write (vm_view [demo_region]) 0x1000 bs x) /\ bs <> replicate 8 0x80.
Proof.
  destruct (memset_fills [demo_region] 0x1000 0x80 8 (vm_wf_single _ demo_region_ok)) as (m' & bs & E & _ & Hv & Hbs).
  - exact (proj1 (bytes_at_region demo_region [97; 98; 0; 97; 98; 99; 0; 200] 0 demo_region_ok ltac:(done) eq_refl)).
  - exists m', bs. split; [exact E|]. split; [exact Hv|]. intros H. destruct (proj1 Hbs H) as [?|[?|?]]; [lia|done|done].
Defined.
