(* ===== verification/CStr.v ===== *)
(** The string functions of the C library (rlibc/src/cstr.rs), on top of the memory
    functions. *)
From S2P Require Import Prelude MachineInt EmulatorMemory VirtMem CMem.
From stdpp Require Import list.
#[local] Open Scope Z_scope.

Definition NULL : Z := 0.

(** * Definitions *)

(** The loop of [strlen] ends at a zero byte or at an address that is not mapped; it
    reads no address twice, so that the number of mapped bytes bounds its rounds. *)
Definition capacity (m : memory_) : nat := sum_list_with (fun r => length (backing_storage r)) m.

Fixpoint strlen_loop (m : memory_) (str size : Z) (n : nat) : outcome Z :=
  match n with
  | O => Panic
  | S n =>
      let! b := read_le 1 m (ptr_add str size) in
      if b =? 0 then Ret size else strlen_loop m str (wrap 64 (size + 1)) n
  end.
Definition strlen (m : memory_) (str : Z) : outcome Z := strlen_loop m str 0 (S (capacity m)).

Definition strchr (m : memory_) (str ch : Z) : outcome Z :=
  let! n := strlen m str in find_byte m str (char_byte ch) 0 (Z.to_nat (n + 1)).

Definition strcmp (m : memory_) (str1 str2 : Z) : outcome Z :=
  let! len_1 := strlen m str1 in
  let! len_2 := strlen m str2 in
  if (len_1 =? 0) && negb (len_2 =? 0) then Ret (-1)
  else if negb (len_1 =? 0) && (len_2 =? 0) then Ret (-1)
  else memcmp m str1 str2 (Z.min len_1 len_2).

(** The loop of [strstr] over the positions [i] of [str]. *)
Fixpoint strstr_loop (m : memory_) (str substr str_len substr_len i : Z) (n : nat) : outcome Z :=
  match n with
  | O => Ret NULL
  | S n =>
      if wrap 64 (i + substr_len - 1) >=? str_len then Ret NULL
      else
        let! c := memcmp m (ptr_add str i) substr substr_len in
        if c =? 0 then Ret (ptr_add str i) else strstr_loop m str substr str_len substr_len (i + 1) n
  end.
Definition strstr (m : memory_) (str substr : Z) : outcome Z :=
  let! str_len := strlen m str in
  let! substr_len := strlen m substr in
  strstr_loop m str substr str_len substr_len 0 (Z.to_nat str_len).

Definition strncpy (m : memory_) (dest src count : Z) : outcome (memory_ * Z) :=
  let! n := strlen m src in
  let src_len := wrap 64 (n + 1) in
  if src_len >=? count then let! (m, _) := memcpy m dest src count in Ret (m, dest)
  else
    let! (m, _) := memcpy m dest src src_len in
    let! (m, _) := memset m (ptr_add dest src_len) 0 (count - src_len) in
    Ret (m, dest).

Definition strcpy (m : memory_) (dest src : Z) : outcome (memory_ * Z) :=
  let! n := strlen m src in memcpy m dest src (wrap 64 (n + 1)).

Definition strcat (m : memory_) (dest src : Z) : outcome (memory_ * Z) :=
  let! n := strlen m dest in strcpy m (ptr_add dest n) src.

Definition isspace (ch : Z) : Z :=
  if (ch =? 0x20) || (ch =? 0x0c) || (ch =? 0x0a) || (ch =? 0x0d) || (ch =? 0x09) || (ch =? 0x0b) then 1 else 0.

Definition isdigit (ch : Z) : Z := if (48 <=? wrap 8 ch) && (wrap 8 ch <=? 57) then 1 else 0.

(** Is the character at [str + i] one of the delimiters from index [j] on? *)
Fixpoint char_in (m : memory_) (str i delim j : Z) (n : nat) : outcome bool :=
  match n with
  | O => Ret false
  | S n =>
      let! a := read_le 1 m (ptr_add str i) in
      let! b := read_le 1 m (ptr_add delim j) in
      if a =? b then Ret true else char_in m str i delim (j + 1) n
  end.

(** The first of [n] positions from [i] on that holds a delimiter, or that does not. *)
Fixpoint find_delim (wanted : bool) (m : memory_) (str delim delim_len i : Z) (n : nat) : outcome (option Z) :=
  match n with
  | O => Ret None
  | S n =>
      let! is_inc := char_in m str i delim 0 (Z.to_nat delim_len) in
      if eqb is_inc wanted then Ret (Some i) else find_delim wanted m str delim delim_len (i + 1) n
  end.

(** [strtok] keeps the rest of the string in a static variable. *)
Definition strtok (m : memory_) (strtok_str str delim : Z) : outcome (memory_ * Z * Z) :=
  if (str =? NULL) && (strtok_str =? NULL) then Ret (m, strtok_str, NULL)
  else
    let str := if str =? NULL then strtok_str else str in
    let! str_len := strlen m str in
    let! delim_len := strlen m delim in
    let! token_start := find_delim false m str delim delim_len 0 (Z.to_nat str_len) in
    match token_start with
    | None => Ret (m, strtok_str, NULL)
    | Some token_start =>
        let! token_end := find_delim true m str delim delim_len token_start (Z.to_nat (str_len - token_start)) in
        match token_end with
        | None => Ret (m, NULL, ptr_add str token_start)
        | Some token_end =>
            let! m := write_le 1 m (ptr_add str token_end) 0 in
            Ret (m, ptr_add str (token_end + 1), ptr_add str token_start)
        end
    end.

(** * Strings in memory *)

(** A null-terminated string at [p]. *)
Definition cstr_at (m : memory_) (p : Z) (s : list Z) : Prop := bytes_at m p (s ++ [0]) /\ Forall (fun b => b <> 0) s.

Lemma room_capacity m p n : room m p n -> (n <= capacity m)%nat.
Proof.
  intros [->|(i & r & Hi & Hc & Hf)]; [lia|].
  apply list_elem_of_lookup_2 in Hi. pose proof (sum_list_with_in r (fun r => length (backing_storage r)) m Hi) as H.
  fold (capacity m) in H.
  unfold covers, region_len in *. lia.
Qed.

Lemma cstr_len m p s : vm_wf m -> cstr_at m p s -> 1 <= p /\ p + Z.of_nat (length s) + 1 <= 2 ^ 64.
Proof. intros Hm [[Hr _] _]. rewrite length_app in Hr. simpl in Hr. destruct (room_range _ _ _ Hm Hr); lia. Qed.

Lemma strlen_loop_spec n m p s (i : nat) :
  vm_wf m -> cstr_at m p s -> (i <= length s)%nat -> (length s - i < n)%nat ->
  strlen_loop m p (Z.of_nat i) n = Ret (Z.of_nat (length s)).
Proof.
  intros Hm Hs. pose proof (cstr_len _ _ _ Hm Hs) as Hlen. destruct Hs as [Hb Hz].
  revert i. induction n as [|n IH]; intros i Hi Hn; [lia|]. simpl. destruct (decide (i = length s)) as [->|Hne].
  - rewrite (read_byte_at m p _ _ 0 Hm Hb); [done|]. by rewrite lookup_app_r, Nat.sub_diag by lia.
  - destruct (lookup_lt_is_Some_2 s i) as [b Hi']; [lia|].
    rewrite (read_byte_at m p _ _ b Hm Hb) by by apply lookup_app_l_Some. cbn [obind].
    pose proof (Forall_lookup_1 _ _ _ _ Hz Hi') as Hb0. simpl in Hb0. destruct (Z.eqb_spec b 0); [done|].
    rewrite wrap_small by (unfold in_u; lia). replace (Z.of_nat i + 1) with (Z.of_nat (S i)) by lia. apply IH; lia.
Qed.

Lemma strlen_cstr m p s : vm_wf m -> cstr_at m p s -> strlen m p = Ret (Z.of_nat (length s)).
Proof.
  intros Hm Hs. apply (strlen_loop_spec _ m p s 0 Hm Hs); [lia|].
  destruct Hs as [[Hr _] _]. apply room_capacity in Hr. rewrite length_app in Hr. simpl in Hr. lia.
Qed.

(** [strchr] finds the first such character; the end of the string can be looked for
    too. *)
Lemma strchr_finds m p s ch :
  vm_wf m -> cstr_at m p s ->
  strchr m p ch = Ret (match list_find (fun b => b = ch mod 256) (s ++ [0]) with Some (j, _) => p + Z.of_nat j | None => NULL end).
Proof.
  intros Hm Hs. unfold strchr. rewrite (strlen_cstr m p s Hm Hs). cbn [obind].
  replace (Z.to_nat (Z.of_nat (length s) + 1)) with (length (s ++ [0])) by (rewrite length_app; simpl; lia).
  apply (find_byte_spec _ m p _ 0); [done|apply Hs|done|constructor].
Qed.

(** * Copying *)

(** Two ranges without a common address. *)
Definition apart_ranges (p : Z) (n : nat) (q : Z) (k : nat) : Prop := p + Z.of_nat n <= q \/ q + Z.of_nat k <= p.

Lemma stored_cstr m p s m' : room m p (length s + 1) -> Forall (fun b => b <> 0) s -> stored m p (s ++ [0]) m' -> cstr_at m' p s.
Proof. intros Hr Hz Hst. split; [|done]. eapply stored_bytes; [|exact Hst]. by rewrite length_app. Qed.

Lemma strcpy_stores m dest src s :
  vm_wf m -> cstr_at m src s -> room m dest (length s + 1) -> apart_ranges dest (length s + 1) src (length s + 1) ->
  exists m', strcpy m dest src = Ret (m', dest) /\ stored m dest (s ++ [0]) m'.
Proof.
  intros Hm Hs Hd Ha. unfold strcpy. rewrite (strlen_cstr m src s Hm Hs). cbn [obind].
  pose proof (cstr_len _ _ _ Hm Hs). rewrite wrap_small by (unfold in_u; lia).
  replace (Z.of_nat (length s) + 1) with (Z.of_nat (length (s ++ [0]))) by (rewrite length_app; simpl; lia).
  apply memcpy_stores; [done|apply Hs|by rewrite length_app|]. rewrite length_app. simpl. unfold apart_ranges in Ha. lia.
Qed.

(** [strcat] leaves at [dest] the string that was there followed by the string at
    [src], with one terminating zero, and changes nothing but the bytes behind the
    old string; the strings must not overlap and the room at [dest] must be enough
    for both.  (It returns the end of the old string, where C promises [dest].) *)
Theorem strcat_appends m dest src d s :
  vm_wf m -> cstr_at m dest d -> cstr_at m src s -> room m dest (length d + length s + 1) ->
  apart_ranges dest (length d + length s + 1) src (length s + 1) ->
  exists m', strcat m dest src = Ret (m', dest + Z.of_nat (length d)) /\ vm_wf m' /\ cstr_at m' dest (d ++ s) /\ cstr_at m' src s /\
    forall x, x < dest + Z.of_nat (length d) \/ dest + Z.of_nat (length d + length s) < x -> vm_view m' x = vm_view m x.
Proof.
  intros Hm Hd Hs Hr Ha. unfold apart_ranges in Ha. unfold strcat. rewrite (strlen_cstr m dest d Hm Hd). cbn [obind].
  rewrite (ptr_add_in m dest _ _ Hm Hr) by lia.
  destruct (strcpy_stores m (dest + Z.of_nat (length d)) src s Hm Hs) as (m' & E & Hst);
    [eapply room_sub; [exact Hr|lia]|unfold apart_ranges; lia|].
  exists m'. split; [done|]. split; [apply Hst|]. assert (bytes_at m' dest d) as Hd'.
  { eapply stored_elsewhere; [exact Hst|by apply (bytes_at_app _ _ _ [0]), Hd|lia]. }
  split; [|split].
  - split; [|by apply Forall_app; split; [apply Hd|apply Hs]]. destruct Hd' as [Rd Vd].
    split; [apply (st_room _ _ _ _ Hst); rewrite !length_app; simpl; by replace (_ + _)%nat with (length d + length s + 1)%nat by lia|].
    intros i b Hi. rewrite <- app_assoc in Hi. apply lookup_app_Some in Hi as [Hi|[Hl Hi]]; [by apply Vd|].
    assert (bytes_at m' (dest + Z.of_nat (length d)) (s ++ [0])) as [_ V].
    { eapply stored_bytes; [|exact Hst]. rewrite length_app. simpl. eapply room_sub; [exact Hr|lia]. }
    rewrite <- (V _ _ Hi). f_equal. lia.
  - split; [|apply Hs]. eapply stored_elsewhere; [exact Hst|apply Hs|]. rewrite length_app. simpl. lia.
  - intros x Hx. rewrite (st_view _ _ _ _ Hst). unfold view_write. rewrite length_app. simpl. by rewrite decide_False by lia.
Qed.

(** [strncpy] always writes [count] bytes: the string cut off, or followed by zeros. *)
Lemma strncpy_pads m dest src s (count : nat) :
  vm_wf m -> cstr_at m src s -> room m dest count -> apart_ranges dest count src (length s + 1) -> Z.of_nat count < 2 ^ 64 ->
  exists m', strncpy m dest src (Z.of_nat count) = Ret (m', dest) /\
    stored m dest (take count (s ++ replicate (count - length s) 0)) m'.
Proof.
  intros Hm Hs Hr Ha Hc. unfold apart_ranges in Ha. unfold strncpy. rewrite (strlen_cstr m src s Hm Hs). cbn [obind].
  pose proof (cstr_len _ _ _ Hm Hs). rewrite wrap_small by (unfold in_u; lia).
  rewrite Z.geb_leb. destruct (Z.leb_spec (Z.of_nat count) (Z.of_nat (length s) + 1)) as [Hle|Hgt].
  - assert (take count (s ++ replicate (count - length s) 0) = take count (s ++ [0])) as ->.
    { destruct (decide (count <= length s)%nat) as [Hl|Hl]; [by rewrite !take_app_le by lia|].
      by replace (count - length s)%nat with 1%nat by lia. }
    assert (length (take count (s ++ [0])) = count) as L by (rewrite length_take, length_app; simpl; lia).
    destruct (memcpy_stores m dest src (take count (s ++ [0])) Hm) as (m' & E & Hst); rewrite ?L in *; try done; try lia.
    { replace src with (src + Z.of_nat 0) by lia. rewrite <- (drop_0 (s ++ [0])). apply bytes_at_part; [apply Hs|].
      rewrite length_app. simpl. lia. }
    rewrite E. by exists m'.
  - replace (Z.of_nat (length s) + 1) with (Z.of_nat (length (s ++ [0]))) by (rewrite length_app; simpl; lia).
    assert (length (s ++ [0]%Z) = length s + 1)%nat as L by by rewrite length_app.
    destruct (memcpy_stores m dest src (s ++ [0]) Hm) as (m1 & -> & Hst1); [apply Hs| |rewrite L; lia|].
    { replace dest with (dest + Z.of_nat 0) by lia. eapply room_sub; [exact Hr|lia]. }
    cbn [obind]. rewrite (ptr_add_in m dest count) by (done || lia). rewrite <- Nat2Z.inj_sub by lia.
    destruct (memset_stores m1 (dest + Z.of_nat (length (s ++ [0]))) 0 (count - length (s ++ [0]))) as (m2 & -> & Hst2);
      [apply Hst1|apply (st_room _ _ _ _ Hst1); eapply room_sub; [exact Hr|lia]|].
    exists m2. split; [done|].
    assert (filled (char_byte 0) (count - length (s ++ [0])) = replicate (count - length (s ++ [0])) 0) as Ef.
    { change (char_byte 0) with 0. apply filled_iff; [done|lia]. }
    rewrite Ef in Hst2.
    rewrite take_ge by (rewrite length_app, length_replicate; lia).
    replace (count - length s)%nat with (1 + (count - length (s ++ [0]%Z)))%nat by lia.
    rewrite replicate_add. change (replicate 1 0) with [0]. rewrite app_assoc. eapply stored_app; [exact Hst1|exact Hst2].
Qed.

(** * Comparing and searching *)

Lemma cstr_part m p s a n : cstr_at m p s -> (a + n <= length s)%nat -> bytes_at m (p + Z.of_nat a) (take n (drop a s)).
Proof.
  intros [B _] H. apply bytes_at_app in B as [B _]. by apply bytes_at_part.
Qed.

Lemma compare_chars_take s1 s2 n : n = (length s1 `min` length s2)%nat -> compare_chars (take n s1) (take n s2) = compare_chars s1 s2.
Proof.
  intros ->. revert s2. induction s1 as [|a s1 IH]; intros [|b s2]; try done. simpl. by rewrite IH.
Qed.

(** What [strcmp] answers: the comparison ends with the shorter string. *)
Definition strcmp_answer (s1 s2 : list Z) : Z :=
  match s1, s2 with
  | [], [] => 0
  | [], _ | _, [] => -1
  | _, _ => compare_chars s1 s2
  end.

Lemma strcmp_answers m p1 p2 s1 s2 :
  vm_wf m -> cstr_at m p1 s1 -> cstr_at m p2 s2 -> strcmp m p1 p2 = Ret (strcmp_answer s1 s2).
Proof.
  intros Hm H1 H2. unfold strcmp. rewrite (strlen_cstr m p1 s1 Hm H1), (strlen_cstr m p2 s2 Hm H2). cbn [obind].
  assert (memcmp m p1 p2 (Z.min (Z.of_nat (length s1)) (Z.of_nat (length s2))) = Ret (compare_chars s1 s2)) as E.
  { set (n := (length s1 `min` length s2)%nat). rewrite <- Nat2Z.inj_min. fold n.
    assert (forall p s, cstr_at m p s -> (n <= length s)%nat -> bytes_at m p (take n s)) as Hp.
    { intros p s Hs Hn. replace p with (p + Z.of_nat 0) by lia. rewrite <- (drop_0 s). apply cstr_part; [done|lia]. }
    rewrite <- (compare_chars_take s1 s2 n eq_refl). assert (n = length (take n s1)) as En by (rewrite length_take; lia).
    rewrite En at 1. apply memcmp_compares; [done|rewrite !length_take; lia|by apply Hp; [|lia]|by apply Hp; [|lia]]. }
  destruct s1 as [|a s1], s2 as [|b s2]; try done; rewrite E; done.
Qed.

(** [strcmp] calls different strings equal: a string and any longer string that
    starts with it compare as 0, unless the shorter one is empty, and then the answer
    is -1 in both orders. *)
Theorem strcmp_prefix_equal m p1 p2 s t :
  vm_wf m -> cstr_at m p1 s -> cstr_at m p2 (s ++ t) -> t <> [] ->
  let answer := if decide (s = []) then -1 else 0 in
  strcmp m p1 p2 = Ret answer /\ strcmp m p2 p1 = Ret answer.
Proof.
  intros Hm H1 H2 Ht. rewrite (strcmp_answers m p1 p2 _ _ Hm H1 H2), (strcmp_answers m p2 p1 _ _ Hm H2 H1).
  assert (forall l, compare_chars l (l ++ t) = 0 /\ compare_chars (l ++ t) l = 0) as Hc.
  { induction l as [|x l [IH1 IH2]]; simpl; [by destruct t|]. by rewrite !decide_True, IH1, IH2. }
  destruct s as [|a s]; [by destruct t|]. rewrite decide_False by done. simpl. rewrite !decide_True by done.
  destruct (Hc s) as [-> ->]. done.
Qed.

(** The first position at which [t] occurs in [s]. *)
Fixpoint find_sub (s t : list Z) : option nat :=
  if decide (take (length t) s = t) then Some 0%nat
  else match s with [] => None | _ :: s => S <$> find_sub s t end.

Lemma find_sub_short s t : (length s < length t)%nat -> find_sub s t = None.
Proof.
  intros H. induction s as [|a s IH]; simpl.
  - rewrite decide_False; [done|]. intros E. apply (f_equal length) in E. rewrite length_take in E. simpl in *. lia.
  - rewrite decide_False; [by rewrite IH by (simpl in H; lia)|]. intros E. apply (f_equal length) in E. rewrite length_take in E. simpl in *. lia.
Qed.

Lemma strstr_loop_spec n m p q s t (i : nat) :
  vm_wf m -> cstr_at m p s -> cstr_at m q t -> t <> [] -> (i + n = length s)%nat -> Z.of_nat (length s + length t) <= 2 ^ 64 ->
  strstr_loop m p q (Z.of_nat (length s)) (Z.of_nat (length t)) (Z.of_nat i) n =
  Ret (match find_sub (drop i s) t with Some j => p + Z.of_nat (i + j) | None => NULL end).
Proof.
  intros Hm Hs Ht Hne. pose proof (cstr_len _ _ _ Hm Hs). pose proof (cstr_len _ _ _ Hm Ht).
  assert (0 < length t)%nat as Lt by (destruct t; [done|simpl; lia]).
  revert i. induction n as [|n IH]; intros i Hi Hsum.
  { simpl. by rewrite find_sub_short by (rewrite length_drop; lia). }
  cbn [strstr_loop]. destruct (decide (i + length t <= length s)%nat) as [Hle|Hgt].
  2:{ rewrite wrap_small by (unfold in_u; lia). rewrite Z.geb_leb, (proj2 (Z.leb_le _ _)) by lia.
      by rewrite find_sub_short by (rewrite length_drop; lia). }
  rewrite wrap_small by (unfold in_u; lia). rewrite Z.geb_leb, (proj2 (Z.leb_gt _ _)) by lia.
  rewrite (ptr_add_in m p (length (s ++ [0]))) by (done || exact (proj1 (proj1 Hs)) || rewrite length_app; lia).
  assert (length (take (length t) (drop i s)) = length t) as Lp by (rewrite length_take, length_drop; lia).
  destruct (bytes_at_app _ _ _ _ (proj1 Ht)) as [Bt _]. pose proof (cstr_part m p s i (length t) Hs Hle) as Bs.
  assert (memcmp m (p + Z.of_nat i) q (Z.of_nat (length t)) = Ret (compare_chars (take (length t) (drop i s)) t)) as ->
    by (rewrite <- Lp at 1; by apply memcmp_compares).
  cbn [obind]. destruct (lookup_lt_is_Some_2 s i) as [a Ha]; [lia|]. rewrite (drop_S _ _ _ Ha) at 2. cbn [find_sub].
  rewrite <- (drop_S _ _ _ Ha). destruct (decide (take (length t) (drop i s) = t)) as [E|E].
  - rewrite E, compare_chars_refl. simpl. by rewrite Nat.add_0_r.
  - destruct (Z.eqb_spec (compare_chars (take (length t) (drop i s)) t) 0) as [E0|_].
    { destruct E. apply compare_chars_zero; [by eapply bytes_at_is_byte|by eapply bytes_at_is_byte|done|done]. }
    replace (Z.of_nat i + 1) with (Z.of_nat (S i)) by lia. rewrite IH by lia.
    destruct (find_sub (drop (S i) s) t) as [j|]; [|done]. simpl. do 2 f_equal. lia.
Qed.

(** [strstr] finds the first occurrence of a string in another, and answers with
    the null pointer when there is none; but it never finds the empty string: the
    index of the last byte to compare wraps around, so that the answer is the null
    pointer where the comment above the code promises [str]. *)
Theorem strstr_finds m p q s t :
  vm_wf m -> cstr_at m p s -> cstr_at m q t -> Z.of_nat (length s + length t) <= 2 ^ 64 ->
  strstr m p q = Ret (if decide (t = []) then NULL else match find_sub s t with Some j => p + Z.of_nat j | None => NULL end).
Proof.
  intros Hm Hs Ht Hsum. pose proof (cstr_len _ _ _ Hm Hs). unfold strstr.
  rewrite (strlen_cstr m p s Hm Hs), (strlen_cstr m q t Hm Ht). cbn [obind]. rewrite Nat2Z.id. case_decide as E.
  - subst t. destruct s as [|a s]; [done|]. cbn [length strstr_loop]. change (wrap 64 (0 + Z.of_nat 0 - 1)) with (2 ^ 64 - 1).
    rewrite Z.geb_leb, (proj2 (Z.leb_le _ _)); [done|]. cbn [length] in *. lia.
  - by apply (strstr_loop_spec (length s) m p q s t 0).
Qed.

(** * Tokens *)

(** [s] without the delimiters in front, and the part before the first delimiter. *)
Fixpoint skip_delims (ds s : list Z) : list Z :=
  match s with [] => [] | c :: s' => if decide (c ∈ ds) then skip_delims ds s' else s end.
Fixpoint before_delim (ds s : list Z) : list Z :=
  match s with [] => [] | c :: s' => if decide (c ∈ ds) then [] else c :: before_delim ds s' end.

Lemma char_in_spec n m p q s ds (i j : nat) c :
  vm_wf m -> cstr_at m p s -> cstr_at m q ds -> s !! i = Some c -> (j + n = length ds)%nat ->
  char_in m p (Z.of_nat i) q (Z.of_nat j) n = Ret (bool_decide (c ∈ drop j ds)).
Proof.
  intros Hm Hs Hd Hi. revert j. induction n as [|n IH]; intros j Hj; simpl.
  { rewrite drop_ge by lia. done. }
  rewrite (read_byte_at m p (s ++ [0]) i c Hm (proj1 Hs)) by by apply lookup_app_l_Some. cbn [obind].
  destruct (lookup_lt_is_Some_2 ds j) as [d Hd']; [lia|].
  rewrite (read_byte_at m q (ds ++ [0]) j d Hm (proj1 Hd)) by by apply lookup_app_l_Some. cbn [obind].
  rewrite (drop_S _ _ _ Hd'). destruct (Z.eqb_spec c d) as [->|Hne].
  - by rewrite bool_decide_true by by left.
  - replace (Z.of_nat j + 1) with (Z.of_nat (S j)) by lia. rewrite IH by lia. f_equal. apply bool_decide_ext.
    rewrite elem_of_cons. naive_solver.
Qed.

Lemma find_delim_spec n m p q s ds (i : nat) (wanted : bool) :
  vm_wf m -> cstr_at m p s -> cstr_at m q ds -> (i + n = length s)%nat ->
  find_delim wanted m p q (Z.of_nat (length ds)) (Z.of_nat i) n =
  Ret (match list_find (fun c => bool_decide (c ∈ ds) = wanted) (drop i s) with Some (j, _) => Some (Z.of_nat (i + j)) | None => None end).
Proof.
  intros Hm Hs Hd. revert i. induction n as [|n IH]; intros i Hi; cbn [find_delim].
  { by rewrite drop_ge by lia. }
  destruct (lookup_lt_is_Some_2 s i) as [c Hc]; [lia|]. rewrite Nat2Z.id.
  change 0 with (Z.of_nat 0) at 1. rewrite (char_in_spec (length ds) m p q s ds i 0 c Hm Hs Hd Hc) by lia. cbn [obind].
  rewrite (drop_S _ _ _ Hc), drop_0. cbn [list_find]. destruct (eqb_spec (bool_decide (c ∈ ds)) wanted) as [E|E].
  - rewrite decide_True by done. by rewrite Nat.add_0_r.
  - rewrite decide_False by done. replace (Z.of_nat i + 1) with (Z.of_nat (S i)) by lia. rewrite IH by lia.
    destruct (list_find _ (drop (S i) s)) as [[j x]|]; [|done]. simpl. do 3 f_equal. lia.
Qed.

Lemma skip_delims_find ds s :
  match list_find (fun c => bool_decide (c ∈ ds) = false) s with
  | Some (j, _) => skip_delims ds s = drop j s /\ drop j s <> [] /\ (j < length s)%nat
  | None => skip_delims ds s = []
  end.
Proof.
  induction s as [|c s IH]; [done|]. simpl. destruct (decide (bool_decide (c ∈ ds) = false)) as [E|E].
  - apply bool_decide_eq_false in E. rewrite decide_False by done. split; [done|]. split; [done|lia].
  - apply not_false_iff_true, bool_decide_eq_true in E. rewrite decide_True by done.
    destruct (list_find _ s) as [[j x]|]; simpl; [|done]. destruct IH as (H1 & H2 & H3). split; [done|]. split; [done|lia].
Qed.

Lemma before_delim_find ds s :
  match list_find (fun c => bool_decide (c ∈ ds) = true) s with
  | Some (j, _) => before_delim ds s = take j s /\ (j < length s)%nat
  | None => before_delim ds s = s
  end.
Proof.
  induction s as [|c s IH]; [done|]. simpl. destruct (decide (bool_decide (c ∈ ds) = true)) as [E|E].
  - apply bool_decide_eq_true in E. rewrite decide_True by done. split; [done|lia].
  - apply not_true_iff_false, bool_decide_eq_false in E. rewrite decide_False by done.
    destruct (list_find _ s) as [[j x]|]; simpl; [|by rewrite IH]. destruct IH as [-> H3]. split; [done|lia].
Qed.

Lemma token_not_empty ds s : skip_delims ds s <> [] -> before_delim ds (skip_delims ds s) <> [].
Proof.
  induction s as [|c s IH]; [done|]. simpl. case_decide as E; [done|]. intros _. simpl. by rewrite decide_False.
Qed.

(** The rest of a string is a string. *)
Lemma cstr_drop m p s a : cstr_at m p s -> (a <= length s)%nat -> cstr_at m (p + Z.of_nat a) (drop a s).
Proof.
  intros [B Z] H. split; [|by apply Forall_drop].
  assert (drop a s ++ [0] = take (length s + 1 - a) (drop a (s ++ [0]))) as ->.
  { rewrite drop_app_le by lia. rewrite take_ge; [done|]. rewrite length_app, length_drop. simpl. lia. }
  apply bytes_at_part; [done|]. rewrite length_app. simpl. lia.
Qed.

(** Putting a zero into a string makes two of it. *)
Lemma cut_string m p s (k : nat) m' :
  cstr_at m p s -> (k < length s)%nat -> stored m (p + Z.of_nat k) [0] m' ->
  cstr_at m' p (take k s) /\ cstr_at m' (p + Z.of_nat (k + 1)) (drop (k + 1) s).
Proof.
  intros Hs Hk Hst. split.
  - split; [|by apply Forall_take, Hs]. split.
    + apply (st_room _ _ _ _ Hst). rewrite length_app, length_take. simpl. replace p with (p + Z.of_nat 0) by lia.
      eapply room_sub; [apply (proj1 (proj1 Hs))|]. rewrite length_app. simpl. lia.
    + intros i b Hi. rewrite (st_view _ _ _ _ Hst). unfold view_write. cbn [length]. apply lookup_app_Some in Hi as [Hi|[Hl Hi]].
      * apply lookup_lt_Some in Hi as Hl. rewrite length_take in Hl. rewrite decide_False by lia.
        apply (proj2 (proj1 Hs)). rewrite lookup_take_lt in Hi by lia. by apply lookup_app_l_Some.
      * rewrite length_take, Nat.min_l in * by lia. apply list_lookup_singleton_Some in Hi as [Hi <-].
        rewrite decide_True by lia. by replace (Z.to_nat _) with 0%nat by lia.
  - destruct (cstr_drop m p s (k + 1) Hs ltac:(lia)) as [B Z]. split; [|done].
    eapply stored_elsewhere; [exact Hst|exact B|]. simpl. lia.
Qed.

(** A call of [strtok] skips the delimiters in front of the string, given or
    remembered, and returns the characters up to the next delimiter as a string of
    their own, which it ends by overwriting that delimiter; what follows is
    remembered as the string of the next call.  Behind the last token nothing is
    remembered, and without a token the answer is the null pointer and nothing
    changes. *)
Theorem strtok_next_token m saved str q p s ds :
  vm_wf m -> p = (if str =? NULL then saved else str) -> cstr_at m p s -> cstr_at m q ds ->
  let rest := skip_delims ds s in
  let token := before_delim ds rest in
  let start := p + Z.of_nat (length s - length rest) in
  exists m' saved' r, strtok m saved str q = Ret (m', saved', r) /\
    (rest = [] /\ m' = m /\ saved' = saved /\ r = NULL \/
     rest <> [] /\ r = start /\ token <> [] /\ cstr_at m' r token /\
     (token = rest /\ m' = m /\ saved' = NULL \/
      (length token < length rest)%nat /\ saved' = start + Z.of_nat (length token + 1) /\
      cstr_at m' saved' (drop (length token + 1) rest))).
Proof.
  intros Hm Hp Hs Hd rest token start. pose proof (cstr_len _ _ _ Hm Hs) as [Hp1 Hp2]. unfold strtok.
  assert ((str =? NULL) && (saved =? NULL) = false) as ->.
  { destruct (Z.eqb_spec str NULL), (Z.eqb_spec saved NULL); try done. unfold NULL in *. lia. }
  rewrite <- Hp, (strlen_cstr m p s Hm Hs), (strlen_cstr m q ds Hm Hd). cbn [obind].
  change 0 with (Z.of_nat 0) at 1. rewrite Nat2Z.id, (find_delim_spec (length s) m p q s ds 0 false Hm Hs Hd) by lia. cbn [obind].
  rewrite drop_0. pose proof (skip_delims_find ds s) as Hskip. fold rest in Hskip.
  destruct (list_find _ s) as [[a x]|]; [|eexists _, _, _; split; [done|by left]].
  destruct Hskip as (Hrest & Hne & Ha). rewrite <- Hrest in Hne. cbn [Nat.add].
  assert (length rest = length s - a)%nat as Lr by (rewrite Hrest; apply length_drop).
  assert (start = p + Z.of_nat a) as Hstart by (unfold start; lia).
  replace (Z.to_nat (Z.of_nat (length s) - Z.of_nat a)) with (length s - a)%nat by lia.
  rewrite (find_delim_spec (length s - a) m p q s ds a true Hm Hs Hd) by lia. cbn [obind]. rewrite <- Hrest.
  pose proof (before_delim_find ds rest) as Htok. fold token in Htok.
  pose proof (token_not_empty ds s Hne) as Hnt. fold rest token in Hnt.
  assert (forall i, (i <= length s)%nat -> ptr_add p (Z.of_nat i) = p + Z.of_nat i) as Hadd.
  { intros i Hi. apply (ptr_add_in m p (length (s ++ [0]))); [done|exact (proj1 (proj1 Hs))|]. rewrite length_app. simpl. lia. }
  pose proof (cstr_drop m p s a Hs ltac:(lia)) as Hcr. rewrite <- Hrest, <- Hstart in Hcr.
  destruct (list_find _ rest) as [[k y]|].
  - destruct Htok as [Htok Hk]. assert (length token = k) as Lt by (rewrite Htok, length_take; lia).
    assert (room m (start + Z.of_nat k) 1) as Hroom.
    { eapply room_sub; [exact (proj1 (proj1 Hcr))|]. rewrite length_app. simpl. lia. }
    rewrite Hadd by lia. replace (p + Z.of_nat (a + k)) with (start + Z.of_nat k) by lia.
    destruct (write_at m _ 1 0 Hm Hroom ltac:(lia)) as (m1 & -> & Hst); [by vm_compute|]. cbn [obind].
    replace (Z.of_nat (a + k) + 1) with (Z.of_nat (a + k + 1)) by lia. rewrite !Hadd by lia.
    destruct (cut_string m start rest k m1 Hcr Hk Hst) as [C1 C2]. eexists m1, _, _. split; [done|]. right.
    rewrite <- Hstart, Lt. split; [done|]. split; [done|]. split; [done|]. split; [by rewrite Htok|]. right.
    split; [lia|]. replace (p + Z.of_nat (a + k + 1)) with (start + Z.of_nat (k + 1)) by lia. done.
  - rewrite Hadd by lia. eexists m, NULL, _. split; [done|]. right. rewrite <- Hstart, Htok.
    split; [done|]. split; [done|]. split; [done|]. split; [done|]. left. done.
Qed.

(** * Examples *)

(** The strings "ab" and "abc" of the memory above. *)
Lemma demo_cstr bs (off : nat) :
  take (length bs + 1) (drop off (backing_storage demo_region)) = bs ++ [0] -> Forall (fun b => b <> 0) bs ->
  cstr_at [demo_region] (0x1000 + Z.of_nat off) bs.
Proof.
  intros E Hz. split; [|done]. apply (bytes_at_region demo_region (bs ++ [0]) off demo_region_ok); [by destruct bs|].
  by rewrite length_app.
Qed.

Lemma strcmp_prefix_equal_witness : strcmp [demo_region] 0x1000 0x1003 = Ret 0 /\ strcmp [demo_region] 0x1003 0x1000 = Ret 0.
Proof.
  apply (strcmp_prefix_equal [demo_region] 0x1000 0x1003 [97; 98] [99] (vm_wf_single _ demo_region_ok)); [| |done].
  - apply (demo_cstr [97; 98] 0 eq_refl). by repeat constructor.
  - apply (demo_cstr [97; 98; 99] 3 eq_refl). by repeat constructor.
Defined.

Lemma strcat_appends_witness :
  exists m', strcat [demo_region] 0x1007 0x1000 = Ret (m', 0x1008) /\ cstr_at m' 0x1007 [200; 97; 98].
Proof.
  destruct (strcat_appends [demo_region] 0x1007 0x1000 [200] [97; 98] (vm_wf_single _ demo_region_ok)) as (m' & E & _ & H & _).
  - apply (demo_cstr [200] 7 eq_refl). by repeat constructor.
  - apply (demo_cstr [97; 98] 0 eq_refl). by repeat constructor.
  - exact (proj1 (bytes_at_region demo_region [200; 0; 0; 0] 7 demo_region_ok ltac:(done) eq_refl)).
  - unfold apart_ranges. simpl. lia.
  - exists m'. split; [exact E|exact H].
Defined.

Lemma strstr_finds_witness : strstr [demo_region] 0x1003 0x1000 = Ret 0x1003.
Proof.
  refine (strstr_finds [demo_region] 0x1003 0x1000 [97; 98; 99] [97; 98] (vm_wf_single _ demo_region_ok) _ _ _).
  - apply (demo_cstr [97; 98; 99] 3 eq_refl). by repeat constructor.
  - apply (demo_cstr [97; 98] 0 eq_refl). by repeat constructor.
  - simpl. lia.
Defined.

(** The delimiters are the string "ab" itself: the token of "abc" is "c". *)
Lemma strtok_next_token_witness :
  exists m' saved', strtok [demo_region] NULL 0x1003 0x1000 = Ret (m', saved', 0x1005) /\ saved' = NULL /\ cstr_at m' 0x1005 [99].
Proof.
  destruct (strtok_next_token [demo_region] NULL 0x1003 0x1000 0x1003 [97; 98; 99] [97; 98] (vm_wf_single _ demo_region_ok) eq_refl)
    as (m' & saved' & r & E & [(H & _)|(_ & Hr & _ & Hc & [(_ & _ & Hs)|(Hl & _)])]).
  - apply (demo_cstr [97; 98; 99] 3 eq_refl). by repeat constructor.
  - apply (demo_cstr [97; 98] 0 eq_refl). by repeat constructor.
  - by vm_compute in H.
  - vm_compute in Hr. subst r. exists m', saved'. split; [exact E|]. split; [exact Hs|]. exact Hc.
  - vm_compute in Hl. lia.
Defined.
