(* ===== verification/Specifier.v ===== *)
(** Conversion specifications of printf and scanf (rlibc/src/specifier_parsing.rs):
    a state machine that takes one character at a time. *)
From S2P Require Import Prelude MachineInt.
From stdpp Require Import list.
#[local] Open Scope Z_scope.

(** * Data *)

(** [ConversionFlags(u8)], its constants and [|]. *)
Abbreviation ConversionFlags := Z (only parsing).
Definition NO_FLAGS : ConversionFlags := 0.
Definition LEFT_JUSTIFY : ConversionFlags := 1.
Definition ALWAYS_PRECEED_WITH_SIGN : ConversionFlags := 2.
Definition PRECEED_WITH_BLANK_SPACE_IF_NO_SIGN : ConversionFlags := 4.
Definition PRECEED_WITH_BASE_MARKING : ConversionFlags := 8.
Definition LEFT_PAD_WITH_ZEROES : ConversionFlags := 16.
Definition flags_or (a b : ConversionFlags) : ConversionFlags := Z.lor a b.
Definition ALL_FLAGS : ConversionFlags :=
  flags_or (flags_or (flags_or (flags_or LEFT_JUSTIFY ALWAYS_PRECEED_WITH_SIGN) PRECEED_WITH_BLANK_SPACE_IF_NO_SIGN)
    PRECEED_WITH_BASE_MARKING) LEFT_PAD_WITH_ZEROES.

Definition flag_try_from (c : Z) : option ConversionFlags :=
  match c with
  | 45 => Some LEFT_JUSTIFY
  | 43 => Some ALWAYS_PRECEED_WITH_SIGN
  | 32 => Some PRECEED_WITH_BLANK_SPACE_IF_NO_SIGN
  | 35 => Some PRECEED_WITH_BASE_MARKING
  | 48 => Some LEFT_PAD_WITH_ZEROES
  | _ => None
  end.

Inductive ConversionSpecifier :=
| SignedInteger | SignedDecimalInteger | UnsignedDecimalInteger | UnsignedOctalInteger
| UnsignedHexIntegerLowerCase | UnsignedHexIntegerUpperCase | DecimalFloatLowerCase | DeicmalFloatUpperCase
| ScientificNotationLowerCase | ScientificNotationUpperCase | ShortestFloatLowerCase | ShortestFloatUpperCase
| HexFloatLowerCase | HexFloatUpperCase | Character | SString | Pointer | Escape | SMeta | Unparsed.

#[export] Instance ConversionSpecifier_eq_dec : EqDecision ConversionSpecifier.
Proof. solve_decision. Defined.

Definition specifier_try_from (c : Z) : option ConversionSpecifier :=
  match c with
  | 105 => Some SignedInteger
  | 100 => Some SignedDecimalInteger
  | 117 => Some UnsignedDecimalInteger
  | 111 => Some UnsignedOctalInteger
  | 120 => Some UnsignedHexIntegerLowerCase
  | 88 => Some UnsignedHexIntegerUpperCase
  | 102 => Some DecimalFloatLowerCase
  | 70 => Some DeicmalFloatUpperCase
  | 101 => Some ScientificNotationLowerCase
  | 69 => Some ScientificNotationUpperCase
  | 103 => Some ShortestFloatLowerCase
  | 71 => Some ShortestFloatUpperCase
  | 97 => Some HexFloatLowerCase
  | 65 => Some HexFloatUpperCase
  | 99 => Some Character
  | 115 => Some SString
  | 112 => Some Pointer
  | 37 => Some Escape
  | 110 => Some SMeta
  | _ => None
  end.

(** Width of printf and precision: a number, [*], or none.  The width of scanf has no
    [*]. *)
Inductive Amount := Number (n : Z) | Meta | NoAmount.

#[export] Instance Amount_eq_dec : EqDecision Amount.
Proof. solve_decision. Defined.

Inductive ConversionLength := Double | MaxLengthForPointer | MaxLengthForSize | MaxLengthForInt | LongLong | Long | Half | Byte | NoLength.

#[export] Instance ConversionLength_eq_dec : EqDecision ConversionLength.
Proof. solve_decision. Defined.

Record PrintfConversionSpecification := MkPrintf {
  pf_flags : ConversionFlags;
  pf_width : Amount;
  pf_precision : Amount;
  pf_length : ConversionLength;
  pf_specifier : ConversionSpecifier;
}.

Record UnfinishedPrintfConversionSpecification := MkUnfinished {
  under_construction : PrintfConversionSpecification;
  parsing_width : bool;
  parsing_precision : bool;
  parsing_length : bool;
}.

Definition printf_default : UnfinishedPrintfConversionSpecification :=
  MkUnfinished (MkPrintf NO_FLAGS NoAmount NoAmount NoLength Unparsed) false false false.

(** * Printf *)

Definition is_digit (c : Z) : bool := (48 <=? c) && (c <=? 57).

(** [cur * 10 + (c - b'0')] on usize. *)
Definition add_digit (cur c : Z) : Z := wrap 64 (cur * 10 + (c - 48)).

(** A part of the parser either returns or goes on with the character. *)
Abbreviation PResult := (PrintfConversionSpecification + UnfinishedPrintfConversionSpecification)%type.
Definition stage := UnfinishedPrintfConversionSpecification -> PResult + UnfinishedPrintfConversionSpecification.
Definition then_ (f g : stage) : stage := fun u => match f u with inl r => inl r | inr u => g u end.

Definition set_flags (u : UnfinishedPrintfConversionSpecification) (f : ConversionFlags) : UnfinishedPrintfConversionSpecification :=
  let s := under_construction u in
  MkUnfinished (MkPrintf f (pf_width s) (pf_precision s) (pf_length s) (pf_specifier s)) (parsing_width u) (parsing_precision u) (parsing_length u).
Definition set_width (u : UnfinishedPrintfConversionSpecification) (w : Amount) (parsing : bool) : UnfinishedPrintfConversionSpecification :=
  let s := under_construction u in
  MkUnfinished (MkPrintf (pf_flags s) w (pf_precision s) (pf_length s) (pf_specifier s)) parsing (parsing_precision u) (parsing_length u).
Definition set_precision (u : UnfinishedPrintfConversionSpecification) (p : Amount) (parsing : bool) : UnfinishedPrintfConversionSpecification :=
  let s := under_construction u in
  MkUnfinished (MkPrintf (pf_flags s) (pf_width s) p (pf_length s) (pf_specifier s)) (parsing_width u) parsing (parsing_length u).
Definition set_length (u : UnfinishedPrintfConversionSpecification) (l : ConversionLength) (parsing : bool) : UnfinishedPrintfConversionSpecification :=
  let s := under_construction u in
  MkUnfinished (MkPrintf (pf_flags s) (pf_width s) (pf_precision s) l (pf_specifier s)) (parsing_width u) (parsing_precision u) parsing.

(** Going on with the number of the width, of the precision, and with a second
    character of the length. *)
Definition more_width (c : Z) : stage := fun u =>
  if parsing_width u then
    if is_digit c then
      inl (inr (match pf_width (under_construction u) with
                | Number cur => set_width u (Number (add_digit cur c)) true
                | _ => set_width u NoAmount false
                end))
    else inr (set_width u (pf_width (under_construction u)) false)
  else inr u.

Definition more_precision (c : Z) : stage := fun u =>
  if parsing_precision u then
    if is_digit c then
      inl (inr (match pf_precision (under_construction u) with
                | Number cur => set_precision u (Number (add_digit cur c)) true
                | _ => set_precision u (Number (c - 48)) true
                end))
    else if c =? 42 then inl (inr (set_precision u Meta false))
    else inr (set_precision u (pf_precision (under_construction u)) false)
  else inr u.

Definition more_length (c : Z) : stage := fun u =>
  if parsing_length u then
    let u := set_length u (pf_length (under_construction u)) false in
    if (c =? 108) && bool_decide (pf_length (under_construction u) = Long) then inl (inr (set_length u LongLong false))
    else if (c =? 104) && bool_decide (pf_length (under_construction u) = Half) then inl (inr (set_length u Byte false))
    else inr u
  else inr u.

(** Parts that have not been seen yet. *)
Definition new_flag (c : Z) : stage := fun u =>
  if negb (pf_flags (under_construction u) =? ALL_FLAGS) then
    match flag_try_from c with
    | Some val => inl (inr (set_flags u (flags_or (pf_flags (under_construction u)) val)))
    | None => inr u
    end
  else inr u.

(** After [*] the code goes on with the same character. *)
Definition new_width (c : Z) : stage := fun u =>
  if decide (pf_width (under_construction u) = NoAmount) then
    if c =? 42 then inr (set_width u Meta (parsing_width u))
    else if is_digit c then inl (inr (set_width u (Number (c - 48)) true))
    else inr u
  else inr u.

Definition new_precision (c : Z) : stage := fun u =>
  if decide (pf_precision (under_construction u) = NoAmount) then
    if c =? 46 then inl (inr (set_precision u NoAmount true)) else inr u
  else inr u.

Definition new_length (c : Z) : stage := fun u =>
  if decide (pf_length (under_construction u) = NoLength) then
    match c with
    | 104 => inl (inr (set_length u Half true))
    | 108 => inl (inr (set_length u Long true))
    | 106 => inl (inr (set_length u MaxLengthForInt (parsing_length u)))
    | 122 => inl (inr (set_length u MaxLengthForSize (parsing_length u)))
    | 116 => inl (inr (set_length u MaxLengthForPointer (parsing_length u)))
    | 76 => inl (inr (set_length u Double (parsing_length u)))
    | _ => inr u
    end
  else inr u.

Definition new_specifier (c : Z) : stage := fun u =>
  let s := under_construction u in
  if decide (pf_specifier s = Unparsed) then
    match specifier_try_from c with
    | Some val => inl (inl (MkPrintf (pf_flags s) (pf_width s) (pf_precision s) (pf_length s) val))
    | None => inr u
    end
  else inr u.

(** [inl] is [Ok]: the specification is complete; an unknown character is ignored. *)
Definition add_char_to_printf_specification (initial : UnfinishedPrintfConversionSpecification) (c : Z) : PResult :=
  match then_ (more_width c) (then_ (more_precision c) (then_ (more_length c) (then_ (new_flag c)
    (then_ (new_width c) (then_ (new_precision c) (then_ (new_length c) (new_specifier c))))))) initial with
  | inl r => r
  | inr u => inr u
  end.

(** * Scanf *)

Record ScanfConversionSpecification := MkScanf {
  sf_assignment_suppression : bool;
  sf_width : Amount;
  sf_length : ConversionLength;
  sf_specifier : ConversionSpecifier;
}.

Record UnfinishedScanfConversionSpecification := MkUnfinishedScanf {
  s_under_construction : ScanfConversionSpecification;
  s_parsing_width : bool;
  s_parsing_length : bool;
}.

Definition scanf_default : UnfinishedScanfConversionSpecification :=
  MkUnfinishedScanf (MkScanf false NoAmount NoLength Unparsed) false false.

Abbreviation SResult := (ScanfConversionSpecification + UnfinishedScanfConversionSpecification)%type.
Definition sstage := UnfinishedScanfConversionSpecification -> SResult + UnfinishedScanfConversionSpecification.
Definition sthen (f g : sstage) : sstage := fun u => match f u with inl r => inl r | inr u => g u end.

Definition s_set_width (u : UnfinishedScanfConversionSpecification) (w : Amount) (parsing : bool) : UnfinishedScanfConversionSpecification :=
  let s := s_under_construction u in
  MkUnfinishedScanf (MkScanf (sf_assignment_suppression s) w (sf_length s) (sf_specifier s)) parsing (s_parsing_length u).
Definition s_set_length (u : UnfinishedScanfConversionSpecification) (l : ConversionLength) (parsing : bool) : UnfinishedScanfConversionSpecification :=
  let s := s_under_construction u in
  MkUnfinishedScanf (MkScanf (sf_assignment_suppression s) (sf_width s) l (sf_specifier s)) (s_parsing_width u) parsing.

Definition s_more_width (c : Z) : sstage := fun u =>
  if s_parsing_width u then
    if is_digit c then
      inl (inr (match sf_width (s_under_construction u) with
                | Number cur => s_set_width u (Number (add_digit cur c)) true
                | _ => s_set_width u NoAmount false
                end))
    else inr (s_set_width u (sf_width (s_under_construction u)) false)
  else inr u.

Definition s_more_length (c : Z) : sstage := fun u =>
  if s_parsing_length u then
    let u := s_set_length u (sf_length (s_under_construction u)) false in
    if (c =? 108) && bool_decide (sf_length (s_under_construction u) = Long) then inl (inr (s_set_length u LongLong false))
    else if (c =? 104) && bool_decide (sf_length (s_under_construction u) = Half) then inl (inr (s_set_length u Byte false))
    else inr u
  else inr u.

Definition s_suppression (c : Z) : sstage := fun u =>
  let s := s_under_construction u in
  if negb (sf_assignment_suppression s) && (c =? 42)
  then inl (inr (MkUnfinishedScanf (MkScanf true (sf_width s) (sf_length s) (sf_specifier s)) (s_parsing_width u) (s_parsing_length u)))
  else inr u.

Definition s_new_width (c : Z) : sstage := fun u =>
  if decide (sf_width (s_under_construction u) = NoAmount) then
    if is_digit c then inl (inr (s_set_width u (Number (c - 48)) true)) else inr u
  else inr u.

Definition s_new_length (c : Z) : sstage := fun u =>
  if decide (sf_length (s_under_construction u) = NoLength) then
    match c with
    | 104 => inl (inr (s_set_length u Half true))
    | 108 => inl (inr (s_set_length u Long true))
    | 106 => inl (inr (s_set_length u MaxLengthForInt (s_parsing_length u)))
    | 122 => inl (inr (s_set_length u MaxLengthForSize (s_parsing_length u)))
    | 116 => inl (inr (s_set_length u MaxLengthForPointer (s_parsing_length u)))
    | 76 => inl (inr (s_set_length u Double (s_parsing_length u)))
    | _ => inr u
    end
  else inr u.

Definition s_new_specifier (c : Z) : sstage := fun u =>
  let s := s_under_construction u in
  if decide (sf_specifier s = Unparsed) then
    match specifier_try_from c with
    | Some val => inl (inl (MkScanf (sf_assignment_suppression s) (sf_width s) (sf_length s) val))
    | None => inr u
    end
  else inr u.

Definition add_char_to_scanf_specification (initial : UnfinishedScanfConversionSpecification) (c : Z) : SResult :=
  match sthen (s_more_width c) (sthen (s_more_length c) (sthen (s_suppression c) (sthen (s_new_width c)
    (sthen (s_new_length c) (s_new_specifier c))))) initial with
  | inl r => r
  | inr u => inr u
  end.

(** * The text of a specification *)

(** Decimal digits, without leading zeros; the empty text for 0. *)
Fixpoint digits_loop (n : nat) (v : Z) (acc : list Z) : list Z :=
  match n with
  | O => acc
  | S n => if v <=? 0 then acc else digits_loop n (v / 10) (48 + v mod 10 :: acc)
  end.
Definition digits (v : Z) : list Z := digits_loop 20 v [].
Definition number_text (v : Z) : list Z := if v =? 0 then [48] else digits v.

Definition flags_text (f : ConversionFlags) : list Z :=
  omap (fun fc => if Z.land f fc.1 =? 0 then None else Some fc.2)
    [(LEFT_JUSTIFY, 45); (ALWAYS_PRECEED_WITH_SIGN, 43); (PRECEED_WITH_BLANK_SPACE_IF_NO_SIGN, 32);
     (PRECEED_WITH_BASE_MARKING, 35); (LEFT_PAD_WITH_ZEROES, 48)].

Definition amount_text (a : Amount) : list Z := match a with Number n => number_text n | Meta => [42] | NoAmount => [] end.
Definition precision_text (a : Amount) : list Z := match a with NoAmount => [] | _ => 46 :: amount_text a end.

Definition length_text (l : ConversionLength) : list Z :=
  match l with
  | Double => [76] | MaxLengthForPointer => [116] | MaxLengthForSize => [122] | MaxLengthForInt => [106]
  | LongLong => [108; 108] | Long => [108] | Half => [104] | Byte => [104; 104] | NoLength => []
  end.

Definition specifier_text (s : ConversionSpecifier) : list Z :=
  match s with
  | SignedInteger => [105] | SignedDecimalInteger => [100] | UnsignedDecimalInteger => [117] | UnsignedOctalInteger => [111]
  | UnsignedHexIntegerLowerCase => [120] | UnsignedHexIntegerUpperCase => [88] | DecimalFloatLowerCase => [102]
  | DeicmalFloatUpperCase => [70] | ScientificNotationLowerCase => [101] | ScientificNotationUpperCase => [69]
  | ShortestFloatLowerCase => [103] | ShortestFloatUpperCase => [71] | HexFloatLowerCase => [97] | HexFloatUpperCase => [65]
  | Character => [99] | SString => [115] | Pointer => [112] | Escape => [37] | SMeta => [110] | Unparsed => []
  end.

(** The text after the percent sign, in the order of the C standard. *)
Definition spec_text (s : PrintfConversionSpecification) : list Z :=
  flags_text (pf_flags s) ++ amount_text (pf_width s) ++ precision_text (pf_precision s) ++
  length_text (pf_length s) ++ specifier_text (pf_specifier s).

(** Feeding characters until the specification is complete. *)
Fixpoint parse_printf (u : UnfinishedPrintfConversionSpecification) (cs : list Z)
  : option (PrintfConversionSpecification * list Z) :=
  match cs with
  | [] => None
  | c :: cs =>
      match add_char_to_printf_specification u c with
      | inl s => Some (s, cs)
      | inr u => parse_printf u cs
      end
  end.

(** A specification that has a text: a width starts with a digit other than 0, which
    would be a flag, and numbers fit a usize. *)
Definition spec_ok (s : PrintfConversionSpecification) : Prop :=
  in_u 5 (pf_flags s) /\
  match pf_width s with Number n => 0 < n < 2 ^ 64 | _ => True end /\
  match pf_precision s with Number n => in_u 64 n | _ => True end /\
  pf_specifier s <> Unparsed.

(** ** Digits *)

Lemma digits_loop_app n v acc : digits_loop n v acc = digits_loop n v [] ++ acc.
Proof.
  revert v acc. induction n as [|n IH]; intros v acc; simpl; [done|]. destruct (v <=? 0); [done|].
  rewrite IH, (IH _ [_]). by rewrite <- app_assoc.
Qed.

Lemma digits_are_digits n v : Forall (fun c => is_digit c = true) (digits_loop n v []).
Proof.
  revert v. induction n as [|n IH]; intros v; simpl; [constructor|]. destruct (Z.leb_spec v 0); [constructor|].
  rewrite digits_loop_app. apply Forall_app. split; [apply IH|]. constructor; [|constructor]. unfold is_digit.
  pose proof (Z.mod_pos_bound v 10 ltac:(lia)). rewrite andb_true_iff, !Z.leb_le. lia.
Qed.

(** Reading the digits gives the number back. *)
Lemma digits_value n v :
  0 <= v < 10 ^ Z.of_nat n -> fold_left (fun acc c => acc * 10 + (c - 48)) (digits_loop n v []) 0 = v.
Proof.
  revert v. induction n as [|n IH]; intros v Hv; simpl; [simpl in Hv; lia|]. destruct (Z.leb_spec v 0); [simpl; lia|].
  rewrite digits_loop_app, fold_left_app, IH; [simpl; pose proof (Z.div_mod v 10); lia|].
  rewrite Nat2Z.inj_succ, Z.pow_succ_r in Hv by lia. pose proof (Z.div_mod v 10 ltac:(lia)). pose proof (Z.mod_pos_bound v 10 ltac:(lia)).
  split; [apply Z.div_pos; lia|]. apply Z.div_lt_upper_bound; lia.
Qed.

(** The first digit of a number is not 0. *)
Lemma digits_head n v : 0 < v < 10 ^ Z.of_nat n -> exists d ds, digits_loop n v [] = d :: ds /\ 49 <= d <= 57.
Proof.
  revert v. induction n as [|n IH]; intros v Hv; [simpl in Hv; lia|]. simpl. rewrite (proj2 (Z.leb_gt v 0)) by lia.
  rewrite digits_loop_app. pose proof (Z.div_mod v 10 ltac:(lia)). pose proof (Z.mod_pos_bound v 10 ltac:(lia)).
  destruct (Z.eq_dec (v / 10) 0) as [E|E].
  - rewrite E. destruct n; simpl; eexists _, []; (split; [done|lia]).
  - rewrite Nat2Z.inj_succ, Z.pow_succ_r in Hv by lia.
    destruct (IH (v / 10)) as (d & ds & -> & Hd).
    { split; [|apply Z.div_lt_upper_bound; lia]. pose proof (Z.div_pos v 10). lia. }
    by exists d, (ds ++ [48 + v mod 10]).
Qed.

Lemma add_digit_wrap x c : add_digit (wrap 64 x) c = wrap 64 (x * 10 + (c - 48)).
Proof. unfold add_digit. by rewrite <- wrap_add_l, wrap_mul_l, wrap_add_l. Qed.

Lemma add_digits_wrap ds x :
  fold_left add_digit ds (wrap 64 x) = wrap 64 (fold_left (fun acc c => acc * 10 + (c - 48)) ds x).
Proof. revert x. induction ds as [|c ds IH]; intros x; simpl; [done|]. by rewrite add_digit_wrap, IH. Qed.

(** ** Parsing the parts *)

(** A character that is neither a digit nor a flag, a star or a point ends the width
    and the precision. *)
Definition calm (c : Z) : bool :=
  negb (is_digit c) && negb (c =? 42) && negb (c =? 46) && match flag_try_from c with None => true | Some _ => false end.

Definition settle (u : UnfinishedPrintfConversionSpecification) : UnfinishedPrintfConversionSpecification :=
  MkUnfinished (under_construction u) false false (parsing_length u).

Lemma then_inr f g u v : f u = inr v -> then_ f g u = g v.
Proof. intros E. unfold then_. by rewrite E. Qed.
Lemma then_ext f g h u : (forall v, g v = h v) -> then_ f g u = then_ f h u.
Proof. intros E. unfold then_. by destruct (f u). Qed.

Lemma calm_step u c :
  calm c = true ->
  add_char_to_printf_specification u c =
  match then_ (more_length c) (then_ (new_length c) (new_specifier c)) (settle u) with inl r => r | inr u => inr u end.
Proof.
  unfold calm. rewrite !andb_true_iff, !negb_true_iff. intros [[[Hd Hs] Hp] Hf].
  destruct u as [[f w p l s] pw pp pl]. unfold add_char_to_printf_specification.
  assert (more_width c (MkUnfinished (MkPrintf f w p l s) pw pp pl) = inr (MkUnfinished (MkPrintf f w p l s) false pp pl)) as E1
    by (unfold more_width; rewrite Hd; by destruct pw).
  assert (more_precision c (MkUnfinished (MkPrintf f w p l s) false pp pl) = inr (MkUnfinished (MkPrintf f w p l s) false false pl)) as E2
    by (unfold more_precision; rewrite Hd, Hs; by destruct pp).
  rewrite (then_inr _ _ _ _ E1), (then_inr _ _ _ _ E2). unfold settle. cbn [under_construction parsing_length].
  f_equal. rewrite (then_ext (more_length c) _ (then_ (new_length c) (new_specifier c))); [done|].
  intros v. assert (new_flag c v = inr v) as F1 by (unfold new_flag; destruct (negb _); [|done]; by destruct (flag_try_from c)).
  assert (new_width c v = inr v) as F2 by (unfold new_width; rewrite Hs, Hd; by destruct (decide _)).
  assert (new_precision c v = inr v) as F3 by (unfold new_precision; rewrite Hp; by destruct (decide _)).
  by rewrite (then_inr _ _ _ _ F1), (then_inr _ _ _ _ F2), (then_inr _ _ _ _ F3).
Qed.

(** What is left of a step then. *)
Definition tail_step (u : UnfinishedPrintfConversionSpecification) (c : Z) : PResult :=
  match then_ (more_length c) (then_ (new_length c) (new_specifier c)) u with inl r => r | inr u => inr u end.

Lemma calm_parse u c cs :
  calm c = true ->
  parse_printf u (c :: cs) = match tail_step (settle u) c with inl s => Some (s, cs) | inr u => parse_printf u cs end.
Proof. intros Hc. simpl. by rewrite calm_step. Qed.

Ltac parse_calm :=
  rewrite calm_parse by reflexivity; cbn [settle under_construction parsing_length];
  match goal with |- context [tail_step ?u ?c] => let r := eval vm_compute in (tail_step u c) in change (tail_step u c) with r end;
  cbv iota.

Lemma parse_tail f w p pw pp l s rest :
  s <> Unparsed ->
  parse_printf (MkUnfinished (MkPrintf f w p NoLength Unparsed) pw pp false) (length_text l ++ specifier_text s ++ rest) =
  Some (MkPrintf f w p l s, rest).
Proof.
  intros Hs. destruct l; cbn [length_text app]; repeat parse_calm; destruct s; try done; cbn [specifier_text app]; parse_calm; reflexivity.
Qed.

(** Digits of the width and of the precision. *)
Lemma parse_width_digits ds f w p l s rest :
  Forall (fun c => is_digit c = true) ds ->
  parse_printf (MkUnfinished (MkPrintf f (Number w) p l s) true false false) (ds ++ rest) =
  parse_printf (MkUnfinished (MkPrintf f (Number (fold_left add_digit ds w)) p l s) true false false) rest.
Proof.
  intros Hd. revert w. induction Hd as [|c ds Hc Hd IH]; intros w; [done|]. cbn [app parse_printf fold_left].
  unfold add_char_to_printf_specification, then_ at 1, more_width. cbn [parsing_width]. rewrite Hc.
  cbn [under_construction pf_width set_width pf_flags pf_precision pf_length pf_specifier parsing_precision parsing_length]. apply IH.
Qed.

Lemma parse_precision_digits ds f w p l s rest :
  Forall (fun c => is_digit c = true) ds ->
  parse_printf (MkUnfinished (MkPrintf f w (Number p) l s) false true false) (ds ++ rest) =
  parse_printf (MkUnfinished (MkPrintf f w (Number (fold_left add_digit ds p)) l s) false true false) rest.
Proof.
  intros Hd. revert p. induction Hd as [|c ds Hc Hd IH]; intros p; [done|]. cbn [app parse_printf fold_left].
  unfold add_char_to_printf_specification, then_ at 1, more_width. cbn [parsing_width]. unfold then_ at 1, more_precision.
  cbn [parsing_precision]. rewrite Hc.
  cbn [under_construction pf_precision set_precision pf_flags pf_width pf_length pf_specifier parsing_width parsing_length]. apply IH.
Qed.

(** A number of one digit or more, after its first digit. *)
Lemma number_digits v :
  0 < v < 2 ^ 64 -> exists d ds, number_text v = d :: ds /\ 49 <= d <= 57 /\ Forall (fun c => is_digit c = true) ds /\
    fold_left add_digit ds (d - 48) = v.
Proof.
  intros Hv. unfold number_text, digits. rewrite (proj2 (Z.eqb_neq v 0)) by lia.
  assert (0 < v < 10 ^ Z.of_nat 20) as Hv' by (change (10 ^ Z.of_nat 20) with 100000000000000000000; lia).
  destruct (digits_head 20 v Hv') as (d & ds & E & Hd). exists d, ds. rewrite E. split; [done|]. split; [done|].
  pose proof (digits_are_digits 20 v) as Hall. rewrite E in Hall. inversion Hall; subst. split; [done|].
  pose proof (digits_value 20 v ltac:(lia)) as Hval. rewrite E in Hval. cbn [fold_left] in Hval. rewrite Z.mul_0_l, Z.add_0_l in Hval.
  rewrite <- (wrap_small 64 (d - 48)) by (unfold in_u; lia). rewrite add_digits_wrap, Hval. apply wrap_small. unfold in_u. lia.
Qed.

Lemma parse_flags f rest :
  in_u 5 f ->
  parse_printf printf_default (flags_text f ++ rest) =
  parse_printf (MkUnfinished (MkPrintf f NoAmount NoAmount NoLength Unparsed) false false false) rest.
Proof.
  intros Hf. assert (forall n : nat, (n < 32)%nat -> parse_printf printf_default (flags_text (Z.of_nat n) ++ rest) =
    parse_printf (MkUnfinished (MkPrintf (Z.of_nat n) NoAmount NoAmount NoLength Unparsed) false false false) rest) as H
    by (intros n Hn; do 32 (destruct n as [|n]; [reflexivity|]); lia).
  unfold in_u in Hf. specialize (H (Z.to_nat f)). rewrite Z2Nat.id in H by lia. apply H. lia.
Qed.

(** The state after the width, which may still be open for digits. *)
Lemma parse_width f w rest :
  match w with Number n => 0 < n < 2 ^ 64 | _ => True end ->
  exists pw, parse_printf (MkUnfinished (MkPrintf f NoAmount NoAmount NoLength Unparsed) false false false) (amount_text w ++ rest) =
    parse_printf (MkUnfinished (MkPrintf f w NoAmount NoLength Unparsed) pw false false) rest.
Proof.
  intros Hw. destruct w as [n| |]; [|exists false|by exists false].
  - destruct (number_digits n Hw) as (d & ds & E & Hd & Hds & Hval). exists true. simpl. rewrite E. cbn [app parse_printf].
    assert (add_char_to_printf_specification (MkUnfinished (MkPrintf f NoAmount NoAmount NoLength Unparsed) false false false) d =
      inr (MkUnfinished (MkPrintf f (Number (d - 48)) NoAmount NoLength Unparsed) true false false)) as ->.
    { unfold add_char_to_printf_specification, then_, more_width, more_precision, more_length, new_flag, new_width.
      cbn [parsing_width parsing_precision parsing_length under_construction pf_flags pf_width].
      assert (flag_try_from d = None) as -> by (assert (d = 49 \/ d = 50 \/ d = 51 \/ d = 52 \/ d = 53 \/ d = 54 \/ d = 55 \/ d = 56 \/ d = 57)
        as Hc by lia; by repeat destruct Hc as [->|Hc]; [..|subst]).
      assert (is_digit d = true) as -> by (unfold is_digit; rewrite andb_true_iff, !Z.leb_le; lia).
      rewrite (proj2 (Z.eqb_neq d 42)) by lia. by destruct (negb _). }
    rewrite parse_width_digits by done. by rewrite Hval.
  - simpl. unfold add_char_to_printf_specification, then_, new_flag. simpl. by destruct (negb _).
Qed.

(** The point that starts a precision, and what follows it. *)
Lemma parse_point f w pw rest :
  parse_printf (MkUnfinished (MkPrintf f w NoAmount NoLength Unparsed) pw false false) (46 :: rest) =
  parse_printf (MkUnfinished (MkPrintf f w NoAmount NoLength Unparsed) false true false) rest.
Proof.
  simpl. unfold add_char_to_printf_specification, then_, more_width, new_flag, new_width. destruct pw; simpl;
    destruct (negb _); simpl; by destruct (decide _).
Qed.

Lemma parse_precision f w pw p rest :
  match p with Number n => in_u 64 n | _ => True end ->
  exists pw' pp, parse_printf (MkUnfinished (MkPrintf f w NoAmount NoLength Unparsed) pw false false) (precision_text p ++ rest) =
    parse_printf (MkUnfinished (MkPrintf f w p NoLength Unparsed) pw' pp false) rest.
Proof.
  intros Hp. destruct p as [n| |]; [exists false, true|exists false, false|by exists pw, false];
    cbn [precision_text app]; rewrite parse_point; [|done]. cbn [amount_text].
  unfold in_u in Hp. destruct (Z.eq_dec n 0) as [->|Hn]; [done|].
  destruct (number_digits n ltac:(lia)) as (d & ds & -> & Hd & Hds & Hval). cbn [app parse_printf].
  unfold add_char_to_printf_specification, then_ at 1, more_width. cbn [parsing_width]. unfold then_ at 1, more_precision. cbn [parsing_precision].
  assert (is_digit d = true) as -> by (unfold is_digit; rewrite andb_true_iff, !Z.leb_le; lia).
  cbn [under_construction pf_precision set_precision pf_flags pf_width pf_length pf_specifier parsing_width parsing_length].
  etransitivity; [by apply parse_precision_digits|by rewrite Hval].
Qed.

Lemma parse_spec_text s rest : spec_ok s -> parse_printf printf_default (spec_text s ++ rest) = Some (s, rest).
Proof.
  destruct s as [f w p l sp]. intros (Hf & Hw & Hp & Hs). unfold spec_text.
  cbn [pf_flags pf_width pf_precision pf_length pf_specifier] in *. rewrite <- !app_assoc.
  rewrite parse_flags by done. destruct (parse_width f w (precision_text p ++ length_text l ++ specifier_text sp ++ rest) Hw) as (pw & ->).
  destruct (parse_precision f w pw p (length_text l ++ specifier_text sp ++ rest) Hp) as (pw' & pp & ->). by apply parse_tail.
Qed.

(** The parser of printf's conversion specifications, which takes one character at
    a time, reads every specification back from its text: flags, width, precision,
    length and specifier, each present or absent, with numbers up to the largest
    usize; it stops exactly behind the specifier. *)
Theorem printf_specification_roundtrip s rest : spec_ok s -> parse_printf printf_default (spec_text s ++ rest) = Some (s, rest).
Proof. apply parse_spec_text. Qed.

(** "%-08.3lld". *)
Lemma printf_specification_roundtrip_witness :
  parse_printf printf_default [45; 48; 56; 46; 51; 108; 108; 100; 10] =
  Some (MkPrintf 17 (Number 8) (Number 3) LongLong SignedDecimalInteger, [10]).
Proof.
  apply (printf_specification_roundtrip (MkPrintf 17 (Number 8) (Number 3) LongLong SignedDecimalInteger) [10]).
  split_and!; simpl; try lia; [split; lia|split; lia|done].
Defined.
