(* ===== verification/Printf.v ===== *)
(** Formatted and plain output of the C library (rlibc/src/lib.rs): vfprintf, fputs,
    puts, perror, fwrite and fputc.  They reach the kernel only through the system
    calls of rlibc/src/sys.rs, which are an interface here. *)
From S2P Require Import Prelude MachineInt EmulatorMemory VirtMem CMem CStr Specifier.
From stdpp Require Import list.
#[local] Open Scope Z_scope.

(** The process as the library sees it: its memory, and the system call [write] with
    the bytes of the buffer, which returns a [c_ssize_t]. *)
Class LibcSystem (S : Type) := {
  process_memory : S -> memory_;
  set_process_memory : S -> memory_ -> S;
  sys_write : S -> Z -> list Z -> outcome (S * Z);
}.

Definition EOF : Z := -1.
Definition STDOUT_FILENO : Z := 1.
Definition STDERR_FILENO : Z := 2.

(** [x as c_int]. *)
Definition to_c_int (x : Z) : Z := to_signed 32 (wrap 32 x).

(** * Numbers *)

Inductive Casing := Lower | Upper.

(** The character of a digit. *)
Definition digit_char (case : Casing) (d : Z) : outcome Z :=
  if d <? 10 then Ret (48 + d)
  else if d <? 16 then Ret (match case with Lower => 87 + d | Upper => 55 + d end)
  else Panic.

(** [number_to_string_in_radix]: the digits from the right, and the index left of the
    last one written.  The index wraps; an access outside the buffer panics.  Every
    round divides a 64-bit number by 2 or more, so that 64 rounds are enough. *)
Fixpoint number_to_string_in_radix (fuel : nat) (output_str : list Z) (ind n base : Z) (case : Casing)
  : outcome (list Z * Z) :=
  match fuel with
  | O => Ret (output_str, ind)
  | S fuel =>
      if n >? 0 then
        let! c := digit_char case (n mod base) in
        let! _ := rassert (ind <? Z.of_nat (length output_str)) in
        number_to_string_in_radix fuel (<[Z.to_nat ind := c]> output_str) (wrap 64 (ind - 1)) (n / base) base case
      else Ret (output_str, ind)
  end.

(** [[b'?'; len]] with a number in it; then the characters in front of it, one after
    the other; then the part from [ind + 1] on. *)
Definition number_buffer (len : nat) (n base : Z) (case : Casing) : outcome (list Z * Z) :=
  number_to_string_in_radix 64 (replicate len 63) (Z.of_nat len - 1) n base case.
Fixpoint put_front (output_str : list Z) (ind : Z) (cs : list Z) : outcome (list Z * Z) :=
  match cs with
  | [] => Ret (output_str, ind)
  | c :: cs =>
      let! _ := rassert (ind <? Z.of_nat (length output_str)) in
      put_front (<[Z.to_nat ind := c]> output_str) (wrap 64 (ind - 1)) cs
  end.
Definition number_text_in (len : nat) (n base : Z) (case : Casing) (front : list Z) : outcome (list Z) :=
  let! (output_str, ind) := number_buffer len n base case in
  let! (output_str, ind) := put_front output_str ind front in
  Ret (drop (Z.to_nat (wrap 64 (ind + 1))) output_str).

(** [n.abs()] of a [c_int]: the least number stays. *)
Definition abs_c_int (n : Z) : Z := to_c_int (Z.abs n).

Section Printf.
Context {S : Type} {LS : LibcSystem S}.
Implicit Types s : S.

(** [write(fd, p, n)] with a pointer into memory. *)
Definition write_mem s (fd p n : Z) : outcome (S * Z) :=
  let! buf := try_as_ref (MkPtr p) (process_memory s) (Z.to_nat n) in
  match buf with
  | None => Ret (s, -1)
  | Some buf => sys_write s fd buf
  end.

(** [( *f).fileno]. *)
Definition fileno s (f : Z) : outcome Z := let! v := read_le 4 (process_memory s) f in Ret (to_signed 32 v).

(** The next variadic argument, as the 64-bit value it is passed in; taking more than
    there are is undefined and counts as a panic. *)
Definition next_arg (args : list Z) : outcome (Z * list Z) :=
  match args with a :: args => Ret (a, args) | [] => Panic end.

(** * Conversions *)

(** The bytes of a converted argument; [%n] and [%%] are apart. *)
Definition convert (specifier : ConversionSpecifier) (arg : Z) : outcome (list Z) :=
  let unsigned := wrap 32 arg in
  match specifier with
  | SignedDecimalInteger | SignedInteger =>
      let n := to_c_int arg in
      number_text_in 11 (abs_c_int n) 10 Lower (if n <? 0 then [45] else [])
  | UnsignedDecimalInteger => number_text_in 10 unsigned 10 Lower []
  | UnsignedOctalInteger => number_text_in 11 unsigned 8 Lower []
  | UnsignedHexIntegerLowerCase => number_text_in 9 unsigned 16 Lower []
  | UnsignedHexIntegerUpperCase => number_text_in 9 unsigned 16 Upper []
  | Character => Ret [char_byte arg]
  | Pointer => number_text_in 19 arg 16 Lower [120; 48]
  | _ => Panic
  end.

(** The new state and number of characters; None when the function returns -1. *)
Definition transmit s (fd : Z) (bytes : list Z) (transmitted : Z) : outcome (S * option Z) :=
  let! (s, bytes_written) := sys_write s fd bytes in
  if bytes_written <? Z.of_nat (length bytes) then Ret (s, None)
  else Ret (s, Some (to_c_int (transmitted + Z.of_nat (length bytes)))).

Definition execute_conversion s (f : Z) (specifier : ConversionSpecifier) (args : list Z) (transmitted : Z)
  : outcome (S * list Z * option Z) :=
  match specifier with
  | Escape =>
      let! fd := fileno s f in
      let! (s, t) := transmit s fd [37] transmitted in Ret (s, args, t)
  | SMeta =>
      let! (arg, args) := next_arg args in
      let! m := write_le 4 (process_memory s) arg (wrap 32 transmitted) in
      Ret (set_process_memory s m, args, Some transmitted)
  | SString =>
      let! (arg, args) := next_arg args in
      let! string_arg_len := strlen (process_memory s) arg in
      let! fd := fileno s f in
      let! (s, bytes_written) := write_mem s fd arg string_arg_len in
      if bytes_written <? to_signed 64 string_arg_len then Ret (s, args, None)
      else Ret (s, args, Some (to_c_int (transmitted + to_c_int string_arg_len)))
  | _ =>
      let! (arg, args) := next_arg args in
      let! bytes := convert specifier arg in
      let! fd := fileno s f in
      let! (s, t) := transmit s fd bytes transmitted in Ret (s, args, t)
  end.

(** * vfprintf *)

(** The loop over the characters of the format; [under_construction] is None outside a
    specification. *)
Fixpoint vfprintf_loop s (f format_str : Z) (args : list Z) (transmitted : Z)
    (spec : option UnfinishedPrintfConversionSpecification) (i : Z) (n : nat) : outcome (S * Z) :=
  match n with
  | O => Ret (s, transmitted)
  | Datatypes.S n =>
      let! format_char := read_le 1 (process_memory s) (ptr_add format_str i) in
      match spec with
      | None =>
          if format_char =? 37 then vfprintf_loop s f format_str args transmitted (Some printf_default) (i + 1) n
          else
            let! fd := fileno s f in
            let! (s, bytes_written) := write_mem s fd (ptr_add format_str i) 1 in
            if bytes_written <? 1 then Ret (s, -1)
            else vfprintf_loop s f format_str args (to_c_int (transmitted + 1)) None (i + 1) n
      | Some u =>
          match add_char_to_printf_specification u format_char with
          | inr u => vfprintf_loop s f format_str args transmitted (Some u) (i + 1) n
          | inl specification =>
              let! (s, args, t) := execute_conversion s f (pf_specifier specification) args transmitted in
              match t with
              | None => Ret (s, -1)
              | Some transmitted => vfprintf_loop s f format_str args transmitted None (i + 1) n
              end
          end
      end
  end.

Definition vfprintf s (f format_str : Z) (args : list Z) : outcome (S * Z) :=
  let! format_str_len := strlen (process_memory s) format_str in
  vfprintf_loop s f format_str args 0 None 0 (Z.to_nat format_str_len).

(** * Unformatted output *)

Definition fputs s (str file : Z) : outcome (S * Z) :=
  let! str_len := strlen (process_memory s) str in
  let! fd := fileno s file in
  let! (s, res) := write_mem s fd str str_len in
  if res =? to_signed 64 str_len then Ret (s, 1) else Ret (s, EOF).

Definition puts s (str : Z) : outcome (S * Z) :=
  let! n := strlen (process_memory s) str in
  let! (s, res) := write_mem s STDOUT_FILENO str n in
  if res <? 0 then Ret (s, EOF)
  else
    let! (s, res) := sys_write s STDOUT_FILENO [10] in
    if res <? 0 then Ret (s, EOF) else Ret (s, 1).

Definition perror s (str : Z) : outcome (S * Z) :=
  let! n := strlen (process_memory s) str in
  let! (s, res) := write_mem s STDERR_FILENO str n in
  if res <? 0 then Ret (s, to_c_int res)
  else
    let t := res in
    let! (s, res) := sys_write s STDERR_FILENO [10] in
    if res <? 0 then Ret (s, to_c_int res) else Ret (s, to_c_int (t + res)).

Definition fwrite s (buf size count f : Z) : outcome (S * Z) :=
  let bytes := wrap 64 (size * count) in
  if bytes =? 0 then Ret (s, 0)
  else
    let! fd := fileno s f in
    let! (s, res) := write_mem s fd buf bytes in
    if res <? 0 then Ret (s, 0)
    else let! q := div_chk res size in Ret (s, q).

Definition fputc s (ch f : Z) : outcome (S * Z) :=
  let! fd := fileno s f in
  let! (s, bytes_written) := sys_write s fd [char_byte ch] in
  if bytes_written <=? 0 then Ret (s, -1) else Ret (s, ch).

End Printf.
