(* ===== verification/PrintfTheorems.v ===== *)
(** What vfprintf prints: the text of the format, with every specification replaced
    by the text of its argument; where that is the text the C standard asks for, and
    what it is elsewhere. *)
From S2P Require Import Prelude MachineInt EmulatorMemory VirtMem CMem CStr Specifier Printf.
From stdpp Require Import list.
#[local] Open Scope Z_scope.

(** * Numbers *)

Definition digit_of (case : Casing) (d : Z) : Z :=
  if d <? 10 then 48 + d else match case with Lower => 87 + d | Upper => 55 + d end.

(** The digits of a number; none for 0 and below. *)
Fixpoint radix_loop (fuel : nat) (base : Z) (case : Casing) (v : Z) : list Z :=
  match fuel with
  | O => []
  | S fuel => if v >? 0 then radix_loop fuel base case (v / base) ++ [digit_of case (v mod base)] else []
  end.
Definition radix (base : Z) (case : Casing) (v : Z) : list Z := radix_loop 64 base case v.

Lemma radix_length fuel base case v (d : nat) : 2 <= base -> v < base ^ Z.of_nat d -> (length (radix_loop fuel base case v) <= d)%nat.
Proof.
  intros Hb. revert v d. induction fuel as [|fuel IH]; intros v d Hv; simpl; [lia|]. rewrite Z.gtb_ltb.
  destruct (Z.ltb_spec 0 v); [|simpl; lia]. rewrite length_app. simpl. destruct d as [|d]; [simpl in Hv; lia|].
  rewrite Nat2Z.inj_succ, Z.pow_succ_r in Hv by lia. specialize (IH (v / base) d). apply Nat.add_le_mono_r with (p := 1%nat) in IH; [lia|].
  apply Z.div_lt_upper_bound; lia.
Qed.

(** The digits denote the number. *)
Definition digit_value (c : Z) : Z := if c <? 58 then c - 48 else if c <? 97 then c - 55 else c - 87.

Lemma radix_value fuel base case v :
  2 <= base <= 16 -> 0 <= v < base ^ Z.of_nat fuel ->
  fold_left (fun acc c => acc * base + digit_value c) (radix_loop fuel base case v) 0 = v.
Proof.
  intros Hb. revert v. induction fuel as [|fuel IH]; intros v Hv; [simpl in *; lia|]. cbn [radix_loop]. rewrite Z.gtb_ltb.
  destruct (Z.ltb_spec 0 v); [|simpl; lia]. rewrite Nat2Z.inj_succ, Z.pow_succ_r in Hv by lia.
  pose proof (Z.div_mod v base ltac:(lia)). pose proof (Z.mod_pos_bound v base ltac:(lia)).
  rewrite fold_left_app, IH by (split; [apply Z.div_pos; lia|apply Z.div_lt_upper_bound; lia]). cbn [fold_left].
  assert (digit_value (digit_of case (v mod base)) = v mod base) as ->; [|lia].
  unfold digit_value, digit_of. destruct (Z.ltb_spec (v mod base) 10); [by rewrite (proj2 (Z.ltb_lt _ 58)) by lia; lia|].
  rewrite (proj2 (Z.ltb_ge _ 58)) by (destruct case; lia).
  destruct case; [rewrite (proj2 (Z.ltb_ge _ 97)) by lia|rewrite (proj2 (Z.ltb_lt _ 97)) by lia]; lia.
Qed.

(** A buffer of question marks in front of what was written so far. *)
Lemma insert_before (j : nat) c acc : (0 < j)%nat -> <[(j - 1)%nat := c]> (replicate j 63 ++ acc) = replicate (j - 1) 63 ++ c :: acc.
Proof.
  intros Hj. destruct j as [|j]; [lia|]. replace (S j - 1)%nat with j by lia. replace (S j) with (j + 1)%nat by lia.
  rewrite replicate_add, <- app_assoc. rewrite insert_app_r_alt by (rewrite length_replicate; lia). by rewrite length_replicate, Nat.sub_diag.
Qed.

Lemma wrap_index (j : nat) : (0 < j)%nat -> Z.of_nat j < 2 ^ 64 -> wrap 64 (Z.of_nat j - 1) = Z.of_nat (j - 1).
Proof. intros Hj Hl. rewrite wrap_small by (unfold in_u; lia). lia. Qed.

Lemma number_digits_written fuel j acc v base case :
  2 <= base <= 16 -> (length (radix_loop fuel base case v) <= j)%nat -> Z.of_nat (j + length acc) < 2 ^ 64 ->
  number_to_string_in_radix fuel (replicate j 63 ++ acc) (wrap 64 (Z.of_nat j - 1)) v base case =
  Ret (replicate (j - length (radix_loop fuel base case v)) 63 ++ radix_loop fuel base case v ++ acc,
       wrap 64 (Z.of_nat (j - length (radix_loop fuel base case v)) - 1)).
Proof.
  intros Hb. revert j acc v. induction fuel as [|fuel IH]; intros j acc v Hl Hj; simpl; [by rewrite Nat.sub_0_r|].
  simpl in Hl. rewrite Z.gtb_ltb in *. destruct (Z.ltb_spec 0 v); [|simpl; by rewrite Nat.sub_0_r].
  rewrite length_app in *. cbn [length] in *.
  assert (digit_char case (v mod base) = Ret (digit_of case (v mod base))) as ->.
  { unfold digit_char, digit_of. pose proof (Z.mod_pos_bound v base ltac:(lia)). destruct (Z.ltb_spec (v mod base) 10); [done|].
    by rewrite (proj2 (Z.ltb_lt _ 16)) by lia. }
  cbn [obind]. rewrite wrap_index by lia. rewrite (proj2 (Z.ltb_lt _ _)) by (rewrite ?length_app, length_replicate; lia).
  cbn [rassert obind]. rewrite Nat2Z.id, insert_before by lia. rewrite IH by (simpl; lia).
  rewrite <- app_assoc, length_app. cbn [length].
  by replace (j - (length (radix_loop fuel base case (v / base)) + 1))%nat with (j - 1 - length (radix_loop fuel base case (v / base)))%nat by lia.
Qed.

Lemma front_written j acc cs :
  (length cs <= j)%nat -> Z.of_nat (j + length acc) < 2 ^ 64 ->
  put_front (replicate j 63 ++ acc) (wrap 64 (Z.of_nat j - 1)) cs =
  Ret (replicate (j - length cs) 63 ++ reverse cs ++ acc, wrap 64 (Z.of_nat (j - length cs) - 1)).
Proof.
  revert j acc. induction cs as [|c cs IH]; intros j acc Hl Hj; simpl; [by rewrite Nat.sub_0_r|]. simpl in Hl.
  rewrite wrap_index by lia. rewrite (proj2 (Z.ltb_lt _ _)) by (rewrite ?length_app, length_replicate; lia).
  cbn [rassert obind]. rewrite Nat2Z.id, insert_before by lia. rewrite IH by (simpl; lia).
  rewrite reverse_cons, <- app_assoc. by replace (j - S (length cs))%nat with (j - 1 - length cs)%nat by lia.
Qed.

(** The text of a number with the characters in front of it, when the buffer has
    room: even when the first one is at index 0 and the index wraps. *)
Lemma number_text_written len v base case front :
  2 <= base <= 16 -> (0 < len)%nat -> (length (radix base case v) + length front <= len)%nat -> Z.of_nat len < 2 ^ 32 ->
  number_text_in len v base case front = Ret (reverse front ++ radix base case v).
Proof.
  intros Hb H0 Hl Hs. unfold number_text_in, number_buffer. rewrite <- (app_nil_r (replicate len 63)).
  rewrite <- (wrap_small 64 (Z.of_nat len - 1)) by (unfold in_u; lia). rewrite number_digits_written by (fold (radix base case v); simpl; lia).
  fold (radix base case v). cbn [obind]. rewrite app_nil_r. rewrite front_written by lia. cbn [obind].
  set (j := (_ - length front)%nat). rewrite wrap_add_l. replace (Z.of_nat j - 1 + 1) with (Z.of_nat j) by lia.
  rewrite wrap_small by (unfold in_u; lia). rewrite Nat2Z.id. by rewrite drop_app_length' by by rewrite length_replicate.
Qed.

(** * The text of the C standard *)

(** [t] is the number [v] written in a base: digits without a leading zero, unless the
    number is 0. *)
Definition numeral (base : Z) (case : Casing) (v : Z) (t : list Z) : Prop :=
  exists ds, t = digit_of case <$> ds /\ Forall (fun d => 0 <= d < base) ds /\ ds <> [] /\
    (head ds = Some 0 -> ds = [0]) /\ fold_left (fun acc d => acc * base + d) ds 0 = v.

(** How many bits of the argument the length modifier asks for. *)
Definition argument_bits (length : ConversionLength) : Z :=
  match length with
  | Specifier.Byte => 8
  | Specifier.Half => 16
  | NoLength | Double => 32
  | Long | LongLong | MaxLengthForInt | MaxLengthForSize | MaxLengthForPointer => 64
  end.
Definition signed_argument (sp : PrintfConversionSpecification) (arg : Z) : Z :=
  let w := argument_bits (pf_length sp) in to_signed w (wrap w arg).
Definition unsigned_argument (sp : PrintfConversionSpecification) (arg : Z) : Z := wrap (argument_bits (pf_length sp)) arg.

(** The text of an argument, for a specification without flags, width and precision. *)
Definition standard_text (sp : PrintfConversionSpecification) (arg : Z) (t : list Z) : Prop :=
  match pf_specifier sp with
  | SignedDecimalInteger | SignedInteger =>
      let n := signed_argument sp arg in
      exists u, numeral 10 Lower (Z.abs n) u /\ t = (if n <? 0 then [45] else []) ++ u
  | UnsignedDecimalInteger => numeral 10 Lower (unsigned_argument sp arg) t
  | UnsignedOctalInteger => numeral 8 Lower (unsigned_argument sp arg) t
  | UnsignedHexIntegerLowerCase => numeral 16 Lower (unsigned_argument sp arg) t
  | UnsignedHexIntegerUpperCase => numeral 16 Upper (unsigned_argument sp arg) t
  | Character => t = [arg mod 256]
  | Pointer => exists u, numeral 16 Lower arg u /\ t = [48; 120] ++ u
  | _ => False
  end.

(** Where vfprintf keeps to it: without flags, width and precision, for a number that is
    not 0, that has the same value in 32 bits, and that is not the least [int]. *)
Definition keeps_standard (sp : PrintfConversionSpecification) (arg : Z) : bool :=
  bool_decide (pf_flags sp = NO_FLAGS) && bool_decide (pf_width sp = NoAmount) && bool_decide (pf_precision sp = NoAmount) &&
  match pf_specifier sp with
  | SignedDecimalInteger | SignedInteger =>
      let n := signed_argument sp arg in
      (to_c_int arg =? n) && negb (n =? 0) && negb (n =? - 2 ^ 31)
  | UnsignedDecimalInteger | UnsignedOctalInteger | UnsignedHexIntegerLowerCase | UnsignedHexIntegerUpperCase =>
      let n := unsigned_argument sp arg in (arg mod 2 ^ 32 =? n) && negb (n =? 0)
  | Pointer => negb (arg =? 0)
  | _ => true
  end.

Lemma radix_numeral_loop fuel base case v :
  2 <= base -> 0 < v < base ^ Z.of_nat fuel ->
  exists ds, radix_loop fuel base case v = digit_of case <$> ds /\ Forall (fun d => 0 <= d < base) ds /\
    (exists d ds', ds = d :: ds' /\ 0 < d) /\ fold_left (fun acc d => acc * base + d) ds 0 = v.
Proof.
  intros Hb. revert v. induction fuel as [|fuel IH]; intros v Hv; [simpl in Hv; lia|]. cbn [radix_loop].
  rewrite Z.gtb_ltb, (proj2 (Z.ltb_lt 0 v)) by lia. rewrite Nat2Z.inj_succ, Z.pow_succ_r in Hv by lia.
  pose proof (Z.div_mod v base ltac:(lia)) as Ed. pose proof (Z.mod_pos_bound v base ltac:(lia)) as Hm.
  assert (0 <= v / base) by (apply Z.div_pos; lia). destruct (Z.eq_dec (v / base) 0) as [E|E].
  - exists [v mod base]. rewrite E. split; [by destruct fuel|]. split; [by constructor|]. split; [eexists _, _; split; [done|lia]|]. simpl. lia.
  - destruct (IH (v / base)) as (ds & -> & Hds & (d & ds' & -> & Hd) & Hf); [split; [lia|apply Z.div_lt_upper_bound; lia]|].
    exists ((d :: ds') ++ [v mod base]). rewrite fmap_app, Forall_app, fold_left_app, Hf. split; [done|]. split; [split; [done|by constructor]|].
    split; [by eexists _, _|]. simpl. lia.
Qed.

Lemma radix_numeral base case v : 2 <= base -> 0 < v < 2 ^ 64 -> numeral base case v (radix base case v).
Proof.
  intros Hb Hv. destruct (radix_numeral_loop 64 base case v Hb) as (ds & E & Hds & (d & ds' & -> & Hd) & Hf).
  { split; [lia|]. pose proof (Z.pow_le_mono_l 2 base 64). change (Z.of_nat 64) with 64. lia. }
  exists (d :: ds'). split; [exact E|]. split; [done|]. split; [done|]. split; [intros [= ->]; lia|done].
Qed.

(** A number has one numeral. *)
Lemma digits_positive base ds : 0 < base -> Forall (fun d => 0 <= d < base) ds -> ds <> [] -> head ds <> Some 0 ->
  0 < fold_left (fun acc d => acc * base + d) ds 0.
Proof.
  intros Hb. induction ds as [|d ds IH] using rev_ind; intros Hd Hn Hh; [done|]. rewrite fold_left_app. cbn [fold_left].
  apply Forall_app in Hd as [Hd Hx%Forall_inv]. cbn beta in Hx. destruct ds as [|d' ds]; [simpl in *; assert (d <> 0) by congruence; lia|].
  specialize (IH Hd ltac:(done) Hh). cbn [fold_left] in *. nia.
Qed.

Lemma radix_loop_unique fuel base case ds :
  2 <= base -> Forall (fun d => 0 <= d < base) ds -> head ds <> Some 0 ->
  fold_left (fun acc d => acc * base + d) ds 0 < base ^ Z.of_nat fuel ->
  radix_loop fuel base case (fold_left (fun acc d => acc * base + d) ds 0) = digit_of case <$> ds.
Proof.
  intros Hb. revert ds. induction fuel as [|fuel IH]; intros ds Hd Hh Hv.
  - destruct ds as [|d ds]; [done|]. pose proof (digits_positive base (d :: ds) ltac:(lia) Hd ltac:(done) Hh). simpl in *. lia.
  - destruct ds as [|d ds _] using rev_ind; [done|]. pose proof (digits_positive base _ ltac:(lia) Hd ltac:(by destruct ds) Hh) as Hpos.
    apply Forall_app in Hd as [Hd Hx%Forall_inv]. cbn beta in Hx. cbn [radix_loop]. rewrite fold_left_app in *. cbn [fold_left] in *.
    rewrite Nat2Z.inj_succ, Z.pow_succ_r in Hv by lia. rewrite Z.gtb_ltb, (proj2 (Z.ltb_lt 0 _)) by lia.
    rewrite Z.div_add_l, Z.div_small, Z.add_0_r by lia. rewrite (Z.add_comm (_ * base)), Z.mod_add, Z.mod_small by lia.
    rewrite fmap_app, IH; [done|done| |nia]. by destruct ds.
Qed.

Lemma numeral_unique base case v t : 2 <= base -> 0 < v < 2 ^ 64 -> numeral base case v t -> t = radix base case v.
Proof.
  intros Hb Hv (ds & -> & Hd & Hn & Hz & <-). symmetry. apply radix_loop_unique; [done|done| |].
  - intros E. specialize (Hz E) as ->. simpl in Hv. lia.
  - pose proof (Z.pow_le_mono_l 2 base 64). change (Z.of_nat 64) with 64. lia.
Qed.

(** * Conversions *)

(** The text of an argument as vfprintf prints it.  Numbers have no digits when they are
    0, and neither has the least [int], whose absolute value is itself. *)
Definition conversion_text (specifier : ConversionSpecifier) (arg : Z) : list Z :=
  let unsigned := arg mod 2 ^ 32 in
  match specifier with
  | SignedDecimalInteger | SignedInteger =>
      let n := to_c_int arg in
      (if n <? 0 then [45] else []) ++ (if n =? - 2 ^ 31 then [] else radix 10 Lower (Z.abs n))
  | UnsignedDecimalInteger => radix 10 Lower unsigned
  | UnsignedOctalInteger => radix 8 Lower unsigned
  | UnsignedHexIntegerLowerCase => radix 16 Lower unsigned
  | UnsignedHexIntegerUpperCase => radix 16 Upper unsigned
  | Character => [arg mod 256]
  | Pointer => [48; 120] ++ radix 16 Lower arg
  | _ => []
  end.

(** The specifiers that print one argument as a number or a character. *)
Definition prints_value (specifier : ConversionSpecifier) : bool :=
  match specifier with
  | SignedDecimalInteger | SignedInteger | UnsignedDecimalInteger | UnsignedOctalInteger
  | UnsignedHexIntegerLowerCase | UnsignedHexIntegerUpperCase | Character | Pointer => true
  | _ => false
  end.

Lemma to_c_int_range x : - 2 ^ 31 <= to_c_int x < 2 ^ 31.
Proof. apply (to_signed_range 32); [lia|]. apply in_u_wrap. lia. Qed.

Lemma convert_text specifier arg :
  prints_value specifier = true -> in_u 64 arg -> convert specifier arg = Ret (conversion_text specifier arg).
Proof.
  intros Hp Ha. pose proof (Z.mod_pos_bound arg (2 ^ 32) ltac:(lia)) as Hu.
  assert (forall len base case d, 2 <= base <= 16 -> 2 ^ 32 <= base ^ Z.of_nat d -> (d <= len)%nat -> (0 < len)%nat -> Z.of_nat len < 2 ^ 32 ->
    number_text_in len (wrap 32 arg) base case [] = Ret (radix base case (arg mod 2 ^ 32))) as Hnum.
  { intros len base case d Hb Hd Hl H0 Hs. rewrite number_text_written; [reflexivity|done|done| |done].
    pose proof (radix_length 64 base case (wrap 32 arg) d). unfold radix, wrap in *. cbn [length]. lia. }
  assert (forall n, - 2 ^ 31 < n < 2 ^ 31 -> (length (radix 10 Lower (Z.abs n)) <= 10)%nat) as H10.
  { intros n Hn. apply radix_length; [lia|]. change (10 ^ Z.of_nat 10) with 10000000000. lia. }
  assert (forall n, - 2 ^ 31 <= n < 2 ^ 31 ->
    number_text_in 11 (abs_c_int n) 10 Lower (if n <? 0 then [45] else []) =
    Ret ((if n <? 0 then [45] else []) ++ (if n =? - 2 ^ 31 then [] else radix 10 Lower (Z.abs n)))) as Hsigned.
  { intros n Hn. unfold abs_c_int. destruct (Z.eqb_spec n (- 2 ^ 31)) as [->|Hne]; [vm_compute; reflexivity|].
    assert (to_c_int (Z.abs n) = Z.abs n) as -> by (apply to_signed_wrap; lia). specialize (H10 n).
    rewrite number_text_written; [destruct (n <? 0); reflexivity|lia|lia|destruct (n <? 0); cbn [length]; lia|lia]. }
  destruct specifier; try discriminate Hp; unfold convert, conversion_text.
  - apply Hsigned, to_c_int_range.
  - apply Hsigned, to_c_int_range.
  - apply (Hnum _ _ _ 10%nat); try lia.
  - apply (Hnum _ _ _ 11%nat); try lia.
  - apply (Hnum _ _ _ 8%nat); try lia.
  - apply (Hnum _ _ _ 8%nat); try lia.
  - reflexivity.
  - rewrite number_text_written; [reflexivity|lia|lia| |lia]. pose proof (radix_length 64 16 Lower arg 16 ltac:(lia)) as Hl.
    unfold in_u in Ha. change (16 ^ Z.of_nat 16) with (2 ^ 64) in Hl. unfold radix. cbn [length]. lia.
Qed.

(** No text is long. *)
Lemma radix_loop_short fuel base case v : (length (radix_loop fuel base case v) <= fuel)%nat.
Proof.
  revert v. induction fuel as [|fuel IH]; intros v; simpl; [done|]. case_match; simpl; [|lia]. rewrite length_app. specialize (IH (v / base)). simpl. lia.
Qed.
Lemma conversion_text_short specifier arg : (length (conversion_text specifier arg) <= 66)%nat.
Proof.
  assert (forall base case v, (length (radix base case v) <= 64)%nat) as H by (intros; apply radix_loop_short).
  destruct specifier; simpl; rewrite ?length_app; try (specialize (H 10 Lower (arg mod 2 ^ 32)); lia); try (etrans; [apply H|lia]); try lia.
  1,2: destruct (to_c_int arg <? 0), (to_c_int arg =? - 2 ^ 31); simpl; try lia; pose proof (H 10 Lower (Z.abs (to_c_int arg))); lia.
  pose proof (H 16 Lower arg). lia.
Qed.

(** Where vfprintf keeps to the standard it prints the standard's text, and no other. *)
Lemma conversion_text_standard sp arg t :
  prints_value (pf_specifier sp) = true -> in_u 64 arg -> keeps_standard sp arg = true ->
  standard_text sp arg t <-> t = conversion_text (pf_specifier sp) arg.
Proof.
  intros Hp Ha Hk. unfold keeps_standard in Hk. apply andb_true_iff in Hk as [_ Hk]. pose proof (Z.mod_pos_bound arg (2 ^ 32) ltac:(lia)).
  assert (forall base case v u, 2 <= base -> 0 < v < 2 ^ 64 -> numeral base case v u <-> u = radix base case v) as Hnum
    by (intros base case v u Hb Hv; split; [by apply numeral_unique|intros ->; by apply radix_numeral]).
  unfold standard_text, conversion_text. destruct (pf_specifier sp); try discriminate Hp; try reflexivity;
    rewrite ?andb_true_iff, ?negb_true_iff, ?Z.eqb_eq, ?Z.eqb_neq in Hk.
  1,2: destruct Hk as [[<- Hz] Hm]; pose proof (to_c_int_range arg); rewrite (proj2 (Z.eqb_neq _ _) Hm);
    (split; [intros (u & ->%Hnum & ->)|intros ->; eexists; split; [apply Hnum|]]; (done || lia)).
  1-4: destruct Hk as [<- Hz]; apply Hnum; lia.
  unfold in_u in Ha. split; [intros (u & ->%Hnum & ->)|intros ->; eexists; split; [apply Hnum|]]; (done || lia).
Qed.

(** * The loop *)

(** What the library relies on of the system call: on a stream that accepts output
    ([sent] is what it got so far) a write takes all its bytes, in order, and leaves
    the memory of the process alone. *)
Class LibcSystemOk (S : Type) {LS : LibcSystem S} := {
  sent : S -> Z -> option (list Z);
  sys_write_ok : forall s fd out bs, sent s fd = Some out -> Z.of_nat (length bs) < 2 ^ 31 ->
    exists s', sys_write s fd bs = Ret (s', Z.of_nat (length bs)) /\ sent s' fd = Some (out ++ bs) /\
      process_memory s' = process_memory s;
}.

(** A string, or the start of one, as the kernel reads it. *)
Lemma try_as_ref_at m p bs rest :
  vm_wf m -> bytes_at m p (bs ++ rest) -> bs ++ rest <> [] -> try_as_ref (MkPtr p) m (length bs) = Ret (Some bs).
Proof.
  intros Hm [[E|(i & r & Hi & Hc & Hf)] V] Hne; [by apply length_zero_iff_nil in E|]. unfold try_as_ref, try_as_ptr. simpl.
  rewrite (try_map_covers m p i r Hm Hi Hc). simpl. rewrite Hi. simpl. rewrite length_app in Hf.
  unfold slice. rewrite decide_True by (unfold covers, region_len in *; lia). simpl. do 2 f_equal.
  assert (length (take (length bs) (drop (Z.to_nat (p - virtual_start r)) (backing_storage r))) = length bs) as L
    by (rewrite length_take, length_drop; unfold covers, region_len in *; lia).
  eapply (view_bytes_eq (vm_view m) p); [done| |].
  - intros j b Hj. pose proof (lookup_lt_Some _ _ _ Hj) as Hlt. rewrite L in Hlt. rewrite lookup_take_lt, lookup_drop in Hj by done.
    assert (covers r (p + Z.of_nat j)) as Hcj by (unfold covers in *; lia).
    rewrite (vm_view_covers m _ i r (proj2 Hm) Hi Hcj). unfold region_get. rewrite decide_True by done. rewrite <- Hj. f_equal. unfold covers in Hc. lia.
  - intros j b Hj. apply V. by apply lookup_app_l_Some.
Qed.

Section Loop.
Context {S : Type} {LS : LibcSystem S} {LOk : LibcSystemOk S}.
Implicit Types s : S.

(** ** Formats *)

Inductive item :=
| Lit (c : Z)
| Conv (spec : PrintfConversionSpecification) (arg : Z)
| Text (spec : PrintfConversionSpecification) (arg : Z) (text : list Z)
| Percent (spec : PrintfConversionSpecification).

Definition spec_of (it : item) : option PrintfConversionSpecification :=
  match it with Lit _ => None | Conv sp _ | Text sp _ _ | Percent sp => Some sp end.
Definition item_text (it : item) : list Z :=
  match it with Lit c => [c] | Conv sp _ | Text sp _ _ | Percent sp => 37 :: spec_text sp end.
Definition item_args (it : item) : list Z := match it with Conv _ a | Text _ a _ => [a] | Lit _ | Percent _ => [] end.
Definition item_out (it : item) : list Z :=
  match it with
  | Lit c => [c]
  | Conv sp a => conversion_text (pf_specifier sp) a
  | Text _ _ t => t
  | Percent _ => [37]
  end.

Definition item_ok (m : memory_) (it : item) : Prop :=
  match it with
  | Lit c => c <> 37
  | Conv sp a => spec_ok sp /\ prints_value (pf_specifier sp) = true /\ in_u 64 a
  | Text sp a t => spec_ok sp /\ pf_specifier sp = SString /\ cstr_at m a t
  | Percent sp => spec_ok sp /\ pf_specifier sp = Escape
  end.

(** The file [f] stands for descriptor [fd]. *)
Definition file_at (m : memory_) (f fd : Z) : Prop := read_le 4 m f = Ret (wrap 32 fd) /\ - 2 ^ 31 <= fd < 2 ^ 31.

Lemma fileno_at s f fd : file_at (process_memory s) f fd -> fileno s f = Ret fd.
Proof. intros [H Hr]. unfold fileno. rewrite H. cbn [obind]. f_equal. apply to_signed_wrap; lia. Qed.

Lemma transmit_ok s fd out bs t :
  sent s fd = Some out -> 0 <= t -> t + Z.of_nat (length bs) < 2 ^ 31 ->
  exists s', transmit s fd bs t = Ret (s', Some (t + Z.of_nat (length bs))) /\ sent s' fd = Some (out ++ bs) /\
    process_memory s' = process_memory s.
Proof.
  intros Hs Ht Hl. destruct (sys_write_ok s fd out bs Hs ltac:(lia)) as (s' & E & H1 & H2). exists s'. unfold transmit. rewrite E. cbn [obind].
  rewrite Z.ltb_irrefl. split; [|done]. do 3 f_equal. apply to_signed_wrap; lia.
Qed.

(** A conversion prints its text. *)
Lemma conversion_prints s f fd out it sp args t :
  vm_wf (process_memory s) -> file_at (process_memory s) f fd -> sent s fd = Some out -> item_ok (process_memory s) it ->
  spec_of it = Some sp -> 0 <= t -> t + Z.of_nat (length (item_out it)) < 2 ^ 31 ->
  exists s', execute_conversion s f (pf_specifier sp) (item_args it ++ args) t = Ret (s', args, Some (t + Z.of_nat (length (item_out it)))) /\
    sent s' fd = Some (out ++ item_out it) /\ process_memory s' = process_memory s.
Proof.
  intros Hm Hf Hs Hok Hsp Ht Hl. destruct it as [c|sp' a|sp' a tx|sp']; [done|injection Hsp as ->..].
  - destruct Hok as (_ & Hp & Ha). cbn [item_out item_args app] in *.
    destruct (transmit_ok s fd out _ t Hs Ht Hl) as (s' & E & H1 & H2). exists s'. split; [|done].
    pose proof (convert_text _ _ Hp Ha) as Hc. unfold execute_conversion.
    destruct (pf_specifier sp); try discriminate Hp; cbn [next_arg obind]; rewrite Hc; cbn [obind];
      rewrite (fileno_at s f fd Hf); cbn [obind]; rewrite E; reflexivity.
  - destruct Hok as (_ & -> & Hc). cbn [item_out item_args app execute_conversion next_arg obind] in *.
    rewrite (strlen_cstr _ _ _ Hm Hc). cbn [obind]. rewrite (fileno_at s f fd Hf). cbn [obind].
    unfold write_mem. rewrite Nat2Z.id, (try_as_ref_at _ _ tx [0] Hm (proj1 Hc)) by by destruct tx. cbn [obind].
    destruct (sys_write_ok s fd out tx Hs ltac:(lia)) as (s' & -> & H1 & H2). exists s'. cbn [obind]. split; [|done].
    assert (to_signed 64 (Z.of_nat (length tx)) = Z.of_nat (length tx)) as ->
      by (unfold to_signed; rewrite (proj2 (Z.ltb_lt _ _)); [done|change (2 ^ (64 - 1)) with (2 ^ 63); lia]).
    rewrite Z.ltb_irrefl. assert (to_c_int (Z.of_nat (length tx)) = Z.of_nat (length tx)) as -> by (apply to_signed_wrap; lia).
    do 4 f_equal. apply to_signed_wrap; lia.
  - destruct Hok as (_ & ->). cbn [item_out item_args app execute_conversion] in *. rewrite (fileno_at s f fd Hf). cbn [obind].
    destruct (transmit_ok s fd out _ t Hs Ht Hl) as (s' & -> & H1 & H2). by exists s'.
Qed.

(** Inside a specification the loop feeds the parser and then runs the conversion. *)
Lemma loop_in_spec s f fmt bs args t u (i : nat) sp rest :
  vm_wf (process_memory s) -> bytes_at (process_memory s) fmt bs -> parse_printf u (drop i bs) = Some (sp, rest) ->
  vfprintf_loop s f fmt args t (Some u) (Z.of_nat i) (length (drop i bs)) =
    (let! (s, args, t) := execute_conversion s f (pf_specifier sp) args t in
     match t with
     | None => Ret (s, -1)
     | Some t => vfprintf_loop s f fmt args t None (Z.of_nat (length bs - length rest)) (length rest)
     end).
Proof.
  intros Hm B. remember (drop i bs) as cs eqn:Ecs. revert u i Ecs. induction cs as [|c cs IH]; intros u i Ecs Hp; [done|].
  assert (bs !! i = Some c) as Hi by (rewrite <- (Nat.add_0_r i), <- lookup_drop, <- Ecs; done).
  assert (cs = drop (Datatypes.S i) bs) as Ecs' by (rewrite (drop_S _ _ _ Hi) in Ecs; by injection Ecs).
  cbn [length vfprintf_loop]. rewrite (read_byte_at _ _ _ _ _ Hm B Hi). cbn [obind parse_printf] in *.
  destruct (add_char_to_printf_specification u c) as [sp'|u'].
  - injection Hp as -> ->. pose proof (lookup_lt_Some _ _ _ Hi). pose proof (f_equal length Ecs') as L. rewrite length_drop in L.
    replace (Z.of_nat i + 1) with (Z.of_nat (length bs - length rest)) by lia. done.
  - replace (Z.of_nat i + 1) with (Z.of_nat (Datatypes.S i)) by lia. by apply IH.
Qed.
Lemma bytes_at_single m p bs (i : nat) c : bytes_at m p bs -> bs !! i = Some c -> bytes_at m (p + Z.of_nat i) ([c] ++ []).
Proof.
  intros B Hi. pose proof (lookup_lt_Some _ _ _ Hi). replace ([c] ++ []) with (take 1 (drop i bs)) by by rewrite (drop_S _ _ _ Hi).
  apply bytes_at_part; [done|lia].
Qed.

Lemma drop_suffix {A} (bs l r : list A) j : drop j bs = l ++ r -> (j <= length bs)%nat -> drop (length bs - length r) bs = r.
Proof.
  intros E Hj. pose proof (f_equal length E) as L. rewrite length_app, length_drop in L.
  replace (length bs - length r)%nat with (j + length l)%nat by lia. by rewrite <- drop_drop, E, drop_app_length.
Qed.

Lemma write_literal s fd fmt bs out (i : nat) c :
  vm_wf (process_memory s) -> bytes_at (process_memory s) fmt (bs ++ [0]) -> sent s fd = Some out -> bs !! i = Some c ->
  exists s', write_mem s fd (ptr_add fmt (Z.of_nat i)) 1 = Ret (s', 1) /\ sent s' fd = Some (out ++ [c]) /\
    process_memory s' = process_memory s.
Proof.
  intros Hm B Hs Hi. pose proof (lookup_lt_Some _ _ _ Hi) as Hl. unfold write_mem. change (Z.to_nat 1) with (length [c]).
  rewrite (ptr_add_in (process_memory s) fmt (length (bs ++ [0]))); [|done|exact (proj1 B)|rewrite length_app; lia].
  rewrite (try_as_ref_at _ _ [c] [] Hm); [|apply (bytes_at_single _ _ bs); [by apply bytes_at_app in B as [? _]|done]|done].
  apply (sys_write_ok s fd out [c] Hs). simpl. lia.
Qed.

(** Outside a specification, from position [i] on. *)
Lemma loop_prints items s f fd fmt bs out t (i : nat) :
  vm_wf (process_memory s) -> bytes_at (process_memory s) fmt (bs ++ [0]) -> file_at (process_memory s) f fd ->
  sent s fd = Some out -> Forall (item_ok (process_memory s)) items -> drop i bs = concat (item_text <$> items) ->
  0 <= t -> t + Z.of_nat (length (concat (item_out <$> items))) < 2 ^ 31 ->
  exists s', vfprintf_loop s f fmt (concat (item_args <$> items)) t None (Z.of_nat i) (length (drop i bs)) =
      Ret (s', t + Z.of_nat (length (concat (item_out <$> items)))) /\
    sent s' fd = Some (out ++ concat (item_out <$> items)) /\ process_memory s' = process_memory s.
Proof.
  revert s out t i. induction items as [|it items IH]; intros s out t i Hm B Hf Hs Hok Ed Ht Hl.
  { simpl in *. rewrite Ed. exists s. rewrite app_nil_r, Z.add_0_r. done. }
  inversion Hok as [|? ? Hit Hok']; subst. cbn [fmap list_fmap concat] in *. rewrite length_app, Nat2Z.inj_add in Hl.
  assert (bytes_at (process_memory s) fmt bs) as Bb by by apply bytes_at_app in B as [? _].
  assert (forall s1 (j : nat), drop j bs = concat (item_text <$> items) -> sent s1 fd = Some (out ++ item_out it) ->
    process_memory s1 = process_memory s ->
    exists s', vfprintf_loop s1 f fmt (concat (item_args <$> items)) (t + Z.of_nat (length (item_out it))) None (Z.of_nat j) (length (drop j bs)) =
      Ret (s', t + Z.of_nat (length (item_out it ++ concat (item_out <$> items)))) /\
      sent s' fd = Some (out ++ item_out it ++ concat (item_out <$> items)) /\ process_memory s' = process_memory s) as Hnext.
  { intros s1 j Ej H1 H2. destruct (IH s1 (out ++ item_out it) (t + Z.of_nat (length (item_out it))) j) as (s' & E & G1 & G2);
      rewrite ?H2; try done; try lia. exists s'. rewrite E, length_app, Nat2Z.inj_add. split; [f_equal; f_equal; lia|].
    rewrite G1, <- app_assoc. by rewrite G2. }
  destruct (drop i bs) as [|c rest] eqn:Edrop; [by destruct it|].
  assert (bs !! i = Some c) as Hi by (rewrite <- (Nat.add_0_r i), <- lookup_drop, Edrop; done).
  assert (rest = drop (Datatypes.S i) bs) as Erest by (rewrite (drop_S _ _ _ Hi) in Edrop; by injection Edrop).
  cbn [length vfprintf_loop]. rewrite (read_byte_at _ _ _ _ _ Hm Bb Hi). cbn [obind].
  destruct (spec_of it) as [sp|] eqn:Esp.
  - assert (item_text it = 37 :: spec_text sp /\ spec_ok sp) as [Et Hsp]
      by (destruct it; try done; injection Esp as ->; split; [done|apply Hit|done|apply Hit|done|apply Hit]).
    rewrite Et in Ed. injection Ed as -> Ed. rewrite Z.eqb_refl. replace (Z.of_nat i + 1) with (Z.of_nat (Datatypes.S i)) by lia.
    assert (parse_printf printf_default (drop (Datatypes.S i) bs) = Some (sp, concat (item_text <$> items))) as Hp
      by (rewrite <- Erest, Ed; by apply parse_spec_text).
    rewrite Erest, (loop_in_spec _ _ _ _ _ _ _ _ _ _ Hm Bb Hp).
    destruct (conversion_prints s f fd out it sp (concat (item_args <$> items)) t) as (s1 & -> & H1 & H2); try done; [lia|]. cbn [obind].
    assert (drop (length bs - length (concat (item_text <$> items))) bs = concat (item_text <$> items)) as Ej.
    { apply (drop_suffix bs (spec_text sp) _ (Datatypes.S i)); [by rewrite <- Erest|by apply lookup_lt_Some in Hi]. }
    destruct (Hnext s1 _ Ej H1 H2) as (s' & E & G). rewrite Ej in E. by exists s'.
  - destruct it as [c'| | |]; try done. injection Ed as -> Ed. simpl in Hit. rewrite (proj2 (Z.eqb_neq c' 37)) by done.
    rewrite (fileno_at s f fd Hf). cbn [obind].
    destruct (write_literal s fd fmt bs out i c' Hm B Hs Hi) as (s1 & -> & H1 & H2). cbn [obind].
    rewrite Z.ltb_irrefl. assert (to_c_int (t + 1) = t + 1) as -> by (apply to_signed_wrap; simpl in Hl; lia).
    replace (Z.of_nat i + 1) with (Z.of_nat (Datatypes.S i)) by lia. rewrite Erest. apply Hnext; [by rewrite <- Erest|done|done].
Qed.

Lemma vfprintf_text items s f fd fmt out :
  vm_wf (process_memory s) -> cstr_at (process_memory s) fmt (concat (item_text <$> items)) ->
  file_at (process_memory s) f fd -> sent s fd = Some out -> Forall (item_ok (process_memory s)) items ->
  Z.of_nat (length (concat (item_out <$> items))) < 2 ^ 31 ->
  exists s', vfprintf s f fmt (concat (item_args <$> items)) = Ret (s', Z.of_nat (length (concat (item_out <$> items)))) /\
    sent s' fd = Some (out ++ concat (item_out <$> items)) /\ process_memory s' = process_memory s.
Proof.
  intros Hm Hc Hf Hs Hok Hl. unfold vfprintf. rewrite (strlen_cstr _ _ _ Hm Hc). cbn [obind]. rewrite Nat2Z.id.
  destruct (loop_prints items s f fd fmt (concat (item_text <$> items)) out 0 0) as (s' & E & H); try done; [apply Hc|].
  exists s'. rewrite drop_0 in E. split; [exact E|done].
Qed.

(** What an item prints: the standard's text where vfprintf keeps to it. *)
Definition prints (it : item) (t : list Z) : Prop :=
  match it with
  | Lit c => t = [c]
  | Conv sp a => if keeps_standard sp a then standard_text sp a t else t = conversion_text (pf_specifier sp) a
  | Text _ _ text => t = text
  | Percent _ => t = [37]
  end.

Lemma prints_item_out m it t : item_ok m it -> prints it t <-> t = item_out it.
Proof.
  destruct it as [c|sp a|sp a text|sp]; intros Hok; try done. destruct Hok as (_ & Hp & Ha). unfold prints, item_out.
  destruct (keeps_standard sp a) eqn:Hk; [|done]. by apply conversion_text_standard.
Qed.
Lemma prints_items_out m items texts : Forall (item_ok m) items -> Forall2 prints items texts <-> texts = item_out <$> items.
Proof.
  intros Hok. split.
  - intros H. induction H as [|it t items texts Hp H IH]; [done|]. inversion Hok; subst. cbn. f_equal; [by eapply prints_item_out|by apply IH].
  - intros ->. apply Forall2_fmap_r, Forall_Forall2_diag. eapply Forall_impl; [exact Hok|]. intros it H. by eapply prints_item_out.
Qed.

(** C28: [vfprintf] writes its format in order, with every specification replaced by the
    text of its argument, and returns the number of characters written.  The text is the
    one the C standard asks for (a numeral without leading zeros and its sign, [0x] and a
    numeral for a pointer, a character, a string, a percent sign) when the specification
    has no flags, width or precision and the number is not 0, not the least [int], and the
    same in the 32 bits that are printed whatever the length modifier.  Elsewhere
    vfprintf deviates: flags, width, precision and length have no effect (a [*] takes no
    argument of its own), 0 prints no digit and the least [int] a minus sign alone.  The
    conversions to floating point and [%n] are not covered.  No number buffer
    overflows. *)
Theorem vfprintf_prints items s f fd fmt out :
  vm_wf (process_memory s) -> cstr_at (process_memory s) fmt (concat (item_text <$> items)) ->
  file_at (process_memory s) f fd -> sent s fd = Some out -> Forall (item_ok (process_memory s)) items ->
  forall texts, Forall2 prints items texts -> Z.of_nat (length (concat texts)) < 2 ^ 31 ->
  exists s', vfprintf s f fmt (concat (item_args <$> items)) = Ret (s', Z.of_nat (length (concat texts))) /\
    sent s' fd = Some (out ++ concat texts) /\ process_memory s' = process_memory s.
Proof.
  intros Hm Hc Hf Hs Hok texts Ht Hl. apply (prints_items_out _ _ _ Hok) in Ht as ->. by apply vfprintf_text.
Qed.

(** The specification of a lone specifier. *)
Definition plain_spec (specifier : ConversionSpecifier) : PrintfConversionSpecification :=
  MkPrintf NO_FLAGS NoAmount NoAmount NoLength specifier.

(** Printf of the number 0 prints nothing at all, with any of the six integer
    conversions: the loop that writes the digits ends before the first one. *)
Theorem printf_zero_prints_nothing s f fd fmt out specifier :
  specifier ∈ [SignedDecimalInteger; SignedInteger; UnsignedDecimalInteger; UnsignedOctalInteger;
    UnsignedHexIntegerLowerCase; UnsignedHexIntegerUpperCase] ->
  vm_wf (process_memory s) -> cstr_at (process_memory s) fmt (37 :: specifier_text specifier) ->
  file_at (process_memory s) f fd -> sent s fd = Some out ->
  exists s', vfprintf s f fmt [0] = Ret (s', 0) /\ sent s' fd = Some out.
Proof.
  intros Hin Hm Hc Hf Hs.
  assert (item_text (Conv (plain_spec specifier) 0) = 37 :: specifier_text specifier /\ item_out (Conv (plain_spec specifier) 0) = [] /\
    item_ok (process_memory s) (Conv (plain_spec specifier) 0)) as (Et & Eo & Hok).
  { repeat (apply elem_of_cons in Hin as [->|Hin]; [split_and!; try reflexivity; try done; unfold in_u; lia|]). by apply elem_of_nil in Hin. }
  destruct (vfprintf_text [Conv (plain_spec specifier) 0] s f fd fmt out Hm) as (s' & E & H1 & _);
    cbn [fmap list_fmap concat]; rewrite ?Et, ?Eo, ?app_nil_r; try done; [by constructor|].
  exists s'. cbn [fmap list_fmap concat] in E, H1. rewrite Eo, app_nil_r in E, H1. split; [exact E|]. by rewrite H1, ?app_nil_r.
Qed.

End Loop.
