(* ===== verification/Kernel.v ===== *)
(** What a system call works on: the cpu and the data of the calling process, the
    global tables, and the devices behind them (the file system, the terminal, the
    keyboard); with the buffers and C strings a process passes by pointer, from
    kernel/src/virtmem.rs and kernel/src/process.rs. *)
From S2P Require Import Prelude MachineInt Str Path Vfs Keyboard CharDevice Terminal EmulatorMemory VirtMem Allocator Scheduler Cpu Loader FdTable.
From stdpp Require Import list gmap.
#[local] Open Scope Z_scope.

(** * Pointers of the process *)

(** [try_as_mut(memory, count)]: where the buffer lies; a slice that leaves its
    region is undefined and counts as a panic. *)
Definition try_as_mut (p : UserPointer) (m : LittleEndianVirtualMemory) (count : nat) : outcome (option MappingInfo) :=
  let? info := try_as_ptr p m in
  let! r := unwrap (m !! region_index info) in
  let! _ := slice (backing_storage r) (offset_in_region info) count in
  Ret (Some info).

(** [buf[i] = byte] for consecutive bytes from index [i] on. *)
Definition fill_buf (m : LittleEndianVirtualMemory) (info : MappingInfo) (i : nat) (bytes : list Z)
  : outcome LittleEndianVirtualMemory :=
  let! r := unwrap (m !! region_index info) in
  let! bs := store_bytes (backing_storage r) (offset_in_region info + i) bytes in
  Ret (<[region_index info := MkRegion (virtual_start r) bs]> m).

(** [strlen] of rlibc on a pointer into a region: the bytes before the first zero;
    running out of the region is undefined and counts as a panic. *)
Fixpoint strlen_raw (bs : list Z) : outcome nat :=
  match bs with
  | [] => Panic
  | b :: bs => if b =? 0 then Ret O else let! n := strlen_raw bs in Ret (S n)
  end.

Definition cstr_user_pointer_to_str (ptr : UserPointer) (m : LittleEndianVirtualMemory) : outcome (option str) :=
  let? info := try_as_ptr ptr m in
  let! r := unwrap (m !! region_index info) in
  let! n := strlen_raw (drop (offset_in_region info) (backing_storage r)) in
  let? bytes := try_as_ref ptr m n in
  Ret (from_utf8 bytes).

(** The pointers before the first null pointer, read through a raw pointer; every
    round reads eight bytes more, so that the length of the region is enough
    rounds. *)
Fixpoint pointers_raw (n : nat) (bs : list Z) : outcome (list Z) :=
  match n with
  | O => Panic
  | S n =>
      let! raw := slice bs 0 8 in
      if from_le_bytes raw =? 0 then Ret []
      else let! rest := pointers_raw n (drop 8 bs) in Ret (from_le_bytes raw :: rest)
  end.

(** A null-terminated array of pointers at [ptr]. *)
Definition pointer_array (ptr : UserPointer) (m : LittleEndianVirtualMemory) : outcome (option (list Z)) :=
  let? info := try_as_ptr ptr m in
  let! r := unwrap (m !! region_index info) in
  let bs := drop (offset_in_region info) (backing_storage r) in
  let! ptrs := pointers_raw (S (length bs)) bs in
  Ret (Some ptrs).

Section Kernel.
Context {W F D FB : Type}.

Abbreviation PData := (ProcessData (Node F D) Path).
Abbreviation Emu := (Riscv64Cpu LittleEndianVirtualMemory).

(** * Devices *)

(** The globals VFS_ROOT with the state of the file systems, TERMINAL and
    KEYBOARD_INPUT. *)
Record Devices := MkDevices {
  fs : W;
  vfs_root : option D;
  terminal : Terminal FB;
  keyboard : PS2Device;
}.

Definition set_fs (d : Devices) (w : W) : Devices := MkDevices w (vfs_root d) (terminal d) (keyboard d).
Definition set_terminal (d : Devices) (t : Terminal FB) : Devices := MkDevices (fs d) (vfs_root d) t (keyboard d).
Definition set_keyboard (d : Devices) (k : PS2Device) : Devices := MkDevices (fs d) (vfs_root d) (terminal d) k.

(** * Processes *)

(** struct Process is the cpu and the process data; the scheduler's record keeps
    state, pid and parent apart from the rest. *)
Record ProcRest := MkRest {
  pr_emu : Emu;
  pr_nodes : list (option (ProcessNode (Node F D) Path));
  pr_fds : list (option FdMapping);
  pr_cwd : Path;
  pr_env : gmap str Z;
  pr_allocator : BasicAlloc;
}.

Definition process_new (emu : Emu) (pd : PData) : Process (X := ProcRest) :=
  MkProcess (MkRest emu (open_nodes pd) (fd_mappings pd) (cwd pd) (env pd) (virtual_allocator pd))
    (pd_state pd) (pd_pid pd) (pd_parent_pid pd).
Definition process_data (p : Process (X := ProcRest)) : PData :=
  let r := proc_rest p in
  MkData (pr_nodes r) (pr_fds r) (pr_cwd r) (pr_env r) (pr_allocator r) (state p) (pid p) (parent_pid p).
Definition process_emu (p : Process (X := ProcRest)) : Emu := pr_emu (proc_rest p).

Lemma process_new_data p : process_new (process_emu p) (process_data p) = p.
Proof. by destruct p as [[] ? ? ?]. Qed.
Lemma process_data_new_ emu pd : process_data (process_new emu pd) = pd.
Proof. by destruct pd. Qed.

Abbreviation Glob := (Globals (X := ProcRest) (D := Devices)).

Definition set_devices (g : Glob) (d : Devices) : Glob :=
  MkGlobals (number_of_tasks g) (new_task_list g) (pipes g) (signal_queues g) d.

(** * The state of a system call *)

Record Call := MkCall { c_emu : Emu; c_data : PData; c_globals : Glob }.

Definition set_emu (k : Call) (e : Emu) : Call := MkCall e (c_data k) (c_globals k).
Definition set_data (k : Call) (pd : PData) : Call := MkCall (c_emu k) pd (c_globals k).
Definition set_globals (k : Call) (g : Glob) : Call := MkCall (c_emu k) (c_data k) g.
Definition set_call_memory (k : Call) (m : LittleEndianVirtualMemory) : Call := set_emu k (set_memory (c_emu k) m).
Definition set_call_pipes (k : Call) (ps : list (option ProcessPipe)) : Call := set_globals k (set_pipes (c_globals k) ps).
Definition set_call_devices (k : Call) (d : Devices) : Call := set_globals k (set_devices (c_globals k) d).

Definition c_memory (k : Call) : LittleEndianVirtualMemory := memory (c_emu k).
Definition c_pipes (k : Call) : list (option ProcessPipe) := pipes (c_globals k).
Definition c_devices (k : Call) : Devices := devices (c_globals k).
Definition c_fs (k : Call) : W := fs (c_devices k).
Definition set_call_fs (k : Call) (w : W) : Call := set_call_devices k (set_fs (c_devices k) w).

Definition set_cwd (pd : PData) (p : Path) : PData :=
  MkData (open_nodes pd) (fd_mappings pd) p (env pd) (virtual_allocator pd) (pd_state pd) (pd_pid pd) (pd_parent_pid pd).
Definition set_env (pd : PData) (e : gmap str Z) : PData :=
  MkData (open_nodes pd) (fd_mappings pd) (cwd pd) e (virtual_allocator pd) (pd_state pd) (pd_pid pd) (pd_parent_pid pd).
Definition set_allocator (pd : PData) (a : BasicAlloc) : PData :=
  MkData (open_nodes pd) (fd_mappings pd) (cwd pd) (env pd) a (pd_state pd) (pd_pid pd) (pd_parent_pid pd).
Definition set_parent (pd : PData) (n : option nat) : PData :=
  MkData (open_nodes pd) (fd_mappings pd) (cwd pd) (env pd) (virtual_allocator pd) (pd_state pd) (pd_pid pd) n.
Definition set_node (pd : PData) (i : nat) (n : ProcessNode (Node F D) Path) : PData :=
  set_nodes pd (<[i := Some n]> (open_nodes pd)).
Definition set_node_cursor (n : ProcessNode (Node F D) Path) (c : Z) : ProcessNode (Node F D) Path :=
  MkNode (vfs_node n) c (node_flags n) (node_path n) (reference_count n).

End Kernel.
Arguments Devices : clear implicits.
Arguments ProcRest : clear implicits.
Arguments Call : clear implicits.
