(* ===== verification/FileCalls.v ===== *)
(** The system calls on files and directories: [write], [read], [open], [lseek],
    [getcwd], [fchdir] and [getenv] of kernel/src/syscall.rs, over the interfaces
    of the file system and of the terminal. *)
From S2P Require Import Prelude MachineInt Str Path Vfs Keyboard CharDevice Terminal EmulatorMemory VirtMem Allocator Scheduler Cpu Loader FdTable Heap Kernel.
From stdpp Require Import list gmap.
#[local] Open Scope Z_scope.

Definition O_RDONLY : Z := 0x01.
Definition O_WRONLY : Z := 0x02.
Definition O_APPEND : Z := 0x04.
Definition O_CREAT : Z := 0x08.
Definition O_TRUNC : Z := 0x10.

Definition SEEK_CUR : Z := 0.
Definition SEEK_SET : Z := 1.
Definition SEEK_END : Z := 2.

(** [flags & bit != 0]. *)
Definition has_flag (flags bit : Z) : bool := negb (Z.land flags bit =? 0).

(** [x as i32] of a 64-bit value, and a checked [+] on i64. *)
Definition as_c_int (x : Z) : Z := to_signed 32 (wrap 32 x).
Definition add_i64 (a b : Z) : outcome Z :=
  if (- 2 ^ 63 <=? a + b) && (a + b <? 2 ^ 63) then Ret (a + b) else Panic.

Section FileCalls.
Context {W F D FB : Type} {FS : FileSystem W F D} {FBops : FrameBuffer FB}.
Abbreviation PData := (ProcessData (Node F D) Path).
Abbreviation PNode := (ProcessNode (Node F D) Path).
Implicit Types k : Call W F D FB.

(** [path.get_node()]: the lookup starts at VFS_ROOT, which must be set. *)
Definition vfs_lookup (d : Devices W D FB) (path : Path) : outcome (option (Node F D)) :=
  let! vroot := unwrap (vfs_root d) in get_node (fs d) vroot path.

(** * write *)

(** Writing to an open file: the cursor moves to the end for O_APPEND, the file is
    grown to hold the data, and the bytes written advance the cursor. *)
Definition write_file k (node_index : nat) (node : PNode) (f : F) (buf : list Z) : outcome (Call W F D FB * Z) :=
  let! node :=
    if has_flag (node_flags node) O_APPEND
    then let! size := get_size (c_fs k) f in Ret (set_node_cursor node size)
    else Ret node in
  let k := set_data k (set_node (c_data k) node_index node) in
  let! last := add_chk 64 (cursor node) (Z.of_nat (length buf)) in
  let! size := get_size (c_fs k) f in
  let! (w, grown) := if last >? size then resize_file (c_fs k) f last else Ret (c_fs k, Some ()) in
  let k := set_call_fs k w in
  match grown with
  | None => Ret (k, -1)
  | Some _ =>
      let! (w, written) := file_write (c_fs k) f (cursor node) buf in
      let k := set_call_fs k w in
      match written with
      | None => Ret (k, -1)
      | Some inc =>
          let! c := add_chk 64 (cursor node) inc in
          Ret (set_data k (set_node (c_data k) node_index (set_node_cursor node c)), as_c_int inc)
      end
  end.

(** The rest of the call, with the bytes of the caller's buffer. *)
Definition write_buf k (fd : nat) (buf : list Z) (count : Z) : outcome (Call W F D FB * Z) :=
  match get_mapping (c_data k) fd with
  | None => Ret (k, -1)
  | Some (Regular node_index) =>
      let! node := get_slot (open_nodes (c_data k)) node_index in
      if negb (has_flag (node_flags node) O_WRONLY) then Ret (k, -1)
      else match vfs_node node with
      | File f => write_file k node_index node f buf
      | Folder _ => Ret (k, -1)
      end
  | Some Stdin => Ret (k, -1)
  | Some (PipeReadEnd _) => Ret (k, -1)
  | Some (PipeWriteEnd pipe_index) =>
      let! (ps, r) := write_pipe (c_pipes k) pipe_index buf in Ret (set_call_pipes k ps, r)
  | Some Stdout | Some Stderr =>
      match from_utf8 buf with
      | None => Ret (k, -1)
      | Some str_buf =>
          let! t := write_str (terminal (c_devices k)) str_buf in
          Ret (set_call_devices k (set_terminal (c_devices k) t), as_c_int count)
      end
  end.

Definition write k (fd : nat) (user_buf : UserPointer) (count : Z) : outcome (Call W F D FB * Z) :=
  let! buf := try_as_ref user_buf (c_memory k) (Z.to_nat count) in
  match buf with
  | None => Ret (k, -1)
  | Some buf => write_buf k fd buf count
  end.

(** * read *)

(** The loop over the bytes of the buffer, one read of the file per byte: the
    bytes read. *)
Fixpoint read_file_loop (w : W) (f : F) (cursor index : Z) (n : nat) : outcome (list Z) :=
  match n with
  | O => Ret []
  | S n =>
      let! pos := add_chk 64 cursor index in
      let! size := get_size w f in
      if pos >? size then Ret []
      else
        let! val := file_read w f pos 1 in
        match val with
        | None => Ret []
        | Some val =>
            let! byte := unwrap (val !! 0%nat) in
            let! rest := read_file_loop w f cursor (index + 1) n in
            Ret (byte :: rest)
        end
  end.

Definition read k (fd : nat) (user_buf : UserPointer) (count : Z) : outcome (Call W F D FB * option Z) :=
  let n := Z.to_nat count in
  let! buf := try_as_mut user_buf (c_memory k) n in
  match buf with
  | None => Ret (k, Some (-1))
  | Some buf =>
    match get_mapping (c_data k) fd with
    | None => Ret (k, Some (-1))
    | Some (Regular node_index) =>
        let! node := get_slot (open_nodes (c_data k)) node_index in
        if negb (has_flag (node_flags node) O_RDONLY) then Ret (k, Some (-1))
        else match vfs_node node with
        | File f =>
            let! bytes := read_file_loop (c_fs k) f (cursor node) 0 n in
            let! m := fill_buf (c_memory k) buf 0 bytes in
            let! c := add_chk 64 (cursor node) (Z.of_nat (length bytes)) in
            let k := set_call_memory k m in
            Ret (set_data k (set_node (c_data k) node_index (set_node_cursor node c)),
                 Some (as_c_int (Z.of_nat (length bytes))))
        | Folder _ => Ret (k, Some (-1))
        end
    | Some (PipeWriteEnd _) => Ret (k, Some (-1))
    | Some (PipeReadEnd pipe_index) =>
        let! (pd, ps, bytes, r) := read_pipe (c_data k) (c_pipes k) pipe_index n in
        let! m := fill_buf (c_memory k) buf 0 bytes in
        Ret (set_call_memory (set_call_pipes (set_data k pd) ps) m, r)
    | Some Stdin =>
        let d := c_devices k in
        let! (t, kbd, c) := read_stdin (terminal d) (keyboard d) in
        let! _ := rassert (negb (n =? 0)%nat) in
        let! m := fill_buf (c_memory k) buf 0 [wrap 8 c] in
        Ret (set_call_memory (set_call_devices k (set_keyboard (set_terminal d t) kbd)) m, Some 1)
    | Some Stdout | Some Stderr => Ret (k, Some (-1))
    end
  end.

(** * open *)

(** The node at a canonical path, truncated or created as the flags say. *)
Definition open_node (d : Devices W D FB) (path : Path) (flags : Z) : outcome (W * option (Node F D)) :=
  let w := fs d in
  match path_last path with
  | Some node_to_search_for_name =>
      let! parent_node := vfs_lookup d (del_last path) in
      match parent_node with
      | Some (Folder parent_node) =>
          let! children := get_children w parent_node in
          match find_child children node_to_search_for_name with
          | Some node =>
              if has_flag flags O_TRUNC && has_flag flags O_WRONLY then
                match node with
                | File f =>
                    let! (w, r) := resize_file w f 0 in
                    match r with Some _ => Ret (w, Some node) | None => Ret (w, None) end
                | Folder _ => Ret (w, Some node)
                end
              else Ret (w, Some node)
          | None =>
              if has_flag flags O_CREAT then create_empty_child w parent_node node_to_search_for_name TFile
              else Ret (w, None)
          end
      | _ => Ret (w, None)
      end
  | None => let! node := vfs_lookup d root in Ret (w, node)
  end.

(** An absolute path, or one below the current directory. *)
Definition absolute (pd : PData) (path : str) : Path :=
  match try_from_str path with Some p => p | None => append_str (cwd pd) path end.

Definition open k (pathname : UserPointer) (flags : Z) : outcome (Call W F D FB * Z) :=
  let! path := cstr_user_pointer_to_str pathname (c_memory k) in
  match path with
  | None => Ret (k, -1)
  | Some path =>
      let! path := canonicalize (absolute (c_data k) path) in
      let! (w, node) := open_node (c_devices k) path flags in
      let k := set_call_fs k w in
      match node with
      | None => Ret (k, -1)
      | Some node =>
          let (nodes, node_index) := put_slot (open_nodes (c_data k)) (MkNode node 0 flags path 1) in
          let (fds, fd) := put_slot (fd_mappings (c_data k)) (Regular node_index) in
          Ret (set_data k (set_fds (set_nodes (c_data k) nodes) fds), Z.of_nat fd)
      end
  end.

(** * lseek *)

Definition lseek k (fd : nat) (offset whence : Z) : outcome (Call W F D FB * Z) :=
  match get_mapping (c_data k) fd with
  | Some (Regular node_index) =>
      let! node := get_slot (open_nodes (c_data k)) node_index in
      let seek c := (set_data k (set_node (c_data k) node_index (set_node_cursor node (wrap 64 c))),
                     to_signed 64 (wrap 64 c)) in
      if whence =? SEEK_SET then Ret (seek offset)
      else if whence =? SEEK_CUR then
        let! c := add_i64 (to_signed 64 (cursor node)) offset in Ret (seek c)
      else if whence =? SEEK_END then
        match vfs_node node with
        | File f =>
            let! size := get_size (c_fs k) f in
            let! c := add_i64 (to_signed 64 size) offset in Ret (seek c)
        | Folder _ => Ret (k, -1)
        end
      else Ret (k, -1)
  | _ => Ret (k, -1)
  end.

(** * getcwd, fchdir, getenv *)

Definition getcwd k (virtual_ptr : UserPointer) (buf_size : Z) : outcome (Call W F D FB * Z) :=
  let path := path_inner (cwd (c_data k)) in
  if Z.of_nat (str_len path) + 1 >? buf_size then Ret (k, USERSPACE_NULL_PTR)
  else
    let! buf := try_as_mut virtual_ptr (c_memory k) (Z.to_nat buf_size) in
    match buf with
    | None => Ret (k, USERSPACE_NULL_PTR)
    | Some buf =>
        let! m := fill_buf (c_memory k) buf 0 (wrap 8 <$> path) in
        let! m := fill_buf m buf (str_len path) [0] in
        Ret (set_call_memory k m, get_inner virtual_ptr)
    end.

Definition fchdir k (fd : nat) : outcome (Call W F D FB * Z) :=
  match get_mapping (c_data k) fd with
  | Some (Regular node_index) =>
      let! node := get_slot (open_nodes (c_data k)) node_index in
      Ret (set_data k (set_cwd (c_data k) (node_path node)), 0)
  | _ => Ret (k, -1)
  end.

Definition getenv k (virtual_ptr : UserPointer) : outcome (Call W F D FB * Z) :=
  let! key := cstr_user_pointer_to_str virtual_ptr (c_memory k) in
  match key with
  | None => Ret (k, USERSPACE_NULL_PTR)
  | Some key =>
      match env (c_data k) !! key with
      | None => Ret (k, USERSPACE_NULL_PTR)
      | Some res => Ret (k, res)
      end
  end.

End FileCalls.
