(* ===== verification/Scanf.v ===== *)
(** Formatted and plain input of the C library (rlibc/src/lib.rs): vfscanf, fgets,
    fgetc, fread, and with them fopen, fclose and fseek.  The system calls are an
    interface, as for the output functions. *)
From S2P Require Import Prelude MachineInt Str EmulatorMemory VirtMem CMem CStr Specifier Printf Kernel FileCalls.
From stdpp Require Import list.
#[local] Open Scope Z_scope.

(** The system call [read]: the bytes it puts in the buffer and the [c_ssize_t] it
    returns, or None while the process has to wait in it. *)
Class LibcInput (S : Type) := {
  sys_read : S -> Z -> Z -> outcome (S * option (list Z * Z));
}.

(** The system calls on files and on the heap; paths and blocks are pointers. *)
Class LibcFiles (S : Type) := {
  sys_open : S -> Z -> Z -> outcome (S * Z);
  sys_close : S -> Z -> outcome (S * Z);
  sys_lseek : S -> Z -> Z -> Z -> outcome (S * Z);
  sys_fchdir : S -> Z -> outcome (S * Z);
  sys_malloc : S -> Z -> outcome (S * Z);
  sys_free : S -> Z -> outcome S;
}.

(** * Characters *)

Definition char_to_digit (c : Z) : option Z :=
  if (48 <=? c) && (c <=? 57) then Some (c - 48)
  else if (97 <=? c) && (c <=? 102) then Some (c - 87)
  else if (65 <=? c) && (c <=? 70) then Some (c - 55)
  else None.

(** The conditions of the loops over digits. *)
Definition octal_char (c : Z) : bool := (48 <=? c) && (c <=? 55).
Definition decimal_char (c : Z) : bool := (48 <=? c) && (c <=? 57).

(** The last test is for an upper case F, twice. *)
Definition hex_char (c : Z) : bool :=
  decimal_char c || ((97 <=? c) && (c <=? 101)) || ((65 <=? c) && (c <=? 69)) || ((c =? 70) || (c =? 70)).

Inductive ParsedSign := POSITIVE | NEGATIVE.
Inductive ParsedBase := BASE10 | BASE8 | BASE16.

(** * Scanning

    The local variables of [vfscanf] that its parts change, and how a part ends: it goes
    on, the function returns, or the function has not returned yet (the process waits
    for input, or the fuel of a loop is used up). *)
Inductive Flow (A : Type) := Next (a : A) | Return (r : Z) | Unfinished.
Arguments Next {A} a.
Arguments Return {A} r.
Arguments Unfinished {A}.

Section Scanf.
Context {S : Type} {LS : LibcSystem S} {LI : LibcInput S}.
Implicit Types s : S.

Record Scan := MkScan {
  sc_system : S;
  stream_char : Z;
  characters_read : Z;
  sc_args : list Z;
  arguments_assigned : option Z;
}.
Implicit Types v : Scan.

Definition set_sc_system v s := MkScan s (stream_char v) (characters_read v) (sc_args v) (arguments_assigned v).
Definition set_stream_char v c := MkScan (sc_system v) c (characters_read v) (sc_args v) (arguments_assigned v).
Definition set_characters_read v n := MkScan (sc_system v) (stream_char v) n (sc_args v) (arguments_assigned v).
Definition set_sc_args v args := MkScan (sc_system v) (stream_char v) (characters_read v) args (arguments_assigned v).
Definition set_assigned v a := MkScan (sc_system v) (stream_char v) (characters_read v) (sc_args v) a.

Definition Scanner (A : Type) : Type := Scan -> outcome (Scan * Flow A).

Definition sc_ret {A} (a : A) : Scanner A := fun v => Ret (v, Next a).
Definition sc_bind {A B} (m : Scanner A) (k : A -> Scanner B) : Scanner B := fun v =>
  let! (v, r) := m v in
  match r with Next a => k a v | Return r => Ret (v, Return r) | Unfinished => Ret (v, Unfinished) end.
Definition sc_lift {A} (e : outcome A) : Scanner A := fun v => let! a := e in Ret (v, Next a).
Definition sc_unfinished {A} : Scanner A := fun v => Ret (v, Unfinished).
Definition sc_char : Scanner Z := fun v => Ret (v, Next (stream_char v)).

(** [return arguments_assigned.unwrap_or(r)]. *)
Definition sc_leave {A} (r : Z) : Scanner A := fun v => Ret (v, Return (default r (arguments_assigned v))).

#[local] Notation "'scan!' x ':=' m 'in' k" := (sc_bind m (fun x => k))
  (at level 10, x pattern, m at level 100, k at level 200).

(** [read(( *f).fileno, &mut stream_char, 1)]: at the end of the input the variable keeps
    its value. *)
Definition read_stream_char (f : Z) : Scanner unit := fun v =>
  let! fd := fileno (sc_system v) f in
  let! (s, r) := sys_read (sc_system v) fd 1 in
  match r with
  | None => Ret (set_sc_system v s, Unfinished)
  | Some (bytes, n) =>
      let v := set_stream_char (set_sc_system v s) (default (stream_char v) (head bytes)) in
      if n <? 0 then sc_leave EOF v else Ret (v, Next ())
  end.

(** With [characters_read += 1]. *)
Definition next_char (f : Z) : Scanner unit :=
  scan! _ := read_stream_char f in
  fun v => Ret (set_characters_read v (wrap 64 (characters_read v + 1)), Next ()).

(** [while isspace(stream_char)]. *)
Fixpoint skip_space (fuel : nat) (f : Z) : Scanner unit :=
  match fuel with
  | O => sc_unfinished
  | Datatypes.S fuel =>
      scan! c := sc_char in
      if isspace c =? 0 then sc_ret ()
      else scan! _ := next_char f in skip_space fuel f
  end.

Definition parse_sign (f : Z) : Scanner ParsedSign :=
  scan! c := sc_char in
  if (c =? 43) || (c =? 45) then
    scan! _ := next_char f in
    sc_ret (if c =? 43 then POSITIVE else NEGATIVE)
  else sc_ret POSITIVE.

(** The loop over the digits; [as_type] is the arithmetic of the type of the number,
    which wraps around. *)
Fixpoint parse_digits (fuel : nat) (f : Z) (accepts : Z -> bool) (as_type : Z -> Z) (base : Z) (parsed_n : option Z)
  : Scanner (option Z) :=
  match fuel with
  | O => sc_unfinished
  | Datatypes.S fuel =>
      scan! c := sc_char in
      if accepts c then
        scan! d := sc_lift (unwrap (char_to_digit c)) in
        let n := match parsed_n with Some val => as_type (val * base + d) | None => d end in
        scan! _ := next_char f in
        parse_digits fuel f accepts as_type base (Some n)
      else sc_ret parsed_n
  end.

(** Storing behind the next argument, unless the assignment is suppressed. *)
Definition store_arg (suppressed : bool) (w : nat) (val : Z) : Scanner unit := fun v =>
  if suppressed then Ret (v, Next ())
  else
    let! (p, args) := next_arg (sc_args v) in
    let! m := write_le w (process_memory (sc_system v)) p val in
    Ret (set_sc_args (set_sc_system v (set_process_memory (sc_system v) m)) args, Next ()).

(** [args.arg::<*mut c_char>()], or null; and a character behind such a pointer. *)
Definition char_arg (suppressed : bool) : Scanner Z := fun v =>
  if suppressed then Ret (v, Next 0)
  else let! (p, args) := next_arg (sc_args v) in Ret (set_sc_args v args, Next p).
Definition store_char (suppressed : bool) (p i : Z) (c : Z) : Scanner unit := fun v =>
  if suppressed then Ret (v, Next ())
  else
    let! m := write_le 1 (process_memory (sc_system v)) (ptr_add p i) (char_byte c) in
    Ret (set_sc_system v (set_process_memory (sc_system v) m), Next ()).
Definition store_stream_char (suppressed : bool) (p i : Z) : Scanner unit :=
  scan! c := sc_char in store_char suppressed p i c.

(** [if let Some(val) = arguments_assigned { Some(val+1) } else { Some(1) }]. *)
Definition count_argument : Scanner unit := fun v =>
  Ret (set_assigned v (Some (match arguments_assigned v with Some val => to_c_int (val + 1) | None => 1 end)), Next ()).

(** The end of the numeric conversions: without a digit the function returns. *)
Definition assign_number (suppressed : bool) (sign : ParsedSign) (parsed_n : option Z) : Scanner unit :=
  match parsed_n with
  | None => sc_leave 0
  | Some val =>
      let val := match sign with NEGATIVE => to_c_int (- val) | POSITIVE => val end in
      scan! _ := store_arg suppressed 4 (wrap 32 val) in
      count_argument
  end.

(** ** Conversions

    Each says whether the stream is to be advanced afterwards. *)

Fixpoint read_chars (suppressed : bool) (f c i : Z) (n : nat) : Scanner unit :=
  match n with
  | O => sc_ret ()
  | Datatypes.S n =>
      scan! _ := next_char f in
      scan! _ := store_stream_char suppressed c i in
      read_chars suppressed f c (i + 1) n
  end.

Definition scan_character (f : Z) (suppressed : bool) (width : Amount) : Scanner bool :=
  scan! c := char_arg suppressed in
  scan! _ := store_stream_char suppressed c 0 in
  scan! _ := match width with Number len => read_chars suppressed f c 1 (Z.to_nat (len - 1)) | _ => sc_ret () end in
  scan! _ := count_argument in
  sc_ret true.

(** [for _ in 1..len]: the position after the last character, and whether a space was
    found. *)
Fixpoint read_word (suppressed : bool) (f p s_pos : Z) (n : nat) : Scanner (Z * bool) :=
  match n with
  | O => sc_ret (s_pos, false)
  | Datatypes.S n =>
      scan! _ := next_char f in
      scan! c := sc_char in
      if isspace c =? 0 then
        scan! _ := store_char suppressed p s_pos c in
        read_word suppressed f p (wrap 64 (s_pos + 1)) n
      else sc_ret (s_pos, true)
  end.

(** [while isspace(stream_char) == 0]. *)
Fixpoint read_until_space (fuel : nat) (suppressed : bool) (f p s_pos : Z) : Scanner Z :=
  match fuel with
  | O => sc_unfinished
  | Datatypes.S fuel =>
      scan! c := sc_char in
      if isspace c =? 0 then
        scan! _ := store_char suppressed p s_pos c in
        scan! _ := next_char f in
        read_until_space fuel suppressed f p (wrap 64 (s_pos + 1))
      else sc_ret s_pos
  end.

(** The characters of the string: the position after them, and whether the stream is to
    be advanced. *)
Definition string_chars (fuel : nat) (f : Z) (suppressed : bool) (p : Z) (width : Amount) : Scanner (Z * bool) :=
  match width with
  | Number len =>
      scan! _ := store_stream_char suppressed p 0 in
      scan! (s_pos, found_space) := read_word suppressed f p 1 (Z.to_nat (len - 1)) in
      sc_ret (s_pos, negb found_space)
  | _ => scan! s_pos := read_until_space fuel suppressed f p 0 in sc_ret (s_pos, false)
  end.

Definition scan_string (fuel : nat) (f : Z) (suppressed : bool) (width : Amount) : Scanner bool :=
  scan! _ := skip_space fuel f in
  scan! p := char_arg suppressed in
  scan! (s_pos, advance) := string_chars fuel f suppressed p width in
  scan! _ := store_char suppressed p s_pos 0 in
  scan! _ := count_argument in
  sc_ret advance.

(** [%d] and [%u]. *)
Definition scan_decimal (fuel : nat) (f : Z) (suppressed : bool) : Scanner bool :=
  scan! _ := skip_space fuel f in
  scan! number_sign := parse_sign f in
  scan! parsed_n := parse_digits fuel f decimal_char to_c_int 10 None in
  scan! _ := assign_number suppressed number_sign parsed_n in
  sc_ret false.

(** [%i]: a leading 0 marks base 8, 0x base 16. *)
Definition parse_base (f : Z) : Scanner ParsedBase :=
  scan! c := sc_char in
  if c =? 48 then
    scan! _ := next_char f in
    scan! c := sc_char in
    if (c =? 120) || (c =? 88) then scan! _ := next_char f in sc_ret BASE16
    else sc_ret BASE8
  else sc_ret BASE10.

Definition scan_integer (fuel : nat) (f : Z) (suppressed : bool) : Scanner bool :=
  scan! _ := skip_space fuel f in
  scan! number_sign := parse_sign f in
  scan! number_base := parse_base f in
  scan! parsed_n :=
    match number_base with
    | BASE10 => parse_digits fuel f decimal_char to_c_int 10 None
    | BASE8 => parse_digits fuel f octal_char to_c_int 8 None
    | BASE16 => parse_digits fuel f hex_char to_c_int 16 None
    end in
  scan! _ := assign_number suppressed number_sign parsed_n in
  sc_ret false.

Definition scan_octal (fuel : nat) (f : Z) (suppressed : bool) : Scanner bool :=
  scan! _ := skip_space fuel f in
  scan! number_sign := parse_sign f in
  scan! c := sc_char in
  scan! _ := if c =? 48 then next_char f else sc_ret () in
  scan! parsed_n := parse_digits fuel f octal_char to_c_int 8 None in
  scan! _ := assign_number suppressed number_sign parsed_n in
  sc_ret false.

(** The mark 0x, after its 0 was seen: another character ends the function. *)
Definition after_zero (f : Z) : Scanner unit :=
  scan! _ := next_char f in
  scan! c := sc_char in
  if (c =? 120) || (c =? 88) then next_char f else sc_leave 0.

Definition scan_pointer (fuel : nat) (f : Z) (suppressed : bool) : Scanner bool :=
  scan! _ := skip_space fuel f in
  scan! c := sc_char in
  scan! _ := if c =? 48 then after_zero f else sc_leave 0 in
  scan! parsed_n := parse_digits fuel f hex_char (wrap 64) 16 None in
  match parsed_n with
  | None => sc_leave 0
  | Some val =>
      scan! _ := store_arg suppressed 8 val in
      scan! _ := count_argument in
      sc_ret false
  end.

Definition scan_hex (fuel : nat) (f : Z) (suppressed : bool) : Scanner bool :=
  scan! _ := skip_space fuel f in
  scan! number_sign := parse_sign f in
  scan! c := sc_char in
  scan! _ := if c =? 48 then after_zero f else sc_ret () in
  scan! parsed_n := parse_digits fuel f hex_char to_c_int 16 None in
  scan! _ := assign_number suppressed number_sign parsed_n in
  sc_ret false.

Definition scan_escape : Scanner bool :=
  scan! c := sc_char in if c =? 37 then sc_ret true else sc_leave 0.

Definition scan_meta (suppressed : bool) : Scanner bool := fun v =>
  sc_bind (store_arg suppressed 4 (wrap 32 (characters_read v))) (fun _ => sc_ret false) v.

Definition execute_scan (fuel : nat) (f : Z) (specification : ScanfConversionSpecification) : Scanner bool :=
  let suppressed := sf_assignment_suppression specification in
  match sf_specifier specification with
  | Escape => scan_escape
  | Character => scan_character f suppressed (sf_width specification)
  | SString => scan_string fuel f suppressed (sf_width specification)
  | SignedDecimalInteger | UnsignedDecimalInteger => scan_decimal fuel f suppressed
  | SignedInteger => scan_integer fuel f suppressed
  | UnsignedOctalInteger => scan_octal fuel f suppressed
  | Pointer => scan_pointer fuel f suppressed
  | UnsignedHexIntegerLowerCase | UnsignedHexIntegerUpperCase => scan_hex fuel f suppressed
  | SMeta => scan_meta suppressed
  | _ => fun _ => Panic
  end.

(** ** The loop over the format *)

(** One character of the format outside a specification: whether a specification
    begins, and whether the stream is advanced. *)
Definition scan_format_char (fuel : nat) (f format_char : Z) : Scanner (bool * bool) :=
  if negb (isspace format_char =? 0) then scan! _ := skip_space fuel f in sc_ret (false, false)
  else if negb (format_char =? 37) then
    scan! c := sc_char in
    if c =? format_char then sc_ret (false, true) else sc_leave EOF
  else sc_ret (true, false).

Definition advance_stream (f : Z) (should_advance_stream : bool) : Scanner unit :=
  if should_advance_stream then read_stream_char f else sc_ret ().

(** [spec] is the specification under construction, None outside of one. *)
Fixpoint vfscanf_loop (fuel : nat) (f format_str : Z) (spec : option UnfinishedScanfConversionSpecification) (i : Z) (n : nat)
  : Scanner unit :=
  match n with
  | O => sc_ret ()
  | Datatypes.S n => fun v =>
      let! format_char := read_le 1 (process_memory (sc_system v)) (ptr_add format_str i) in
      match spec with
      | None =>
          sc_bind (scan_format_char fuel f format_char) (fun r =>
            scan! _ := advance_stream f r.2 in
            vfscanf_loop fuel f format_str (if r.1 then Some scanf_default else None) (i + 1) n) v
      | Some u =>
          match add_char_to_scanf_specification u format_char with
          | inr u => vfscanf_loop fuel f format_str (Some u) (i + 1) n v
          | inl specification =>
              sc_bind (execute_scan fuel f specification) (fun should_advance_stream =>
                scan! _ := advance_stream f should_advance_stream in
                vfscanf_loop fuel f format_str None (i + 1) n) v
          end
      end
  end.

(** The result; None when the function has not returned. *)
Definition scan_result v (r : Flow unit) : option Z :=
  match r with
  | Next _ => Some (default EOF (arguments_assigned v))
  | Return r => Some r
  | Unfinished => None
  end.

Definition vfscanf (fuel : nat) s (f format_str : Z) (args : list Z) : outcome (S * option Z) :=
  let! format_str_len := strlen (process_memory s) format_str in
  let! (v, r) :=
    sc_bind (next_char f) (fun _ => vfscanf_loop fuel f format_str None 0 (Z.to_nat format_str_len))
      (MkScan s 0 0 args None) in
  Ret (sc_system v, scan_result v r).

(** * Plain input *)

(** [read(fd, p, n)] with a pointer into memory. *)
Definition read_mem s (fd p n : Z) : outcome (S * option Z) :=
  let! buf := try_as_mut (MkPtr p) (process_memory s) (Z.to_nat n) in
  match buf with
  | None => Ret (s, Some (-1))
  | Some buf =>
      let! (s, r) := sys_read s fd n in
      match r with
      | None => Ret (s, None)
      | Some (bytes, res) =>
          let! m := fill_buf (process_memory s) buf 0 bytes in
          Ret (set_process_memory s m, Some res)
      end
  end.

(** The loop ends at the end of the input, at a newline, which is overwritten, or when
    [count - 1] characters were read; [count] is a [c_int] taken as a usize. *)
Fixpoint fgets_loop (fuel : nat) s (str count file i : Z) : outcome (S * option Z) :=
  match fuel with
  | O => Ret (s, None)
  | Datatypes.S fuel =>
      let! fd := fileno s file in
      let! (s, res) := read_mem s fd (ptr_add str i) 1 in
      let terminate s i :=
        let! m := write_le 1 (process_memory s) (ptr_add str i) 0 in Ret (set_process_memory s m, Some str) in
      match res with
      | None => Ret (s, None)
      | Some res =>
          if res =? 0 then terminate s i
          else if res <? 0 then Ret (s, Some 0)
          else
            let! c := read_le 1 (process_memory s) (ptr_add str i) in
            if c =? 10 then terminate s i
            else
              let i := wrap 64 (i + 1) in
              if i >=? wrap 64 (wrap 64 count - 1) then terminate s i
              else fgets_loop fuel s str count file i
      end
  end.
Definition fgets (fuel : nat) s (str count file : Z) : outcome (S * option Z) := fgets_loop fuel s str count file 0.

Definition fread s (buf size count f : Z) : outcome (S * option Z) :=
  let bytes := wrap 64 (size * count) in
  if bytes =? 0 then Ret (s, Some 0)
  else
    let! fd := fileno s f in
    let! (s, res) := read_mem s fd buf bytes in
    match res with
    | None => Ret (s, None)
    | Some res => if res <? 0 then Ret (s, Some 0) else let! q := div_chk res size in Ret (s, Some q)
    end.

(** The character is a [c_char], which is signed. *)
Definition fgetc s (f : Z) : outcome (S * option Z) :=
  let! fd := fileno s f in
  let! (s, r) := sys_read s fd 1 in
  match r with
  | None => Ret (s, None)
  | Some (bytes, bytes_read) =>
      if bytes_read <=? 0 then Ret (s, Some (-1)) else Ret (s, Some (as_char (default 0 (head bytes))))
  end.

End Scanf.

Notation "'scan!' x ':=' m 'in' k" := (sc_bind m (fun x => k))
  (at level 10, x pattern, m at level 100, k at level 200) : rust_scope.

(** * Files *)

Definition O_RDWR : Z := Z.lor O_RDONLY O_WRONLY.
Definition size_of_FILE : Z := 4.

(** The flags of a mode: its first character, and whether a plus follows. *)
Definition mode_flags (mode : str) : option Z :=
  match mode !! 0%nat, bool_decide (mode !! 1%nat = Some 43) with
  | Some 114, false => Some O_RDONLY
  | Some 119, false => Some (Z.lor (Z.lor O_WRONLY O_CREAT) O_TRUNC)
  | Some 97, false => Some (Z.lor (Z.lor O_WRONLY O_APPEND) O_CREAT)
  | Some 114, true => Some O_RDWR
  | Some 119, true => Some (Z.lor (Z.lor O_RDWR O_CREAT) O_TRUNC)
  | Some 97, true => Some (Z.lor (Z.lor O_RDWR O_APPEND) O_CREAT)
  | _, _ => None
  end.

Section Files.
Context {S : Type} {LS : LibcSystem S} {LF : LibcFiles S}.
Implicit Types s : S.

Definition fopen s (filename mode : Z) : outcome (S * Z) :=
  let! n := strlen (process_memory s) mode in
  let! bytes := try_as_ref (MkPtr mode) (process_memory s) (Z.to_nat n) in
  let! bytes := unwrap bytes in
  match from_utf8 bytes with
  | None => Ret (s, 0)
  | Some mode =>
      match mode_flags mode with
      | None => Ret (s, 0)
      | Some flags =>
          let! (s, fd) := sys_open s filename flags in
          if fd <? 0 then Ret (s, 0)
          else
            let! (s, file_ptr) := sys_malloc s size_of_FILE in
            if file_ptr =? 0 then Ret (s, 0)
            else
              let! m := write_le 4 (process_memory s) file_ptr (wrap 32 fd) in
              Ret (set_process_memory s m, file_ptr)
      end
  end.

Definition fclose s (f : Z) : outcome (S * Z) :=
  let! fd := fileno s f in
  let! (s, res) := sys_close s fd in
  if res <? 0 then Ret (s, -1)
  else let! s := sys_free s f in Ret (s, 0).

Definition fseek s (f offset origin : Z) : outcome (S * Z) :=
  let! fd := fileno s f in
  let! (s, pos) := sys_lseek s fd offset origin in
  Ret (s, if pos >? 0 then 0 else -1).

Definition chdir s (path : Z) : outcome (S * Z) :=
  let! (s, fd) := sys_open s path O_RDONLY in
  if fd <? 0 then Ret (s, -1)
  else
    let! (s, res) := sys_fchdir s fd in
    let! (s, _) := sys_close s fd in
    Ret (s, if res <? 0 then -1 else 0).

End Files.
