(* ===== verification/ScanfSpec.v ===== *)
(** What vfscanf reads: a specification of scanning on the list of the characters to
    come, and that the parts of the function compute it. *)
From S2P Require Import Prelude MachineInt Str EmulatorMemory VirtMem CMem CStr Specifier Printf PrintfTheorems Kernel FileCalls Scanf.
From stdpp Require Import list.
#[local] Open Scope Z_scope.

(** * The characters to come

    The head is the character in [stream_char].  It stays when there are no more. *)

Definition advance (l : list Z) : list Z := match l with _ :: (_ :: _) as l' => l' | _ => l end.
Definition current (l : list Z) : Z := default 0 (head l).

(** The longest run of characters with a property, and what follows; None when nothing
    does. *)
Fixpoint run (p : Z -> bool) (l : list Z) : option (list Z * list Z) :=
  match l with
  | [] => None
  | c :: t => if p c then (fun r => (c :: r.1, r.2)) <$> run p t else Some ([], l)
  end.

Definition space (c : Z) : bool := negb (isspace c =? 0).

(** * Conversions

    The bytes to store and the characters left, and whether the character in
    [stream_char] is used up; [inl] for a failure. *)
Abbreviation Conversion := (list Z + list Z * list Z * bool)%type.

Definition sign_of (l : list Z) : ParsedSign * list Z :=
  if (current l =? 43) || (current l =? 45) then (if current l =? 43 then POSITIVE else NEGATIVE, advance l) else (POSITIVE, l).

(** The number a row of digits denotes. *)
Definition digits_value (base : Z) (ds : list Z) : Z := fold_left (fun acc c => acc * base + digit_value c) ds 0.
Definition signed_value (sign : ParsedSign) (n : Z) : Z := match sign with NEGATIVE => - n | POSITIVE => n end.

Definition number_spec (accepts : Z -> bool) (base : Z) (w : nat) (sign : ParsedSign) (l : list Z) : option Conversion :=
  (fun r : list Z * list Z =>
     match r.1 with
     | [] => inl r.2
     | ds => inr (to_le_bytes w (wrap (8 * Z.of_nat w) (signed_value sign (digits_value base ds))), r.2, false)
     end) <$> run accepts l.

Definition marks_hex (l : list Z) : bool := (current l =? 120) || (current l =? 88).

Definition decimal_spec (l : list Z) : option Conversion :=
  let '(sign, l) := sign_of l in number_spec decimal_char 10 4 sign l.
Definition integer_spec (l : list Z) : option Conversion :=
  let '(sign, l) := sign_of l in
  if current l =? 48 then
    if marks_hex (advance l) then number_spec hex_char 16 4 sign (advance (advance l))
    else number_spec octal_char 8 4 sign (advance l)
  else number_spec decimal_char 10 4 sign l.
Definition octal_spec (l : list Z) : option Conversion :=
  let '(sign, l) := sign_of l in number_spec octal_char 8 4 sign (if current l =? 48 then advance l else l).
Definition hex_spec (l : list Z) : option Conversion :=
  let '(sign, l) := sign_of l in
  if current l =? 48 then
    if marks_hex (advance l) then number_spec hex_char 16 4 sign (advance (advance l)) else Some (inl (advance l))
  else number_spec hex_char 16 4 sign l.
Definition pointer_spec (l : list Z) : option Conversion :=
  if current l =? 48 then
    if marks_hex (advance l) then number_spec hex_char 16 8 POSITIVE (advance (advance l)) else Some (inl (advance l))
  else Some (inl l).

(** [n] further characters, and a word of at most [n] further ones. *)
Fixpoint chars_spec (n : nat) (l : list Z) : list Z * list Z :=
  match n with
  | O => ([], l)
  | S n => let l := advance l in let r := chars_spec n l in (current l :: r.1, r.2)
  end.
Fixpoint word_spec (n : nat) (l : list Z) : list Z * list Z * bool :=
  match n with
  | O => ([], l, true)
  | S n =>
      let l := advance l in
      if space (current l) then ([], l, false) else let '(w, r, a) := word_spec n l in (current l :: w, r, a)
  end.

Definition character_spec (width : Amount) (l : list Z) : Conversion :=
  let r := chars_spec (match width with Number len => Z.to_nat (len - 1) | _ => O end) l in
  inr (current l :: r.1, r.2, true).

Definition string_spec (width : Amount) (l : list Z) : option Conversion :=
  match width with
  | Number len => let '(w, r, a) := word_spec (Z.to_nat (len - 1)) l in Some (inr (current l :: w ++ [0], r, a))
  | _ => (fun r : list Z * list Z => inr (r.1 ++ [0], r.2, false)) <$> run (fun c => negb (space c)) l
  end.

(** A conversion that assigns; every one but [%c] skips white space first. *)
Definition after_space (f : list Z -> option Conversion) (l : list Z) : option Conversion := r ← run space l; f r.2.
Definition assigning_spec (sp : ScanfConversionSpecification) (l : list Z) : option Conversion :=
  match sf_specifier sp with
  | Character => Some (character_spec (sf_width sp) l)
  | SString => after_space (string_spec (sf_width sp)) l
  | SignedDecimalInteger | UnsignedDecimalInteger => after_space decimal_spec l
  | SignedInteger => after_space integer_spec l
  | UnsignedOctalInteger => after_space octal_spec l
  | Pointer => after_space pointer_spec l
  | UnsignedHexIntegerLowerCase | UnsignedHexIntegerUpperCase => after_space hex_spec l
  | _ => None
  end.

(** * Formats *)

Inductive scan_item :=
| Blank (c : Z)
| Same (c : Z)
| Directive (text : list Z) (sp : ScanfConversionSpecification).

(** The specification a text is, when it is complete with the last character. *)
Fixpoint parse_scanf (u : UnfinishedScanfConversionSpecification) (text : list Z) : option ScanfConversionSpecification :=
  match text with
  | [] => None
  | c :: text =>
      match add_char_to_scanf_specification u c with
      | inl sp => match text with [] => Some sp | _ => None end
      | inr u => parse_scanf u text
      end
  end.

Definition scan_text (it : scan_item) : list Z :=
  match it with Blank c | Same c => [c] | Directive text _ => 37 :: text end.
Definition scan_item_ok (it : scan_item) : Prop :=
  match it with
  | Blank c => space c = true
  | Same c => space c = false /\ c <> 37
  | Directive text sp => parse_scanf scanf_default text = Some sp
  end.

(** What is stored where, the result, and the characters left; None when the
    characters do not suffice, for %n, and for the conversions that are not implemented.
    A suppressed conversion counts, and without anything counted a mismatch gives EOF at
    an ordinary character and 0 elsewhere. *)
Fixpoint scan_items (items : list scan_item) (l args : list Z) (assigned : option Z) : option (list (Z * list Z) * Z * list Z) :=
  match items with
  | [] => Some ([], default EOF assigned, l)
  | Blank _ :: items => r ← run space l; scan_items items r.2 args assigned
  | Same c :: items =>
      if current l =? c then scan_items items (advance l) args assigned else Some ([], default EOF assigned, l)
  | Directive _ sp :: items =>
      if decide (sf_specifier sp = Escape) then
        if current l =? 37 then scan_items items (advance l) args assigned else Some ([], default 0 assigned, l)
      else
        conv ← assigning_spec sp l;
        match conv with
        | inl rest => Some ([], default 0 assigned, rest)
        | inr (bytes, rest, used) =>
            let rest := if used : bool then advance rest else rest in
            let assigned := Some (default 0 assigned + 1) in
            if sf_assignment_suppression sp then scan_items items rest args assigned
            else
              match args with
              | [] => None
              | p :: args => (fun r => ((p, bytes) :: r.1.1, r.1.2, r.2)) <$> scan_items items rest args assigned
              end
        end
  end.

(** Storing at several places, one after the other. *)
Fixpoint stored_all (m : memory_) (stores : list (Z * list Z)) (m' : memory_) : Prop :=
  match stores with
  | [] => m' = m
  | (p, bs) :: stores => exists m1, stored m p bs m1 /\ stored_all m1 stores m'
  end.

(** * The interface *)

(** What the library relies on: an input that has ended somewhere ([pending] is what is
    still to be read) delivers its bytes in order and then reports its end; reading and
    storing are independent. *)
Class LibcInputOk (S : Type) {LS : LibcSystem S} {LI : LibcInput S} := {
  pending : S -> Z -> option (list Z);
  sys_read_ok : forall s fd n bs, pending s fd = Some bs -> 0 < n < 2 ^ 31 ->
    exists s', sys_read s fd n = Ret (s', Some (take (Z.to_nat n) bs, Z.of_nat (length (take (Z.to_nat n) bs)))) /\
      pending s' fd = Some (drop (Z.to_nat n) bs) /\ process_memory s' = process_memory s;
  pending_set_memory : forall s m fd, pending (set_process_memory s m) fd = pending s fd;
  memory_set_memory : forall s m, process_memory (set_process_memory s m) = m;
}.

(** Lists of characters. *)
Lemma run_split p l ds r : run p l = Some (ds, r) -> l = ds ++ r /\ Forall (fun c => p c = true) ds /\ r <> [] /\ p (current r) = false.
Proof.
  revert ds r. induction l as [|c t IH]; intros ds r E; [done|]. simpl in E. destruct (p c) eqn:Ep.
  - apply fmap_Some in E as ([ds' r'] & E & [= -> ->]). destruct (IH _ _ E) as (-> & Hf & Hr). split; [done|]. by split; [constructor|].
  - injection E as <- <-. split; [done|]. by split; [constructor|].
Qed.

Lemma run_app p ds c r : Forall (fun c => p c = true) ds -> p c = false -> run p (ds ++ c :: r) = Some (ds, c :: r).
Proof. intros Hd Hc. induction Hd as [|d ds Hd _ IH]; simpl; [by rewrite Hc|]. by rewrite Hd, IH. Qed.

Lemma run_all p ds : Forall (fun c => p c = true) ds -> run p ds = None.
Proof. intros Hd. induction Hd as [|d ds Hd _ IH]; simpl; [done|]. by rewrite Hd, IH. Qed.

Lemma advance_length l : (length (advance l) <= length l)%nat.
Proof. destruct l as [|? [|??]]; simpl; lia. Qed.

Lemma digit_small c : hex_char c = true -> in_u 64 (digit_value c).
Proof.
  unfold hex_char, decimal_char, digit_value, in_u. intros H. rewrite !orb_true_iff, !andb_true_iff, !Z.leb_le, Z.eqb_eq in H.
  destruct (Z.ltb_spec c 58), (Z.ltb_spec c 97); lia.
Qed.

(** What is left is the end of what there was. *)
Definition conv_rest (r : Conversion) : list Z := match r with inl rest => rest | inr (_, rest, _) => rest end.

Lemma advance_suffix l l' : l `suffix_of` l' -> advance l `suffix_of` l'.
Proof. intros H. destruct l as [|? [|??]]; [done|done|]. by apply suffix_cons_l in H. Qed.
Lemma run_suffix p l r l' : run p l = Some r -> l `suffix_of` l' -> r.2 `suffix_of` l'.
Proof. destruct r as [ds r]. intros E H. apply run_split in E as (-> & _). by apply suffix_app_l in H. Qed.
Lemma number_spec_suffix accepts base w sign l r l' : number_spec accepts base w sign l = Some r -> l `suffix_of` l' -> conv_rest r `suffix_of` l'.
Proof. intros E H. apply fmap_Some in E as (x & E & ->). apply (run_suffix _ _ _ _ E) in H. by destruct x as [[|??] ?]. Qed.
Lemma sign_of_suffix l l' : l `suffix_of` l' -> (sign_of l).2 `suffix_of` l'.
Proof. intros H. unfold sign_of. case_match; [by apply advance_suffix|done]. Qed.
Lemma chars_spec_suffix n l l' : l `suffix_of` l' -> (chars_spec n l).2 `suffix_of` l'.
Proof. revert l. induction n as [|n IH]; intros l H; [done|]. simpl. by apply IH, advance_suffix. Qed.
Lemma word_spec_suffix n l l' : l `suffix_of` l' -> (word_spec n l).1.2 `suffix_of` l'.
Proof.
  revert l. induction n as [|n IH]; intros l H; [done|]. simpl. apply advance_suffix in H. case_match; [done|].
  specialize (IH _ H). by destruct (word_spec n (advance l)) as [[??]?].
Qed.

Create HintDb suffix.
#[local] Hint Resolve advance_suffix sign_of_suffix chars_spec_suffix number_spec_suffix : suffix.
Lemma assigning_spec_suffix sp l r : assigning_spec sp l = Some r -> conv_rest r `suffix_of` l.
Proof.
  assert (forall (g : list Z -> option Conversion), (forall l0 r0, g l0 = Some r0 -> l0 `suffix_of` l -> conv_rest r0 `suffix_of` l) ->
    after_space g l = Some r -> conv_rest r `suffix_of` l) as Hafter.
  { intros g Hg E. apply bind_Some in E as (x & E1 & E2). apply (Hg _ _ E2). by eapply run_suffix. }
  assert (forall l0 : list Z, exists sg l1, sign_of l0 = (sg, l1) /\ (l0 `suffix_of` l -> l1 `suffix_of` l)) as Hsign.
  { intros l0. destruct (sign_of l0) as [sg l1] eqn:Es. exists sg, l1. split; [done|]. intros H. apply sign_of_suffix in H. by rewrite Es in H. }
  unfold assigning_spec. destruct (sf_specifier sp); try discriminate; try (apply Hafter; clear Hafter; intros l0 r0 E0 H0);
    try (unfold integer_spec, decimal_spec, octal_spec, hex_spec in E0; destruct (Hsign l0) as (sg & l1 & Es & H1); rewrite Es in E0;
      repeat case_match; simplify_eq/=; eauto 6 with suffix; fail).
  - intros [= <-]. unfold character_spec. simpl. by apply chars_spec_suffix.
  - unfold string_spec in E0. destruct (sf_width sp) as [len| |].
    + pose proof (word_spec_suffix (Z.to_nat (len - 1)) l0 l H0) as Hw. destruct (word_spec _ l0) as [[??]?]. by injection E0 as <-.
    + apply fmap_Some in E0 as (x & E & ->). exact (run_suffix _ _ _ _ E H0).
    + apply fmap_Some in E0 as (x & E & ->). exact (run_suffix _ _ _ _ E H0).
  - unfold pointer_spec in E0. repeat case_match; simplify_eq/=; eauto 6 with suffix.
Qed.

Section Reading.
Context {S : Type} {LS : LibcSystem S} {LI : LibcInput S} {LOk : LibcInputOk S}.
Implicit Types (s : S) (v : Scan (S := S)).

(** The call: the file, its descriptor, and the format. *)
Context (f fd fmt : Z) (text : list Z).
Hypothesis fd_range : - 2 ^ 31 <= fd < 2 ^ 31.

(** The state of a call without the system behind it: the characters to come, the
    memory, the arguments left and the number of assignments. *)
Record View := MkView { vw_in : list Z; vw_mem : memory_; vw_args : list Z; vw_assigned : option Z }.

Record viewed v (w : View) : Prop := {
  vd_mem : process_memory (sc_system v) = vw_mem w;
  vd_wf : vm_wf (vw_mem w);
  vd_fmt : bytes_at (vw_mem w) fmt (text ++ [0]);
  vd_file : bytes_at (vw_mem w) f (to_le_bytes 4 (wrap 32 fd));
  vd_in : exists rest, vw_in w = stream_char v :: rest /\ pending (sc_system v) fd = Some rest;
  vd_args : sc_args v = vw_args w;
  vd_assigned : arguments_assigned v = vw_assigned w;
}.

(** A part goes on with a value, or makes the function return. *)
Definition does {A} (m : Scanner (S := S) A) (w : View) (a : A) (w' : View) : Prop :=
  forall v, viewed v w -> exists v', m v = Ret (v', Next a) /\ viewed v' w'.
Definition leaves {A} (m : Scanner (S := S) A) (w : View) (r : Z) (w' : View) : Prop :=
  forall v, viewed v w -> exists v', m v = Ret (v', Return r) /\ viewed v' w'.

Lemma does_bind {A B} (m : Scanner A) (k : A -> Scanner B) w a w1 b w2 :
  does m w a w1 -> does (k a) w1 b w2 -> does (sc_bind m k) w b w2.
Proof. intros Hm Hk v Hv. destruct (Hm v Hv) as (v1 & E & H1). unfold sc_bind. rewrite E. by apply Hk. Qed.
Lemma leaves_bind {A B} (m : Scanner A) (k : A -> Scanner B) w a w1 r w2 :
  does m w a w1 -> leaves (k a) w1 r w2 -> leaves (sc_bind m k) w r w2.
Proof. intros Hm Hk v Hv. destruct (Hm v Hv) as (v1 & E & H1). unfold sc_bind. rewrite E. by apply Hk. Qed.
Lemma leaves_bind_now {A B} (m : Scanner A) (k : A -> Scanner B) w r w1 : leaves m w r w1 -> leaves (sc_bind m k) w r w1.
Proof. intros Hm v Hv. destruct (Hm v Hv) as (v1 & E & H1). unfold sc_bind. rewrite E. by exists v1. Qed.

Lemma does_ret {A} (a : A) w : does (sc_ret a) w a w.
Proof. intros v Hv. by exists v. Qed.
Lemma does_lift {A} (e : outcome A) a w : e = Ret a -> does (sc_lift e) w a w.
Proof. intros E v Hv. unfold sc_lift. rewrite E. by exists v. Qed.
Lemma does_char w : does sc_char w (current (vw_in w)) w.
Proof. intros v Hv. exists v. destruct (vd_in _ _ Hv) as (rest & E & _). rewrite E. done. Qed.
Lemma leaves_leave {A} r w : leaves (A := A) (sc_leave r) w (default r (vw_assigned w)) w.
Proof. intros v Hv. exists v. unfold sc_leave. by rewrite (vd_assigned _ _ Hv). Qed.
Lemma does_count l m args a : (forall n, a = Some n -> n + 1 < 2 ^ 31 /\ 0 <= n) ->
  does count_argument (MkView l m args a) () (MkView l m args (Some (default 0 a + 1))).
Proof.
  intros Hn v [H1 H2 H3 H4 H5 H6 H7]. eexists. split; [reflexivity|]. split; try done. simpl in *. rewrite H7.
  destruct a as [n|]; [|done]. f_equal. destruct (Hn n eq_refl). apply to_signed_wrap; simpl; lia.
Qed.

Lemma file_at_bytes m : vm_wf m -> bytes_at m f (to_le_bytes 4 (wrap 32 fd)) -> file_at m f fd.
Proof.
  intros Hm Hb. split; [|done]. destruct (read_at m f _ Hm Hb) as (x & E & Eb & Hu); [by rewrite length_to_le_bytes; lia|].
  rewrite length_to_le_bytes in *. rewrite E. f_equal. eapply (to_le_bytes_inj 4); [exact Hu|apply in_u_wrap; lia|exact Eb].
Qed.

(** Reading a character. *)
Lemma does_read l m args a : does (read_stream_char f) (MkView l m args a) () (MkView (advance l) m args a).
Proof.
  intros v [H1 H2 H3 H4 (rest & E & Hp) H6 H7]. simpl in *. unfold read_stream_char.
  rewrite (fileno_at _ _ fd); [|rewrite H1; by apply file_at_bytes]. cbn [obind].
  destruct (sys_read_ok _ fd 1 rest Hp ltac:(lia)) as (s' & -> & Hp' & Hm). cbn [obind]. change (Z.to_nat 1) with 1%nat in *.
  rewrite (proj2 (Z.ltb_ge _ 0)) by lia. eexists. split; [reflexivity|]. split; try done; simpl; [by rewrite Hm|].
  subst l. destruct rest as [|c rest]; simpl in *; eexists; split; try done; by rewrite Hp', ?drop_0.
Qed.

Lemma does_next l m args a : does (next_char f) (MkView l m args a) () (MkView (advance l) m args a).
Proof.
  eapply does_bind; [apply does_read|]. intros v [H1 H2 H3 H4 H5 H6 H7]. eexists. split; [reflexivity|]. by split.
Qed.

(** Loops that only read. *)
Lemma run_step p c t ds r : run p (c :: t) = Some (ds, r) -> p c = true -> exists ds', ds = c :: ds' /\ run p t = Some (ds', r) /\ advance (c :: t) = t.
Proof.
  intros E Hp. simpl in E. rewrite Hp in E. apply fmap_Some in E as ([ds' r'] & E & [= -> ->]). exists ds'. split; [done|]. split; [done|].
  by destruct t.
Qed.

Lemma does_skip fuel l ds r m args a : run space l = Some (ds, r) -> (length l <= fuel)%nat ->
  does (skip_space fuel f) (MkView l m args a) () (MkView r m args a).
Proof.
  revert fuel ds. induction l as [|c t IH]; intros [|fuel] ds E Hf; [done|done|simpl in Hf; lia|]. cbn [skip_space].
  eapply does_bind; [apply does_char|]. cbn [vw_in]. change (current (c :: t)) with c. destruct (space c) eqn:Es.
  - apply run_step in E as (ds' & -> & E & Ha); [|done]. unfold space in Es. apply negb_true_iff in Es. rewrite Es.
    eapply does_bind; [apply does_next|]. rewrite Ha. eapply IH; [exact E|simpl in Hf; lia].
  - simpl in E. rewrite Es in E. injection E as <- <-. unfold space in Es. apply negb_false_iff in Es. rewrite Es. apply does_ret.
Qed.

Lemma does_sign l m args a : does (parse_sign f) (MkView l m args a) (sign_of l).1 (MkView (sign_of l).2 m args a).
Proof.
  unfold parse_sign, sign_of. eapply does_bind; [apply does_char|]. cbn [vw_in].
  destruct ((current l =? 43) || (current l =? 45)); [|apply does_ret]. eapply does_bind; [apply does_next|apply does_ret].
Qed.

Definition digits_from (as_type : Z -> Z) (base : Z) (parsed_n : option Z) (ds : list Z) : option Z :=
  fold_left (fun n c => Some (match n with Some val => as_type (val * base + digit_value c) | None => digit_value c end)) ds parsed_n.

Lemma does_digits fuel (accepts : Z -> bool) as_type base l ds r m args a n :
  (forall c, accepts c = true -> char_to_digit c = Some (digit_value c)) -> run accepts l = Some (ds, r) -> (length l <= fuel)%nat ->
  does (parse_digits fuel f accepts as_type base n) (MkView l m args a) (digits_from as_type base n ds) (MkView r m args a).
Proof.
  intros Hacc. revert fuel ds n. induction l as [|c t IH]; intros [|fuel] ds n E Hf; [done|done|simpl in Hf; lia|]. cbn [parse_digits].
  eapply does_bind; [apply does_char|]. cbn [vw_in]. change (current (c :: t)) with c. destruct (accepts c) eqn:Es.
  - apply run_step in E as (ds' & -> & E & Ha); [|done]. eapply does_bind; [apply does_lift; by rewrite (Hacc c Es)|].
    eapply does_bind; [apply does_next|]. rewrite Ha. apply (IH fuel ds'); [exact E|simpl in Hf; lia].
  - simpl in E. rewrite Es in E. injection E as <- <-. apply does_ret.
Qed.

Lemma fold_digits_wrap w base ds x y : wrap w x = wrap w y ->
  wrap w (fold_left (fun acc c => acc * base + digit_value c) ds x) = wrap w (fold_left (fun acc c => acc * base + digit_value c) ds y).
Proof.
  revert x y. induction ds as [|c ds IH]; intros x y Hc; [done|]. cbn [fold_left]. apply IH.
  rewrite <- (wrap_add_l w), <- (wrap_add_l w (y * base)). f_equal. f_equal. by rewrite <- (wrap_mul_l w x), <- (wrap_mul_l w y), Hc.
Qed.

Lemma digits_from_value as_type base w n ds :
  (forall x, wrap w (as_type x) = wrap w x) ->
  exists x, digits_from as_type base (Some n) ds = Some x /\
    wrap w x = wrap w (fold_left (fun acc c => acc * base + digit_value c) ds n).
Proof.
  intros Ht. revert n. induction ds as [|c ds IH]; intros n; [by exists n|].
  destruct (IH (as_type (n * base + digit_value c))) as (x & E & Hx). exists x. split; [exact E|]. rewrite Hx. cbn [fold_left]. apply fold_digits_wrap, Ht.
Qed.

Lemma digits_from_start as_type base w ds :
  (forall x, wrap w (as_type x) = wrap w x) -> ds <> [] ->
  exists x, digits_from as_type base None ds = Some x /\ wrap w x = wrap w (digits_value base ds).
Proof.
  intros Ht Hd. destruct ds as [|c ds]; [done|]. apply (digits_from_value as_type base w (digit_value c) ds Ht).
Qed.

Lemma wrap_to_c_int x : wrap 32 (to_c_int x) = wrap 32 x.
Proof. unfold to_c_int. rewrite wrap_to_signed; [|lia|apply in_u_wrap; lia]. done. Qed.

Lemma accepts_digit c : hex_char c = true -> char_to_digit c = Some (digit_value c).
Proof.
  unfold hex_char, decimal_char. intros H.
  assert (48 <= c <= 57 \/ 97 <= c <= 101 \/ 65 <= c <= 70) as Hc
    by (rewrite !orb_true_iff, !andb_true_iff, !Z.leb_le, Z.eqb_eq in H; lia).
  unfold char_to_digit, digit_value. clear H.
  destruct (Z.leb_spec 48 c), (Z.leb_spec c 57), (Z.ltb_spec c 58); simpl; try lia; try done;
    destruct (Z.leb_spec 97 c), (Z.leb_spec c 102), (Z.ltb_spec c 97); simpl; try lia; try done;
    destruct (Z.leb_spec 65 c), (Z.leb_spec c 70); simpl; try lia; done.
Qed.
Lemma decimal_is_hex c : decimal_char c = true -> hex_char c = true.
Proof. unfold hex_char. by intros ->. Qed.
Lemma octal_is_decimal c : octal_char c = true -> decimal_char c = true.
Proof. unfold octal_char, decimal_char. intros [H1 H2]%andb_true_iff. apply andb_true_iff. split; [done|]. apply Z.leb_le in H2. apply Z.leb_le. lia. Qed.

(** ** Storing *)

(** [n] bytes at [p] that are neither in the format nor in the FILE. *)
Definition apart (p : Z) (n : nat) (q : Z) (k : nat) : Prop := q + Z.of_nat k <= p \/ p + Z.of_nat n <= q.
Definition target (m : memory_) (p : Z) (n : nat) : Prop :=
  room m p n /\ apart p n fmt (length text + 1) /\ apart p n f 4.

(** Nothing is stored when the assignment is suppressed. *)
Definition put (suppressed : bool) (m : memory_) (p : Z) (bs : list Z) (m' : memory_) : Prop :=
  if suppressed then m' = m else stored m p bs m'.
Definition putting (suppressed : bool) (m : memory_) (p : Z) (n : nat) : Prop := suppressed = false -> target m p n.

Lemma put_wf suppressed m p bs m' : vm_wf m -> put suppressed m p bs m' -> vm_wf m'.
Proof. destruct suppressed; [by intros ? ->|by intros ? []]. Qed.
Lemma put_putting suppressed m p bs m' q n : put suppressed m p bs m' -> putting suppressed m q n -> putting suppressed m' q n.
Proof. destruct suppressed; [by intros ->|]. intros [_ _ R] H _. destruct (H eq_refl) as (Hr & Ha). split; [by apply R|done]. Qed.
Lemma put_nil suppressed m p : vm_wf m -> put suppressed m p [] m.
Proof. destruct suppressed; [done|apply stored_nil]. Qed.
Lemma put_app suppressed m p bs1 m1 bs2 m2 :
  put suppressed m p bs1 m1 -> put suppressed m1 (p + Z.of_nat (length bs1)) bs2 m2 -> put suppressed m p (bs1 ++ bs2) m2.
Proof. destruct suppressed; [by intros -> ->|apply stored_app]. Qed.
Lemma put_cons suppressed m p (i : nat) c m1 bs m2 :
  put suppressed m (p + Z.of_nat i) [c] m1 -> put suppressed m1 (p + Z.of_nat (Datatypes.S i)) bs m2 ->
  put suppressed m (p + Z.of_nat i) (c :: bs) m2.
Proof.
  intros H1 H2. change (c :: bs) with ([c] ++ bs). eapply put_app; [exact H1|].
  by replace (p + Z.of_nat i + Z.of_nat (length [c])) with (p + Z.of_nat (Datatypes.S i)) by (simpl; lia).
Qed.

Lemma viewed_store v l m args a p bs m' n (k : nat) :
  viewed v (MkView l m args a) -> target m p n -> stored m (p + Z.of_nat k) bs m' -> (k + length bs <= n)%nat ->
  viewed (set_sc_system v (set_process_memory (sc_system v) m')) (MkView l m' args a).
Proof.
  intros [H1 H2 H3 H4 (rest & E & Hp) H6 H7] (_ & A1 & A2) Hs Hk. cbn [vw_mem vw_in vw_args vw_assigned] in *. split; try done.
  - apply memory_set_memory.
  - apply Hs.
  - eapply stored_elsewhere; [exact Hs|done|]. rewrite length_app. simpl. unfold apart in *. lia.
  - eapply stored_elsewhere; [exact Hs|done|]. rewrite length_to_le_bytes. unfold apart in *. lia.
  - exists rest. cbn. by rewrite pending_set_memory.
Qed.

Lemma does_put_char suppressed m p (i n : nat) z c l args a :
  vm_wf m -> putting suppressed m p n -> (i < n)%nat -> wrap 64 z = Z.of_nat i mod 2 ^ 64 -> is_byte c ->
  exists m', put suppressed m (p + Z.of_nat i) [c] m' /\ does (store_char suppressed p z c) (MkView l m args a) () (MkView l m' args a).
Proof.
  intros Hm Hp Hi Hz Hc. destruct suppressed; [exists m; split; [done|apply does_ret]|]. specialize (Hp eq_refl).
  assert (ptr_add p z = p + Z.of_nat i) as Ea.
  { rewrite <- (ptr_add_in m p n) by (done || apply Hp || lia). unfold ptr_add. by rewrite <- wrap_add_r, Hz, <- (wrap_add_r 64 p (Z.of_nat i)). }
  destruct (write_at m (p + Z.of_nat i) 1 c Hm) as (m' & E & Hs); [eapply room_sub; [apply Hp|lia]|lia|exact Hc|].
  assert (to_le_bytes 1 c = [c]) as Eb by (simpl; rewrite Z.mod_small by exact Hc; done). rewrite Eb in Hs.
  exists m'. split; [done|]. intros v Hv. eexists. split; [|eapply (viewed_store v l m args a p [c] m' n i); [done|done|done|simpl; lia]].
  unfold store_char. rewrite (vd_mem _ _ Hv), Ea. cbn [vw_mem]. unfold char_byte. rewrite wrap_small by exact Hc. by rewrite E.
Qed.

Lemma does_char_arg suppressed l m args p a :
  does (char_arg suppressed) (MkView l m (if suppressed then args else p :: args) a) (if suppressed then 0 else p) (MkView l m args a).
Proof.
  intros v Hv. destruct suppressed; [by exists v|]. destruct Hv as [H1 H2 H3 H4 H5 H6 H7]. unfold char_arg. simpl in H6. rewrite H6. cbn [next_arg obind].
  eexists. split; [reflexivity|]. by split.
Qed.

Lemma does_store_arg suppressed w val l m args p a :
  vm_wf m -> putting suppressed m p w -> (0 < w)%nat -> in_u (8 * Z.of_nat w) val ->
  exists m', put suppressed m p (to_le_bytes w val) m' /\
    does (store_arg suppressed w val) (MkView l m (if suppressed then args else p :: args) a) () (MkView l m' args a).
Proof.
  intros Hm Hp Hw Hv. destruct suppressed; [exists m; split; [done|apply does_ret]|]. specialize (Hp eq_refl).
  destruct (write_at m p w val Hm) as (m' & E & Hs); [apply Hp|lia|done|]. exists m'. split; [done|]. intros v Hvd.
  assert (viewed (set_sc_system v (set_process_memory (sc_system v) m')) (MkView l m' (p :: args) a)) as H.
  { apply (viewed_store v l m (p :: args) a p (to_le_bytes w val) m' w 0 Hvd Hp); [by rewrite Z.add_0_r|rewrite length_to_le_bytes; lia]. }
  unfold store_arg. rewrite (vd_args _ _ Hvd), (vd_mem _ _ Hvd). cbn [vw_args vw_mem next_arg obind]. rewrite E. cbn [obind].
  eexists. split; [reflexivity|]. destruct H as [H1 H2 H3 H4 H5 H6 H7]. by split.
Qed.

(** ** Conversions *)

(** The count of assignments stays an int. *)
Definition countable (a : option Z) : Prop := forall n, a = Some n -> n + 1 < 2 ^ 31 /\ 0 <= n.

(** What a conversion does with its target [p] and the place of the arguments. *)
Definition converts (suppressed : bool) (conv : Scanner (S := S) bool) (l : list Z) (r : Conversion) : Prop :=
  match r with
  | inl rest => forall m args a, leaves conv (MkView l m args a) (default 0 a) (MkView rest m args a)
  | inr (bytes, rest, used) => forall m p args a, vm_wf m -> countable a -> putting suppressed m p (length bytes) ->
      exists m', put suppressed m p bytes m' /\
        does conv (MkView l m (if suppressed then args else p :: args) a) used (MkView rest m' args (Some (default 0 a + 1)))
  end.

Lemma converts_number suppressed fuel accepts as_type base sign l r :
  (forall c, accepts c = true -> hex_char c = true) -> (forall x, wrap 32 (as_type x) = wrap 32 x) ->
  number_spec accepts base 4 sign l = Some r -> (length l <= fuel)%nat ->
  converts suppressed (scan! n := parse_digits fuel f accepts as_type base None in scan! _ := assign_number suppressed sign n in sc_ret false) l r.
Proof.
  intros Hacc Ht Hn Hf. unfold number_spec in Hn. apply fmap_Some in Hn as ([ds rest] & Hr & ->). cbn [fst snd].
  assert (forall m args a, does (parse_digits fuel f accepts as_type base None) (MkView l m args a) (digits_from as_type base None ds) (MkView rest m args a)) as Hd
    by (intros m args a; apply (does_digits fuel accepts as_type base l ds rest); [intros c Hc; apply accepts_digit, Hacc, Hc|done|done]).
  destruct ds as [|c ds].
  { intros m args a. eapply leaves_bind; [apply Hd|]. apply leaves_bind_now. apply leaves_leave. }
  intros m p args a Hm Ha Hp. destruct (digits_from_start as_type base 32 (c :: ds) Ht) as (x & Ex & Hx); [done|].
  rewrite length_to_le_bytes in Hp. change (8 * Z.of_nat 4) with 32.
  set (val := wrap 32 (match sign with NEGATIVE => to_c_int (- x) | POSITIVE => x end)).
  assert (wrap 32 (signed_value sign (digits_value base (c :: ds))) = val) as ->.
  { subst val. destruct sign; [by rewrite Hx|]. simpl. rewrite wrap_to_c_int. rewrite <- (Z.sub_0_l x), <- (Z.sub_0_l (digits_value _ _)).
    by rewrite <- (wrap_sub_r 32 0 x), <- (wrap_sub_r 32 0 (digits_value _ _)), Hx. }
  destruct (does_store_arg suppressed 4 val rest m args p a Hm Hp) as (m' & Hm' & Hs); [lia|apply in_u_wrap; lia|].
  exists m'. split; [done|]. eapply does_bind; [apply Hd|]. rewrite Ex. eapply does_bind; [|apply does_ret].
  unfold assign_number. eapply does_bind; [exact Hs|]. by apply does_count.
Qed.

(** Parts that only read come first. *)
Definition reads_to {A} (m : Scanner (S := S) A) (l : list Z) (x : A) (l' : list Z) : Prop :=
  forall mem args a, does m (MkView l mem args a) x (MkView l' mem args a).

Lemma converts_bind {A} suppressed (m : Scanner A) k l x l' r :
  reads_to m l x l' -> converts suppressed (k x) l' r -> converts suppressed (sc_bind m k) l r.
Proof.
  intros Hm Hk. destruct r as [rest|[[bytes rest] used]].
  - intros mem args a. eapply leaves_bind; [apply Hm|apply Hk].
  - intros mem p args a Hw Ha Hp. destruct (Hk mem p args a Hw Ha Hp) as (m' & Hm' & Hd). exists m'. split; [done|]. eapply does_bind; [apply Hm|exact Hd].
Qed.

Lemma converts_leave {A} suppressed (k : A -> Scanner bool) l : converts suppressed (sc_bind (sc_leave 0) k) l (inl l).
Proof. intros mem args a. apply leaves_bind_now. apply leaves_leave. Qed.

Lemma reads_char l : reads_to sc_char l (current l) l.
Proof. intros mem args a. apply does_char. Qed.
Lemma reads_next l : reads_to (next_char f) l () (advance l).
Proof. intros mem args a. apply does_next. Qed.
Lemma reads_ret {A} (x : A) l : reads_to (sc_ret x) l x l.
Proof. intros mem args a. apply does_ret. Qed.
Lemma reads_sign l : reads_to (parse_sign f) l (sign_of l).1 (sign_of l).2.
Proof. intros mem args a. apply does_sign. Qed.
Lemma reads_skip fuel l r : run space l = Some r -> (length l <= fuel)%nat -> reads_to (skip_space fuel f) l () r.2.
Proof. destruct r as [ds r]. intros E Hf mem args a. by eapply does_skip. Qed.
Lemma reads_bind {A B} (m : Scanner A) (k : A -> Scanner B) l x l' y l'' :
  reads_to m l x l' -> reads_to (k x) l' y l'' -> reads_to (sc_bind m k) l y l''.
Proof. intros Hm Hk mem args a. eapply does_bind; [apply Hm|apply Hk]. Qed.

Lemma sign_of_length l : (length (sign_of l).2 <= length l)%nat.
Proof. unfold sign_of. case_match; simpl; [apply advance_length|lia]. Qed.
Lemma run_length p l r : run p l = Some r -> (length r.2 <= length l)%nat.
Proof. destruct r as [ds r]. intros E. apply run_split in E as (-> & _). rewrite length_app. simpl. lia. Qed.

(** Every numeric conversion begins with white space and a sign. *)
Lemma converts_signed suppressed fuel (k : ParsedSign -> Scanner bool) spec l r :
  (forall sign l r, spec sign l = Some r -> (length l <= fuel)%nat -> converts suppressed (k sign) l r) ->
  after_space (fun l => let '(sign, l) := sign_of l in spec sign l) l = Some r -> (length l <= fuel)%nat ->
  converts suppressed (scan! _ := skip_space fuel f in scan! sign := parse_sign f in k sign) l r.
Proof.
  intros Hk E Hf. unfold after_space in E. apply bind_Some in E as (l1 & E1 & E). pose proof (run_length _ _ _ E1).
  pose proof (sign_of_length l1.2). eapply converts_bind; [by apply reads_skip|]. eapply converts_bind; [apply reads_sign|].
  destruct (sign_of l1.2) as [sign l2]. apply Hk; [exact E|simpl in *; lia].
Qed.

Lemma converts_decimal suppressed fuel l r :
  after_space decimal_spec l = Some r -> (length l <= fuel)%nat -> converts suppressed (scan_decimal fuel f suppressed) l r.
Proof.
  apply converts_signed. intros sign l1 r1 E Hl. eapply converts_number; [apply decimal_is_hex|apply wrap_to_c_int|exact E|done].
Qed.

Lemma octal_is_hex c : octal_char c = true -> hex_char c = true.
Proof. intros H. by apply decimal_is_hex, octal_is_decimal. Qed.

Lemma converts_octal suppressed fuel l r :
  after_space octal_spec l = Some r -> (length l <= fuel)%nat -> converts suppressed (scan_octal fuel f suppressed) l r.
Proof.
  apply converts_signed. intros sign l1 r1 E Hl. pose proof (advance_length l1). eapply converts_bind; [apply reads_char|].
  destruct (current l1 =? 48); (eapply converts_bind; [apply reads_next || apply reads_ret|]);
    (eapply converts_number; [apply octal_is_hex|apply wrap_to_c_int|exact E|lia]).
Qed.

Lemma converts_integer suppressed fuel l r :
  after_space integer_spec l = Some r -> (length l <= fuel)%nat -> converts suppressed (scan_integer fuel f suppressed) l r.
Proof.
  apply (converts_signed suppressed fuel _ (fun sign l =>
    if current l =? 48 then
      if marks_hex (advance l) then number_spec hex_char 16 4 sign (advance (advance l)) else number_spec octal_char 8 4 sign (advance l)
    else number_spec decimal_char 10 4 sign l)).
  intros sign l1 r1 E Hl. pose proof (advance_length l1). pose proof (advance_length (advance l1)). unfold parse_base.
  destruct (current l1 =? 48) eqn:E0; [destruct (marks_hex (advance l1)) eqn:Eh|].
  - eapply converts_bind with (x := BASE16); [|eapply converts_number; [done|apply wrap_to_c_int|exact E|lia]].
    eapply reads_bind; [apply reads_char|]. rewrite E0. eapply reads_bind; [apply reads_next|]. eapply reads_bind; [apply reads_char|].
    unfold marks_hex in Eh. rewrite Eh. eapply reads_bind; [apply reads_next|apply reads_ret].
  - eapply converts_bind with (x := BASE8); [|eapply converts_number; [apply octal_is_hex|apply wrap_to_c_int|exact E|lia]].
    eapply reads_bind; [apply reads_char|]. rewrite E0. eapply reads_bind; [apply reads_next|]. eapply reads_bind; [apply reads_char|].
    unfold marks_hex in Eh. rewrite Eh. apply reads_ret.
  - eapply converts_bind with (x := BASE10); [|eapply converts_number; [apply decimal_is_hex|apply wrap_to_c_int|exact E|lia]].
    eapply reads_bind; [apply reads_char|]. rewrite E0. apply reads_ret.
Qed.

(** The mark 0x. *)
Lemma converts_marked suppressed (k : unit -> Scanner bool) l (spec : list Z -> option Conversion) r fuel :
  (if marks_hex (advance l) then spec (advance (advance l)) else Some (inl (advance l))) = Some r -> (length l <= fuel)%nat ->
  (forall l r, spec l = Some r -> (length l <= fuel)%nat -> converts suppressed (k ()) l r) ->
  converts suppressed (scan! x := after_zero f in k x) l r.
Proof.
  intros E Hf Hk. pose proof (advance_length l). pose proof (advance_length (advance l)).
  destruct (marks_hex (advance l)) eqn:Eh; unfold marks_hex in Eh.
  - eapply converts_bind; [|apply (Hk _ _ E); lia]. eapply reads_bind; [apply reads_next|]. eapply reads_bind; [apply reads_char|].
    rewrite Eh. apply reads_next.
  - injection E as <-. intros mem args a. apply leaves_bind_now. eapply leaves_bind; [apply reads_next|].
    eapply leaves_bind; [apply reads_char|]. rewrite Eh. apply leaves_leave.
Qed.

Lemma converts_hex suppressed fuel l r :
  after_space hex_spec l = Some r -> (length l <= fuel)%nat -> converts suppressed (scan_hex fuel f suppressed) l r.
Proof.
  apply (converts_signed suppressed fuel _ (fun sign l =>
    if current l =? 48 then
      if marks_hex (advance l) then number_spec hex_char 16 4 sign (advance (advance l)) else Some (inl (advance l))
    else number_spec hex_char 16 4 sign l)).
  intros sign l1 r1 E Hl. eapply converts_bind; [apply reads_char|]. destruct (current l1 =? 48).
  - eapply converts_marked; [exact E|exact Hl|]. intros l2 r2 E2 Hl2. eapply converts_number; [done|apply wrap_to_c_int|exact E2|done].
  - eapply converts_bind; [apply reads_ret|]. eapply converts_number; [done|apply wrap_to_c_int|exact E|done].
Qed.

Lemma converts_pointer_digits suppressed fuel l r :
  number_spec hex_char 16 8 POSITIVE l = Some r -> (length l <= fuel)%nat ->
  converts suppressed (scan! n := parse_digits fuel f hex_char (wrap 64) 16 None in
    match n with None => sc_leave 0 | Some val => scan! _ := store_arg suppressed 8 val in scan! _ := count_argument in sc_ret false end) l r.
Proof.
  intros Hn Hf. unfold number_spec in Hn. apply fmap_Some in Hn as ([ds rest] & Hr & ->). cbn [fst snd].
  assert (forall m args a, does (parse_digits fuel f hex_char (wrap 64) 16 None) (MkView l m args a) (digits_from (wrap 64) 16 None ds) (MkView rest m args a)) as Hd
    by (intros m args a; apply (does_digits fuel hex_char (wrap 64) 16 l ds rest); [apply accepts_digit|done|done]).
  assert (forall n x, digits_from (wrap 64) 16 n ds = Some x -> (forall y, n = Some y -> in_u 64 y) -> Forall (fun c => hex_char c = true) ds -> in_u 64 x) as Hu.
  { clear. induction ds as [|c ds IH]; intros n x E Hn Hc; [by apply Hn|]. inversion Hc; subst. eapply IH; [exact E| |done].
    intros y [= <-]. destruct n; [apply in_u_wrap; lia|]. apply (digit_small c). done. }
  destruct ds as [|c ds].
  { intros m args a. eapply leaves_bind; [apply Hd|]. apply leaves_leave. }
  intros m p args a Hm Ha Hp. destruct (digits_from_start (wrap 64) 16 64 (c :: ds)) as (x & Ex & Hx); [intros x; apply wrap_wrap; lia|done|].
  assert (in_u 64 x) as Hx64 by (eapply Hu; [exact Ex|done|]; by apply run_split in Hr as (_ & ? & _)).
  rewrite length_to_le_bytes in Hp. change (8 * Z.of_nat 8) with 64. cbn [signed_value].
  rewrite <- Hx, (wrap_small 64 x) by done.
  destruct (does_store_arg suppressed 8 x rest m args p a Hm Hp) as (m' & Hm' & Hs); [lia|done|].
  exists m'. split; [done|]. eapply does_bind; [apply Hd|]. rewrite Ex. eapply does_bind; [exact Hs|]. eapply does_bind; [by apply does_count|apply does_ret].
Qed.

Lemma converts_pointer suppressed fuel l r :
  after_space pointer_spec l = Some r -> (length l <= fuel)%nat -> converts suppressed (scan_pointer fuel f suppressed) l r.
Proof.
  intros E Hf. unfold after_space in E. apply bind_Some in E as (l1 & E1 & E). pose proof (run_length _ _ _ E1).
  eapply converts_bind; [by apply reads_skip|]. eapply converts_bind; [apply reads_char|]. unfold pointer_spec in E.
  destruct (current l1.2 =? 48); [|injection E as <-; apply converts_leave].
  apply (converts_marked _ _ _ _ _ fuel E); [lia|]. intros l2 r2 E2 Hl2. by apply converts_pointer_digits.
Qed.

Lemma advance_bytes l : Forall is_byte l -> Forall is_byte (advance l).
Proof. intros H. destruct l as [|? [|??]]; [done|done|]. by inversion H. Qed.
Lemma current_byte l : Forall is_byte l -> is_byte (current l).
Proof. intros H. destruct H as [|c l H _]; [done|exact H]. Qed.

Lemma does_put_stream suppressed m p (i n : nat) z l args a :
  vm_wf m -> putting suppressed m p n -> (i < n)%nat -> wrap 64 z = Z.of_nat i mod 2 ^ 64 -> Forall is_byte l ->
  exists m', put suppressed m (p + Z.of_nat i) [current l] m' /\
    does (store_stream_char suppressed p z) (MkView l m args a) () (MkView l m' args a).
Proof.
  intros Hm Hp Hi Hz Hl. destruct (does_put_char suppressed m p i n z (current l) l args a Hm Hp Hi Hz (current_byte _ Hl)) as (m' & Hm' & Hd).
  exists m'. split; [done|]. eapply does_bind; [apply does_char|exact Hd].
Qed.

Lemma does_chars suppressed p n (k N : nat) l m args a :
  vm_wf m -> putting suppressed m p N -> (k + n <= N)%nat -> Forall is_byte l ->
  exists m', put suppressed m (p + Z.of_nat k) (chars_spec n l).1 m' /\
    does (read_chars suppressed f p (Z.of_nat k) n) (MkView l m args a) () (MkView (chars_spec n l).2 m' args a).
Proof.
  revert k l m. induction n as [|n IH]; intros k l m Hm Hp Hk Hl; cbn [chars_spec read_chars].
  { exists m. split; [by apply put_nil|apply does_ret]. }
  apply advance_bytes in Hl. destruct (does_put_stream suppressed m p k N (Z.of_nat k) (advance l) args a Hm Hp) as (m1 & H1 & D1); [lia|done|done|].
  destruct (IH (Datatypes.S k) (advance l) m1) as (m2 & H2 & D2); [by eapply put_wf|by eapply put_putting|lia|done|].
  exists m2. split; [by eapply put_cons|]. eapply does_bind; [apply does_next|]. eapply does_bind; [exact D1|].
  replace (Z.of_nat k + 1) with (Z.of_nat (Datatypes.S k)) by lia. exact D2.
Qed.

Lemma wrap_succ (k : nat) z : wrap 64 z = Z.of_nat k mod 2 ^ 64 -> wrap 64 (wrap 64 (z + 1)) = Z.of_nat (Datatypes.S k) mod 2 ^ 64.
Proof. intros H. rewrite wrap_wrap by lia. rewrite <- wrap_add_l, H. change (?x mod 2 ^ 64) with (wrap 64 x). rewrite wrap_add_l. f_equal. lia. Qed.

Lemma does_word suppressed p n (k N : nat) z l w r used m args a :
  vm_wf m -> putting suppressed m p N -> (k + length w <= N)%nat -> Forall is_byte l -> wrap 64 z = Z.of_nat k mod 2 ^ 64 ->
  word_spec n l = (w, r, used) ->
  exists m' z', put suppressed m (p + Z.of_nat k) w m' /\ wrap 64 z' = Z.of_nat (k + length w) mod 2 ^ 64 /\
    does (read_word suppressed f p z n) (MkView l m args a) (z', negb used) (MkView r m' args a).
Proof.
  revert k z l w r used m. induction n as [|n IH]; intros k z l w r used m Hm Hp Hk Hl Hz E; cbn [word_spec read_word] in *.
  { injection E as <- <- <-. exists m, z. split; [by apply put_nil|]. rewrite Nat.add_0_r. split; [done|apply does_ret]. }
  apply advance_bytes in Hl. unfold space in E. destruct (isspace (current (advance l)) =? 0) eqn:Es; cbn [negb] in E.
  - destruct (word_spec n (advance l)) as [[w' r'] u'] eqn:E'. injection E as <- <- <-. cbn [length] in Hk.
    destruct (does_put_char suppressed m p k N z (current (advance l)) (advance l) args a Hm Hp) as (m1 & H1 & D1); [lia|done|by apply current_byte|].
    destruct (IH (Datatypes.S k) (wrap 64 (z + 1)) (advance l) w' r' u' m1) as (m2 & z' & H2 & Hz' & D2);
      [by eapply put_wf|by eapply put_putting|lia|done|by apply wrap_succ|done|].
    exists m2, z'. split; [by eapply put_cons|]. split; [rewrite Hz'; f_equal; simpl; lia|].
    eapply does_bind; [apply does_next|]. eapply does_bind; [apply does_char|]. cbn [vw_in]. rewrite Es. eapply does_bind; [exact D1|exact D2].
  - injection E as <- <- <-. exists m, z. split; [by apply put_nil|]. rewrite Nat.add_0_r. split; [done|].
    eapply does_bind; [apply does_next|]. eapply does_bind; [apply does_char|]. cbn [vw_in]. rewrite Es. apply does_ret.
Qed.

Lemma does_until_space suppressed p fuel (k N : nat) z l w r m args a :
  vm_wf m -> putting suppressed m p N -> (k + length w <= N)%nat -> Forall is_byte l -> wrap 64 z = Z.of_nat k mod 2 ^ 64 ->
  run (fun c => negb (space c)) l = Some (w, r) -> (length l <= fuel)%nat ->
  exists m' z', put suppressed m (p + Z.of_nat k) w m' /\ wrap 64 z' = Z.of_nat (k + length w) mod 2 ^ 64 /\
    does (read_until_space fuel suppressed f p z) (MkView l m args a) z' (MkView r m' args a).
Proof.
  revert fuel k z w m. induction l as [|c t IH]; intros [|fuel] k z w m Hm Hp Hk Hl Hz E Hf; [done|done|simpl in Hf; lia|].
  inversion Hl as [|? ? Hc Ht]; subst. cbn [read_until_space]. destruct (space c) eqn:Es.
  - simpl in E. rewrite Es in E. injection E as <- <-. exists m, z. split; [by apply put_nil|]. rewrite Nat.add_0_r. split; [done|].
    eapply does_bind; [apply does_char|]. change (current _) with c. unfold space in Es. apply negb_true_iff in Es. rewrite Es. apply does_ret.
  - apply run_step in E as (w' & -> & E & Ha); [|by rewrite Es]. cbn [length] in *.
    destruct (does_put_char suppressed m p k N z c (c :: t) args a Hm Hp) as (m1 & H1 & D1); [lia|done|done|].
    destruct (IH fuel (Datatypes.S k) (wrap 64 (z + 1)) w' m1) as (m2 & z' & H2 & Hz' & D2);
      [by eapply put_wf|by eapply put_putting|lia|done|by apply wrap_succ|done|lia|].
    exists m2, z'. split; [by eapply put_cons|]. split; [rewrite Hz'; f_equal; lia|].
    eapply does_bind; [apply does_char|]. change (current _) with c. unfold space in Es. apply negb_false_iff in Es. rewrite Es.
    eapply does_bind; [exact D1|]. eapply does_bind; [apply does_next|]. rewrite Ha. exact D2.
Qed.

(** The pointer of a character conversion, null when nothing is stored. *)
Lemma put_null (suppressed : bool) m p bs m' : put suppressed m (if suppressed then 0 else p) bs m' -> put suppressed m p bs m'.
Proof. by destruct suppressed. Qed.
Lemma putting_null (suppressed : bool) m p n : putting suppressed m p n -> putting suppressed m (if suppressed then 0 else p) n.
Proof. by destruct suppressed. Qed.

Lemma chars_spec_length n l : length (chars_spec n l).1 = n.
Proof. revert l. induction n as [|n IH]; intros l; [done|]. simpl. by rewrite IH. Qed.

Lemma converts_character suppressed width l :
  Forall is_byte l -> converts suppressed (scan_character f suppressed width) l (character_spec width l).
Proof.
  intros Hl m p args a Hm Ha Hp. unfold scan_character. cbn [length] in Hp. rewrite chars_spec_length in Hp.
  set (n := match width with Number len => Z.to_nat (len - 1) | _ => O end) in *. apply putting_null in Hp.
  set (q := if suppressed then 0 else p) in *.
  destruct (does_put_stream suppressed m q 0 (Datatypes.S n) 0 l args a Hm Hp) as (m1 & H1 & D1); [lia|done|done|].
  destruct (does_chars suppressed q n 1 (Datatypes.S n) l m1 args a) as (m2 & H2 & D2); [by eapply put_wf|by eapply put_putting|lia|done|].
  exists m2. split; [apply put_null; fold q; rewrite <- (Z.add_0_r q); by apply (put_cons suppressed m q 0 _ m1)|].
  eapply does_bind; [apply does_char_arg|]. fold q. eapply does_bind; [exact D1|].
  eapply does_bind; [|eapply does_bind; [by apply does_count|apply does_ret]].
  subst n. by destruct width.
Qed.

(** The characters of a string conversion, at the position [z] after them. *)
Definition takes_string (suppressed : bool) (fuel : nat) (width : Amount) (l bytes rest : list Z) (used : bool) : Prop :=
  forall m p args a, vm_wf m -> putting suppressed m p (length (bytes ++ [0])) ->
  exists m' z, put suppressed m p bytes m' /\ wrap 64 z = Z.of_nat (length bytes) mod 2 ^ 64 /\
    does (string_chars fuel f suppressed p width) (MkView l m args a) (z, used) (MkView rest m' args a).

Lemma takes_unbounded suppressed fuel width l w rest :
  (forall len, width <> Number len) -> run (fun c => negb (space c)) l = Some (w, rest) -> Forall is_byte l -> (length l <= fuel)%nat ->
  takes_string suppressed fuel width l w rest false.
Proof.
  intros Hw Ew Hl Hf m p args a Hm Hp. rewrite length_app in Hp.
  destruct (does_until_space suppressed p fuel 0 _ 0 l w rest m args a Hm Hp) as (m' & z & H1 & H2 & D); [simpl; lia|done|done|done|lia|].
  exists m', z. rewrite Z.add_0_r in H1. split; [done|]. split; [done|].
  destruct width; [by destruct (Hw n)|..]; (eapply does_bind; [exact D|apply does_ret]).
Qed.

Lemma takes_bounded suppressed fuel len l w rest used :
  word_spec (Z.to_nat (len - 1)) l = (w, rest, used) -> Forall is_byte l ->
  takes_string suppressed fuel (Number len) l (current l :: w) rest used.
Proof.
  intros Ew Hb m p args a Hm Hp. rewrite length_app in Hp. cbn [length] in Hp.
  destruct (does_put_stream suppressed m p 0 _ 0 l args a Hm Hp) as (m1 & H1 & D1); [lia|done|done|].
  destruct (does_word suppressed p (Z.to_nat (len - 1)) 1 (Datatypes.S (length w) + 1) 1 l w rest used m1 args a) as (m2 & z & H2 & Hz & D2);
    [by eapply put_wf|by eapply put_putting|lia|done|done|done|].
  exists m2, z. split; [rewrite <- (Z.add_0_r p); by apply (put_cons suppressed m p 0 _ m1)|]. split; [exact Hz|].
  eapply does_bind; [exact D1|]. eapply does_bind; [exact D2|]. cbn beta iota. rewrite negb_involutive. apply does_ret.
Qed.

Lemma takes_string_spec suppressed fuel width l r :
  string_spec width l = Some r -> Forall is_byte l -> (length l <= fuel)%nat ->
  exists bytes rest used, r = inr (bytes ++ [0], rest, used) /\ takes_string suppressed fuel width l bytes rest used.
Proof.
  intros E Hb Hf. unfold string_spec in E. destruct width as [len| |].
  - destruct (word_spec (Z.to_nat (len - 1)) l) as [[w rest] used] eqn:Ew. injection E as <-.
    exists (current l :: w), rest, used. split; [done|by apply takes_bounded].
  - apply fmap_Some in E as ([w rest] & Ew & ->). exists w, rest, false. split; [done|by apply takes_unbounded].
  - apply fmap_Some in E as ([w rest] & Ew & ->). exists w, rest, false. split; [done|by apply takes_unbounded].
Qed.

Lemma converts_string suppressed fuel width l r :
  after_space (string_spec width) l = Some r -> Forall is_byte l -> (length l <= fuel)%nat ->
  converts suppressed (scan_string fuel f suppressed width) l r.
Proof.
  intros E Hb Hf. unfold after_space in E. apply bind_Some in E as ([sp l1] & E1 & E). pose proof (run_length _ _ _ E1) as Hl1.
  unfold scan_string. eapply converts_bind; [by apply reads_skip|]. apply run_split in E1 as (-> & _). apply Forall_app in Hb as [_ Hb]. cbn [snd] in *.
  destruct (takes_string_spec suppressed fuel width l1 r E Hb) as (bytes & rest & used & -> & Hbody); [lia|].
  intros m p args a Hm Ha Hp. apply putting_null in Hp. set (q := if suppressed then 0 else p) in *.
  destruct (Hbody m q args a Hm Hp) as (m1 & z & H1 & Hz & D1).
  destruct (does_put_char suppressed m1 q (length bytes) (length (bytes ++ [0])) z 0 rest args a) as (m2 & H2 & D2);
    [by eapply put_wf|by eapply put_putting|rewrite length_app; simpl; lia|exact Hz|done|].
  exists m2. split; [apply put_null; fold q; by eapply put_app|].
  eapply does_bind; [apply does_char_arg|]. fold q. eapply does_bind; [exact D1|]. cbn beta iota. eapply does_bind; [exact D2|].
  eapply does_bind; [by apply does_count|apply does_ret].
Qed.

Lemma converts_spec fuel sp l r :
  assigning_spec sp l = Some r -> Forall is_byte l -> (length l <= fuel)%nat ->
  converts (sf_assignment_suppression sp) (execute_scan fuel f sp) l r.
Proof.
  unfold assigning_spec, execute_scan. intros E Hb Hf. destruct (sf_specifier sp); try discriminate E.
  - by apply converts_integer.
  - by apply converts_decimal.
  - by apply converts_decimal.
  - by apply converts_octal.
  - by apply converts_hex.
  - by apply converts_hex.
  - injection E as <-. by apply converts_character.
  - by apply converts_string.
  - by apply converts_pointer.
Qed.

(** ** The format *)

(** The rest of the call returns [ret], with the memory [m'] and the characters [rest]. *)
Definition ends (k : Scanner (S := S) unit) (w : View) (ret : Z) (m' : memory_) (rest : list Z) : Prop :=
  forall v, viewed v w -> exists v' r, k v = Ret (v', r) /\ scan_result v' r = Some ret /\
    process_memory (sc_system v') = m' /\ pending (sc_system v') fd = Some (tail rest).

Lemma ends_bind {A} (m : Scanner A) k w x w1 ret m' rest : does m w x w1 -> ends (k x) w1 ret m' rest -> ends (sc_bind m k) w ret m' rest.
Proof. intros Hm Hk v Hv. destruct (Hm v Hv) as (v1 & E & H1). unfold sc_bind. rewrite E. by apply Hk. Qed.
Lemma viewed_pending v w : viewed v w -> pending (sc_system v) fd = Some (tail (vw_in w)).
Proof. intros Hv. destruct (vd_in _ _ Hv) as (rest & -> & E). exact E. Qed.
Lemma ends_leaves {A} (m : Scanner A) k w r w1 : leaves m w r w1 -> ends (sc_bind m k) w r (vw_mem w1) (vw_in w1).
Proof.
  intros Hm v Hv. destruct (Hm v Hv) as (v1 & E & H1). unfold sc_bind. rewrite E. exists v1, (Return r).
  split_and!; [done|done|apply H1|by apply viewed_pending].
Qed.

Lemma does_advance used l m args a :
  does (advance_stream f used) (MkView l m args a) () (MkView (if used then advance l else l) m args a).
Proof. destruct used; [apply does_read|apply does_ret]. Qed.

(** The characters of a specification are fed to its parser. *)
Lemma loop_directive fuel t sp u (i : nat) rest v w :
  viewed v w -> parse_scanf u t = Some sp -> drop i text = t ++ rest ->
  vfscanf_loop fuel f fmt (Some u) (Z.of_nat i) (length (t ++ rest)) v =
  sc_bind (execute_scan fuel f sp) (fun used =>
    scan! _ := advance_stream f used in vfscanf_loop fuel f fmt None (Z.of_nat (i + length t)) (length rest)) v.
Proof.
  intros Hv. revert u i. induction t as [|c t IH]; intros u i Hp Ed; [done|]. cbn [parse_scanf app length vfscanf_loop] in *.
  assert (text !! i = Some c) as Hi by (rewrite <- (Nat.add_0_r i), <- lookup_drop, Ed; done).
  rewrite (vd_mem _ _ Hv), (read_byte_at _ fmt (text ++ [0]) i c) by (apply Hv || by apply lookup_app_l_Some). cbn [obind].
  replace (Z.of_nat i + 1) with (Z.of_nat (Datatypes.S i)) by lia. rewrite (drop_S _ _ _ Hi) in Ed. injection Ed as Ed.
  destruct (add_char_to_scanf_specification u c) as [sp'|u'].
  - destruct t; [|done]. injection Hp as ->. cbn [length app]. by rewrite Nat.add_1_r.
  - rewrite (IH u' (Datatypes.S i) Hp Ed). by rewrite Nat.add_succ_comm.
Qed.

(** Outside a specification. *)
Lemma loop_format_char fuel c (i : nat) rest l m args a ret m' l' :
  drop i text = c :: rest ->
  ends (scan! r := scan_format_char fuel f c in scan! _ := advance_stream f r.2 in
    vfscanf_loop fuel f fmt (if r.1 then Some scanf_default else None) (Z.of_nat (Datatypes.S i)) (length rest)) (MkView l m args a) ret m' l' ->
  ends (vfscanf_loop fuel f fmt None (Z.of_nat i) (length (c :: rest))) (MkView l m args a) ret m' l'.
Proof.
  intros Ed H v Hv. assert (text !! i = Some c) as Hi by (rewrite <- (Nat.add_0_r i), <- lookup_drop, Ed; done).
  cbn [length vfscanf_loop]. rewrite (vd_mem _ _ Hv), (read_byte_at _ fmt (text ++ [0]) i c) by (apply Hv || by apply lookup_app_l_Some).
  cbn [obind]. replace (Z.of_nat i + 1) with (Z.of_nat (Datatypes.S i)) by lia. by apply H.
Qed.

(** A specification: its parts are parsed and then it is executed. *)
Lemma loop_at_directive fuel t sp (i : nat) rest v w :
  viewed v w -> parse_scanf scanf_default t = Some sp -> drop i text = 37 :: t ++ rest ->
  vfscanf_loop fuel f fmt None (Z.of_nat i) (length (37 :: t ++ rest)) v =
  sc_bind (execute_scan fuel f sp) (fun used =>
    scan! _ := advance_stream f used in vfscanf_loop fuel f fmt None (Z.of_nat (i + Datatypes.S (length t))) (length rest)) v.
Proof.
  intros Hv Hp Ed. assert (text !! i = Some 37) as Hi by (rewrite <- (Nat.add_0_r i), <- lookup_drop, Ed; done).
  rewrite (drop_S _ _ _ Hi) in Ed. injection Ed as Ed. cbn [length vfscanf_loop].
  rewrite (vd_mem _ _ Hv), (read_byte_at _ fmt (text ++ [0]) i 37) by (apply Hv || by apply lookup_app_l_Some). cbn [obind].
  replace (Z.of_nat i + 1) with (Z.of_nat (Datatypes.S i)) by lia.
  rewrite <- Nat.add_succ_comm. exact (loop_directive fuel t sp scanf_default (Datatypes.S i) rest v w Hv Hp Ed).
Qed.

Lemma ends_directive fuel t sp (i : nat) rest w ret m' l' :
  parse_scanf scanf_default t = Some sp -> drop i text = 37 :: t ++ rest ->
  ends (scan! used := execute_scan fuel f sp in scan! _ := advance_stream f used in
    vfscanf_loop fuel f fmt None (Z.of_nat (i + Datatypes.S (length t))) (length rest)) w ret m' l' ->
  ends (vfscanf_loop fuel f fmt None (Z.of_nat i) (length (37 :: t ++ rest))) w ret m' l'.
Proof. intros Hp Ed H v Hv. rewrite (loop_at_directive fuel t sp i rest v w Hv Hp Ed). by apply H. Qed.

(** Enough characters and fuel for what is left. *)
Definition input_ok (fuel : nat) (l : list Z) : Prop := Forall is_byte l /\ (length l <= fuel)%nat.
Lemma input_ok_suffix fuel l l' : l' `suffix_of` l -> input_ok fuel l -> input_ok fuel l'.
Proof.
  intros [k ->] [Hb Hf]. apply Forall_app in Hb as [_ Hb]. split; [done|]. rewrite length_app in Hf. lia.
Qed.

Definition targets (m : memory_) (stores : list (Z * list Z)) : Prop := Forall (fun st => target m st.1 (length st.2)) stores.
Lemma targets_put suppressed m p bs m' stores : put suppressed m p bs m' -> targets m stores -> targets m' stores.
Proof.
  destruct suppressed; [by intros ->|]. intros [_ _ R] H. eapply Forall_impl; [exact H|]. intros st (Hr & Ha). split; [by apply R|done].
Qed.

(** The items of a format, with what follows them. *)
Abbreviation loop_from fuel i rest := (vfscanf_loop fuel f fmt None (Z.of_nat i) (length rest)).

Lemma ends_blank fuel c (i : nat) rest l r m args a ret m' l' :
  space c = true -> run space l = Some r -> (length l <= fuel)%nat -> drop i text = c :: rest ->
  ends (loop_from fuel (i + 1)%nat rest) (MkView r.2 m args a) ret m' l' -> ends (loop_from fuel i (c :: rest)) (MkView l m args a) ret m' l'.
Proof.
  intros Hc Er Hf Ed H. rewrite Nat.add_1_r in H. apply (loop_format_char _ _ _ _ _ _ _ _ _ _ _ Ed). unfold scan_format_char. unfold space in Hc. rewrite Hc.
  eapply ends_bind; [eapply does_bind; [by apply (reads_skip fuel l r Er)|apply does_ret]|]. eapply ends_bind; [apply does_ret|exact H].
Qed.

Lemma ends_same fuel c (i : nat) rest l m args a ret m' l' :
  space c = false -> c <> 37 -> current l = c -> drop i text = c :: rest ->
  ends (loop_from fuel (i + 1)%nat rest) (MkView (advance l) m args a) ret m' l' -> ends (loop_from fuel i (c :: rest)) (MkView l m args a) ret m' l'.
Proof.
  intros Hc H37 Ec Ed H. rewrite Nat.add_1_r in H. apply (loop_format_char _ _ _ _ _ _ _ _ _ _ _ Ed). unfold scan_format_char. unfold space in Hc.
  rewrite Hc, (proj2 (Z.eqb_neq c 37) H37). cbn [negb].
  eapply ends_bind; [eapply does_bind; [apply does_char|]; cbn [vw_in]; rewrite Ec, Z.eqb_refl; apply does_ret|].
  eapply ends_bind; [apply does_read|exact H].
Qed.

Lemma ends_other fuel c (i : nat) rest l m args a :
  space c = false -> c <> 37 -> current l <> c -> drop i text = c :: rest ->
  ends (loop_from fuel i (c :: rest)) (MkView l m args a) (default EOF a) m l.
Proof.
  intros Hc H37 Ec Ed. apply (loop_format_char _ _ _ _ _ _ _ _ _ _ _ Ed). unfold scan_format_char. unfold space in Hc.
  rewrite Hc, (proj2 (Z.eqb_neq c 37) H37). cbn [negb].
  apply (ends_leaves _ _ _ (default EOF a) (MkView l m args a)). eapply leaves_bind; [apply does_char|]. cbn [vw_in].
  rewrite (proj2 (Z.eqb_neq _ _) Ec). apply leaves_leave.
Qed.

(** A specification that uses no argument, and one that fails. *)
Lemma ends_percent fuel t sp (i : nat) rest l m args a ret m' l' :
  sf_specifier sp = Escape -> parse_scanf scanf_default t = Some sp -> drop i text = 37 :: t ++ rest -> current l = 37 ->
  ends (loop_from fuel (i + Datatypes.S (length t))%nat rest) (MkView (advance l) m args a) ret m' l' ->
  ends (loop_from fuel i (37 :: t ++ rest)) (MkView l m args a) ret m' l'.
Proof.
  intros He Hp Ed Ec H. eapply ends_directive; [done|done|]. unfold execute_scan. rewrite He.
  eapply ends_bind; [eapply does_bind; [apply does_char|]; cbn [vw_in]; rewrite Ec; apply does_ret|]. eapply ends_bind; [apply (does_advance true)|exact H].
Qed.

Lemma ends_fails fuel t sp (i : nat) rest l m args a r l' :
  parse_scanf scanf_default t = Some sp -> drop i text = 37 :: t ++ rest ->
  leaves (execute_scan fuel f sp) (MkView l m args a) r (MkView l' m args a) ->
  ends (loop_from fuel i (37 :: t ++ rest)) (MkView l m args a) r m l'.
Proof. intros Hp Ed H. eapply ends_directive; [done|done|]. exact (ends_leaves _ _ _ _ _ H). Qed.

(** One that assigns. *)
Lemma ends_assigns fuel t sp (i : nat) rest l m p args a bytes l1 used ret l' (P : memory_ -> Prop) :
  parse_scanf scanf_default t = Some sp -> drop i text = 37 :: t ++ rest -> assigning_spec sp l = Some (inr (bytes, l1, used)) ->
  input_ok fuel l -> vm_wf m -> countable a -> putting (sf_assignment_suppression sp) m p (length bytes) ->
  (forall m1, vm_wf m1 -> put (sf_assignment_suppression sp) m p bytes m1 ->
    exists m', P m' /\ ends (loop_from fuel (i + Datatypes.S (length t))%nat rest) (MkView (if used then advance l1 else l1) m1 args (Some (default 0 a + 1))) ret m' l') ->
  exists m1 m', put (sf_assignment_suppression sp) m p bytes m1 /\ P m' /\
    ends (loop_from fuel i (37 :: t ++ rest)) (MkView l m (if sf_assignment_suppression sp then args else p :: args) a) ret m' l'.
Proof.
  intros Hp Ed Hs [Hb Hf] Hm Ha Ht H. destruct (converts_spec fuel sp l _ Hs Hb Hf m p args a Hm Ha Ht) as (m1 & H1 & D).
  destruct (H m1 (put_wf _ _ _ _ _ Hm H1) H1) as (m' & HP & He). exists m1, m'. split_and!; [done|done|].
  eapply ends_directive; [done|done|]. eapply ends_bind; [exact D|]. eapply ends_bind; [apply does_advance|exact He].
Qed.

Lemma countable_default a (n : nat) : 0 <= default 0 a -> default 0 a + Z.of_nat (Datatypes.S n) < 2 ^ 31 -> countable a.
Proof. intros H1 H2 x ->. simpl in *. lia. Qed.

Lemma loop_scans fuel items (i : nat) l m args a stores ret rest :
  drop i text = concat (scan_text <$> items) -> Forall scan_item_ok items -> scan_items items l args a = Some (stores, ret, rest) ->
  vm_wf m -> targets m stores -> input_ok fuel l -> 0 <= default 0 a -> default 0 a + Z.of_nat (length items) < 2 ^ 31 ->
  exists m', stored_all m stores m' /\ ends (loop_from fuel i (concat (scan_text <$> items))) (MkView l m args a) ret m' rest.
Proof.
  revert i l m args a stores. induction items as [|it items IH]; intros i l m args a stores Ed Hok E Hm Ht Hin Ha Hl.
  { injection E as <- <- <-. exists m. split; [done|]. intros v Hv. exists v, (Next ()). split_and!; [done| |apply Hv|exact (viewed_pending _ _ Hv)].
    simpl. by rewrite (vd_assigned _ _ Hv). }
  inversion Hok as [|? ? Hit Hok']; subst. cbn [fmap list_fmap concat] in *. pose proof (countable_default a _ Ha Hl) as Hc.
  assert (drop (i + length (scan_text it)) text = concat (scan_text <$> items)) as Ej by (rewrite <- drop_drop, Ed; by rewrite drop_app_length).
  assert (forall l' m' args' a' stores', scan_items items l' args' a' = Some (stores', ret, rest) ->
    vm_wf m' -> targets m' stores' -> l' `suffix_of` l -> a' = a \/ a' = Some (default 0 a + 1) ->
    exists m'', stored_all m' stores' m'' /\ ends (loop_from fuel (i + length (scan_text it))%nat (concat (scan_text <$> items))) (MkView l' m' args' a') ret m'' rest) as Hnext.
  { intros l' m' args' a' stores' E' Hm' Ht' Hs Ha'. cbn [length] in Hl.
    eapply IH; try done; [by eapply input_ok_suffix|..]; destruct Ha' as [->| ->]; simpl; lia. }
  destruct it as [c|c|t sp]; cbn [scan_items scan_text app] in *.
  - apply bind_Some in E as (r & Er & E).
    destruct (Hnext r.2 m args a stores) as (m' & H1 & H2); [done|done|done|by eapply run_suffix|by left|].
    exists m'. split; [done|]. eapply ends_blank; [done|exact Er|apply Hin|done|exact H2].
  - destruct Hit as [Hsp H37]. destruct (Z.eqb_spec (current l) c) as [Ec|Ec].
    + destruct (Hnext (advance l) m args a stores) as (m' & H1 & H2); [done|done|done|by apply advance_suffix|by left|].
      exists m'. split; [done|]. by eapply ends_same.
    + injection E as <- <- <-. exists m. split; [done|by apply ends_other].
  - simpl in Hit. case_decide as He.
    + destruct (Z.eqb_spec (current l) 37) as [Ec|Ec].
      * destruct (Hnext (advance l) m args a stores) as (m' & H1 & H2); [done|done|done|by apply advance_suffix|by left|].
        exists m'. split; [done|]. by eapply ends_percent.
      * injection E as <- <- <-. exists m. split; [done|]. eapply ends_fails; [done|done|]. unfold execute_scan. rewrite He.
        eapply leaves_bind; [apply does_char|]. cbn [vw_in]. rewrite (proj2 (Z.eqb_neq _ _) Ec). apply leaves_leave.
    + destruct (assigning_spec sp l) as [[l1|[[bytes l1] used]]|] eqn:Es; cbn [mbind option_bind] in E; [|..|done].
      { injection E as <- <- <-. exists m. split; [done|]. eapply ends_fails; [done|done|]. apply (converts_spec fuel sp l _ Es); apply Hin. }
      assert ((if used then advance l1 else l1) `suffix_of` l) as Hs
        by (pose proof (assigning_spec_suffix _ _ _ Es) as Hs; destruct used; [by apply advance_suffix|done]).
      pose proof (ends_assigns fuel t sp i (concat (scan_text <$> items)) l m) as Hput. destruct (sf_assignment_suppression sp).
      * destruct (Hput 0 args a bytes l1 used ret rest (stored_all m stores) Hit Ed Es Hin Hm Hc) as (m1 & m' & _ & H1 & H2); [done| |by exists m'].
        intros m1 Hm1 Em1. simpl in Em1. subst m1. apply Hnext; try done. by right.
      * destruct args as [|p args]; [done|]. apply fmap_Some in E as ([[stores' ret'] rest'] & E & [= -> -> ->]). inversion Ht as [|? ? Ht1 Ht2]; subst.
        destruct (Hput p args a bytes l1 used ret' rest' (stored_all m ((p, bytes) :: stores')) Hit Ed Es Hin Hm Hc) as (m1 & m' & _ & H1 & H2);
          [exact (fun _ => Ht1)| |by exists m'].
        intros m1 Hm1 Em1. destruct (Hnext (if used then advance l1 else l1) m1 args (Some (default 0 a + 1)) stores') as (m' & H1 & H2); try done;
          [by eapply targets_put|by right|]. exists m'. split; [by exists m1|done].
Qed.

End Reading.
