(* ===== verification/ScanfTheorems.v ===== *)
(** Results on the input functions of the C library: vfscanf scans as its specification
    says, reads back what vfprintf prints, and does not return from a number that ends
    with the input; fgets reads a line. *)
From S2P Require Import Prelude MachineInt Str EmulatorMemory VirtMem CMem CStr Specifier Printf PrintfTheorems Kernel FileCalls Scanf ScanfSpec.
From stdpp Require Import list.
#[local] Open Scope Z_scope.

Section Calls.
Context {S : Type} {LS : LibcSystem S} {LSOk : LibcSystemOk S} {LI : LibcInput S} {LOk : LibcInputOk S}.
Implicit Types s : S.

(** A call of vfscanf: the format, the file and its descriptor, and what is to be read. *)
Record scanning s (f fd fmt : Z) (text bs : list Z) : Prop := {
  sg_wf : vm_wf (process_memory s);
  sg_fmt : cstr_at (process_memory s) fmt text;
  sg_fd : - 2 ^ 31 <= fd < 2 ^ 31;
  sg_file : bytes_at (process_memory s) f (to_le_bytes 4 (wrap 32 fd));
  sg_in : pending s fd = Some bs;
}.

(** The first character is read before the format is looked at; it is 0 for an empty
    input. *)
Definition first_input (bs : list Z) : list Z := advance (0 :: bs).

Lemma vfscanf_start fuel s f fd fmt text bs args :
  scanning s f fd fmt text bs ->
  exists v, viewed f fd fmt text v (MkView (first_input bs) (process_memory s) args None) /\
    vfscanf fuel s f fmt args = (let! (v, r) := vfscanf_loop fuel f fmt None 0 (length text) v in Ret (sc_system v, scan_result v r)).
Proof.
  intros [H1 H2 H3 H4 H5]. unfold vfscanf. rewrite (strlen_cstr _ _ _ H1 H2). cbn [obind]. rewrite Nat2Z.id.
  destruct (does_next f fd fmt text H3 (0 :: bs) (process_memory s) args None (MkScan s 0 0 args None)) as (v & E & Hv).
  { split; try done; [apply H2|]. by exists bs. }
  exists v. split; [exact Hv|]. unfold sc_bind. rewrite E. done.
Qed.

Lemma scan_format fuel s f fd fmt items bs args stores ret rest :
  scanning s f fd fmt (concat (scan_text <$> items)) bs -> Forall scan_item_ok items -> Z.of_nat (length items) < 2 ^ 31 ->
  Forall is_byte bs -> (length bs < fuel)%nat -> scan_items items (first_input bs) args None = Some (stores, ret, rest) ->
  targets f fmt (concat (scan_text <$> items)) (process_memory s) stores ->
  exists s', vfscanf fuel s f fmt args = Ret (s', Some ret) /\ stored_all (process_memory s) stores (process_memory s') /\
    pending s' fd = Some (tail rest).
Proof.
  intros Hs Hok Hl Hb Hf E Ht. destruct (vfscanf_start fuel s f fd fmt _ bs args Hs) as (v & Hv & ->).
  assert (input_ok fuel (first_input bs)) as Hin.
  { unfold first_input. split; [apply advance_bytes; by constructor|]. destruct bs; simpl in *; lia. }
  destruct (loop_scans f fd fmt (concat (scan_text <$> items)) (sg_fd _ _ _ _ _ _ Hs) fuel items 0 (first_input bs) (process_memory s) args None stores ret rest) as (m' & Hst & He); try done.
  { apply Hs. }
  destruct (He v Hv) as (v' & r & E' & Hr & Hm & Hp). change (Z.of_nat 0) with 0 in E'. rewrite E'. cbn [obind]. exists (sc_system v'). rewrite Hr, Hm. done.
Qed.


(** * Reading what was printed *)

Lemma number_spec_read accepts base sign ds c rest :
  Forall (fun d => accepts d = true) ds -> ds <> [] -> accepts c = false ->
  number_spec accepts base 4 sign (ds ++ c :: rest) = Some (inr (to_le_bytes 4 (wrap 32 (signed_value sign (digits_value base ds))), c :: rest, false)).
Proof. intros Hd Hn Hc. unfold number_spec. rewrite run_app by done. simpl. by destruct ds. Qed.

Lemma after_space_now g l : space (current l) = false -> l <> [] -> after_space g l = g l.
Proof. intros Hc Hl. destruct l as [|c l]; [done|]. change (current (c :: l)) with c in Hc. unfold after_space. simpl. by rewrite Hc. Qed.

(** The digits a number is printed with. *)
Definition printed_digit (base : Z) (case : Casing) (c : Z) : Prop := exists d, 0 <= d < base /\ c = digit_of case d.

Lemma radix_digits fuel base case v : 2 <= base <= 16 -> Forall (printed_digit base case) (radix_loop fuel base case v).
Proof.
  intros Hb. revert v. induction fuel as [|fuel IH]; intros v; simpl; [constructor|]. case_match; [|constructor].
  apply Forall_app. split; [apply IH|]. constructor; [|constructor]. exists (v mod base). split; [apply Z.mod_pos_bound; lia|done].
Qed.

Lemma radix_head fuel base case v :
  2 <= base <= 16 -> 0 < v < base ^ Z.of_nat fuel -> exists d ds, 0 < d < base /\ radix_loop fuel base case v = digit_of case d :: ds.
Proof.
  intros Hb. revert v. induction fuel as [|fuel IH]; intros v Hv; [simpl in Hv; lia|]. cbn [radix_loop]. rewrite Z.gtb_ltb, (proj2 (Z.ltb_lt 0 v)) by lia.
  rewrite Nat2Z.inj_succ, Z.pow_succ_r in Hv by lia. pose proof (Z.div_mod v base ltac:(lia)). pose proof (Z.mod_pos_bound v base ltac:(lia)).
  assert (0 <= v / base) by (apply Z.div_pos; lia). destruct (Z.eq_dec (v / base) 0) as [E|E].
  - exists (v mod base), []. split; [lia|]. rewrite E. by destruct fuel.
  - destruct (IH (v / base)) as (d & ds & Hd & ->); [split; [lia|apply Z.div_lt_upper_bound; lia]|]. by exists d, (ds ++ [digit_of case (v mod base)]).
Qed.

Lemma digit_of_accepted case base d :
  0 <= d < base -> (base = 8 -> octal_char (digit_of case d) = true) /\ (base <= 10 -> decimal_char (digit_of case d) = true) /\
    (base <= 16 -> case = Upper -> hex_char (digit_of case d) = true).
Proof.
  intros Hd. unfold octal_char, hex_char, decimal_char, digit_of. split_and!.
  - intros ->. rewrite (proj2 (Z.ltb_lt d 10)), !(proj2 (Z.leb_le _ _)) by lia. done.
  - intros Hb. rewrite (proj2 (Z.ltb_lt d 10)), !(proj2 (Z.leb_le _ _)) by lia. done.
  - intros Hb ->. destruct (Z.ltb_spec d 10); [rewrite !(proj2 (Z.leb_le _ _)) by lia; done|].
    destruct (Z.eqb_spec (55 + d) 70); [by rewrite !orb_true_r|]. rewrite (proj2 (Z.leb_le 65 _)), (proj2 (Z.leb_le _ 69)) by lia. by rewrite !orb_true_r.
Qed.

(** The conversions that read their own output, with the digits they accept. *)
Definition read_back (specifier : ConversionSpecifier) : option (Z * Casing * (Z -> bool)) :=
  match specifier with
  | SignedDecimalInteger | SignedInteger | UnsignedDecimalInteger => Some (10, Lower, decimal_char)
  | UnsignedOctalInteger => Some (8, Lower, octal_char)
  | UnsignedHexIntegerUpperCase => Some (16, Upper, hex_char)
  | _ => None
  end.

(** Numbers that are printed: 0 prints nothing, nor does the least int. *)
Definition printable (specifier : ConversionSpecifier) (arg : Z) : Prop :=
  wrap 32 arg <> 0 /\
  match specifier with SignedDecimalInteger | SignedInteger => wrap 32 arg <> 2 ^ 31 | _ => True end.

Definition sign_text (sign : ParsedSign) : list Z := match sign with NEGATIVE => [45] | POSITIVE => [] end.

Lemma printed_parts specifier base case accepts arg :
  read_back specifier = Some (base, case, accepts) -> printable specifier arg ->
  exists sign x, conversion_text specifier arg = sign_text sign ++ radix base case x /\ 0 < x < 2 ^ 32 /\ wrap 32 (signed_value sign x) = wrap 32 arg.
Proof.
  intros Hr [H0 H1]. pose proof (Z.mod_pos_bound arg (2 ^ 32) ltac:(lia)) as Hu. change (arg mod 2 ^ 32) with (wrap 32 arg) in Hu.
  assert (wrap 32 arg <> 2 ^ 31 -> exists sign x, (if to_c_int arg <? 0 then [45] else []) ++ (if to_c_int arg =? - 2 ^ 31 then [] else radix 10 Lower (Z.abs (to_c_int arg))) =
    sign_text sign ++ radix 10 Lower x /\ 0 < x < 2 ^ 32 /\ wrap 32 (signed_value sign x) = wrap 32 arg) as Hsigned.
  { intros Hm. pose proof (wrap_to_c_int arg) as Hw. pose proof (to_c_int_range arg) as Hrng.
    assert (to_c_int arg <> 0) by (intros E; rewrite E in Hw; by rewrite <- Hw in H0).
    assert (to_c_int arg <> - 2 ^ 31) by (intros E; rewrite E in Hw; by rewrite <- Hw in Hm). rewrite (proj2 (Z.eqb_neq _ _)) by done.
    destruct (Z.ltb_spec (to_c_int arg) 0); [exists NEGATIVE, (- to_c_int arg)|exists POSITIVE, (to_c_int arg)].
    - rewrite Z.abs_neq by lia. split; [done|]. split; [lia|]. simpl. by rewrite Z.opp_involutive.
    - rewrite Z.abs_eq by lia. split; [done|]. split; [lia|]. done. }
  assert (forall b cs, exists sign x, radix b cs (arg mod 2 ^ 32) = sign_text sign ++ radix b cs x /\ 0 < x < 2 ^ 32 /\ wrap 32 (signed_value sign x) = wrap 32 arg) as Hun.
  { intros b cs. exists POSITIVE, (wrap 32 arg). split; [done|]. split; [lia|]. simpl. by rewrite wrap_wrap by lia. }
  destruct specifier; try discriminate Hr; injection Hr as <- <- <-; simpl; auto.
Qed.

(** The first digit is neither a space nor a sign nor a 0. *)
Lemma first_digit case base d rest :
  0 < d < base -> base <= 16 -> case = Upper \/ base <= 10 ->
  let c := digit_of case d in space c = false /\ (c =? 43) || (c =? 45) = false /\ (c =? 48) = false /\ current (c :: rest) = c.
Proof.
  intros Hd Hb Hc. cbn zeta. unfold digit_of, space, isspace.
  destruct (Z.ltb_spec d 10) as [H|H]; [rewrite !(proj2 (Z.eqb_neq (48 + d) _)) by lia; done|].
  destruct Hc as [->|Hc]; [|lia]. rewrite !(proj2 (Z.eqb_neq (55 + d) _)) by lia; done.
Qed.

Lemma read_back_spec sp base case accepts arg c rest :
  read_back (sf_specifier sp) = Some (base, case, accepts) -> printable (sf_specifier sp) arg -> accepts c = false ->
  assigning_spec sp (conversion_text (sf_specifier sp) arg ++ c :: rest) = Some (inr (to_le_bytes 4 (wrap 32 arg), c :: rest, false)).
Proof.
  intros Hr Hp Hc. destruct (printed_parts _ _ _ _ _ Hr Hp) as (sign & x & -> & Hx & Hw).
  assert (2 <= base <= 16 /\ (case = Upper \/ base <= 10) /\ Forall (fun d => accepts d = true) (radix base case x)) as (Hb & Hcase & Hacc).
  { assert (2 <= base <= 16 /\ (case = Upper \/ base <= 10) /\ forall d, 0 <= d < base -> accepts (digit_of case d) = true) as (H1 & H2 & H3).
    { destruct (sf_specifier sp); try discriminate Hr; injection Hr as <- <- <-;
        (split; [lia|]; split; [lia || by left|]; intros d Hd; apply (digit_of_accepted _ _ _ Hd); done || lia). }
    split; [done|]. split; [done|]. eapply Forall_impl; [by apply radix_digits|]. intros y (d & Hd & ->). by apply H3. }
  assert (0 < x < base ^ Z.of_nat 64) as Hx' by (split; [lia|]; apply (Z.lt_le_trans _ (2 ^ 64)); [lia|apply Z.pow_le_mono_l; lia]).
  pose proof (radix_value 64 base case x ltac:(lia) ltac:(lia)) as Hval. fold (radix base case x) in Hval.
  destruct (radix_head 64 base case x ltac:(lia) Hx') as (d & ds & Hd & Hds). fold (radix base case x) in Hds.
  destruct (first_digit case base d (ds ++ c :: rest) Hd ltac:(lia) Hcase) as (F1 & F2 & F3 & F4).
  set (l := radix base case x ++ c :: rest). assert (l = digit_of case d :: ds ++ c :: rest) as El by (unfold l; by rewrite Hds).
  assert (number_spec accepts base 4 sign l = Some (inr (to_le_bytes 4 (wrap 32 arg), c :: rest, false))) as Hn.
  { unfold l. rewrite number_spec_read by (done || by rewrite Hds). unfold digits_value. by rewrite Hval, Hw. }
  assert (sign_of (sign_text sign ++ l) = (sign, l)) as Hsg.
  { destruct sign; unfold sign_of, sign_text, app; [by rewrite El, F4, F2|]. by rewrite El. }
  assert (forall g, after_space g (sign_text sign ++ l) = g (sign_text sign ++ l)) as Hsp.
  { intros g. apply after_space_now; [|by destruct sign; rewrite El]. destruct sign; [|done]. simpl app. by rewrite El, F4. }
  rewrite <- app_assoc. fold l. unfold assigning_spec. destruct (sf_specifier sp); try discriminate Hr; injection Hr as <- <- <-;
    rewrite Hsp; unfold decimal_spec, integer_spec, octal_spec, hex_spec; rewrite Hsg; rewrite ?El in *; rewrite ?F4, ?F3; exact Hn.
Qed.

Lemma printed_bytes specifier base case accepts arg :
  read_back specifier = Some (base, case, accepts) -> printable specifier arg -> Forall is_byte (conversion_text specifier arg).
Proof.
  intros Hr Hp. destruct (printed_parts _ _ _ _ _ Hr Hp) as (sign & x & -> & _ & _). apply Forall_app. split; [by destruct sign; repeat constructor|].
  assert (2 <= base <= 16) as Hb by (destruct specifier; try discriminate Hr; injection Hr as <- <- <-; lia).
  eapply Forall_impl; [by apply radix_digits|]. intros y (d & Hd & ->). unfold is_byte, in_u, digit_of. destruct (d <? 10), case; lia.
Qed.

Lemma scanf_reads_text fuel s f fd fmt t sp base case accepts p arg c rest :
  read_back (sf_specifier sp) = Some (base, case, accepts) -> printable (sf_specifier sp) arg -> accepts c = false ->
  scanning s f fd fmt (37 :: t) (conversion_text (sf_specifier sp) arg ++ c :: rest) ->
  parse_scanf scanf_default t = Some sp -> sf_assignment_suppression sp = false -> Forall is_byte (c :: rest) ->
  (length (conversion_text (sf_specifier sp) arg ++ c :: rest) < fuel)%nat -> target f fmt (37 :: t) (process_memory s) p 4 ->
  exists s', vfscanf fuel s f fmt [p] = Ret (s', Some 1) /\ stored (process_memory s) p (to_le_bytes 4 (wrap 32 arg)) (process_memory s') /\
    pending s' fd = Some rest.
Proof.
  intros Hr Hp Hc Hs Ht Hsup Hb Hf Htg. pose proof (read_back_spec sp _ _ _ _ c rest Hr Hp Hc) as Hspec.
  pose proof (printed_bytes _ _ _ _ _ Hr Hp) as Hbt.
  set (l := conversion_text (sf_specifier sp) arg ++ c :: rest) in *.
  assert (first_input l = l) as Hl by (unfold first_input; by destruct (conversion_text (sf_specifier sp) arg)).
  destruct (scan_format fuel s f fd fmt [Directive t sp] l [p] [(p, to_le_bytes 4 (wrap 32 arg))] 1 (c :: rest)) as (s' & E & Hst & Hpd).
  - by rewrite <- (app_nil_r (37 :: t)) in Hs.
  - by constructor.
  - done.
  - apply Forall_app. done.
  - done.
  - rewrite Hl. cbn [scan_items]. rewrite decide_False by (intros E; by rewrite E in Hr). rewrite Hspec. cbn [mbind option_bind]. by rewrite Hsup.
  - constructor; [|constructor]. cbn [fst snd]. rewrite length_to_le_bytes. simpl. by rewrite app_nil_r.
  - exists s'. split; [done|]. split; [|done]. by destruct Hst as (m1 & H1 & ->).
Qed.

(** C30: scanning reads back what printing wrote: [vfprintf] with %d, %i, %u, %o or %X
    writes a text for its argument, and when that text is the input of a call of [vfscanf]
    with the same conversion, followed by a character that is no digit of that base,
    [vfscanf] assigns the number, returns 1 and leaves what follows the character.  The
    number is not 0, which prints as no text, and with %d and %i not the least int.  (With
    %x a number with a digit f is not read back, and without a character behind the
    number [vfscanf] does not return.) *)
Theorem scanf_reads_printf specifier base case accepts s1 f1 fd1 fmt1 out arg :
  read_back specifier = Some (base, case, accepts) -> printable specifier arg -> in_u 64 arg ->
  vm_wf (process_memory s1) -> cstr_at (process_memory s1) fmt1 (37 :: specifier_text specifier) ->
  file_at (process_memory s1) f1 fd1 -> sent s1 fd1 = Some out ->
  exists s1' text, vfprintf s1 f1 fmt1 [arg] = Ret (s1', Z.of_nat (length text)) /\ sent s1' fd1 = Some (out ++ text) /\
    forall fuel s f fd fmt t sp p c rest,
      scanning s f fd fmt (37 :: t) (text ++ c :: rest) -> parse_scanf scanf_default t = Some sp -> sf_specifier sp = specifier ->
      sf_assignment_suppression sp = false -> accepts c = false -> Forall is_byte (c :: rest) ->
      (length (text ++ c :: rest) < fuel)%nat -> target f fmt (37 :: t) (process_memory s) p 4 ->
      exists s', vfscanf fuel s f fmt [p] = Ret (s', Some 1) /\
        stored (process_memory s) p (to_le_bytes 4 (wrap 32 arg)) (process_memory s') /\ pending s' fd = Some rest.
Proof.
  intros Hr Hp Ha Hm Hc Hf Hs. destruct (vfprintf_text [Conv (plain_spec specifier) arg] s1 f1 fd1 fmt1 out Hm) as (s1' & E & H & _); try done.
  - by destruct specifier; try discriminate Hr.
  - constructor; [|constructor]. split_and!; [|by destruct specifier|done]. by destruct specifier; try discriminate Hr.
  - cbn [fmap list_fmap concat item_out plain_spec pf_specifier]. rewrite app_nil_r. pose proof (conversion_text_short specifier arg). lia.
  - cbn [fmap list_fmap concat item_out item_args plain_spec pf_specifier app] in E, H. rewrite app_nil_r in E, H.
    exists s1', (conversion_text specifier arg). split; [exact E|]. split; [exact H|].
    intros fuel s f fd fmt t sp p c rest Hsc Ht <- Hsup Hacc Hb Hfu Htg. by eapply scanf_reads_text.
Qed.

(** * The end of the input *)

(** A part that does not end, whatever its fuel. *)
Lemma digits_stuck f fd fmt text fuel accepts as_type base l m args a n :
  - 2 ^ 31 <= fd < 2 ^ 31 -> (forall c, accepts c = true -> hex_char c = true) -> Forall (fun c => accepts c = true) l ->
  forall v, viewed f fd fmt text v (MkView l m args a) -> exists v', parse_digits fuel f accepts as_type base n v = Ret (v', Unfinished).
Proof.
  intros Hfd Hacc. revert l n. induction fuel as [|fuel IH]; intros l n Hl v Hv; [by exists v|]. cbn [parse_digits]. unfold sc_bind at 1. cbn [sc_char obind].
  destruct (vd_in _ _ _ _ _ _ Hv) as (rest & E & Hp). cbn [vw_in] in E. subst l. inversion Hl as [|? ? Hc Hr]; subst. rewrite Hc.
  unfold sc_bind at 1. rewrite (accepts_digit _ (Hacc _ Hc)). cbn [unwrap sc_lift obind].
  destruct (does_next f fd fmt text Hfd _ _ _ _ v Hv) as (v1 & E1 & H1). unfold sc_bind at 1. rewrite E1. cbn [obind].
  eapply IH; [|exact H1]. destruct rest; [done|by inversion Hl].
Qed.

Lemma decimal_stuck f fd fmt text fuel suppressed l m args a v :
  - 2 ^ 31 <= fd < 2 ^ 31 -> Forall (fun c => decimal_char c = true) l -> viewed f fd fmt text v (MkView l m args a) ->
  exists v', scan_decimal fuel f suppressed v = Ret (v', Unfinished).
Proof.
  intros Hfd Hl Hv. unfold scan_decimal. destruct fuel as [|fuel]; [by eexists|].
  destruct (vd_in _ _ _ _ _ _ Hv) as (rest & E & _). cbn [vw_in] in E. revert E. generalize (stream_char v). intros c ->. inversion Hl as [|? ? Hc _]; subst.
  assert (space c = false /\ (c =? 43) || (c =? 45) = false) as [Hspc Hsg].
  { unfold decimal_char in Hc. rewrite andb_true_iff, !Z.leb_le in Hc. unfold space, isspace. rewrite !(proj2 (Z.eqb_neq c _)) by lia. done. }
  assert (does f fd fmt text (skip_space (Datatypes.S fuel) f) (MkView (c :: rest) m args a) () (MkView (c :: rest) m args a)) as D1.
  { cbn [skip_space]. eapply does_bind; [apply does_char|]. change (current _) with c. unfold space in Hspc. apply negb_false_iff in Hspc.
    rewrite Hspc. apply does_ret. }
  destruct (D1 v Hv) as (v1 & E1 & H1). unfold sc_bind at 1. rewrite E1. cbn [obind].
  destruct (does_sign f fd fmt text Hfd (c :: rest) m args a v1 H1) as (v2 & E2 & H2). unfold sc_bind at 1. rewrite E2. cbn [obind].
  unfold sign_of in H2. change (current (c :: rest)) with c in H2. rewrite Hsg in H2. cbn [snd] in H2.
  destruct (digits_stuck f fd fmt text (Datatypes.S fuel) decimal_char to_c_int 10 (c :: rest) m args a None Hfd decimal_is_hex Hl v2 H2) as (v3 & E3).
  exists v3. unfold sc_bind at 1. by rewrite E3.
Qed.

(** At the end of its input [vfscanf] does not return: a format that begins with %d
    or %u, on an input that is a number and nothing else, reads on for ever, since a read
    at the end leaves the last digit in place and is not told apart from one that
    delivers it again. *)
Theorem vfscanf_hangs_after_number fuel s f fd fmt t sp more ds args :
  scanning s f fd fmt (37 :: t ++ more) ds -> parse_scanf scanf_default t = Some sp ->
  sf_specifier sp = SignedDecimalInteger \/ sf_specifier sp = UnsignedDecimalInteger ->
  ds <> [] -> Forall (fun c => decimal_char c = true) ds ->
  exists s', vfscanf fuel s f fmt args = Ret (s', None).
Proof.
  intros Hs Ht Hsp Hne Hds. destruct (vfscanf_start fuel s f fd fmt _ ds args Hs) as (v & Hv & ->).
  assert (first_input ds = ds) as Hfi by by destruct ds. rewrite Hfi in Hv. pose proof (sg_fd _ _ _ _ _ _ Hs) as Hfd.
  destruct (decimal_stuck f fd fmt _ fuel (sf_assignment_suppression sp) ds _ _ _ v Hfd Hds Hv) as (v' & Hd).
  pose proof (loop_at_directive f fd fmt _ fuel t sp 0 more v _ Hv Ht eq_refl) as El. change (Z.of_nat 0) with 0 in El. rewrite El. clear El.
  exists (sc_system v').
  assert (execute_scan fuel f sp = scan_decimal fuel f (sf_assignment_suppression sp)) as -> by (unfold execute_scan; destruct Hsp as [-> | ->]; done).
  unfold sc_bind at 1. by rewrite Hd.
Qed.

(** * Lines *)

(** A buffer as [read] fills it. *)
Lemma buffer_at m p n :
  vm_wf m -> room m p n -> (0 < n)%nat ->
  exists info, try_as_mut (MkPtr p) m n = Ret (Some info) /\
    forall bytes, Forall is_byte bytes -> (length bytes <= n)%nat -> exists m', fill_buf m info 0 bytes = Ret m' /\ stored m p bytes m'.
Proof.
  intros Hm Hr Hn. pose proof Hr as [->|(i & r & Hi & Hc & Hf)]; [lia|]. pose proof (try_map_covers m p i r Hm Hi Hc) as Ht.
  eexists. unfold try_as_mut, try_as_ptr. cbn [inner]. rewrite Ht. cbn [obind fmap option_fmap option_map snd]. simpl. rewrite Hi. cbn [unwrap obind].
  unfold slice. rewrite decide_True by (unfold covers, region_len in *; lia). split; [reflexivity|].
  intros bytes Hb Hl. unfold fill_buf. cbn [region_index offset_in_region]. rewrite Hi, Nat.add_0_r. cbn [unwrap obind].
  destruct (decide (bytes = [])) as [->|Hne].
  - exists m. split; [|by apply stored_nil]. simpl. f_equal. apply list_insert_id. rewrite Hi. by destruct r.
  - destruct (write_at m p (length bytes) (from_le_bytes bytes) Hm) as (m' & E & Hs);
      [replace p with (p + Z.of_nat 0) by lia; eapply room_sub; [exact Hr|lia]|destruct bytes; [done|simpl; lia]|by apply from_le_bytes_range|].
    rewrite to_from_le_bytes in Hs by done. exists m'. split; [|done]. unfold write_le in E. rewrite Ht in E. cbn [obind unwrap] in E.
    rewrite to_from_le_bytes in E by done. exact E.
Qed.

Lemma read_mem_ok s fd p n bs :
  vm_wf (process_memory s) -> room (process_memory s) p n -> 0 < Z.of_nat n < 2 ^ 31 -> pending s fd = Some bs -> Forall is_byte bs ->
  exists s', read_mem s fd p (Z.of_nat n) = Ret (s', Some (Z.of_nat (length (take n bs)))) /\
    stored (process_memory s) p (take n bs) (process_memory s') /\ pending s' fd = Some (drop n bs).
Proof.
  intros Hm Hr Hn Hp Hb. destruct (buffer_at (process_memory s) p n Hm Hr ltac:(lia)) as (info & E & Hfill).
  destruct (sys_read_ok s fd (Z.of_nat n) bs Hp ltac:(lia)) as (s1 & E1 & Hp1 & Hm1). rewrite Nat2Z.id in *.
  destruct (Hfill (take n bs)) as (m' & Ef & Hs); [by apply Forall_take|rewrite length_take; lia|].
  exists (set_process_memory s1 m'). unfold read_mem. rewrite Nat2Z.id, E. cbn [obind]. rewrite E1. cbn [obind]. rewrite Hm1, Ef. cbn [obind].
  rewrite memory_set_memory, pending_set_memory. done.
Qed.

(** A line of at most [n] characters, without its newline, and what follows. *)
Fixpoint line_spec (n : nat) (bs : list Z) : list Z * list Z :=
  match n, bs with
  | O, _ | _, [] => ([], bs)
  | Datatypes.S n, c :: t => if c =? 10 then ([], t) else let r := line_spec n t in (c :: r.1, r.2)
  end.

Lemma stored_over m a b m1 c m2 : stored m a [b] m1 -> stored m1 a [c] m2 -> stored m a [c] m2.
Proof.
  intros [W1 V1 R1] [W2 V2 R2]. split; [done| |auto]. intros x. rewrite V2. unfold view_write. rewrite V1. unfold view_write. simpl.
  by repeat case_decide.
Qed.

Lemma terminate_ok m str (i n : nat) : vm_wf m -> room m str n -> (i < n)%nat ->
  exists m', write_le 1 m (ptr_add str (Z.of_nat i)) 0 = Ret m' /\ stored m (str + Z.of_nat i) [0] m'.
Proof.
  intros Hm Hr Hi. rewrite (ptr_add_in m str n) by (done || lia).
  destruct (write_at m (str + Z.of_nat i) 1 0 Hm) as (m' & E & Hs); [eapply room_sub; [exact Hr|lia]|lia|done|]. by exists m'.
Qed.

(** A state in which [fgets] reads: [n] bytes at [str] apart from the FILE. *)
Record lining s (f fd str : Z) (n : nat) (bs : list Z) : Prop := {
  ln_wf : vm_wf (process_memory s);
  ln_room : room (process_memory s) str n;
  ln_fd : - 2 ^ 31 <= fd < 2 ^ 31;
  ln_file : bytes_at (process_memory s) f (to_le_bytes 4 (wrap 32 fd));
  ln_apart : apart str n f 4;
  ln_in : pending s fd = Some bs;
  ln_bytes : Forall is_byte bs;
}.

Lemma lining_stored s s' f fd str n bs bs' (i : nat) c :
  lining s f fd str n bs -> stored (process_memory s) (str + Z.of_nat i) c (process_memory s') -> (i + length c <= n)%nat ->
  pending s' fd = Some bs' -> Forall is_byte bs' -> lining s' f fd str n bs'.
Proof.
  intros [H1 H2 H3 H4 H5 H6 H7] Hs Hi Hp Hb. split; try done; [apply Hs|by apply Hs|].
  eapply stored_elsewhere; [exact Hs|done|]. rewrite length_to_le_bytes. unfold apart in H5. lia.
Qed.

Lemma fgets_terminates s f fd str n bs (i : nat) :
  lining s f fd str n bs -> (i < n)%nat ->
  exists s', (let! m := write_le 1 (process_memory s) (ptr_add str (Z.of_nat i)) 0 in Ret (set_process_memory s m, Some str)) = Ret (s', Some str) /\
    stored (process_memory s) (str + Z.of_nat i) [0] (process_memory s') /\ pending s' fd = Some bs.
Proof.
  intros Hl Hi. destruct (terminate_ok (process_memory s) str i n) as (m' & -> & Hst); [apply Hl|apply Hl|done|]. cbn [obind].
  exists (set_process_memory s m'). rewrite memory_set_memory, pending_set_memory. split; [done|]. split; [done|apply Hl].
Qed.

Lemma fgets_loop_reads fuel s f fd str count bs (i n : nat) :
  lining s f fd str (Z.to_nat count) bs -> count < 2 ^ 31 -> Z.of_nat (i + n) = count - 1 -> (0 < n)%nat -> (length bs < fuel)%nat ->
  exists s', fgets_loop fuel s str count f (Z.of_nat i) = Ret (s', Some str) /\
    stored (process_memory s) (str + Z.of_nat i) ((line_spec n bs).1 ++ [0]) (process_memory s') /\ pending s' fd = Some (line_spec n bs).2.
Proof.
  revert s bs i n. induction fuel as [|fuel IH]; intros s bs i n Hl Hc Hi Hn Hf; [lia|]. destruct n as [|n]; [lia|]. cbn [fgets_loop].
  rewrite (fileno_at s f fd) by (eapply file_at_bytes; apply Hl). cbn [obind].
  pose proof (ptr_add_in (process_memory s) str (Z.to_nat count) (Z.of_nat i) (ln_wf _ _ _ _ _ _ Hl) (ln_room _ _ _ _ _ _ Hl) ltac:(lia)) as Ep.
  destruct (read_mem_ok s fd (str + Z.of_nat i) 1 bs) as (s1 & E & Hs1 & Hp1); [apply Hl|eapply room_sub; [apply Hl|lia]|lia|apply Hl|apply Hl|].
  change (Z.of_nat 1) with 1 in E. rewrite <- Ep in E. rewrite E. cbn [obind]. clear E.
  destruct bs as [|c t].
  - cbn [line_spec fst snd app take drop length] in *. change (Z.of_nat 0 =? 0) with true. cbn iota.
    assert (lining s1 f fd str (Z.to_nat count) []) as Hl1 by (eapply lining_stored; [exact Hl|exact Hs1|simpl; lia|done|constructor]).
    destruct (fgets_terminates s1 f fd str _ [] i Hl1 ltac:(lia)) as (s' & E & Hst & Hp). exists s'. split; [exact E|]. split; [|done].
    apply (stored_app _ _ [] _ [0] _ Hs1). by rewrite Z.add_0_r.
  - pose proof (ln_bytes _ _ _ _ _ _ Hl) as Hb. inversion Hb as [|? ? Hcb Htb]; subst. cbn [take drop length] in *.
    change (Z.of_nat 1 =? 0) with false. change (Z.of_nat 1 <? 0) with false. cbn iota.
    assert (lining s1 f fd str (Z.to_nat count) t) as Hl1 by (eapply lining_stored; [exact Hl|exact Hs1|simpl; lia|done|done]).
    assert (bytes_at (process_memory s1) (ptr_add str (Z.of_nat i)) [c]) as Bc
      by (rewrite Ep; eapply stored_bytes; [|exact Hs1]; eapply room_sub; [apply Hl|simpl; lia]).
    pose proof (read_byte_at (process_memory s1) _ [c] 0 c (ln_wf _ _ _ _ _ _ Hl1) Bc eq_refl) as Er.
    rewrite (ptr_add_in (process_memory s1) _ 1) in Er by (apply Hl1 || apply Bc || lia). rewrite Z.add_0_r in Er. rewrite Er. cbn [obind].
    cbn [line_spec]. destruct (c =? 10); cbn [fst snd app].
    + destruct (fgets_terminates s1 f fd str _ t i Hl1 ltac:(lia)) as (s' & E & Hst & Hp). exists s'. split; [exact E|]. split; [|done].
      by eapply stored_over.
    + rewrite (wrap_small 64 (Z.of_nat i + 1)), (wrap_small 64 count), (wrap_small 64 (count - 1)) by (unfold in_u; lia).
      replace (Z.of_nat i + 1) with (Z.of_nat (Datatypes.S i)) by lia. rewrite Z.geb_leb. destruct (Z.leb_spec (count - 1) (Z.of_nat (Datatypes.S i))).
      * replace n with 0%nat by lia. cbn [line_spec fst snd app].
        destruct (fgets_terminates s1 f fd str _ t (Datatypes.S i) Hl1 ltac:(lia)) as (s' & E & Hst & Hp). exists s'. split; [exact E|]. split; [|done].
        apply (stored_app _ _ [c] _ [0] _ Hs1). by replace (str + Z.of_nat i + Z.of_nat (length [c])) with (str + Z.of_nat (Datatypes.S i)) by (simpl; lia).
      * destruct (IH s1 t (Datatypes.S i) n Hl1 Hc) as (s' & E & Hst & Hp); [lia|lia|lia|]. exists s'. split; [exact E|]. split; [|done].
        apply (stored_app _ _ [c] _ _ _ Hs1). by replace (str + Z.of_nat i + Z.of_nat (length [c])) with (str + Z.of_nat (Datatypes.S i)) by (simpl; lia).
Qed.

(** [fgets] with room for at least two bytes reads a line: it stores the characters
    up to a newline, the end of the input or the last but one byte of the buffer, a zero
    behind them, and nothing else; it returns the buffer, and what follows the line is
    left to be read.  The newline is read and not stored. *)
Theorem fgets_reads_line fuel s f fd str count bs :
  lining s f fd str (Z.to_nat count) bs -> 2 <= count < 2 ^ 31 -> (length bs < fuel)%nat ->
  exists s', fgets fuel s str count f = Ret (s', Some str) /\
    stored (process_memory s) str ((line_spec (Z.to_nat count - 1) bs).1 ++ [0]) (process_memory s') /\
    pending s' fd = Some (line_spec (Z.to_nat count - 1) bs).2.
Proof.
  intros Hl Hc Hf. destruct (fgets_loop_reads fuel s f fd str count bs 0 (Z.to_nat count - 1) Hl) as (s' & E & H); try lia.
  rewrite Z.add_0_r in H. by exists s'.
Qed.

End Calls.
