(* ===== verification/Exec.v ===== *)
(** Replacing the program of a process: [exec], the parsing of argv and envp, and
    the system calls [fexecve], [execve] and [execvpe] of kernel/src/syscall.rs. *)
From S2P Require Import Prelude MachineInt Str Path Vfs Keyboard CharDevice Terminal PackedStruct EmulatorMemory VirtMem Allocator Scheduler Cpu Elf Loader FdTable Heap Kernel FileCalls.
From stdpp Require Import list gmap.
#[local] Open Scope Z_scope.

(** * Maps with ordered keys *)

(** The order of strings: by their characters, which for UTF-8 is the order of
    their bytes. *)
Fixpoint str_compare (a b : str) : comparison :=
  match a, b with
  | [], [] => Eq
  | [], _ => Lt
  | _, [] => Gt
  | x :: a, y :: b => match x ?= y with Eq => str_compare a b | c => c end
  end.

(** [BTreeMap::insert] on the entries in key order. *)
Fixpoint btree_insert {A} (k : str) (v : A) (l : list (str * A)) : list (str * A) :=
  match l with
  | [] => [(k, v)]
  | (k', v') :: rest =>
      match str_compare k k' with
      | Eq => (k, v) :: rest
      | Lt => (k, v) :: (k', v') :: rest
      | Gt => (k', v') :: btree_insert k v rest
      end
  end.

(** The entries of a map in key order. *)
Definition entries {A} (e : gmap str A) : list (str * A) :=
  fold_right (fun kv l => btree_insert kv.1 kv.2 l) [] (map_to_list e).

(** * exit *)

Definition exit {N P : Type} (pd : ProcessData N P) (exit_code : Z) : ProcessData N P :=
  match pd_parent_pid pd with
  | None => set_pd_state pd (TERMINATED_NORMALLY_WAITING_TO_BE_DEALLOCATED exit_code)
  | Some _ => set_pd_state pd (TERMINATED_NORMALLY_CHILD_WAITING_FOR_PARENT_ACKNOWLEDGEMENT exit_code)
  end.

(** * argv and envp *)

(** The C strings at the pointers, in order; None if one is no valid string. *)
Fixpoint cstrings (ptrs : list Z) (m : LittleEndianVirtualMemory) : outcome (option (list str)) :=
  match ptrs with
  | [] => Ret (Some [])
  | ptr :: ptrs =>
      let? s := cstr_user_pointer_to_str (MkPtr ptr) m in
      let? rest := cstrings ptrs m in
      Ret (Some (s :: rest))
  end.

Definition parse_exec_args (m : LittleEndianVirtualMemory) (argv : UserPointer) : outcome (option (list str)) :=
  let? ptrs := pointer_array argv m in
  cstrings ptrs m.

(** The loop over the strings of envp: [name=value]. *)
Fixpoint parse_env_loop (ptrs : list Z) (m : LittleEndianVirtualMemory) (parsed_env : list (str * str))
  : outcome (option (list (str * str))) :=
  match ptrs with
  | [] => Ret (Some parsed_env)
  | ptr :: ptrs =>
      let? env_str := cstr_user_pointer_to_str (MkPtr ptr) m in
      let? (name, value) := Ret (split_once 61 env_str) in
      parse_env_loop ptrs m (btree_insert name value parsed_env)
  end.

Definition parse_exec_env (m : LittleEndianVirtualMemory) (envp : UserPointer) : outcome (option (list (str * str))) :=
  let? ptrs := pointer_array envp m in
  parse_env_loop ptrs m [].

(** The loop over the current environment, used for a null envp. *)
Fixpoint inherit_env (e : list (str * Z)) (m : LittleEndianVirtualMemory) (parsed_env : list (str * str))
  : outcome (option (list (str * str))) :=
  match e with
  | [] => Ret (Some parsed_env)
  | (name, ptr) :: e =>
      let? val := cstr_user_pointer_to_str (MkPtr ptr) m in
      inherit_env e m (btree_insert name val parsed_env)
  end.

Section Exec.
Context {PS : PackedStruct}.
Context {W F D FB : Type} {FS : FileSystem W F D}.
Abbreviation PData := (ProcessData (Node F D) Path).
Implicit Types k : Call W F D FB.

Definition parse_argv_and_envp (m : LittleEndianVirtualMemory) (pd : PData) (argv envp : UserPointer)
  : outcome (option (list str * list (str * str))) :=
  let? parsed_args := parse_exec_args m argv in
  let? parsed_env :=
    if negb (get_inner envp =? USERSPACE_NULL_PTR) then parse_exec_env m envp
    else inherit_env (entries (env pd)) m [] in
  Ret (Some (parsed_args, parsed_env)).

(** * exec *)

(** The result of a call that returns [Result<(), isize>]: [inl] is [Ok]. *)
Abbreviation result := (unit + Z)%type.

(** Replacing the program.  The old memory is cleared first, and the regions and the
    allocator are changed in place: a failure on the way keeps what is loaded until
    then and ends the process. *)
Definition replace_program k (elf : ElfFile) (file_bytes : list Z) (args : list str) (envs : list (str * str))
  : outcome (Call W F D FB * result) :=
  let failed k := Ret (set_data k (exit (c_data k) 0xDED), inr (-1)) in
  let k := set_call_memory k (clear_regions (c_memory k)) in
  let k := set_emu k (reset_registers (c_emu k) (program_entry (header elf))) in
  let! (m, lower_virt_addr) := load_elf_into_virtual_memory elf file_bytes (c_memory k) in
  let k := set_call_memory k m in
  match lower_virt_addr with
  | None => failed k
  | Some lower_virt_addr =>
    let program_stack := replicate (Z.to_nat PROGRAM_STACK_SIZE) 0 in
    let! (m, did_create_stack_region) := map_region (u64_max - PROGRAM_STACK_SIZE + 1) program_stack (c_memory k) in
    let k := set_call_memory k m in
    match did_create_stack_region with
    | None => failed k
    | Some _ =>
      let! taken := add_chk 64 PROGRAM_STACK_SIZE lower_virt_addr in
      let! heap_len := sub_chk u64_max taken in
      let k := set_data k (set_allocator (c_data k) (alloc_from lower_virt_addr heap_len true)) in
      let! ((m, a), argv) :=
        load_args_into_virtual_memory args (length args) (c_memory k, virtual_allocator (c_data k)) in
      let k := set_data (set_call_memory k m) (set_allocator (c_data k) a) in
      match argv with
      | None => failed k
      | Some argv =>
        let! ((m, a), prog_env) := load_env_into_virtual_memory envs ∅ (c_memory k, virtual_allocator (c_data k)) in
        let k := set_data (set_call_memory k m) (set_allocator (c_data k) a) in
        match prog_env with
        | None => failed k
        | Some prog_env =>
            let k := set_data k (set_env (c_data k) prog_env) in
            let! emu := write_reg (c_emu k) 10 (Z.of_nat (length args)) in
            let! emu := write_reg emu 11 argv in
            Ret (set_emu k emu, inl ())
        end
      end
    end
  end.

(** The first line of an interpreter script without [#!]: the interpreter, and the
    rest of the line after a space. *)
Definition parse_interpreter (file_bytes : list Z) : outcome (option (str * option str)) :=
  let! b0 := unwrap (file_bytes !! 0%nat) in
  let! is_script :=
    if b0 =? 35 then let! b1 := unwrap (file_bytes !! 1%nat) in Ret (b1 =? 33) else Ret false in
  if negb is_script then Ret None
  else
    let? first_line := Ret (head (str_split 10 file_bytes)) in
    let? first_line := Ret (from_utf8 first_line) in
    let first_line := trim (drop 2 first_line) in
    match split_once 32 first_line with
    | Some (interpreter, opt_arg) => Ret (Some (interpreter, Some opt_arg))
    | None => Ret (Some (first_line, None))
    end.

(** [exec] with [n] = 101 - recursion_depth: the depth 101 is refused. *)
Fixpoint exec_at (n : nat) k (node : Node F D) (node_path : Path) (args : list str) (envs : list (str * str))
  : outcome (Call W F D FB * result) :=
  match n with
  | O => Ret (k, inr (-1))
  | S n =>
    match node with
    | Folder _ => Ret (k, inr (-1))
    | File f =>
      let! file_size := get_size (c_fs k) f in
      let! file_bytes := file_read (c_fs k) f 0 file_size in
      match file_bytes with
      | None => Ret (k, inr (-1))
      | Some file_bytes =>
        let! elf := from_bytes file_bytes in
        match elf with
        | Some elf =>
            if negb (bool_decide (instruction_set (header elf) = RiscV)) then Ret (k, inr (-1))
            else if negb (bool_decide (elf_type (header elf) = EXECUTABLE)) then Ret (k, inr (-1))
            else replace_program k elf file_bytes args envs
        | None =>
            let! line := parse_interpreter file_bytes in
            match line with
            | None => Ret (k, inr (-1))
            | Some (interpreter, opt_arg) =>
              match try_from_str interpreter with
              | None => Ret (k, inr (-1))
              | Some interpreter_path =>
                let! interpreter_node := vfs_lookup (c_devices k) interpreter_path in
                match interpreter_node with
                | None => Ret (k, inr (-1))
                | Some interpreter_node =>
                    let new_args := [into_inner interpreter_path] ++
                      match opt_arg with Some a => [a] | None => [] end ++
                      [into_inner node_path] ++ drop 1 args in
                    exec_at n k interpreter_node interpreter_path new_args envs
                end
              end
            end
        end
      end
    end
  end.

Definition exec k (node : Node F D) (node_path : Path) (args : list str) (envs : list (str * str))
  : outcome (Call W F D FB * result) := exec_at 101 k node node_path args envs.

(** The end of the three calls: argv and envp, then [exec]. *)
Definition exec_with k (node : Node F D) (path : Path) (argv envp : UserPointer) : outcome (Call W F D FB * result) :=
  let! parsed := parse_argv_and_envp (c_memory k) (c_data k) argv envp in
  match parsed with
  | None => Ret (k, inr (-1))
  | Some (parsed_args, parsed_env) => exec k node path parsed_args parsed_env
  end.

(** * The system calls *)

Definition fexecve k (fd : nat) (argv envp : UserPointer) : outcome (Call W F D FB * result) :=
  match get_mapping (c_data k) fd with
  | Some (Regular node_index) =>
      let! node := get_slot (open_nodes (c_data k)) node_index in
      if negb (has_flag (node_flags node) O_RDONLY) then Ret (k, inr (-1))
      else exec_with k (vfs_node node) (node_path node) argv envp
  | _ => Ret (k, inr (-1))
  end.

Definition execve k (pathname argv envp : UserPointer) : outcome (Call W F D FB * result) :=
  let! path := cstr_user_pointer_to_str pathname (c_memory k) in
  match path with
  | None => Ret (k, inr (-1))
  | Some path =>
    match try_from_str path with
    | None => Ret (k, inr (-1))
    | Some path =>
      let! path := canonicalize path in
      let! node := vfs_lookup (c_devices k) path in
      match node with
      | None => Ret (k, inr (-1))
      | Some node => exec_with k node path argv envp
      end
    end
  end.

(** The loop over the folders of the PATH variable. *)
Fixpoint search_path (d : Devices W D FB) (dirs : list str) (file : str) : outcome (option (Path * Node F D)) :=
  match dirs with
  | [] => Ret None
  | dir :: dirs =>
      match try_from_str dir with
      | None => search_path d dirs file
      | Some path =>
          let path := append_str path file in
          let! node := vfs_lookup d path in
          match node with
          | Some node => Ret (Some (path, node))
          | None => search_path d dirs file
          end
      end
  end.

Definition PATH : str := [80; 65; 84; 72].

Definition execvpe k (file argv envp : UserPointer) : outcome (Call W F D FB * result) :=
  let! file := cstr_user_pointer_to_str file (c_memory k) in
  match file with
  | None => Ret (k, inr (-1))
  | Some file =>
      let! direct :=
        match try_from_str file with
        | Some path =>
            let! node := vfs_lookup (c_devices k) path in
            Ret (match node with Some node => Some (path, node) | None => None end)
        | None => Ret None
        end in
      let! found :=
        match direct with
        | Some found => Ret (Some found)
        | None =>
            match env (c_data k) !! PATH with
            | None => Ret None
            | Some path_value =>
                let! path_value := cstr_user_pointer_to_str (MkPtr path_value) (c_memory k) in
                match path_value with
                | None => Ret None
                | Some path_value => search_path (c_devices k) (str_split 58 path_value) file
                end
            end
        end in
      match found with
      | None => Ret (k, inr (-1))
      | Some (path, node) =>
          let! path := canonicalize path in
          exec_with k node path argv envp
      end
  end.

(** * What replacing the program leaves *)

(** The allocator that was there is the one a process keeps. *)
Lemma set_own_allocator (pd : PData) : set_allocator pd (virtual_allocator pd) = pd.
Proof. by destruct pd. Qed.

(** The cpu and the allocator are new; descriptors, directory, pid and parent are
    kept.  On success the environment is new and the process runs on, on failure it
    ends with code 0xDED; the global tables are never touched. *)
Lemma replace_program_effect k elf bytes args envs k' r :
  replace_program k elf bytes args envs = Ret (k', r) ->
  exists emu a,
    (r = inl () /\ exists e, k' = set_data (set_emu k emu) (set_env (set_allocator (c_data k) a) e)) \/
    (r = inr (-1) /\ k' = set_data (set_emu k emu) (exit (set_allocator (c_data k) a) 0xDED)).
Proof.
  unfold replace_program. intros H.
  apply obind_Ret in H as ([m1 [lower|]] & _ & H).
  2:{ simplify_eq. eexists _, (virtual_allocator (c_data k)). right. by rewrite set_own_allocator. }
  apply obind_Ret in H as ([m2 [[]|]] & _ & H).
  2:{ simplify_eq. eexists _, (virtual_allocator (c_data k)). right. by rewrite set_own_allocator. }
  apply obind_Ret in H as (taken & _ & H). apply obind_Ret in H as (len & _ & H).
  apply obind_Ret in H as ([[m3 a3] [argv|]] & _ & H); [|simplify_eq; eexists _, _; by right].
  apply obind_Ret in H as ([[m4 a4] [pe|]] & _ & H); [|simplify_eq; eexists _, _; by right].
  apply obind_Ret in H as (emu1 & _ & H). apply obind_Ret in H as (emu2 & _ & H).
  simplify_eq. eexists _, _. left. split; [done|]. by eexists.
Qed.

End Exec.
