(* ===== verification/Syscall.v ===== *)
(** The system call interface: the numbers of rlibc/src/sys.rs, [fork], [waitpid]
    and [syscall_entry_point] of kernel/src/syscall.rs, and with them the tick of a
    process, which is what the scheduler is parametric in. *)
From S2P Require Import Prelude MachineInt Str Path Vfs Keyboard CharDevice Terminal PackedStruct EmulatorMemory VirtMem Allocator Scheduler Cpu Elf Loader FdTable Heap Kernel FileCalls Exec.
From stdpp Require Import list gmap.
#[local] Open Scope Z_scope.

Inductive SyscallNumber :=
| SysExit | SysRead | SysWrite | SysOpen | SysClose | SysLSeek | SysMalloc | SysFree | SysRealloc | SysGetcwd
| SysGetenv | SysFchdir | SysDup | SysDup2 | SysFork | SysWaitpid | SysFexecve | SysExecve | SysExecvpe | SysPipe
| SysMaxValue.

(** The discriminants. *)
Definition syscall_table : list SyscallNumber :=
  [SysExit; SysRead; SysWrite; SysOpen; SysClose; SysLSeek; SysMalloc; SysFree; SysRealloc; SysGetcwd;
   SysGetenv; SysFchdir; SysDup; SysDup2; SysFork; SysWaitpid; SysFexecve; SysExecve; SysExecvpe; SysPipe].

(** [TryFrom<usize>]: a value below that of MaxValue is transmuted. *)
Definition syscall_try_from (value : Z) : option SyscallNumber :=
  if value >=? Z.of_nat (length syscall_table) then None else syscall_table !! Z.to_nat value.

Definition signal_number (s : SignalType) : Z := match s with SIGILL => 4 | SIGKILL => 9 end.

(** The word written to wstatus. *)
Definition wait_status (a : WaitAction) : Z :=
  match a with
  | EXITED exit_code => Z.lor 0 (Z.land exit_code 255)
  | TERMINATED_BY_SIGNAL signal => Z.lor 256 (Z.land (signal_number (signal_type signal)) 255)
  end.

Section Syscall.
Context {PS : PackedStruct}.
Context {W F D FB : Type} {FS : FileSystem W F D} {FBops : FrameBuffer FB}.
Abbreviation PData := (ProcessData (Node F D) Path).
Abbreviation Glob := (Globals (X := ProcRest F D) (D := Devices W D FB)).
Abbreviation Emu := (Riscv64Cpu LittleEndianVirtualMemory).
Implicit Types k : Call W F D FB.

(** The child is a copy of the caller that has not left the call yet; it enters it
    again and is told by its state that it is the child. *)
Definition fork k : outcome (Call W F D FB * Z) :=
  match pd_state (c_data k) with
  | RUNNING_NEW_CHILD_JUST_FORKED => Ret (set_data k (set_pd_state (c_data k) RUNNING), 0)
  | _ =>
      let! ps := fork_pipes (c_pipes k) (fd_mappings (c_data k)) in
      let child := process_new (c_emu k)
        (set_pd_state (set_parent (c_data k) (pd_pid (c_data k))) RUNNING_NEW_CHILD_JUST_FORKED) in
      let (g, n) := new_task (set_pipes (c_globals k) ps) child in
      Ret (set_globals k g, Z.of_nat n)
  end.

(** Without a result the call is repeated. *)
Definition waitpid k (p : Z) (wstatus : UserPointer) (options : Z) : outcome (Call W F D FB * option Z) :=
  match pd_state (c_data k) with
  | FINISHED_WAITING_FOR_CHILD_PROCESS info =>
      let k := set_data k (set_pd_state (c_data k) RUNNING) in
      match info with
      | Some info =>
          let! mapped := try_as_ptr wstatus (c_memory k) in
          match mapped with
          | None => Ret (k, Some (-1))
          | Some ptr =>
              let! m := fill_buf (c_memory k) ptr 0 (to_le_bytes 8 (wait_status (wait_action info))) in
              Ret (set_call_memory k m, Some (Z.of_nat (wait_cpid info)))
          end
      | None => Ret (k, Some (-1))
      end
  | _ =>
      if p =? -1 then Ret (set_data k (set_pd_state (c_data k) (WAITING_FOR_CHILD_PROCESS None)), None)
      else if p >? 0 then
        Ret (set_data k (set_pd_state (c_data k) (WAITING_FOR_CHILD_PROCESS (Some (Z.to_nat p)))), None)
      else Ret (k, Some (-1))
  end.

(** * The entry point *)

(** [return_value(val as i64 as u64, emu)], and leaving the match. *)
Definition return_value (r : outcome (Call W F D FB * Z)) : outcome (Call W F D FB * CpuAction) :=
  let! (k, val) := r in
  let! emu := write_reg (c_emu k) 10 (wrap 64 val) in
  Ret (set_emu k emu, NONE).

(** A call that may have to be repeated, and one of the exec family. *)
Definition return_or_repeat (r : outcome (Call W F D FB * option Z)) : outcome (Call W F D FB * CpuAction) :=
  let! (k, val) := r in
  match val with
  | Some val => return_value (Ret (k, val))
  | None => Ret (k, REPEAT_INSTRUCTION)
  end.
Definition return_exec (r : outcome (Call W F D FB * (unit + Z))) : outcome (Call W F D FB * CpuAction) :=
  let! (k, val) := r in
  match val with
  | inl _ => Ret (k, REPEAT_INSTRUCTION)
  | inr val => return_value (Ret (k, val))
  end.

(** The handlers of [FdTable] and [Heap], which work on parts of the state. *)
Definition on_fds k (r : outcome (PData * list (option ProcessPipe) * Z)) : outcome (Call W F D FB * Z) :=
  let! (pd, ps, val) := r in Ret (set_call_pipes (set_data k pd) ps, val).
Definition on_heap k (r : outcome (LittleEndianVirtualMemory * BasicAlloc * Z)) : outcome (Call W F D FB * Z) :=
  let! (m, a, val) := r in Ret (set_data (set_call_memory k m) (set_allocator (c_data k) a), val).

Definition call_free k (ptr : Z) : outcome (Call W F D FB * CpuAction) :=
  let! (m, a) := free (c_memory k) (virtual_allocator (c_data k)) ptr in
  Ret (set_data (set_call_memory k m) (set_allocator (c_data k) a), NONE).
Definition call_pipe k (fds : UserPointer) : outcome (Call W F D FB * Z) :=
  let! (m, pd, ps, val) := pipe (c_memory k) (c_data k) (c_pipes k) fds in
  Ret (set_call_pipes (set_data (set_call_memory k m) pd) ps, val).

Definition syscall_entry_point k : outcome (Call W F D FB * CpuAction) :=
  let! syscall_number := read_reg (c_emu k) 17 in
  match syscall_try_from syscall_number with
  | None => Ret (k, NONE)
  | Some syscall_number =>
      let! argument_1 := read_reg (c_emu k) 10 in
      let! argument_2 := read_reg (c_emu k) 11 in
      let! argument_3 := read_reg (c_emu k) 12 in
      let fd := Z.to_nat argument_1 in
      let pd := c_data k in
      let ps := c_pipes k in
      let heap := virtual_allocator pd in
      match syscall_number with
      | SysExit => Ret (set_data k (exit pd argument_1), NONE)
      | SysRead => return_or_repeat (read k fd (MkPtr argument_2) argument_3)
      | SysWrite => return_value (write k fd (MkPtr argument_2) argument_3)
      | SysOpen => return_value (open k (MkPtr argument_1) argument_2)
      | SysClose => return_value (on_fds k (close pd ps fd))
      | SysMalloc => return_value (on_heap k (malloc (c_memory k) heap argument_1))
      | SysFree => call_free k argument_1
      | SysLSeek => return_value (lseek k fd (to_signed 64 argument_2) argument_3)
      | SysRealloc => return_value (on_heap k (realloc (c_memory k) heap argument_1 argument_2))
      | SysGetcwd => return_value (getcwd k (MkPtr argument_1) argument_2)
      | SysGetenv => return_value (getenv k (MkPtr argument_1))
      | SysFchdir => return_value (fchdir k fd)
      | SysDup => return_value (on_fds k (dup pd ps fd))
      | SysDup2 => return_value (on_fds k (dup2 pd ps fd (Z.to_nat argument_2)))
      | SysFork => return_value (fork k)
      | SysWaitpid => return_or_repeat (waitpid k (to_signed 64 argument_1) (MkPtr argument_2) argument_3)
      | SysFexecve => return_exec (fexecve k fd (MkPtr argument_2) (MkPtr argument_3))
      | SysExecve => return_exec (execve k (MkPtr argument_1) (MkPtr argument_2) (MkPtr argument_3))
      | SysExecvpe => return_exec (execvpe k (MkPtr argument_1) (MkPtr argument_2) (MkPtr argument_3))
      | SysPipe => return_value (call_pipe k (MkPtr argument_1))
      | SysMaxValue => Ret (k, NONE)
      end
  end.

(** * The tick of a process *)

(** The handler the cpu calls on ECALL: process data and globals are what it gets
    beside the cpu. *)
Definition syscall_handler (emu : Emu) (st : PData * Glob) : outcome (Emu * (PData * Glob) * CpuAction) :=
  let! (k, action) := syscall_entry_point (MkCall emu st.1 st.2) in
  Ret (c_emu k, (c_data k, c_globals k), action).

(** [Process::tick]. *)
Definition process_tick (p : Process (X := ProcRest F D)) (g : Glob) : outcome (Process (X := ProcRest F D) * Glob * option unit) :=
  let! (emu, (pd, g), r) := tick syscall_handler (process_emu p) (process_data p, g) in
  Ret (process_new emu pd, g, r).

(** Dropping a process releases its pipe ends. *)
Definition process_drop (p : Process (X := ProcRest F D)) (ps : list (option ProcessPipe))
  : outcome (list (option ProcessPipe)) := drop_process (process_data p) ps.

(** One turn of the kernel's main loop: every process is given its tick. *)
Definition kernel_tick : Sched (X := ProcRest F D) (D := Devices W D FB) ->
  outcome (Sched (X := ProcRest F D) (D := Devices W D FB) * bool) := sched_tick process_tick process_drop.

End Syscall.
