(* ===== verification/FileTheorems.v ===== *)
(** What the system calls on files promise a program, given what the file system
    answers to the calls they make: reading delivers the bytes of the file at the
    cursor, and what was written is read back when the file system kept it. *)
From S2P Require Import Prelude MachineInt Str Path Vfs RootFs Keyboard CharDevice Terminal EmulatorMemory VirtMem Allocator Scheduler Cpu Loader FdTable Heap Kernel FileCalls.
From stdpp Require Import list gmap.
#[local] Open Scope Z_scope.

(** * Buffers *)

(** Memories with the same regions, whatever the bytes. *)
Definition same_shape : relation LittleEndianVirtualMemory :=
  Forall2 (fun r r' => virtual_start r' = virtual_start r /\ length (backing_storage r') = length (backing_storage r)).

#[export] Instance same_shape_refl : Reflexive same_shape.
Proof. intros m. by apply Forall_Forall2_diag, list.Forall_forall. Qed.

Lemma find_region_shape m m' a k :
  same_shape m m' -> obind (find_region m' a k) (fun o => Ret (snd <$> o)) = obind (find_region m a k) (fun o => Ret (snd <$> o)).
Proof.
  intros H. revert k. induction H as [|r r' m m' [E1 E2] H IH]; intros k; [done|]. simpl.
  unfold region_try_map, get_virtual_end_inclusive, region_len. rewrite E1, E2.
  destruct (sub_chk _ _) as [s|]; simpl; [|done]. destruct (add_chk _ _ _) as [e|]; simpl; [|done].
  destruct (_ && _); simpl; [done|apply IH].
Qed.

Lemma try_as_ptr_shape p m m' : same_shape m m' -> try_as_ptr p m' = try_as_ptr p m.
Proof. apply find_region_shape. Qed.

Lemma same_shape_insert m i r bs :
  m !! i = Some r -> length bs = length (backing_storage r) -> same_shape m (<[i := MkRegion (virtual_start r) bs]> m).
Proof.
  intros Hi Hl. rewrite <- (list_insert_id m i r Hi) at 1. unfold same_shape.
  apply Forall2_insert; [reflexivity|]. done.
Qed.

(** A buffer the kernel may use takes as many bytes as were asked for, and the
    process finds them there. *)
Lemma fill_buf_spec p m n info bytes :
  try_as_mut p m n = Ret (Some info) -> (length bytes <= n)%nat ->
  exists m', fill_buf m info 0 bytes = Ret m' /\ same_shape m m' /\
    try_as_ref p m' (length bytes) = Ret (Some bytes) /\ try_as_mut p m' n = Ret (Some info).
Proof.
  intros H Hn. unfold try_as_mut in H. apply otry_Some in H as (i & Hp & H). apply obind_Ret in H as (r & Hr & H).
  apply obind_Ret in H as (s & Hs & [= ->]). apply unwrap_Ret in Hr. unfold slice in Hs. case_decide as Hl; [|done].
  destruct (store_bytes_ok bytes (backing_storage r) (offset_in_region info)) as [bs Hbs]; [lia|].
  destruct (store_bytes_spec bytes (backing_storage r) (offset_in_region info) bs ltac:(lia) Hbs) as (L & _ & V).
  set (m' := <[region_index info := MkRegion (virtual_start r) bs]> m).
  assert (same_shape m m') as Hshape by by apply same_shape_insert.
  assert (m' !! region_index info = Some (MkRegion (virtual_start r) bs)) as Hm'
    by by apply list_lookup_insert_eq; eapply lookup_lt_Some.
  exists m'. unfold fill_buf. rewrite Hr. simpl. rewrite Nat.add_0_r, Hbs. split; [done|]. split; [done|].
  unfold try_as_ref, try_as_mut. rewrite (try_as_ptr_shape _ _ _ Hshape), Hp. simpl. rewrite Hm'. simpl.
  unfold slice. rewrite L, !decide_True by lia. simpl. split; [|done]. do 2 f_equal.
  apply list_eq. intros j. destruct (decide (j < length bytes)%nat).
  - rewrite lookup_take_lt, lookup_drop, V by done. rewrite decide_True by lia. f_equal. lia.
  - rewrite lookup_take_ge by lia. symmetry. apply lookup_ge_None_2. lia.
Qed.

Lemma try_as_ref_length p m n bytes : try_as_ref p m n = Ret (Some bytes) -> length bytes = n.
Proof.
  intros H. unfold try_as_ref in H. apply otry_Some in H as (i & _ & H). apply obind_Ret in H as (r & _ & H).
  apply obind_Ret in H as (s & Hs & [= ->]). by apply slice_spec in Hs as [? _].
Qed.

Lemma as_c_int_small n : 0 <= n < 2 ^ 31 -> as_c_int n = n.
Proof.
  intros H. unfold as_c_int. rewrite wrap_small by (unfold in_u; lia). unfold to_signed.
  by rewrite (proj2 (Z.ltb_lt _ _)) by lia.
Qed.

Section Files.
Context {W F D FB : Type} {FS : FileSystem W F D} {FBops : FrameBuffer FB}.
Implicit Types k : Call W F D FB.

(** Descriptor [fd] of the process is the open file [f], in node [i]. *)
Record open_file k (fd i : nat) (node : ProcessNode (Node F D) Path) (f : F) : Prop := {
  of_mapping : get_mapping (c_data k) fd = Some (Regular i);
  of_slot : open_nodes (c_data k) !! i = Some (Some node);
  of_file : vfs_node node = File f;
}.

(** * Reading *)

(** The file system delivers [bytes] at [off] of the file, one byte at a time. *)
Definition delivers (w : W) (f : F) (off : nat) (bytes : list Z) : Prop :=
  exists size, get_size w f = Ret size /\ Z.of_nat (off + length bytes) <= size /\
    forall j b, bytes !! j = Some b -> file_read w f (Z.of_nat (off + j)) 1 = Ret (Some [b]).

Lemma read_file_loop_spec w f (cur idx : nat) bytes :
  delivers w f (cur + idx) bytes -> Z.of_nat (cur + idx + length bytes) < 2 ^ 64 ->
  read_file_loop w f (Z.of_nat cur) (Z.of_nat idx) (length bytes) = Ret bytes.
Proof.
  intros (size & Hs & Hle & Hb). revert idx Hle Hb. induction bytes as [|b bytes IH]; intros idx Hle Hb Hn; [done|].
  simpl in *. rewrite add_chk_ok by lia. simpl. rewrite Hs. simpl. rewrite <- Nat2Z.inj_add.
  destruct (Z.gtb_spec (Z.of_nat (cur + idx)) size); [lia|].
  pose proof (Hb 0%nat b eq_refl) as Hb0. rewrite Nat.add_0_r in Hb0. rewrite Hb0. simpl.
  replace (Z.of_nat idx + 1) with (Z.of_nat (S idx)) by lia. rewrite IH; [done|lia| |lia].
  intros j x Hj. specialize (Hb (S j) x Hj). by replace (cur + S idx + j)%nat with (cur + idx + S j)%nat by lia.
Qed.

Lemma read_file_spec k fd i node f bytes p (cur : nat) info :
  open_file k fd i node f -> has_flag (node_flags node) O_RDONLY = true ->
  cursor node = Z.of_nat cur -> delivers (c_fs k) f cur bytes ->
  Z.of_nat (cur + length bytes) < 2 ^ 64 -> Z.of_nat (length bytes) < 2 ^ 31 ->
  try_as_mut p (c_memory k) (length bytes) = Ret (Some info) ->
  exists k', read k fd p (Z.of_nat (length bytes)) = Ret (k', Some (Z.of_nat (length bytes))) /\
    try_as_ref p (c_memory k') (length bytes) = Ret (Some bytes) /\ c_globals k' = c_globals k /\
    open_file k' fd i (set_node_cursor node (Z.of_nat (cur + length bytes))) f.
Proof.
  intros [O1 O2 O3] Hr Hcur Hd Hn Hn' Hp. destruct (fill_buf_spec _ _ _ _ bytes Hp (le_n _)) as (m & Hf & Hs & Href & _).
  unfold read. rewrite Nat2Z.id, Hp, O1. cbn [obind]. unfold get_slot. rewrite O2. cbn [obind]. rewrite Hr, O3, Hcur. cbn [negb].
  change (read_file_loop (c_fs k) f (Z.of_nat cur) 0) with (read_file_loop (c_fs k) f (Z.of_nat cur) (Z.of_nat 0)).
  rewrite read_file_loop_spec by (rewrite ?Nat.add_0_r; done). cbn [obind].
  rewrite Hf. cbn [obind]. rewrite add_chk_ok by lia. cbn [obind]. rewrite as_c_int_small by lia.
  eexists. split; [done|]. split; [done|]. split; [done|]. split; [done| |done].
  simpl. rewrite list_lookup_insert_eq by by eapply lookup_lt_Some. by rewrite Nat2Z.inj_add.
Qed.

(** * Writing *)

(** What the file system makes of growing the file for [n] bytes at [cur]. *)
Definition grown (w : W) (f : F) (cur n : nat) : outcome (W * option unit) :=
  let! size := get_size w f in
  if size <? Z.of_nat (cur + n) then resize_file w f (Z.of_nat (cur + n)) else Ret (w, Some ()).

(** [write] makes two calls: the file is grown when it is too small, and the data is
    written at the cursor.  A failure of either gives -1, otherwise the cursor moves by
    what the file system says it has written. *)
Lemma write_file_spec k fd i node f p data (cur : nat) :
  open_file k fd i node f -> has_flag (node_flags node) O_WRONLY = true -> has_flag (node_flags node) O_APPEND = false ->
  cursor node = Z.of_nat cur -> Z.of_nat (cur + length data) < 2 ^ 64 -> Z.of_nat (length data) < 2 ^ 31 ->
  try_as_ref p (c_memory k) (length data) = Ret (Some data) ->
  match grown (c_fs k) f cur (length data) with
  | Panic => write k fd p (Z.of_nat (length data)) = Panic
  | Ret (w1, None) => exists k', write k fd p (Z.of_nat (length data)) = Ret (k', -1) /\ c_emu k' = c_emu k /\ c_fs k' = w1
  | Ret (w1, Some _) =>
      match file_write w1 f (Z.of_nat cur) data with
      | Panic => write k fd p (Z.of_nat (length data)) = Panic
      | Ret (w2, None) => exists k', write k fd p (Z.of_nat (length data)) = Ret (k', -1) /\ c_emu k' = c_emu k /\ c_fs k' = w2
      | Ret (w2, Some n) => 0 <= n <= Z.of_nat (length data) ->
          exists k', write k fd p (Z.of_nat (length data)) = Ret (k', n) /\ c_emu k' = c_emu k /\ c_fs k' = w2 /\
            open_file k' fd i (set_node_cursor node (Z.of_nat cur + n)) f
      end
  end.
Proof.
  intros [O1 O2 O3] Hw Ha Hcur Hn Hn' Hp. unfold write. rewrite Nat2Z.id, Hp. cbn [obind]. unfold write_buf. rewrite O1. unfold get_slot. rewrite O2.
  cbn [obind]. rewrite Hw, O3. cbn [negb]. unfold write_file. rewrite Ha. cbn [obind]. rewrite Hcur, add_chk_ok by lia. cbn [obind].
  change (c_fs (set_data k _)) with (c_fs k). unfold grown. destruct (get_size (c_fs k) f) as [size|]; [|done]. cbn [obind].
  rewrite Z.gtb_ltb, Nat2Z.inj_add.
  destruct (if size <? _ then _ else _) as [[w1 [[]|]]|]; cbn [obind]; [|by eexists|done].
  change (c_fs (set_call_fs _ w1)) with w1. destruct (file_write w1 f (Z.of_nat cur) data) as [[w2 [n|]]|]; cbn [obind]; [|by eexists|done].
  intros Hle. rewrite add_chk_ok by lia. cbn [obind]. rewrite as_c_int_small by lia. eexists. do 3 (split; [done|]).
  split; [done| |done]. simpl. rewrite list_insert_insert_eq, list_lookup_insert_eq by by eapply lookup_lt_Some. done.
Qed.

(** * Seeking *)

Lemma lseek_set k fd i node f (pos : nat) :
  open_file k fd i node f -> Z.of_nat pos < 2 ^ 63 ->
  exists k', lseek k fd (Z.of_nat pos) SEEK_SET = Ret (k', Z.of_nat pos) /\ c_emu k' = c_emu k /\ c_globals k' = c_globals k /\
    open_file k' fd i (set_node_cursor node (Z.of_nat pos)) f.
Proof.
  intros [O1 O2 O3] Hp. unfold lseek. rewrite O1. unfold get_slot. rewrite O2. cbn [obind].
  rewrite wrap_small by (unfold in_u; lia). unfold to_signed. change (Z.of_nat pos <? 2 ^ (64 - 1)) with (Z.of_nat pos <? 2 ^ 63).
  rewrite (proj2 (Z.ltb_lt _ _)) by lia. rewrite Z.eqb_refl. eexists. split; [done|]. split; [done|]. split; [done|].
  split; [done| |done]. simpl. by rewrite list_lookup_insert_eq by by eapply lookup_lt_Some.
Qed.

(** C8: [write] to an open file grows the file when it is too small and hands the data to
    the file system at the cursor: a failure of one of these calls gives -1, and otherwise
    the result is the number of bytes the file system says it has written.  What was
    written can then be read back, if the file system delivers these bytes there again:
    seeking back with [lseek] and a [read] of as many bytes deliver exactly them, in the
    buffer the program passed, and leave the cursor behind them.  The file is open for
    reading and writing and without O_APPEND. *)
Theorem write_read_back k fd i node f src dst data (cur : nat) info :
  open_file k fd i node f -> cursor node = Z.of_nat cur ->
  has_flag (node_flags node) O_RDONLY = true -> has_flag (node_flags node) O_WRONLY = true ->
  has_flag (node_flags node) O_APPEND = false ->
  Z.of_nat (cur + length data) < 2 ^ 63 -> Z.of_nat (length data) < 2 ^ 31 ->
  try_as_ref src (c_memory k) (length data) = Ret (Some data) ->
  match grown (c_fs k) f cur (length data) with
  | Panic => write k fd src (Z.of_nat (length data)) = Panic
  | Ret (w1, None) => exists k1, write k fd src (Z.of_nat (length data)) = Ret (k1, -1) /\ c_fs k1 = w1
  | Ret (w1, Some _) =>
      match file_write w1 f (Z.of_nat cur) data with
      | Panic => write k fd src (Z.of_nat (length data)) = Panic
      | Ret (w2, None) => exists k1, write k fd src (Z.of_nat (length data)) = Ret (k1, -1) /\ c_fs k1 = w2
      | Ret (w2, Some n) => 0 <= n <= Z.of_nat (length data) ->
          exists k1, write k fd src (Z.of_nat (length data)) = Ret (k1, n) /\ c_fs k1 = w2 /\
            let back := take (Z.to_nat n) data in
            (delivers w2 f cur back -> try_as_mut dst (c_memory k) (length back) = Ret (Some info) ->
             exists k2 k3, lseek k1 fd (Z.of_nat cur) SEEK_SET = Ret (k2, Z.of_nat cur) /\
               read k2 fd dst n = Ret (k3, Some n) /\ c_fs k3 = w2 /\
               try_as_ref dst (c_memory k3) (length back) = Ret (Some back) /\
               open_file k3 fd i (set_node_cursor node (Z.of_nat cur + n)) f)
      end
  end.
Proof.
  intros O Hcur Hr Hw Ha Hn Hn' Hsrc. pose proof (write_file_spec k fd i node f src data cur O Hw Ha Hcur ltac:(lia) Hn' Hsrc) as HW.
  destruct (grown _ _ _ _) as [[w1 [[]|]]|]; [|destruct HW as (k1 & ? & _ & ?); by exists k1|done].
  destruct (file_write _ _ _ _) as [[w2 [n|]]|]; [|destruct HW as (k1 & ? & _ & ?); by exists k1|done].
  intros Hle. destruct (HW Hle) as (k1 & E1 & M1 & F1 & O1). exists k1. split; [done|]. split; [done|]. intros back Hd Hdst.
  assert (Z.of_nat (length back) = n) as Hl by (unfold back; rewrite length_take; lia).
  destruct (lseek_set _ _ _ _ _ cur O1 ltac:(lia)) as (k2 & E2 & M2 & G2 & O2). exists k2.
  assert (c_memory k2 = c_memory k) as M by (unfold c_memory; by rewrite M2, M1).
  assert (c_fs k2 = w2) as F2 by (unfold c_fs, c_devices in *; by rewrite G2).
  destruct (read_file_spec k2 fd i _ f back dst cur info O2 Hr eq_refl) as (k3 & E3 & B3 & G3 & O3); [by rewrite F2|lia|lia|by rewrite M|].
  exists k3. rewrite Hl in E3. split; [done|]. split; [done|]. split; [unfold c_fs, c_devices in *; by rewrite G3|]. split; [done|].
  by rewrite Nat2Z.inj_add, Hl in O3.
Qed.

(** * Errors *)

(** [lseek] accepts a position before the start of the file; the cursor is then a
    number close to 2^64, and a [write] that would reach the start again overflows it
    and stops the kernel. *)
Theorem write_after_negative_seek_panics k fd i node f src data offset :
  open_file k fd i node f -> has_flag (node_flags node) O_WRONLY = true -> has_flag (node_flags node) O_APPEND = false ->
  try_as_ref src (c_memory k) (length data) = Ret (Some data) ->
  - 2 ^ 63 <= offset < 0 -> - offset <= Z.of_nat (length data) ->
  exists k1, lseek k fd offset SEEK_SET = Ret (k1, offset) /\ write k1 fd src (Z.of_nat (length data)) = Panic.
Proof.
  intros [O1 O2 O3] Hw Ha Hp Ho Hl. unfold lseek. rewrite O1. unfold get_slot. rewrite O2. cbn [obind]. rewrite Z.eqb_refl.
  eexists. split; [rewrite to_signed_wrap by lia; done|]. unfold write, write_buf.
  change (c_memory (set_data k _)) with (c_memory k). rewrite Nat2Z.id, Hp. cbn [obind].
  change (get_mapping (c_data (set_data k _)) fd) with (get_mapping (c_data k) fd). rewrite O1. unfold get_slot. simpl open_nodes.
  rewrite list_lookup_insert_eq by by eapply lookup_lt_Some. cbn [obind]. cbn [set_node_cursor node_flags vfs_node cursor].
  rewrite Hw, O3. cbn [negb]. unfold write_file. cbn [set_node_cursor node_flags cursor]. rewrite Ha. cbn [obind].
  assert (add_chk 64 (cursor (set_node_cursor node (wrap 64 offset))) (Z.of_nat (length data)) = Panic) as ->; [|done].
  unfold add_chk, wrap. cbn [set_node_cursor cursor]. rewrite <- (Z.mod_add offset 1 (2 ^ 64)), Z.mod_small by lia.
  by rewrite (proj2 (Z.ltb_ge _ _)) by lia.
Qed.

(** Reading no bytes from standard input waits for a line and then stops the
    kernel: the character is stored in a buffer without room for it. *)
Theorem empty_stdin_read_panics k fd p info :
  get_mapping (c_data k) fd = Some Stdin -> try_as_mut p (c_memory k) 0 = Ret (Some info) -> read k fd p 0 = Panic.
Proof.
  intros Hfd Hp. unfold read. change (Z.to_nat 0) with 0%nat. rewrite Hp. cbn [obind]. rewrite Hfd.
  by destruct (read_stdin _ _) as [[[t kbd] c]|].
Qed.

End Files.

(** * Examples *)

(** A process with a file open for reading and writing, and its system calls. *)
Definition demo_node : ProcessNode (Node nat unit) Path := MkNode (File 0%nat) 2 3 (MkPath [slash; 97]) 1.
Definition demo_proc_data : ProcessData (Node nat unit) Path :=
  MkData [Some demo_node] [Some Stdin; Some Stdout; Some Stderr; Some (Regular 0%nat)] root ∅
    (alloc_from 0x100000 0x10000 true) RUNNING (Some 1%nat) None.
Definition demo_devices : Devices RamFs unit EfiGopMode :=
  MkDevices demo_ram (Some tt) demo_terminal (MkPS2 [] no_modifiers).
Definition demo_globals : Globals (X := ProcRest nat unit) (D := Devices RamFs unit EfiGopMode) :=
  MkGlobals 1 [] [] [Some []] demo_devices.
Definition demo_call (m : LittleEndianVirtualMemory) : Call RamFs nat unit EfiGopMode :=
  MkCall (cpu_from m 0x1000) demo_proc_data demo_globals.
Definition demo_buffers : LittleEndianVirtualMemory := [MkRegion 0x1000 [104; 105; 33; 0; 0; 0; 0; 0]].

Lemma demo_open_file m : open_file (demo_call m) 3 0 demo_node 0%nat.
Proof. by split. Qed.

Lemma write_read_back_witness :
  exists k1 k2 k3, write (demo_call demo_buffers) 3 (MkPtr 0x1000) 3 = Ret (k1, 3) /\
    lseek k1 3 2 SEEK_SET = Ret (k2, 2) /\ read k2 3 (MkPtr 0x1004) 3 = Ret (k3, Some 3) /\
    try_as_ref (MkPtr 0x1004) (c_memory k3) 3 = Ret (Some [104; 105; 33]).
Proof.
  pose proof (write_read_back (demo_call demo_buffers) 3 0 demo_node 0%nat (MkPtr 0x1000) (MkPtr 0x1004)
    [104; 105; 33] 2 (MkMapping 4 0) (demo_open_file _) eq_refl eq_refl eq_refl eq_refl ltac:(simpl; lia) ltac:(simpl; lia) eq_refl) as H.
  change (grown _ _ _ _) with (Ret ([([97], [1; 2; 3; 0; 0])] : RamFs, Some ())) in H. cbv iota beta in H.
  change (file_write _ _ _ _) with (Ret ([([97], [1; 2; 104; 105; 33])] : RamFs, Some 3)) in H.
  destruct (H ltac:(simpl; lia)) as (k1 & Hw & _ & Hb).
  destruct Hb as (k2 & k3 & Hl & Hr & _ & Hm & _); [exists 5; split_and!; [done|simpl; lia|]|done|by exists k1, k2, k3].
  intros [|[|[|j]]] b Hj; (injection Hj as <-; reflexivity) || done.
Defined.

Lemma write_after_negative_seek_panics_witness :
  exists k1, lseek (demo_call demo_buffers) 3 (-1) SEEK_SET = Ret (k1, -1) /\ write k1 3 (MkPtr 0x1000) 2 = Panic.
Proof.
  refine (write_after_negative_seek_panics (demo_call demo_buffers) 3 0 demo_node 0%nat (MkPtr 0x1000) [104; 105] (-1) _ _ _ _ _ _);
    [apply demo_open_file|reflexivity..|lia|simpl; lia].
Defined.

Lemma empty_stdin_read_panics_witness : read (demo_call demo_buffers) 0 (MkPtr 0x1000) 0 = Panic.
Proof. by apply (empty_stdin_read_panics (demo_call demo_buffers) 0 (MkPtr 0x1000) (MkMapping 0 0)). Defined.
