(* ===== verification/LibcKernel.v ===== *)
(** The C library on the kernel: its system calls [write] and [read] are the kernel's;
    a pipe is a stream that accepts output, and one whose writers are gone is an input
    that ends. *)
From S2P Require Import Prelude MachineInt Str Path Vfs RootFs Keyboard CharDevice Terminal EmulatorMemory VirtMem Allocator Scheduler Cpu Loader FdTable Heap CMem CStr Specifier Printf PrintfTheorems Kernel FileCalls Scanf ScanfSpec ScanfTheorems FileTheorems.
From stdpp Require Import list gmap.
#[local] Open Scope Z_scope.

Section LibcKernel.
Context {W F D FB : Type} {FS : FileSystem W F D} {FBops : FrameBuffer FB}.
Implicit Types k : Call W F D FB.

(** The stub passes its arguments in a0 to a2 and returns a0; the kernel returns an
    i32 there, sign-extended. *)
#[export] Instance kernel_libc : LibcSystem (Call W F D FB) := {|
  process_memory := c_memory;
  set_process_memory := set_call_memory;
  sys_write k fd bs :=
    let! (k, val) := write_buf k (Z.to_nat (wrap 64 fd)) bs (Z.of_nat (length bs)) in
    Ret (k, to_signed 64 (wrap 64 val));
|}.

(** What is in a pipe that somebody can still read. *)
Definition pipe_sent k (fd : Z) : option (list Z) :=
  match get_mapping (c_data k) (Z.to_nat (wrap 64 fd)) with
  | Some (PipeWriteEnd i) =>
      match c_pipes k !! i with
      | Some (Some p) => if (readers_count p =? 0)%nat then None else Some (pipe_buf p)
      | _ => None
      end
  | _ => None
  end.

#[export] Instance kernel_libc_ok : LibcSystemOk (Call W F D FB).
Proof.
  refine {| sent := pipe_sent |}. intros k fd out bs Hs Hl. unfold pipe_sent in Hs.
  destruct (get_mapping (c_data k) (Z.to_nat (wrap 64 fd))) as [[| i | i | | |]|] eqn:Em; try done.
  destruct (c_pipes k !! i) as [[p|]|] eqn:Ep; try done. destruct (readers_count p =? 0)%nat eqn:Er; [done|]. injection Hs as <-.
  simpl. unfold write_buf. rewrite Em. unfold write_pipe, get_slot. rewrite Ep. cbn [obind]. rewrite Er. cbn [obind].
  assert (as_i32 (length bs) = Z.of_nat (length bs)) as -> by (apply to_signed_wrap; lia).
  rewrite to_signed_wrap by lia. eexists. split; [done|]. split; [|done].
  unfold pipe_sent. change (get_mapping (c_data (set_call_pipes k _)) _) with (get_mapping (c_data k) (Z.to_nat (wrap 64 fd))). rewrite Em.
  change (c_pipes (set_call_pipes k ?l)) with l. simpl. rewrite list_lookup_insert_eq by by eapply lookup_lt_Some. simpl. by rewrite Er.
Defined.

(** ** Input *)

(** [read] without the buffer: the bytes for it, and the result. *)
Definition read_buf k (fd n : nat) : outcome (Call W F D FB * option (list Z * Z)) :=
  match get_mapping (c_data k) fd with
  | Some (Regular node_index) =>
      let! node := get_slot (open_nodes (c_data k)) node_index in
      if negb (has_flag (node_flags node) O_RDONLY) then Ret (k, Some ([], -1))
      else match vfs_node node with
      | File f =>
          let! bytes := read_file_loop (c_fs k) f (cursor node) 0 n in
          let! c := add_chk 64 (cursor node) (Z.of_nat (length bytes)) in
          Ret (set_data k (set_node (c_data k) node_index (set_node_cursor node c)), Some (bytes, as_c_int (Z.of_nat (length bytes))))
      | Folder _ => Ret (k, Some ([], -1))
      end
  | Some (PipeReadEnd pipe_index) =>
      let! (pd, ps, bytes, r) := read_pipe (c_data k) (c_pipes k) pipe_index n in
      Ret (set_call_pipes (set_data k pd) ps, (fun r => (bytes, r)) <$> r)
  | Some Stdin =>
      let d := c_devices k in
      let! (t, kbd, c) := read_stdin (terminal d) (keyboard d) in
      let! _ := rassert (negb (n =? 0)%nat) in
      Ret (set_call_devices k (set_keyboard (set_terminal d t) kbd), Some ([wrap 8 c], 1))
  | _ => Ret (k, Some ([], -1))
  end.

Lemma fill_nothing k p n info : try_as_mut p (c_memory k) n = Ret (Some info) -> fill_buf (c_memory k) info 0 [] = Ret (c_memory k).
Proof.
  intros H. unfold try_as_mut in H. apply otry_Some in H as (i & Hp & H). apply obind_Ret in H as (r & Hr & H).
  apply obind_Ret in H as (? & _ & [= <-]). apply unwrap_Ret in Hr. unfold fill_buf. rewrite Hr. cbn [unwrap obind store_bytes].
  f_equal. apply list_insert_id. rewrite Hr. by destruct r.
Qed.

(** The kernel's [read] is that, and then filling the buffer. *)
Lemma read_through_buffer k fd p count info :
  try_as_mut p (c_memory k) (Z.to_nat count) = Ret (Some info) ->
  read k fd p count =
  (let! (k', r) := read_buf k fd (Z.to_nat count) in
   match r with
   | Some (bytes, res) => let! m := fill_buf (c_memory k') info 0 bytes in Ret (set_call_memory k' m, Some res)
   | None => Ret (k', None)
   end).
Proof.
  intros H. pose proof (fill_nothing k p _ info H) as Hn. unfold read, read_buf. rewrite H. cbn [obind].
  assert (set_call_memory k (c_memory k) = k) as Hid by by destruct k as [[]].
  assert (Ret (k, Some (-1)) = (let! m := fill_buf (c_memory k) info 0 [] in Ret (set_call_memory k m, Some (-1)))) as Herr
    by (rewrite Hn; cbn [obind]; by rewrite Hid).
  destruct (get_mapping (c_data k) fd) as [[j|j|j| | |]|]; [|..|exact Herr|exact Herr|exact Herr].
  - destruct (get_slot (open_nodes (c_data k)) j) as [node|]; [|done]. cbn [obind]. destruct (negb _); [exact Herr|].
    destruct (vfs_node node) as [f|d]; [|exact Herr]. destruct (read_file_loop (c_fs k) f (cursor node) 0 (Z.to_nat count)) as [bytes|]; [|done]. cbn [obind].
    destruct (add_chk 64 (cursor node) (Z.of_nat (length bytes))); [|by destruct (fill_buf (c_memory k) info 0 bytes)]. done.
  - unfold read_pipe. destruct (get_slot (c_pipes k) j) as [q|]; [|done]. cbn [obind].
    destruct (length (take (Z.to_nat count) (pipe_buf q)) =? 0)%nat; [destruct (writers_count q =? 0)%nat|]; cbn [obind fmap option_fmap option_map]; [done| |done].
    rewrite Hn. cbn [obind]. by destruct k as [[]].
  - exact Herr.
  - destruct (read_stdin (terminal (c_devices k)) (keyboard (c_devices k))) as [[[t kbd] c]|]; [|done]. cbn [obind].
    destruct (rassert _); done.
Qed.

#[export] Instance kernel_input : LibcInput (Call W F D FB) := {|
  sys_read k fd n :=
    let! (k, r) := read_buf k (Z.to_nat (wrap 64 fd)) (Z.to_nat n) in
    Ret (k, (fun r => (r.1, to_signed 64 (wrap 64 r.2))) <$> r);
|}.

(** What is in a pipe nobody can write to any more. *)
Definition pipe_pending k (fd : Z) : option (list Z) :=
  match get_mapping (c_data k) (Z.to_nat (wrap 64 fd)) with
  | Some (PipeReadEnd i) =>
      match c_pipes k !! i with
      | Some (Some p) => if (writers_count p =? 0)%nat then Some (pipe_buf p) else None
      | _ => None
      end
  | _ => None
  end.

#[export] Instance kernel_input_ok : LibcInputOk (Call W F D FB).
Proof.
  refine {| pending := pipe_pending |}; [|done|done].
  intros k fd n bs Hs Hn. unfold pipe_pending in Hs.
  destruct (get_mapping (c_data k) (Z.to_nat (wrap 64 fd))) as [[| i | i | | |]|] eqn:Em; try done.
  destruct (c_pipes k !! i) as [[p|]|] eqn:Ep; try done. destruct (writers_count p =? 0)%nat eqn:Ew; [|done]. injection Hs as <-.
  simpl. unfold read_buf. rewrite Em. unfold read_pipe, get_slot. rewrite Ep. cbn [obind]. rewrite Ew.
  set (bytes := take (Z.to_nat n) (pipe_buf p)). set (rest := drop (Z.to_nat n) (pipe_buf p)).
  exists (set_call_pipes (set_data k (c_data k)) (<[i := Some (set_buf p rest)]> (c_pipes k))). split_and!; [|..|done].
  - assert (length bytes <= Z.to_nat n)%nat as Hl by (unfold bytes; rewrite length_take; lia).
    destruct (length bytes =? 0)%nat eqn:El; cbn [obind fmap option_fmap option_map fst snd].
    + apply Nat.eqb_eq, length_zero_iff_nil in El. by rewrite El.
    + assert (as_i32 (length bytes) = Z.of_nat (length bytes)) as -> by (apply to_signed_wrap; lia). by rewrite to_signed_wrap by lia.
  - unfold pipe_pending. change (get_mapping (c_data (set_call_pipes _ _)) _) with (get_mapping (c_data k) (Z.to_nat (wrap 64 fd))). rewrite Em.
    change (c_pipes (set_call_pipes _ ?l)) with l. rewrite list_lookup_insert_eq by by eapply lookup_lt_Some. simpl. by rewrite Ew.
Defined.

End LibcKernel.

(** * Examples *)

(** A process whose descriptor 3 is a pipe, with the format "x%-5d!" and a FILE for
    the pipe in its memory, and behind them the format "%d". *)
Definition demo_output : VirtRegion := MkRegion 0x1000 [120; 37; 45; 53; 100; 33; 0; 0; 3; 0; 0; 0; 37; 100; 0; 0].
Definition demo_printing : Call RamFs nat unit EfiGopMode :=
  set_call_pipes
    (set_data (demo_call [demo_output])
       (set_fds demo_proc_data [Some Stdin; Some Stdout; Some Stderr; Some (PipeWriteEnd 0)]))
    [Some (MkPipe [] 1 1)].

Lemma demo_output_ok : region_ok demo_output.
Proof. split; [done|]. split; [done|]. repeat (constructor; [done|]). constructor. Qed.

Lemma demo_string bs (off : nat) :
  take (length bs + 1) (drop off (backing_storage demo_output)) = bs ++ [0] -> Forall (fun b => b <> 0) bs ->
  cstr_at [demo_output] (0x1000 + Z.of_nat off) bs.
Proof.
  intros E Hz. split; [|done]. apply (bytes_at_region demo_output (bs ++ [0]) off demo_output_ok); [by destruct bs|].
  by rewrite length_app.
Qed.

Lemma vfprintf_prints_witness :
  exists k', vfprintf demo_printing 0x1008 0x1000 [42] = Ret (k', 4) /\ pipe_sent k' 3 = Some [120; 52; 50; 33].
Proof.
  destruct (vfprintf_prints [Lit 120; Conv (MkPrintf 1 (Number 5) NoAmount NoLength SignedDecimalInteger) 42; Lit 33]
    demo_printing 0x1008 3 0x1000 []) with (texts := [[120]; [52; 50]; [33]]) as (k' & E & H & _).
  - exact (vm_wf_single _ demo_output_ok).
  - apply (demo_string [120; 37; 45; 53; 100; 33] 0 eq_refl). by repeat constructor.
  - split; [reflexivity|lia].
  - reflexivity.
  - repeat constructor; try (by simpl); unfold spec_ok, in_u; simpl; lia.
  - repeat constructor.
  - by vm_compute.
  - exists k'. split; [exact E|exact H].
Defined.

Lemma printf_zero_prints_nothing_witness :
  exists k', vfprintf demo_printing 0x1008 0x100C [0] = Ret (k', 0) /\ pipe_sent k' 3 = Some [].
Proof.
  destruct (printf_zero_prints_nothing demo_printing 0x1008 3 0x100C [] SignedDecimalInteger) as (k' & E & H).
  - by left.
  - exact (vm_wf_single _ demo_output_ok).
  - apply (demo_string [37; 100] 12 eq_refl). by repeat constructor.
  - split; [reflexivity|lia].
  - reflexivity.
  - exists k'. split; [exact E|exact H].
Defined.

(** A process whose descriptor 3 is a pipe that holds some bytes and has no writer, with
    the format "%d", a FILE for the pipe, room for a number, the format "x%i %3s" and room
    for a string in its memory. *)
Definition demo_input : VirtRegion :=
  MkRegion 0x1000 ([37; 100; 0; 0] ++ [3; 0; 0; 0] ++ [0; 0; 0; 0; 0; 0; 0; 0] ++ [120; 37; 105; 32; 37; 51; 115; 0] ++ [0; 0; 0; 0; 0; 0; 0; 0]).
Definition demo_scanning (bytes : list Z) : Call RamFs nat unit EfiGopMode :=
  set_call_pipes
    (set_data (demo_call [demo_input])
       (set_fds demo_proc_data [Some Stdin; Some Stdout; Some Stderr; Some (PipeReadEnd 0)]))
    [Some (MkPipe bytes 1 0)].

Lemma demo_input_ok : region_ok demo_input.
Proof. split; [done|]. split; [done|]. repeat (constructor; [done|]). constructor. Qed.
Lemma demo_input_at bs (off : nat) :
  bs <> [] -> take (length bs) (drop off (backing_storage demo_input)) = bs -> bytes_at [demo_input] (0x1000 + Z.of_nat off) bs.
Proof. intros Hb E. by apply (bytes_at_region demo_input bs off demo_input_ok). Qed.

Lemma demo_scanning_ok bytes text (off : nat) :
  take (length text + 1) (drop off (backing_storage demo_input)) = text ++ [0] -> Forall (fun b => b <> 0) text ->
  scanning (demo_scanning bytes) 0x1004 3 (0x1000 + Z.of_nat off) text bytes.
Proof.
  intros E Hz. split.
  - exact (vm_wf_single _ demo_input_ok).
  - split; [|done]. apply demo_input_at; [by destruct text|by rewrite length_app].
  - lia.
  - by apply (demo_input_at [3; 0; 0; 0] 4).
  - reflexivity.
Qed.

Lemma demo_target (off n : nat) fmt text : (0 < n)%nat -> (off + n <= 32)%nat -> apart (0x1000 + Z.of_nat off) n fmt (length text + 1) ->
  apart (0x1000 + Z.of_nat off) n 0x1004 4 -> target 0x1004 fmt text [demo_input] (0x1000 + Z.of_nat off) n.
Proof.
  intros Hn Ho H1 H2. split; [|done]. right. exists 0%nat, demo_input. unfold covers. simpl. unfold region_len. simpl. split; [done|]. lia.
Qed.


(** -42 printed with "%d", and then "-42\n" scanned with it. *)
Lemma scanf_reads_printf_witness :
  exists k k', vfprintf demo_printing 0x1008 0x100C [2 ^ 64 - 42] = Ret (k, 3) /\ pipe_sent k 3 = Some [45; 52; 50] /\
    vfscanf 20 (demo_scanning [45; 52; 50; 10; 7]) 0x1004 0x1000 [0x1008] = Ret (k', Some 1) /\
    stored [demo_input] 0x1008 [214; 255; 255; 255] (c_memory k') /\ pipe_pending k' 3 = Some [7].
Proof.
  destruct (scanf_reads_printf SignedDecimalInteger 10 Lower decimal_char demo_printing 0x1008 3 0x100C [] (2 ^ 64 - 42)) as (k & text & E & H & Hscan).
  - reflexivity.
  - split; vm_compute; done.
  - unfold in_u. lia.
  - exact (vm_wf_single _ demo_output_ok).
  - apply (demo_string [37; 100] 12 eq_refl). by repeat constructor.
  - split; [reflexivity|lia].
  - reflexivity.
  - assert (obind (vfprintf demo_printing 0x1008 0x100C [2 ^ 64 - 42]) (fun r => Ret (pipe_sent r.1 3)) = Ret (Some [45; 52; 50])) as E0 by (vm_compute; reflexivity).
    rewrite E in E0. injection E0 as E0. change (pipe_sent k 3 = Some text) in H. rewrite E0 in H. injection H as <-.
    destruct (Hscan 20%nat (demo_scanning [45; 52; 50; 10; 7]) 0x1004 3 0x1000 [100] (MkScanf false NoAmount NoLength SignedDecimalInteger) 0x1008 10 [7])
      as (k' & E1 & H1 & H2); [|reflexivity..|by repeat constructor|apply Nat.ltb_lt; reflexivity|apply (demo_target 8 4); [lia|lia|left; simpl; lia|left; simpl; lia]|].
    + apply (demo_scanning_ok _ _ 0); [reflexivity|by repeat constructor].
    + exists k, k'. split; [exact E|]. split; [exact E0|]. split; [exact E1|]. split; [exact H1|exact H2].
Defined.

(** "42" for "%d". *)
Lemma vfscanf_hangs_after_number_witness : exists k', vfscanf 1000 (demo_scanning [52; 50]) 0x1004 0x1000 [0x1008] = Ret (k', None).
Proof.
  apply (vfscanf_hangs_after_number 1000 (demo_scanning [52; 50]) 0x1004 3 0x1000 [100] (MkScanf false NoAmount NoLength SignedDecimalInteger) [] [52; 50]).
  - apply (demo_scanning_ok _ _ 0); [reflexivity|by repeat constructor].
  - reflexivity.
  - by left.
  - done.
  - by repeat constructor.
Defined.

(** "ab\ncd" into eight bytes. *)
Lemma fgets_reads_line_witness :
  exists k', fgets 10 (demo_scanning [97; 98; 10; 99; 100]) 0x1018 8 0x1004 = Ret (k', Some 0x1018) /\
    stored [demo_input] 0x1018 [97; 98; 0] (c_memory k') /\ pipe_pending k' 3 = Some [99; 100].
Proof.
  destruct (fgets_reads_line 10 (demo_scanning [97; 98; 10; 99; 100]) 0x1004 3 0x1018 8 [97; 98; 10; 99; 100]) as (k' & E & H1 & H2).
  - split.
    + exact (vm_wf_single _ demo_input_ok).
    + apply (demo_target 24 8 0 []); [lia|lia|left; simpl; lia|left; simpl; lia].
    + lia.
    + by apply (demo_input_at [3; 0; 0; 0] 4).
    + left. simpl. lia.
    + reflexivity.
    + by repeat constructor.
  - lia.
  - simpl. lia.
  - exists k'. split; [exact E|]. split; [exact H1|exact H2].
Defined.
