(* ===== verification/SyscallTheorems.v ===== *)
(** What single system calls promise a program: [fork] returns twice, [waitpid]
    delivers the report of a child, [exec] loads what the kernel would load for a
    new process, and follows the interpreters of scripts as far as its limit. *)
From S2P Require Import Prelude MachineInt Str Path Vfs RootFs Keyboard CharDevice Terminal PackedStruct EmulatorMemory VirtMem Allocator Scheduler Cpu Elf Loader FdTable Heap Kernel FileCalls FileTheorems Exec Syscall.
From stdpp Require Import list gmap.
#[local] Open Scope Z_scope.

Section Calls.
Context {PS : PackedStruct}.
Context {W F D FB : Type} {FS : FileSystem W F D} {FBops : FrameBuffer FB}.
Abbreviation PData := (ProcessData (Node F D) Path).
Abbreviation Proc := (Process (X := ProcRest F D)).
Implicit Types k : Call W F D FB.

(** * Registers *)

(** All registers hold a value: an access by the entry point cannot fail. *)
Definition has_registers (c : Riscv64Cpu LittleEndianVirtualMemory) : Prop := length (registers c) = 31%nat.

Lemma has_reg c n : has_registers c -> 0 < n <= 31 -> exists v, read_reg c n = Ret v.
Proof.
  intros H Hn. unfold read_reg. rewrite (proj2 (Z.eqb_neq _ _)) by lia.
  destruct (lookup_lt_is_Some_2 (registers c) (Z.to_nat (n - 1))) as [v ->]; [unfold has_registers in H; lia|]. by exists v.
Qed.

Lemma entry_point_fork k : read_reg (c_emu k) 17 = Ret 14 -> has_registers (c_emu k) -> syscall_entry_point k = return_value (fork k).
Proof.
  intros H17 H. unfold syscall_entry_point. rewrite H17. destruct (has_reg _ 10 H) as [a1 ->]; [lia|].
  destruct (has_reg _ 11 H) as [a2 ->]; [lia|]. by destruct (has_reg _ 12 H) as [a3 ->]; [lia|].
Qed.

(** The result register after a call. *)
Lemma return_value_spec k val :
  has_registers (c_emu k) ->
  exists emu, return_value (Ret (k, val)) = Ret (set_emu k emu, NONE) /\ has_registers emu /\
    memory emu = c_memory k /\ program_counter emu = program_counter (c_emu k) /\
    read_reg emu 10 = Ret (wrap 64 val) /\ forall n, n <> 10 -> 0 <= n -> read_reg emu n = read_reg (c_emu k) n.
Proof.
  intros H. unfold return_value, write_reg. cbn [obind]. change (negb (10 =? 0)) with true. cbv iota.
  unfold has_registers in H. rewrite decide_True by (rewrite H; lia). cbn [obind]. eexists. split; [done|].
  unfold has_registers. cbn [registers memory program_counter]. rewrite length_insert. split; [done|]. split; [done|]. split; [done|].
  unfold read_reg. cbn [registers]. split.
  - change (10 =? 0) with false. cbv iota. by rewrite list_lookup_insert_eq by (rewrite H; lia).
  - intros n Hn Hn0. destruct (Z.eqb_spec n 0); [done|]. by rewrite list_lookup_insert_ne by lia.
Qed.

(** Unless it runs as the child, [fork] makes one. *)
Lemma fork_parent k :
  pd_state (c_data k) <> RUNNING_NEW_CHILD_JUST_FORKED ->
  fork k =
    let! ps := fork_pipes (c_pipes k) (fd_mappings (c_data k)) in
    let child := process_new (c_emu k)
      (set_pd_state (set_parent (c_data k) (pd_pid (c_data k))) RUNNING_NEW_CHILD_JUST_FORKED) in
    let (g, n) := new_task (set_pipes (c_globals k) ps) child in
    Ret (set_globals k g, Z.of_nat n).
Proof. intros H. unfold fork. by destruct (pd_state (c_data k)). Qed.

(** C10: [fork] returns twice.  The parent gets the pid of the child; the child is a
    copy of it, memory, registers, descriptors and current directory, that stands
    before the same call, and when it is given its first tick the call returns 0
    and leaves everything else as it was when the parent called. *)
Theorem fork_returns_twice k :
  read_reg (c_emu k) 17 = Ret 14 -> has_registers (c_emu k) ->
  pd_state (c_data k) <> RUNNING_NEW_CHILD_JUST_FORKED ->
  match syscall_entry_point k with
  | Panic => fork_pipes (c_pipes k) (fd_mappings (c_data k)) = Panic
  | Ret (k1, action) => action = NONE /\
      exists child child_pid,
        new_task_list (c_globals k1) = new_task_list (c_globals k) ++ [child] /\ pid child = Some child_pid /\
        read_reg (c_emu k1) 10 = Ret (wrap 64 (Z.of_nat child_pid)) /\
        c_data k1 = c_data k /\ c_memory k1 = c_memory k /\ process_emu child = c_emu k /\
        forall g, exists k2,
          syscall_entry_point (MkCall (process_emu child) (process_data child) g) = Ret (k2, NONE) /\
          read_reg (c_emu k2) 10 = Ret 0 /\ c_memory k2 = c_memory k /\ c_globals k2 = g /\
          (forall n, n <> 10 -> 0 <= n -> read_reg (c_emu k2) n = read_reg (c_emu k) n) /\
          c_data k2 = MkData (open_nodes (c_data k)) (fd_mappings (c_data k)) (cwd (c_data k)) (env (c_data k))
            (virtual_allocator (c_data k)) RUNNING (Some child_pid) (pd_pid (c_data k))
  end.
Proof.
  intros H17 Hreg Hst. rewrite entry_point_fork, fork_parent by done.
  destruct (fork_pipes _ _) as [ps|]; cbn [obind]; [|done]. unfold new_task. set (child := process_new _ _).
  set (n := S (number_of_tasks (set_pipes (c_globals k) ps))). set (g1 := MkGlobals _ _ _ _ _).
  destruct (return_value_spec (set_globals k g1) (Z.of_nat n) Hreg) as (emu & -> & _ & R2 & _ & R4 & _).
  split; [done|]. exists (set_pid child n), n. do 6 (split; [done|]). intros g.
  rewrite entry_point_fork by done. unfold fork. cbn [c_data process_data pd_state set_pid state child process_new set_pd_state].
  destruct (return_value_spec (set_data (MkCall (process_emu (set_pid child n)) (process_data (set_pid child n)) g)
    (set_pd_state (process_data (set_pid child n)) RUNNING)) 0 Hreg) as (emu2 & E & _ & S2 & _ & S4 & S5).
  eexists. split; [exact E|]. done.
Qed.

(** * waitpid *)

(** C33: once the scheduler has found a child that ended, the repeated call delivers
    its report: the pid is the result, and the word at [wstatus] tells in its low
    eight bits the exit code or the signal, and in the next bit which of both.  The
    process runs on, and nothing else of it changes. *)
Theorem waitpid_delivers k p wstatus options info ptr :
  pd_state (c_data k) = FINISHED_WAITING_FOR_CHILD_PROCESS (Some info) ->
  try_as_mut wstatus (c_memory k) 8 = Ret (Some ptr) ->
  exists k' bytes, waitpid k p wstatus options = Ret (k', Some (Z.of_nat (wait_cpid info))) /\
    c_data k' = set_pd_state (c_data k) RUNNING /\ c_globals k' = c_globals k /\ same_shape (c_memory k) (c_memory k') /\
    try_as_ref wstatus (c_memory k') 8 = Ret (Some bytes) /\
    from_le_bytes bytes = match wait_action info with
      | EXITED code => code mod 256
      | TERMINATED_BY_SIGNAL sg => 256 + signal_number (signal_type sg)
      end.
Proof.
  intros Hs Hp. unfold waitpid. rewrite Hs. change (c_memory (set_data k _)) with (c_memory k).
  assert (try_as_ptr wstatus (c_memory k) = Ret (Some ptr)) as ->.
  { unfold try_as_mut in Hp. apply otry_Some in Hp as (i & Hi & Hp). by inv_outcome. }
  set (bytes := to_le_bytes 8 (wait_status (wait_action info))). cbn [obind].
  destruct (fill_buf_spec _ _ _ _ bytes Hp) as (m & Hf & Hshape & Href & _); [done|].
  rewrite Hf. cbn [obind]. eexists _, bytes. split; [done|]. do 3 (split; [done|]). split; [done|].
  unfold bytes. rewrite from_to_le_bytes. destruct (wait_action info) as [code|sg]; unfold wait_status.
  - rewrite Z.lor_0_l. change 255 with (Z.ones 8). rewrite Z.land_ones by lia.
    apply wrap_small. eapply (in_u_weaken 8); [lia|]. apply Z.mod_pos_bound. lia.
  - by destruct (signal_type sg).
Qed.

(** A program that passes a null [wstatus], as POSIX allows, loses the report:
    the child was already acknowledged by the scheduler, the call returns -1, and
    the next call waits anew. *)
Theorem waitpid_null_loses_report k p options info :
  pd_state (c_data k) = FINISHED_WAITING_FOR_CHILD_PROCESS (Some info) ->
  try_as_ptr (MkPtr USERSPACE_NULL_PTR) (c_memory k) = Ret None ->
  exists k', waitpid k p (MkPtr USERSPACE_NULL_PTR) options = Ret (k', Some (-1)) /\ pd_state (c_data k') = RUNNING.
Proof.
  intros Hs Hp. unfold waitpid. rewrite Hs. change (c_memory (set_data k _)) with (c_memory k). rewrite Hp. by eexists.
Qed.

(** * exec *)

(** What reading the whole file asks the file system for. *)
Definition file_holds (w : W) (f : F) (bytes : list Z) : Prop :=
  get_size w f = Ret (Z.of_nat (length bytes)) /\ file_read w f 0 (Z.of_nat (length bytes)) = Ret (Some bytes).

(** What [exec] makes of the program that [from_elf] would load for a new process. *)
Definition with_program k (emu : Riscv64Cpu LittleEndianVirtualMemory) (pd : PData) : Call W F D FB :=
  set_data (set_emu k emu) (set_allocator (set_env (c_data k) (env pd)) (virtual_allocator pd)).

(** What [exec] leaves of a process whose new program could not be loaded: the registers
    are reset, the memory [m] and the allocator [a] hold what was loaded until then, and
    the process has ended with code 0xDED. *)
Definition without_program k (entry : Z) (m : LittleEndianVirtualMemory) (a : BasicAlloc) : Call W F D FB :=
  set_data (set_emu k (reset_registers (set_memory (c_emu k) m) entry)) (exit (set_allocator (c_data k) a) 0xDED).

Lemma without_own_allocator k entry m :
  without_program k entry m (virtual_allocator (c_data k)) =
  set_data (set_emu k (reset_registers (set_memory (c_emu k) m) entry)) (exit (c_data k) 0xDED).
Proof. unfold without_program. by rewrite set_own_allocator. Qed.

Lemma replace_program_loads k elf bytes args e c :
  from_bytes bytes = Ret (Some elf) -> instruction_set (header elf) = RiscV -> elf_type (header elf) = EXECUTABLE ->
  match from_elf (N := Node F D) bytes args c e with
  | Panic => replace_program k elf bytes args e = Panic
  | Ret None => exists m a, replace_program k elf bytes args e = Ret (without_program k (program_entry (header elf)) m a, inr (-1))
  | Ret (Some (emu, pd)) => replace_program k elf bytes args e = Ret (with_program k emu pd, inl ())
  end.
Proof.
  intros He Hi Ht. unfold from_elf. rewrite He. cbn [otry]. rewrite Hi, Ht, !bool_decide_true by done. cbn [negb].
  unfold replace_program, set_call_memory, clear_regions. cbn [c_memory c_emu c_data set_data set_emu memory set_memory reset_registers virtual_allocator set_allocator]. fold new_memory.
  destruct (load_elf_into_virtual_memory _ _ _) as [[m1 [lower|]]|]; cbn [obind otry];
    [|exists m1, (virtual_allocator (c_data k)); by rewrite without_own_allocator|done].
  destruct (map_region _ _ m1) as [[m2 [[]|]]|]; cbn [obind otry];
    [|exists m2, (virtual_allocator (c_data k)); by rewrite without_own_allocator|done].
  destruct (add_chk _ _ _); cbn [obind]; [|done]. destruct (sub_chk _ _); cbn [obind]; [|done].
  destruct (load_args_into_virtual_memory _ _ _) as [[[m3 a3] [argv|]]|]; cbn [obind otry]; [|by exists m3, a3|done].
  destruct (load_env_into_virtual_memory _ _ _) as [[[m4 a4] [pe|]]|]; cbn [obind otry]; [|by exists m4, a4|done].
  set (emu := cpu_from m4 _). match goal with |- context [@write_reg ?M ?x 10 ?v] => tryif constr_eq x emu then fail else change (@write_reg M x 10 v) with (write_reg emu 10 v) end.
  destruct (write_reg emu 10 _) as [emu1|]; cbn [obind]; [|done].
  by destruct (write_reg emu1 11 _) as [emu2|]; cbn [obind].
Qed.

(** A round of [exec] at a program file. *)
Lemma exec_at_program n k f path args e elf bytes :
  file_holds (c_fs k) f bytes -> from_bytes bytes = Ret (Some elf) ->
  instruction_set (header elf) = RiscV -> elf_type (header elf) = EXECUTABLE ->
  exec_at (S n) k (File f) path args e = replace_program k elf bytes args e.
Proof.
  intros [Hs Hr] He Hi Ht. cbn [exec_at]. rewrite Hs. cbn [obind]. rewrite Hr. cbn [obind]. rewrite He. cbn [obind].
  by rewrite Hi, Ht, !bool_decide_true.
Qed.

(** C9: [exec] of a program file leaves the process with exactly the cpu, the memory,
    the environment and the heap that [from_elf] gives a new process for the same
    bytes, arguments and environment; descriptors, current directory, pid and parent
    are kept.  When the file cannot be loaded the call returns -1 and the process has
    ended with code 0xDED, with its registers reset and with a memory and an allocator
    that hold what was loaded before the failure; nothing else of the process or of the
    kernel has changed. *)
Theorem exec_loads_like_from_elf k f path args e elf bytes c :
  file_holds (c_fs k) f bytes -> from_bytes bytes = Ret (Some elf) ->
  instruction_set (header elf) = RiscV -> elf_type (header elf) = EXECUTABLE ->
  match from_elf (N := Node F D) bytes args c e with
  | Panic => exec k (File f) path args e = Panic
  | Ret None => exists m a, exec k (File f) path args e = Ret (without_program k (program_entry (header elf)) m a, inr (-1))
  | Ret (Some (emu, pd)) => exec k (File f) path args e = Ret (with_program k emu pd, inl ())
  end.
Proof.
  intros Hc He Hi Ht. unfold exec. change 101%nat with (S 100). rewrite (exec_at_program _ _ _ _ _ _ _ _ Hc He Hi Ht).
  by apply replace_program_loads.
Qed.

(** The file [f], at [path], is a script whose first line names as interpreter the file
    [f'] at [path']; started with [args] it runs the interpreter with [args']: the
    interpreter's path, the optional argument, the script's path and the arguments but
    the first. *)
Definition interpreted_by (d : Devices W D FB) (f : F) (path : Path) (args : list str) (f' : F) (path' : Path) (args' : list str) : Prop :=
  exists bytes interpreter opt_arg,
    file_holds (fs d) f bytes /\ from_bytes bytes = Ret None /\
    parse_interpreter bytes = Ret (Some (interpreter, opt_arg)) /\
    try_from_str interpreter = Some path' /\ vfs_lookup d path' = Ret (Some (File f')) /\
    args' = into_inner path' :: option_list opt_arg ++ into_inner path :: drop 1 args.

(** [n] interpreters, each a script for the next, lead from one file to another. *)
Inductive script_chain (d : Devices W D FB) : nat -> F -> Path -> list str -> F -> Path -> list str -> Prop :=
| chain_end f path args : script_chain d 0 f path args f path args
| chain_script n f path args f1 path1 args1 f2 path2 args2 :
    interpreted_by d f path args f1 path1 args1 -> script_chain d n f1 path1 args1 f2 path2 args2 ->
    script_chain d (S n) f path args f2 path2 args2.

(** A round of [exec] at a script. *)
Lemma exec_at_script n k f path args e f' path' args' :
  interpreted_by (c_devices k) f path args f' path' args' ->
  exec_at (S n) k (File f) path args e = exec_at n k (File f') path' args' e.
Proof.
  intros (bytes & i & o & [Hs Hr] & He & Hi & Hp & Hl & ->). cbn [exec_at]. unfold c_fs. rewrite Hs. cbn [obind]. rewrite Hr. cbn [obind]. rewrite He. cbn [obind].
  rewrite Hi. cbn [obind]. rewrite Hp, Hl. by destruct o.
Qed.

Lemma exec_at_chain n m k f path args e f' path' args' :
  script_chain (c_devices k) n f path args f' path' args' ->
  exec_at (n + m) k (File f) path args e = exec_at m k (File f') path' args' e.
Proof.
  induction 1 as [|n f path args f1 path1 args1 f2 path2 args2 Hi _ IH]; [done|].
  cbn [Nat.add]. by rewrite (exec_at_script _ _ _ _ _ _ _ _ _ Hi).
Qed.

(** C27: scripts whose interpreters are scripts again: a program that up to 100
    interpreters lead to replaces the program of the process, with the arguments every
    script on the way adds; when 101 interpreters or more lead on, as they do in a
    circle, the call returns -1 and changes nothing. *)
Theorem exec_follows_interpreters n k f path args e f' path' args' :
  script_chain (c_devices k) n f path args f' path' args' ->
  ((n <= 100)%nat -> forall bytes elf, file_holds (c_fs k) f' bytes -> from_bytes bytes = Ret (Some elf) ->
     instruction_set (header elf) = RiscV -> elf_type (header elf) = EXECUTABLE ->
     exec k (File f) path args e = replace_program k elf bytes args' e) /\
  ((101 <= n)%nat -> exec k (File f) path args e = Ret (k, inr (-1))).
Proof.
  intros Hc. unfold exec. split.
  - intros Hn bytes elf Hf He Hi Ht. replace 101%nat with (n + S (100 - n))%nat by lia.
    by rewrite (exec_at_chain _ _ _ _ _ _ _ _ _ _ Hc), (exec_at_program _ _ _ _ _ _ _ _ Hf He Hi Ht).
  - intros Hn. clear -Hc Hn. remember 101%nat as r eqn:Er. clear Er. revert r Hn.
    induction Hc as [f path args|n f path args f1 path1 args1 f2 path2 args2 Hi _ IH]; intros r Hr; [by replace r with 0%nat by lia|].
    destruct r as [|r]; [done|]. rewrite (exec_at_script _ _ _ _ _ _ _ _ _ Hi). apply IH. lia.
Qed.

End Calls.

(** * Examples *)

(** A process about to call number [n]. *)
Definition calling (n : Z) (w : RamFs) (pd : ProcessData (Node nat unit) Path) : Call RamFs nat unit EfiGopMode :=
  MkCall (MkCpu 0x1000 (<[16%nat := n]> (replicate 31 0)) [MkRegion 0x1000 (replicate 16 0)]) pd
    (set_devices demo_globals (set_fs demo_devices w)).

Lemma fork_returns_twice_witness :
  exists k1 child k2, syscall_entry_point (calling 14 demo_ram demo_proc_data) = Ret (k1, NONE) /\
    read_reg (c_emu k1) 10 = Ret 2 /\ new_task_list (c_globals k1) = [child] /\
    syscall_entry_point (MkCall (process_emu child) (process_data child) (c_globals k1)) = Ret (k2, NONE) /\
    read_reg (c_emu k2) 10 = Ret 0.
Proof.
  pose proof (fork_returns_twice (calling 14 demo_ram demo_proc_data) eq_refl eq_refl ltac:(discriminate)) as H.
  destruct (syscall_entry_point (calling 14 _ _)) as [[k1 a]|] eqn:E; [|by vm_compute in H].
  destruct H as (-> & child & n & H1 & H2 & H3 & _ & _ & _ & H4). destruct (H4 (c_globals k1)) as (k2 & H5 & H6 & _).
  exists k1, child, k2. split; [done|].
  assert (read_reg (c_emu k1) 10 = Ret 2) as H7.
  { apply (f_equal (fun o => match o with Ret (k, _) => read_reg (c_emu k) 10 | Panic => Panic end)) in E. vm_compute in E. by symmetry. }
  done.
Defined.

Definition demo_report : WaitInformation := MkWait 2 (EXITED 300).

Lemma waitpid_delivers_witness :
  exists k' bytes, waitpid (calling 15 demo_ram (set_pd_state demo_proc_data (FINISHED_WAITING_FOR_CHILD_PROCESS (Some demo_report))))
      (-1) (MkPtr 0x1004) 0 = Ret (k', Some 2) /\
    try_as_ref (MkPtr 0x1004) (c_memory k') 8 = Ret (Some bytes) /\ from_le_bytes bytes = 44.
Proof.
  destruct (waitpid_delivers (calling 15 demo_ram (set_pd_state demo_proc_data (FINISHED_WAITING_FOR_CHILD_PROCESS (Some demo_report))))
    (-1) (MkPtr 0x1004) 0 demo_report (MkMapping 4 0) eq_refl eq_refl) as (k' & bytes & H1 & _ & _ & _ & H2 & H3).
  by exists k', bytes.
Defined.

Lemma waitpid_null_loses_report_witness :
  exists k', waitpid (calling 15 demo_ram (set_pd_state demo_proc_data (FINISHED_WAITING_FOR_CHILD_PROCESS (Some demo_report))))
      (-1) (MkPtr USERSPACE_NULL_PTR) 0 = Ret (k', Some (-1)) /\ pd_state (c_data k') = RUNNING.
Proof.
  exact (waitpid_null_loses_report (calling 15 demo_ram (set_pd_state demo_proc_data (FINISHED_WAITING_FOR_CHILD_PROCESS (Some demo_report))))
    (-1) 0 demo_report eq_refl eq_refl).
Defined.

Definition demo_exec : Call RamFs nat unit EfiGopMode := calling 17 [([97], demo_elf_bytes)] demo_proc_data.

Lemma exec_loads_like_from_elf_witness :
  exists emu pd, from_elf (N := Node nat unit) demo_elf_bytes [[112]] root [] = Ret (Some (emu, pd)) /\
    exec demo_exec (File 0%nat) (MkPath [slash; 97]) [[112]] [] = Ret (with_program demo_exec emu pd, inl ()).
Proof.
  assert (file_holds (c_fs demo_exec) 0%nat demo_elf_bytes) as Hc by (split; vm_compute; reflexivity).
  assert (from_bytes demo_elf_bytes = Ret (Some demo_elf)) as He by (vm_compute; reflexivity).
  pose proof (exec_loads_like_from_elf demo_exec 0%nat (MkPath [slash; 97]) [[112]] [] demo_elf demo_elf_bytes root Hc He eq_refl eq_refl) as H.
  destruct (from_elf demo_elf_bytes [[112]] root []) as [[[emu pd]|]|] eqn:E; [exists emu, pd; split; [reflexivity|exact H]|exfalso..];
    apply (f_equal (fun o => match o with Ret (Some _) => true | _ => false end)) in E; vm_compute in E; discriminate E.
Defined.

(** Two scripts, a and c, and a program b: the interpreter of a is b, with the optional
    argument x, and the interpreter of c is c. *)
Definition demo_script_a : list Z := [35; 33; 47; 98; 32; 120; 10].
Definition demo_script_c : list Z := [35; 33; 47; 99; 10; 120; 120].
Definition demo_scripts : Call RamFs nat unit EfiGopMode :=
  calling 17 [([97], demo_script_a); ([98], demo_elf_bytes); ([99], demo_script_c)] demo_proc_data.

Lemma demo_circle n args : exists args', script_chain (c_devices demo_scripts) n 2%nat (MkPath [slash; 99]) args 2%nat (MkPath [slash; 99]) args'.
Proof.
  revert args. induction n as [|n IH]; intros args; [eexists; constructor|].
  destruct (IH ([slash; 99] :: [slash; 99] :: drop 1 args)) as (args' & H). exists args'. econstructor; [|exact H].
  exists demo_script_c, [slash; 99], None; split_and!; (done || (split; done) || (vm_compute; reflexivity)).
Qed.

Lemma exec_follows_interpreters_witness :
  exec demo_scripts (File 0%nat) (MkPath [slash; 97]) [[112]; [113]] [] =
    replace_program demo_scripts demo_elf demo_elf_bytes [[slash; 98]; [120]; [slash; 97]; [113]] [] /\
  exec demo_scripts (File 2%nat) (MkPath [slash; 99]) [[112]] [] = Ret (demo_scripts, inr (-1)).
Proof.
  split.
  - destruct (exec_follows_interpreters 1 demo_scripts 0%nat (MkPath [slash; 97]) [[112]; [113]] [] 1%nat (MkPath [slash; 98])
      [[slash; 98]; [120]; [slash; 97]; [113]]) as [H _].
    + econstructor; [|constructor]. exists demo_script_a, [slash; 98], (Some [120]); split_and!; (done || (split; done) || (vm_compute; reflexivity)).
    + apply H; [lia|split; vm_compute; reflexivity|vm_compute; reflexivity|reflexivity..].
  - destruct (demo_circle 101 [[112]]) as (args' & Hc).
    by destruct (exec_follows_interpreters 101 demo_scripts 2%nat (MkPath [slash; 99]) [[112]] [] 2%nat (MkPath [slash; 99]) args' Hc) as [_ H]; apply H.
Defined.
