(* ===== verification/Stubs.v ===== *)
(** The system call stubs of the C library (rlibc/src/sys.rs): they load the argument
    registers, execute ECALL and read the result from a0.  What ECALL does to the
    registers, the memory and the kernel is [syscall_entry_point]; a call that has to be
    repeated, or that does not come back, has no result. *)
From S2P Require Import Prelude MachineInt Str Path Vfs RootFs Keyboard CharDevice Terminal PackedStruct EmulatorMemory VirtMem Allocator Scheduler Cpu CpuAlu Loader FdTable Heap CMem CStr Specifier Printf Kernel FileCalls Scanf FileTheorems LibcKernel Exec Syscall SyscallTheorems.
From stdpp Require Import list gmap.
#[local] Open Scope Z_scope.

(** [number as usize]. *)
Definition syscall_value (number : SyscallNumber) : Z :=
  match number with
  | SysExit => 0 | SysRead => 1 | SysWrite => 2 | SysOpen => 3 | SysClose => 4 | SysLSeek => 5 | SysMalloc => 6 | SysFree => 7
  | SysRealloc => 8 | SysGetcwd => 9 | SysGetenv => 10 | SysFchdir => 11 | SysDup => 12 | SysDup2 => 13 | SysFork => 14
  | SysWaitpid => 15 | SysFexecve => 16 | SysExecve => 17 | SysExecvpe => 18 | SysPipe => 19 | SysMaxValue => 20
  end.

Section Stubs.
Context {PS : PackedStruct}.
Context {W F D FB : Type} {FS : FileSystem W F D} {FBops : FrameBuffer FB}.
Implicit Types k : Call W F D FB.

Definition load_register k (reg_n value : Z) : outcome (Call W F D FB) :=
  let! emu := write_reg (c_emu k) reg_n (wrap 64 value) in Ret (set_emu k emu).
Definition load_syscall_argument_1 k (value : Z) := load_register k 10 value.
Definition load_syscall_argument_2 k (value : Z) := load_register k 11 value.
Definition load_syscall_argument_3 k (value : Z) := load_register k 12 value.
Definition read_syscall_return k : outcome Z := read_reg (c_emu k) 10.

(** ECALL. *)
Definition syscall k (number : SyscallNumber) : outcome (Call W F D FB * CpuAction) :=
  let! k := load_register k 17 (syscall_value number) in syscall_entry_point k.

(** The value in a0 as the type of the function. *)
Definition syscall_returning k (number : SyscallNumber) (as_type : Z -> Z) : outcome (Call W F D FB * option Z) :=
  let! (k, action) := syscall k number in
  match action with
  | REPEAT_INSTRUCTION => Ret (k, None)
  | _ => let! value := read_syscall_return k in Ret (k, Some (as_type value))
  end.

Definition as_pointer (x : Z) : Z := x.
Definition as_c_ssize_t (x : Z) : Z := to_signed 64 x.

(** ** The stubs *)

Definition stub_exit k (code : Z) : outcome (Call W F D FB) :=
  let! k := load_syscall_argument_1 k code in
  let! (k, _) := syscall k SysExit in Ret k.

Definition stub_open k (pathname flags : Z) :=
  let! k := load_syscall_argument_1 k pathname in
  let! k := load_syscall_argument_2 k flags in
  syscall_returning k SysOpen to_c_int.

Definition stub_close k (fd : Z) :=
  let! k := load_syscall_argument_1 k fd in
  syscall_returning k SysClose to_c_int.

Definition stub_write k (fd buf count : Z) :=
  let! k := load_syscall_argument_1 k fd in
  let! k := load_syscall_argument_2 k buf in
  let! k := load_syscall_argument_3 k count in
  syscall_returning k SysWrite as_c_ssize_t.

Definition stub_read k (fd buf count : Z) :=
  let! k := load_syscall_argument_1 k fd in
  let! k := load_syscall_argument_2 k buf in
  let! k := load_syscall_argument_3 k count in
  syscall_returning k SysRead as_c_ssize_t.

Definition stub_lseek k (fd offset whence : Z) :=
  let! k := load_syscall_argument_1 k fd in
  let! k := load_syscall_argument_2 k offset in
  let! k := load_syscall_argument_3 k whence in
  syscall_returning k SysLSeek as_c_ssize_t.

Definition stub_malloc k (size : Z) :=
  let! k := load_syscall_argument_1 k size in
  syscall_returning k SysMalloc as_pointer.

Definition stub_free k (ptr : Z) : outcome (Call W F D FB) :=
  let! k := load_syscall_argument_1 k ptr in
  let! (k, _) := syscall k SysFree in Ret k.

(** The new size goes to the third argument, not to the second. *)
Definition stub_realloc k (ptr new_size : Z) :=
  let! k := load_syscall_argument_1 k ptr in
  let! k := load_syscall_argument_3 k new_size in
  syscall_returning k SysRealloc as_pointer.

Definition stub_getcwd k (buf size : Z) :=
  let! k := load_syscall_argument_1 k buf in
  let! k := load_syscall_argument_2 k size in
  syscall_returning k SysGetcwd as_pointer.

Definition stub_getenv k (name : Z) :=
  let! k := load_syscall_argument_1 k name in
  syscall_returning k SysGetenv as_pointer.

Definition stub_fchdir k (fd : Z) :=
  let! k := load_syscall_argument_1 k fd in
  syscall_returning k SysFchdir to_c_int.

Definition stub_dup k (oldfd : Z) :=
  let! k := load_syscall_argument_1 k oldfd in
  syscall_returning k SysDup to_c_int.

Definition stub_dup2 k (oldfd newfd : Z) :=
  let! k := load_syscall_argument_1 k oldfd in
  let! k := load_syscall_argument_2 k newfd in
  syscall_returning k SysDup2 to_c_int.

Definition stub_fork k := syscall_returning k SysFork to_c_int.

Definition stub_waitpid k (pid wstatus options : Z) :=
  let! k := load_syscall_argument_1 k pid in
  let! k := load_syscall_argument_2 k wstatus in
  let! k := load_syscall_argument_3 k options in
  syscall_returning k SysWaitpid to_c_int.

Definition stub_fexecve k (fd argv envp : Z) :=
  let! k := load_syscall_argument_1 k fd in
  let! k := load_syscall_argument_2 k argv in
  let! k := load_syscall_argument_3 k envp in
  syscall_returning k SysFexecve to_c_int.

Definition stub_execve k (pathname argv envp : Z) :=
  let! k := load_syscall_argument_1 k pathname in
  let! k := load_syscall_argument_2 k argv in
  let! k := load_syscall_argument_3 k envp in
  syscall_returning k SysExecve to_c_int.

Definition stub_execvpe k (file argv envp : Z) :=
  let! k := load_syscall_argument_1 k file in
  let! k := load_syscall_argument_2 k argv in
  let! k := load_syscall_argument_3 k envp in
  syscall_returning k SysExecvpe to_c_int.

Definition stub_pipe k (fds : Z) :=
  let! k := load_syscall_argument_1 k fds in
  syscall_returning k SysPipe to_c_int.

(** The calls the file functions of the library are built on always return. *)
Definition returned (r : outcome (Call W F D FB * option Z)) : outcome (Call W F D FB * Z) :=
  let! (k, v) := r in let! v := unwrap v in Ret (k, v).

#[export] Instance kernel_files : LibcFiles (Call W F D FB) := {|
  sys_open k path flags := returned (stub_open k path flags);
  sys_close k fd := returned (stub_close k fd);
  sys_lseek k fd offset whence := returned (stub_lseek k fd offset whence);
  sys_fchdir k fd := returned (stub_fchdir k fd);
  sys_malloc k size := returned (stub_malloc k size);
  sys_free := stub_free;
|}.

(** * What the kernel gets *)

(** The state of the call with values in registers. *)
Definition with_register k (rv : Z * Z) : Call W F D FB := set_emu k (set_reg (c_emu k) rv.1 (wrap 64 rv.2)).
Definition with_registers k (rvs : list (Z * Z)) : Call W F D FB := fold_left with_register rvs k.

Lemma with_registers_has k rvs : has_registers (c_emu k) -> has_registers (c_emu (with_registers k rvs)).
Proof.
  revert k. induction rvs as [|rv rvs IH]; intros k H; [done|]. apply IH. unfold has_registers, with_register, set_reg in *. simpl.
  destruct (rv.1 =? 0); [done|]. cbn [registers]. by rewrite length_insert.
Qed.

Lemma load_register_ok k r v : has_registers (c_emu k) -> 0 < r <= 31 -> load_register k r v = Ret (with_register k (r, v)).
Proof.
  intros H Hr. unfold load_register, write_reg, with_register, set_reg, has_registers in *. cbn [fst snd].
  rewrite (proj2 (Z.eqb_neq r 0)) by lia. cbn [negb]. by rewrite decide_True by lia.
Qed.

Lemma read_with_register k r v r' :
  has_registers (c_emu k) -> 0 < r <= 31 -> 0 < r' ->
  read_reg (c_emu (with_register k (r, v))) r' = if decide (r' = r) then Ret (wrap 64 v) else read_reg (c_emu k) r'.
Proof.
  intros H Hr Hr'. unfold read_reg, with_register, set_reg, has_registers in *. cbn [fst snd c_emu set_emu].
  rewrite (proj2 (Z.eqb_neq r 0)), (proj2 (Z.eqb_neq r' 0)) by lia. cbn [registers]. case_decide as E.
  - subst. by rewrite list_lookup_insert_eq by lia.
  - by rewrite list_lookup_insert_ne by lia.
Qed.

(** The result of a handler, in a0. *)
Definition answer (as_type : Z -> Z) (r : outcome (Call W F D FB * Z)) : outcome (Call W F D FB * option Z) :=
  let! (k, val) := r in
  let! emu := write_reg (c_emu k) 10 (wrap 64 val) in
  Ret (set_emu k emu, Some (as_type (wrap 64 val))).
Definition answer_or_wait (as_type : Z -> Z) (r : outcome (Call W F D FB * option Z)) : outcome (Call W F D FB * option Z) :=
  let! (k, val) := r in
  match val with Some val => answer as_type (Ret (k, val)) | None => Ret (k, None) end.

Lemma returning_value k number as_type r :
  syscall k number = return_value r -> syscall_returning k number as_type = answer as_type r.
Proof.
  intros E. unfold syscall_returning, answer. rewrite E. unfold return_value. destruct r as [[k1 val]|]; [|done]. cbn [obind].
  unfold write_reg. change (negb (10 =? 0)) with true. cbv iota. case_decide as Hd; [|done]. cbn [obind].
  unfold read_syscall_return, read_reg. change (10 =? 0) with false. cbv iota. cbn [c_emu set_emu registers].
  by rewrite list_lookup_insert_eq by done.
Qed.

Lemma returning_or_repeat k number as_type r :
  syscall k number = return_or_repeat r -> syscall_returning k number as_type = answer_or_wait as_type r.
Proof.
  intros E. destruct r as [[k1 [val|]]|].
  - exact (returning_value k number as_type (Ret (k1, val)) E).
  - unfold syscall_returning. by rewrite E.
  - unfold syscall_returning. by rewrite E.
Qed.

(** Loading the arguments, and what the entry point then reads. *)
Ltac load_registers :=
  unfold load_syscall_argument_1, load_syscall_argument_2, load_syscall_argument_3;
  repeat (rewrite load_register_ok; [cbn [obind]|by repeat apply (with_registers_has _ [_])|lia]).
Ltac enter H :=
  unfold syscall; load_registers; unfold syscall_entry_point;
  repeat (rewrite read_with_register; [|by repeat apply (with_registers_has _ [_])|lia|lia]); cbn [obind];
  destruct (has_reg _ 10 H) as [? H10]; [lia|]; destruct (has_reg _ 11 H) as [? H11]; [lia|]; destruct (has_reg _ 12 H) as [? H12]; [lia|];
  rewrite ?H10, ?H11, ?H12; reflexivity.
Ltac stub H := load_registers; first [apply returning_value | apply returning_or_repeat]; enter H.

(** C31: the stubs of the C library reach the handlers of the kernel with their arguments
    and return what the handler returned, converted to the type of the function: every
    system call that returns to its caller, that is all but exit, free and the exec
    family.  The exception is realloc, which hands over as the new size whatever the
    second argument register held before. *)
Theorem stubs_reach_handlers k a b c :
  has_registers (c_emu k) ->
  let one n := with_registers k [(10, a); (17, n)] in
  let two n := with_registers k [(10, a); (11, b); (17, n)] in
  let three n := with_registers k [(10, a); (11, b); (12, c); (17, n)] in
  let fd := Z.to_nat (wrap 64 a) in
  let heap := virtual_allocator (c_data k) in
  stub_read k a b c = answer_or_wait as_c_ssize_t (read (three 1) fd (MkPtr (wrap 64 b)) (wrap 64 c)) /\
  stub_write k a b c = answer as_c_ssize_t (write (three 2) fd (MkPtr (wrap 64 b)) (wrap 64 c)) /\
  stub_open k a b = answer to_c_int (open (two 3) (MkPtr (wrap 64 a)) (wrap 64 b)) /\
  stub_close k a = answer to_c_int (on_fds (one 4) (close (c_data k) (c_pipes k) fd)) /\
  stub_lseek k a b c = answer as_c_ssize_t (lseek (three 5) fd (to_signed 64 (wrap 64 b)) (wrap 64 c)) /\
  stub_malloc k a = answer as_pointer (on_heap (one 6) (malloc (c_memory k) heap (wrap 64 a))) /\
  stub_getcwd k a b = answer as_pointer (getcwd (two 9) (MkPtr (wrap 64 a)) (wrap 64 b)) /\
  stub_getenv k a = answer as_pointer (getenv (one 10) (MkPtr (wrap 64 a))) /\
  stub_fchdir k a = answer to_c_int (fchdir (one 11) fd) /\
  stub_dup k a = answer to_c_int (on_fds (one 12) (dup (c_data k) (c_pipes k) fd)) /\
  stub_dup2 k a b = answer to_c_int (on_fds (two 13) (dup2 (c_data k) (c_pipes k) fd (Z.to_nat (wrap 64 b)))) /\
  stub_fork k = answer to_c_int (fork (with_registers k [(17, 14)])) /\
  stub_waitpid k a b c = answer_or_wait to_c_int (waitpid (three 15) (to_signed 64 (wrap 64 a)) (MkPtr (wrap 64 b)) (wrap 64 c)) /\
  stub_pipe k a = answer to_c_int (call_pipe (one 19) (MkPtr (wrap 64 a))) /\
  forall old, read_reg (c_emu k) 11 = Ret old ->
    stub_realloc k a b = answer as_pointer (on_heap (with_registers k [(10, a); (12, b); (17, 8)]) (realloc (c_memory k) heap (wrap 64 a) old)).
Proof.
  intros H. cbv zeta. split_and!; [unfold stub_read; stub H|unfold stub_write; stub H|unfold stub_open; stub H|unfold stub_close; stub H|
    unfold stub_lseek; stub H|unfold stub_malloc; stub H|unfold stub_getcwd; stub H|unfold stub_getenv; stub H|unfold stub_fchdir; stub H|
    unfold stub_dup; stub H|unfold stub_dup2; stub H|unfold stub_fork; stub H|unfold stub_waitpid; stub H|unfold stub_pipe; stub H|].
  intros old Hold. unfold stub_realloc. load_registers. apply returning_value. unfold syscall. load_registers. unfold syscall_entry_point.
  repeat (rewrite read_with_register; [|by repeat apply (with_registers_has _ [_])|lia|lia]). cbn [obind decide]. rewrite ?Hold. reflexivity.
Qed.

End Stubs.

(** * Example *)

(** Closing the pipe of a process, through the stub. *)
Lemma stubs_reach_handlers_witness :
  exists k', stub_close (demo_scanning [1; 2]) 3 = Ret (k', Some 0) /\ get_mapping (c_data k') 3 = None.
Proof.
  assert (has_registers (c_emu (demo_scanning [1; 2]))) as H by reflexivity.
  pose proof (stubs_reach_handlers (demo_scanning [1; 2]) 3 0 0 H) as (_ & _ & _ & E & _). rewrite E.
  eexists. split; vm_compute; reflexivity.
Defined.
