(* ===== verification/Shell.v ===== *)
(** The shell of the kernel: the main loop of kernel/src/main.rs with its built-in
    commands, over the terminal, the keyboard, the root file system, the scheduler and
    the serial port.

    Every command is a function on the state of the shell in the monad [SH]; the places
    where the code leaves a command with [continue] are told apart from its normal end,
    because they skip the processes and the prompt. *)
From S2P Require Import Prelude MachineInt Str Path Vfs RootFs Keyboard CharDevice Terminal PackedStruct KernPointer Uart Cpu VirtMem Scheduler Elf Loader FdTable Kernel FileCalls Exec Syscall.
From Stdlib Require Import Strings.String Strings.Ascii.
From stdpp Require Import list.
#[local] Open Scope Z_scope.

(** * Text *)

Definition space : Z := 32.
Definition quote : str := [34].

(** [str::starts_with]. *)
Definition starts_with (s prefix : str) : bool := bool_decide (take (length prefix) s = prefix).

(** [str::split_inclusive]: the separator stays at the end of its piece. *)
Fixpoint split_inclusive (sep : Z) (s : str) : list str :=
  match s with
  | [] => []
  | c :: s =>
      if c =? sep then [c] :: split_inclusive sep s
      else match split_inclusive sep s with
           | [] => [[c]]
           | piece :: pieces => (c :: piece) :: pieces
           end
  end.

(** The two hexadecimal digits of a byte. *)
Definition hex_digit (d : Z) : Z := if d <? 10 then 48 + d else 55 + d.
Definition hex2 (z : Z) : str := [hex_digit (z / 16); hex_digit (z mod 16)].

(** [str::parse::<usize>]: digits after an optional plus sign; None when there are none or
    the number is too large. *)
Fixpoint parse_digits_usize (s : str) (acc : Z) : option Z :=
  match s with
  | [] => Some acc
  | c :: s =>
      if (48 <=? c) && (c <=? 57) then
        let acc := acc * 10 + (c - 48) in
        if acc <? 2 ^ 64 then parse_digits_usize s acc else None
      else None
  end.
Definition parse_usize (s : str) : option Z :=
  match s with
  | 43 :: c :: s => parse_digits_usize (c :: s) 0
  | [] => None
  | s => parse_digits_usize s 0
  end.

(** * What the shell calls *)

(** Texts of numbers with a fraction, which the code leaves to the formatting of f32: a
    size in units of 1024, and a share in percent. *)
Class FloatText := { kilobytes : Z -> str; percent : Z -> Z -> str }.

(** Mounting: [Ext2FS::new] on a file, then its root folder.  The new file system joins
    those below the root file system; the result is None when the file holds none. *)
Class Ext2Mount (W F D : Type) := { ext2_root : W -> F -> outcome (W * option D) }.

(** The heaps of the kernel: how much of them is used is not tracked. *)
Record HeapUsage := MkHeaps { kernel_heap_used : Z; kernel_heap_max : Z; program_heap_used : Z; program_heap_max : Z }.

(** What happens after a command: the processes run and the prompt is shown, or neither,
    or the shell ends. *)
Inductive After := Prompt | NextKey | Leave.

Section Shell.
Context {PS : PackedStruct} {FT : FloatText}.
Context {W F D FB B : Type} {FS : FileSystem W F D} {FBops : FrameBuffer FB} {IO : IoSpace B} {EM : Ext2Mount W F D}.

Abbreviation Dev := (Devices (RootFS W D) (RootDir D) FB).
Abbreviation Tasks := (Sched (X := ProcRest F (RootDir D)) (D := Dev)).

Record Shell := MkShell { sh_tasks : Tasks; sh_io : B; cur_dir : Path }.

(** How often the serial port is asked, and how often the processes get their turn, at
    most, before the wait counts as endless. *)
Context (polls turns : nat) (heaps : HeapUsage).

Definition SH (A : Type) : Type := Shell -> outcome (Shell * A).
Definition sh_ret {A} (a : A) : SH A := fun s => Ret (s, a).
Definition sh_bind {A A'} (m : SH A) (k : A -> SH A') : SH A' := fun s => let! (s, a) := m s in k a s.
#[local] Notation "'sh!' x ':=' m 'in' k" := (sh_bind m (fun x => k)) (at level 10, x pattern, m at level 100, k at level 200).

Definition sh_devices (s : Shell) : Dev := devices (globals (sh_tasks s)).
Definition with_devices (s : Shell) (d : Dev) : Shell :=
  MkShell (MkSched (task_list (sh_tasks s)) (set_devices (globals (sh_tasks s)) d)) (sh_io s) (cur_dir s).
Definition with_dir (s : Shell) (p : Path) : Shell := MkShell (sh_tasks s) (sh_io s) p.

Definition get_dir : SH Path := fun s => Ret (s, cur_dir s).
Definition put_dir (p : Path) : SH unit := fun s => Ret (with_dir s p, ()).

(** On the terminal, on the file systems, and on the serial port. *)
Definition on_terminal (f : Terminal FB -> outcome (Terminal FB)) : SH unit := fun s =>
  let! t := f (terminal (sh_devices s)) in Ret (with_devices s (set_terminal (sh_devices s) t), ()).
Definition on_files {A} (f : RootFS W D -> outcome (RootFS W D * A)) : SH A := fun s =>
  let! (w, a) := f (fs (sh_devices s)) in Ret (with_devices s (set_fs (sh_devices s) w), a).
Definition print (text : str) : SH unit := on_terminal (fun t => write_str t text).
Definition println (text : str) : SH unit := print (text ++ [10]).
Definition log_line (text : str) : SH unit := fun s =>
  let! b := uart_write_str polls (sh_io s) uart_x86_default (text ++ [10]) in
  Ret (MkShell (sh_tasks s) b (cur_dir s), ()).

(** [path.get_node()] and [path.get_rootfs_node()]. *)
Definition find_node (p : Path) : SH (option (Node F (RootDir D))) := fun s =>
  let! n := vfs_lookup (sh_devices s) p in Ret (s, n).
Definition find_rootfs_node (p : Path) : SH (option nat) := fun s =>
  match vfs_root (sh_devices s) with
  | Some (RootNode i) => let! n := get_rootfs_node (fs (sh_devices s)) i p in Ret (s, n)
  | _ => Panic
  end.
Definition sh_expect {A} (m : SH (option A)) : SH A := sh! o := m in fun s => let! a := unwrap o in Ret (s, a).

(** A path that is written from the root or from the current folder. *)
Definition arg_path (dir : Path) (name : str) : option Path :=
  if starts_with_slash name then try_from_str name else Some (append_str dir name).
(** The same for mounting: from the root, blanks around it do not count. *)
Definition mount_path (dir : Path) (name : str) : option Path :=
  if starts_with_slash name then try_from_str (trim name) else Some (append_str dir name).

(** * The commands *)

Fixpoint puts_args (args : list str) (puts_output : str) (redirect : option str) : str * option str :=
  match args with
  | [] => (puts_output, redirect)
  | arg :: args =>
      if starts_with (trim arg) [62] then puts_args args puts_output (Some (drop 1 (trim arg)))
      else match redirect with
           | Some redir => puts_args args puts_output (Some (redir ++ arg))
           | None => puts_args args (puts_output ++ arg) redirect
           end
  end.

Definition puts_to (path : Path) (text : str) : SH unit :=
  sh! node := find_node path in
  match node with
  | Some (File file) =>
      sh! resized := on_files (fun w => resize_file w file (Z.of_nat (str_len text))) in
      match resized with
      | Some _ =>
          sh! written := on_files (fun w => file_write w file 0 (as_bytes text)) in
          match written with Some _ => sh_ret () | None => println (lit "Couldn't write to file!") end
      | None => println (lit "Couldn't resize file!")
      end
  | _ => println (lit "Redirect path should be valid!")
  end.
Definition puts (args : list str) : SH After :=
  sh! dir := get_dir in
  let (puts_output, redirect) := puts_args args [] None in
  sh! _ := match redirect with
    | Some redir_str =>
        match (if starts_with_slash redir_str then try_from_string redir_str else Some (append_str dir redir_str)) with
        | Some path => puts_to path puts_output
        | None => sh_ret ()
        end
    | None => print puts_output
    end in
  sh! _ := println [] in sh_ret Prompt.

Definition free_cmd : SH After :=
  let used := kernel_heap_used heaps + program_heap_used heaps in
  let total := kernel_heap_max heaps + program_heap_max heaps in
  sh! _ := println (dec used ++ lit " bytes of " ++ dec total ++ lit " bytes used on heap, that's " ++ percent used total ++ lit "% !") in
  sh! _ := println (lit "Breakdown: " ++ percent (kernel_heap_used heaps) (kernel_heap_max heaps) ++ lit "% used of kernel heap, and "
    ++ percent (program_heap_used heaps) (program_heap_max heaps) ++ lit "% of program heap!") in
  sh_ret Prompt.

(** A message, and on to the next key. *)
Definition report (text : str) : SH After := sh! _ := println text in sh_ret NextKey.

(** The assignment to the mountpoint of the node at the path. *)
Definition set_mount (mntpoint : str) (m : option D) : SH After :=
  sh! dir := get_dir in
  match mount_path dir mntpoint with
  | None => report (lit "Malformed mountpoint path!")
  | Some p =>
      sh! node := find_rootfs_node p in
      match node with
      | None => report (lit "Mountpoint should exist in vfs!")
      | Some i => sh! _ := on_files (fun w => let! w := mount w i m in Ret (w, ())) in sh_ret Prompt
      end
  end.

Definition mount_ext2 (args : list str) : SH After :=
  match args with
  | file :: mntpoint :: _ =>
      sh! dir := get_dir in
      match mount_path dir file with
      | None => report (lit "Malformed source path: " ++ quote ++ file ++ quote ++ lit "!")
      | Some p =>
          sh! node := find_node p in
          match node with
          | None => report (lit "Source path: " ++ quote ++ file ++ quote ++ lit " does not exist!")
          | Some (Folder _) => report (lit "Source path: " ++ quote ++ file ++ quote ++ lit " is not a file!")
          | Some (File f) =>
              sh! root_inode := on_files (fun w => let! (m, o) := ext2_root (mounted w) f in Ret (set_mounted w m, o)) in
              match root_inode with
              | None => report (lit "Source file does not contain a valid ext2 fs!")
              | Some d => set_mount mntpoint (Some d)
              end
          end
      end
  | _ => sh! _ := println (lit "Not enough arguments!") in sh_ret Prompt
  end.
Definition umount (args : list str) : SH After :=
  match args with
  | mntpoint :: _ => set_mount mntpoint None
  | [] => sh! _ := println (lit "Not enough arguments!") in sh_ret Prompt
  end.

Fixpoint list_children (l : list (str * Node F (RootDir D))) : SH unit :=
  match l with
  | [] => sh_ret ()
  | (name, node) :: l =>
      sh! _ := print (name ++ [space]) in
      sh! _ := match node with
        | File f =>
            sh! size := on_files (fun w => let! n := get_size w f in Ret (w, n)) in
            print (lit "(size: " ++ kilobytes size ++ lit " kb) ")
        | Folder _ => sh_ret ()
        end in
      list_children l
  end.
Definition ls : SH After :=
  sh! dir := get_dir in
  sh! node := sh_expect (find_node dir) in
  sh! children := (fun s =>
    let! folder := expect_folder node in
    let! l := get_children (fs (sh_devices s)) folder in Ret (s, l)) in
  sh! _ := list_children children in
  sh! _ := println [] in sh_ret Prompt.

(** Sixteen bytes, or as many as the file has. *)
Definition hexdump_file (file : F) (offset : Z) : SH unit :=
  sh! data := on_files (fun w =>
    let! size := get_size w file in
    let! data := file_read w file offset (Z.min 16 size) in Ret (w, data)) in
  match data with
  | Some data => print (data ≫= (fun e => lit "0x" ++ hex2 e ++ [space]))
  | None => print (lit "Couldn't read file!")
  end.
Definition hexdump (args : list str) : SH After :=
  match args with
  | offset_str :: file_str :: _ =>
      match parse_usize (trim offset_str) with
      | Some offset =>
          sh! dir := get_dir in
          match arg_path dir file_str with
          | None => report (lit "Invalid path!")
          | Some p =>
              sh! node := find_node p in
              match node with
              | None => report (lit "Path doesn't exist!")
              | Some (File file) => sh! _ := hexdump_file file offset in sh! _ := println [] in sh_ret Prompt
              | Some (Folder _) => sh! _ := print (lit "Path should be a file!") in sh! _ := println [] in sh_ret Prompt
              end
          end
      | None => sh! _ := print (lit "Bad offset!") in sh! _ := println [] in sh_ret Prompt
      end
  | _ => sh! _ := print (lit "Not enough arguments!") in sh! _ := println [] in sh_ret Prompt
  end.

Definition touch_one (arg : str) : SH unit :=
  sh! dir := get_dir in
  match arg_path dir arg with
  | None => println (lit "Bad path!")
  | Some p =>
      match path_last p with
      | None => println (lit "Touch argument path must have a last element!")
      | Some name =>
          sh! node := find_node (del_last p) in
          match node with
          | None => println (lit "Non-existant path!")
          | Some (Folder folder) =>
              sh! made := on_files (fun w => create_empty_child w folder name TFile) in
              match made with Some _ => sh_ret () | None => println (lit "Failed to touch file!") end
          | Some (File _) => sh_ret ()
          end
      end
  end.
Fixpoint touch (args : list str) : SH After :=
  match args with
  | [] => sh_ret Prompt
  | arg :: args => sh! _ := touch_one arg in touch args
  end.

Definition cd (args : list str) : SH After :=
  match args with
  | [] => sh_ret Prompt
  | name :: _ =>
      let name := trim name in
      sh! old_dir := get_dir in
      sh! _ := (if starts_with_slash name then
          match try_from_str name with
          | Some new_dir => put_dir new_dir
          | None => println (lit "Invalid cd path!")
          end
        else put_dir (append_str old_dir name)) in
      sh! dir := get_dir in
      sh! node := find_node dir in
      match node with
      | Some _ => sh_ret Prompt
      | None =>
          sh! _ := println (lit "Invalid cd path: " ++ path_inner dir ++ lit "!") in
          sh! _ := put_dir old_dir in sh_ret Prompt
      end
  end.

Fixpoint mkrootfsdir (args : list str) : SH After :=
  match args with
  | [] => sh_ret Prompt
  | name :: args =>
      sh! dir := get_dir in
      sh! node := sh_expect (find_rootfs_node dir) in
      sh! _ := on_files (fun w => new_folder w node name) in
      mkrootfsdir args
  end.

Fixpoint rmrootfsdir (args : list str) : SH After :=
  match args with
  | [] => sh_ret Prompt
  | name :: args =>
      sh! dir := get_dir in
      sh! cur_node := sh_expect (find_rootfs_node dir) in
      sh! child := on_files (fun w => let! c := find_folder w cur_node name in Ret (w, c)) in
      match child with
      | Some child_to_sacrifice =>
          sh! children := on_files (fun w => let! l := root_get_children w child_to_sacrifice in Ret (w, l)) in
          if negb (length children =? 0)%nat
          then sh! _ := println (lit "Folder: " ++ quote ++ name ++ quote ++ lit ", is non-empty!") in sh_ret Prompt
          else
            sh! deleted := on_files (fun w => del_folder w cur_node name) in
            sh! _ := (if deleted : bool then sh_ret () else println (lit "Couldn't delete folder: " ++ quote ++ name ++ quote ++ lit "!")) in
            rmrootfsdir args
      | None => sh! _ := println (lit "Folder: " ++ quote ++ name ++ quote ++ lit ", does not exist!") in rmrootfsdir args
      end
  end.

(** The data goes first; the entry is unlinked by the name as it was typed. *)
Definition rm_one (name : str) : SH unit :=
  sh! dir := get_dir in
  match arg_path dir name with
  | None => println (lit "Bad path!")
  | Some p =>
      let file_name := path_last p in
      sh! node := find_node (del_last p) in
      match node with
      | None => println (lit "Non-existant path!")
      | Some (File _) => sh_ret ()
      | Some (Folder folder) =>
          sh! children := on_files (fun w => let! l := get_children w folder in Ret (w, l)) in
          match (match file_name with Some n => find_child children n | None => None end) with
          | None => println (lit "File doesn't exist in folder!")
          | Some (Folder _) => println (lit "Not a file!")
          | Some (File child) =>
              sh! _ := println (lit "Removing the data from " ++ quote ++ name ++ quote ++ lit "!") in
              sh! resized := on_files (fun w => resize_file w child 0) in
              match resized with
              | None => println (lit "Failed to remove the data!")
              | Some _ =>
                  sh! _ := println (lit "Deleting/unlinking file!") in
                  sh! unlinked := on_files (fun w => unlink_or_delete_empty_child w folder name) in
                  match unlinked with Some _ => sh_ret () | None => println (lit "Failed to delete/unlink file!") end
              end
          end
      end
  end.
Fixpoint rm (args : list str) : SH After :=
  match args with
  | [] => sh_ret Prompt
  | arg :: args => sh! _ := rm_one arg in rm args
  end.

(** * Programs *)

Definition program_env : list (str * str) := [(lit "HOME", lit "/"); (lit "PATH", lit "/")].
Definition start_task (cpu : Riscv64Cpu LittleEndianVirtualMemory) (pd : ProcessData (Node F (RootDir D)) Path) : SH unit := fun s =>
  let (g, _) := new_task (globals (sh_tasks s)) (process_new cpu pd) in
  Ret (MkShell (MkSched (task_list (sh_tasks s)) g) (sh_io s) (cur_dir s), ()).

Definition load_program (contents : list Z) (args : list str) : SH After :=
  sh! elf := (fun s => let! elf := from_bytes contents in Ret (s, elf)) in
  match elf with
  | None => report (lit "Executable is not an elf file!")
  | Some elf =>
      sh! _ := log_line (lit "Program entry point: " ++ dec (program_entry (header elf))) in
      sh! _ := log_line (lit "Number of parsed program headers in elf: " ++ dec (Z.of_nat (length (program_headers elf)))) in
      sh! dir := get_dir in
      sh! program := (fun s => let! p := from_elf contents args dir program_env in Ret (s, p)) in
      match program with
      | None => report (lit "Failed to load elf file into program!")
      | Some (cpu, pd) =>
          sh! _ := start_task cpu pd in
          sh! _ := println (lit "Program loaded!") in sh_ret Prompt
      end
  end.
Definition run_program (cmnd : str) (args : list str) : SH After :=
  sh! dir := get_dir in
  match (if starts_with_slash cmnd then try_from_str cmnd
         else if starts_with cmnd dot then Some (append_str dir cmnd) else None) with
  | None => report (lit "Unrecognised command!")
  | Some executable_path =>
      sh! node := find_node executable_path in
      match node with
      | None => report (lit "Invalid executable path!")
      | Some (Folder _) => sh! _ := println (lit "Executable path is not a file!") in sh_ret Prompt
      | Some (File executable) =>
          sh! _ := println (lit "Loading program, please wait ...") in
          sh! contents := on_files (fun w =>
            let! size := get_size w executable in
            let! data := file_read w executable 0 size in Ret (w, data)) in
          match contents with
          | None => report (lit "Failed to read executable!")
          | Some contents =>
              sh! _ := println (lit "Parsing program, please wait ...") in
              load_program contents (cmnd :: args)
          end
      end
  end.

(** * The loop *)

Definition dispatch (cmnd : str) (args : list str) : SH After :=
  if starts_with cmnd (lit "puts") then puts args
  else if starts_with cmnd (lit "whoareyou") then sh! _ := println (lit "Ron") in sh_ret Prompt
  else if starts_with cmnd (lit "help") then
    sh! _ := println (lit "puts whoareyou rmrootfsdir mkrootfsdir rm touch mount.ext2 umount free hexdump ls cd clear exit help") in sh_ret Prompt
  else if starts_with cmnd (lit "clear") then sh! _ := on_terminal clear in sh_ret Prompt
  else if starts_with cmnd (lit "free") then free_cmd
  else if starts_with cmnd (lit "mount.ext2") then mount_ext2 args
  else if starts_with cmnd (lit "umount") then umount args
  else if starts_with cmnd (lit "ls") then ls
  else if starts_with cmnd (lit "hexdump") then hexdump args
  else if starts_with cmnd (lit "touch") then touch args
  else if starts_with cmnd (lit "cd") then cd args
  else if starts_with cmnd (lit "mkrootfsdir") then mkrootfsdir args
  else if starts_with cmnd (lit "rmrootfsdir") then rmrootfsdir args
  else if starts_with cmnd (lit "rm") then rm args
  else if starts_with cmnd (lit "elp") then sh! _ := println (lit "NOPERS, no elp!") in sh_ret Prompt
  else if starts_with cmnd (lit "exit") then sh_ret Leave
  else if negb (bool_decide (trim cmnd = [])) then run_program cmnd args
  else sh_ret Prompt.

(** [while scheduler::tick() {}]. *)
Fixpoint run_tasks (n : nat) : SH unit := fun s =>
  match n with
  | O => Panic
  | S n =>
      let! (t, more) := kernel_tick (sh_tasks s) in
      let s := MkShell t (sh_io s) (cur_dir s) in
      if more : bool then run_tasks n s else Ret (s, ())
  end.
Definition prompt : SH unit := sh! dir := get_dir in print (path_inner dir ++ lit " # ").

(** A line was entered; false ends the shell. *)
Definition run_line (line : str) : SH bool :=
  sh! next := match split_inclusive space line with
    | cmnd :: args => dispatch cmnd args
    | [] => sh_ret Prompt
    end in
  match next with
  | Prompt => sh! _ := run_tasks turns in sh! _ := prompt in sh_ret true
  | NextKey => sh_ret true
  | Leave => sh_ret false
  end.

Definition take_line : SH str := fun s =>
  let t := terminal (sh_devices s) in
  Ret (with_devices s (set_terminal (sh_devices s) (set_line t [])), line_buffer t).

Definition arrow_key (k : KeyboardKey) (t : Terminal FB) : outcome (Terminal FB) :=
  match k with
  | UpArrow => visual_cursor_up t
  | DownArrow => visual_cursor_down t
  | RightArrow => visual_cursor_right t
  | LeftArrow => visual_cursor_left t
  | _ => Ret t
  end.

Definition on_packet (packet : KeyboardPacket) : SH bool :=
  match packet_type packet with
  | KeyReleased => sh_ret (negb (bool_decide (key packet = Escape)))
  | KeyPressed =>
      sh! _ := on_terminal (arrow_key (key packet)) in
      sh! _ := on_terminal (fun t => recive_key t (key packet) (modifiers packet)) in
      match parse_key (key packet) (modifiers packet) with
      | inr _ => sh_ret true
      | inl c => if c =? 10 then sh! line := take_line in run_line line else sh_ret true
      end
  end.

Definition next_packet : SH KeyboardPacket := fun s =>
  let! (k, packet) := read_packet (keyboard (sh_devices s)) in
  Ret (with_devices s (set_keyboard (sh_devices s) k), packet).

(** The loop; [n] is the number of packets it handles at most. *)
Fixpoint big_loop (n : nat) : SH unit :=
  match n with
  | O => fun _ => Panic
  | S n => sh! packet := next_packet in sh! more := on_packet packet in if more : bool then big_loop n else sh_ret ()
  end.

(** * The end *)

Definition farewell : str := lit "It's now safe to turn off your computer!".

(** The text in the middle of an empty screen. *)
Fixpoint draw_farewell (fb : FB) (cols rows ind : Z) (text : str) : outcome FB :=
  match text with
  | [] => Ret fb
  | c :: text =>
      let! x := add_chk 64 ind (cols / 2) in
      let! x := sub_chk x (Z.of_nat (str_len farewell) / 2) in
      let! y := sub_chk rows 1 in
      let! (fb, _) := write_glyph fb x (y / 2) c (MkPixel 0xff 0xff 0x55) in
      draw_farewell fb cols rows (ind + 1) text
  end.
Definition shutdown : SH unit :=
  sh! _ := log_line (lit "Kernel heap usage: " ++ dec (kernel_heap_used heaps) ++ lit " bytes") in
  sh! _ := log_line (lit "Program heap usage: " ++ dec (program_heap_used heaps) ++ lit " bytes") in
  sh! _ := log_line ([10] ++ farewell) in
  on_terminal (fun t =>
    let! f := fill (fb t) 0 0 (get_width (fb t)) (get_height (fb t)) black in
    let! f := draw_farewell f (get_cols (fb t)) (get_rows (fb t)) 0 farewell in
    Ret (set_fb t f)).

(** From behind the prompt to the end. *)
Definition shell (n : nat) : SH unit := sh! _ := big_loop n in shutdown.

End Shell.
