(* ===== verification/ShellTheorems.v ===== *)
(** Results on the shell: commands keep the tree of the root file system, a line
    runs when it is entered, and three things that go wrong: a slash in the name of a new
    folder breaks the tree, names keep the end of the line they were typed in, and a file
    can become the current folder. *)
From S2P Require Import Prelude MachineInt Str Path Vfs RootFs Keyboard CharDevice Terminal PackedStruct KernPointer Uart Cpu VirtMem Scheduler Elf Loader FdTable Kernel FileCalls Exec Syscall Shell.
From Stdlib Require Import Strings.String.
From stdpp Require Import list sets.
#[local] Open Scope Z_scope.

Create HintDb keeps.

(** * Words *)

Lemma starts_with_app p s : starts_with (p ++ s) p = true.
Proof. unfold starts_with. rewrite take_app_length. by apply bool_decide_eq_true. Qed.

(** A word and what follows the blank after it. *)
Lemma split_inclusive_word w s : space ∉ w -> split_inclusive space (w ++ space :: s) = (w ++ [space]) :: split_inclusive space s.
Proof.
  induction w as [|c w IH]; intros Hw; [done|]. apply not_elem_of_cons in Hw as [Hc Hw]. cbn [app split_inclusive].
  rewrite (proj2 (Z.eqb_neq c space)) by congruence. by rewrite IH.
Qed.
Lemma split_inclusive_last w : space ∉ w -> w <> [] -> split_inclusive space w = [w].
Proof.
  induction w as [|c w IH]; intros Hw Hn; [done|]. apply not_elem_of_cons in Hw as [Hc Hw]. cbn [split_inclusive].
  rewrite (proj2 (Z.eqb_neq c space)) by congruence. destruct w as [|d w]; [done|]. by rewrite IH.
Qed.

(** A name of a path has no blank at its end. *)
Lemma trim_ends s c : is_whitespace c = true -> trim (s ++ [c]) <> s ++ [c].
Proof.
  intros Hc E. unfold trim in E. apply (f_equal (@reverse Z)) in E. rewrite reverse_involutive, reverse_snoc in E.
  apply trim_start_head in E. congruence.
Qed.
Lemma path_names_trimmed p : Forall (fun n => trim n = n) (path_names p).
Proof.
  apply list.Forall_forall. intros n Hn. unfold path_names, names_of in Hn. apply list_elem_of_filter in Hn as [_ (q & -> & _)%list_elem_of_fmap].
  apply trim_twice.
Qed.
Lemma untrimmed_unreachable p s c : is_whitespace c = true -> s ++ [c] ∉ path_names p.
Proof. intros Hc Hin. pose proof (path_names_trimmed p) as H. rewrite list.Forall_forall in H. by apply (trim_ends s c Hc), H. Qed.

Section Shell.
Context {PS : PackedStruct} {FT : FloatText}.
Context {W F D FB B : Type} {FS : FileSystem W F D} {FBops : FrameBuffer FB} {IO : IoSpace B} {EM : Ext2Mount W F D}.
Context (polls turns : nat) (heaps : HeapUsage).
Abbreviation Sh := (Shell (W := W) (F := F) (D := D) (FB := FB) (B := B)).
Abbreviation SHm := (SH (W := W) (F := F) (D := D) (FB := FB) (B := B)).
Implicit Types s : Sh.

Definition sh_fs s : RootFS W D := fs (sh_devices s).

(** * The root file system *)

(** A step keeps the tree. *)
Definition keeps {A} (m : SHm A) : Prop := forall s s' a, m s = Ret (s', a) -> rootfs_ok (sh_fs s) -> rootfs_ok (sh_fs s').

Lemma keeps_ret {A} (a : A) : keeps (sh_ret a).
Proof. intros s s' b E. unfold sh_ret in E. by simplify_eq. Qed.
Lemma keeps_bind {A A'} (m : SHm A) (k : A -> SHm A') : keeps m -> (forall a, keeps (k a)) -> keeps (sh_bind m k).
Proof. intros Hm Hk s s' b E Hs. unfold sh_bind in E. apply obind_Ret in E as ([s1 a] & E1 & E2). eapply Hk; [exact E2|]. by eapply Hm. Qed.
Lemma keeps_read {A} (f : Sh -> outcome A) : keeps (fun s => let! a := f s in Ret (s, a)).
Proof. intros s s' b E Hs. apply obind_Ret in E as (a & _ & E). by simplify_eq. Qed.
Lemma keeps_dir p : keeps (put_dir p).
Proof. intros s s' b E. unfold put_dir in E. by simplify_eq. Qed.
Lemma keeps_get_dir : keeps get_dir.
Proof. intros s s' b E. unfold get_dir in E. by simplify_eq. Qed.
Lemma keeps_terminal f : keeps (on_terminal f).
Proof. intros s s' b E Hs. unfold on_terminal in E. apply obind_Ret in E as (t & _ & E). by simplify_eq. Qed.
Lemma keeps_log t : keeps (log_line polls t).
Proof. intros s s' b E Hs. unfold log_line in E. apply obind_Ret in E as (io & _ & E). by simplify_eq. Qed.
Lemma keeps_find p : keeps (find_node p).
Proof. apply keeps_read. Qed.
Lemma keeps_find_rootfs p : keeps (find_rootfs_node p).
Proof.
  intros s s' b E Hs. unfold find_rootfs_node in E. destruct (vfs_root (sh_devices s)) as [[i|d]|]; try done.
  apply obind_Ret in E as (t & _ & E). by simplify_eq.
Qed.
Lemma keeps_expect {A} (m : SHm (option A)) : keeps m -> keeps (sh_expect m).
Proof. intros Hm. apply keeps_bind; [done|]. intros o. apply (keeps_read (fun _ => unwrap o)). Qed.
Lemma keeps_files {A} (f : RootFS W D -> outcome (RootFS W D * A)) :
  (forall w w' a, f w = Ret (w', a) -> rootfs_ok w -> rootfs_ok w') -> keeps (on_files f).
Proof. intros Hf s s' b E Hs. unfold on_files in E. apply obind_Ret in E as ([w a] & E1 & E). simplify_eq. by eapply Hf. Qed.
Lemma keeps_look {A} (f : RootFS W D -> outcome A) : keeps (on_files (fun w => let! a := f w in Ret (w, a))).
Proof. apply keeps_files. intros w w' a E Hw. apply obind_Ret in E as (x & _ & E). by simplify_eq. Qed.
Lemma keeps_step {A} (f : RootFS W D -> outcome (RootFS W D * A)) : (forall w w' a, f w = Ret (w', a) -> root_step w w') -> keeps (on_files f).
Proof. intros Hf. apply keeps_files. intros w w' a E Hw. eapply root_step_ok; [by eapply Hf|done]. Qed.
Lemma keeps_task cpu pd : keeps (start_task cpu pd).
Proof. intros s s' b E. unfold start_task, new_task in E. by simplify_eq. Qed.

#[local] Hint Resolve keeps_ret keeps_dir keeps_get_dir keeps_terminal keeps_log keeps_find keeps_find_rootfs keeps_task keeps_look : keeps.
Lemma keeps_resize f n : keeps (on_files (fun w => resize_file w f n)).
Proof. apply keeps_step. intros. by eapply step_resize. Qed.
Lemma keeps_write f o d : keeps (on_files (fun w => file_write w f o d)).
Proof. apply keeps_step. intros. by eapply step_write. Qed.
Lemma keeps_create d n t : keeps (on_files (fun w => create_empty_child w d n t)).
Proof. apply keeps_step. intros. by eapply step_create. Qed.
Lemma keeps_unlink d n : keeps (on_files (fun w => unlink_or_delete_empty_child w d n)).
Proof. apply keeps_step. intros. by eapply step_unlink. Qed.
Lemma keeps_del i n : keeps (on_files (fun w => del_folder w i n)).
Proof. apply keeps_step. intros. by eapply step_del. Qed.
Lemma keeps_print t : keeps (print t).
Proof. apply keeps_terminal. Qed.
Lemma keeps_println t : keeps (println t).
Proof. apply keeps_terminal. Qed.
Lemma keeps_report t : keeps (report t).
Proof. apply keeps_bind; [apply keeps_println|]. intros ?. apply keeps_ret. Qed.
#[local] Hint Resolve keeps_resize keeps_write keeps_create keeps_unlink keeps_del keeps_print keeps_println keeps_report : keeps.

(** Through the steps of a command and the cases it distinguishes. *)
Ltac keep := repeat first
  [ progress cbv beta zeta
  | solve [auto with keeps]
  | match goal with
    | |- keeps (sh_bind _ _) => apply keeps_bind; [|intros ?]
    | |- keeps (sh_expect _) => apply keeps_expect
    | |- keeps (match ?x with _ => _ end) => destruct x
    end ].

Lemma keeps_puts args : keeps (puts args).
Proof. unfold puts, puts_to. keep. Qed.
Lemma keeps_set_mount p m : keeps (set_mount p m).
Proof.
  unfold set_mount. keep. apply keeps_files. intros w w' b E Hw. apply obind_Ret in E as (w1 & E1 & E). simplify_eq.
  eapply root_step_ok; [by eapply step_mount|done].
Qed.
#[local] Hint Resolve keeps_set_mount : keeps.
Lemma keeps_mount args : keeps (mount_ext2 args).
Proof.
  unfold mount_ext2. keep. apply keeps_files. intros w w' b E Hw. apply obind_Ret in E as ([m o] & E1 & E). simplify_eq. by apply set_mounted_ok.
Qed.
Lemma keeps_umount args : keeps (umount args).
Proof. unfold umount. keep. Qed.
Lemma keeps_list l : keeps (list_children l).
Proof. induction l as [|[name n] l IH]; cbn [list_children]; keep. Qed.
Lemma keeps_ls : keeps ls.
Proof.
  unfold ls. keep; [|apply keeps_list]. intros s s' b E Hs. apply obind_Ret in E as (f & _ & E). apply obind_Ret in E as (bytes & _ & E). by simplify_eq.
Qed.
Lemma keeps_hexdump args : keeps (hexdump args).
Proof.
  unfold hexdump, hexdump_file. keep. apply keeps_files. intros w w' b E Hw. apply obind_Ret in E as (n & _ & E). apply obind_Ret in E as (bytes & _ & E). by simplify_eq.
Qed.
Lemma keeps_touch args : keeps (touch args).
Proof. induction args as [|a args IH]; cbn [touch]; [keep|]. apply keeps_bind; [|done]. unfold touch_one. keep. Qed.
Lemma keeps_cd args : keeps (cd args).
Proof. unfold cd. keep. Qed.
Lemma keeps_rm args : keeps (rm args).
Proof. induction args as [|a args IH]; cbn [rm]; [keep|]. apply keeps_bind; [|done]. unfold rm_one. keep. Qed.
Lemma keeps_mkrootfsdir args : Forall proper args -> keeps (mkrootfsdir args).
Proof.
  induction 1 as [|a args Ha _ IH]; cbn [mkrootfsdir]; keep. apply keeps_step. intros w w' k E. by eapply step_new.
Qed.
Lemma keeps_rmrootfsdir args : keeps (rmrootfsdir args).
Proof. induction args as [|a args IH]; cbn [rmrootfsdir]; keep. Qed.
Lemma keeps_load contents args : keeps (load_program polls contents args).
Proof. unfold load_program. keep; apply keeps_read. Qed.
Lemma keeps_run cmnd args : keeps (run_program polls cmnd args).
Proof.
  unfold run_program. keep; try apply keeps_load.
  apply keeps_files. intros w w' b E Hw. apply obind_Ret in E as (n & _ & E). apply obind_Ret in E as (bytes & _ & E). by simplify_eq.
Qed.

(** C24: a command keeps the root file system a tree of canonical paths: folders are made,
    removed and mounted over, files written, resized, created and unlinked, programs
    started.  The condition is on mkrootfsdir alone, whose arguments have to be names: not
    empty, not . or .., without a slash (with one the tree is broken,
    [mkrootfsdir_slash_breaks_tree]). *)
Theorem shell_keeps_rootfs s cmnd args s' next :
  (starts_with cmnd (lit "mkrootfsdir") = true -> Forall proper args) ->
  dispatch polls heaps cmnd args s = Ret (s', next) -> rootfs_ok (fs (sh_devices s)) -> rootfs_ok (fs (sh_devices s')).
Proof.
  intros Hm E Hs. refine ((_ : keeps (dispatch polls heaps cmnd args)) s s' next E Hs). unfold dispatch, free_cmd.
  destruct (starts_with cmnd (lit "mkrootfsdir")) eqn:Em; [pose proof (keeps_mkrootfsdir args (Hm eq_refl))|];
    keep; auto using keeps_puts, keeps_mount, keeps_umount, keeps_ls, keeps_hexdump, keeps_touch, keeps_cd, keeps_rmrootfsdir, keeps_rm, keeps_run.
Qed.

Context {FBok : FrameBufferOk FB}.

(** * Names *)

(** The name of the last argument of a line has the line's end in it. *)
Lemma typed_proper name : slash ∉ name -> proper (name ++ [10]).
Proof.
  intros Hs. assert (last (name ++ [10]) = Some 10) as Hl by apply last_snoc. unfold proper. split_and!.
  - by intros [_ ?]%app_nil.
  - intros E. by rewrite E in Hl.
  - intros E. by rewrite E in Hl.
  - intros [?|H]%elem_of_app; [done|]. by apply list_elem_of_singleton in H.
Qed.

(** The command line splits into the command and the rest. *)
Lemma split_command cmnd arg : space ∉ cmnd -> space ∉ arg -> arg <> [] ->
  split_inclusive space (cmnd ++ space :: arg) = [cmnd ++ [space]; arg].
Proof. intros Hc Ha Hn. by rewrite split_inclusive_word, split_inclusive_last. Qed.

(** The path of a typed name, its last part and the folder above. *)
Lemma typed_path parts name : Forall proper parts -> slash ∉ name ->
  exists p, arg_path (path_of parts) (name ++ [10]) = Some p /\ path_last p = Some (name ++ [10]) /\ del_last p = path_of parts.
Proof.
  intros Hp Hs. pose proof (typed_proper name Hs) as Hn. exists (path_of (parts ++ [name ++ [10]])). unfold arg_path.
  assert (starts_with_slash (name ++ [10]) = false) as ->.
  { destruct name as [|c name]; [done|]. apply not_elem_of_cons in Hs as [Hc _]. simpl. apply Z.eqb_neq. congruence. }
  rewrite append_str_path_of by done. rewrite path_last_path_of by (apply Forall_app; split; [done|by apply Forall_singleton]).
  rewrite last_snoc, del_last_snoc by apply Hn. done.
Qed.

(** The command a line starts with. *)
Ltac which_command := unfold dispatch; repeat match goal with
  | |- context [starts_with ?a ?b] => let v := eval vm_compute in (starts_with a b) in replace (starts_with a b) with v by (vm_compute; reflexivity); cbv iota
  end; reflexivity.
Lemma dispatch_touch args : dispatch polls heaps (lit "touch ") args = touch args.
Proof. which_command. Qed.
Lemma dispatch_cd args : dispatch polls heaps (lit "cd ") args = cd args.
Proof. which_command. Qed.
Lemma dispatch_ls args : dispatch polls heaps (lit "ls" ++ [10]) args = ls.
Proof. which_command. Qed.

(** C40: a file made with the command touch cannot be found again: its name gets the line
    feed that ended the command line, and no path leads through a name that ends in a
    blank, because path lookup takes the blanks off the parts of a path. *)
Theorem touch_name_unreachable s parts name d w n :
  cur_dir s = path_of parts -> Forall proper parts -> slash ∉ name -> space ∉ name ->
  vfs_lookup (sh_devices s) (cur_dir s) = Ret (Some (Folder d)) ->
  create_empty_child (fs (sh_devices s)) d (name ++ [10]) TFile = Ret (w, Some n) ->
  split_inclusive space (lit "touch " ++ name ++ [10]) = [lit "touch "; name ++ [10]] /\
  dispatch polls heaps (lit "touch ") [name ++ [10]] s = Ret (with_devices s (set_fs (sh_devices s) w), Prompt) /\
  forall p, name ++ [10] ∉ path_names p.
Proof.
  intros Ed Hp Hs Hb El Ec. split_and!.
  - apply (split_command (lit "touch")); [by apply (bool_decide_unpack _)| |by intros [_ ?]%app_nil].
    intros [?|H]%elem_of_app; [done|]. by apply list_elem_of_singleton in H.
  - rewrite dispatch_touch. cbn [touch]. unfold sh_bind, touch_one, sh_bind, get_dir. cbn [obind].
    rewrite Ed. destruct (typed_path parts name Hp Hs) as (p & -> & -> & ->). unfold find_node. rewrite <- Ed, El. cbn [obind].
    unfold on_files. rewrite Ec. done.
  - intros p. by apply untrimmed_unreachable.
Qed.

(** The shell can change into a file: cd checks only that there is something at the
    path.  The next ls expects a folder there and stops the kernel. *)
Theorem cd_to_file_then_ls_panics s name p f :
  (if starts_with_slash (trim name) then try_from_str (trim name) else Some (append_str (cur_dir s) (trim name))) = Some p ->
  vfs_lookup (sh_devices s) p = Ret (Some (File f)) ->
  dispatch polls heaps (lit "cd ") [name] s = Ret (with_dir s p, Prompt) /\ dispatch polls heaps (lit "ls" ++ [10]) [] (with_dir s p) = Panic.
Proof.
  intros Ep El. split.
  - rewrite dispatch_cd. unfold cd, sh_bind, get_dir, put_dir. cbn [obind].
    destruct (starts_with_slash (trim name)); [rewrite Ep|injection Ep as <-]; cbn [obind]; unfold find_node; change (sh_devices (with_dir s ?q)) with (sh_devices s);
      cbn [cur_dir with_dir]; rewrite El; done.
  - rewrite dispatch_ls. unfold ls, sh_expect, sh_bind, get_dir, find_node. cbn [obind]. change (sh_devices (with_dir s p)) with (sh_devices s).
    cbn [cur_dir with_dir]. rewrite El. done.
Qed.

(** * Entering a line *)

(** A state that differs in what was typed and drawn only. *)
Definition typing s s' : Prop :=
  s' = with_devices s (set_keyboard (set_terminal (sh_devices s) (terminal (sh_devices s'))) (keyboard (sh_devices s'))).
Lemma typing_trans s1 s2 s3 : typing s1 s2 -> typing s2 s3 -> typing s1 s3.
Proof. unfold typing. intros E1 E2. rewrite E2 at 1. rewrite E1. reflexivity. Qed.

(** Every key but the release of Escape keeps the shell running. *)
Definition stays (p : KeyboardPacket) : bool := negb (bool_decide (packet_type p = KeyReleased /\ key p = Escape)).

Lemma arrow_good k t : term_ok t -> good (arrow_key k t) t.
Proof.
  intros Ht. destruct k; try (apply good_ret; [done|by apply drawn_refl]); apply visual_good;
    auto using cursor_up_good, cursor_down_good, cursor_left_good, cursor_right_good.
Qed.

(** A key that is pressed moves the cursor or edits the line. *)
Lemma key_edits s p : term_ok (terminal (sh_devices s)) ->
  exists s1, (let! (s, _) := on_terminal (arrow_key (key p)) s in on_terminal (fun t => recive_key t (key p) (modifiers p)) s) = Ret (s1, ()) /\
    typing s s1 /\ keyboard (sh_devices s1) = keyboard (sh_devices s) /\ term_ok (terminal (sh_devices s1)) /\
    line_buffer (terminal (sh_devices s1)) = edit (line_buffer (terminal (sh_devices s))) (key p) (modifiers p).
Proof.
  intros Ht. unfold on_terminal at 1. destruct (arrow_good (key p) _ Ht) as (t1 & -> & Ht1 & _ & El1 & _). cbn [obind].
  unfold on_terminal. cbn. destruct (recive_key_edits t1 (key p) (modifiers p) Ht1) as (t2 & -> & Ht2 & El2). cbn [obind].
  eexists. split; [reflexivity|]. rewrite <- El1. done.
Qed.

Lemma on_packet_pressed s p : packet_type p = KeyPressed -> term_ok (terminal (sh_devices s)) ->
  exists s1, on_packet polls turns heaps p s =
    match parse_key (key p) (modifiers p) with
    | inl c => if c =? 10 then sh_bind take_line (run_line polls turns heaps) s1 else Ret (s1, true)
    | inr _ => Ret (s1, true)
    end /\
    typing s s1 /\ keyboard (sh_devices s1) = keyboard (sh_devices s) /\ term_ok (terminal (sh_devices s1)) /\
    line_buffer (terminal (sh_devices s1)) = edit (line_buffer (terminal (sh_devices s))) (key p) (modifiers p).
Proof.
  intros Hp Ht. destruct (key_edits s p Ht) as (s1 & E & H). exists s1. split; [|exact H]. unfold on_packet. rewrite Hp. unfold sh_bind at 1 2.
  apply obind_Ret in E as ([s0 []] & E0 & E). rewrite E0. cbn [obind]. rewrite E. cbn [obind]. by repeat case_match.
Qed.

(** Keys that complete no line are taken in. *)
Lemma shell_packets bytes : forall m rest s ps m' n,
  term_ok (terminal (sh_devices s)) -> keyboard (sh_devices s) = MkPS2 (bytes ++ rest) m -> decode m bytes = Some (ps, m') ->
  forallb no_backspace ps = true -> forallb stays ps = true -> newline ∉ concat (types <$> ps) ->
  exists s', big_loop polls turns heaps (length bytes + n) s = big_loop polls turns heaps n s' /\ typing s s' /\
    keyboard (sh_devices s') = MkPS2 rest m' /\ term_ok (terminal (sh_devices s')) /\
    line_buffer (terminal (sh_devices s')) = line_buffer (terminal (sh_devices s)) ++ concat (types <$> ps).
Proof.
  induction bytes as [|b bytes IH]; intros m rest s ps m' n Ht Hk Hd Hb Hs Hn; simpl in Hd; simplify_eq.
  { exists s. rewrite app_nil_r. split_and!; try done. unfold typing. by destruct s as [[? [? ? ? ? []]] ? ?]. }
  destruct (_ || _) eqn:Hpre; [done|]. destruct (from_scancode_in_set1 b) as [k|] eqn:Hc; [|done].
  destruct (decode _ bytes) as [[ps1 m1]|] eqn:Hd1; [|done]. simplify_eq.
  simpl in Hb, Hs. apply andb_true_iff in Hb as [Hb1 Hb2], Hs as [Hs1 Hs2].
  cbn [length Nat.add big_loop]. unfold sh_bind at 1, next_packet. rewrite Hk. cbn [app]. rewrite (read_packet_plain b _ m k Hpre Hc). cbn [obind].
  set (mm := update_modifiers m k _) in *. set (p := MkPacket k mm _) in *. set (s0 := with_devices s _). unfold sh_bind at 1. cbn [fmap list_fmap concat] in Hn |- *.
  destruct (packet_type p) eqn:Hp.
  - destruct (on_packet_pressed s0 p Hp Ht) as (s1 & E1 & Hty & Hk1 & Ht1 & El1).
    assert (types p = match parse_key (key p) (modifiers p) with inl c => [c] | inr _ => [] end) as Et by (unfold types; rewrite decide_False by congruence; done).
    rewrite edit_types in El1 by (done || congruence). change (line_buffer (terminal (sh_devices s0))) with (line_buffer (terminal (sh_devices s))) in El1.
    assert (on_packet polls turns heaps p s0 = Ret (s1, true)) as ->.
    { rewrite E1. rewrite Et in Hn. destruct (parse_key _ _) as [c|]; [|done]. rewrite (proj2 (Z.eqb_neq c 10)); [done|]. intros ->. apply Hn. by left. }
    cbn [obind]. destruct (IH mm rest s1 ps1 m' n Ht1) as (s' & E & Hty' & Hk' & Ht' & El'); [by rewrite Hk1|done|done|done|set_solver|].
    exists s'. split_and!; [done|eapply typing_trans; [eapply typing_trans; [|exact Hty]|exact Hty']; done|done|done|]. by rewrite El', El1, app_assoc.
  - assert (types p = []) as Et by (unfold types; by rewrite decide_True). rewrite Et in *. simpl in Hn |- *.
    assert (on_packet polls turns heaps p s0 = Ret (s0, true)) as ->.
    { unfold on_packet. rewrite Hp. unfold stays in Hs1. apply negb_true_iff, bool_decide_eq_false in Hs1. unfold sh_ret. rewrite bool_decide_eq_false_2 by tauto. done. }
    cbn [obind]. destruct (IH mm rest s0 ps1 m' n Ht) as (s' & E & Hty' & Hk' & Ht' & El'); [done..|].
    exists s'. split_and!; [done|by eapply typing_trans; [|exact Hty']|done|done|done].
Qed.

(** Checked for the printable characters. *)
Definition typed_stays (c : Z) : bool :=
  match decode no_modifiers (typed c) with Some (ps, _) => forallb stays ps | None => false end.
Lemma typed_stays_checked : forallb (fun n => typed_stays (Z.of_nat n)) (seq 32 95) = true.
Proof. vm_compute. reflexivity. Qed.
Lemma line_stays line : Forall printable line -> forall ps m, decode no_modifiers (concat (typed <$> line)) = Some (ps, m) -> forallb stays ps = true.
Proof.
  induction 1 as [|c line Hc Hl IH]; intros ps m E; [simpl in E; by simplify_eq|]. cbn [fmap list_fmap concat] in E.
  destruct (typed_decodes c Hc) as (ps1 & E1 & _ & _). destruct (typed_line_decodes line Hl) as (ps2 & E2 & _ & _).
  rewrite (decode_app _ _ _ _ _ _ _ E1 E2) in E. injection E as <- <-. rewrite forallb_app. apply andb_true_iff. split; [|by eapply IH].
  pose proof typed_stays_checked as H. rewrite forallb_forall in H. specialize (H (Z.to_nat c)). unfold printable in Hc. rewrite Z2Nat.id in H by lia.
  unfold typed_stays in H. rewrite E1 in H. apply H, in_seq. lia.
Qed.

(** C23: what is typed at the prompt is what runs: when the keyboard delivers the codes of a
    line of printable characters and of Enter, the shell runs that line, with its line
    feed, on a state in which nothing but the screen and the keyboard changed, and then
    goes on with the keys that follow or ends. *)
Theorem shell_runs_typed_line s line rest n :
  term_ok (terminal (sh_devices s)) -> line_buffer (terminal (sh_devices s)) = [] -> Forall printable line ->
  keyboard (sh_devices s) = MkPS2 (concat (typed <$> line) ++ 0x1C :: rest) no_modifiers ->
  exists s1, big_loop polls turns heaps (length (concat (typed <$> line)) + Datatypes.S n) s =
      (let! (s2, more) := run_line polls turns heaps (line ++ [newline]) s1 in
       if more : bool then big_loop polls turns heaps n s2 else Ret (s2, ())) /\
    typing s s1 /\ keyboard (sh_devices s1) = MkPS2 rest no_modifiers /\
    term_ok (terminal (sh_devices s1)) /\ line_buffer (terminal (sh_devices s1)) = [].
Proof.
  intros Ht El Hp Hk. destruct (typed_line_decodes line Hp) as (ps & Ed & Hb & Ety).
  assert (newline ∉ line) as Hnl by (rewrite list.Forall_forall in Hp; intros Hin%Hp; unfold printable, newline in Hin; lia).
  destruct (shell_packets (concat (typed <$> line)) no_modifiers (0x1C :: rest) s ps no_modifiers (Datatypes.S n))
    as (s1 & -> & Hty & Hk1 & Ht1 & El1); [done|done|done|done|by eapply line_stays|by rewrite Ety|].
  rewrite Ety, El in El1. cbn [big_loop]. unfold sh_bind at 1, next_packet. rewrite Hk1, read_packet_enter. cbn [obind].
  set (s2 := with_devices s1 _). unfold sh_bind at 1. destruct (on_packet_pressed s2 (MkPacket Enter no_modifiers KeyPressed)) as (s3 & -> & Hty3 & Hk3 & Ht3 & El3); [done|exact Ht1|].
  change (parse_key _ _) with (inl (B := KeyboardKey) 10). cbv iota. change (10 =? 10) with true. cbv iota. unfold sh_bind at 1, take_line. cbn [obind].
  cbn [key modifiers] in El3. change (edit ?l Enter no_modifiers) with (l ++ [newline]) in El3. change (terminal (sh_devices s2)) with (terminal (sh_devices s1)) in El3.
  rewrite El3, El1. set (s4 := with_devices s3 _). exists s4. split; [by destruct (run_line _ _ _ _ s4) as [[s5 []]|]|]. split_and!; [|exact Hk3|exact Ht3|reflexivity].
  eapply typing_trans; [exact Hty|]. eapply (typing_trans s1 s2); [done|]. eapply typing_trans; [exact Hty3|]. done.
Qed.

End Shell.

(** * Examples *)

#[local] Instance demo_floats : FloatText := {| kilobytes _ := [63]; percent _ _ := [63] |}.
(** Files that start with the magic number hold a file system. *)
#[local] Instance demo_mount : Ext2Mount RamFs nat unit := {|
  ext2_root w f := Ret (w, match w !! f with Some (_, 83 :: 239 :: _) => Some tt | _ => None end)
|}.
Definition demo_heaps : HeapUsage := MkHeaps 0 1 0 1.

(** The file system with the file a, mounted over the root; nothing else runs. *)
Definition demo_root : RootFS RamFs unit := MkRootFS [MkRootNode root None [] (Some tt)] demo_ram.
Definition demo_devices (keys : list Z) : Devices (RootFS RamFs unit) (RootDir unit) EfiGopMode :=
  MkDevices demo_root (Some (RootNode 0%nat)) demo_terminal (MkPS2 keys no_modifiers).
Definition demo_shell (keys : list Z) : Shell (F := nat) (B := UartChip) :=
  MkShell (sched_init (demo_devices keys)) demo_chip root.

Lemma demo_root_ok : rootfs_ok (W := RamFs) demo_root.
Proof.
  split.
  - intros [|i] n; simpl; [intros [= <-]; exists []; split; [done|constructor]|done].
  - intros [|i] n c; simpl; [intros [= <-] ?%elem_of_nil; done|done].
Qed.

Lemma shell_keeps_rootfs_witness : exists s',
  dispatch (PS := reference_packed_struct) 4 demo_heaps (lit "mkrootfsdir ") [lit "x"] (demo_shell []) = Ret (s', Prompt) /\ rootfs_ok (fs (sh_devices s')).
Proof.
  eexists. split; [vm_compute; reflexivity|].
  eapply (shell_keeps_rootfs (PS := reference_packed_struct) 4 demo_heaps (demo_shell []) (lit "mkrootfsdir ") [lit "x"] _ Prompt).
  - intros _. apply Forall_singleton. by apply (bool_decide_unpack _).
  - vm_compute. reflexivity.
  - exact demo_root_ok.
Defined.

(** A slash in a name given to mkrootfsdir is not refused: the folder gets a path of two
    parts below its parent, and the tree is none any more. *)
Lemma slash_breaks_tree m w :
  ~ rootfs_ok (W := RamFs) (D := unit) (MkRootFS [MkRootNode root None [1%nat] m; MkRootNode (MkPath (lit "/x/y")) (Some 0%nat) [] None] w).
Proof.
  intros [_ Hc]. destruct (Hc 0%nat _ 1%nat eq_refl ltac:(by left)) as (_ & n & parts & name & [= <-] & _ & Hp & Hq & Hok).
  assert (parts ++ [name] = [lit "x"; lit "y"]) as E.
  { apply path_of_inj; [done| |by rewrite <- Hq]. repeat constructor; by apply (bool_decide_unpack _). }
  apply (app_inj_tail parts [lit "x"]) in E as [-> _]. by apply (f_equal path_inner) in Hp.
Qed.
Lemma mkrootfsdir_slash_breaks_tree : exists s',
  dispatch (PS := reference_packed_struct) 4 demo_heaps (lit "mkrootfsdir ") [lit "x/y"] (demo_shell []) = Ret (s', Prompt) /\
  rootfs_ok (fs (sh_devices (demo_shell []))) /\ ~ rootfs_ok (fs (sh_devices s')).
Proof. eexists. split; [vm_compute; reflexivity|]. split; [exact demo_root_ok|]. apply (slash_breaks_tree (Some ())). Qed.

Lemma touch_name_unreachable_witness : exists s',
  dispatch (PS := reference_packed_struct) 4 demo_heaps (lit "touch ") [lit "x" ++ [10]] (demo_shell []) = Ret (s', Prompt) /\
  forall p, lit "x" ++ [10] ∉ path_names p.
Proof.
  destruct (touch_name_unreachable (PS := reference_packed_struct) 4 demo_heaps (demo_shell []) [] (lit "x") (RootNode 0%nat)
    (MkRootFS [MkRootNode root None [] (Some tt)] (demo_ram ++ [(lit "x" ++ [10], [])])) (File 1%nat)) as (_ & E & H);
    [reflexivity|constructor|by apply (bool_decide_unpack _)|by apply (bool_decide_unpack _)|reflexivity|reflexivity|].
  eexists. split; [exact E|exact H].
Defined.

Lemma cd_to_file_then_ls_panics_witness :
  dispatch (PS := reference_packed_struct) 4 demo_heaps (lit "ls" ++ [10]) [] (with_dir (demo_shell []) (MkPath (lit "/a"))) = Panic.
Proof.
  exact (proj2 (cd_to_file_then_ls_panics (PS := reference_packed_struct) 4 demo_heaps (demo_shell []) (lit "a" ++ [10]) (MkPath (lit "/a")) 0%nat eq_refl eq_refl)).
Defined.

(** Typing exit and Enter ends the shell. *)
Lemma shell_runs_typed_line_witness : exists s',
  big_loop (PS := reference_packed_struct) 4 1 demo_heaps (length (concat (typed <$> lit "exit")) + 1)
    (demo_shell (concat (typed <$> lit "exit") ++ [0x1C])) = Ret (s', ()).
Proof.
  destruct (shell_runs_typed_line (PS := reference_packed_struct) 4 1 demo_heaps (demo_shell (concat (typed <$> lit "exit") ++ [0x1C])) (lit "exit") [] 0)
    as (s1 & E & _); [exact demo_terminal_ok|reflexivity|repeat (apply Forall_cons; split; [unfold printable; vm_compute; split; [discriminate|reflexivity]|]); by apply Forall_nil|reflexivity|].
  exists s1. exact E.
Defined.
