(* ===== verification/Boot.v ===== *)
(** The start of the kernel: main of kernel/src/main.rs from its entry to the prompt of
    the shell.  It ties the parts together: the serial port, the boot information, the two
    heaps, the root file system with the device folder, the screen and the terminal, and
    the drives.

    The display is a machine of its own, because nothing else uses its ports and memory;
    the serial port and the drives share one.  The file systems below the root are the
    state [disks dev] when the device folder holds [dev]; [dev_dir] is that folder.  The
    controller of the keyboard is set up at its ports ([Ps2]); the shell then reads the
    bytes [keys] that the keyboard is going to send ([Keyboard], which [Ps2] shows to be
    what the ports deliver).

    The second half shows what the start leaves to the shell. *)
From S2P Require Import Prelude MachineInt Str Path Vfs RootFs Keyboard CharDevice Terminal KernPointer VgaTables Vga VgaCard VgaTheorems PackedStruct Uart Multiboot Efi Ps2 VirtMem Cpu Ata AtaDrive AtaTheorems Partition Disks Allocator Scheduler Elf Loader FdTable Kernel FileCalls Exec Syscall Shell.
From Stdlib Require Import Strings.String.
From stdpp Require Import list.
#[local] Open Scope Z_scope.

(** * The screen *)

(** [&mut dyn FrameBuffer]. *)
Inductive Screen (BV : Type) := EfiScreen (g : EfiGopMode) | VgaScreen (s : BV * Vga).
Arguments EfiScreen {BV} g.
Arguments VgaScreen {BV} s.

#[export] Instance screen_frame_buffer {BV} {IOV : IoSpace BV} : FrameBuffer (Screen BV) := {|
  get_width s := match s with EfiScreen g => get_width g | VgaScreen v => get_width v end;
  get_height s := match s with EfiScreen g => get_height g | VgaScreen v => get_height v end;
  set_pixel s x y pixel :=
    match s with
    | EfiScreen g => let! g := set_pixel g x y pixel in Ret (EfiScreen g)
    | VgaScreen v => let! v := set_pixel v x y pixel in Ret (VgaScreen v)
    end;
|}.

#[export] Instance screen_frame_buffer_ok {BV} {IOV : IoSpace BV} {VC : VgaCardOk BV} : FrameBufferOk (Screen BV).
Proof.
  refine {| fb_ok := fun s : Screen BV => match s with EfiScreen g => fb_ok g | VgaScreen v => fb_ok v end |}.
  intros [g|v] x y p Hf Hx Hy; cbn [get_width get_height screen_frame_buffer] in Hx, Hy; cbn [set_pixel screen_frame_buffer];
    destruct (set_pixel_ok _ x y p Hf Hx Hy) as (f & -> & H1 & H2 & H3); cbn [obind]; eexists; (split; [reflexivity|]); done.
Defined.

(** * The start *)

Section Boot.
Context {PS : PackedStruct} {M BV B W F D : Type}.
Context {FW : EfiFirmware M} {IOV : IoSpace BV} {IO : IoSpace B} {FS : FileSystem W F D}.
Context (range_0_1 range_4_5 range_7_6 : bit_field) (polls : nat) (disks : DevFS DiskFile -> W) (dev_dir : D).

(** The frame buffer of the firmware, or else that of the VGA card. *)
Definition setup_screen (m : M) (v : BV) (efi_table : Z) : outcome (M * Screen BV) :=
  let! (m, fb) := try_setup_efi_framebuffer m efi_table 800 600 in
  match fb with
  | Some g => Ret (m, EfiScreen g)
  | None => let! s := try_setup_vga_framebuffer v x86_default UndefinedVgaMode in Ret (m, VgaScreen s)
  end.

Definition MIB : Z := 1024 * 1024.
Definition boot_heaps : BasicAlloc * BasicAlloc :=
  ((init (alloc_new false) (8 * MIB) (8 * MIB)).1, (init (alloc_new false) (16 * MIB) (240 * MIB)).1).

(** The root with the folder dev, over which the device folder is mounted. *)
Definition boot_root : outcome (RootFS W D) :=
  let! (s, dev_folder) := new_folder (rootfs_init (disks devfs_new)) 0 (lit "dev") in
  mount s dev_folder (Some dev_dir).

Definition boot_log (b : B) (text : string) : outcome B := uart_write_str polls b uart_x86_default (lit text ++ [10]).

(** An empty screen with a terminal. *)
Definition boot_terminal (s : Screen BV) : outcome (Terminal (Screen BV)) :=
  let! s := fill s 0 0 (get_width s) (get_height s) black in
  Ret (terminal_new s (MkPixel 0 0xa8 0x54)).

Record Started := MkStarted {
  st_shell : Shell (W := W) (F := F) (D := D) (FB := Screen BV) (B := B);
  st_firmware : M;
  st_kernel_heap : BasicAlloc;
  st_program_heap : BasicAlloc;
}.

(** Up to and with the prompt.  The files the probing found are in the folder that was
    mounted before: both share it. *)
Definition boot (m : M) (v : BV) (b : B) (mem : Z -> Z) (r1 r2 : Z) (keys : list Z) : outcome Started :=
  let! b := uart_init range_0_1 range_4_5 range_7_6 b uart_x86_default in
  let! multiboot_data := multiboot_init mem r1 r2 in
  let! b := boot_log b "Hello, world!" in
  let! efi_system_table_ptr := find_efi_system_table multiboot_data in
  let (kernel_heap, program_heap) := boot_heaps in
  let! rootfs := boot_root in
  let! (m, s) := setup_screen m v efi_system_table_ptr in
  let! t := boot_terminal s in
  let! b := boot_log b "If you see this then that means the framebuffer subsystem didn't instantly crash the kernel :)" in
  let! t := write_str t (lit "Hello, world!" ++ [10]) in
  let! (b, found) := probe_disks polls b (MkFound t devfs_new) in
  let! (b, keyboard_input) := ps2_x86_default polls b in
  let! cur_dir := unwrap (try_from_str (lit "/")) in
  let devices := MkDevices (set_mounted rootfs (disks (fd_dev found))) (Some (RootNode 0)) (fd_terminal found)
    (MkPS2 keys (ps2_modifiers keyboard_input)) in
  let! (s, _) := prompt (MkShell (sched_init devices) b cur_dir) in
  Ret (MkStarted s m kernel_heap program_heap).

(** The whole of main, for at most [n] packets of the keyboard. *)
Context {FT : FloatText} {EM : Ext2Mount W F D} (turns : nat) (heaps : HeapUsage).
Definition kernel_main (n : nat) (m : M) (v : BV) (b : B) (mem : Z -> Z) (r1 r2 : Z) (keys : list Z)
  : outcome (Shell (W := W) (F := F) (D := D) (FB := Screen BV) (B := B) * unit) :=
  let! st := boot m v b mem r1 r2 keys in shell polls turns heaps n (st_shell st).

End Boot.

(** * When the kernel panics *)

Section Panic.
Context {PS : PackedStruct} {B FB : Type} {IO : IoSpace B} {FBops : FrameBuffer FB} (polls : nat).

Definition bad_panic : str := lit "Bad panic, panic info cannot be formatted correctly, maybe OOM?".

(** The text of the panic, or None when it could not be formatted; a device whose lock is
    taken is left out.  The kernel then loops forever. *)
Definition panic_handler (uart_locked terminal_locked : bool) (p : option str) (b : B) (t : Terminal FB) : outcome (B * Terminal FB) :=
  let s := (fun text => lit "Ron: " ++ text) <$> p in
  let! b :=
    if uart_locked then Ret b
    else
      let! b := uart_write_str polls b uart_x86_default [10] in
      uart_write_str polls b uart_x86_default (default bad_panic s ++ [10]) in
  let! t :=
    if terminal_locked then Ret t
    else
      let! t := Terminal.write_char t 10 in
      write_str t (default bad_panic s ++ [10]) in
  Ret (b, t).

End Panic.

(** * Results *)

(** * The serial port and the drives *)

(** Whatever every access to the chip's ports keeps, writing to the serial port keeps. *)
Section KeepsSerial.
Context {B : Type} {IO : IoSpace B} {PS : PackedStruct}.
Context (Q : B -> Prop) (keeps_out : forall b reg v, 0 <= reg <= 7 -> Q b -> Q (port_outb b (0x3f8 + reg) v))
  (keeps_in : forall b reg, 0 <= reg <= 7 -> Q b -> Q (port_inb b (0x3f8 + reg)).1).
Let u := uart_x86_default.

Lemma keeps_reg reg b v : 0 <= reg <= 7 -> Q b -> Q (kp_write b (kp_offset 1 (from_port 0x3f8) reg) v).
Proof. intros Hr Hb. rewrite (proj1 (uart_port reg b v Hr)). by apply keeps_out. Qed.

Lemma keeps_init r01 r45 r76 b b' : Q b -> uart_init r01 r45 r76 b u = Ret b' -> Q b'.
Proof.
  intros Hb E. unfold uart_init in E. inv_outcome.
  apply (keeps_reg 4), (keeps_reg 2), (keeps_reg 3), (keeps_reg 1), (keeps_reg 0), (keeps_reg 3), (keeps_reg 1); done || lia.
Qed.

Lemma keeps_line n cond : forall b b', Q b -> wait_line n cond b u = Ret b' -> Q b'.
Proof.
  induction n as [|n IH]; intros b b' Hb E; [done|]. cbn [wait_line] in E. unfold line_sts in E.
  change (line_status u) with (kp_offset 1 (from_port 0x3f8) 5) in E. rewrite (proj2 (uart_port 5 b 0 ltac:(lia))) in E.
  pose proof (keeps_in b 5 ltac:(lia) Hb) as H5. destruct (port_inb b (0x3f8 + 5)) as [b1 v]. inv_outcome. case_match; inv_outcome; eauto.
Qed.

Lemma keeps_send polls b v b' : Q b -> send polls b u v = Ret b' -> Q b'.
Proof. unfold send. intros Hb E. inv_outcome. apply (keeps_reg 0); [lia|]. by eapply keeps_line. Qed.

Lemma keeps_text polls s : forall b b', Q b -> uart_write_str polls b u s = Ret b' -> Q b'.
Proof.
  induction s as [|c s IH]; intros b b' Hb E; cbn [uart_write_str] in E; inv_outcome; [done|]. eapply IH; [|exact E].
  unfold send_char in *. inv_outcome. case_match; inv_outcome; eauto using keeps_send.
Qed.
End KeepsSerial.

(** The keyboard, and its controller in the same way. *)
Section KeepsKeyboard.
Context {B : Type} {IO : IoSpace B} {PS : PackedStruct}.
Context (Q : B -> Prop) (keeps_out : forall b v, Q b -> Q (port_outb b 0x64 v)) (keeps_in : forall b, Q b -> Q (port_inb b 0x64).1).

Lemma keeps_input_empty n : forall b b', Q b -> wait_input_empty n b ps2_default = Ret b' -> Q b'.
Proof.
  induction n as [|n IH]; intros b b' Hb E; [done|]. cbn [wait_input_empty] in E. unfold ps2_status in E.
  change (kp_read b (status_and_command ps2_default)) with (port_inb b 0x64) in E.
  pose proof (keeps_in b Hb) as Hi. destruct (port_inb b 0x64) as [b1 v]. inv_outcome. case_match; inv_outcome; eauto.
Qed.

Lemma keeps_keyboard_setup polls b b' d : Q b -> ps2_x86_default polls b = Ret (b', d) -> Q b'.
Proof. unfold ps2_x86_default. intros Hb E. inv_outcome. apply keeps_out. by eapply keeps_input_empty. Qed.
End KeepsKeyboard.

(** A machine with the serial port, the drives and the keyboard, whose ports are nothing
    to each other. *)
Class BootMachine (B : Type) {IO : IoSpace B} (polls : nat) {UO : UartOk B} {DM : DiskMachine B polls} {KO : Ps2Ok B} := {
  serial_apart_out : forall b reg v, 0 <= reg <= 7 ->
    (forall typ, kept_on (bus_ok typ) b (port_outb b (0x3f8 + reg) v)) /\ controller (port_outb b (0x3f8 + reg) v) = controller b;
  serial_apart_in : forall b reg, 0 <= reg <= 7 ->
    (forall typ, kept_on (bus_ok typ) b (port_inb b (0x3f8 + reg)).1) /\ controller (port_inb b (0x3f8 + reg)).1 = controller b;
  drive_apart_out : forall typ b r v, let b' := port_out (AtaPorts := bus_ports typ) b r v in chip b' = chip b /\ controller b' = controller b;
  drive_apart_in : forall typ b r, let b' := (port_in (AtaPorts := bus_ports typ) b r).1 in chip b' = chip b /\ controller b' = controller b;
  keyboard_apart_out : forall b v, chip (port_outb b 0x64 v) = chip b;
  keyboard_apart_in : forall b, chip (port_inb b 0x64).1 = chip b;
}.

Section Machine.
Context {B : Type} {IO : IoSpace B} {polls : nat} {UO : UartOk B} {DM : DiskMachine B polls} {KO : Ps2Ok B} {BM : BootMachine B polls}.
Context {PS : PackedStruct} {PSok : PackedStructOk PS} {FB : Type} {FBops : FrameBuffer FB}.

(** The drives and the keyboard as they were. *)
Definition undisturbed (b b' : B) : Prop := (forall typ, kept_on (bus_ok typ) b b') /\ controller b' = controller b.

#[export] Instance undisturbed_preorder : PreOrder undisturbed.
Proof. split; [by split|]. intros b1 b2 b3 [K1 C1] [K2 C2]. split; [intros typ; by rewrite (K1 typ)|by rewrite C2]. Qed.

(** What is on the drives does not depend on the serial port. *)
Lemma log_sends b text : line_ready polls (chip b) ->
  exists b', boot_log polls b text = Ret b' /\ line_ready polls (chip b') /\
    uc_sent (chip b') = uc_sent (chip b) ++ on_the_line (lit text ++ [10]) /\ undisturbed b b'.
Proof.
  intros Hr. destruct (uart_sends polls b (lit text ++ [10]) Hr) as (b' & E & Hr' & Hs). exists b'. split_and!; [done|done|done|].
  apply (keeps_text (undisturbed b)) in E; [done| | |done].
  - intros b1 reg v Hg ->. by apply serial_apart_out.
  - intros b1 reg Hg ->. by apply serial_apart_in.
Qed.

Lemma probe_keeps_chip b (s : Found FB) b' s' : probe_disks polls b s = Ret (b', s') -> chip b' = chip b /\ controller b' = controller b.
Proof.
  unfold probe_disks, primary_x86, secondary_x86. intros E. apply obind_Ret in E as ([b1 s1] & E1 & E2).
  set (Q b' := chip b' = chip b /\ controller b' = controller b).
  assert (forall typ b r, Q b -> Q (port_in (AtaPorts := bus_ports typ) b r).1) as Hin by (intros typ b0 r [E0 C0]; unfold Q; rewrite <- E0, <- C0; apply drive_apart_in).
  assert (forall typ b r v, Q b -> Q (port_out (AtaPorts := bus_ports typ) b r v)) as Hout by (intros typ b0 r v [E0 C0]; unfold Q; rewrite <- E0, <- C0; apply drive_apart_out).
  apply (keeps_bus (P := bus_ports Primary) Q (Hin _) (Hout _)) in E1; [|done].
  by apply (keeps_bus (P := bus_ports Secondary) Q (Hin _) (Hout _)) in E2.
Qed.

Lemma keyboard_keeps_chip b b' d : ps2_x86_default polls b = Ret (b', d) -> chip b' = chip b.
Proof.
  intros E. apply (keeps_keyboard_setup (fun b' => chip b' = chip b)) in E; [done| | |done].
  - intros b1 v <-. apply keyboard_apart_out.
  - intros b1 <-. apply keyboard_apart_in.
Qed.
End Machine.

(** * The screen *)

Lemma fill_ok {FB} {FBops : FrameBuffer FB} {FBok : FrameBufferOk FB} (f : FB) p : fb_ok f ->
  exists f', fill f 0 0 (get_width f) (get_height f) p = Ret f' /\ same_screen f f'.
Proof.
  intros Hf. unfold fill. apply (for_range_ok (same_screen f)); [done|]. intros y f1 Hy H1.
  apply (for_range_ok (same_screen f)); [done|]. intros x f2 Hx H2. apply set_pixel_same; [done|lia|lia].
Qed.

(** What the firmware or the VGA card must offer for a terminal. *)
Definition screen_room {FB} {FBops : FrameBuffer FB} {FBok : FrameBufferOk FB} (f : FB) : Prop :=
  fb_ok f /\ 8 <= get_width f < 2 ^ 63 /\ 16 <= get_height f < 2 ^ 63.

Lemma boot_terminal_ok {BV} {IOV : IoSpace BV} {VC : VgaCardOk BV} (s : Screen BV) : screen_room s ->
  exists t, boot_terminal s = Ret t /\ term_ok t /\ line_buffer t = [].
Proof.
  intros (Hf & Hw & Hh). unfold boot_terminal. destruct (fill_ok s black Hf) as (s' & -> & Hf' & Ew & Eh). cbn [obind].
  eexists. split; [reflexivity|]. split; [|done]. unfold term_ok, terminal_new, screen_ok, get_cols, get_rows.
  cbn [fb cursor_pos cursor_char fst snd]. rewrite Ew, Eh. split_and!; try done; try lia; Z.to_euclidean_division_equations; lia.
Qed.

Lemma vga_setup_ram {BV} {IOV : IoSpace BV} (v : BV) :
  exists v', try_setup_vga_framebuffer v x86_default UndefinedVgaMode = Ret (v', set_video_ram x86_default (from_mem 0xa0000)).
Proof. unfold try_setup_vga_framebuffer, set_mode. rewrite decide_False by done. cbn [obind]. by eexists. Qed.

(** * The whole start *)

Section Start.
Context {PS : PackedStruct} {PSok : PackedStructOk PS} {M BV B W F D : Type}.
Context {FW : EfiFirmware M} {IOV : IoSpace BV} {VC : VgaCardOk BV} {FS : FileSystem W F D}.
Context {IO : IoSpace B} {polls : nat} {UO : UartOk B} {DM : DiskMachine B polls} {KO : Ps2Ok B} {BM : BootMachine B polls}.
Context (disks : DevFS DiskFile -> W) (dev_dir : D) (disk_file : DiskFile -> F).

(** The file systems below the root have the device folder as [dev_dir]. *)
Definition lists_devices : Prop := forall dev, get_children (disks dev) dev_dir = Ret ((fun c => (c.1, File (disk_file c.2))) <$> disk_devices dev).

Definition dev_rootfs (w : W) : RootFS W D :=
  MkRootFS [MkRootNode root None [1%nat] None; MkRootNode (append_str root (lit "dev")) (Some 0%nat) [] (Some dev_dir)] w.

Lemma boot_root_is : boot_root disks dev_dir = Ret (dev_rootfs (disks devfs_new)).
Proof. reflexivity. Qed.

Lemma dev_rootfs_ok w : rootfs_ok (dev_rootfs w).
Proof.
  destruct (new_folder (rootfs_init (D := D) w) 0 (lit "dev")) as [[s k]|] eqn:E; [|discriminate E].
  assert (rootfs_ok s) as Hs by (eapply new_folder_ok; [apply rootfs_init_ok| |exact E]; apply (bool_decide_unpack (proper (lit "dev"))); by vm_compute).
  injection E as <- <-. eapply (set_rootnode_ok _ 1 _ (MkRootNode (append_str root (lit "dev")) (Some 0%nat) [] (Some dev_dir))) in Hs;
    [exact Hs|reflexivity..|]. intros c Hc. by apply not_elem_of_nil in Hc.
Qed.

(** A path into the device folder leads to the file of that name. *)
Lemma dev_lookup (FB : Type) (t : Terminal FB) kbd dev name f p : lists_devices -> NoDup (disk_devices dev).*1 -> (name, f) ∈ disk_devices dev ->
  path_names p = [lit "dev"; name] ->
  vfs_lookup (MkDevices (dev_rootfs (disks dev)) (Some (RootNode 0)) t kbd) p = Ret (Some (File (disk_file f))).
Proof.
  intros Hl Hd Hin Hp. unfold vfs_lookup. cbn [vfs_root fs unwrap obind]. rewrite get_node_is_resolve, Hp. cbn [resolve expect_folder obind].
  change (get_children (dev_rootfs (disks dev)) (RootNode 0)) with (Ret (A := list (str * Node F (RootDir D))) [(lit "dev", Folder (RootNode 1))]). cbn [obind].
  rewrite find_child_cons, decide_True by done. cbn [expect_folder obind get_children root_file_system].
  change (root_get_children (dev_rootfs (disks dev)) 1) with
    (let! v := (let! l := get_children (disks dev) dev_dir in Ret (lift_children l)) in Ret (A := list (str * Node F (RootDir D))) v).
  rewrite Hl. cbn [obind]. rewrite (find_child_distinct _ name (File (disk_file f))); [done| |].
  - unfold lift_children. rewrite <- list_fmap_compose, <- list_fmap_compose. exact Hd.
  - unfold lift_children. rewrite <- list_fmap_compose. apply list_elem_of_fmap. by exists (name, f).
Qed.

(** What the shell finds. *)
Record good_start (b : B) (files : list (str * DiskFile)) (st : Started (M := M) (BV := BV) (B := B) (W := W) (F := F) (D := D)) : Prop := {
  start_terminal : term_ok (terminal (sh_devices (st_shell st))) /\ line_buffer (terminal (sh_devices (st_shell st))) = [];
  start_shell : cur_dir (st_shell st) = root /\ task_list (sh_tasks (st_shell st)) = [];
  start_keyboard : keyboard (sh_devices (st_shell st)) = MkPS2 (stream (sh_io (st_shell st))) no_modifiers /\
    stream (sh_io (st_shell st)) = stream b /\ ct_second (controller (sh_io (st_shell st))) = false;
  start_tree : rootfs_ok (fs (sh_devices (st_shell st)));
  start_files : forall name f p, (name, f) ∈ files -> path_names p = [lit "dev"; name] ->
    vfs_lookup (sh_devices (st_shell st)) p = Ret (Some (File (disk_file f)));
  start_heaps : alloc_inv 64 (st_kernel_heap st) [] [] /\ alloc_inv 64 (st_program_heap st) [] [] /\
    base (st_kernel_heap st) + len (st_kernel_heap st) <= base (st_program_heap st);
  start_log : uc_sent (chip (sh_io (st_shell st))) = uc_sent (chip b) ++ on_the_line (lit "Hello, world!" ++ [10]) ++
    on_the_line (lit "If you see this then that means the framebuffer subsystem didn't instantly crash the kernel :)" ++ [10]);
}.

(** The screen the setup ends with can carry a terminal, if the firmware's can. *)
Lemma setup_screen_ok m (v : BV) table m' o : try_setup_efi_framebuffer m table 800 600 = Ret (m', o) -> (forall g, o = Some g -> screen_room g) ->
  exists s, setup_screen m v table = Ret (m', s) /\ screen_room s.
Proof.
  intros E Hg. unfold setup_screen. rewrite E. cbn [obind]. destruct o as [g|]; [exists (EfiScreen g); split; [done|by apply Hg]|].
  destruct (vga_setup_ram v) as (v' & ->). cbn [obind]. eexists. split; [reflexivity|]. split; [reflexivity|]. simpl. lia.
Qed.

Lemma boot_heaps_ok : alloc_inv 64 boot_heaps.1 [] [] /\ alloc_inv 64 boot_heaps.2 [] [] /\
  base boot_heaps.1 + len boot_heaps.1 <= base boot_heaps.2.
Proof.
  split_and!; [apply (alloc_from_inv 64 (8 * MIB) (8 * MIB) false); unfold MIB; lia|apply (alloc_from_inv 64 (16 * MIB) (240 * MIB) false); unfold MIB; lia|].
  unfold boot_heaps, MIB. simpl. lia.
Qed.

(** The serial port after its setup. *)
Lemma serial_ready r01 r45 r76 b : r01 = (0..=0) \/ r01 = (0..=1) -> r45 = (4..=4) \/ r45 = (4..=5) -> 4 <= bf_lo r76 /\ bf_lo r76 <= bf_hi r76 <= 7 ->
  (uc_busy (chip b) < polls)%nat -> (uc_delay (chip b) < polls)%nat ->
  exists b', uart_init r01 r45 r76 b uart_x86_default = Ret b' /\ line_ready polls (chip b') /\ uc_sent (chip b') = uc_sent (chip b) /\ undisturbed b b'.
Proof.
  intros H01 H45 H76 Hb Hd. destruct (uart_init_sets_up b r01 r45 r76 H01 H45 H76) as (b' & E & Hl & _ & _ & _ & Hs & Eb & Ed & _).
  exists b'. split_and!; [done|unfold line_ready; rewrite Eb, Ed; done|done|].
  apply (keeps_init (undisturbed b)) in E; [done| |done]. intros b1 reg v Hg ->. by apply serial_apart_out.
Qed.

(** C3: the kernel starts.  Given boot information in the loader's format, a firmware
    whose screen, if it offers one, has room for a character, a VGA card otherwise, a
    serial port and a keyboard controller that answer within [polls] questions, and on
    each bus nothing or drives that keep the promises of the ATA standard and are idle at
    the start, with a first sector to read, main comes through its prompt without a panic:
    the terminal works, nothing has been typed, no process runs, the root file system is
    well formed, the two heaps are empty and lie one after the other, every drive and
    partition is found under /dev, the second PS/2 port is off and the shell is about to
    read what the keyboard is going to send, and the serial line has the two messages. *)
Theorem kernel_starts r01 r45 r76 m v b mem r2 tags m' o :
  r01 = (0..=0) \/ r01 = (0..=1) -> r45 = (4..=4) \/ r45 = (4..=5) -> 4 <= bf_lo r76 /\ bf_lo r76 <= bf_hi r76 <= 7 ->
  lists_devices -> Forall tag_ok tags -> words_at mem r2 (info tags) -> Z.of_nat (length (info tags)) < 2 ^ 61 ->
  try_setup_efi_framebuffer m (fold_left Z.lor (tag_address <$> tags) 0) 800 600 = Ret (m', o) -> (forall g, o = Some g -> screen_room g) ->
  (uc_busy (chip b) < polls)%nat -> (uc_delay (chip b) < polls)%nat ->
  (ct_busy (controller b) < polls)%nat -> bus_good Primary b -> bus_good Secondary b ->
  exists st, boot (BV := BV) r01 r45 r76 polls disks dev_dir m v b mem 0x36d76289 r2 (stream b) = Ret st /\
    good_start b (bus_files Primary (lit "hda") (lit "hdb") (drives Primary b) ++ bus_files Secondary (lit "hdc") (lit "hdd") (drives Secondary b)) st.
Proof.
  intros H01 H45 H76 Hl Htags Hm HL Hefi Hg Hub Hud Hkb HP HS. unfold boot.
  destruct (serial_ready r01 r45 r76 b H01 H45 H76 Hub Hud) as (b1 & -> & Hr1 & Es1 & Ed1). cbn [obind].
  pose proof (boot_info_tags mem r2 tags Htags Hm HL) as Hi. unfold boot_info in Hi. apply obind_Ret in Hi as (data & -> & Ef). cbn [obind].
  destruct (log_sends b1 "Hello, world!" Hr1) as (b2 & -> & Hr2 & Es2 & Ed2). cbn [obind]. rewrite Ef. cbn [obind].
  destruct boot_heaps as [kh ph] eqn:Eh. rewrite boot_root_is. cbn [obind].
  destruct (setup_screen_ok m v _ m' o Hefi Hg) as (s & -> & Hroom). cbn [obind].
  destruct (boot_terminal_ok s Hroom) as (t & -> & Ht & Hlb). cbn [obind].
  destruct (log_sends b2 "If you see this then that means the framebuffer subsystem didn't instantly crash the kernel :)" Hr2) as (b3 & -> & Hr3 & Es3 & Ed3). cbn [obind].
  destruct (write_str_good t (lit "Hello, world!" ++ [10]) Ht) as (t1 & -> & Ht1 & _ & Hlb1 & _); [apply Forall_app_2; [apply lit_nonneg|by apply Forall_singleton]|]. cbn [obind].
  assert (undisturbed b b3) as [Kd Ec] by (etransitivity; [exact Ed1|]; by etransitivity).
  destruct (bus_good_kept Primary b b3 (Kd Primary) HP) as [<- HP']. destruct (bus_good_kept Secondary b b3 (Kd Secondary) HS) as [<- HS'].
  destruct (probe_disks_ok b3 (MkFound t1 devfs_new) HP' HS' Ht1) as (b4 & found & Ep & Htf & Hlf & Edf). rewrite Ep. cbn [obind].
  apply probe_keeps_chip in Ep as [Ep Epc]. rewrite Ec in Epc.
  destruct (ps2_default_ready polls b4) as (b5 & Ek & H2nd & Hstr); [by rewrite Epc|]. rewrite Ek. cbn [obind].
  apply keyboard_keeps_chip in Ek. change (unwrap (try_from_str (lit "/"))) with (Ret root). cbn [obind].
  unfold prompt, sh_bind, get_dir, print, on_terminal. cbn [obind cur_dir].
  destruct (write_str_good (fd_terminal found) (path_inner root ++ lit " # ") Htf) as (t2 & E2 & Ht2 & _ & Hlb2 & _);
    [apply Forall_app_2; [by apply Forall_singleton|apply lit_nonneg]|]. cbn [sh_devices sh_tasks devices globals sched_init terminal]. rewrite E2. cbn [obind].
  eexists. split; [reflexivity|].
  pose proof boot_heaps_ok as Hheaps. rewrite Eh in Hheaps. split; cbn [st_shell st_kernel_heap st_program_heap]; try done.
  - split; [exact Ht2|]. cbn. rewrite Hlb2, Hlf. cbn [fd_terminal]. by rewrite Hlb1.
  - cbn. unfold stream in *. by rewrite Hstr, Epc.
  - exact (dev_rootfs_ok _).
  - intros name f p Hin Hp. eapply dev_lookup; [done|rewrite Edf; apply bus_files_distinct|rewrite Edf; exact Hin|exact Hp].
  - cbn -[on_the_line lit]. by rewrite Ek, Ep, Es3, Es2, Es1, <- app_assoc.
Qed.
End Start.

(** * When the kernel panics *)

(** The handler does not panic again: it sends the text over a serial line that is free
    and answers, and shows it on a terminal that is free and works. *)
Theorem panic_reports {PS : PackedStruct} {PSok : PackedStructOk PS} {B FB} {IO : IoSpace B} {UO : UartOk B} {FBops : FrameBuffer FB} {FBok : FrameBufferOk FB}
    polls (lu lt : bool) p (b : B) (t : Terminal FB) :
  (lu = false -> line_ready polls (chip b)) -> (lt = false -> term_ok t) -> Forall (fun c => 0 <= c) (default [] p) ->
  exists b' t', panic_handler polls lu lt p b t = Ret (b', t') /\
    (lu = true -> b' = b) /\ (lt = true -> t' = t) /\ (lt = false -> term_ok t') /\
    (lu = false -> uc_sent (chip b') = uc_sent (chip b) ++ [10; 13] ++
      on_the_line (match p with Some text => lit "Ron: " ++ text | None => bad_panic end ++ [10])).
Proof.
  intros Hu Ht Hp. unfold panic_handler. set (s := default bad_panic _).
  assert (s = match p with Some text => lit "Ron: " ++ text | None => bad_panic end) as Es by by destruct p.
  assert (Forall (fun c => 0 <= c) (s ++ [10])) as Hs.
  { apply Forall_app_2; [|by apply Forall_singleton]. rewrite Es. destruct p; [apply Forall_app_2; [apply lit_nonneg|done]|apply lit_nonneg]. }
  assert (exists b', (if lu then Ret b else let! b := uart_write_str polls b uart_x86_default [10] in uart_write_str polls b uart_x86_default (s ++ [10])) = Ret b' /\
    (lu = true -> b' = b) /\ (lu = false -> uc_sent (chip b') = uc_sent (chip b) ++ [10; 13] ++ on_the_line (s ++ [10]))) as (b' & -> & Hb1 & Hb2).
  { destruct lu; [by exists b|]. destruct (uart_sends polls b [10] (Hu eq_refl)) as (b1 & -> & Hr1 & E1). cbn [obind].
    destruct (uart_sends polls b1 (s ++ [10]) Hr1) as (b2 & -> & _ & E2). exists b2. split_and!; [done|done|]. intros _. by rewrite E2, E1, <- app_assoc. }
  cbn [obind]. destruct lt.
  - exists b', t. cbn [obind]. split_and!; try done. by rewrite <- Es.
  - destruct (write_char_good t 10 (Ht eq_refl) ltac:(lia)) as (t1 & E1 & Ht1 & _). rewrite E1. cbn [obind].
    destruct (write_str_good t1 (s ++ [10]) Ht1 Hs) as (t2 & E2 & Ht2 & _). rewrite E2. exists b', t2. cbn [obind]. split_and!; try done. by rewrite <- Es.
Qed.

(** * A machine with a serial port, one drive and a keyboard *)

Record DemoPc := MkPc { pc_uart : UartChip; pc_disk : SimDrive; pc_keyboard : Controller }.
Definition set_pc_uart (c : DemoPc) (u : UartChip) : DemoPc := MkPc u (pc_disk c) (pc_keyboard c).
Definition set_pc_disk (c : DemoPc) (m : SimDrive) : DemoPc := MkPc (pc_uart c) m (pc_keyboard c).
Definition set_pc_keyboard (c : DemoPc) (k : Controller) : DemoPc := MkPc (pc_uart c) (pc_disk c) k.
Definition serial_port (port : Z) : bool := (0x3f8 <=? port) && (port <=? 0x3ff).
Definition keyboard_port (port : Z) : bool := (port =? 0x60) || (port =? 0x64).

#[export] Instance demo_pc_io : IoSpace DemoPc := {|
  port_inb c port :=
    if serial_port port then let (u, v) := port_inb (pc_uart c) port in (set_pc_uart c u, v)
    else if keyboard_port port then let (k, v) := port_inb (pc_keyboard c) port in (set_pc_keyboard c k, v)
    else let (m, v) := port_inb (pc_disk c) port in (set_pc_disk c m, v);
  port_outb c port v :=
    if serial_port port then set_pc_uart c (port_outb (pc_uart c) port v)
    else if keyboard_port port then set_pc_keyboard c (port_outb (pc_keyboard c) port v)
    else set_pc_disk c (port_outb (pc_disk c) port v);
  port_inh c port := let (m, v) := port_inh (pc_disk c) port in (set_pc_disk c m, v);
  port_outh c port v := set_pc_disk c (port_outh (pc_disk c) port v);
  load_u8 c _ := (c, 0);
  store_u8 c _ _ := c;
  load_u16 c _ := (c, 0);
  store_u16 c _ _ := c;
|}.

Lemma demo_pc_in typ (c : DemoPc) r :
  port_in (AtaPorts := bus_ports typ) c r = let (m, v) := port_in (AtaPorts := bus_ports typ) (pc_disk c) r in (set_pc_disk c m, v).
Proof. by destruct typ, r. Qed.
Lemma demo_pc_out typ (c : DemoPc) r v :
  port_out (AtaPorts := bus_ports typ) c r v = set_pc_disk c (port_out (AtaPorts := bus_ports typ) (pc_disk c) r v).
Proof. by destruct typ, r. Qed.
Lemma demo_pc_in_1 typ (c : DemoPc) r :
  (port_in (AtaPorts := bus_ports typ) c r).1 = set_pc_disk c (port_in (AtaPorts := bus_ports typ) (pc_disk c) r).1.
Proof. rewrite demo_pc_in. by destruct (port_in (pc_disk c) r). Qed.
Lemma demo_pc_in_2 typ (c : DemoPc) r :
  (port_in (AtaPorts := bus_ports typ) c r).2 = (port_in (AtaPorts := bus_ports typ) (pc_disk c) r).2.
Proof. rewrite demo_pc_in. by destruct (port_in (pc_disk c) r). Qed.
Lemma demo_pc_serial (c : DemoPc) reg v : 0 <= reg <= 7 -> port_outb c (0x3f8 + reg) v = set_pc_uart c (port_outb (pc_uart c) (0x3f8 + reg) v) /\
  port_inb c (0x3f8 + reg) = let (u, v) := port_inb (pc_uart c) (0x3f8 + reg) in (set_pc_uart c u, v).
Proof.
  intros Hr. unfold port_outb, port_inb, demo_pc_io, serial_port. rewrite (proj2 (Z.leb_le 0x3f8 (0x3f8 + reg))), (proj2 (Z.leb_le (0x3f8 + reg) 0x3ff)) by lia. done.
Qed.

#[local] Instance demo_pc_bus : AtaDriveOk DemoPc (P := bus_ports Primary) 3.
Proof.
  refine {| view c := sim_drive (pc_disk c); busy c := sim_busy (pc_disk c) |}.
  - intros c. apply (busy_bound (AtaDriveOk := one_bus_primary)).
  - intros c. rewrite demo_pc_in_1, demo_pc_in_2. apply (status_in (AtaDriveOk := one_bus_primary)).
  - intros c. apply (no_device_not_busy (AtaDriveOk := one_bus_primary)).
  - intros c d w. rewrite demo_pc_in_1, demo_pc_in_2. apply (data_in (AtaDriveOk := one_bus_primary)).
  - intros c r v d. rewrite demo_pc_out. apply (reg_out (AtaDriveOk := one_bus_primary)).
Defined.

Lemma demo_pc_empty (c : DemoPc) : (port_in (AtaPorts := bus_ports Secondary) c StatCommand).2 = 0xFF.
Proof. rewrite demo_pc_in_2. by rewrite one_bus_secondary_in. Qed.

#[export] Instance demo_pc_disks : DiskMachine DemoPc 3.
Proof.
  refine {| bus_ok typ := match typ with Primary => inl demo_pc_bus | Secondary => inr demo_pc_empty end |}; intros [] [] c r; try done.
  - intros _. rewrite demo_pc_in_1. by rewrite one_bus_secondary_in.
  - intros v _. rewrite demo_pc_out. by rewrite one_bus_secondary_out.
Defined.

#[export] Instance demo_pc_uart : UartOk DemoPc.
Proof.
  refine {| chip c := chip (pc_uart c) |}; intros c reg; [intros v|]; intros Hr; pose proof (demo_pc_serial c reg 0 Hr) as [E1 E2].
  - rewrite (proj1 (demo_pc_serial c reg v Hr)). by apply (chip_out (pc_uart c)).
  - rewrite E2. pose proof (chip_in (pc_uart c) reg Hr) as H. by destruct (port_inb (pc_uart c) _).
Defined.

#[export] Instance demo_pc_ps2 : Ps2Ok DemoPc.
Proof.
  refine {| controller := pc_keyboard |}; intros c port; [|intros v]; intros [-> | ->]; simpl; try done.
  - by destruct (ct_in (pc_keyboard c) 0x60).
Defined.

#[export] Instance demo_pc_machine : BootMachine DemoPc 3.
Proof.
  split.
  - intros c reg v Hr. rewrite (proj1 (demo_pc_serial c reg v Hr)). split; [by intros []|done].
  - intros c reg Hr. rewrite (proj2 (demo_pc_serial c reg 0 Hr)). destruct (port_inb (pc_uart c) _). split; [by intros []|done].
  - intros typ c r v. by rewrite demo_pc_out.
  - intros typ c r. by rewrite demo_pc_in_1.
  - done.
  - done.
Defined.

(** The device folder alone, with files that are not read. *)
#[export] Instance demo_dev_fs : FileSystem (DevFS DiskFile) DiskFile unit := {|
  file_read _ _ _ _ := Ret None;
  file_write w _ _ _ := Ret (w, None);
  get_size _ _ := Ret 0;
  resize_file w _ _ := Ret (w, None);
  get_children w _ := Ret (devfs_children w);
  create_empty_child w _ _ _ := Ret (w, None);
  unlink_or_delete_empty_child w _ _ := Ret (w, None);
|}.

(** The loader's name is the only tag, so that the screen is the VGA card's. *)
Definition pc_tags : list Tag := [MkTag 2 17 [0x42555247; 0x30322e32; 0; 0]].
Definition pc_memory (a : Z) : Z := default 0 (info pc_tags !! Z.to_nat ((a - 0x10000) / 4)).
Definition pc_chip : UartChip := MkChip 0 0 (12, 0) 0 0 0 0 [] [].

Definition start_pc : DemoPc := MkPc pc_chip boot_drives (MkController [(2%nat, 0x1C); (1%nat, 0x9C)] 2 true).

Lemma start_buses_good typ : bus_good typ start_pc.
Proof. destruct typ; split; try done. intros d [= <-]. split; [reflexivity|]. intros [] k [= <-]. exact boot_disk_good. Qed.

Lemma kernel_starts_witness : exists st : Started (M := bool) (F := DiskFile),
  boot (PS := reference_packed_struct) (0..=1) (4..=5) (6..=7) 3 id () true demo_machine start_pc pc_memory 0x36d76289 0x10000 [0x1C; 0x9C] = Ret st /\
  vfs_lookup (F := DiskFile) (sh_devices (st_shell st)) (MkPath (lit "/dev/hdap1")) = Ret (Some (File (PartFile Primary MASTER (MkPartition 512 512 PART_0)))).
Proof.
  destruct (kernel_starts (PS := reference_packed_struct) (id : DevFS DiskFile -> DevFS DiskFile) () id (0..=1) (4..=5) (6..=7) true demo_machine start_pc
    pc_memory 0x10000 pc_tags true None) as (st & E & G).
  - by right.
  - by right.
  - simpl. lia.
  - by intros dev.
  - apply Forall_singleton. split; simpl; [lia|done|repeat (apply Forall_cons_2; [done|]); by apply Forall_nil|done|done].
  - intros k w H. unfold pc_memory. replace (Z.to_nat ((0x10000 + 4 * Z.of_nat k - 0x10000) / 4)) with k; [by rewrite H|].
    replace (0x10000 + 4 * Z.of_nat k - 0x10000) with (Z.of_nat k * 4) by lia. rewrite Z.div_mul by done. lia.
  - reflexivity.
  - reflexivity.
  - done.
  - simpl. lia.
  - simpl. lia.
  - simpl. lia.
  - exact (start_buses_good Primary).
  - exact (start_buses_good Secondary).
  - exists st. split; [exact E|]. eapply (start_files _ _ _ _ G); [|reflexivity]. vm_compute. apply list_elem_of_further, list_elem_of_here.
Defined.
