(* ===== verification/SyscallQuiet.v ===== *)
(** What system calls leave alone: the identity of the calling process and, but
    for [fork], the task tables.  This discharges what the scheduler relies on
    when it lets a process run ([ProcTickOk]) for the emulator with the kernel's
    system calls. *)
From S2P Require Import Prelude MachineInt Str Path Vfs Keyboard CharDevice Terminal PackedStruct RiscvInst EmulatorMemory VirtMem Allocator Scheduler SchedInvariant SchedTheorems Cpu Elf Loader FdTable Heap Kernel FileCalls Exec Syscall.
From stdpp Require Import list gmap.
#[local] Open Scope Z_scope.

(** * The data of the process *)

(** [pd'] is [pd] after a step that keeps its pids and makes no parentless
    zombie. *)
Record quiet_data {N P} (pd pd' : ProcessData N P) : Prop := {
  qd_pid : pd_pid pd' = pd_pid pd;
  qd_parent : pd_parent_pid pd' = pd_parent_pid pd;
  qd_zombie : zombie (pd_state pd') = true -> zombie (pd_state pd) = true \/ pd_parent_pid pd <> None;
}.

Lemma quiet_data_refl {N P} (pd : ProcessData N P) : quiet_data pd pd.
Proof. split; auto. Qed.

Lemma quiet_data_trans {N P} (a b c : ProcessData N P) : quiet_data a b -> quiet_data b c -> quiet_data a c.
Proof. intros [] []. split; [congruence..|]. intros H. destruct (qd_zombie1 H) as [?|E]; [auto|]. right. congruence. Qed.

Lemma quiet_data_state {N P} (pd pd' : ProcessData N P) :
  pd_pid pd' = pd_pid pd -> pd_parent_pid pd' = pd_parent_pid pd -> pd_state pd' = pd_state pd -> quiet_data pd pd'.
Proof. intros ? ? E. split; [done..|]. rewrite E. auto. Qed.

Lemma quiet_exit {N P} (pd : ProcessData N P) c : quiet_data pd (exit pd c).
Proof. unfold exit. destruct (pd_parent_pid pd) eqn:E; split; simpl; try done. intros _. right. congruence. Qed.

Section Fds.
Context {N P : Type}.
Implicit Types pd : ProcessData N P.

Lemma quiet_close pd ps fd pd' ps' r : close pd ps fd = Ret (pd', ps', r) -> quiet_data pd pd'.
Proof.
  unfold close. destruct (get_mapping pd fd); intros H; [|simplify_eq; apply quiet_data_refl].
  inv_outcome. simplify_eq. by apply quiet_data_state.
Qed.

Lemma quiet_add_reference pd ps m pd' ps' : add_reference pd ps m = Ret (pd', ps') -> quiet_data pd pd'.
Proof. unfold add_reference. intros H. destruct m; inv_outcome; simplify_eq; by apply quiet_data_state. Qed.

Lemma quiet_dup pd ps fd pd' ps' r : dup pd ps fd = Ret (pd', ps', r) -> quiet_data pd pd'.
Proof.
  unfold dup. destruct (get_mapping pd fd) as [m|]; intros H; [|simplify_eq; apply quiet_data_refl].
  apply obind_Ret in H as ([pd1 ps1] & H1%quiet_add_reference & H). destruct (put_slot _ _). simplify_eq.
  eapply quiet_data_trans; [done|]. by apply quiet_data_state.
Qed.

Lemma quiet_dup2 pd ps a b pd' ps' r : dup2 pd ps a b = Ret (pd', ps', r) -> quiet_data pd pd'.
Proof.
  unfold dup2. destruct (get_mapping pd a) as [m|]; intros H; [|simplify_eq; apply quiet_data_refl].
  apply obind_Ret in H as ([[pd1 ps1] ?] & H1%quiet_close & H).
  apply obind_Ret in H as ([pd2 ps2] & H2%quiet_add_reference & H).
  destruct (Nat.ltb b _); [|done]. simplify_eq.
  do 2 (eapply quiet_data_trans; [eassumption|]). by apply quiet_data_state.
Qed.

Lemma quiet_pipe m pd ps fds m' pd' ps' r : pipe m pd ps fds = Ret (m', pd', ps', r) -> quiet_data pd pd'.
Proof.
  unfold pipe. intros H. apply obind_Ret in H as ([info|] & _ & H); [|simplify_eq; apply quiet_data_refl].
  destruct (put_slot (fd_mappings pd) _) as [l i]. destruct (put_slot l _) as [l' j].
  inv_outcome. simplify_eq. by apply quiet_data_state.
Qed.

Lemma quiet_read_pipe pd ps i n pd' ps' bytes r : read_pipe pd ps i n = Ret (pd', ps', bytes, r) -> quiet_data pd pd'.
Proof.
  unfold read_pipe. intros H. apply obind_Ret in H as (p & _ & H).
  destruct (_ =? 0)%nat; [destruct (writers_count p =? 0)%nat|]; simplify_eq; (apply quiet_data_refl || by split).
Qed.

End Fds.

(** * The calls *)

Section Quiet.
Context {PS : PackedStruct}.
Context {W F D FB : Type} {FS : FileSystem W F D} {FBops : FrameBuffer FB}.
Implicit Types k : Call W F D FB.

Record quiet k k' : Prop := {
  q_data : quiet_data (c_data k) (c_data k');
  q_tasks : same_tasks (c_globals k) (c_globals k');
}.

Lemma same_tasks_refl {X Y} (g : Globals (X := X) (D := Y)) : same_tasks g g.
Proof. done. Qed.

Lemma quiet_refl k : quiet k k.
Proof. split; [apply quiet_data_refl|done]. Qed.

Lemma quiet_trans k1 k2 k3 : quiet k1 k2 -> quiet k2 k3 -> quiet k1 k3.
Proof.
  intros [H1 [E1 E2 E3]] [H2 [F1 F2 F3]]. split; [by eapply quiet_data_trans|]. split; congruence.
Qed.

Lemma quiet_set_emu k e : quiet k (set_emu k e).
Proof. split; [apply quiet_data_refl|done]. Qed.
Lemma quiet_set_memory k m : quiet k (set_call_memory k m).
Proof. apply quiet_set_emu. Qed.
Lemma quiet_set_pipes k ps : quiet k (set_call_pipes k ps).
Proof. split; [apply quiet_data_refl|done]. Qed.
Lemma quiet_set_devices k d : quiet k (set_call_devices k d).
Proof. split; [apply quiet_data_refl|done]. Qed.
Lemma quiet_set_fs k w : quiet k (set_call_fs k w).
Proof. apply quiet_set_devices. Qed.
Lemma quiet_set_data k pd : quiet_data (c_data k) pd -> quiet k (set_data k pd).
Proof. intros H. by split. Qed.

(** A call that returns [k'] is quiet: closes the leaves of a case analysis. *)
Ltac quiet_leaf :=
  simplify_eq;
  first [ apply quiet_refl
        | repeat first [ assumption
                       | (eapply quiet_trans; [|solve [apply quiet_set_emu | apply quiet_set_memory | apply quiet_set_pipes
                            | apply quiet_set_fs | apply quiet_set_devices ]])
                       | (eapply quiet_trans; [|apply quiet_set_data; solve [by apply quiet_data_state | by split | apply quiet_exit ]])
                       | apply quiet_refl ] ].
Ltac quiet_step H :=
  match type of H with
  | obind _ _ = Ret _ => apply obind_Ret in H as (? & ? & H)
  | match ?x with _ => _ end = Ret _ => destruct x eqn:?
  | Ret _ = Ret _ => quiet_leaf
  | Panic = Ret _ => discriminate H
  end.

Lemma quiet_write_file k i node f buf k' r : write_file k i node f buf = Ret (k', r) -> quiet k k'.
Proof.
  unfold write_file. intros H. repeat quiet_step H.
Qed.

Lemma quiet_write k fd p n k' r : write k fd p n = Ret (k', r) -> quiet k k'.
Proof.
  unfold write, write_buf. intros H. repeat quiet_step H. by eapply quiet_write_file.
Qed.

Lemma quiet_read k fd p n k' r : read k fd p n = Ret (k', r) -> quiet k k'.
Proof.
  unfold read. intros H. repeat quiet_step H. apply quiet_set_data. by eapply quiet_read_pipe.
Qed.

Lemma quiet_open k p flags k' r : open k p flags = Ret (k', r) -> quiet k k'.
Proof. unfold open. intros H. repeat quiet_step H. Qed.

Lemma quiet_lseek k fd off whence k' r : lseek k fd off whence = Ret (k', r) -> quiet k k'.
Proof. unfold lseek. intros H. repeat quiet_step H. Qed.

Lemma quiet_getcwd k p n k' r : getcwd k p n = Ret (k', r) -> quiet k k'.
Proof. unfold getcwd. intros H. repeat quiet_step H. Qed.

Lemma quiet_fchdir k fd k' r : fchdir k fd = Ret (k', r) -> quiet k k'.
Proof. unfold fchdir. intros H. repeat quiet_step H. Qed.

Lemma quiet_getenv k p k' r : getenv k p = Ret (k', r) -> quiet k k'.
Proof. unfold getenv. intros H. repeat quiet_step H. Qed.

Lemma quiet_waitpid k p ws o k' r : waitpid k p ws o = Ret (k', r) -> quiet k k'.
Proof. unfold waitpid. intros H. repeat quiet_step H. Qed.

Lemma quiet_replace k elf bytes args envs k' r : replace_program k elf bytes args envs = Ret (k', r) -> quiet k k'.
Proof.
  intros (emu & a & [[_ [e ->]]|[_ ->]])%replace_program_effect; (eapply quiet_trans; [apply (quiet_set_emu k emu)|apply quiet_set_data]).
  - by apply quiet_data_state.
  - eapply quiet_data_trans; [|apply quiet_exit]. by apply quiet_data_state.
Qed.

Lemma quiet_exec_at n k node path args envs k' r : exec_at n k node path args envs = Ret (k', r) -> quiet k k'.
Proof.
  revert node path args. induction n as [|n IH]; intros node path args H; cbn [exec_at] in H; [quiet_leaf|].
  repeat quiet_step H; [by eapply quiet_replace|by eapply IH].
Qed.

Lemma quiet_exec_with k node path argv envp k' r : exec_with k node path argv envp = Ret (k', r) -> quiet k k'.
Proof. unfold exec_with. intros H. repeat quiet_step H. by eapply quiet_exec_at. Qed.

Lemma quiet_fexecve k fd argv envp k' r : fexecve k fd argv envp = Ret (k', r) -> quiet k k'.
Proof. unfold fexecve. intros H. repeat quiet_step H. by eapply quiet_exec_with. Qed.

Lemma quiet_execve k p argv envp k' r : execve k p argv envp = Ret (k', r) -> quiet k k'.
Proof. unfold execve. intros H. repeat quiet_step H. by eapply quiet_exec_with. Qed.

Lemma quiet_execvpe k p argv envp k' r : execvpe k p argv envp = Ret (k', r) -> quiet k k'.
Proof.
  unfold execvpe. intros H. apply obind_Ret in H as ([file|] & _ & H); [|quiet_leaf].
  apply obind_Ret in H as (direct & _ & H). apply obind_Ret in H as ([[path node]|] & _ & H); [|quiet_leaf].
  apply obind_Ret in H as (p' & _ & H). by eapply quiet_exec_with.
Qed.

(** * The entry point *)

(** The task tables are unchanged, or one task was added. *)
Record calm k k' : Prop := {
  cm_data : quiet_data (c_data k) (c_data k');
  cm_tasks : same_tasks (c_globals k) (c_globals k') \/
    exists c, parent_ok c /\ same_tasks (new_task (c_globals k) c).1 (c_globals k');
}.

Lemma quiet_calm k k' : quiet k k' -> calm k k'.
Proof. intros []. split; auto. Qed.

Lemma calm_quiet k1 k2 k3 : calm k1 k2 -> quiet k2 k3 -> calm k1 k3.
Proof.
  intros [H1 H2] [H3 [E1 E2 E3]]. split; [by eapply quiet_data_trans|].
  destruct H2 as [[F1 F2 F3]|(c & Hc & [F1 F2 F3])]; [left; split; congruence|].
  right. exists c. split; [done|]. split; congruence.
Qed.

Lemma calm_fork k k' r : fork k = Ret (k', r) -> calm k k'.
Proof.
  unfold fork. intros H.
  assert (forall ps, (let (g, n) := new_task (set_pipes (c_globals k) ps) (process_new (c_emu k)
    (set_pd_state (set_parent (c_data k) (pd_pid (c_data k))) RUNNING_NEW_CHILD_JUST_FORKED)) in
    Ret (set_globals k g, Z.of_nat n)) = Ret (k', r) -> calm k k') as Hf.
  { intros ps. simpl. intros [= <- _]. split; [apply quiet_data_refl|]. right.
    eexists (process_new _ _). split; [|done]. done. }
  destruct (pd_state (c_data k));
    try (apply obind_Ret in H as (ps & _ & H); by apply (Hf ps)).
  simplify_eq. apply quiet_calm, quiet_set_data. by split.
Qed.

Lemma calm_return_value r k k' a :
  (forall k1 v, r = Ret (k1, v) -> calm k k1) -> return_value r = Ret (k', a) -> calm k k'.
Proof.
  intros Hr H. unfold return_value in H. apply obind_Ret in H as ([k1 v] & H1%Hr & H).
  apply obind_Ret in H as (e & _ & H). simplify_eq. eapply calm_quiet; [done|apply quiet_set_emu].
Qed.

Lemma calm_return_or_repeat r k k' a :
  (forall k1 v, r = Ret (k1, v) -> quiet k k1) -> return_or_repeat r = Ret (k', a) -> calm k k'.
Proof.
  intros Hr H. unfold return_or_repeat in H. apply obind_Ret in H as ([k1 [v|]] & H1%Hr & H).
  - eapply calm_return_value; [|exact H]. intros k2 v2 [= <- <-]. by apply quiet_calm.
  - simplify_eq. by apply quiet_calm.
Qed.

Lemma calm_return_exec r k k' a :
  (forall k1 v, r = Ret (k1, v) -> quiet k k1) -> return_exec r = Ret (k', a) -> calm k k'.
Proof.
  intros Hr H. unfold return_exec in H. apply obind_Ret in H as ([k1 [v|v]] & H1%Hr & H).
  - simplify_eq. by apply quiet_calm.
  - eapply calm_return_value; [|exact H]. intros k2 v2 [= <- <-]. by apply quiet_calm.
Qed.

Lemma quiet_on_fds k r k' v :
  (forall pd ps v, r = Ret (pd, ps, v) -> quiet_data (c_data k) pd) -> on_fds k r = Ret (k', v) -> quiet k k'.
Proof.
  intros Hr H. unfold on_fds in H. apply obind_Ret in H as ([[pd ps] z] & H1%Hr & H). simplify_eq.
  eapply quiet_trans; [by apply quiet_set_data|apply quiet_set_pipes].
Qed.

Lemma quiet_on_heap k r k' v : on_heap k r = Ret (k', v) -> quiet k k'.
Proof.
  unfold on_heap. intros H. apply obind_Ret in H as ([[m a] z] & _ & H). simplify_eq.
  eapply quiet_trans; [apply (quiet_set_memory k m)|]. apply quiet_set_data. by apply quiet_data_state.
Qed.

Lemma quiet_call_free k p k' a : call_free k p = Ret (k', a) -> quiet k k'.
Proof.
  unfold call_free. intros H. apply obind_Ret in H as ([m al] & _ & H). simplify_eq.
  eapply quiet_trans; [apply (quiet_set_memory k m)|]. apply quiet_set_data. by apply quiet_data_state.
Qed.

Lemma quiet_call_pipe k p k' v : call_pipe k p = Ret (k', v) -> quiet k k'.
Proof.
  unfold call_pipe. intros H. apply obind_Ret in H as ([[[m pd] ps] z] & H1%quiet_pipe & H). simplify_eq.
  eapply quiet_trans; [|apply quiet_set_pipes]. eapply quiet_trans; [apply (quiet_set_memory k m)|].
  by apply quiet_set_data.
Qed.

Create HintDb quiet.
#[local] Hint Resolve quiet_calm quiet_read quiet_write quiet_open quiet_lseek quiet_getcwd quiet_fchdir quiet_getenv
  quiet_waitpid quiet_fexecve quiet_execve quiet_execvpe quiet_on_heap quiet_call_free quiet_call_pipe calm_fork
  quiet_close quiet_dup quiet_dup2 quiet_on_fds quiet_exit : quiet.

Lemma entry_point_calm k k' a : syscall_entry_point k = Ret (k', a) -> calm k k'.
Proof.
  unfold syscall_entry_point. intros H. apply obind_Ret in H as (n & _ & H).
  destruct (syscall_try_from n) as [num|]; [|simplify_eq; apply quiet_calm, quiet_refl].
  do 3 (apply obind_Ret in H as (? & _ & H)).
  destruct num;
    try (eapply calm_return_value; [|exact H]; intros; eauto 6 with quiet);
    try (eapply calm_return_or_repeat; [|exact H]; intros; eauto with quiet);
    try (eapply calm_return_exec; [|exact H]; intros; eauto with quiet);
    try (simplify_eq; apply quiet_calm; apply quiet_refl || (apply quiet_set_data, quiet_exit)).
  eauto with quiet.
Qed.

End Quiet.

(** * The tick of a process *)

Section Tick.
Context {PS : PackedStruct} {M PD : Type} `{EmulatorMemory M}.
Context (syscall : Riscv64Cpu M -> PD -> outcome (Riscv64Cpu M * PD * CpuAction)).

(** The process data changes only in a system call. *)
Lemma execute_itype_data c inst size pd c' pd' a :
  execute_itype_inst syscall c inst size pd = Ret (c', pd', a) -> pd' = pd \/ exists c1 c2 a', syscall c1 pd = Ret (c2, pd', a').
Proof.
  unfold execute_itype_inst. intros H1.
  repeat first
    [ match type of H1 with
      | obind _ _ = Ret _ => apply obind_Ret in H1 as (? & ? & H1)
      | Ret _ = Ret _ => simplify_eq; by left
      | Panic = Ret _ => discriminate H1
      | syscall _ _ = Ret _ => right; eauto
      end
    | case_match ].
Qed.

Lemma tick_data c pd c' pd' r :
  tick syscall c pd = Ret (c', pd', r) -> pd' = pd \/ exists c1 c2 a, syscall c1 pd = Ret (c2, pd', a).
Proof.
  unfold tick. intros H1. apply obind_Ret in H1 as (inst & _ & H1). apply obind_Ret in H1 as ([w|] & _ & H1); [|simplify_eq; by left].
  destruct (from_primitive _ _) as [op|]; [|simplify_eq; by left].
  apply obind_Ret in H1 as ([[[c1 pd1] a]|] & He & H1); [|simplify_eq; by left].
  assert (pd' = pd1) as ->.
  { unfold finish_tick in H1. apply obind_Ret in H1 as (c2 & _ & H1). case_decide; by simplify_eq. }
  unfold execute in He. destruct (get_type op);
    repeat match type of He with
    | otry _ _ = Ret _ => apply otry_Some in He as (? & ? & He)
    | obind _ _ = Ret _ => apply obind_Ret in He as ([] & ? & He) || apply obind_Ret in He as (? & ? & He)
    end; simplify_eq; try (by left); eauto using execute_itype_data.
Qed.

End Tick.
