(* ===== verification/KernelInvariant.v ===== *)
(** System calls and reference counts: whatever call a process makes, the counts
    of its open nodes and of the pipes stay equal to the number of descriptors
    that refer to them, and a process that waits for a pipe has its read end
    open. *)
From S2P Require Import Prelude MachineInt Str Path Vfs Keyboard CharDevice Terminal PackedStruct RiscvInst EmulatorMemory VirtMem Allocator Scheduler SchedInvariant SchedTheorems Cpu Elf Loader FdTable FdTheorems Heap Kernel FileCalls Exec Syscall SyscallQuiet.
From stdpp Require Import list gmap.
#[local] Open Scope Z_scope.

Section Counts.
Context {PS : PackedStruct}.
Context {W F D FB : Type} {FS : FileSystem W F D} {FBops : FrameBuffer FB}.
Implicit Types k : Call W F D FB.
Abbreviation PData := (ProcessData (Node F D) Path).

(** * Calls that touch no reference *)

Record similar k k' : Prop := {
  sm_fds : fd_mappings (c_data k') = fd_mappings (c_data k);
  sm_pipes : c_pipes k' = c_pipes k;
  sm_nodes : forall i, reference_count <$> slot (open_nodes (c_data k')) i = reference_count <$> slot (open_nodes (c_data k)) i;
  sm_state : forall i, pd_state (c_data k') = WAITING_FOR_READ_PIPE i -> pd_state (c_data k) = WAITING_FOR_READ_PIPE i;
}.

(** What a call must establish for the counts of the whole system. *)
Record counted others k k' : Prop := {
  ct_inv : fd_inv others (c_data k') (c_pipes k');
  ct_wait : forall i, pd_state (c_data k') = WAITING_FOR_READ_PIPE i ->
    pd_state (c_data k) = WAITING_FOR_READ_PIPE i \/ (0 < refs (PipeReadEnd i) (fd_mappings (c_data k')))%nat;
}.

Lemma similar_refl k : similar k k.
Proof. by split. Qed.

Lemma similar_trans k1 k2 k3 : similar k1 k2 -> similar k2 k3 -> similar k1 k3.
Proof. intros [A1 A2 A3 A4] [B1 B2 B3 B4]. split; [congruence..| |auto]. intros i. by rewrite B3, A3. Qed.

Lemma counted_similar others k1 k2 k3 : counted others k1 k2 -> similar k2 k3 -> counted others k1 k3.
Proof.
  intros [[H1 H2 H3] Hw] [A1 A2 A3 A4]. split.
  - split; rewrite ?A1, ?A2; [|done..]. intros i. specialize (H1 i). specialize (A3 i).
    destruct (slot (open_nodes (c_data k2)) i), (slot (open_nodes (c_data k3)) i); simpl in A3; (congruence || intuition congruence).
  - intros i E. rewrite A1. auto.
Qed.

Lemma similar_counted others k k' : fd_inv others (c_data k) (c_pipes k) -> similar k k' -> counted others k k'.
Proof. intros H. apply counted_similar. split; [done|auto]. Qed.

Lemma similar_set_emu k e : similar k (set_emu k e).
Proof. by split. Qed.
Lemma similar_set_memory k m : similar k (set_call_memory k m).
Proof. by split. Qed.
Lemma similar_set_devices k d : similar k (set_call_devices k d).
Proof. by split. Qed.
Lemma similar_set_fs k w : similar k (set_call_fs k w).
Proof. by split. Qed.
Lemma similar_set_data k pd :
  fd_mappings pd = fd_mappings (c_data k) -> open_nodes pd = open_nodes (c_data k) ->
  (forall i, pd_state pd = WAITING_FOR_READ_PIPE i -> pd_state (c_data k) = WAITING_FOR_READ_PIPE i) ->
  similar k (set_data k pd).
Proof. intros E1 E2 H. split; simpl; [done|done|by rewrite E2|done]. Qed.

(** Moving the cursor of an open node. *)
Lemma similar_set_node k i node node' :
  get_slot (open_nodes (c_data k)) i = Ret node -> reference_count node' = reference_count node ->
  similar k (set_data k (set_node (c_data k) i node')).
Proof.
  intros Hn Hr. rewrite get_slot_slot in Hn. apply unwrap_Ret in Hn.
  split; simpl; [done|done| |done]. intros j. rewrite slot_insert by by eapply slot_lt.
  destruct (decide (j = i)) as [->|]; [|done]. rewrite Hn. simpl. by rewrite Hr.
Qed.

Lemma set_node_slot k i (node : ProcessNode (Node F D) Path) :
  (exists n, get_slot (open_nodes (c_data k)) i = Ret n) -> get_slot (open_nodes (set_node (c_data k) i node)) i = Ret node.
Proof.
  intros [n Hn]. rewrite get_slot_slot in *. apply unwrap_Ret in Hn. simpl.
  rewrite slot_insert by by eapply slot_lt. by rewrite decide_True.
Qed.

Ltac sim_leaf :=
  simplify_eq;
  first [ apply similar_refl
        | repeat first [ assumption
                       | (eapply similar_trans; [|solve [apply similar_set_emu | apply similar_set_memory
                            | apply similar_set_fs | apply similar_set_devices ]])
                       | (eapply similar_trans; [|solve [by apply similar_set_data]])
                       | apply similar_refl ] ].
Ltac sim_step H :=
  match type of H with
  | obind _ _ = Ret _ => apply obind_Ret in H as (? & ? & H)
  | match ?x with _ => _ end = Ret _ => destruct x eqn:?
  | Ret _ = Ret _ => sim_leaf
  | Panic = Ret _ => discriminate H
  end.

Lemma similar_write_file k i node f buf k' r :
  get_slot (open_nodes (c_data k)) i = Ret node -> write_file k i node f buf = Ret (k', r) -> similar k k'.
Proof.
  intros Hn H. unfold write_file in H. apply obind_Ret in H as (node1 & H1 & H).
  assert (reference_count node1 = reference_count node) as Hr.
  { destruct (has_flag _ _); inv_outcome; by simplify_eq. }
  pose proof (similar_set_node k i node node1 Hn Hr) as S1. set (k1 := set_data k _) in *.
  assert (get_slot (open_nodes (c_data k1)) i = Ret node1) as Hn1 by (apply (set_node_slot k); eauto).
  apply obind_Ret in H as (last & _ & H). apply obind_Ret in H as (size & _ & H).
  apply obind_Ret in H as ([w1 [[]|]] & _ & H); [|simplify_eq; eapply similar_trans; [exact S1|apply similar_set_fs]].
  apply obind_Ret in H as ([w2 [inc|]] & _ & H).
  2:{ simplify_eq. eapply similar_trans; [exact S1|]. eapply similar_trans; apply similar_set_fs. }
  apply obind_Ret in H as (c & _ & H). simplify_eq.
  eapply similar_trans; [exact S1|]. eapply similar_trans; [apply (similar_set_fs _ w1)|].
  eapply similar_trans; [apply (similar_set_fs _ w2)|]. by eapply similar_set_node.
Qed.

Lemma similar_getcwd k p n k' r : getcwd k p n = Ret (k', r) -> similar k k'.
Proof. unfold getcwd. intros H. repeat sim_step H. Qed.
Lemma similar_fchdir k fd k' r : fchdir k fd = Ret (k', r) -> similar k k'.
Proof. unfold fchdir. intros H. repeat sim_step H. Qed.
Lemma similar_getenv k p k' r : getenv k p = Ret (k', r) -> similar k k'.
Proof. unfold getenv. intros H. repeat sim_step H. Qed.
Lemma similar_waitpid k p ws o k' r : waitpid k p ws o = Ret (k', r) -> similar k k'.
Proof. unfold waitpid. intros H. repeat sim_step H. Qed.

Lemma similar_lseek k fd off whence k' r : lseek k fd off whence = Ret (k', r) -> similar k k'.
Proof.
  unfold lseek. intros H. destruct (get_mapping _ _) as [[i|i|i| | |]|]; try (simplify_eq; apply similar_refl).
  apply obind_Ret in H as (node & Hn & H). repeat sim_step H; by eapply similar_set_node.
Qed.

Lemma similar_exit k c : similar k (set_data k (exit (c_data k) c)).
Proof. apply similar_set_data; unfold exit; by destruct (pd_parent_pid _). Qed.

Lemma similar_replace k elf bytes args envs k' r : replace_program k elf bytes args envs = Ret (k', r) -> similar k k'.
Proof.
  intros (emu & a & [[_ [e ->]]|[_ ->]])%replace_program_effect;
    (eapply similar_trans; [apply (similar_set_emu k emu)|]).
  - by apply similar_set_data.
  - apply similar_set_data; unfold exit; by destruct (pd_parent_pid _).
Qed.

Lemma similar_exec_at n k node path args envs k' r : exec_at n k node path args envs = Ret (k', r) -> similar k k'.
Proof.
  revert node path args. induction n as [|n IH]; intros node path args H; cbn [exec_at] in H; [sim_leaf|].
  repeat sim_step H; [by eapply similar_replace|by eapply IH].
Qed.

Lemma similar_exec_with k node path argv envp k' r : exec_with k node path argv envp = Ret (k', r) -> similar k k'.
Proof. unfold exec_with. intros H. repeat sim_step H. by eapply similar_exec_at. Qed.
Lemma similar_fexecve k fd argv envp k' r : fexecve k fd argv envp = Ret (k', r) -> similar k k'.
Proof. unfold fexecve. intros H. repeat sim_step H. by eapply similar_exec_with. Qed.
Lemma similar_execve k p argv envp k' r : execve k p argv envp = Ret (k', r) -> similar k k'.
Proof. unfold execve. intros H. repeat sim_step H. by eapply similar_exec_with. Qed.
Lemma similar_execvpe k p argv envp k' r : execvpe k p argv envp = Ret (k', r) -> similar k k'.
Proof.
  unfold execvpe. intros H. apply obind_Ret in H as ([file|] & _ & H); [|sim_leaf].
  apply obind_Ret in H as (direct & _ & H). apply obind_Ret in H as ([[path node]|] & _ & H); [|sim_leaf].
  apply obind_Ret in H as (p' & _ & H). by eapply similar_exec_with.
Qed.

Lemma similar_on_heap k r k' v : on_heap k r = Ret (k', v) -> similar k k'.
Proof. unfold on_heap. intros H. apply obind_Ret in H as ([[m a] z] & _ & H). sim_leaf. Qed.
Lemma similar_call_free k p k' a : call_free k p = Ret (k', a) -> similar k k'.
Proof. unfold call_free. intros H. apply obind_Ret in H as ([m al] & _ & H). sim_leaf. Qed.

(** * Calls on descriptors *)

Definition quiet_state (pd pd' : PData) : Prop := pd_state pd' = pd_state pd.

Lemma close_state (pd pd' : PData) ps fd ps' v : close pd ps fd = Ret (pd', ps', v) -> quiet_state pd pd'.
Proof.
  unfold close. destruct (get_mapping pd fd); intros H; [|by simplify_eq].
  apply obind_Ret in H as ([nodes ps1] & _ & H). by simplify_eq.
Qed.
Lemma add_reference_state (pd pd' : PData) ps m ps' : add_reference pd ps m = Ret (pd', ps') -> quiet_state pd pd'.
Proof. unfold add_reference. intros H. destruct m; inv_outcome; by simplify_eq. Qed.
Lemma dup_state (pd pd' : PData) ps fd ps' v : dup pd ps fd = Ret (pd', ps', v) -> quiet_state pd pd'.
Proof.
  unfold dup. destruct (get_mapping pd fd); intros H; [|by simplify_eq].
  apply obind_Ret in H as ([pd1 ps1] & H1%add_reference_state & H). destruct (put_slot _ _). by simplify_eq.
Qed.
Lemma dup2_state (pd pd' : PData) ps a b ps' v : dup2 pd ps a b = Ret (pd', ps', v) -> quiet_state pd pd'.
Proof.
  unfold dup2. destruct (get_mapping pd a); intros H; [|by simplify_eq].
  apply obind_Ret in H as ([[pd1 ps1] ?] & H1%close_state & H).
  apply obind_Ret in H as ([pd2 ps2] & H2%add_reference_state & H). unfold quiet_state in *.
  destruct (Nat.ltb b _); [|done]. simplify_eq. simpl. congruence.
Qed.

(** A pipe whose buffer changed. *)
Lemma pipe_counts_buf r w ps i p b :
  pipe_counts r w ps -> get_slot ps i = Ret p -> pipe_counts r w (<[i := Some (set_buf p b)]> ps).
Proof.
  intros H Hp. rewrite get_slot_slot in Hp. apply unwrap_Ret in Hp. intros j. rewrite slot_insert by by eapply slot_lt.
  destruct (decide (j = i)) as [->|]; [|apply H]. specialize (H i). by rewrite Hp in H.
Qed.

Lemma fd_inv_pipes {N P} others (pd : ProcessData N P) ps ps' :
  fd_inv others pd ps -> (forall r w, pipe_counts r w ps -> pipe_counts r w ps') -> fd_inv others pd ps'.
Proof. intros [H1 H2 H3] Hp. split; auto. Qed.

Lemma counted_write others k fd p n k' r :
  fd_inv others (c_data k) (c_pipes k) -> write k fd p n = Ret (k', r) -> counted others k k'.
Proof.
  intros H E. unfold write, write_buf in E. apply obind_Ret in E as ([buf|] & _ & E); [|simplify_eq; by apply similar_counted, similar_refl].
  destruct (get_mapping _ _) as [[i|i|i| | |]|]; try (simplify_eq; by apply similar_counted, similar_refl).
  - apply obind_Ret in E as (node & Hn & E). apply similar_counted; [done|]. repeat sim_step E. by eapply similar_write_file.
  - apply obind_Ret in E as ([ps r1] & Ew & E). simplify_eq. split; [|by left].
    apply (fd_inv_pipes _ _ (c_pipes k)); [done|]. intros rd wr Hp. unfold write_pipe in Ew.
    apply obind_Ret in Ew as (q & Hq & Ew). destruct (_ =? 0)%nat; simplify_eq; [done|]. by apply pipe_counts_buf.
  - apply similar_counted; [done|]. repeat sim_step E.
  - apply similar_counted; [done|]. repeat sim_step E.
Qed.

Lemma counted_read others k fd p n k' r :
  fd_inv others (c_data k) (c_pipes k) -> read k fd p n = Ret (k', r) -> counted others k k'.
Proof.
  intros H E. unfold read in E. apply obind_Ret in E as ([buf|] & _ & E); [|simplify_eq; by apply similar_counted, similar_refl].
  destruct (get_mapping _ _) as [[i|i|i| | |]|] eqn:Em; try (simplify_eq; by apply similar_counted, similar_refl).
  - apply obind_Ret in E as (node & Hn & E). apply similar_counted; [done|]. repeat sim_step E.
    match goal with |- similar k (set_data ?k1 _) => apply (similar_trans k k1); [apply similar_set_memory|] end.
    by eapply (similar_set_node (set_call_memory k _)).
  - apply obind_Ret in E as ([[[pd ps] bytes] r1] & Er & E). apply obind_Ret in E as (m & _ & E). simplify_eq.
    unfold read_pipe in Er. apply obind_Ret in Er as (q & Hq & Er).
    assert (fd_inv others (c_data k) (<[i := Some (set_buf q (drop (Z.to_nat n) (pipe_buf q)))]> (c_pipes k))) as H1
      by (eapply fd_inv_pipes; [done|]; intros; by apply pipe_counts_buf).
    destruct (_ =? 0)%nat; [destruct (writers_count q =? 0)%nat|]; simplify_eq; split; simpl; try done; try (by left).
    + destruct H1 as [A1 A2 A3]. by split.
    + intros j [= <-]. right. rewrite get_mapping_slot in Em. by eapply refs_slot.
  - apply similar_counted; [done|]. repeat sim_step E.
Qed.

(** Opening: the new node is counted once. *)
Lemma open_tables others (pd : PData) ps node nodes i fds fd :
  fd_inv others pd ps -> reference_count node = 1%nat ->
  put_slot (open_nodes pd) node = (nodes, i) -> put_slot (fd_mappings pd) (Regular i) = (fds, fd) ->
  fd_inv others (set_fds (set_nodes pd nodes) fds) ps.
Proof.
  intros H Hr En Ef. destruct (put_slot_spec _ _ _ _ En) as (F1 & _ & _ & F4). destruct H as [H1 H2 H3] eqn:Eh. clear Eh.
  eapply put_mapping_inv; [by split|done|]. split.
  - intros j. rewrite F4. specialize (H1 j). destruct (decide (j = i)) as [->|Hj].
    + rewrite F1 in H1. rewrite one_eq by done. lia.
    + rewrite one_ne by congruence. by rewrite Nat.add_0_r.
  - eapply pipe_counts_proper; [| |reflexivity|exact H2]; intros j; rewrite one_ne by done; lia.
Qed.

Lemma counted_open others k p flags k' r :
  fd_inv others (c_data k) (c_pipes k) -> open k p flags = Ret (k', r) -> counted others k k'.
Proof.
  intros H E. unfold open in E. apply obind_Ret in E as ([path|] & _ & E); [|simplify_eq; by apply similar_counted, similar_refl].
  apply obind_Ret in E as (cpath & _ & E). apply obind_Ret in E as ([w [node|]] & _ & E).
  - destruct (put_slot (open_nodes _) _) as [nodes i] eqn:En. destruct (put_slot (fd_mappings _) _) as [fds fd] eqn:Ef.
    simplify_eq. split; [|by left].
    exact (open_tables others (c_data k) _ (MkNode node 0 flags cpath 1) _ _ _ _ H eq_refl En Ef).
  - simplify_eq. apply similar_counted; [done|]. apply similar_set_fs.
Qed.

Lemma counted_on_fds others k r k' v :
  (forall pd ps v, r = Ret (pd, ps, v) -> fd_inv others pd ps /\ quiet_state (c_data k) pd) ->
  on_fds k r = Ret (k', v) -> counted others k k'.
Proof.
  intros Hr E. unfold on_fds in E. apply obind_Ret in E as ([[pd ps] z] & [H1 H2]%Hr & E). simplify_eq.
  split; [done|]. simpl. rewrite H2. by left.
Qed.

Lemma counted_call_pipe others k p k' v :
  fd_inv others (c_data k) (c_pipes k) -> call_pipe k p = Ret (k', v) -> counted others k k'.
Proof.
  intros H E. unfold call_pipe in E. apply obind_Ret in E as ([[[m pd] ps] z] & Ep & E). simplify_eq.
  split; simpl; [by eapply pipe_inv|]. assert (quiet_state (c_data k) pd) as ->; [|by left].
  unfold pipe in Ep. apply obind_Ret in Ep as ([info|] & _ & Ep); [|by simplify_eq].
  destruct (put_slot (fd_mappings _) _) as [t1 rfd]. destruct (put_slot t1 _) as [t2 wfd].
  apply obind_Ret in Ep as (r & _ & Ep). apply obind_Ret in Ep as (bs & _ & Ep). by simplify_eq.
Qed.

(** * The entry point *)

(** A process whose own tables are right: node counts, no trailing free
    descriptor, and an open read end when it waits for a pipe. *)
Abbreviation proc_fds p := (pr_fds (proc_rest p)).
Record proc_ok (p : Process (X := ProcRest F D)) : Prop := {
  po_nodes : node_counts (fun i => refs (Regular i) (proc_fds p)) (pr_nodes (proc_rest p));
  po_last : last (proc_fds p) <> Some None;
  po_wait : forall i, state p = WAITING_FOR_READ_PIPE i -> (0 < refs (PipeReadEnd i) (proc_fds p))%nat;
}.

(** The ends a new process adds to those the others hold. *)
Definition with_ends (others : nat -> nat * nat) (fds : list (option FdMapping)) (i : nat) : nat * nat :=
  (((others i).1 + (own_ends fds i).1)%nat, ((others i).2 + (own_ends fds i).2)%nat).

(** A call either leaves the pending tasks alone or adds a child whose descriptors
    are counted. *)
Definition effect others k k' : Prop :=
  counted others k k' /\ new_task_list (c_globals k') = new_task_list (c_globals k) \/
  exists child, new_task_list (c_globals k') = new_task_list (c_globals k) ++ [child] /\
    proc_ok child /\ counted (with_ends others (proc_fds child)) k k'.

Lemma effect_fork others k k' r :
  fd_inv others (c_data k) (c_pipes k) -> fork k = Ret (k', r) -> effect others k k'.
Proof.
  intros H E. unfold fork in E.
  assert (forall ps, fork_pipes (c_pipes k) (fd_mappings (c_data k)) = Ret ps ->
    (let (g, n) := new_task (set_pipes (c_globals k) ps) (process_new (c_emu k)
    (set_pd_state (set_parent (c_data k) (pd_pid (c_data k))) RUNNING_NEW_CHILD_JUST_FORKED)) in
    Ret (set_globals k g, Z.of_nat n)) = Ret (k', r) -> effect others k k') as Hf.
  { intros ps Ep. simpl. intros [= <- _]. right. eexists. split; [reflexivity|].
    destruct (fork_counts others (c_data k) (c_pipes k) H) as (ps' & Ep' & H'). rewrite Ep in Ep'. injection Ep' as <-.
    destruct H as [H1 H2 H3]. split; [by split|]. split; [exact H'|by left]. }
  destruct (pd_state (c_data k)) eqn:Es;
    try (apply obind_Ret in E as (ps & Ep & E); by apply (Hf ps)).
  simplify_eq. left. split; [|done]. apply similar_counted; [done|]. by apply similar_set_data.
Qed.

Lemma counted_effect others k k' :
  counted others k k' -> new_task_list (c_globals k') = new_task_list (c_globals k) -> effect others k k'.
Proof. by left. Qed.

Lemma effect_set_emu others k k' e : effect others k k' -> effect others k (set_emu k' e).
Proof.
  intros [[H E]|(c & E & Hc & H)]; [left; split; [|done]|right; exists c; split; [done|]; split; [done|]];
    (eapply counted_similar; [exact H|apply similar_set_emu]).
Qed.

Lemma effect_return_value r others k k' a :
  (forall k1 v, r = Ret (k1, v) -> effect others k k1) -> return_value r = Ret (k', a) -> effect others k k'.
Proof.
  intros Hr H. unfold return_value in H. apply obind_Ret in H as ([k1 v] & H1%Hr & H).
  apply obind_Ret in H as (e & _ & H). simplify_eq. by apply effect_set_emu.
Qed.

Lemma effect_return_or_repeat r others k k' a :
  (forall k1 v, r = Ret (k1, v) -> effect others k k1) -> return_or_repeat r = Ret (k', a) -> effect others k k'.
Proof.
  intros Hr H. unfold return_or_repeat in H. apply obind_Ret in H as ([k1 [v|]] & H1%Hr & H); [|by simplify_eq].
  eapply effect_return_value; [|exact H]. by intros k2 v2 [= <- <-].
Qed.

Lemma effect_return_exec r others k k' a :
  (forall k1 v, r = Ret (k1, v) -> effect others k k1) -> return_exec r = Ret (k', a) -> effect others k k'.
Proof.
  intros Hr H. unfold return_exec in H. apply obind_Ret in H as ([k1 [v|v]] & H1%Hr & H); [by simplify_eq|].
  eapply effect_return_value; [|exact H]. by intros k2 v2 [= <- <-].
Qed.

Lemma quiet_effect others k k' : quiet k k' -> counted others k k' -> effect others k k'.
Proof. intros [_ [_ E _]] H. by left. Qed.

Lemma similar_effect others k k' :
  fd_inv others (c_data k) (c_pipes k) -> quiet k k' -> similar k k' -> effect others k k'.
Proof. intros H Q S. apply quiet_effect; [done|]. by apply similar_counted. Qed.

Lemma effect_fds others k r k' v :
  (forall pd ps v, r = Ret (pd, ps, v) -> fd_inv others pd ps /\ quiet_data (c_data k) pd /\ quiet_state (c_data k) pd) ->
  on_fds k r = Ret (k', v) -> effect others k k'.
Proof.
  intros Hr E. apply quiet_effect.
  - eapply quiet_on_fds; [|exact E]. intros pd ps z H. apply (Hr _ _ _ H).
  - eapply counted_on_fds; [|exact E]. intros pd ps z H. split; apply (Hr _ _ _ H).
Qed.

Lemma effect_close others k fd k' v :
  fd_inv others (c_data k) (c_pipes k) -> on_fds k (close (c_data k) (c_pipes k) fd) = Ret (k', v) -> effect others k k'.
Proof.
  intros H E. eapply effect_fds; [|exact E]. intros pd ps z Hc. split_and!; eauto using quiet_close, close_state.
  destruct (close_spec others _ _ fd H) as (pd1 & ps1 & E1 & H1 & _). congruence.
Qed.

Create HintDb effect.
#[local] Hint Resolve quiet_effect similar_effect effect_close effect_fork effect_fds
  quiet_read quiet_write quiet_open quiet_lseek quiet_getcwd quiet_fchdir quiet_getenv quiet_waitpid quiet_fexecve
  quiet_execve quiet_execvpe quiet_on_heap quiet_call_free quiet_call_pipe quiet_dup quiet_dup2
  similar_lseek similar_getcwd similar_fchdir similar_getenv similar_waitpid similar_fexecve similar_execve
  similar_execvpe similar_on_heap similar_call_free counted_read counted_write counted_open counted_call_pipe
  dup_inv dup2_inv dup_state dup2_state : effect.

Lemma entry_point_effect others k k' a :
  fd_inv others (c_data k) (c_pipes k) -> syscall_entry_point k = Ret (k', a) -> effect others k k'.
Proof.
  intros Hi H. unfold syscall_entry_point in H. apply obind_Ret in H as (n & _ & H).
  destruct (syscall_try_from n) as [num|]; [|simplify_eq; apply similar_effect; auto using quiet_refl, similar_refl].
  do 3 (apply obind_Ret in H as (? & _ & H)).
  destruct num;
    try (eapply effect_return_value; [|exact H]; intros; solve [eauto 4 with effect]);
    try (eapply effect_return_or_repeat; [|exact H]; intros; solve [eauto 4 with effect]);
    try (eapply effect_return_exec; [|exact H]; intros; solve [eauto 4 with effect]).
  all: try solve [eauto 4 with effect].
  - simplify_eq. apply similar_effect; [done|apply quiet_set_data, quiet_exit|apply similar_exit].
  - eapply effect_return_value; [|exact H]. intros k1 v E1. eapply effect_fds; [|exact E1]. eauto 6 with effect.
  - eapply effect_return_value; [|exact H]. intros k1 v E1. eapply effect_fds; [|exact E1]. eauto 6 with effect.
  - simplify_eq. apply similar_effect; auto using quiet_refl, similar_refl.
Qed.

End Counts.
