(* ===== verification/KernelTheorems.v ===== *)
(** The kernel as a whole: scheduler, emulator and system calls put together.  A
    turn of the main loop keeps the task tables and the counts of every pipe and
    open node right, for all processes at once. *)
From S2P Require Import Prelude MachineInt Str Path Vfs RootFs Keyboard CharDevice Terminal PackedStruct RiscvInst EmulatorMemory VirtMem Allocator Scheduler SchedInvariant SchedTheorems Cpu Elf Loader FdTable FdTheorems Heap Kernel FileCalls FileTheorems Exec Syscall SyscallTheorems SyscallQuiet KernelInvariant.
From stdpp Require Import list gmap.
#[local] Open Scope nat_scope.

Section Kernel.
Context {PS : PackedStruct}.
Context {W F D FB : Type} {FS : FileSystem W F D} {FBops : FrameBuffer FB}.
Abbreviation Proc := (Process (X := ProcRest F D)).
Abbreviation Kernel := (Sched (X := ProcRest F D) (D := Devices W D FB)).
Implicit Types (p : Proc) (l : list (option Proc)) (s : Kernel).

(** What the scheduler relies on holds of the emulator with the kernel's system
    calls. *)
#[export] Instance process_tick_ok : ProcTickOk (process_tick (W := W) (F := F) (D := D) (FB := FB)).
Proof.
  assert (forall p (g : Globals (X := ProcRest F D) (D := Devices W D FB)) p' g' r, process_tick p g = Ret (p', g', r) ->
    exists emu pd, p' = process_new emu pd /\ (pd = process_data p /\ g' = g \/
      exists k k' a, c_data k = process_data p /\ c_globals k = g /\ c_data k' = pd /\ c_globals k' = g' /\
        syscall_entry_point k = Ret (k', a))) as H.
  { intros p g p' g' r E. unfold process_tick in E. apply obind_Ret in E as ([[emu [pd g1]] r1] & Et & E). simplify_eq.
    exists emu, pd. split; [done|]. apply tick_data in Et as [[= -> ->]|(c1 & c2 & a & Es)]; [by left|]. right.
    unfold syscall_handler in Es. apply obind_Ret in Es as ([k a'] & Ek & Es). simplify_eq.
    exists (MkCall c1 (process_data p) g), k, a. done. }
  split; intros p g p' g' r E; destruct (H _ _ _ _ _ E) as (emu & pd & -> & [[-> ->]|(k & k' & a & E1 & E2 & E3 & E4 & Hk)]).
  - by rewrite <- (process_new_data p) at 1.
  - apply entry_point_calm in Hk as [[Q1 Q2 Q3] _]. rewrite E1, E3 in *. split; [exact Q1|exact Q2|].
    unfold parent_ok. simpl. intros Hp Hz. rewrite Q2. destruct (Q3 Hz) as [Hz'|]; [by apply Hp|done].
  - by left.
  - apply entry_point_calm in Hk as [_ Ht]. by rewrite E2, E4 in Ht.
Qed.

(** * Resources of all processes *)

Abbreviation proc_fds p := (pr_fds (proc_rest p)).

(** The descriptors of all processes that refer to end [x i] of pipe [i]. *)
Definition ends (x : nat -> FdMapping) (i : nat) (o : option Proc) : nat :=
  match o with Some p => refs (x i) (proc_fds p) | None => 0 end.
Definition total (x : nat -> FdMapping) l (i : nat) : nat := sum_list_with (ends x i) l.

Record resources l (ps : list (option ProcessPipe)) : Prop := {
  res_procs : forall i p, l !! i = Some (Some p) -> proc_ok p;
  res_pipes : pipe_counts (total PipeReadEnd l) (total PipeWriteEnd l) ps;
}.

Definition others_of l (i : nat) : nat -> nat * nat :=
  fun j => (total PipeReadEnd (<[i := None]> l) j, total PipeWriteEnd (<[i := None]> l) j).

Lemma total_insert x l i o o' j : l !! i = Some o -> total x (<[i := o']> l) j + ends x j o = total x l j + ends x j o'.
Proof.
  revert i. unfold total. induction l as [|y l IH]; intros [|i] Hi; try done; simpl in *.
  - injection Hi as ->. lia.
  - specialize (IH i Hi). lia.
Qed.

Lemma total_app x l1 l2 j : total x (l1 ++ l2) j = total x l1 j + total x l2 j.
Proof. apply sum_list_with_app. Qed.

Lemma total_drain x l j : total x (drain l) j = total x l j.
Proof.
  destruct (drain_split l) as [n E]. rewrite E at 2. rewrite total_app.
  assert (total x (replicate n None) j = 0) as -> by (clear E; induction n; [done|exact IHn]). lia.
Qed.

Lemma total_split x l i p j : l !! i = Some (Some p) -> total x l j = refs (x j) (proc_fds p) + total x (<[i := None]> l) j.
Proof. intros Hi. pose proof (total_insert x l i (Some p) None j Hi) as E. simpl in E. lia. Qed.

Lemma total_set x l i p' j : i < length l -> total x (<[i := Some p']> l) j = refs (x j) (proc_fds p') + total x (<[i := None]> l) j.
Proof.
  intros Hi. rewrite (total_split x (<[i := Some p']> l) i p') by by apply list_lookup_insert_eq. by rewrite list_insert_insert_eq.
Qed.

(** The view of one process: the others' ends are given. *)
Lemma resources_view l ps i p : resources l ps -> l !! i = Some (Some p) -> fd_inv (others_of l i) (process_data p) ps.
Proof.
  intros [H1 H2] Hi. destruct (H1 i p Hi) as [A1 A2 A3]. split; [exact A1| |exact A2].
  eapply pipe_counts_proper; [| |reflexivity|exact H2]; intros j; unfold others_of; simpl;
    by rewrite (total_split _ l i p j Hi).
Qed.

Lemma resources_set l ps ps' i p' :
  resources l ps -> i < length l -> proc_ok p' ->
  pipe_counts (fun j => refs (PipeReadEnd j) (proc_fds p') + (others_of l i j).1)
    (fun j => refs (PipeWriteEnd j) (proc_fds p') + (others_of l i j).2) ps' ->
  resources (<[i := Some p']> l) ps'.
Proof.
  intros [H1 H2] Hi Hp Hc. split.
  - intros j q [(_ & [= ->] & _)|[_ Hj]]%list_lookup_insert_Some; [done|by eapply H1].
  - eapply pipe_counts_proper; [| |reflexivity|exact Hc]; intros j; by rewrite total_set.
Qed.

Lemma resources_snoc l p ps' :
  (forall i q, l !! i = Some (Some q) -> proc_ok q) -> proc_ok p ->
  pipe_counts (fun j => total PipeReadEnd l j + refs (PipeReadEnd j) (proc_fds p))
    (fun j => total PipeWriteEnd l j + refs (PipeWriteEnd j) (proc_fds p)) ps' ->
  resources (l ++ [Some p]) ps'.
Proof.
  intros H1 Hp Hc. split.
  - intros j q [Hj|[_ Hj]]%lookup_app_Some; [by eapply H1|]. by apply list_lookup_singleton_Some in Hj as [_ [= <-]].
  - eapply pipe_counts_proper; [| |reflexivity|exact Hc]; intros j; rewrite total_app; unfold total; simpl; lia.
Qed.

(** Steps that change only states, and start no wait for a pipe. *)
Definition rests p p' : Prop :=
  proc_rest p' = proc_rest p /\ forall i, state p' = WAITING_FOR_READ_PIPE i -> state p = WAITING_FOR_READ_PIPE i.
Definition rests_all l l' : Prop := Forall2 (option_Forall2 rests) l l'.

Lemma rests_refl p : rests p p.
Proof. by split. Qed.
Lemma rests_all_refl l : rests_all l l.
Proof. apply Forall_Forall2_diag, list.Forall_forall. intros [p|] _; constructor. apply rests_refl. Qed.
Lemma rests_trans p q r : rests p q -> rests q r -> rests p r.
Proof. intros [E1 H1] [E2 H2]. split; [congruence|auto]. Qed.
Lemma rests_all_trans l1 l2 l3 : rests_all l1 l2 -> rests_all l2 l3 -> rests_all l1 l3.
Proof.
  intros H. revert l3. induction H as [|o1 o2 l1 l2 H1 _ IH]; intros l3 H3; [done|].
  apply Forall2_cons_inv_l in H3 as (o3 & l & H2 & ? & ->). constructor; [|by apply IH].
  inversion H1; subst; inversion H2; subst; constructor. eauto using rests_trans.
Qed.

Lemma rests_all_insert l i p p' : l !! i = Some (Some p) -> rests p p' -> rests_all l (<[i := Some p']> l).
Proof.
  intros Hi Hp. rewrite <- (list_insert_id l i (Some p) Hi) at 1. apply Forall2_insert; [apply rests_all_refl|by constructor].
Qed.

Lemma rests_all_total x l l' j : rests_all l l' -> total x l' j = total x l j.
Proof.
  induction 1 as [|o o' l l' Ho Hl IH]; [done|]. unfold total in *. simpl. rewrite IH. f_equal.
  destruct Ho as [p p' [E _]|]; [|done]. simpl. by rewrite E.
Qed.

Lemma resources_rests l l' ps : resources l ps -> rests_all l l' -> resources l' ps.
Proof.
  intros [H1 H2] Hr. split.
  - intros i p' Hi. destruct (Forall2_lookup_r _ _ _ _ _ Hr Hi) as (o & Ho & Hop). inversion Hop as [p ? [E Hw]|]; subst.
    destruct (H1 i p Ho) as [A1 A2 A3]. split; rewrite E; auto.
  - eapply pipe_counts_proper; [| |reflexivity|exact H2]; intros j; by apply rests_all_total.
Qed.

Lemma rests_state p st : (forall i, st <> WAITING_FOR_READ_PIPE i) -> rests p (set_state p st).
Proof. intros H. split; [done|]. intros i E. by destruct (H i). Qed.

Lemma rests_signals p q : rests p (fold_left recive_signal q p).
Proof.
  revert p. induction q as [|sg q IH]; intros p; [apply rests_refl|]. simpl. eapply rests_trans; [|apply IH].
  assert (rests p (dispostion_terminate p sg)) as H.
  { unfold dispostion_terminate. destruct (negb _); [|apply rests_refl]. destruct (parent_pid p); by apply rests_state. }
  unfold recive_signal. by destruct (signal_type sg).
Qed.

(** * Turns *)

Lemma acknowledge_rests p info p' : acknowledge p = Ret (Some (info, p')) -> rests p p'.
Proof.
  unfold acknowledge. intros H. destruct (state p); try done; inv_outcome; simplify_eq; by apply rests_state.
Qed.

Lemma wait_for_any_rests l n inv info inv' l' : wait_for_any l n inv = Ret (info, inv', l') -> rests_all l l'.
Proof.
  revert inv info inv' l'. induction l as [|o l IH]; intros inv info inv' l' H; simpl in H; [simplify_eq; constructor|].
  assert (forall inv1, (let! (i, inv2, rest) := wait_for_any l n inv1 in Ret (i, inv2, o :: rest)) = Ret (info, inv', l') ->
    rests_all (o :: l) l') as Hskip.
  { intros inv1 E. apply obind_Ret in E as ([[i inv2] rest] & E1 & E). simplify_eq. constructor; [|by eapply IH].
    destruct o; constructor. apply rests_refl. }
  destruct o as [p|]; [|by eapply Hskip]. destruct (decide _); [|by eapply Hskip].
  apply obind_Ret in H as ([[wi p']|] & Ha & H); [|by eapply Hskip]. simplify_eq.
  constructor; [constructor; by eapply acknowledge_rests|apply rests_all_refl].
Qed.

Lemma wait_for_pid_rests l n c info inv l' : wait_for_pid l n c = Ret (info, inv, l') -> rests_all l l'.
Proof.
  unfold wait_for_pid. intros H. apply obind_Ret in H as (k & _ & H).
  destruct (l !! k) as [[p|]|] eqn:E; try (simplify_eq; apply rests_all_refl).
  apply obind_Ret in H as (par & _ & H). destruct (decide _); [|simplify_eq; apply rests_all_refl].
  apply obind_Ret in H as ([[wi p']|] & Ha & H); simplify_eq; [|apply rests_all_refl].
  eapply rests_all_insert; [done|by eapply acknowledge_rests].
Qed.

Lemma finish_wait_rests s i st s' :
  (forall j, st <> WAITING_FOR_READ_PIPE j) -> finish_wait s i st = Ret s' ->
  rests_all (task_list s) (task_list s') /\ globals s' = globals s.
Proof.
  intros Hst H. unfold finish_wait in H. apply obind_Ret in H as (o & Ho & H). apply obind_Ret in H as (p & Hp & H).
  inv_outcome. split; [|done]. simpl. eapply rests_all_insert; [done|by apply rests_state].
Qed.

Lemma wait_child_rests s i c s' :
  wait_child s i c = Ret s' -> rests_all (task_list s) (task_list s') /\ globals s' = globals s.
Proof.
  intros H. unfold wait_child in H. apply obind_Ret in H as ([[ch inv] l] & Hw & H).
  assert (rests_all (task_list s) l) as Hl by (destruct c; [by eapply wait_for_pid_rests|by eapply wait_for_any_rests]).
  destruct ch; [|destruct inv; [|by simplify_eq]];
    (apply finish_wait_rests in H as [H1 H2]; [|done]; split; [by eapply rests_all_trans|done]).
Qed.

Lemma kill_task_pipes (g g' : Globals (X := ProcRest F D) (D := Devices W D FB)) n sg r :
  kill_task g n sg = Ret (g', r) -> pipes g' = pipes g /\ new_task_list g' = new_task_list g.
Proof.
  unfold kill_task. intros H. apply obind_Ret in H as (i & _ & H).
  destruct (signal_queues g !! i) as [[q|]|]; by simplify_eq.
Qed.

(** A process that runs: its descriptors and those of a child it forked are
    counted. *)
Lemma process_tick_effect p g p' g' r others :
  process_tick p g = Ret (p', g', r) -> fd_inv others (process_data p) (pipes g) ->
  (forall i, state p <> WAITING_FOR_READ_PIPE i) ->
  exists others', fd_inv others' (process_data p') (pipes g') /\
    (forall i, state p' = WAITING_FOR_READ_PIPE i -> 0 < refs (PipeReadEnd i) (proc_fds p')) /\
    (others' = others /\ new_task_list g' = new_task_list g \/
     exists child, proc_ok child /\ new_task_list g' = new_task_list g ++ [child] /\
       others' = with_ends others (proc_fds child)).
Proof.
  intros E Hi Hs. unfold process_tick in E. apply obind_Ret in E as ([[emu [pd g1]] r1] & Et & E). simplify_eq.
  apply tick_data in Et as [[= -> ->]|(c1 & c2 & a & Es)].
  { exists others. split; [by destruct p as [[] ? ? ?]|]. split; [|by left]. intros i. simpl. by intros ?%Hs. }
  unfold syscall_handler in Es. apply obind_Ret in Es as ([k a'] & Ek & Es). simplify_eq. simpl.
  rewrite process_data_new_.
  destruct (entry_point_effect others (MkCall c1 (process_data p) g) k a Hi Ek) as [[[H1 H2] H3]|(child & H1 & H2 & [H3 H4])].
  - exists others. split; [done|]. split; [|by left]. intros i Hst. destruct (H2 i Hst) as [?%Hs|]; done.
  - exists (with_ends others (proc_fds child)). split; [done|]. split; [|right; by exists child].
    intros i Hst. destruct (H4 i Hst) as [?%Hs|]; done.
Qed.

(** A process between turns. *)
Lemma proc_ok_of others p ps :
  fd_inv others (process_data p) ps ->
  (forall i, state p = WAITING_FOR_READ_PIPE i -> 0 < refs (PipeReadEnd i) (proc_fds p)) -> proc_ok p.
Proof. intros [H1 _ H3] Hw. by split. Qed.

Lemma run_task_resources s i p s' :
  resources (task_list s) (pipes (globals s)) -> new_task_list (globals s) = [] ->
  task_list s !! i = Some (Some p) -> (forall j, state p <> WAITING_FOR_READ_PIPE j) ->
  run_task process_tick s i p = Ret s' -> resources (task_list s') (pipes (globals s')).
Proof.
  intros H N Hi Hs E. unfold run_task in E. apply obind_Ret in E as ([[p' g1] r] & Et & E).
  apply obind_Ret in E as (g2 & Eg & E). injection E as <-. rewrite move_tasks. cbn [task_list globals].
  assert (pipes g2 = pipes g1 /\ new_task_list g2 = new_task_list g1) as [E1 E2].
  { destruct r; [by inv_outcome|]. apply obind_Ret in Eg as ([g3 ?] & Ek & Eg). inv_outcome. by eapply kill_task_pipes. }
  change (pipes (globals (move_new_tasks_into_list (MkSched (<[i := Some p']> (task_list s)) g2)))) with (pipes g2).
  rewrite E1, E2. pose proof (resources_view _ _ _ _ H Hi) as Hv. pose proof (lookup_lt_Some _ _ _ Hi) as Hl.
  destruct (process_tick_effect _ _ _ _ _ _ Et Hv Hs) as (others' & H1 & Hw & Hcase).
  assert (proc_ok p') as Hp by by eapply proc_ok_of. destruct H1 as [_ H1 _].
  destruct Hcase as [[-> ->]|(child & Hc & -> & ->)]; rewrite N; simpl.
  - rewrite app_nil_r. by eapply resources_set.
  - apply resources_snoc; [|done|].
    + intros j q [(_ & [= ->] & _)|[_ Hj]]%list_lookup_insert_Some; [done|by eapply (res_procs _ _ H)].
    + eapply pipe_counts_proper; [| |reflexivity|exact H1]; intros j; rewrite total_set by done; simpl; lia.
Qed.

Lemma deallocate_resources s i p s' :
  resources (task_list s) (pipes (globals s)) -> task_list s !! i = Some (Some p) ->
  deallocate process_drop s i p = Ret s' -> resources (task_list s') (pipes (globals s')).
Proof.
  intros H Hi E. unfold deallocate in E. apply obind_Ret in E as (ps & Ed & E).
  destruct (drop_counts _ _ _ (resources_view _ _ _ _ H Hi)) as (ps' & Ed' & Hp). unfold process_drop in Ed.
  rewrite Ed in Ed'. injection Ed' as <-. destruct (decide _); [|done]. injection E as <-. cbn [task_list globals pipes set_signals set_pipes].
  split.
  - intros j q Hj. rewrite drain_lookup in Hj. apply list_lookup_insert_Some in Hj as [(_ & ? & _)|[_ Hj]]; [done|].
    by eapply (res_procs _ _ H).
  - eapply pipe_counts_proper; [| |reflexivity|exact Hp]; intros j; rewrite total_drain; done.
Qed.

(** A turn keeps the counts of all processes. *)
Lemma turn_resources s i s' :
  turn_pre s i -> resources (task_list s) (pipes (globals s)) ->
  tick_task process_tick process_drop s i = Ret s' -> resources (task_list s') (pipes (globals s')).
Proof.
  intros (T & N & L & Hl) H E. unfold tick_task in E.
  destruct (lookup_lt_is_Some_2 _ _ Hl) as [[p|] Hi]; rewrite Hi in E; simpl in E; [|by inv_outcome].
  destruct (deliver_spec s i p T Hi) as (q & Hq & Ed). rewrite Ed in E. simpl in E.
  set (p1 := fold_left recive_signal q p) in *. set (s1 := MkSched _ _) in *.
  assert (task_list s1 !! i = Some (Some p1)) as Hi1 by by apply list_lookup_insert_eq.
  assert (resources (task_list s1) (pipes (globals s1))) as H1.
  { eapply resources_rests; [exact H|]. eapply rests_all_insert; [done|]. apply rests_signals. }
  assert (forall st, (forall j, st <> WAITING_FOR_READ_PIPE j) ->
    resources (task_list (set_task s1 i (Some (set_state p1 st)))) (pipes (globals s1))) as Hset.
  { intros st Hst. eapply resources_rests; [exact H1|]. eapply rests_all_insert; [done|]. by apply rests_state. }
  assert (forall st, (forall j, st <> WAITING_FOR_READ_PIPE j) -> orphan s1 i p1 st = Ret s' ->
    resources (task_list s') (pipes (globals s'))) as Horph.
  { intros st Hst Eo. unfold orphan in Eo. apply obind_Ret in Eo as (b & _ & Eo). destruct (negb b); inv_outcome; [by apply Hset|done]. }
  destruct (state p1) eqn:Es; try (eapply Horph; [|exact E]; done); try (by eapply deallocate_resources);
    try (eapply run_task_resources; [exact H1|exact N|exact Hi1|by rewrite Es|exact E]).
  - apply wait_child_rests in E as [Hr Eg]. rewrite Eg. by eapply resources_rests.
  - unfold wait_pipe in E. apply obind_Ret in E as (o & _ & E). apply obind_Ret in E as (pp & _ & E).
    destruct (_ || _); inv_outcome; [by apply Hset|done].
Qed.

(** * The main loop *)

(** The state of the kernel between two turns of its main loop: the task tables are
    consistent, and the counts of all pipes and open nodes are right. *)
Definition kernel_ok s : Prop :=
  sched_ready s /\ resources (task_list s ++ map Some (rev (new_task_list (globals s)))) (pipes (globals s)).

(** The two reasons for a panic: the tick of a process itself, and a wait for the
    pid 0 or for a process that was started by no other. *)
Definition kernel_turn_panics s (i : nat) : Prop :=
  exists p q, task_list s !! i = Some (Some p) /\ signal_queues (globals s) !! i = Some (Some q) /\
  let p' := fold_left recive_signal q p in
  match state p' with
  | RUNNING | RUNNING_NEW_CHILD_JUST_FORKED | FINISHED_WAITING_FOR_CHILD_PROCESS _ =>
      process_tick p' (set_signals (globals s) (<[i := Some []]> (signal_queues (globals s)))) = Panic
  | WAITING_FOR_CHILD_PROCESS c => wait_panics (set_task s i (Some p')) c = true
  | _ => False
  end.

Lemma waiting_pipe_exists l ps i p k :
  resources l ps -> l !! i = Some (Some p) -> state p = WAITING_FOR_READ_PIPE k -> exists pipe, ps !! k = Some (Some pipe).
Proof.
  intros [H1 H2] Hi Hs. pose proof (po_wait p (H1 i p Hi) k Hs) as Hpos.
  destruct (pipe_exists _ _ _ k H2) as [q Hq]; [rewrite (total_split PipeReadEnd l i p k Hi); lia|].
  exists q. by apply slot_Some.
Qed.

Lemma turn_panics_kernel s i :
  resources (task_list s) (pipes (globals s)) -> turn_panics process_tick process_drop s i -> kernel_turn_panics s i.
Proof.
  intros H (p & q & Hi & Hq & Hp). exists p, q. split; [done|]. split; [done|]. cbv zeta in *.
  set (p' := fold_left recive_signal q p) in *.
  pose proof (rests_signals p q : rests p p') as Hr.
  pose proof (resources_rests _ _ _ H (rests_all_insert _ _ _ _ Hi Hr)) as H1.
  assert (<[i := Some p']> (task_list s) !! i = Some (Some p')) as Hi1
    by (apply list_lookup_insert_eq; by eapply lookup_lt_Some).
  assert (process_drop p' (pipes (globals s)) <> Panic) as Hd.
  { destruct (drop_counts _ _ _ (resources_view _ _ _ _ H1 Hi1)) as (ps' & E & _). unfold process_drop. by rewrite E. }
  destruct (state p') eqn:Es; try done.
  destruct (waiting_pipe_exists _ _ _ _ _ H1 Hi1 Es) as [pipe Hpipe]. by destruct (Hp pipe).
Qed.

Lemma kernel_loop s i n :
  sched_ok s -> new_task_list (globals s) = [] ->
  (n = 0 \/ number_of_tasks (globals s) = length (task_list s) /\ i + n <= length (task_list s)) ->
  resources (task_list s) (pipes (globals s)) ->
  match tick_loop process_tick process_drop s i n with
  | Panic => exists k s', k < n /\ tick_loop process_tick process_drop s i k = Ret s' /\ kernel_turn_panics s' (i + k)
  | Ret s' => sched_ok s' /\ new_task_list (globals s') = [] /\ resources (task_list s') (pipes (globals s'))
  end.
Proof.
  revert s i. induction n as [|n IH]; intros s i T N B R; [done|].
  destruct B as [B|[L B]]; [lia|]. assert (turn_pre s i) as P by (split_and!; done || lia).
  pose proof (turn_safe process_tick process_drop s i P) as H. pose proof (turn_resources s i) as HR.
  cbn [tick_loop]. destruct (tick_task _ _ s i) as [s1|] eqn:E; simpl.
  - destruct H as (T1 & N1 & L1). specialize (HR s1 P R eq_refl).
    assert (n = 0 \/ number_of_tasks (globals s1) = length (task_list s1) /\ S i + n <= length (task_list s1)) as B1
      by (destruct n; [by left|right]; destruct L1; lia).
    specialize (IH s1 (S i) T1 N1 B1 HR). destruct (tick_loop _ _ s1 (S i) n); [done|].
    destruct IH as (k & s' & Hk & Hl & Hp). exists (S k), s'. split; [lia|]. cbn [tick_loop]. rewrite E.
    split; [done|]. by replace (i + S k) with (S i + k) by lia.
  - exists 0, s. split; [lia|]. split; [done|]. rewrite Nat.add_0_r. by apply turn_panics_kernel.
Qed.

(** C1: a turn of the kernel's main loop, with the emulator, every system call,
    fork, exec, signals, waiting and the end of processes, keeps the kernel
    consistent: the task tables, and for all processes together the reference
    counts of open files and of both ends of every pipe.  Seen from the kernel it
    panics only inside the tick of one process, or when a process waits for the
    pid 0 or for a process without a parent; a process never waits for a pipe that
    is gone, and releasing the descriptors of a process that ended never fails. *)
Theorem kernel_tick_safe s :
  kernel_ok s ->
  match kernel_tick s with
  | Ret (s', more) => kernel_ok s' /\ (more = true <-> task_list s' <> [])
  | Panic =>
      exists k s', k < length (task_list (move_new_tasks_into_list s)) /\
        tick_loop process_tick process_drop (move_new_tasks_into_list s) 0 k = Ret s' /\ kernel_turn_panics s' k
  end.
Proof.
  intros [HS HR]. unfold kernel_tick, sched_tick.
  pose proof (kernel_loop (move_new_tasks_into_list s) 0 (length (task_list (move_new_tasks_into_list s)))
    (ready_move s HS) eq_refl ltac:(right; split; done)) as H.
  rewrite move_tasks in H at 1. specialize (H HR).
  destruct (tick_loop _ _ _ 0 _) as [s'|]; simpl; [|done]. destruct H as (T & N & R).
  split; [split; [by apply ok_ready|by rewrite N, app_nil_r]|].
  rewrite bool_decide_eq_true. destruct (task_list s'); simpl; split; try done; lia.
Qed.

End Kernel.

(** * Example *)

(** One process, with a file open, in front of an ECALL that forks. *)
Definition demo_forking : Process (X := ProcRest nat unit) :=
  process_new (MkCpu 0x1000 (<[16 := 14%Z]> (replicate 31 0%Z)) [MkRegion 0x1000 [0x73; 0; 0; 0]%Z]) demo_proc_data.
Definition demo_kernel : Sched (X := ProcRest nat unit) (D := Devices RamFs unit EfiGopMode) :=
  MkSched [Some demo_forking] demo_globals.

Lemma demo_kernel_ok : kernel_ok demo_kernel.
Proof.
  split; [apply ok_ready; [|done]|].
  - split; try done; intros i p Hi; destruct i as [|i]; simpl in Hi; try (destruct i; discriminate); by injection Hi as <-.
  - split.
    + intros i p Hi. destruct i as [|i]; simpl in Hi; [|destruct i; discriminate]. injection Hi as <-. split; [|done|done].
      intros [|i]; [split; [done|apply Nat.lt_0_1]|]. unfold slot, refs. simpl. by destruct i.
    + intros i. unfold slot. simpl. done.
Qed.

Lemma kernel_tick_safe_witness :
  exists s', kernel_tick demo_kernel = Ret (s', true) /\ kernel_ok s' /\ length (task_list s') = 2.
Proof.
  pose proof (kernel_tick_safe demo_kernel demo_kernel_ok) as H.
  assert (match kernel_tick demo_kernel with Ret (s, m) => (length (task_list s), m) | Panic => (0, false) end = (2, true)) as C
    by (vm_compute; reflexivity).
  destruct (kernel_tick demo_kernel) as [[s' more]|]; [|discriminate C]. injection C as C1 ->.
  exists s'. split; [reflexivity|]. split; [exact (proj1 H)|exact C1].
Defined.
